(* ===== verification/_CoqProject ===== *)
-Q . S2P
Prelude.v
Errno.v
LosList.v
Membox.v
MemboxInv.v
Memory.v
MemInv.v
MemBlocks.v
MemWalk.v
MemAlloc.v
MemApi.v
MemResize.v
MemPools.v
MemSpec.v
MemReport.v
BoardMem.v
Kernel.v
SysTick.v
Tick.v
SortLink.v
Sched.v
SchedInv.v
SchedTime.v
SchedSwitch.v
KernelInv.v
Waits.v
Check.v
Sem.v
Mux.v
Event.v
Queue.v
QueueInv.v
Task.v
TaskLife.v
Swtmr.v
Init.v
Calls.v
Pm.v
PmInv.v
PmSuspend.v
System.v
Board.v
BoardHeap.v
BoardTask.v
BoardSystem.v
BoardLimits.v
BoardPm.v
