(* ===== verification/Prelude.v ===== *)
(** * Verification of the LiteOS-M kernel

    The program is the kernel of OpenHarmony LiteOS-M (src/kernel) on Cortex-M4
    (src/arch/arm/cortex-m4/gcc): tasks with 32 priorities, semaphores, mutexes,
    events, message queues, software timers, a tick timer, two memory allocators,
    and the power management (src/components/power).  Its C functions are translated to executable functions in a
    state-and-fault monad ([M], below), one definition per C function with the
    name of the C function, and theorems about them are proved.

    ** The parts and how they interact

    Every waiting of a task goes through the scheduler: an operation that has to
    wait marks the running task, puts it into the wait list of the object
    ([OsSchedTaskWait]) and requests the PendSV exception; the exception
    ([ArchPendSV]) puts the task that ran where its status says and selects a
    ready task of highest priority.  The operation that ends the wait makes the
    task ready ([OsSchedTaskWake]) and requests a switch; so does the tick
    interrupt ([OsTickHandler]) for the timed waits that have expired, which are
    in a list sorted by time, and it sends a message to the timer task for each
    software timer that has expired.  All lists are intrusive doubly linked lists.
    The control blocks of the kernel come from the dynamic allocator.

    A call that may wait has the type [M Kernel (Proc A)]: it is done with a
    result, or it is blocked with the rest of the call, which runs when the task
    runs again.  Code between [LOS_IntLock] and [LOS_IntRestore] is one step; the
    masking itself is not in the state.

    ** The files

    - Prelude.v (this file): machine integers, flags, lists, the monad with its
      weakest preconditions [wp] and the frames [keeps], tactics and hints.
    - Errno.v: error codes, status bits and constants.
    - LosList.v: src/utils/los_list.h.  The memory of the nodes is a finite map;
      [Rep h m] says that memory [h] represents the sequences [m].
    - Membox.v, MemboxInv.v: src/kernel/src/mm/los_membox.c, and its proof
      against a stack of block numbers ([box_spec]).
    - Memory.v: src/kernel/src/mm/los_memory.c over a memory of words.  Its
      proofs are MemInv.v (two-level index, invariant [Pool], free lists),
      MemBlocks.v (headers, merge), MemWalk.v (split, search, traversals),
      MemAlloc.v (allocation and release of blocks), MemApi.v (the interface),
      MemResize.v (change of size, alignment), MemPools.v (initialisation and the
      list of pools), MemSpec.v (refinement of a map of regions) and MemReport.v
      (statistics and index).
    - Kernel.v: the state [Kernel] with the control blocks and global variables
      of all modules, and the class [Platform] of what a build provides.
    - SysTick.v: src/arch/arm/cortex-m4/gcc/los_timer.c over the counter's
      registers; Tick.v: src/kernel/src/los_tick.c; SortLink.v:
      src/kernel/src/los_sortlink.c; Sched.v: src/kernel/src/los_sched.c, with
      the exceptions of src/arch/arm/cortex-m4/gcc.
    - SchedInv.v, SchedTime.v, SchedSwitch.v, KernelInv.v: the invariant of the
      scheduler and of the running kernel ([SInv], [KInv]) and its preservation
      by the scheduler's operations.  [TimerLaws] is what the scheduler needs of
      a tick timer driver; SysTick.v proves it for the one of Cortex-M4.
    - Waits.v: what an operation leaves of the waits of the other tasks.
    - Sem.v, Mux.v, Event.v, Queue.v, Task.v, Swtmr.v: los_sem.c, los_mux.c,
      los_event.c, los_queue.c, los_task.c and los_swtmr.c of src/kernel/src,
      each with its invariant and theorems.
    - TaskLife.v: the pool of control blocks ([PoolInv]) and the life of a task
      in it: recycling, creation, deletion of another task and of the running one.
    - QueueInv.v: the invariant [QInv] of all queues with the tasks that wait in
      their calls or have been woken in them.
    - Init.v: src/kernel/src/los_init.c.
    - Calls.v: the calls of the tasks, the rest of a call whose task waits, and
      the invariant [SysInv] of the whole kernel; System.v: the system as a step
      relation of calls, returns of blocked calls, task switches and tick
      interrupts.
    - Pm.v: src/components/power/los_pm.c over a state [PmSys] around the kernel;
      PmInv.v: the locks against a map from names to counts ([PmOk]);
      PmSuspend.v: the modes ([mode_ok]) and the suspension.
    - Check.v: decision procedures for the invariants.
    - BoardMem.v, Board.v, BoardHeap.v, BoardTask.v, BoardSystem.v, BoardPm.v:
      concrete heaps and a concrete board, on which the kernel is started and
      called; the theorems are applied to the states reached.  In BoardHeap.v the system heap is a pool of the
      allocator of Memory.v.
    - BoardLimits.v: runs in which the code does not do what it means to.

    ** What the theorems show

    - The system: from a state that satisfies the invariants, any order of steps
      keeps them, and no next step faults or fails to end ([system_safe]).  The
      calls in it are delay, suspension, resumption, priority change, scheduler
      lock, the calls on semaphores, mutexes, events, queues and timers, the
      creation and deletion of semaphores, mutexes and timers, and the turns of
      the timer task.  [call_ok] has what a caller has to observe: objects in use,
      no waiting where the code refuses to wait, no suspension that freezes a
      timed wait ([freezes]), and no restart of a timer that fires once before
      its expiry is handled ([handle_ok]).
    - A task woken in a queue call finds the message or the slot it was woken
      for ([queue_resume_correct]).
    - The lists refine sequences ([op_refines]).
    - The scheduler: a switch selects a highest ready task ([pendsv_correct]),
      the scan of the timed waits wakes exactly the expired tasks
      ([scan_correct]), the tick interrupt ends and leaves nothing expired
      ([tick_correct]).
    - The life of a task: a creation makes the first free or finished block a
      ready task ([task_create_correct]); a deletion takes a task out of all
      lists, wakes the task that joins it and gives the block back, also when
      the running task ends ([task_delete_correct]).
    - Semaphores, mutexes with priority inheritance, events, queues as sequences
      of messages, timers, tasks: the functional behaviour of each operation on
      its branches with the errors, and the invariants kept.
    - Dynamic memory: a pool refines a map from pointers to lists of words
      ([mem_refines]); allocation, aligned allocation, release, change of size,
      initialisation and removal of pools; statistics agree with a traversal;
      bounds of the two-level index and the sizes of its lists.  Resizing is of
      regions that were allocated without an alignment.
    - Static boxes refine stacks ([membox_correct]).
    - Power management: the locks and their timers refine a map
      ([pm_lock_refines]), the selected
      mode can always be entered ([pm_mode_kept]), and the system is suspended
      only when nothing asks it to stay awake ([pm_suspend_correct]).

    ** Bounds and fuel

    - Integers are [Z] with the truncation of their C type written out.  Times
      are assumed below 2^63 cycles, which is in [TimerLaws].
    - A loop over a list carries fuel and faults when it is used up, so theorems
      that a call does not fault show that the fuel is enough: the walks of a
      pool get the number of words of the memory and one more, more than a pool
      has blocks; the scan of the timers is shown to end within a bound that the
      theorem gives, and takes its fuel as an argument, as the start of the
      scheduler does; the walks of other lists get the number of nodes.
    - Pools have 968 bytes to 2^28 bytes: below, the first node and the end node
      overlap, and from 2^29 on the index of the free lists overflows (both are
      shown in BoardMem.v).
    - Boxes are not at the addresses that look like the mark of a used block.

    ** Parameters

    [Platform] has the configuration, the tick timer driver, the system heap as
    the kernel sees it (with any results; no law is assumed), the contents of
    uninitialised memory, the initial stack and the addresses of code and
    strings.  [TimerLaws] are the laws of the driver.  [PmProduct] has the
    structures and functions that the product registers with the power
    management; [Handlers] is the contract of these functions.

    ** Not modelled

    - Task stacks, saved registers and interrupt masking: code in assembler and
      memory contents that the kernel's data do not depend on.
    - Printing, hooks and the checks of stack overflow.
    - Builds with static queues, timer alignment, signals, CPU usage, memory
      regions, expansion, leak check or node magic in the allocator.
    - Frozen tasks: the code that freezes the timed wait of a task which is
      suspended in a low-power mode is in Sched.v, but the invariant is about
      states without such tasks.
    - The suspension theorem is about products without a separate low-power
      timer; the code for such a timer is in Pm.v.  The head of the list of power
      locks is read inside the critical section, where the code reads it before.
    - The conversions of cycles in floating point, and the registration of
      another tick timer.
    - The other components, interfaces (src/kal), file systems, networks and
      architectures.
    - The step relation of System.v does not contain the creation and deletion of
      tasks and queues; the theorems on tasks are about single calls, and those on
      queues about the operations of a queue that exists. *)

From Stdlib Require Export ZArith Lia.
From stdpp Require Export prelude gmap list sorting.

#[global] Set Default Goal Selector "!".
#[global] Open Scope Z_scope.
#[global] Set Warnings "-clear-no-such-hyp".

(** ** Machine integers

    A w-bit unsigned C value is a [Z] in [[0, 2^w)]; arithmetic that can leave
    the range is followed by the truncation of its C type. *)

Definition u8 (x : Z) : Z := x mod 2 ^ 8.
Definition u16 (x : Z) : Z := x mod 2 ^ 16.
Definition u32 (x : Z) : Z := x mod 2 ^ 32.
Definition u64 (x : Z) : Z := x mod 2 ^ 64.

(** Conversion of an out-of-range value to [INT32]: two's complement. *)
Definition i32 (x : Z) : Z :=
  let y := x mod 2 ^ 32 in if y <? 2 ^ 31 then y else y - 2 ^ 32.

(** The count-leading-zeros instruction on a non-zero 32-bit word. *)
Definition CLZ (x : Z) : Z := 31 - Z.log2 x.

(** Of src/utils/los_compiler.h. *)
Definition LOS_Align (addr boundary : Z) : Z :=
  Z.ldiff (u32 (addr + (if u32 (addr + (boundary - 1)) >? addr then boundary - 1 else 0))) (boundary - 1).

Lemma u16_id x : 0 <= x < 2 ^ 16 -> u16 x = x.
Proof. apply Z.mod_small. Qed.
Lemma u32_id x : 0 <= x < 2 ^ 32 -> u32 x = x.
Proof. apply Z.mod_small. Qed.
Lemma u64_id x : 0 <= x < 2 ^ 64 -> u64 x = x.
Proof. apply Z.mod_small. Qed.
Lemma u16_range x : 0 <= u16 x < 2 ^ 16.
Proof. apply Z.mod_pos_bound; lia. Qed.
Lemma u32_range x : 0 <= u32 x < 2 ^ 32.
Proof. apply Z.mod_pos_bound; lia. Qed.
Lemma u64_range x : 0 <= u64 x < 2 ^ 64.
Proof. apply Z.mod_pos_bound; lia. Qed.
Lemma i32_id x : - 2 ^ 31 <= x < 2 ^ 31 -> i32 x = x.
Proof.
  intros H. unfold i32.
  destruct (decide (0 <= x)).
  - rewrite Z.mod_small by lia. destruct (Z.ltb_spec x (2 ^ 31)); lia.
  - replace (x mod 2 ^ 32) with (x + 2 ^ 32).
    + destruct (Z.ltb_spec (x + 2 ^ 32) (2 ^ 31)); lia.
    + apply Z.mod_unique_pos with (q := -1); lia.
Qed.

(** ** Flag words: [s & f], [s |= f], [s &= ~f] *)

Definition test (s f : Z) : bool := negb (Z.land s f =? 0).
Definition setf (f s : Z) : Z := Z.lor s f.
Definition clrf (f s : Z) : Z := Z.ldiff s f.

Lemma test_bit (s k : Z) : 0 <= k -> test s (2 ^ k) = Z.testbit s k.
Proof.
  intros Hk. unfold test.
  assert (Hl : Z.land s (2 ^ k) = if Z.testbit s k then 2 ^ k else 0).
  { apply Z.bits_inj'. intros n Hn. rewrite Z.land_spec, Z.pow2_bits_eqb by lia.
    destruct (Z.eqb_spec k n) as [<-|Hne].
    - rewrite andb_true_r. destruct (Z.testbit s k) eqn:E.
      + by rewrite Z.pow2_bits_true.
      + by rewrite Z.testbit_0_l.
    - rewrite andb_false_r. destruct (Z.testbit s k).
      + by rewrite Z.pow2_bits_false.
      + by rewrite Z.testbit_0_l. }
  rewrite Hl. destruct (Z.testbit s k); [|done].
  destruct (Z.eqb_spec (2 ^ k) 0); [|done].
  pose proof (Z.pow_pos_nonneg 2 k). lia.
Qed.

Lemma test_lor (s f g : Z) : test s (Z.lor f g) = test s f || test s g.
Proof.
  unfold test. rewrite Z.land_lor_distr_r.
  destruct (Z.eqb_spec (Z.land s f) 0) as [->|H1]; cbn.
  - by rewrite Z.lor_0_l.
  - destruct (Z.eqb_spec (Z.lor (Z.land s f) (Z.land s g)) 0) as [E|]; [|done].
    apply Z.lor_eq_0_iff in E. lia.
Qed.

Lemma setf_bit (s f k : Z) : Z.testbit (setf f s) k = Z.testbit s k || Z.testbit f k.
Proof. apply Z.lor_spec. Qed.
Lemma clrf_bit (s f k : Z) : Z.testbit (clrf f s) k = Z.testbit s k && negb (Z.testbit f k).
Proof. apply Z.ldiff_spec. Qed.

Lemma test_pow2 (s f k : Z) : 0 <= k -> f = 2 ^ k -> test s f = Z.testbit s k.
Proof. intros ? ->. by apply test_bit. Qed.

(** Normalisation of flag tests to bits: [bits] turns every [test s f] of a
    constant flag into a bit of [s], and computes the bits of [setf] and [clrf]. *)
Ltac bits_const f k :=
  let b := eval vm_compute in (Z.testbit f k) in
  lazymatch b with
  | true => change (Z.testbit f k) with true in *
  | false => change (Z.testbit f k) with false in *
  end.
Ltac bits_test s f :=
  let k := eval vm_compute in (Z.log2 f) in
  let E := fresh in
  assert (E : test s f = Z.testbit s k) by (apply test_pow2; vm_compute; congruence);
  rewrite ?E in *; clear E.
Ltac bits_step :=
  match goal with
  | |- context [test ?s (Z.lor ?f ?g)] => rewrite (test_lor s f g)
  | H : context [test ?s (Z.lor ?f ?g)] |- _ => rewrite (test_lor s f g) in H
  | |- context [Z.testbit (setf ?f ?s) ?k] => rewrite (setf_bit s f k); bits_const f k
  | H : context [Z.testbit (setf ?f ?s) ?k] |- _ => rewrite (setf_bit s f k) in H; bits_const f k
  | |- context [Z.testbit (clrf ?f ?s) ?k] => rewrite (clrf_bit s f k); bits_const f k
  | H : context [Z.testbit (clrf ?f ?s) ?k] |- _ => rewrite (clrf_bit s f k) in H; bits_const f k
  | |- context [test ?s ?f] => bits_test s f
  | H : context [test ?s ?f] |- _ => bits_test s f
  end.
Ltac bits :=
  repeat bits_step;
  rewrite ?orb_false_r, ?orb_true_r, ?andb_true_r, ?andb_false_r in *;
  cbn [negb andb orb] in *;
  rewrite ?orb_false_r, ?orb_true_r, ?andb_true_r, ?andb_false_r in *.

(** ** Generic lemmas on lists *)

Lemma list_snoc_case {A} (l : list A) : l = [] \/ ∃ l' x, l = l' ++ [x].
Proof. induction l using rev_ind; eauto. Qed.

Lemma list_insert_same {A} (l : list A) (i : nat) (x : A) :
  l !! i = Some x -> <[i := x]> l = l.
Proof. apply list_insert_id. Qed.

(** Removal of every occurrence of an element. *)
Definition list_remove_all {A} `{EqDecision A} (x : A) (l : list A) : list A :=
  filter (λ y, y ≠ x) l.

Lemma list_remove_all_notin {A} `{EqDecision A} (x : A) (l : list A) :
  x ∉ l -> list_remove_all x l = l.
Proof.
  intros H. unfold list_remove_all. induction l as [|y l IH]; [done|].
  rewrite filter_cons, decide_True; [|set_solver]. f_equal. set_solver.
Qed.

Lemma list_remove_all_mid {A} `{EqDecision A} (x : A) (l1 l2 : list A) :
  NoDup (l1 ++ x :: l2) -> list_remove_all x (l1 ++ x :: l2) = l1 ++ l2.
Proof.
  intros H. apply NoDup_app in H as (H1 & H2 & H3).
  apply NoDup_cons in H3 as [H3 H4]. unfold list_remove_all.
  rewrite filter_app, filter_cons, decide_False by naive_solver.
  f_equal; apply list_remove_all_notin; set_solver.
Qed.

Lemma list_remove_all_head {A} `{EqDecision A} (x : A) (l : list A) :
  NoDup (x :: l) -> list_remove_all x (x :: l) = l.
Proof. apply (list_remove_all_mid x []). Qed.

Lemma elem_of_list_remove_all {A} `{EqDecision A} (x y : A) (l : list A) :
  y ∈ list_remove_all x l <-> y ∈ l /\ y <> x.
Proof. unfold list_remove_all. rewrite list_elem_of_filter. clear; firstorder. Qed.

Lemma NoDup_list_remove_all {A} `{EqDecision A} (x : A) (l : list A) :
  NoDup l -> NoDup (list_remove_all x l).
Proof. apply NoDup_filter. Qed.

Lemma alter_as_insert `{Countable K} {A} (f : A -> A) (i : K) (m : gmap K A) (x : A) :
  m !! i = Some x -> alter f i m = <[i := f x]> m.
Proof.
  intros Hx. apply map_eq. intros j. rewrite lookup_alter, lookup_insert. case_decide; [|done].
  subst. by rewrite Hx.
Qed.

(** ** Generic lemmas on memories *)

Lemma insert_dom (W : gmap Z Z) (x y v : Z) : is_Some (W !! x) -> is_Some (<[y := v]> W !! x).
Proof. intros H. rewrite lookup_insert. by case_decide. Qed.

Lemma nodup_size (l : list Z) (W : gmap Z Z) : NoDup l -> (∀ x, x ∈ l -> is_Some (W !! x)) -> (length l <= size W)%nat.
Proof.
  intros Hnd Hl. rewrite <- size_dom, <- (size_list_to_set (C := gset Z) l) by done. apply subseteq_size.
  intros x. rewrite elem_of_list_to_set. intros Hx. by apply elem_of_dom, Hl.
Qed.

(** ** The state-and-fault monad

    [M S A] is a C function over the state [S]: [None] is a fault, that is the
    dereference of a null pointer, an access outside an object, a failed
    assertion or a call of the kernel's panic routine. *)

Definition M (S A : Type) : Type := S -> option (A * S).

#[global] Instance M_ret S : MRet (M S) := λ A x s, Some (x, s).
#[global] Instance M_bind S : MBind (M S) := λ A B f m s,
  match m s with Some (a, s') => f a s' | None => None end.

Definition fault {S A} : M S A := λ _, None.
Definition gets {S A} (f : S -> A) : M S A := λ s, Some (f s, s).
Definition modify {S} (f : S -> S) : M S unit := λ s, Some (tt, f s).
Definition of_option {S A} (o : option A) : M S A := λ s,
  match o with Some a => Some (a, s) | None => None end.
(** [if (b) { m }] *)
Definition when {S} (b : bool) (m : M S unit) : M S unit := if b then m else mret tt.
(** [LOS_ASSERT(b)] *)
Definition assert {S} (b : bool) : M S unit := if b then mret tt else fault.
(** Run a computation on a component of the state. *)
Definition zoom {S T A} (get : S -> T) (put : (T -> T) -> S -> S) (m : M T A) : M S A := λ s,
  match m (get s) with Some (a, t) => Some (a, put (λ _, t) s) | None => None end.

Declare Scope los_scope.
Delimit Scope los_scope with los.
Notation "'let*' x ':=' m 'in' k" := (mbind (λ x, k) m)
  (at level 10, x pattern, m at level 100, k at level 200) : los_scope.
Notation "m ;;; k" := (mbind (λ _ : unit, k) m)
  (at level 100, k at level 200, right associativity) : los_scope.
#[global] Open Scope los_scope.

(** [wp m Q s]: run from [s], [m] does not fault and its result satisfies [Q]. *)
Definition wp {S A} (m : M S A) (Q : A -> S -> Prop) (s : S) : Prop :=
  match m s with Some (a, s') => Q a s' | None => False end.

Section wp.
Context {S : Type}.

Lemma wp_ret {A} (a : A) Q (s : S) : Q a s -> wp (mret a) Q s.
Proof. done. Qed.
Lemma wp_bind {A B} (m : M S A) (f : A -> M S B) Q (s : S) :
  wp m (λ a s', wp (f a) Q s') s -> wp (mbind f m) Q s.
Proof. unfold wp, mbind, M_bind. by destruct (m s) as [[a s']|]. Qed.
Lemma wp_bind_inv {A B} (m : M S A) (f : A -> M S B) Q (s : S) :
  wp (mbind f m) Q s -> wp m (λ a s', wp (f a) Q s') s.
Proof. unfold wp, mbind, M_bind. by destruct (m s) as [[a s']|]. Qed.
Lemma wp_gets {A} (f : S -> A) Q s : Q (f s) s -> wp (gets f) Q s.
Proof. done. Qed.
Lemma wp_modify (f : S -> S) Q s : Q tt (f s) -> wp (modify f) Q s.
Proof. done. Qed.
Lemma wp_of_option {A} (o : option A) (a : A) Q (s : S) :
  o = Some a -> Q a s -> wp (of_option o) Q s.
Proof. by intros ->. Qed.
Lemma wp_mono {A} (m : M S A) (P Q : A -> S -> Prop) s :
  wp m P s -> (∀ a s', P a s' -> Q a s') -> wp m Q s.
Proof. unfold wp. destruct (m s) as [[a s']|]; naive_solver. Qed.
Lemma wp_conj {A} (m : M S A) (P Q : A -> S -> Prop) s :
  wp m P s -> wp m Q s -> wp m (λ a s', P a s' /\ Q a s') s.
Proof. unfold wp. destruct (m s) as [[a s']|]; naive_solver. Qed.
Lemma wp_when (b : bool) (m : M S unit) Q s :
  (b = true -> wp m Q s) -> (b = false -> Q tt s) -> wp (when b m) Q s.
Proof. destruct b; cbn; auto. Qed.
Lemma wp_assert (b : bool) Q (s : S) : b = true -> Q tt s -> wp (assert b) Q s.
Proof. by intros ->. Qed.
Lemma wp_zoom {T A} (get : S -> T) put (m : M T A) Q s :
  wp m (λ a t, Q a (put (λ _, t) s)) (get s) -> wp (zoom get put m) Q s.
Proof. unfold wp, zoom. destruct (m (get s)) as [[a t]|]; done. Qed.
Lemma wp_elim {A} (m : M S A) Q s a s' : wp m Q s -> m s = Some (a, s') -> Q a s'.
Proof. unfold wp. intros H E. by rewrite E in H. Qed.
Lemma wp_run {A} (m : M S A) Q s : wp m Q s -> ∃ a s', m s = Some (a, s') /\ Q a s'.
Proof. unfold wp. destruct (m s) as [[a s']|]; naive_solver. Qed.
Lemma bind_inv {A B} (m : M S A) (f : A -> M S B) (s : S) r :
  mbind f m s = Some r -> ∃ a s', m s = Some (a, s') /\ f a s' = Some r.
Proof. unfold mbind, M_bind. destruct (m s) as [[a s']|]; naive_solver. Qed.
Lemma wp_and_run {A} (m : M S A) (P Q : A -> S -> Prop) s :
  wp m P s -> (∀ a s', m s = Some (a, s') -> Q a s') -> wp m (λ a s', P a s' /\ Q a s') s.
Proof. unfold wp. destruct (m s) as [[a s']|]; naive_solver. Qed.
Lemma wp_intro {A} (m : M S A) (Q : A -> S -> Prop) s a s' :
  m s = Some (a, s') -> Q a s' -> wp m Q s.
Proof. unfold wp. by intros ->. Qed.
End wp.

#[global] Arguments wp : simpl never.
#[global] Arguments mret {_ _ _} _ : simpl never.
#[global] Arguments mbind {_ _ _ _} _ _ : simpl never.

(** Field updates: [setter eta proj] builds the function that applies [f] to
    the field [proj] of a record whose eta-expansion is [eta]. *)
Ltac setter eta proj :=
  let f := fresh "f" in let r := fresh "r" in
  intros f r;
  let e := eval cbv beta delta [eta] in (eta r) in
  lazymatch e with
  | context C [proj r] => let t := context C [f (proj r)] in exact t
  end.

(** [keeps f m]: whatever [m] does, it leaves the observation [f] of the state alone. *)
Definition keeps {S A X} (f : S -> X) (m : M S A) : Prop := ∀ s a s', m s = Some (a, s') -> f s' = f s.

Section keeps.
Context {S X : Type} (f : S -> X).

Lemma keeps_ret {A} (a : A) : keeps f (mret a : M S A).
Proof. by intros s a' s' [= <- <-]. Qed.
Lemma keeps_bind {A B} (m : M S A) (g : A -> M S B) : keeps f m -> (∀ a, keeps f (g a)) -> keeps f (mbind g m).
Proof.
  intros Hm Hg s b s'. unfold mbind, M_bind. destruct (m s) as [[a s1]|] eqn:E; [|done]. intros Hs.
  by rewrite (Hg _ _ _ _ Hs), (Hm _ _ _ E).
Qed.
Lemma keeps_gets {A} (g : S -> A) : keeps f (gets g).
Proof. by intros s a s' [= <- <-]. Qed.
Lemma keeps_modify g : (∀ s, f (g s) = f s) -> keeps f (modify g).
Proof. by intros Hg s a s' [= <- <-]. Qed.
Lemma keeps_of_option {A} (o : option A) : keeps f (of_option o).
Proof. intros s a s'. unfold of_option. destruct o; [|done]. by intros [= <- <-]. Qed.
Lemma keeps_fault {A} : keeps f (fault : M S A).
Proof. done. Qed.
Lemma keeps_when b (m : M S unit) : keeps f m -> keeps f (when b m).
Proof. destruct b; [done|]. intros _. apply keeps_ret. Qed.
Lemma keeps_zoom {T A} (get : S -> T) put (m : M T A) : (∀ t s, f (put t s) = f s) -> keeps f (zoom get put m).
Proof. intros Hp s a s'. unfold zoom. destruct (m (get s)) as [[a0 t]|]; [|done]. by intros [= <- <-]. Qed.

(** Adding what is kept to a postcondition. *)
Lemma wp_keeps {A} (m : M S A) Q s : keeps f m -> wp m Q s -> wp m (λ a s', Q a s' /\ f s' = f s) s.
Proof. unfold wp. intros Hk. specialize (Hk s). destruct (m s) as [[a s']|]; [|done]. intros HQ. split; [done|]. by apply (Hk a). Qed.
End keeps.

Create HintDb keeps.
#[export] Hint Resolve keeps_ret keeps_gets keeps_of_option keeps_fault : keeps.

(** Proves [keeps] by following the code; functions proved before are in the
    hint database, others are unfolded. *)
Ltac head_of t := lazymatch t with ?g _ => head_of g | _ => t end.
Ltac keeps_step :=
  intros;
  lazymatch goal with
  | |- keeps _ (mbind _ _) => apply keeps_bind
  | |- keeps _ (modify _) => apply keeps_modify; intros; first [reflexivity | solve [auto 2 with keeps nocore]]
  | |- keeps _ (when _ _) => apply keeps_when
  | |- keeps _ (zoom _ _ _) => apply keeps_zoom; intros; first [reflexivity | solve [auto 2 with keeps nocore]]
  | |- keeps _ (match ?x with _ => _ end) => destruct x
  | |- keeps _ ?m => first [solve [auto 2 with keeps nocore] | let h := head_of m in progress unfold h]
  end.
Ltac keeps := repeat keeps_step.

(** One step of symbolic execution. *)
Ltac wp_step :=
  lazymatch goal with
  | |- wp (mbind _ _) _ _ => apply wp_bind
  | |- wp (mret _) _ _ => apply wp_ret
  | |- wp (gets _) _ _ => apply wp_gets
  | |- wp (modify _) _ _ => apply wp_modify
  | |- wp (zoom _ _ _) _ _ => apply wp_zoom
  | |- wp (let '(_, _) := ?p in _) _ _ => destruct p eqn:?
  end.
Ltac wp_steps := repeat wp_step.
