(* ===== verification/Errno.v ===== *)
(** Constants of the kernel interface: return codes (src/utils/los_error.h,
    src/kernel/include/los_*.h), sentinel values (src/utils/los_compiler.h) and
    task status bits (src/kernel/include/los_task.h). *)

From S2P Require Import Prelude.

Definition LOS_OK : Z := 0.
Definition LOS_NOK : Z := 0xFFFFFFFF.
Definition OS_ERROR : Z := 0xFFFFFFFF.
Definition OS_INVALID : Z := 0xFFFFFFFF.
Definition OS_NULL_SHORT : Z := 0xFFFF.
Definition OS_NULL_INT : Z := 0xFFFFFFFF.
Definition UINT32_MAX : Z := 0xFFFFFFFF.

(** ** Error words: type, system id, module id and code *)

Definition LOS_ERRTYPE_ERROR : Z := 0x02000000.
Definition LOS_ERRTYPE_FATAL : Z := 0x03000000.
Definition LOS_ERRNO_OS_FATAL (moduleID errno : Z) : Z :=
  Z.lor (Z.lor LOS_ERRTYPE_FATAL (Z.shiftl moduleID 8)) errno.
Definition LOS_ERRNO_OS_ERROR (moduleID errno : Z) : Z :=
  Z.lor (Z.lor LOS_ERRTYPE_ERROR (Z.shiftl moduleID 8)) errno.

Definition LOS_MOD_SYS : Z := 0x0.
Definition LOS_MOD_TSK : Z := 0x2.
Definition LOS_MOD_SWTMR : Z := 0x3.
Definition LOS_MOD_TICK : Z := 0x4.
Definition LOS_MOD_QUE : Z := 0x6.
Definition LOS_MOD_SEM : Z := 0x7.
Definition LOS_MOD_EVENT : Z := 0x1c.
Definition LOS_MOD_MUX : Z := 0x1d.

Definition LOS_ERRNO_TSK_NO_MEMORY : Z := LOS_ERRNO_OS_FATAL LOS_MOD_TSK 0x00.
Definition LOS_ERRNO_TSK_PTR_NULL : Z := LOS_ERRNO_OS_ERROR LOS_MOD_TSK 0x01.
Definition LOS_ERRNO_TSK_PRIOR_ERROR : Z := LOS_ERRNO_OS_ERROR LOS_MOD_TSK 0x03.
Definition LOS_ERRNO_TSK_ENTRY_NULL : Z := LOS_ERRNO_OS_ERROR LOS_MOD_TSK 0x04.
Definition LOS_ERRNO_TSK_NAME_EMPTY : Z := LOS_ERRNO_OS_ERROR LOS_MOD_TSK 0x05.
Definition LOS_ERRNO_TSK_STKSZ_TOO_SMALL : Z := LOS_ERRNO_OS_ERROR LOS_MOD_TSK 0x06.
Definition LOS_ERRNO_TSK_ID_INVALID : Z := LOS_ERRNO_OS_ERROR LOS_MOD_TSK 0x07.
Definition LOS_ERRNO_TSK_ALREADY_SUSPENDED : Z := LOS_ERRNO_OS_ERROR LOS_MOD_TSK 0x08.
Definition LOS_ERRNO_TSK_NOT_SUSPENDED : Z := LOS_ERRNO_OS_ERROR LOS_MOD_TSK 0x09.
Definition LOS_ERRNO_TSK_NOT_CREATED : Z := LOS_ERRNO_OS_ERROR LOS_MOD_TSK 0x0a.
Definition LOS_ERRNO_TSK_DELAY_IN_INT : Z := LOS_ERRNO_OS_FATAL LOS_MOD_TSK 0x0d.
Definition LOS_ERRNO_TSK_DELAY_IN_LOCK : Z := LOS_ERRNO_OS_ERROR LOS_MOD_TSK 0x0e.
Definition LOS_ERRNO_TSK_TCB_UNAVAILABLE : Z := LOS_ERRNO_OS_ERROR LOS_MOD_TSK 0x11.
Definition LOS_ERRNO_TSK_OPERATE_SYSTEM_TASK : Z := LOS_ERRNO_OS_ERROR LOS_MOD_TSK 0x14.
Definition LOS_ERRNO_TSK_OPERATE_IDLE : Z := LOS_ERRNO_TSK_OPERATE_SYSTEM_TASK.
Definition LOS_ERRNO_TSK_SUSPEND_LOCKED : Z := LOS_ERRNO_OS_FATAL LOS_MOD_TSK 0x15.
Definition LOS_ERRNO_TSK_STKSZ_TOO_LARGE : Z := LOS_ERRNO_OS_ERROR LOS_MOD_TSK 0x20.
Definition LOS_ERRNO_TSK_SUSPEND_SWTMR_NOT_ALLOWED : Z := LOS_ERRNO_OS_ERROR LOS_MOD_TSK 0x21.
Definition LOS_ERRNO_TSK_OPERATE_SWTMR : Z := LOS_ERRNO_OS_ERROR LOS_MOD_TSK 0x22.
Definition LOS_ERRNO_TSK_NOT_JOIN : Z := LOS_ERRNO_OS_ERROR LOS_MOD_TSK 0x24.
Definition LOS_ERRNO_TSK_NOT_JOIN_SELF : Z := LOS_ERRNO_OS_ERROR LOS_MOD_TSK 0x25.
Definition LOS_ERRNO_TSK_NOT_ALLOW_IN_INT : Z := LOS_ERRNO_OS_ERROR LOS_MOD_TSK 0x26.
Definition LOS_ERRNO_TSK_ALREADY_EXIT : Z := LOS_ERRNO_OS_ERROR LOS_MOD_TSK 0x27.
Definition LOS_ERRNO_TSK_SCHED_LOCKED : Z := LOS_ERRNO_OS_ERROR LOS_MOD_TSK 0x28.
Definition LOS_ERRNO_TSK_PROCESS_SIGNAL : Z := LOS_ERRNO_OS_ERROR LOS_MOD_TSK 0x29.

Definition LOS_ERRNO_SEM_NO_MEMORY : Z := LOS_ERRNO_OS_ERROR LOS_MOD_SEM 0x00.
Definition LOS_ERRNO_SEM_INVALID : Z := LOS_ERRNO_OS_ERROR LOS_MOD_SEM 0x01.
Definition LOS_ERRNO_SEM_PTR_NULL : Z := LOS_ERRNO_OS_ERROR LOS_MOD_SEM 0x02.
Definition LOS_ERRNO_SEM_ALL_BUSY : Z := LOS_ERRNO_OS_ERROR LOS_MOD_SEM 0x03.
Definition LOS_ERRNO_SEM_UNAVAILABLE : Z := LOS_ERRNO_OS_ERROR LOS_MOD_SEM 0x04.
Definition LOS_ERRNO_SEM_PEND_INTERR : Z := LOS_ERRNO_OS_ERROR LOS_MOD_SEM 0x05.
Definition LOS_ERRNO_SEM_PEND_IN_LOCK : Z := LOS_ERRNO_OS_ERROR LOS_MOD_SEM 0x06.
Definition LOS_ERRNO_SEM_TIMEOUT : Z := LOS_ERRNO_OS_ERROR LOS_MOD_SEM 0x07.
Definition LOS_ERRNO_SEM_OVERFLOW : Z := LOS_ERRNO_OS_ERROR LOS_MOD_SEM 0x08.
Definition LOS_ERRNO_SEM_PENDED : Z := LOS_ERRNO_OS_ERROR LOS_MOD_SEM 0x09.
Definition LOS_ERRNO_SEM_MAXNUM_ZERO : Z := LOS_ERRNO_OS_ERROR LOS_MOD_SEM 0x0A.
Definition LOS_ERRNO_SEM_PEND_IN_SYSTEM_TASK : Z := LOS_ERRNO_OS_ERROR LOS_MOD_SEM 0x0B.

Definition LOS_ERRNO_MUX_NO_MEMORY : Z := LOS_ERRNO_OS_ERROR LOS_MOD_MUX 0x00.
Definition LOS_ERRNO_MUX_INVALID : Z := LOS_ERRNO_OS_ERROR LOS_MOD_MUX 0x01.
Definition LOS_ERRNO_MUX_PTR_NULL : Z := LOS_ERRNO_OS_ERROR LOS_MOD_MUX 0x02.
Definition LOS_ERRNO_MUX_ALL_BUSY : Z := LOS_ERRNO_OS_ERROR LOS_MOD_MUX 0x03.
Definition LOS_ERRNO_MUX_UNAVAILABLE : Z := LOS_ERRNO_OS_ERROR LOS_MOD_MUX 0x04.
Definition LOS_ERRNO_MUX_IN_INTERR : Z := LOS_ERRNO_OS_ERROR LOS_MOD_MUX 0x05.
Definition LOS_ERRNO_MUX_PEND_IN_LOCK : Z := LOS_ERRNO_OS_ERROR LOS_MOD_MUX 0x06.
Definition LOS_ERRNO_MUX_TIMEOUT : Z := LOS_ERRNO_OS_ERROR LOS_MOD_MUX 0x07.
Definition LOS_ERRNO_MUX_PENDED : Z := LOS_ERRNO_OS_ERROR LOS_MOD_MUX 0x09.
Definition LOS_ERRNO_MUX_MAXNUM_ZERO : Z := LOS_ERRNO_OS_ERROR LOS_MOD_MUX 0x0C.
Definition LOS_ERRNO_MUX_PEND_IN_SYSTEM_TASK : Z := LOS_ERRNO_OS_ERROR LOS_MOD_MUX 0x0D.

Definition LOS_ERRNO_EVENT_SETBIT_INVALID : Z := LOS_ERRNO_OS_ERROR LOS_MOD_EVENT 0x00.
Definition LOS_ERRNO_EVENT_READ_TIMEOUT : Z := LOS_ERRNO_OS_ERROR LOS_MOD_EVENT 0x01.
Definition LOS_ERRNO_EVENT_EVENTMASK_INVALID : Z := LOS_ERRNO_OS_ERROR LOS_MOD_EVENT 0x02.
Definition LOS_ERRNO_EVENT_READ_IN_INTERRUPT : Z := LOS_ERRNO_OS_ERROR LOS_MOD_EVENT 0x03.
Definition LOS_ERRNO_EVENT_FLAGS_INVALID : Z := LOS_ERRNO_OS_ERROR LOS_MOD_EVENT 0x04.
Definition LOS_ERRNO_EVENT_READ_IN_LOCK : Z := LOS_ERRNO_OS_ERROR LOS_MOD_EVENT 0x05.
Definition LOS_ERRNO_EVENT_PTR_NULL : Z := LOS_ERRNO_OS_ERROR LOS_MOD_EVENT 0x06.
Definition LOS_ERRNO_EVENT_NOT_INITIALIZED : Z := LOS_ERRNO_OS_ERROR LOS_MOD_EVENT 0x07.
Definition LOS_ERRNO_EVENT_SHOULD_NOT_DESTROYED : Z := LOS_ERRNO_OS_ERROR LOS_MOD_EVENT 0x08.
Definition LOS_ERRNO_EVENT_READ_IN_SYSTEM_TASK : Z := LOS_ERRNO_OS_ERROR LOS_MOD_EVENT 0x09.

(** ** Timeouts, priorities and task status bits *)

Definition LOS_NO_WAIT : Z := 0.
Definition LOS_WAIT_FOREVER : Z := 0xFFFFFFFF.
Definition OS_TASK_PRIORITY_LOWEST : Z := 31.
Definition LOS_TASK_ATTR_JOINABLE : Z := 0x80000000.

Definition OS_TASK_STATUS_UNUSED : Z := 0x0001.
Definition OS_TASK_STATUS_SUSPEND : Z := 0x0002.
Definition OS_TASK_STATUS_READY : Z := 0x0004.
Definition OS_TASK_STATUS_PEND : Z := 0x0008.
Definition OS_TASK_STATUS_RUNNING : Z := 0x0010.
Definition OS_TASK_STATUS_DELAY : Z := 0x0020.
Definition OS_TASK_STATUS_TIMEOUT : Z := 0x0040.
Definition OS_TASK_STATUS_PEND_TIME : Z := 0x0080.
Definition OS_TASK_STATUS_EXIT : Z := 0x0100.
Definition OS_TASK_FLAG_STACK_FREE : Z := 0x0800.
Definition OS_TASK_FLAG_SYSTEM_TASK : Z := 0x1000.
Definition OS_TASK_FLAG_SIGNAL : Z := 0x2000.
Definition OS_TASK_FLAG_FREEZE : Z := 0x4000.
Definition OS_TASK_FLAG_JOINABLE : Z := 0x8000.

Definition OS_SORT_LINK_INVALID_TIME : Z := 2 ^ 64 - 1.
Definition OS_SORT_LINK_UINT64_MAX : Z := 2 ^ 64 - 1.
Definition OS_SCHED_MAX_RESPONSE_TIME : Z := OS_SORT_LINK_UINT64_MAX.

Definition LOS_ERRNO_QUEUE_MAXNUM_ZERO : Z := LOS_ERRNO_OS_ERROR LOS_MOD_QUE 0x00.
Definition LOS_ERRNO_QUEUE_NO_MEMORY : Z := LOS_ERRNO_OS_ERROR LOS_MOD_QUE 0x01.
Definition LOS_ERRNO_QUEUE_CREATE_NO_MEMORY : Z := LOS_ERRNO_OS_ERROR LOS_MOD_QUE 0x02.
Definition LOS_ERRNO_QUEUE_SIZE_TOO_BIG : Z := LOS_ERRNO_OS_ERROR LOS_MOD_QUE 0x03.
Definition LOS_ERRNO_QUEUE_CB_UNAVAILABLE : Z := LOS_ERRNO_OS_ERROR LOS_MOD_QUE 0x04.
Definition LOS_ERRNO_QUEUE_NOT_FOUND : Z := LOS_ERRNO_OS_ERROR LOS_MOD_QUE 0x05.
Definition LOS_ERRNO_QUEUE_PEND_IN_LOCK : Z := LOS_ERRNO_OS_ERROR LOS_MOD_QUE 0x06.
Definition LOS_ERRNO_QUEUE_TIMEOUT : Z := LOS_ERRNO_OS_ERROR LOS_MOD_QUE 0x07.
Definition LOS_ERRNO_QUEUE_IN_TSKUSE : Z := LOS_ERRNO_OS_ERROR LOS_MOD_QUE 0x08.
Definition LOS_ERRNO_QUEUE_WRITE_IN_INTERRUPT : Z := LOS_ERRNO_OS_ERROR LOS_MOD_QUE 0x09.
Definition LOS_ERRNO_QUEUE_NOT_CREATE : Z := LOS_ERRNO_OS_ERROR LOS_MOD_QUE 0x0a.
Definition LOS_ERRNO_QUEUE_IN_TSKWRITE : Z := LOS_ERRNO_OS_ERROR LOS_MOD_QUE 0x0b.
Definition LOS_ERRNO_QUEUE_CREAT_PTR_NULL : Z := LOS_ERRNO_OS_ERROR LOS_MOD_QUE 0x0c.
Definition LOS_ERRNO_QUEUE_PARA_ISZERO : Z := LOS_ERRNO_OS_ERROR LOS_MOD_QUE 0x0d.
Definition LOS_ERRNO_QUEUE_INVALID : Z := LOS_ERRNO_OS_ERROR LOS_MOD_QUE 0x0e.
Definition LOS_ERRNO_QUEUE_READ_PTR_NULL : Z := LOS_ERRNO_OS_ERROR LOS_MOD_QUE 0x0f.
Definition LOS_ERRNO_QUEUE_READSIZE_ISZERO : Z := LOS_ERRNO_OS_ERROR LOS_MOD_QUE 0x10.
Definition LOS_ERRNO_QUEUE_WRITE_PTR_NULL : Z := LOS_ERRNO_OS_ERROR LOS_MOD_QUE 0x12.
Definition LOS_ERRNO_QUEUE_WRITESIZE_ISZERO : Z := LOS_ERRNO_OS_ERROR LOS_MOD_QUE 0x13.
Definition LOS_ERRNO_QUEUE_WRITE_SIZE_TOO_BIG : Z := LOS_ERRNO_OS_ERROR LOS_MOD_QUE 0x15.
Definition LOS_ERRNO_QUEUE_ISFULL : Z := LOS_ERRNO_OS_ERROR LOS_MOD_QUE 0x16.
Definition LOS_ERRNO_QUEUE_PTR_NULL : Z := LOS_ERRNO_OS_ERROR LOS_MOD_QUE 0x17.
Definition LOS_ERRNO_QUEUE_READ_IN_INTERRUPT : Z := LOS_ERRNO_OS_ERROR LOS_MOD_QUE 0x18.
Definition LOS_ERRNO_QUEUE_MAIL_HANDLE_INVALID : Z := LOS_ERRNO_OS_ERROR LOS_MOD_QUE 0x19.
Definition LOS_ERRNO_QUEUE_MAIL_PTR_INVALID : Z := LOS_ERRNO_OS_ERROR LOS_MOD_QUE 0x1a.
Definition LOS_ERRNO_QUEUE_MAIL_FREE_ERROR : Z := LOS_ERRNO_OS_ERROR LOS_MOD_QUE 0x1b.
Definition LOS_ERRNO_QUEUE_ISEMPTY : Z := LOS_ERRNO_OS_ERROR LOS_MOD_QUE 0x1d.
Definition LOS_ERRNO_QUEUE_BUFFER_SIZE_TOO_BIG : Z := LOS_ERRNO_OS_ERROR LOS_MOD_QUE 0x20.

Definition LOS_ERRNO_SWTMR_PTR_NULL : Z := LOS_ERRNO_OS_ERROR LOS_MOD_SWTMR 0x00.
Definition LOS_ERRNO_SWTMR_INTERVAL_NOT_SUITED : Z := LOS_ERRNO_OS_ERROR LOS_MOD_SWTMR 0x01.
Definition LOS_ERRNO_SWTMR_MODE_INVALID : Z := LOS_ERRNO_OS_ERROR LOS_MOD_SWTMR 0x02.
Definition LOS_ERRNO_SWTMR_RET_PTR_NULL : Z := LOS_ERRNO_OS_ERROR LOS_MOD_SWTMR 0x03.
Definition LOS_ERRNO_SWTMR_MAXSIZE : Z := LOS_ERRNO_OS_ERROR LOS_MOD_SWTMR 0x04.
Definition LOS_ERRNO_SWTMR_ID_INVALID : Z := LOS_ERRNO_OS_ERROR LOS_MOD_SWTMR 0x05.
Definition LOS_ERRNO_SWTMR_NOT_CREATED : Z := LOS_ERRNO_OS_ERROR LOS_MOD_SWTMR 0x06.
Definition LOS_ERRNO_SWTMR_NO_MEMORY : Z := LOS_ERRNO_OS_ERROR LOS_MOD_SWTMR 0x07.
Definition LOS_ERRNO_SWTMR_QUEUE_CREATE_FAILED : Z := LOS_ERRNO_OS_ERROR LOS_MOD_SWTMR 0x0b.
Definition LOS_ERRNO_SWTMR_TASK_CREATE_FAILED : Z := LOS_ERRNO_OS_ERROR LOS_MOD_SWTMR 0x0c.
Definition LOS_ERRNO_SWTMR_NOT_STARTED : Z := LOS_ERRNO_OS_ERROR LOS_MOD_SWTMR 0x0d.
Definition LOS_ERRNO_SWTMR_STATUS_INVALID : Z := LOS_ERRNO_OS_ERROR LOS_MOD_SWTMR 0x0e.
Definition LOS_ERRNO_SWTMR_TICK_PTR_NULL : Z := LOS_ERRNO_OS_ERROR LOS_MOD_SWTMR 0x10.

Definition LOS_ERRNO_TICK_CFG_INVALID : Z := LOS_ERRNO_OS_ERROR LOS_MOD_TICK 0x00.
Definition LOS_ERRNO_SYS_PTR_NULL : Z := LOS_ERRNO_OS_ERROR LOS_MOD_SYS 0x10.
Definition LOS_ERRNO_SYS_CLOCK_INVALID : Z := LOS_ERRNO_OS_ERROR LOS_MOD_SYS 0x11.
Definition LOS_ERRNO_SYS_TIMER_IS_RUNNING : Z := LOS_ERRNO_OS_ERROR LOS_MOD_SYS 0x15.
Definition LOS_ERRNO_SYS_HOOK_IS_NULL : Z := LOS_ERRNO_OS_ERROR LOS_MOD_SYS 0x16.
Definition LOS_ERRNO_SYS_TIMER_ADDR_FAULT : Z := LOS_ERRNO_OS_ERROR LOS_MOD_SYS 0x16.
Definition LOS_ERRNO_TICK_PER_SEC_TOO_SMALL : Z := LOS_ERRNO_OS_ERROR LOS_MOD_TICK 0x02.
