(* ===== verification/LosList.v ===== *)
(** Intrusive doubly linked circular lists (src/utils/los_list.h).

    Nodes are elements of a countable type [Node]; the memory of the nodes is a
    finite map, an absent node being zero-filled.  The operations are the C
    functions, statement by statement, in the state-and-fault monad; a
    dereference of NULL is a fault.

    The specification is a finite map [rings] from list heads to the sequence of
    their members.  [Rep h m] says that the pointers of [h] are exactly the rings
    [m]: every ring is closed in both directions, no node is in two rings, and
    nodes outside the rings are zero.  [op_refines] shows that every operation
    refines the corresponding operation on sequences. *)

From S2P Require Import Prelude.

Section LosList.
Context {Node : Type} `{EqDecision Node} `{!Countable Node}.

(** [struct LOS_DL_LIST]; NULL is [None]. *)
Record LOS_DL_LIST := mk_LOS_DL_LIST { pstPrev : option Node; pstNext : option Node }.

Definition node_null : LOS_DL_LIST := mk_LOS_DL_LIST None None.
Definition node_at (h : gmap Node LOS_DL_LIST) (n : Node) : LOS_DL_LIST := default node_null (h !! n).

Definition get_pstNext (n : Node) : M (gmap Node LOS_DL_LIST) (option Node) :=
  gets (λ h, pstNext (node_at h n)).
Definition get_pstPrev (n : Node) : M (gmap Node LOS_DL_LIST) (option Node) :=
  gets (λ h, pstPrev (node_at h n)).
Definition set_pstNext (n : Node) (v : option Node) : M (gmap Node LOS_DL_LIST) unit :=
  modify (λ h, <[n := mk_LOS_DL_LIST (pstPrev (node_at h n)) v]> h).
Definition set_pstPrev (n : Node) (v : option Node) : M (gmap Node LOS_DL_LIST) unit :=
  modify (λ h, <[n := mk_LOS_DL_LIST v (pstNext (node_at h n))]> h).

Definition LOS_ListInit (list : Node) : M (gmap Node LOS_DL_LIST) unit :=
  set_pstNext list (Some list);;;
  set_pstPrev list (Some list).

Definition LOS_DL_LIST_FIRST (object : Node) : M (gmap Node LOS_DL_LIST) (option Node) :=
  get_pstNext object.

Definition LOS_ListAdd (list node : Node) : M (gmap Node LOS_DL_LIST) unit :=
  let* next := get_pstNext list in
  set_pstNext node next;;;
  set_pstPrev node (Some list);;;
  let* next' := get_pstNext list in
  let* nextp := of_option next' in
  set_pstPrev nextp (Some node);;;
  set_pstNext list (Some node).

Definition LOS_ListTailInsert (list node : Node) : M (gmap Node LOS_DL_LIST) unit :=
  let* prev := get_pstPrev list in
  let* prevp := of_option prev in
  LOS_ListAdd prevp node.

Definition LOS_ListHeadInsert (list node : Node) : M (gmap Node LOS_DL_LIST) unit :=
  LOS_ListAdd list node.

Definition LOS_ListDelete (node : Node) : M (gmap Node LOS_DL_LIST) unit :=
  let* next := get_pstNext node in
  let* nextp := of_option next in
  let* prev := get_pstPrev node in
  set_pstPrev nextp prev;;;
  let* prev' := get_pstPrev node in
  let* prevp := of_option prev' in
  let* next' := get_pstNext node in
  set_pstNext prevp next';;;
  set_pstNext node None;;;
  set_pstPrev node None.

Definition LOS_ListEmpty (node : Node) : M (gmap Node LOS_DL_LIST) bool :=
  let* next := get_pstNext node in
  mret (bool_decide (next = Some node)).

Definition LOS_ListDelInit (list : Node) : M (gmap Node LOS_DL_LIST) unit :=
  let* next := get_pstNext list in
  let* nextp := of_option next in
  let* prev := get_pstPrev list in
  set_pstPrev nextp prev;;;
  let* prev' := get_pstPrev list in
  let* prevp := of_option prev' in
  let* next' := get_pstNext list in
  set_pstNext prevp next';;;
  LOS_ListInit list.

(** A node overwritten with zeros by [memset_s]. *)
Definition ListClear (node : Node) : M (gmap Node LOS_DL_LIST) unit :=
  set_pstNext node None;;;
  set_pstPrev node None.

(** ** The abstract rings *)

Definition owned (m : gmap Node (list Node)) (n : Node) : Prop :=
  ∃ hd l, m !! hd = Some l /\ n ∈ hd :: l.

(** [links h x l y]: [x], the members of [l] and [y] are consecutive. *)
Fixpoint links (h : gmap Node LOS_DL_LIST) (x : Node) (l : list Node) (y : Node) : Prop :=
  match l with
  | [] => pstNext (node_at h x) = Some y /\ pstPrev (node_at h y) = Some x
  | z :: l' => pstNext (node_at h x) = Some z /\ pstPrev (node_at h z) = Some x /\ links h z l' y
  end.

Record Rings (m : gmap Node (list Node)) : Prop := {
  rings_nodup : ∀ hd l, m !! hd = Some l -> NoDup (hd :: l);
  rings_disj : ∀ hd1 l1 hd2 l2 n,
    m !! hd1 = Some l1 -> m !! hd2 = Some l2 -> n ∈ hd1 :: l1 -> n ∈ hd2 :: l2 -> hd1 = hd2;
}.

Record Rep (h : gmap Node LOS_DL_LIST) (m : gmap Node (list Node)) : Prop := {
  rep_rings : Rings m;
  rep_links : ∀ hd l, m !! hd = Some l -> links h hd l hd;
  rep_null : ∀ n, ~ owned m n -> node_at h n = node_null;
}.

(** The operations, and their meaning on sequences. *)
Inductive list_op : Type :=
  | OpInit (list : Node)
  | OpAdd (list node : Node)
  | OpTailInsert (list node : Node)
  | OpHeadInsert (list node : Node)
  | OpDelete (node : Node)
  | OpDelInit (list : Node)
  | OpClear (node : Node).

Definition run_op (op : list_op) : M (gmap Node LOS_DL_LIST) unit :=
  match op with
  | OpInit l => LOS_ListInit l
  | OpAdd l n => LOS_ListAdd l n
  | OpTailInsert l n => LOS_ListTailInsert l n
  | OpHeadInsert l n => LOS_ListHeadInsert l n
  | OpDelete n => LOS_ListDelete n
  | OpDelInit n => LOS_ListDelInit n
  | OpClear n => ListClear n
  end.

Inductive spec_op (m : gmap Node (list Node)) : list_op -> gmap Node (list Node) -> Prop :=
  | spec_init n :
      (~ owned m n \/ m !! n = Some []) ->
      spec_op m (OpInit n) (<[n := []]> m)
  | spec_add_head hd n l :
      m !! hd = Some l -> ~ owned m n ->
      spec_op m (OpAdd hd n) (<[hd := n :: l]> m)
  | spec_add_stale hd n l :
      m !! hd = Some l -> m !! n = Some [] -> hd <> n ->
      spec_op m (OpAdd hd n) (<[hd := n :: l]> (delete n m))
  | spec_add_after hd p n l1 l2 :
      m !! hd = Some (l1 ++ p :: l2) -> ~ owned m n ->
      spec_op m (OpAdd p n) (<[hd := l1 ++ p :: n :: l2]> m)
  | spec_tail_insert hd n l :
      m !! hd = Some l -> ~ owned m n ->
      spec_op m (OpTailInsert hd n) (<[hd := l ++ [n]]> m)
  | spec_head_insert hd n l :
      m !! hd = Some l -> ~ owned m n ->
      spec_op m (OpHeadInsert hd n) (<[hd := n :: l]> m)
  | spec_delete hd n l :
      m !! hd = Some l -> n ∈ l ->
      spec_op m (OpDelete n) (<[hd := list_remove_all n l]> m)
  | spec_delete_head hd :
      m !! hd = Some [] ->
      spec_op m (OpDelete hd) (delete hd m)
  | spec_delinit hd n l :
      m !! hd = Some l -> n ∈ l ->
      spec_op m (OpDelInit n) (<[n := []]> (<[hd := list_remove_all n l]> m))
  | spec_delinit_head hd :
      m !! hd = Some [] ->
      spec_op m (OpDelInit hd) m
  | spec_clear n :
      (~ owned m n \/ m !! n = Some []) ->
      spec_op m (OpClear n) (delete n m).

(** ** Effect of the operations on the pointers *)

#[local] Abbreviation nx h x := (pstNext (node_at h x)).
#[local] Abbreviation pv h x := (pstPrev (node_at h x)).

Lemma node_at_insert h (n n' : Node) v :
  node_at (<[n := v]> h) n' = if decide (n = n') then v else node_at h n'.
Proof. unfold node_at. rewrite lookup_insert. by case_decide. Qed.

Ltac node_simpl :=
  repeat (rewrite node_at_insert in * || case_decide || simplify_eq/=); try done; try congruence.

Lemma LOS_ListInit_run h n :
  wp (LOS_ListInit n) (λ _ h', nx h' n = Some n /\ pv h' n = Some n /\
    ∀ x, x <> n -> node_at h' x = node_at h x) h.
Proof.
  unfold LOS_ListInit, set_pstNext, set_pstPrev. wp_steps.
  split_and!; intros; node_simpl.
Qed.

Lemma ListClear_run h n :
  wp (ListClear n) (λ _ h', node_at h' n = node_null /\
    ∀ x, x <> n -> node_at h' x = node_at h x) h.
Proof.
  unfold ListClear, set_pstNext, set_pstPrev. wp_steps.
  split_and!; intros; node_simpl.
Qed.

Lemma LOS_ListAdd_run h p q n :
  nx h p = Some q -> n <> p -> n <> q ->
  wp (LOS_ListAdd p n) (λ _ h',
    node_at h' n = mk_LOS_DL_LIST (Some p) (Some q) /\
    nx h' p = Some n /\ pv h' q = Some n /\
    (∀ x, x <> n -> x <> p -> nx h' x = nx h x) /\
    (∀ x, x <> n -> x <> q -> pv h' x = pv h x)) h.
Proof.
  intros Hq Hp Hn.
  unfold LOS_ListAdd, get_pstNext, set_pstNext, set_pstPrev. wp_steps.
  apply wp_of_option with q.
  { node_simpl. }
  wp_steps. split_and!; intros; node_simpl.
Qed.

Lemma LOS_ListDelete_run h p q n :
  nx h n = Some q -> pv h n = Some p -> n <> p -> n <> q ->
  wp (LOS_ListDelete n) (λ _ h',
    node_at h' n = node_null /\ nx h' p = Some q /\ pv h' q = Some p /\
    (∀ x, x <> n -> x <> p -> nx h' x = nx h x) /\
    (∀ x, x <> n -> x <> q -> pv h' x = pv h x)) h.
Proof.
  intros Hq Hp Hnp Hnq.
  unfold LOS_ListDelete, get_pstNext, get_pstPrev, set_pstNext, set_pstPrev. wp_steps.
  apply wp_of_option with q; [done|]. wp_steps.
  apply wp_of_option with p. { node_simpl. }
  wp_steps. split_and!; intros; node_simpl.
Qed.

Lemma LOS_ListDelete_self_run h n :
  nx h n = Some n -> pv h n = Some n ->
  wp (LOS_ListDelete n) (λ _ h', node_at h' n = node_null /\
    (∀ x, x <> n -> node_at h' x = node_at h x)) h.
Proof.
  intros Hq Hp.
  unfold LOS_ListDelete, get_pstNext, get_pstPrev, set_pstNext, set_pstPrev. wp_steps.
  apply wp_of_option with n; [done|]. wp_steps.
  apply wp_of_option with n. { node_simpl. }
  wp_steps. split_and!; intros; node_simpl.
Qed.

Lemma LOS_ListDelInit_run h p q n :
  nx h n = Some q -> pv h n = Some p -> n <> p -> n <> q ->
  wp (LOS_ListDelInit n) (λ _ h',
    node_at h' n = mk_LOS_DL_LIST (Some n) (Some n) /\ nx h' p = Some q /\ pv h' q = Some p /\
    (∀ x, x <> n -> x <> p -> nx h' x = nx h x) /\
    (∀ x, x <> n -> x <> q -> pv h' x = pv h x)) h.
Proof.
  intros Hq Hp Hnp Hnq.
  unfold LOS_ListDelInit, LOS_ListInit, get_pstNext, get_pstPrev, set_pstNext, set_pstPrev.
  wp_steps. apply wp_of_option with q; [done|]. wp_steps.
  apply wp_of_option with p. { node_simpl. }
  wp_steps. split_and!; intros; node_simpl.
Qed.

Lemma LOS_ListDelInit_self_run h n :
  nx h n = Some n -> pv h n = Some n ->
  wp (LOS_ListDelInit n) (λ _ h', node_at h' n = mk_LOS_DL_LIST (Some n) (Some n) /\
    (∀ x, x <> n -> node_at h' x = node_at h x)) h.
Proof.
  intros Hq Hp.
  unfold LOS_ListDelInit, LOS_ListInit, get_pstNext, get_pstPrev, set_pstNext, set_pstPrev.
  wp_steps. apply wp_of_option with n; [done|]. wp_steps.
  apply wp_of_option with n. { node_simpl. }
  wp_steps. split_and!; intros; node_simpl.
Qed.

(** ** Rings *)

Lemma links_app h x l1 z l2 y :
  links h x (l1 ++ z :: l2) y <-> links h x l1 z /\ links h z l2 y.
Proof. revert x; induction l1 as [|w l1 IH]; intros x; cbn; [tauto|]. rewrite IH. tauto. Qed.

Lemma links_frame h h' x l y :
  (∀ n, n ∈ x :: l -> nx h' n = nx h n) ->
  (∀ n, n ∈ l ++ [y] -> pv h' n = pv h n) ->
  links h x l y -> links h' x l y.
Proof.
  revert x; induction l as [|z l IH]; cbn; intros x Hn Hp.
  - rewrite Hn, Hp by set_solver. done.
  - intros (H1 & H2 & H3). rewrite Hn, Hp by set_solver.
    split_and!; [done..|]. apply IH; [set_solver..|done].
Qed.

Lemma links_next h x l y : links h x l y -> nx h x = Some (hd y l).
Proof. destruct l; cbn; tauto. Qed.

Lemma links_prev h x l y : links h x l y -> pv h y = Some (default x (last l)).
Proof.
  revert x; induction l as [|z l IH]; cbn [links]; intros x.
  - by intros [_ ->].
  - intros (_ & _ & H). rewrite (IH _ H), last_cons. by destruct (last l).
Qed.

Lemma links_ext h h' x l y :
  (∀ n, n ∈ x :: l ++ [y] -> node_at h' n = node_at h n) -> links h x l y -> links h' x l y.
Proof. intros H. apply links_frame; intros n Hn; rewrite H by set_solver; done. Qed.

(** Replace the members of one ring. *)
Lemma Rep_update h h' m hd l l' :
  Rep h m -> m !! hd = Some l ->
  links h' hd l' hd -> NoDup (hd :: l') ->
  (∀ n, n ∈ l' -> n ∈ l \/ ~ owned m n) ->
  (∀ n, n ∉ hd :: l -> n ∉ l' -> node_at h' n = node_at h n) ->
  (∀ n, n ∈ l -> n ∉ l' -> node_at h' n = node_null) ->
  Rep h' (<[hd := l']> m).
Proof.
  intros [[Hnd Hdj] Hlk Hnull] Hm Hlk' Hnd' Hin Hfr Hout.
  assert (Hother : ∀ hd2 l2 n, m !! hd2 = Some l2 -> hd2 <> hd -> n ∈ hd2 :: l2 -> n ∉ hd :: l').
  { intros hd2 l2 n Hm2 Hne Hn Hn'. apply elem_of_cons in Hn' as [->|Hn'].
    - apply Hne. eapply Hdj; [exact Hm2|exact Hm|done|]. set_solver.
    - destruct (Hin _ Hn') as [Hl|Hno].
      + apply Hne. eapply Hdj; [exact Hm2|exact Hm|done|]. set_solver.
      + apply Hno. by exists hd2, l2. }
  assert (Hother' : ∀ hd2 l2 n, m !! hd2 = Some l2 -> hd2 <> hd -> n ∈ hd2 :: l2 -> n ∉ hd :: l).
  { intros hd2 l2 n Hm2 Hne Hn Hn'. apply Hne. eapply Hdj; [exact Hm2|exact Hm|done..]. }
  split; [split|..].
  - intros hd2 l2. rewrite lookup_insert. case_decide; intros; simplify_eq; eauto.
  - intros hd1 l1 hd2 l2 n. rewrite !lookup_insert.
    repeat case_decide; intros; simplify_eq; eauto; exfalso.
    + by eapply (Hother hd2 l2).
    + by eapply (Hother hd1 l1).
  - intros hd2 l2. rewrite lookup_insert. case_decide; intros H2; simplify_eq; [done|].
    apply links_ext with h; [|eauto]. intros n Hn.
    apply Hfr; [eapply Hother'; eauto; set_solver|].
    assert (n ∉ hd :: l') as Hno by (eapply Hother; eauto; set_solver). set_solver.
  - intros n Hno.
    assert (Hhd : n ∉ hd :: l').
    { intros Hc. apply Hno. exists hd, l'. by rewrite lookup_insert_eq. }
    destruct (decide (n ∈ l)) as [Hl|Hl].
    + apply Hout; set_solver.
    + rewrite Hfr by set_solver. apply Hnull. intros (hd2 & l2 & Hm2 & Hn).
      destruct (decide (hd2 = hd)) as [->|Hne].
      * simplify_eq. set_solver.
      * apply Hno. exists hd2, l2. by rewrite lookup_insert_ne.
Qed.

Lemma not_owned_ring m hd l n : m !! hd = Some l -> ~ owned m n -> n ∉ hd :: l.
Proof. intros Hm Hno Hn. apply Hno. by exists hd, l. Qed.

(** The part of a ring after [p] starts at [p'] once the link into it is changed. *)
Lemma links_restart h h' p p' l y :
  links h p l y -> NoDup (l ++ [y]) ->
  nx h' p' = Some (List.hd y l) -> pv h' (List.hd y l) = Some p' ->
  (∀ x, x ∈ l -> nx h' x = nx h x) ->
  (∀ x, x ∈ l ++ [y] -> x <> List.hd y l -> pv h' x = pv h x) ->
  links h' p' l y.
Proof.
  destruct l as [|z l]; cbn; [done|].
  intros (_ & _ & Hl) [Hz Hnd]%NoDup_cons Hn Hp Hnx Hpv. split_and!; [done..|].
  apply links_frame with h; [set_solver| |done].
  intros x Hx. apply Hpv; set_solver.
Qed.

(** The part of a ring up to the last node [p] of [l1] is unchanged when only the
    link of [p] to its successor [q] changes. *)
Lemma links_until h h' hd l1 l2 q :
  links h hd l1 q -> NoDup (hd :: l1) -> q ∉ l1 ->
  (∀ x, x ∈ hd :: l1 -> x <> default hd (last l1) -> nx h' x = nx h x) ->
  (∀ x, x ∈ l1 -> pv h' x = pv h x) ->
  links h' (default hd (last l1)) l2 hd -> links h' hd (l1 ++ l2) hd.
Proof.
  destruct l1 as [|z l1 _] using rev_ind; [done|].
  rewrite last_snoc, <-app_assoc. cbn. intros Hlk Hnd Hq Hnx Hpv Hl2.
  apply links_app. split; [|done]. apply links_app in Hlk as [Hlk _].
  change (hd :: l1 ++ [z]) with ((hd :: l1) ++ [z]) in Hnd.
  apply NoDup_app in Hnd as (_ & Hd & _).
  apply links_frame with h; [|done|done].
  intros x Hx. apply Hnx; [set_solver|]. intros ->. by eapply Hd; [|left].
Qed.

Lemma last_in_ring (hd : Node) l : default hd (last l) ∈ hd :: l.
Proof. destruct (last l) eqn:E; cbn; [apply last_Some_elem_of in E|]; set_solver. Qed.

Lemma hd_in_ring (hd : Node) l : List.hd hd l ∈ l ++ [hd].
Proof. destruct l; set_solver. Qed.

Lemma node_at_ext h h' x : nx h' x = nx h x -> pv h' x = pv h x -> node_at h' x = node_at h x.
Proof. destruct (node_at h' x), (node_at h x). cbn. congruence. Qed.

Lemma ring_split_NoDup (hd : Node) l1 l2 :
  NoDup (hd :: l1 ++ l2) ->
  NoDup (hd :: l1) /\ NoDup (l2 ++ [hd]) /\ (∀ x, x ∈ hd :: l1 -> x ∉ l2).
Proof.
  intros H. change (hd :: l1 ++ l2) with ((hd :: l1) ++ l2) in H.
  apply NoDup_app in H as (H1 & H2 & H3). split_and!; [done| |done].
  apply NoDup_app. split_and!; [done| |apply NoDup_singleton].
  intros x Hx ->%list_elem_of_singleton. eapply H2; [left|done].
Qed.

Lemma links_cut h x l1 l2 y :
  links h x (l1 ++ l2) y -> links h x l1 (List.hd y l2) /\ links h (default x (last l1)) l2 y.
Proof.
  revert x; induction l1 as [|z l1 IH]; intros x.
  - cbn. intros H. split; [|done]. destruct l2; cbn in *; tauto.
  - cbn [app links]. intros (H1 & H2 & H3). apply IH in H3 as [H3 H4].
    rewrite last_cons. split; [done|]. by destruct (last l1).
Qed.

(** Insertion of [n] in a ring, between [hd :: l1] and [l2]. *)
Lemma Rep_insert h m hd l1 l2 n :
  Rep h m -> m !! hd = Some (l1 ++ l2) -> ~ owned m n ->
  wp (LOS_ListAdd (default hd (last l1)) n) (λ _ h', Rep h' (<[hd := l1 ++ n :: l2]> m)) h.
Proof.
  intros HR Hm Hno.
  pose proof (rings_nodup _ (rep_rings _ _ HR) _ _ Hm) as Hnd.
  pose proof (rep_links _ _ HR _ _ Hm) as Hlk.
  pose proof (not_owned_ring _ _ _ _ Hm Hno) as Hn.
  pose proof (last_in_ring hd l1) as Hp. pose proof (hd_in_ring hd l2) as Hq.
  apply ring_split_NoDup in Hnd as (Hnd1 & Hnd2 & Hd).
  apply links_cut in Hlk as [Hlk1 Hlk2].
  eapply wp_mono; [apply LOS_ListAdd_run with (q := List.hd hd l2)|].
  { by apply links_next in Hlk2. } { set_solver. } { set_solver. }
  set (p := default hd (last l1)) in *. set (q := List.hd hd l2) in *. cbn.
  intros _ h' (Hn' & Hpn & Hqn & Hnx & Hpv).
  assert (Hq1 : q ∉ l1).
  { intros Hc. apply elem_of_app in Hq as [Hq|Hq%list_elem_of_singleton].
    - by apply (Hd q); [right|]. - rewrite Hq in Hc. by apply NoDup_cons in Hnd1 as [? _]. }
  apply Rep_update with (h := h) (l := l1 ++ l2); try done.
  - apply links_until with h q; [done..| | |].
    + fold p. intros x Hx Hxp. apply Hnx; [set_solver|done].
    + intros x Hx. apply Hpv; set_solver.
    + fold p. cbn. rewrite Hpn, Hn'. cbn. split_and!; [done..|].
      apply links_restart with h p; [done..|by rewrite Hn'|done| |].
      * intros x Hx. apply Hnx; [set_solver|]. intros ->. by eapply Hd.
      * intros x Hx Hxq. apply Hpv; set_solver.
  - rewrite app_comm_cons. apply NoDup_app. split_and!; [done| |].
    + intros x Hx. specialize (Hd _ Hx). set_solver.
    + apply NoDup_cons. split; [set_solver|]. by apply NoDup_app in Hnd2 as (? & _ & _).
  - intros x Hx. destruct (decide (x = n)) as [->|]; [by right|left; set_solver].
  - intros x Hx1 Hx2. apply node_at_ext; [apply Hnx|apply Hpv]; set_solver.
  - set_solver.
Qed.

(** Removal of [n] from a ring. *)
Lemma Rep_remove h m hd l1 l2 n (m' := <[hd := l1 ++ l2]> m) :
  Rep h m -> m !! hd = Some (l1 ++ n :: l2) ->
  let p := default hd (last l1) in let q := List.hd hd l2 in
  nx h n = Some q /\ pv h n = Some p /\ n <> p /\ n <> q /\
  ∀ h', node_at h' n = node_null -> nx h' p = Some q -> pv h' q = Some p ->
    (∀ x, x <> n -> x <> p -> nx h' x = nx h x) ->
    (∀ x, x <> n -> x <> q -> pv h' x = pv h x) -> Rep h' m'.
Proof.
  intros HR Hm p q.
  pose proof (rings_nodup _ (rep_rings _ _ HR) _ _ Hm) as Hnd.
  pose proof (rep_links _ _ HR _ _ Hm) as Hlk.
  pose proof (last_in_ring hd l1) as Hp. pose proof (hd_in_ring hd l2) as Hq.
  apply links_app in Hlk as [Hlk1 Hlk2].
  assert (Hnd' := Hnd). apply ring_split_NoDup in Hnd' as (Hnd1 & Hnd2 & Hd).
  assert (Hn : n ∉ hd :: l1 ++ l2).
  { cbn in Hnd2. apply NoDup_cons in Hnd2 as [Hn2 _]. specialize (Hd n). set_solver. }
  assert (Hq1 : q ∉ l1).
  { intros Hc. apply elem_of_app in Hq as [Hq|Hq%list_elem_of_singleton].
    - apply (Hd q); [by right|by right]. - fold q in Hq. rewrite Hq in Hc. by apply NoDup_cons in Hnd1 as [? _]. }
  split_and!; [by apply links_next in Hlk2|by apply links_prev in Hlk1|set_solver|set_solver|].
  intros h' Hn' Hpq Hqp Hnx Hpv.
  apply Rep_update with (h := h) (l := l1 ++ n :: l2); [done..| | | | |].
  - apply links_until with h n; [done..|set_solver| | |].
    + fold p. intros x Hx Hxp. apply Hnx; [set_solver|done].
    + intros x Hx. apply Hpv; set_solver.
    + fold p. apply links_restart with h n; [done|by apply NoDup_cons in Hnd2 as [_ ?]|done|done| |].
      * intros x Hx. apply Hnx; [set_solver|]. intros ->. eapply Hd; [exact Hp|set_solver].
      * intros x Hx Hxq. apply Hpv; set_solver.
  - eapply (sublist_NoDup _ (hd :: l1 ++ n :: l2)); [done|].
    apply sublist_skip, sublist_app; [done|]. by apply sublist_cons.
  - set_solver.
  - intros x Hx1 Hx2. apply node_at_ext; [apply Hnx|apply Hpv]; set_solver.
  - intros x Hx1 Hx2. assert (x = n) as -> by set_solver. done.
Qed.

Lemma Rep_delete h m hd l n :
  Rep h m -> m !! hd = Some l -> n ∈ l ->
  wp (LOS_ListDelete n) (λ _ h', Rep h' (<[hd := list_remove_all n l]> m)) h.
Proof.
  intros HR Hm (l1 & l2 & ->)%list_elem_of_split.
  pose proof (rings_nodup _ (rep_rings _ _ HR) _ _ Hm) as [_ Hnd]%NoDup_cons.
  destruct (Rep_remove _ _ _ _ _ _ HR Hm) as (Hq & Hp & ? & ? & Hk).
  eapply wp_mono; [by eapply LOS_ListDelete_run|]. cbn. intros _ h' (H1 & H2 & H3 & H4 & H5).
  rewrite list_remove_all_mid by done. by apply Hk.
Qed.

(** A ring is added: [n] becomes an empty list head. *)
Lemma Rep_fresh h h' m n :
  Rep h m -> ~ owned m n \/ m !! n = Some [] ->
  node_at h' n = mk_LOS_DL_LIST (Some n) (Some n) ->
  (∀ x, x <> n -> node_at h' x = node_at h x) -> Rep h' (<[n := []]> m).
Proof.
  intros [[Hnd Hdj] Hlk Hnull] Hno Hn Hfr.
  assert (Hsep : ∀ hd l, m !! hd = Some l -> hd <> n -> n ∉ hd :: l).
  { intros hd l Hm Hne Hin. destruct Hno as [Hno|Hno].
    - apply Hno. by exists hd, l. - apply Hne. eapply Hdj; [exact Hm|exact Hno|done|left]. }
  split; [split|..].
  - intros hd l. rewrite lookup_insert. case_decide; intros; simplify_eq; [apply NoDup_singleton|eauto].
  - intros hd1 l1 hd2 l2 x. rewrite !lookup_insert. repeat case_decide; intros; simplify_eq; eauto.
    + exfalso. apply (Hsep hd2 l2); [done..|]. set_solver.
    + exfalso. apply (Hsep hd1 l1); [done..|]. set_solver.
  - intros hd l. rewrite lookup_insert. case_decide; intros; simplify_eq.
    + cbn. by rewrite Hn.
    + apply links_ext with h; [|eauto]. intros x Hx. apply Hfr. intros ->.
      eapply (Hsep hd l); [done..|]. set_solver.
  - intros x Hx.
    assert (x <> n). { intros ->. apply Hx. exists n, []. rewrite lookup_insert_eq. set_solver. }
    rewrite Hfr by done. apply Hnull. intros (hd & l & Hm & Hin). apply Hx. exists hd, l.
    rewrite lookup_insert_ne; [done|]. intros <-. destruct Hno as [Hno|Hno].
    + apply Hno. exists n, l. set_solver. + simplify_eq. set_solver.
Qed.

(** A ring is dropped: [n] is zero. *)
Lemma Rep_drop h h' m n :
  Rep h m -> ~ owned m n \/ m !! n = Some [] -> node_at h' n = node_null ->
  (∀ x, x <> n -> node_at h' x = node_at h x) -> Rep h' (delete n m).
Proof.
  intros [[Hnd Hdj] Hlk Hnull] Hno Hn Hfr.
  assert (Hsep : ∀ hd l, m !! hd = Some l -> hd <> n -> n ∉ hd :: l).
  { intros hd l Hm Hne Hin. destruct Hno as [Hno|Hno].
    - apply Hno. by exists hd, l. - apply Hne. eapply Hdj; [exact Hm|exact Hno|done|left]. }
  split; [split|..].
  - intros hd l. rewrite lookup_delete. case_decide; intros; simplify_eq; eauto.
  - intros hd1 l1 hd2 l2 x. rewrite !lookup_delete. repeat case_decide; intros; simplify_eq; eauto.
  - intros hd l. rewrite lookup_delete. case_decide; intros; simplify_eq.
    apply links_ext with h; [|eauto]. intros x Hx. apply Hfr. intros ->.
    eapply (Hsep hd l); [done..|]. set_solver.
  - intros x Hx. destruct (decide (x = n)) as [->|Hne]; [done|].
    rewrite Hfr by done. apply Hnull. intros (hd & l & Hm & Hin). apply Hx. exists hd, l.
    rewrite lookup_delete_ne; [done|]. intros <-. destruct Hno as [Hno|Hno].
    + apply Hno. exists n, l. set_solver. + simplify_eq. set_solver.
Qed.

Lemma Rep_init h m n :
  Rep h m -> ~ owned m n \/ m !! n = Some [] ->
  wp (LOS_ListInit n) (λ _ h', Rep h' (<[n := []]> m)) h.
Proof.
  intros HR Hno. eapply wp_mono; [apply LOS_ListInit_run|]. cbn. intros _ h' (H1 & H2 & H3).
  eapply Rep_fresh; [done..| |done]. destruct (node_at h' n). cbn in *. congruence.
Qed.

Lemma Rep_clear h m n :
  Rep h m -> ~ owned m n \/ m !! n = Some [] ->
  wp (ListClear n) (λ _ h', Rep h' (delete n m)) h.
Proof.
  intros HR Hno. eapply wp_mono; [apply ListClear_run|]. cbn. intros _ h' (H1 & H2).
  by eapply Rep_drop.
Qed.

Lemma Rep_delete_head h m n :
  Rep h m -> m !! n = Some [] -> wp (LOS_ListDelete n) (λ _ h', Rep h' (delete n m)) h.
Proof.
  intros HR Hm. pose proof (rep_links _ _ HR _ _ Hm) as [H1 H2].
  eapply wp_mono; [by apply LOS_ListDelete_self_run|]. cbn. intros _ h' (H3 & H4).
  eapply Rep_drop; eauto.
Qed.

Lemma Rep_tail_insert h m hd l n :
  Rep h m -> m !! hd = Some l -> ~ owned m n ->
  wp (LOS_ListTailInsert hd n) (λ _ h', Rep h' (<[hd := l ++ [n]]> m)) h.
Proof.
  intros HR Hm Hno. unfold LOS_ListTailInsert, get_pstPrev. wp_steps.
  eapply wp_of_option; [by apply links_prev, (rep_links _ _ HR)|].
  apply Rep_insert; [done| |done]. by rewrite app_nil_r.
Qed.

Lemma Rep_add_head h m hd l n :
  Rep h m -> m !! hd = Some l -> ~ owned m n ->
  wp (LOS_ListAdd hd n) (λ _ h', Rep h' (<[hd := n :: l]> m)) h.
Proof. intros HR Hm Hno. by apply (Rep_insert h m hd [] l n). Qed.

Lemma Rep_add_after h m hd l1 l2 p n :
  Rep h m -> m !! hd = Some (l1 ++ p :: l2) -> ~ owned m n ->
  wp (LOS_ListAdd p n) (λ _ h', Rep h' (<[hd := l1 ++ p :: n :: l2]> m)) h.
Proof.
  intros HR Hm Hno. pose proof (Rep_insert h m hd (l1 ++ [p]) l2 n HR) as H.
  rewrite last_snoc, <-!app_assoc in H. by apply H.
Qed.

Lemma Rep_delinit h m hd l n :
  Rep h m -> m !! hd = Some l -> n ∈ l ->
  wp (LOS_ListDelInit n) (λ _ h', Rep h' (<[n := []]> (<[hd := list_remove_all n l]> m))) h.
Proof.
  intros HR Hm (l1 & l2 & ->)%list_elem_of_split.
  pose proof (rings_nodup _ (rep_rings _ _ HR) _ _ Hm) as Hnd'.
  pose proof Hnd' as [_ Hnd]%NoDup_cons.
  destruct (Rep_remove _ _ _ _ _ _ HR Hm) as (Hq & Hp & ? & ? & Hk).
  eapply wp_mono; [by eapply LOS_ListDelInit_run|]. cbn. intros _ h' (H1 & H2 & H3 & H4 & H5).
  rewrite list_remove_all_mid by done.
  assert (HR' : Rep (<[n := node_null]> h') (<[hd := l1 ++ l2]> m)).
  { apply Hk; intros; rewrite ?node_at_insert; repeat case_decide; simplify_eq; auto. }
  eapply Rep_fresh; [exact HR'| |done|].
  - left. intros (hd' & l' & Hm' & Hin). apply lookup_insert_Some in Hm' as [[<- <-]|[Hne Hm']].
    + apply ring_split_NoDup in Hnd' as (_ & Hx%NoDup_cons & Hd). specialize (Hd n). set_solver.
    + apply Hne. eapply (rings_disj _ (rep_rings _ _ HR)); [exact Hm|exact Hm'| |exact Hin]. set_solver.
  - intros x Hx. rewrite node_at_insert. by rewrite decide_False.
Qed.

Lemma Rep_delinit_head h m n :
  Rep h m -> m !! n = Some [] -> wp (LOS_ListDelInit n) (λ _ h', Rep h' m) h.
Proof.
  intros HR Hm. pose proof (rep_links _ _ HR _ _ Hm) as [H1 H2].
  eapply wp_mono; [by apply LOS_ListDelInit_self_run|]. cbn. intros _ h' (H3 & H4).
  assert (E : <[n := []]> m = m) by by apply insert_id. rewrite <-E. eapply Rep_fresh; eauto.
Qed.

(** An insertion overwrites both pointers of the node inserted. *)
Lemma LOS_ListAdd_stale h (p n : Node) v : p <> n -> LOS_ListAdd p n (<[n := v]> h) = LOS_ListAdd p n h.
Proof.
  intros Hne. unfold LOS_ListAdd, get_pstNext, set_pstNext, set_pstPrev, mbind, M_bind, gets, modify, node_at. cbn.
  rewrite !(lookup_insert_ne _ n p), !lookup_insert_eq by done. cbn. by rewrite !insert_insert_eq.
Qed.

(** Insertion of a node that was the head of an empty list. *)
Lemma Rep_add_stale h m hd l n :
  Rep h m -> m !! hd = Some l -> m !! n = Some [] -> hd <> n ->
  wp (LOS_ListAdd hd n) (λ _ h', Rep h' (<[hd := n :: l]> (delete n m))) h.
Proof.
  intros HR Hm Hn Hne. unfold wp. rewrite <-(LOS_ListAdd_stale h hd n node_null) by done.
  apply Rep_add_head; [|by rewrite lookup_delete_ne|].
  - eapply Rep_drop; [done|by right|unfold node_at; by rewrite lookup_insert_eq|].
    intros x Hx. unfold node_at. by rewrite lookup_insert_ne.
  - intros (hd' & l' & Hm' & Hin). apply lookup_delete_Some in Hm' as [Hne' Hm'].
    apply Hne'. eapply (rings_disj _ (rep_rings _ _ HR)); [exact Hn|exact Hm'|left|done].
Qed.
(** ** Observations *)

Lemma Rep_empty h m hd l :
  Rep h m -> m !! hd = Some l ->
  LOS_ListEmpty hd h = Some (bool_decide (l = []), h).
Proof.
  intros HR Hm. pose proof (rep_links _ _ HR _ _ Hm) as Hlk%links_next.
  pose proof (rings_nodup _ (rep_rings _ _ HR) _ _ Hm) as [Hnd _]%NoDup_cons.
  unfold LOS_ListEmpty, get_pstNext, mbind, M_bind, gets, mret, M_ret. rewrite Hlk.
  do 2 f_equal. destruct l as [|z l]; cbn [List.hd]; [by rewrite !bool_decide_true|].
  rewrite !bool_decide_false; [done|done|]. intros [= ->]. set_solver.
Qed.

Lemma Rep_first h m hd l :
  Rep h m -> m !! hd = Some l -> pstNext (node_at h hd) = Some (List.hd hd l).
Proof. intros HR Hm. by eapply links_next, rep_links. Qed.

Lemma Rep_next h m hd l1 x l2 :
  Rep h m -> m !! hd = Some (l1 ++ x :: l2) -> pstNext (node_at h x) = Some (List.hd hd l2).
Proof. intros HR Hm. pose proof (rep_links _ _ HR _ _ Hm) as [_ H]%links_app. by eapply links_next. Qed.

Lemma Rep_prev h m hd l1 x l2 :
  Rep h m -> m !! hd = Some (l1 ++ x :: l2) -> pstPrev (node_at h x) = Some (default hd (last l1)).
Proof. intros HR Hm. pose proof (rep_links _ _ HR _ _ Hm) as [H _]%links_app. by eapply links_prev. Qed.

Lemma Rep_last h m hd l :
  Rep h m -> m !! hd = Some l -> pstPrev (node_at h hd) = Some (default hd (last l)).
Proof. intros HR Hm. by eapply links_prev, rep_links. Qed.

(** ** Membership *)

(** The ring that holds a node. *)
Definition home (m : gmap Node (list Node)) (n hd : Node) : Prop := ∃ l, m !! hd = Some l /\ n ∈ l.

Lemma home_owned m n hd : home m n hd -> owned m n.
Proof. intros (l & Hm & Hn). exists hd, l. set_solver. Qed.

Lemma home_unique m n hd1 hd2 : Rings m -> home m n hd1 -> home m n hd2 -> hd1 = hd2.
Proof. intros HR (l1 & H1 & ?) (l2 & H2 & ?). apply (rings_disj _ HR _ l1 _ l2 n); set_solver. Qed.

Lemma home_not_head m n hd : Rings m -> home m n hd -> m !! n = None.
Proof.
  intros HR (l & Hl & Hn). destruct (m !! n) as [l'|] eqn:E; [|done]. exfalso.
  assert (hd = n) as -> by (apply (rings_disj _ HR _ l _ l' n); set_solver).
  simplify_eq. pose proof (rings_nodup _ HR _ _ Hl) as [? _]%NoDup_cons. done.
Qed.

Lemma owned_cases m n : owned m n <-> is_Some (m !! n) \/ ∃ hd, home m n hd.
Proof.
  split.
  - intros (hd & l & Hm & [->|Hn]%elem_of_cons); [left; eauto|right]. by exists hd, l.
  - intros [[l Hl]|[hd Hh]]; [|by eapply home_owned]. exists n, l. set_solver.
Qed.

Lemma home_update m hd l n hd' :
  home (<[hd := l]> m) n hd' <-> (hd' = hd /\ n ∈ l) \/ (hd' <> hd /\ home m n hd').
Proof.
  unfold home. split.
  - intros (l' & Hl & Hn). apply lookup_insert_Some in Hl as [[-> ->]|[Hne Hl]]; [by left|right].
    split; [done|]. by exists l'.
  - intros [[-> Hn]|(Hne & l' & Hl & Hn)].
    + exists l. by rewrite lookup_insert_eq.
    + exists l'. by rewrite lookup_insert_ne.
Qed.

Lemma home_remove m hd l n n' hd' :
  Rings m -> m !! hd = Some l -> n ∈ l ->
  home (<[hd := list_remove_all n l]> m) n' hd' <-> home m n' hd' /\ n' <> n.
Proof.
  intros HR Hm Hn. rewrite home_update. split.
  - intros [[-> [? ?]%elem_of_list_remove_all]|[Hne Hh]]; [split; [by exists l|done]|].
    split; [done|]. intros ->. apply Hne. eapply home_unique; [done..|]. by exists l.
  - intros [Hh Hne]. destruct (decide (hd' = hd)) as [->|]; [left|by right].
    split; [done|]. destruct Hh as (l' & Hl' & ?). simplify_eq. by apply elem_of_list_remove_all.
Qed.

Lemma home_add m hd l l' n n' hd' :
  m !! hd = Some l -> l' ≡ₚ n :: l ->
  home (<[hd := l']> m) n' hd' <-> home m n' hd' \/ (n' = n /\ hd' = hd).
Proof.
  intros Hm Hp. rewrite home_update, Hp. split.
  - intros [[-> [->|]%elem_of_cons]|[? ?]]; auto. left. by exists l.
  - intros [Hh|[-> ->]]; [|left; set_solver].
    destruct (decide (hd' = hd)) as [->|]; [left|by right].
    split; [done|]. destruct Hh as (? & ? & ?). simplify_eq. set_solver.
Qed.

(** Every node of a ring is present in the memory, so that a walk of the ring
    is shorter than the memory is large. *)
Lemma Rep_node_present h m n : Rep h m -> owned m n -> n ∈ dom h.
Proof.
  intros HR (hd & l & Hm & Hn). pose proof (rep_links _ _ HR _ _ Hm) as Hlk.
  apply elem_of_dom. destruct (h !! n) as [v|] eqn:E; [eauto|exfalso].
  assert (nx h n <> None) as []; [|unfold node_at; by rewrite E].
  apply elem_of_cons in Hn as [->|(l1 & l2 & ->)%list_elem_of_split].
  - by rewrite (links_next _ _ _ _ Hlk).
  - apply links_app in Hlk as [_ Hlk]. by rewrite (links_next _ _ _ _ Hlk).
Qed.

Lemma Rep_ring_size h m hd l : Rep h m -> m !! hd = Some l -> (length l < size h)%nat.
Proof.
  intros HR Hm. pose proof (rings_nodup _ (rep_rings _ _ HR) _ _ Hm) as Hnd.
  assert (length (hd :: l) <= size h)%nat; [|cbn in *; lia].
  rewrite <-size_dom, <-(size_list_to_set (C := gset Node)) by done.
  apply subseteq_size. intros n Hn. eapply Rep_node_present; [done|].
  exists hd, l. set_solver.
Qed.

(** C2: Every operation of the intrusive list refines the operation on sequences: from a memory
    that represents the rings m, it does not fault and reaches a memory that represents the
    rings after the abstract operation. *)
Theorem op_refines h m op m' :
  Rep h m -> spec_op m op m' -> wp (run_op op) (λ _ h', Rep h' m') h.
Proof.
  intros HR [] ; cbn [run_op].
  - by apply Rep_init.
  - by apply Rep_add_head.
  - by apply Rep_add_stale.
  - by apply Rep_add_after.
  - by apply Rep_tail_insert.
  - by apply Rep_add_head.
  - by apply Rep_delete.
  - by apply Rep_delete_head.
  - by apply Rep_delinit.
  - by apply Rep_delinit_head.
  - by apply Rep_clear.
Qed.
End LosList.

#[global] Arguments LOS_DL_LIST : clear implicits.
