(* ===== verification/Membox.v ===== *)
(** Static memory boxes (src/kernel/src/mm/los_membox.c): pools of equal blocks
    with a free list threaded through the blocks; built with exception
    information (LOSCFG_PLATFORM_EXC == 1).

    The memory of the pools is a finite map from word addresses to 32-bit words;
    an access outside the map is a fault and NULL is 0. *)

From S2P Require Import Prelude Errno.

Record BoxMem := mk_BoxMem {
  words : gmap Z Z;
  g_memBoxHead : Z;
}.

Definition rd (a : Z) : M BoxMem Z := let* m := gets words in of_option (m !! a).
Definition wr (a v : Z) : M BoxMem unit :=
  let* _ := rd a in modify (λ m, mk_BoxMem (<[a := v]> (words m)) (g_memBoxHead m)).

(** Offsets of the fields of [LOS_MEMBOX_INFO], with 32-bit pointers. *)
Definition uwBlkSize (boxInfo : Z) : Z := boxInfo.
Definition uwBlkNum (boxInfo : Z) : Z := boxInfo + 4.
Definition uwBlkCnt (boxInfo : Z) : Z := boxInfo + 8.
Definition nextMemBox (boxInfo : Z) : Z := boxInfo + 12.
Definition stFreeList (boxInfo : Z) : Z := boxInfo + 16.
Definition sizeof_LOS_MEMBOX_INFO : Z := 20.
Definition OS_MEMBOX_NODE_HEAD_SIZE : Z := 4.

Definition OS_MEMBOX_MAGIC : Z := 0xa55a5a00.
Definition OS_MEMBOX_MAX_TASKID : Z := 255.
Definition OS_MEMBOX_TASKID_GET (addr : Z) : Z := Z.land addr OS_MEMBOX_MAX_TASKID.
Definition LOS_MEMBOX_ALIGNED (memAddr : Z) : Z := Z.land (u32 (memAddr + 3)) 0xFFFFFFFC.
Definition OS_MEMBOX_NEXT (addr blkSize : Z) : Z := u32 (addr + blkSize).
Definition OS_MEMBOX_USER_ADDR (addr : Z) : Z := u32 (addr + OS_MEMBOX_NODE_HEAD_SIZE).
Definition OS_MEMBOX_NODE_ADDR (addr : Z) : Z := u32 (addr - OS_MEMBOX_NODE_HEAD_SIZE).

Section Membox.
(** [LOSCFG_BASE_CORE_TSK_LIMIT], and the result of [LOS_CurTaskIDGet]. *)
Context (TSK_LIMIT curTaskID : Z).

(** [node->pstNext] is the first word of a node. *)
Definition OsMemBoxSetMagic (node : Z) : M BoxMem unit :=
  let taskID := u8 curTaskID in
  wr node (Z.lor OS_MEMBOX_MAGIC taskID).

Definition OsMemBoxCheckMagic (node : Z) : M BoxMem Z :=
  let* next := rd node in
  let taskID := OS_MEMBOX_TASKID_GET next in
  if taskID >? TSK_LIMIT + 1 then mret LOS_NOK
  else mret (if next =? Z.lor OS_MEMBOX_MAGIC taskID then LOS_OK else LOS_NOK).

Definition OsCheckBoxMem (boxInfo node : Z) : M BoxMem Z :=
  let* blkSize := rd (uwBlkSize boxInfo) in
  if blkSize =? 0 then mret LOS_NOK
  else
    let offset := u32 (node - (boxInfo + sizeof_LOS_MEMBOX_INFO)) in
    if negb (offset mod blkSize =? 0) then mret LOS_NOK
    else
      let* blkNum := rd (uwBlkNum boxInfo) in
      if offset / blkSize >=? blkNum then mret LOS_NOK
      else OsMemBoxCheckMagic node.

(** The walk to the last pool, at most [fuel] pools. *)
Fixpoint OsMemBoxAdd_loop (fuel : nat) (curPool nextPool : Z) : M BoxMem Z :=
  match fuel with
  | O => fault
  | S fuel =>
      if nextPool =? 0 then mret curPool
      else let* next := rd (nextMemBox nextPool) in OsMemBoxAdd_loop fuel nextPool next
  end.

Definition OsMemBoxAdd (pool : Z) : M BoxMem unit :=
  let* head := gets g_memBoxHead in
  let* m := gets words in
  let* curPool := OsMemBoxAdd_loop (S (size m)) 0 head in
  (if curPool =? 0 then modify (λ m, mk_BoxMem (words m) pool) else wr (nextMemBox curPool) pool) ;;;
  wr (nextMemBox pool) 0.

(** The loop that threads the free list, [index] nodes still to link. *)
Fixpoint LOS_MemboxInit_loop (index : nat) (blkSize node : Z) : M BoxMem Z :=
  match index with
  | O => mret node
  | S index =>
      wr node (OS_MEMBOX_NEXT node blkSize) ;;;
      let* node' := rd node in
      LOS_MemboxInit_loop index blkSize node'
  end.

Definition LOS_MemboxInit (pool poolSize blkSize : Z) : M BoxMem Z :=
  if pool =? 0 then mret LOS_NOK
  else if blkSize =? 0 then mret LOS_NOK
  else if poolSize <? sizeof_LOS_MEMBOX_INFO then mret LOS_NOK
  else
    let boxInfo := pool in
    wr (uwBlkSize boxInfo) (LOS_MEMBOX_ALIGNED (u32 (blkSize + OS_MEMBOX_NODE_HEAD_SIZE))) ;;;
    let* size := rd (uwBlkSize boxInfo) in
    assert (negb (size =? 0)) ;;;     (* division by zero *)
    wr (uwBlkNum boxInfo) ((poolSize - sizeof_LOS_MEMBOX_INFO) / size) ;;;
    wr (uwBlkCnt boxInfo) 0 ;;;
    let* num := rd (uwBlkNum boxInfo) in
    if num =? 0 then mret LOS_NOK
    else
      let node := boxInfo + sizeof_LOS_MEMBOX_INFO in
      wr (stFreeList boxInfo) node ;;;
      let* node := LOS_MemboxInit_loop (Z.to_nat (num - 1)) size node in
      wr node 0 ;;;
      OsMemBoxAdd pool ;;;
      mret LOS_OK.

(** The result is an address, 0 for NULL. *)
Definition LOS_MemboxAlloc (pool : Z) : M BoxMem Z :=
  if pool =? 0 then mret 0
  else
    let node := stFreeList pool in
    let* nodeTmp := rd node in
    if negb (nodeTmp =? 0) then
      let* next := rd nodeTmp in
      wr node next ;;;
      OsMemBoxSetMagic nodeTmp ;;;
      let* cnt := rd (uwBlkCnt pool) in
      wr (uwBlkCnt pool) (u32 (cnt + 1)) ;;;
      mret (OS_MEMBOX_USER_ADDR nodeTmp)
    else mret 0.

Definition LOS_MemboxFree (pool box : Z) : M BoxMem Z :=
  if (pool =? 0) || (box =? 0) then mret LOS_NOK
  else
    let node := OS_MEMBOX_NODE_ADDR box in
    let* ok := OsCheckBoxMem pool node in
    if negb (ok =? LOS_OK) then mret LOS_NOK
    else
      let* first := rd (stFreeList pool) in
      wr node first ;;;
      wr (stFreeList pool) node ;;;
      let* cnt := rd (uwBlkCnt pool) in
      wr (uwBlkCnt pool) (u32 (cnt - 1)) ;;;
      mret LOS_OK.

(** [memset_s] over whole words. *)
Fixpoint clear_words (n : nat) (a : Z) : M BoxMem unit :=
  match n with O => mret tt | S n => wr a 0 ;;; clear_words n (a + 4) end.

Definition LOS_MemboxClr (pool box : Z) : M BoxMem unit :=
  if (pool =? 0) || (box =? 0) then mret tt
  else
    let* blkSize := rd (uwBlkSize pool) in
    clear_words (Z.to_nat (u32 (blkSize - OS_MEMBOX_NODE_HEAD_SIZE) / 4)) box.

(** What is printed: the free nodes, at most [fuel] of them, and all nodes with
    their first words, [index] nodes still to visit. *)
Fixpoint LOS_ShowBox_free (fuel : nat) (node : Z) : M BoxMem (list Z) :=
  match fuel with
  | O => fault
  | S fuel =>
      if node =? 0 then mret []
      else
        let* next := rd node in
        let* rest := LOS_ShowBox_free fuel next in
        mret (node :: rest)
  end.
Fixpoint LOS_ShowBox_all (index : nat) (node blkSize : Z) : M BoxMem (list (Z * Z)) :=
  match index with
  | O => mret []
  | S index =>
      let* next := rd node in
      let* rest := LOS_ShowBox_all index (OS_MEMBOX_NEXT node blkSize) blkSize in
      mret ((node, next) :: rest)
  end.

Definition LOS_ShowBox (pool : Z) : M BoxMem (option (list Z * list (Z * Z))) :=
  if pool =? 0 then mret None
  else
    let* size := rd (uwBlkSize pool) in
    let* num := rd (uwBlkNum pool) in
    let* m := gets words in
    let* first := rd (stFreeList pool) in
    let* free := LOS_ShowBox_free (S (base.size m)) first in
    let* all := LOS_ShowBox_all (Z.to_nat num) (pool + sizeof_LOS_MEMBOX_INFO) size in
    mret (Some (free, all)).

(** The results are [*maxBlk], [*blkCnt] and [*blkSize]; [ptrs] says that the
    three pointers are not NULL. *)
Definition LOS_MemboxStatisticsGet (boxMem : Z) (ptrs : bool) : M BoxMem (Z * option (Z * Z * Z)) :=
  if (boxMem =? 0) || negb ptrs then mret (LOS_NOK, None)
  else
    let* num := rd (uwBlkNum boxMem) in
    let* cnt := rd (uwBlkCnt boxMem) in
    let* size := rd (uwBlkSize boxMem) in
    mret (LOS_OK, Some (num, cnt, size)).

(** [MemInfoCB] (src/utils/los_debug.h). *)
Record MemInfoCB := mk_MemInfoCB {
  mi_startAddr : Z;
  mi_size : Z;
  mi_free : Z;
  mi_blockSize : Z;
  mi_error : option (Z * Z * Z);      (* errorAddr, errorLen, errorOwner *)
}.

(** The scan for a damaged block; [index] blocks still to visit. *)
Fixpoint OsMemboxExcInfoGetSub_loop (index : nat) (poolStart poolEnd blkSize node : Z)
    : M BoxMem (option (Z * Z * Z)) :=
  match index with
  | O => mret None
  | S index =>
      if (node <? poolStart) || (node >=? poolEnd) then
        let* bad := OsMemBoxCheckMagic node in
        if negb (bad =? 0) then
          let* next := rd node in
          mret (Some (u32 (node + OS_MEMBOX_NODE_HEAD_SIZE), u32 (blkSize - OS_MEMBOX_NODE_HEAD_SIZE),
                      OS_MEMBOX_TASKID_GET next))
        else OsMemboxExcInfoGetSub_loop index poolStart poolEnd blkSize (OS_MEMBOX_NEXT node blkSize)
      else OsMemboxExcInfoGetSub_loop index poolStart poolEnd blkSize (OS_MEMBOX_NEXT node blkSize)
  end.

Definition OsMemboxExcInfoGetSub (pool : Z) : M BoxMem MemInfoCB :=
  let* size := rd (uwBlkSize pool) in
  let* num := rd (uwBlkNum pool) in
  let* cnt := rd (uwBlkCnt pool) in
  let poolEnd := u32 (pool + u32 (size * num) + sizeof_LOS_MEMBOX_INFO) in
  let* err := OsMemboxExcInfoGetSub_loop (Z.to_nat num) pool poolEnd size (pool + sizeof_LOS_MEMBOX_INFO) in
  mret (mk_MemInfoCB pool num (u32 (num - cnt)) size err).

(** The records written to the buffer; the walk visits at most [fuel] pools. *)
Fixpoint OsMemboxExcInfoGet_loop (fuel : nat) (memBox count memNumMax : Z) : M BoxMem (list MemInfoCB) :=
  match fuel with
  | O => fault
  | S fuel =>
      if memBox =? 0 then mret []
      else
        let* info := OsMemboxExcInfoGetSub memBox in
        if count + 1 >=? memNumMax then mret [info]
        else
          let* next := rd (nextMemBox memBox) in
          let* rest := OsMemboxExcInfoGet_loop fuel next (count + 1) memNumMax in
          mret (info :: rest)
  end.

Definition OsMemboxExcInfoGet (memNumMax : Z) : M BoxMem (list MemInfoCB) :=
  let* head := gets g_memBoxHead in
  let* m := gets words in
  OsMemboxExcInfoGet_loop (S (size m)) head 0 memNumMax.

End Membox.
