(* ===== verification/MemboxInv.v ===== *)
(** Correctness of the static memory boxes: a box is a stack of free blocks. *)

From S2P Require Import Prelude Errno Membox.

Lemma wp_rd a v Q (s : BoxMem) : words s !! a = Some v -> Q v s -> wp (rd a) Q s.
Proof. intros H HQ. unfold rd. wp_steps. by eapply wp_of_option. Qed.
Definition set_words (f : gmap Z Z -> gmap Z Z) (s : BoxMem) : BoxMem := mk_BoxMem (f (words s)) (g_memBoxHead s).
Lemma wp_wr a v Q (s : BoxMem) : is_Some (words s !! a) -> Q tt (set_words <[a := v]> s) -> wp (wr a v) Q s.
Proof. intros [w Hw] HQ. unfold wr. wp_steps. eapply wp_rd; [done|]. by wp_steps. Qed.

(** ** Specification

    The abstract state of a box is the list of its free blocks, by number, the
    first one to be handed out first. *)

Section box.
Context (LIMIT p bs num : Z).

Definition node (i : Z) : Z := p + 20 + bs * i.
Definition user (i : Z) : Z := node i + 4.

Inductive BoxOp := BoxAlloc (taskID : Z) | BoxFree (box : Z).

(** The number of the block of a pointer, if it is one. *)
Definition block_of (box : Z) : option Z :=
  let off := box - 4 - (p + 20) in
  if (0 <=? off) && (off mod bs =? 0) && (off / bs <? num) then Some (off / bs) else None.

Definition box_spec (op : BoxOp) (F : list Z) : Z * list Z :=
  match op with
  | BoxAlloc _ => match F with [] => (0, []) | i :: F => (user i, F) end
  | BoxFree box =>
      match block_of box with
      | Some i => if decide (i ∈ F) then (LOS_NOK, F) else (LOS_OK, i :: F)
      | None => (LOS_NOK, F)
      end
  end.

Definition box_op (op : BoxOp) : M BoxMem Z :=
  match op with
  | BoxAlloc taskID => LOS_MemboxAlloc taskID p
  | BoxFree box => LOS_MemboxFree LIMIT p box
  end.

Definition box_legal (op : BoxOp) : Prop :=
  match op with BoxAlloc t => 0 <= t <= 255 /\ t <= LIMIT + 1 | BoxFree box => 0 <= box < 2 ^ 32 end.

(** ** Representation *)

(** Blocks of at least two words, the box not at the addresses that look like marks. *)
Record box_ok : Prop := {
  bo_addr : 0 < p /\ node num < 2 ^ 32;
  bo_size : 8 <= bs;
  bo_num : 0 < num;
  bo_magic : node num <= OS_MEMBOX_MAGIC \/ OS_MEMBOX_MAGIC + 256 <= p;
}.

Definition free_addr (F : list Z) : Z := match F with [] => 0 | i :: _ => node i end.
Definition marked (w : Z) : Prop := ∃ t, 0 <= t <= 255 /\ t <= LIMIT + 1 /\ w = Z.lor OS_MEMBOX_MAGIC t.

Record Box (F : list Z) (s : BoxMem) : Prop := {
  bx_range : ∀ i, i ∈ F -> 0 <= i < num;
  bx_nodup : NoDup F;
  bx_size : words s !! uwBlkSize p = Some bs;
  bx_num : words s !! uwBlkNum p = Some num;
  bx_cnt : words s !! uwBlkCnt p = Some (num - Z.of_nat (length F));
  bx_first : words s !! stFreeList p = Some (free_addr F);
  bx_links : ∀ l1 i l2, F = l1 ++ i :: l2 -> words s !! node i = Some (free_addr l2);
  bx_used : ∀ i, 0 <= i < num -> i ∉ F -> ∃ w, words s !! node i = Some w /\ marked w;
}.

(** The words that belong to the box and not to its clients. *)
Definition box_meta (x : Z) : Prop := p <= x < p + 20 \/ ∃ i, 0 <= i < num /\ x = node i.

Context (Hok : box_ok).

Lemma node_above i : 0 <= i -> p + 20 <= node i.
Proof using Hok. intros H. destruct Hok. unfold node. nia. Qed.
Lemma node_below i : 0 <= i < num -> node i + 8 <= node num.
Proof using Hok. intros H. destruct Hok. unfold node. nia. Qed.
Lemma node_inj i j : node i = node j -> i = j.
Proof using Hok. intros H. destruct Hok. unfold node in H. nia. Qed.

Lemma mark_word t : 0 <= t <= 255 -> OS_MEMBOX_TASKID_GET (Z.lor OS_MEMBOX_MAGIC t) = t /\ OS_MEMBOX_MAGIC <= Z.lor OS_MEMBOX_MAGIC t < OS_MEMBOX_MAGIC + 256.
Proof using Type.
  intros Ht. unfold OS_MEMBOX_TASKID_GET, OS_MEMBOX_MAX_TASKID, OS_MEMBOX_MAGIC. change 255 with (Z.ones 8).
  assert (E : Z.lor 0xa55a5a00 t = 0xa55a5a00 + t).
  { rewrite <- (Z.lxor_lor), <- Z.add_nocarry_lxor; [done|..]; apply Z.bits_inj'; intros j Hj; rewrite Z.land_spec, Z.bits_0;
      (destruct (decide (j < 8)); [|rewrite (Z.bits_above_log2 t j), andb_false_r; [done|lia|]; destruct (decide (t = 0)) as [->|]; [cbn; lia|]; apply Z.log2_lt_pow2; [lia|]; eapply Z.lt_le_trans; [|apply Z.pow_le_mono_r with (b := 8); lia]; lia]);
      replace 0xa55a5a00 with (Z.shiftl 0xa55a5a 8) by done; rewrite Z.shiftl_spec_low by lia; done. }
  rewrite E. split; [|lia]. rewrite Z.land_ones by lia. change (2 ^ 8) with 256. replace (0xa55a5a00 + t) with (t + 0xa55a5a * 256) by lia. rewrite Z.mod_add by lia. apply Z.mod_small. lia.
Qed.

(** A word of a free block is no mark. *)
Lemma free_unmarked F t : (∀ i, i ∈ F -> 0 <= i < num) -> 0 <= t <= 255 -> free_addr F <> Z.lor OS_MEMBOX_MAGIC t.
Proof using Hok.
  intros HF Ht E. destruct (mark_word t Ht) as [_ Hm]. rewrite <- E in Hm. destruct F as [|i F]; cbn in Hm; [unfold OS_MEMBOX_MAGIC in *; lia|].
  specialize (HF i ltac:(set_solver)). pose proof (node_above i ltac:(lia)). pose proof (node_below i HF). destruct Hok as [_ _ _ [?|?]]; lia.
Qed.
End box.

Ltac fields := unfold uwBlkSize, uwBlkNum, uwBlkCnt, nextMemBox, stFreeList, sizeof_LOS_MEMBOX_INFO in *.
Ltac peek := repeat first [rewrite lookup_insert_eq | rewrite lookup_insert_ne by (fields; lia)].

Section ops.
Context {LIMIT p bs num : Z} (Hok : box_ok p bs num).
Abbreviation Box := (Box LIMIT p bs num).
Abbreviation nd := (node p bs).

Definition box_frame (s s' : BoxMem) : Prop := g_memBoxHead s' = g_memBoxHead s /\ (∀ x, ~ box_meta p bs num x -> words s' !! x = words s !! x) /\
  words s' !! nextMemBox p = words s !! nextMemBox p.

Lemma node_apart i j : 0 <= i -> 0 <= j -> i <> j -> nd i <> nd j.
Proof using Hok. intros Hi Hj Hne E. by apply Hne, (node_inj _ _ _ Hok). Qed.

Lemma box_length F : (∀ i, i ∈ F -> 0 <= i < num) -> NoDup F -> Z.of_nat (length F) <= num.
Proof using Hok.
  intros HF Hnd. assert (Hsub : F ⊆ seqZ 0 num) by (intros j Hj; apply elem_of_seqZ; pose proof (HF j Hj); lia).
  pose proof (submseteq_length _ _ (NoDup_submseteq _ _ Hnd Hsub)) as Hl. rewrite length_seqZ in Hl. pose proof (bo_num _ _ _ Hok). lia.
Qed.

Lemma box_alloc_wp F s t Q : Box F s -> 0 <= t <= 255 -> t <= LIMIT + 1 ->
  (∀ s', Box (box_spec p bs num (BoxAlloc t) F).2 s' -> box_frame s s' -> Q (box_spec p bs num (BoxAlloc t) F).1 s') ->
  wp (LOS_MemboxAlloc t p) Q s.
Proof using Hok.
  intros HB Ht Htl HQ. destruct (bo_addr _ _ _ Hok). pose proof (bo_size _ _ _ Hok). unfold LOS_MemboxAlloc. destruct (Z.eqb_spec p 0); [lia|].
  apply wp_bind. eapply wp_rd; [by apply (bx_first _ _ _ _ _ _ HB)|]. destruct F as [|i F]; cbn in HQ; cbn [free_addr].
  { cbn. apply wp_ret, HQ; [done|]. by split_and!. }
  pose proof (bx_range _ _ _ _ _ _ HB i ltac:(set_solver)) as Hi. pose proof (node_above _ _ _ Hok i ltac:(lia)). pose proof (node_below _ _ _ Hok i Hi).
  destruct (Z.eqb_spec (nd i) 0); [lia|]. cbn [negb]. apply wp_bind. eapply wp_rd; [by apply (bx_links _ _ _ _ _ _ HB [] i F)|].
  apply wp_bind, wp_wr; [rewrite (bx_first _ _ _ _ _ _ HB); eauto|]. unfold OsMemBoxSetMagic. apply wp_bind, wp_wr; [cbn; peek; rewrite (bx_links _ _ _ _ _ _ HB [] i F); eauto|].
  apply wp_bind. eapply wp_rd; [cbn; peek; apply (bx_cnt _ _ _ _ _ _ HB)|]. apply wp_bind, wp_wr; [cbn; peek; rewrite (bx_cnt _ _ _ _ _ _ HB); eauto|]. apply wp_ret.
  unfold OS_MEMBOX_USER_ADDR, OS_MEMBOX_NODE_HEAD_SIZE. rewrite (u32_id (nd i + 4)) by lia. replace (u8 t) with t by (unfold u8; rewrite Z.mod_small; lia).
  pose proof (bx_nodup _ _ _ _ _ _ HB) as [HiF Hnd]%NoDup_cons.
  pose proof (box_length (i :: F) (bx_range _ _ _ _ _ _ HB) (bx_nodup _ _ _ _ _ _ HB)) as Hlen. cbn in Hlen.
  assert (Hnum : num < 2 ^ 32) by (unfold node in *; nia). cbn [length]. rewrite u32_id by lia.
  apply HQ.
  - split; cbn; peek; try apply HB; try done.
    + intros j Hj. apply HB. set_solver.
    + f_equal. lia.
    + intros l1 j l2 E. assert (Hj : j ∈ F) by (rewrite E; set_solver). pose proof (bx_range _ _ _ _ _ _ HB j ltac:(set_solver)). pose proof (node_above _ _ _ Hok j ltac:(lia)).
      peek. rewrite lookup_insert_ne by (apply node_apart; [lia|lia|congruence]). peek. apply (bx_links _ _ _ _ _ _ HB (i :: l1)). by rewrite E.
    + intros j Hj HjF. pose proof (node_above _ _ _ Hok j ltac:(lia)). peek. destruct (decide (i = j)) as [->|Hne].
      * rewrite lookup_insert_eq. eexists. split; [done|]. exists t. done.
      * rewrite lookup_insert_ne by (apply node_apart; lia). peek. apply HB; [done|]. set_solver.
  - split_and!; [done| |cbn; by peek]. intros x Hx. assert (x <> nd i /\ ~ p <= x < p + 20) as [? ?] by (split; intros ?; apply Hx; [right; exists i; split; [lia|done]|by left]). cbn. by peek.
Qed.

(** The check finds out whether a pointer is a used block. *)
Lemma check_box_wp F s box Q : Box F s -> 0 <= box < 2 ^ 32 ->
  Q (match block_of p bs num box with Some i => if decide (i ∈ F) then LOS_NOK else LOS_OK | None => LOS_NOK end) s ->
  wp (OsCheckBoxMem LIMIT p (OS_MEMBOX_NODE_ADDR box)) Q s.
Proof using Hok.
  intros HB Hbox HQ. destruct (bo_addr _ _ _ Hok). pose proof (bo_size _ _ _ Hok). pose proof (bo_num _ _ _ Hok). unfold OsCheckBoxMem. apply wp_bind. eapply wp_rd; [apply HB|].
  destruct (Z.eqb_spec bs 0); [lia|]. unfold OS_MEMBOX_NODE_ADDR, OS_MEMBOX_NODE_HEAD_SIZE, sizeof_LOS_MEMBOX_INFO, block_of in *. unfold node in *.
  set (off := box - 4 - (p + 20)) in *. assert (Hu : u32 (u32 (box - 4) - (p + 20)) = off mod 2 ^ 32) by (unfold u32; by rewrite Zminus_mod_idemp_l). rewrite Hu.
  destruct (Z.leb_spec 0 off) as [Ho|Ho]; cbn [andb] in HQ.
  - rewrite (Z.mod_small off) by lia. destruct (Z.eqb_spec (off mod bs) 0) as [Hm|Hm]; cbn [negb andb] in HQ |- *; [|by apply wp_ret].
    apply wp_bind. eapply wp_rd; [apply HB|]. rewrite Z.geb_leb. destruct (Z.leb_spec num (off / bs)); destruct (Z.ltb_spec (off / bs) num); try lia; [by apply wp_ret|].
    assert (Hi : 0 <= off / bs < num) by (split; [apply Z.div_pos; lia|done]). set (i := off / bs) in *. assert (Eo : off = bs * i) by (pose proof (Z.div_mod off bs ltac:(lia)); lia).
    replace (u32 (box - 4)) with (nd i) by (unfold node; rewrite u32_id; lia). unfold OsMemBoxCheckMagic. case_decide as HF.
    + apply list_elem_of_split in HF as (l1 & l2 & E). apply wp_bind. eapply wp_rd; [exact (bx_links _ _ _ _ _ _ HB _ _ _ E)|].
      assert (Hfree : ∀ t, 0 <= t <= 255 -> free_addr p bs l2 <> Z.lor OS_MEMBOX_MAGIC t).
      { intros t Ht. apply (free_unmarked p bs num Hok); [|done]. intros j Hj. apply (bx_range _ _ _ _ _ _ HB). rewrite E. set_solver. }
      set (w := free_addr p bs l2) in *. destruct (_ >? _); [by apply wp_ret|]. apply wp_ret. destruct (Z.eqb_spec w (Z.lor OS_MEMBOX_MAGIC (OS_MEMBOX_TASKID_GET w))) as [Ew|]; [|done].
      exfalso. apply (Hfree (OS_MEMBOX_TASKID_GET w)); [|done]. unfold OS_MEMBOX_TASKID_GET, OS_MEMBOX_MAX_TASKID. change 255 with (Z.ones 8). rewrite Z.land_ones by lia.
      pose proof (Z.mod_pos_bound w (2 ^ 8) ltac:(lia)). change (Z.ones 8) with 255. lia.
    + destruct (bx_used _ _ _ _ _ _ HB i Hi HF) as (w & Hw & t & Ht & Htl & ->). apply wp_bind. eapply wp_rd; [done|]. destruct (mark_word t Ht) as [-> _].
      destruct (Z.gtb_spec t (LIMIT + 1)); [lia|]. rewrite Z.eqb_refl. by apply wp_ret.
  - assert (Hw : off mod 2 ^ 32 = off + 2 ^ 32) by (rewrite <- (Z.mod_add off 1) by lia; rewrite Z.mul_1_l; apply Z.mod_small; lia). rewrite Hw.
    destruct (Z.eqb_spec ((off + 2 ^ 32) mod bs) 0) as [Hm|]; cbn [negb]; [|by apply wp_ret]. apply wp_bind. eapply wp_rd; [apply HB|]. rewrite Z.geb_leb.
    destruct (Z.leb_spec num ((off + 2 ^ 32) / bs)) as [|Hlt]; [by apply wp_ret|]. pose proof (Z.div_mod (off + 2 ^ 32) bs ltac:(lia)). nia.
Qed.

Lemma box_free_wp F s box Q : Box F s -> 0 <= box < 2 ^ 32 ->
  (∀ s', Box (box_spec p bs num (BoxFree box) F).2 s' -> box_frame s s' -> Q (box_spec p bs num (BoxFree box) F).1 s') ->
  wp (LOS_MemboxFree LIMIT p box) Q s.
Proof using Hok.
  intros HB Hbox HQ. destruct (bo_addr _ _ _ Hok). pose proof (bo_size _ _ _ Hok). unfold LOS_MemboxFree. destruct (Z.eqb_spec p 0); [lia|]. cbn [orb]. cbn [box_spec] in HQ.
  assert (Hframe : box_frame s s) by by split_and!. destruct (Z.eqb_spec box 0) as [->|].
  { apply wp_ret. unfold block_of in HQ. destruct (Z.leb_spec 0 (0 - 4 - (p + 20))); [lia|]. by apply HQ. }
  apply wp_bind, (check_box_wp F); [done|done|]. unfold block_of in *. set (off := box - 4 - (p + 20)) in *.
  destruct ((0 <=? off) && (off mod bs =? 0) && (off / bs <? num)) eqn:Hc; [|apply wp_ret; by apply HQ]. apply andb_true_iff in Hc as [[Ho%Z.leb_le Hm%Z.eqb_eq]%andb_true_iff Hlt%Z.ltb_lt].
  set (i := off / bs) in *. assert (Hi : 0 <= i < num) by (split; [apply Z.div_pos; lia|done]). assert (Eo : off = bs * i) by (pose proof (Z.div_mod off bs ltac:(lia)); lia).
  destruct (decide (i ∈ F)) as [HF|HF]; [apply wp_ret; by apply HQ|]. cbn in HQ |- *.
  replace (OS_MEMBOX_NODE_ADDR box) with (nd i) by (unfold OS_MEMBOX_NODE_ADDR, OS_MEMBOX_NODE_HEAD_SIZE, node; rewrite u32_id; lia).
  pose proof (node_above _ _ _ Hok i ltac:(lia)). pose proof (node_below _ _ _ Hok i Hi). destruct (bx_used _ _ _ _ _ _ HB i Hi HF) as (w & Hw & _).
  apply wp_bind. eapply wp_rd; [apply (bx_first _ _ _ _ _ _ HB)|]. apply wp_bind, wp_wr; [rewrite Hw; eauto|]. apply wp_bind, wp_wr; [cbn; peek; rewrite (bx_first _ _ _ _ _ _ HB); eauto|].
  apply wp_bind. eapply wp_rd; [cbn; peek; apply (bx_cnt _ _ _ _ _ _ HB)|]. apply wp_bind, wp_wr; [cbn; peek; rewrite (bx_cnt _ _ _ _ _ _ HB); eauto|]. apply wp_ret.
  assert (Hlen : Z.of_nat (length (i :: F)) <= num < 2 ^ 32).
  { split; [|unfold node in *; nia]. apply (box_length (i :: F)); [|by apply NoDup_cons; split; [|apply HB]]. intros j [->|Hj]%elem_of_cons; [done|]. by apply (bx_range _ _ _ _ _ _ HB). }
  cbn in Hlen. rewrite u32_id by lia. apply HQ.
  - split; cbn [words set_words]; peek; try apply HB; try done.
    + intros j [->|Hj]%elem_of_cons; [done|]. by apply (bx_range _ _ _ _ _ _ HB).
    + apply NoDup_cons. split; [done|apply HB].
    + cbn. f_equal. lia.
    + intros l1 j l2 E. destruct l1 as [|j' l1]; injection E as <- E.
      * subst l2. by peek.
      * assert (Hj : j ∈ F) by (rewrite E; set_solver). pose proof (bx_range _ _ _ _ _ _ HB j Hj). pose proof (node_above _ _ _ Hok j ltac:(lia)).
        peek. rewrite lookup_insert_ne by (apply node_apart; [lia|lia|congruence]). by apply (bx_links _ _ _ _ _ _ HB l1).
    + intros j Hj HjF. pose proof (node_above _ _ _ Hok j ltac:(lia)). peek. rewrite lookup_insert_ne by (apply node_apart; [lia|lia|set_solver]). apply HB; [done|]. set_solver.
  - split_and!; [done| |cbn; by peek]. intros x Hx. assert (x <> nd i /\ ~ p <= x < p + 20) as [? ?] by (split; intros ?; apply Hx; [right; exists i; split; [lia|done]|by left]). cbn. by peek.
Qed.

Lemma box_step_wp F s op : Box F s -> box_legal LIMIT op ->
  wp (box_op LIMIT p op) (λ r s', r = (box_spec p bs num op F).1 /\ Box (box_spec p bs num op F).2 s' /\ box_frame s s') s.
Proof using Hok.
  intros HB Hl. destruct op as [t|box]; cbn [box_op box_legal] in *; [eapply box_alloc_wp|eapply box_free_wp]; done || tauto || auto.
Qed.
End ops.

(** ** Initialisation *)

(** The list of the boxes. *)
Definition first_box (L : list Z) : Z := match L with [] => 0 | q :: _ => q end.
Record Boxes (L : list Z) (s : BoxMem) : Prop := {
  bl_head : g_memBoxHead s = first_box L;
  bl_next : ∀ l1 q l2, L = l1 ++ q :: l2 -> q <> 0 /\ words s !! nextMemBox q = Some (first_box l2);
  bl_nodup : NoDup L;
}.

Lemma boxes_length L s : Boxes L s -> (length L <= size (words s))%nat.
Proof.
  intros [_ Hn Hnd]. rewrite <- (length_fmap nextMemBox L). apply nodup_size.
  - apply NoDup_fmap_2; [|done]. intros x y. unfold nextMemBox. lia.
  - intros x (q & -> & Hq)%list_elem_of_fmap. apply list_elem_of_split in Hq as (l1 & l2 & E). destruct (Hn _ _ _ E) as [_ ->]. eauto.
Qed.

Lemma add_box_loop_wp L s l1 l2 fuel cur Q : Boxes L s -> L = l1 ++ l2 -> (length l2 < fuel)%nat ->
  Q (default cur (last l2)) s -> wp (OsMemBoxAdd_loop fuel cur (first_box l2)) Q s.
Proof.
  intros HL. revert l1 cur fuel. induction l2 as [|q l2 IH]; intros l1 cur fuel E Hf HQ; (destruct fuel; [cbn in Hf; lia|]); cbn [OsMemBoxAdd_loop first_box].
  { by apply wp_ret. }
  destruct (bl_next _ _ HL _ _ _ E) as [Hq Hn]. destruct (Z.eqb_spec q 0); [done|]. apply wp_bind. eapply wp_rd; [done|].
  apply (IH (l1 ++ [q])); [by rewrite <- app_assoc|cbn in Hf; lia|]. rewrite last_cons in HQ. by destruct (last l2).
Qed.

Lemma add_box_wp p L s Q : Boxes L s -> 0 < p -> p ∉ L -> is_Some (words s !! nextMemBox p) ->
  (∀ s', Boxes (L ++ [p]) s' -> (∀ x, (∀ q, q ∈ p :: L -> x <> nextMemBox q) -> words s' !! x = words s !! x) ->
     (∀ x, is_Some (words s !! x) -> is_Some (words s' !! x)) -> Q tt s') ->
  wp (OsMemBoxAdd p) Q s.
Proof.
  intros HL Hp HpL Hm HQ. unfold OsMemBoxAdd. apply wp_bind, wp_gets, wp_bind, wp_gets, wp_bind. rewrite (bl_head _ _ HL).
  apply (add_box_loop_wp L s [] L); [done|done|pose proof (boxes_length _ _ HL); lia|]. destruct (list_snoc_case L) as [->|(l & q & E)].
  - cbn. apply wp_bind, wp_modify, wp_wr; [done|]. apply HQ; cbn.
    + split; cbn; [done| |apply NoDup_singleton]. intros l1 q l2 E. destruct l1 as [|? [|]]; simplify_eq/=. split; [lia|]. by rewrite lookup_insert_eq.
    + intros x Hx. rewrite lookup_insert_ne; [done|]. apply not_eq_sym, Hx. set_solver.
    + intros x Hx. by apply insert_dom.
  - destruct (bl_next _ _ HL _ _ _ E) as [Hq Hn]. assert (default 0 (last L) = q) as -> by (rewrite E; by rewrite last_snoc). destruct (Z.eqb_spec q 0); [done|].
    assert (Hqp : q <> p) by (intros ->; apply HpL; rewrite E; set_solver).
    apply wp_bind, wp_wr; [rewrite Hn; eauto|]. apply wp_wr; [by apply insert_dom|]. apply HQ; cbn.
    + split; cbn; [rewrite (bl_head _ _ HL), E; by destruct l| |apply NoDup_app; split_and!; [apply HL|set_solver|apply NoDup_singleton]].
      intros l1 q' l2 E'. destruct (list_snoc_case l2) as [->|(l2' & p' & ->)].
      * apply app_inj_tail in E' as [-> <-]. split; [lia|]. by rewrite lookup_insert_eq.
      * rewrite app_comm_cons, app_assoc in E'. apply app_inj_tail in E' as [E' <-]. destruct (bl_next _ _ HL _ _ _ E') as [Hq' Hn']. split; [done|].
        assert (q' <> p) by (intros ->; apply HpL; rewrite E'; set_solver). rewrite lookup_insert_ne by (unfold nextMemBox; lia).
        destruct l2' as [|q2 l2'].
        { rewrite E in E'. apply app_inj_tail in E' as [_ ->]. by rewrite lookup_insert_eq. }
        rewrite lookup_insert_ne; [done|]. unfold nextMemBox. intros Eq. assert (q = q') as -> by lia. pose proof (bl_nodup _ _ HL) as Hnd. rewrite E' in Hnd.
        apply NoDup_app in Hnd as (_ & _ & Hnd). apply NoDup_cons in Hnd as [Hnd _]. apply Hnd. rewrite E in E'.
        assert (El : last (l ++ [q']) = Some q') by apply last_snoc. rewrite E', last_app_cons, last_cons_cons in El. by apply last_Some_elem_of in El.
    + intros x Hx. rewrite !lookup_insert_ne; [done|..]; apply not_eq_sym, Hx; [rewrite E; set_solver|set_solver].
    + intros x Hx. by do 2 apply insert_dom.
Qed.

Definition box_size (blkSize : Z) : Z := LOS_MEMBOX_ALIGNED (u32 (blkSize + OS_MEMBOX_NODE_HEAD_SIZE)).

Lemma box_size_spec blkSize : 0 < blkSize < 2 ^ 32 - 8 -> 8 <= box_size blkSize /\ blkSize + 4 <= box_size blkSize <= blkSize + 7 /\ (4 | box_size blkSize).
Proof.
  intros H. unfold box_size, LOS_MEMBOX_ALIGNED, OS_MEMBOX_NODE_HEAD_SIZE. rewrite (u32_id (blkSize + 4)), u32_id by lia.
  assert (E : ∀ x, 0 <= x < 2 ^ 32 -> Z.land x 0xFFFFFFFC = x / 4 * 4).
  { intros x Hx. change 4 with (2 ^ 2). rewrite <- Z.shiftr_div_pow2, <- Z.shiftl_mul_pow2, <- Z.ldiff_ones_r by lia. apply Z.bits_inj'. intros j Hj.
    rewrite Z.land_spec, Z.ldiff_spec. destruct (decide (j < 32)).
    - assert (Hb : Z.testbit 0xFFFFFFFC j = negb (Z.testbit (Z.ones 2) j)); [|by rewrite Hb].
      assert (HF : Forall (λ j, Z.testbit 0xFFFFFFFC j = negb (Z.testbit (Z.ones 2) j)) (seqZ 0 32)) by (vm_compute; repeat constructor).
      apply (proj1 (Forall_forall _ _) HF), elem_of_seqZ. lia.
    - rewrite (Z.bits_above_log2 x j); [done|lia|]. destruct (decide (x = 0)) as [->|]; [cbn; lia|]. apply Z.log2_lt_pow2; [lia|]. eapply Z.lt_le_trans; [|apply (Z.pow_le_mono_r 2 32)]; lia. }
  rewrite E by lia. pose proof (Z.div_mod (blkSize + 4 + 3) 4 ltac:(lia)). pose proof (Z.mod_pos_bound (blkSize + 4 + 3) 4 ltac:(lia)).
  split_and!; try lia. by apply Z.divide_factor_r.
Qed.

Section init.
Context {p bs num : Z} (Hok : box_ok p bs num).
Abbreviation nd := (node p bs).

(** The loop links [m] blocks from block [k]. *)
Lemma init_loop_wp m k s Q : 0 <= k -> k + Z.of_nat m < num -> (∀ i, 0 <= i < num -> is_Some (words s !! nd i)) ->
  (∀ s', g_memBoxHead s' = g_memBoxHead s -> (∀ j, k <= j < k + Z.of_nat m -> words s' !! nd j = Some (nd (j + 1))) ->
     (∀ x, (∀ j, k <= j < k + Z.of_nat m -> x <> nd j) -> words s' !! x = words s !! x) ->
     (∀ x, is_Some (words s !! x) -> is_Some (words s' !! x)) -> Q (nd (k + Z.of_nat m)) s') ->
  wp (LOS_MemboxInit_loop m bs (nd k)) Q s.
Proof using Hok.
  revert k s Q. induction m as [|m IH]; intros k s Q Hk Hm Hd HQ; cbn [LOS_MemboxInit_loop].
  { apply wp_ret. rewrite Z.add_0_r in HQ. apply HQ; try done. intros j Hj. lia. }
  destruct (bo_addr _ _ _ Hok). pose proof (node_below _ _ _ Hok (k + 1) ltac:(lia)). pose proof (node_above _ _ _ Hok (k + 1) ltac:(lia)).
  assert (En : OS_MEMBOX_NEXT (nd k) bs = nd (k + 1)) by (unfold OS_MEMBOX_NEXT; rewrite u32_id; unfold node in *; lia). rewrite En.
  apply wp_bind, wp_wr; [apply Hd; lia|]. apply wp_bind. eapply wp_rd; [cbn; by rewrite lookup_insert_eq|]. apply IH; [lia|lia|intros i Hi; cbn; by apply insert_dom, Hd|].
  intros s' Hg Hl Hkp Hdm. cbn in *. replace (k + 1 + Z.of_nat m) with (k + Z.of_nat (S m)) in * by lia. apply HQ.
  - done.
  - intros j Hj. destruct (decide (j = k)) as [->|]; [|apply Hl; lia]. rewrite Hkp, lookup_insert_eq; [done|]. intros j' Hj' E. apply (node_inj _ _ _ Hok) in E. lia.
  - intros x Hx. rewrite Hkp by (intros j Hj; apply Hx; lia). rewrite lookup_insert_ne; [done|]. apply not_eq_sym, Hx. lia.
  - intros x Hx. apply Hdm. by apply insert_dom.
Qed.
End init.

Lemma box_init_wp LIMIT p poolSize blkSize L s Q (bs := box_size blkSize) (num := (poolSize - 20) / bs) :
  Boxes L s -> box_ok p bs num -> 0 < blkSize < 2 ^ 32 - 8 -> p + poolSize < 2 ^ 32 -> (∀ x, p <= x < p + poolSize -> (4 | x - p) -> is_Some (words s !! x)) ->
  p ∉ L -> (∀ q, q ∈ L -> ~ p <= nextMemBox q < p + poolSize) ->
  (∀ s', Box LIMIT p bs num (seqZ 0 num) s' -> Boxes (L ++ [p]) s' -> Q LOS_OK s') ->
  wp (LOS_MemboxInit p poolSize blkSize) Q s.
Proof.
  intros HL Hok Hbs Hend Hmap HpL Hdis HQ. destruct (bo_addr _ _ _ Hok). pose proof (bo_num _ _ _ Hok). destruct (box_size_spec blkSize Hbs) as (Hb8 & _ & [b4 Hb4]). fold bs in Hb8, Hb4.
  assert (Hnum : bs * num <= poolSize - 20) by (apply Z.mul_div_le; lia). assert (bs <= bs * num) by nia.
  assert (Ebs : box_size blkSize = bs) by done. assert (Enum : (poolSize - 20) / bs = num) by done. clearbody num. clearbody bs.
  assert (Htop : node p bs num <= p + poolSize) by (unfold node; lia).
  assert (Hm : ∀ x k, x = p + 4 * k -> p <= x < p + poolSize -> is_Some (words s !! x)) by (intros x k -> Hx; apply Hmap; [done|]; exists k; lia).
  assert (Hmn : ∀ i, 0 <= i < num -> is_Some (words s !! node p bs i)) by (intros i Hi; apply (Hm _ (5 + b4 * i)); [|pose proof (node_below _ _ _ Hok i Hi)]; unfold node in *; nia).
  unfold LOS_MemboxInit, sizeof_LOS_MEMBOX_INFO. destruct (Z.eqb_spec p 0); [lia|]. destruct (Z.eqb_spec blkSize 0); [lia|]. destruct (Z.ltb_spec poolSize 20); [lia|].
  fold (box_size blkSize). rewrite Ebs. apply wp_bind, wp_wr; [apply (Hm _ 0); fields; lia|]. apply wp_bind. eapply wp_rd; [cbn; by rewrite lookup_insert_eq|].
  apply wp_bind, wp_assert; [by destruct (Z.eqb_spec bs 0); [lia|]|]. rewrite Enum. apply wp_bind, wp_wr; [cbn; apply insert_dom, (Hm _ 1); fields; lia|].
  apply wp_bind, wp_wr; [cbn; do 2 apply insert_dom; apply (Hm _ 2); fields; lia|]. apply wp_bind. eapply wp_rd; [cbn; by peek|]. destruct (Z.eqb_spec num 0); [lia|].
  apply wp_bind, wp_wr; [cbn; do 3 apply insert_dom; apply (Hm _ 4); fields; lia|]. apply wp_bind. replace (p + 20) with (node p bs 0) by (unfold node; lia).
  apply (init_loop_wp Hok); [lia|lia|intros i Hi; cbn; do 4 apply insert_dom; auto|]. rewrite Z2Nat.id by lia. cbn. intros s1 Hg1 Hl1 Hk1 Hd1. rewrite ?(Z.add_0_l (num - 1)) in *.
  assert (Hnode : ∀ j, 0 <= j < num -> p + 20 <= node p bs j /\ node p bs j + 8 <= node p bs num) by (intros j Hj; split; [apply (node_above _ _ _ Hok); lia|by apply (node_below _ _ _ Hok)]).
  apply wp_bind, wp_wr; [apply Hd1; do 4 apply insert_dom; apply Hmn; lia|]. set (s2 := set_words _ s1).
  assert (Hlow : ∀ x, x < p + 20 \/ node p bs num <= x -> words s2 !! x = words s1 !! x /\ words s1 !! x =
    <[stFreeList p:=node p bs 0]> (<[uwBlkCnt p:=0]> (<[uwBlkNum p:=num]> (<[uwBlkSize p:=bs]> (words s)))) !! x).
  { intros x Hx. unfold s2. cbn. pose proof (Hnode (num - 1) ltac:(lia)). rewrite lookup_insert_ne by lia. split; [done|]. apply Hk1. intros j Hj. pose proof (Hnode j ltac:(lia)). lia. }
  assert (HLs : Boxes L s2).
  { split; [unfold s2; cbn; rewrite Hg1; apply HL| |apply HL]. intros l1 q l2 E. destruct (bl_next _ _ HL _ _ _ E) as [Hq Hn]. split; [done|].
    specialize (Hdis q ltac:(rewrite E; set_solver)). destruct (Hlow (nextMemBox q)) as [-> ->]; [lia|]. by peek. }
  apply wp_bind, (add_box_wp p L s2); [done|done|done|unfold s2; cbn; apply insert_dom, Hd1; do 4 apply insert_dom; apply (Hm _ 3); fields; lia|].
  intros s3 HL3 Hk3 Hd3. apply wp_ret, HQ; [|done].
  assert (Hk3' : ∀ x, p <= x < p + poolSize -> x <> nextMemBox p -> words s3 !! x = words s2 !! x).
  { intros x Hx Hn. apply Hk3. intros q [->|Hq]%elem_of_cons; [done|]. intros ->. by apply (Hdis q). }
  assert (Hhd : ∀ x, p <= x < p + 20 -> x <> nextMemBox p -> words s3 !! x = <[stFreeList p:=node p bs 0]> (<[uwBlkCnt p:=0]> (<[uwBlkNum p:=num]> (<[uwBlkSize p:=bs]> (words s)))) !! x).
  { intros x Hx Hn. rewrite Hk3' by lia. destruct (Hlow x) as [-> ->]; [lia|done]. }
  assert (Hlen : Z.of_nat (length (seqZ 0 num)) = num) by (rewrite length_seqZ; lia).
  split.
  - intros i Hi%elem_of_seqZ. lia.
  - apply NoDup_seqZ.
  - rewrite Hhd by (fields; lia). by peek.
  - rewrite Hhd by (fields; lia). by peek.
  - rewrite Hhd by (fields; lia). peek. f_equal. lia.
  - rewrite Hhd by (fields; lia). peek. rewrite (seqZ_cons 0 num) by lia. done.
  - intros l1 i l2 E. assert (Hi : seqZ 0 num !! length l1 = Some i) by (rewrite E; by apply list_lookup_middle). apply lookup_seqZ in Hi as [-> Hi]. cbn in Hi.
    pose proof (Hnode (0 + Z.of_nat (length l1)) ltac:(lia)). rewrite Hk3' by (unfold node in *; fields; lia). unfold s2. cbn.
    assert (Hl2 : Z.of_nat (length l1) + 1 + Z.of_nat (length l2) = num) by (rewrite <- Hlen, E, length_app; cbn; lia).
    destruct l2 as [|i2 l2].
    + replace (num - 1) with (Z.of_nat (length l1)) by (cbn in Hl2; lia). by rewrite lookup_insert_eq.
    + assert (Hi2 : seqZ 0 num !! S (length l1) = Some i2) by (rewrite E, cons_middle, app_assoc; apply list_lookup_middle; rewrite length_app; cbn; lia).
      apply lookup_seqZ in Hi2 as [-> _]. cbn in Hl2. rewrite lookup_insert_ne by (unfold node; nia). rewrite Hl1 by lia. cbn. do 2 f_equal. lia.
  - intros i Hi Hn. destruct Hn. apply elem_of_seqZ. lia.
Qed.

(** ** Clients *)

Fixpoint run_box (LIMIT p : Z) (c : list Z -> option BoxOp) (m : nat) (hist : list Z) : M BoxMem (list Z) :=
  match m with
  | O => mret hist
  | S m => match c hist with None => mret hist | Some op => let* r := box_op LIMIT p op in run_box LIMIT p c m (r :: hist) end
  end.
Fixpoint spec_box (p bs num : Z) (c : list Z -> option BoxOp) (m : nat) (hist F : list Z) : list Z * list Z :=
  match m with
  | O => (hist, F)
  | S m => match c hist with None => (hist, F) | Some op => let '(r, F) := box_spec p bs num op F in spec_box p bs num c m (r :: hist) F end
  end.

(** C40: A static box is a stack of block numbers: after LOS_MemboxInit on raw memory, every
    sequence of allocations and releases, of any pointers whatever, returns exactly what the
    stack says; a release of a pointer that is not a used block of the box, as a second release,
    is refused. *)
Theorem membox_correct LIMIT p poolSize blkSize L s c m (bs := box_size blkSize) (num := (poolSize - 20) / bs) :
  Boxes L s -> box_ok p bs num -> 0 < blkSize < 2 ^ 32 - 8 -> p + poolSize < 2 ^ 32 ->
  (∀ x, p <= x < p + poolSize -> (4 | x - p) -> is_Some (words s !! x)) ->
  p ∉ L -> (∀ q, q ∈ L -> ~ p <= nextMemBox q < p + poolSize) ->
  (∀ hist op, c hist = Some op -> box_legal LIMIT op) ->
  wp (let* ret := LOS_MemboxInit p poolSize blkSize in
      let* hist := run_box LIMIT p c m [] in
      mret (ret, hist))
    (λ r s', r.1 = LOS_OK /\ r.2 = (spec_box p bs num c m [] (seqZ 0 num)).1 /\
       Box LIMIT p bs num (spec_box p bs num c m [] (seqZ 0 num)).2 s') s.
Proof.
  intros HL Hok Hbs Hend Hmap HpL Hdis Hc. apply wp_bind, (box_init_wp LIMIT p poolSize blkSize L); try done. intros s1 HB1 _. apply wp_bind.
  assert (Hgen : ∀ m hist F s, Box LIMIT p bs num F s ->
    wp (run_box LIMIT p c m hist) (λ h s', h = (spec_box p bs num c m hist F).1 /\ Box LIMIT p bs num (spec_box p bs num c m hist F).2 s') s).
  { clear m s1 HB1. intros m. induction m as [|m IH]; intros hist F s1 HB; cbn; [by apply wp_ret|]. destruct (c hist) as [op|] eqn:Hop; [|by apply wp_ret].
    apply wp_bind. eapply wp_mono; [by eapply (box_step_wp Hok); [|eapply Hc]|]. intros r s2 (-> & HB2 & _). destruct (box_spec p bs num op F) as [r F']. by apply IH. }
  eapply wp_mono; [by apply Hgen|]. intros h s' [-> HB']. by apply wp_ret.
Qed.
