(* ===== verification/Memory.v ===== *)
(** The dynamic memory allocator (src/kernel/src/mm/los_memory.c): a two-level
    segregated fit over pools, in the default configuration: several pools
    (LOSCFG_MEM_MUL_POOL), the water line, no expansion, no memory regions, no
    node magic, no leak check and no task identifiers in the nodes.

    Pools live in a memory of 32-bit words at 4-byte aligned addresses; an
    access outside the memory is a fault, NULL is 0, and a structure is
    accessed at the offsets of its fields. *)

From S2P Require Import Prelude Errno Membox.

Record Heap := mk_Heap {
  g_poolHead : Z;
  mem : gmap Z Z;
}.
Definition set_mem (f : gmap Z Z -> gmap Z Z) (s : Heap) : Heap := mk_Heap (g_poolHead s) (f (mem s)).
Definition set_g_poolHead (v : Z) (s : Heap) : Heap := mk_Heap v (mem s).

Definition ld (a : Z) : M Heap Z := let* m := gets mem in of_option (m !! a).
Definition st (a v : Z) : M Heap unit := let* _ := ld a in modify (set_mem <[a := v]>).

(** ** Two-level index of a size *)

Definition OS_MEM_BITMAP_MASK : Z := 0x1F.
Definition OS_MEM_SLI : Z := 3.
Definition OS_MEM_SMALL_BUCKET_COUNT : Z := 31.
Definition OS_MEM_SMALL_BUCKET_MAX_SIZE : Z := 128.
Definition OS_MEM_LARGE_BUCKET_COUNT : Z := 24.
Definition OS_MEM_LARGE_START_BUCKET : Z := 7.
Definition OS_MEM_FREE_LIST_COUNT : Z := OS_MEM_SMALL_BUCKET_COUNT + Z.shiftl OS_MEM_LARGE_BUCKET_COUNT OS_MEM_SLI.
Definition OS_MEM_BITMAP_WORDS : Z := Z.shiftr OS_MEM_FREE_LIST_COUNT 5 + 1.

Definition OsMemFFS (bitmap : Z) : Z :=
  let bitmap := Z.land bitmap (u32 (Z.lnot bitmap + 1)) in
  OS_MEM_BITMAP_MASK - CLZ bitmap.
Definition OsMemFLS (bitmap : Z) : Z := OS_MEM_BITMAP_MASK - CLZ bitmap.
Definition OsMemLog2 (size : Z) : Z := if size >? 0 then OsMemFLS size else 0.

Definition OsMemFlGet (size : Z) : Z :=
  if size <? OS_MEM_SMALL_BUCKET_MAX_SIZE then u32 (Z.shiftr size 2 - 1)
  else u32 (OsMemLog2 size - OS_MEM_LARGE_START_BUCKET + OS_MEM_SMALL_BUCKET_COUNT).

Definition OsMemSlGet (size fl : Z) : Z :=
  if (fl <? OS_MEM_SMALL_BUCKET_COUNT) || (size <? OS_MEM_SMALL_BUCKET_MAX_SIZE) then 0
  else
    let sl := Z.shiftr (u32 (Z.shiftl size OS_MEM_SLI))
                (u32 (fl - OS_MEM_SMALL_BUCKET_COUNT + OS_MEM_LARGE_START_BUCKET)) in
    u32 (sl - Z.shiftl 1 OS_MEM_SLI).

Definition OsMemFreeListIndexGet (size : Z) : Z :=
  let fl := OsMemFlGet size in
  if fl <? OS_MEM_SMALL_BUCKET_COUNT then fl
  else
    let sl := OsMemSlGet size fl in
    u32 (OS_MEM_SMALL_BUCKET_COUNT + Z.shiftl (fl - OS_MEM_SMALL_BUCKET_COUNT) OS_MEM_SLI + sl).

(** ** Pool head and nodes

    [struct OsMemPoolHead]: the information, the bitmap and the heads of the
    free lists, and the next pool. [struct OsMemNodeHead] and
    [struct OsMemFreeNodeHead], which is longer by two links. *)

Definition info_pool (pool : Z) : Z := pool.
Definition info_totalSize (pool : Z) : Z := pool + 4.
Definition info_attr (pool : Z) : Z := pool + 8.
Definition info_waterLine (pool : Z) : Z := pool + 12.
Definition info_curUsedSize (pool : Z) : Z := pool + 16.
Definition freeListBitmap (pool i : Z) : M Heap Z :=
  assert ((0 <=? i) && (i <? OS_MEM_BITMAP_WORDS)) ;;; mret (pool + 20 + 4 * i).
Definition freeList (pool i : Z) : M Heap Z :=
  assert ((0 <=? i) && (i <? OS_MEM_FREE_LIST_COUNT)) ;;; mret (pool + 48 + 4 * i).
Definition nextPool (pool : Z) : Z := pool + 940.
Definition sizeof_OsMemPoolHead : Z := 944.

Definition ptr_prev (node : Z) : Z := node.
Definition sizeAndFlag (node : Z) : Z := node + 4.
Definition free_prev (node : Z) : Z := node + 8.
Definition free_next (node : Z) : Z := node + 12.
Definition OS_MEM_NODE_HEAD_SIZE : Z := 8.
Definition OS_MEM_MIN_LEFT_SIZE : Z := 16.
Definition OS_MEM_MIN_POOL_SIZE : Z := OS_MEM_NODE_HEAD_SIZE + sizeof_OsMemPoolHead.
Definition OS_MEM_MIN_ALLOC_SIZE : Z := 8.
Definition OS_MEM_ALIGN_SIZE : Z := 4.

Definition OS_MEM_POOL_EXPAND_ENABLE : Z := 0x01.
Definition OS_MEM_POOL_UNLOCK_ENABLE : Z := 0x02.
Definition OS_MEM_NODE_USED_FLAG : Z := 0x80000000.
Definition OS_MEM_NODE_ALIGNED_FLAG : Z := 0x40000000.
Definition OS_MEM_NODE_ALIGNED_AND_USED_FLAG : Z := Z.lor OS_MEM_NODE_USED_FLAG OS_MEM_NODE_ALIGNED_FLAG.
Definition OS_MEM_NODE_GET_ALIGNED_FLAG (w : Z) : bool := test w OS_MEM_NODE_ALIGNED_FLAG.
Definition OS_MEM_NODE_GET_USED_FLAG (w : Z) : bool := test w OS_MEM_NODE_USED_FLAG.
Definition OS_MEM_NODE_GET_SIZE (w : Z) : Z := clrf OS_MEM_NODE_ALIGNED_AND_USED_FLAG w.
Definition OS_MEM_GAPSIZE_USED_FLAG : Z := 0x80000000.
Definition OS_MEM_GAPSIZE_ALIGNED_FLAG : Z := 0x40000000.
Definition OS_MEM_GET_ALIGNED_GAPSIZE (w : Z) : Z := clrf OS_MEM_GAPSIZE_ALIGNED_FLAG w.
Definition OS_MEM_GET_GAPSIZE_ALIGNED_FLAG (w : Z) : bool := test w OS_MEM_GAPSIZE_ALIGNED_FLAG.
Definition OS_MEM_GAPSIZE_CHECK (w : Z) : bool :=
  OS_MEM_GET_GAPSIZE_ALIGNED_FLAG w && test w OS_MEM_GAPSIZE_USED_FLAG.

Definition OS_MEM_IS_POW_TWO (value : Z) : bool := Z.land value (u32 (value - 1)) =? 0.
Definition OS_MEM_ALIGN (p alignSize : Z) : Z := Z.ldiff (u32 (p + alignSize - 1)) (u32 (alignSize - 1)).
Definition OS_MEM_IS_ALIGNED (a b : Z) : bool := Z.land a (u32 (b - 1)) =? 0.

Definition OS_MEM_NEXT_NODE (node : Z) : M Heap Z :=
  let* w := ld (sizeAndFlag node) in mret (u32 (node + OS_MEM_NODE_GET_SIZE w)).
Definition OS_MEM_FIRST_NODE (pool : Z) : Z := pool + sizeof_OsMemPoolHead.
Definition OS_MEM_END_NODE (pool size : Z) : Z := u32 (pool + size - OS_MEM_NODE_HEAD_SIZE).
Definition OS_MEM_MIDDLE_ADDR_OPEN_END (startAddr middleAddr endAddr : Z) : bool :=
  (startAddr <=? middleAddr) && (middleAddr <? endAddr).
Definition OS_MEM_MIDDLE_ADDR (startAddr middleAddr endAddr : Z) : bool :=
  (startAddr <=? middleAddr) && (middleAddr <=? endAddr).

(** [size |= flag] *)
Definition OS_MEM_NODE_SET_USED_FLAG (node : Z) : M Heap unit :=
  let* w := ld (sizeAndFlag node) in st (sizeAndFlag node) (setf OS_MEM_NODE_USED_FLAG w).
Definition OS_MEM_NODE_SET_ALIGNED_FLAG (node : Z) : M Heap unit :=
  let* w := ld (sizeAndFlag node) in st (sizeAndFlag node) (setf OS_MEM_NODE_ALIGNED_FLAG w).

Definition OsMemWaterUsedRecord (pool size : Z) : M Heap unit :=
  let* used := ld (info_curUsedSize pool) in
  st (info_curUsedSize pool) (u32 (used + size)) ;;;
  let* used := ld (info_curUsedSize pool) in
  let* water := ld (info_waterLine pool) in
  when (used >? water) (st (info_waterLine pool) used).

(** ** Free lists *)

(** Loops that follow pointers visit at most as many nodes as memory has words. *)
Definition walk_fuel : M Heap nat := let* m := gets mem in mret (S (size m)).

Fixpoint OsMemFindCurSuitableBlock_loop (fuel : nat) (node size : Z) : M Heap Z :=
  match fuel with
  | O => fault
  | S fuel =>
      if node =? 0 then mret 0
      else
        let* w := ld (sizeAndFlag node) in
        if w >=? size then mret node
        else let* next := ld (free_next node) in OsMemFindCurSuitableBlock_loop fuel next size
  end.

Definition OsMemFindCurSuitableBlock (poolHead index size : Z) : M Heap Z :=
  let* fl := freeList poolHead index in
  let* node := ld fl in
  let* fuel := walk_fuel in
  OsMemFindCurSuitableBlock_loop fuel node size.

Definition OsMemNotEmptyIndexGet (poolHead index : Z) : M Heap Z :=
  let* b := freeListBitmap poolHead (Z.shiftr index 5) in
  let* mask := ld b in
  let mask := Z.land mask (u32 (Z.lnot (Z.shiftl 1 (Z.land index OS_MEM_BITMAP_MASK) - 1))) in
  if negb (mask =? 0) then mret (u32 (OsMemFFS mask + Z.ldiff index OS_MEM_BITMAP_MASK))
  else mret OS_MEM_FREE_LIST_COUNT.

(** The scan of the remaining words of the bitmap: an index, or none. *)
Fixpoint OsMemFindNextSuitableBlock_loop (fuel : nat) (poolHead index : Z) : M Heap (option Z) :=
  match fuel with
  | O => fault
  | S fuel =>
      if index <? OS_MEM_FREE_LIST_COUNT then
        let* b := freeListBitmap poolHead (Z.shiftr index 5) in
        let* mask := ld b in
        if negb (mask =? 0) then mret (Some (OsMemFFS mask + index))
        else OsMemFindNextSuitableBlock_loop fuel poolHead (index + 32)
      else mret None
  end.

(** The result is the block and [*outIndex]. *)
Definition OsMemFindNextSuitableBlock (poolHead size : Z) : M Heap (Z * Z) :=
  let fl := OsMemFlGet size in
  let curIndex :=
    if fl <? OS_MEM_SMALL_BUCKET_COUNT then OS_MEM_FREE_LIST_COUNT
    else u32 (Z.shiftl (fl - OS_MEM_SMALL_BUCKET_COUNT) OS_MEM_SLI + OsMemSlGet size fl + OS_MEM_SMALL_BUCKET_COUNT) in
  let index := if fl <? OS_MEM_SMALL_BUCKET_COUNT then fl else u32 (curIndex + 1) in
  let* tmp := OsMemNotEmptyIndexGet poolHead index in
  let* found :=
    if negb (tmp =? OS_MEM_FREE_LIST_COUNT) then mret (Some tmp)
    else OsMemFindNextSuitableBlock_loop 8 poolHead (LOS_Align (u32 (index + 1)) 32) in
  match found with
  | Some index =>
      let* fl := freeList poolHead index in
      let* node := ld fl in
      mret (node, index)
  | None =>
      if curIndex =? OS_MEM_FREE_LIST_COUNT then mret (0, curIndex)
      else let* node := OsMemFindCurSuitableBlock poolHead curIndex size in mret (node, curIndex)
  end.

Definition OsMemSetFreeListBit (head index : Z) : M Heap unit :=
  let* b := freeListBitmap head (Z.shiftr index 5) in
  let* w := ld b in
  st b (setf (Z.shiftl 1 (Z.land index 0x1f)) w).
Definition OsMemClearFreeListBit (head index : Z) : M Heap unit :=
  let* b := freeListBitmap head (Z.shiftr index 5) in
  let* w := ld b in
  st b (clrf (Z.shiftl 1 (Z.land index 0x1f)) w).

Definition OsMemListAdd (pool listIndex node : Z) : M Heap unit :=
  let* fl := freeList pool listIndex in
  let* firstNode := ld fl in
  when (negb (firstNode =? 0)) (st (free_prev firstNode) node) ;;;
  st (free_prev node) 0 ;;;
  st (free_next node) firstNode ;;;
  st fl node ;;;
  OsMemSetFreeListBit pool listIndex.

Definition OsMemListDelete (pool listIndex node : Z) : M Heap unit :=
  let* fl := freeList pool listIndex in
  let* first := ld fl in
  if node =? first then
    let* next := ld (free_next node) in
    st fl next ;;;
    let* next := ld (free_next node) in
    if next =? 0 then OsMemClearFreeListBit pool listIndex
    else st (free_prev next) 0
  else
    let* prev := ld (free_prev node) in
    let* next := ld (free_next node) in
    st (free_next prev) next ;;;
    let* next := ld (free_next node) in
    when (negb (next =? 0)) (let* prev := ld (free_prev node) in st (free_prev next) prev).

Definition OsMemFreeNodeAdd (pool node : Z) : M Heap unit :=
  let* w := ld (sizeAndFlag node) in
  let index := OsMemFreeListIndexGet w in
  if index >=? OS_MEM_FREE_LIST_COUNT then fault      (* LOS_Panic *)
  else OsMemListAdd pool index node.

Definition OsMemFreeNodeDelete (pool node : Z) : M Heap unit :=
  let* w := ld (sizeAndFlag node) in
  OsMemListDelete pool (OsMemFreeListIndexGet w) node.

Definition OsMemFreeNodeGet (pool size : Z) : M Heap Z :=
  let* r := OsMemFindNextSuitableBlock pool size in
  let '(firstNode, index) := r in
  if firstNode =? 0 then mret 0
  else OsMemListDelete pool index firstNode ;;; mret firstNode.

(** ** Splitting and merging *)

Definition OsMemMergeNode (node : Z) : M Heap unit :=
  let* prev := ld (ptr_prev node) in
  let* w := ld (sizeAndFlag node) in
  let* wp := ld (sizeAndFlag prev) in
  st (sizeAndFlag prev) (u32 (wp + w)) ;;;
  let* w := ld (sizeAndFlag node) in
  let nextNode := u32 (node + w) in
  let* prev := ld (ptr_prev node) in
  st (ptr_prev nextNode) prev.

Definition OsMemSplitNode (pool allocNode allocSize : Z) : M Heap unit :=
  let newFreeNode := u32 (allocNode + allocSize) in
  st (ptr_prev newFreeNode) allocNode ;;;
  let* w := ld (sizeAndFlag allocNode) in
  st (sizeAndFlag newFreeNode) (u32 (w - allocSize)) ;;;
  st (sizeAndFlag allocNode) allocSize ;;;
  let* nextNode := OS_MEM_NEXT_NODE newFreeNode in
  st (ptr_prev nextNode) newFreeNode ;;;
  let* w := ld (sizeAndFlag nextNode) in
  when (negb (OS_MEM_NODE_GET_USED_FLAG w))
    (OsMemFreeNodeDelete pool nextNode ;;; OsMemMergeNode nextNode) ;;;
  OsMemFreeNodeAdd pool newFreeNode.

Definition OsMemCreateUsedNode (addr : Z) : Z := addr + OS_MEM_NODE_HEAD_SIZE.

(** ** Pools *)

(** [memset_s] to zero and [memcpy_s] over whole words. *)
Fixpoint zero_words (n : nat) (a : Z) : M Heap unit :=
  match n with O => mret tt | S n => st a 0 ;;; zero_words n (a + 4) end.
Fixpoint copy_words (n : nat) (dst src : Z) : M Heap unit :=
  match n with O => mret tt | S n => let* v := ld src in st dst v ;;; copy_words n (dst + 4) (src + 4) end.

Definition OsMemPoolInit (pool size : Z) : M Heap Z :=
  zero_words (Z.to_nat (sizeof_OsMemPoolHead / 4)) pool ;;;
  st (info_pool pool) pool ;;;
  st (info_totalSize pool) size ;;;
  let* attr := ld (info_attr pool) in
  st (info_attr pool) (clrf (Z.lor OS_MEM_POOL_UNLOCK_ENABLE OS_MEM_POOL_EXPAND_ENABLE) attr) ;;;
  let newNode := OS_MEM_FIRST_NODE pool in
  st (sizeAndFlag newNode) (u32 (size - sizeof_OsMemPoolHead - OS_MEM_NODE_HEAD_SIZE)) ;;;
  st (ptr_prev newNode) (OS_MEM_END_NODE pool size) ;;;
  OsMemFreeNodeAdd pool newNode ;;;
  let endNode := OS_MEM_END_NODE pool size in
  st (sizeAndFlag endNode) 0 ;;;
  st (ptr_prev endNode) newNode ;;;
  OS_MEM_NODE_SET_USED_FLAG endNode ;;;
  st (info_curUsedSize pool) (sizeof_OsMemPoolHead + OS_MEM_NODE_HEAD_SIZE) ;;;
  let* used := ld (info_curUsedSize pool) in
  st (info_waterLine pool) used ;;;
  mret LOS_OK.

Definition OsMemPoolDeInit (pool : Z) : M Heap unit :=
  zero_words (Z.to_nat (sizeof_OsMemPoolHead / 4)) pool.

Definition LOS_MemPoolSizeGet (pool : Z) : M Heap Z :=
  if pool =? 0 then mret LOS_NOK else ld (info_totalSize pool).

(** The walk over the pools: none on a conflict, else the last pool. *)
Fixpoint OsMemPoolAdd_loop (fuel : nat) (pool size curPool nextPool' : Z) : M Heap (option Z) :=
  match fuel with
  | O => fault
  | S fuel =>
      if nextPool' =? 0 then mret (Some curPool)
      else
        let* n := LOS_MemPoolSizeGet nextPool' in
        let poolEnd := u32 (nextPool' + n) in
        if ((pool <=? nextPool') && (u32 (pool + size) >? nextPool')) ||
           ((pool <? poolEnd) && (u32 (pool + size) >=? poolEnd)) then mret None
        else let* next := ld (nextPool nextPool') in OsMemPoolAdd_loop fuel pool size nextPool' next
  end.

Definition OsMemPoolAdd (pool size : Z) : M Heap Z :=
  let* head := gets g_poolHead in
  let* fuel := walk_fuel in
  let* r := OsMemPoolAdd_loop fuel pool size head head in
  match r with
  | None => mret LOS_NOK
  | Some curPool =>
      (if head =? 0 then modify (set_g_poolHead pool) else st (nextPool curPool) pool) ;;;
      st (nextPool pool) 0 ;;;
      mret LOS_OK
  end.

Fixpoint OsMemPoolDelete_loop (fuel : nat) (pool curPool nextPool' : Z) : M Heap Z :=
  match fuel with
  | O => fault
  | S fuel =>
      if nextPool' =? 0 then mret LOS_NOK
      else
        let* next := ld (nextPool nextPool') in
        if pool =? nextPool' then st (nextPool curPool) next ;;; mret LOS_OK
        else OsMemPoolDelete_loop fuel pool nextPool' next
  end.

Definition OsMemPoolDelete (pool : Z) : M Heap Z :=
  let* head := gets g_poolHead in
  if pool =? head then
    let* next := ld (nextPool head) in
    modify (set_g_poolHead next) ;;; mret LOS_OK
  else
    let* fuel := walk_fuel in
    OsMemPoolDelete_loop fuel pool head head.

Definition LOS_MemInit (pool size : Z) : M Heap Z :=
  if (pool =? 0) || (size <=? OS_MEM_MIN_POOL_SIZE) then mret LOS_NOK
  else if negb (Z.land pool (OS_MEM_ALIGN_SIZE - 1) =? 0) || negb (Z.land size (OS_MEM_ALIGN_SIZE - 1) =? 0) then
    mret LOS_NOK
  else
    let* ret := OsMemPoolInit pool size in
    if negb (ret =? LOS_OK) then mret LOS_NOK
    else
      let* ret := OsMemPoolAdd pool size in
      if negb (ret =? LOS_OK) then OsMemPoolDeInit pool ;;; mret LOS_NOK
      else mret LOS_OK.

Definition LOS_MemDeInit (pool : Z) : M Heap Z :=
  if pool =? 0 then mret LOS_NOK
  else
    let* p := ld (info_pool pool) in
    let* size := ld (info_totalSize pool) in
    if negb (p =? pool) || (size <=? OS_MEM_MIN_POOL_SIZE) then mret LOS_NOK
    else
      let* ret := OsMemPoolDelete pool in
      if negb (ret =? LOS_OK) then mret LOS_NOK
      else OsMemPoolDeInit pool ;;; mret LOS_OK.

Definition LOS_MemUnlockEnable (pool : Z) : M Heap unit :=
  if pool =? 0 then mret tt
  else let* attr := ld (info_attr pool) in st (info_attr pool) (setf OS_MEM_POOL_UNLOCK_ENABLE attr).

(** ** Integrity check *)

Definition OsMemAddrValidCheck (pool addr : Z) : M Heap bool :=
  let* size := ld (info_totalSize pool) in
  mret (OS_MEM_MIDDLE_ADDR_OPEN_END (pool + sizeof_OsMemPoolHead) addr (u32 (pool + size))).

(** [(p != NULL) && !OsMemAddrValidCheck(pool, p)] *)
Definition bad_link (pool p : Z) : M Heap bool :=
  if p =? 0 then mret false else let* ok := OsMemAddrValidCheck pool p in mret (negb ok).

Definition OsMemAddrValidCheckPrint (pool tmpNode : Z) : M Heap Z :=
  let* prev := ld (free_prev tmpNode) in
  let* bad := bad_link pool prev in
  if (bad : bool) then mret LOS_NOK
  else
    let* next := ld (free_next tmpNode) in
    let* bad := bad_link pool next in
    if (bad : bool) then mret LOS_NOK else mret LOS_OK.

Definition OsMemIntegrityCheckSub (tmpNode pool : Z) : M Heap Z :=
  let* prev := ld (ptr_prev tmpNode) in
  let* ok := OsMemAddrValidCheck pool prev in
  if negb ok then mret LOS_NOK
  else
    let* w := ld (sizeAndFlag tmpNode) in
    if negb (OS_MEM_NODE_GET_USED_FLAG w) then OsMemAddrValidCheckPrint pool tmpNode
    else mret LOS_OK.

(** The walk over the nodes; the result is that of the first check that fails. *)
Fixpoint OsMemIntegrityCheck_loop (fuel : nat) (pool tmpNode endNode : Z) : M Heap Z :=
  match fuel with
  | O => fault
  | S fuel =>
      if tmpNode <? endNode then
        let* ret := OsMemIntegrityCheckSub tmpNode pool in
        if ret =? LOS_NOK then mret LOS_NOK
        else let* next := OS_MEM_NEXT_NODE tmpNode in OsMemIntegrityCheck_loop fuel pool next endNode
      else mret LOS_OK
  end.

Definition OsMemFreeListNodeCheck (pool node : Z) : M Heap Z :=
  let* ok := OsMemAddrValidCheck pool node in
  if negb ok then mret LOS_NOK
  else
    let* prev := ld (free_prev node) in
    let* bad_prev := bad_link pool prev in
    let* next := ld (free_next node) in
    let* bad_next := bad_link pool next in
    let* hprev := ld (ptr_prev node) in
    let* hok := OsMemAddrValidCheck pool hprev in
    if (bad_prev : bool) || (bad_next : bool) || negb hok then mret LOS_NOK
    else if negb (OS_MEM_IS_ALIGNED node 4) || negb (OS_MEM_IS_ALIGNED prev 4) ||
            negb (OS_MEM_IS_ALIGNED next 4) || negb (OS_MEM_IS_ALIGNED hprev 4) then mret LOS_NOK
    else mret LOS_OK.

(** One free list; the result says whether a node is bad. *)
Fixpoint OsMemPoolHeadCheck_list (fuel : nat) (pool tmpNode : Z) : M Heap bool :=
  match fuel with
  | O => fault
  | S fuel =>
      if tmpNode =? 0 then mret false
      else
        let* bad := OsMemFreeListNodeCheck pool tmpNode in
        let* next := ld (free_next tmpNode) in
        let* rest := OsMemPoolHeadCheck_list fuel pool next in
        mret (negb (bad =? LOS_OK) || rest)
  end.

Fixpoint OsMemPoolHeadCheck_loop (n : nat) (pool index : Z) : M Heap bool :=
  match n with
  | O => mret false
  | S n =>
      let* fl := freeList pool index in
      let* node := ld fl in
      let* fuel := walk_fuel in
      let* bad := OsMemPoolHeadCheck_list fuel pool node in
      let* rest := OsMemPoolHeadCheck_loop n pool (index + 1) in
      mret (bad || rest)
  end.

(** The result is the flag on which the pool's data is printed. *)
Definition OsMemPoolHeadCheck (pool : Z) : M Heap bool :=
  let* p := ld (info_pool pool) in
  if negb (p =? pool) || negb (OS_MEM_IS_ALIGNED pool 4) then mret false
  else OsMemPoolHeadCheck_loop (Z.to_nat OS_MEM_FREE_LIST_COUNT) pool 0.

Definition OsMemIntegrityCheck (pool : Z) : M Heap Z :=
  let* size := ld (info_totalSize pool) in
  let endNode := OS_MEM_END_NODE pool size in
  let* _ := OsMemPoolHeadCheck pool in
  let* fuel := walk_fuel in
  OsMemIntegrityCheck_loop fuel pool (OS_MEM_FIRST_NODE pool) endNode.

(** A damaged pool ends in [LOS_Panic]. *)
Definition LOS_MemIntegrityCheck (pool : Z) : M Heap Z :=
  if pool =? 0 then mret LOS_NOK
  else
    let* ret := OsMemIntegrityCheck pool in
    if negb (ret =? LOS_OK) then fault else mret LOS_OK.

(** ** Iteration over the nodes of a pool *)

Fixpoint OsAllMemNodeDoHandle_loop {A} (fuel : nat) (handle : Z -> A -> M Heap A) (tmpNode endNode : Z) (arg : A)
    : M Heap A :=
  match fuel with
  | O => fault
  | S fuel =>
      if tmpNode <=? endNode then
        if tmpNode =? endNode then mret arg
        else
          let* arg := handle tmpNode arg in
          let* next := OS_MEM_NEXT_NODE tmpNode in
          OsAllMemNodeDoHandle_loop fuel handle next endNode arg
      else mret arg
  end.

Definition OsAllMemNodeDoHandle {A} (pool : Z) (handle : Z -> A -> M Heap A) (arg : A) : M Heap A :=
  if pool =? 0 then mret arg
  else
    let* bad := LOS_MemIntegrityCheck pool in
    if negb (bad =? LOS_OK) then mret arg
    else
      let* size := ld (info_totalSize pool) in
      let* fuel := walk_fuel in
      OsAllMemNodeDoHandle_loop fuel handle (OS_MEM_FIRST_NODE pool) (OS_MEM_END_NODE pool size) arg.

Definition MemUsedGetHandle (curNode memUsed : Z) : M Heap Z :=
  let* w := ld (sizeAndFlag curNode) in
  mret (if OS_MEM_NODE_GET_USED_FLAG w then u32 (memUsed + OS_MEM_NODE_GET_SIZE w) else memUsed).

Definition LOS_MemTotalUsedGet (pool : Z) : M Heap Z :=
  if pool =? 0 then mret LOS_NOK else OsAllMemNodeDoHandle pool MemUsedGetHandle 0.

Record LOS_MEM_POOL_STATUS := mk_LOS_MEM_POOL_STATUS {
  totalUsedSize : Z;
  totalFreeSize : Z;
  maxFreeNodeSize : Z;
  usedNodeNum : Z;
  freeNodeNum : Z;
  usageWaterLine : Z;
}.

Definition OsMemInfoGet (node : Z) (s : LOS_MEM_POOL_STATUS) : M Heap LOS_MEM_POOL_STATUS :=
  let* w := ld (sizeAndFlag node) in
  let size := OS_MEM_NODE_GET_SIZE w in
  if negb (OS_MEM_NODE_GET_USED_FLAG w) then
    mret (mk_LOS_MEM_POOL_STATUS (totalUsedSize s) (u32 (totalFreeSize s + size))
            (Z.max (maxFreeNodeSize s) size) (usedNodeNum s) (u32 (freeNodeNum s + 1)) (usageWaterLine s))
  else
    mret (mk_LOS_MEM_POOL_STATUS (u32 (totalUsedSize s + size)) (totalFreeSize s)
            (maxFreeNodeSize s) (u32 (usedNodeNum s + 1)) (freeNodeNum s) (usageWaterLine s)).

(** [status] says that [poolStatus] is not NULL; the result is what is stored there. *)
Definition LOS_MemInfoGet (pool : Z) (status : bool) : M Heap (Z * option LOS_MEM_POOL_STATUS) :=
  if negb status then mret (LOS_NOK, None)
  else if pool =? 0 then mret (LOS_NOK, None)
  else
    let* p := ld (info_pool pool) in
    if negb (p =? pool) then mret (LOS_NOK, None)
    else
      let* s := OsAllMemNodeDoHandle pool OsMemInfoGet (mk_LOS_MEM_POOL_STATUS 0 0 0 0 0 0) in
      let* water := ld (info_waterLine pool) in
      mret (LOS_OK, Some (mk_LOS_MEM_POOL_STATUS (totalUsedSize s) (totalFreeSize s) (maxFreeNodeSize s)
                            (usedNodeNum s) (freeNodeNum s) water)).

(** What is printed: the size of the pool and its status. *)
Definition OsMemInfoPrint (pool : Z) : M Heap (option (Z * LOS_MEM_POOL_STATUS)) :=
  let* r := LOS_MemInfoGet pool true in
  match r with
  | (_, Some s) => let* size := LOS_MemPoolSizeGet pool in mret (Some (size, s))
  | (_, None) => mret None
  end.

Fixpoint LOS_MemPoolList_loop (fuel : nat) (nextPool' index : Z) : M Heap Z :=
  match fuel with
  | O => fault
  | S fuel =>
      if nextPool' =? 0 then mret index
      else
        let* _ := OsMemInfoPrint nextPool' in
        let* next := ld (nextPool nextPool') in
        LOS_MemPoolList_loop fuel next (u32 (index + 1))
  end.
Definition LOS_MemPoolList : M Heap Z :=
  let* head := gets g_poolHead in
  let* fuel := walk_fuel in
  LOS_MemPoolList_loop fuel head 0.

(** ** Allocation *)

Definition OsMemAlloc (pool size : Z) : M Heap Z :=
  let allocSize := OS_MEM_ALIGN (u32 (size + OS_MEM_NODE_HEAD_SIZE)) OS_MEM_ALIGN_SIZE in
  let* allocNode := OsMemFreeNodeGet pool allocSize in
  if allocNode =? 0 then let* _ := OsMemInfoPrint pool in mret 0
  else
    let* w := ld (sizeAndFlag allocNode) in
    when (u32 (allocSize + OS_MEM_MIN_LEFT_SIZE) <=? w) (OsMemSplitNode pool allocNode allocSize) ;;;
    OS_MEM_NODE_SET_USED_FLAG allocNode ;;;
    let* w := ld (sizeAndFlag allocNode) in
    OsMemWaterUsedRecord pool (OS_MEM_NODE_GET_SIZE w) ;;;
    mret (OsMemCreateUsedNode allocNode).

(** The result is an address, 0 for NULL. *)
Definition LOS_MemAlloc (pool size : Z) : M Heap Z :=
  if (pool =? 0) || (size =? 0) then mret 0
  else
    let size := if size <? OS_MEM_MIN_ALLOC_SIZE then OS_MEM_MIN_ALLOC_SIZE else size in
    if OS_MEM_NODE_GET_USED_FLAG size || OS_MEM_NODE_GET_ALIGNED_FLAG size then mret 0
    else OsMemAlloc pool size.

Definition LOS_MemAllocAlign (pool size boundary : Z) : M Heap Z :=
  if (pool =? 0) || (size =? 0) || (boundary =? 0) || negb (OS_MEM_IS_POW_TWO boundary) ||
     negb (OS_MEM_IS_ALIGNED boundary 4) then mret 0
  else
    let size := if size <? OS_MEM_MIN_ALLOC_SIZE then OS_MEM_MIN_ALLOC_SIZE else size in
    if boundary - 4 >? 0xFFFFFFFF - size then mret 0
    else
      let useSize := u32 (u32 (size + boundary) - 4) in
      if OS_MEM_NODE_GET_USED_FLAG useSize || OS_MEM_NODE_GET_ALIGNED_FLAG useSize then mret 0
      else
        let* ptr := OsMemAlloc pool useSize in
        let alignedPtr := OS_MEM_ALIGN ptr boundary in
        if ptr =? alignedPtr then mret ptr
        else
          let gapSize := u32 (alignedPtr - ptr) in
          OS_MEM_NODE_SET_ALIGNED_FLAG (ptr - OS_MEM_NODE_HEAD_SIZE) ;;;
          st (alignedPtr - 4) (setf OS_MEM_GAPSIZE_ALIGNED_FLAG gapSize) ;;;
          mret alignedPtr.

(** ** Release *)

Definition OsMemIsNodeValid (node startNode endNode poolInfo : Z) : M Heap bool :=
  if negb (OS_MEM_MIDDLE_ADDR startNode node endNode) then mret false
  else
    let* w := ld (sizeAndFlag node) in
    if OS_MEM_NODE_GET_USED_FLAG w then mret true
    else
      let* prev := ld (ptr_prev node) in
      OsMemAddrValidCheck poolInfo prev.

Definition OsMemCheckUsedNode (pool node : Z) : M Heap Z :=
  let startNode := OS_MEM_FIRST_NODE pool in
  let* size := ld (info_totalSize pool) in
  let endNode := OS_MEM_END_NODE pool size in
  let* valid := OsMemIsNodeValid node startNode endNode pool in
  if negb valid then mret LOS_NOK
  else
    let* w := ld (sizeAndFlag node) in
    if negb (OS_MEM_NODE_GET_USED_FLAG w) then mret LOS_NOK
    else
      let* nextNode := OS_MEM_NEXT_NODE node in
      let* valid := OsMemIsNodeValid nextNode startNode endNode pool in
      if negb valid then mret LOS_NOK
      else
        let* nprev := ld (ptr_prev nextNode) in
        if negb (nprev =? node) then mret LOS_NOK
        else if node =? startNode then mret LOS_OK
        else
          let* prev := ld (ptr_prev node) in
          let* valid := OsMemIsNodeValid prev startNode endNode pool in
          if negb valid then mret LOS_NOK
          else
            let* pnext := OS_MEM_NEXT_NODE prev in
            mret (if pnext =? node then LOS_OK else LOS_NOK).

Definition OsMemFree (pool node : Z) : M Heap Z :=
  let* ret := OsMemCheckUsedNode pool node in
  if negb (ret =? LOS_OK) then mret ret
  else
    let* w := ld (sizeAndFlag node) in
    let* used := ld (info_curUsedSize pool) in
    st (info_curUsedSize pool) (u32 (used - OS_MEM_NODE_GET_SIZE w)) ;;;
    st (sizeAndFlag node) (OS_MEM_NODE_GET_SIZE w) ;;;
    let* preNode := ld (ptr_prev node) in
    let* merge :=
      if preNode =? 0 then mret false
      else let* w := ld (sizeAndFlag preNode) in mret (negb (OS_MEM_NODE_GET_USED_FLAG w)) in
    when (merge : bool) (OsMemFreeNodeDelete pool preNode ;;; OsMemMergeNode node) ;;;
    let node := if (merge : bool) then preNode else node in
    let* nextNode := OS_MEM_NEXT_NODE node in
    let* merge :=
      if nextNode =? 0 then mret false
      else let* w := ld (sizeAndFlag nextNode) in mret (negb (OS_MEM_NODE_GET_USED_FLAG w)) in
    when (merge : bool) (OsMemFreeNodeDelete pool nextNode ;;; OsMemMergeNode nextNode) ;;;
    OsMemFreeNodeAdd pool node ;;;
    mret ret.

(** The result is an address, 0 for NULL. *)
Definition OsGetRealPtr (pool ptr : Z) : M Heap Z :=
  let* gapSize := ld (ptr - 4) in
  if OS_MEM_GAPSIZE_CHECK gapSize then mret 0
  else if OS_MEM_GET_GAPSIZE_ALIGNED_FLAG gapSize then
    let gapSize := OS_MEM_GET_ALIGNED_GAPSIZE gapSize in
    if negb (Z.land gapSize (OS_MEM_ALIGN_SIZE - 1) =? 0) ||
       (gapSize >? u32 (ptr - OS_MEM_NODE_HEAD_SIZE - pool)) then mret 0
    else mret (u32 (ptr - gapSize))
  else mret ptr.

Definition LOS_MemFree (pool ptr : Z) : M Heap Z :=
  if (pool =? 0) || (ptr =? 0) || negb (OS_MEM_IS_ALIGNED pool 4) || negb (OS_MEM_IS_ALIGNED ptr 4) then
    mret LOS_NOK
  else
    let* ptr := OsGetRealPtr pool ptr in
    if ptr =? 0 then mret LOS_NOK
    else OsMemFree pool (u32 (ptr - OS_MEM_NODE_HEAD_SIZE)).

(** ** Change of size *)

Definition OsMemReAllocSmaller (pool allocSize node nodeSize : Z) : M Heap unit :=
  st (sizeAndFlag node) nodeSize ;;;
  when (u32 (allocSize + OS_MEM_MIN_LEFT_SIZE) <=? nodeSize)
    (OsMemSplitNode pool node allocSize ;;;
     let* used := ld (info_curUsedSize pool) in
     st (info_curUsedSize pool) (u32 (used - (nodeSize - allocSize)))) ;;;
  OS_MEM_NODE_SET_USED_FLAG node.

Definition OsMemMergeNodeForReAllocBigger (pool allocSize node nodeSize nextNode : Z) : M Heap unit :=
  st (sizeAndFlag node) nodeSize ;;;
  OsMemFreeNodeDelete pool nextNode ;;;
  OsMemMergeNode nextNode ;;;
  let* w := ld (sizeAndFlag node) in
  when (u32 (allocSize + OS_MEM_MIN_LEFT_SIZE) <=? w) (OsMemSplitNode pool node allocSize) ;;;
  OS_MEM_NODE_SET_USED_FLAG node ;;;
  let* w := ld (sizeAndFlag node) in
  OsMemWaterUsedRecord pool (u32 (OS_MEM_NODE_GET_SIZE w - nodeSize)).

Definition OsMemRealloc (pool ptr node size : Z) : M Heap Z :=
  let allocSize := OS_MEM_ALIGN (u32 (size + OS_MEM_NODE_HEAD_SIZE)) OS_MEM_ALIGN_SIZE in
  let* w := ld (sizeAndFlag node) in
  let nodeSize := OS_MEM_NODE_GET_SIZE w in
  if nodeSize >=? allocSize then OsMemReAllocSmaller pool allocSize node nodeSize ;;; mret ptr
  else
    let* nextNode := OS_MEM_NEXT_NODE node in
    let* w := ld (sizeAndFlag nextNode) in
    if negb (OS_MEM_NODE_GET_USED_FLAG w) && (u32 (w + nodeSize) >=? allocSize) then
      OsMemMergeNodeForReAllocBigger pool allocSize node nodeSize nextNode ;;; mret ptr
    else
      let* tmpPtr := OsMemAlloc pool size in
      if tmpPtr =? 0 then mret 0
      else
        let len := u32 (nodeSize - OS_MEM_NODE_HEAD_SIZE) in
        if len >? size then        (* memcpy_s fails *)
          let* _ := LOS_MemFree pool tmpPtr in mret 0
        else
          copy_words (Z.to_nat (len / 4)) tmpPtr ptr ;;;
          let* _ := OsMemFree pool node in
          mret tmpPtr.

Definition LOS_MemRealloc (pool ptr size : Z) : M Heap Z :=
  if (pool =? 0) || OS_MEM_NODE_GET_USED_FLAG size || OS_MEM_NODE_GET_ALIGNED_FLAG size then mret 0
  else if ptr =? 0 then LOS_MemAlloc pool size
  else if size =? 0 then let* _ := LOS_MemFree pool ptr in mret 0
  else
    let size := if size <? OS_MEM_MIN_ALLOC_SIZE then OS_MEM_MIN_ALLOC_SIZE else size in
    let* ptr := OsGetRealPtr pool ptr in
    if ptr =? 0 then mret 0
    else
      let node := u32 (ptr - OS_MEM_NODE_HEAD_SIZE) in
      let* ret := OsMemCheckUsedNode pool node in
      if negb (ret =? LOS_OK) then mret 0
      else OsMemRealloc pool ptr node size.

(** ** The free lists as they are printed *)

Fixpoint LOS_MemFreeNodeShow_count (fuel : nat) (node countNum : Z) : M Heap Z :=
  match fuel with
  | O => fault
  | S fuel =>
      if node =? 0 then mret countNum
      else let* next := ld (free_next node) in LOS_MemFreeNodeShow_count fuel next (u32 (countNum + 1))
  end.

(** The sizes of the blocks of a list, from and to. *)
Definition LOS_MemFreeNodeShow_sizes (index : Z) : Z * Z :=
  if index <? OS_MEM_SMALL_BUCKET_COUNT then (Z.shiftl (index + 1) 2, Z.shiftl (index + 1) 2)
  else
    let val := Z.shiftl 1 (Z.shiftr (index - OS_MEM_SMALL_BUCKET_COUNT) OS_MEM_SLI + OS_MEM_LARGE_START_BUCKET) in
    let offset := Z.shiftr val OS_MEM_SLI in
    (u32 (offset * ((index - OS_MEM_SMALL_BUCKET_COUNT) mod Z.shiftl 1 OS_MEM_SLI) + val),
     u32 (offset * ((index - OS_MEM_SMALL_BUCKET_COUNT) mod Z.shiftl 1 OS_MEM_SLI + 1) + val - 1)).

(** The lines of the lists from [index], [n] lists still to visit: the index,
    the sizes and the number of blocks of each list that is not empty. *)
Fixpoint LOS_MemFreeNodeShow_lists (n : nat) (pool index : Z) : M Heap (list (Z * (Z * Z) * Z)) :=
  match n with
  | O => mret []
  | S n =>
      let* fl := freeList pool index in
      let* node := ld fl in
      let* fuel := walk_fuel in
      let* count := LOS_MemFreeNodeShow_count fuel node 0 in
      let* rest := LOS_MemFreeNodeShow_lists n pool (index + 1) in
      mret (if count =? 0 then rest else (index, LOS_MemFreeNodeShow_sizes index, count) :: rest)
  end.

Definition LOS_MemFreeNodeShow (pool : Z) : M Heap (Z * list (Z * (Z * Z) * Z)) :=
  if pool =? 0 then mret (LOS_NOK, [])
  else
    let* p := ld (info_pool pool) in
    if negb (pool =? p) then mret (LOS_NOK, [])
    else
      let* lines := LOS_MemFreeNodeShow_lists (Z.to_nat OS_MEM_FREE_LIST_COUNT) pool 0 in
      mret (LOS_OK, lines).

(** ** Boot and exception information *)

(** [g_memStart] is the array that holds the heap. *)
Definition OsMemSystemInit (g_memStart LOSCFG_SYS_HEAP_SIZE : Z) : M Heap Z :=
  LOS_MemInit g_memStart LOSCFG_SYS_HEAP_SIZE.

Definition OS_TASK_ERRORID : Z := 0xFFFFFFFF.

(** The number of nodes visited and the first damaged one. *)
Fixpoint OsMemExcInfoGetSub_loop (fuel : nat) (pool tmpNode endNode blockSize : Z) : M Heap (Z * option Z) :=
  match fuel with
  | O => fault
  | S fuel =>
      if tmpNode <? endNode then
        let* w := ld (sizeAndFlag tmpNode) in
        let* bad :=
          if OS_MEM_NODE_GET_USED_FLAG w then
            let* prev := ld (ptr_prev tmpNode) in
            let* ok := OsMemAddrValidCheck pool prev in mret (negb ok)
          else let* ret := OsMemAddrValidCheckPrint pool tmpNode in mret (negb (ret =? LOS_OK)) in
        if (bad : bool) then mret (u32 (blockSize + 1), Some tmpNode)
        else
          let* next := OS_MEM_NEXT_NODE tmpNode in
          OsMemExcInfoGetSub_loop fuel pool next endNode (u32 (blockSize + 1))
      else mret (blockSize, None)
  end.

Definition OsMemExcInfoGetSub (pool : Z) : M Heap MemInfoCB :=
  let* startAddr := ld (info_pool pool) in
  let* size := ld (info_totalSize pool) in
  let* used := ld (info_curUsedSize pool) in
  let* fuel := walk_fuel in
  let* r := OsMemExcInfoGetSub_loop fuel pool (OS_MEM_FIRST_NODE pool) (OS_MEM_END_NODE pool size) 0 in
  let '(blockSize, bad) := r in
  match bad with
  | None => mret (mk_MemInfoCB startAddr size (u32 (size - used)) blockSize None)
  | Some node =>
      let* w := ld (sizeAndFlag node) in
      mret (mk_MemInfoCB startAddr size (u32 (size - used)) blockSize
              (Some (u32 (node + OS_MEM_NODE_HEAD_SIZE), u32 (OS_MEM_NODE_GET_SIZE w - OS_MEM_NODE_HEAD_SIZE),
                     OS_TASK_ERRORID)))
  end.

(** The records written to the buffer. *)
Fixpoint OsMemExcInfoGet_loop (fuel : nat) (memPool count memNumMax : Z) : M Heap (list MemInfoCB) :=
  match fuel with
  | O => fault
  | S fuel =>
      if memPool =? 0 then mret []
      else
        let* info := OsMemExcInfoGetSub memPool in
        if u32 (count + 1) >=? memNumMax then mret [info]
        else
          let* next := ld (nextPool memPool) in
          let* rest := OsMemExcInfoGet_loop fuel next (u32 (count + 1)) memNumMax in
          mret (info :: rest)
  end.

Definition OsMemExcInfoGet (memNumMax : Z) : M Heap (list MemInfoCB) :=
  let* head := gets g_poolHead in
  let* fuel := walk_fuel in
  OsMemExcInfoGet_loop fuel head 0 memNumMax.
