(* ===== verification/MemInv.v ===== *)
(** Correctness of the dynamic allocator, part 1: the two-level index, the
    invariant of a pool and the free lists. *)

From Stdlib Require Import Btauto.
From stdpp Require Import functions.
From S2P Require Import Prelude Errno Membox Memory.

(** ** The two-level index *)

Abbreviation idx := OsMemFreeListIndexGet.

Lemma log2_range x l h : 0 <= l -> 2 ^ l <= x < 2 ^ h -> l <= Z.log2 x < h.
Proof.
  intros Hl [H1 H2]. split.
  - apply Z.log2_le_pow2; lia.
  - apply Z.log2_lt_pow2; lia.
Qed.

Lemma OsMemLog2_spec size : 0 < size -> OsMemLog2 size = Z.log2 size.
Proof. intros H. unfold OsMemLog2. destruct (Z.gtb_spec size 0); [|lia]. unfold OsMemFLS, CLZ, OS_MEM_BITMAP_MASK. lia. Qed.

Lemma div4 x : 4 * (x / 4) <= x < 4 * (x / 4) + 4.
Proof. pose proof (Z.div_mod x 4). pose proof (Z.mod_pos_bound x 4). lia. Qed.

(** Below 128 bytes a list holds the blocks of one size. *)
Lemma idx_small size : 4 <= size < 128 -> OsMemFlGet size = size / 4 - 1 /\ idx size = size / 4 - 1.
Proof.
  intros H. assert (E : OsMemFlGet size = size / 4 - 1).
  { unfold OsMemFlGet, OS_MEM_SMALL_BUCKET_MAX_SIZE. destruct (Z.ltb_spec size 128); [|lia].
    rewrite Z.shiftr_div_pow2 by lia. change (2 ^ 2) with 4. pose proof (div4 size). apply u32_id. lia. }
  split; [done|]. unfold idx. rewrite E. unfold OS_MEM_SMALL_BUCKET_COUNT.
  pose proof (div4 size). destruct (Z.ltb_spec (size / 4 - 1) 31); lia.
Qed.

Lemma fl_large size : 128 <= size < 2 ^ 32 -> OsMemFlGet size = Z.log2 size + 24.
Proof.
  intros H. unfold OsMemFlGet, OS_MEM_SMALL_BUCKET_MAX_SIZE. destruct (Z.ltb_spec size 128); [lia|].
  rewrite OsMemLog2_spec by lia. pose proof (log2_range size 7 32). unfold OS_MEM_LARGE_START_BUCKET, OS_MEM_SMALL_BUCKET_COUNT.
  rewrite u32_id; lia.
Qed.

(** The second level: eight lists between two powers of two. *)
Definition sl_of (size : Z) : Z := size * 8 / 2 ^ Z.log2 size - 8.

Lemma sl_of_range size : 128 <= size -> 0 <= sl_of size < 8.
Proof.
  intros H. unfold sl_of. pose proof (Z.log2_spec size ltac:(lia)) as [H1 H2].
  rewrite Z.pow_succ_r in H2 by apply Z.log2_nonneg.
  assert (0 < 2 ^ Z.log2 size) by lia. split.
  - enough (8 <= size * 8 / 2 ^ Z.log2 size) by lia. apply Z.div_le_lower_bound; lia.
  - enough (size * 8 / 2 ^ Z.log2 size < 16) by lia. apply Z.div_lt_upper_bound; lia.
Qed.

Lemma sl_large size : 128 <= size < 2 ^ 29 -> OsMemSlGet size (OsMemFlGet size) = sl_of size.
Proof.
  intros H. rewrite fl_large by lia. unfold OsMemSlGet, OS_MEM_SMALL_BUCKET_COUNT, OS_MEM_SMALL_BUCKET_MAX_SIZE, OS_MEM_LARGE_START_BUCKET, OS_MEM_SLI.
  pose proof (log2_range size 7 29). pose proof (sl_of_range size).
  destruct (Z.ltb_spec (Z.log2 size + 24) 31); [lia|]. destruct (Z.ltb_spec size 128); [lia|]. cbn.
  replace (Z.log2 size + 24 - 31 + 7) with (Z.log2 size) by lia.
  rewrite (u32_id (Z.log2 size)) by lia. rewrite Z.shiftl_mul_pow2 by lia. change (2 ^ 3) with 8.
  rewrite (u32_id (size * 8)) by lia. rewrite Z.shiftr_div_pow2 by lia.
  unfold sl_of in *. apply u32_id. lia.
Qed.

Lemma idx_large size : 128 <= size < 2 ^ 29 -> idx size = 31 + (Z.log2 size - 7) * 8 + sl_of size.
Proof.
  intros H. unfold idx. rewrite sl_large by done. rewrite fl_large by lia.
  pose proof (log2_range size 7 29). pose proof (sl_of_range size).
  unfold OS_MEM_SMALL_BUCKET_COUNT, OS_MEM_SLI. destruct (Z.ltb_spec (Z.log2 size + 24) 31); [lia|].
  rewrite Z.shiftl_mul_pow2 by lia. change (2 ^ 3) with 8. rewrite u32_id; lia.
Qed.

Lemma idx_range size : 4 <= size < 2 ^ 29 -> 0 <= idx size < 207.
Proof.
  intros H. destruct (decide (size < 128)).
  - rewrite (proj2 (idx_small size ltac:(lia))). pose proof (div4 size). lia.
  - rewrite idx_large by lia. pose proof (log2_range size 7 29). pose proof (sl_of_range size). lia.
Qed.

Lemma idx_bound size : 4 <= size < 2 ^ 28 -> idx size < 199.
Proof.
  intros H. destruct (decide (size < 128)).
  - rewrite (proj2 (idx_small size ltac:(lia))). pose proof (div4 size). lia.
  - rewrite idx_large by lia. pose proof (log2_range size 7 28). pose proof (sl_of_range size). lia.
Qed.

(** A longer block is never in a lower list. *)
Lemma idx_mono s s' : 4 <= s <= s' -> s' < 2 ^ 29 -> idx s <= idx s'.
Proof.
  intros H H'. destruct (decide (s' < 128)).
  { rewrite (proj2 (idx_small s ltac:(lia))), (proj2 (idx_small s' ltac:(lia))). pose proof (div4 s). pose proof (div4 s'). lia. }
  rewrite (idx_large s') by lia. pose proof (log2_range s' 7 29). pose proof (sl_of_range s').
  destruct (decide (s < 128)).
  { rewrite (proj2 (idx_small s ltac:(lia))). pose proof (div4 s). lia. }
  rewrite (idx_large s) by lia. pose proof (sl_of_range s). pose proof (Z.log2_le_mono s s' ltac:(lia)).
  destruct (decide (Z.log2 s = Z.log2 s')) as [E|]; [|lia]. unfold sl_of. rewrite E.
  assert (s * 8 / 2 ^ Z.log2 s' <= s' * 8 / 2 ^ Z.log2 s') by (apply Z.div_le_mono; lia). lia.
Qed.

(** ** The lowest bit *)

Lemma lowest_bit b : 0 < b -> ∃ k q, 0 <= k /\ b = (2 * q + 1) * 2 ^ k.
Proof.
  destruct b as [|b|b]; [done| |done]. intros _.
  induction b as [b _|b (k & q & Hk & IH)|].
  - exists 0, (Z.pos b). lia.
  - exists (k + 1), q. split; [lia|]. rewrite Z.pow_add_r by lia. change (2 ^ 1) with 2. lia.
  - exists 0, 0. lia.
Qed.

Lemma land_opp_odd q : Z.land (2 * q + 1) (2 * Z.lnot q + 1) = 1.
Proof.
  apply Z.bits_inj'. intros j Hj. rewrite Z.land_spec.
  destruct (decide (j = 0)) as [->|Hne]; [by rewrite !Z.testbit_odd_0|].
  replace j with (Z.succ (j - 1)) by lia. rewrite !Z.testbit_odd_succ, Z.lnot_spec by lia.
  rewrite andb_negb_r. symmetry. by apply (Z.bits_above_log2 1); cbn; lia.
Qed.

Lemma OsMemFFS_spec b : 0 < b < 2 ^ 32 ->
  0 <= OsMemFFS b < 32 /\ Z.testbit b (OsMemFFS b) = true /\
  ∀ j, 0 <= j < OsMemFFS b -> Z.testbit b j = false.
Proof.
  intros [H1 H2]. destruct (lowest_bit b H1) as (k & q & Hk & E).
  assert (Ek : OsMemFFS b = k).
  { unfold OsMemFFS, CLZ, OS_MEM_BITMAP_MASK.
    assert (Z.land b (u32 (Z.lnot b + 1)) = 2 ^ k) as ->.
    { unfold u32. rewrite <- Z.land_ones by lia. rewrite (Z.land_comm _ (Z.ones 32)), Z.land_assoc.
      rewrite Z.land_ones, (Z.mod_small b) by lia.
      replace (Z.lnot b + 1) with ((2 * Z.lnot q + 1) * 2 ^ k) by (unfold Z.lnot; rewrite E; lia).
      rewrite E, <- !Z.shiftl_mul_pow2, <- Z.shiftl_land, land_opp_odd by done. by rewrite Z.shiftl_mul_pow2, Z.mul_1_l. }
    rewrite Z.log2_pow2 by done. lia. }
  rewrite Ek. assert (Hq : 0 <= q) by (pose proof (Z.pow_pos_nonneg 2 k); nia).
  split_and!.
  - done.
  - assert (2 ^ k < 2 ^ 32) by (pose proof (Z.pow_pos_nonneg 2 k); nia).
    apply (Z.pow_lt_mono_r_iff 2); lia.
  - rewrite E, Z.mul_pow2_bits, Z.sub_diag by lia. by rewrite Z.testbit_odd_0.
  - intros j Hj. rewrite E. apply Z.mul_pow2_bits_low. lia.
Qed.

(** ** Memory accesses *)

Lemma wp_ld a v Q (s : Heap) : mem s !! a = Some v -> Q v s -> wp (ld a) Q s.
Proof. intros H HQ. unfold ld. wp_steps. by eapply wp_of_option. Qed.
Lemma wp_st a v Q (s : Heap) : is_Some (mem s !! a) -> Q tt (set_mem <[a := v]> s) -> wp (st a v) Q s.
Proof. intros [w Hw] HQ. unfold st. wp_steps. eapply wp_ld; [done|]. by wp_steps. Qed.
Lemma wp_freeListBitmap p i Q (s : Heap) : 0 <= i < 7 -> Q (p + 20 + 4 * i) s -> wp (freeListBitmap p i) Q s.
Proof.
  intros H HQ. unfold freeListBitmap. apply wp_bind, wp_assert; [|done].
  change OS_MEM_BITMAP_WORDS with 7. apply andb_true_intro. rewrite Z.leb_le, Z.ltb_lt. done.
Qed.
Lemma wp_freeList p i Q (s : Heap) : 0 <= i < 223 -> Q (p + 48 + 4 * i) s -> wp (freeList p i) Q s.
Proof.
  intros H HQ. unfold freeList. apply wp_bind, wp_assert; [|done].
  change OS_MEM_FREE_LIST_COUNT with 223. apply andb_true_intro. rewrite Z.leb_le, Z.ltb_lt. done.
Qed.

(** ** The links of a free list

    The list [l] of nodes is linked in memory [W] through the two words after
    the header of each node; a missing neighbour is NULL. *)

Definition links (W : gmap Z Z) (l : list Z) : Prop :=
  ∀ l1 a l2, l = l1 ++ a :: l2 ->
    W !! (free_prev a) = Some (default 0 (last l1)) /\ W !! (free_next a) = Some (default 0 (head l2)).

Lemma flinks_ext W W' l : links W l ->
  (∀ a, a ∈ l -> W' !! (free_prev a) = W !! (free_prev a) /\ W' !! (free_next a) = W !! (free_next a)) -> links W' l.
Proof. intros H E l1 a l2 ->. destruct (E a) as [-> ->]; [set_solver|]. by apply H. Qed.

Lemma app_split_elem {A} (l1 l2 k1 k2 : list A) c :
  l1 ++ l2 = k1 ++ c :: k2 ->
  (∃ k, l1 = k1 ++ c :: k /\ k2 = k ++ l2) \/ (∃ k, k1 = l1 ++ k /\ l2 = k ++ c :: k2).
Proof.
  intros E. apply app_eq_inv in E as [(k & -> & E)|(k & -> & ->)]; [|by right; eauto].
  destruct k as [|c' k]; simplify_eq/=; [right|left; eauto]. exists []. by rewrite !app_nil_r.
Qed.

Lemma last_cons_notin {A} (x : A) k1 c k : NoDup (k1 ++ c :: x :: k) -> last (k1 ++ c :: x :: k) <> Some c.
Proof.
  intros Hnd Hl. rewrite last_app_cons, last_cons_cons in Hl. apply last_Some_elem_of in Hl.
  apply NoDup_app in Hnd as (_ & _ & Hnd). by apply NoDup_cons in Hnd as [? _].
Qed.

Section links_remove.
Context (W W' : gmap Z Z) (l1 : list Z) (a : Z) (l2 : list Z).
Context (Hnd : NoDup (l1 ++ a :: l2)) (HL : links W (l1 ++ a :: l2)).
Context (Hn : ∀ c, last l1 = Some c -> W' !! free_next c = Some (default 0 (head l2))).
Context (Hp : ∀ c, head l2 = Some c -> W' !! free_prev c = Some (default 0 (last l1))).
Context (En : ∀ c, c ∈ l1 ++ l2 -> last l1 <> Some c -> W' !! free_next c = W !! free_next c).
Context (Ep : ∀ c, c ∈ l1 ++ l2 -> head l2 <> Some c -> W' !! free_prev c = W !! free_prev c).

(** Unlinking [a]: only the neighbours of [a] change. *)
Lemma links_remove : links W' (l1 ++ l2).
Proof using All.
  intros k1 c k2 E. pose proof (proj1 (NoDup_app _ _) Hnd) as (Hnd1 & Hd & Hnd2).
  apply NoDup_cons in Hnd2 as [_ Hnd2].
  assert (Hc : c ∈ l1 ++ l2) by (rewrite E; apply elem_of_app; right; by left).
  apply app_split_elem in E as [(k & E & ->)|(k & -> & E)].
  - destruct (HL k1 c (k ++ a :: l2)) as [Hc1 Hc2]; [by rewrite E, <- app_assoc|]. split.
    + rewrite Ep; [done..|]. intros Hh%head_Some_elem_of. apply (Hd c); [|by right].
      rewrite E. apply elem_of_app. right. by left.
    + destruct k as [|d k]; [by apply Hn; rewrite E, last_snoc|].
      rewrite En; [done..|]. rewrite E in Hnd1 |- *. by apply last_cons_notin.
  - destruct (HL (l1 ++ a :: k) c k2) as [Hc1 Hc2]; [by rewrite E, <- app_assoc|]. split.
    + destruct k as [|d k]; [rewrite app_nil_r; apply Hp; by rewrite E|].
      rewrite Ep; [|done|].
      * by rewrite Hc1, !last_app_cons, last_cons_cons.
      * intros Hh. rewrite E in Hh, Hnd2. simplify_eq/=. apply NoDup_cons in Hnd2 as [[] _].
        apply elem_of_app. right. by left.
    + rewrite En; [done..|]. intros Hl%last_Some_elem_of. apply (Hd c); [done|right].
      rewrite E. apply elem_of_app. right. by left.
Qed.
End links_remove.

(** Linking [a] at the front. *)
Lemma links_cons W W' a l :
  a ∉ l -> links W l ->
  W' !! free_prev a = Some 0 -> W' !! free_next a = Some (default 0 (head l)) ->
  (∀ c, head l = Some c -> W' !! free_prev c = Some a) ->
  (∀ c, c ∈ l -> W' !! free_next c = W !! free_next c) ->
  (∀ c, c ∈ l -> head l <> Some c -> W' !! free_prev c = W !! free_prev c) ->
  NoDup l -> links W' (a :: l).
Proof.
  intros Ha HL H1 H2 Hh En Ep Hnd k1 c k2 E. destruct k1 as [|a' k1]; simplify_eq/=; [done|].
  destruct (HL k1 c k2 eq_refl) as [Hc1 Hc2]. split; [|rewrite En; [done|set_solver]].
  destruct k1 as [|d k1]; [by apply Hh|]. rewrite Ep; [by rewrite Hc1|set_solver|].
  intros [= ->]. apply NoDup_cons in Hnd as [[] _]. apply elem_of_app. right. by left.
Qed.

(** ** The invariant of a pool

    The blocks of a pool are a map from the address of a node to its header:
    the address of the block before it, its size and its state. A block is
    free (in a free list), out (not marked used and in no list, as between two
    steps of an operation), or used, with or without the flag of an aligned
    allocation. The end node is a used block of size 0. *)

Inductive BState := BFree | BOut | BUsed (aligned : bool).
Record Blk := mk_Blk { b_prev : Z; b_size : Z; b_state : BState }.

#[global] Instance BState_eq_dec : EqDecision BState.
Proof. solve_decision. Defined.

(** The word [sizeAndFlag] of a block. *)
Definition b_word (b : Blk) : Z :=
  match b_state b with
  | BUsed al => setf OS_MEM_NODE_USED_FLAG (if al then setf OS_MEM_NODE_ALIGNED_FLAG (b_size b) else b_size b)
  | _ => b_size b
  end.
Definition with_state (s : BState) (b : Blk) : Blk := mk_Blk (b_prev b) (b_size b) s.
Definition with_prev (q : Z) (b : Blk) : Blk := mk_Blk q (b_size b) (b_state b).
Definition with_size (z : Z) (b : Blk) : Blk := mk_Blk (b_prev b) z (b_state b).

Section pool.
Context (p n : Z).

Definition first_node : Z := p + 944.
Definition end_node : Z := p + n - 8.

Record pool_ok : Prop := {
  po_addr : 0 < p /\ p + n < 2 ^ 32;
  po_size : 968 <= n <= 2 ^ 28;
  po_align : (4 | p) /\ (4 | n);
}.

(** The blocks tile the pool. *)
Record Layout (B : gmap Z Blk) : Prop := {
  ly_pool : pool_ok;
  ly_end : ∃ l, B !! end_node = Some (mk_Blk l 0 (BUsed false));
  ly_blk : ∀ a b, B !! a = Some b -> a <> end_node ->
    first_node <= a /\ 16 <= b_size b /\ a + b_size b <= end_node /\ (4 | a) /\ (4 | b_size b);
  ly_next : ∀ a b, B !! a = Some b -> a <> end_node -> ∃ c, B !! (a + b_size b) = Some c /\ b_prev c = a;
  ly_first : ∃ b, B !! first_node = Some b /\ b_prev b = end_node;
  ly_prev : ∀ a b, B !! a = Some b -> a <> first_node ->
    b_prev b <> end_node /\ ∃ q, B !! b_prev b = Some q /\ b_prev b + b_size q = a;
  ly_apart : ∀ a b a' b', B !! a = Some b -> B !! a' = Some b' -> a < a' -> a + b_size b <= a';
}.

(** The bitmap and the free lists [F], one for each index. *)
Record FreeLists (F : Z -> list Z) (W : gmap Z Z) : Prop := {
  fl_head : ∀ i, 0 <= i < 223 -> W !! (p + 48 + 4 * i) = Some (default 0 (head (F i)));
  fl_map : ∀ j, 0 <= j < 7 -> ∃ w, W !! (p + 20 + 4 * j) = Some w /\ 0 <= w < 2 ^ 32 /\
    ∀ k, 0 <= k < 32 -> Z.testbit w k = bool_decide (F (32 * j + k) <> []);
  fl_links : ∀ i, links W (F i);
}.

(** The lists hold the free blocks by the index of their sizes. *)
Record Members (B : gmap Z Blk) (F : Z -> list Z) : Prop := {
  mb_in : ∀ i a, a ∈ F i <-> ∃ b, B !! a = Some b /\ b_state b = BFree /\ idx (b_size b) = i;
  mb_nodup : ∀ i, NoDup (F i);
}.

Record PoolInv (B : gmap Z Blk) (W : gmap Z Z) : Prop := {
  pi_layout : Layout B;
  pi_hdr : ∀ a b, B !! a = Some b -> W !! ptr_prev a = Some (b_prev b) /\ W !! sizeAndFlag a = Some (b_word b);
  pi_free : ∃ F, FreeLists F W /\ Members B F;
  pi_info : W !! info_pool p = Some p /\ W !! info_totalSize p = Some n;
  pi_map : ∀ x, p <= x < p + n -> (4 | x) -> is_Some (W !! x);
}.

(** The words of memory that belong to the allocator: the bitmap and the list
    heads, the headers of the blocks and the links of the free ones. *)
Definition meta (B : gmap Z Blk) (x : Z) : Prop :=
  p + 20 <= x < p + 940 \/
  ∃ a b, B !! a = Some b /\ (x = ptr_prev a \/ x = sizeAndFlag a \/ b_state b = BFree /\ (x = free_prev a \/ x = free_next a)).

(** From blocks [B] to blocks [B'] only such words change. *)
Definition frame (B B' : gmap Z Blk) (W W' : gmap Z Z) : Prop :=
  ∀ x, ~ meta B x -> ~ meta B' x -> W' !! x = W !! x.

Section layout.
Context {B : gmap Z Blk} (HL : Layout B).

Lemma first_lt_end : first_node + 16 <= end_node.
Proof using HL. destruct HL as [[] _ _ _ _ _ _]. unfold first_node, end_node. lia. Qed.

(** Any two blocks are at least a free node apart, the end node a header. *)
Lemma blk_apart a b a' b' :
  B !! a = Some b -> B !! a' = Some b' -> a <> a' -> a <> end_node -> a' <> end_node -> a + 16 <= a' \/ a' + 16 <= a.
Proof using HL.
  intros Ha Ha' Hne He He'. destruct (ly_blk _ HL _ _ Ha He) as (? & ? & _). destruct (ly_blk _ HL _ _ Ha' He') as (? & ? & _).
  destruct (decide (a < a')).
  - left. pose proof (ly_apart _ HL _ _ _ _ Ha Ha'). lia.
  - right. pose proof (ly_apart _ HL _ _ _ _ Ha' Ha). lia.
Qed.

Lemma blk_range a b : B !! a = Some b -> first_node <= a <= end_node /\ (4 | a) /\ 0 <= b_size b < 2 ^ 28 /\ (4 | b_size b) /\
  a + b_size b <= end_node /\ (a <> end_node -> a + 16 <= end_node /\ 16 <= b_size b).
Proof using HL.
  intros Ha. pose proof first_lt_end. destruct HL as [[Hp Hn [Hd1 Hd2]] [l He] Hb _ _ _ _].
  assert (n - 952 < 2 ^ 28) by lia.
  destruct (decide (a = end_node)) as [->|Hne].
  - rewrite He in Ha. injection Ha as <-. cbn. split_and!; try lia.
    + unfold end_node. apply Z.divide_sub_r; [by apply Z.divide_add_r|by exists 2].
    + by exists 0.
  - destruct (Hb _ _ Ha Hne) as (? & ? & ? & ? & ?). unfold first_node, end_node in *.
    split_and!; try done; lia.
Qed.

Lemma free_not_end a b : B !! a = Some b -> b_state b = BFree -> a <> end_node.
Proof using HL. intros Ha Hs ->. destruct (ly_end _ HL) as [l He]. rewrite He in Ha. by simplify_eq. Qed.
End layout.

Lemma link_not_header B a b c d x : Layout B -> B !! a = Some b -> B !! c = Some d -> b_state d = BFree ->
  x = ptr_prev a \/ x = sizeAndFlag a -> x <> free_prev c /\ x <> free_next c.
Proof.
  intros HL Ha Hc Hf Hx. pose proof (free_not_end HL _ _ Hc Hf) as Hce.
  destruct (blk_range HL _ _ Hc) as (_ & _ & _ & _ & _ & Hr). destruct (Hr Hce) as [Hr1 _].
  unfold ptr_prev, sizeAndFlag, free_prev, free_next in *.
  destruct (decide (a = c)) as [->|Hne]; [lia|]. destruct (decide (a = end_node)) as [->|Hae]; [lia|].
  pose proof (blk_apart HL _ _ _ _ Ha Hc Hne Hae Hce). lia.
Qed.

(** The words of the pool head lie below the blocks. *)
Lemma head_below B a b : Layout B -> B !! a = Some b -> p + 944 <= a.
Proof. intros HL Ha. destruct (blk_range HL _ _ Ha) as [H _]. unfold first_node in H. lia. Qed.

Lemma FreeLists_ext F W W' : FreeLists F W ->
  (∀ x, p + 20 <= x < p + 940 -> W' !! x = W !! x) ->
  (∀ i c, c ∈ F i -> W' !! free_prev c = W !! free_prev c /\ W' !! free_next c = W !! free_next c) ->
  FreeLists F W'.
Proof.
  intros [H1 H2 H3] E1 E2. split.
  - intros i Hi. rewrite E1 by lia. auto.
  - intros j Hj. rewrite E1 by lia. auto.
  - intros i. eapply flinks_ext; eauto.
Qed.

Lemma Members_ext B B' F : Members B F ->
  (∀ a z, (∃ b, B !! a = Some b /\ b_state b = BFree /\ b_size b = z) <->
          (∃ b, B' !! a = Some b /\ b_state b = BFree /\ b_size b = z)) -> Members B' F.
Proof.
  intros [H1 H2] E. split; [|done]. intros i a. rewrite H1. split; intros (b & Hb & Hs & Hi).
  - destruct (proj1 (E a (b_size b))) as (b' & ? & ? & Hz); [by eauto|]. exists b'. by rewrite Hz.
  - destruct (proj2 (E a (b_size b))) as (b' & ? & ? & Hz); [by eauto|]. exists b'. by rewrite Hz.
Qed.

(** Steps that only write headers. *)
Lemma headers_step B B' W W' :
  PoolInv B W -> Layout B' ->
  (∀ a b, B' !! a = Some b -> W' !! ptr_prev a = Some (b_prev b) /\ W' !! sizeAndFlag a = Some (b_word b)) ->
  (∀ a z, (∃ b, B !! a = Some b /\ b_state b = BFree /\ b_size b = z) <->
          (∃ b, B' !! a = Some b /\ b_state b = BFree /\ b_size b = z)) ->
  (∀ x, W' !! x = W !! x \/ ∃ a b, (B !! a = Some b \/ B' !! a = Some b) /\ (x = ptr_prev a \/ x = sizeAndFlag a)) ->
  (∀ x, is_Some (W !! x) -> is_Some (W' !! x)) ->
  PoolInv B' W' /\ frame B B' W W'.
Proof.
  intros [HL Hh (F & HF & HM) [Hi1 Hi2] Hm] HL' Hh' HE HW Hdom.
  assert (Hlow : ∀ x, x < p + 944 -> W' !! x = W !! x).
  { intros x Hx. destruct (HW x) as [|(a & b & Hab & Hx')]; [done|]. exfalso.
    assert (p + 944 <= a) by (destruct Hab; [eapply (head_below B)|eapply (head_below B')]; eassumption).
    unfold ptr_prev, sizeAndFlag in *. lia. }
  assert (Hlk : ∀ i c, c ∈ F i -> W' !! free_prev c = W !! free_prev c /\ W' !! free_next c = W !! free_next c).
  { intros i c Hc. apply (mb_in _ _ HM) in Hc as (d & Hd & Hfd & Hid).
    destruct (proj1 (HE c (b_size d))) as (d' & Hd' & Hfd' & _); [by eauto|].
    assert (Hne : ∀ x, (∃ a b, (B !! a = Some b \/ B' !! a = Some b) /\ (x = ptr_prev a \/ x = sizeAndFlag a)) ->
      x <> free_prev c /\ x <> free_next c).
    { intros x (a & b & [Ha|Ha] & Hx); [by apply (link_not_header B a b c d)|by apply (link_not_header B' a b c d')]. }
    split; [destruct (HW (free_prev c)) as [|Hx]|destruct (HW (free_next c)) as [|Hx]]; try done; by apply Hne in Hx as []. }
  split.
  - split; [done|done| | |].
    + exists F. split; [|by eapply Members_ext]. eapply FreeLists_ext; [done| |done]. intros x Hx. apply Hlow. lia.
    + unfold info_pool, info_totalSize in *. rewrite !Hlow by lia. done.
    + intros x Hx Hd. apply Hdom, Hm; done.
  - intros x H1 H2. destruct (HW x) as [|(a & b & [Ha|Ha] & Hx)]; [done|exfalso; apply H1|exfalso; apply H2];
      right; exists a, b; tauto.
Qed.

(** The state of a block does not matter to the layout. *)
Definition shape (b : Blk) : Z * Z := (b_prev b, b_size b).

Lemma Layout_shape B B' : Layout B -> (∀ x, shape <$> B' !! x = shape <$> B !! x) ->
  B' !! end_node = B !! end_node -> Layout B'.
Proof.
  intros [H1 H2 H3 H4 H5 H6 H7] E Ee.
  assert (Hf : ∀ x b, B' !! x = Some b -> ∃ b', B !! x = Some b' /\ b_prev b' = b_prev b /\ b_size b' = b_size b).
  { intros x b Hx. specialize (E x). rewrite Hx in E. symmetry in E. apply fmap_Some in E as (b' & ? & [= ]). eauto. }
  assert (Hg : ∀ x b, B !! x = Some b -> ∃ b', B' !! x = Some b' /\ b_prev b' = b_prev b /\ b_size b' = b_size b).
  { intros x b Hx. specialize (E x). rewrite Hx in E. apply fmap_Some in E as (b' & ? & [= ]). eauto. }
  split; [done| | | | | |].
  - by rewrite Ee.
  - intros a b Hb. apply Hf in Hb as (b' & Hb' & _ & <-). exact (H3 a b' Hb').
  - intros a b Hb Hne. apply Hf in Hb as (b' & Hb' & _ & <-). destruct (H4 _ _ Hb' Hne) as (c & Hc & Ep).
    apply Hg in Hc as (c' & Hc' & Ep' & _). exists c'. by rewrite Ep'.
  - destruct H5 as (b & Hb & Ep). apply Hg in Hb as (b' & Hb' & Ep' & _). exists b'. by rewrite Ep'.
  - intros a b Hb Hne. apply Hf in Hb as (b' & Hb' & <- & _). destruct (H6 _ _ Hb' Hne) as (? & q & Hq & Ha).
    split; [done|]. apply Hg in Hq as (q' & Hq' & _ & Hq). exists q'. by rewrite Hq.
  - intros a b a' b' Ha Ha' Hlt. apply Hf in Ha as (c & Hc & _ & <-). apply Hf in Ha' as (c' & Hc' & _). eauto.
Qed.

Lemma Layout_state B a b s : Layout B -> B !! a = Some b -> a <> end_node -> Layout (<[a := with_state s b]> B).
Proof.
  intros HL Ha Hne. eapply Layout_shape; [done| |by rewrite lookup_insert_ne].
  intros x. rewrite lookup_insert. case_decide; [|done]. subst. by rewrite Ha.
Qed.

(** Steps that only write links, list heads and the bitmap: the block [a]
    enters or leaves its list. *)
Lemma lists_step B W a b s F' W' :
  PoolInv B W -> B !! a = Some b -> a <> end_node -> b_word (with_state s b) = b_word b ->
  FreeLists F' W' -> Members (<[a := with_state s b]> B) F' ->
  (∀ x, ~ p + 20 <= x < p + 940 ->
     (∀ c d, (B !! c = Some d \/ <[a := with_state s b]> B !! c = Some d) -> b_state d = BFree ->
        x <> free_prev c /\ x <> free_next c) -> W' !! x = W !! x) ->
  (∀ x, is_Some (W !! x) -> is_Some (W' !! x)) ->
  PoolInv (<[a := with_state s b]> B) W' /\ frame B (<[a := with_state s b]> B) W W'.
Proof.
  intros [HL Hh _ [Hi1 Hi2] Hm] Ha Hne Hw HF HM HW Hdom. set (B' := <[a := with_state s b]> B) in *.
  assert (HL' : Layout B') by by apply Layout_state.
  assert (Hhd : ∀ c d x, B' !! c = Some d -> x = ptr_prev c \/ x = sizeAndFlag c -> W' !! x = W !! x).
  { intros c d x Hc Hx. apply HW.
    - pose proof (head_below _ _ _ HL' Hc). unfold ptr_prev, sizeAndFlag in *. lia.
    - intros c' d' Hc' Hf. assert (∃ d0, B !! c = Some d0) as [d0 Hd0].
      { unfold B' in Hc. rewrite lookup_insert in Hc. case_decide; subst; eauto. }
      destruct Hc' as [Hc'|Hc']; [by apply (link_not_header B c d0 c' d')|by apply (link_not_header B' c d c' d')]. }
  assert (Hlow : ∀ x, x < p + 20 -> W' !! x = W !! x).
  { intros x Hx. apply HW; [lia|]. intros c d Hc _.
    assert (p + 944 <= c) by (destruct Hc; [eapply (head_below B)|eapply (head_below B')]; eassumption).
    unfold free_prev, free_next. lia. }
  split.
  - split; [done| |by exists F'| |].
    + intros c d Hc. rewrite (Hhd c d _ Hc (or_introl eq_refl)), (Hhd c d _ Hc (or_intror eq_refl)).
      unfold B' in Hc. rewrite lookup_insert in Hc. case_decide; [|by apply Hh]. simplify_eq. rewrite Hw.
      exact (Hh _ _ Ha).
    + unfold info_pool, info_totalSize in *. rewrite !Hlow by lia. done.
    + intros x Hx Hd. apply Hdom, Hm; done.
  - intros x H1 H2. apply HW; [intros Hx; apply H1; by left|]. intros c d [Hc|Hc] Hf.
    + split; intros ->; apply H1; right; exists c, d; tauto.
    + split; intros ->; apply H2; right; exists c, d; tauto.
Qed.

(** The lists after one of them has become [l]. *)
Lemma FreeLists_update F W W' i l :
  FreeLists F W -> 0 <= i < 223 -> links W' l ->
  W' !! (p + 48 + 4 * i) = Some (default 0 (head l)) ->
  (∃ w w', W !! (p + 20 + 4 * (i / 32)) = Some w /\ W' !! (p + 20 + 4 * (i / 32)) = Some w' /\ 0 <= w' < 2 ^ 32 /\
    ∀ k, 0 <= k < 32 -> Z.testbit w' k = if decide (k = i mod 32) then bool_decide (l <> []) else Z.testbit w k) ->
  (∀ x, p + 20 <= x < p + 940 -> x <> p + 48 + 4 * i -> x <> p + 20 + 4 * (i / 32) -> W' !! x = W !! x) ->
  (∀ j c, j <> i -> c ∈ F j -> W' !! free_prev c = W !! free_prev c /\ W' !! free_next c = W !! free_next c) ->
  FreeLists (<[i := l]> F) W'.
Proof.
  intros [H1 H2 H3] Hi Hl Hh (w & w' & Hw & Hw' & Hr & Hb) E El. split.
  - intros j Hj. destruct (decide (j = i)) as [->|Hne]; [by rewrite fn_lookup_insert|].
    rewrite fn_lookup_insert_ne by done. rewrite E; [by apply H1|lia|lia|]. pose proof (Z.div_lt_upper_bound i 32 7). lia.
  - intros j Hj. destruct (decide (j = i / 32)) as [->|Hne].
    + exists w'. split_and!; try done; try apply Hr. intros k Hk. rewrite Hb by done. pose proof (Z.div_mod i 32).
      case_decide as Hd.
      * replace (32 * (i / 32) + k) with i by lia. by rewrite fn_lookup_insert.
      * rewrite fn_lookup_insert_ne by lia. destruct (H2 _ Hj) as (w0 & Hw0 & _ & Hb0). rewrite Hw in Hw0. injection Hw0 as <-. by apply Hb0.
    + destruct (H2 _ Hj) as (w0 & Hw0 & Hr0 & Hb0). exists w0. rewrite E by lia. split_and!; try done; try apply Hr0.
      intros k Hk. rewrite fn_lookup_insert_ne; [by apply Hb0|]. intros Ei. apply Hne.
      rewrite Ei, Z.mul_comm, Z.div_add_l, (Z.div_small k) by lia. lia.
  - intros j. destruct (decide (j = i)) as [->|Hne]; [by rewrite fn_lookup_insert|].
    rewrite fn_lookup_insert_ne by done. eapply flinks_ext; [done|]. eauto.
Qed.
End pool.

Section lists.
Context {p n : Z}.

Lemma idx_shift i : 0 <= i -> Z.shiftr i 5 = i / 32 /\ Z.shiftl 1 (Z.land i 0x1f) = 2 ^ (i mod 32).
Proof.
  intros Hi. rewrite Z.shiftr_div_pow2 by lia. split; [done|].
  change 0x1f with (Z.ones 5). rewrite Z.land_ones by lia. rewrite Z.shiftl_mul_pow2 by (apply Z.mod_pos_bound; lia).
  by rewrite Z.mul_1_l.
Qed.

Lemma set_bit_wp i w Q s : 0 <= i < 223 -> mem s !! (p + 20 + 4 * (i / 32)) = Some w ->
  Q tt (set_mem <[p + 20 + 4 * (i / 32) := setf (2 ^ (i mod 32)) w]> s) -> wp (OsMemSetFreeListBit p i) Q s.
Proof.
  intros Hi Hw HQ. unfold OsMemSetFreeListBit. destruct (idx_shift i ltac:(lia)) as [-> ->].
  apply wp_bind, wp_freeListBitmap.
  - pose proof (Z.div_mod i 32). pose proof (Z.mod_pos_bound i 32). lia.
  - apply wp_bind. eapply wp_ld; [done|]. by apply wp_st.
Qed.
Lemma clear_bit_wp i w Q s : 0 <= i < 223 -> mem s !! (p + 20 + 4 * (i / 32)) = Some w ->
  Q tt (set_mem <[p + 20 + 4 * (i / 32) := clrf (2 ^ (i mod 32)) w]> s) -> wp (OsMemClearFreeListBit p i) Q s.
Proof.
  intros Hi Hw HQ. unfold OsMemClearFreeListBit. destruct (idx_shift i ltac:(lia)) as [-> ->].
  apply wp_bind, wp_freeListBitmap.
  - pose proof (Z.div_mod i 32). pose proof (Z.mod_pos_bound i 32). lia.
  - apply wp_bind. eapply wp_ld; [done|]. by apply wp_st.
Qed.

Lemma setf_word w j : 0 <= w < 2 ^ 32 -> 0 <= j < 32 -> 0 <= setf (2 ^ j) w < 2 ^ 32.
Proof.
  intros Hw Hj. unfold setf. assert (0 <= Z.lor w (2 ^ j)) by (apply Z.lor_nonneg; lia). split; [done|].
  destruct (decide (Z.lor w (2 ^ j) = 0)) as [->|]; [lia|]. apply Z.log2_lt_pow2; [lia|].
  rewrite Z.log2_lor by lia. rewrite Z.log2_pow2 by lia. apply Z.max_lub_lt; [|lia].
  destruct (decide (w = 0)) as [->|]; [done|]. apply Z.log2_lt_pow2; lia.
Qed.
Lemma clrf_word w f : 0 <= w < 2 ^ 32 -> 0 <= clrf f w < 2 ^ 32.
Proof.
  intros Hw. assert (E : clrf f w = clrf f w mod 2 ^ 32); [|rewrite E; apply Z.mod_pos_bound; lia].
  unfold clrf. rewrite <- Z.land_ones by lia. rewrite <- (Z.mod_small w (2 ^ 32)) at 1 by done. rewrite <- Z.land_ones by lia.
  apply Z.bits_inj'. intros k Hk. rewrite ?Z.land_spec, ?Z.ldiff_spec, ?Z.land_spec. btauto.
Qed.

Context {B : gmap Z Blk} {W : gmap Z Z} {F : Z -> list Z}.
Context (HI : PoolInv p n B W) (HF : FreeLists p F W) (HM : Members B F).

Lemma listed_apart i j c c' : c ∈ F i -> c' ∈ F j -> c = c' \/ c + 16 <= c' \/ c' + 16 <= c.
Proof using HI HM.
  intros Hc Hc'. apply (mb_in _ _ HM) in Hc as (d & Hd & Hs & _). apply (mb_in _ _ HM) in Hc' as (d' & Hd' & Hs' & _).
  destruct (decide (c = c')); [by left|right]. pose proof (pi_layout _ _ _ _ HI) as HL.
  eapply blk_apart; [done..| |]; by eapply free_not_end.
Qed.
Lemma listed_above i c : c ∈ F i -> p + 944 <= c.
Proof using HI HM. intros Hc. apply (mb_in _ _ HM) in Hc as (d & Hd & _). eapply head_below; [by destruct HI|done]. Qed.
Lemma listed_idx i c : c ∈ F i -> 0 <= i < 207.
Proof using HI HM.
  intros Hc. apply (mb_in _ _ HM) in Hc as (d & Hd & Hs & <-). pose proof (pi_layout _ _ _ _ HI) as HL.
  destruct (blk_range _ _ HL _ _ Hd) as (_ & _ & ? & _ & _ & Hr). pose proof (free_not_end _ _ HL _ _ Hd Hs). apply idx_range. lia.
Qed.
Lemma listed_fun i j c : c ∈ F i -> c ∈ F j -> i = j.
Proof using HM. intros (b & Hb & _ & <-)%(mb_in _ _ HM) (b' & Hb' & _ & <-)%(mb_in _ _ HM). by simplify_eq. Qed.

Lemma Members_out a b l1 l2 : B !! a = Some b -> b_state b = BFree -> F (idx (b_size b)) = l1 ++ a :: l2 ->
  Members (<[a := with_state BOut b]> B) (<[idx (b_size b) := l1 ++ l2]> F).
Proof using HM.
  intros Ha Hf Hs. destruct HM as [H1 H2]. pose proof (H2 (idx (b_size b))) as Hnd. rewrite Hs in Hnd.
  split.
  - intros j c. destruct (decide (c = a)) as [->|Hne].
    + rewrite lookup_insert_eq. split; [|intros (d & [= <-] & [=] & _)]. intros Hc.
      destruct (decide (j = idx (b_size b))) as [->|Hj].
      * rewrite fn_lookup_insert in Hc. exfalso. apply NoDup_app in Hnd as (_ & Hd & Hnd). apply NoDup_cons in Hnd as [Hnd _].
        apply elem_of_app in Hc as [Hc|Hc]; [|done]. apply (Hd a Hc). by left.
      * rewrite fn_lookup_insert_ne in Hc by done. apply H1 in Hc as (d & Hd & _ & Hi). simplify_eq.
    + rewrite lookup_insert_ne by done. rewrite <- H1. destruct (decide (j = idx (b_size b))) as [->|Hj].
      * rewrite fn_lookup_insert, Hs, !elem_of_app, elem_of_cons. tauto.
      * by rewrite fn_lookup_insert_ne.
  - intros j. destruct (decide (j = idx (b_size b))) as [->|Hj]; [|by rewrite fn_lookup_insert_ne].
    rewrite fn_lookup_insert. apply NoDup_app in Hnd as (? & Hd & Hnd). apply NoDup_cons in Hnd as [_ ?].
    apply NoDup_app. split_and!; [done| |done]. intros c Hc Hc'. apply (Hd c Hc). by right.
Qed.

Lemma Members_in a b : B !! a = Some b -> b_state b <> BFree ->
  Members (<[a := with_state BFree b]> B) (<[idx (b_size b) := a :: F (idx (b_size b))]> F).
Proof using HM.
  intros Ha Hf. destruct HM as [H1 H2].
  assert (Hno : ∀ j, a ∉ F j) by (intros j (d & Hd & Hs & _)%H1; by simplify_eq).
  split.
  - intros j c. destruct (decide (c = a)) as [->|Hne].
    + rewrite lookup_insert_eq. split; [|intros (d & [= <-] & _ & <-); cbn; rewrite fn_lookup_insert; by left]. intros Hc.
      destruct (decide (j = idx (b_size b))) as [->|Hj]; [by eauto|]. rewrite fn_lookup_insert_ne in Hc by done. by apply Hno in Hc.
    + rewrite lookup_insert_ne by done. rewrite <- H1. destruct (decide (j = idx (b_size b))) as [->|Hj].
      * rewrite fn_lookup_insert, elem_of_cons. tauto.
      * by rewrite fn_lookup_insert_ne.
  - intros j. destruct (decide (j = idx (b_size b))) as [->|Hj]; [|by rewrite fn_lookup_insert_ne].
    rewrite fn_lookup_insert. by apply NoDup_cons.
Qed.

(** A free block leaves its list. *)
Section delete.
Context (a : Z) (b : Blk) (l1 l2 : list Z).
Abbreviation i := (idx (b_size b)).
Context (Ha : B !! a = Some b) (Hf : b_state b = BFree) (Hs : F i = l1 ++ a :: l2).

Lemma delete_lists W' :
  (∀ c, last l1 = Some c -> W' !! free_next c = Some (default 0 (head l2))) ->
  (∀ c, head l2 = Some c -> W' !! free_prev c = Some (default 0 (last l1))) ->
  W' !! (p + 48 + 4 * i) = Some (default 0 (head (l1 ++ l2))) ->
  (∃ w w', W !! (p + 20 + 4 * (i / 32)) = Some w /\ W' !! (p + 20 + 4 * (i / 32)) = Some w' /\ 0 <= w' < 2 ^ 32 /\
    ∀ k, 0 <= k < 32 -> Z.testbit w' k = if decide (k = i mod 32) then bool_decide (l1 ++ l2 <> []) else Z.testbit w k) ->
  (∀ x, x <> p + 48 + 4 * i -> x <> p + 20 + 4 * (i / 32) ->
    (∀ c, last l1 = Some c -> x <> free_next c) -> (∀ c, head l2 = Some c -> x <> free_prev c) -> W' !! x = W !! x) ->
  (∀ x, is_Some (W !! x) -> is_Some (W' !! x)) ->
  PoolInv p n (<[a := with_state BOut b]> B) W' /\ frame p B (<[a := with_state BOut b]> B) W W'.
Proof using All.
  intros Hn Hp Hh Hbit E Hdom.
  assert (Hai : a ∈ F i) by (rewrite Hs; apply elem_of_app; right; by left).
  pose proof (listed_idx _ _ Hai) as Hi. pose proof (mb_nodup _ _ HM i) as Hnd. rewrite Hs in Hnd.
  assert (Hsub : ∀ c, c ∈ l1 ++ l2 -> c ∈ F i) by (intros c; rewrite Hs, !elem_of_app, elem_of_cons; tauto).
  assert (Hl : ∀ c, last l1 = Some c -> c ∈ F i) by (intros c Hc%last_Some_elem_of; apply Hsub, elem_of_app; by left).
  assert (Hd : ∀ c, head l2 = Some c -> c ∈ F i) by (intros c Hc%head_Some_elem_of; apply Hsub, elem_of_app; by right).
  assert (Hi32 : 0 <= i / 32 < 7) by (pose proof (Z.div_mod i 32); pose proof (Z.mod_pos_bound i 32); lia).
  assert (Hx : ∀ j c x, c ∈ F j -> x = free_prev c \/ x = free_next c ->
     (x = free_next c -> last l1 <> Some c) -> (x = free_prev c -> head l2 <> Some c) -> W' !! x = W !! x).
  { intros j c x Hc Hx H1 H2. pose proof (listed_above _ _ Hc). unfold free_prev, free_next in *.
    apply E; [lia|lia| |]; intros c' Hc' ->.
    - destruct (listed_apart _ _ _ _ Hc (Hl _ Hc')) as [->|?]; [|lia]. apply H1; [lia|done].
    - destruct (listed_apart _ _ _ _ Hc (Hd _ Hc')) as [->|?]; [|lia]. apply H2; [lia|done]. }
  apply (lists_step p n B W a b BOut (<[i := l1 ++ l2]> F)); [done|done| | | | | |done].
  - destruct HI. by eapply free_not_end.
  - unfold b_word. by rewrite Hf.
  - apply (FreeLists_update p F W); [done|lia| |done|done| |].
    + pose proof (fl_links _ _ _ HF i) as HL. rewrite Hs in HL.
      apply (links_remove W W' l1 a l2); [done|done|done|done| |]; intros c Hc Hne; apply (Hx i c); auto;
        unfold free_prev, free_next; lia.
    + intros x Hx' H1 H2. apply E; [done..| |]; intros c Hc; [apply Hl in Hc|apply Hd in Hc];
        apply listed_above in Hc; unfold free_prev, free_next; lia.
    + intros j c Hj Hc. split; apply (Hx j c); auto; intros _ Hc'; apply Hj; [apply Hl in Hc'|apply Hd in Hc'|apply Hl in Hc'|apply Hd in Hc'];
        eapply listed_fun; eauto.
  - by apply Members_out.
  - intros x H1 H2. apply E; [lia|lia| |]; intros c Hc; [apply Hl, (mb_in _ _ HM) in Hc|apply Hd, (mb_in _ _ HM) in Hc];
      destruct Hc as (d & ? & ? & _); apply (H2 c d); auto.
Qed.
End delete.
End lists.

(** Lookups in updated memory, when the addresses are provably equal or distinct. *)
Ltac offsets := unfold free_prev, free_next, ptr_prev, sizeAndFlag, info_pool, info_totalSize, info_attr, info_waterLine,
  info_curUsedSize, nextPool, first_node, end_node in *.
Ltac look := repeat first [rewrite lookup_insert_eq | rewrite lookup_insert_ne by (offsets; lia)].

(** [Step p n B s B' s']: an operation takes the blocks [B] of state [s] to the blocks [B'] of [s']. *)
Record Step (p n : Z) (B : gmap Z Blk) (s : Heap) (B' : gmap Z Blk) (s' : Heap) : Prop := {
  sp_inv : PoolInv p n B' (mem s');
  sp_frame : frame p B B' (mem s) (mem s');
  sp_head : g_poolHead s' = g_poolHead s;
}.

Lemma bit_clr w j k : 0 <= j -> 0 <= k -> Z.testbit (clrf (2 ^ j) w) k = if decide (k = j) then false else Z.testbit w k.
Proof.
  intros Hj Hk. rewrite clrf_bit, Z.pow2_bits_eqb by done. case_decide as Hd.
  - subst. by rewrite Z.eqb_refl, andb_false_r.
  - destruct (Z.eqb_spec j k); [by subst|]. by rewrite andb_true_r.
Qed.
Lemma bit_set w j k : 0 <= j -> 0 <= k -> Z.testbit (setf (2 ^ j) w) k = if decide (k = j) then true else Z.testbit w k.
Proof.
  intros Hj Hk. rewrite setf_bit, Z.pow2_bits_eqb by done. case_decide as Hd.
  - subst. by rewrite Z.eqb_refl, orb_true_r.
  - destruct (Z.eqb_spec j k); [by subst|]. by rewrite orb_false_r.
Qed.

Section list_delete.
Context {p n : Z} {B : gmap Z Blk} {s : Heap} {F : Z -> list Z}.
Context (HI : PoolInv p n B (mem s)) (HF : FreeLists p F (mem s)) (HM : Members B F).
Context (a : Z) (b : Blk).
Abbreviation i := (idx (b_size b)).
Context (Ha : B !! a = Some b) (Hf : b_state b = BFree).

Lemma delete_facts l1 l2 : F i = l1 ++ a :: l2 ->
  0 <= i < 207 /\ 0 <= i / 32 < 7 /\ 0 <= i mod 32 < 32 /\
  (∀ c, c ∈ l1 ++ a :: l2 -> p + 944 <= c) /\ 0 < p /\
  (∀ c d, c ∈ l1 ++ a :: l2 -> d ∈ l1 ++ a :: l2 -> c = d \/ c + 16 <= d \/ d + 16 <= c) /\
  ∃ w, mem s !! (p + 20 + 4 * (i / 32)) = Some w /\ 0 <= w < 2 ^ 32 /\ Z.testbit w (i mod 32) = true.
Proof using All.
  intros Hs. assert (Hai : a ∈ F i) by (apply (mb_in _ _ HM); eauto).
  pose proof (listed_idx HI HM _ _ Hai) as Hi.
  assert (Hi32 : 0 <= i / 32 < 7) by (pose proof (Z.div_mod i 32); pose proof (Z.mod_pos_bound i 32); lia).
  pose proof (Z.mod_pos_bound i 32 ltac:(lia)) as Him. split_and!; try lia.
  - intros c. rewrite <- Hs. by eapply listed_above.
  - destruct HI as [[[]] _ _ _ _]. lia.
  - intros c d. rewrite <- Hs. by eapply listed_apart.
  - destruct (fl_map _ _ _ HF (i / 32) Hi32) as (w & Hw & Hr & Hb). exists w. split_and!; try done; try lia.
    rewrite Hb by done. rewrite <- Z.div_mod by lia. rewrite Hs. apply bool_decide_eq_true. by destruct l1.
Qed.

Lemma delete_first_wp l2 : F i = a :: l2 ->
  wp (OsMemListDelete p i a) (λ _ s', Step p n B s (<[a := with_state BOut b]> B) s') s.
Proof using All.
  intros Hs. destruct (delete_facts [] l2 Hs) as (Hi & Hi32 & Him & Hlo & Hp0 & Hap & w & Hw & Hr & Hb).
  pose proof (fl_head _ _ _ HF i ltac:(lia)) as Hh. rewrite Hs in Hh.
  destruct (fl_links _ _ _ HF i [] a l2 Hs) as [_ Hna]. assert (Hla : p + 944 <= a) by (apply Hlo; by left).
  unfold OsMemListDelete. apply wp_bind, wp_freeList; [lia|]. apply wp_bind. eapply wp_ld; [done|]. cbn [head app from_option]; unfold id.
  rewrite Z.eqb_refl. apply wp_bind. eapply wp_ld; [done|]. apply wp_bind, wp_st; [eauto|].
  apply wp_bind. eapply wp_ld; [cbn; look; done|].
  destruct l2 as [|c l2'] eqn:El2; cbn [head from_option]; unfold id.
  - rewrite Z.eqb_refl. eapply clear_bit_wp; [lia|cbn; look; done|].
    destruct (delete_lists HI HF HM a b [] [] Ha Hf Hs
      (<[p + 20 + 4 * (i / 32) := clrf (2 ^ (i mod 32)) w]> (<[p + 48 + 4 * i := 0]> (mem s)))) as [H1 H2]; [..|by split].
    + done.
    + done.
    + by look.
    + exists w, (clrf (2 ^ (i mod 32)) w). look. split_and!; try done; try apply clrf_word; try lia.
      intros k Hk. by rewrite bit_clr by lia.
    + intros x ? ? _ _. by look.
    + intros x Hx. by apply insert_dom, insert_dom.
  - assert (Hlc : p + 944 <= c) by (apply Hlo; right; by left). destruct (Z.eqb_spec c 0); [lia|].
    assert (Hcs : is_Some (mem s !! free_prev c)) by (destruct (fl_links _ _ _ HF i [a] c l2' Hs) as [-> _]; eauto).
    apply wp_st; [cbn; by apply insert_dom|].
    destruct (delete_lists HI HF HM a b [] (c :: l2') Ha Hf Hs
      (<[free_prev c := 0]> (<[p + 48 + 4 * i := c]> (mem s)))) as [H1 H2]; [..|by split].
    + done.
    + intros ? [= <-]. by look.
    + by look.
    + exists w, w. look. split_and!; try done; try lia. intros k Hk. by case_decide; subst.
    + intros x ? ? _ Hx. rewrite lookup_insert_ne by (intros <-; by apply (Hx c)). by look.
    + intros x Hx. by apply insert_dom, insert_dom.
Qed.

Lemma delete_inner_wp l1 q l2 : F i = (l1 ++ [q]) ++ a :: l2 ->
  wp (OsMemListDelete p i a) (λ _ s', Step p n B s (<[a := with_state BOut b]> B) s') s.
Proof using All.
  intros Hs. destruct (delete_facts _ _ Hs) as (Hi & Hi32 & Him & Hlo & Hp0 & Hap & w & Hw & Hr & Hb).
  pose proof (fl_head _ _ _ HF i ltac:(lia)) as Hh. rewrite Hs in Hh. pose proof (mb_nodup _ _ HM i) as Hnd. rewrite Hs in Hnd.
  apply NoDup_app in Hnd as (_ & Hnd & Hnd'). apply NoDup_cons in Hnd' as [Hal2 _].
  destruct (fl_links _ _ _ HF i _ a l2 Hs) as [Hpa Hna]. rewrite last_snoc in Hpa. cbn in Hpa.
  assert (Hqa : a <> q) by (intros ->; apply (Hnd q); [apply elem_of_app; right|]; by left).
  assert (Hqs : is_Some (mem s !! free_next q)).
  { destruct (fl_links _ _ _ HF i l1 q (a :: l2)) as [_ ->]; [by rewrite Hs, <- app_assoc|eauto]. }
  assert (Hq : q ∈ (l1 ++ [q]) ++ a :: l2) by (rewrite !elem_of_app; left; right; by left).
  assert (Haa : a ∈ (l1 ++ [q]) ++ a :: l2) by (apply elem_of_app; right; by left).
  pose proof (Hap _ _ Hq Haa) as Hqa16. pose proof (Hlo _ Hq) as Hlq. pose proof (Hlo _ Haa) as Hla.
  unfold OsMemListDelete. apply wp_bind, wp_freeList; [lia|]. apply wp_bind. eapply wp_ld; [done|].
  assert (Hhd : ∃ f l, l1 ++ [q] = f :: l /\ f <> a).
  { destruct l1 as [|f l]; [by exists q, []|]. exists f, (l ++ [q]). split; [done|]. intros ->. apply (Hnd a); by left. }
  destruct Hhd as (f & lf & Elf & Hfa). rewrite Elf. cbn [head app from_option]. unfold id.
  destruct (Z.eqb_spec a f); [done|]. apply wp_bind. eapply wp_ld; [done|]. apply wp_bind. eapply wp_ld; [done|].
  apply wp_bind, wp_st; [done|]. apply wp_bind. eapply wp_ld; [cbn; look; done|].
  assert (Hbit : ∀ k, 0 <= k < 32 -> Z.testbit w k = if decide (k = i mod 32) then bool_decide ((l1 ++ [q]) ++ l2 <> []) else Z.testbit w k).
  { intros k Hk. case_decide; [|done]. subst. rewrite Hb, Elf. done. }
  destruct l2 as [|c l2']; cbn [head from_option]; unfold id.
  - rewrite Z.eqb_refl. apply wp_ret.
    destruct (delete_lists HI HF HM a b (l1 ++ [q]) [] Ha Hf Hs (<[free_next q := 0]> (mem s))) as [H1 H2]; [..|by split].
    + intros ?. rewrite last_snoc. intros [= <-]. by look.
    + done.
    + look. rewrite Hh, Elf. done.
    + exists w, w. look. auto.
    + intros x _ _ Hx _. rewrite lookup_insert_ne; [done|]. intros <-. apply (Hx q); [by rewrite last_snoc|done].
    + intros x Hx. by apply insert_dom.
  - assert (Hc : c ∈ (l1 ++ [q]) ++ a :: c :: l2') by (apply elem_of_app; right; right; by left).
    pose proof (Hlo _ Hc). destruct (Z.eqb_spec c 0); [lia|]. cbn [negb when].
    assert (Hqc : q <> c) by (intros ->; apply (Hnd c); [apply elem_of_app; right; by left|right; by left]).
    pose proof (Hap _ _ Hq Hc). pose proof (Hap _ _ Haa Hc).
    assert (Hcs : is_Some (mem s !! free_prev c)).
    { destruct (fl_links _ _ _ HF i ((l1 ++ [q]) ++ [a]) c l2') as [-> _]; [by rewrite Hs, <- !app_assoc|eauto]. }
    apply wp_bind. eapply wp_ld; [cbn; look; done|]. apply wp_st; [cbn; by apply insert_dom|].
    destruct (delete_lists HI HF HM a b (l1 ++ [q]) (c :: l2') Ha Hf Hs (<[free_prev c := q]> (<[free_next q := c]> (mem s)))) as [Hz1 Hz2]; [..|by split].
    + intros ?. rewrite last_snoc. intros [= <-]. by look.
    + intros ? [= <-]. rewrite last_snoc. by look.
    + look. rewrite Hh, Elf. done.
    + exists w, w. look. auto.
    + intros x _ _ Hx Hx'. rewrite !lookup_insert_ne; [done|intros <-; apply (Hx q); [by rewrite last_snoc|done]|intros <-; by apply (Hx' c)].
    + intros x Hx. by apply insert_dom, insert_dom.
Qed.
End list_delete.

Lemma list_delete_wp p n B s a b : PoolInv p n B (mem s) -> B !! a = Some b -> b_state b = BFree ->
  wp (OsMemListDelete p (idx (b_size b)) a) (λ _ s', Step p n B s (<[a := with_state BOut b]> B) s') s.
Proof.
  intros HI Ha Hf. destruct (pi_free _ _ _ _ HI) as (F & HF & HM).
  assert (Hai : a ∈ F (idx (b_size b))) by (apply (mb_in _ _ HM); eauto).
  destruct (list_elem_of_split _ _ Hai) as (l1 & l2 & Hs).
  destruct l1 as [|q l1 _] using rev_ind; [by eapply delete_first_wp|by eapply delete_inner_wp].
Qed.

Lemma free_node_delete_wp p n B s a b : PoolInv p n B (mem s) -> B !! a = Some b -> b_state b = BFree ->
  wp (OsMemFreeNodeDelete p a) (λ _ s', Step p n B s (<[a := with_state BOut b]> B) s') s.
Proof.
  intros HI Ha Hf. unfold OsMemFreeNodeDelete. apply wp_bind. destruct (pi_hdr _ _ _ _ HI _ _ Ha) as [_ Hw].
  eapply wp_ld; [done|]. unfold b_word. rewrite Hf. by apply list_delete_wp.
Qed.

(** A block enters the front of its list. *)
Section list_add.
Context {p n : Z} {B : gmap Z Blk} {W : gmap Z Z} {F : Z -> list Z}.
Context (HI : PoolInv p n B W) (HF : FreeLists p F W) (HM : Members B F).
Context (a : Z) (b : Blk).
Abbreviation i := (idx (b_size b)).
Context (Ha : B !! a = Some b) (Hout : b_state b = BOut).

Lemma out_not_end : a <> end_node p n.
Proof using HI Ha Hout.
  intros ->. destruct (ly_end _ _ _ (pi_layout _ _ _ _ HI)) as [l Hl]. rewrite Hl in Ha. by simplify_eq.
Qed.
Lemma add_facts : 0 <= i < 207 /\ 0 <= i / 32 < 7 /\ 0 <= i mod 32 < 32 /\ 0 < p /\ p + 944 <= a /\
  is_Some (W !! free_prev a) /\ is_Some (W !! free_next a).
Proof using HI Ha Hout.
  pose proof (pi_layout _ _ _ _ HI) as HL. pose proof out_not_end as Hne.
  destruct (blk_range _ _ HL _ _ Ha) as (Hr & Hd & Hsz & _ & He & H16). destruct (H16 Hne) as [? ?].
  destruct (ly_pool _ _ _ HL) as [[? ?] ? [? ?]].
  pose proof (idx_range (b_size b) ltac:(lia)) as Hi. pose proof (Z.div_mod i 32). pose proof (Z.mod_pos_bound i 32).
  offsets. split_and!; try lia; apply (pi_map _ _ _ _ HI); try lia; apply Z.divide_add_r; try done; [by exists 2|by exists 3].
Qed.
Lemma add_apart j c : c ∈ F j -> c + 16 <= a \/ a + 16 <= c.
Proof using HI HM Ha Hout.
  intros Hc. pose proof Hc as (d & Hd & Hs & _)%(mb_in _ _ HM). pose proof (pi_layout _ _ _ _ HI) as HL.
  apply (blk_apart p n HL c d a b); [done|done| | |].
  - intros ->. congruence.
  - by eapply free_not_end.
  - apply out_not_end.
Qed.

Lemma add_lists W' :
  W' !! free_prev a = Some 0 -> W' !! free_next a = Some (default 0 (head (F i))) ->
  (∀ c, head (F i) = Some c -> W' !! free_prev c = Some a) ->
  W' !! (p + 48 + 4 * i) = Some a ->
  (∃ w w', W !! (p + 20 + 4 * (i / 32)) = Some w /\ W' !! (p + 20 + 4 * (i / 32)) = Some w' /\ 0 <= w' < 2 ^ 32 /\
    ∀ k, 0 <= k < 32 -> Z.testbit w' k = if decide (k = i mod 32) then true else Z.testbit w k) ->
  (∀ x, x <> p + 48 + 4 * i -> x <> p + 20 + 4 * (i / 32) -> x <> free_prev a -> x <> free_next a ->
    (∀ c, head (F i) = Some c -> x <> free_prev c) -> W' !! x = W !! x) ->
  (∀ x, is_Some (W !! x) -> is_Some (W' !! x)) ->
  PoolInv p n (<[a := with_state BFree b]> B) W' /\ frame p B (<[a := with_state BFree b]> B) W W'.
Proof using All.
  intros Hp Hn Hh Hhd Hbit E Hdom. destruct add_facts as (Hi & Hi32 & Him & Hp0 & Hla & _).
  assert (Hd : ∀ c, head (F i) = Some c -> c ∈ F i) by (intros c Hc%head_Some_elem_of; done).
  assert (Hx : ∀ j c x, c ∈ F j -> x = free_prev c \/ x = free_next c ->
     (x = free_prev c -> head (F i) <> Some c) -> W' !! x = W !! x).
  { intros j c x Hc Hx H2. pose proof (listed_above HI HM _ _ Hc). pose proof (add_apart _ _ Hc). offsets.
    apply E; [lia..|]. intros c' Hc' ->.
    destruct (listed_apart HI HM _ _ _ _ Hc (Hd _ Hc')) as [->|?]; [|lia]. apply H2; [lia|done]. }
  apply (lists_step p n B W a b BFree (<[i := a :: F i]> F)); [done|done|apply out_not_end| | | | |done].
  - unfold b_word. by rewrite Hout.
  - apply (FreeLists_update p F W); [done|lia| |done| | |].
    + apply (links_cons W); [|apply HF|done..| | |apply HM].
      * intros Hc. pose proof (add_apart _ _ Hc). lia.
      * intros c Hc. apply (Hx i c); auto. offsets. lia.
      * intros c Hc Hne. apply (Hx i c); auto.
    + destruct Hbit as (w & w' & ? & ? & ? & Hb). exists w, w'. split_and!; try done; try lia.
    + intros x Hx' H1 H2. apply E; [done|done|offsets; lia|offsets; lia|]. intros c Hc. apply Hd, (listed_above HI HM) in Hc. offsets. lia.
    + intros j c Hj Hc. split; apply (Hx j c); auto; intros _ Hc'; apply Hj, (listed_fun HM _ _ c); auto.
  - apply (Members_in HM); [done|by rewrite Hout].
  - intros x H1 H2. pose proof (H2 a (with_state BFree b) (or_intror (lookup_insert_eq _ _ _)) eq_refl).
    apply E; [lia..|tauto|tauto|]. intros c Hc. apply Hd, (mb_in _ _ HM) in Hc as (d & Hc & Hfd & _).
    by apply (H2 c d); auto.
Qed.
End list_add.

Lemma free_node_add_wp p n B s a b : PoolInv p n B (mem s) -> B !! a = Some b -> b_state b = BOut ->
  wp (OsMemFreeNodeAdd p a) (λ _ s', Step p n B s (<[a := with_state BFree b]> B) s') s.
Proof.
  intros HI Ha Ho. destruct (pi_free _ _ _ _ HI) as (F & HF & HM).
  destruct (add_facts HI a b Ha Ho) as (Hi & Hi32 & Him & Hp0 & Hla & Hs1 & Hs2).
  pose proof (fl_head _ _ _ HF (idx (b_size b)) ltac:(lia)) as Hh. destruct (fl_map _ _ _ HF _ Hi32) as (w & Hw & Hr & _).
  unfold OsMemFreeNodeAdd. apply wp_bind. destruct (pi_hdr _ _ _ _ HI _ _ Ha) as [_ Hsf].
  eapply wp_ld; [done|]. unfold b_word. rewrite Ho. change OS_MEM_FREE_LIST_COUNT with 223.
  set (i := idx (b_size b)) in *. destruct (Z.geb_spec i 223); [lia|].
  unfold OsMemListAdd. apply wp_bind, wp_freeList; [lia|]. apply wp_bind. eapply wp_ld; [done|].
  assert (HQ : ∀ W1, W1 = match head (F i) with Some c => <[free_prev c := a]> (mem s) | None => mem s end ->
    wp (st (free_prev a) 0 ;;; st (free_next a) (default 0 (head (F i))) ;;; st (p + 48 + 4 * i) a ;;; OsMemSetFreeListBit p i)
      (λ _ s', Step p n B s (<[a := with_state BFree b]> B) s') (set_mem (λ _, W1) s)).
  { intros W1 HW1. assert (Hdom : ∀ x, is_Some (mem s !! x) -> is_Some (W1 !! x)).
    { intros x Hx. subst W1. destruct (head (F i)); [by apply insert_dom|done]. }
    assert (Hlow : ∀ x, x < p + 944 -> W1 !! x = mem s !! x).
    { intros x Hx. subst W1. destruct (head (F i)) as [c|] eqn:Ec; [|done]. apply head_Some_elem_of, (listed_above HI HM) in Ec. by look. }
    apply wp_bind, wp_st; [by apply Hdom|]. apply wp_bind, wp_st; [by apply insert_dom, Hdom|].
    apply wp_bind, wp_st; [apply insert_dom, insert_dom, Hdom; eauto|]. eapply set_bit_wp; [lia|cbn; look; rewrite Hlow by lia; done|].
    destruct (add_lists HI HF HM a b Ha Ho (<[p + 20 + 4 * (i / 32) := setf (2 ^ (i mod 32)) w]> (<[p + 48 + 4 * i := a]>
       (<[free_next a := default 0 (head (F i))]> (<[free_prev a := 0]> W1))))) as [H1 H2]; fold i; [..|by split].
    - by look.
    - by look.
    - intros c Hc. pose proof (head_Some_elem_of _ _ Hc) as Hc'. pose proof (listed_above HI HM _ _ Hc').
      pose proof (add_apart HI HM a b Ha Ho _ _ Hc'). subst W1. rewrite Hc. by look.
    - by look.
    - exists w, (setf (2 ^ (i mod 32)) w). look. split_and!; try done; try apply setf_word; try lia.
      intros k Hk. by rewrite bit_set by lia.
    - intros x ? ? ? ? Hx. look. subst W1. destruct (head (F i)) as [c|]; [|done]. rewrite lookup_insert_ne; [done|]. intros <-. by apply (Hx c).
    - intros x Hx. by apply insert_dom, insert_dom, insert_dom, insert_dom, Hdom. }
  apply wp_bind, wp_when; intros Hc.
  - destruct (head (F i)) as [c|] eqn:Ec; [|done]. cbn in Hc |- *. apply wp_st; [|by apply HQ].
    apply head_Some in Ec as (l & El). destruct (fl_links _ _ _ HF i [] c l El) as [-> _]. eauto.
  - destruct (head (F i)) as [c|] eqn:Ec.
    + apply head_Some_elem_of, (listed_above HI HM) in Ec. cbn in Hc. destruct (Z.eqb_spec c 0); [lia|done].
    + destruct s. by apply HQ.
Qed.
