(* ===== verification/MemBlocks.v ===== *)
(** Correctness of the dynamic allocator, part 2: the headers of the blocks,
    splitting and merging. *)

From S2P Require Import Prelude Errno Membox Memory MemInv.

(** ** Headers *)

Lemma free_same (B : gmap Z Blk) (a : Z) b b' : B !! a = Some b -> b_state b = b_state b' -> b_size b = b_size b' \/ b_state b <> BFree ->
  ∀ x z, (∃ d, B !! x = Some d /\ b_state d = BFree /\ b_size d = z) <->
         (∃ d, <[a := b']> B !! x = Some d /\ b_state d = BFree /\ b_size d = z).
Proof.
  intros Ha Hs Hz x z. rewrite lookup_insert. case_decide; [subst|done]. rewrite Ha.
  split; intros (d & [= <-] & Hd & Hdz); eexists; (split; [done|]); destruct Hz as [Hz|Hz]; split; congruence.
Qed.

(** Two blocks next to each other become one. *)
Section merge.
Context {p n : Z} {B : gmap Z Blk} (HL : Layout p n B).
Context (q m : Z) (bq bm c : Blk).
Context (Hq : B !! q = Some bq) (Hm : B !! m = Some bm) (Hpm : b_prev bm = q) (Hmf : m <> first_node p) (Hme : m <> end_node p n).
Context (Hc : B !! (m + b_size bm) = Some c).

Definition merged : gmap Z Blk :=
  delete m (<[q := with_size (b_size bq + b_size bm) bq]> (<[m + b_size bm := with_prev q c]> B)).

Lemma merge_facts : q <> end_node p n /\ q + b_size bq = m /\ 16 <= b_size bq /\ 16 <= b_size bm /\
  first_node p <= q /\ m + b_size bm <= end_node p n /\ b_prev c = m.
Proof using HL Hq Hm Hpm Hmf Hme Hc.
  destruct (ly_prev _ _ _ HL _ _ Hm Hmf) as (Hqe & bq' & Hq' & Hqm). rewrite Hpm in *. assert (bq' = bq) as -> by congruence.
  destruct (blk_range _ _ HL _ _ Hq) as (? & _ & _ & _ & _ & Hr). destruct (blk_range _ _ HL _ _ Hm) as (? & _ & _ & _ & ? & Hr').
  destruct (ly_next _ _ _ HL _ _ Hm Hme) as (c' & Hc' & Hpc). assert (c' = c) as -> by congruence.
  split_and!; try done; lia || apply Hr, Hqe || apply Hr', Hme.
Qed.

Lemma merged_lookup x : merged !! x =
  if decide (x = m) then None else if decide (x = q) then Some (with_size (b_size bq + b_size bm) bq)
  else if decide (x = m + b_size bm) then Some (with_prev q c) else B !! x.
Proof.
  unfold merged. rewrite lookup_delete, !lookup_insert. repeat case_decide; try done; subst; done.
Qed.

Lemma merged_layout : Layout p n merged.
Proof using HL Hq Hm Hpm Hmf Hme Hc.
  destruct merge_facts as (Hqe & Hqm & Hsq & Hsm & Hqf & Hce & Hpc).
  destruct (blk_range _ _ HL _ _ Hq) as (_ & Hq4 & _ & Hsq4 & _). destruct (blk_range _ _ HL _ _ Hm) as (_ & _ & _ & Hsm4 & _).
  destruct (ly_first _ _ _ HL) as (b0 & Hb0 & Hp0). destruct (ly_end _ _ _ HL) as (l & Hl).
  split; [apply HL| | | | | |].
  - rewrite merged_lookup. repeat case_decide; try congruence; [|by eauto]. exists q.
    assert (c = mk_Blk l 0 (BUsed false)) as -> by congruence. done.
  - intros x y. rewrite merged_lookup. repeat case_decide; try done; intros Hy Hne; [injection Hy as <-; cbn; try subst x..|].
    + split_and!; try lia; try done. by apply Z.divide_add_r.
    + by apply (ly_blk _ _ _ HL).
    + by apply (ly_blk _ _ _ HL).
  - intros x y. rewrite merged_lookup. repeat case_decide; try done; intros Hy Hne; [injection Hy as <-; cbn; try subst x..|].
    + exists (with_prev q c). rewrite merged_lookup. replace (q + _) with (m + b_size bm) by lia.
      repeat case_decide; try lia; done.
    + destruct (ly_next _ _ _ HL _ _ Hc Hne) as (c' & Hc' & Hpc'). exists c'. split; [|done]. rewrite merged_lookup.
      pose proof (ly_blk _ _ _ HL _ _ Hc Hne). repeat case_decide; try lia; done.
    + destruct (ly_next _ _ _ HL _ _ Hy Hne) as (c' & Hc' & Hpc'). rewrite merged_lookup. repeat case_decide; try congruence.
      * eexists. split; [done|]. cbn. congruence.
      * by exists c'.
  - rewrite merged_lookup. repeat case_decide; try congruence.
    + eexists. split; [done|]. cbn. congruence.
    + by exists b0.
  - intros x y. rewrite merged_lookup. repeat case_decide; try done; intros Hy Hne; [injection Hy as <-; cbn; try subst x..|].
    + destruct (ly_prev _ _ _ HL _ _ Hq Hne) as (Hre & r & Hr & Hrs). split; [done|]. exists r. split; [|done].
      destruct (ly_blk _ _ _ HL _ _ Hr Hre) as (_ & ? & _). rewrite merged_lookup. repeat case_decide; try lia; done.
    + split; [done|]. eexists. rewrite merged_lookup. repeat case_decide; try lia. split; [done|]. cbn. lia.
    + destruct (ly_prev _ _ _ HL _ _ Hy Hne) as (Hre & r & Hr & Hrs). split; [done|]. rewrite merged_lookup.
      destruct (decide (b_prev y = m)) as [E|]; [rewrite E in *; assert (r = bm) by congruence; congruence|].
      destruct (decide (b_prev y = q)) as [E|]; [rewrite E in *; assert (r = bq) by congruence; congruence|].
      case_decide.
      * exists (with_prev q c). split; [done|]. cbn. congruence.
      * by exists r.
  - intros x y x' y'. rewrite !merged_lookup. pose proof (ly_apart _ _ _ HL) as Hap.
    repeat case_decide; try done; intros Hy Hy' Hlt; (try injection Hy as <-); (try injection Hy' as <-); cbn; try lia.
    all: first
      [ pose proof (Hap x y x' y' Hy Hy'); lia
      | pose proof (Hap m bm x' y' Hm Hy'); pose proof (Hap q bq x' y' Hq Hy'); pose proof (Hap _ c x' y' Hc Hy'); lia
      | pose proof (Hap x y q bq Hy Hq); pose proof (Hap x y _ c Hy Hc); lia ].
Qed.
End merge.

Section headers.
Context {p n : Z} {B : gmap Z Blk} {s : Heap} (HI : PoolInv p n B (mem s)).

Lemma hdr_apart a b a' b' : B !! a = Some b -> B !! a' = Some b' -> a <> a' -> a + 16 <= a' \/ a' + 16 <= a.
Proof using HI.
  intros Ha Ha' Hne. pose proof (pi_layout _ _ _ _ HI) as HL.
  destruct (blk_range _ _ HL _ _ Ha) as (_ & _ & _ & _ & _ & Hr). destruct (blk_range _ _ HL _ _ Ha') as (_ & _ & _ & _ & _ & Hr').
  destruct (decide (a = end_node p n)) as [->|He]; [right; by apply Hr'|].
  destruct (decide (a' = end_node p n)) as [->|He']; [left; by apply Hr|].
  by apply (blk_apart p n HL a b a' b').
Qed.

Lemma hdr_some a b : B !! a = Some b -> is_Some (mem s !! ptr_prev a) /\ is_Some (mem s !! sizeAndFlag a).
Proof using HI. intros Ha. destruct (pi_hdr _ _ _ _ HI _ _ Ha) as [-> ->]. eauto. Qed.

(** A change of flags. *)
Lemma state_step a b st' : B !! a = Some b -> a <> end_node p n -> b_state b <> BFree -> st' <> BFree ->
  Step p n B s (<[a := with_state st' b]> B) (set_mem <[sizeAndFlag a := b_word (with_state st' b)]> s).
Proof using HI.
  intros Ha Hne Hs Hs'. destruct (pi_hdr _ _ _ _ HI _ _ Ha) as [Hpa Hwa].
  destruct (headers_step p n B (<[a := with_state st' b]> B) (mem s) (<[sizeAndFlag a := b_word (with_state st' b)]> (mem s)))
    as [H1 H2]; [done|apply Layout_state; [apply HI|done..]| | | | |by split].
  - intros x y Hy. rewrite lookup_insert in Hy. case_decide.
    + simplify_eq. by look.
    + destruct (pi_hdr _ _ _ _ HI _ _ Hy) as [H1 H2]. pose proof (hdr_apart _ _ _ _ Ha Hy ltac:(done)). by look.
  - intros x z. rewrite lookup_insert. case_decide; [subst|done]. rewrite Ha.
    by split; intros (d & [= <-] & Hd & _).
  - intros x. rewrite lookup_insert. case_decide; [right; exists a, b; auto|by left].
  - intros x Hx. by apply insert_dom.
Qed.

(** [OsMemMergeNode]: a block out of the lists is absorbed by the one before it. *)
Lemma merge_wp m bm bq c : B !! m = Some bm -> b_state bm = BOut -> m <> first_node p ->
  B !! b_prev bm = Some bq -> b_state bq = BOut -> B !! (m + b_size bm) = Some c ->
  wp (OsMemMergeNode m) (λ _ s', Step p n B s (merged (b_prev bm) m bq bm c (B := B)) s') s.
Proof using HI.
  intros Hm Hms Hmf Hq Hqs Hc. pose proof (pi_layout _ _ _ _ HI) as HL.
  assert (Hme : m <> end_node p n) by (by eapply out_not_end).
  set (q := b_prev bm) in *. destruct (merge_facts HL q m bq bm c Hq Hm eq_refl Hmf Hme Hc) as (Hqe & Hqm & Hsq & Hsm & Hqf & Hce & Hpc).
  destruct (ly_pool _ _ _ HL) as [[? ?] ? _].
  destruct (pi_hdr _ _ _ _ HI _ _ Hm) as [Hpm Hwm]. destruct (pi_hdr _ _ _ _ HI _ _ Hq) as [Hpq Hwq].
  destruct (pi_hdr _ _ _ _ HI _ _ Hc) as [Hpc' Hwc]. unfold b_word in Hwm, Hwq. rewrite Hms in Hwm. rewrite Hqs in Hwq.
  assert (Hsum : u32 (b_size bq + b_size bm) = b_size bq + b_size bm) by (apply u32_id; offsets; lia).
  assert (Hnx : u32 (m + b_size bm) = m + b_size bm) by (apply u32_id; offsets; lia).
  unfold OsMemMergeNode. apply wp_bind. eapply wp_ld; [done|]. apply wp_bind. eapply wp_ld; [done|]. apply wp_bind. eapply wp_ld; [done|].
  apply wp_bind, wp_st; [by apply (hdr_some _ _ Hq)|]. apply wp_bind. eapply wp_ld; [cbn; look; done|].
  apply wp_bind. eapply wp_ld; [cbn; look; done|]. rewrite Hnx, Hsum. apply wp_st; [apply insert_dom; by apply (hdr_some _ _ Hc)|].
  fold q. destruct (headers_step p n B (merged q m bq bm c (B := B)) (mem s) (<[ptr_prev (m + b_size bm) := q]> (<[sizeAndFlag q := b_size bq + b_size bm]> (mem s))))
    as [H1 H2]; [done|by apply merged_layout| | | | |by split].
  - intros x y. rewrite merged_lookup. repeat case_decide; try done.
    + intros [= <-]. subst x. look. unfold b_word. cbn. by rewrite Hqs.
    + intros [= <-]. subst x. by look.
    + intros Hy. destruct (pi_hdr _ _ _ _ HI _ _ Hy) as [? ?]. pose proof (hdr_apart _ _ _ _ Hq Hy). pose proof (hdr_apart _ _ _ _ Hc Hy). by look.
  - intros x z. rewrite merged_lookup. repeat case_decide; [subst x; rewrite Hm|subst x; rewrite Hq|subst x; rewrite Hc|done];
      split; intros (d & Hd & Hds & Hdz); try injection Hd as <-; cbn in *; try congruence; eauto.
  - intros x. rewrite !lookup_insert. repeat case_decide; subst; eauto 10.
  - intros x Hx. by apply insert_dom, insert_dom.
Qed.
End headers.

(** A block becomes two. *)
Section split.
Context {p n : Z} {B : gmap Z Blk} (HL : Layout p n B).
Context (a k : Z) (b c : Blk).
Context (Ha : B !! a = Some b) (Hae : a <> end_node p n) (Hc : B !! (a + b_size b) = Some c).
Context (Hk : 16 <= k) (Hk' : k + 16 <= b_size b) (Hk4 : (4 | k)).

Definition new_blk : Blk := mk_Blk a (b_size b - k) BOut.
Definition splitted : gmap Z Blk :=
  <[a := with_size k b]> (<[a + k := new_blk]> (<[a + b_size b := with_prev (a + k) c]> B)).

Lemma splitted_lookup x : splitted !! x =
  if decide (x = a) then Some (with_size k b) else if decide (x = a + k) then Some new_blk
  else if decide (x = a + b_size b) then Some (with_prev (a + k) c) else B !! x.
Proof. unfold splitted. rewrite !lookup_insert. repeat case_decide; try done; subst; done. Qed.

Lemma split_fresh : B !! (a + k) = None.
Proof using HL Ha Hae Hk Hk'.
  destruct (B !! (a + k)) as [d|] eqn:Hd; [|done]. pose proof (ly_apart _ _ _ HL _ _ _ _ Ha Hd). lia.
Qed.

Lemma splitted_layout : Layout p n splitted.
Proof using HL Ha Hae Hc Hk Hk' Hk4.
  destruct (ly_blk _ _ _ HL _ _ Ha Hae) as (Haf & Hsz & Hend & Ha4 & Hsz4).
  destruct (ly_next _ _ _ HL _ _ Ha Hae) as (c' & Hc' & Hpc). assert (c' = c) as E by congruence. rewrite E in Hpc. clear E Hc' c'.
  destruct (ly_first _ _ _ HL) as (b0 & Hb0 & Hp0). destruct (ly_end _ _ _ HL) as (l & Hl). pose proof split_fresh as Hnew.
  split; [apply HL| | | | | |].
  - rewrite splitted_lookup. repeat case_decide; try congruence; try lia; [|by eauto]. exists (a + k).
    assert (c = mk_Blk l 0 (BUsed false)) as -> by congruence. done.
  - intros x y. rewrite splitted_lookup. repeat case_decide; intros Hy Hne; [injection Hy as <-; cbn; try subst x..|].
    + split_and!; try lia; done.
    + split_and!; try lia; [by apply Z.divide_add_r|by apply Z.divide_sub_r].
    + by apply (ly_blk _ _ _ HL).
    + by apply (ly_blk _ _ _ HL).
  - intros x y. rewrite splitted_lookup. repeat case_decide; intros Hy Hne; [injection Hy as <-; cbn; try subst x..|].
    + exists new_blk. rewrite splitted_lookup. repeat case_decide; try lia; done.
    + exists (with_prev (a + k) c). rewrite splitted_lookup. replace (a + k + _) with (a + b_size b) by lia. repeat case_decide; try lia; done.
    + destruct (ly_next _ _ _ HL _ _ Hc Hne) as (c' & Hc' & Hpc'). exists c'. split; [|done]. rewrite splitted_lookup.
      pose proof (ly_blk _ _ _ HL _ _ Hc Hne). repeat case_decide; try lia; done.
    + destruct (ly_next _ _ _ HL _ _ Hy Hne) as (c' & Hc' & Hpc'). rewrite splitted_lookup. repeat case_decide; try congruence.
      * eexists. split; [done|]. cbn. congruence.
      * by exists c'.
  - rewrite splitted_lookup. repeat case_decide; try congruence; try lia.
    + eexists. split; [done|]. cbn. congruence.
    + by exists b0.
  - intros x y. rewrite splitted_lookup. repeat case_decide; intros Hy Hne; [injection Hy as <-; cbn; try subst x..|].
    + destruct (ly_prev _ _ _ HL _ _ Ha Hne) as (Hre & r & Hr & Hrs). split; [done|]. exists r. split; [|done].
      destruct (ly_blk _ _ _ HL _ _ Hr Hre) as (_ & ? & _). rewrite splitted_lookup. repeat case_decide; try lia; done.
    + split; [done|]. eexists. rewrite splitted_lookup. repeat case_decide; try lia. split; [done|]. cbn. lia.
    + split; [lia|]. eexists. rewrite splitted_lookup. repeat case_decide; try lia. split; [done|]. cbn. lia.
    + destruct (ly_prev _ _ _ HL _ _ Hy Hne) as (Hre & r & Hr & Hrs). split; [done|]. rewrite splitted_lookup.
      destruct (decide (b_prev y = a)) as [E|]; [rewrite E in *; assert (r = b) by congruence; congruence|].
      destruct (decide (b_prev y = a + k)) as [E|]; [congruence|].
      case_decide.
      * exists (with_prev (a + k) c). split; [done|]. cbn. congruence.
      * by exists r.
  - intros x y x' y'. rewrite !splitted_lookup. pose proof (ly_apart _ _ _ HL) as Hap.
    repeat case_decide; try done; intros Hy Hy' Hlt; (try injection Hy as <-); (try injection Hy' as <-); cbn; try lia.
    all: first
      [ pose proof (Hap x y x' y' Hy Hy'); lia
      | pose proof (Hap a b x' y' Ha Hy'); pose proof (Hap _ c x' y' Hc Hy'); lia
      | pose proof (Hap a b x y Ha Hy); pose proof (Hap x y a b Hy Ha); pose proof (Hap x y _ c Hy Hc); lia ].
Qed.
End split.

Section split_ops.
Context {p n : Z} {B : gmap Z Blk} {s : Heap} (HI : PoolInv p n B (mem s)).

(** The headers of [OsMemSplitNode]. *)
Definition split_headers (allocNode allocSize : Z) : M Heap Z :=
  let newFreeNode := u32 (allocNode + allocSize) in
  st (ptr_prev newFreeNode) allocNode ;;;
  let* w := ld (sizeAndFlag allocNode) in
  st (sizeAndFlag newFreeNode) (u32 (w - allocSize)) ;;;
  st (sizeAndFlag allocNode) allocSize ;;;
  let* nextNode := OS_MEM_NEXT_NODE newFreeNode in
  st (ptr_prev nextNode) newFreeNode ;;;
  mret nextNode.

Lemma get_size_id z : 0 <= z < 2 ^ 30 -> OS_MEM_NODE_GET_SIZE z = z.
Proof.
  intros Hz. unfold OS_MEM_NODE_GET_SIZE, clrf. apply Z.bits_inj'. intros j Hj. rewrite Z.ldiff_spec.
  change OS_MEM_NODE_ALIGNED_AND_USED_FLAG with (Z.shiftl 3 30). rewrite Z.shiftl_spec by done.
  destruct (decide (j < 30)).
  - rewrite (Z.testbit_neg_r 3) by lia. by rewrite andb_true_r.
  - rewrite (Z.bits_above_log2 z); [done|lia|]. destruct (decide (z = 0)) as [->|]; [cbn; lia|].
    apply Z.log2_lt_pow2; [lia|]. apply Z.lt_le_trans with (2 ^ 30); [lia|]. apply Z.pow_le_mono_r; lia.
Qed.

Lemma split_headers_wp a k b c : B !! a = Some b -> b_state b = BOut -> B !! (a + b_size b) = Some c ->
  16 <= k -> k + 16 <= b_size b -> (4 | k) ->
  wp (split_headers a k) (λ r s', r = a + b_size b /\ Step p n B s (splitted a k b c (B := B)) s') s.
Proof using HI.
  intros Ha Has Hc Hk Hk' Hk4. pose proof (pi_layout _ _ _ _ HI) as HL.
  assert (Hae : a <> end_node p n) by (by eapply out_not_end). destruct (ly_pool _ _ _ HL) as [[? ?] ? _].
  destruct (ly_blk _ _ _ HL _ _ Ha Hae) as (Haf & Hsz & Hend & Ha4 & Hsz4). pose proof (split_fresh HL a k b Ha Hae Hk Hk') as Hnew.
  destruct (pi_hdr _ _ _ _ HI _ _ Ha) as [Hpa Hwa]. destruct (pi_hdr _ _ _ _ HI _ _ Hc) as [Hpc Hwc].
  unfold b_word in Hwa. rewrite Has in Hwa.
  assert (E1 : u32 (a + k) = a + k) by (apply u32_id; offsets; lia).
  assert (E2 : u32 (b_size b - k) = b_size b - k) by (apply u32_id; offsets; lia).
  assert (E3 : OS_MEM_NODE_GET_SIZE (b_size b - k) = b_size b - k) by (apply get_size_id; offsets; lia).
  assert (E4 : u32 (a + k + (b_size b - k)) = a + b_size b) by (replace (a + k + (b_size b - k)) with (a + b_size b) by lia; apply u32_id; offsets; lia).
  assert (Hm1 : is_Some (mem s !! ptr_prev (a + k))) by (apply (pi_map _ _ _ _ HI); offsets; [lia|by apply Z.divide_add_r]).
  assert (Hm2 : is_Some (mem s !! sizeAndFlag (a + k))).
  { apply (pi_map _ _ _ _ HI); offsets; [lia|]. apply Z.divide_add_r; [by apply Z.divide_add_r|by exists 1]. }
  unfold split_headers. rewrite E1. apply wp_bind, wp_st; [done|]. apply wp_bind. eapply wp_ld; [cbn; look; done|]. rewrite E2.
  apply wp_bind, wp_st; [by apply insert_dom|]. apply wp_bind, wp_st; [apply insert_dom, insert_dom; eauto|].
  unfold OS_MEM_NEXT_NODE. apply wp_bind, wp_bind. eapply wp_ld; [cbn; look; done|]. rewrite E3, E4.
  apply wp_ret, wp_bind, wp_st; [apply insert_dom, insert_dom, insert_dom; eauto|]. apply wp_ret. split; [done|].
  destruct (headers_step p n B (splitted a k b c (B := B)) (mem s)
    (<[ptr_prev (a + b_size b) := a + k]> (<[sizeAndFlag a := k]> (<[sizeAndFlag (a + k) := b_size b - k]> (<[ptr_prev (a + k) := a]> (mem s))))))
    as [H1' H2']; [done|by apply splitted_layout| | | | |by split].
  - intros x y. rewrite splitted_lookup. repeat case_decide.
    + intros [= <-]. subst x. look. unfold b_word. cbn. by rewrite Has.
    + intros [= <-]. subst x. by look.
    + intros [= <-]. subst x. by look.
    + intros Hy. destruct (pi_hdr _ _ _ _ HI _ _ Hy) as [? ?]. pose proof (hdr_apart HI _ _ _ _ Ha Hy). pose proof (hdr_apart HI _ _ _ _ Hc Hy).
      pose proof (ly_apart _ _ _ HL _ _ _ _ Ha Hy). by look.
  - intros x z. rewrite splitted_lookup. repeat case_decide; [subst x; rewrite Ha|subst x; rewrite Hnew|subst x; rewrite Hc|done];
      split; intros (d & Hd & Hds & Hdz); try injection Hd as <-; cbn in *; try congruence; eauto.
  - intros x. assert (Hs1 : splitted a k b c (B := B) !! (a + k) = Some (new_blk a k b)) by (rewrite splitted_lookup; repeat case_decide; try lia; done).
    rewrite !lookup_insert. repeat case_decide; subst; eauto 10.
  - intros x Hx. by repeat apply insert_dom.
Qed.
End split_ops.

(** ** Words the allocator leaves alone

    [kept B x]: word [x] is outside the pool, in the part of its head that
    describes the pool, or in the payload of a block that is not free. *)

Definition payload (a : Z) (b : Blk) (x : Z) : Prop := a + 8 <= x < a + b_size b.
Definition kept (p n : Z) (B : gmap Z Blk) (x : Z) : Prop :=
  x < p + 20 \/ p + 940 <= x < p + 944 \/ p + n <= x \/
  ∃ u d, B !! u = Some d /\ b_state d <> BFree /\ payload u d x.

Section kept.
Context {p n : Z} {B : gmap Z Blk} (HL : Layout p n B).

Lemma kept_not_meta x : kept p n B x -> ~ meta p B x.
Proof using HL.
  intros Hk Hm. destruct (ly_pool _ _ _ HL) as [[? ?] ? _].
  destruct Hk as [?|[?|[?|(u & d & Hu & Hs & Hx)]]]; destruct Hm as [?|(a & b & Ha & Hxa)]; try lia.
  1-3: destruct (blk_range _ _ HL _ _ Ha) as (? & _ & _ & _ & _ & Hr); pose proof (free_not_end _ _ HL _ _ Ha) as Hne; offsets;
    destruct Hxa as [?|[?|[Hf ?]]]; [lia|lia|specialize (Hr (Hne Hf)); lia].
  - destruct (blk_range _ _ HL _ _ Hu) as (? & _). unfold payload in Hx. offsets. lia.
  - pose proof (ly_apart _ _ _ HL _ _ _ _ Ha Hu). pose proof (ly_apart _ _ _ HL _ _ _ _ Hu Ha).
    destruct (blk_range _ _ HL _ _ Ha) as (_ & _ & _ & _ & _ & Hr). pose proof (free_not_end _ _ HL _ _ Ha) as Hne.
    unfold payload in Hx. offsets. destruct (decide (a = u)) as [->|].
    + assert (b = d) as -> by congruence. destruct Hxa as [?|[?|[Hf ?]]]; [lia|lia|done].
    + destruct (blk_range _ _ HL _ _ Hu) as (_ & _ & _ & _ & _ & Hr'). assert (u <> p + n - 8 \/ u = p + n - 8) as [Hu'|Hu'] by lia.
      * specialize (Hr' Hu'). destruct Hxa as [?|[?|[Hf ?]]]; [..|specialize (Hr (Hne Hf))]; try lia.
        all: destruct (decide (a = p + n - 8)) as [->|Ha']; [lia|]; specialize (Hr Ha'); lia.
      * rewrite Hu' in Hu. destruct (ly_end _ _ _ HL) as (l & Hl). unfold end_node in Hl. assert (d = mk_Blk l 0 (BUsed false)) as -> by congruence. cbn in Hx. lia.
Qed.

Lemma kept_state a b st' x : B !! a = Some b -> st' <> BFree \/ ~ payload a b x -> kept p n B x ->
  kept p n (<[a := with_state st' b]> B) x.
Proof.
  intros Ha Hs [?|[?|[?|(u & d & Hu & Hd & Hx)]]]; [by left|by right; left|by right; right; left|]. right; right; right.
  destruct (decide (u = a)) as [->|].
  - assert (d = b) as -> by congruence. exists a, (with_state st' b). rewrite lookup_insert_eq. split_and!; [done| |done].
    destruct Hs; [done|tauto].
  - exists u, d. by rewrite lookup_insert_ne.
Qed.

Lemma kept_merged q m bq bm c x : B !! q = Some bq -> B !! m = Some bm -> B !! (m + b_size bm) = Some c ->
  q + b_size bq = m -> 16 <= b_size bq -> 16 <= b_size bm -> b_state bq <> BFree ->
  kept p n B x -> kept p n (merged q m bq bm c (B := B)) x.
Proof.
  intros Hq Hm Hc E Hs1 Hs2 Hst [?|[?|[?|(u & d & Hu & Hd & Hx)]]]; [by left|by right; left|by right; right; left|]. right; right; right.
  unfold payload in *. destruct (decide (u = m)) as [->|]; [|destruct (decide (u = q)) as [->|]].
  - assert (d = bm) as -> by congruence. exists q, (with_size (b_size bq + b_size bm) bq). rewrite merged_lookup.
    repeat case_decide; try lia. split_and!; try done; cbn; lia.
  - assert (d = bq) as -> by congruence. exists q, (with_size (b_size bq + b_size bm) bq). rewrite merged_lookup.
    repeat case_decide; try lia. split_and!; try done; cbn; lia.
  - destruct (decide (u = m + b_size bm)) as [->|].
    + exists (m + b_size bm), (with_prev q c). assert (d = c) as -> by congruence. rewrite merged_lookup. repeat case_decide; try lia. done.
    + exists u, d. rewrite merged_lookup. by repeat case_decide.
Qed.

Lemma kept_splitted a k b c x : B !! a = Some b -> B !! (a + b_size b) = Some c -> B !! (a + k) = None ->
  16 <= k -> k + 16 <= b_size b -> ~ a + k <= x < a + k + 8 ->
  kept p n B x -> kept p n (splitted a k b c (B := B)) x.
Proof.
  intros Ha Hc Hnew Hk Hk' Hx' [?|[?|[?|(u & d & Hu & Hd & Hx)]]]; [by left|by right; left|by right; right; left|]. right; right; right.
  unfold payload in *. destruct (decide (u = a)) as [->|].
  - assert (d = b) as -> by congruence. destruct (decide (x < a + k)).
    + exists a, (with_size k b). rewrite splitted_lookup. repeat case_decide; try lia. cbn. split_and!; try done; lia.
    + exists (a + k), (new_blk a k b). rewrite splitted_lookup. repeat case_decide; try lia. cbn. split_and!; try done; lia.
  - destruct (decide (u = a + k)) as [->|]; [congruence|]. destruct (decide (u = a + b_size b)) as [->|].
    + exists (a + b_size b), (with_prev (a + k) c). assert (d = c) as -> by congruence. rewrite splitted_lookup. repeat case_decide; try lia. done.
    + exists u, d. rewrite splitted_lookup. by repeat case_decide.
Qed.
End kept.

(** [Steps K]: a sequence of steps that leaves the words of [K] alone. *)
Record Steps (K : Z -> Prop) (p n : Z) (s : Heap) (B' : gmap Z Blk) (s' : Heap) : Prop := {
  ss_inv : PoolInv p n B' (mem s');
  ss_keep : ∀ x, K x -> mem s' !! x = mem s !! x;
  ss_kept : ∀ x, K x -> kept p n B' x;
  ss_head : g_poolHead s' = g_poolHead s;
}.

Lemma Steps_refl K p n B s : PoolInv p n B (mem s) -> (∀ x, K x -> kept p n B x) -> Steps K p n s B s.
Proof. done. Qed.

Lemma Steps_step K p n B B' s0 s s' :
  Steps K p n s0 B s -> Step p n B s B' s' -> (∀ x, K x -> kept p n B x -> kept p n B' x) -> Steps K p n s0 B' s'.
Proof.
  intros [HI Hk Hkt Hg] [HI' Hf Hg'] HK. split; [done| |auto|congruence].
  intros x Hx. rewrite Hf; [auto|..].
  - apply (kept_not_meta (pi_layout _ _ _ _ HI)). auto.
  - apply (kept_not_meta (pi_layout _ _ _ _ HI')). auto.
Qed.

(** ** The operations on nodes, as sequences of steps *)

Section ops.
Context {K : Z -> Prop} {p n : Z} {s0 s : Heap} {B : gmap Z Blk} (HS : Steps K p n s0 B s).

Lemma delete_steps a b i : B !! a = Some b -> b_state b = BFree -> i = idx (b_size b) ->
  wp (OsMemListDelete p i a) (λ _ s', Steps K p n s0 (<[a := with_state BOut b]> B) s') s.
Proof using HS.
  intros Ha Hf ->. eapply wp_mono; [apply list_delete_wp; [apply HS|done..]|]. intros [] s' HS'. eapply Steps_step; [done..|].
  intros x _. apply kept_state; [done|by left].
Qed.
Lemma node_delete_steps a b : B !! a = Some b -> b_state b = BFree ->
  wp (OsMemFreeNodeDelete p a) (λ _ s', Steps K p n s0 (<[a := with_state BOut b]> B) s') s.
Proof using HS.
  intros Ha Hf. eapply wp_mono; [by apply free_node_delete_wp; [apply HS|..]|]. intros [] s' HS'. eapply Steps_step; [done..|].
  intros x _. apply kept_state; [done|by left].
Qed.
Lemma node_add_steps a b : B !! a = Some b -> b_state b = BOut -> (∀ x, K x -> ~ payload a b x) ->
  wp (OsMemFreeNodeAdd p a) (λ _ s', Steps K p n s0 (<[a := with_state BFree b]> B) s') s.
Proof using HS.
  intros Ha Hf HK. eapply wp_mono; [by apply free_node_add_wp; [apply HS|..]|]. intros [] s' HS'. eapply Steps_step; [done..|].
  intros x Hx. apply kept_state; [done|right; auto].
Qed.
Lemma flag_steps a b st' : B !! a = Some b -> a <> end_node p n -> b_state b <> BFree -> st' <> BFree ->
  wp (st (sizeAndFlag a) (b_word (with_state st' b))) (λ _ s', Steps K p n s0 (<[a := with_state st' b]> B) s') s.
Proof using HS.
  intros Ha Hne Hs Hs'. apply wp_st; [by apply (hdr_some (ss_inv _ _ _ _ _ _ HS) _ _ Ha)|].
  eapply Steps_step; [done|by apply state_step; [apply HS|..]|]. intros x _. apply kept_state; [done|by left].
Qed.
Lemma merge_steps m bm bq c : B !! m = Some bm -> b_state bm = BOut -> m <> first_node p ->
  B !! b_prev bm = Some bq -> b_state bq = BOut -> B !! (m + b_size bm) = Some c ->
  wp (OsMemMergeNode m) (λ _ s', Steps K p n s0 (merged (b_prev bm) m bq bm c (B := B)) s') s.
Proof using HS.
  intros Hm Hms Hmf Hq Hqs Hc. pose proof (ss_inv _ _ _ _ _ _ HS) as HI. pose proof (pi_layout _ _ _ _ HI) as HL.
  eapply wp_mono; [by eapply merge_wp|]. intros [] s' HS'. eapply Steps_step; [done..|]. intros x _.
  destruct (merge_facts HL (b_prev bm) m bq bm c Hq Hm eq_refl Hmf (out_not_end HI m bm Hm Hms) Hc) as (_ & ? & ? & ? & _).
  apply kept_merged; try done. by rewrite Hqs.
Qed.
Lemma split_headers_steps a k b c : B !! a = Some b -> b_state b = BOut -> B !! (a + b_size b) = Some c ->
  16 <= k -> k + 16 <= b_size b -> (4 | k) -> (∀ x, K x -> ~ a + k <= x < a + k + 8) ->
  wp (split_headers a k) (λ r s', r = a + b_size b /\ Steps K p n s0 (splitted a k b c (B := B)) s') s.
Proof using HS.
  intros Ha Has Hc Hk Hk' Hk4 HK. pose proof (ss_inv _ _ _ _ _ _ HS) as HI. pose proof (pi_layout _ _ _ _ HI) as HL.
  eapply wp_mono; [by eapply split_headers_wp|]. intros r s' [-> HS']. split; [done|]. eapply Steps_step; [done..|]. intros x Hx.
  apply kept_splitted; try done; [|auto]. apply (split_fresh HL a k b); try done. by apply (out_not_end HI a b).
Qed.

(** A word of [K] is in no free block. *)
Lemma kept_not_free c d x : B !! c = Some d -> b_state d = BFree -> K x -> ~ c <= x < c + b_size d.
Proof using HS.
  intros Hc Hd Hx Hr. pose proof (pi_layout _ _ _ _ (ss_inv _ _ _ _ _ _ HS)) as HL. destruct (ly_pool _ _ _ HL) as [[? ?] ? _].
  destruct (blk_range _ _ HL _ _ Hc) as (? & _ & _ & _ & ? & _). destruct (ss_kept _ _ _ _ _ _ HS x Hx) as [?|[?|[?|(u & d' & Hu & Hs & Hx')]]]; offsets; try lia.
  unfold payload in Hx'. assert (u <> c) by congruence. pose proof (ly_apart _ _ _ HL _ _ _ _ Hu Hc). pose proof (ly_apart _ _ _ HL _ _ _ _ Hc Hu). lia.
Qed.
End ops.

Lemma split_unfold p a k s : OsMemSplitNode p a k s =
  (let* nextNode := split_headers a k in
   let* w := ld (sizeAndFlag nextNode) in
   when (negb (OS_MEM_NODE_GET_USED_FLAG w)) (OsMemFreeNodeDelete p nextNode ;;; OsMemMergeNode nextNode) ;;;
   OsMemFreeNodeAdd p (u32 (a + k))) s.
Proof.
  unfold OsMemSplitNode, split_headers. unfold mbind, M_bind.
  repeat match goal with |- match match ?x with _ => _ end with _ => _ end = _ => destruct x as [[? ?]|]; [|done] | |- match ?x with _ => _ end = _ => destruct x as [[? ?]|] eqn:?; [|done] end.
  done.
Qed.
