(* ===== verification/MemWalk.v ===== *)
(** Correctness of the dynamic allocator, part 3: splitting, the search for a block and
    the traversals of a pool. *)

From Stdlib Require Import Btauto.
From S2P Require Import Prelude Errno Membox Memory MemInv MemBlocks.

(** ** The flags of a header *)

Lemma size_bit z j : 0 <= z < 2 ^ 30 -> 30 <= j -> Z.testbit z j = false.
Proof.
  intros Hz Hj. apply Z.bits_above_log2; [lia|]. destruct (decide (z = 0)) as [->|]; [cbn; lia|].
  apply Z.log2_lt_pow2; [lia|]. apply Z.lt_le_trans with (2 ^ 30); [lia|]. apply Z.pow_le_mono_r; lia.
Qed.

Lemma used_flag_word b : 0 <= b_size b < 2 ^ 30 ->
  OS_MEM_NODE_GET_USED_FLAG (b_word b) = match b_state b with BUsed _ => true | _ => false end.
Proof.
  intros Hz. unfold OS_MEM_NODE_GET_USED_FLAG, b_word, OS_MEM_NODE_USED_FLAG, OS_MEM_NODE_ALIGNED_FLAG.
  destruct (b_state b) as [| |[]]; bits; try done; by apply size_bit.
Qed.

Lemma get_size_word b : 0 <= b_size b < 2 ^ 30 -> OS_MEM_NODE_GET_SIZE (b_word b) = b_size b.
Proof.
  intros Hz. transitivity (OS_MEM_NODE_GET_SIZE (b_size b)); [|by apply get_size_id]. unfold OS_MEM_NODE_GET_SIZE, b_word.
  destruct (b_state b) as [| |[]]; try done; unfold clrf, setf, OS_MEM_NODE_ALIGNED_AND_USED_FLAG;
    apply Z.bits_inj'; intros j Hj; rewrite !Z.ldiff_spec, !Z.lor_spec; btauto.
Qed.

(** ** Splitting *)

Lemma wp_ext {S A} (m m' : M S A) Q s : (∀ s, m s = m' s) -> wp m' Q s -> wp m Q s.
Proof. intros E. unfold wp. by rewrite E. Qed.

Section split_node.
Context {K : Z -> Prop} {p n : Z} {s0 s : Heap} {B : gmap Z Blk} (HS : Steps K p n s0 B s).
Context (a k : Z) (b c : Blk).
Context (Ha : B !! a = Some b) (Hb : b_state b = BOut) (Hc : B !! (a + b_size b) = Some c).
Context (Hk : 16 <= k) (Hk' : k + 16 <= b_size b) (Hk4 : (4 | k)).
Context (HK : ∀ x, K x -> ~ a + k <= x < a + b_size b).

Abbreviation B1 := (splitted a k b c (B := B)).

(** The block after the split one is used: the rest becomes a free block. *)
Definition split_used : gmap Z Blk := <[a + k := with_state BFree (new_blk a k b)]> B1.

Lemma split_start Q :
  (∀ s1, Steps K p n s0 B1 s1 ->
    wp (let* w := ld (sizeAndFlag (a + b_size b)) in
        when (negb (OS_MEM_NODE_GET_USED_FLAG w)) (OsMemFreeNodeDelete p (a + b_size b) ;;; OsMemMergeNode (a + b_size b)) ;;;
        OsMemFreeNodeAdd p (a + k)) Q s1) ->
  wp (OsMemSplitNode p a k) Q s.
Proof using All.
  intros HQ. apply (wp_ext _ _ _ _ (split_unfold p a k)), wp_bind.
  eapply wp_mono; [eapply split_headers_steps; try done; intros x Hx Hr; apply (HK x Hx); lia|]. intros r s1 [-> HS1].
  assert (u32 (a + k) = a + k) as ->; [|by apply HQ].
  pose proof (pi_layout _ _ _ _ (ss_inv _ _ _ _ _ _ HS)) as HL. destruct (ly_pool _ _ _ HL) as [[? ?] ? _].
  destruct (blk_range _ _ HL _ _ Ha) as (? & _ & _ & _ & ? & _). apply u32_id. offsets. lia.
Qed.

Lemma split_used_wp : (∃ al, b_state c = BUsed al) ->
  wp (OsMemSplitNode p a k) (λ _ s', Steps K p n s0 split_used s') s.
Proof using All.
  intros [al Hcu]. apply split_start. intros s1 HS1. pose proof (ss_inv _ _ _ _ _ _ HS1) as HI1.
  assert (H1 : B1 !! (a + b_size b) = Some (with_prev (a + k) c)) by (rewrite splitted_lookup; repeat case_decide; try lia; done).
  assert (H2 : B1 !! (a + k) = Some (new_blk a k b)) by (rewrite splitted_lookup; repeat case_decide; try lia; done).
  destruct (pi_hdr _ _ _ _ HI1 _ _ H1) as [_ Hw]. destruct (blk_range _ _ (pi_layout _ _ _ _ HI1) _ _ H1) as (_ & _ & ? & _).
  apply wp_bind. eapply wp_ld; [done|]. rewrite used_flag_word by lia. cbn. rewrite Hcu. cbn.
  apply wp_bind, wp_ret, node_add_steps; try done. intros x Hx Hp. apply (HK x Hx). unfold payload in Hp. cbn in Hp. lia.
Qed.

(** It is free: the rest and that block become one free block. *)
Context (c2 : Blk) (Hc2 : B !! (a + b_size b + b_size c) = Some c2).
Definition split_join : gmap Z Blk :=
  merged (a + k) (a + b_size b) (new_blk a k b) (with_state BOut (with_prev (a + k) c)) c2
    (B := <[a + b_size b := with_state BOut (with_prev (a + k) c)]> B1).
Definition split_free : gmap Z Blk :=
  <[a + k := with_state BFree (with_size (b_size b - k + b_size c) (new_blk a k b))]> split_join.

Lemma split_free_wp : b_state c = BFree ->
  wp (OsMemSplitNode p a k) (λ _ s', Steps K p n s0 split_free s') s.
Proof using All.
  intros Hcf. apply split_start. intros s1 HS1. pose proof (ss_inv _ _ _ _ _ _ HS1) as HI1.
  pose proof (pi_layout _ _ _ _ HI1) as HL1. pose proof (pi_layout _ _ _ _ (ss_inv _ _ _ _ _ _ HS)) as HL.
  destruct (ly_pool _ _ _ HL) as [[? ?] ? _]. pose proof (free_not_end _ _ HL _ _ Hc Hcf) as Hce.
  destruct (ly_blk _ _ _ HL _ _ Hc Hce) as (? & ? & ? & _). destruct (blk_range _ _ HL _ _ Ha) as (? & _).
  assert (H1' : B1 !! (a + b_size b) = Some (with_prev (a + k) c)) by (rewrite splitted_lookup; repeat case_decide; try lia; done).
  assert (H2' : B1 !! (a + k) = Some (new_blk a k b)) by (rewrite splitted_lookup; repeat case_decide; try lia; done).
  destruct (pi_hdr _ _ _ _ HI1 _ _ H1') as [_ Hw]. destruct (blk_range _ _ (pi_layout _ _ _ _ HI1) _ _ H1') as (_ & _ & ? & _).
  apply wp_bind. eapply wp_ld; [done|]. rewrite used_flag_word by lia. cbn. rewrite Hcf. cbn.
  apply wp_bind, wp_bind. eapply wp_mono; [by eapply (node_delete_steps HS1)|]. intros [] s2 HS2.
  eapply wp_mono; [eapply (merge_steps HS2 (a + b_size b) (with_state BOut (with_prev (a + k) c)) (new_blk a k b) c2)|].
  - by rewrite lookup_insert_eq.
  - done.
  - offsets. lia.
  - cbn. rewrite lookup_insert_ne by lia. done.
  - done.
  - cbn. rewrite lookup_insert_ne by lia. rewrite splitted_lookup. repeat case_decide; try lia. done.
  - intros [] s3 HS3. cbn in HS3. apply (node_add_steps HS3); try done.
    + rewrite merged_lookup. repeat case_decide; try lia. done.
    + intros x Hx Hp. unfold payload in Hp. cbn in Hp. pose proof (HK x Hx). pose proof (kept_not_free HS _ _ x Hc Hcf Hx). lia.
Qed.
End split_node.

(** ** Search *)

Lemma high_mask_bit j k : 0 <= j < 32 -> 0 <= k < 32 -> Z.testbit (u32 (Z.lnot (2 ^ j - 1))) k = (j <=? k).
Proof.
  intros Hj Hk. unfold u32. rewrite <- Z.land_ones, Z.land_spec, Z.ones_spec_low, andb_true_r by lia.
  rewrite Z.lnot_spec by lia. rewrite <- Z.ones_equiv || replace (2 ^ j - 1) with (Z.ones j) by (rewrite Z.ones_equiv; lia).
  destruct (Z.leb_spec j k).
  - by rewrite Z.ones_spec_high by lia.
  - by rewrite Z.ones_spec_low by lia.
Qed.

Lemma word_zero w : 0 <= w < 2 ^ 32 -> (∀ k, 0 <= k < 32 -> Z.testbit w k = false) -> w = 0.
Proof.
  intros Hw H. apply Z.bits_inj_0. intros k. destruct (decide (k < 0)); [by apply Z.testbit_neg_r|].
  destruct (decide (k < 32)); [apply H; lia|]. apply Z.bits_above_log2; [lia|].
  destruct (decide (w = 0)) as [->|]; [cbn; lia|]. apply Z.log2_lt_pow2; [lia|]. apply Z.lt_le_trans with (2 ^ 32); [lia|].
  apply Z.pow_le_mono_r; lia.
Qed.

Lemma find_bit w : 0 <= w < 2 ^ 32 -> w <> 0 -> 0 <= OsMemFFS w < 32 /\ Z.testbit w (OsMemFFS w) = true.
Proof. intros Hw Hne. destruct (OsMemFFS_spec w ltac:(lia)) as (? & ? & _). done. Qed.

Section find.
Context {p n : Z} {B : gmap Z Blk} {F : Z -> list Z} (s : Heap).
Context (HI : PoolInv p n B (mem s)) (HF : FreeLists p F (mem s)) (HM : Members B F).

Lemma nonempty_idx i : F i <> [] -> 0 <= i < 199.
Proof using HI HM.
  intros Hi. destruct (F i) as [|c l] eqn:E; [done|]. assert (Hc : c ∈ F i) by (rewrite E; by left).
  apply (mb_in _ _ HM) in Hc as (d & Hd & Hs & <-). pose proof (pi_layout _ _ _ _ HI) as HL.
  destruct (blk_range _ _ HL _ _ Hd) as (_ & _ & ? & _ & _ & Hr). pose proof (free_not_end _ _ HL _ _ Hd Hs) as Hne. specialize (Hr Hne).
  pose proof (idx_range (b_size d) ltac:(lia)). pose proof (idx_bound (b_size d) ltac:(lia)). lia.
Qed.

Lemma not_empty_wp i Q : 0 <= i < 224 ->
  (∀ r, r = 223 /\ (∀ j, i <= j < 32 * (i / 32) + 32 -> F j = []) \/
        i <= r < 223 /\ F r <> [] -> Q r s) ->
  wp (OsMemNotEmptyIndexGet p i) Q s.
Proof using All.
  intros Hi HQ. unfold OsMemNotEmptyIndexGet. destruct (idx_shift i ltac:(lia)) as [-> Hsh].
  change OS_MEM_BITMAP_MASK with 31. rewrite Hsh.
  pose proof (Z.div_mod i 32 ltac:(lia)) as Hdm. pose proof (Z.mod_pos_bound i 32 ltac:(lia)) as Hm.
  apply wp_bind, wp_freeListBitmap; [lia|]. destruct (fl_map _ _ _ HF (i / 32) ltac:(lia)) as (w & Hw & Hr & Hb).
  apply wp_bind. eapply wp_ld; [done|]. set (mask := Z.land w _).
  assert (Hmb : ∀ k, 0 <= k < 32 -> Z.testbit mask k = bool_decide (F (32 * (i / 32) + k) <> []) && (i mod 32 <=? k)).
  { intros k Hk. unfold mask. rewrite Z.land_spec, high_mask_bit, Hb by lia. done. }
  assert (Hmr : 0 <= mask < 2 ^ 32).
  { unfold mask. assert (0 <= u32 (Z.lnot (2 ^ (i mod 32) - 1))) by apply u32_range. split; [apply Z.land_nonneg; lia|].
    destruct (decide (Z.land w (u32 (Z.lnot (2 ^ (i mod 32) - 1))) <= 0)); [lia|]. apply Z.log2_lt_pow2; [lia|].
    eapply Z.le_lt_trans; [by apply Z.log2_land; lia|]. apply Z.min_lt_iff. left. destruct (decide (w = 0)) as [->|]; [done|].
    apply Z.log2_lt_pow2; lia. }
  change OS_MEM_FREE_LIST_COUNT with 223. destruct (Z.eqb_spec mask 0) as [E|Hne]; cbn.
  - apply wp_ret, HQ. left. split; [done|]. intros j Hj. specialize (Hmb (j - 32 * (i / 32)) ltac:(lia)). rewrite E, Z.testbit_0_l in Hmb.
    replace (32 * (i / 32) + (j - 32 * (i / 32))) with j in Hmb by lia. symmetry in Hmb. apply andb_false_iff in Hmb as [Hmb|Hmb]; [|lia].
    apply bool_decide_eq_false in Hmb. by apply dec_stable.
  - destruct (find_bit mask Hmr Hne) as [Hf Hft]. rewrite Hmb in Hft by done. apply andb_true_iff in Hft as [Hft Hge]. apply bool_decide_eq_true in Hft.
    pose proof (nonempty_idx _ Hft). apply wp_ret, HQ. right.
    change 31 with (Z.ones 5). rewrite Z.ldiff_ones_r, Z.shiftr_div_pow2, Z.shiftl_mul_pow2 by lia. change (2 ^ 5) with 32.
    rewrite u32_id by lia. replace (OsMemFFS mask + i / 32 * 32) with (32 * (i / 32) + OsMemFFS mask) by lia. split; [lia|done].
Qed.

Lemma next_index_wp fuel j Q : 0 <= j <= 7 -> 8 - j <= Z.of_nat fuel ->
  (∀ r, r = None /\ (∀ i, 32 * j <= i -> F i = []) \/ (∃ i, r = Some i /\ 32 * j <= i < 223 /\ F i <> []) -> Q r s) ->
  wp (OsMemFindNextSuitableBlock_loop fuel p (32 * j)) Q s.
Proof using All.
  revert j. induction fuel as [|fuel IH]; intros j Hj Hfu HQ; [lia|].
  cbn [OsMemFindNextSuitableBlock_loop]. change OS_MEM_FREE_LIST_COUNT with 223. destruct (Z.ltb_spec (32 * j) 223).
  - destruct (idx_shift (32 * j) ltac:(lia)) as [-> _]. replace (32 * j / 32) with j by (rewrite Z.mul_comm, Z.div_mul; lia).
    apply wp_bind, wp_freeListBitmap; [lia|]. destruct (fl_map _ _ _ HF j ltac:(lia)) as (w & Hw & Hr & Hb).
    apply wp_bind. eapply wp_ld; [done|]. destruct (Z.eqb_spec w 0) as [E|Hne]; cbn [negb].
    + replace (32 * j + 32) with (32 * (j + 1)) by lia. apply IH; [lia|lia|]. intros r Hr'. apply HQ.
      destruct Hr' as [[-> Hno]|(i & -> & Hi & Hne)]; [left|right; exists i; split_and!; try done; lia].
      split; [done|]. intros i Hi. destruct (decide (32 * (j + 1) <= i)); [by apply Hno|]. specialize (Hb (i - 32 * j) ltac:(lia)).
      rewrite E, Z.testbit_0_l in Hb. replace (32 * j + (i - 32 * j)) with i in Hb by lia. symmetry in Hb. apply bool_decide_eq_false in Hb. by apply dec_stable.
    + destruct (find_bit w Hr Hne) as [Hf Hft]. rewrite Hb in Hft by done. apply bool_decide_eq_true in Hft. pose proof (nonempty_idx _ Hft).
      apply wp_ret, HQ. right. exists (32 * j + OsMemFFS w). split_and!; try done; try lia. f_equal. lia.
  - apply wp_ret, HQ. left. split; [done|]. intros i Hi. apply dec_stable. intros Hne%nonempty_idx. lia.
Qed.

Lemma walk_wp Q : Q (S (size (mem s))) s -> wp walk_fuel Q s.
Proof. intros HQ. unfold walk_fuel. by wp_steps. Qed.

(** The walk along a list for the first block that is long enough. *)
Lemma find_cur_loop_wp i sz l1 l2 fuel Q : F i = l1 ++ l2 -> (length l2 < fuel)%nat ->
  (∀ r, r = 0 /\ (∀ c d, c ∈ l2 -> B !! c = Some d -> b_size d < sz) \/
        (∃ d, r ∈ l2 /\ B !! r = Some d /\ sz <= b_size d) -> Q r s) ->
  wp (OsMemFindCurSuitableBlock_loop fuel (default 0 (head l2)) sz) Q s.
Proof using All.
  revert l1 fuel. induction l2 as [|c l2 IH]; intros l1 fuel Hs Hfu HQ; (destruct fuel as [|fuel]; [cbn in Hfu; lia|]).
  { apply wp_ret, HQ. left. split; [done|]. intros ? ? []%not_elem_of_nil. }
  assert (Hc : c ∈ F i) by (rewrite Hs; apply elem_of_app; right; by left).
  pose proof (listed_above HI HM _ _ Hc). pose proof (pi_layout _ _ _ _ HI) as HL. destruct (ly_pool _ _ _ HL) as [[? ?] ? _].
  apply (mb_in _ _ HM) in Hc as (d & Hd & Hsd & _). cbn. unfold id. destruct (Z.eqb_spec c 0); [lia|].
  destruct (pi_hdr _ _ _ _ HI _ _ Hd) as [_ Hw]. unfold b_word in Hw. rewrite Hsd in Hw. apply wp_bind. eapply wp_ld; [done|].
  destruct (Z.geb_spec (b_size d) sz).
  { apply wp_ret, HQ. right. exists d. split_and!; [by left|done|lia]. }
  destruct (fl_links _ _ _ HF i l1 c l2 Hs) as [_ Hn]. apply wp_bind. eapply wp_ld; [done|].
  apply (IH (l1 ++ [c])); [by rewrite <- app_assoc|cbn in Hfu; lia|]. intros r Hr. apply HQ.
  destruct Hr as [[-> Hr]|(d' & Hr & Hd' & Hsz)]; [left|right; exists d'; split_and!; try done; by right].
  split; [done|]. intros c' d' Hc' Hd'. apply elem_of_cons in Hc' as [->|Hc']; [|by eapply Hr]. by assert (d' = d) as -> by congruence.
Qed.

Lemma find_cur_wp i sz Q : 0 <= i < 223 ->
  (∀ r, r = 0 /\ (∀ c d, c ∈ F i -> B !! c = Some d -> b_size d < sz) \/
        (∃ d, r ∈ F i /\ B !! r = Some d /\ sz <= b_size d) -> Q r s) ->
  wp (OsMemFindCurSuitableBlock p i sz) Q s.
Proof using All.
  intros Hi HQ. unfold OsMemFindCurSuitableBlock. apply wp_bind, wp_freeList; [done|]. apply wp_bind.
  eapply wp_ld; [by apply (fl_head _ _ _ HF)|]. apply wp_bind, walk_wp, (find_cur_loop_wp i sz []); [done| |done].
  apply Nat.lt_succ_r, nodup_size; [apply HM|]. intros x (d & Hd & _)%(mb_in _ _ HM). destruct (pi_hdr _ _ _ _ HI _ _ Hd) as [H _]. by exists (b_prev d).
Qed.
End find.

(** The list in which the search starts: from there on every block is long
    enough, and a block that is long enough is there or in list [cur]. *)
Definition search_cur (sz : Z) : Z :=
  let fl := OsMemFlGet sz in
  if fl <? OS_MEM_SMALL_BUCKET_COUNT then OS_MEM_FREE_LIST_COUNT
  else u32 (Z.shiftl (fl - OS_MEM_SMALL_BUCKET_COUNT) OS_MEM_SLI + OsMemSlGet sz fl + OS_MEM_SMALL_BUCKET_COUNT).
Definition search_start (sz : Z) : Z :=
  let fl := OsMemFlGet sz in if fl <? OS_MEM_SMALL_BUCKET_COUNT then fl else u32 (search_cur sz + 1).

Lemma search_small sz : 16 <= sz < 128 -> search_cur sz = 223 /\ search_start sz = idx sz.
Proof.
  intros H. destruct (idx_small sz ltac:(lia)) as [E1 E2]. pose proof (div4 sz). unfold search_start, search_cur, OS_MEM_SMALL_BUCKET_COUNT.
  rewrite E1, E2. destruct (Z.ltb_spec (sz / 4 - 1) 31); [done|lia].
Qed.

Lemma search_large sz : 128 <= sz < 2 ^ 29 -> search_cur sz = idx sz /\ search_start sz = idx sz + 1.
Proof.
  intros H. pose proof (idx_large sz H) as Ei. pose proof (idx_range sz ltac:(lia)). pose proof (log2_range sz 7 29). pose proof (sl_of_range sz).
  assert (E : search_cur sz = idx sz).
  { unfold search_cur. rewrite sl_large, fl_large by lia. unfold OS_MEM_SMALL_BUCKET_COUNT, OS_MEM_SLI.
    destruct (Z.ltb_spec (Z.log2 sz + 24) 31); [lia|]. rewrite Z.shiftl_mul_pow2 by lia. change (2 ^ 3) with 8. rewrite u32_id; lia. }
  split; [done|]. unfold search_start. rewrite E, fl_large by lia. unfold OS_MEM_SMALL_BUCKET_COUNT.
  destruct (Z.ltb_spec (Z.log2 sz + 24) 31); [lia|]. apply u32_id. lia.
Qed.

(** From 2^29 bytes on the second level wraps around, to a list above all the
    blocks that a pool of at most 2^28 bytes can have. *)
Lemma search_huge sz : 2 ^ 29 <= sz < 2 ^ 31 -> 199 <= search_cur sz < 223 /\ search_start sz = search_cur sz + 1.
Proof.
  intros H. pose proof (log2_range sz 29 31 ltac:(lia) ltac:(lia)) as Hl.
  assert (E : 199 <= search_cur sz < 223).
  { unfold search_cur. rewrite fl_large by lia. unfold OsMemSlGet, OS_MEM_SMALL_BUCKET_COUNT, OS_MEM_SMALL_BUCKET_MAX_SIZE, OS_MEM_LARGE_START_BUCKET, OS_MEM_SLI.
    destruct (Z.ltb_spec (Z.log2 sz + 24) 31); [lia|]. destruct (Z.ltb_spec sz 128); [lia|]. cbn [orb].
    replace (Z.log2 sz + 24 - 31 + 7) with (Z.log2 sz) by lia. rewrite (u32_id (Z.log2 sz)) by lia.
    rewrite !Z.shiftl_mul_pow2 by lia. change (1 * 2 ^ 3) with 8. change (2 ^ 3) with 8. rewrite Z.shiftr_div_pow2 by lia.
    pose proof (u32_range (sz * 8)) as Hr. set (v := u32 (sz * 8)) in *.
    assert (Hq : 0 <= v / 2 ^ Z.log2 sz < 8).
    { split; [apply Z.div_pos; lia|]. apply Z.div_lt_upper_bound; [lia|]. assert (2 ^ 29 <= 2 ^ Z.log2 sz) by (apply Z.pow_le_mono_r; lia). lia. }
    assert (u32 (v / 2 ^ Z.log2 sz - 8) = v / 2 ^ Z.log2 sz - 8 + 2 ^ 32) as -> by (symmetry; apply Z.mod_unique_pos with (-1); lia).
    set (q := v / 2 ^ Z.log2 sz) in *.
    assert (u32 ((Z.log2 sz + 24 - 31) * 8 + (q - 8 + 2 ^ 32) + 31) = (Z.log2 sz - 7) * 8 + q + 23) as -> by (symmetry; apply Z.mod_unique_pos with 1; lia).
    lia. }
  split; [done|]. unfold search_start. rewrite fl_large by lia. unfold OS_MEM_SMALL_BUCKET_COUNT.
  destruct (Z.ltb_spec (Z.log2 sz + 24) 31); [lia|]. apply u32_id. lia.
Qed.

Lemma align32 i : 0 <= i < 224 -> LOS_Align (u32 (i + 1)) 32 = 32 * (i / 32 + 1).
Proof.
  intros Hi. unfold LOS_Align. rewrite (u32_id (i + 1)) by lia. change (32 - 1) with 31. rewrite (u32_id (i + 1 + 31)) by lia.
  destruct (Z.gtb_spec (i + 1 + 31) (i + 1)); [|lia]. rewrite u32_id by lia. change 31 with (Z.ones 5) at 2.
  rewrite Z.ldiff_ones_r, Z.shiftr_div_pow2, Z.shiftl_mul_pow2 by lia. change (2 ^ 5) with 32.
  replace (i + 1 + 31) with (i + 1 * 32) by lia. rewrite Z.div_add by lia. lia.
Qed.

Section search.
Context {p n : Z} {B : gmap Z Blk} (s : Heap) (HI : PoolInv p n B (mem s)).

Lemma free_size c d : B !! c = Some d -> b_state d = BFree -> 16 <= b_size d < 2 ^ 28 /\ (4 | b_size d).
Proof using HI.
  intros Hd Hs. pose proof (pi_layout _ _ _ _ HI) as HL. pose proof (free_not_end _ _ HL _ _ Hd Hs) as Hne.
  destruct (blk_range _ _ HL _ _ Hd) as (_ & _ & ? & ? & _ & Hr). split; [specialize (Hr Hne); lia|done].
Qed.

Lemma search_spec sz : 16 <= sz < 2 ^ 31 -> (4 | sz) ->
  0 <= search_start sz < 224 /\
  (∀ c d, B !! c = Some d -> b_state d = BFree -> search_start sz <= idx (b_size d) -> sz <= b_size d) /\
  (∀ c d, B !! c = Some d -> b_state d = BFree -> sz <= b_size d ->
     search_start sz <= idx (b_size d) \/ search_cur sz <> 223 /\ idx (b_size d) = search_cur sz) /\
  (search_cur sz <> 223 -> 0 <= search_cur sz < 223).
Proof using HI.
  intros Hsz H4. pose proof free_size as Hfs.
  destruct (decide (sz < 128)) as [Hlt|]; [|destruct (decide (sz < 2 ^ 29))].
  - destruct (search_small sz ltac:(lia)) as [-> ->]. destruct (idx_small sz ltac:(lia)) as [_ Ei].
    pose proof (idx_range sz ltac:(lia)). split_and!; [lia|lia| | |lia].
    + intros c d Hd Hs Hi. destruct (Hfs _ _ Hd Hs) as [? [z Hz]]. destruct H4 as [y Hy].
      destruct (decide (sz <= b_size d)); [done|]. destruct (idx_small (b_size d) ltac:(lia)) as [_ Ei'].
      rewrite Ei, Ei', Hz, Hy, !Z.div_mul in Hi by lia. lia.
    + intros c d Hd Hs Hi. left. destruct (Hfs _ _ Hd Hs). apply idx_mono; lia.
  - destruct (search_large sz ltac:(lia)) as [-> ->]. pose proof (idx_range sz ltac:(lia)). split_and!; [lia|lia| | |lia].
    + intros c d Hd Hs Hi. destruct (Hfs _ _ Hd Hs). destruct (decide (sz <= b_size d)); [done|].
      pose proof (idx_mono (b_size d) sz). lia.
    + intros c d Hd Hs Hi. destruct (Hfs _ _ Hd Hs). pose proof (idx_mono sz (b_size d)). lia.
  - destruct (search_huge sz ltac:(lia)) as [? ->]. split_and!; [lia|lia| | |lia].
    + intros c d Hd Hs Hi. destruct (Hfs _ _ Hd Hs). pose proof (idx_bound (b_size d)). lia.
    + intros c d Hd Hs Hi. destruct (Hfs _ _ Hd Hs). lia.
Qed.

(** The search finds a free block of at least [sz] bytes whenever there is one. *)
Lemma find_next_wp sz Q : 16 <= sz < 2 ^ 31 -> (4 | sz) ->
  (∀ r i, r = 0 /\ (∀ c d, B !! c = Some d -> b_state d = BFree -> b_size d < sz) \/
          (∃ d, B !! r = Some d /\ b_state d = BFree /\ i = idx (b_size d) /\ sz <= b_size d) -> Q (r, i) s) ->
  wp (OsMemFindNextSuitableBlock p sz) Q s.
Proof using HI.
  intros Hsz H4 HQ. destruct (pi_free _ _ _ _ HI) as (F & HF & HM). destruct (search_spec sz Hsz H4) as (Hst & Hlong & Hall & Hcur).
  unfold OsMemFindNextSuitableBlock. fold (search_cur sz) (search_start sz).
  assert (Hhit : ∀ i, search_start sz <= i < 223 -> F i <> [] ->
    wp (let* fl := freeList p i in let* node := ld fl in mret (node, i)) Q s).
  { intros i Hi Hne. apply wp_bind, wp_freeList; [lia|]. apply wp_bind. eapply wp_ld; [apply (fl_head _ _ _ HF); lia|].
    apply wp_ret, HQ. right. destruct (F i) as [|c l] eqn:E; [done|]. assert (Hc : c ∈ F i) by (rewrite E; by left).
    apply (mb_in _ _ HM) in Hc as (d & Hd & Hs & Hid). exists d. split_and!; try done. eapply Hlong; [done..|lia]. }
  assert (Hmiss : (∀ i, search_start sz <= i -> F i = []) ->
    wp (if search_cur sz =? OS_MEM_FREE_LIST_COUNT then mret (0, search_cur sz)
        else let* node := OsMemFindCurSuitableBlock p (search_cur sz) sz in mret (node, search_cur sz)) Q s).
  { intros Hno. assert (Hsmall : ∀ c d, B !! c = Some d -> b_state d = BFree -> sz <= b_size d -> search_cur sz <> 223 /\ c ∈ F (search_cur sz)).
    { intros c d Hd Hs Hle. destruct (Hall _ _ Hd Hs Hle) as [Hi|[? Hi]].
      - assert (Hc : c ∈ F (idx (b_size d))) by (apply (mb_in _ _ HM); eauto). rewrite Hno in Hc by done. by apply not_elem_of_nil in Hc.
      - split; [done|]. apply (mb_in _ _ HM). eauto. }
    change OS_MEM_FREE_LIST_COUNT with 223. destruct (Z.eqb_spec (search_cur sz) 223) as [E|Hne].
    - apply wp_ret, HQ. left. split; [done|]. intros c d Hd Hs. destruct (decide (sz <= b_size d)) as [Hle|]; [|lia]. by destruct (Hsmall _ _ Hd Hs Hle).
    - apply wp_bind. eapply (find_cur_wp s HI HF HM); [by apply Hcur|]. intros r [[-> Hr]|(d & Hr & Hd & Hle)]; apply wp_ret, HQ.
      + left. split; [done|]. intros c d Hd Hs. destruct (decide (sz <= b_size d)) as [Hle|]; [|lia]. destruct (Hsmall _ _ Hd Hs Hle). by eapply Hr.
      + right. apply (mb_in _ _ HM) in Hr as (d' & Hd' & Hs & Hid). assert (d' = d) as -> by congruence. exists d. auto. }
  apply wp_bind. eapply (not_empty_wp s HI HF HM); [done|]. intros r Hr. change OS_MEM_FREE_LIST_COUNT with 223 in *.
  destruct (Z.eqb_spec r 223) as [->|Hr223]; cbn [negb].
  - destruct Hr as [[_ Hr]|[? _]]; [|lia]. rewrite align32 by done. pose proof (Z.div_mod (search_start sz) 32). pose proof (Z.mod_pos_bound (search_start sz) 32).
    apply wp_bind, (next_index_wp s HI HF HM); [lia|lia|]. intros r' [[-> Hno]|(i & -> & Hi & Hne)].
    + apply Hmiss. intros i Hi. destruct (decide (i < 32 * (search_start sz / 32) + 32)); [apply Hr; lia|apply Hno; lia].
    + apply Hhit; [lia|done].
  - destruct Hr as [[? _]|[Hr Hne]]; [done|]. apply wp_bind, wp_ret. apply Hhit; [lia|done].
Qed.
End search.

(** ** Traversals *)

Section traverse.
Context {p n : Z} {B : gmap Z Blk} (s : Heap) (HI : PoolInv p n B (mem s)).

Lemma pool_words : n <= 4 * Z.of_nat (size (mem s)).
Proof using HI.
  destruct (ly_pool _ _ _ (pi_layout _ _ _ _ HI)) as [[? ?] ? [[y Hy] [z Hz]]].
  set (l := (λ i : nat, p + 4 * Z.of_nat i) <$> seq 0 (Z.to_nat z)).
  assert (Hl : (length l <= size (mem s))%nat).
  { apply nodup_size.
    - apply NoDup_fmap; [intros i j; lia|apply NoDup_seq].
    - intros x (i & -> & Hi)%list_elem_of_fmap. apply elem_of_seq in Hi. apply (pi_map _ _ _ _ HI); [lia|].
      apply Z.divide_add_r; [by exists y|]. exists (Z.of_nat i). lia. }
  unfold l in Hl. rewrite length_fmap, length_seq in Hl. lia.
Qed.

Lemma end_node_eq : OS_MEM_END_NODE p n = end_node p n.
Proof using HI.
  destruct (ly_pool _ _ _ (pi_layout _ _ _ _ HI)) as [[? ?] ? _]. unfold OS_MEM_END_NODE, OS_MEM_NODE_HEAD_SIZE, end_node. apply u32_id. lia.
Qed.

Lemma valid_wp x Q : Q (bool_decide (p + 944 <= x < p + n)) s -> wp (OsMemAddrValidCheck p x) Q s.
Proof using HI.
  intros HQ. unfold OsMemAddrValidCheck. apply wp_bind. destruct (pi_info _ _ _ _ HI) as [_ Hn]. eapply wp_ld; [done|]. apply wp_ret.
  destruct (ly_pool _ _ _ (pi_layout _ _ _ _ HI)) as [[? ?] ? _]. rewrite u32_id by lia.
  unfold OS_MEM_MIDDLE_ADDR_OPEN_END, sizeof_OsMemPoolHead.
  assert (((p + 944 <=? x) && (x <? p + n)) = bool_decide (p + 944 <= x < p + n)) as ->; [|done].
  apply eq_true_iff_eq. rewrite bool_decide_eq_true, andb_true_iff, Z.leb_le, Z.ltb_lt. done.
Qed.

Lemma blk_valid a b : B !! a = Some b -> p + 944 <= a < p + n.
Proof using HI. intros Ha. destruct (blk_range _ _ (pi_layout _ _ _ _ HI) _ _ Ha) as (? & _). offsets. lia. Qed.

Lemma next_node_wp a b Q : B !! a = Some b -> Q (a + b_size b) s -> wp (OS_MEM_NEXT_NODE a) Q s.
Proof using HI.
  intros Ha HQ. unfold OS_MEM_NEXT_NODE. apply wp_bind. destruct (pi_hdr _ _ _ _ HI _ _ Ha) as [_ Hw]. eapply wp_ld; [done|]. apply wp_ret.
  pose proof (pi_layout _ _ _ _ HI) as HL. destruct (blk_range _ _ HL _ _ Ha) as (? & _ & ? & _ & ? & _).
  destruct (ly_pool _ _ _ HL) as [[? ?] ? _]. rewrite get_size_word, u32_id by (offsets; lia). done.
Qed.

Lemma prev_valid a b : B !! a = Some b -> p + 944 <= b_prev b < p + n.
Proof using HI.
  intros Ha. pose proof (pi_layout _ _ _ _ HI) as HL. destruct (decide (a = first_node p)) as [->|Hne].
  - destruct (ly_first _ _ _ HL) as (b' & Hb' & Hp). assert (b' = b) as -> by congruence. rewrite Hp.
    destruct (ly_pool _ _ _ HL) as [[? ?] ? _]. unfold end_node. lia.
  - destruct (ly_prev _ _ _ HL _ _ Ha Hne) as (_ & q & Hq & _). by eapply blk_valid.
Qed.

(** The links of a free node are NULL or nodes. *)
Lemma link_valid a b : B !! a = Some b -> b_state b = BFree ->
  ∃ u v, mem s !! free_prev a = Some u /\ mem s !! free_next a = Some v /\
         (u = 0 \/ p + 944 <= u < p + n) /\ (v = 0 \/ p + 944 <= v < p + n).
Proof using HI.
  intros Ha Hf. destruct (pi_free _ _ _ _ HI) as (F & HF & HM).
  assert (Hai : a ∈ F (idx (b_size b))) by (apply (mb_in _ _ HM); eauto). destruct (list_elem_of_split _ _ Hai) as (l1 & l2 & Hs).
  assert (Hin : ∀ c, c ∈ l1 \/ c ∈ l2 -> p + 944 <= c < p + n).
  { intros c Hc. assert (c ∈ F (idx (b_size b))) as (d & Hd & _)%(mb_in _ _ HM); [|by eapply blk_valid].
    rewrite Hs, elem_of_app, elem_of_cons. tauto. }
  destruct (fl_links _ _ _ HF _ _ _ _ Hs) as [Hp Hn]. do 2 eexists. split_and!; [done|done| |].
  - destruct (last l1) as [c|] eqn:E; [right; apply Hin; left; by apply last_Some_elem_of|by left].
  - destruct (head l2) as [c|] eqn:E; [right; apply Hin; right; by apply head_Some_elem_of|by left].
Qed.

Lemma bad_link_wp x Q : x = 0 \/ p + 944 <= x < p + n -> Q false s -> wp (bad_link p x) Q s.
Proof using HI.
  intros Hx HQ. unfold bad_link. destruct (Z.eqb_spec x 0); [by apply wp_ret|]. apply wp_bind, valid_wp, wp_ret.
  rewrite bool_decide_true by tauto. done.
Qed.

Lemma check_sub_wp a b Q : B !! a = Some b -> b_state b <> BOut -> Q LOS_OK s -> wp (OsMemIntegrityCheckSub a p) Q s.
Proof using HI.
  intros Ha Hs HQ. unfold OsMemIntegrityCheckSub. destruct (pi_hdr _ _ _ _ HI _ _ Ha) as [Hp Hw]. apply wp_bind. eapply wp_ld; [done|].
  apply wp_bind, valid_wp. rewrite bool_decide_true by by eapply prev_valid. cbn [negb]. apply wp_bind. eapply wp_ld; [done|].
  destruct (blk_range _ _ (pi_layout _ _ _ _ HI) _ _ Ha) as (_ & _ & ? & _). rewrite used_flag_word by lia.
  destruct (b_state b) eqn:Eb; cbn [negb]; [|done|by apply wp_ret].
  destruct (link_valid _ _ Ha Eb) as (u & v & Hu & Hv & Hu' & Hv'). unfold OsMemAddrValidCheckPrint.
  apply wp_bind. eapply wp_ld; [done|]. apply wp_bind, bad_link_wp; [done|]. apply wp_bind. eapply wp_ld; [done|].
  apply wp_bind, bad_link_wp; [done|]. by apply wp_ret.
Qed.

Context (Hno : ∀ a b, B !! a = Some b -> b_state b <> BOut).

Lemma check_loop_wp fuel a b Q : B !! a = Some b -> end_node p n - a < 16 * Z.of_nat fuel ->
  Q LOS_OK s -> wp (OsMemIntegrityCheck_loop fuel p a (end_node p n)) Q s.
Proof using HI Hno.
  revert a b. induction fuel as [|fuel IH]; intros a b Ha Hf HQ; pose proof (blk_valid _ _ Ha) as Hr; pose proof (pi_layout _ _ _ _ HI) as HL.
  { destruct (blk_range _ _ HL _ _ Ha) as (? & _). lia. }
  cbn [OsMemIntegrityCheck_loop]. destruct (Z.ltb_spec a (end_node p n)); [|by apply wp_ret].
  apply wp_bind. eapply check_sub_wp; [done|by eapply Hno|]. change (LOS_OK =? LOS_NOK) with false. cbn match.
  apply wp_bind. eapply next_node_wp; [done|]. destruct (ly_next _ _ _ HL _ _ Ha ltac:(lia)) as (c & Hc & _).
  eapply IH; [done| |done]. destruct (ly_blk _ _ _ HL _ _ Ha ltac:(lia)) as (_ & ? & _). lia.
Qed.

(** A free list is sound node by node. *)
Lemma list_check_wp F i l1 l2 fuel Q : FreeLists p F (mem s) -> Members B F -> F i = l1 ++ l2 -> (length l2 < fuel)%nat ->
  (∀ r, Q r s) -> wp (OsMemPoolHeadCheck_list fuel p (default 0 (head l2))) Q s.
Proof using HI.
  intros HF HM. revert l1 fuel Q. induction l2 as [|c l2 IH]; intros l1 fuel Q Hs Hfu HQ; (destruct fuel as [|fuel]; [cbn in Hfu; lia|]).
  { by apply wp_ret. }
  assert (Hc : c ∈ F i) by (rewrite Hs; apply elem_of_app; right; by left). pose proof (listed_above HI HM _ _ Hc).
  pose proof (pi_layout _ _ _ _ HI) as HL. destruct (ly_pool _ _ _ HL) as [[? ?] ? _].
  apply (mb_in _ _ HM) in Hc as (d & Hd & Hsd & _). cbn. unfold id. destruct (Z.eqb_spec c 0); [lia|].
  destruct (pi_hdr _ _ _ _ HI _ _ Hd) as [Hp _]. destruct (link_valid _ _ Hd Hsd) as (u & v & Hu & Hv & Hu' & Hv').
  assert (Hrest : ∀ bad : Z, wp (let* next := ld (free_next c) in let* rest := OsMemPoolHeadCheck_list fuel p next in mret (negb (bad =? LOS_OK) || rest)) Q s).
  { intros bad. destruct (fl_links _ _ _ HF i l1 c l2 Hs) as [_ Hn]. apply wp_bind. eapply wp_ld; [done|]. apply wp_bind.
    apply (IH (l1 ++ [c])); [by rewrite <- app_assoc|cbn in Hfu; lia|]. intros r. by apply wp_ret. }
  apply wp_bind. unfold OsMemFreeListNodeCheck. apply wp_bind, valid_wp. case_match; [by apply wp_ret|].
  apply wp_bind. eapply wp_ld; [done|]. apply wp_bind, bad_link_wp; [done|]. apply wp_bind. eapply wp_ld; [done|]. apply wp_bind, bad_link_wp; [done|].
  apply wp_bind. eapply wp_ld; [done|]. apply wp_bind, valid_wp. repeat case_match; by apply wp_ret.
Qed.

Lemma head_loop_wp m i Q : 0 <= i -> i + Z.of_nat m <= 223 -> (∀ r, Q r s) -> wp (OsMemPoolHeadCheck_loop m p i) Q s.
Proof using HI.
  destruct (pi_free _ _ _ _ HI) as (F & HF & HM). revert i Q. induction m as [|m IH]; intros i Q Hi Hm HQ; [by apply wp_ret|]. cbn [OsMemPoolHeadCheck_loop].
  apply wp_bind, wp_freeList; [lia|]. apply wp_bind. eapply wp_ld; [apply (fl_head _ _ _ HF); lia|]. apply wp_bind, walk_wp, wp_bind.
  eapply (list_check_wp F i []); [done|done|done| |].
  - apply Nat.lt_succ_r, nodup_size; [apply HM|]. intros x (d & Hd & _)%(mb_in _ _ HM). destruct (pi_hdr _ _ _ _ HI _ _ Hd) as [H' _]. by exists (b_prev d).
  - intros r. apply wp_bind, IH; [lia|lia|]. intros r'. by apply wp_ret.
Qed.

(** The check accepts every consistent pool. *)
Lemma integrity_wp Q : Q LOS_OK s -> wp (LOS_MemIntegrityCheck p) Q s.
Proof using HI Hno.
  intros HQ. pose proof (pi_layout _ _ _ _ HI) as HL. destruct (ly_pool _ _ _ HL) as [[? ?] ? [Hd _]]. destruct (pi_info _ _ _ _ HI) as [Hip Hin].
  unfold LOS_MemIntegrityCheck. destruct (Z.eqb_spec p 0); [lia|]. apply wp_bind. unfold OsMemIntegrityCheck. apply wp_bind. eapply wp_ld; [done|].
  rewrite end_node_eq. apply wp_bind.
  assert (Hrest : ∀ b : bool, wp (let* fuel := walk_fuel in OsMemIntegrityCheck_loop fuel p (OS_MEM_FIRST_NODE p) (end_node p n))
    (λ ret s', wp (if negb (ret =? LOS_OK) then fault else mret LOS_OK) Q s') s).
  { intros _. apply wp_bind, walk_wp. destruct (ly_first _ _ _ HL) as (b & Hb & _). apply (check_loop_wp _ (first_node p) b); [done| |by apply wp_ret].
    pose proof pool_words. offsets. lia. }
  unfold OsMemPoolHeadCheck. apply wp_bind. eapply wp_ld; [done|]. case_match; [apply wp_ret, (Hrest true)|].
  apply head_loop_wp; [done|done|]. intros r. apply (Hrest r).
Qed.
End traverse.

(** ** Sums over the blocks *)

Definition weigh (f : Blk -> Z) (B : gmap Z Blk) : Z := map_fold (λ _ b acc, f b + acc) 0 B.
Definition used_size (b : Blk) : Z := match b_state b with BUsed _ => b_size b | _ => 0 end.

Section weigh.
Context (f : Blk -> Z).

Lemma weigh_empty : weigh f ∅ = 0.
Proof. apply map_fold_empty. Qed.
Lemma weigh_new (B : gmap Z Blk) (a : Z) b : B !! a = None -> weigh f (<[a := b]> B) = f b + weigh f B.
Proof. intros Ha. unfold weigh. rewrite map_fold_insert_L; [done| |done]. intros. lia. Qed.
Lemma weigh_delete (B : gmap Z Blk) (a : Z) b : B !! a = Some b -> weigh f (delete a B) = weigh f B - f b.
Proof.
  intros Ha. rewrite <- (insert_delete_id B a b Ha) at 2. rewrite weigh_new by apply lookup_delete_eq. lia.
Qed.
Lemma weigh_update (B : gmap Z Blk) (a : Z) b b' : B !! a = Some b -> weigh f (<[a := b']> B) = weigh f B - f b + f b'.
Proof.
  intros Ha. rewrite <- insert_delete_eq, weigh_new by apply lookup_delete_eq. rewrite (weigh_delete B a b) by done. lia.
Qed.
Lemma weigh_mono (g : Blk -> Z) (B : gmap Z Blk) : (∀ a b, B !! a = Some b -> f b <= g b) -> weigh f B <= weigh g B.
Proof.
  induction B as [|a b B Ha IH] using map_ind; intros H; [done|]. unfold weigh in IH.
  assert (weigh f (<[a := b]> B) = f b + weigh f B) as -> by by apply weigh_new.
  assert (weigh g (<[a := b]> B) = g b + weigh g B) as ->.
  { unfold weigh. rewrite map_fold_insert_L; [done| |done]. intros. lia. }
  pose proof (H a b ltac:(by rewrite lookup_insert_eq)). enough (weigh f B <= weigh g B) by lia. apply IH.
  intros x y Hy. apply (H x). rewrite lookup_insert_ne; [done|]. congruence.
Qed.
Lemma weigh_zero (B : gmap Z Blk) : (∀ b, f b = 0) -> weigh f B = 0.
Proof. intros H. induction B as [|a b B Ha IH] using map_ind; [done|]. rewrite weigh_new, H by done. lia. Qed.
End weigh.

(** The blocks below an address. *)
Definition below (a : Z) (B : gmap Z Blk) : gmap Z Blk := filter (λ xb, xb.1 < a) B.

Section below.
Context {p n : Z} {B : gmap Z Blk} (HL : Layout p n B).

Lemma below_lookup a x b : below a B !! x = Some b <-> B !! x = Some b /\ x < a.
Proof. unfold below. by rewrite map_lookup_filter_Some. Qed.
Lemma below_first : below (first_node p) B = ∅.
Proof using HL.
  apply map_eq. intros x. rewrite lookup_empty. apply eq_None_not_Some. intros [b [Hb Hx]%below_lookup].
  destruct (blk_range _ _ HL _ _ Hb) as (? & _). lia.
Qed.
Lemma below_next a b : B !! a = Some b -> a <> end_node p n -> below (a + b_size b) B = <[a := b]> (below a B).
Proof using HL.
  intros Ha Hne. apply map_eq. intros x. apply option_eq. intros y. rewrite below_lookup, lookup_insert. case_decide as E.
  - subst x. destruct (ly_blk _ _ _ HL _ _ Ha Hne) as (_ & ? & _). split; [intros [? _]; congruence|]. intros [= <-]. split; [done|lia].
  - rewrite below_lookup. destruct (ly_blk _ _ _ HL _ _ Ha Hne) as (_ & ? & _). split; intros [Hy Hx]; (split; [done|]); [|lia].
    pose proof (ly_apart _ _ _ HL _ _ _ _ Ha Hy). lia.
Qed.
Lemma below_self a : below a B !! a = None.
Proof. apply eq_None_not_Some. intros [b [_ ?]%below_lookup]. lia. Qed.
Lemma below_end : below (end_node p n) B = delete (end_node p n) B.
Proof using HL.
  apply map_eq. intros x. apply option_eq. intros y. rewrite below_lookup, lookup_delete_Some. split; intros [H1 H2].
  - split; [lia|done].
  - split; [done|]. destruct (blk_range _ _ HL _ _ H2) as (? & _). lia.
Qed.

(** The blocks below a block fill the pool up to it. *)
Lemma weigh_below a b : B !! a = Some b -> weigh b_size (below a B) = a - first_node p.
Proof using HL.
  intros Ha. destruct (blk_range _ _ HL _ _ Ha) as (Hr & _). remember (Z.to_nat (a - first_node p)) as m eqn:Hm.
  revert a b Ha Hr Hm. induction m as [m IH] using lt_wf_ind. intros a b Ha Hr Hm.
  destruct (decide (a = first_node p)) as [->|Hne]; [rewrite below_first, weigh_empty; lia|].
  destruct (ly_prev _ _ _ HL _ _ Ha Hne) as (He & q & Hq & <-). rewrite (below_next _ _ Hq He), weigh_new by apply below_self.
  destruct (ly_blk _ _ _ HL _ _ Hq He) as (? & ? & ? & _). rewrite (IH (Z.to_nat (b_prev b - first_node p)) ltac:(lia) _ _ Hq); lia.
Qed.

Lemma weigh_all : weigh b_size B = n - 952.
Proof using HL.
  destruct (ly_end _ _ _ HL) as [l Hl]. pose proof (weigh_below _ _ Hl) as H. rewrite below_end, (weigh_delete _ _ _ _ Hl) in H.
  cbn in H. unfold end_node, first_node in H. lia.
Qed.

Lemma used_bound : 0 <= weigh used_size B <= n - 952.
Proof using HL.
  rewrite <- weigh_all. split.
  - rewrite <- (weigh_zero (λ _, 0) B) by done. apply weigh_mono. intros a b Ha. destruct (blk_range _ _ HL _ _ Ha) as (_ & _ & ? & _).
    unfold used_size. destruct (b_state b); lia.
  - apply weigh_mono. intros a b Ha. destruct (blk_range _ _ HL _ _ Ha) as (_ & _ & ? & _). unfold used_size. destruct (b_state b); lia.
Qed.
End below.

(** ** A pool between operations

    Every block is free or used, no two free blocks are neighbours, and the
    bytes in use are accounted for. *)

Record Pool (p n : Z) (B : gmap Z Blk) (s : Heap) : Prop := {
  pl_inv : PoolInv p n B (mem s);
  pl_settled : ∀ a b, B !! a = Some b -> b_state b <> BOut;
  pl_joined : ∀ a b c, B !! a = Some b -> b_state b = BFree -> B !! (a + b_size b) = Some c -> b_state c <> BFree;
  pl_used : mem s !! info_curUsedSize p = Some (952 + weigh used_size B);
  pl_water : ∃ w, mem s !! info_waterLine p = Some w /\ 952 + weigh used_size B <= w <= n;
}.

(** ** Recounting *)

Definition free_bytes (b : Blk) : Z := match b_state b with BFree => b_size b | _ => 0 end.
Definition used_num (b : Blk) : Z := match b_state b with BUsed _ => 1 | _ => 0 end.
Definition free_num (b : Blk) : Z := match b_state b with BFree => 1 | _ => 0 end.
Definition largest (B : gmap Z Blk) : Z := map_fold (λ _ b acc, Z.max acc (free_bytes b)) 0 B.

Lemma largest_new (B : gmap Z Blk) (a : Z) b : B !! a = None -> largest (<[a := b]> B) = Z.max (largest B) (free_bytes b).
Proof. intros Ha. unfold largest. rewrite map_fold_insert_L; [done| |done]. intros. lia. Qed.

Lemma largest_nonneg (B : gmap Z Blk) : 0 <= largest B.
Proof. induction B as [|a b B Ha IH] using map_ind; [done|]. rewrite largest_new by done. lia. Qed.

(** The status of the blocks [B], with the water line [w]. *)
Definition status_of (B : gmap Z Blk) (w : Z) : LOS_MEM_POOL_STATUS :=
  mk_LOS_MEM_POOL_STATUS (weigh used_size B) (weigh free_bytes B) (largest B) (weigh used_num B) (weigh free_num B) w.

Section recount.
Context {p n : Z} {B : gmap Z Blk} (s : Heap) (HP : Pool p n B s).

Lemma handle_loop_wp {A} (P : Z -> A -> Prop) (handle : Z -> A -> M Heap A) fuel a b arg Q :
  (∀ a b arg Q, B !! a = Some b -> a <> end_node p n -> P a arg -> (∀ arg', P (a + b_size b) arg' -> Q arg' s) -> wp (handle a arg) Q s) ->
  B !! a = Some b -> end_node p n - a < 16 * Z.of_nat fuel -> P a arg ->
  (∀ arg', P (end_node p n) arg' -> Q arg' s) ->
  wp (OsAllMemNodeDoHandle_loop fuel handle a (end_node p n) arg) Q s.
Proof using HP.
  intros Hh. pose proof (pl_inv _ _ _ _ HP) as HI. pose proof (pi_layout _ _ _ _ HI) as HL. revert a b arg.
  induction fuel as [|fuel IH]; intros a b arg Ha Hf Harg HQ; destruct (blk_range _ _ HL _ _ Ha) as (? & _); [lia|].
  cbn [OsAllMemNodeDoHandle_loop]. destruct (Z.leb_spec a (end_node p n)); [|lia].
  destruct (Z.eqb_spec a (end_node p n)) as [->|Hne]; [by apply wp_ret, HQ|].
  apply wp_bind. eapply Hh; [done..|]. intros arg' Harg'. apply wp_bind. eapply (next_node_wp s HI); [done|].
  destruct (ly_next _ _ _ HL _ _ Ha Hne) as (c & Hc & _). eapply IH; [done| |done|done].
  destruct (ly_blk _ _ _ HL _ _ Ha Hne) as (_ & ? & _). lia.
Qed.

Lemma handle_wp {A} (P : Z -> A -> Prop) (handle : Z -> A -> M Heap A) arg Q :
  (∀ a b arg Q, B !! a = Some b -> a <> end_node p n -> P a arg -> (∀ arg', P (a + b_size b) arg' -> Q arg' s) -> wp (handle a arg) Q s) ->
  P (first_node p) arg -> (∀ arg', P (end_node p n) arg' -> Q arg' s) -> wp (OsAllMemNodeDoHandle p handle arg) Q s.
Proof using HP.
  intros Hh Harg HQ. pose proof (pl_inv _ _ _ _ HP) as HI. pose proof (pi_layout _ _ _ _ HI) as HL. destruct (ly_pool _ _ _ HL) as [[? ?] ? _].
  unfold OsAllMemNodeDoHandle. destruct (Z.eqb_spec p 0); [lia|]. apply wp_bind, (integrity_wp s HI (pl_settled _ _ _ _ HP)).
  cbn [negb]. rewrite Z.eqb_refl. cbn [negb]. apply wp_bind. destruct (pi_info _ _ _ _ HI) as [_ Hn]. eapply wp_ld; [done|].
  rewrite (end_node_eq s HI). apply wp_bind, walk_wp. destruct (ly_first _ _ _ HL) as (b & Hb & _).
  eapply (handle_loop_wp P); [done|done| |done|done]. pose proof (pool_words s HI). unfold OS_MEM_FIRST_NODE, sizeof_OsMemPoolHead. offsets. lia.
Qed.

Lemma below_bound (f : Blk -> Z) a : (∀ x b, B !! x = Some b -> x < a -> 0 <= f b <= b_size b) -> 0 <= weigh f (below a B) <= n.
Proof using HP.
  intros Hf. pose proof (pi_layout _ _ _ _ (pl_inv _ _ _ _ HP)) as HL. assert (Hb : ∀ x b, below a B !! x = Some b -> 0 <= f b <= b_size b).
  { intros x b [Hb Hx]%below_lookup. eauto. }
  assert (H1 : 0 <= weigh f (below a B)).
  { rewrite <- (weigh_zero (λ _, 0) (below a B)) by done. apply weigh_mono. intros x b Hx. apply (Hb x b Hx). }
  split; [done|]. transitivity (weigh b_size (below a B)); [apply weigh_mono; intros x b Hx; apply (Hb x b Hx)|].
  transitivity (weigh b_size B); [|rewrite (weigh_all HL); lia].
  unfold below. clear -HL. revert B HL. (* sub-map *) intros B HL.
  assert (Hge : ∀ x b, B !! x = Some b -> 0 <= b_size b) by (intros x b Hx; destruct (blk_range _ _ HL _ _ Hx) as (_ & _ & ? & _); lia).
  clear HL. induction B as [|x b B Hx IH] using map_ind; [done|].
  assert (IH' : weigh b_size (filter (λ xb, xb.1 < a) B) <= weigh b_size B).
  { apply IH. intros y c Hy. apply (Hge y). rewrite lookup_insert_ne; [done|congruence]. }
  pose proof (Hge x b ltac:(by rewrite lookup_insert_eq)). rewrite (weigh_new _ B) by done.
  destruct (decide (x < a)).
  - rewrite map_filter_insert_True by done. rewrite weigh_new; [lia|]. apply map_lookup_filter_None. by left.
  - rewrite map_filter_insert_False by done. rewrite delete_id by done. lia.
Qed.

Lemma node_word_wp a b Q : B !! a = Some b -> Q (b_word b) s -> wp (ld (sizeAndFlag a)) Q s.
Proof using HP. intros Ha HQ. destruct (pi_hdr _ _ _ _ (pl_inv _ _ _ _ HP) _ _ Ha) as [_ Hw]. by eapply wp_ld. Qed.

Lemma blk_size_ok x b : B !! x = Some b -> 0 <= b_size b < 2 ^ 28 /\ (x <> end_node p n -> 16 <= b_size b).
Proof using HP.
  intros Hb. destruct (blk_range _ _ (pi_layout _ _ _ _ (pl_inv _ _ _ _ HP)) _ _ Hb) as (_ & _ & ? & _ & _ & Hr). split; [done|]. apply Hr.
Qed.

Lemma total_used_wp Q : Q (weigh used_size B) s -> wp (LOS_MemTotalUsedGet p) Q s.
Proof using HP.
  intros HQ. pose proof (pi_layout _ _ _ _ (pl_inv _ _ _ _ HP)) as HL. destruct (ly_pool _ _ _ HL) as [[? ?] ? _].
  unfold LOS_MemTotalUsedGet. destruct (Z.eqb_spec p 0); [lia|].
  apply (handle_wp (λ a u, u = weigh used_size (below a B))).
  - intros a b arg Q' Hb Hne -> HQ'. unfold MemUsedGetHandle. apply wp_bind. eapply node_word_wp; [done|]. apply wp_ret.
    destruct (blk_size_ok _ _ Hb) as [Hs _]. rewrite used_flag_word, get_size_word by lia. apply HQ'. rewrite (below_next HL _ _ Hb Hne), weigh_new by apply below_self.
    assert (0 <= weigh used_size (below a B) <= n).
    { apply below_bound. intros x c Hx _. destruct (blk_size_ok _ _ Hx). unfold used_size. destruct (b_state c); lia. }
    change (used_size b) with (match b_state b with BUsed _ => b_size b | _ => 0 end).
    destruct (b_state b); [lia|lia|]. rewrite u32_id; lia.
  - rewrite (below_first HL). by rewrite weigh_empty.
  - intros u ->. rewrite (below_end HL). destruct (ly_end _ _ _ HL) as [l Hl]. rewrite (weigh_delete _ _ _ _ Hl). cbn. rewrite Z.sub_0_r. done.
Qed.

Lemma info_get_wp Q : (∀ w, mem s !! info_waterLine p = Some w ->
    Q (LOS_OK, Some (status_of (delete (end_node p n) B) w)) s) -> wp (LOS_MemInfoGet p true) Q s.
Proof using HP.
  intros HQ. pose proof (pi_layout _ _ _ _ (pl_inv _ _ _ _ HP)) as HL. destruct (ly_pool _ _ _ HL) as [[? ?] ? _].
  unfold LOS_MemInfoGet. cbn [negb]. destruct (Z.eqb_spec p 0); [lia|]. destruct (pi_info _ _ _ _ (pl_inv _ _ _ _ HP)) as [Hp _].
  apply wp_bind. eapply wp_ld; [done|]. rewrite Z.eqb_refl. cbn [negb]. apply wp_bind.
  apply (handle_wp (λ a st, st = status_of (below a B) 0)).
  - intros a b arg Q' Hb Hne -> HQ'. unfold OsMemInfoGet. apply wp_bind. eapply node_word_wp; [done|].
    destruct (blk_size_ok _ _ Hb) as [Hs H16]. specialize (H16 Hne). rewrite used_flag_word, get_size_word by lia.
    assert (Hbd : ∀ f, f = used_size \/ f = free_bytes \/ f = used_num \/ f = free_num -> 0 <= weigh f (below a B) <= n).
    { intros f Hf. apply below_bound. intros x c Hx Hlt. destruct (blk_size_ok _ _ Hx) as [? Hx16].
      destruct (blk_range _ _ HL _ _ Hb) as (? & _). specialize (Hx16 ltac:(lia)).
      destruct Hf as [->|[->|[->| ->]]]; unfold used_size, free_bytes, used_num, free_num; destruct (b_state c); lia. }
    pose proof (Hbd _ (or_introl eq_refl)). pose proof (Hbd _ (or_intror (or_introl eq_refl))).
    pose proof (Hbd _ (or_intror (or_intror (or_introl eq_refl)))). pose proof (Hbd _ (or_intror (or_intror (or_intror eq_refl)))).
    pose proof (pl_settled _ _ _ _ HP _ _ Hb) as Hno. pose proof (largest_nonneg (below a B)).
    assert (Ew : used_size b = (if b_state b is BUsed _ then b_size b else 0) /\ free_bytes b = (if b_state b is BFree then b_size b else 0) /\
      used_num b = (if b_state b is BUsed _ then 1 else 0) /\ free_num b = (if b_state b is BFree then 1 else 0)) by (unfold used_size, free_bytes, used_num, free_num; by destruct (b_state b)).
    destruct (b_state b) eqn:Eb; [|done|]; cbn [negb]; apply wp_ret, HQ'; unfold status_of; cbn;
      rewrite (below_next HL _ _ Hb Hne), !weigh_new, largest_new by apply below_self; destruct Ew as (-> & -> & -> & ->);
      rewrite ?u32_id by lia; f_equal; lia.
  - rewrite (below_first HL). unfold status_of. by rewrite !weigh_empty.
  - intros st ->. apply wp_bind. destruct (pl_water _ _ _ _ HP) as (w & Hw & _). eapply wp_ld; [done|]. apply wp_ret.
    rewrite (below_end HL). cbn. by apply HQ.
Qed.

Lemma info_print_wp Q : (∀ r, Q r s) -> wp (OsMemInfoPrint p) Q s.
Proof using HP.
  intros HQ. unfold OsMemInfoPrint. apply wp_bind, info_get_wp. intros w _. destruct (pi_info _ _ _ _ (pl_inv _ _ _ _ HP)) as [_ Hn].
  destruct (ly_pool _ _ _ (pi_layout _ _ _ _ (pl_inv _ _ _ _ HP))) as [[? ?] ? _]. unfold LOS_MemPoolSizeGet. destruct (Z.eqb_spec p 0); [lia|].
  apply wp_bind. eapply wp_ld; [done|]. by apply wp_ret.
Qed.
End recount.
