(* ===== verification/MemAlloc.v ===== *)
(** Correctness of the dynamic allocator, part 4: allocation and release of
    blocks. *)

From S2P Require Import Prelude Errno Membox Memory MemInv MemBlocks MemWalk.

(** ** Live regions: a pointer and the number of bytes behind it *)

Definition live (B : gmap Z Blk) (ptr : Z) : option Z :=
  match B !! (ptr - 8) with
  | Some b => match b_state b with BUsed _ => if b_size b =? 0 then None else Some (b_size b - 8) | _ => None end
  | None => None
  end.

Lemma live_Some B ptr len : live B ptr = Some len <->
  ∃ b al, B !! (ptr - 8) = Some b /\ b_state b = BUsed al /\ b_size b <> 0 /\ len = b_size b - 8.
Proof.
  unfold live. destruct (B !! (ptr - 8)) as [b|]; [|by split; [|intros (b & al & ? & _)]].
  assert (Hl : (∃ b0 al, Some b = Some b0 /\ b_state b0 = BUsed al /\ b_size b0 <> 0 /\ len = b_size b0 - 8) <->
    (∃ al, b_state b = BUsed al) /\ b_size b <> 0 /\ len = b_size b - 8).
  { split; [intros (b0 & al & [= <-] & ? & ? & ?); eauto|intros ([al ?] & ? & ?); eauto 10]. }
  rewrite Hl. destruct (b_state b) as [| |al] eqn:E; [by split; [|intros ([] & _)]..|].
  destruct (Z.eqb_spec (b_size b) 0); split; intros H'; [done|tauto|injection H' as <-; eauto|by destruct H' as (_ & _ & ->)].
Qed.

(** The used blocks other than [a0] stay, with their sizes and flags. *)
Definition used_kept (B B' : gmap Z Blk) (a0 : Z) : Prop :=
  ∀ a b al, a <> a0 -> B !! a = Some b -> b_state b = BUsed al -> ∃ b', B' !! a = Some b' /\ b_state b' = BUsed al /\ b_size b' = b_size b.

(** Words that an operation on the pool must leave alone: those outside the
    pool and those of the live regions. *)
Definition owned (p n : Z) (B : gmap Z Blk) (x : Z) : Prop :=
  x < p \/ p + n <= x \/ ∃ ptr len, live B ptr = Some len /\ ptr <= x < ptr + len.

Lemma owned_kept p n B x : Layout p n B -> owned p n B x -> kept p n B x /\ x <> info_curUsedSize p /\ x <> info_waterLine p.
Proof.
  intros HL Hx. destruct (ly_pool _ _ _ HL) as [[? ?] ? _]. unfold kept. offsets. destruct Hx as [?|[?|(ptr & len & (b & al & Hb & Hs & Hz & ->)%live_Some & Hx)]].
  - split_and!; [left; lia|lia|lia].
  - split_and!; [right; right; left; lia|lia|lia].
  - pose proof (head_below _ _ _ _ _ HL Hb). split_and!; [|lia|lia]. right; right; right. exists (ptr - 8), b. rewrite Hs. split_and!; try done; unfold payload; lia.
Qed.

(** ** The water line *)

Section water.
Context {p n : Z}.

Lemma info_word_inv B W x v : PoolInv p n B W -> x = info_curUsedSize p \/ x = info_waterLine p -> PoolInv p n B (<[x := v]> W).
Proof.
  intros [HL Hh (F & HF & HM) [Hi1 Hi2] Hm] Hx. assert (Hhi : ∀ y, p + 20 <= y -> <[x := v]> W !! y = W !! y) by (intros y Hy; offsets; rewrite lookup_insert_ne by lia; done).
  split; [done| | | |].
  - intros a b Ha. pose proof (head_below _ _ _ _ _ HL Ha). rewrite !Hhi by (offsets; lia). by apply Hh.
  - exists F. split; [|done]. eapply FreeLists_ext; [done|intros y Hy; apply Hhi; lia|].
    intros i c (d & Hd & _)%(mb_in _ _ HM). pose proof (head_below _ _ _ _ _ HL Hd). rewrite !Hhi by (offsets; lia). done.
  - offsets. rewrite !lookup_insert_ne by lia. done.
  - intros y Hy Hd. apply insert_dom. auto.
Qed.

(** Recording [d] more bytes. *)
Lemma water_wp B s u w d Q : PoolInv p n B (mem s) -> mem s !! info_curUsedSize p = Some u -> mem s !! info_waterLine p = Some w ->
  0 <= u -> 0 <= d -> u + d <= n -> w <= n ->
  (∀ s' w', PoolInv p n B (mem s') -> g_poolHead s' = g_poolHead s -> mem s' !! info_curUsedSize p = Some (u + d) ->
     mem s' !! info_waterLine p = Some w' -> u + d <= w' <= n ->
     (∀ x, x <> info_curUsedSize p -> x <> info_waterLine p -> mem s' !! x = mem s !! x) -> Q tt s') ->
  wp (OsMemWaterUsedRecord p d) Q s.
Proof.
  intros HI Hu Hw H0 Hd Hud Hwn HQ. destruct (ly_pool _ _ _ (pi_layout _ _ _ _ HI)) as [[? ?] ? _]. unfold OsMemWaterUsedRecord.
  apply wp_bind. eapply wp_ld; [done|]. rewrite u32_id by lia. apply wp_bind, wp_st; [by rewrite Hu|]. apply wp_bind. eapply wp_ld; [cbn; look; done|].
  apply wp_bind. eapply wp_ld; [cbn; look; done|]. apply wp_when; intros Hgt.
  - apply wp_st; [cbn; by apply insert_dom; rewrite Hw|]. eapply HQ; cbn; [apply info_word_inv; [apply info_word_inv; auto|auto]|done|by look|by look|lia|].
    intros x ? ?. by look.
  - eapply HQ; cbn; [apply info_word_inv; auto|done|by look|by look|lia|]. intros x ? ?. by look.
Qed.
End water.

(** ** Allocation *)

Lemma align_pow2 x j : 0 <= j < 32 -> 0 <= x -> x + 2 ^ j - 1 < 2 ^ 32 -> OS_MEM_ALIGN x (2 ^ j) = (x + 2 ^ j - 1) / 2 ^ j * 2 ^ j.
Proof.
  intros Hj Hx Hlt. assert (0 < 2 ^ j) by (apply Z.pow_pos_nonneg; lia). assert (2 ^ j < 2 ^ 32) by (apply Z.pow_lt_mono_r; lia).
  unfold OS_MEM_ALIGN. rewrite !u32_id by lia. assert (2 ^ j - 1 = Z.ones j) as -> by (rewrite Z.ones_equiv; lia).
  rewrite Z.ldiff_ones_r, Z.shiftr_div_pow2, Z.shiftl_mul_pow2 by lia. done.
Qed.

(** The size of the block for a request. *)
Definition block_size (size : Z) : Z := OS_MEM_ALIGN (u32 (size + OS_MEM_NODE_HEAD_SIZE)) OS_MEM_ALIGN_SIZE.

Lemma block_size_spec size : 8 <= size < 2 ^ 30 -> size + 8 <= block_size size <= size + 11 /\ (4 | block_size size).
Proof.
  intros H. unfold block_size, OS_MEM_NODE_HEAD_SIZE, OS_MEM_ALIGN_SIZE. rewrite u32_id by lia.
  rewrite (align_pow2 _ 2) by lia. change (2 ^ 2) with 4. pose proof (div4 (size + 8 + 4 - 1)). split; [lia|by apply Z.divide_factor_r].
Qed.

(** The blocks after the first [k] bytes of the free block [a] have been taken;
    a rest too short for a block stays with it. *)
Definition allocated (a k : Z) (b c : Blk) (B : gmap Z Blk) : gmap Z Blk :=
  if decide (k + 16 <= b_size b) then
    <[a := mk_Blk (b_prev b) k (BUsed false)]> (<[a + k := mk_Blk a (b_size b - k) BFree]> (<[a + b_size b := with_prev (a + k) c]> B))
  else <[a := with_state (BUsed false) b]> B.

Section alloc.
Context {p n : Z} {B : gmap Z Blk} {s : Heap} (HP : Pool p n B s).
Context (a k : Z) (b c : Blk).
Context (Ha : B !! a = Some b) (Hf : b_state b = BFree) (Hc : B !! (a + b_size b) = Some c).
Context (Hk : 16 <= k <= b_size b) (Hk4 : (4 | k)).

Lemma next_used : ∃ al, b_state c = BUsed al.
Proof using HP Ha Hf Hc.
  pose proof (pl_settled _ _ _ _ HP _ _ Hc). pose proof (pl_joined _ _ _ _ HP _ _ _ Ha Hf Hc). destruct (b_state c); try done. eauto.
Qed.

Lemma alloc_fresh : k + 16 <= b_size b -> B !! (a + k) = None.
Proof using HP Ha Hf Hk.
  intros Hle. pose proof (pi_layout _ _ _ _ (pl_inv _ _ _ _ HP)) as HL. apply (split_fresh HL a k b); try done; [|lia]. by eapply free_not_end.
Qed.

(** Marking the block, after the split if there is one. *)
Lemma alloc_node_wp s1 Q :
  Steps (kept p n B) p n s (<[a := with_state BOut b]> B) s1 ->
  (∀ s2, Steps (kept p n B) p n s (allocated a k b c B) s2 -> Q tt s2) ->
  wp (let* w := ld (sizeAndFlag a) in
      when (u32 (k + OS_MEM_MIN_LEFT_SIZE) <=? w) (OsMemSplitNode p a k) ;;;
      OS_MEM_NODE_SET_USED_FLAG a) Q s1.
Proof using All.
  intros HS1 HQ. pose proof (pi_layout _ _ _ _ (pl_inv _ _ _ _ HP)) as HL. pose proof (free_not_end _ _ HL _ _ Ha Hf) as Hne.
  destruct (blk_range _ _ HL _ _ Ha) as (Hr & _ & Hsz & _ & Hend & _). destruct (ly_pool _ _ _ HL) as [[? ?] ? _].
  set (b1 := with_state BOut b) in *. assert (Hb1 : <[a := b1]> B !! a = Some b1) by by rewrite lookup_insert_eq.
  assert (Hset : ∀ B2 s2 b2, Steps (kept p n B) p n s B2 s2 -> B2 !! a = Some b2 -> b_state b2 = BOut -> <[a := with_state (BUsed false) b2]> B2 = allocated a k b c B ->
    wp (OS_MEM_NODE_SET_USED_FLAG a) Q s2).
  { intros B2 s2 b2 HS2 Hb2 Hout E. destruct (pi_hdr _ _ _ _ (ss_inv _ _ _ _ _ _ HS2) _ _ Hb2) as [_ Hw]. unfold OS_MEM_NODE_SET_USED_FLAG.
    apply wp_bind. eapply wp_ld; [done|]. assert (setf OS_MEM_NODE_USED_FLAG (b_word b2) = b_word (with_state (BUsed false) b2)) as -> by (unfold b_word; rewrite Hout; done).
    eapply wp_mono; [apply (flag_steps HS2); try done; by rewrite Hout|]. intros [] s3 HS3. rewrite E in HS3. by apply HQ. }
  destruct (pi_hdr _ _ _ _ (ss_inv _ _ _ _ _ _ HS1) _ _ Hb1) as [_ Hw]. apply wp_bind. eapply wp_ld; [done|]. change (b_word b1) with (b_size b).
  unfold OS_MEM_MIN_LEFT_SIZE. rewrite u32_id by (offsets; lia). apply wp_bind, wp_when; intros Hle.
  - apply Z.leb_le in Hle. eapply wp_mono; [eapply (split_used_wp HS1 a k b1 c)|]; try done.
    + cbn. rewrite lookup_insert_ne by lia. done.
    + lia.
    + intros x Hx Hr'. change (b_size b1) with (b_size b) in Hr'. pose proof (kept_not_free (Steps_refl (kept p n B) p n B s (pl_inv _ _ _ _ HP) ltac:(done)) a b x Ha Hf Hx). lia.
    + apply next_used.
    + intros [] s2 HS2. eapply (Hset _ _ (with_size k b1)); [done| |done|].
      * unfold split_used. rewrite lookup_insert_ne by lia. rewrite splitted_lookup. by case_decide.
      * unfold allocated. rewrite decide_True by done. unfold split_used, splitted. cbn. apply map_eq. intros x. rewrite !lookup_insert. repeat case_decide; done || lia.
  - apply Z.leb_gt in Hle. eapply (Hset _ _ b1); [done|done|done|]. unfold allocated. rewrite decide_False by lia. by rewrite insert_insert_eq.
Qed.

(** What an allocation does to the invariant. *)
Lemma allocated_at : ∃ d, allocated a k b c B !! a = Some d /\ b_state d = BUsed false /\ k <= b_size d /\ b_size d < k + 16 /\ b_prev d = b_prev b /\
  weigh used_size (allocated a k b c B) = weigh used_size B + b_size d.
Proof using All.
  unfold allocated. case_decide as Hle.
  - exists (mk_Blk (b_prev b) k (BUsed false)). rewrite lookup_insert_eq. split_and!; cbn; try lia; try done.
    pose proof (alloc_fresh Hle) as Hnew. destruct next_used as [al Hal].
    rewrite (weigh_update _ _ a b), weigh_new, (weigh_update _ _ _ c) by (rewrite ?lookup_insert_ne by lia; done).
    unfold used_size. rewrite Hf. cbn. lia.
  - exists (with_state (BUsed false) b). rewrite lookup_insert_eq. split_and!; cbn; try lia; try done.
    rewrite (weigh_update _ _ a b) by done. unfold used_size. rewrite Hf. cbn. lia.
Qed.

Lemma allocated_lookup x : allocated a k b c B !! x =
  if decide (x = a) then Some (mk_Blk (b_prev b) (if decide (k + 16 <= b_size b) then k else b_size b) (BUsed false))
  else if decide (k + 16 <= b_size b /\ x = a + k) then Some (mk_Blk a (b_size b - k) BFree)
  else if decide (k + 16 <= b_size b /\ x = a + b_size b) then Some (with_prev (a + k) c) else B !! x.
Proof using Hk Ha Hc.
  unfold allocated. repeat case_decide; rewrite ?lookup_insert; repeat case_decide; subst; try done; try lia; try tauto.
Qed.

(** The states of the blocks that were there do not change, [a] excepted. *)
Lemma allocated_state x d : allocated a k b c B !! x = Some d -> x <> a ->
  k + 16 <= b_size b /\ x = a + k /\ d = mk_Blk a (b_size b - k) BFree \/ ∃ d', B !! x = Some d' /\ b_state d' = b_state d /\ b_size d' = b_size d.
Proof using Hk Ha Hc.
  intros Hx Hne. rewrite allocated_lookup, decide_False in Hx by done. case_decide as Hd; [injection Hx as <-; left; tauto|].
  case_decide as Hd'; [injection Hx as <-; right; destruct Hd' as [_ ->]|right]; eauto.
Qed.

Lemma allocated_settled x d : allocated a k b c B !! x = Some d -> b_state d <> BOut.
Proof using HP Hk Hc Ha Hf.
  intros Hx. destruct (decide (x = a)) as [->|Hne].
  - rewrite allocated_lookup, decide_True in Hx by done. by injection Hx as <-.
  - apply allocated_state in Hx as [(_ & _ & ->)|(d' & Hd' & <- & _)]; [done|by eapply (pl_settled _ _ _ _ HP)|done].
Qed.

Lemma allocated_joined x d e : allocated a k b c B !! x = Some d -> b_state d = BFree ->
  allocated a k b c B !! (x + b_size d) = Some e -> b_state e <> BFree.
Proof using HP Hk Hc Ha Hf.
  intros Hx Hfx He. destruct next_used as [al Hal]. pose proof (pi_layout _ _ _ _ (pl_inv _ _ _ _ HP)) as HL.
  destruct (decide (x = a)) as [->|Hne].
  { rewrite allocated_lookup, decide_True in Hx by done. by injection Hx as <-. }
  apply allocated_state in Hx as [(Hle & -> & ->)|(d' & Hd' & Hs & Hz)]; [| |done].
  - cbn in He. replace (a + k + (b_size b - k)) with (a + b_size b) in He by lia. rewrite allocated_lookup in He. repeat case_decide; try lia; try tauto.
    injection He as <-. cbn. by rewrite Hal.
  - rewrite Hfx in Hs. rewrite <- Hz in He. destruct (ly_next _ _ _ HL _ _ Hd' (free_not_end _ _ HL _ _ Hd' Hs)) as (y & Hy & _).
    pose proof (pl_joined _ _ _ _ HP _ _ _ Hd' Hs Hy) as Hj. destruct (decide (x + b_size d' = a)) as [E|Hne'].
    { rewrite E, allocated_lookup, decide_True in He by done. by injection He as <-. }
    apply allocated_state in He as [(Hle & E & _)|(y' & Hy' & <- & _)]; [| |done].
    + rewrite E, alloc_fresh in Hy by done. done.
    + by assert (y' = y) as -> by congruence.
Qed.

Lemma allocated_live x : live (allocated a k b c B) x =
  if decide (x = a + 8) then Some ((if decide (k + 16 <= b_size b) then k else b_size b) - 8) else live B x.
Proof using HP Hk Hc Ha Hf.
  unfold live. rewrite allocated_lookup. destruct (decide (x = a + 8)) as [->|Hne].
  - rewrite decide_True by lia. cbn. destruct (Z.eqb_spec (if decide (k + 16 <= b_size b) then k else b_size b) 0) as [E|]; [|done].
    case_decide; lia.
  - rewrite decide_False by lia. case_decide as Hd; [destruct Hd as [Hle ->]; by rewrite alloc_fresh|].
    case_decide as Hd'; [|done]. destruct Hd' as [Hle ->]. by rewrite Hc.
Qed.

Lemma allocated_used : used_kept B (allocated a k b c B) a.
Proof using HP Hk Hc Ha Hf.
  intros x d al Hx Hd Hu. rewrite allocated_lookup, decide_False by done. case_decide as E; [destruct E as [Hle ->]; by rewrite alloc_fresh in Hd|].
  case_decide as E'; [destruct E' as [_ ->]|by eauto]. rewrite Hc in Hd. injection Hd as ->. eauto.
Qed.
End alloc.

Lemma live_free B a b : B !! a = Some b -> b_state b = BFree -> live B (a + 8) = None.
Proof. intros Ha Hf. unfold live. replace (a + 8 - 8) with a by lia. by rewrite Ha, Hf. Qed.

(** [OsMemAlloc]: the result is NULL only when no free block is long enough. *)
Lemma alloc_wp p n B s size Q : Pool p n B s -> 8 <= size < 2 ^ 30 ->
  ((∀ c d, B !! c = Some d -> b_state d = BFree -> b_size d < block_size size) -> Q 0 s) ->
  (∀ a b c s', B !! a = Some b -> b_state b = BFree -> B !! (a + b_size b) = Some c -> block_size size <= b_size b ->
     Pool p n (allocated a (block_size size) b c B) s' -> g_poolHead s' = g_poolHead s ->
     (∀ x, kept p n B x -> x <> info_curUsedSize p -> x <> info_waterLine p -> mem s' !! x = mem s !! x) ->
     Q (a + 8) s') ->
  wp (OsMemAlloc p size) Q s.
Proof.
  intros HP Hsz Hnull HQ. destruct (block_size_spec size Hsz) as [Hk Hk4]. unfold OsMemAlloc. fold (block_size size).
  set (k := block_size size) in *. pose proof (pl_inv _ _ _ _ HP) as HI. pose proof (pi_layout _ _ _ _ HI) as HL.
  destruct (ly_pool _ _ _ HL) as [[? ?] ? _].
  apply wp_bind. unfold OsMemFreeNodeGet. apply wp_bind, (find_next_wp s HI); [lia|done|]. intros r i [[-> Hno]|(b & Ha & Hf & -> & Hle)].
  { cbn. apply wp_ret. cbn. apply wp_bind, (info_print_wp s HP). intros _. apply wp_ret, Hnull. done. }
  pose proof (head_below _ _ _ _ _ HL Ha). destruct (Z.eqb_spec r 0); [lia|]. rename r into a.
  assert (HS0 : Steps (kept p n B) p n s B s) by by apply Steps_refl.
  apply wp_bind. eapply wp_mono; [by eapply (delete_steps HS0)|]. intros [] s1 HS1. apply wp_ret. destruct (Z.eqb_spec a 0); [lia|].
  destruct (ly_next _ _ _ HL _ _ Ha (free_not_end _ _ HL _ _ Ha Hf)) as (c & Hc & _).
  destruct (allocated_at HP a k b c Ha Hf Hc ltac:(lia) Hk4) as (d & Hd & Hds & Hdk & _ & _ & Hw).
  destruct (pl_water _ _ _ _ HP) as (w & Hww & Hwn). pose proof (used_bound HL).
  assert (Hrest : ∀ s2, Steps (kept p n B) p n s (allocated a k b c B) s2 ->
    wp (let* w := ld (sizeAndFlag a) in OsMemWaterUsedRecord p (OS_MEM_NODE_GET_SIZE w) ;;; mret (OsMemCreateUsedNode a)) Q s2).
  { intros s2 HS2. pose proof (ss_inv _ _ _ _ _ _ HS2) as HI2. pose proof (pi_layout _ _ _ _ HI2) as HL2. pose proof (used_bound HL2) as Hub.
    destruct (pi_hdr _ _ _ _ HI2 _ _ Hd) as [_ Hwd]. apply wp_bind. eapply wp_ld; [done|].
    destruct (blk_range _ _ HL2 _ _ Hd) as (_ & _ & ? & _). rewrite get_size_word by lia.
    assert (Hinfo : ∀ x, x = info_curUsedSize p \/ x = info_waterLine p -> mem s2 !! x = mem s !! x).
    { intros x Hx. apply (ss_keep _ _ _ _ _ _ HS2). left. offsets. lia. }
    apply wp_bind. eapply (water_wp _ s2 (952 + weigh used_size B) w); [done|rewrite Hinfo by auto; apply HP|rewrite Hinfo by auto; done|lia..|].
    intros s3 w' HI3 Hg Hu Hw' Hwn' Hk'. apply wp_ret. apply (HQ a b c s3); try done.
    - split; [done|by eapply (allocated_settled HP a k b c); try done; lia|by eapply (allocated_joined HP a k b c); try done; lia|rewrite Hu; f_equal; lia|].
      exists w'. split; [done|lia].
    - rewrite Hg. apply HS2.
    - intros x Hx ? ?. rewrite Hk' by done. by apply (ss_keep _ _ _ _ _ _ HS2). }
  pose proof (alloc_node_wp HP a k b c Ha Hf Hc ltac:(lia) Hk4 s1 (λ _ s2, wp (let* w := ld (sizeAndFlag a) in OsMemWaterUsedRecord p (OS_MEM_NODE_GET_SIZE w) ;;; mret (OsMemCreateUsedNode a)) Q s2) HS1 Hrest) as Hn.
  apply wp_bind_inv in Hn. apply wp_bind. eapply wp_mono; [exact Hn|]. intros v s2 Hn2. cbn in Hn2. apply wp_bind_inv in Hn2. apply wp_bind.
  eapply wp_mono; [exact Hn2|]. intros v2 s3 Hn3. cbn in Hn3. apply wp_bind. exact Hn3.
Qed.

(** ** Release

    [Span B B' lo hi st]: in [B'] one block in state [st] covers the
    addresses from [lo] to [hi], and elsewhere [B'] is [B]. *)

Record Span (B B' : gmap Z Blk) (lo hi : Z) (st : BState) : Prop := {
  sn_at : ∃ b, B !! lo = Some b /\ B' !! lo = Some (mk_Blk (b_prev b) (hi - lo) st);
  sn_in : ∀ x, lo < x < hi -> B' !! x = None;
  sn_hi : ∃ c, B !! hi = Some c /\ B' !! hi = Some (with_prev lo c);
  sn_out : ∀ x, x < lo \/ hi < x -> B' !! x = B !! x;
}.

Lemma used_size_prev q c : used_size (with_prev q c) = used_size c.
Proof. done. Qed.

Section span.
Context {p n : Z} {B : gmap Z Blk} (HL : Layout p n B).

Lemma span_init a b st' : B !! a = Some b -> a <> end_node p n -> Span B (<[a := with_state st' b]> B) a (a + b_size b) st'.
Proof using HL.
  intros Ha Hne. destruct (ly_blk _ _ _ HL _ _ Ha Hne) as (_ & ? & _). destruct (ly_next _ _ _ HL _ _ Ha Hne) as (c & Hc & Hp). split.
  - exists b. split; [done|]. rewrite lookup_insert_eq. replace (a + b_size b - a) with (b_size b) by lia. done.
  - intros x Hx. rewrite lookup_insert_ne by lia. destruct (B !! x) as [d|] eqn:Hd; [|done]. pose proof (ly_apart _ _ _ HL _ _ _ _ Ha Hd). lia.
  - exists c. split; [done|]. rewrite lookup_insert_ne by lia. rewrite Hc. destruct c. cbn in Hp. by subst.
  - intros x Hx. rewrite lookup_insert_ne by lia. done.
Qed.

Lemma span_state B' lo hi b st1 st2 : Span B B' lo hi st1 -> B' !! lo = Some b -> lo < hi -> Span B (<[lo := with_state st2 b]> B') lo hi st2.
Proof.
  intros [(b0 & H1 & H2) H3 (c & H4 & H5) H6] Hb Hlt. rewrite H2 in Hb. injection Hb as <-. split.
  - exists b0. by rewrite lookup_insert_eq.
  - intros x Hx. rewrite lookup_insert_ne by lia. auto.
  - exists c. by rewrite lookup_insert_ne by lia.
  - intros x Hx. rewrite lookup_insert_ne by lia. auto.
Qed.

Lemma span_before B' q lo hi bq blo c : Span B B' lo hi BOut -> B !! q = Some bq -> q + b_size bq = lo -> 16 <= b_size bq ->
  B' !! lo = Some blo -> B !! hi = Some c -> lo < hi ->
  Span B (merged q lo (with_state BOut bq) blo (with_prev lo c) (B := <[q := with_state BOut bq]> B')) q hi BOut.
Proof using HL.
  intros [(b0 & H1 & H2) H3 (c' & H4 & H5) H6] Hq Eq Hs Hlo Hc Hlt. assert (c' = c) as -> by congruence. rewrite H2 in Hlo. injection Hlo as <-. split.
  - exists bq. split; [done|]. rewrite merged_lookup. cbn. repeat case_decide; try lia. unfold with_size, with_state. cbn. do 2 f_equal. lia.
  - intros x Hx. rewrite merged_lookup. cbn. repeat case_decide; try lia; try done. rewrite lookup_insert_ne by lia.
    destruct (decide (x < lo)); [|apply H3; lia]. rewrite H6 by lia. destruct (B !! x) as [d|] eqn:Hd; [|done].
    pose proof (ly_apart _ _ _ HL _ _ _ _ Hq Hd). lia.
  - exists c. split; [done|]. rewrite merged_lookup. cbn. repeat case_decide; try lia. done.
  - intros x Hx. rewrite merged_lookup. cbn. repeat case_decide; try lia. rewrite lookup_insert_ne by lia. apply H6. lia.
Qed.

Lemma span_after B' lo hi blo c c2 : Span B B' lo hi BOut -> B' !! lo = Some blo -> B !! hi = Some c -> B !! (hi + b_size c) = Some c2 ->
  lo < hi -> 16 <= b_size c ->
  Span B (merged lo hi blo (with_state BOut (with_prev lo c)) c2 (B := <[hi := with_state BOut (with_prev lo c)]> B')) lo (hi + b_size c) BOut.
Proof using HL.
  intros [(b0 & H1 & H2) H3 (c' & H4 & H5) H6] Hlo Hc Hc2 Hlt Hs. assert (c' = c) as -> by congruence. rewrite H2 in Hlo. injection Hlo as <-. split.
  - exists b0. split; [done|]. rewrite merged_lookup. cbn. repeat case_decide; try lia. unfold with_size. cbn. do 2 f_equal. lia.
  - intros x Hx. rewrite merged_lookup. cbn. repeat case_decide; try lia; try done. rewrite lookup_insert_ne by lia.
    destruct (decide (x < hi)); [apply H3; lia|]. rewrite H6 by lia. destruct (B !! x) as [d|] eqn:Hd; [|done].
    pose proof (ly_apart _ _ _ HL _ _ _ _ Hc Hd). lia.
  - exists c2. split; [done|]. rewrite merged_lookup. cbn. repeat case_decide; try lia. done.
  - intros x Hx. rewrite merged_lookup. cbn. repeat case_decide; try lia. rewrite lookup_insert_ne by lia. apply H6. lia.
Qed.
End span.

Lemma weigh_merged q m bq bm c (B : gmap Z Blk) : B !! q = Some bq -> B !! m = Some bm -> B !! (m + b_size bm) = Some c -> q <> m -> q <> m + b_size bm -> b_size bm <> 0 ->
  b_state bq = BOut -> b_state bm = BOut -> weigh used_size (merged q m bq bm c (B := B)) = weigh used_size B.
Proof.
  intros Hq Hm Hc H1 H2 H3 Hs1 Hs2. unfold merged. rewrite (weigh_delete _ _ m bm) by (rewrite !lookup_insert_ne by lia; done).
  rewrite (weigh_update _ _ q bq) by (rewrite lookup_insert_ne by lia; done). rewrite (weigh_update _ _ _ c) by done.
  assert (used_size bq = 0 /\ used_size bm = 0 /\ used_size (with_size (b_size bq + b_size bm) bq) = 0) as (-> & -> & ->) by (unfold used_size, with_size; cbn; rewrite Hs1, Hs2; done).
  rewrite used_size_prev. lia.
Qed.

Section release.
Context {K : Z -> Prop} {p n : Z} {s0 s : Heap} {B B' : gmap Z Blk} (HL : Layout p n B) (HS : Steps K p n s0 B' s).
Context (lo hi : Z) (Hsp : Span B B' lo hi BOut) (Hlt : lo < hi).

Lemma span_blk : ∃ b, B !! lo = Some b /\ B' !! lo = Some (mk_Blk (b_prev b) (hi - lo) BOut) /\ lo <> end_node p n.
Proof using HS Hsp.
  destruct (sn_at _ _ _ _ _ Hsp) as (b & Hb & Hb'). exists b. split_and!; try done. by eapply (out_not_end (ss_inv _ _ _ _ _ _ HS)).
Qed.

(** The block before is free and is joined. *)
Lemma join_prev_wp q bq : B !! q = Some bq -> b_state bq = BFree -> q + b_size bq = lo ->
  wp (OsMemFreeNodeDelete p q ;;; OsMemMergeNode lo)
    (λ _ s', ∃ B2, Steps K p n s0 B2 s' /\ Span B B2 q hi BOut /\ weigh used_size B2 = weigh used_size B') s.
Proof using All.
  intros Hq Hf Eq. destruct span_blk as (b & Hb & Hb' & Hle). destruct (sn_hi _ _ _ _ _ Hsp) as (c & Hc & Hc').
  pose proof (free_not_end _ _ HL _ _ Hq Hf) as Hqe. destruct (ly_blk _ _ _ HL _ _ Hq Hqe) as (Hqf & Hsz & _).
  destruct (ly_next _ _ _ HL _ _ Hq Hqe) as (b' & Hb2 & Hpb). rewrite Eq in Hb2. assert (b' = b) as -> by congruence.
  assert (Hq' : B' !! q = Some bq) by (rewrite (sn_out _ _ _ _ _ Hsp) by lia; done).
  apply wp_bind. eapply wp_mono; [by eapply (node_delete_steps HS)|]. intros [] s1 HS1.
  set (blo := mk_Blk (b_prev b) (hi - lo) BOut) in *. set (B1 := <[q := with_state BOut bq]> B') in *.
  assert (H1 : B1 !! lo = Some blo) by (unfold B1; rewrite lookup_insert_ne by lia; done).
  assert (H2 : B1 !! b_prev blo = Some (with_state BOut bq)) by (cbn; rewrite Hpb; unfold B1; by rewrite lookup_insert_eq).
  assert (H3 : B1 !! (lo + b_size blo) = Some (with_prev lo c)) by (cbn; replace (lo + (hi - lo)) with hi by lia; unfold B1; rewrite lookup_insert_ne by lia; done).
  eapply wp_mono; [eapply (merge_steps HS1 lo blo (with_state BOut bq) (with_prev lo c)); try done; offsets; lia|].
  intros [] s2 HS2. cbn in HS2. rewrite Hpb in HS2. eexists. split_and!; [done| |].
  - by eapply (span_before HL).
  - rewrite weigh_merged; try done.
    + unfold B1. rewrite (weigh_update _ _ q bq) by done. unfold used_size. rewrite Hf. cbn. lia.
    + unfold B1. by rewrite lookup_insert_eq.
    + lia.
    + cbn. lia.
    + cbn. lia.
Qed.

(** The block after is free and is joined. *)
Lemma join_next_wp c : B !! hi = Some c -> b_state c = BFree ->
  wp (OsMemFreeNodeDelete p hi ;;; OsMemMergeNode hi)
    (λ _ s', ∃ B2, Steps K p n s0 B2 s' /\ Span B B2 lo (hi + b_size c) BOut /\ weigh used_size B2 = weigh used_size B') s.
Proof using All.
  intros Hc Hf. destruct span_blk as (b & Hb & Hb' & Hle). destruct (sn_hi _ _ _ _ _ Hsp) as (c' & Hc1 & Hc'). assert (c' = c) as -> by congruence.
  pose proof (free_not_end _ _ HL _ _ Hc Hf) as Hce. destruct (ly_blk _ _ _ HL _ _ Hc Hce) as (Hcf & Hsz & _).
  destruct (ly_next _ _ _ HL _ _ Hc Hce) as (c2 & Hc2 & _).
  apply wp_bind. eapply wp_mono; [by eapply (node_delete_steps HS)|]. intros [] s1 HS1.
  set (cc := with_state BOut (with_prev lo c)) in *. set (blo := mk_Blk (b_prev b) (hi - lo) BOut) in *. set (B1 := <[hi := cc]> B') in *.
  assert (H1 : B1 !! hi = Some cc) by (unfold B1; by rewrite lookup_insert_eq).
  assert (H2 : B1 !! b_prev cc = Some blo) by (cbn; unfold B1; rewrite lookup_insert_ne by lia; done).
  assert (H3 : B1 !! (hi + b_size cc) = Some c2) by (cbn; unfold B1; rewrite lookup_insert_ne by lia; rewrite (sn_out _ _ _ _ _ Hsp) by lia; done).
  assert (Hhf : hi <> first_node p).
  { destruct (blk_range _ _ HL _ _ Hb) as (? & _). lia. }
  eapply wp_mono; [eapply (merge_steps HS1 hi cc blo c2); done|].
  intros [] s2 HS2. cbn in HS2. eexists. split_and!; [done| |].
  - by eapply (span_after HL).
  - rewrite weigh_merged; try done.
    + unfold B1. rewrite (weigh_update _ _ hi (with_prev lo c)) by done. unfold used_size. cbn. rewrite Hf. lia.
    + cbn. lia.
    + cbn. lia.
    + cbn. lia.
Qed.
End release.

(** The addresses the freed block [a] will cover together with its free neighbours. *)
Definition free_lo (B : gmap Z Blk) (a : Z) (b : Blk) : Z :=
  match B !! b_prev b with Some q => if decide (b_state q = BFree) then b_prev b else a | None => a end.
Definition free_hi (B : gmap Z Blk) (a : Z) (b : Blk) : Z :=
  match B !! (a + b_size b) with
  | Some c => if decide (b_state c = BFree) then a + b_size b + b_size c else a + b_size b
  | None => a + b_size b
  end.

Section free.
Context {p n : Z} {B : gmap Z Blk} {s : Heap} (HP : Pool p n B s).

Lemma node_valid_wp x d Q : B !! x = Some d -> Q true s -> wp (OsMemIsNodeValid x (OS_MEM_FIRST_NODE p) (end_node p n) p) Q s.
Proof using HP.
  intros Hd HQ. pose proof (pl_inv _ _ _ _ HP) as HI. pose proof (pi_layout _ _ _ _ HI) as HL. destruct (blk_range _ _ HL _ _ Hd) as (Hr & _ & ? & _).
  unfold OsMemIsNodeValid, OS_MEM_MIDDLE_ADDR. change (OS_MEM_FIRST_NODE p) with (first_node p).
  destruct (Z.leb_spec (first_node p) x); [|lia]. destruct (Z.leb_spec x (end_node p n)); [|lia]. cbn [andb negb].
  destruct (pi_hdr _ _ _ _ HI _ _ Hd) as [Hp Hw]. apply wp_bind. eapply wp_ld; [done|]. case_match; [by apply wp_ret|].
  apply wp_bind. eapply wp_ld; [done|]. apply (valid_wp s HI). rewrite bool_decide_true by by eapply (prev_valid s HI). done.
Qed.

Context (a : Z) (b : Blk) (al : bool) (Ha : B !! a = Some b) (Hu : b_state b = BUsed al) (Hne : a <> end_node p n).

Lemma check_used_wp Q : Q LOS_OK s -> wp (OsMemCheckUsedNode p a) Q s.
Proof using All.
  intros HQ. pose proof (pl_inv _ _ _ _ HP) as HI. pose proof (pi_layout _ _ _ _ HI) as HL. destruct (blk_range _ _ HL _ _ Ha) as (_ & _ & ? & _).
  destruct (pi_hdr _ _ _ _ HI _ _ Ha) as [Hp Hw]. destruct (pi_info _ _ _ _ HI) as [_ Hn]. destruct (ly_next _ _ _ HL _ _ Ha Hne) as (c & Hc & Hpc).
  destruct (pi_hdr _ _ _ _ HI _ _ Hc) as [Hcp _].
  unfold OsMemCheckUsedNode. apply wp_bind. eapply wp_ld; [done|]. rewrite (end_node_eq s HI). apply wp_bind. eapply node_valid_wp; [done|]. cbn [negb].
  apply wp_bind. eapply wp_ld; [done|]. rewrite used_flag_word, Hu by lia. cbn [negb].
  apply wp_bind. eapply (next_node_wp s HI); [done|]. apply wp_bind. eapply node_valid_wp; [done|]. cbn [negb].
  apply wp_bind. eapply wp_ld; [done|]. rewrite Hpc, Z.eqb_refl. cbn [negb]. change (OS_MEM_FIRST_NODE p) with (first_node p).
  destruct (Z.eqb_spec a (first_node p)) as [|Hnf]; [by apply wp_ret|].
  destruct (ly_prev _ _ _ HL _ _ Ha Hnf) as (_ & q & Hq & Eq). apply wp_bind. eapply wp_ld; [done|].
  apply wp_bind. eapply node_valid_wp; [done|]. cbn [negb]. apply wp_bind. eapply (next_node_wp s HI); [done|]. rewrite Eq, Z.eqb_refl. by apply wp_ret.
Qed.

Abbreviation lo := (free_lo B a b).
Abbreviation hi := (free_hi B a b).

Lemma free_lo_spec : (lo = a /\ ∀ q bq, B !! q = Some bq -> q <> end_node p n -> q + b_size bq = a -> b_state bq <> BFree) \/
  (∃ bq, lo = b_prev b /\ B !! b_prev b = Some bq /\ b_state bq = BFree /\ b_prev b + b_size bq = a /\
     ∀ q bq', B !! q = Some bq' -> q <> end_node p n -> q + b_size bq' = b_prev b -> b_state bq' <> BFree).
Proof using HP Ha.
  pose proof (pi_layout _ _ _ _ (pl_inv _ _ _ _ HP)) as HL. unfold free_lo.
  assert (Hpq : ∀ q bq, B !! q = Some bq -> q <> end_node p n -> q + b_size bq = a -> q = b_prev b).
  { intros q bq Hq Hqe E. destruct (ly_next _ _ _ HL _ _ Hq Hqe) as (b' & Hb' & <-). rewrite E in Hb'. congruence. }
  destruct (B !! b_prev b) as [bq|] eqn:Hq.
  - case_decide as Hf.
    + right. exists bq. split_and!; try done.
      * destruct (decide (a = first_node p)) as [E|Hnf].
        { destruct (ly_first _ _ _ HL) as (b' & Hb' & Hpe). assert (b' = b) as -> by congruence. rewrite Hpe in Hq.
          by destruct (free_not_end _ _ HL _ _ Hq Hf). }
        destruct (ly_prev _ _ _ HL _ _ Ha Hnf) as (_ & q' & Hq' & E). assert (q' = bq) as -> by congruence. done.
      * intros q bq' Hq' Hqe E Hf'. eapply (pl_joined _ _ _ _ HP q bq' bq); try done. by rewrite E.
    + left. split; [done|]. intros q bq' Hq' Hqe E. pose proof (Hpq _ _ Hq' Hqe E) as ->. congruence.
  - left. split; [done|]. intros q bq' Hq' Hqe E. pose proof (Hpq _ _ Hq' Hqe E) as ->. congruence.
Qed.

Lemma free_hi_spec : ∃ c, B !! (a + b_size b) = Some c /\
  (hi = a + b_size b /\ b_state c <> BFree \/
   b_state c = BFree /\ hi = a + b_size b + b_size c /\ ∃ d, B !! hi = Some d /\ b_state d <> BFree).
Proof using HP Ha Hne.
  pose proof (pi_layout _ _ _ _ (pl_inv _ _ _ _ HP)) as HL. destruct (ly_next _ _ _ HL _ _ Ha Hne) as (c & Hc & _). exists c. split; [done|].
  unfold free_hi. rewrite Hc. case_decide as Hf; [|by left]. right. split_and!; try done.
  destruct (ly_next _ _ _ HL _ _ Hc (free_not_end _ _ HL _ _ Hc Hf)) as (d & Hd & _). exists d. split; [done|]. by eapply (pl_joined _ _ _ _ HP _ c).
Qed.

(** Between [lo] and [hi] there are [a] and free blocks. *)
Lemma free_between x d : B !! x = Some d -> lo <= x < hi -> x = a \/ b_state d = BFree.
Proof using HP Ha Hne.
  intros Hd Hx. pose proof (pi_layout _ _ _ _ (pl_inv _ _ _ _ HP)) as HL. destruct free_hi_spec as (c & Hc & Hhi).
  destruct (decide (x = a)); [by left|right]. pose proof (ly_apart _ _ _ HL _ _ _ _ Ha Hd). pose proof (ly_apart _ _ _ HL _ _ _ _ Hc Hd).
  destruct (decide (x < a)) as [Hlt|].
  - destruct free_lo_spec as [[E _]|(bq & E & Hq & Hf & Eq & _)]; [lia|]. destruct (decide (x = b_prev b)) as [->|]; [congruence|].
    pose proof (ly_apart _ _ _ HL _ _ _ _ Hq Hd). lia.
  - destruct Hhi as [[E _]|(Hf & E & _)]; [lia|]. destruct (decide (x = a + b_size b)) as [->|]; [congruence|]. lia.
Qed.

Lemma free_order : lo <= a < hi /\ a + b_size b <= hi.
Proof using HP Ha Hne.
  pose proof (pi_layout _ _ _ _ (pl_inv _ _ _ _ HP)) as HL. destruct (ly_blk _ _ _ HL _ _ Ha Hne) as (_ & ? & _).
  destruct free_hi_spec as (c & Hc & Hhi). destruct (blk_range _ _ HL _ _ Hc) as (_ & _ & ? & _).
  destruct free_lo_spec as [[E _]|(bq & E & Hq & Hf & Eq & _)]; [|destruct (blk_range _ _ HL _ _ Hq) as (_ & _ & ? & _)]; lia.
Qed.

Section result.
Context {B' : gmap Z Blk} (Hsp : Span B B' lo hi BFree).

Lemma freed_settled x d : B' !! x = Some d -> b_state d <> BOut.
Proof using All.
  intros Hd. destruct (decide (x < lo \/ hi < x)) as [Hx|Hx].
  { rewrite (sn_out _ _ _ _ _ Hsp) in Hd by done. by eapply (pl_settled _ _ _ _ HP). }
  destruct (decide (x = lo)) as [->|]; [destruct (sn_at _ _ _ _ _ Hsp) as (b0 & _ & E); rewrite E in Hd; by injection Hd as <-|].
  destruct (decide (x = hi)) as [->|]; [|rewrite (sn_in _ _ _ _ _ Hsp) in Hd by lia; done].
  destruct (sn_hi _ _ _ _ _ Hsp) as (c & Hc & E). rewrite E in Hd. injection Hd as <-. by eapply (pl_settled _ _ _ _ HP hi c).
Qed.

Lemma freed_joined x d e : B' !! x = Some d -> b_state d = BFree -> B' !! (x + b_size d) = Some e -> b_state e <> BFree.
Proof using All.
  intros Hd Hf He. pose proof (pi_layout _ _ _ _ (pl_inv _ _ _ _ HP)) as HL. destruct free_order as [Ho1 Ho2].
  destruct (sn_hi _ _ _ _ _ Hsp) as (c & Hc & Ec). assert (Hcn : b_state c <> BFree).
  { destruct free_hi_spec as (c' & Hc' & [[E Hn]|(Hf' & E & dd & Hdd & Hn)]); [|congruence]. rewrite E in Hc. congruence. }
  destruct (sn_at _ _ _ _ _ Hsp) as (b0 & Hb0 & E0).
  destruct (decide (x = lo)) as [->|Hxl].
  { rewrite E0 in Hd. injection Hd as <-. cbn in He. replace (lo + (hi - lo)) with hi in He by lia. rewrite Ec in He. injection He as <-. done. }
  destruct (decide (x = hi)) as [->|Hxh]; [rewrite Ec in Hd; by injection Hd as <-|].
  destruct (decide (lo < x < hi)); [rewrite (sn_in _ _ _ _ _ Hsp) in Hd by lia; done|].
  rewrite (sn_out _ _ _ _ _ Hsp) in Hd by lia. pose proof (free_not_end _ _ HL _ _ Hd Hf) as Hxe.
  destruct (ly_next _ _ _ HL _ _ Hd Hxe) as (y & Hy & _). pose proof (pl_joined _ _ _ _ HP _ _ _ Hd Hf Hy) as Hj.
  destruct (decide (x + b_size d = lo)) as [E|].
  { destruct free_lo_spec as [[El Hn]|(bq & El & _ & _ & _ & Hn)]; by destruct (Hn x d Hd Hxe ltac:(congruence)). }
  destruct (decide (x + b_size d = hi)) as [E|]; [rewrite E, Ec in He; injection He as <-; done|].
  destruct (decide (lo < x + b_size d < hi)); [rewrite (sn_in _ _ _ _ _ Hsp) in He by lia; done|].
  rewrite (sn_out _ _ _ _ _ Hsp) in He by lia. congruence.
Qed.

Lemma freed_live x : live B' x = if decide (x = a + 8) then None else live B x.
Proof using All.
  destruct free_order as [Ho1 Ho2]. unfold live. destruct (decide (x - 8 < lo \/ hi < x - 8)).
  { rewrite (sn_out _ _ _ _ _ Hsp) by done. rewrite decide_False by lia. done. }
  destruct (decide (x - 8 = hi)) as [E|].
  { destruct (sn_hi _ _ _ _ _ Hsp) as (c & Hc & Ec). rewrite decide_False by lia. by rewrite E, Hc, Ec. }
  assert (Hn : match B' !! (x - 8) with Some b0 => match b_state b0 with BUsed _ => if b_size b0 =? 0 then None else Some (b_size b0 - 8) | _ => None end | None => None end = None).
  { destruct (decide (x - 8 = lo)) as [E|]; [destruct (sn_at _ _ _ _ _ Hsp) as (b0 & _ & E0); by rewrite E, E0|]. by rewrite (sn_in _ _ _ _ _ Hsp) by lia. }
  rewrite Hn. case_decide; [done|]. destruct (B !! (x - 8)) as [d|] eqn:Hd; [|done].
  destruct (free_between _ _ Hd ltac:(lia)) as [|Hf]; [lia|]. by rewrite Hf.
Qed.

Lemma freed_used : used_kept B B' a.
Proof using All.
  intros x d al' Hx Hd Hs. destruct (decide (x < lo \/ hi < x)); [rewrite (sn_out _ _ _ _ _ Hsp) by done; eauto|].
  destruct (decide (x = hi)) as [->|]; [|by destruct (free_between _ _ Hd ltac:(lia)) as [|Hf]; [|congruence]].
  destruct (sn_hi _ _ _ _ _ Hsp) as (c & Hc & Ec). assert (c = d) as -> by congruence. eauto.
Qed.
End result.
End free.

Section free_op.
Context {p n : Z} {B : gmap Z Blk} {s : Heap} (HP : Pool p n B s).
Context (a : Z) (b : Blk) (al : bool) (Ha : B !! a = Some b) (Hu : b_state b = BUsed al) (Hne : a <> end_node p n).
Abbreviation lo := (free_lo B a b).
Abbreviation hi := (free_hi B a b).

(** What is kept: not the payload of the freed block. *)
Definition kept_but (x : Z) : Prop := kept p n B x /\ ~ payload a b x.

Lemma kept_but_outside x : kept_but x -> ~ lo <= x < hi.
Proof using HP Ha Hne.
  intros [Hk Hp] Hx. pose proof (pi_layout _ _ _ _ (pl_inv _ _ _ _ HP)) as HL. destruct (ly_pool _ _ _ HL) as [[? ?] ? _].
  destruct (free_order HP a b Ha Hne) as [Ho1 Ho2].
  assert (Hlo : ∃ d, B !! lo = Some d) by (destruct (free_lo_spec HP a b Ha) as [[E _]|(bq & E & Hq & _)]; rewrite E; eauto).
  assert (Hhi : ∃ d, B !! hi = Some d) by (destruct (free_hi_spec HP a b Ha Hne) as (c & Hc & [[E _]|(_ & _ & d & Hd & _)]); [rewrite E|]; eauto).
  destruct Hlo as [dl Hdl]. destruct Hhi as [dh Hdh]. destruct (blk_range _ _ HL _ _ Hdl) as (? & _). destruct (blk_range _ _ HL _ _ Hdh) as (? & _).
  destruct Hk as [?|[?|[?|(u & d & Hd & Hs & Hpx)]]]; offsets; try lia. unfold payload in *.
  pose proof (ly_apart _ _ _ HL _ _ _ _ Hd Hdl). destruct (decide (u < lo)); [lia|]. destruct (decide (hi <= u)); [lia|].
  destruct (free_between HP a b Ha Hne _ _ Hd ltac:(lia)) as [->|]; [|done]. assert (d = b) as -> by congruence. lia.
Qed.

Context {s1 : Heap}.

Lemma free_prev_wp s2 B1 (k : Z -> M Heap Z) Q :
  Steps kept_but p n s1 B1 s2 -> Span B B1 a (a + b_size b) BOut -> weigh used_size B1 = weigh used_size B - b_size b ->
  (∀ s3 B2, Steps kept_but p n s1 B2 s3 -> Span B B2 lo (a + b_size b) BOut -> weigh used_size B2 = weigh used_size B - b_size b -> wp (k lo) Q s3) ->
  wp (let* preNode := ld (ptr_prev a) in
      let* merge :=
        if preNode =? 0 then mret false
        else let* w := ld (sizeAndFlag preNode) in mret (negb (OS_MEM_NODE_GET_USED_FLAG w)) in
      when (merge : bool) (OsMemFreeNodeDelete p preNode ;;; OsMemMergeNode a) ;;;
      k (if (merge : bool) then preNode else a)) Q s2.
Proof using HP Ha Hne.
  intros HS2 Hsp Hw HQ. pose proof (pi_layout _ _ _ _ (pl_inv _ _ _ _ HP)) as HL. destruct (ly_pool _ _ _ HL) as [[? ?] ? _].
  destruct (ly_blk _ _ _ HL _ _ Ha Hne) as (_ & ? & _). pose proof (ss_inv _ _ _ _ _ _ HS2) as HI2.
  destruct (sn_at _ _ _ _ _ Hsp) as (b' & Hb' & Hat). assert (b' = b) as -> by congruence. destruct (pi_hdr _ _ _ _ HI2 _ _ Hat) as [Hp _]. cbn in Hp.
  apply wp_bind. eapply wp_ld; [done|]. pose proof (prev_valid s (pl_inv _ _ _ _ HP) _ _ Ha) as Hpv. destruct (Z.eqb_spec (b_prev b) 0); [lia|].
  assert (Hpre : ∃ q q', B !! b_prev b = Some q /\ B1 !! b_prev b = Some q' /\ b_state q' = b_state q /\ b_prev b <> a).
  { destruct (decide (a = first_node p)) as [E|Hnf].
    - destruct (ly_first _ _ _ HL) as (b0 & Hb0 & He). rewrite <- E in Hb0. assert (b0 = b) as -> by congruence. rewrite He. destruct (ly_end _ _ _ HL) as [l Hl].
      destruct (decide (end_node p n = a + b_size b)) as [E'|].
      + destruct (sn_hi _ _ _ _ _ Hsp) as (c & Hc & Hc'). rewrite <- E' in Hc, Hc'. exists c, (with_prev a c). split_and!; done.
      + exists (mk_Blk l 0 (BUsed false)), (mk_Blk l 0 (BUsed false)). split_and!; [done| |done|done]. rewrite (sn_out _ _ _ _ _ Hsp); [done|].
        destruct (blk_range _ _ HL _ _ Ha) as (? & _). destruct (ly_blk _ _ _ HL _ _ Ha Hne) as (_ & _ & ? & _). lia.
    - destruct (ly_prev _ _ _ HL _ _ Ha Hnf) as (Hqe & q & Hq & Eq). destruct (ly_blk _ _ _ HL _ _ Hq Hqe) as (_ & ? & _). exists q, q. split_and!; [done| |done|lia].
      rewrite (sn_out _ _ _ _ _ Hsp) by lia. done. }
  destruct Hpre as (q & q' & Hq & Hq' & Hqs & Hpa). destruct (pi_hdr _ _ _ _ HI2 _ _ Hq') as [_ Hqw]. destruct (blk_range _ _ (pi_layout _ _ _ _ HI2) _ _ Hq') as (_ & _ & ? & _).
  apply wp_bind, wp_bind. eapply wp_ld; [done|]. apply wp_ret. rewrite used_flag_word, Hqs by lia.
  pose proof (pl_settled _ _ _ _ HP _ _ Hq) as Hset.
  destruct (free_lo_spec HP a b Ha) as [[E Hno]|(bq & E & Hbq & Hf & Eq & _)].
  - assert (Hqf : b_state q <> BFree).
    { intros Hf. pose proof (free_not_end _ _ HL _ _ Hq Hf) as Hqe. destruct (decide (a = first_node p)) as [Ef|Hnf].
      - destruct (ly_first _ _ _ HL) as (b0 & Hb0 & He). rewrite <- Ef in Hb0. congruence.
      - destruct (ly_prev _ _ _ HL _ _ Ha Hnf) as (_ & q2 & Hq2 & Eq2). assert (q2 = q) as -> by congruence. by apply (Hno _ _ Hq Hqe Eq2). }
    destruct (b_state q); try done. cbn. apply wp_bind, wp_ret. rewrite E in HQ. by eapply HQ.
  - assert (bq = q) as -> by congruence. rewrite Hf. cbn. apply wp_bind. eapply wp_mono; [eapply (join_prev_wp HL HS2 _ _ Hsp); try done; lia|].
    intros [] s3 (B2 & HS3 & Hsp3 & Hw3). rewrite E in HQ. eapply HQ; [done|done|congruence].
Qed.

Lemma free_next_wp s2 B1 (k : Z -> M Heap Z) Q :
  Steps kept_but p n s1 B1 s2 -> Span B B1 lo (a + b_size b) BOut -> weigh used_size B1 = weigh used_size B - b_size b ->
  (∀ s3 B2, Steps kept_but p n s1 B2 s3 -> Span B B2 lo hi BOut -> weigh used_size B2 = weigh used_size B - b_size b -> wp (k lo) Q s3) ->
  wp (let* nextNode := OS_MEM_NEXT_NODE lo in
      let* merge :=
        if nextNode =? 0 then mret false
        else let* w := ld (sizeAndFlag nextNode) in mret (negb (OS_MEM_NODE_GET_USED_FLAG w)) in
      when (merge : bool) (OsMemFreeNodeDelete p nextNode ;;; OsMemMergeNode nextNode) ;;; k lo) Q s2.
Proof using HP Ha Hne.
  intros HS2 Hsp Hw HQ. pose proof (pi_layout _ _ _ _ (pl_inv _ _ _ _ HP)) as HL. destruct (ly_pool _ _ _ HL) as [[? ?] ? _].
  destruct (ly_blk _ _ _ HL _ _ Ha Hne) as (? & ? & _). pose proof (ss_inv _ _ _ _ _ _ HS2) as HI2. destruct (free_order HP a b Ha Hne) as [Ho _].
  destruct (sn_at _ _ _ _ _ Hsp) as (b' & Hb' & H1'). apply wp_bind. eapply (next_node_wp s2 HI2); [done|]. cbn.
  replace (lo + (a + b_size b - lo)) with (a + b_size b) by lia. destruct (Z.eqb_spec (a + b_size b) 0); [offsets; lia|].
  destruct (sn_hi _ _ _ _ _ Hsp) as (c & Hc & Hc'). destruct (pi_hdr _ _ _ _ HI2 _ _ Hc') as [_ Hcw]. destruct (blk_range _ _ (pi_layout _ _ _ _ HI2) _ _ Hc') as (_ & _ & ? & _).
  apply wp_bind, wp_bind. eapply wp_ld; [done|]. apply wp_ret. rewrite used_flag_word by lia. cbn. pose proof (pl_settled _ _ _ _ HP _ _ Hc) as Hset.
  destruct (free_hi_spec HP a b Ha Hne) as (c0 & Hc0 & Hhi). assert (c0 = c) as -> by congruence. destruct Hhi as [[E Hcn]|(Hf & E & _)].
  - destruct (b_state c); try done. cbn. apply wp_bind, wp_ret. rewrite E in HQ. by eapply HQ.
  - rewrite Hf. cbn. apply wp_bind. eapply wp_mono; [eapply (join_next_wp HL HS2 _ _ Hsp ltac:(lia)); done|].
    intros [] s3 (B2 & HS3 & Hsp3 & Hw3). rewrite E in HQ. eapply HQ; [done|done|congruence].
Qed.
End free_op.

(** The end of [OsMemFree], after the block has joined the one before it. *)
Definition free_tail (pool node : Z) : M Heap Z :=
  let* nextNode := OS_MEM_NEXT_NODE node in
  let* merge :=
    if nextNode =? 0 then mret false
    else let* w := ld (sizeAndFlag nextNode) in mret (negb (OS_MEM_NODE_GET_USED_FLAG w)) in
  when (merge : bool) (OsMemFreeNodeDelete pool nextNode ;;; OsMemMergeNode nextNode) ;;;
  OsMemFreeNodeAdd pool node ;;;
  mret LOS_OK.

(** [OsMemFree] of a used block. *)
Lemma free_wp p n B s a b al Q : Pool p n B s -> B !! a = Some b -> b_state b = BUsed al -> a <> end_node p n ->
  (∀ s' B', Pool p n B' s' -> Span B B' (free_lo B a b) (free_hi B a b) BFree -> g_poolHead s' = g_poolHead s ->
     (∀ x, kept p n B x -> ~ payload a b x -> x <> info_curUsedSize p -> mem s' !! x = mem s !! x) -> Q LOS_OK s') ->
  wp (OsMemFree p a) Q s.
Proof.
  intros HP Ha Hu Hne HQ. pose proof (pl_inv _ _ _ _ HP) as HI. pose proof (pi_layout _ _ _ _ HI) as HL.
  destruct (blk_range _ _ HL _ _ Ha) as (_ & _ & ? & _). destruct (pi_hdr _ _ _ _ HI _ _ Ha) as [_ Hw]. pose proof (used_bound HL) as Hub.
  pose proof (pl_used _ _ _ _ HP) as Hcur. destruct (pl_water _ _ _ _ HP) as (w & Hwl & Hwn). destruct (ly_pool _ _ _ HL) as [[? ?] ? _].
  assert (Hsum : weigh used_size (<[a := with_state BOut b]> B) = weigh used_size B - b_size b).
  { rewrite (weigh_update _ _ _ _ _ Ha). unfold used_size. rewrite Hu. cbn. lia. }
  assert (Hle : b_size b <= weigh used_size B).
  { assert (HL1 : Layout p n (<[a := with_state BOut b]> B)) by by apply Layout_state. pose proof (used_bound HL1). lia. }
  unfold OsMemFree. apply wp_bind. eapply (check_used_wp HP); [done..|]. rewrite Z.eqb_refl. cbn [negb].
  apply wp_bind. eapply wp_ld; [done|]. apply wp_bind. eapply wp_ld; [done|]. rewrite get_size_word by lia. rewrite u32_id by lia.
  apply wp_bind, wp_st; [by rewrite Hcur|]. set (s1 := set_mem _ s).
  assert (HI1 : PoolInv p n B (mem s1)) by (apply info_word_inv; auto).
  assert (HS1 : Steps (kept_but (p := p) (n := n) (B := B) a b) p n s1 B s1) by (apply Steps_refl; [done|]; by intros x [Hx _]).
  apply wp_bind. eapply wp_mono; [eapply (flag_steps HS1 a b BOut); try done; by rewrite Hu|]. intros [] s2 HS2.
  eapply (free_prev_wp HP a b Ha Hne s2 (<[a := with_state BOut b]> B) (free_tail p)); [done|by apply (span_init HL)|done|]. intros s3 B3 HS3 Hsp3 Hw3.
  eapply (free_next_wp HP a b Ha Hne s3 B3 (λ node, OsMemFreeNodeAdd p node ;;; mret LOS_OK)); [done|done|done|]. intros s4 B4 HS4 Hsp4 Hw4.
  destruct (free_order HP a b Ha Hne) as [Ho1 Ho2]. destruct (sn_at _ _ _ _ _ Hsp4) as (b0 & Hb0 & H4).
  apply wp_bind. eapply wp_mono; [eapply (node_add_steps HS4); try done|].
  { intros x Hx Hpx. unfold payload in Hpx. cbn in Hpx. apply (kept_but_outside HP a b Ha Hne x Hx). lia. }
  intros [] s5 HS5. apply wp_ret.
  set (bl := mk_Blk (b_prev b0) (free_hi B a b - free_lo B a b) BOut) in *. set (B5 := <[free_lo B a b := with_state BFree bl]> B4) in *.
  assert (Hsp5 : Span B B5 (free_lo B a b) (free_hi B a b) BFree) by (eapply span_state; [done|done|lia]).
  assert (Hw5 : weigh used_size B5 = weigh used_size B - b_size b) by (unfold B5; rewrite (weigh_update _ _ _ _ _ H4); unfold used_size; cbn; unfold used_size in Hw4; rewrite Hw4; lia).
  assert (Hkp : ∀ x, kept p n B x -> ~ payload a b x -> x <> info_curUsedSize p -> mem s5 !! x = mem s !! x).
  { intros x Hx Hpx Hxc. rewrite (ss_keep _ _ _ _ _ _ HS5 x) by done. unfold s1. cbn. by rewrite lookup_insert_ne. }
  assert (Hinfo : ∀ x, p <= x < p + 20 -> mem s5 !! x = mem s1 !! x).
  { intros x Hx. apply (ss_keep _ _ _ _ _ _ HS5). split; [left; lia|]. pose proof (head_below _ _ _ _ _ HL Ha). unfold payload. lia. }
  apply (HQ s5 B5); try done; [|rewrite (ss_head _ _ _ _ _ _ HS5); done].
  split; [apply HS5|by apply (freed_settled HP a b al Ha Hu Hne Hsp5)|by apply (freed_joined HP a b al Ha Hu Hne Hsp5)| |].
  - rewrite Hinfo by (offsets; lia). unfold s1. cbn. look. f_equal. lia.
  - exists w. rewrite Hinfo by (offsets; lia). unfold s1. cbn. look. split; [done|lia].
Qed.
