(* ===== verification/MemApi.v ===== *)
(** Correctness of the dynamic allocator, part 5: the interface, against a map
    of live regions. *)

From S2P Require Import Prelude Errno Membox Memory MemInv MemBlocks MemWalk MemAlloc.

(** ** Live regions *)

Section regions.
Context {p n : Z} {B : gmap Z Blk} {s : Heap} (HP : Pool p n B s).

Lemma live_blk ptr len : live B ptr = Some len ->
  ∃ b al, B !! (ptr - 8) = Some b /\ b_state b = BUsed al /\ b_size b = len + 8 /\ ptr - 8 <> end_node p n.
Proof using HP.
  intros (b & al & Hb & Hs & Hz & ->)%live_Some. exists b, al. split_and!; [done|done|lia|]. intros E. rewrite E in Hb.
  destruct (ly_end _ _ _ (pi_layout _ _ _ _ (pl_inv _ _ _ _ HP))) as [l Hl]. rewrite Hl in Hb. by injection Hb as <-.
Qed.

(** A live region is a word-aligned part of the pool of at least 8 bytes. *)
Lemma live_range ptr len : live B ptr = Some len -> p + 952 <= ptr /\ ptr + len + 8 <= p + n /\ 8 <= len /\ (4 | ptr) /\ (4 | len).
Proof using HP.
  intros (b & al & Hb & Hs & Hz & Hne)%live_blk. pose proof (pi_layout _ _ _ _ (pl_inv _ _ _ _ HP)) as HL.
  destruct (ly_blk _ _ _ HL _ _ Hb Hne) as (? & ? & ? & H4 & H4'). offsets. split_and!; try lia.
  - replace ptr with (ptr - 8 + 8) by lia. apply Z.divide_add_r; [done|by exists 2].
  - replace len with (b_size b - 8) by lia. apply Z.divide_sub_r; [done|by exists 2].
Qed.

(** Two live regions are apart. *)
Lemma live_apart ptr len ptr' len' : live B ptr = Some len -> live B ptr' = Some len' -> ptr = ptr' \/ ptr + len + 8 <= ptr' \/ ptr' + len' + 8 <= ptr.
Proof using HP.
  intros (b & al & Hb & _ & Hz & _)%live_blk (b' & al' & Hb' & _ & Hz' & _)%live_blk. pose proof (pi_layout _ _ _ _ (pl_inv _ _ _ _ HP)) as HL.
  pose proof (ly_apart _ _ _ HL _ _ _ _ Hb Hb'). pose proof (ly_apart _ _ _ HL _ _ _ _ Hb' Hb). lia.
Qed.
End regions.

Lemma flags_small size : 0 <= size < 2 ^ 32 ->
  OS_MEM_NODE_GET_USED_FLAG size || OS_MEM_NODE_GET_ALIGNED_FLAG size = (2 ^ 30 <=? size).
Proof.
  intros Hs. unfold OS_MEM_NODE_GET_USED_FLAG, OS_MEM_NODE_GET_ALIGNED_FLAG, OS_MEM_NODE_USED_FLAG, OS_MEM_NODE_ALIGNED_FLAG. bits.
  destruct (Z.leb_spec (2 ^ 30) size).
  - assert (Z.log2 size = 30 \/ Z.log2 size = 31) as [E|E].
    { pose proof (log2_range size 30 32). lia. }
    + rewrite <- E, Z.bit_log2, orb_true_r by lia. done.
    + rewrite <- E, Z.bit_log2 by lia. done.
  - by rewrite !size_bit by lia.
Qed.

(** ** Pointers of the clients *)

(** [is_handle B W ptr a b]: [ptr] is the pointer the user has of the used block
    [a]: the address after its header or, for an aligned allocation, a later
    address with the distance in the word before it. *)
Definition is_handle (B : gmap Z Blk) (W : gmap Z Z) (ptr a : Z) (b : Blk) : Prop :=
  B !! a = Some b /\
  (b_state b = BUsed false /\ b_size b <> 0 /\ ptr = a + 8 \/
   b_state b = BUsed true /\ (4 | ptr) /\ a + 8 < ptr < a + b_size b /\
     W !! (ptr - 4) = Some (setf OS_MEM_GAPSIZE_ALIGNED_FLAG (ptr - (a + 8)))).

(** ** [LOS_MemAlloc] *)

Definition request (size : Z) : Z := if size <? 8 then 8 else size.

Lemma request_spec size : 0 < size -> 8 <= request size /\ size <= request size.
Proof. intros H. unfold request. destruct (Z.ltb_spec size 8); lia. Qed.

Lemma mem_alloc_wp p n B s size Q : Pool p n B s -> 0 <= size < 2 ^ 32 ->
  (size = 0 \/ 2 ^ 30 <= size \/ (∀ c d, B !! c = Some d -> b_state d = BFree -> b_size d < block_size (request size)) -> Q 0 s) ->
  (∀ a b c s', B !! a = Some b -> b_state b = BFree -> B !! (a + b_size b) = Some c -> 0 < size < 2 ^ 30 -> block_size (request size) <= b_size b ->
     Pool p n (allocated a (block_size (request size)) b c B) s' -> g_poolHead s' = g_poolHead s ->
     (∀ x, kept p n B x -> x <> info_curUsedSize p -> x <> info_waterLine p -> mem s' !! x = mem s !! x) -> Q (a + 8) s') ->
  wp (LOS_MemAlloc p size) Q s.
Proof.
  intros HP Hs Hnull HQ. destruct (ly_pool _ _ _ (pi_layout _ _ _ _ (pl_inv _ _ _ _ HP))) as [[? ?] ? _].
  unfold LOS_MemAlloc, OS_MEM_MIN_ALLOC_SIZE. destruct (Z.eqb_spec p 0); [lia|]. cbn [orb].
  destruct (Z.eqb_spec size 0); [apply wp_ret, Hnull; by left|]. fold (request size).
  assert (Hr : 2 ^ 30 <= request size -> 2 ^ 30 <= size) by (unfold request; destruct (Z.ltb_spec size 8); lia).
  pose proof (request_spec size ltac:(lia)). assert (request size < 2 ^ 32) by (unfold request; destruct (Z.ltb_spec size 8); lia).
  rewrite flags_small by lia. destruct (Z.leb_spec (2 ^ 30) (request size)); [apply wp_ret, Hnull; tauto|].
  apply (alloc_wp p n B); [done|lia|auto|]. intros a b c s' Ha Hf Hc Hk HP' Hg Hkp. apply (HQ a b c); try done. lia.
Qed.

(** What a successful allocation of [ptr] does: a new region, apart from the
    live ones, and nothing else. *)
Record Allocated (p n : Z) (B : gmap Z Blk) (s : Heap) (ptr len : Z) (B' : gmap Z Blk) (s' : Heap) : Prop := {
  al_pool : Pool p n B' s';
  al_new : ∀ q l, live B q = Some l -> ptr + len <= q \/ q + l <= ptr;
  al_live : ∀ x, live B' x = if decide (x = ptr) then Some len else live B x;
  al_used : used_kept B B' (ptr - 8);
  al_keep : ∀ x, owned p n B x -> mem s' !! x = mem s !! x;
  al_head : g_poolHead s' = g_poolHead s;
}.

Lemma allocated_region p n B s a k b c s' : Pool p n B s -> B !! a = Some b -> b_state b = BFree -> B !! (a + b_size b) = Some c -> 16 <= k <= b_size b -> (4 | k) ->
  Pool p n (allocated a k b c B) s' -> g_poolHead s' = g_poolHead s ->
  (∀ x, kept p n B x -> x <> info_curUsedSize p -> x <> info_waterLine p -> mem s' !! x = mem s !! x) ->
  ∃ len, k - 8 <= len <= b_size b - 8 /\ Allocated p n B s (a + 8) len (allocated a k b c B) s'.
Proof.
  intros HP Ha Hf Hc Hk Hk4 HP' Hg Hkp. pose proof (allocated_live HP a k b c Ha Hf Hc Hk) as Hl.
  exists ((if decide (k + 16 <= b_size b) then k else b_size b) - 8). split; [case_decide; lia|]. split; [done| |exact Hl| | |done].
  - intros q l Hq. assert (Hq' : live (allocated a k b c B) q = Some l).
    { rewrite Hl. destruct (decide (q = a + 8)) as [->|]; [|done]. by rewrite (live_free B a b) in Hq. }
    pose proof (Hl (a + 8)) as Hn. rewrite (decide_True (P := a + 8 = a + 8)) in Hn by done.
    destruct (live_apart HP' _ _ _ _ Hn Hq') as [E|[?|?]]; [|lia..]. subst q. by rewrite (live_free B a b) in Hq.
  - replace (a + 8 - 8) with a by lia. by eapply (allocated_used HP).
  - intros x Hx. destruct (owned_kept p n B x (pi_layout _ _ _ _ (pl_inv _ _ _ _ HP)) Hx) as (? & ? & ?). by apply Hkp.
Qed.

Lemma mem_alloc_region_wp p n B s size Q : Pool p n B s -> 0 <= size < 2 ^ 32 ->
  (size = 0 \/ 2 ^ 30 <= size \/ (∀ c d, B !! c = Some d -> b_state d = BFree -> b_size d < block_size (request size)) -> Q 0 s) ->
  (∀ ptr B' b s', is_handle B' (mem s') ptr (ptr - 8) b -> size <= b_size b - 8 -> Allocated p n B s ptr (b_size b - 8) B' s' -> Q ptr s') ->
  wp (LOS_MemAlloc p size) Q s.
Proof.
  intros HP Hs Hnull HQ. apply (mem_alloc_wp p n B); [done|done|auto|]. intros a b c s' Ha Hf Hc Hsz Hk HP' Hg Hkp.
  destruct (request_spec size ltac:(lia)) as [Hr1 Hr2].
  assert (Hr : request size < 2 ^ 30) by (unfold request in *; destruct (Z.ltb_spec size 8); lia).
  destruct (block_size_spec (request size) ltac:(lia)) as [Hb1 Hb4].
  destruct (allocated_region p n B s a (block_size (request size)) b c s') as (len & Hlen & HA); try done; [lia|].
  destruct (allocated_at HP a (block_size (request size)) b c Ha Hf Hc ltac:(lia) Hb4) as (d & Hd & Hds & Hdk & _).
  pose proof (al_live _ _ _ _ _ _ _ _ HA (a + 8)) as Hl. rewrite decide_True in Hl by done. apply live_Some in Hl as (d' & al & Hd' & _ & _ & El). replace (a + 8 - 8) with a in * by lia.
  assert (d' = d) as -> by congruence. subst len. eapply (HQ (a + 8) _ d); [|lia|done]. replace (a + 8 - 8) with a by lia. split; [done|]. left. split_and!; [done|lia|done].
Qed.

(** C30: LOS_MemAlloc returns NULL, with nothing changed, only for size 0, for a size whose flag
    bits are set, or when no free block is long enough; otherwise it returns a region of at
    least the size asked for, apart from all live regions, whose words and whose blocks it
    leaves alone, and the pool stays well formed. *)
Theorem mem_alloc_correct p n B s size : Pool p n B s -> 0 <= size < 2 ^ 32 ->
  wp (LOS_MemAlloc p size) (λ ptr s',
    ptr = 0 /\ s' = s /\
      (size = 0 \/ 2 ^ 30 <= size \/ ∀ c d, B !! c = Some d -> b_state d = BFree -> b_size d < block_size (request size)) \/
    ∃ B' b, is_handle B' (mem s') ptr (ptr - 8) b /\ size <= b_size b - 8 /\ Allocated p n B s ptr (b_size b - 8) B' s') s.
Proof. intros HP Hs. apply (mem_alloc_region_wp p n B); [done|done|tauto|]. intros. right. eauto. Qed.

(** ** [LOS_MemFree] *)

Lemma aligned4 x : (4 | x) -> OS_MEM_IS_ALIGNED x 4 = true.
Proof.
  intros [k ->]. unfold OS_MEM_IS_ALIGNED. change (u32 (4 - 1)) with (Z.ones 2). rewrite Z.land_ones by lia. change (2 ^ 2) with 4.
  by rewrite Z.mod_mul.
Qed.

Lemma gap_word g : 0 <= g < 2 ^ 30 -> let w := setf OS_MEM_GAPSIZE_ALIGNED_FLAG g in
  OS_MEM_GAPSIZE_CHECK w = false /\ OS_MEM_GET_GAPSIZE_ALIGNED_FLAG w = true /\ OS_MEM_GET_ALIGNED_GAPSIZE w = g.
Proof.
  intros Hg w. unfold w, OS_MEM_GAPSIZE_CHECK, OS_MEM_GET_GAPSIZE_ALIGNED_FLAG, OS_MEM_GET_ALIGNED_GAPSIZE, OS_MEM_GAPSIZE_ALIGNED_FLAG, OS_MEM_GAPSIZE_USED_FLAG.
  assert (H31 : Z.testbit g 31 = false) by (apply size_bit; lia). assert (H30 : Z.testbit g 30 = false) by (apply size_bit; lia).
  split_and!.
  - bits. by rewrite H31.
  - bits. done.
  - unfold clrf, setf. apply Z.bits_inj'. intros j Hj. rewrite Z.ldiff_spec, Z.lor_spec. change 0x40000000 with (2 ^ 30). rewrite Z.pow2_bits_eqb by lia.
    destruct (Z.eqb_spec 30 j) as [<-|]; [by rewrite H30|]. by rewrite orb_false_r, andb_true_r.
Qed.

Section handles.
Context {p n : Z} {B : gmap Z Blk} {s : Heap} (HP : Pool p n B s).

Lemma handle_facts ptr a b : is_handle B (mem s) ptr a b -> a <> end_node p n /\ (4 | ptr) /\ p + 952 <= ptr < p + n /\ a + 8 <= ptr /\ ∃ al, b_state b = BUsed al.
Proof using HP.
  intros [Ha Hh]. pose proof (pi_layout _ _ _ _ (pl_inv _ _ _ _ HP)) as HL. destruct (ly_end _ _ _ HL) as [l Hl].
  assert (Hne : a <> end_node p n).
  { intros ->. rewrite Hl in Ha. injection Ha as <-. destruct Hh as [(_ & ? & _)|(? & _)]; done. }
  destruct (ly_blk _ _ _ HL _ _ Ha Hne) as (? & ? & ? & H4 & _). offsets.
  destruct Hh as [(? & ? & ->)|(? & ? & ? & _)]; split_and!; eauto; try lia. apply Z.divide_add_r; [done|by exists 2].
Qed.

(** The pointer leads back to the block. *)
Lemma real_ptr_wp ptr a b Q : is_handle B (mem s) ptr a b -> Q (a + 8) s -> wp (OsGetRealPtr p ptr) Q s.
Proof using HP.
  intros Hh HQ. destruct (handle_facts _ _ _ Hh) as (Hne & H4 & Hr & Hle & _). destruct Hh as [Ha Hh].
  pose proof (pl_inv _ _ _ _ HP) as HI. pose proof (pi_layout _ _ _ _ HI) as HL. destruct (ly_pool _ _ _ HL) as [[? ?] ? _].
  destruct (ly_blk _ _ _ HL _ _ Ha Hne) as (? & ? & ? & Ha4 & _). destruct (blk_range _ _ HL _ _ Ha) as (_ & _ & ? & _).
  unfold OsGetRealPtr. destruct Hh as [(Hu & Hz & ->)|(Hu & _ & Hin & Hw)].
  - destruct (pi_hdr _ _ _ _ HI _ _ Ha) as [_ Hw]. replace (a + 8 - 4) with (sizeAndFlag a) by (offsets; lia). apply wp_bind. eapply wp_ld; [done|].
    unfold b_word. rewrite Hu. assert (H30 : Z.testbit (b_size b) 30 = false) by (apply size_bit; lia).
    unfold OS_MEM_GAPSIZE_CHECK, OS_MEM_GET_GAPSIZE_ALIGNED_FLAG, OS_MEM_GAPSIZE_ALIGNED_FLAG, OS_MEM_GAPSIZE_USED_FLAG, OS_MEM_NODE_USED_FLAG. bits. rewrite H30. cbn.
    by apply wp_ret.
  - apply wp_bind. eapply wp_ld; [done|]. destruct (gap_word (ptr - (a + 8))) as (-> & -> & ->); [offsets; lia|].
    assert (H4' : (4 | ptr - (a + 8))) by (apply Z.divide_sub_r; [done|]; apply Z.divide_add_r; [done|by exists 2]).
    apply aligned4 in H4'. unfold OS_MEM_IS_ALIGNED in H4'. unfold OS_MEM_ALIGN_SIZE. change (u32 (4 - 1)) with (4 - 1) in H4'. rewrite H4'. cbn [negb orb].
    unfold OS_MEM_NODE_HEAD_SIZE. rewrite (u32_id (ptr - 8 - p)) by (offsets; lia). destruct (Z.gtb_spec (ptr - (a + 8)) (ptr - 8 - p)); [offsets; lia|].
    apply wp_ret. rewrite u32_id by (offsets; lia). by replace (ptr - (ptr - (a + 8))) with (a + 8) by lia.
Qed.

Lemma mem_free_wp ptr a b Q : is_handle B (mem s) ptr a b ->
  (∀ s' B', Pool p n B' s' -> Span B B' (free_lo B a b) (free_hi B a b) BFree -> g_poolHead s' = g_poolHead s ->
     (∀ x, kept p n B x -> ~ payload a b x -> x <> info_curUsedSize p -> mem s' !! x = mem s !! x) -> Q LOS_OK s') ->
  wp (LOS_MemFree p ptr) Q s.
Proof using HP.
  intros Hh HQ. destruct (handle_facts _ _ _ Hh) as (Hne & H4 & Hr & Hle & al & Hu). pose proof (pi_layout _ _ _ _ (pl_inv _ _ _ _ HP)) as HL.
  destruct (ly_pool _ _ _ HL) as [[? ?] ? [Hp4 _]]. unfold LOS_MemFree. rewrite !aligned4 by done. destruct (Z.eqb_spec p 0); [lia|]. destruct (Z.eqb_spec ptr 0); [lia|].
  cbn [orb negb]. apply wp_bind. eapply real_ptr_wp; [done|]. destruct Hh as [Ha Hh].
  destruct (ly_blk _ _ _ HL _ _ Ha Hne) as (? & ? & ? & _). destruct (Z.eqb_spec (a + 8) 0); [offsets; lia|].
  unfold OS_MEM_NODE_HEAD_SIZE. replace (a + 8 - 8) with a by lia. rewrite u32_id by (offsets; lia).
  by eapply (free_wp p n B s a b al).
Qed.
End handles.

(** What the release of the block [a] does: its region is gone, and nothing
    else has changed. *)
Record Freed (p n : Z) (B : gmap Z Blk) (s : Heap) (a : Z) (b : Blk) (B' : gmap Z Blk) (s' : Heap) : Prop := {
  fr_pool : Pool p n B' s';
  fr_live : ∀ x, live B' x = if decide (x = a + 8) then None else live B x;
  fr_used : used_kept B B' a;
  fr_keep : ∀ x, owned p n B x -> ~ a + 8 <= x < a + b_size b -> mem s' !! x = mem s !! x;
  fr_head : g_poolHead s' = g_poolHead s;
}.

Lemma mem_freed_wp p n B s ptr a b Q : Pool p n B s -> is_handle B (mem s) ptr a b ->
  (∀ s' B', Freed p n B s a b B' s' -> Q LOS_OK s') -> wp (LOS_MemFree p ptr) Q s.
Proof.
  intros HP Hh HQ. destruct (handle_facts HP _ _ _ Hh) as (Hne & _ & _ & _ & al & Hu). eapply (mem_free_wp HP); [done|].
  intros s' B' HP' Hsp Hg Hkp. destruct Hh as [Ha _]. apply (HQ s' B'). split; [done| | | |done].
  - by apply (freed_live HP a b al Ha Hu Hne Hsp).
  - by apply (freed_used HP a b al Ha Hu Hne Hsp).
  - intros x Hx Hp. destruct (owned_kept p n B x (pi_layout _ _ _ _ (pl_inv _ _ _ _ HP)) Hx) as (? & ? & ?). by apply Hkp.
Qed.

(** C31: LOS_MemFree of a pointer obtained from an allocation, plain or aligned, succeeds, joins
    the block with its free neighbours, takes the region out of the live ones and leaves every
    other region and the memory outside the pool alone. *)
Theorem mem_free_correct p n B s ptr a b : Pool p n B s -> is_handle B (mem s) ptr a b ->
  wp (LOS_MemFree p ptr) (λ r s', r = LOS_OK /\ ∃ B', Freed p n B s a b B' s') s.
Proof. intros HP Hh. by eapply mem_freed_wp; eauto. Qed.

(** C37: LOS_MemFree of the address after the header of a free block, of a block of an aligned
    allocation or of the end node is refused and changes nothing; so a second release of a block
    that was not joined to its predecessor is refused. *)
Theorem mem_free_rejects p n B s a b : Pool p n B s -> B !! a = Some b ->
  b_state b = BFree \/ b_state b = BUsed true \/ a = end_node p n ->
  wp (LOS_MemFree p (a + 8)) (λ r s', r = LOS_NOK /\ s' = s) s.
Proof.
  intros HP Ha Hcase. pose proof (pl_inv _ _ _ _ HP) as HI. pose proof (pi_layout _ _ _ _ HI) as HL. destruct (ly_pool _ _ _ HL) as [[? ?] ? [Hp4 _]].
  destruct (blk_range _ _ HL _ _ Ha) as (Hr & Ha4 & Hsz & _). assert (H4 : (4 | a + 8)) by (apply Z.divide_add_r; [done|by exists 2]).
  unfold LOS_MemFree. rewrite !aligned4 by done. destruct (Z.eqb_spec p 0); [lia|]. destruct (Z.eqb_spec (a + 8) 0); [offsets; lia|]. cbn [orb negb].
  destruct (pi_hdr _ _ _ _ HI _ _ Ha) as [_ Hw]. unfold OsGetRealPtr. replace (a + 8 - 4) with (sizeAndFlag a) by (offsets; lia).
  apply wp_bind, wp_bind. eapply wp_ld; [done|]. assert (H30 : Z.testbit (b_size b) 30 = false) by (apply size_bit; lia).
  assert (H31 : Z.testbit (b_size b) 31 = false) by (apply size_bit; lia).
  unfold OS_MEM_GAPSIZE_CHECK, OS_MEM_GET_GAPSIZE_ALIGNED_FLAG, OS_MEM_GAPSIZE_ALIGNED_FLAG, OS_MEM_GAPSIZE_USED_FLAG. bits.
  destruct (decide (b_state b = BUsed true)) as [Hal|Hnal].
  { unfold b_word. rewrite Hal. unfold OS_MEM_NODE_USED_FLAG, OS_MEM_NODE_ALIGNED_FLAG. bits. apply wp_ret. cbn. by apply wp_ret. }
  assert (Hb30 : Z.testbit (b_word b) 30 = false).
  { unfold b_word. destruct (b_state b) as [| |[]]; try done. unfold OS_MEM_NODE_USED_FLAG. bits. apply size_bit; lia. }
  rewrite Hb30. cbn. apply wp_ret. destruct (Z.eqb_spec (a + 8) 0); [offsets; lia|]. unfold OS_MEM_NODE_HEAD_SIZE.
  replace (a + 8 - 8) with a by lia. rewrite u32_id by (offsets; lia). unfold OsMemFree, OsMemCheckUsedNode. apply wp_bind, wp_bind.
  destruct (pi_info _ _ _ _ HI) as [_ Hn]. eapply wp_ld; [done|]. rewrite (end_node_eq s HI). apply wp_bind. eapply (node_valid_wp HP); [done|]. cbn [negb].
  apply wp_bind. eapply wp_ld; [done|]. rewrite used_flag_word by lia. destruct Hcase as [Hf|[?|He]]; [|done|].
  { rewrite Hf. cbn. apply wp_ret. cbn. by apply wp_ret. }
  rewrite He in *. destruct (ly_end _ _ _ HL) as [l Hl]. assert (b = mk_Blk l 0 (BUsed false)) as -> by congruence. cbn [b_state negb].
  apply wp_bind. eapply (next_node_wp s HI); [done|]. cbn [b_size]. rewrite Z.add_0_r. apply wp_bind. eapply (node_valid_wp HP); [done|]. cbn [negb].
  destruct (pi_hdr _ _ _ _ HI _ _ Hl) as [Hpe _]. apply wp_bind. eapply wp_ld; [done|]. cbn [b_prev].
  assert (Hfe : end_node p n <> first_node p) by (offsets; lia). destruct (ly_prev _ _ _ HL _ _ Hl Hfe) as (Hle & _). cbn in Hle.
  destruct (Z.eqb_spec l (end_node p n)); [done|]. cbn. apply wp_ret. cbn. by apply wp_ret.
Qed.

(** ** Allocating and releasing again *)

Lemma realloc_span p n B s a k b c B' : Pool p n B s -> B !! a = Some b -> b_state b = BFree -> B !! (a + b_size b) = Some c -> 16 <= k <= b_size b ->
  ∀ d, allocated a k b c B !! a = Some d -> b_prev d = b_prev b ->
  Span (allocated a k b c B) B' (free_lo (allocated a k b c B) a d) (free_hi (allocated a k b c B) a d) BFree -> B' = B.
Proof.
  intros HP Ha Hf Hc Hk d Hd Hpd Hsp. pose proof (pi_layout _ _ _ _ (pl_inv _ _ _ _ HP)) as HL. pose proof (free_not_end _ _ HL _ _ Ha Hf) as Hne.
  destruct (next_used HP a b c Ha Hf Hc) as [al Hal]. destruct (ly_next _ _ _ HL _ _ Ha Hne) as (c' & Hc' & Hpc). assert (c' = c) as -> by congruence.
  pose proof (allocated_lookup a k b c Ha Hc Hk) as Hlk. set (B1 := allocated a k b c B) in *.
  assert (Hlo : free_lo B1 a d = a).
  { unfold free_lo. rewrite Hpd. destruct (B1 !! b_prev b) as [q|] eqn:Hq; [|done]. destruct (decide (b_state q = BFree)) as [Hqf|]; [exfalso|done].
    destruct (decide (a = first_node p)) as [E|Hnf].
    - destruct (ly_first _ _ _ HL) as (b0 & Hb0 & Hpe). rewrite <- E in Hb0. assert (b0 = b) as -> by congruence. destruct (ly_end _ _ _ HL) as [l Hl].
      rewrite Hpe in Hq. destruct (allocated_state a k b c Ha Hc Hk _ _ Hq ltac:(done)) as [(Hle & E' & _)|(d' & Hd' & Hs & _)];
        [|rewrite Hl in Hd'; injection Hd' as <-; cbn in Hs; congruence].
      by rewrite E', (alloc_fresh HP a k b Ha Hf Hk Hle) in Hl.
    - destruct (ly_prev _ _ _ HL _ _ Ha Hnf) as (Hqe & q' & Hq' & Eq). destruct (ly_blk _ _ _ HL _ _ Hq' Hqe) as (_ & ? & _).
      destruct (allocated_state a k b c Ha Hc Hk _ _ Hq ltac:(lia)) as [(_ & E' & _)|(d' & Hd' & Hs & _)]; [lia|].
      assert (d' = q') as -> by congruence. rewrite Hqf in Hs. rewrite <- Eq in Ha. by apply (pl_joined _ _ _ _ HP _ _ _ Hq' Hs Ha). }
  assert (Hhi : free_hi B1 a d = a + b_size b).
  { rewrite Hlk, decide_True in Hd by done. injection Hd as <-. unfold free_hi. cbn [b_size]. clear -Hlk Hk Hc Hal.
    destruct (decide (k + 16 <= b_size b)); rewrite Hlk.
    - destruct (decide (a + k = a)); [lia|]. destruct (decide (k + 16 <= b_size b /\ a + k = a + k)); [|lia]. cbn. rewrite decide_True by done. lia.
    - repeat (case_decide; [lia|]). rewrite Hc. by rewrite decide_False by (rewrite Hal; done). }
  rewrite Hlo, Hhi in Hsp. apply map_eq. intros x. destruct (ly_blk _ _ _ HL _ _ Ha Hne) as (_ & ? & _).
  destruct (decide (x = a)) as [->|Hxa]; [|destruct (decide (x = a + b_size b)) as [->|Hxh]].
  - destruct (sn_at _ _ _ _ _ Hsp) as (b0 & H1 & ->). assert (b0 = d) as -> by congruence. rewrite Ha, Hpd. destruct b. cbn in *. subst. do 2 f_equal. lia.
  - destruct (sn_hi _ _ _ _ _ Hsp) as (c0 & H1 & ->). rewrite Hlk, decide_False, decide_False in H1 by lia. rewrite Hc. f_equal. destruct c as [cp cs cst].
    cbn in Hpc. subst cp. case_decide; [|rewrite Hc in H1]; by injection H1 as <-.
  - destruct (decide (a < x < a + b_size b)).
    + rewrite (sn_in _ _ _ _ _ Hsp) by lia. destruct (B !! x) as [e|] eqn:He; [|done]. pose proof (ly_apart _ _ _ HL _ _ _ _ Ha He). lia.
    + rewrite (sn_out _ _ _ _ _ Hsp), Hlk by lia. repeat case_decide; try lia; done.
Qed.

(** C36: Allocating a region and releasing it again brings the pool back to the same blocks,
    with the same sizes and states, and keeps the words of all live regions. *)
Theorem mem_alloc_free p n B s size : Pool p n B s -> 0 < size < 2 ^ 32 ->
  wp (let* ptr := LOS_MemAlloc p size in if ptr =? 0 then mret LOS_OK else LOS_MemFree p ptr)
    (λ r s', r = LOS_OK /\ Pool p n B s' /\ (∀ x, owned p n B x -> mem s' !! x = mem s !! x)) s.
Proof.
  intros HP Hs. apply wp_bind, (mem_alloc_wp p n B); [done|lia|intros _; by apply wp_ret|].
  intros a b c s1 Ha Hf Hc Hsz Hk HP1 Hg Hkp. set (k := block_size (request size)) in *.
  destruct (request_spec size ltac:(lia)). assert (request size < 2 ^ 30) by (unfold request in *; destruct (Z.ltb_spec size 8); lia).
  destruct (block_size_spec (request size) ltac:(lia)) as [Hb Hk4]. fold k in Hb, Hk4.
  destruct (allocated_at HP a k b c Ha Hf Hc ltac:(lia) Hk4) as (d & Hd & Hds & Hdk & _ & Hpd & _).
  assert (Hh : is_handle (allocated a k b c B) (mem s1) (a + 8) a d) by (split; [done|]; left; split_and!; [done|lia|done]).
  destruct (handle_facts HP1 _ _ _ Hh) as (Hne & _ & Hr & _). destruct (Z.eqb_spec (a + 8) 0).
  { destruct (ly_pool _ _ _ (pi_layout _ _ _ _ (pl_inv _ _ _ _ HP))) as [[? ?] ? _]. lia. }
  eapply (mem_free_wp HP1); [done|]. intros s2 B2 HP2 Hsp Hg2 Hkp2.
  assert (B2 = B) as -> by (by eapply (realloc_span p n B s a k b c B2 HP Ha Hf Hc ltac:(lia) d)).
  split_and!; try done. intros x Hx. pose proof (pi_layout _ _ _ _ (pl_inv _ _ _ _ HP)) as HL. destruct (owned_kept p n B x HL Hx) as (? & ? & ?).
  assert (HL1 : Layout p n (allocated a k b c B)) by apply HP1.
  assert (Hx1 : owned p n (allocated a k b c B) x /\ ~ payload a d x).
  { destruct (allocated_region p n B s a k b c s1) as (len & _ & HA); try done; [lia|]. assert (Hlen : live (allocated a k b c B) (a + 8) = Some len) by (rewrite (al_live _ _ _ _ _ _ _ _ HA); by rewrite decide_True).
    assert (Ed : len = b_size d - 8). { unfold live in Hlen. replace (a + 8 - 8) with a in Hlen by lia. rewrite Hd, Hds in Hlen. destruct (b_size d =? 0); by simplify_eq. }
    pose proof (live_range HP1 _ _ Hlen). unfold payload. destruct Hx as [?|[?|(q & l & Hq & Hqx)]].
    - split; [by left|lia].
    - split; [by right; left|lia].
    - destruct (al_new _ _ _ _ _ _ _ _ HA _ _ Hq); (split; [|lia]); right; right; exists q, l; (split; [|done]); rewrite (al_live _ _ _ _ _ _ _ _ HA);
        (rewrite decide_False; [done|]); pose proof (live_range HP _ _ Hq); lia. }
  destruct Hx1 as [Hx1 Hpx]. destruct (owned_kept p n _ x HL1 Hx1) as (? & _). rewrite Hkp2, Hkp; done.
Qed.
