(* ===== verification/MemResize.v ===== *)
(** Correctness of the dynamic allocator, part 6: change of size and aligned
    allocation. *)

From S2P Require Import Prelude Errno Membox Memory MemInv MemBlocks MemWalk MemAlloc MemApi.

(** ** A used block with another size

    [Resized B B' a k hi]: the used block [a] now has [k] bytes, the rest up to
    [hi] is one free block if there is any, and elsewhere nothing has changed. *)

Record Resized (B B' : gmap Z Blk) (a k hi : Z) : Prop := {
  rz_at : ∃ b, B !! a = Some b /\ B' !! a = Some (mk_Blk (b_prev b) k (BUsed false));
  rz_rest : a + k = hi \/ a + k + 16 <= hi /\ B' !! (a + k) = Some (mk_Blk a (hi - (a + k)) BFree);
  rz_in : ∀ x, a < x < hi -> x <> a + k -> B' !! x = None;
  rz_hi : ∃ c q, B !! hi = Some c /\ b_state c <> BFree /\ B' !! hi = Some (with_prev q c);
  rz_out : ∀ x, x < a \/ hi < x -> B' !! x = B !! x;
}.

Section resized.
Context {p n : Z} {B B' : gmap Z Blk} {s : Heap} (HP : Pool p n B s).
Context (a k hi : Z) (HR : Resized B B' a k hi) (Hk : 16 <= k) (Hhi : a + k <= hi).
Context (Hfree : ∀ x d, B !! x = Some d -> a < x < hi -> b_state d = BFree).

Lemma resized_cases x d : B' !! x = Some d ->
  (x < a \/ hi < x) /\ B !! x = Some d \/ x = a /\ b_state d = BUsed false \/ x = a + k /\ a + k < hi /\ d = mk_Blk a (hi - (a + k)) BFree \/
  x = hi /\ ∃ c, B !! hi = Some c /\ b_state d = b_state c /\ b_state c <> BFree.
Proof using HR Hk Hhi.
  intros Hd. destruct (decide (x < a \/ hi < x)) as [Hx|Hx]; [left; split; [done|]; by rewrite (rz_out _ _ _ _ _ HR) in Hd|right].
  destruct (decide (x = a)) as [->|]; [left; split; [done|]; destruct (rz_at _ _ _ _ _ HR) as (b & _ & E); rewrite E in Hd; by injection Hd as <-|right].
  destruct (decide (x = hi)) as [->|].
  - right. split; [done|]. destruct (rz_hi _ _ _ _ _ HR) as (c & q & Hc & Hf & E). rewrite E in Hd. injection Hd as <-. eauto.
  - left. destruct (decide (x = a + k)) as [->|]; [|rewrite (rz_in _ _ _ _ _ HR) in Hd by lia; done].
    destruct (rz_rest _ _ _ _ _ HR) as [?|[? E]]; [lia|]. split_and!; [done|lia|congruence].
Qed.

Lemma resized_settled x d : B' !! x = Some d -> b_state d <> BOut.
Proof using HP HR Hk Hhi.
  intros [[_ Hd]|[[_ ->]|[(_ & _ & ->)|(_ & c & Hc & -> & _)]]]%resized_cases; try done; by eapply (pl_settled _ _ _ _ HP).
Qed.

Lemma resized_joined x d e : B' !! x = Some d -> b_state d = BFree -> B' !! (x + b_size d) = Some e -> b_state e <> BFree.
Proof using HP HR Hk Hhi.
  intros Hd Hf He. pose proof (pi_layout _ _ _ _ (pl_inv _ _ _ _ HP)) as HL. destruct (rz_at _ _ _ _ _ HR) as (b & Hb & _).
  destruct (resized_cases _ _ Hd) as [[Hx Hd']|[[_ E]|[(-> & Hlt & ->)|(_ & c & _ & E & ?)]]]; [|congruence| |congruence].
  - destruct (ly_next _ _ _ HL _ _ Hd' (free_not_end _ _ HL _ _ Hd' Hf)) as (y & Hy & _). pose proof (pl_joined _ _ _ _ HP _ _ _ Hd' Hf Hy) as Hj.
    destruct (resized_cases _ _ He) as [[_ He']|[[_ ->]|[(E & _ & _)|(_ & c & _ & -> & ?)]]]; try done; [congruence|].
    pose proof (ly_apart _ _ _ HL _ _ _ _ Hd' Hb). destruct (blk_range _ _ HL _ _ Hd') as (_ & _ & ? & _). lia.
  - cbn in He. replace (a + k + (hi - (a + k))) with hi in He by lia.
    destruct (resized_cases _ _ He) as [[? _]|[[? _]|[(? & _)|(_ & c & _ & -> & ?)]]]; [lia..|done].
Qed.

Lemma resized_live x : live B' x = if decide (x = a + 8) then Some (k - 8) else live B x.
Proof using HR Hk Hhi Hfree.
  destruct (decide (x = a + 8)) as [->|Hne].
  - unfold live. replace (a + 8 - 8) with a by lia. destruct (rz_at _ _ _ _ _ HR) as (b & _ & ->). cbn. destruct (Z.eqb_spec k 0); [lia|done].
  - unfold live. destruct (decide (x - 8 < a \/ hi < x - 8)); [by rewrite (rz_out _ _ _ _ _ HR)|].
    destruct (decide (x - 8 = hi)) as [->|]; [destruct (rz_hi _ _ _ _ _ HR) as (c & q & -> & _ & ->); done|].
    assert (HB : match B !! (x - 8) with Some b => match b_state b with BUsed _ => if b_size b =? 0 then None else Some (b_size b - 8) | _ => None end | None => None end = None).
    { destruct (B !! (x - 8)) as [d|] eqn:Hd; [|done]. by rewrite (Hfree _ _ Hd) by lia. }
    rewrite HB. destruct (B' !! (x - 8)) as [d|] eqn:Hd; [|done].
    destruct (resized_cases _ _ Hd) as [[? _]|[[? _]|[(_ & _ & ->)|(? & _)]]]; [lia|lia|done|lia].
Qed.

Lemma resized_used : used_kept B B' a.
Proof using HR Hfree.
  intros x d al Hx Hd Hs. destruct (decide (x < a \/ hi < x)); [rewrite (rz_out _ _ _ _ _ HR) by done; eauto|].
  destruct (decide (x = hi)) as [->|]; [|rewrite (Hfree _ _ Hd) in Hs by lia; done].
  destruct (rz_hi _ _ _ _ _ HR) as (c & q & Hc & _ & Ec). assert (c = d) as -> by congruence. eauto.
Qed.
End resized.

Lemma weigh_splitted a k b c (B : gmap Z Blk) : B !! a = Some b -> b_state b = BOut -> B !! (a + b_size b) = Some c -> B !! (a + k) = None -> 0 < k < b_size b ->
  weigh used_size (splitted a k b c (B := B)) = weigh used_size B.
Proof.
  intros Ha Hb Hc Hn Hk. unfold splitted. rewrite (weigh_update _ _ a b) by (rewrite !lookup_insert_ne by lia; done).
  rewrite weigh_new by (rewrite lookup_insert_ne by lia; done). rewrite (weigh_update _ _ _ c) by done. rewrite used_size_prev.
  assert (used_size b = 0 /\ used_size (with_size k b) = 0 /\ used_size (new_blk a k b) = 0) as (-> & -> & ->) by (unfold used_size, with_size, new_blk; cbn; by rewrite Hb). lia.
Qed.

(** From one block over [a, hi) that is out of the lists, cut to [k] bytes and marked. *)
Lemma span_resized B B2 a k hi bb c : Span B B2 a hi BOut -> B2 !! a = Some bb -> B !! hi = Some c -> b_state c <> BFree -> 16 <= k -> a + k + 16 <= hi ->
  Resized B (<[a := with_state (BUsed false) (with_size k bb)]> (split_used a k bb (with_prev a c) (B := B2))) a k hi.
Proof.
  intros [(b & H1 & H2) H3 (c' & H4 & H5) H6] Hbb Hc Hcf Hk Hhi. rewrite H2 in Hbb. injection Hbb as <-. unfold split_used. split.
  - exists b. split; [done|]. by rewrite lookup_insert_eq.
  - right. split; [done|]. rewrite lookup_insert_ne, lookup_insert_eq by lia. unfold with_state, new_blk. cbn. do 2 f_equal. lia.
  - intros x Hx Hxk. rewrite lookup_insert_ne, lookup_insert_ne, splitted_lookup by lia. cbn. repeat case_decide; try lia. apply H3. lia.
  - exists c, (a + k). split_and!; [done|done|]. rewrite lookup_insert_ne, lookup_insert_ne, splitted_lookup by lia. cbn. repeat case_decide; try lia. done.
  - intros x Hx. rewrite lookup_insert_ne, lookup_insert_ne, splitted_lookup by lia. cbn. repeat case_decide; try lia. apply H6. lia.
Qed.

Lemma free_resized p n B a k b c c2 : Layout p n B -> B !! a = Some b -> a <> end_node p n -> B !! (a + b_size b) = Some c -> b_state c = BFree ->
  B !! (a + b_size b + b_size c) = Some c2 -> b_state c2 <> BFree -> 16 <= k -> k + 16 <= b_size b ->
  Resized B (<[a := with_state (BUsed false) (with_size k (with_state BOut b))]> (split_free a k (with_state BOut b) c c2 (B := <[a := with_state BOut b]> B)))
    a k (a + b_size b + b_size c).
Proof.
  intros HL Ha Hae Hc Hcf Hc2 Hc2f Hk Hk'. pose proof (free_not_end _ _ HL _ _ Hc Hcf) as Hce. destruct (ly_blk _ _ _ HL _ _ Hc Hce) as (_ & ? & _).
  unfold split_free, split_join. split.
  - exists b. split; [done|]. by rewrite lookup_insert_eq.
  - right. split; [lia|]. rewrite lookup_insert_ne, lookup_insert_eq by lia. unfold with_state, with_size, new_blk. cbn. do 2 f_equal. lia.
  - intros x Hx Hxk. rewrite lookup_insert_ne, lookup_insert_ne, merged_lookup by lia. cbn. repeat case_decide; try lia; try done.
    rewrite lookup_insert_ne, splitted_lookup by lia. cbn. repeat case_decide; try lia. rewrite lookup_insert_ne by lia.
    destruct (B !! x) as [d|] eqn:Hd; [|done]. pose proof (ly_apart _ _ _ HL _ _ _ _ Ha Hd). pose proof (ly_apart _ _ _ HL _ _ _ _ Hc Hd). lia.
  - exists c2, (a + k). split_and!; [done|done|]. rewrite lookup_insert_ne, lookup_insert_ne, merged_lookup by lia. cbn. repeat case_decide; try lia. done.
  - intros x Hx. rewrite lookup_insert_ne, lookup_insert_ne, merged_lookup by lia. cbn. repeat case_decide; try lia.
    rewrite lookup_insert_ne, splitted_lookup by lia. cbn. repeat case_decide; try lia. by rewrite lookup_insert_ne by lia.
Qed.

(** What a change of size in place does to the block [a]: it keeps its
    address and its first bytes. *)
Record ResizedTo (p n : Z) (B : gmap Z Blk) (s : Heap) (a len : Z) (B' : gmap Z Blk) (s' : Heap) : Prop := {
  rs_pool : Pool p n B' s';
  rs_live : ∀ x, live B' x = if decide (x = a + 8) then Some len else live B x;
  rs_used : used_kept B B' a;
  rs_plain : ∃ b', B' !! a = Some b' /\ b_state b' = BUsed false;
  rs_keep : ∀ x, owned p n B x -> (∀ old, live B (a + 8) = Some old -> a + 8 <= x < a + 8 + old -> x < a + 8 + len) -> mem s' !! x = mem s !! x;
  rs_head : g_poolHead s' = g_poolHead s;
}.

Section split_facts.
Context (a k : Z) (b c : Blk) (B : gmap Z Blk).
Context (Ha : B !! a = Some b) (Hb : b_state b = BOut) (Hc : B !! (a + b_size b) = Some c) (Hn : B !! (a + k) = None) (Hk : 16 <= k) (Hk' : k + 16 <= b_size b).

Lemma split_used_at : split_used a k b c (B := B) !! a = Some (with_size k b).
Proof using Hk. unfold split_used. rewrite lookup_insert_ne, splitted_lookup by lia. by rewrite decide_True. Qed.
Lemma splitted_new : splitted a k b c (B := B) !! (a + k) = Some (new_blk a k b).
Proof using Hk. rewrite splitted_lookup. repeat case_decide; try lia; done. Qed.
Lemma split_used_weigh : weigh used_size (split_used a k b c (B := B)) = weigh used_size B.
Proof using All.
  unfold split_used. rewrite (weigh_update _ _ _ _ _ splitted_new), weigh_splitted by (done || lia). unfold used_size. cbn. lia.
Qed.

Context (c2 : Blk) (Hc2 : B !! (a + b_size b + b_size c) = Some c2) (Hcf : b_state c = BFree) (Hcz : 16 <= b_size c).

Lemma split_free_at : split_free a k b c c2 (B := B) !! a = Some (with_size k b).
Proof using Hk Hk' Hcz.
  unfold split_free, split_join. rewrite lookup_insert_ne, merged_lookup by lia. cbn. repeat case_decide; try lia.
  rewrite lookup_insert_ne, splitted_lookup by lia. by rewrite decide_True.
Qed.
Lemma split_free_weigh : weigh used_size (split_free a k b c c2 (B := B)) = weigh used_size B.
Proof using All.
  assert (H1 : splitted a k b c (B := B) !! (a + b_size b) = Some (with_prev (a + k) c)) by (rewrite splitted_lookup; repeat case_decide; try lia; done).
  assert (H2 : split_join a k b c c2 (B := B) !! (a + k) = Some (with_size (b_size b - k + b_size c) (new_blk a k b))).
  { unfold split_join. rewrite merged_lookup. repeat case_decide; try lia. done. }
  unfold split_free. rewrite (weigh_update _ _ _ _ _ H2). unfold split_join. rewrite weigh_merged; try done.
  - rewrite (weigh_update _ _ _ _ _ H1), weigh_splitted by (done || lia). unfold used_size. cbn. rewrite Hcf. lia.
  - rewrite lookup_insert_ne by lia. apply splitted_new.
  - by rewrite lookup_insert_eq.
  - cbn. rewrite lookup_insert_ne, splitted_lookup by lia. repeat case_decide; try lia. done.
  - lia.
  - cbn. lia.
  - cbn. lia.
Qed.
End split_facts.

Lemma Steps_weaken (K K' : Z -> Prop) p n s0 B s : Steps K p n s0 B s -> (∀ x, K' x -> K x) -> Steps K' p n s0 B s.
Proof. intros [] ?. split; auto. Qed.

Section smaller.
Context {p n : Z} {B : gmap Z Blk} {s : Heap} (HP : Pool p n B s).
Context (a k : Z) (b : Blk) (al : bool) (Ha : B !! a = Some b) (Hu : b_state b = BUsed al) (Hne : a <> end_node p n).
Context (Hk : 16 <= k <= b_size b) (Hk4 : (4 | k)).

(** What a shrinking leaves alone. *)
Definition kept_upto (x : Z) : Prop := kept p n B x /\ (payload a b x -> x < a + k).

Lemma owned_upto x : owned p n B x -> (∀ old, live B (a + 8) = Some old -> a + 8 <= x < a + 8 + old -> x < a + 8 + (k - 8)) ->
  kept_upto x /\ x <> info_curUsedSize p /\ x <> info_waterLine p.
Proof using HP Ha Hu Hne.
  intros Hx Hold. pose proof (pi_layout _ _ _ _ (pl_inv _ _ _ _ HP)) as HL. destruct (owned_kept p n B x HL Hx) as (? & ? & ?). split_and!; try done. split; [done|].
  intros Hp. unfold payload in Hp. enough (x < a + 8 + (k - 8)) by lia. apply (Hold (b_size b - 8)); [|lia]. apply live_Some. exists b, al.
  replace (a + 8 - 8) with a by lia. destruct (ly_blk _ _ _ HL _ _ Ha Hne) as (_ & ? & _). split_and!; try done; lia.
Qed.

Lemma mark_used_wp K s0 B2 s2 bb Q : Steps K p n s0 B2 s2 -> B2 !! a = Some bb -> b_state bb = BOut ->
  (∀ s3, Steps K p n s0 (<[a := with_state (BUsed false) bb]> B2) s3 -> Q tt s3) -> wp (OS_MEM_NODE_SET_USED_FLAG a) Q s2.
Proof using Hne.
  intros HS2 Hbb Hout HQ. destruct (pi_hdr _ _ _ _ (ss_inv _ _ _ _ _ _ HS2) _ _ Hbb) as [_ Hw]. unfold OS_MEM_NODE_SET_USED_FLAG.
  apply wp_bind. eapply wp_ld; [done|]. assert (setf OS_MEM_NODE_USED_FLAG (b_word bb) = b_word (with_state (BUsed false) bb)) as -> by (unfold b_word; rewrite Hout; done).
  eapply wp_mono; [apply (flag_steps HS2); try done; by rewrite Hout|]. by intros [] s3 HS3; apply HQ.
Qed.

(** The same block with other flags. *)
Lemma same_pool al' s' : PoolInv p n (<[a := with_state (BUsed al') b]> B) (mem s') ->
  mem s' !! info_curUsedSize p = mem s !! info_curUsedSize p -> mem s' !! info_waterLine p = mem s !! info_waterLine p ->
  Pool p n (<[a := with_state (BUsed al') b]> B) s' /\ ∀ x, live (<[a := with_state (BUsed al') b]> B) x = live B x.
Proof using HP Ha Hu.
  intros HI Hc Hw. assert (Hsum : weigh used_size (<[a := with_state (BUsed al') b]> B) = weigh used_size B).
  { rewrite (weigh_update _ _ _ _ _ Ha). unfold used_size. rewrite Hu. cbn. lia. }
  split; [split|].
  - done.
  - intros x d. rewrite lookup_insert. case_decide; [by intros [= <-]|apply HP].
  - intros x d e. rewrite !lookup_insert. case_decide; [by intros [= <-]|]. intros Hd Hf. case_decide as E; [by intros [= <-]|]. by apply (pl_joined _ _ _ _ HP x d).
  - rewrite Hsum, Hc. apply HP.
  - rewrite Hsum, Hw. apply HP.
  - intros x. unfold live. rewrite lookup_insert. case_decide as E; [|done]. rewrite <- E, Ha, Hu. done.
Qed.

Lemma info_kept x : p <= x < p + 20 -> kept_upto x.
Proof using HP Ha.
  intros Hx. split; [left; lia|]. pose proof (head_below _ _ _ _ _ (pi_layout _ _ _ _ (pl_inv _ _ _ _ HP)) Ha). unfold payload. lia.
Qed.

(** After the split: the counter and the flag. *)
Lemma shrink_end_wp s2 B2 hi Q :
  Steps kept_upto p n s B2 s2 -> B2 !! a = Some (with_size k (with_state BOut b)) -> weigh used_size B2 = weigh used_size B - b_size b ->
  Resized B (<[a := with_state (BUsed false) (with_size k (with_state BOut b))]> B2) a k hi -> a + k <= hi ->
  (∀ x d, B !! x = Some d -> a < x < hi -> b_state d = BFree) ->
  (∀ s' B', ResizedTo p n B s a (k - 8) B' s' -> Q tt s') ->
  wp ((let* used := ld (info_curUsedSize p) in st (info_curUsedSize p) (u32 (used - (b_size b - k)))) ;;; OS_MEM_NODE_SET_USED_FLAG a) Q s2.
Proof using All.
  intros HS2 Hat Hw HR Hhi Hfr HQ. pose proof (pi_layout _ _ _ _ (pl_inv _ _ _ _ HP)) as HL. pose proof (pl_used _ _ _ _ HP) as Hcur.
  destruct (pl_water _ _ _ _ HP) as (w & Hwl & Hwn). destruct (ly_pool _ _ _ HL) as [[? ?] ? _]. pose proof (used_bound HL). destruct (blk_range _ _ HL _ _ Ha) as (_ & _ & ? & _).
  pose proof (used_bound (pi_layout _ _ _ _ (ss_inv _ _ _ _ _ _ HS2))) as Hub2.
  assert (Hc2 : mem s2 !! info_curUsedSize p = Some (952 + weigh used_size B)) by (rewrite (ss_keep _ _ _ _ _ _ HS2); [done|apply info_kept; offsets; lia]).
  apply wp_bind, wp_bind. eapply wp_ld; [done|]. apply wp_st; [by rewrite Hc2|]. rewrite u32_id by lia. set (s3 := set_mem _ s2).
  assert (HS3 : Steps kept_upto p n s3 B2 s3) by (apply Steps_refl; [apply info_word_inv; [apply HS2|auto]|apply HS2]).
  eapply mark_used_wp; [done|done|done|]. intros s4 HS4. eapply HQ.
  assert (Hinfo : ∀ x, p <= x < p + 20 -> mem s4 !! x = mem s3 !! x) by (intros x Hx; by apply (ss_keep _ _ _ _ _ _ HS4), info_kept).
  assert (Hsum : weigh used_size (<[a := with_state (BUsed false) (with_size k (with_state BOut b))]> B2) = weigh used_size B - b_size b + k).
  { rewrite (weigh_update _ _ _ _ _ Hat), Hw. unfold used_size. cbn. lia. }
  split; [split|..].
  - apply HS4.
  - by eapply (resized_settled HP a k hi HR); [lia|..].
  - by eapply (resized_joined HP a k hi HR); [lia|..].
  - rewrite Hinfo by (offsets; lia). unfold s3. cbn. look. f_equal. lia.
  - exists w. rewrite Hinfo by (offsets; lia). unfold s3. cbn. look. rewrite (ss_keep _ _ _ _ _ _ HS2) by (apply info_kept; offsets; lia). split; [done|lia].
  - by apply (resized_live a k hi HR); [lia|..].
  - by apply (resized_used a k hi HR).
  - destruct (rz_at _ _ _ _ _ HR) as (b' & _ & E). eauto.
  - intros x Hx Hold. destruct (owned_upto x Hx Hold) as (? & ? & ?). rewrite (ss_keep _ _ _ _ _ _ HS4) by done. unfold s3. cbn. rewrite lookup_insert_ne by done.
    by apply (ss_keep _ _ _ _ _ _ HS2).
  - rewrite (ss_head _ _ _ _ _ _ HS4). apply HS2.
Qed.

Lemma smaller_wp Q : (∀ s' B' len, k - 8 <= len <= b_size b - 8 -> ResizedTo p n B s a len B' s' -> Q tt s') -> wp (OsMemReAllocSmaller p k a (b_size b)) Q s.
Proof using All.
  intros HQ. pose proof (pi_layout _ _ _ _ (pl_inv _ _ _ _ HP)) as HL. destruct (ly_pool _ _ _ HL) as [[? ?] ? _].
  destruct (ly_next _ _ _ HL _ _ Ha Hne) as (c & Hc & _). destruct (blk_range _ _ HL _ _ Ha) as (_ & _ & ? & _).
  assert (HS0 : Steps (kept p n B) p n s B s) by (apply Steps_refl; [apply HP|done]). unfold OsMemReAllocSmaller. apply wp_bind.
  change (b_size b) with (b_word (with_state BOut b)) at 1. eapply wp_mono; [apply (flag_steps HS0); try done; by rewrite Hu|]. intros [] s1 HS1'.
  pose proof (Steps_weaken _ kept_upto _ _ _ _ _ HS1' ltac:(by intros x [? _])) as HS1. set (b1 := with_state BOut b) in *. assert (Hb1 : <[a := b1]> B !! a = Some b1) by by rewrite lookup_insert_eq.
  assert (Hc1 : <[a := b1]> B !! (a + b_size b1) = Some c) by (cbn; rewrite lookup_insert_ne by lia; done).
  assert (Hw1 : weigh used_size (<[a := b1]> B) = weigh used_size B - b_size b) by (rewrite (weigh_update _ _ _ _ _ Ha); unfold used_size; rewrite Hu; cbn; lia).
  assert (HK : ∀ x, kept_upto x -> ~ a + k <= x < a + b_size b1) by (intros x [_ Hx] Hr; cbn in Hr; specialize (Hx ltac:(unfold payload; lia)); lia).
  unfold OS_MEM_MIN_LEFT_SIZE. rewrite u32_id by lia. apply wp_bind, wp_when; intros Hle.
  - apply Z.leb_le in Hle. pose proof (split_fresh (pi_layout _ _ _ _ (ss_inv _ _ _ _ _ _ HS1)) a k b1 Hb1 Hne ltac:(lia) Hle) as Hnew.
    assert (Hend : ∀ s2 B2 hi, Steps kept_upto p n s B2 s2 -> B2 !! a = Some (with_size k b1) -> weigh used_size B2 = weigh used_size B - b_size b ->
      Resized B (<[a := with_state (BUsed false) (with_size k b1)]> B2) a k hi -> a + k <= hi -> (∀ x d, B !! x = Some d -> a < x < hi -> b_state d = BFree) ->
      wp (let* used := ld (info_curUsedSize p) in st (info_curUsedSize p) (u32 (used - (b_size b - k)))) (λ _ s3, wp (OS_MEM_NODE_SET_USED_FLAG a) Q s3) s2).
    { intros s2 B2 hi HS2 Hat Hw HR Hhi Hfr. apply wp_bind_inv. rewrite <- (Z.sub_0_r (b_size b)). rewrite Z.sub_0_r.
      eapply wp_mono; [eapply (shrink_end_wp s2 B2 hi (λ _ s', Q tt s')); try done; intros s' B' HRs; by eapply (HQ s' B' (k - 8)); [lia|]|]. by intros [] s'. }
    apply wp_bind. destruct (b_state c) as [| |alc] eqn:Hcs; [| |].
    + destruct (ly_next _ _ _ HL _ _ Hc (free_not_end _ _ HL _ _ Hc Hcs)) as (c2 & Hc2 & _). destruct (ly_blk _ _ _ HL _ _ Hc (free_not_end _ _ HL _ _ Hc Hcs)) as (_ & ? & _).
      eapply wp_mono; [eapply (split_free_wp HS1 a k b1 c); try done; [lia|cbn; rewrite lookup_insert_ne by lia; exact Hc2]|]. intros [] s2 HS2.
      eapply (Hend s2 _ (a + b_size b + b_size c)); [done| | |eapply free_resized; try done; [|lia]; by eapply (pl_joined _ _ _ _ HP _ c)|lia|].
      * by apply split_free_at; cbn; lia.
      * rewrite split_free_weigh; try done; [lia|]. cbn. rewrite lookup_insert_ne by lia. done.
      * intros x d Hd Hx. destruct (decide (x = a + b_size b)) as [->|]; [congruence|].
        pose proof (ly_apart _ _ _ HL _ _ _ _ Ha Hd). pose proof (ly_apart _ _ _ HL _ _ _ _ Hc Hd). lia.
    + by destruct (pl_settled _ _ _ _ HP _ _ Hc).
    + eapply wp_mono; [eapply (split_used_wp HS1 a k b1 c); try done; [lia|eauto]|]. intros [] s2 HS2.
      eapply (Hend s2 _ (a + b_size b)); [done| | | |lia|].
      * apply split_used_at. lia.
      * rewrite split_used_weigh; try done. lia.
      * replace c with (with_prev a c); [eapply span_resized; try done; [by apply (span_init HL)|congruence|lia..]|].
        destruct (ly_next _ _ _ HL _ _ Ha Hne) as (c' & Hc' & Hp). assert (c' = c) as -> by congruence. destruct c. cbn in *. by subst.
      * intros x d Hd Hx. pose proof (ly_apart _ _ _ HL _ _ _ _ Ha Hd). lia.
  - apply Z.leb_gt in Hle. eapply mark_used_wp; [exact HS1'|done|done|]. intros s3 HS3. rewrite insert_insert_eq in HS3. cbn in HS3.
    destruct (same_pool false s3) as [HP3 Hl3]; [apply HS3|apply (ss_keep _ _ _ _ _ _ HS3); left; offsets; lia..|]. eapply (HQ s3 _ (b_size b - 8)); [lia|].
    split; [done| | | | |apply HS3].
    + intros x. rewrite Hl3. case_decide as E; [|done]. subst x. apply live_Some. exists b, al. replace (a + 8 - 8) with a by lia. split_and!; try done; lia.
    + intros x d al' Hx Hd Hs. rewrite lookup_insert_ne by done. eauto.
    + rewrite lookup_insert_eq. eauto.
    + intros x Hx _. apply (ss_keep _ _ _ _ _ _ HS3). by apply (owned_kept p n B x HL).
Qed.
End smaller.

(** ** Growing into the free block after *)

Lemma span_marked B B2 a hi bb c : Span B B2 a hi BOut -> B2 !! a = Some bb -> B !! hi = Some c -> b_state c <> BFree -> a < hi ->
  Resized B (<[a := with_state (BUsed false) bb]> B2) a (hi - a) hi.
Proof.
  intros [(b & H1 & H2) H3 (c' & H4 & H5) H6] Hbb Hc Hcf Hlt. rewrite H2 in Hbb. injection Hbb as <-. split.
  - exists b. split; [done|]. by rewrite lookup_insert_eq.
  - left. lia.
  - intros x Hx _. rewrite lookup_insert_ne by lia. auto.
  - exists c, a. split_and!; [done..|]. rewrite lookup_insert_ne by lia. congruence.
  - intros x Hx. rewrite lookup_insert_ne by lia. auto.
Qed.

Section bigger.
Context {p n : Z} {B : gmap Z Blk} {s : Heap} (HP : Pool p n B s).
Context (a k : Z) (b c : Blk) (al : bool) (Ha : B !! a = Some b) (Hu : b_state b = BUsed al) (Hne : a <> end_node p n).
Context (Hc : B !! (a + b_size b) = Some c) (Hcf : b_state c = BFree) (Hk : b_size b < k <= b_size b + b_size c) (Hk4 : (4 | k)).
Abbreviation hi := (a + b_size b + b_size c).

(** After the split: the flag and the counters. *)
Lemma grow_end_wp s3 B3 b3 k' Q :
  Steps (kept p n B) p n s B3 s3 -> B3 !! a = Some b3 -> b_state b3 = BOut -> b_size b3 = k' -> weigh used_size B3 = weigh used_size B - b_size b ->
  Resized B (<[a := with_state (BUsed false) b3]> B3) a k' hi -> k <= k' -> a + k' <= hi ->
  (∀ s' B' len, k - 8 <= len <= hi - a - 8 -> ResizedTo p n B s a len B' s' -> Q tt s') ->
  wp (OS_MEM_NODE_SET_USED_FLAG a ;;; let* w := ld (sizeAndFlag a) in OsMemWaterUsedRecord p (u32 (OS_MEM_NODE_GET_SIZE w - b_size b))) Q s3.
Proof using All.
  intros HS3 Hat Hout Hz Hw HR Hk1 Hk2 HQ. pose proof (pi_layout _ _ _ _ (pl_inv _ _ _ _ HP)) as HL. destruct (ly_pool _ _ _ HL) as [[? ?] ? _].
  destruct (ly_blk _ _ _ HL _ _ Ha Hne) as (_ & ? & _). destruct (pl_water _ _ _ _ HP) as (w & Hww & Hwn). pose proof (used_bound HL).
  apply wp_bind. eapply (mark_used_wp a Hne); [done|done|done|]. intros s4 HS4. set (B4 := <[a := _]> B3) in *.
  assert (H4 : B4 !! a = Some (with_state (BUsed false) b3)) by (unfold B4; by rewrite lookup_insert_eq).
  pose proof (ss_inv _ _ _ _ _ _ HS4) as HI4. pose proof (pi_layout _ _ _ _ HI4) as HL4. destruct (pi_hdr _ _ _ _ HI4 _ _ H4) as [_ Hwd].
  destruct (blk_range _ _ HL4 _ _ H4) as (_ & _ & ? & _). change (b_size (with_state (BUsed false) b3)) with (b_size b3) in *.
  apply wp_bind. eapply wp_ld; [done|]. rewrite get_size_word by (cbn; lia). change (b_size (with_state (BUsed false) b3)) with (b_size b3).
  assert (Hsum : weigh used_size B4 = weigh used_size B - b_size b + k') by (unfold B4; rewrite (weigh_update _ _ _ _ _ Hat), Hw; unfold used_size; rewrite Hout; cbn; lia).
  pose proof (used_bound HL4). rewrite u32_id by lia.
  assert (Hinfo : ∀ x, x = info_curUsedSize p \/ x = info_waterLine p -> mem s4 !! x = mem s !! x).
  { intros x Hx. apply (ss_keep _ _ _ _ _ _ HS4). left. offsets. lia. }
  eapply (water_wp _ s4 (952 + weigh used_size B) w); [done|rewrite Hinfo by auto; apply HP|rewrite Hinfo by auto; done|lia..|].
  intros s5 w' HI5 Hg Hcu Hw' Hwn' Hk'. apply (HQ s5 B4 (k' - 8)); [lia|].
  assert (Hfr : ∀ x d, B !! x = Some d -> a < x < hi -> b_state d = BFree).
  { intros x d Hd Hx. destruct (decide (x = a + b_size b)) as [->|]; [congruence|].
    pose proof (ly_apart _ _ _ HL _ _ _ _ Ha Hd). pose proof (ly_apart _ _ _ HL _ _ _ _ Hc Hd). lia. }
  split; [split|..].
  - done.
  - by eapply (resized_settled HP a k' hi HR); [lia|..].
  - by eapply (resized_joined HP a k' hi HR); [lia|..].
  - rewrite Hcu. f_equal. lia.
  - exists w'. split; [done|lia].
  - by apply (resized_live a k' hi HR); [lia|..].
  - by apply (resized_used a k' hi HR).
  - destruct (rz_at _ _ _ _ _ HR) as (b' & _ & E). eauto.
  - intros x Hx _. destruct (owned_kept p n B x HL Hx) as (? & ? & ?). rewrite Hk' by done. by apply (ss_keep _ _ _ _ _ _ HS4).
  - rewrite Hg. apply HS4.
Qed.

Lemma bigger_wp Q : (∀ s' B' len, k - 8 <= len <= hi - a - 8 -> ResizedTo p n B s a len B' s' -> Q tt s') ->
  wp (OsMemMergeNodeForReAllocBigger p k a (b_size b) (a + b_size b)) Q s.
Proof using All.
  intros HQ. pose proof (pl_inv _ _ _ _ HP) as HI. pose proof (pi_layout _ _ _ _ HI) as HL. destruct (ly_pool _ _ _ HL) as [[? ?] ? _].
  destruct (ly_blk _ _ _ HL _ _ Ha Hne) as (_ & ? & _). pose proof (free_not_end _ _ HL _ _ Hc Hcf) as Hce. destruct (ly_blk _ _ _ HL _ _ Hc Hce) as (_ & ? & _).
  destruct (ly_next _ _ _ HL _ _ Hc Hce) as (c2 & Hc2 & _). pose proof (pl_joined _ _ _ _ HP _ _ _ Hc Hcf Hc2) as Hc2f.
  assert (HS0 : Steps (kept p n B) p n s B s) by (apply Steps_refl; [done|done]). unfold OsMemMergeNodeForReAllocBigger. apply wp_bind.
  change (b_size b) with (b_word (with_state BOut b)) at 1. eapply wp_mono; [apply (flag_steps HS0); try done; by rewrite Hu|]. intros [] s1 HS1.
  assert (Hw1 : weigh used_size (<[a := with_state BOut b]> B) = weigh used_size B - b_size b) by (rewrite (weigh_update _ _ _ _ _ Ha); unfold used_size; rewrite Hu; cbn; lia).
  pose proof (join_next_wp HL HS1 a (a + b_size b) (span_init HL a b BOut Ha Hne) ltac:(lia) c Hc Hcf) as Hj. apply wp_bind_inv in Hj.
  apply wp_bind. eapply wp_mono; [exact Hj|]. intros [] s1' Hj'. cbn in Hj'. apply wp_bind. eapply wp_mono; [exact Hj'|]. intros [] s2 (B2 & HS2 & Hsp & Hw2).
  destruct (sn_at _ _ _ _ _ Hsp) as (b' & Hb' & Hat). assert (b' = b) as -> by congruence. destruct (sn_hi _ _ _ _ _ Hsp) as (c2' & Hc2' & Hath).
  assert (c2' = c2) as -> by congruence. set (b2 := mk_Blk (b_prev b) (hi - a) BOut) in *. pose proof (ss_inv _ _ _ _ _ _ HS2) as HI2.
  destruct (pi_hdr _ _ _ _ HI2 _ _ Hat) as [_ Hwd]. destruct (blk_range _ _ (pi_layout _ _ _ _ HI2) _ _ Hat) as (_ & _ & ? & _). change (b_size b2) with (hi - a) in *.
  apply wp_bind. eapply wp_ld; [done|]. change (b_word b2) with (hi - a). unfold OS_MEM_MIN_LEFT_SIZE. rewrite u32_id by lia.
  assert (Hhi : a + b_size b2 = hi) by (cbn; lia). apply wp_bind, wp_when; intros Hle.
  - apply Z.leb_le in Hle. assert (Hath' : B2 !! (a + b_size b2) = Some (with_prev a c2)) by (rewrite Hhi; done).
    pose proof (split_fresh (pi_layout _ _ _ _ HI2) a k b2 Hat Hne ltac:(lia) ltac:(cbn; lia)) as Hnew.
    eapply wp_mono; [eapply (split_used_wp HS2 a k b2 (with_prev a c2)); try done; [lia| |]|].
    + intros x Hx Hr. rewrite Hhi in Hr. pose proof (kept_not_free HS0 _ _ x Hc Hcf Hx). lia.
    + cbn. pose proof (pl_settled _ _ _ _ HP _ _ Hc2). destruct (b_state c2); try done. eauto.
    + intros [] s3 HS3. eapply (grow_end_wp s3 _ (with_size k b2) k); [done|by apply split_used_at; lia|done|done| |by eapply span_resized; try done; lia|lia|lia|done].
      rewrite split_used_weigh; try done; lia || (cbn; lia).
  - eapply (grow_end_wp s2 B2 b2 (hi - a)); [done|done|done|done|lia|by eapply span_marked; try done; lia|lia|lia|done].
Qed.
End bigger.

(** ** Writes of the clients *)

(** Changes inside the live regions do not concern the allocator. *)
Lemma Pool_write p n B s s' : Pool p n B s ->
  (∀ x, (∀ ptr len, live B ptr = Some len -> ~ ptr <= x < ptr + len) -> mem s' !! x = mem s !! x) ->
  (∀ x, is_Some (mem s !! x) -> is_Some (mem s' !! x)) -> Pool p n B s'.
Proof.
  intros HP Hx Hs. pose proof (pl_inv _ _ _ _ HP) as [HL Hh (F & HF & HM) [Hi1 Hi2] Hm]. destruct (ly_pool _ _ _ HL) as [[? ?] ? _].
  assert (Hlow : ∀ x, x < p + 952 -> mem s' !! x = mem s !! x) by (intros x Hlt; apply Hx; intros q l Hq; pose proof (live_range HP _ _ Hq); lia).
  assert (Hin : ∀ a b x, B !! a = Some b -> a <= x < a + 8 \/ b_state b = BFree /\ a <= x < a + b_size b -> mem s' !! x = mem s !! x).
  { intros a b x Ha Hr. apply Hx. intros q l (d & al & Hd & Hu & Hz & _)%(live_blk HP) Hq.
    pose proof (ly_apart _ _ _ HL _ _ _ _ Ha Hd). pose proof (ly_apart _ _ _ HL _ _ _ _ Hd Ha).
    destruct (decide (q - 8 = a)) as [E|]; [|lia]. rewrite E in Hd. assert (d = b) as -> by congruence. destruct Hr as [?|[? _]]; [lia|congruence]. }
  split; [split|apply HP|apply HP| |].
  - done.
  - intros a b Ha. rewrite !(Hin a b) by (done || offsets; lia). auto.
  - exists F. split; [|done]. eapply FreeLists_ext; [done|intros x Hr; apply Hlow; lia|].
    intros i c (d & Hd & Hf & _)%(mb_in _ _ HM). destruct (ly_blk _ _ _ HL _ _ Hd (free_not_end _ _ HL _ _ Hd Hf)) as (_ & ? & _).
    rewrite !(Hin c d) by (done || (right; offsets; split; [done|lia])). done.
  - rewrite !Hlow by (offsets; lia). done.
  - auto.
  - rewrite Hlow by (offsets; lia). apply HP.
  - rewrite Hlow by (offsets; lia). apply HP.
Qed.

(** What a copy of [m] words does. *)
Record Copied (m dst src : Z) (s s' : Heap) : Prop := {
  cp_head : g_poolHead s' = g_poolHead s;
  cp_data : ∀ i, 0 <= i < m -> mem s' !! (dst + 4 * i) = mem s !! (src + 4 * i);
  cp_keep : ∀ x, ~ dst <= x < dst + 4 * m -> mem s' !! x = mem s !! x;
  cp_dom : ∀ x, is_Some (mem s !! x) -> is_Some (mem s' !! x);
}.

Lemma copy_words_wp m dst src s Q :
  (∀ i, 0 <= i < Z.of_nat m -> is_Some (mem s !! (src + 4 * i)) /\ is_Some (mem s !! (dst + 4 * i))) ->
  dst + 4 * Z.of_nat m <= src \/ src + 4 * Z.of_nat m <= dst ->
  (∀ s', Copied (Z.of_nat m) dst src s s' -> Q tt s') -> wp (copy_words m dst src) Q s.
Proof.
  revert dst src s Q. induction m as [|m IH]; intros dst src s Q Hmap Hdis HQ; cbn [copy_words].
  { apply wp_ret, HQ. split; done || (intros; lia) || done. }
  destruct (Hmap 0 ltac:(lia)) as [[v Hv] Hd]. rewrite Z.mul_0_r, Z.add_0_r in Hv, Hd.
  apply wp_bind. eapply wp_ld; [done|]. apply wp_bind, wp_st; [done|]. apply IH.
  - intros i Hi. destruct (Hmap (i + 1) ltac:(lia)) as [H1 H2]. cbn. split; apply insert_dom; [replace (src + 4 + 4 * i) with (src + 4 * (i + 1)) by lia|replace (dst + 4 + 4 * i) with (dst + 4 * (i + 1)) by lia]; done.
  - lia.
  - intros s' [Hg Hdt Hk Hdm]. cbn in *. apply HQ. split.
    + done.
    + intros i Hi. destruct (decide (i = 0)) as [->|].
      * rewrite !Z.mul_0_r, !Z.add_0_r, Hk, Hv by lia. by rewrite lookup_insert_eq.
      * specialize (Hdt (i - 1) ltac:(lia)). replace (dst + 4 + 4 * (i - 1)) with (dst + 4 * i) in Hdt by lia. replace (src + 4 + 4 * (i - 1)) with (src + 4 * i) in Hdt by lia.
        rewrite Hdt, lookup_insert_ne by lia. done.
    + intros x Hx. rewrite Hk by lia. rewrite lookup_insert_ne by lia. done.
    + intros x Hx. apply Hdm, insert_dom. done.
Qed.

(** ** [LOS_MemRealloc] *)

(** What a change of the block [a] does: its region is replaced by the region
    of [len] bytes at [ptr], which begins with the same words. *)
Record Reallocated (p n : Z) (B : gmap Z Blk) (s : Heap) (a : Z) (b : Blk) (ptr len : Z) (B' : gmap Z Blk) (s' : Heap) : Prop := {
  ra_pool : Pool p n B' s';
  ra_live : ∀ x, live B' x = if decide (x = ptr) then Some len else if decide (x = a + 8) then None else live B x;
  ra_new : ∀ q l, live B q = Some l -> q <> a + 8 -> ptr + len <= q \/ q + l <= ptr;
  ra_used : used_kept B B' a;
  ra_handle : ∃ b', is_handle B' (mem s') ptr (ptr - 8) b' /\ b_size b' = len + 8;
  ra_data : ∀ i, 0 <= 4 * i -> 4 * i < b_size b - 8 -> 4 * i < len -> mem s' !! (ptr + 4 * i) = mem s !! (a + 8 + 4 * i);
  ra_keep : ∀ x, owned p n B x -> ~ a + 8 <= x < a + b_size b -> mem s' !! x = mem s !! x;
  ra_head : g_poolHead s' = g_poolHead s;
}.

(** The block after [a] is free, and both together hold [k] bytes. *)
Definition next_fits (B : gmap Z Blk) (a : Z) (b : Blk) (k : Z) : Prop :=
  ∃ c, B !! (a + b_size b) = Some c /\ b_state c = BFree /\ k <= b_size b + b_size c.

(** No free block holds [k] bytes. *)
Definition no_room (B : gmap Z Blk) (k : Z) : Prop := ∀ c d, B !! c = Some d -> b_state d = BFree -> b_size d < k.

(** Where the region of a block [a] that is to have [k] bytes is afterwards, and
    how long it is. *)
Inductive placed (B : gmap Z Blk) (a : Z) (b : Blk) (k : Z) : Z -> Z -> Prop :=
| placed_shrunk len : k <= b_size b -> k - 8 <= len <= b_size b - 8 -> placed B a b k (a + 8) len
| placed_grown c len : b_size b < k -> B !! (a + b_size b) = Some c -> b_state c = BFree ->
    k - 8 <= len <= b_size b + b_size c - 8 -> placed B a b k (a + 8) len
| placed_moved a1 d len : b_size b < k -> ~ next_fits B a b k ->
    B !! a1 = Some d -> b_state d = BFree -> k - 8 <= len <= b_size d - 8 -> placed B a b k (a1 + 8) len.

Section realloc.
Context {p n : Z} {B : gmap Z Blk} {s : Heap} (HP : Pool p n B s).
Context (a : Z) (b : Blk) (al : bool) (Ha : B !! a = Some b) (Hu : b_state b = BUsed al) (Hne : a <> end_node p n).

Lemma live_at : live B (a + 8) = Some (b_size b - 8).
Proof using HP Ha Hu Hne.
  destruct (ly_blk _ _ _ (pi_layout _ _ _ _ (pl_inv _ _ _ _ HP)) _ _ Ha Hne) as (_ & ? & _). apply live_Some. exists b, al. replace (a + 8 - 8) with a by lia. split_and!; try done. lia.
Qed.

(** In place. *)
Lemma resized_reallocated len B' s' : ResizedTo p n B s a len B' s' -> Reallocated p n B s a b (a + 8) len B' s'.
Proof using HP Ha Hu Hne.
  intros [HP' Hl Hus (b' & Hb' & Hs') Hkp Hg]. pose proof live_at as Hat. split; [done| | |done| | | |done].
  - intros x. rewrite Hl. by repeat case_decide.
  - intros q l Hq Hne'. assert (Hq' : live B' q = Some l) by (rewrite Hl, decide_False by done; done). assert (Hn : live B' (a + 8) = Some len) by (rewrite Hl; by rewrite decide_True).
    destruct (live_apart HP' _ _ _ _ Hn Hq') as [E|[?|?]]; [congruence|lia|lia].
  - exists b'. assert (Hn : live B' (a + 8) = Some len) by (rewrite Hl; by rewrite decide_True). apply live_Some in Hn as (d & al' & Hd & _ & Hz & ->).
    replace (a + 8 - 8) with a in * by lia. assert (d = b') as -> by congruence. split; [|lia]. split; [done|]. by left.
  - intros i H1 H2 H3. apply Hkp; [right; right; exists (a + 8), (b_size b - 8); split; [done|lia]|]. intros. lia.
  - intros x Hx Hn. apply Hkp; [done|]. intros old Ho. rewrite Hat in Ho. injection Ho as <-. lia.
Qed.

(** Into a new block. *)
Lemma moved_wp size a1 k b1 c1 s1 Q :
  8 <= size < 2 ^ 30 -> k = block_size size -> b_size b < k ->
  B !! a1 = Some b1 -> b_state b1 = BFree -> B !! (a1 + b_size b1) = Some c1 -> k <= b_size b1 ->
  Pool p n (allocated a1 k b1 c1 B) s1 -> g_poolHead s1 = g_poolHead s ->
  (∀ x, kept p n B x -> x <> info_curUsedSize p -> x <> info_waterLine p -> mem s1 !! x = mem s !! x) ->
  (∀ s' B' len, k - 8 <= len <= b_size b1 - 8 -> Reallocated p n B s a b (a1 + 8) len B' s' -> Q (a1 + 8) s') ->
  wp (copy_words (Z.to_nat ((b_size b - 8) / 4)) (a1 + 8) (a + 8) ;;; let* _ := OsMemFree p a in mret (a1 + 8)) Q s1.
Proof using All.
  intros Hsz -> Hbk H1 Hf1 Hc1 Hk1 HP1 Hg1 Hkp1 HQ. set (k := block_size size) in *. destruct (block_size_spec size Hsz) as [Hkb Hk4]. fold k in Hkb, Hk4.
  pose proof (pi_layout _ _ _ _ (pl_inv _ _ _ _ HP)) as HL. destruct (ly_blk _ _ _ HL _ _ Ha Hne) as (Hf & Hb16 & Hbe & Ha4 & Hb4).
  destruct (allocated_region p n B s a1 k b1 c1 s1 HP H1 Hf1 Hc1 ltac:(lia) Hk4 HP1 Hg1 Hkp1) as (len & Hlen & HA). set (B1 := allocated a1 k b1 c1 B) in *.
  assert (Haa : a <> a1) by congruence.
  pose proof (live_at) as Hla. pose proof (al_new _ _ _ _ _ _ _ _ HA _ _ Hla) as Hap.
  assert (Hl1 : live B1 (a + 8) = Some (b_size b - 8)) by (rewrite (al_live _ _ _ _ _ _ _ _ HA), decide_False by lia; done).
  assert (Hln : live B1 (a1 + 8) = Some len) by (rewrite (al_live _ _ _ _ _ _ _ _ HA); by rewrite decide_True).
  pose proof (live_range HP1 _ _ Hln) as (? & ? & ? & Hq4 & _). pose proof (live_range HP1 _ _ Hl1) as (? & ? & ? & Hr4 & _).
  destruct Hb4 as [j Hj]. destruct Hk4 as [jk Hjk]. assert (Hdiv : (b_size b - 8) / 4 = j - 2) by (rewrite Hj; replace (j * 4 - 8) with ((j - 2) * 4) by lia; by rewrite Z.div_mul).
  assert (Hold : b_size b - 8 <= size) by lia. rewrite Hdiv.
  assert (Hmap : ∀ y i, (4 | y) -> p <= y + 4 * i < p + n -> is_Some (mem s1 !! (y + 4 * i))).
  { intros y i Hy Hr. apply (pi_map _ _ _ _ (pl_inv _ _ _ _ HP1)); [done|]. apply Z.divide_add_r; [done|]. apply Z.divide_factor_l. }
  apply wp_bind, copy_words_wp.
  { intros i Hi. split; apply Hmap; try done; lia. }
  { lia. }
  intros s2 [Hg2 Hd2 Hk2 Hm2]. rewrite Z2Nat.id in Hd2, Hk2 by lia.
  assert (HP2 : Pool p n B1 s2).
  { eapply Pool_write; [done| |done]. intros x Hx. apply Hk2. specialize (Hx _ _ Hln). lia. }
  destruct (live_blk HP1 _ _ Hl1) as (d & al1 & Hd & Hdu & Hdz & Hde). replace (a + 8 - 8) with a in * by lia.
  apply wp_bind, (free_wp p n B1 s2 a d al1 _ HP2 Hd Hdu Hde). intros s3 B3 HP3 Hsp Hg3 Hk3. apply wp_ret.
  pose proof (freed_live HP2 a d al1 Hd Hdu Hde Hsp) as Hl3. pose proof (pi_layout _ _ _ _ (pl_inv _ _ _ _ HP1)) as HL1.
  assert (Hown : ∀ x, owned p n B1 x -> ~ a + 8 <= x < a + b_size b -> mem s3 !! x = mem s2 !! x).
  { intros x Hx Hn. destruct (owned_kept p n B1 x HL1 Hx) as (? & ? & ?). apply Hk3; try done. unfold payload. lia. }
  eapply (HQ s3 B3 len); [lia|]. split; [done| | | | | | |congruence].
  - intros x. rewrite Hl3, (al_live _ _ _ _ _ _ _ _ HA). repeat case_decide; try done. lia.
  - intros q l Hq _. apply (al_new _ _ _ _ _ _ _ _ HA _ _ Hq).
  - intros x e ale Hx He Hes. destruct (decide (x = a1)) as [->|Hx1]; [congruence|].
    destruct (allocated_used HP a1 k b1 c1 H1 Hf1 Hc1 ltac:(lia) x e ale Hx1 He Hes) as (e' & He' & Hes' & Hez).
    destruct (freed_used HP2 a d al1 Hd Hdu Hde Hsp x e' ale Hx He' Hes') as (e2 & ? & ? & ?). exists e2. split_and!; [done|done|congruence].
  - destruct (allocated_at HP a1 k b1 c1 H1 Hf1 Hc1 ltac:(lia) ltac:(by exists jk)) as (e & He & Hes & _). fold B1 in He.
    destruct (freed_used HP2 a d al1 Hd Hdu Hde Hsp a1 e false ltac:(done) He Hes) as (e' & He' & Hes' & Hez). exists e'.
    apply live_Some in Hln as (e2 & ? & He2 & _ & Hz2 & ->). replace (a1 + 8 - 8) with a1 in * by lia. assert (e2 = e) as -> by congruence.
    split; [|lia]. split; [done|]. left. split_and!; [done|lia|lia].
  - intros i Hi0 Hi1 Hi2. rewrite Hown; [|right; right; exists (a1 + 8), len; split; [done|lia]|lia]. rewrite Hd2 by lia.
    apply (al_keep _ _ _ _ _ _ _ _ HA). right; right. exists (a + 8), (b_size b - 8). split; [done|lia].
  - intros x Hx Hn. assert (Hx1 : owned p n B1 x /\ ~ a1 + 8 <= x < a1 + 8 + len).
    { destruct Hx as [?|[?|(q & l & Hq & Hqx)]]; [split; [by left|lia]|split; [by right; left|lia]|]. pose proof (al_new _ _ _ _ _ _ _ _ HA _ _ Hq).
      split; [|lia]. right; right. exists q, l. split; [|done]. rewrite (al_live _ _ _ _ _ _ _ _ HA), decide_False; [done|]. pose proof (live_range HP _ _ Hq). lia. }
    destruct Hx1 as [Hx1 Hx2]. rewrite Hown, Hk2 by (done || lia). by apply (al_keep _ _ _ _ _ _ _ _ HA).
Qed.

Lemma realloc_wp size Q : 8 <= size < 2 ^ 30 ->
  (b_size b < block_size size -> ~ next_fits B a b (block_size size) -> no_room B (block_size size) -> Q 0 s) ->
  (∀ ptr s' B' len, size <= len -> placed B a b (block_size size) ptr len -> Reallocated p n B s a b ptr len B' s' -> Q ptr s') ->
  wp (OsMemRealloc p (a + 8) a size) Q s.
Proof using All.
  intros Hsz Hnull HQ. destruct (block_size_spec size Hsz) as [Hk Hk4]. unfold OsMemRealloc. fold (block_size size). set (k := block_size size) in *.
  pose proof (pl_inv _ _ _ _ HP) as HI. pose proof (pi_layout _ _ _ _ HI) as HL. destruct (ly_pool _ _ _ HL) as [[? ?] ? _].
  destruct (ly_blk _ _ _ HL _ _ Ha Hne) as (? & ? & ? & _). destruct (pi_hdr _ _ _ _ HI _ _ Ha) as [_ Hw]. destruct (blk_range _ _ HL _ _ Ha) as (_ & _ & ? & _).
  apply wp_bind. eapply wp_ld; [done|]. rewrite get_size_word by lia. rewrite Z.geb_leb. destruct (Z.leb_spec k (b_size b)) as [Hle|Hlt].
  { apply wp_bind, (smaller_wp HP a k b al Ha Hu Hne ltac:(lia) Hk4). intros s' B' len Hlen HR. apply wp_ret. apply (HQ _ s' B' len); [lia|by apply placed_shrunk|by eapply resized_reallocated]. }
  destruct (ly_next _ _ _ HL _ _ Ha Hne) as (c & Hc & _). apply wp_bind. eapply (next_node_wp s HI); [done|]. destruct (pi_hdr _ _ _ _ HI _ _ Hc) as [_ Hcw].
  destruct (blk_range _ _ HL _ _ Hc) as (_ & _ & ? & _). apply wp_bind. eapply wp_ld; [done|]. rewrite used_flag_word by lia. rewrite Z.geb_leb.
  assert (Hmove : ~ next_fits B a b k -> wp (let* tmpPtr := OsMemAlloc p size in
      if tmpPtr =? 0 then mret 0
      else let len := u32 (b_size b - OS_MEM_NODE_HEAD_SIZE) in
        if len >? size then let* _ := LOS_MemFree p tmpPtr in mret 0
        else copy_words (Z.to_nat (len / 4)) tmpPtr (a + 8) ;;; let* _ := OsMemFree p a in mret tmpPtr) Q s).
  { intros Hnf. apply wp_bind, (alloc_wp p n B); [done|done|intros Hno; cbn; by apply wp_ret, Hnull|]. fold k. intros a1 b1 c1 s1 Ha1 Hf1 Hc1 Hk1 HP1 Hg1 Hkp1.
    pose proof (head_below _ _ _ _ _ HL Ha1). destruct (Z.eqb_spec (a1 + 8) 0); [lia|]. unfold OS_MEM_NODE_HEAD_SIZE. cbn zeta. rewrite u32_id by lia.
    destruct (Z.gtb_spec (b_size b - 8) size) as [Hgt|_].
    { destruct (ly_blk _ _ _ HL _ _ Ha Hne) as (_ & _ & _ & _ & [j Hj]). destruct Hk4 as [jk Hjk]. lia. }
    eapply (moved_wp size a1 k b1 c1 s1); try done. intros s' B' len Hlen HR. apply (HQ _ s' B' len); [lia| |done]. by eapply placed_moved. }
  destruct (b_state c) as [| |alc] eqn:Hcs; [|by destruct (pl_settled _ _ _ _ HP _ _ Hc)|apply Hmove; intros (c' & ? & ? & _); congruence].
  unfold b_word in *. rewrite Hcs in *. cbn [negb andb]. rewrite u32_id by lia. destruct (Z.leb_spec k (b_size c + b_size b)); [|apply Hmove; intros (c' & Hc' & _ & ?); assert (c' = c) as -> by congruence; lia].
  apply wp_bind, (bigger_wp HP a k b c al); try done; [lia|]. intros s' B' len Hlen HR. apply wp_ret.
  apply (HQ _ s' B' len); [lia|by apply (placed_grown _ _ _ _ c); [..|lia]|by eapply resized_reallocated].
Qed.
End realloc.

Lemma mem_realloc_wp p n B s ptr a b size Q : Pool p n B s -> is_handle B (mem s) ptr a b -> 0 <= size < 2 ^ 32 ->
  (2 ^ 30 <= size \/ 0 < size /\ b_size b < block_size (request size) /\ ~ next_fits B a b (block_size (request size)) /\ no_room B (block_size (request size)) -> Q 0 s) ->
  (∀ s' B', size = 0 -> Freed p n B s a b B' s' -> Q 0 s') ->
  (∀ r s' B' len, 0 < size <= len -> placed B a b (block_size (request size)) r len -> Reallocated p n B s a b r len B' s' -> Q r s') ->
  wp (LOS_MemRealloc p ptr size) Q s.
Proof.
  intros HP Hh Hs Hnull Hfree HQ. destruct (handle_facts HP _ _ _ Hh) as (Hne & H4 & Hr & Hle & al & Hu). pose proof Hh as [Ha _]. pose proof (pi_layout _ _ _ _ (pl_inv _ _ _ _ HP)) as HL.
  destruct (ly_pool _ _ _ HL) as [[? ?] ? [Hp4 _]]. destruct (ly_blk _ _ _ HL _ _ Ha Hne) as (? & ? & ? & _). unfold LOS_MemRealloc, OS_MEM_MIN_ALLOC_SIZE.
  rewrite <- orb_assoc, flags_small by done. destruct (Z.eqb_spec p 0); [lia|]. cbn [orb]. destruct (Z.leb_spec (2 ^ 30) size); [apply wp_ret, Hnull; tauto|].
  destruct (Z.eqb_spec ptr 0); [lia|]. destruct (Z.eqb_spec size 0) as [->|].
  { apply wp_bind, (mem_freed_wp p n B s ptr a b _ HP Hh). intros s' B' HF. apply wp_ret. by eapply Hfree. }
  fold (request size). destruct (request_spec size ltac:(lia)). assert (request size < 2 ^ 30) by (unfold request in *; destruct (Z.ltb_spec size 8); lia).
  apply wp_bind. eapply (real_ptr_wp HP); [done|]. destruct (Z.eqb_spec (a + 8) 0); [offsets; lia|]. unfold OS_MEM_NODE_HEAD_SIZE.
  replace (a + 8 - 8) with a by lia. rewrite u32_id by (offsets; lia). apply wp_bind. eapply (check_used_wp HP); [done..|]. rewrite Z.eqb_refl. cbn [negb].
  eapply (realloc_wp HP); [done..|lia| |].
  - intros. apply Hnull. right. split_and!; done || lia.
  - intros r s' B' len Hlen Hpl HR. apply (HQ r s' B' len); [lia|done|done].
Qed.

(** C32: LOS_MemRealloc of a live region that was allocated without an alignment releases it for
    size 0; shrinks it in place when its block can hold the size; grows it in place into the
    free block after it when both together can; and otherwise moves it into a free block that is
    long enough. It returns NULL with nothing changed only for a size of 2^30 or more, or when
    none of these is possible. The new region has at least the size asked for, its first words,
    up to the shorter of the two lengths, are the same, and every other region is left alone.
    For a pointer of an aligned allocation the code goes on with the start of the block instead
    (the defect at los_memory.c:1506). *)
Theorem mem_realloc_correct p n B s a b size : Pool p n B s -> is_handle B (mem s) (a + 8) a b -> 0 <= size < 2 ^ 32 ->
  wp (LOS_MemRealloc p (a + 8) size) (λ r s', let k := block_size (request size) in
    r = 0 /\ s' = s /\ (2 ^ 30 <= size \/ 0 < size /\ b_size b < k /\ ~ next_fits B a b k /\ no_room B k) \/
    r = 0 /\ size = 0 /\ (∃ B', Freed p n B s a b B' s') \/
    ∃ B' len, 0 < size <= len /\ placed B a b k r len /\ Reallocated p n B s a b r len B' s') s.
Proof.
  intros HP Hh Hs. eapply mem_realloc_wp; [done..| | |].
  - intros H. left. split_and!; done.
  - intros s' B' -> HF. right; left. eauto.
  - intros r s' B' len Hlen Hpl HR. right; right. eauto 10.
Qed.

(** ** [LOS_MemAllocAlign] *)

Lemma pow_two v : 0 < v < 2 ^ 32 -> OS_MEM_IS_POW_TWO v = true -> ∃ j, 0 <= j < 32 /\ v = 2 ^ j.
Proof.
  intros Hv H. unfold OS_MEM_IS_POW_TWO in H. apply Z.eqb_eq in H. rewrite u32_id in H by lia. exists (Z.log2 v). pose proof (Z.log2_spec v ltac:(lia)) as [Hlo Hhi].
  split; [split; [apply Z.log2_nonneg|apply Z.log2_lt_pow2; lia]|]. destruct (decide (v = 2 ^ Z.log2 v)) as [|Hne]; [done|exfalso].
  assert (E : Z.log2 (v - 1) = Z.log2 v) by (apply Z.log2_unique; [apply Z.log2_nonneg|lia]).
  pose proof (Z.pow_pos_nonneg 2 (Z.log2 v) ltac:(lia) (Z.log2_nonneg _)).
  assert (Hb : Z.testbit (Z.land v (v - 1)) (Z.log2 v) = true) by (rewrite Z.land_spec, Z.bit_log2 by lia; rewrite <- E, Z.bit_log2 by lia; done).
  by rewrite H, Z.bits_0 in Hb.
Qed.

(** The next multiple of the boundary after a word address. *)
Lemma align_up x j : 2 <= j < 32 -> 0 <= x -> (4 | x) -> x + 2 ^ j - 4 < 2 ^ 32 - 4 ->
  ∃ g, OS_MEM_ALIGN x (2 ^ j) = x + g /\ 0 <= g <= 2 ^ j - 4 /\ (4 | g) /\ (2 ^ j | x + g).
Proof.
  intros Hj Hx [i Hi] Hlt. assert (Hp : 2 ^ j = 4 * 2 ^ (j - 2)) by (rewrite <- (Z.pow_add_r 2 2) by lia; f_equal; lia).
  pose proof (Z.pow_pos_nonneg 2 (j - 2) ltac:(lia) ltac:(lia)). rewrite align_pow2 by lia.
  pose proof (Z.div_mod (x + 2 ^ j - 1) (2 ^ j) ltac:(lia)) as Hd. pose proof (Z.mod_pos_bound (x + 2 ^ j - 1) (2 ^ j) ltac:(lia)) as Hm.
  set (t := (x + 2 ^ j - 1) / 2 ^ j) in *. exists (t * 2 ^ j - x). split_and!; [lia|lia| | |].
  - assert (t * 2 ^ j - x = 4 * (t * 2 ^ (j - 2) - i)) by lia. lia.
  - exists (t * 2 ^ (j - 2) - i). lia.
  - exists t. lia.
Qed.

Lemma boundary_word j : 0 <= j < 32 -> OS_MEM_IS_ALIGNED (2 ^ j) 4 = true -> 2 <= j.
Proof.
  intros Hj H. destruct (decide (2 <= j)); [done|]. assert (j = 0 \/ j = 1) as [->| ->] by lia; done.
Qed.

Lemma boundary_rejected boundary : boundary < 2 ^ 32 ->
  boundary = 0 \/ OS_MEM_IS_POW_TWO boundary = false \/ OS_MEM_IS_ALIGNED boundary 4 = false -> ∀ j, 2 <= j -> boundary <> 2 ^ j.
Proof.
  intros Hb Hc j Hj ->. pose proof (Z.pow_pos_nonneg 2 j ltac:(lia) ltac:(lia)). destruct Hc as [?|[Hc|Hc]]; [lia|..].
  - unfold OS_MEM_IS_POW_TWO in Hc. rewrite u32_id, Z.sub_1_r, <- Z.ones_equiv, Z.land_ones, Z.mod_same in Hc by lia. done.
  - rewrite aligned4 in Hc; [done|]. exists (2 ^ (j - 2)). change 4 with (2 ^ 2). rewrite <- Z.pow_add_r by lia. f_equal. lia.
Qed.

(** The block of an aligned allocation is marked and the distance written. *)
Lemma aligned_mark_wp p n B s a b g Q : Pool p n B s -> B !! a = Some b -> b_state b = BUsed false -> a <> end_node p n ->
  0 < g -> (4 | g) -> a + 8 + g < a + b_size b ->
  (∀ s', Pool p n (<[a := with_state (BUsed true) b]> B) s' -> (∀ x, live (<[a := with_state (BUsed true) b]> B) x = live B x) ->
     is_handle (<[a := with_state (BUsed true) b]> B) (mem s') (a + 8 + g) a (with_state (BUsed true) b) -> g_poolHead s' = g_poolHead s ->
     (∀ x, owned p n B x -> ~ payload a b x -> mem s' !! x = mem s !! x) -> Q (a + 8 + g) s') ->
  wp (OS_MEM_NODE_SET_ALIGNED_FLAG a ;;; st (a + 8 + g - 4) (setf OS_MEM_GAPSIZE_ALIGNED_FLAG g) ;;; mret (a + 8 + g)) Q s.
Proof.
  intros HP Ha Hu Hne Hg Hg4 Hin HQ. pose proof (pl_inv _ _ _ _ HP) as HI. pose proof (pi_layout _ _ _ _ HI) as HL. destruct (ly_pool _ _ _ HL) as [[? ?] ? _].
  destruct (ly_blk _ _ _ HL _ _ Ha Hne) as (? & ? & ? & Ha4 & _). destruct (pi_hdr _ _ _ _ HI _ _ Ha) as [_ Hw]. destruct Hg4 as [i Hi].
  assert (Hq4 : (4 | a + 8 + g - 4)) by (destruct Ha4 as [ia ->]; exists (ia + 1 + i); lia).
  apply wp_bind. unfold OS_MEM_NODE_SET_ALIGNED_FLAG. apply wp_bind. eapply wp_ld; [done|].
  assert (setf OS_MEM_NODE_ALIGNED_FLAG (b_word b) = b_word (with_state (BUsed true) b)) as ->.
  { unfold b_word, setf. rewrite Hu. cbn. rewrite <- !Z.lor_assoc. done. }
  assert (HS0 : Steps (kept p n B) p n s B s) by by apply Steps_refl.
  eapply wp_mono; [apply (flag_steps HS0); try done; by rewrite Hu|]. intros [] s1 HS1.
  destruct (same_pool HP a b false Ha Hu true s1) as [HP1 Hl1]; [apply HS1|apply (ss_keep _ _ _ _ _ _ HS1); left; offsets; lia..|].
  set (B1 := <[a := with_state (BUsed true) b]> B) in *.
  pose proof (live_at HP a b false Ha Hu Hne) as Hla.
  apply wp_bind, wp_st; [apply (pi_map _ _ _ _ (pl_inv _ _ _ _ HP1)); [offsets; lia|done]|]. apply wp_ret. apply HQ.
  - eapply Pool_write; [done| |].
    + intros x Hx. cbn. apply lookup_insert_ne. intros <-. apply (Hx (a + 8) (b_size b - 8)); [by rewrite Hl1|lia].
    + intros x Hx. cbn. by apply insert_dom.
  - done.
  - split; [unfold B1; by rewrite lookup_insert_eq|right]. cbn. split_and!; try done; try lia.
    + replace (a + 8 + g) with (a + 8 + g - 4 + 4) by lia. apply Z.divide_add_r; [done|by exists 1].
    + rewrite lookup_insert_eq. do 2 f_equal. lia.
  - apply HS1.
  - intros x Hx Hp. cbn. rewrite lookup_insert_ne by (intros <-; apply Hp; unfold payload; lia). apply (ss_keep _ _ _ _ _ _ HS1). by apply (owned_kept p n B x HL).
Qed.

Lemma mem_align_wp p n B s size boundary Q : Pool p n B s -> 0 <= size < 2 ^ 32 -> 0 <= boundary < 2 ^ 32 ->
  (size = 0 \/ (∀ j, 2 <= j -> boundary <> 2 ^ j) \/ 2 ^ 30 <= request size + boundary - 4 \/
     (∀ c d, B !! c = Some d -> b_state d = BFree -> b_size d < block_size (request size + boundary - 4)) -> Q 0 s) ->
  (∀ r s' B' a b, is_handle B' (mem s') r a b -> (boundary | r) -> r + size <= a + b_size b -> Allocated p n B s (a + 8) (b_size b - 8) B' s' -> Q r s') ->
  wp (LOS_MemAllocAlign p size boundary) Q s.
Proof.
  intros HP Hs Hb Hnull HQ. pose proof (pi_layout _ _ _ _ (pl_inv _ _ _ _ HP)) as HL. destruct (ly_pool _ _ _ HL) as [[? ?] ? _].
  unfold LOS_MemAllocAlign, OS_MEM_MIN_ALLOC_SIZE. destruct (Z.eqb_spec p 0); [lia|]. cbn [orb]. destruct (Z.eqb_spec size 0); [apply wp_ret, Hnull; tauto|]. cbn [orb].
  pose proof (boundary_rejected boundary ltac:(lia)) as Hrej.
  destruct (Z.eqb_spec boundary 0); [apply wp_ret, Hnull; right; left; apply Hrej; auto|]. cbn [orb].
  destruct (OS_MEM_IS_POW_TWO boundary) eqn:Hpw; [|apply wp_ret, Hnull; right; left; apply Hrej; auto]. cbn [orb negb].
  destruct (OS_MEM_IS_ALIGNED boundary 4) eqn:Hal; [|apply wp_ret, Hnull; right; left; apply Hrej; auto]. cbn [negb]. fold (request size).
  destruct (pow_two boundary ltac:(lia) Hpw) as (j & Hj & Ej). rewrite Ej in Hal. apply boundary_word in Hal; [|done]. clear Hrej Hpw.
  assert (H4 : 4 <= boundary) by (rewrite Ej; change 4 with (2 ^ 2); apply Z.pow_le_mono_r; lia). destruct (request_spec size ltac:(lia)) as [Hr1 Hr2].
  assert (Hr3 : request size < 2 ^ 32) by (unfold request; destruct (Z.ltb_spec size 8); lia).
  destruct (Z.gtb_spec (boundary - 4) (0xFFFFFFFF - request size)); [apply wp_ret, Hnull; right; right; left; lia|].
  assert (Hus : u32 (u32 (request size + boundary) - 4) = request size + boundary - 4).
  { unfold u32. rewrite Zminus_mod_idemp_l. apply Z.mod_small. lia. }
  rewrite Hus, flags_small by lia. destruct (Z.leb_spec (2 ^ 30) (request size + boundary - 4)); [apply wp_ret, Hnull; tauto|].
  set (us := request size + boundary - 4) in *. destruct (block_size_spec us ltac:(lia)) as [Hk Hk4].
  apply wp_bind, (alloc_wp p n B); [done|lia|..].
  { intros Hno. rewrite Ej, (align_pow2 0 j) by lia. rewrite Z.add_0_l, Z.div_small by lia. cbn. apply wp_ret, Hnull. tauto. }
  intros a b c s1 Ha Hf Hc Hkb HP1 Hg1 Hkp1. set (k := block_size us) in *. rewrite Ej in H4.
  destruct (allocated_region p n B s a k b c s1 HP Ha Hf Hc ltac:(lia) Hk4 HP1 Hg1 Hkp1) as (len & Hlen & HA). set (B1 := allocated a k b c B) in *.
  assert (Hln : live B1 (a + 8) = Some len) by (rewrite (al_live _ _ _ _ _ _ _ _ HA); by rewrite decide_True).
  destruct (live_range HP1 _ _ Hln) as (? & ? & ? & Ha4 & _). destruct (live_blk HP1 _ _ Hln) as (d & ald & Hd & _ & Hdz & Hde). replace (a + 8 - 8) with a in * by lia.
  assert (Hdu : b_state d = BUsed false).
  { destruct (allocated_at HP a k b c Ha Hf Hc ltac:(lia) Hk4) as (d' & Hd' & Hdu' & _). unfold B1 in Hd. congruence. }
  destruct (align_up (a + 8) j ltac:(lia) ltac:(lia) Ha4 ltac:(lia)) as (g & Eg & Hg & Hg4 & Hgb). rewrite Ej, Eg in *. cbn zeta.
  destruct (Z.eqb_spec (a + 8) (a + 8 + g)) as [E|].
  { apply wp_ret. apply (HQ _ _ B1 a d); [|by rewrite E|lia|replace (b_size d - 8) with len by lia; done]. split; [done|]. left. split_and!; [done|lia|done]. }
  unfold OS_MEM_NODE_HEAD_SIZE. replace (a + 8 - 8) with a by lia. replace (u32 (a + 8 + g - (a + 8))) with g by (rewrite u32_id; lia).
  apply (aligned_mark_wp p n B1 s1 a d g); try done; try lia. intros s2 HP2 Hl2 Hh Hg2 Hkp2. eapply (HQ _ s2 _ a _ Hh); [done|cbn; lia|].
  cbn [b_size with_state]. replace (b_size d - 8) with len by lia. destruct HA as [_ Hnew Hl1 Hus1 Hk1 _]. split; [done|done| | | |congruence].
  - intros x. rewrite Hl2. apply Hl1.
  - intros x e ale Hx He Hes. destruct (Hus1 x e ale Hx He Hes) as (e' & ? & ? & ?). exists e'. split_and!; try done. rewrite lookup_insert_ne by lia. done.
  - intros x Hx. rewrite <- (Hk1 x Hx). apply Hkp2.
    + destruct Hx as [?|[?|(q & l & Hq & Hqx)]]; [by left|by right; left|]. right; right. exists q, l. split; [|done]. rewrite Hl1, decide_False; [done|].
      pose proof (Hnew _ _ Hq). pose proof (live_range HP _ _ Hq). lia.
    + unfold payload. destruct Hx as [?|[?|(q & l & Hq & Hqx)]]; [lia|lia|]. pose proof (Hnew _ _ Hq). lia.
Qed.

(** C33: LOS_MemAllocAlign returns NULL, with nothing changed, only for size 0, a boundary that
    is not a power of two of at least 4, a sum that is too large, or when no block is long
    enough; otherwise it returns a multiple of the boundary with at least the size asked for
    behind it in a new block, and the pointer is one that LOS_MemFree accepts. *)
Theorem mem_align_correct p n B s size boundary : Pool p n B s -> 0 <= size < 2 ^ 32 -> 0 <= boundary < 2 ^ 32 ->
  wp (LOS_MemAllocAlign p size boundary) (λ r s',
    r = 0 /\ s' = s /\
      (size = 0 \/ (∀ j, 2 <= j -> boundary <> 2 ^ j) \/ 2 ^ 30 <= request size + boundary - 4 \/
       ∀ c d, B !! c = Some d -> b_state d = BFree -> b_size d < block_size (request size + boundary - 4)) \/
    ∃ B' a b, is_handle B' (mem s') r a b /\ (boundary | r) /\ r + size <= a + b_size b /\ Allocated p n B s (a + 8) (b_size b - 8) B' s') s.
Proof.
  intros HP Hs Hb. apply (mem_align_wp p n B); [done..| |].
  - tauto.
  - intros r s' B' a b Hh Hd Hr HA. right. eauto 10.
Qed.
