(* ===== verification/MemPools.v ===== *)
(** Correctness of the dynamic allocator, part 7: making a pool out of raw
    memory, and the list of the pools. *)

From S2P Require Import Prelude Errno Membox Memory MemInv MemBlocks MemWalk MemAlloc MemApi MemResize.

(** ** Clearing memory *)

Record Zeroed (m a : Z) (s s' : Heap) : Prop := {
  ze_head : g_poolHead s' = g_poolHead s;
  ze_data : ∀ i, 0 <= i < m -> mem s' !! (a + 4 * i) = Some 0;
  ze_keep : ∀ x, ~ a <= x < a + 4 * m -> mem s' !! x = mem s !! x;
  ze_dom : ∀ x, is_Some (mem s !! x) -> is_Some (mem s' !! x);
}.

Lemma zero_words_wp m a s Q : (∀ i, 0 <= i < Z.of_nat m -> is_Some (mem s !! (a + 4 * i))) ->
  (∀ s', Zeroed (Z.of_nat m) a s s' -> Q tt s') -> wp (zero_words m a) Q s.
Proof.
  revert a s Q. induction m as [|m IH]; intros a s Q Hmap HQ; cbn [zero_words].
  { apply wp_ret, HQ. split; done || (intros; lia) || done. }
  pose proof (Hmap 0 ltac:(lia)) as Hd. rewrite Z.mul_0_r, Z.add_0_r in Hd. apply wp_bind, wp_st; [done|]. apply IH.
  - intros i Hi. cbn. apply insert_dom. replace (a + 4 + 4 * i) with (a + 4 * (i + 1)) by lia. apply Hmap. lia.
  - intros s' [Hg Hdt Hk Hdm]. cbn in *. apply HQ. split.
    + done.
    + intros i Hi. destruct (decide (i = 0)) as [->|].
      * rewrite Z.mul_0_r, Z.add_0_r, Hk by lia. by rewrite lookup_insert_eq.
      * replace (a + 4 * i) with (a + 4 + 4 * (i - 1)) by lia. apply Hdt. lia.
    + intros x Hx. rewrite Hk by lia. rewrite lookup_insert_ne by lia. done.
    + intros x Hx. apply Hdm, insert_dom. done.
Qed.

(** ** A new pool *)

Section init.
Context (p n : Z) (Hok : pool_ok p n).

(** One free block and the end node. *)
Definition init_blocks : gmap Z Blk :=
  <[first_node p := mk_Blk (end_node p n) (n - 952) BFree]> (<[end_node p n := mk_Blk (first_node p) 0 (BUsed false)]> ∅).

Lemma init_lookup x b : init_blocks !! x = Some b <->
  x = first_node p /\ b = mk_Blk (end_node p n) (n - 952) BFree \/ x = end_node p n /\ b = mk_Blk (first_node p) 0 (BUsed false).
Proof using Hok.
  destruct Hok as [_ ? _]. assert (first_node p <> end_node p n) by (offsets; lia). unfold init_blocks. rewrite !lookup_insert. split.
  - repeat case_decide; intros ?; simplify_eq; auto.
  - intros [[-> ->]|[-> ->]]; repeat case_decide; simplify_eq; done.
Qed.

Lemma init_layout : Layout p n init_blocks.
Proof using Hok.
  pose proof Hok as [[? ?] ? [[ip Hip] [ik Hik]]]. split.
  - done.
  - exists (first_node p). apply init_lookup. by right.
  - intros a b [[-> ->]|[-> ->]]%init_lookup Hne; [|done]. cbn. offsets. split_and!; try lia; [exists (ip + 236)|exists (ik - 238)]; lia.
  - intros a b [[-> ->]|[-> ->]]%init_lookup Hne; [|done]. exists (mk_Blk (first_node p) 0 (BUsed false)). split; [|done]. apply init_lookup. right. split; [|done]. cbn. offsets. lia.
  - eexists. split; [apply init_lookup; by left|done].
  - intros a b [[-> ->]|[-> ->]]%init_lookup Hne; [done|]. cbn. split; [offsets; lia|]. eexists. split; [apply init_lookup; by left|]. cbn. offsets. lia.
  - intros a b a' b' [[-> ->]|[-> ->]]%init_lookup [[-> ->]|[-> ->]]%init_lookup; cbn; offsets; lia.
Qed.

Abbreviation i := (idx (n - 952)).

(** The words of the new pool. *)
Record InitMem (W : gmap Z Z) : Prop := {
  im_info : W !! p = Some p /\ W !! (p + 4) = Some n;
  im_count : W !! (p + 12) = Some 952 /\ W !! (p + 16) = Some 952;
  im_bits : ∀ j, 0 <= j < 7 -> W !! (p + 20 + 4 * j) = Some (if decide (j = i / 32) then setf (2 ^ (i mod 32)) 0 else 0);
  im_heads : ∀ j, 0 <= j < 223 -> W !! (p + 48 + 4 * j) = Some (if decide (j = i) then p + 944 else 0);
  im_next : W !! (p + 940) = Some 0;
  im_first : W !! (p + 944) = Some (p + n - 8) /\ W !! (p + 944 + 4) = Some (n - 952) /\ W !! (p + 944 + 8) = Some 0 /\ W !! (p + 944 + 12) = Some 0;
  im_end : W !! (p + n - 8) = Some (p + 944) /\ W !! (p + n - 8 + 4) = Some (setf OS_MEM_NODE_USED_FLAG 0);
  im_dom : ∀ x, p <= x < p + n -> (4 | x) -> is_Some (W !! x);
}.

Lemma init_index : 0 <= i < 207.
Proof using Hok. destruct Hok as [_ ? _]. apply idx_range. lia. Qed.

Lemma init_pool s : InitMem (mem s) -> Pool p n init_blocks s.
Proof using Hok.
  intros [[H1 H2] [H3 H4] Hb Hh Hn (F1 & F2 & F3 & F4) [E1 E2] Hd]. pose proof Hok as [[? ?] ? _]. pose proof init_index.
  assert (Hw : weigh used_size init_blocks = 0).
  { unfold init_blocks. rewrite !weigh_new, weigh_empty; [done|done|]. rewrite lookup_insert_ne by (offsets; lia). done. }
  assert (Hf1 : ∀ j c, c ∈ (if decide (j = i) then [first_node p] else []) <-> j = i /\ c = first_node p) by (intros j c; case_decide; set_solver).
  split; [split|..].
  - apply init_layout.
  - intros a b [[-> ->]|[-> ->]]%init_lookup; offsets; done.
  - exists (λ j, if decide (j = i) then [first_node p] else []). split; [split|split].
    + intros j Hj. rewrite Hh by done. by case_decide.
    + intros j Hj. eexists. split; [by apply Hb|]. case_decide as Hji.
      * pose proof (Z.mod_pos_bound i 32 ltac:(lia)). split; [apply setf_word; lia|]. intros k Hk. rewrite bit_set by lia.
        pose proof (Z.div_mod i 32 ltac:(lia)). case_decide as Hki.
        { rewrite bool_decide_true; [done|]. rewrite decide_True by lia. done. }
        rewrite Z.bits_0, bool_decide_false; [done|]. rewrite decide_False; [tauto|]. intros E. apply Hki. rewrite <- E. rewrite Z.add_comm, Z.mul_comm, Z.mod_add by lia. by rewrite Z.mod_small.
      * split; [lia|]. intros k Hk. rewrite Z.bits_0, bool_decide_false; [done|]. rewrite decide_False; [tauto|]. intros E. apply Hji. rewrite <- E, Z.add_comm, Z.mul_comm, Z.div_add by lia. rewrite Z.div_small; lia.
    + intros j l1 c l2 E. assert (Hc : j = i /\ c = first_node p) by (apply Hf1; rewrite E; set_solver). destruct Hc as [-> ->]. rewrite decide_True in E by done.
      destruct l1 as [|? [|]]; simplify_eq/=. done.
    + intros j c. rewrite Hf1. split.
      * intros [-> ->]. eexists. split; [apply init_lookup; by left|done].
      * intros (b & [[-> ->]|[-> ->]]%init_lookup & Hs & <-); done.
    + intros j. case_decide; [apply NoDup_singleton|apply NoDup_nil_2].
  - offsets. done.
  - done.
  - intros a b [[-> ->]|[-> ->]]%init_lookup; done.
  - intros a b c [[-> ->]|[-> ->]]%init_lookup Hs [[E ->]|[E ->]]%init_lookup; try done. cbn in E. offsets. lia.
  - rewrite Hw. offsets. done.
  - exists 952. rewrite Hw. offsets. split; [done|lia].
Qed.
End init.

Definition mapped (p n : Z) (s : Heap) : Prop := ∀ x, p <= x < p + n -> (4 | x) -> is_Some (mem s !! x).

Lemma pool_init_wp p n s Q : pool_ok p n -> mapped p n s ->
  (∀ s', InitMem p n (mem s') -> g_poolHead s' = g_poolHead s -> (∀ x, ~ p <= x < p + n -> mem s' !! x = mem s !! x) ->
     (∀ x, is_Some (mem s !! x) -> is_Some (mem s' !! x)) -> Q LOS_OK s') ->
  wp (OsMemPoolInit p n) Q s.
Proof.
  intros Hok Hmap HQ. pose proof Hok as [[? ?] ? [[ip Hip] [ik Hik]]]. pose proof (init_index p n Hok) as Hi.
  unfold OsMemPoolInit. change (Z.to_nat (sizeof_OsMemPoolHead / 4)) with 236%nat. change (sizeof_OsMemPoolHead) with 944. change OS_MEM_NODE_HEAD_SIZE with 8.
  change (OS_MEM_FIRST_NODE p) with (p + 944). unfold OS_MEM_END_NODE. change OS_MEM_NODE_HEAD_SIZE with 8. rewrite (u32_id (p + n - 8)), (u32_id (n - 944 - 8)) by lia.
  apply wp_bind, zero_words_wp. { intros j Hj. apply Hmap; [lia|]. exists (ip + j). lia. }
  change (Z.of_nat 236) with 236. intros s1 [Hg1 Hz Hk Hd1].
  assert (Hz0 : ∀ x j, x = p + 4 * j -> 0 <= j < 236 -> mem s1 !! x = Some 0) by (intros x j -> Hj; by apply Hz).
  assert (Hdom : ∀ x j, x = p + 4 * j -> p <= x < p + n -> is_Some (mem s1 !! x)) by (intros x j -> Hx; apply Hd1, Hmap; [done|]; exists (ip + j); lia).
  apply wp_bind, wp_st; [apply (Hdom _ 0); offsets; lia|]. apply wp_bind, wp_st; [cbn; apply insert_dom, (Hdom _ 1); offsets; lia|].
  apply wp_bind. eapply wp_ld; [cbn; look; apply (Hz0 _ 2); offsets; lia|]. apply wp_bind, wp_st; [cbn; do 2 apply insert_dom; apply (Hdom _ 2); offsets; lia|].
  apply wp_bind, wp_st; [cbn; do 3 apply insert_dom; apply (Hdom _ 237); offsets; lia|]. apply wp_bind, wp_st; [cbn; do 4 apply insert_dom; apply (Hdom _ 236); offsets; lia|].
  apply wp_bind. unfold OsMemFreeNodeAdd. apply wp_bind. eapply wp_ld; [cbn; by look|]. replace (n - 944 - 8) with (n - 952) by lia. set (i := idx (n - 952)) in *.
  change (OsMemFreeListIndexGet (n - 952)) with i. change OS_MEM_FREE_LIST_COUNT with 223. destruct (Z.geb_spec i 223); [lia|].
  unfold OsMemListAdd. apply wp_bind, wp_freeList; [lia|]. apply wp_bind. eapply wp_ld; [cbn; look; apply (Hz0 _ (12 + i)); lia|].
  apply wp_bind, wp_ret. apply wp_bind, wp_st; [cbn; do 5 apply insert_dom; apply (Hdom _ 238); offsets; lia|]. apply wp_bind, wp_st; [cbn; do 6 apply insert_dom; apply (Hdom _ 239); offsets; lia|].
  apply wp_bind, wp_st; [cbn; do 7 apply insert_dom; apply (Hdom _ (12 + i)); lia|].
  pose proof (Z.div_mod i 32 ltac:(lia)). pose proof (Z.mod_pos_bound i 32 ltac:(lia)).
  eapply set_bit_wp; [lia|cbn; look; apply (Hz0 _ (5 + i / 32)); lia|].
  apply wp_bind, wp_st; [cbn; do 9 apply insert_dom; apply (Hdom _ (ik - 1)); offsets; lia|]. apply wp_bind, wp_st; [cbn; do 10 apply insert_dom; apply (Hdom _ (ik - 2)); offsets; lia|].
  unfold OS_MEM_NODE_SET_USED_FLAG. apply wp_bind, wp_bind. eapply wp_ld; [cbn; by look|]. apply wp_st; [cbn; do 11 apply insert_dom; apply (Hdom _ (ik - 1)); offsets; lia|].
  apply wp_bind, wp_st; [cbn; do 12 apply insert_dom; apply (Hdom _ 4); offsets; lia|]. apply wp_bind. eapply wp_ld; [cbn; by look|].
  apply wp_bind, wp_st; [cbn; do 13 apply insert_dom; apply (Hdom _ 3); offsets; lia|]. apply wp_ret. cbn. apply HQ; cbn.
  - offsets. split.
    + split; by look.
    + split; by look.
    + intros j Hj. fold i. case_decide as Hji; [subst j; by look|]. look. apply (Hz0 _ (5 + j)); lia.
    + intros j Hj. fold i. case_decide as Hji; [rewrite Hji; by look|]. look. apply (Hz0 _ (12 + j)); lia.
    + look. apply (Hz0 _ 235); lia.
    + split_and!; by look.
    + split; by look.
    + intros x Hx Hx4. repeat apply insert_dom. apply Hd1, Hmap; done.
  - done.
  - intros x Hx. look. apply Hk. lia.
  - intros x Hx. repeat apply insert_dom. by apply Hd1.
Qed.

(** ** The list of the pools *)

(** A pool of the list, with its blocks. *)
Record PoolG := mk_PoolG { pg_addr : Z; pg_size : Z; pg_blocks : gmap Z Blk }.

Definition head_addr (ps : list PoolG) : Z := match ps with [] => 0 | g :: _ => pg_addr g end.
Definition last_addr (h : Z) (ps : list PoolG) : Z := match last ps with Some g => pg_addr g | None => h end.
Definition chain (W : gmap Z Z) (ps : list PoolG) : Prop :=
  ∀ l1 g l2, ps = l1 ++ g :: l2 -> W !! nextPool (pg_addr g) = Some (head_addr l2).
Definition pool_in (s : Heap) (g : PoolG) : Prop := Pool (pg_addr g) (pg_size g) (pg_blocks g) s.
Definition pools_apart (g h : PoolG) : Prop := pg_addr g + pg_size g <= pg_addr h \/ pg_addr h + pg_size h <= pg_addr g.

Record Pools (ps : list PoolG) (s : Heap) : Prop := {
  ps_head : g_poolHead s = head_addr ps;
  ps_chain : chain (mem s) ps;
  ps_pool : ∀ g, g ∈ ps -> pool_in s g;
  ps_apart : ∀ l1 g l2 h, ps = l1 ++ g :: l2 -> h ∈ l2 -> pools_apart g h;
}.

Lemma pool_in_ok s g : pool_in s g -> 0 < pg_addr g /\ pg_addr g + pg_size g < 2 ^ 32 /\ 968 <= pg_size g /\ mem s !! info_totalSize (pg_addr g) = Some (pg_size g) /\
  mem s !! info_pool (pg_addr g) = Some (pg_addr g).
Proof.
  intros HP. destruct (ly_pool _ _ _ (pi_layout _ _ _ _ (pl_inv _ _ _ _ HP))) as [[? ?] ? _]. destruct (pi_info _ _ _ _ (pl_inv _ _ _ _ HP)). split_and!; try done. lia.
Qed.

(** A pool depends on its own words, the link to the next pool excepted. *)
Lemma Pool_local p n B s s' : Pool p n B s -> (∀ x, p <= x < p + n -> x <> nextPool p -> mem s' !! x = mem s !! x) ->
  (∀ x, is_Some (mem s !! x) -> is_Some (mem s' !! x)) -> Pool p n B s'.
Proof.
  intros HP Hx Hs. pose proof (pl_inv _ _ _ _ HP) as [HL Hh (F & HF & HM) [Hi1 Hi2] Hm]. destruct (ly_pool _ _ _ HL) as [[? ?] ? _].
  assert (Hhead : ∀ x, p <= x < p + 940 -> mem s' !! x = mem s !! x) by (intros x Hr; apply Hx; offsets; lia).
  assert (Hin : ∀ x, p + 944 <= x < p + n -> mem s' !! x = mem s !! x) by (intros x Hr; apply Hx; offsets; lia).
  split; [split|apply HP|apply HP| |].
  - done.
  - intros a b Ha. destruct (blk_range _ _ HL _ _ Ha) as (Hr & _). rewrite !Hin by (offsets; lia). auto.
  - exists F. split; [|done]. eapply FreeLists_ext; [done|intros x Hr; apply Hhead; lia|].
    intros i c (d & Hd & Hf & _)%(mb_in _ _ HM). destruct (ly_blk _ _ _ HL _ _ Hd (free_not_end _ _ HL _ _ Hd Hf)) as (? & ? & ? & _).
    rewrite !Hin by (offsets; lia). done.
  - rewrite !Hhead by (offsets; lia). done.
  - auto.
  - rewrite Hhead by (offsets; lia). apply HP.
  - rewrite Hhead by (offsets; lia). apply HP.
Qed.

Lemma pools_unique ps s l1 g l2 : Pools ps s -> ps = l1 ++ g :: l2 -> ∀ h, h ∈ l1 ++ l2 -> pools_apart g h.
Proof.
  intros HPs E h [Hh|Hh]%elem_of_app; [|by eapply ps_apart]. apply list_elem_of_split in Hh as (k1 & k2 & ->).
  destruct (ps_apart _ _ HPs k1 h (k2 ++ g :: l2) g) as [?|?]; [by rewrite E, <- app_assoc|set_solver|by right|by left].
Qed.

Lemma pools_words ps s : Pools ps s -> (length ps <= size (mem s))%nat.
Proof.
  intros HPs. rewrite <- (length_map pg_addr ps). apply nodup_size.
  - assert (Hap : ∀ l1 g l2 h, ps = l1 ++ g :: l2 -> h ∈ l2 -> pg_addr g <> pg_addr h).
    { intros l1 g l2 h E Hh Ea. destruct (pool_in_ok s g) as (_ & _ & ? & _); [apply HPs; set_solver|]. destruct (pool_in_ok s h) as (_ & _ & ? & _); [apply HPs; set_solver|].
      destruct (ps_apart _ _ HPs _ _ _ _ E Hh); lia. }
    clear HPs. induction ps as [|g ps IH]; cbn; [apply NoDup_nil_2|]. apply NoDup_cons. split.
    + intros (h & E & Hh)%list_elem_of_fmap. by apply (Hap [] g ps h).
    + apply IH. intros l1 g' l2 h -> Hh. by apply (Hap (g :: l1) g' l2 h).
  - intros x (g & -> & Hg)%list_elem_of_fmap. destruct (pool_in_ok s g) as (_ & _ & _ & _ & Hp); [by apply HPs|]. unfold info_pool in Hp. eauto.
Qed.

(** ** Adding a pool *)

Section add.
Context (p n : Z) (Hok : pool_ok p n) (ps : list PoolG) (s : Heap) (HPs : Pools ps s).
Context (Hap : ∀ g, g ∈ ps -> p + n <= pg_addr g \/ pg_addr g + pg_size g <= p).

Lemma add_loop_wp l1 l2 fuel cur Q : ps = l1 ++ l2 -> (length l2 < fuel)%nat -> Q (Some (last_addr cur l2)) s ->
  wp (OsMemPoolAdd_loop fuel p n cur (head_addr l2)) Q s.
Proof using All.
  destruct Hok as [[? ?] ? _]. revert l1 cur fuel. induction l2 as [|g l2 IH]; intros l1 cur fuel E Hf HQ; (destruct fuel; [cbn in Hf; lia|]); cbn [OsMemPoolAdd_loop].
  { cbn. by apply wp_ret. }
  assert (Hg : g ∈ ps) by (rewrite E; set_solver). destruct (pool_in_ok s g) as (? & ? & ? & Hn & _); [by apply HPs|]. cbn [head_addr].
  destruct (Z.eqb_spec (pg_addr g) 0); [lia|]. apply wp_bind. unfold LOS_MemPoolSizeGet. destruct (Z.eqb_spec (pg_addr g) 0); [lia|]. eapply wp_ld; [done|].
  rewrite !u32_id by lia. specialize (Hap g Hg). assert (Hno : (p <=? pg_addr g) && (p + n >? pg_addr g) || (p <? pg_addr g + pg_size g) && (p + n >=? pg_addr g + pg_size g) = false).
  { destruct (Z.leb_spec p (pg_addr g)), (Z.gtb_spec (p + n) (pg_addr g)), (Z.ltb_spec p (pg_addr g + pg_size g)), (Z.geb_spec (p + n) (pg_addr g + pg_size g)); cbn; lia || done. }
  rewrite Hno. apply wp_bind. eapply wp_ld; [by eapply (ps_chain _ _ HPs l1)|]. apply (IH (l1 ++ [g])); [by rewrite <- app_assoc|cbn in Hf; lia|].
  enough (last_addr (pg_addr g) l2 = last_addr cur (g :: l2)) as -> by done. unfold last_addr. rewrite last_cons. by destruct (last l2).
Qed.
End add.

(** Changes outside the pools of the list, the links excepted. *)
Lemma pools_kept ps s s' : Pools ps s -> g_poolHead s' = g_poolHead s ->
  (∀ g x, g ∈ ps -> pg_addr g <= x < pg_addr g + pg_size g -> mem s' !! x = mem s !! x) ->
  (∀ x, is_Some (mem s !! x) -> is_Some (mem s' !! x)) -> Pools ps s'.
Proof.
  intros [Hh Hc Hp Ha] Hg Hk Hd. split; [congruence| | |done].
  - intros l1 g l2 E. destruct (pool_in_ok s g) as (? & ? & ? & _); [apply Hp; set_solver|]. rewrite (Hk g); [by eapply Hc|set_solver|offsets; lia].
  - intros g Hi. eapply Pool_local; [by apply Hp|intros x Hx _; by apply (Hk g)|done].
Qed.

Lemma last_in ps g l : ps = l ++ [g] -> last_addr 0 ps = pg_addr g.
Proof. intros ->. unfold last_addr. by rewrite last_snoc. Qed.

Section added.
Context (p n : Z) (Hok : pool_ok p n) (ps : list PoolG) (s s' : Heap) (HPs : Pools ps s) (Hnew : Pool p n (init_blocks p n) s).
Context (Hap : ∀ g, g ∈ ps -> p + n <= pg_addr g \/ pg_addr g + pg_size g <= p).
Context (Hhead : g_poolHead s' = if decide (ps = []) then p else g_poolHead s).
Context (Hlink : ∀ x, mem s' !! x = if decide (x = nextPool p) then Some 0 else if decide (ps <> [] /\ x = nextPool (last_addr 0 ps)) then Some p else mem s !! x).

Lemma pools_added : Pools (ps ++ [mk_PoolG p n (init_blocks p n)]) s'.
Proof using All.
  pose proof Hok as [[? ?] ? _].
  assert (Hok' : ∀ g, g ∈ ps -> 0 < pg_addr g /\ 968 <= pg_size g) by (intros g Hg; destruct (pool_in_ok s g) as (? & ? & ? & _); [by apply HPs|done]).
  assert (Hdom : ∀ x, is_Some (mem s !! x) -> is_Some (mem s' !! x)) by (intros x Hx; rewrite Hlink; by repeat case_decide).
  assert (Hlast : ∀ l g, ps = l ++ [g] -> g ∈ ps) by (intros l g ->; set_solver).
  assert (Hcase : ps = [] \/ ∃ l g, ps = l ++ [g]) by apply list_snoc_case.
  split.
  - rewrite Hhead. case_decide as E; [by rewrite E|]. rewrite (ps_head _ _ HPs). by destruct ps.
  - intros l1 g l2 E. rewrite Hlink. destruct l2 as [|h l2 _] using rev_ind.
    { apply app_inj_tail in E as [-> <-]. cbn. by rewrite decide_True. }
    rewrite app_comm_cons, app_assoc in E. apply app_inj_tail in E as [E <-]. assert (Hg : g ∈ ps) by (rewrite E; set_solver). pose proof (Hap g Hg). destruct (Hok' g Hg).
    rewrite decide_False by (offsets; lia). destruct l2 as [|h l2]; cbn.
    { rewrite decide_True; [done|]. split; [by rewrite E; destruct l1|]. by rewrite (last_in _ g l1). }
    rewrite decide_False; [exact (ps_chain _ _ HPs _ _ _ E)|]. intros [_ Hx]. destruct Hcase as [E'|(l & g' & E')]; [rewrite E' in E; by destruct l1|].
    rewrite (last_in _ g' l E') in Hx. assert (Hgh : g' ∈ h :: l2).
    { assert (El : last ps = Some g') by (rewrite E'; apply last_snoc). rewrite E, last_app_cons, last_cons_cons in El. by apply last_Some_elem_of in El. }
    destruct (ps_apart _ _ HPs _ _ _ _ E Hgh); destruct (Hok' g') as [? ?]; [by eapply Hlast| |by eapply Hlast|]; offsets; lia.
  - intros g [Hg| ->%list_elem_of_singleton]%elem_of_app.
    + eapply Pool_local; [by apply (ps_pool _ _ HPs)| |done]. intros x Hx Hxn. rewrite Hlink. pose proof (Hap g Hg). destruct (Hok' g Hg). rewrite decide_False by (offsets; lia).
      rewrite decide_False; [done|]. intros [_ ->]. destruct Hcase as [E|(l & g' & E)]; [rewrite E in Hg; set_solver|]. rewrite (last_in _ g' l E) in Hx, Hxn.
      assert (Hgl : g ∈ l). { rewrite E in Hg. apply elem_of_app in Hg as [?|Hg%list_elem_of_singleton]; [done|]. by subst. }
      apply list_elem_of_split in Hgl as (k1 & k2 & ->). destruct (Hok' g' ltac:(by eapply Hlast)).
      destruct (ps_apart _ _ HPs k1 g (k2 ++ [g']) g'); [by rewrite E, <- app_assoc|set_solver|offsets; lia..].
    + cbn. eapply Pool_local; [exact Hnew| |done]. intros x Hx Hxn. rewrite Hlink, decide_False by done. rewrite decide_False; [done|]. intros [Hn ->].
      destruct Hcase as [E|(l & g' & E)]; [done|]. rewrite (last_in _ g' l E) in Hx. pose proof (Hap g' ltac:(by eapply Hlast)). destruct (Hok' g' ltac:(by eapply Hlast)). cbn in Hx. offsets. lia.
  - intros l1 g l2 h E Hh. destruct l2 as [|h' l2 _] using rev_ind; [set_solver|]. rewrite app_comm_cons, app_assoc in E. apply app_inj_tail in E as [E <-].
    apply elem_of_app in Hh as [Hh| ->%list_elem_of_singleton]; [by eapply (ps_apart _ _ HPs)|]. unfold pools_apart. cbn. pose proof (Hap g ltac:(rewrite E; set_solver)). lia.
Qed.
End added.

Lemma land3 x : (4 | x) -> (Z.land x (OS_MEM_ALIGN_SIZE - 1) =? 0) = true.
Proof. intros [k ->]. change (OS_MEM_ALIGN_SIZE - 1) with (Z.ones 2). rewrite Z.land_ones by lia. change (2 ^ 2) with 4. by rewrite Z.mod_mul. Qed.

Lemma last_addr_default h ps : ps <> [] -> last_addr h ps = last_addr 0 ps.
Proof. intros Hne. unfold last_addr. destruct (list_snoc_case ps) as [?|(l & g & ->)]; [done|]. by rewrite last_snoc. Qed.

(** The pool [p] has been added at the end of the list; words outside it are kept,
    links of the list excepted. *)
Definition Added (p n : Z) (ps : list PoolG) (s s' : Heap) : Prop :=
  Pools (ps ++ [mk_PoolG p n (init_blocks p n)]) s' /\
  ∀ x, ~ p <= x < p + n -> (∀ g, g ∈ ps -> x <> nextPool (pg_addr g)) -> mem s' !! x = mem s !! x.

Lemma mem_init_wp p n ps s : Pools ps s -> pool_ok p n -> mapped p n s ->
  (∀ g, g ∈ ps -> p + n <= pg_addr g \/ pg_addr g + pg_size g <= p) ->
  wp (LOS_MemInit p n) (λ r s', r = LOS_OK /\ Added p n ps s s') s.
Proof.
  intros HPs Hok Hmap Hap. pose proof Hok as [[? ?] ? [Hp4 Hn4]]. unfold LOS_MemInit, OS_MEM_MIN_POOL_SIZE, OS_MEM_NODE_HEAD_SIZE, sizeof_OsMemPoolHead.
  destruct (Z.eqb_spec p 0); [lia|]. destruct (Z.leb_spec n (8 + 944)); [lia|]. cbn [orb]. rewrite !land3 by done. cbn [negb orb].
  apply wp_bind, pool_init_wp; [done|done|]. intros s1 HI1 Hg1 Hk1 Hd1. rewrite Z.eqb_refl. cbn [negb].
  assert (HPs1 : Pools ps s1) by (apply (pools_kept ps s); try done; intros g x Hg Hx; apply Hk1; pose proof (Hap g Hg); lia).
  apply wp_bind. unfold OsMemPoolAdd. apply wp_bind, wp_gets, wp_bind, walk_wp, wp_bind. rewrite (ps_head _ _ HPs1).
  apply (add_loop_wp p n Hok ps s1 HPs1 Hap [] ps); [done|pose proof (pools_words _ _ HPs1); lia|].
  pose proof (init_pool p n Hok s1 HI1) as HP1.
  assert (Hend : ∀ s2, g_poolHead s2 = (if decide (ps = []) then p else g_poolHead s1) ->
    mem s2 = (if decide (ps = []) then mem s1 else <[nextPool (last_addr 0 ps) := p]> (mem s1)) ->
    wp (st (nextPool p) 0 ;;; mret LOS_OK) (λ ret s', wp (if negb (ret =? LOS_OK) then OsMemPoolDeInit p ;;; mret LOS_NOK else mret LOS_OK)
      (λ r s', r = LOS_OK /\ Added p n ps s s') s') s2).
  { intros s2 Hg2 Hm2. assert (Hm : ∀ x, mem s2 !! x = if decide (ps <> [] /\ x = nextPool (last_addr 0 ps)) then Some p else mem s1 !! x).
    { intros x. rewrite Hm2. destruct (decide (ps = [])); [by rewrite decide_False by tauto|]. rewrite lookup_insert. repeat case_decide; try done; naive_solver. }
    apply wp_bind, wp_st. { rewrite Hm. destruct (decide (ps <> [] /\ _)); [eauto|]. apply (im_dom _ _ _ HI1); [offsets; lia|]. apply Z.divide_add_r; [done|by exists 235]. }
    apply wp_ret. rewrite Z.eqb_refl. apply wp_ret. split; [done|split].
    - apply (pools_added p n Hok ps s1); try done. intros x. cbn. rewrite lookup_insert, Hm. repeat case_decide; try done; congruence.
    - intros x Hx Hxl. cbn. rewrite lookup_insert_ne by (offsets; lia). rewrite Hm, decide_False; [by apply Hk1|]. intros [Hne ->].
      destruct (list_snoc_case ps) as [?|(l & g & E)]; [done|]. rewrite (last_in ps g l E) in Hxl. apply (Hxl g); [rewrite E; set_solver|done]. }
  destruct (list_snoc_case ps) as [E|(l & g & E)].
  - rewrite E. cbn [head_addr]. rewrite Z.eqb_refl. apply wp_bind, wp_modify. rewrite E in Hend. by apply Hend.
  - assert (Hne : ps <> []) by (rewrite E; by destruct l). assert (Hgi : g ∈ ps) by (rewrite E; set_solver).
    assert (Hh : head_addr ps <> 0). { destruct ps as [|h ?]; [done|]. cbn. destruct (pool_in_ok s1 h) as (? & _); [apply HPs1; set_solver|lia]. }
    destruct (Z.eqb_spec (head_addr ps) 0); [done|]. rewrite last_addr_default by done. apply wp_bind, wp_st; [rewrite (last_in ps g l E); rewrite (ps_chain _ _ HPs1 _ _ _ E); eauto|].
    apply Hend; cbn; by rewrite decide_False.
Qed.

(** C34: LOS_MemInit of raw memory of 968 bytes to 256 MiB apart from the other pools succeeds
    and appends to the list of the pools a well-formed pool with one free block; the other pools
    stay well formed, and memory outside the new pool is left alone, the links of the list
    excepted. *)
Theorem mem_init_correct p n ps s : Pools ps s -> pool_ok p n -> mapped p n s ->
  (∀ g, g ∈ ps -> p + n <= pg_addr g \/ pg_addr g + pg_size g <= p) ->
  wp (LOS_MemInit p n) (λ r s', r = LOS_OK /\ Added p n ps s s') s.
Proof. intros. by apply mem_init_wp. Qed.

(** ** Removing a pool *)

Section remove.
Context (ps l1 l2 : list PoolG) (g : PoolG) (s : Heap) (HPs : Pools ps s) (E : ps = l1 ++ g :: l2).

Lemma pool_of h : h ∈ l1 ++ l2 -> h ∈ ps /\ pools_apart g h /\ pg_addr h <> pg_addr g.
Proof using All.
  intros Hh. assert (Hi : h ∈ ps) by (rewrite E; set_solver). pose proof (pools_unique _ _ _ _ _ HPs E h Hh) as Ha. split_and!; try done.
  destruct (pool_in_ok s h) as (_ & _ & ? & _); [by apply HPs|]. destruct (pool_in_ok s g) as (_ & _ & ? & _); [apply HPs; rewrite E; set_solver|]. destruct Ha; lia.
Qed.

Lemma delete_loop_wp k1 m fuel cur Q : l1 = k1 ++ m -> (length m < fuel)%nat ->
  wp (st (nextPool (last_addr cur m)) (head_addr l2) ;;; mret LOS_OK) Q s ->
  wp (OsMemPoolDelete_loop fuel (pg_addr g) cur (head_addr (m ++ g :: l2))) Q s.
Proof using All.
  revert k1 cur fuel. induction m as [|h m IH]; intros k1 cur fuel El Hf HQ; (destruct fuel; [cbn in Hf; lia|]); cbn [OsMemPoolDelete_loop app head_addr].
  - destruct (pool_in_ok s g) as (? & _); [apply HPs; rewrite E; set_solver|]. destruct (Z.eqb_spec (pg_addr g) 0); [lia|].
    apply wp_bind. eapply wp_ld; [exact (ps_chain _ _ HPs _ _ _ E)|]. by rewrite Z.eqb_refl.
  - destruct (pool_of h) as (Hi & _ & Hne); [rewrite El; set_solver|]. destruct (pool_in_ok s h) as (? & _); [by apply HPs|]. destruct (Z.eqb_spec (pg_addr h) 0); [lia|].
    assert (E' : ps = k1 ++ h :: (m ++ g :: l2)) by (rewrite E, El, <- app_assoc; done). apply wp_bind. eapply wp_ld; [exact (ps_chain _ _ HPs _ _ _ E')|].
    destruct (Z.eqb_spec (pg_addr g) (pg_addr h)); [congruence|]. apply (IH (k1 ++ [h])); [by rewrite <- app_assoc|cbn in Hf; lia|].
    enough (last_addr (pg_addr h) m = last_addr cur (h :: m)) as -> by done. unfold last_addr. rewrite last_cons. by destruct (last m).
Qed.

(** The list without [g], whose link the one before it takes over. *)
Lemma pools_removed s' :
  g_poolHead s' = (if decide (l1 = []) then head_addr l2 else g_poolHead s) ->
  (∀ h x, h ∈ l1 ++ l2 -> pg_addr h <= x < pg_addr h + pg_size h -> mem s' !! x =
     if decide (l1 <> [] /\ x = nextPool (last_addr 0 l1)) then Some (head_addr l2) else mem s !! x) ->
  (∀ x, is_Some (mem s !! x) -> is_Some (mem s' !! x)) -> Pools (l1 ++ l2) s'.
Proof using All.
  intros Hhead Hm Hd. assert (Hin : ∀ h, h ∈ l1 ++ l2 -> pg_addr h <= nextPool (pg_addr h) < pg_addr h + pg_size h).
  { intros h Hh. destruct (pool_in_ok s h) as (_ & _ & ? & _); [by apply HPs, pool_of|]. offsets. lia. }
  assert (Hap : ∀ k1 h k2 h', l1 ++ l2 = k1 ++ h :: k2 -> h' ∈ k2 -> pools_apart h h').
  { intros k1 h k2 h' E' Hh'. apply app_split_elem in E' as [(k & E1 & ->)|(k & -> & E2)].
    - eapply (ps_apart _ _ HPs k1 h (k ++ g :: l2)); [by rewrite E, E1, <- app_assoc|set_solver].
    - eapply (ps_apart _ _ HPs (l1 ++ g :: k) h k2); [by rewrite E, E2, <- app_assoc|done]. }
  split.
  - rewrite Hhead. case_decide as El; [by rewrite El|]. rewrite (ps_head _ _ HPs), E. by destruct l1.
  - intros k1 h k2 E'. assert (Hh : h ∈ l1 ++ l2) by (rewrite E'; set_solver). rewrite (Hm h) by auto.
    assert (Hlast : ∀ h', h' ∈ k2 -> nextPool (pg_addr h) <> nextPool (pg_addr h')).
    { intros h' Hh' En. pose proof (Hin h Hh). pose proof (Hin h' ltac:(rewrite E'; set_solver)). destruct (Hap _ _ _ _ E' Hh'); lia. }
    apply app_split_elem in E' as [(k & El & ->)|(k & -> & E2)].
    + destruct (list_snoc_case k) as [->|(k' & h' & ->)].
      * rewrite decide_True; [done|]. rewrite El. split; [by destruct k1|]. by rewrite (last_in _ h k1).
      * rewrite decide_False; [|rewrite El, app_comm_cons, app_assoc; rewrite (last_in _ h' _ eq_refl); intros [_ En]; by apply (Hlast h'); [set_solver|]].
        destruct (decide (k' = [])) as [->|]; cbn; rewrite (ps_chain _ _ HPs k1 h _ ltac:(rewrite E, El, <- app_assoc; done)); [done|]. by destruct k'.
    + rewrite decide_False.
      * apply (ps_chain _ _ HPs (l1 ++ g :: k)). by rewrite E, E2, <- app_assoc.
      * intros [Hne En]. destruct (list_snoc_case l1) as [?|(l & h' & El)]; [done|]. rewrite (last_in _ _ _ El) in En.
        pose proof (Hin h' ltac:(rewrite El; set_solver)). pose proof (Hin h Hh). apply list_elem_of_split in Hh as (? & ? & _).
        destruct (ps_apart _ _ HPs l h' (g :: l2) h); [by rewrite E, El, <- app_assoc|rewrite E2; set_solver|lia|lia].
  - intros h Hh. eapply Pool_local; [by apply (ps_pool _ _ HPs), pool_of| |done]. intros x Hx Hxn. rewrite (Hm h) by done. rewrite decide_False; [done|]. intros [Hne ->].
    destruct (list_snoc_case l1) as [?|(l & h' & El)]; [done|]. rewrite (last_in _ _ _ El) in Hx, Hxn. pose proof (Hin h' ltac:(rewrite El; set_solver)). pose proof (Hin h Hh).
    apply list_elem_of_split in Hh as (k1 & k2 & E'). assert (Hne' : h' <> h) by congruence.
    assert (Hh' : h' ∈ k1 ++ k2). { assert (Hin' : h' ∈ l1 ++ l2) by (rewrite El; set_solver). rewrite E' in Hin'. set_solver. }
    apply elem_of_app in Hh' as [Hh'|Hh']; [|destruct (Hap _ _ _ _ E' Hh'); lia]. apply list_elem_of_split in Hh' as (j1 & j2 & ->).
    destruct (Hap j1 h' (j2 ++ h :: k2) h); [by rewrite E', <- app_assoc|set_solver|lia|lia].
  - done.
Qed.
End remove.

(** LOS_MemDeInit of any pool of the list succeeds, takes exactly that pool out of the
    list, and leaves the other pools well formed and their memory alone. *)
Theorem mem_deinit_correct l1 g l2 s : Pools (l1 ++ g :: l2) s ->
  wp (LOS_MemDeInit (pg_addr g)) (λ r s', r = LOS_OK /\ Pools (l1 ++ l2) s' /\ mapped (pg_addr g) (pg_size g) s' /\
    ∀ x, ~ pg_addr g <= x < pg_addr g + pg_size g -> (∀ h, h ∈ l1 -> x <> nextPool (pg_addr h)) -> mem s' !! x = mem s !! x) s.
Proof.
  intros HPs. assert (Hg : pool_in s g) by (apply HPs; set_solver). destruct (pool_in_ok s g Hg) as (? & ? & ? & Hsz & Hp). pose proof (ps_head _ _ HPs) as Hhd.
  destruct (ly_pool _ _ _ (pi_layout _ _ _ _ (pl_inv _ _ _ _ Hg))) as [_ _ [Hp4 _]].
  unfold LOS_MemDeInit. destruct (Z.eqb_spec (pg_addr g) 0); [lia|]. apply wp_bind. eapply wp_ld; [done|]. apply wp_bind. eapply wp_ld; [done|]. rewrite Z.eqb_refl.
  change OS_MEM_MIN_POOL_SIZE with 952. destruct (Z.leb_spec (pg_size g) 952); [lia|]. cbn [negb orb].
  assert (Hend : ∀ s1, g_poolHead s1 = (if decide (l1 = []) then head_addr l2 else g_poolHead s) ->
    mem s1 = (if decide (l1 = []) then mem s else <[nextPool (last_addr 0 l1) := head_addr l2]> (mem s)) ->
    wp (OsMemPoolDeInit (pg_addr g) ;;; mret LOS_OK) (λ r s', r = LOS_OK /\ Pools (l1 ++ l2) s' /\ mapped (pg_addr g) (pg_size g) s' /\
      ∀ x, ~ pg_addr g <= x < pg_addr g + pg_size g -> (∀ h, h ∈ l1 -> x <> nextPool (pg_addr h)) -> mem s' !! x = mem s !! x) s1).
  { intros s1 Hg1 Hm1. assert (Hm : ∀ x, mem s1 !! x = if decide (l1 <> [] /\ x = nextPool (last_addr 0 l1)) then Some (head_addr l2) else mem s !! x).
    { intros x. rewrite Hm1. destruct (decide (l1 = [])); [by rewrite decide_False by tauto|]. rewrite lookup_insert. repeat case_decide; try done; naive_solver. }
    assert (Hd : ∀ x, is_Some (mem s !! x) -> is_Some (mem s1 !! x)) by (intros x Hx; rewrite Hm; by destruct (decide (_ /\ _))).
    unfold OsMemPoolDeInit. change (Z.to_nat (sizeof_OsMemPoolHead / 4)) with 236%nat. apply wp_bind, zero_words_wp.
    { intros i Hi. apply Hd, (pi_map _ _ _ _ (pl_inv _ _ _ _ Hg)); [lia|]. apply Z.divide_add_r; [done|apply Z.divide_factor_l]. }
    change (Z.of_nat 236) with 236. intros s2 [Hg2 _ Hk2 Hd2]. apply wp_ret. split_and!; [done| | |].
    - apply (pools_removed _ l1 l2 g s HPs eq_refl s2); [congruence| |auto]. intros h x Hh Hx. rewrite Hk2; [apply Hm|].
      destruct (pool_of _ l1 l2 g s HPs eq_refl h Hh) as (_ & Ha & _). destruct Ha; lia.
    - intros x Hx Hx4. apply Hd2, Hd, (pi_map _ _ _ _ (pl_inv _ _ _ _ Hg)); done.
    - intros x Hx Hxl. rewrite Hk2 by lia. rewrite Hm, decide_False; [done|]. intros [Hne ->]. destruct (list_snoc_case l1) as [?|(l & h & E)]; [done|].
      rewrite (last_in l1 h l E) in Hxl. apply (Hxl h); [rewrite E; set_solver|done]. }
  apply wp_bind. unfold OsMemPoolDelete. apply wp_bind, wp_gets. rewrite Hhd. destruct (Z.eqb_spec (pg_addr g) (head_addr (l1 ++ g :: l2))) as [Eh|Hne].
  - assert (El : l1 = []). { destruct l1 as [|h l1]; [done|]. destruct (pool_of _ (h :: l1) l2 g s HPs eq_refl h) as (_ & _ & Hn); [set_solver|]. cbn in Eh. congruence. }
    rewrite <- Eh. apply wp_bind. eapply wp_ld; [exact (ps_chain _ _ HPs l1 g l2 eq_refl)|]. apply wp_bind, wp_modify, wp_ret. rewrite Z.eqb_refl. cbn [negb]. apply Hend; cbn; by rewrite decide_True.
  - assert (Hl : l1 <> []) by (intros ->; by cbn in Hne). apply wp_bind, walk_wp. apply (delete_loop_wp _ l1 l2 g s HPs eq_refl [] l1); [done| |].
    { pose proof (pools_words _ _ HPs) as Hlen. rewrite length_app in Hlen. cbn in Hlen. lia. }
    rewrite last_addr_default by done. apply wp_bind, wp_st.
    { destruct (list_snoc_case l1) as [?|(l & h & E)]; [done|]. rewrite (last_in l1 h l E). rewrite (ps_chain _ _ HPs l h (g :: l2)); [eauto|by rewrite E, <- app_assoc]. }
    apply wp_ret. rewrite Z.eqb_refl. cbn [negb]. apply Hend; cbn; by rewrite decide_False.
Qed.
