(* ===== verification/MemSpec.v ===== *)
(** The dynamic allocator against its specification: a pool implements a map
    from pointers to lists of words. *)

From S2P Require Import Prelude Errno Membox Memory MemInv MemBlocks MemWalk MemAlloc MemApi MemResize.

(** ** Specification *)

(** A region of a client: the address of the block that holds it, and its words. *)
Record Region := mk_Region { rg_block : Z; rg_words : list Z }.
Abbreviation AHeap := (gmap Z Region).

Definition rg_len (rg : Region) : Z := 4 * Z.of_nat (length (rg_words rg)).

(** What clients do with a pool. *)
Inductive HeapOp :=
| OpAlloc (size : Z)
| OpAlign (size boundary : Z)
| OpFree (ptr : Z)
| OpRealloc (ptr size : Z)
| OpWrite (ptr : Z) (i : nat) (v : Z)
| OpRead (ptr : Z) (i : nat).

(** The region is part of the pool and of no other region. *)
Record fresh (p n : Z) (A : AHeap) (ptr : Z) (rg : Region) : Prop := {
  fs_pool : p + 952 <= ptr /\ ptr + rg_len rg <= p + n;
  fs_align : (4 | ptr);
  fs_apart : ∀ q rg', A !! q = Some rg' -> ptr + rg_len rg <= q \/ q + rg_len rg' <= ptr;
}.

Inductive spec_step (p n : Z) (A : AHeap) : HeapOp -> Z -> AHeap -> Prop :=
| sp_alloc_null size : spec_step p n A (OpAlloc size) 0 A
| sp_alloc size ptr rg : size <= rg_len rg -> rg_block rg = ptr - 8 -> fresh p n A ptr rg -> spec_step p n A (OpAlloc size) ptr (<[ptr := rg]> A)
| sp_align_null size boundary : spec_step p n A (OpAlign size boundary) 0 A
| sp_align size boundary ptr rg : size <= rg_len rg -> (boundary | ptr) -> fresh p n A ptr rg ->
    spec_step p n A (OpAlign size boundary) ptr (<[ptr := rg]> A)
| sp_free ptr rg : A !! ptr = Some rg -> spec_step p n A (OpFree ptr) LOS_OK (delete ptr A)
| sp_realloc_null ptr size : spec_step p n A (OpRealloc ptr size) 0 A
| sp_realloc_free ptr rg : A !! ptr = Some rg -> spec_step p n A (OpRealloc ptr 0) 0 (delete ptr A)
| sp_realloc ptr size rg ptr' rg' : A !! ptr = Some rg -> size <= rg_len rg' -> rg_block rg' = ptr' - 8 -> fresh p n (delete ptr A) ptr' rg' ->
    (∀ i v, rg_words rg !! i = Some v -> (i < length (rg_words rg'))%nat -> rg_words rg' !! i = Some v) ->
    spec_step p n A (OpRealloc ptr size) ptr' (<[ptr' := rg']> (delete ptr A))
| sp_write ptr i v rg : A !! ptr = Some rg -> (i < length (rg_words rg))%nat ->
    spec_step p n A (OpWrite ptr i v) LOS_OK (<[ptr := mk_Region (rg_block rg) (<[i := v]> (rg_words rg))]> A)
| sp_read ptr i rg v : A !! ptr = Some rg -> rg_words rg !! i = Some v -> spec_step p n A (OpRead ptr i) v A.

(** What a client may ask for: releases and changes of its own regions, changes
    of size only for regions that begin right after the header of their block. *)
Definition legal (A : AHeap) (op : HeapOp) : Prop :=
  match op with
  | OpAlloc size => 0 <= size < 2 ^ 32
  | OpAlign size boundary => 0 <= size < 2 ^ 32 /\ 0 <= boundary < 2 ^ 32
  | OpFree ptr => is_Some (A !! ptr)
  | OpRealloc ptr size => 0 <= size < 2 ^ 32 /\ ∃ rg, A !! ptr = Some rg /\ rg_block rg = ptr - 8
  | OpWrite ptr i v => ∃ rg, A !! ptr = Some rg /\ (i < length (rg_words rg))%nat
  | OpRead ptr i => ∃ rg, A !! ptr = Some rg /\ (i < length (rg_words rg))%nat
  end.

(** ** Implementation *)

Definition heap_op (p : Z) (op : HeapOp) : M Heap Z :=
  match op with
  | OpAlloc size => LOS_MemAlloc p size
  | OpAlign size boundary => LOS_MemAllocAlign p size boundary
  | OpFree ptr => LOS_MemFree p ptr
  | OpRealloc ptr size => LOS_MemRealloc p ptr size
  | OpWrite ptr i v => st (ptr + 4 * Z.of_nat i) v ;;; mret LOS_OK
  | OpRead ptr i => ld (ptr + 4 * Z.of_nat i)
  end.

(** ** Representation *)

Record HasRegion (B : gmap Z Blk) (W : gmap Z Z) (ptr : Z) (rg : Region) : Prop := {
  hr_handle : ∃ b, is_handle B W ptr (rg_block rg) b /\ ptr + rg_len rg = rg_block rg + b_size b;
  hr_words : ∀ i v, rg_words rg !! i = Some v -> W !! (ptr + 4 * Z.of_nat i) = Some v;
}.

Record HeapRep (p n : Z) (A : AHeap) (B : gmap Z Blk) (s : Heap) : Prop := {
  rp_pool : Pool p n B s;
  rp_region : ∀ ptr rg, A !! ptr = Some rg -> HasRegion B (mem s) ptr rg;
  rp_inj : ∀ ptr ptr' rg rg', A !! ptr = Some rg -> A !! ptr' = Some rg' -> rg_block rg = rg_block rg' -> ptr = ptr';
}.

(** The words of memory from [ptr]. *)
Definition words_at (W : gmap Z Z) (ptr len : Z) : list Z := (λ i, default 0 (W !! (ptr + 4 * Z.of_nat i))) <$> seq 0 (Z.to_nat (len / 4)).

Lemma words_at_len W ptr len blk : (4 | len) -> 0 <= len -> rg_len (mk_Region blk (words_at W ptr len)) = len.
Proof.
  intros [k ->] Hk. unfold rg_len, words_at. cbn. rewrite length_fmap, length_seq, Z.div_mul, Z2Nat.id by lia. lia.
Qed.
Lemma words_at_lookup W ptr len i v : words_at W ptr len !! i = Some v <-> (i < Z.to_nat (len / 4))%nat /\ v = default 0 (W !! (ptr + 4 * Z.of_nat i)).
Proof.
  unfold words_at. rewrite list_lookup_fmap_Some. split.
  - intros (j & -> & [-> ?]%lookup_seq). done.
  - intros [Hi ->]. exists i. split; [done|]. apply lookup_seq. done.
Qed.

Section regions.
Context {p n : Z} {B : gmap Z Blk} {s : Heap} (HP : Pool p n B s).

(** Where a region is: in the live region of its block. *)
Lemma region_facts ptr rg : HasRegion B (mem s) ptr rg -> ∃ b al,
  B !! rg_block rg = Some b /\ b_state b = BUsed al /\ live B (rg_block rg + 8) = Some (b_size b - 8) /\
  is_handle B (mem s) ptr (rg_block rg) b /\ rg_block rg <> end_node p n /\
  rg_block rg + 8 <= ptr /\ ptr + rg_len rg = rg_block rg + b_size b /\ (4 | ptr) /\ p + 952 <= ptr /\ ptr + rg_len rg + 8 <= p + n.
Proof using HP.
  intros [(b & Hh & El) _]. destruct (handle_facts HP _ _ _ Hh) as (Hne & H4 & Hr & Hle & al & Hu). pose proof Hh as [Hb _].
  pose proof (live_at HP _ _ _ Hb Hu Hne) as Hl. destruct (live_range HP _ _ Hl) as (? & ? & ? & _). exists b, al. split_and!; try done; lia.
Qed.

(** Regions in different blocks are apart. *)
Lemma regions_apart ptr rg ptr' rg' : HasRegion B (mem s) ptr rg -> HasRegion B (mem s) ptr' rg' -> rg_block rg <> rg_block rg' ->
  ptr + rg_len rg <= ptr' \/ ptr' + rg_len rg' <= ptr.
Proof using HP.
  intros H1 H2 Hne. destruct (region_facts _ _ H1) as (b & al & _ & _ & Hl & _ & _ & ? & ? & _). destruct (region_facts _ _ H2) as (b' & al' & _ & _ & Hl' & _ & _ & ? & ? & _).
  destruct (live_apart HP _ _ _ _ Hl Hl') as [?|[?|?]]; lia.
Qed.

(** A region that an operation leaves alone. *)
Lemma region_kept ptr rg a0 B' s' : HasRegion B (mem s) ptr rg -> used_kept B B' a0 -> rg_block rg <> a0 ->
  (∀ x, rg_block rg + 8 <= x < ptr + rg_len rg -> mem s' !! x = mem s !! x) -> HasRegion B' (mem s') ptr rg.
Proof using HP.
  intros HR Hus Hne Hk. destruct (region_facts _ _ HR) as (b & al & Hb & Hs & _ & [_ Hh] & Hend & ? & El & Hp4 & _).
  destruct (Hus _ _ _ Hne Hb Hs) as (b' & Hb' & Hs' & Hz). split.
  - exists b'. split; [|lia]. split; [done|]. rewrite Hs', Hz. rewrite Hs in Hh. destruct Hh as [Hh|(E & H4 & Hr & Hw)]; [left; tauto|right]. split_and!; try done; [lia|lia|].
    assert (rg_block rg + 8 <= ptr - 4).
    { destruct (ly_blk _ _ _ (pi_layout _ _ _ _ (pl_inv _ _ _ _ HP)) _ _ Hb Hend) as (_ & _ & _ & [j Ej] & _). destruct Hp4 as [j' Ej']. lia. }
    rewrite Hk; [done|]. unfold rg_len in *. lia.
  - intros i v Hi. pose proof (lookup_lt_Some _ _ _ Hi). rewrite Hk; [by apply (hr_words _ _ _ _ HR)|]. unfold rg_len. lia.
Qed.

(** The words of a region belong to it. *)
Lemma region_owned ptr rg x : HasRegion B (mem s) ptr rg -> rg_block rg + 8 <= x < ptr + rg_len rg -> owned p n B x.
Proof using HP.
  intros HR Hx. destruct (region_facts _ _ HR) as (b & al & _ & _ & Hl & _ & _ & _ & El & _). right; right. exists (rg_block rg + 8), (b_size b - 8). split; [done|lia].
Qed.

(** The region of a pointer to a used block. *)
Lemma region_new ptr a b : is_handle B (mem s) ptr a b -> HasRegion B (mem s) ptr (mk_Region a (words_at (mem s) ptr (a + b_size b - ptr))) /\
  rg_len (mk_Region a (words_at (mem s) ptr (a + b_size b - ptr))) = a + b_size b - ptr.
Proof using HP.
  intros Hh. destruct (handle_facts HP _ _ _ Hh) as (Hne & H4 & Hr & Hle & al & Hu). pose proof Hh as [Hb Hc]. pose proof (pl_inv _ _ _ _ HP) as HI.
  destruct (ly_blk _ _ _ (pi_layout _ _ _ _ HI) _ _ Hb Hne) as (? & ? & ? & Ha4 & Hb4).
  assert (Hlen : (4 | a + b_size b - ptr) /\ 0 <= a + b_size b - ptr).
  { split; [apply Z.divide_sub_r; [by apply Z.divide_add_r|done]|]. destruct Hc as [(_ & _ & ->)|(_ & _ & ? & _)]; lia. }
  rewrite words_at_len by apply Hlen. split; [|done]. split.
  - exists b. rewrite words_at_len by apply Hlen. split; [done|cbn; lia].
  - cbn. intros i v [Hi ->]%words_at_lookup. destruct Hlen as [[k Ek] ?]. rewrite Ek, Z.div_mul in Hi by lia.
    destruct (pi_map _ _ _ _ HI (ptr + 4 * Z.of_nat i)) as [w Hw]; [offsets; lia|apply Z.divide_add_r; [done|apply Z.divide_factor_l]|]. by rewrite Hw.
Qed.
End regions.

(** ** Simulation *)

Section steps.
Context {p n : Z} {A : AHeap} {B : gmap Z Blk} {s : Heap} (HR : HeapRep p n A B s).

(** The regions of the others after a step that concerns the block [a0]. *)
Lemma others_kept a0 B' s' : used_kept B B' a0 -> (∀ x, owned p n B x -> (∀ l, live B (a0 + 8) = Some l -> ~ a0 + 8 <= x < a0 + 8 + l) -> mem s' !! x = mem s !! x) ->
  ∀ ptr rg, A !! ptr = Some rg -> rg_block rg <> a0 -> HasRegion B' (mem s') ptr rg.
Proof using HR.
  intros Hus Hk ptr rg Hp Hne. pose proof (rp_pool _ _ _ _ _ HR) as HP. pose proof (rp_region _ _ _ _ _ HR _ _ Hp) as Hr.
  eapply (region_kept HP); [done|done|done|]. intros x Hx. apply Hk; [by eapply (region_owned HP)|]. intros l Hl.
  destruct (region_facts HP _ _ Hr) as (b & al & _ & _ & Hl' & _ & _ & ? & El & _). destruct (live_apart HP _ _ _ _ Hl Hl') as [?|[?|?]]; lia.
Qed.

(** A new region [ptr] in block [a], after the region [old] of that block has gone, if there was one. *)
Lemma rep_new A0 ptr a b B' s' : A0 ⊆ A -> Pool p n B' s' -> is_handle B' (mem s') ptr a b ->
  (∀ q rg, A0 !! q = Some rg -> rg_block rg <> a /\ HasRegion B' (mem s') q rg) ->
  let rg := mk_Region a (words_at (mem s') ptr (a + b_size b - ptr)) in
  HeapRep p n (<[ptr := rg]> A0) B' s' /\ fresh p n A0 ptr rg.
Proof using HR.
  intros Hsub HP' Hh Hother rg. destruct (region_new HP' _ _ _ Hh) as [Hreg Hlen]. fold rg in Hreg, Hlen. split; [split|split].
  - done.
  - intros q r. rewrite lookup_insert. case_decide as E; [intros [= <-]; by subst q|]. intros Hq. by apply Hother.
  - intros q q' r r'. rewrite !lookup_insert. repeat case_decide; intros ? ?; simplify_eq; cbn; try done.
    + intros Eb. by destruct (Hother q' r') as [[] _].
    + intros Eb. by destruct (Hother q r) as [[] _].
    + intros Eb. eapply (rp_inj _ _ _ _ _ HR); [by eapply lookup_weaken|by eapply lookup_weaken|done].
  - destruct (region_facts HP' _ _ Hreg) as (_ & _ & _ & _ & _ & _ & _ & _ & _ & _ & ? & ?). lia.
  - apply (handle_facts HP' _ _ _ Hh).
  - intros q r Hq. destruct (Hother q r Hq) as [Hne Hr]. apply (regions_apart HP'); [done..|]. cbn. congruence.
Qed.

Lemma rep_alloc ptr a b B' s' : is_handle B' (mem s') ptr a b -> Allocated p n B s (a + 8) (b_size b - 8) B' s' ->
  let rg := mk_Region a (words_at (mem s') ptr (a + b_size b - ptr)) in
  HeapRep p n (<[ptr := rg]> A) B' s' /\ fresh p n A ptr rg.
Proof using HR.
  intros Hh [HP' Hnew Hl Hus Hk Hg]. pose proof (rp_pool _ _ _ _ _ HR) as HP. apply (rep_new A); try done. intros q rg Hq.
  pose proof (rp_region _ _ _ _ _ HR _ _ Hq) as Hr. destruct (region_facts HP _ _ Hr) as (d & al & _ & _ & Hl' & _). destruct (live_range HP _ _ Hl') as (_ & _ & ? & _).
  replace (a + 8 - 8) with a in Hus by lia. assert (Hn : live B' (a + 8) = Some (b_size b - 8)) by (rewrite Hl; by rewrite decide_True).
  destruct (live_range HP' _ _ Hn) as (_ & _ & ? & _). assert (Hne : rg_block rg <> a) by (intros E; rewrite E in Hl'; destruct (Hnew _ _ Hl'); lia).
  split; [done|]. eapply others_kept; [done| |done|done]. intros x Hx _. by apply Hk.
Qed.

Lemma rep_free ptr rg b B' s' : A !! ptr = Some rg -> B !! rg_block rg = Some b -> live B (rg_block rg + 8) = Some (b_size b - 8) ->
  Freed p n B s (rg_block rg) b B' s' -> HeapRep p n (delete ptr A) B' s'.
Proof using HR.
  intros Hp Hb Hl0 [HP' Hl Hus Hk Hg]. split; [done| |].
  - intros q r [Hne Hq]%lookup_delete_Some. eapply others_kept; [done| |done|].
    + intros x Hx Hn. apply Hk; [done|]. specialize (Hn _ Hl0). lia.
    + intros E. apply Hne. by eapply (rp_inj _ _ _ _ _ HR).
  - intros q q' r r' [_ Hq]%lookup_delete_Some [_ Hq']%lookup_delete_Some. by eapply (rp_inj _ _ _ _ _ HR).
Qed.

Lemma rep_realloc ptr rg b r len B' s' : A !! ptr = Some rg -> rg_block rg = ptr - 8 -> B !! rg_block rg = Some b -> live B (rg_block rg + 8) = Some (b_size b - 8) ->
  Reallocated p n B s (rg_block rg) b r len B' s' ->
  ∃ rg', rg_len rg' = len /\ rg_block rg' = r - 8 /\ HeapRep p n (<[r := rg']> (delete ptr A)) B' s' /\ fresh p n (delete ptr A) r rg' /\
    ∀ i v, rg_words rg !! i = Some v -> (i < length (rg_words rg'))%nat -> rg_words rg' !! i = Some v.
Proof using HR.
  intros Hp Hpl Hb Hl0 [HP' Hl Hnew Hus (b' & Hh & Hz) Hdt Hk Hg]. pose proof (rp_pool _ _ _ _ _ HR) as HP. pose proof (rp_region _ _ _ _ _ HR _ _ Hp) as Hr.
  destruct (region_facts HP _ _ Hr) as (b0 & al & Hb0 & _ & _ & _ & _ & _ & Hlen0 & _). assert (b0 = b) as -> by congruence.
  destruct (region_new HP' _ _ _ Hh) as [_ Hlen]. set (rg' := mk_Region (r - 8) _) in Hlen. exists rg'.
  assert (Hother : ∀ q rq, delete ptr A !! q = Some rq -> rg_block rq <> r - 8 /\ HasRegion B' (mem s') q rq).
  { intros q rq [Hne Hq]%lookup_delete_Some. pose proof (rp_region _ _ _ _ _ HR _ _ Hq) as Hrq. destruct (region_facts HP _ _ Hrq) as (d & ald & _ & _ & Hlq & _).
    assert (Hbn : rg_block rq <> rg_block rg) by (intros E; apply Hne; by eapply (rp_inj _ _ _ _ _ HR)). split.
    - intros E. assert (Hn : live B' r = Some len) by (rewrite Hl; by rewrite decide_True). destruct (live_range HP' _ _ Hn) as (_ & _ & ? & _). destruct (live_range HP _ _ Hlq) as (_ & _ & ? & _).
      destruct (Hnew _ _ Hlq ltac:(lia)); lia.
    - eapply others_kept; [done| |done|done]. intros x Hx Hn. apply Hk; [done|]. specialize (Hn _ Hl0). lia. }
  destruct (rep_new (delete ptr A) r (r - 8) b' B' s' (delete_subseteq _ _) HP' Hh Hother) as [HR' Hfr]. split_and!; [lia|done|done|done|].
  intros i v Hi Hi'. pose proof (lookup_lt_Some _ _ _ Hi) as Hlt. cbn in Hi'. unfold words_at in Hi'. rewrite length_fmap, length_seq in Hi'.
  cbn. apply words_at_lookup. split; [done|]. pose proof (hr_words _ _ _ _ Hr _ _ Hi) as Hw. unfold rg_len in Hlen0.
  assert (Z.of_nat i < (r - 8 + b_size b' - r) / 4) by lia. pose proof (Z.mul_div_le (r - 8 + b_size b' - r) 4 ltac:(lia)).
  rewrite Hdt by lia. replace (rg_block rg + 8 + 4 * Z.of_nat i) with (ptr + 4 * Z.of_nat i) by lia. by rewrite Hw.
Qed.

Lemma rep_write ptr rg i v : A !! ptr = Some rg -> (i < length (rg_words rg))%nat -> let s' := set_mem <[ptr + 4 * Z.of_nat i := v]> s in
  HeapRep p n (<[ptr := mk_Region (rg_block rg) (<[i := v]> (rg_words rg))]> A) B s'.
Proof using HR.
  intros Hp Hi s'. pose proof (rp_pool _ _ _ _ _ HR) as HP. pose proof (rp_region _ _ _ _ _ HR _ _ Hp) as Hr. set (x0 := ptr + 4 * Z.of_nat i) in *.
  assert (Hx0 : ptr <= x0 < ptr + rg_len rg) by (unfold rg_len, x0; lia). destruct (region_facts HP _ _ Hr) as (b & al & Hb & Hs & Hl & _ & _ & Hle & El & _).
  assert (Hother : ∀ q rq, A !! q = Some rq -> q <> ptr -> HasRegion B (mem s') q rq).
  { intros q rq Hq Hne. eapply (region_kept HP q rq (rg_block rg)); [by apply (rp_region _ _ _ _ _ HR)|intros ? ? ? ? ? ?; by eauto|intros E; apply Hne; by eapply (rp_inj _ _ _ _ _ HR)|].
    intros x Hx. unfold s'. cbn. apply lookup_insert_ne. intros <-. destruct (region_facts HP _ _ (rp_region _ _ _ _ _ HR _ _ Hq)) as (d & ald & _ & _ & Hlq & _ & _ & _ & Elq & _).
    assert (rg_block rq <> rg_block rg) by (intros E; apply Hne; by eapply (rp_inj _ _ _ _ _ HR)). destruct (live_apart HP _ _ _ _ Hl Hlq) as [?|[?|?]]; lia. }
  split.
  - eapply Pool_write; [done| |].
    + intros x Hx. unfold s'. cbn. apply lookup_insert_ne. intros <-. apply (Hx _ _ Hl). lia.
    + intros x Hx. unfold s'. cbn. by apply insert_dom.
  - intros q rq. rewrite lookup_insert. case_decide as E; [|by intros; apply Hother]. intros [= <-]. subst q. destruct Hr as [(b0 & [Hb0 Hh] & El0) Hw]. split; cbn.
    + exists b0. unfold rg_len in *. cbn. rewrite length_insert. split; [|done]. split; [done|]. destruct Hh as [?|(? & ? & ? & Hgap)]; [by left|right]. split_and!; try done; [lia|lia|].
      rewrite lookup_insert_ne by lia. done.
    + intros j w. rewrite list_lookup_insert. case_decide as Ej.
      * destruct Ej as [<- _]. intros [= <-]. by rewrite lookup_insert_eq.
      * intros Hj. rewrite lookup_insert_ne; [by apply Hw|]. unfold x0. intros E. apply Ej. split; lia.
  - intros q q' rq rq'. rewrite !lookup_insert. repeat case_decide; intros ? ?; simplify_eq; cbn; try done; intros E; by eapply (rp_inj _ _ _ _ _ HR).
Qed.
End steps.

(** Each operation does what the specification allows. *)
Lemma mem_step_refines p n A B s op : HeapRep p n A B s -> legal A op ->
  wp (heap_op p op) (λ r s', ∃ A' B', spec_step p n A op r A' /\ HeapRep p n A' B' s') s.
Proof.
  intros HR Hleg. pose proof (rp_pool _ _ _ _ _ HR) as HP.
  assert (Hreg : ∀ ptr rg, A !! ptr = Some rg -> ∃ b, is_handle B (mem s) ptr (rg_block rg) b /\ B !! rg_block rg = Some b /\ live B (rg_block rg + 8) = Some (b_size b - 8)).
  { intros ptr rg Hp. destruct (region_facts HP _ _ (rp_region _ _ _ _ _ HR _ _ Hp)) as (b & al & ? & _ & ? & ? & _). eauto. }
  destruct op as [size|size bd|ptr|ptr size|ptr i v|ptr i]; cbn in *.
  - apply (mem_alloc_region_wp p n B); [done|done|intros _; exists A, B; split; [constructor|done]|]. intros ptr B' b s' Hh Hsz HA.
    destruct (rep_alloc HR ptr (ptr - 8) b B' s' Hh ltac:(by replace (ptr - 8 + 8) with ptr by lia)) as [HR' Hfr]. eexists _, B'. split; [|exact HR'].
    constructor; [|done|done]. destruct (region_new (rp_pool _ _ _ _ _ HR') _ _ _ Hh) as [_ ->]. lia.
  - destruct Hleg. apply (mem_align_wp p n B); [done|done|done|intros _; exists A, B; split; [constructor|done]|]. intros ptr s' B' a b Hh Hbd Hsz HA.
    destruct (rep_alloc HR ptr a b B' s' Hh HA) as [HR' Hfr]. eexists _, B'. split; [|exact HR'].
    constructor; [|done|done]. destruct (region_new (rp_pool _ _ _ _ _ HR') _ _ _ Hh) as [_ ->]. lia.
  - destruct Hleg as [rg Hp]. destruct (Hreg _ _ Hp) as (b & Hh & Hb & Hl). eapply mem_freed_wp; [done|done|]. intros s' B' HF.
    exists (delete ptr A), B'. split; [by econstructor|by eapply (rep_free HR)].
  - destruct Hleg as (Hsz & rg & Hp & Hpl). destruct (Hreg _ _ Hp) as (b & Hh & Hb & Hl). eapply mem_realloc_wp; [done|done|done|..].
    + intros _. exists A, B. split; [constructor|done].
    + intros s' B' -> HF. exists (delete ptr A), B'. split; [by econstructor|by eapply (rep_free HR)].
    + intros r s' B' len Hlen _ HRe. destruct (rep_realloc HR ptr rg b r len B' s' Hp Hpl Hb Hl HRe) as (rg' & El & Hbl & HR' & Hfr & Hdt).
      eexists _, B'. split; [|exact HR']. econstructor; [done|lia|done|done|done].
  - destruct Hleg as (rg & Hp & Hi). pose proof (rp_region _ _ _ _ _ HR _ _ Hp) as Hr. destruct (lookup_lt_is_Some_2 _ _ Hi) as [w Hw].
    apply wp_bind, wp_st; [rewrite (hr_words _ _ _ _ Hr _ _ Hw); eauto|]. apply wp_ret. eexists _, B. split; [by econstructor|by apply (rep_write HR)].
  - destruct Hleg as (rg & Hp & Hi). pose proof (rp_region _ _ _ _ _ HR _ _ Hp) as Hr. destruct (lookup_lt_is_Some_2 _ _ Hi) as [w Hw].
    eapply wp_ld; [by apply (hr_words _ _ _ _ Hr)|]. exists A, B. split; [by econstructor|done].
Qed.

(** ** Clients

    A client chooses the next operation from the results so far, the latest first. *)

Fixpoint run_client (p : Z) (c : list Z -> option HeapOp) (m : nat) (hist : list Z) : M Heap (list Z) :=
  match m with
  | O => mret hist
  | S m => match c hist with None => mret hist | Some op => let* r := heap_op p op in run_client p c m (r :: hist) end
  end.

Inductive spec_run (p n : Z) (c : list Z -> option HeapOp) (A0 : AHeap) : list Z -> AHeap -> Prop :=
| sr_start : spec_run p n c A0 [] A0
| sr_step hist A op r A' : spec_run p n c A0 hist A -> c hist = Some op -> spec_step p n A op r A' -> spec_run p n c A0 (r :: hist) A'.

(** Whatever the specification answers, the next operation is legal. *)
Definition well_behaved (p n : Z) (c : list Z -> option HeapOp) (A0 : AHeap) : Prop :=
  ∀ hist A op, spec_run p n c A0 hist A -> c hist = Some op -> legal A op.

(** C4: A pool of the dynamic allocator refines a map from pointers to lists of words: whatever
    a client does with the regions it has been given, allocating, aligned allocating, releasing,
    resizing, writing and reading them in any order, no call faults, every result is one the
    specification allows (regions inside the pool, aligned, apart from each other, with contents
    kept by every other call and by a change of size), and the pool still represents the map.
    The client resizes only regions that were allocated without an alignment: a resized aligned
    region does not keep its contents in place (the defect at los_memory.c:1506). *)
Theorem mem_refines p n c A0 B s m : HeapRep p n A0 B s -> well_behaved p n c A0 ->
  wp (run_client p c m []) (λ hist s', ∃ A' B', spec_run p n c A0 hist A' /\ HeapRep p n A' B' s') s.
Proof.
  intros HR Hw. assert (Hgen : ∀ m hist A B s, spec_run p n c A0 hist A -> HeapRep p n A B s ->
    wp (run_client p c m hist) (λ hist s', ∃ A' B', spec_run p n c A0 hist A' /\ HeapRep p n A' B' s') s); [|by apply (Hgen m [] A0 B s); [constructor|]].
  clear m B s HR. induction m as [|m IH]; intros hist A B s Hr HR; cbn; [apply wp_ret; eauto|]. destruct (c hist) as [op|] eqn:Hc; [|apply wp_ret; eauto].
  apply wp_bind. eapply wp_mono; [by eapply mem_step_refines; [|eapply Hw]|]. intros r s' (A' & B' & Hs & HR'). eapply IH; [by econstructor|done].
Qed.
