(* ===== verification/MemReport.v ===== *)
(** The dynamic allocator: what a traversal of a pool reports, and the index of
    the free lists. *)

From S2P Require Import Prelude Errno Membox Memory MemInv MemBlocks MemWalk MemAlloc MemApi.

(** ** Statistics *)

Lemma weigh_add (f g : Blk -> Z) (B : gmap Z Blk) : weigh (λ b, f b + g b) B = weigh f B + weigh g B.
Proof.
  induction B as [|a b B Ha IH] using map_ind; [by rewrite !weigh_empty|]. rewrite !weigh_new by done. rewrite IH. lia.
Qed.
Lemma weigh_ext (f g : Blk -> Z) (B : gmap Z Blk) : (∀ a b, B !! a = Some b -> f b = g b) -> weigh f B = weigh g B.
Proof. intros H. apply Z.le_antisymm; apply weigh_mono; intros a b Hb; by rewrite (H a b Hb). Qed.

Lemma largest_spec (B : gmap Z Blk) :
  (∀ a b, B !! a = Some b -> b_state b = BFree -> b_size b <= largest B) /\
  (largest B = 0 \/ ∃ a b, B !! a = Some b /\ b_state b = BFree /\ b_size b = largest B).
Proof.
  induction B as [|a b B Ha IH] using map_ind; [by split; [|left]|]. rewrite largest_new by done. destruct IH as [IH1 IH2]. split.
  - intros x d. rewrite lookup_insert. case_decide; [intros [= <-] Hf|intros Hd Hf].
    + unfold free_bytes. rewrite Hf. lia.
    + specialize (IH1 _ _ Hd Hf). lia.
  - destruct (Z.max_spec (largest B) (free_bytes b)) as [[Hlt ->]|[_ ->]].
    + unfold free_bytes in *. pose proof (largest_nonneg B). destruct (b_state b) eqn:E; try lia. right. exists a, b. by rewrite lookup_insert_eq.
    + destruct IH2 as [?|(x & d & Hd & Hf & Hz)]; [by left|right]. exists x, d. rewrite lookup_insert_ne; [done|]. intros ->. congruence.
Qed.

(** C38: What a traversal of the pool reports agrees with what the operations have recorded: the
    number of bytes in use counted block by block is the recorded one, used and free bytes add
    up to the pool, the water line is between the bytes in use and the size of the pool, the
    largest free block is the largest one, and the integrity check accepts the pool. *)
Theorem mem_recount p n B s : Pool p n B s ->
  wp (let* used := LOS_MemTotalUsedGet p in
      let* info := LOS_MemInfoGet p true in
      let* ok := LOS_MemIntegrityCheck p in
      mret (used, info, ok))
    (λ r s', s' = s /\ ∃ used st, r = (used, (LOS_OK, Some st), LOS_OK) /\
       mem s !! info_curUsedSize p = Some (952 + used) /\ totalUsedSize st = used /\ totalUsedSize st + totalFreeSize st = n - 952 /\
       mem s !! info_waterLine p = Some (usageWaterLine st) /\ 952 + used <= usageWaterLine st <= n /\
       (∀ a b, B !! a = Some b -> b_state b = BFree -> b_size b <= maxFreeNodeSize st) /\
       (maxFreeNodeSize st = 0 \/ ∃ a b, B !! a = Some b /\ b_state b = BFree /\ b_size b = maxFreeNodeSize st)) s.
Proof.
  intros HP. pose proof (pl_inv _ _ _ _ HP) as HI. pose proof (pi_layout _ _ _ _ HI) as HL. destruct (ly_end _ _ _ HL) as [l Hl].
  apply wp_bind, (total_used_wp s HP), wp_bind, (info_get_wp s HP). intros w Hw. apply wp_bind, (integrity_wp s HI); [by apply HP|]. apply wp_ret. split; [done|].
  destruct (pl_water _ _ _ _ HP) as (w' & Hw' & Hr). assert (w' = w) as -> by congruence. set (B' := delete (end_node p n) B).
  assert (Hu : weigh used_size B' = weigh used_size B) by (unfold B'; rewrite (weigh_delete _ _ _ _ Hl); cbn; lia).
  assert (Hf : weigh free_bytes B' = weigh free_bytes B) by (unfold B'; rewrite (weigh_delete _ _ _ _ Hl); cbn; lia).
  exists (weigh used_size B), (status_of B' w). unfold status_of. cbn. destruct (largest_spec B') as [H1 H2]. split_and!; try done; try lia.
  - apply HP.
  - rewrite Hu, Hf, <- weigh_add, <- (weigh_all HL). apply weigh_ext. intros a b Hb. pose proof (pl_settled _ _ _ _ HP _ _ Hb). unfold used_size, free_bytes. destruct (b_state b); done || lia.
  - intros a b Hb Hs. apply (H1 a b); [|done]. apply lookup_delete_Some. split; [|done]. intros <-. by apply (free_not_end _ _ HL _ _ Hb).
  - destruct H2 as [?|(a & b & [_ Hb]%lookup_delete_Some & ?)]; eauto.
Qed.

(** ** The index of the free lists *)

(** The sizes that are printed for a list are those of its blocks. *)
Lemma index_sizes size : 4 <= size < 2 ^ 29 -> (4 | size) ->
  (LOS_MemFreeNodeShow_sizes (idx size)).1 <= size <= (LOS_MemFreeNodeShow_sizes (idx size)).2.
Proof.
  intros H [k Hk]. unfold LOS_MemFreeNodeShow_sizes. change OS_MEM_SMALL_BUCKET_COUNT with 31. change OS_MEM_SLI with 3. change OS_MEM_LARGE_START_BUCKET with 7.
  destruct (decide (size < 128)).
  - rewrite (proj2 (idx_small size ltac:(lia))). rewrite Hk, Z.div_mul by lia. destruct (Z.ltb_spec (k - 1) 31); [|lia]. cbn [fst snd]. rewrite Z.shiftl_mul_pow2 by lia. lia.
  - rewrite idx_large by lia. pose proof (log2_range size 7 29 ltac:(lia) ltac:(lia)) as Hl. pose proof (sl_of_range size ltac:(lia)) as Hs.
    destruct (Z.ltb_spec (31 + (Z.log2 size - 7) * 8 + sl_of size) 31); [lia|]. cbn [fst snd].
    replace (31 + (Z.log2 size - 7) * 8 + sl_of size - 31) with (sl_of size + (Z.log2 size - 7) * 8) by lia. change (Z.shiftl 1 3) with 8.
    rewrite Z.mod_add, (Z.mod_small (sl_of size)) by lia. rewrite !Z.shiftr_div_pow2 by lia. change (2 ^ 3) with 8. rewrite Z.div_add, (Z.div_small (sl_of size)) by lia.
    replace (0 + (Z.log2 size - 7) + 7) with (Z.log2 size) by lia. rewrite Z.shiftl_mul_pow2, Z.mul_1_l by lia.
    pose proof (Z.log2_spec size ltac:(lia)) as [Hlo Hhi]. unfold sl_of in *. set (l := Z.log2 size) in *.
    assert (Hp : 2 ^ l = 8 * 2 ^ (l - 3)) by (rewrite <- (Z.pow_add_r 2 3) by lia; f_equal; lia). pose proof (Z.pow_pos_nonneg 2 (l - 3) ltac:(lia) ltac:(lia)).
    assert (2 ^ l <= 2 ^ 28) by (apply Z.pow_le_mono_r; lia). assert (Hq : 2 ^ l / 8 = 2 ^ (l - 3)) by (rewrite Hp, Z.mul_comm; by apply Z.div_mul). rewrite Hq.
    pose proof (Z.div_mod (size * 8) (2 ^ l) ltac:(lia)). pose proof (Z.mod_pos_bound (size * 8) (2 ^ l) ltac:(lia)). rewrite !u32_id by nia. nia.
Qed.

(** The ranges that are printed for the lists follow one another. *)
Lemma sizes_increase : ∀ i, 0 <= i < 222 -> (LOS_MemFreeNodeShow_sizes i).2 < (LOS_MemFreeNodeShow_sizes (i + 1)).1.
Proof.
  assert (H : Forall (λ i, (LOS_MemFreeNodeShow_sizes i).2 < (LOS_MemFreeNodeShow_sizes (i + 1)).1) (seqZ 0 222)).
  { apply (bool_decide_unpack _). vm_compute. done. }
  intros i Hi. rewrite Forall_forall in H. apply H, elem_of_seqZ. lia.
Qed.

Lemma sizes_nonempty : ∀ i, 0 <= i < 223 -> (LOS_MemFreeNodeShow_sizes i).1 <= (LOS_MemFreeNodeShow_sizes i).2.
Proof.
  assert (H : Forall (λ i, (LOS_MemFreeNodeShow_sizes i).1 <= (LOS_MemFreeNodeShow_sizes i).2) (seqZ 0 223)).
  { apply (bool_decide_unpack _). vm_compute. done. }
  intros i Hi. rewrite Forall_forall in H. apply H, elem_of_seqZ. lia.
Qed.

Lemma sizes_apart i j : 0 <= i < j -> j < 223 -> (LOS_MemFreeNodeShow_sizes i).2 < (LOS_MemFreeNodeShow_sizes j).1.
Proof.
  intros Hi. assert (∃ m : nat, j = i + 1 + Z.of_nat m) as [m ->] by (exists (Z.to_nat (j - i - 1)); lia). destruct Hi as [Hi _]. intros Hj. induction m as [|m IH].
  - rewrite Z.add_0_r. apply sizes_increase. lia.
  - specialize (IH ltac:(lia)). pose proof (sizes_nonempty (i + 1 + Z.of_nat m) ltac:(lia)). pose proof (sizes_increase (i + 1 + Z.of_nat m) ltac:(lia)).
    replace (i + 1 + Z.of_nat (S m)) with (i + 1 + Z.of_nat m + 1) by lia. lia.
Qed.

(** So no size belongs to two of them. *)
Lemma sizes_index size i : 4 <= size < 2 ^ 29 -> (4 | size) -> 0 <= i < 223 ->
  idx size = i <-> (LOS_MemFreeNodeShow_sizes i).1 <= size <= (LOS_MemFreeNodeShow_sizes i).2.
Proof.
  intros H H4 Hi. pose proof (idx_range size H). pose proof (index_sizes size H H4). split; [by intros <-|]. intros Hr.
  destruct (Z.lt_trichotomy (idx size) i) as [Hl|[|Hl]]; [|done|].
  - pose proof (sizes_apart _ _ (conj (proj1 H0) Hl) ltac:(lia)). lia.
  - pose proof (sizes_apart i (idx size) ltac:(lia) ltac:(lia)). lia.
Qed.

(** C39: For sizes below 512 MiB the index of the free list is within the table and grows with
    the size, and a size, a multiple of 4, has an index exactly when it is in the range that
    LOS_MemFreeNodeShow prints for this index, so a block in a higher list is longer. *)
Theorem mem_index_bounds size size' : 4 <= size < 2 ^ 29 -> 4 <= size' < 2 ^ 29 -> (4 | size) ->
  0 <= OsMemFreeListIndexGet size < OS_MEM_FREE_LIST_COUNT /\
  (∀ index, 0 <= index < OS_MEM_FREE_LIST_COUNT ->
     OsMemFreeListIndexGet size = index <-> (LOS_MemFreeNodeShow_sizes index).1 <= size <= (LOS_MemFreeNodeShow_sizes index).2) /\
  (size <= size' -> OsMemFreeListIndexGet size <= OsMemFreeListIndexGet size') /\
  (OsMemFreeListIndexGet size < OsMemFreeListIndexGet size' -> size < size').
Proof.
  intros H H' H4. change OS_MEM_FREE_LIST_COUNT with 223. pose proof (idx_range size H). split; [lia|]. split; [intros i Hi; by apply sizes_index|]. split.
  - intros Hle. apply idx_mono; lia.
  - intros Hlt. destruct (decide (size < size')); [done|]. pose proof (idx_mono size' size ltac:(lia) ltac:(lia)). lia.
Qed.
