(* ===== verification/BoardMem.v ===== *)
(** Concrete heaps: the hypotheses of the theorems on memory hold for them, and
    runs that show where the allocator does not do what its interface promises. *)

From S2P Require Import Prelude Errno Membox MemboxInv Memory MemInv MemBlocks MemWalk MemAlloc MemApi MemResize MemPools MemSpec MemReport.

(** ** A pool of 2048 bytes *)

Definition ram (a len : Z) : gmap Z Z := list_to_map ((λ i, (a + 4 * Z.of_nat i, 0)) <$> seq 0 (Z.to_nat (len / 4))).

Lemma ram_some a len x : a <= x < a + len -> (4 | x - a) -> (4 | len) -> is_Some (ram a len !! x).
Proof.
  intros Hx [k Hk] [m ->]. apply not_eq_None_Some. intros Hn%not_elem_of_list_to_map_2. apply Hn. rewrite <- list_fmap_compose.
  apply list_elem_of_fmap. exists (Z.to_nat k). split; [cbn; lia|]. apply elem_of_seq. rewrite Z.div_mul by lia. lia.
Qed.

Definition raw : Heap := mk_Heap 0 (ram 0x1000 4096).
Definition heap1 : Heap := match LOS_MemInit 0x1000 2048 raw with Some (_, s) => s | None => raw end.
Definition blocks1 : gmap Z Blk := init_blocks 0x1000 2048.

Lemma pool1_ok : pool_ok 0x1000 2048.
Proof. split; [lia|lia|]. split; [exists 0x400|exists 512]; done. Qed.
Lemma raw_mapped : mapped 0x1000 2048 raw.
Proof. intros x Hx H4. apply ram_some; [lia| |by exists 1024]. apply Z.divide_sub_r; [done|by exists 0x400]. Qed.
Lemma raw_pools : Pools [] raw.
Proof.
  split; [reflexivity|..].
  - intros l1 g l2 E. destruct l1; discriminate E.
  - intros g Hg. destruct (not_elem_of_nil _ Hg).
  - intros l1 g l2 h E. destruct l1; discriminate E.
Qed.

Lemma heap1_pools : Pools [mk_PoolG 0x1000 2048 blocks1] heap1.
Proof.
  pose proof (mem_init_wp 0x1000 2048 [] raw raw_pools pool1_ok raw_mapped ltac:(set_solver)) as H. unfold wp, heap1 in *.
  destruct (LOS_MemInit 0x1000 2048 raw) as [[r s]|]; [|done]. by destruct H as (_ & H & _).
Qed.
Lemma pool1 : Pool 0x1000 2048 blocks1 heap1.
Proof. apply (ps_pool _ _ heap1_pools (mk_PoolG 0x1000 2048 blocks1)). set_solver. Qed.

Lemma first1 : blocks1 !! (0x1000 + 944) = Some (mk_Blk (0x1000 + 2040) (2048 - 952) BFree).
Proof. done. Qed.

(** A block of it. *)
Lemma block1 : ∃ ptr s B b, LOS_MemAlloc 0x1000 100 heap1 = Some (ptr, s) /\ Pool 0x1000 2048 B s /\ is_handle B (mem s) ptr (ptr - 8) b.
Proof.
  assert (H : wp (LOS_MemAlloc 0x1000 100) (λ ptr s, ∃ B b, Pool 0x1000 2048 B s /\ is_handle B (mem s) ptr (ptr - 8) b) heap1).
  { apply (mem_alloc_region_wp 0x1000 2048 blocks1); [exact pool1|lia| |].
    - intros [?|[?|Hno]]; [lia|lia|]. specialize (Hno _ _ first1 eq_refl). vm_compute in Hno. done.
    - intros ptr B b s Hh _ HA. exists B, b. split; [apply HA|done]. }
  unfold wp in H. destruct (LOS_MemAlloc 0x1000 100 heap1) as [[ptr s]|]; [|done]. destruct H as (B & b & ? & ?). by exists ptr, s, B, b.
Qed.

(** ** Witnesses *)

Lemma mem_alloc_correct_witness : Pool 0x1000 2048 blocks1 heap1 /\
  wp (LOS_MemAlloc 0x1000 100) (λ ptr s', ptr = 0 \/ ∃ B', Pool 0x1000 2048 B' s') heap1.
Proof.
  split; [exact pool1|]. eapply wp_mono; [apply (mem_alloc_correct 0x1000 2048 blocks1 heap1 100 pool1); lia|].
  intros r s' [(-> & _)|(B' & b & _ & _ & HA)]; [by left|right]. exists B'. apply HA.
Defined.

Lemma mem_free_correct_witness : ∃ ptr s B b, Pool 0x1000 2048 B s /\ is_handle B (mem s) ptr (ptr - 8) b /\
  wp (LOS_MemFree 0x1000 ptr) (λ r s', r = LOS_OK /\ ∃ B', Freed 0x1000 2048 B s (ptr - 8) b B' s') s.
Proof.
  destruct block1 as (ptr & s & B & b & _ & HP & Hh). exists ptr, s, B, b. split_and!; [done|done|]. apply (mem_free_correct 0x1000 2048 B s ptr (ptr - 8) b HP Hh).
Defined.

Lemma mem_free_rejects_witness : wp (LOS_MemFree 0x1000 (0x1000 + 944 + 8)) (λ r s', r = LOS_NOK /\ s' = heap1) heap1.
Proof. apply (mem_free_rejects 0x1000 2048 blocks1 heap1 (0x1000 + 944) _ pool1 first1). by left. Defined.

Lemma mem_alloc_free_witness : Pool 0x1000 2048 blocks1 heap1 /\
  wp (let* ptr := LOS_MemAlloc 0x1000 100 in if ptr =? 0 then mret LOS_OK else LOS_MemFree 0x1000 ptr)
    (λ r s', r = LOS_OK /\ Pool 0x1000 2048 blocks1 s' /\ (∀ x, owned 0x1000 2048 blocks1 x -> mem s' !! x = mem heap1 !! x)) heap1.
Proof. split; [exact pool1|]. apply (mem_alloc_free 0x1000 2048 blocks1 heap1 100 pool1). lia. Defined.

Lemma mem_realloc_correct_witness : ∃ ptr s B b, Pool 0x1000 2048 B s /\ is_handle B (mem s) ptr (ptr - 8) b /\
  wp (LOS_MemRealloc 0x1000 ptr 300) (λ r s', r = 0 \/ ∃ B' len, 0 < 300 <= len /\ placed B (ptr - 8) b (block_size 300) r len /\ Reallocated 0x1000 2048 B s (ptr - 8) b r len B' s') s.
Proof.
  destruct block1 as (ptr & s & B & b & _ & HP & Hh). exists ptr, s, B, b. split_and!; [done|done|]. revert Hh.
  generalize (eq_refl (ptr - 8)). generalize (ptr - 8) at 2 3 4 5 as a. intros a E Hh. assert (ptr = a + 8) as -> by lia. clear E.
  eapply wp_mono; [apply (mem_realloc_correct 0x1000 2048 B s a b 300 HP Hh); lia|]. intros r s' [(-> & _)|[(-> & _)|H]]; [by left|by left|by right].
Defined.

Lemma mem_align_correct_witness : Pool 0x1000 2048 blocks1 heap1 /\
  wp (LOS_MemAllocAlign 0x1000 100 64) (λ r s', r = 0 \/ (64 | r)) heap1.
Proof.
  split; [exact pool1|]. eapply wp_mono; [apply (mem_align_correct 0x1000 2048 blocks1 heap1 100 64 pool1); lia|].
  intros r s' [(-> & _)|(B' & a & b & _ & Hd & _)]; [by left|by right].
Defined.

Lemma mem_init_correct_witness : Pools [] raw /\ wp (LOS_MemInit 0x1000 2048) (λ r s', r = LOS_OK /\ Added 0x1000 2048 [] raw s') raw.
Proof. split; [exact raw_pools|]. apply (mem_init_correct 0x1000 2048 [] raw raw_pools pool1_ok raw_mapped). set_solver. Defined.

Lemma mem_deinit_correct_witness : Pools ([] ++ mk_PoolG 0x1000 2048 blocks1 :: []) heap1 /\
  wp (LOS_MemDeInit 0x1000) (λ r s', r = LOS_OK /\ Pools [] s') heap1.
Proof.
  split; [exact heap1_pools|]. eapply wp_mono; [apply (mem_deinit_correct [] (mk_PoolG 0x1000 2048 blocks1) [] heap1 heap1_pools)|]. intros r s' (? & ? & _). done.
Defined.

Lemma mem_recount_witness : Pool 0x1000 2048 blocks1 heap1 /\
  wp (let* used := LOS_MemTotalUsedGet 0x1000 in let* info := LOS_MemInfoGet 0x1000 true in let* ok := LOS_MemIntegrityCheck 0x1000 in mret (used, info, ok)) (λ r s', s' = heap1) heap1.
Proof. split; [exact pool1|]. eapply wp_mono; [apply (mem_recount 0x1000 2048 blocks1 heap1 pool1)|]. by intros r s' [? _]. Defined.

Lemma mem_index_bounds_witness : OsMemFreeListIndexGet 5000 = 72 /\ OsMemFreeListIndexGet 100 <= OsMemFreeListIndexGet 5000.
Proof.
  destruct (mem_index_bounds 5000 100) as (_ & H1 & _); [lia|lia|by exists 1250|].
  destruct (mem_index_bounds 100 5000) as (_ & _ & H2 & _); [lia|lia|by exists 25|].
  split; [|apply H2; lia]. apply (H1 72); [change OS_MEM_FREE_LIST_COUNT with 223; lia|].
  change (LOS_MemFreeNodeShow_sizes 72) with (4608, 5119). cbn [fst snd]. lia.
Defined.

(** A client that takes a block, writes to it, reads it, doubles it and gives it back. *)
Definition client1 (hist : list Z) : option HeapOp :=
  match hist with
  | [] => Some (OpAlloc 20)
  | [a] => if a =? 0 then None else Some (OpWrite a 2 7)
  | [_; a] => Some (OpRead a 2)
  | [_; _; a] => Some (OpRealloc a 40)
  | [b; _; _; a] => if b =? 0 then Some (OpFree a) else Some (OpFree b)
  | _ => None
  end.

Lemma client1_ok : well_behaved 0x1000 2048 client1 ∅.
Proof.
  assert (Hlen : ∀ hist A, spec_run 0x1000 2048 client1 ∅ hist A -> match hist with
    | [] => True
    | [a] => a <> 0 -> ∃ rg, A !! a = Some rg /\ rg_block rg = a - 8 /\ 20 <= rg_len rg
    | [_; a] | [_; _; a] => ∃ rg, A !! a = Some rg /\ rg_block rg = a - 8 /\ 20 <= rg_len rg
    | [b; _; _; a] => if b =? 0 then is_Some (A !! a) else is_Some (A !! b)
    | _ => True end).
  { intros hist A Hr. induction Hr as [|hist A op r A' Hr IH Hc Hs]; [done|]. destruct hist as [|a [|b [|c [|d [|]]]]]; cbn in Hc; try done.
    - injection Hc as <-. inversion Hs; subst; [done|]. intros _. rewrite lookup_insert_eq. eauto.
    - destruct (Z.eqb_spec a 0); [done|]. injection Hc as <-. destruct (IH ltac:(done)) as (rg & Ha & Hb & Hl). inversion Hs as [| | | | | | | |? ? ? rg' Ha' Hi|]; subst.
      rewrite Ha in Ha'. injection Ha' as <-. rewrite lookup_insert_eq. eexists. split; [done|]. unfold rg_len in *. cbn. by rewrite length_insert.
    - injection Hc as <-. by inversion Hs; subst.
    - injection Hc as <-. destruct IH as (rg & Ha & Hb & Hl). inversion Hs; subst; cbn.
      + by exists rg.
      + match goal with H : fresh _ _ _ _ _ |- _ => destruct H as [[? ?] _ _] end. destruct (Z.eqb_spec r 0); [lia|]. rewrite lookup_insert_eq. eauto. }
  intros hist A op Hr Hc. specialize (Hlen _ _ Hr). destruct hist as [|a [|b [|c [|d [|]]]]]; cbn in Hc; try done.
  - injection Hc as <-. cbn. lia.
  - destruct (Z.eqb_spec a 0); [done|]. injection Hc as <-. destruct (Hlen ltac:(done)) as (rg & Ha & _ & Hl). exists rg. split; [done|]. unfold rg_len in Hl. lia.
  - injection Hc as <-. destruct Hlen as (rg & Ha & _ & Hl). exists rg. split; [done|]. unfold rg_len in Hl. lia.
  - injection Hc as <-. destruct Hlen as (rg & Ha & Hb & Hl). split; [lia|eauto].
  - destruct (a =? 0); by injection Hc as <-.
Qed.

Lemma rep1 : HeapRep 0x1000 2048 ∅ blocks1 heap1.
Proof. split; [exact pool1|..]; intros ? ? ?; intros; rewrite lookup_empty in *; discriminate. Qed.

Lemma mem_refines_witness : HeapRep 0x1000 2048 ∅ blocks1 heap1 /\ wp (run_client 0x1000 client1 5 []) (λ hist s', ∃ A', spec_run 0x1000 2048 client1 ∅ hist A') heap1.
Proof.
  split; [exact rep1|]. eapply wp_mono; [apply (mem_refines 0x1000 2048 client1 ∅ blocks1 heap1 5 rep1 client1_ok)|]. intros hist s' (A' & _ & ? & _). by exists A'.
Defined.

(** ** A box of nine blocks, where a block is taken and given back twice *)

Definition box_raw : BoxMem := mk_BoxMem (ram 0x2000 256) 0.
Definition box_client (hist : list Z) : option BoxOp :=
  match hist with
  | [] => Some (BoxAlloc 3)
  | [_] | [_; _] => Some (BoxFree (0x2000 + 24))
  | _ => None
  end.

Lemma box_size20 : box_size 20 = 24 /\ (256 - 20) / 24 = 9.
Proof. done. Qed.

Lemma membox_correct_witness : box_ok 0x2000 24 9 /\
  wp (let* ret := LOS_MemboxInit 0x2000 256 20 in let* hist := run_box 16 0x2000 box_client 3 [] in mret (ret, hist))
    (λ r s', r = (LOS_OK, [LOS_NOK; LOS_OK; 0x2000 + 24])) box_raw.
Proof.
  assert (Hok : box_ok 0x2000 24 9) by (split; vm_compute; try split; by left || congruence). split; [exact Hok|].
  eapply wp_mono; [apply (membox_correct 16 0x2000 256 20 [] box_raw box_client 3)|].
  - split; [reflexivity| |apply NoDup_nil_2]. intros l1 q l2 E. destruct l1; discriminate E.
  - exact Hok.
  - lia.
  - lia.
  - intros x Hx H4. apply ram_some; [lia|done|by exists 64].
  - apply not_elem_of_nil.
  - intros q Hq. destruct (not_elem_of_nil _ Hq).
  - intros hist op Hop. destruct hist as [|a [|b [|]]]; cbn in Hop; try discriminate Hop; injection Hop as <-; cbn; lia.
  - intros [r hist] s' (E1 & E2 & _). cbn in E1, E2. rewrite E1, E2. reflexivity.
Defined.

(** ** Runs that go wrong *)

Definition result {A} (m : M Heap A) (s : Heap) : option A := option_map fst (m s).

(** A pool inside another pool is accepted: the check of [OsMemPoolAdd] only
    finds pools that contain an end of each other. *)
Theorem nested_pool_accepted :
  result (let* r1 := LOS_MemInit 0x1000 4096 in let* r2 := LOS_MemInit 0x1400 1024 in mret (r1, r2)) raw = Some (LOS_OK, LOS_OK).
Proof. vm_compute. reflexivity. Qed.

(** The second initialisation of a pool in use is rejected, after the head of
    the pool has been cleared: a live block can no longer be released. *)
Theorem init_twice_destroys :
  result (let* r1 := LOS_MemInit 0x1000 2048 in let* ptr := LOS_MemAlloc 0x1000 500 in let* r2 := LOS_MemInit 0x1000 2048 in
          let* r3 := LOS_MemFree 0x1000 ptr in let* q := LOS_MemAlloc 0x1000 20 in mret (r1, r2, r3, q)) raw = Some (LOS_OK, LOS_NOK, LOS_NOK, 0).
Proof. vm_compute. reflexivity. Qed.

(** A pool of 960 bytes is accepted, but its one free node and its end node share words. *)
Theorem small_pool_damaged :
  result (LOS_MemInit 0x1000 960) raw = Some LOS_OK /\ result (let* _ := LOS_MemInit 0x1000 960 in LOS_MemIntegrityCheck 0x1000) raw = None.
Proof. split; vm_compute; reflexivity. Qed.

(** A change of size of an aligned block returns an address that is not aligned,
    and the first word of the client is not there. *)
Theorem realloc_aligned_moves :
  result (let* r := LOS_MemInit 0x1000 2048 in let* _ := LOS_MemAlloc 0x1000 12 in let* ptr := LOS_MemAllocAlign 0x1000 16 64 in st ptr 7 ;;;
          let* q := LOS_MemRealloc 0x1000 ptr 32 in let* v := ld q in mret (ptr mod 64, q mod 64, v)) raw = Some (0, 12, 0).
Proof. vm_compute. reflexivity. Qed.

(** From 512 MiB on a longer block can be in a lower list: the shift of
    [OsMemSlGet] overflows. *)
Theorem index_overflow : OsMemFreeListIndexGet (2 ^ 29) < OsMemFreeListIndexGet (2 ^ 29 - 4).
Proof. vm_compute. reflexivity. Qed.
