(* ===== verification/Kernel.v ===== *)
(** The kernel state: list nodes, control blocks and global variables, with the
    parameters of a build (src/kernel/include/los_config.h), of the tick timer
    driver and of the memory pool, and the accessors the operations use. *)

From S2P Require Import Prelude Errno LosList Membox.

(** ** List nodes

    Every [LOS_DL_LIST] of the kernel: the global list heads and the nodes
    embedded in control blocks, named by the block that contains them. *)
Inductive EventRef : Type :=
  | UserEvt (e : Z)     (* an [EVENT_CB_S] of the application *)
  | TaskEvt (t : Z).    (* the [event] field of a task *)

Inductive Node : Type :=
  | PriQueue (p : Z) | FreeTask | TaskRecycle
  | PendList (t : Z) | SortNode (t : Z) | JoinList (t : Z)
  | TaskSortLink | SwtmrSortLink | SwtmrNode (i : Z)
  | UnusedSem | SemList (i : Z) | UnusedMux | MuxList (i : Z)
  | FreeQueue | QueueRead (q : Z) | QueueWrite (q : Z) | QueueMem (q : Z)
  | EventList (e : EventRef).

#[global] Instance EventRef_eq_dec : EqDecision EventRef.
Proof. solve_decision. Defined.
#[global] Instance Node_eq_dec : EqDecision Node.
Proof. solve_decision. Defined.

#[local] Definition node_code (n : Node) : Z * Z :=
  match n with
  | PriQueue p => (0, p) | FreeTask => (1, 0) | TaskRecycle => (2, 0)
  | PendList t => (3, t) | SortNode t => (4, t) | JoinList t => (5, t)
  | TaskSortLink => (6, 0) | SwtmrSortLink => (7, 0) | SwtmrNode i => (8, i)
  | UnusedSem => (9, 0) | SemList i => (10, i) | UnusedMux => (11, 0) | MuxList i => (12, i)
  | FreeQueue => (13, 0) | QueueRead q => (14, q) | QueueWrite q => (15, q) | QueueMem q => (16, q)
  | EventList (UserEvt e) => (17, e) | EventList (TaskEvt t) => (18, t)
  end.
#[local] Definition node_decode (c : Z * Z) : Node :=
  match c with
  | (0, p) => PriQueue p | (1, _) => FreeTask | (2, _) => TaskRecycle
  | (3, t) => PendList t | (4, t) => SortNode t | (5, t) => JoinList t
  | (6, _) => TaskSortLink | (7, _) => SwtmrSortLink | (8, i) => SwtmrNode i
  | (9, _) => UnusedSem | (10, i) => SemList i | (11, _) => UnusedMux | (12, i) => MuxList i
  | (13, _) => FreeQueue | (14, q) => QueueRead q | (15, q) => QueueWrite q
  | (16, q) => QueueMem q | (17, e) => EventList (UserEvt e) | (_, t) => EventList (TaskEvt t)
  end.
#[global] Instance Node_countable : Countable Node.
Proof. apply (inj_countable' node_code node_decode). by intros [| | | | | | | | | | | | | | | | |[]]. Defined.
#[local] Definition evt_code (e : EventRef) : bool * Z :=
  match e with UserEvt e => (true, e) | TaskEvt t => (false, t) end.
#[local] Definition evt_decode (c : bool * Z) : EventRef :=
  match c with (true, e) => UserEvt e | (false, t) => TaskEvt t end.
#[global] Instance EventRef_countable : Countable EventRef.
Proof. apply (inj_countable' evt_code evt_decode). by intros []. Defined.

(** [LOS_DL_LIST_ENTRY] for the containers the kernel uses. A node of another
    kind is an access outside the object. *)
Definition OS_TCB_FROM_PENDLIST (n : Node) : option Z :=
  match n with PendList t => Some t | _ => None end.
Definition GET_SEM_LIST (n : Node) : option Z :=
  match n with SemList i => Some i | _ => None end.
Definition GET_MUX_LIST (n : Node) : option Z :=
  match n with MuxList i => Some i | _ => None end.
Definition GET_QUEUE_LIST (n : Node) : option Z :=
  match n with QueueWrite q => Some q | _ => None end.

(** ** Control blocks

    Pointers to control blocks are array indices; embedded list nodes live in
    the list memory of the kernel state. *)

Record LosTaskCB := mk_LosTaskCB {
  stackPointer : Z;
  taskStatus : Z;
  priority : Z;
  timeSlice : Z;
  waitTimes : Z;
  responseTime : Z;              (* sortList.responseTime *)
  startTime : Z;
  stackSize : Z;
  topOfStack : Z;
  taskID : Z;
  taskEntry : Z;
  taskSem : option Z;
  taskMux : option Z;
  arg : Z;
  taskName : Z;
  joinRetval : Z;
  eventMask : Z;
  eventMode : Z;
  msg : Z;
  errorNo : Z;
}.
Definition zero_LosTaskCB : LosTaskCB :=
  mk_LosTaskCB 0 0 0 0 0 0 0 0 0 0 0 None None 0 0 0 0 0 0 0.

Record LosSemCB := mk_LosSemCB {
  semStat : Z;
  semCount : Z;
  maxSemCount : Z;
  semID : Z;
}.

Record LosMuxCB := mk_LosMuxCB {
  muxStat : Z;
  muxCount : Z;
  muxID : Z;
  muxPriority : Z;
  owner : option Z;
}.

#[local] Definition eta_tcb (t : LosTaskCB) : LosTaskCB :=
  mk_LosTaskCB (stackPointer t) (taskStatus t) (priority t) (timeSlice t) (waitTimes t)
    (responseTime t) (startTime t) (stackSize t) (topOfStack t) (taskID t) (taskEntry t)
    (taskSem t) (taskMux t) (arg t) (taskName t) (joinRetval t) (eventMask t) (eventMode t)
    (msg t) (errorNo t).
Definition set_stackPointer : (Z -> Z) -> LosTaskCB -> LosTaskCB := ltac:(setter eta_tcb stackPointer).
Definition set_taskStatus : (Z -> Z) -> LosTaskCB -> LosTaskCB := ltac:(setter eta_tcb taskStatus).
Definition set_priority : (Z -> Z) -> LosTaskCB -> LosTaskCB := ltac:(setter eta_tcb priority).
Definition set_timeSlice : (Z -> Z) -> LosTaskCB -> LosTaskCB := ltac:(setter eta_tcb timeSlice).
Definition set_waitTimes : (Z -> Z) -> LosTaskCB -> LosTaskCB := ltac:(setter eta_tcb waitTimes).
Definition set_responseTime : (Z -> Z) -> LosTaskCB -> LosTaskCB := ltac:(setter eta_tcb responseTime).
Definition set_startTime : (Z -> Z) -> LosTaskCB -> LosTaskCB := ltac:(setter eta_tcb startTime).
Definition set_stackSize : (Z -> Z) -> LosTaskCB -> LosTaskCB := ltac:(setter eta_tcb stackSize).
Definition set_topOfStack : (Z -> Z) -> LosTaskCB -> LosTaskCB := ltac:(setter eta_tcb topOfStack).
Definition set_taskID : (Z -> Z) -> LosTaskCB -> LosTaskCB := ltac:(setter eta_tcb taskID).
Definition set_taskEntry : (Z -> Z) -> LosTaskCB -> LosTaskCB := ltac:(setter eta_tcb taskEntry).
Definition set_taskSem : (option Z -> option Z) -> LosTaskCB -> LosTaskCB := ltac:(setter eta_tcb taskSem).
Definition set_taskMux : (option Z -> option Z) -> LosTaskCB -> LosTaskCB := ltac:(setter eta_tcb taskMux).
Definition set_arg : (Z -> Z) -> LosTaskCB -> LosTaskCB := ltac:(setter eta_tcb arg).
Definition set_taskName : (Z -> Z) -> LosTaskCB -> LosTaskCB := ltac:(setter eta_tcb taskName).
Definition set_joinRetval : (Z -> Z) -> LosTaskCB -> LosTaskCB := ltac:(setter eta_tcb joinRetval).
Definition set_eventMask : (Z -> Z) -> LosTaskCB -> LosTaskCB := ltac:(setter eta_tcb eventMask).
Definition set_eventMode : (Z -> Z) -> LosTaskCB -> LosTaskCB := ltac:(setter eta_tcb eventMode).
Definition set_msg : (Z -> Z) -> LosTaskCB -> LosTaskCB := ltac:(setter eta_tcb msg).

#[local] Definition eta_sem (s : LosSemCB) : LosSemCB :=
  mk_LosSemCB (semStat s) (semCount s) (maxSemCount s) (semID s).
Definition set_semStat : (Z -> Z) -> LosSemCB -> LosSemCB := ltac:(setter eta_sem semStat).
Definition set_semCount : (Z -> Z) -> LosSemCB -> LosSemCB := ltac:(setter eta_sem semCount).
Definition set_maxSemCount : (Z -> Z) -> LosSemCB -> LosSemCB := ltac:(setter eta_sem maxSemCount).
Definition set_semID : (Z -> Z) -> LosSemCB -> LosSemCB := ltac:(setter eta_sem semID).

#[local] Definition eta_mux (x : LosMuxCB) : LosMuxCB :=
  mk_LosMuxCB (muxStat x) (muxCount x) (muxID x) (muxPriority x) (owner x).
Definition set_muxStat : (Z -> Z) -> LosMuxCB -> LosMuxCB := ltac:(setter eta_mux muxStat).
Definition set_muxCount : (Z -> Z) -> LosMuxCB -> LosMuxCB := ltac:(setter eta_mux muxCount).
Definition set_muxID : (Z -> Z) -> LosMuxCB -> LosMuxCB := ltac:(setter eta_mux muxID).
Definition set_muxPriority : (Z -> Z) -> LosMuxCB -> LosMuxCB := ltac:(setter eta_mux muxPriority).
Definition set_owner : (option Z -> option Z) -> LosMuxCB -> LosMuxCB := ltac:(setter eta_mux owner).

(** A queue owns the bytes of its ring buffer; [readWriteableCnt] and
    [readWriteList] are split into their two entries. *)
Record LosQueueCB := mk_LosQueueCB {
  queue : option (list Z);
  queueName : Z;
  queueState : Z;
  queueLen : Z;
  queueSize : Z;
  queueID : Z;
  queueHead : Z;
  queueTail : Z;
  readableCnt : Z;               (* readWriteableCnt[OS_QUEUE_READ] *)
  writeableCnt : Z;              (* readWriteableCnt[OS_QUEUE_WRITE] *)
  queueAddr : option Z;          (* address of [queue] in the memory pool *)
}.
Definition zero_LosQueueCB : LosQueueCB := mk_LosQueueCB None 0 0 0 0 0 0 0 0 0 None.

Record SWTMR_CTRL_S := mk_SWTMR_CTRL_S {
  swtmrNext : option Z;
  ucState : Z;
  ucMode : Z;
  ucOverrun : Z;
  usTimerID : Z;
  uwInterval : Z;
  uwArg : Z;
  pfnHandler : Z;
  swtmrResponseTime : Z;         (* stSortList.responseTime *)
  swtmrStartTime : Z;
}.
Definition zero_SWTMR_CTRL_S : SWTMR_CTRL_S := mk_SWTMR_CTRL_S None 0 0 0 0 0 0 0 0 0.

#[local] Definition eta_queue (q : LosQueueCB) : LosQueueCB :=
  mk_LosQueueCB (queue q) (queueName q) (queueState q) (queueLen q) (queueSize q) (queueID q)
    (queueHead q) (queueTail q) (readableCnt q) (writeableCnt q) (queueAddr q).
Definition set_queue : (option (list Z) -> option (list Z)) -> LosQueueCB -> LosQueueCB :=
  ltac:(setter eta_queue queue).
Definition set_queueName : (Z -> Z) -> LosQueueCB -> LosQueueCB := ltac:(setter eta_queue queueName).
Definition set_queueState : (Z -> Z) -> LosQueueCB -> LosQueueCB := ltac:(setter eta_queue queueState).
Definition set_queueLen : (Z -> Z) -> LosQueueCB -> LosQueueCB := ltac:(setter eta_queue queueLen).
Definition set_queueSize : (Z -> Z) -> LosQueueCB -> LosQueueCB := ltac:(setter eta_queue queueSize).
Definition set_queueID : (Z -> Z) -> LosQueueCB -> LosQueueCB := ltac:(setter eta_queue queueID).
Definition set_queueHead : (Z -> Z) -> LosQueueCB -> LosQueueCB := ltac:(setter eta_queue queueHead).
Definition set_queueTail : (Z -> Z) -> LosQueueCB -> LosQueueCB := ltac:(setter eta_queue queueTail).
Definition set_readableCnt : (Z -> Z) -> LosQueueCB -> LosQueueCB := ltac:(setter eta_queue readableCnt).
Definition set_writeableCnt : (Z -> Z) -> LosQueueCB -> LosQueueCB := ltac:(setter eta_queue writeableCnt).
Definition set_queueAddr : (option Z -> option Z) -> LosQueueCB -> LosQueueCB :=
  ltac:(setter eta_queue queueAddr).

#[local] Definition eta_swtmr (w : SWTMR_CTRL_S) : SWTMR_CTRL_S :=
  mk_SWTMR_CTRL_S (swtmrNext w) (ucState w) (ucMode w) (ucOverrun w) (usTimerID w) (uwInterval w)
    (uwArg w) (pfnHandler w) (swtmrResponseTime w) (swtmrStartTime w).
Definition set_swtmrNext : (option Z -> option Z) -> SWTMR_CTRL_S -> SWTMR_CTRL_S :=
  ltac:(setter eta_swtmr swtmrNext).
Definition set_ucState : (Z -> Z) -> SWTMR_CTRL_S -> SWTMR_CTRL_S := ltac:(setter eta_swtmr ucState).
Definition set_ucMode : (Z -> Z) -> SWTMR_CTRL_S -> SWTMR_CTRL_S := ltac:(setter eta_swtmr ucMode).
Definition set_ucOverrun : (Z -> Z) -> SWTMR_CTRL_S -> SWTMR_CTRL_S := ltac:(setter eta_swtmr ucOverrun).
Definition set_usTimerID : (Z -> Z) -> SWTMR_CTRL_S -> SWTMR_CTRL_S := ltac:(setter eta_swtmr usTimerID).
Definition set_uwInterval : (Z -> Z) -> SWTMR_CTRL_S -> SWTMR_CTRL_S := ltac:(setter eta_swtmr uwInterval).
Definition set_uwArg : (Z -> Z) -> SWTMR_CTRL_S -> SWTMR_CTRL_S := ltac:(setter eta_swtmr uwArg).
Definition set_pfnHandler : (Z -> Z) -> SWTMR_CTRL_S -> SWTMR_CTRL_S := ltac:(setter eta_swtmr pfnHandler).
Definition set_swtmrResponseTime : (Z -> Z) -> SWTMR_CTRL_S -> SWTMR_CTRL_S :=
  ltac:(setter eta_swtmr swtmrResponseTime).
Definition set_swtmrStartTime : (Z -> Z) -> SWTMR_CTRL_S -> SWTMR_CTRL_S :=
  ltac:(setter eta_swtmr swtmrStartTime).

(** ** Parameters of a build

    The configuration macros; the tick timer driver ([ArchTickTimer], a table of
    functions supplied by the board); the system memory pool as its clients see
    it, with the initial contents of the semaphore, mutex and message buffers
    it allocates; the architecture's initial stack frame. *)
Class Platform := {
  LOSCFG_BASE_CORE_TSK_LIMIT : Z;
  LOSCFG_BASE_IPC_SEM_LIMIT : Z;
  LOSCFG_BASE_IPC_MUX_LIMIT : Z;
  LOSCFG_BASE_IPC_QUEUE_LIMIT : Z;
  LOSCFG_BASE_CORE_SWTMR_LIMIT : Z;
  LOSCFG_BASE_CORE_TICK_PER_SECOND : Z;
  LOSCFG_BASE_CORE_TICK_PER_SECOND_MINI : Z;
  LOSCFG_BASE_CORE_TICK_RESPONSE_MAX : Z;
  LOSCFG_BASE_CORE_TIMESLICE_TIMEOUT : Z;
  LOSCFG_BASE_CORE_TSK_MIN_STACK_SIZE : Z;
  LOSCFG_BASE_CORE_TSK_DEFAULT_STACK_SIZE : Z;
  LOSCFG_BASE_CORE_TSK_IDLE_STACK_SIZE : Z;
  LOSCFG_BASE_CORE_TSK_SWTMR_STACK_SIZE : Z;
  LOSCFG_SYS_HEAP_SIZE : Z;
  LOSCFG_STACK_POINT_ALIGN_SIZE : Z;
  LOSCFG_KERNEL_PM : bool;
  LOSCFG_PLATFORM_HWI_LIMIT : Z;
  Timer : Type;
  timer_init : Timer -> Z * Z * Timer;        (* result, frequency *)
  timer_irqNum : Z;
  timer_getCycle : Timer -> Z * Z * Timer;    (* counter, period *)
  timer_reload : Z -> Timer -> Z * Timer;
  timer_irq : Timer -> option Timer;          (* the tick interrupt, when pending, is taken *)
  timer_lock : Timer -> Timer;
  timer_unlock : Timer -> Timer;
  MemPool : Type;
  LOS_MemAlloc : Z -> MemPool -> option Z * MemPool;
  LOS_MemAllocAlign : Z -> Z -> MemPool -> option Z * MemPool;
  LOS_MemFree : option Z -> MemPool -> Z * MemPool;
  fresh_LosSemCB : Z -> LosSemCB;
  fresh_LosMuxCB : Z -> LosMuxCB;
  fresh_byte : Z -> Z;
  ArchTskStackInit : Z -> Z -> Z -> Z;
  addr_OsIdleTask : Z;                        (* code and string addresses *)
  addr_IdleCore000 : Z;
  addr_OsSwtmrTask : Z;
  addr_Swt_Task : Z;
}.

(** ** The kernel state *)

Section Kernel.
Context `{Platform}.

Record Kernel := mk_Kernel {
  (* lists *)
  dlists : gmap Node (LOS_DL_LIST Node);
  (* los_task.c *)
  g_taskCBArray : gmap Z LosTaskCB;
  g_taskMaxNum : Z;
  g_idleTaskID : Z;
  g_swtmrTaskID : Z;
  g_losTaskLock : Z;
  g_taskScheduled : bool;
  runTask : option Z;            (* g_losTask.runTask *)
  newTask : option Z;            (* g_losTask.newTask *)
  (* los_sched.c *)
  g_swtmrScan : bool;            (* OsSwtmrScan is registered *)
  g_queueBitmap : Z;
  g_schedResponseID : Z;
  g_tickIntLock : Z;
  g_schedResponseTime : Z;
  g_schedTimeSlice : Z;
  g_schedTimeSliceMin : Z;
  g_schedTickMinPeriod : Z;
  g_tickResponsePrecision : Z;
  (* los_tick.c *)
  g_sysTickTimer : Timer;
  tickTimerFreq : Z;             (* g_sysTickTimer->freq *)
  g_sysTimerIsInit : bool;
  g_sysClock : Z;
  g_cyclesPerTick : Z;
  g_tickTimerStartTime : Z;
  g_tickTimerBase : Z;
  g_oldTickTimerBase : Z;
  g_tickTimerBaseUpdate : bool;
  (* los_pm.c *)
  pm_sysMode : Z;
  pm_lock : Z;
  (* IPC and timers *)
  g_allSem : gmap Z LosSemCB;
  g_allMux : gmap Z LosMuxCB;
  g_allQueue : gmap Z LosQueueCB;
  eventIDs : gmap EventRef Z;    (* uwEventID of every event block *)
  g_swtmrCBArray : gmap Z SWTMR_CTRL_S;
  g_swtmrFreeList : option Z;
  g_swtmrHandlerQueue : Z;
  (* memory *)
  sysMem : MemPool;              (* the pool at m_aucSysMem0 *)
  ram : BoxMem;                  (* the static box pools *)
  (* processor *)
  intActive : bool;              (* in an interrupt handler *)
  pendSV : bool;                 (* a task switch is requested *)
}.

#[local] Definition eta_kernel (k : Kernel) : Kernel :=
  mk_Kernel (dlists k) (g_taskCBArray k) (g_taskMaxNum k) (g_idleTaskID k) (g_swtmrTaskID k)
    (g_losTaskLock k) (g_taskScheduled k) (runTask k) (newTask k) (g_swtmrScan k) (g_queueBitmap k)
    (g_schedResponseID k) (g_tickIntLock k) (g_schedResponseTime k) (g_schedTimeSlice k)
    (g_schedTimeSliceMin k) (g_schedTickMinPeriod k) (g_tickResponsePrecision k) (g_sysTickTimer k)
    (tickTimerFreq k) (g_sysTimerIsInit k) (g_sysClock k) (g_cyclesPerTick k) (g_tickTimerStartTime k) (g_tickTimerBase k)
    (g_oldTickTimerBase k) (g_tickTimerBaseUpdate k) (pm_sysMode k) (pm_lock k) (g_allSem k)
    (g_allMux k) (g_allQueue k) (eventIDs k) (g_swtmrCBArray k) (g_swtmrFreeList k)
    (g_swtmrHandlerQueue k) (sysMem k) (ram k) (intActive k) (pendSV k).
#[local] Abbreviation upd A := ((A -> A) -> Kernel -> Kernel) (only parsing).
Definition set_dlists : upd (gmap Node (LOS_DL_LIST Node)) := ltac:(setter eta_kernel dlists).
Definition set_g_taskCBArray : upd (gmap Z LosTaskCB) := ltac:(setter eta_kernel g_taskCBArray).
Definition set_g_taskMaxNum : upd Z := ltac:(setter eta_kernel g_taskMaxNum).
Definition set_g_idleTaskID : upd Z := ltac:(setter eta_kernel g_idleTaskID).
Definition set_g_swtmrTaskID : upd Z := ltac:(setter eta_kernel g_swtmrTaskID).
Definition set_g_losTaskLock : upd Z := ltac:(setter eta_kernel g_losTaskLock).
Definition set_g_taskScheduled : upd bool := ltac:(setter eta_kernel g_taskScheduled).
Definition set_runTask : upd (option Z) := ltac:(setter eta_kernel runTask).
Definition set_newTask : upd (option Z) := ltac:(setter eta_kernel newTask).
Definition set_g_swtmrScan : upd bool := ltac:(setter eta_kernel g_swtmrScan).
Definition set_g_queueBitmap : upd Z := ltac:(setter eta_kernel g_queueBitmap).
Definition set_g_schedResponseID : upd Z := ltac:(setter eta_kernel g_schedResponseID).
Definition set_g_tickIntLock : upd Z := ltac:(setter eta_kernel g_tickIntLock).
Definition set_g_schedResponseTime : upd Z := ltac:(setter eta_kernel g_schedResponseTime).
Definition set_g_schedTimeSlice : upd Z := ltac:(setter eta_kernel g_schedTimeSlice).
Definition set_g_schedTimeSliceMin : upd Z := ltac:(setter eta_kernel g_schedTimeSliceMin).
Definition set_g_schedTickMinPeriod : upd Z := ltac:(setter eta_kernel g_schedTickMinPeriod).
Definition set_g_tickResponsePrecision : upd Z := ltac:(setter eta_kernel g_tickResponsePrecision).
Definition set_g_sysTickTimer : upd Timer := ltac:(setter eta_kernel g_sysTickTimer).
Definition set_tickTimerFreq : upd Z := ltac:(setter eta_kernel tickTimerFreq).
Definition set_g_sysTimerIsInit : upd bool := ltac:(setter eta_kernel g_sysTimerIsInit).
Definition set_g_sysClock : upd Z := ltac:(setter eta_kernel g_sysClock).
Definition set_g_cyclesPerTick : upd Z := ltac:(setter eta_kernel g_cyclesPerTick).
Definition set_g_tickTimerStartTime : upd Z := ltac:(setter eta_kernel g_tickTimerStartTime).
Definition set_g_tickTimerBase : upd Z := ltac:(setter eta_kernel g_tickTimerBase).
Definition set_g_oldTickTimerBase : upd Z := ltac:(setter eta_kernel g_oldTickTimerBase).
Definition set_g_tickTimerBaseUpdate : upd bool := ltac:(setter eta_kernel g_tickTimerBaseUpdate).
Definition set_pm_sysMode : upd Z := ltac:(setter eta_kernel pm_sysMode).
Definition set_pm_lock : upd Z := ltac:(setter eta_kernel pm_lock).
Definition set_g_allSem : upd (gmap Z LosSemCB) := ltac:(setter eta_kernel g_allSem).
Definition set_g_allMux : upd (gmap Z LosMuxCB) := ltac:(setter eta_kernel g_allMux).
Definition set_g_allQueue : upd (gmap Z LosQueueCB) := ltac:(setter eta_kernel g_allQueue).
Definition set_eventIDs : upd (gmap EventRef Z) := ltac:(setter eta_kernel eventIDs).
Definition set_g_swtmrCBArray : upd (gmap Z SWTMR_CTRL_S) := ltac:(setter eta_kernel g_swtmrCBArray).
Definition set_g_swtmrFreeList : upd (option Z) := ltac:(setter eta_kernel g_swtmrFreeList).
Definition set_g_swtmrHandlerQueue : upd Z := ltac:(setter eta_kernel g_swtmrHandlerQueue).
Definition set_sysMem : upd MemPool := ltac:(setter eta_kernel sysMem).
Definition set_ram : upd BoxMem := ltac:(setter eta_kernel ram).
Definition set_intActive : upd bool := ltac:(setter eta_kernel intActive).
Definition set_pendSV : upd bool := ltac:(setter eta_kernel pendSV).

(** ** Accessors *)

(** A list operation on the kernel's list memory. *)
Definition onlist {A} (m : M (gmap Node (LOS_DL_LIST Node)) A) : M Kernel A := zoom dlists set_dlists m.

(** [*p] and [p->f = ...] for a task, semaphore, mutex, queue or timer block.
    An index outside the array faults. *)
Definition tcb (t : Z) : M Kernel LosTaskCB :=
  let* a := gets g_taskCBArray in of_option (a !! t).
Definition mod_tcb (t : Z) (f : LosTaskCB -> LosTaskCB) : M Kernel unit :=
  let* c := tcb t in modify (set_g_taskCBArray (insert t (f c))).
Definition sem (i : Z) : M Kernel LosSemCB :=
  let* a := gets g_allSem in of_option (a !! i).
Definition mod_sem (i : Z) (f : LosSemCB -> LosSemCB) : M Kernel unit :=
  let* c := sem i in modify (set_g_allSem (insert i (f c))).
Definition mux (i : Z) : M Kernel LosMuxCB :=
  let* a := gets g_allMux in of_option (a !! i).
Definition mod_mux (i : Z) (f : LosMuxCB -> LosMuxCB) : M Kernel unit :=
  let* c := mux i in modify (set_g_allMux (insert i (f c))).
Definition queueCB (i : Z) : M Kernel LosQueueCB :=
  let* a := gets g_allQueue in of_option (a !! i).
Definition mod_queueCB (i : Z) (f : LosQueueCB -> LosQueueCB) : M Kernel unit :=
  let* c := queueCB i in modify (set_g_allQueue (insert i (f c))).
Definition swtmrCB (i : Z) : M Kernel SWTMR_CTRL_S :=
  let* a := gets g_swtmrCBArray in of_option (a !! i).
Definition mod_swtmrCB (i : Z) (f : SWTMR_CTRL_S -> SWTMR_CTRL_S) : M Kernel unit :=
  let* c := swtmrCB i in modify (set_g_swtmrCBArray (insert i (f c))).
(** [g_losTask.runTask] when it is dereferenced. *)
Definition running : M Kernel Z := let* r := gets runTask in of_option r.

(** [taskStatus |= f] and [taskStatus &= ~f]. *)
Definition set_status (t f : Z) : M Kernel unit := mod_tcb t (set_taskStatus (setf f)).
Definition clear_status (t f : Z) : M Kernel unit := mod_tcb t (set_taskStatus (clrf f)).

(** A status flag of a task. *)
Definition has (c : LosTaskCB) (f : Z) : bool := test (taskStatus c) f.

Lemma wp_tcb k t c (Q : LosTaskCB -> Kernel -> Prop) :
  g_taskCBArray k !! t = Some c -> Q c k -> wp (tcb t) Q k.
Proof. intros Hc HQ. unfold tcb. wp_steps. by eapply wp_of_option. Qed.
Lemma wp_mod_tcb k t c f (Q : unit -> Kernel -> Prop) :
  g_taskCBArray k !! t = Some c -> Q tt (set_g_taskCBArray (insert t (f c)) k) ->
  wp (mod_tcb t f) Q k.
Proof. intros Hc HQ. unfold mod_tcb. wp_step. eapply wp_tcb; [done|]. by wp_steps. Qed.
Lemma wp_sem k i c (Q : LosSemCB -> Kernel -> Prop) :
  g_allSem k !! i = Some c -> Q c k -> wp (sem i) Q k.
Proof. intros Hc HQ. unfold sem. wp_steps. by eapply wp_of_option. Qed.
Lemma wp_mod_sem k i c f (Q : unit -> Kernel -> Prop) :
  g_allSem k !! i = Some c -> Q tt (set_g_allSem (insert i (f c)) k) ->
  wp (mod_sem i f) Q k.
Proof. intros Hc HQ. unfold mod_sem. wp_step. eapply wp_sem; [done|]. by wp_steps. Qed.
Lemma wp_mux k i c (Q : LosMuxCB -> Kernel -> Prop) :
  g_allMux k !! i = Some c -> Q c k -> wp (mux i) Q k.
Proof. intros Hc HQ. unfold mux. wp_steps. by eapply wp_of_option. Qed.
Lemma wp_mod_mux k i c f (Q : unit -> Kernel -> Prop) :
  g_allMux k !! i = Some c -> Q tt (set_g_allMux (insert i (f c)) k) ->
  wp (mod_mux i f) Q k.
Proof. intros Hc HQ. unfold mod_mux. wp_step. eapply wp_mux; [done|]. by wp_steps. Qed.
Lemma wp_queueCB k i c (Q : LosQueueCB -> Kernel -> Prop) :
  g_allQueue k !! i = Some c -> Q c k -> wp (queueCB i) Q k.
Proof. intros Hc HQ. unfold queueCB. wp_steps. by eapply wp_of_option. Qed.
Lemma wp_mod_queueCB k i c f (Q : unit -> Kernel -> Prop) :
  g_allQueue k !! i = Some c -> Q tt (set_g_allQueue (insert i (f c)) k) ->
  wp (mod_queueCB i f) Q k.
Proof. intros Hc HQ. unfold mod_queueCB. wp_step. eapply wp_queueCB; [done|]. by wp_steps. Qed.
Lemma wp_swtmrCB k i c (Q : SWTMR_CTRL_S -> Kernel -> Prop) :
  g_swtmrCBArray k !! i = Some c -> Q c k -> wp (swtmrCB i) Q k.
Proof. intros Hc HQ. unfold swtmrCB. wp_steps. by eapply wp_of_option. Qed.
Lemma wp_mod_swtmrCB k i c f (Q : unit -> Kernel -> Prop) :
  g_swtmrCBArray k !! i = Some c -> Q tt (set_g_swtmrCBArray (insert i (f c)) k) ->
  wp (mod_swtmrCB i f) Q k.
Proof. intros Hc HQ. unfold mod_swtmrCB. wp_step. eapply wp_swtmrCB; [done|]. by wp_steps. Qed.
Lemma wp_running k t (Q : Z -> Kernel -> Prop) :
  runTask k = Some t -> Q t k -> wp running Q k.
Proof. intros Hc HQ. unfold running. wp_steps. by eapply wp_of_option. Qed.

#[local] Set Warnings "-register-all".
(** A call that blocks returns to its caller only when its task runs again:
    what it then does is a continuation. *)
Inductive Proc (A : Type) : Type :=
  | Done (a : A)
  | Blocked (k : Kernel -> option (Proc A * Kernel)).

End Kernel.

#[global] Arguments Kernel _ : clear implicits.
#[global] Arguments Kernel {_}.
#[global] Arguments Done {_ _} a.
#[global] Arguments Blocked {_ _} k.
