(* ===== verification/SysTick.v ===== *)
(** The tick timer driver of Cortex-M4 (src/arch/arm/cortex-m4/gcc/los_timer.c)
    over the registers of the SysTick counter, and the proof that it keeps the
    laws the kernel's clock is proved against. *)

From S2P Require Import Prelude Errno.

#[local] Abbreviation len l := (Z.of_nat (length l)).

(** ** The counter

    [VAL] counts down by one per cycle while the counter is enabled, and [LOAD]
    follows 0.  [passes] says how many cycles pass before each following read of
    [VAL]; none pass when it is used up. *)
Record SysTick := mk_SysTick {
  CTRL_ENABLE : bool;
  LOAD : Z;
  VAL : Z;
  PENDST : bool;                 (* the pending tick interrupt, SCB->ICSR *)
  passes : list Z;
}.

Definition SysTick_LOAD_RELOAD_Msk : Z := 0xFFFFFF.

Definition elapse (s : SysTick) : SysTick :=
  match passes s with
  | [] => s
  | n :: rest =>
      if CTRL_ENABLE s then
        mk_SysTick true (LOAD s) ((VAL s - n) mod (LOAD s + 1)) (PENDST s || (VAL s <? n)) rest
      else mk_SysTick false (LOAD s) (VAL s) (PENDST s) rest
  end.

(** ** The driver; [periodMax] is LOSCFG_BASE_CORE_TICK_RESPONSE_MAX. *)

(** [SysTick_Config] of core_cm4.h; 1 is failure. *)
Definition SysTick_Config (ticks : Z) (s : SysTick) : Z * SysTick :=
  if u32 (ticks - 1) >? SysTick_LOAD_RELOAD_Msk then (1, s)
  else (0, mk_SysTick true (u32 (ticks - 1)) 0 (PENDST s) (passes s)).

(** The results are the error code and the frequency [OS_SYS_CLOCK]. *)
Definition SysTickStart (OS_SYS_CLOCK periodMax : Z) (s : SysTick) : Z * Z * SysTick :=
  let (ret, s') := SysTick_Config periodMax s in
  (if ret =? 1 then LOS_ERRNO_TICK_PER_SEC_TOO_SMALL else LOS_OK, OS_SYS_CLOCK, s').

Definition SysTickReload (periodMax nextResponseTime : Z) (s : SysTick) : Z * SysTick :=
  let nextResponseTime := if nextResponseTime >? periodMax then periodMax else nextResponseTime in
  (nextResponseTime,
   mk_SysTick true (Z.land (u32 (nextResponseTime - 1)) SysTick_LOAD_RELOAD_Msk) 0 false (passes s)).

(** The results are the cycles of the current period and the period. *)
Definition SysTickCycleGet (s : SysTick) : Z * Z * SysTick :=
  let s := elapse s in
  let val := VAL s in
  let period := LOAD s in
  let hwCycle := if negb (val =? 0) then u32 (period - val) else 0 in
  (hwCycle, period, s).

(** The interrupt is taken, which clears its pending bit. *)
Definition SysTick_irq (s : SysTick) : option SysTick :=
  if PENDST s then Some (mk_SysTick (CTRL_ENABLE s) (LOAD s) (VAL s) false (passes s)) else None.

Definition SysTickLock (s : SysTick) : SysTick := mk_SysTick false (LOAD s) (VAL s) (PENDST s) (passes s).
Definition SysTickUnlock (s : SysTick) : SysTick := mk_SysTick true (LOAD s) (VAL s) (PENDST s) (passes s).

(** ** Correctness *)

(** The cycles of the current period, as the driver reports them. *)
Definition cycles (s : SysTick) : Z := if VAL s =? 0 then 0 else LOAD s - VAL s.

(** The clock was last read at most the cycles of the counter after the start of
    the period, and it cannot reach 2^63 with the readings left. *)
Definition systick_ok (s : SysTick) (base old : Z) : Prop :=
  0 <= LOAD s < 2 ^ 24 /\ 0 <= VAL s <= LOAD s /\ Forall (λ n, 0 <= n) (passes s) /\
  0 <= base /\ 0 <= old <= base + cycles s /\
  base + cycles s + (3 * len (passes s) + Z.b2z (PENDST s) + 2) * 2 ^ 24 < 2 ^ 63.

Lemma cycles_range s : 0 <= VAL s <= LOAD s -> 0 <= cycles s <= LOAD s.
Proof. unfold cycles. destruct (Z.eqb_spec (VAL s) 0); lia. Qed.

Lemma systick_range s base old : systick_ok s base old -> 0 <= base < 2 ^ 63 /\ 0 <= old < 2 ^ 63.
Proof.
  intros (Hl & Hv & _ & Hb & Ho & Hs). pose proof (cycles_range s Hv). destruct (PENDST s); cbn [Z.b2z] in Hs; lia.
Qed.

(** Time passes or the readings are used up. *)
Lemma elapse_ok s : 0 <= LOAD s < 2 ^ 24 -> 0 <= VAL s <= LOAD s -> Forall (λ n, 0 <= n) (passes s) ->
  LOAD (elapse s) = LOAD s /\ 0 <= VAL (elapse s) <= LOAD s /\ Forall (λ n, 0 <= n) (passes (elapse s)) /\
  (elapse s = s \/ len (passes (elapse s)) + 1 = len (passes s)).
Proof.
  intros Hl Hv Hp. unfold elapse. destruct (passes s) as [|n rest] eqn:E; [rewrite E; by auto|].
  apply Forall_cons in Hp as [Hn Hr]. destruct (CTRL_ENABLE s); cbn; split_and!; try done; try lia.
  1,2: pose proof (Z.mod_pos_bound (VAL s - n) (LOAD s + 1)); lia.
Qed.

Lemma cycle_get_eq s : 0 <= LOAD s < 2 ^ 24 -> 0 <= VAL s <= LOAD s -> Forall (λ n, 0 <= n) (passes s) ->
  SysTickCycleGet s = (cycles (elapse s), LOAD s, elapse s).
Proof.
  intros Hl Hv Hp. destruct (elapse_ok s Hl Hv Hp) as (El & Ev & _). unfold SysTickCycleGet, cycles. rewrite El.
  destruct (Z.eqb_spec (VAL (elapse s)) 0); [done|]. cbn [negb]. rewrite u32_id by lia. done.
Qed.

(** A reading is counted from the start of the period, and a reading below the
    last one is one period later. *)
Lemma systick_getCycle s base old time period s' :
  systick_ok s base old -> SysTickCycleGet s = (time, period, s') ->
  0 <= time /\ 0 <= period /\ base + time < 2 ^ 63 /\
  (old <= base + time -> systick_ok s' base (base + time)) /\
  (base + time < old -> base + period + time < 2 ^ 63 /\ old <= base + period + time /\
     systick_ok s' (base + period) (base + period + time)).
Proof.
  intros (Hl & Hv & Hp & Hb & Ho & Hs). rewrite cycle_get_eq by done. intros [= <- <- <-].
  destruct (elapse_ok s Hl Hv Hp) as (El & Ev & Ep & En). pose proof (cycles_range s Hv) as Hc.
  pose proof (cycles_range (elapse s)) as Hc'. rewrite El in Hc'. specialize (Hc' Ev).
  assert (Hb2 : 0 <= Z.b2z (PENDST s) <= 1) by by destruct (PENDST s).
  assert (Hb3 : 0 <= Z.b2z (PENDST (elapse s)) <= 1) by by destruct (PENDST (elapse s)).
  split_and!; try lia; unfold systick_ok; rewrite El.
  - intros _. split_and!; try done; try lia. destruct En as [->|En]; lia.
  - intros Hlt. destruct En as [E|En]; [rewrite E in Hlt; lia|]. split_and!; try done; lia.
Qed.

Lemma systick_reload periodMax p s base old r s' :
  systick_ok s base old -> SysTickReload periodMax p s = (r, s') -> systick_ok s' old old.
Proof.
  intros (Hl & Hv & Hp & Hb & Ho & Hs) [= <- <-]. pose proof (cycles_range s Hv) as Hc.
  assert (Hm : ∀ x, 0 <= Z.land x SysTick_LOAD_RELOAD_Msk < 2 ^ 24).
  { intros x. change SysTick_LOAD_RELOAD_Msk with (Z.ones 24). rewrite Z.land_ones by lia. apply Z.mod_pos_bound. lia. }
  unfold systick_ok. cbn. specialize (Hm (u32 ((if p >? periodMax then periodMax else p) - 1))).
  assert (Hb2 : 0 <= Z.b2z (PENDST s) <= 1) by by destruct (PENDST s).
  split_and!; try done; try lia. all: unfold cycles; cbn; lia.
Qed.

(** The interrupt is taken after the end of a period, whose cycles are then
    added to the start of the period. *)
Lemma systick_irq s base old s' time period s2 :
  systick_ok s base old -> SysTick_irq s = Some s' ->
  systick_ok s' base old /\
  (SysTickCycleGet s' = (time, period, s2) ->
     0 <= period /\ base + period < 2 ^ 63 /\ systick_ok s2 (base + period) old).
Proof.
  intros (Hl & Hv & Hp & Hb & Ho & Hs). unfold SysTick_irq. destruct (PENDST s) eqn:E; [|done]. intros [= <-].
  pose proof (cycles_range s Hv) as Hc. set (s1 := mk_SysTick _ _ _ _ _). assert (Ec : cycles s1 = cycles s) by done.
  split; [unfold systick_ok; rewrite Ec; cbn; cbn [Z.b2z] in Hs; by split_and!; try done; lia|].
  rewrite cycle_get_eq by done. intros [= <- <- <-].
  destruct (elapse_ok s1 Hl Hv Hp) as (El & Ev & Ep & En). pose proof (cycles_range (elapse s1)) as Hc'.
  rewrite El in Hc'. specialize (Hc' Ev). change (LOAD s1) with (LOAD s) in *.
  assert (Hb3 : 0 <= Z.b2z (PENDST (elapse s1)) <= 1) by by destruct (PENDST (elapse s1)).
  cbn [Z.b2z] in Hs. unfold systick_ok. rewrite El. split_and!; try done; try lia.
  destruct En as [->|En]; [rewrite Ec; cbn; lia|]. change (passes s1) with (passes s) in En. lia.
Qed.
