(* ===== verification/Tick.v ===== *)
(** The tick clock (src/kernel/src/los_tick.c, src/kernel/include/los_tick.h):
    the cycle counter built from the tick timer driver, and the conversions
    between cycles, ticks and wall-clock units. The build without a wide timer
    (LOSCFG_BASE_CORE_TICK_WTIMER == 0). *)

From S2P Require Import Prelude Errno LosList Kernel.

Definition OS_SYS_MS_PER_SECOND : Z := 1000.
Definition OS_SYS_US_PER_SECOND : Z := 1000000.
Definition OS_SYS_NS_PER_SECOND : Z := 1000000000.
Definition OS_SYS_NS_PER_MS : Z := 1000000.
Definition OS_SYS_US_PER_MS : Z := 1000.
Definition OS_SYS_MV_32_BIT : Z := 32.

Definition OS_SYS_CYCLE_TO_NS (cycle freq : Z) : Z :=
  u64 (cycle / freq * OS_SYS_NS_PER_SECOND + (cycle mod freq * OS_SYS_NS_PER_SECOND / freq)).
Definition OS_SYS_NS_TO_CYCLE (time freq : Z) : Z :=
  u64 (time / OS_SYS_NS_PER_SECOND * freq + (time mod OS_SYS_NS_PER_SECOND) * freq / OS_SYS_NS_PER_SECOND).

Definition OsTimeConvertFreq (time oldFreq newFreq : Z) : Z :=
  if oldFreq >=? newFreq then time / (oldFreq / newFreq)
  else u64 (time * (newFreq / oldFreq)).

Section Tick.
Context `{Platform}.

Definition OS_SYS_TICK_TO_CYCLE (sysClock ticks : Z) : Z :=
  u64 (ticks * sysClock) / LOSCFG_BASE_CORE_TICK_PER_SECOND.
Definition OS_SYS_CYCLE_TO_TICK (sysClock cycle : Z) : Z :=
  u64 (cycle * LOSCFG_BASE_CORE_TICK_PER_SECOND) / sysClock.

(** [g_sysTickTimer->getCycle(&period)] *)
Definition getCycle : M Kernel (Z * Z) :=
  let* tm := gets g_sysTickTimer in
  let '(time, period, tm') := timer_getCycle tm in
  modify (set_g_sysTickTimer (λ _, tm')) ;;;
  mret (time, period).

Definition OsUpdateSysTimeBase : M Kernel unit :=
  let* update := gets g_tickTimerBaseUpdate in
  when (negb update) (
    let* (_, period) := getCycle in
    modify (set_g_tickTimerBase (λ b, u64 (b + period)))) ;;;
  modify (set_g_tickTimerBaseUpdate (λ _, false)).

Definition OsTickTimerBaseReset (currTime : Z) : M Kernel unit :=
  let* base := gets g_tickTimerBase in
  assert (currTime >=? base) ;;;
  modify (set_g_tickTimerBase (λ _, currTime)).

Definition LOS_SysCycleGet : M Kernel Z :=
  let* (time, period) := getCycle in
  let* base := gets g_tickTimerBase in
  let* old := gets g_oldTickTimerBase in
  let schedTime := u64 (base + time) in
  let* schedTime :=
    if schedTime <? old then
      modify (set_g_tickTimerBase (λ b, u64 (b + period))) ;;;
      let* base := gets g_tickTimerBase in
      modify (set_g_tickTimerBaseUpdate (λ _, true)) ;;;
      mret (u64 (base + time))
    else mret schedTime in
  assert (schedTime >=? old) ;;;
  modify (set_g_oldTickTimerBase (λ _, schedTime)) ;;;
  mret schedTime.

Definition OsGetCurrSchedTimeCycle : M Kernel Z := LOS_SysCycleGet.

Definition OsTickTimerReload (period : Z) : M Kernel Z :=
  let* t := LOS_SysCycleGet in
  modify (set_g_tickTimerBase (λ _, t)) ;;;
  let* tm := gets g_sysTickTimer in
  let '(r, tm') := timer_reload period tm in
  modify (set_g_sysTickTimer (λ _, tm')) ;;;
  mret r.

(** The functions of the driver's table are present. *)
Definition OsTickTimerInit : M Kernel Z :=
  let* tm := gets g_sysTickTimer in
  let '(ret, freq, tm') := timer_init tm in
  modify (set_g_sysTickTimer (λ _, tm')) ;;;
  modify (set_tickTimerFreq (λ _, freq)) ;;;
  if negb (ret =? LOS_OK) then mret ret
  else if (freq =? 0) || (freq <? LOSCFG_BASE_CORE_TICK_PER_SECOND) then mret LOS_ERRNO_SYS_CLOCK_INVALID
  else if timer_irqNum >? i32 LOSCFG_PLATFORM_HWI_LIMIT then mret LOS_ERRNO_TICK_CFG_INVALID
  else
    modify (set_g_sysClock (λ _, freq)) ;;;
    modify (set_g_cyclesPerTick (λ _, freq / LOSCFG_BASE_CORE_TICK_PER_SECOND)) ;;;
    modify (set_g_sysTimerIsInit (λ _, true)) ;;;
    mret LOS_OK.

Definition OsTickSysTimerStartTimeSet (currTime : Z) : M Kernel unit :=
  modify (set_g_tickTimerStartTime (λ _, currTime)).

Definition LOS_TickCountGet : M Kernel Z :=
  let* t := LOS_SysCycleGet in
  let* start := gets g_tickTimerStartTime in
  let* clock := gets g_sysClock in
  mret (OS_SYS_CYCLE_TO_TICK clock (u64 (t - start))).

Definition LOS_CyclePerTickGet : M Kernel Z := gets g_cyclesPerTick.

Definition LOS_MS2Tick (millisec : Z) : Z :=
  if millisec =? OS_NULL_INT then OS_NULL_INT
  else u32 (millisec * LOSCFG_BASE_CORE_TICK_PER_SECOND / OS_SYS_MS_PER_SECOND).

Definition LOS_Tick2MS (ticks : Z) : Z :=
  u32 (ticks * OS_SYS_MS_PER_SECOND / LOSCFG_BASE_CORE_TICK_PER_SECOND).

Definition LOS_CurrNanosec : M Kernel Z :=
  let* t := LOS_SysCycleGet in
  let* clock := gets g_sysClock in
  let d := clock / OS_SYS_NS_PER_MS in
  assert (negb (d =? 0)) ;;;     (* division by zero *)
  mret (u64 (t * (OS_SYS_NS_PER_SECOND / OS_SYS_NS_PER_MS)) / d).

(** [while (LOS_SysCycleGet() < endTime) { }], at most [fuel] readings. *)
Fixpoint UDelay_loop (fuel : nat) (endTime : Z) : M Kernel unit :=
  match fuel with
  | O => fault
  | S fuel =>
      let* t := LOS_SysCycleGet in
      if t <? endTime then UDelay_loop fuel endTime else mret tt
  end.

Definition LOS_UDelay (fuel : nat) (microseconds : Z) : M Kernel unit :=
  if microseconds =? 0 then mret tt
  else
    let* clock := gets g_sysClock in
    let endTime := u64 (microseconds / OS_SYS_US_PER_SECOND * clock
                        + (microseconds mod OS_SYS_US_PER_SECOND) * clock / OS_SYS_US_PER_SECOND) in
    let* t := LOS_SysCycleGet in
    UDelay_loop fuel (u64 (t + endTime)).

(** The loop that waits for the part of [millisec] that does not fit in 32-bit
    microseconds; 1000 rounds are enough for 32 bits. *)
Fixpoint LOS_MDelay_loop (rounds fuel : nat) (millisec : Z) : M Kernel Z :=
  match rounds with
  | O => fault
  | S rounds =>
      if millisec >? UINT32_MAX / OS_SYS_US_PER_MS then
        LOS_UDelay fuel (UINT32_MAX / OS_SYS_US_PER_MS * OS_SYS_US_PER_MS) ;;;
        LOS_MDelay_loop rounds fuel (millisec - UINT32_MAX / OS_SYS_US_PER_MS)
      else mret millisec
  end.

Definition LOS_MDelay (fuel : nat) (millisec : Z) : M Kernel unit :=
  let* millisec := LOS_MDelay_loop 1001 fuel millisec in
  LOS_UDelay fuel (u32 (millisec * OS_SYS_US_PER_MS)).

End Tick.
