(* ===== verification/SortLink.v ===== *)
(** The sorted time lists (src/kernel/src/los_sortlink.c,
    src/kernel/include/los_sortlink.h): waiting tasks and running software
    timers, each in a list ordered by the time at which it expires. *)

From S2P Require Import Prelude Errno LosList Kernel Tick.

Definition OS_SORT_LINK_TASK : Z := 1.
Definition OS_SORT_LINK_SWTMR : Z := 2.

Section SortLink.
Context `{Platform}.

(** ** Operations *)

(** [p->pstNext] and [p->pstPrev] when the result is dereferenced. *)
Definition nextNode (n : Node) : M Kernel Node :=
  let* o := onlist (get_pstNext n) in of_option o.
Definition prevNode (n : Node) : M Kernel Node :=
  let* o := onlist (get_pstPrev n) in of_option o.

(** [LOS_DL_LIST_ENTRY(n, SortLinkList, sortLinkNode)->responseTime]: the node is
    the [sortList] of a task or the [stSortList] of a timer. *)
Definition GET_SORTLIST_VALUE (n : Node) : M Kernel Z :=
  match n with
  | SortNode t => let* c := tcb t in mret (responseTime c)
  | SwtmrNode i => let* w := swtmrCB i in mret (swtmrResponseTime w)
  | _ => fault
  end.
Definition SET_SORTLIST_VALUE (n : Node) (value : Z) : M Kernel unit :=
  match n with
  | SortNode t => mod_tcb t (set_responseTime (λ _, value))
  | SwtmrNode i => mod_swtmrCB i (set_swtmrResponseTime (λ _, value))
  | _ => fault
  end.

Definition OsSortLinkInit (sortLinkHead : Node) : M Kernel Z :=
  onlist (LOS_ListInit sortLinkHead) ;;; mret LOS_OK.

(** The walk from the tail towards the head, at most [fuel] nodes. *)
Fixpoint OsAddNode2SortLink_loop (fuel : nat) (prev sortList : Node) : M Kernel unit :=
  match fuel with
  | O => fault
  | S fuel =>
      let* tp := GET_SORTLIST_VALUE prev in
      let* ts := GET_SORTLIST_VALUE sortList in
      if tp <=? ts then onlist (LOS_ListAdd prev sortList)
      else let* prev' := prevNode prev in OsAddNode2SortLink_loop fuel prev' sortList
  end.

Definition OsAddNode2SortLink (head sortList : Node) : M Kernel unit :=
  let* empty := onlist (LOS_ListEmpty head) in
  if (empty : bool) then onlist (LOS_ListAdd head sortList)
  else
    let* first := nextNode head in
    let* tf := GET_SORTLIST_VALUE first in
    let* ts := GET_SORTLIST_VALUE sortList in
    if tf >? ts then onlist (LOS_ListAdd head sortList)
    else if tf =? ts then
      let* first := nextNode head in onlist (LOS_ListAdd first sortList)
    else
      let* prev := prevNode head in
      let* h := gets dlists in
      OsAddNode2SortLink_loop (size h) prev sortList.

Definition OsAdd2SortLink (node : Node) (startTime waitTicks type : Z) : M Kernel unit :=
  let* sortLinkHead :=
    if type =? OS_SORT_LINK_TASK then mret TaskSortLink
    else if type =? OS_SORT_LINK_SWTMR then mret SwtmrSortLink
    else fault (* LOS_Panic *) in
  let* clock := gets g_sysClock in
  SET_SORTLIST_VALUE node (u64 (startTime + OS_SYS_TICK_TO_CYCLE clock waitTicks)) ;;;
  OsAddNode2SortLink sortLinkHead node.

Definition OsDeleteNodeSortLink (sortList : Node) : M Kernel unit :=
  onlist (LOS_ListDelete sortList) ;;;
  SET_SORTLIST_VALUE sortList OS_SORT_LINK_INVALID_TIME.

(** Of src/kernel/src/los_sched.c. *)
Definition OsSchedResetSchedResponseTime (responseTime : Z) : M Kernel unit :=
  let* r := gets g_schedResponseTime in
  when (responseTime <=? r) (modify (set_g_schedResponseTime (λ _, OS_SCHED_MAX_RESPONSE_TIME))).

Definition OsDeleteSortLink (node : Node) : M Kernel unit :=
  let* rt := GET_SORTLIST_VALUE node in
  when (negb (rt =? OS_SORT_LINK_INVALID_TIME)) (
    OsSchedResetSchedResponseTime rt ;;;
    OsDeleteNodeSortLink node).

(** The walk over all nodes, at most [fuel] of them. *)
Fixpoint SortLinkNodeTimeUpdate_loop (fuel : nat) (head node : Node) (oldFreq : Z) : M Kernel unit :=
  match fuel with
  | O => fault
  | S fuel =>
      let* rt := GET_SORTLIST_VALUE node in
      let* clock := gets g_sysClock in
      SET_SORTLIST_VALUE node (OsTimeConvertFreq rt oldFreq clock) ;;;
      let* node' := nextNode node in
      if bool_decide (node' = head) then mret tt
      else SortLinkNodeTimeUpdate_loop fuel head node' oldFreq
  end.

Definition SortLinkNodeTimeUpdate (head : Node) (oldFreq : Z) : M Kernel unit :=
  let* empty := onlist (LOS_ListEmpty head) in
  if (empty : bool) then mret tt
  else
    let* node := nextNode head in
    let* h := gets dlists in
    SortLinkNodeTimeUpdate_loop (size h) head node oldFreq.

Definition OsSortLinkResponseTimeConvertFreq (oldFreq : Z) : M Kernel unit :=
  SortLinkNodeTimeUpdate TaskSortLink oldFreq ;;;
  SortLinkNodeTimeUpdate SwtmrSortLink oldFreq.

Definition OsGetSortLinkAttribute (type : Z) : option Node :=
  if type =? OS_SORT_LINK_TASK then Some TaskSortLink
  else if type =? OS_SORT_LINK_SWTMR then Some SwtmrSortLink
  else None.

Definition OsSortLinkGetTargetExpireTime (currTime : Z) (targetSortList : Node) : M Kernel Z :=
  let* rt := GET_SORTLIST_VALUE targetSortList in
  mret (if currTime >=? rt then 0 else rt - currTime).

Definition OsSortLinkGetRemainTime (currTime : Z) (targetSortList : Node) : M Kernel Z :=
  let* rt := GET_SORTLIST_VALUE targetSortList in
  mret (if currTime >=? rt then 0 else rt - currTime).

Definition OsSortLinkGetNextExpireTime (head : Node) : M Kernel Z :=
  let* empty := onlist (LOS_ListEmpty head) in
  if (empty : bool) then mret 0
  else
    let* first := nextNode head in
    let* t := OsGetCurrSchedTimeCycle in
    OsSortLinkGetTargetExpireTime t first.

Definition GetSortLinkNextExpireTime (head : Node) (startTime tickPrecision : Z) : M Kernel Z :=
  let* empty := onlist (LOS_ListEmpty head) in
  if (empty : bool) then mret (u64 (OS_SORT_LINK_UINT64_MAX - tickPrecision))
  else
    let* first := nextNode head in
    let* rt := GET_SORTLIST_VALUE first in
    mret (if rt <=? u64 (startTime + tickPrecision) then u64 (startTime + tickPrecision) else rt).

Definition OsGetNextExpireTime (startTime tickPrecision : Z) : M Kernel Z :=
  let* taskExpireTime := GetSortLinkNextExpireTime TaskSortLink startTime tickPrecision in
  let* swtmrExpireTime := GetSortLinkNextExpireTime SwtmrSortLink startTime tickPrecision in
  mret (if taskExpireTime <? swtmrExpireTime then taskExpireTime else swtmrExpireTime).

(** ** Reading the lists *)

Lemma set_dlists_id k : set_dlists (λ _, dlists k) k = k.
Proof. by destruct k. Qed.

Lemma wp_onlist {A} (c : M _ A) Q k :
  wp c (λ a h, Q a (set_dlists (λ _, h) k)) (dlists k) -> wp (onlist c) Q k.
Proof. apply wp_zoom. Qed.

Lemma wp_ListEmpty k m hd l Q :
  Rep (dlists k) m -> m !! hd = Some l ->
  Q (bool_decide (l = [])) k -> wp (onlist (LOS_ListEmpty hd)) Q k.
Proof.
  intros HR Hm HQ. apply wp_onlist. unfold wp. rewrite (Rep_empty _ _ _ _ HR Hm).
  by rewrite set_dlists_id.
Qed.

Lemma wp_nextNode k n x (Q : Node -> Kernel -> Prop) :
  pstNext (node_at (dlists k) n) = Some x -> Q x k -> wp (nextNode n) Q k.
Proof.
  intros Hx HQ. apply wp_bind, wp_onlist, wp_gets. rewrite Hx, set_dlists_id. done.
Qed.

Lemma wp_prevNode k n x (Q : Node -> Kernel -> Prop) :
  pstPrev (node_at (dlists k) n) = Some x -> Q x k -> wp (prevNode n) Q k.
Proof.
  intros Hx HQ. apply wp_bind, wp_onlist, wp_gets. rewrite Hx, set_dlists_id. done.
Qed.

(** The time stored in a node, and the order it induces. *)
Definition time_of (k : Kernel) (n : Node) : option Z :=
  match n with
  | SortNode t => responseTime <$> g_taskCBArray k !! t
  | SwtmrNode i => swtmrResponseTime <$> g_swtmrCBArray k !! i
  | _ => None
  end.
Definition key (k : Kernel) (n : Node) : Z := default 0 (time_of k n).
Definition timed (k : Kernel) (n : Node) : Prop := is_Some (time_of k n).
Definition sorted (k : Kernel) (l : list Node) : Prop := StronglySorted (λ x y, key k x <= key k y) l.

Lemma wp_GET_SORTLIST_VALUE k n (Q : Z -> Kernel -> Prop) :
  timed k n -> Q (key k n) k -> wp (GET_SORTLIST_VALUE n) Q k.
Proof.
  intros [v Hv] HQ. unfold key in HQ. rewrite Hv in HQ. destruct n; try done; cbn in *.
  - destruct (_ !! t) eqn:E; simplify_eq/=. unfold tcb. wp_steps.
    eapply wp_of_option; [done|]. by wp_steps.
  - destruct (_ !! i) eqn:E; simplify_eq/=. unfold swtmrCB. wp_steps.
    eapply wp_of_option; [done|]. by wp_steps.
Qed.

(** ** Insertion *)

(** The place a node is given: before the first strictly later node, except
    that it follows the first node directly when the two have the same time. *)
Fixpoint insert_after (key : Node -> Z) (n : Node) (l : list Node) : list Node :=
  match l with
  | [] => [n]
  | y :: l' => if key y <=? key n then y :: insert_after key n l' else n :: l
  end.
Definition sortlink_insert (key : Node -> Z) (n : Node) (l : list Node) : list Node :=
  match l with
  | [] => [n]
  | y :: l' => if key y >? key n then n :: l
               else if key y =? key n then y :: n :: l'
               else insert_after key n l
  end.

Lemma insert_after_split f n l1 l2 :
  Forall (λ y, f y <= f n) l1 -> Forall (λ y, f n < f y) l2 ->
  insert_after f n (l1 ++ l2) = l1 ++ n :: l2.
Proof.
  intros H1 H2. induction H1 as [|y l1 Hy H1 IH]; cbn.
  - destruct H2 as [|z l2 Hz H2]; [done|]. cbn. by destruct (Z.leb_spec (f z) (f n)); [lia|].
  - destruct (Z.leb_spec (f y) (f n)); [|lia]. by rewrite IH.
Qed.

Lemma insert_after_perm f n l : insert_after f n l ≡ₚ n :: l.
Proof.
  induction l as [|y l IH]; cbn; [done|]. destruct (_ <=? _); [|done]. rewrite IH. apply perm_swap.
Qed.

Lemma sortlink_insert_perm f n l : sortlink_insert f n l ≡ₚ n :: l.
Proof.
  destruct l as [|y l]; cbn -[insert_after]; [done|]. repeat case_match; [done|apply perm_swap|].
  apply insert_after_perm.
Qed.

Lemma insert_after_sorted (f : Node -> Z) n l :
  StronglySorted (λ x y, f x <= f y) l -> StronglySorted (λ x y, f x <= f y) (insert_after f n l).
Proof.
  induction 1 as [|y l Hl IH Hy]; cbn; [by repeat constructor|].
  destruct (Z.leb_spec (f y) (f n)).
  - constructor; [done|]. rewrite insert_after_perm. by constructor.
  - constructor; [by constructor|]. constructor; [lia|].
    eapply Forall_impl; [exact Hy|]. cbn. lia.
Qed.

Lemma sortlink_insert_sorted (f : Node -> Z) n l :
  StronglySorted (λ x y, f x <= f y) l -> StronglySorted (λ x y, f x <= f y) (sortlink_insert f n l).
Proof.
  intros H0. destruct l as [|y l]; cbn -[insert_after]; [by repeat constructor|].
  destruct (Z.gtb_spec (f y) (f n)); [|destruct (Z.eqb_spec (f y) (f n))].
  - apply StronglySorted_cons. split; [|done]. apply StronglySorted_cons in H0 as [Hy _].
    constructor; [lia|]. eapply Forall_impl; [exact Hy|]. cbn. lia.
  - apply StronglySorted_cons in H0 as [Hy Hl]. apply StronglySorted_cons. split.
    + constructor; [lia|done].
    + apply StronglySorted_cons. split; [|done]. eapply Forall_impl; [exact Hy|]. cbn. lia.
  - by apply insert_after_sorted.
Qed.

Lemma OsAddNode2SortLink_loop_wp k m head l1 p l2 n fuel :
  Rep (dlists k) m -> m !! head = Some (l1 ++ p :: l2) -> ~ owned m n ->
  timed k n -> Forall (timed k) (l1 ++ p :: l2) -> sorted k (l1 ++ p :: l2) ->
  Forall (λ y, key k n < key k y) l2 -> Exists (λ y, key k y <= key k n) (l1 ++ [p]) ->
  (length l1 < fuel)%nat ->
  wp (OsAddNode2SortLink_loop fuel p n) (λ _ k', ∃ h', k' = set_dlists (λ _, h') k /\
    Rep h' (<[head := insert_after (key k) n (l1 ++ p :: l2)]> m)) k.
Proof.
  intros HR Hm Hno Hn Ht Hs. revert p l2 fuel Hm Ht Hs.
  induction l1 as [|p' l1 IH] using rev_ind; intros p l2 [|fuel] Hm Ht Hs Hl2 Hex Hf;
    try (cbn in Hf; lia); cbn [OsAddNode2SortLink_loop].
  all: apply wp_bind, wp_GET_SORTLIST_VALUE; [by apply Forall_app in Ht as [_ [??]%Forall_cons]|].
  all: apply wp_bind, wp_GET_SORTLIST_VALUE; [done|].
  all: destruct (Z.leb_spec (key k p) (key k n)) as [Hle|Hgt].
  1, 3: apply wp_onlist; eapply wp_mono; [by eapply Rep_add_after|]; intros [] h' HR';
    exists h'; split; [done|]; rewrite (cons_middle p), app_assoc, insert_after_split, <-app_assoc;
    [done| |done]; apply Forall_app; split; [|by repeat constructor];
    apply Forall_forall; intros y Hy; etrans; [|exact Hle];
    eapply (StronglySorted_app_1_elem_of _ _ _ y p Hs); [done|left].
  - exfalso. apply Exists_cons in Hex as [?|[]%Exists_nil]. lia.
  - apply wp_bind. eapply wp_prevNode; [by eapply Rep_prev|]. rewrite last_snoc. cbn.
    rewrite <-app_assoc in Hm, Ht, Hs |- *. cbn in *. apply IH; [done..| | |].
    + by constructor.
    + apply Exists_app in Hex as [Hex|[?|[]%Exists_nil]%Exists_cons]; [done|lia].
    + rewrite length_app in Hf. cbn in Hf. lia.
Qed.

(** Insertion as the code does it is [sortlink_insert]. *)
Lemma OsAddNode2SortLink_wp k m head l n :
  Rep (dlists k) m -> m !! head = Some l -> ~ owned m n ->
  timed k n -> Forall (timed k) l -> sorted k l ->
  wp (OsAddNode2SortLink head n) (λ _ k', ∃ h', k' = set_dlists (λ _, h') k /\
    Rep h' (<[head := sortlink_insert (key k) n l]> m)) k.
Proof.
  intros HR Hm Hno Hn Ht Hs. unfold OsAddNode2SortLink. wp_step.
  eapply wp_ListEmpty; [done..|].
  destruct l as [|y l]; cbn -[insert_after].
  { apply wp_onlist. eapply wp_mono; [by apply Rep_add_head|]. eauto. }
  apply wp_bind. eapply wp_nextNode; [by eapply Rep_first|]. cbn [List.hd].
  apply wp_bind, wp_GET_SORTLIST_VALUE; [by apply Forall_cons in Ht as [? _]|].
  apply wp_bind, wp_GET_SORTLIST_VALUE; [done|].
  destruct (Z.gtb_spec (key k y) (key k n)); [|destruct (Z.eqb_spec (key k y) (key k n))].
  - apply wp_onlist. eapply wp_mono; [by apply Rep_add_head|]. eauto.
  - apply wp_bind. eapply wp_nextNode; [by eapply Rep_first|]. apply wp_onlist.
    eapply wp_mono; [by apply (Rep_add_after (dlists k) m head [])|]. eauto.
  - apply wp_bind. eapply wp_prevNode; [by eapply Rep_last|]. apply wp_bind, wp_gets.
    destruct (exists_last (l := y :: l)) as (l0 & z & El); [done|].
    assert (Hy : Exists (λ y, key k y <= key k n) (y :: l)) by (constructor; lia).
    rewrite El in *. rewrite last_snoc. cbn [default].
    eapply OsAddNode2SortLink_loop_wp; [done..| | |].
    + constructor.
    + done.
    + pose proof (Rep_ring_size _ _ _ _ HR Hm) as Hsz. rewrite length_app in Hsz. cbn in Hsz. lia.
Qed.

End SortLink.
