(* ===== verification/Sched.v ===== *)
(** The scheduler (src/kernel/src/los_sched.c): priority queues and their bitmap,
    waiting and waking, timed waits, time slices and the task switch. *)

From S2P Require Import Prelude Errno LosList Kernel Tick SortLink.

Definition OS_PRIORITY_QUEUE_NUM : Z := 32.
Definition PRIQUEUE_PRIOR0_BIT : Z := 0x80000000.
Definition OS_TASK_BLOCKED_STATUS : Z :=
  Z.lor (Z.lor (Z.lor OS_TASK_STATUS_PEND OS_TASK_STATUS_SUSPEND) OS_TASK_STATUS_EXIT)
    OS_TASK_STATUS_UNUSED.

Section Sched.
Context `{Platform}.

(** [&g_priQueueList[priority]] *)
Definition priQueue (priority : Z) : M Kernel Node :=
  if (0 <=? priority) && (priority <? OS_PRIORITY_QUEUE_NUM) then mret (PriQueue priority) else fault.

(** Of src/components/power/los_pm.c; LOS_SYS_NORMAL_SLEEP is 0. *)
Definition OsIsPmMode : M Kernel bool :=
  let* mode := gets pm_sysMode in
  let* lock := gets pm_lock in
  mret (negb (mode =? 0) && (lock =? 0)).

Definition pmMode : M Kernel bool := if LOSCFG_KERNEL_PM then OsIsPmMode else mret false.

(** ** Time slices and the next tick *)

Definition OsTimeSliceUpdate (taskCB currTime : Z) : M Kernel unit :=
  let* c := tcb taskCB in
  assert (currTime >=? startTime c) ;;;
  let incTime := i32 (currTime - startTime c) in
  let* idle := gets g_idleTaskID in
  when (negb (taskID c =? idle)) (mod_tcb taskCB (set_timeSlice (λ s, i32 (s - incTime)))) ;;;
  mod_tcb taskCB (set_startTime (λ _, currTime)).

Definition OsSchedSetNextExpireTime (responseID taskEndTime : Z) : M Kernel unit :=
  let* currTime := OsGetCurrSchedTimeCycle in
  let* prec := gets g_tickResponsePrecision in
  let* nextExpireTime := OsGetNextExpireTime currTime prec in
  let* minPeriod := gets g_schedTickMinPeriod in
  let isTimeSlice := (nextExpireTime >? taskEndTime) && (u64 (nextExpireTime - taskEndTime) >? minPeriod) in
  let nextExpireTime := if isTimeSlice then taskEndTime else nextExpireTime in
  let* resp := gets g_schedResponseTime in
  if (resp <=? nextExpireTime) || (u64 (resp - nextExpireTime) <? prec) then mret tt
  else
    modify (set_g_schedResponseID (λ _, if isTimeSlice then responseID else OS_INVALID)) ;;;
    let nextResponseTime := u64 (nextExpireTime - currTime) in
    let nextResponseTime := if nextResponseTime <? prec then prec else nextResponseTime in
    let* r := OsTickTimerReload nextResponseTime in
    modify (set_g_schedResponseTime (λ _, u64 (currTime + r))).

Definition OsSchedUpdateExpireTime : M Kernel unit :=
  let* sched := gets g_taskScheduled in
  let* lock := gets g_tickIntLock in
  if negb sched || negb (lock =? 0) then mret tt
  else
    let* run := running in
    let* isPmMode := pmMode in
    let* c := tcb run in
    let* idle := gets g_idleTaskID in
    let* slice := gets g_schedTimeSlice in
    let* sliceMin := gets g_schedTimeSliceMin in
    let* prec := gets g_tickResponsePrecision in
    let endTime :=
      if negb (taskID c =? idle) && negb isPmMode then
        u64 (startTime c + (if timeSlice c <=? sliceMin then slice else timeSlice c))
      else u64 (OS_SCHED_MAX_RESPONSE_TIME - prec) in
    OsSchedSetNextExpireTime (taskID c) endTime.

(** ** Priority queues *)

Definition OsSchedPriQueueEnHead (priqueueItem : Node) (priority : Z) : M Kernel unit :=
  let* q := priQueue priority in
  let* empty := onlist (LOS_ListEmpty q) in
  when empty (modify (set_g_queueBitmap (setf (Z.shiftr PRIQUEUE_PRIOR0_BIT priority)))) ;;;
  onlist (LOS_ListAdd q priqueueItem).

Definition OsSchedPriQueueEnTail (priqueueItem : Node) (priority : Z) : M Kernel unit :=
  let* q := priQueue priority in
  let* empty := onlist (LOS_ListEmpty q) in
  when empty (modify (set_g_queueBitmap (setf (Z.shiftr PRIQUEUE_PRIOR0_BIT priority)))) ;;;
  onlist (LOS_ListTailInsert q priqueueItem).

Definition OsSchedPriQueueDelete (priqueueItem : Node) (priority : Z) : M Kernel unit :=
  onlist (LOS_ListDelete priqueueItem) ;;;
  let* q := priQueue priority in
  let* empty := onlist (LOS_ListEmpty q) in
  when empty (modify (set_g_queueBitmap (clrf (Z.shiftr PRIQUEUE_PRIOR0_BIT priority)))).

Definition OsSchedTaskEnQueue (taskCB : Z) : M Kernel unit :=
  let* c := tcb taskCB in
  assert (negb (test (taskStatus c) OS_TASK_STATUS_READY)) ;;;
  let* idle := gets g_idleTaskID in
  when (negb (taskID c =? idle)) (
    let* sliceMin := gets g_schedTimeSliceMin in
    if timeSlice c >? sliceMin then
      OsSchedPriQueueEnHead (PendList taskCB) (priority c)
    else
      let* slice := gets g_schedTimeSlice in
      mod_tcb taskCB (set_timeSlice (λ _, slice)) ;;;
      OsSchedPriQueueEnTail (PendList taskCB) (priority c)) ;;;
  clear_status taskCB (Z.lor (Z.lor (Z.lor OS_TASK_STATUS_PEND OS_TASK_STATUS_SUSPEND)
                                OS_TASK_STATUS_DELAY) OS_TASK_STATUS_PEND_TIME) ;;;
  set_status taskCB OS_TASK_STATUS_READY.

Definition OsSchedTaskDeQueue (taskCB : Z) : M Kernel unit :=
  let* c := tcb taskCB in
  when (test (taskStatus c) OS_TASK_STATUS_READY) (
    let* idle := gets g_idleTaskID in
    when (negb (taskID c =? idle)) (OsSchedPriQueueDelete (PendList taskCB) (priority c)) ;;;
    clear_status taskCB OS_TASK_STATUS_READY).

(** ** Timed waits *)

(** Returns the new value of [needSchedule]. *)
Definition OsSchedWakePendTimeTask (taskCB : Z) (needSchedule : bool) : M Kernel bool :=
  let* c := tcb taskCB in
  let tempStatus := taskStatus c in
  if test tempStatus (Z.lor OS_TASK_STATUS_PEND OS_TASK_STATUS_DELAY) then
    clear_status taskCB (Z.lor (Z.lor OS_TASK_STATUS_PEND OS_TASK_STATUS_PEND_TIME)
                           OS_TASK_STATUS_DELAY) ;;;
    when (test tempStatus OS_TASK_STATUS_PEND) (
      set_status taskCB OS_TASK_STATUS_TIMEOUT ;;;
      onlist (LOS_ListDelete (PendList taskCB)) ;;;
      mod_tcb taskCB (set_taskMux (λ _, None)) ;;;
      mod_tcb taskCB (set_taskSem (λ _, None))) ;;;
    if negb (test tempStatus OS_TASK_STATUS_SUSPEND) then
      OsSchedTaskEnQueue taskCB ;;; mret true
    else mret needSchedule
  else mret needSchedule.

(** The loop over expired nodes, at most [fuel] of them. *)
Fixpoint OsSchedScanTimerList_loop (fuel : nat) (sortList : Node) (currTime : Z) (needSchedule : bool)
    : M Kernel bool :=
  match fuel with
  | O => fault
  | S fuel =>
      let* rt := GET_SORTLIST_VALUE sortList in
      if rt <=? currTime then
        match sortList with
        | SortNode taskCB =>
            OsDeleteNodeSortLink (SortNode taskCB) ;;;
            let* needSchedule := OsSchedWakePendTimeTask taskCB needSchedule in
            let* empty := onlist (LOS_ListEmpty TaskSortLink) in
            if (empty : bool) then mret needSchedule
            else
              let* sortList' := nextNode TaskSortLink in
              OsSchedScanTimerList_loop fuel sortList' currTime needSchedule
        | _ => fault
        end
      else mret needSchedule
  end.

Definition OsSchedScanTimerList : M Kernel bool :=
  let* empty := onlist (LOS_ListEmpty TaskSortLink) in
  if (empty : bool) then mret false
  else
    let* sortList := nextNode TaskSortLink in
    let* currTime := OsGetCurrSchedTimeCycle in
    let* h := gets dlists in
    OsSchedScanTimerList_loop (size h) sortList currTime false.

(** ** State changes of a task *)

Definition OsSchedTaskExit (taskCB : Z) : M Kernel unit :=
  let* c := tcb taskCB in
  (if test (taskStatus c) OS_TASK_STATUS_READY then OsSchedTaskDeQueue taskCB
   else when (test (taskStatus c) OS_TASK_STATUS_PEND) (
     onlist (LOS_ListDelete (PendList taskCB)) ;;;
     clear_status taskCB OS_TASK_STATUS_PEND)) ;;;
  let* c := tcb taskCB in
  when (test (taskStatus c) (Z.lor OS_TASK_STATUS_DELAY OS_TASK_STATUS_PEND_TIME)) (
    OsDeleteSortLink (SortNode taskCB) ;;;
    clear_status taskCB (Z.lor OS_TASK_STATUS_DELAY OS_TASK_STATUS_PEND_TIME)) ;;;
  set_status taskCB OS_TASK_STATUS_EXIT.

Definition OsSchedYield : M Kernel unit :=
  let* run := running in
  mod_tcb run (set_timeSlice (λ _, 0)).

Definition OsSchedDelay (runTask tick : Z) : M Kernel unit :=
  set_status runTask OS_TASK_STATUS_DELAY ;;;
  mod_tcb runTask (set_waitTimes (λ _, tick)).

Definition OsSchedTaskWait (list : Node) (ticks : Z) : M Kernel unit :=
  let* run := running in
  set_status run OS_TASK_STATUS_PEND ;;;
  onlist (LOS_ListTailInsert list (PendList run)) ;;;
  when (negb (ticks =? LOS_WAIT_FOREVER)) (
    set_status run OS_TASK_STATUS_PEND_TIME ;;;
    mod_tcb run (set_waitTimes (λ _, ticks))).

Definition OsSchedTaskWake (resumedTask : Z) : M Kernel unit :=
  onlist (LOS_ListDelete (PendList resumedTask)) ;;;
  clear_status resumedTask OS_TASK_STATUS_PEND ;;;
  let* c := tcb resumedTask in
  when (test (taskStatus c) OS_TASK_STATUS_PEND_TIME) (
    OsDeleteSortLink (SortNode resumedTask) ;;;
    clear_status resumedTask OS_TASK_STATUS_PEND_TIME) ;;;
  let* c := tcb resumedTask in
  when (negb (test (taskStatus c) OS_TASK_STATUS_SUSPEND)
        && negb (test (taskStatus c) OS_TASK_STATUS_RUNNING))
    (OsSchedTaskEnQueue resumedTask).

Definition OsSchedFreezeTask (taskCB : Z) : M Kernel unit :=
  let* responseTime := GET_SORTLIST_VALUE (SortNode taskCB) in
  OsDeleteSortLink (SortNode taskCB) ;;;
  SET_SORTLIST_VALUE (SortNode taskCB) responseTime ;;;
  set_status taskCB OS_TASK_FLAG_FREEZE.

Definition OsSchedUnfreezeTask (taskCB : Z) : M Kernel unit :=
  clear_status taskCB OS_TASK_FLAG_FREEZE ;;;
  let* currTime := OsGetCurrSchedTimeCycle in
  let* responseTime := GET_SORTLIST_VALUE (SortNode taskCB) in
  if responseTime >? currTime then
    let* clock := gets g_sysClock in
    let cyclePerTick := clock / LOSCFG_BASE_CORE_TICK_PER_SECOND in
    assert (negb (cyclePerTick =? 0)) ;;;     (* division by zero *)
    let remainTick := u32 (u64 (u64 (responseTime - currTime + cyclePerTick) - 1) / cyclePerTick) in
    OsAdd2SortLink (SortNode taskCB) currTime remainTick OS_SORT_LINK_TASK
  else
    SET_SORTLIST_VALUE (SortNode taskCB) OS_SORT_LINK_INVALID_TIME ;;;
    let* c := tcb taskCB in
    when (test (taskStatus c) OS_TASK_STATUS_PEND) (onlist (LOS_ListDelete (PendList taskCB))) ;;;
    clear_status taskCB (Z.lor (Z.lor OS_TASK_STATUS_DELAY OS_TASK_STATUS_PEND_TIME)
                           OS_TASK_STATUS_PEND).

Definition OsSchedSuspend (taskCB : Z) : M Kernel unit :=
  let* c := tcb taskCB in
  when (test (taskStatus c) OS_TASK_STATUS_READY) (OsSchedTaskDeQueue taskCB) ;;;
  let* isPmMode := pmMode in
  let* c := tcb taskCB in
  when (test (taskStatus c) (Z.lor OS_TASK_STATUS_PEND_TIME OS_TASK_STATUS_DELAY) && isPmMode)
    (OsSchedFreezeTask taskCB) ;;;
  set_status taskCB OS_TASK_STATUS_SUSPEND.

Definition OsSchedResume (taskCB : Z) : M Kernel bool :=
  let* c := tcb taskCB in
  when (test (taskStatus c) OS_TASK_FLAG_FREEZE) (OsSchedUnfreezeTask taskCB) ;;;
  clear_status taskCB OS_TASK_STATUS_SUSPEND ;;;
  let* c := tcb taskCB in
  if negb (test (taskStatus c) (Z.lor OS_TASK_STATUS_DELAY OS_TASK_STATUS_PEND)) then
    OsSchedTaskEnQueue taskCB ;;; mret true
  else mret false.

Definition OsSchedModifyTaskSchedParam (taskCB prio : Z) : M Kernel bool :=
  let* c := tcb taskCB in
  if test (taskStatus c) OS_TASK_STATUS_READY then
    OsSchedTaskDeQueue taskCB ;;;
    mod_tcb taskCB (set_priority (λ _, prio)) ;;;
    OsSchedTaskEnQueue taskCB ;;;
    mret true
  else
    mod_tcb taskCB (set_priority (λ _, prio)) ;;;
    mret (test (taskStatus c) OS_TASK_STATUS_RUNNING).

Definition OsSchedSetIdleTaskSchedParam (idleTask : Z) : M Kernel unit := OsSchedTaskEnQueue idleTask.

(** The only function the kernel registers is [OsSwtmrScan]. *)
Definition OsSchedSwtmrScanRegister (func : bool) : M Kernel Z :=
  if negb func then mret LOS_NOK
  else modify (set_g_swtmrScan (λ _, true)) ;;; mret LOS_OK.

Definition OsTaskNextSwitchTimeGet : M Kernel Z :=
  let* ticks := OsSortLinkGetNextExpireTime TaskSortLink in mret (u32 ticks).

Definition OsSchedGetNextExpireTime (startTime : Z) : M Kernel Z :=
  let* prec := gets g_tickResponsePrecision in OsGetNextExpireTime startTime prec.

(** ** Change of the clock frequency *)

(** One iteration per task. *)
Definition TaskSchedTimeConvertFreq_body (oldFreq taskCB : Z) : M Kernel unit :=
  let* c := tcb taskCB in
  if test (taskStatus c) OS_TASK_STATUS_UNUSED then mret tt
  else
    let* clock := gets g_sysClock in
    (if timeSlice c >? 0 then
       mod_tcb taskCB (set_timeSlice (λ s, i32 (OsTimeConvertFreq s oldFreq clock)))
     else mod_tcb taskCB (set_timeSlice (λ _, 0))) ;;;
    when (test (taskStatus c) OS_TASK_STATUS_RUNNING)
      (mod_tcb taskCB (set_startTime (λ s, OsTimeConvertFreq s oldFreq clock))).

Fixpoint for_each {A} (f : A -> M Kernel unit) (l : list A) : M Kernel unit :=
  match l with [] => mret tt | x :: l => f x ;;; for_each f l end.

Definition TaskSchedTimeConvertFreq (oldFreq : Z) : M Kernel unit :=
  let* n := gets g_taskMaxNum in
  for_each (TaskSchedTimeConvertFreq_body oldFreq) (seqZ 0 n).

Definition SchedTimeBaseInit : M Kernel unit :=
  modify (set_g_schedResponseTime (λ _, OS_SCHED_MAX_RESPONSE_TIME)) ;;;
  let* clock := gets g_sysClock in
  modify (set_g_schedTickMinPeriod (λ _, clock / LOSCFG_BASE_CORE_TICK_PER_SECOND_MINI)) ;;;
  let* p := gets g_schedTickMinPeriod in
  modify (set_g_tickResponsePrecision (λ _, u32 (p * 75) / 100)) ;;;
  modify (set_g_schedTimeSlice (λ _,
    i32 (u64 (clock * LOSCFG_BASE_CORE_TIMESLICE_TIMEOUT) / OS_SYS_US_PER_SECOND))) ;;;
  modify (set_g_schedTimeSliceMin (λ _, i32 (u64 (clock * 50) / OS_SYS_US_PER_SECOND))).

Definition OsSchedTimeConvertFreq (oldFreq : Z) : M Kernel unit :=
  SchedTimeBaseInit ;;;
  TaskSchedTimeConvertFreq oldFreq ;;;
  OsSortLinkResponseTimeConvertFreq oldFreq ;;;
  OsSchedUpdateExpireTime.

(** [handler] is the function of the board that changes the frequency and
    returns the new one. *)
Definition LOS_SysTickClockFreqAdjust (handler : option (M Kernel Z)) : M Kernel Z :=
  let* oldFreq := gets g_sysClock in
  match handler with
  | None => mret LOS_ERRNO_SYS_HOOK_IS_NULL
  | Some handler =>
      modify (set_g_sysTickTimer timer_lock) ;;;
      let* currTimeCycle := LOS_SysCycleGet in
      let* freq := handler in
      let* clock := gets g_sysClock in
      if (freq =? 0) || (freq =? clock) then
        modify (set_g_sysTickTimer timer_unlock) ;;;
        mret LOS_ERRNO_SYS_CLOCK_INVALID
      else
        let* tm := gets g_sysTickTimer in
        modify (set_g_sysTickTimer (λ _, (timer_reload LOSCFG_BASE_CORE_TICK_RESPONSE_MAX tm).2)) ;;;
        modify (set_g_sysTickTimer timer_unlock) ;;;
        modify (set_g_tickTimerBase (λ _, OsTimeConvertFreq currTimeCycle oldFreq freq)) ;;;
        modify (set_g_oldTickTimerBase (λ t, OsTimeConvertFreq t oldFreq freq)) ;;;
        modify (set_g_tickTimerStartTime (λ t, OsTimeConvertFreq t oldFreq freq)) ;;;
        modify (set_tickTimerFreq (λ _, freq)) ;;;
        modify (set_g_sysClock (λ _, freq)) ;;;
        modify (set_g_cyclesPerTick (λ _, freq / LOSCFG_BASE_CORE_TICK_PER_SECOND)) ;;;
        OsSchedTimeConvertFreq oldFreq ;;;
        mret LOS_OK
  end.

Definition OsSchedInit : M Kernel Z :=
  for_each (λ pri, onlist (LOS_ListInit (PriQueue pri))) (seqZ 0 OS_PRIORITY_QUEUE_NUM) ;;;
  modify (set_g_queueBitmap (λ _, 0)) ;;;
  match OsGetSortLinkAttribute OS_SORT_LINK_TASK with
  | None => mret LOS_NOK
  | Some g_taskSortLinkList =>
      let* _ := OsSortLinkInit g_taskSortLinkList in
      SchedTimeBaseInit ;;;
      mret LOS_OK
  end.

(** ** Selection of the next task *)

Definition OsGetTopTask : M Kernel Z :=
  let* bitmap := gets g_queueBitmap in
  if negb (bitmap =? 0) then
    let* q := priQueue (CLZ bitmap) in
    let* n := nextNode q in
    of_option (OS_TCB_FROM_PENDLIST n)
  else gets g_idleTaskID.

(** [swtmrReset] is OsSwtmrResponseTimeReset of src/kernel/src/los_swtmr.c. *)
Definition OsSchedStart (swtmrReset : Z -> M Kernel unit) : M Kernel unit :=
  let* new := OsGetTopTask in
  set_status new OS_TASK_STATUS_RUNNING ;;;
  modify (set_newTask (λ _, Some new)) ;;;
  modify (set_runTask (λ _, Some new)) ;;;
  let* t := OsGetCurrSchedTimeCycle in
  mod_tcb new (set_startTime (λ _, t)) ;;;
  OsSchedTaskDeQueue new ;;;
  OsTickSysTimerStartTimeSet t ;;;
  swtmrReset t ;;;
  modify (set_g_taskScheduled (λ _, true)) ;;;
  modify (set_g_schedResponseTime (λ _, OS_SCHED_MAX_RESPONSE_TIME)) ;;;
  modify (set_g_schedResponseID (λ _, OS_INVALID)) ;;;
  let* c := tcb new in
  OsSchedSetNextExpireTime (taskID c) (u64 (startTime c + timeSlice c)).

Definition OsSchedTaskSwitch : M Kernel bool :=
  let* run := running in
  let* t := OsGetCurrSchedTimeCycle in
  OsTimeSliceUpdate run t ;;;
  let* r := tcb run in
  (if test (taskStatus r) (Z.lor OS_TASK_STATUS_PEND_TIME OS_TASK_STATUS_DELAY) then
     OsAdd2SortLink (SortNode run) (startTime r) (waitTimes r) OS_SORT_LINK_TASK
   else when (negb (test (taskStatus r) OS_TASK_BLOCKED_STATUS)) (OsSchedTaskEnQueue run)) ;;;
  let* new := OsGetTopTask in
  modify (set_newTask (λ _, Some new)) ;;;
  let* isTaskSwitch :=
    if negb (run =? new) then
      clear_status run OS_TASK_STATUS_RUNNING ;;;
      set_status new OS_TASK_STATUS_RUNNING ;;;
      let* r := tcb run in
      mod_tcb new (set_startTime (λ _, startTime r)) ;;;
      mret true
    else mret false in
  OsSchedTaskDeQueue new ;;;
  let* n := tcb new in
  let* idle := gets g_idleTaskID in
  let* prec := gets g_tickResponsePrecision in
  let endTime := if negb (taskID n =? idle) then u64 (startTime n + timeSlice n)
                 else u64 (OS_SCHED_MAX_RESPONSE_TIME - prec) in
  let* rid := gets g_schedResponseID in
  let* r := tcb run in
  when (rid =? taskID r) (modify (set_g_schedResponseTime (λ _, OS_SCHED_MAX_RESPONSE_TIME))) ;;;
  OsSchedSetNextExpireTime (taskID n) endTime ;;;
  mret isTaskSwitch.

Definition LOS_SchedTickTimeoutNsGet : M Kernel Z :=
  let* responseTime := gets g_schedResponseTime in
  let* currTime := OsGetCurrSchedTimeCycle in
  let* clock := gets g_sysClock in
  let responseTime := if responseTime >? currTime then responseTime - currTime else 0 in
  mret (OS_SYS_CYCLE_TO_NS responseTime clock).

(** ** Requests for a task switch *)

(** [ArchTaskSchedule] requests the PendSV exception. *)
Definition ArchTaskSchedule : M Kernel unit := modify (set_pendSV (λ _, true)).

Definition OsCheckKernelRunning : M Kernel bool :=
  let* sched := gets g_taskScheduled in
  let* lock := gets g_losTaskLock in
  mret (sched && (lock =? 0)).

Definition LOS_Schedule : M Kernel unit :=
  let* running := OsCheckKernelRunning in
  when running ArchTaskSchedule.

(** [LOS_Schedule(); m]: what follows the call runs when the task runs again. *)
Definition resuming {A} (m : M Kernel A) (k : Kernel) : option (Proc A * Kernel) :=
  match m k with Some (a, k') => Some (Done a, k') | None => None end.
Definition block_then {A} (m : M Kernel A) : M Kernel (Proc A) :=
  LOS_Schedule ;;;
  mret (Blocked (resuming m)).
Definition returns {A} (a : A) : M Kernel (Proc A) := mret (Done a).

(** [swtmrScan] is the registered scan function, OsSwtmrScan. *)
Definition LOS_SchedTickHandler (swtmrScan : M Kernel bool) : M Kernel unit :=
  let* sched := gets g_taskScheduled in
  if negb sched then mret tt
  else
    let* tickStartTime := OsGetCurrSchedTimeCycle in
    let* rid := gets g_schedResponseID in
    when (rid =? OS_INVALID) (
      modify (set_g_tickIntLock (λ l, u16 (l + 1))) ;;;
      let* scan := gets g_swtmrScan in
      when scan (let* _ := swtmrScan in mret tt) ;;;
      let* _ := OsSchedScanTimerList in
      modify (set_g_tickIntLock (λ l, u16 (l - 1)))) ;;;
    let* run := running in
    OsTimeSliceUpdate run tickStartTime ;;;
    let* t := OsGetCurrSchedTimeCycle in
    let* run := running in
    mod_tcb run (set_startTime (λ _, t)) ;;;
    modify (set_g_schedResponseTime (λ _, OS_SCHED_MAX_RESPONSE_TIME)) ;;;
    let* lock := gets g_losTaskLock in
    if lock =? 0 then ArchTaskSchedule else OsSchedUpdateExpireTime.

(** The tick interrupt (src/kernel/src/los_tick.c). *)
Definition OsTickHandler (swtmrScan : M Kernel bool) : M Kernel unit :=
  OsUpdateSysTimeBase ;;; LOS_SchedTickHandler swtmrScan.

(** The PendSV exception (src/arch/arm/cortex-m4/gcc/los_dispatch.S): the
    selected task becomes the running one when the scheduler says so. *)
Definition ArchPendSV : M Kernel unit :=
  modify (set_pendSV (λ _, false)) ;;;
  let* isTaskSwitch := OsSchedTaskSwitch in
  when isTaskSwitch (
    let* new := gets newTask in
    modify (set_runTask (λ _, new))).

End Sched.
