(* ===== verification/SchedInv.v ===== *)
(** The invariant of the scheduler's data, and its preservation by the
    scheduler's operations: list structure, bitmap, placement of every task in
    the one list its status calls for, order of the timed waits. The states are
    those in which no task is frozen: a suspension freezes a task only in a
    low-power mode, while its wait is timed ([freezes]). *)

From S2P Require Import Prelude Errno LosList Kernel Tick SortLink Sched.

(** ** Statement *)

(** The lists a task can wait in. *)
Definition wait_head (hd : Node) : bool :=
  match hd with
  | SemList _ | MuxList _ | QueueRead _ | QueueWrite _ | QueueMem _ | EventList _ | JoinList _ => true
  | _ => false
  end.

(** Nodes that are never list heads. *)
Definition item_node (n : Node) : bool :=
  match n with PendList _ | SortNode _ | SwtmrNode _ => true | _ => false end.

(** The lists a node can be in. *)
Definition member_ok (T : gmap Z LosTaskCB) (n hd : Node) : Prop :=
  match n with
  | PendList t | SortNode t => is_Some (T !! t)
  | SwtmrNode _ => hd = SwtmrSortLink
  | SemList _ => hd = UnusedSem
  | MuxList _ => hd = UnusedMux
  | QueueWrite _ => hd = FreeQueue
  | _ => False
  end.

(** The time of a task's [sortList]. *)
Definition task_key (T : gmap Z LosTaskCB) (n : Node) : Z :=
  match n with SortNode t => from_option responseTime 0 (T !! t) | _ => 0 end.

(** Bit [31 - p] of the bitmap says that priority queue [p] is not empty. *)
Definition bitmap_ok (b : Z) (m : gmap Node (list Node)) : Prop :=
  0 <= b < 2 ^ 32 /\
  ∀ p, 0 <= p < 32 -> ∃ l, m !! PriQueue p = Some l /\ Z.testbit b (31 - p) = negb (bool_decide (l = [])).

(** The status of task [t], and the lists its two nodes are in. *)
Record task_ok (idle : Z) (m : gmap Node (list Node)) (t : Z) (c : LosTaskCB) : Prop := {
  ok_id : taskID c = idle <-> t = idle;
  ok_ready : has c OS_TASK_STATUS_READY = true ->
    has c OS_TASK_STATUS_PEND = false /\ has c OS_TASK_STATUS_DELAY = false /\
    has c OS_TASK_STATUS_PEND_TIME = false /\ has c OS_TASK_STATUS_SUSPEND = false /\
    has c OS_TASK_STATUS_UNUSED = false /\ has c OS_TASK_STATUS_EXIT = false;
  ok_unused : has c OS_TASK_STATUS_UNUSED || has c OS_TASK_STATUS_EXIT = true ->
    has c OS_TASK_STATUS_PEND = false /\ has c OS_TASK_STATUS_DELAY = false /\
    has c OS_TASK_STATUS_PEND_TIME = false;
  ok_delay : has c OS_TASK_STATUS_DELAY = true -> has c OS_TASK_STATUS_PEND = false;
  ok_frozen : has c OS_TASK_FLAG_FREEZE = false;
  ok_prio : has c OS_TASK_STATUS_UNUSED = false -> 0 <= priority c < 32;
  ok_home : ∀ hd, home m (PendList t) hd ->
    (hd = PriQueue (priority c) /\ has c OS_TASK_STATUS_READY = true /\ t <> idle) \/
    (wait_head hd = true /\ has c OS_TASK_STATUS_PEND = true) \/
    ((hd = FreeTask \/ hd = TaskRecycle) /\ has c OS_TASK_STATUS_UNUSED = true);
  ok_queued : has c OS_TASK_STATUS_READY = true -> t <> idle ->
    home m (PendList t) (PriQueue (priority c));
  ok_waiting : has c OS_TASK_STATUS_PEND = true -> ∃ hd, wait_head hd = true /\ home m (PendList t) hd;
  ok_sort_home : ∀ hd, home m (SortNode t) hd ->
    hd = TaskSortLink /\ responseTime c <> OS_SORT_LINK_INVALID_TIME /\
    has c OS_TASK_STATUS_DELAY || has c OS_TASK_STATUS_PEND_TIME = true;
  ok_sorted : has c OS_TASK_STATUS_UNUSED = false -> responseTime c <> OS_SORT_LINK_INVALID_TIME ->
    home m (SortNode t) TaskSortLink;
}.

Record SInv (idle : Z) (h : gmap Node (LOS_DL_LIST Node)) (T : gmap Z LosTaskCB) (b : Z)
    (m : gmap Node (list Node)) : Prop := {
  si_rep : Rep h m;
  si_bitmap : bitmap_ok b m;
  si_sorted : ∃ ls, m !! TaskSortLink = Some ls /\
    StronglySorted (λ x y, task_key T x <= task_key T y) ls;
  si_heads : ∀ hd l, m !! hd = Some l -> item_node hd = false;
  si_free : is_Some (m !! FreeTask);
  si_recycle : is_Some (m !! TaskRecycle);
  si_members : ∀ n hd, home m n hd -> member_ok T n hd;
  si_tasks : ∀ t c, T !! t = Some c -> task_ok idle m t c;
}.

(** Closes [task_ok] goals: [Hok] is the invariant of the task before a change
    of status, [Hh] relates the lists after and before. *)
Ltac task_solve_with Hok Hh :=
  let Oid := fresh "Oid" in let Ord := fresh "Ord" in let Oun := fresh "Oun" in
  let Ode := fresh "Ode" in let Ofz := fresh "Ofz" in
  let Opr := fresh "Opr" in let Oho := fresh "Oho" in let Oqu := fresh "Oqu" in
  let Owa := fresh "Owa" in let Osh := fresh "Osh" in let Oso := fresh "Oso" in
  destruct Hok as [Oid Ord Oun Ode Ofz Opr Oho Oqu Owa Osh Oso];
  split; cbn; unfold has in *; cbn in *; bits;
  repeat match goal with
    | E : Z.testbit ?s ?n = ?v, X : context [Z.testbit ?s ?n] |- _ =>
        lazymatch type of X with Z.testbit _ _ = _ => fail | _ => rewrite E in X end
    | E : Z.testbit ?s ?n = ?v |- context [Z.testbit ?s ?n] => rewrite E
    end;
  cbn [orb negb andb] in *;
  try done;
  first
    [ clear Oho Oqu Owa Osh Oso; solve [intuition congruence]
    | let hd := fresh "hd" in let X := fresh "X" in intros hd X; apply Hh in X;
      first [ destruct (Oho hd (proj1 X)) as [(? & ? & ?)|[(? & ?)|(? & ?)]]; solve [intuition congruence]
            | destruct (Osh hd (proj1 X)) as (? & ? & ?); solve [intuition congruence] ]
    | intros; solve [ apply Hh; split; [first [apply Oqu|apply Oso]; congruence|congruence] ]
    | intros; destruct Owa as (? & ? & ?); [congruence|];
      eexists; split; [eassumption|]; apply Hh; split; [eassumption|congruence]
    | idtac ].
Ltac task_solve Hok :=
  lazymatch goal with
  | |- task_ok _ ?m _ _ =>
      let Hh := fresh "Hh" in
      assert (Hh : ∀ n hd, home m n hd <-> home m n hd /\ True) by (clear; tauto);
      task_solve_with Hok Hh
  end.

#[local] Opaque LOS_ListAdd LOS_ListTailInsert LOS_ListDelete LOS_ListInit LOS_ListEmpty.

Section SchedInv.
Context `{Platform}.

Definition SchedInv (k : Kernel) (m : gmap Node (list Node)) : Prop :=
  SInv (g_idleTaskID k) (dlists k) (g_taskCBArray k) (g_queueBitmap k) m.

(** The part of the state the scheduler's list operations change. *)
Definition upd h T b r (k : Kernel) : Kernel :=
  set_g_schedResponseTime (λ _, r) (set_g_queueBitmap (λ _, b)
    (set_g_taskCBArray (λ _, T) (set_dlists (λ _, h) k))).

Lemma upd_id k : k = upd (dlists k) (g_taskCBArray k) (g_queueBitmap k) (g_schedResponseTime k) k.
Proof. by destruct k. Qed.

(** ** General facts *)

Lemma task_ok_frame idle m m' t c :
  (∀ hd, home m' (PendList t) hd <-> home m (PendList t) hd) ->
  (∀ hd, home m' (SortNode t) hd <-> home m (SortNode t) hd) ->
  task_ok idle m t c -> task_ok idle m' t c.
Proof.
  intros H1 H2 []. split; try done.
  - intros hd Hh. apply ok_home0. by apply H1.
  - intros. apply H1. auto.
  - intros Hp. destruct (ok_waiting0 Hp) as (hd & ? & ?). exists hd. by rewrite H1.
  - intros hd Hh. apply ok_sort_home0. by apply H2.
  - intros. apply H2. auto.
Qed.

Lemma sorted_frame T t c' ls :
  SortNode t ∉ ls -> StronglySorted (λ x y, task_key T x <= task_key T y) ls ->
  StronglySorted (λ x y, task_key (<[t := c']> T) x <= task_key (<[t := c']> T) y) ls.
Proof.
  intros Hn. assert (Hk : ∀ x, x ∈ ls -> task_key (<[t := c']> T) x = task_key T x).
  { intros x Hx. destruct x; try done. cbn. rewrite lookup_insert_ne; [done|]. congruence. }
  clear Hn. induction 1 as [|x ls Hs IH Hx]; [constructor|].
  constructor; [apply IH; set_solver|]. rewrite Forall_forall in Hx |- *.
  intros y Hy. rewrite !Hk by set_solver. by apply Hx.
Qed.

Lemma sorted_frame_time T t c c' ls :
  T !! t = Some c -> responseTime c' = responseTime c ->
  StronglySorted (λ x y, task_key T x <= task_key T y) ls ->
  StronglySorted (λ x y, task_key (<[t := c']> T) x <= task_key (<[t := c']> T) y) ls.
Proof.
  intros Hc Hr. assert (Hk : ∀ x, task_key (<[t := c']> T) x = task_key T x).
  { intros []; try done. cbn. rewrite lookup_insert. case_decide; [|done]. simplify_eq. by rewrite Hc. }
  induction 1 as [|x ls Hs IH Hx]; [constructor|].
  constructor; [done|]. eapply Forall_impl; [exact Hx|]. cbn. intros y. by rewrite !Hk.
Qed.

(** A change of one task and of the lists its nodes are in. *)
Lemma SInv_local idle h T b m t c' h' b' m' :
  SInv idle h T b m -> Rep h' m' -> bitmap_ok b' m' ->
  (∀ n hd, n <> PendList t -> n <> SortNode t -> home m' n hd <-> home m n hd) ->
  (∀ hd, is_Some (m' !! hd) <-> is_Some (m !! hd)) ->
  (∃ ls, m' !! TaskSortLink = Some ls /\
     StronglySorted (λ x y, task_key (<[t := c']> T) x <= task_key (<[t := c']> T) y) ls) ->
  task_ok idle m' t c' ->
  SInv idle h' (<[t := c']> T) b' m'.
Proof.
  intros HI HR Hb Hfr Hhd Hs Hok. split; try done.
  - intros hd l Hl. destruct (Hhd hd) as [[l' Hl'] _]; [by eexists|]. by eapply si_heads.
  - apply Hhd, (si_free _ _ _ _ _ HI).
  - apply Hhd, (si_recycle _ _ _ _ _ HI).
  - intros n hd Hn.
    destruct (decide (n = PendList t)) as [->|]; [cbn; rewrite lookup_insert_eq; eauto|].
    destruct (decide (n = SortNode t)) as [->|]; [cbn; rewrite lookup_insert_eq; eauto|].
    apply Hfr in Hn; [|done..]. apply (si_members _ _ _ _ _ HI) in Hn.
    destruct n; cbn in *; try done; rewrite lookup_insert_ne by congruence; done.
  - intros t' c. rewrite lookup_insert. case_decide; intros; simplify_eq; [done|].
    eapply task_ok_frame; [..|by eapply si_tasks]; intros hd; apply Hfr; congruence.
Qed.

(** A change of one task that leaves the lists as they are. *)
Lemma SInv_tcb idle h T b m t c c' :
  SInv idle h T b m -> T !! t = Some c -> responseTime c' = responseTime c ->
  task_ok idle m t c' -> SInv idle h (<[t := c']> T) b m.
Proof.
  intros HI Hc Hr Hok. eapply SInv_local; try done; try apply HI.
  destruct (si_sorted _ _ _ _ _ HI) as (ls & Hls & Hs). exists ls. split; [done|].
  by eapply sorted_frame_time.
Qed.

Lemma pend_node_free idle h T b m t c :
  SInv idle h T b m -> T !! t = Some c ->
  has c OS_TASK_STATUS_READY = false -> has c OS_TASK_STATUS_PEND = false ->
  has c OS_TASK_STATUS_UNUSED = false -> ~ owned m (PendList t).
Proof.
  intros HI Hc Hr Hp Hu [[l Hl]|[hd Hh]]%owned_cases.
  - by apply (si_heads _ _ _ _ _ HI) in Hl.
  - apply (ok_home _ _ _ _ (si_tasks _ _ _ _ _ HI _ _ Hc)) in Hh.
    destruct Hh as [(_ & ? & _)|[[_ ?]|[_ ?]]]; congruence.
Qed.

Lemma sort_node_free idle h T b m t c :
  SInv idle h T b m -> T !! t = Some c ->
  responseTime c = OS_SORT_LINK_INVALID_TIME -> ~ owned m (SortNode t).
Proof.
  intros HI Hc Hr [[l Hl]|[hd Hh]]%owned_cases.
  - by apply (si_heads _ _ _ _ _ HI) in Hl.
  - apply (ok_sort_home _ _ _ _ (si_tasks _ _ _ _ _ HI _ _ Hc)) in Hh as (_ & ? & _). done.
Qed.

(** ** Bitmap *)

Lemma prior_bit p : 0 <= p < 32 -> Z.shiftr PRIQUEUE_PRIOR0_BIT p = 2 ^ (31 - p).
Proof.
  intros Hp. change PRIQUEUE_PRIOR0_BIT with (2 ^ 31). rewrite Z.shiftr_div_pow2, <-Z.pow_sub_r by lia.
  done.
Qed.

Lemma testbit_prior_bit p q :
  0 <= p < 32 -> 0 <= q < 32 -> Z.testbit (Z.shiftr PRIQUEUE_PRIOR0_BIT p) (31 - q) = (p =? q).
Proof.
  intros Hp Hq. rewrite prior_bit, Z.pow2_bits_eqb by lia. destruct (Z.eqb_spec p q); lia.
Qed.

Lemma setf_range b p : 0 <= b < 2 ^ 32 -> 0 <= p < 32 -> 0 <= setf (Z.shiftr PRIQUEUE_PRIOR0_BIT p) b < 2 ^ 32.
Proof.
  intros Hb Hp. unfold setf. rewrite prior_bit by done.
  assert (0 <= Z.lor b (2 ^ (31 - p))) by (apply Z.lor_nonneg; lia).
  split; [done|]. destruct (decide (b = 0)) as [->|].
  { rewrite Z.lor_0_l. apply Z.pow_lt_mono_r; lia. }
  apply Z.log2_lt_pow2; [|rewrite Z.log2_lor, Z.log2_pow2 by lia].
  - assert (Z.lor b (2 ^ (31 - p)) <> 0) by (rewrite Z.lor_eq_0_iff; lia). lia.
  - apply Z.max_lub_lt; [apply Z.log2_lt_pow2|]; lia.
Qed.

Lemma clrf_range b f : 0 <= b < 2 ^ 32 -> 0 <= clrf f b < 2 ^ 32.
Proof.
  intros Hb. unfold clrf.
  assert (Hn : 0 <= Z.ldiff b f) by (apply Z.ldiff_nonneg; lia). split; [done|].
  destruct (Z.eq_dec (Z.ldiff b f) 0) as [->|]; [lia|].
  apply Z.log2_lt_pow2; [lia|]. destruct (decide (b = 0)) as [->|]; [by rewrite Z.ldiff_0_l in *|].
  apply Z.lt_le_trans with (Z.succ (Z.log2 b)); [|pose proof (proj1 (Z.log2_lt_pow2 b 32 ltac:(lia))); lia].
  apply Z.lt_succ_r, Z.log2_le_mono. apply Z.ldiff_le; [lia|].
  apply Z.bits_inj'. intros i Hi. rewrite !Z.ldiff_spec, Z.bits_0. by destruct (Z.testbit b i), (Z.testbit f i).
Qed.

Lemma bitmap_insert b m p l l' :
  bitmap_ok b m -> 0 <= p < 32 -> m !! PriQueue p = Some l -> l' <> [] ->
  bitmap_ok (if bool_decide (l = []) then setf (Z.shiftr PRIQUEUE_PRIOR0_BIT p) b else b)
    (<[PriQueue p := l']> m).
Proof.
  intros [Hb Hq] Hp Hm Hl'. split; [by case_bool_decide; [apply setf_range|]|].
  intros q Hq'. destruct (decide (p = q)) as [<-|Hne].
  - exists l'. rewrite lookup_insert_eq. split; [done|]. rewrite (bool_decide_false _ Hl'). cbn.
    case_bool_decide as E; [|].
    + by rewrite setf_bit, testbit_prior_bit, Z.eqb_refl, orb_true_r.
    + destruct (Hq p Hp) as (l0 & Hl0 & ->). simplify_eq. by rewrite bool_decide_false.
  - destruct (Hq q Hq') as (l0 & Hl0 & Hbit). exists l0.
    rewrite lookup_insert_ne by congruence. split; [done|]. rewrite <-Hbit.
    destruct (bool_decide _) in |- *; [|done]. rewrite setf_bit, testbit_prior_bit by done.
    destruct (Z.eqb_spec p q); [done|]. apply orb_false_r.
Qed.

Lemma bitmap_remove b m p l' :
  bitmap_ok b m -> 0 <= p < 32 -> (bool_decide (l' = []) = false -> Z.testbit b (31 - p) = true) ->
  bitmap_ok (if bool_decide (l' = []) then clrf (Z.shiftr PRIQUEUE_PRIOR0_BIT p) b else b)
    (<[PriQueue p := l']> m).
Proof.
  intros [Hb Hq] Hp Hl. split; [by case_bool_decide; [apply clrf_range|]|].
  intros q Hq'. destruct (decide (p = q)) as [<-|Hne].
  - exists l'. rewrite lookup_insert_eq. split; [done|]. case_bool_decide; cbn.
    + by rewrite clrf_bit, testbit_prior_bit, Z.eqb_refl, andb_false_r.
    + by apply Hl.
  - destruct (Hq q Hq') as (l0 & Hl0 & Hbit). exists l0.
    rewrite lookup_insert_ne by congruence. split; [done|]. rewrite <-Hbit.
    destruct (bool_decide _) in |- *; [|done]. rewrite clrf_bit, testbit_prior_bit by done.
    destruct (Z.eqb_spec p q); [done|]. apply andb_true_r.
Qed.

Lemma bitmap_frame b m hd l :
  bitmap_ok b m -> (∀ p, hd <> PriQueue p) -> bitmap_ok b (<[hd := l]> m).
Proof.
  intros [Hb Hq] Hne. split; [done|]. intros p Hp. destruct (Hq p Hp) as (l0 & ? & ?).
  exists l0. by rewrite lookup_insert_ne.
Qed.

(** ** Priority queues *)

Lemma wp_priQueue (k : Kernel) p (Q : Node -> Kernel -> Prop) :
  0 <= p < 32 -> Q (PriQueue p) k -> wp (priQueue p) Q k.
Proof.
  intros Hp HQ. unfold priQueue. change OS_PRIORITY_QUEUE_NUM with 32.
  destruct (Z.leb_spec 0 p), (Z.ltb_spec p 32); try lia. done.
Qed.


(** Symbolic execution on the part of the state given by [upd]. *)
Section upd_rules.
Context (h : gmap Node (LOS_DL_LIST Node)) (T : gmap Z LosTaskCB) (b r : Z) (k : Kernel).
Lemma wp_upd_list {A} (c : M _ A) (Q : A -> Kernel -> Prop) :
  wp c (λ a h', Q a (upd h' T b r k)) h -> wp (onlist c) Q (upd h T b r k).
Proof. apply (wp_onlist c Q (upd h T b r k)). Qed.
Lemma wp_upd_tcb t c (Q : LosTaskCB -> Kernel -> Prop) :
  T !! t = Some c -> Q c (upd h T b r k) -> wp (tcb t) Q (upd h T b r k).
Proof. apply (wp_tcb (upd h T b r k)). Qed.
Lemma wp_upd_mod_tcb t c f (Q : unit -> Kernel -> Prop) :
  T !! t = Some c -> Q tt (upd h (<[t := f c]> T) b r k) -> wp (mod_tcb t f) Q (upd h T b r k).
Proof. apply (wp_mod_tcb (upd h T b r k)). Qed.
Lemma wp_upd_empty m hd l (Q : bool -> Kernel -> Prop) :
  Rep h m -> m !! hd = Some l -> Q (bool_decide (l = [])) (upd h T b r k) ->
  wp (onlist (LOS_ListEmpty hd)) Q (upd h T b r k).
Proof. apply (wp_ListEmpty (upd h T b r k)). Qed.
Lemma wp_upd_bitmap f (Q : unit -> Kernel -> Prop) :
  Q tt (upd h T (f b) r k) -> wp (modify (set_g_queueBitmap f)) Q (upd h T b r k).
Proof. done. Qed.
Lemma wp_upd_response f (Q : unit -> Kernel -> Prop) :
  Q tt (upd h T b (f r) k) -> wp (modify (set_g_schedResponseTime f)) Q (upd h T b r k).
Proof. done. Qed.
End upd_rules.

(** A task node enters its priority queue. *)
Lemma priqueue_add_wp h T b r (k : Kernel) m n p l (head : bool) :
  Rep h m -> bitmap_ok b m -> 0 <= p < 32 -> m !! PriQueue p = Some l -> ~ owned m n ->
  wp (if head then OsSchedPriQueueEnHead n p else OsSchedPriQueueEnTail n p) (λ _ k', ∃ h' b',
    k' = upd h' T b' r k /\
    Rep h' (<[PriQueue p := if head then n :: l else l ++ [n]]> m) /\
    bitmap_ok b' (<[PriQueue p := if head then n :: l else l ++ [n]]> m)) (upd h T b r k).
Proof.
  intros HR Hb Hp Hm Hn.
  assert (Hb' := bitmap_insert _ _ _ _ (if head then n :: l else l ++ [n]) Hb Hp Hm).
  destruct head; [unfold OsSchedPriQueueEnHead|unfold OsSchedPriQueueEnTail].
  all: wp_step; apply wp_priQueue; [done|]; wp_step; eapply wp_upd_empty; [done..|]; wp_step.
  all: apply wp_when; intros E; rewrite E in Hb'; [apply wp_upd_bitmap|].
  all: apply wp_upd_list; eapply wp_mono; [by first [apply Rep_add_head | apply Rep_tail_insert]|].
  all: intros [] h' HR'; eexists h', _; split; [done|split; [done|]]; apply Hb'; by destruct l.
Qed.

Lemma insert_heads (m : gmap Node (list Node)) hd l :
  is_Some (m !! hd) -> ∀ hd', is_Some (<[hd := l]> m !! hd') <-> is_Some (m !! hd').
Proof. intros Hs hd'. rewrite lookup_insert. case_decide; subst; [|done]. split; [done|by eexists]. Qed.

(** The status of a task that is ready to run. *)
Record ready_status (c : LosTaskCB) : Prop := {
  rs_ready : has c OS_TASK_STATUS_READY = true;
  rs_pend : has c OS_TASK_STATUS_PEND = false;
  rs_delay : has c OS_TASK_STATUS_DELAY = false;
  rs_pend_time : has c OS_TASK_STATUS_PEND_TIME = false;
  rs_suspend : has c OS_TASK_STATUS_SUSPEND = false;
  rs_unused : has c OS_TASK_STATUS_UNUSED = false;
  rs_exit : has c OS_TASK_STATUS_EXIT = false;
  rs_frozen : has c OS_TASK_FLAG_FREEZE = false;
}.

Lemma SInv_enqueue idle h T b m t c c' h' b' p l l' (m' := <[PriQueue p := l']> m) :
  SInv idle h T b m -> T !! t = Some c -> t <> idle -> ~ owned m (PendList t) ->
  m !! PriQueue p = Some l -> l' ≡ₚ PendList t :: l -> priority c' = p ->
  Rep h' m' -> bitmap_ok b' m' ->
  ready_status c' -> taskID c' = taskID c -> 0 <= p < 32 ->
  responseTime c = OS_SORT_LINK_INVALID_TIME -> responseTime c' = OS_SORT_LINK_INVALID_TIME ->
  SInv idle h' (<[t := c']> T) b' m'.
Proof.
  intros HI Hc Hti Hno Hl Hl' Hpe HR Hb [] Hid Hpr Hrt Hrt'. subst p.
  pose proof (si_tasks _ _ _ _ _ HI _ _ Hc) as Hok.
  assert (Hh : ∀ n hd, home m' n hd <-> home m n hd \/ n = PendList t /\ hd = PriQueue (priority c')).
  { intros. by apply home_add with l. }
  eapply SInv_local; try done.
  - intros n hd Hn _. rewrite Hh. naive_solver.
  - apply insert_heads. by eexists.
  - destruct (si_sorted _ _ _ _ _ HI) as (ls & Hls & Hs). exists ls.
    split; [subst m'; by rewrite lookup_insert_ne|]. eapply sorted_frame_time; [done..|congruence|done].
  - split; try done; try congruence.
    + rewrite Hid. apply Hok.
    + intros hd [Hh'|[_ ->]]%Hh; [exfalso; apply Hno; by eapply home_owned|]. by left.
    + intros _ _. apply Hh. by right.
    + intros hd [Hh'|[? _]]%Hh; [|done]. exfalso.
      by apply (ok_sort_home _ _ _ _ Hok) in Hh' as (_ & ? & _).
Qed.

Definition enq_tcb (idle slice sliceMin : Z) (c : LosTaskCB) : LosTaskCB :=
  set_taskStatus (setf OS_TASK_STATUS_READY) (set_taskStatus
    (clrf (Z.lor (Z.lor (Z.lor OS_TASK_STATUS_PEND OS_TASK_STATUS_SUSPEND)
                   OS_TASK_STATUS_DELAY) OS_TASK_STATUS_PEND_TIME))
    (if (taskID c =? idle) || (timeSlice c >? sliceMin) then c else set_timeSlice (λ _, slice) c)).


Lemma enqueue_wp h T b r k m t c (idle := g_idleTaskID k) :
  SInv idle h T b m -> T !! t = Some c ->
  has c OS_TASK_STATUS_READY = false -> has c OS_TASK_STATUS_PEND = false ->
  has c OS_TASK_STATUS_UNUSED = false -> has c OS_TASK_STATUS_EXIT = false ->
  responseTime c = OS_SORT_LINK_INVALID_TIME ->
  wp (OsSchedTaskEnQueue t) (λ _ k', ∃ h' b' m',
    let c' := enq_tcb idle (g_schedTimeSlice k) (g_schedTimeSliceMin k) c in
    k' = upd h' (<[t := c']> T) b' r k /\ SInv idle h' (<[t := c']> T) b' m' /\
    if decide (t = idle) then m' = m else
    ∃ l, m !! PriQueue (priority c) = Some l /\
      m' = <[PriQueue (priority c) :=
             if timeSlice c >? g_schedTimeSliceMin k then PendList t :: l else l ++ [PendList t]]> m)
    (upd h T b r k).
Proof.
  intros HI Hc Hr Hp Hu He Hrt. pose proof (si_tasks _ _ _ _ _ HI _ _ Hc) as Hok.
  pose proof (ok_prio _ _ _ _ Hok Hu) as Hprio.
  pose proof (pend_node_free _ _ _ _ _ _ _ HI Hc Hr Hp Hu) as Hno.
  unfold OsSchedTaskEnQueue, clear_status, set_status. wp_step. eapply wp_upd_tcb; [done|].
  wp_step. apply wp_assert; [unfold has in Hr; by rewrite Hr|]. wp_steps. cbn.
  pose proof (ok_id _ _ _ _ Hok) as Hid. unfold enq_tcb. fold idle.
  destruct (Z.eqb_spec (taskID c) idle) as [E|E]; cbn [negb orb when].
  - apply wp_ret. wp_step. eapply wp_upd_mod_tcb; [done|].
    eapply wp_upd_mod_tcb; [by rewrite lookup_insert_eq|]. rewrite insert_insert_eq.
    exists h, b, m. rewrite decide_True by (by apply Hid). split_and!; [done| |done].
    eapply SInv_tcb; [done|done|done|].
    task_solve Hok.
  - destruct (proj2 (si_bitmap _ _ _ _ _ HI) _ Hprio) as (l & Hl & _).
    set (head := timeSlice c >? g_schedTimeSliceMin k).
    set (c1 := if head then c else set_timeSlice (λ _, g_schedTimeSlice k) c).
    wp_steps. cbn. fold head.
    apply (wp_mono _ (λ _ k', ∃ h' b', let l' := if head then PendList t :: l else l ++ [PendList t] in
      k' = upd h' (<[t := c1]> T) b' r k /\
      Rep h' (<[PriQueue (priority c) := l']> m) /\ bitmap_ok b' (<[PriQueue (priority c) := l']> m))).
    { pose proof (λ T, priqueue_add_wp h T b r k m (PendList t) (priority c) l head
        (si_rep _ _ _ _ _ HI) (si_bitmap _ _ _ _ _ HI) Hprio Hl Hno) as Hadd. subst c1.
      destruct head; wp_steps; [by rewrite insert_id|]. eapply wp_upd_mod_tcb; [done|]. apply Hadd. }
    intros [] k' (h' & b' & -> & HR & Hb). wp_steps.
    eapply wp_upd_mod_tcb; [by rewrite lookup_insert_eq|].
    eapply wp_upd_mod_tcb; [by rewrite lookup_insert_eq|]. rewrite !insert_insert_eq.
    exists h', b', (<[PriQueue (priority c) := if head then PendList t :: l else l ++ [PendList t]]> m).
    split; [done|]. rewrite decide_False by (rewrite <-Hid; done). split; [|eauto].
    assert (priority c1 = priority c /\ taskStatus c1 = taskStatus c /\ responseTime c1 = responseTime c
      /\ taskID c1 = taskID c) as (E1 & E2 & E3 & E4) by (subst c1; by destruct head).
    eapply SInv_enqueue; try done; cbn; try congruence.
    + rewrite <-Hid. done.
    + destruct head; [done|]. by rewrite Permutation_app_comm.
    + destruct Hok; split; unfold has in *; cbn; rewrite E2; bits; try done.
Qed.

Lemma dequeue_wp h T b r k m t c (idle := g_idleTaskID k) :
  SInv idle h T b m -> T !! t = Some c ->
  wp (OsSchedTaskDeQueue t) (λ _ k', ∃ h' b' m',
    let c' := if has c OS_TASK_STATUS_READY then set_taskStatus (clrf OS_TASK_STATUS_READY) c else c in
    k' = upd h' (<[t := c']> T) b' r k /\ SInv idle h' (<[t := c']> T) b' m' /\
    if has c OS_TASK_STATUS_READY && negb (t =? idle) then
      ∃ l, m !! PriQueue (priority c) = Some l /\ PendList t ∈ l /\
        m' = <[PriQueue (priority c) := list_remove_all (PendList t) l]> m
    else m' = m) (upd h T b r k).
Proof.
  intros HI Hc. pose proof (si_tasks _ _ _ _ _ HI _ _ Hc) as Hok.
  unfold OsSchedTaskDeQueue, clear_status. wp_step. eapply wp_upd_tcb; [done|].
  fold (has c OS_TASK_STATUS_READY). destruct (has c OS_TASK_STATUS_READY) eqn:Hr; cbn [when andb].
  2: { apply wp_ret. exists h, b, m. rewrite insert_id by done. done. }
  pose proof (ok_id _ _ _ _ Hok) as Hid. pose proof (ok_ready _ _ _ _ Hok Hr) as (Hp & Hd & Hpt & Hs & Hu & He).
  pose proof (ok_prio _ _ _ _ Hok Hu) as Hprio.
  wp_steps. cbn. fold idle. destruct (Z.eqb_spec (taskID c) idle) as [E|E]; cbn [negb when].
  - apply wp_ret. eapply wp_upd_mod_tcb; [done|]. exists h, b, m. apply Hid in E.
    rewrite (proj2 (Z.eqb_eq t idle) E). split_and!; [done| |done].
    eapply SInv_tcb; [done..|]. task_solve Hok.
  - rewrite Hid in E. rewrite (proj2 (Z.eqb_neq t idle) E). cbn.
    destruct (ok_queued _ _ _ _ Hok Hr E) as (l & Hl & Hin).
    unfold OsSchedPriQueueDelete. wp_step. apply wp_upd_list.
    eapply wp_mono; [by eapply Rep_delete, Hin; [apply HI|]|]. intros [] h' HR. cbn.
    wp_step. apply wp_priQueue; [done|]. wp_step.
    eapply wp_upd_empty; [done|by rewrite lookup_insert_eq|].
    set (l' := list_remove_all (PendList t) l) in *.
    assert (Hb := bitmap_remove b m (priority c) l' (si_bitmap _ _ _ _ _ HI) Hprio).
    apply (wp_mono _ (λ _ k', k' = upd h' T (if bool_decide (l' = []) then
      clrf (Z.shiftr PRIQUEUE_PRIOR0_BIT (priority c)) b else b) r k)).
    { case_bool_decide; [by apply wp_upd_bitmap|done]. }
    intros [] k' ->. eapply wp_upd_mod_tcb; [done|].
    eexists h', _, (<[PriQueue (priority c) := l']> m). split_and!; [done| |eauto].
    assert (Hh : ∀ n hd, home (<[PriQueue (priority c) := l']> m) n hd <-> home m n hd /\ n <> PendList t).
    { intros. apply home_remove; [apply HI|done..]. }
    eapply SInv_local; try done.
    + apply Hb. intros _. destruct (proj2 (si_bitmap _ _ _ _ _ HI) _ Hprio) as (l0 & Hl0 & ->).
      simplify_eq. destruct l; [by apply elem_of_nil in Hin|done].
    + intros n hd ? ?. rewrite Hh. naive_solver.
    + apply insert_heads. by eexists.
    + destruct (si_sorted _ _ _ _ _ HI) as (ls & Hls & Hs'). exists ls.
      split; [by rewrite lookup_insert_ne|]. by eapply sorted_frame_time.
    + task_solve_with Hok Hh.
Qed.
(** ** Timed waits *)

Definition unsort_tcb (c : LosTaskCB) : LosTaskCB := set_responseTime (λ _, OS_SORT_LINK_INVALID_TIME) c.

Lemma unsort_tcb_id c : responseTime c = OS_SORT_LINK_INVALID_TIME -> unsort_tcb c = c.
Proof. destruct c. cbn. by intros ->. Qed.

(** The removal of a task's node from the sorted list. *)
Lemma delete_node_sort_wp h T b r k m t c ls (idle := g_idleTaskID k) :
  SInv idle h T b m -> T !! t = Some c -> m !! TaskSortLink = Some ls -> SortNode t ∈ ls ->
  wp (OsDeleteNodeSortLink (SortNode t)) (λ _ k', ∃ h',
    k' = upd h' (<[t := unsort_tcb c]> T) b r k /\
    SInv idle h' (<[t := unsort_tcb c]> T) b (<[TaskSortLink := list_remove_all (SortNode t) ls]> m))
    (upd h T b r k).
Proof.
  intros HI Hc Hls Hin. pose proof (si_tasks _ _ _ _ _ HI _ _ Hc) as Hok.
  unfold OsDeleteNodeSortLink. wp_step. apply wp_upd_list.
  eapply wp_mono; [by eapply Rep_delete, Hin; [apply HI|]|]. intros [] h' HR. cbn.
  eapply wp_upd_mod_tcb; [done|]. exists h'. split; [done|].
  set (ls' := list_remove_all (SortNode t) ls) in *.
  assert (Hh : ∀ n hd, home (<[TaskSortLink := ls']> m) n hd <-> home m n hd /\ n <> SortNode t).
  { intros. apply home_remove; [apply HI|done..]. }
  eapply SInv_local; try done.
  - by apply bitmap_frame; [apply HI|].
  - intros n hd ? ?. rewrite Hh. naive_solver.
  - apply insert_heads. by eexists.
  - exists ls'. rewrite lookup_insert_eq. split; [done|].
    destruct (si_sorted _ _ _ _ _ HI) as (ls0 & Hls0 & Hs). simplify_eq.
    subst ls'. apply sorted_frame; [rewrite elem_of_list_remove_all; naive_solver|].
    unfold list_remove_all. clear -Hs. induction Hs as [|x ls Hs IH Hx]; [constructor|].
    rewrite filter_cons. case_decide; [|done]. constructor; [done|].
    rewrite Forall_forall in Hx |- *. intros y [_ Hy]%list_elem_of_filter. auto.
  - unfold unsort_tcb. task_solve_with Hok Hh.
Qed.

Lemma delete_sort_wp h T b r k m t c (idle := g_idleTaskID k) :
  SInv idle h T b m -> T !! t = Some c -> has c OS_TASK_STATUS_UNUSED = false ->
  wp (OsDeleteSortLink (SortNode t)) (λ _ k', ∃ h' r' m',
    k' = upd h' (<[t := unsort_tcb c]> T) b r' k /\ SInv idle h' (<[t := unsort_tcb c]> T) b m' /\
    ∀ hd, hd <> TaskSortLink -> m' !! hd = m !! hd) (upd h T b r k).
Proof.
  intros HI Hc Hu. pose proof (si_tasks _ _ _ _ _ HI _ _ Hc) as Hok.
  unfold OsDeleteSortLink. wp_step. cbn [GET_SORTLIST_VALUE]. wp_step. eapply wp_upd_tcb; [done|]. wp_steps.
  destruct (Z.eqb_spec (responseTime c) OS_SORT_LINK_INVALID_TIME) as [E|E]; cbn [negb when].
  - apply wp_ret. exists h, r, m. rewrite unsort_tcb_id, insert_id by done. done.
  - destruct (ok_sorted _ _ _ _ Hok Hu E) as (ls & Hls & Hin).
    unfold OsSchedResetSchedResponseTime. wp_steps. cbn [g_schedResponseTime upd].
    apply (wp_mono _ (λ _ k', ∃ r', k' = upd h T b r' k)).
    { apply wp_when; intros _; [apply wp_upd_response|]; eauto. }
    intros [] k' (r' & ->).
    eapply wp_mono; [by eapply delete_node_sort_wp|]. intros [] k' (h' & -> & HI').
    exists h', r', (<[TaskSortLink := list_remove_all (SortNode t) ls]> m).
    split_and!; [done..|]. intros. by rewrite lookup_insert_ne.
Qed.

(** ** Waiting and waking *)

Lemma clear_status_wp h T b r k m t c f (idle := g_idleTaskID k) :
  SInv idle h T b m -> T !! t = Some c -> task_ok idle m t (set_taskStatus (clrf f) c) ->
  wp (clear_status t f) (λ _ k',
    k' = upd h (<[t := set_taskStatus (clrf f) c]> T) b r k /\
    SInv idle h (<[t := set_taskStatus (clrf f) c]> T) b m) (upd h T b r k).
Proof. intros. eapply wp_upd_mod_tcb; [done|]. split; [done|]. by eapply SInv_tcb. Qed.

Lemma set_status_wp h T b r k m t c f (idle := g_idleTaskID k) :
  SInv idle h T b m -> T !! t = Some c -> task_ok idle m t (set_taskStatus (setf f) c) ->
  wp (set_status t f) (λ _ k',
    k' = upd h (<[t := set_taskStatus (setf f) c]> T) b r k /\
    SInv idle h (<[t := set_taskStatus (setf f) c]> T) b m) (upd h T b r k).
Proof. intros. eapply wp_upd_mod_tcb; [done|]. split; [done|]. by eapply SInv_tcb. Qed.

(** A waiting task leaves its list; [T0] is the task array of the moment. *)
Lemma unpend_gen_wp h T T0 b r k m t c c' hd0 l0 (idle := g_idleTaskID k) :
  SInv idle h T b m -> T !! t = Some c -> has c OS_TASK_STATUS_PEND = true ->
  m !! hd0 = Some l0 -> PendList t ∈ l0 -> responseTime c' = responseTime c ->
  (∀ m', (∀ n hd, home m' n hd <-> home m n hd /\ n <> PendList t) -> task_ok idle m' t c') ->
  wp (onlist (LOS_ListDelete (PendList t))) (λ _ k', ∃ h', k' = upd h' T0 b r k /\
    SInv idle h' (<[t := c']> T) b (<[hd0 := list_remove_all (PendList t) l0]> m)) (upd h T0 b r k).
Proof.
  intros HI Hc Hp Hl0 Hin Hr Hok'. pose proof (si_tasks _ _ _ _ _ HI _ _ Hc) as Hok.
  assert (Hw : wait_head hd0 = true).
  { destruct (ok_home _ _ _ _ Hok hd0) as [(_ & Hr' & _)|[[? _]|[_ Hu]]]; [by exists l0| |done|].
    - apply (ok_ready _ _ _ _ Hok) in Hr' as (? & _). congruence.
    - destruct (ok_unused _ _ _ _ Hok) as (? & _); [by rewrite Hu|congruence]. }
  apply wp_upd_list. eapply wp_mono; [by eapply Rep_delete, Hin; [apply HI|]|].
  intros [] h' HR. exists h'. split; [done|].
  set (l' := list_remove_all (PendList t) l0) in *.
  assert (Hh : ∀ n hd, home (<[hd0 := l']> m) n hd <-> home m n hd /\ n <> PendList t).
  { intros. apply home_remove; [apply HI|done..]. }
  eapply SInv_local; try done.
  - apply bitmap_frame; [apply HI|]. intros p ->. done.
  - intros n hd ? ?. rewrite Hh. naive_solver.
  - apply insert_heads. by eexists.
  - destruct (si_sorted _ _ _ _ _ HI) as (ls & Hls & Hs). exists ls.
    split; [rewrite lookup_insert_ne; [done|by intros ->]|]. by eapply sorted_frame_time.
  - by apply Hok'.
Qed.

Lemma unpend_wp h T b r k m t c c' hd0 l0 (idle := g_idleTaskID k) :
  SInv idle h T b m -> T !! t = Some c -> has c OS_TASK_STATUS_PEND = true ->
  m !! hd0 = Some l0 -> PendList t ∈ l0 -> responseTime c' = responseTime c ->
  (∀ m', (∀ n hd, home m' n hd <-> home m n hd /\ n <> PendList t) -> task_ok idle m' t c') ->
  wp (onlist (LOS_ListDelete (PendList t))) (λ _ k', ∃ h', k' = upd h' T b r k /\
    SInv idle h' (<[t := c']> T) b (<[hd0 := list_remove_all (PendList t) l0]> m)) (upd h T b r k).
Proof. intros. by eapply unpend_gen_wp. Qed.

Definition wake_tcb (idle slice sliceMin : Z) (c : LosTaskCB) : LosTaskCB :=
  let c := set_taskStatus (clrf OS_TASK_STATUS_PEND) c in
  let c := if has c OS_TASK_STATUS_PEND_TIME then
             set_taskStatus (clrf OS_TASK_STATUS_PEND_TIME) (unsort_tcb c) else c in
  if negb (has c OS_TASK_STATUS_SUSPEND) && negb (has c OS_TASK_STATUS_RUNNING)
  then enq_tcb idle slice sliceMin c else c.

(** The lists that waking task [t] with control block [c] does not touch. *)
Definition wake_frame (c : LosTaskCB) (hd0 : Node) (m m' : gmap Node (list Node)) : Prop :=
  ∀ hd, hd <> hd0 -> hd <> TaskSortLink -> hd <> PriQueue (priority c) -> m' !! hd = m !! hd.

Lemma wake_wp h T b r k m t c hd0 l0 (idle := g_idleTaskID k) :
  SInv idle h T b m -> T !! t = Some c -> has c OS_TASK_STATUS_PEND = true ->
  m !! hd0 = Some l0 -> PendList t ∈ l0 ->
  wp (OsSchedTaskWake t) (λ _ k', ∃ h' b' r' m',
    let c' := wake_tcb idle (g_schedTimeSlice k) (g_schedTimeSliceMin k) c in
    k' = upd h' (<[t := c']> T) b' r' k /\ SInv idle h' (<[t := c']> T) b' m' /\
    m' !! hd0 = Some (list_remove_all (PendList t) l0) /\ wake_frame c hd0 m m') (upd h T b r k).
Proof.
  intros HI Hc Hp Hl0 Hin. pose proof (si_tasks _ _ _ _ _ HI _ _ Hc) as Hok.
  assert (Hu : has c OS_TASK_STATUS_UNUSED = false /\ has c OS_TASK_STATUS_EXIT = false).
  { split; apply not_true_is_false; intros E; destruct (ok_unused _ _ _ _ Hok) as (? & _);
      [rewrite E; done|congruence|rewrite E; apply orb_true_r|congruence]. }
  assert (Hr : has c OS_TASK_STATUS_READY = false).
  { apply not_true_is_false. intros E. apply (ok_ready _ _ _ _ Hok) in E as (? & _). congruence. }
  destruct Hu as [Hu He].
  set (c1 := set_taskStatus (clrf OS_TASK_STATUS_PEND) c).
  unfold OsSchedTaskWake. wp_step. eapply wp_mono.
  { eapply (unpend_wp _ _ _ _ _ _ _ c c1); [done..|]. intros m' Hh. subst c1. task_solve_with Hok Hh. }
  intros [] k' (h1 & -> & HI1). wp_step. eapply wp_upd_mod_tcb; [done|]. fold c1.
  wp_step. eapply wp_upd_tcb; [by rewrite lookup_insert_eq|].
  assert (Hc1 : <[t := c1]> T !! t = Some c1) by by rewrite lookup_insert_eq.
  set (c2 := if has c1 OS_TASK_STATUS_PEND_TIME then
               set_taskStatus (clrf OS_TASK_STATUS_PEND_TIME) (unsort_tcb c1) else c1).
  set (m1 := <[hd0 := list_remove_all (PendList t) l0]> m) in *.
  wp_step. apply (wp_mono _ (λ _ k', ∃ h' r' m', k' = upd h' (<[t := c2]> T) b r' k /\
    SInv idle h' (<[t := c2]> T) b m' /\ ∀ hd, hd <> TaskSortLink -> m' !! hd = m1 !! hd)).
  { fold (has c1 OS_TASK_STATUS_PEND_TIME). subst c2.
    destruct (has c1 OS_TASK_STATUS_PEND_TIME) eqn:Ept; cbn [when].
    - wp_step. eapply wp_mono; [eapply (delete_sort_wp _ _ _ _ _ _ _ _ HI1 Hc1)|].
      { subst c1. unfold has in *. cbn. by bits. }
      intros [] k' (h2 & r2 & m2 & -> & HI2 & Hm2). rewrite !insert_insert_eq in HI2 |- *.
      eapply wp_mono; [eapply (clear_status_wp _ _ _ _ _ _ _ _ _ HI2)|].
      + by rewrite lookup_insert_eq.
      + pose proof (si_tasks _ _ _ _ _ HI2 t _ ltac:(by rewrite lookup_insert_eq)) as Hok2.
        subst c1. task_solve Hok2.
      + intros [] k' (-> & HI3). rewrite !insert_insert_eq in HI3 |- *. eauto 10.
    - apply wp_ret. eauto 10. }
  intros [] k' (h2 & r2 & m2 & -> & HI2 & Hm2). wp_step.
  assert (Hc2 : <[t := c2]> T !! t = Some c2) by by rewrite lookup_insert_eq.
  eapply wp_upd_tcb; [done|]. fold (has c2 OS_TASK_STATUS_SUSPEND) (has c2 OS_TASK_STATUS_RUNNING).
  unfold wake_tcb. fold c1 c2.
  assert (Hm2' : m2 !! hd0 = Some (list_remove_all (PendList t) l0)).
  { rewrite Hm2; [subst m1; by rewrite lookup_insert_eq|]. intros ->.
    destruct (ok_home _ _ _ _ Hok TaskSortLink) as [(? & _)|[[? _]|[[?|?] _]]]; [by exists l0|done..]. }
  assert (Hfr : ∀ hd, hd <> hd0 -> hd <> TaskSortLink -> m2 !! hd = m !! hd).
  { intros. rewrite Hm2 by done. subst m1. by apply lookup_insert_ne. }
  destruct (negb _ && negb _) eqn:Ew; cbn [when].
  - assert (Hs : has c2 OS_TASK_STATUS_READY = false /\ has c2 OS_TASK_STATUS_PEND = false /\
      has c2 OS_TASK_STATUS_UNUSED = false /\ has c2 OS_TASK_STATUS_EXIT = false /\ priority c2 = priority c).
    { clear -Hr Hp Hu He. subst c2 c1. unfold has in *. destruct (test _ OS_TASK_STATUS_PEND_TIME); cbn;
        bits; rewrite ?Hr, ?Hp, ?Hu, ?He; done. }
    destruct Hs as (Hs1 & Hs2 & Hs3 & Hs4 & Hs5).
    assert (Hrt : responseTime c2 = OS_SORT_LINK_INVALID_TIME).
    { destruct (decide (responseTime c2 = OS_SORT_LINK_INVALID_TIME)) as [|Hne]; [done|exfalso].
      pose proof (si_tasks _ _ _ _ _ HI2 _ _ Hc2) as Hok2.
      pose proof (ok_sorted _ _ _ _ Hok2 Hs3 Hne) as (_ & _ & Hx)%(ok_sort_home _ _ _ _ Hok2).
      assert (Hd : has c OS_TASK_STATUS_DELAY = false).
      { apply not_true_is_false. intros E%(ok_delay _ _ _ _ Hok). congruence. }
      revert Hx Hne. subst c2. unfold has in *. destruct (test (taskStatus c1) _) eqn:Ep; cbn; [done|].
      intros Hx _. subst c1. cbn in *. bits. rewrite Ep, Hd in Hx. done. }
    eapply wp_mono; [by eapply (enqueue_wp _ _ _ _ _ _ _ _ HI2 Hc2)|].
    intros [] k' (h3 & b3 & m3 & -> & HI3 & Hm3). fold idle in HI3, Hm3 |- *.
    rewrite insert_insert_eq in HI3 |- *.
    exists h3, b3, r2, m3. split_and!; [done..| |].
    + destruct (decide (t = idle)); [by subst m3|]. destruct Hm3 as (l & Hl & ->).
      rewrite lookup_insert_ne; [done|]. intros <-.
      destruct (ok_home _ _ _ _ Hok (PriQueue (priority c2))) as [(_ & ? & _)|[[? _]|[[?|?] _]]];
        [by exists l0|congruence|done..].
    + intros hd H1 H2 H3. rewrite <-Hfr by done. destruct (decide (t = idle)); [by subst m3|].
      destruct Hm3 as (l & Hl & ->). apply lookup_insert_ne. congruence.
  - apply wp_ret. exists h2, b, r2, m2. split_and!; [done..|]. intros hd H1 H2 _. by apply Hfr.
Qed.

Definition wait_tcb (ticks : Z) (c : LosTaskCB) : LosTaskCB :=
  let c := set_taskStatus (setf OS_TASK_STATUS_PEND) c in
  if ticks =? LOS_WAIT_FOREVER then c
  else set_waitTimes (λ _, ticks) (set_taskStatus (setf OS_TASK_STATUS_PEND_TIME) c).

Lemma wait_wp h T b r k m t c hd l ticks (idle := g_idleTaskID k) :
  SInv idle h T b m -> runTask k = Some t -> T !! t = Some c ->
  has c OS_TASK_STATUS_READY = false -> has c OS_TASK_STATUS_PEND = false ->
  has c OS_TASK_STATUS_DELAY = false ->
  has c OS_TASK_STATUS_UNUSED = false -> has c OS_TASK_STATUS_EXIT = false ->
  wait_head hd = true -> m !! hd = Some l ->
  wp (OsSchedTaskWait hd ticks) (λ _ k', ∃ h',
    k' = upd h' (<[t := wait_tcb ticks c]> T) b r k /\
    SInv idle h' (<[t := wait_tcb ticks c]> T) b (<[hd := l ++ [PendList t]]> m)) (upd h T b r k).
Proof.
  intros HI Hrun Hc Hr Hp Hd Hu He Hw Hl. pose proof (si_tasks _ _ _ _ _ HI _ _ Hc) as Hok.
  pose proof (pend_node_free _ _ _ _ _ _ _ HI Hc Hr Hp Hu) as Hno.
  unfold OsSchedTaskWait, set_status. wp_step. apply (wp_running (upd h T b r k) t); [done|].
  wp_step. eapply wp_upd_mod_tcb; [done|]. wp_step. apply wp_upd_list.
  eapply wp_mono; [by apply Rep_tail_insert; [apply HI|..]|]. intros [] h' HR. cbn.
  apply (wp_mono _ (λ _ k', k' = upd h' (<[t := wait_tcb ticks c]> T) b r k)).
  { unfold wait_tcb. destruct (_ =? _); cbn [negb when]; [done|]. wp_step.
    eapply wp_upd_mod_tcb; [by rewrite lookup_insert_eq|].
    eapply wp_upd_mod_tcb; [by rewrite lookup_insert_eq|]. by rewrite !insert_insert_eq. }
  intros [] k' ->. exists h'. split; [done|].
  assert (Hh : ∀ n hd', home (<[hd := l ++ [PendList t]]> m) n hd' <-> home m n hd' \/ n = PendList t /\ hd' = hd).
  { intros. apply home_add with l; [done|]. by rewrite Permutation_app_comm. }
  eapply SInv_local; try done.
  - apply bitmap_frame; [apply HI|]. by intros p ->.
  - intros n hd' ? ?. rewrite Hh. naive_solver.
  - apply insert_heads. by eexists.
  - destruct (si_sorted _ _ _ _ _ HI) as (ls & Hls & Hs). exists ls.
    split; [rewrite lookup_insert_ne; [done|by intros ->]|]. eapply sorted_frame_time; [done| |done].
    unfold wait_tcb. by destruct (_ =? _).
  - assert (Hx : ∀ hd', home (<[hd := l ++ [PendList t]]> m) (SortNode t) hd' <-> home m (SortNode t) hd').
    { intros. rewrite Hh. naive_solver. }
    assert (Hy : ∀ hd', home (<[hd := l ++ [PendList t]]> m) (PendList t) hd' <-> hd' = hd).
    { intros. rewrite Hh. split; [intros [X|[_ X]]; [|done]|naive_solver].
      exfalso. by apply Hno, home_owned with hd'. }
    unfold wait_tcb. destruct (_ =? _), Hok as [Oid Ord Oun Ode Ofz Opr Oho Oqu Owa Osh Oso].
    all: split; cbn; unfold has in *; cbn; bits; try done; try congruence.
    all: try (rewrite Hu, He; done).
    all: try (intros hd' ->%Hy; by auto).
    all: try (intros _; exists hd; by rewrite Hy).
    all: try (intros hd' X%Hx; destruct (Osh _ X) as (? & ? & ?); rewrite ?orb_true_r; done).
    all: intros; apply Hx; auto.
Qed.

Lemma delay_wp h T b r k m t c tick (idle := g_idleTaskID k) :
  SInv idle h T b m -> T !! t = Some c ->
  has c OS_TASK_STATUS_READY = false -> has c OS_TASK_STATUS_PEND = false ->
  has c OS_TASK_STATUS_UNUSED = false -> has c OS_TASK_STATUS_EXIT = false ->
  wp (OsSchedDelay t tick) (λ _ k',
    let c' := set_waitTimes (λ _, tick) (set_taskStatus (setf OS_TASK_STATUS_DELAY) c) in
    k' = upd h (<[t := c']> T) b r k /\ SInv idle h (<[t := c']> T) b m) (upd h T b r k).
Proof.
  intros HI Hc Hr Hp Hu He. pose proof (si_tasks _ _ _ _ _ HI _ _ Hc) as Hok.
  unfold OsSchedDelay, set_status. wp_step. eapply wp_upd_mod_tcb; [done|].
  eapply wp_upd_mod_tcb; [by rewrite lookup_insert_eq|]. rewrite insert_insert_eq. split; [done|].
  eapply SInv_tcb; [done..|]. task_solve Hok.
Qed.

Lemma yield_wp h T b r k m t c (idle := g_idleTaskID k) :
  SInv idle h T b m -> runTask k = Some t -> T !! t = Some c ->
  wp OsSchedYield (λ _ k', k' = upd h (<[t := set_timeSlice (λ _, 0) c]> T) b r k /\
    SInv idle h (<[t := set_timeSlice (λ _, 0) c]> T) b m) (upd h T b r k).
Proof.
  intros HI Hrun Hc. pose proof (si_tasks _ _ _ _ _ HI _ _ Hc) as Hok.
  unfold OsSchedYield. wp_step. apply (wp_running (upd h T b r k) t); [done|].
  eapply wp_upd_mod_tcb; [done|]. split; [done|]. eapply SInv_tcb; [done..|]. by destruct Hok.
Qed.

(** ** Suspension, priority, exit *)

(** A suspension freezes the wait of the task: power management is built in, a
    low-power mode is set, no lock holds the system awake, and the wait is timed. *)
Definition freezes (k : Kernel) (c : LosTaskCB) : bool :=
  LOSCFG_KERNEL_PM && (negb (pm_sysMode k =? 0) && (pm_lock k =? 0)) && has c (Z.lor OS_TASK_STATUS_PEND_TIME OS_TASK_STATUS_DELAY).

Lemma wp_pmMode k (Q : bool -> Kernel -> Prop) : Q (LOSCFG_KERNEL_PM && (negb (pm_sysMode k =? 0) && (pm_lock k =? 0))) k -> wp pmMode Q k.
Proof. intros HQ. unfold pmMode, OsIsPmMode. destruct LOSCFG_KERNEL_PM; by wp_steps. Qed.

Lemma suspend_wp h T b r k m t c (idle := g_idleTaskID k) :
  freezes k c = false -> SInv idle h T b m -> T !! t = Some c -> t <> idle ->
  wp (OsSchedSuspend t) (λ _ k', ∃ h' b' m',
    let c' := set_taskStatus (setf OS_TASK_STATUS_SUSPEND)
      (if has c OS_TASK_STATUS_READY then set_taskStatus (clrf OS_TASK_STATUS_READY) c else c) in
    k' = upd h' (<[t := c']> T) b' r k /\ SInv idle h' (<[t := c']> T) b' m' /\
    ∀ hd, hd <> PriQueue (priority c) -> m' !! hd = m !! hd) (upd h T b r k).
Proof.
  intros Hpm HI Hc Hti. unfold OsSchedSuspend.
  wp_step. eapply wp_upd_tcb; [done|]. fold (has c OS_TASK_STATUS_READY). wp_step.
  apply (wp_mono _ (λ _ k', ∃ h' b' m',
    let c' := if has c OS_TASK_STATUS_READY then set_taskStatus (clrf OS_TASK_STATUS_READY) c else c in
    k' = upd h' (<[t := c']> T) b' r k /\ SInv idle h' (<[t := c']> T) b' m' /\
    ∀ hd, hd <> PriQueue (priority c) -> m' !! hd = m !! hd)).
  { destruct (has c OS_TASK_STATUS_READY) eqn:Hr; cbn [when].
    - eapply wp_mono; [by eapply dequeue_wp|]. rewrite Hr. intros [] k' (h' & b' & m' & -> & HI' & Hm').
      exists h', b', m'. split_and!; [done..|]. intros hd Hhd. destruct (_ && _); [|by subst].
      destruct Hm' as (l & _ & _ & ->). by apply lookup_insert_ne.
    - apply wp_ret. exists h, b, m. rewrite insert_id; done. }
  intros [] k' (h' & b' & m' & -> & HI' & Hm').
  set (c1 := if has c OS_TASK_STATUS_READY then _ else c) in *.
  assert (Hc1 : <[t := c1]> T !! t = Some c1) by by rewrite lookup_insert_eq.
  pose proof (si_tasks _ _ _ _ _ HI' _ _ Hc1) as Hok.
  wp_steps. apply wp_pmMode. wp_steps. eapply wp_upd_tcb; [done|].
  assert (test (taskStatus c1) (Z.lor OS_TASK_STATUS_PEND_TIME OS_TASK_STATUS_DELAY) = has c (Z.lor OS_TASK_STATUS_PEND_TIME OS_TASK_STATUS_DELAY)) as ->.
  { subst c1. destruct (has c OS_TASK_STATUS_READY); [|done]. unfold has. cbn. by bits. }
  rewrite andb_comm. unfold freezes in Hpm. cbn. rewrite Hpm. cbn [when]. wp_steps.
  assert (Hr1 : has c1 OS_TASK_STATUS_READY = false).
  { subst c1. destruct (has c OS_TASK_STATUS_READY) eqn:E; [|done]. unfold has in *. cbn. by bits. }
  eapply wp_mono; [eapply (set_status_wp _ _ _ _ _ _ _ _ _ HI' Hc1)|].
  { clearbody c1. task_solve Hok. }
  intros [] k' (-> & HI2). rewrite insert_insert_eq in HI2 |- *. eauto 10.
Qed.

(** A task that no timed wait is recorded for is not in the sorted list. *)
Lemma unsorted_time idle h T b m t c :
  SInv idle h T b m -> T !! t = Some c -> has c OS_TASK_STATUS_UNUSED = false ->
  has c OS_TASK_STATUS_DELAY = false -> has c OS_TASK_STATUS_PEND_TIME = false ->
  responseTime c = OS_SORT_LINK_INVALID_TIME.
Proof.
  intros HI Hc Hu Hd Hp. pose proof (si_tasks _ _ _ _ _ HI _ _ Hc) as Hok.
  destruct (decide (responseTime c = OS_SORT_LINK_INVALID_TIME)) as [|Hne]; [done|exfalso].
  pose proof (ok_sorted _ _ _ _ Hok Hu Hne) as (_ & _ & Hx)%(ok_sort_home _ _ _ _ Hok).
  rewrite Hd, Hp in Hx. done.
Qed.

Lemma resume_wp h T b r k m t c (idle := g_idleTaskID k) :
  SInv idle h T b m -> T !! t = Some c -> has c OS_TASK_STATUS_READY = false ->
  has c OS_TASK_STATUS_UNUSED = false -> has c OS_TASK_STATUS_EXIT = false ->
  (has c OS_TASK_STATUS_PEND_TIME = true -> has c OS_TASK_STATUS_PEND = true) ->
  wp (OsSchedResume t) (λ need k', ∃ h' b' m',
    let c1 := set_taskStatus (clrf OS_TASK_STATUS_SUSPEND) c in
    let blocked := has c OS_TASK_STATUS_DELAY || has c OS_TASK_STATUS_PEND in
    let c' := if blocked then c1 else enq_tcb idle (g_schedTimeSlice k) (g_schedTimeSliceMin k) c1 in
    need = negb blocked /\
    k' = upd h' (<[t := c']> T) b' r k /\ SInv idle h' (<[t := c']> T) b' m' /\
    ∀ hd, hd <> PriQueue (priority c) -> m' !! hd = m !! hd) (upd h T b r k).
Proof.
  intros HI Hc Hr Hu He Hpt. pose proof (si_tasks _ _ _ _ _ HI _ _ Hc) as Hok.
  set (c1 := set_taskStatus (clrf OS_TASK_STATUS_SUSPEND) c).
  unfold OsSchedResume. wp_step. eapply wp_upd_tcb; [done|].
  fold (has c OS_TASK_FLAG_FREEZE). rewrite (ok_frozen _ _ _ _ Hok). cbn [when]. wp_steps.
  eapply wp_mono; [eapply (clear_status_wp _ _ _ _ _ _ _ _ _ HI Hc)|].
  { task_solve Hok. }
  intros [] k' (-> & HI1). fold c1 in HI1 |- *.
  assert (Hc1 : <[t := c1]> T !! t = Some c1) by by rewrite lookup_insert_eq.
  wp_step. eapply wp_upd_tcb; [done|].
  assert (Hs : has c1 OS_TASK_STATUS_READY = false /\ has c1 OS_TASK_STATUS_UNUSED = false /\
    has c1 OS_TASK_STATUS_EXIT = false /\ has c1 OS_TASK_STATUS_DELAY = has c OS_TASK_STATUS_DELAY /\
    has c1 OS_TASK_STATUS_PEND = has c OS_TASK_STATUS_PEND /\
    has c1 OS_TASK_STATUS_PEND_TIME = has c OS_TASK_STATUS_PEND_TIME).
  { subst c1. unfold has in *. cbn. bits. rewrite Hr, Hu, He. done. }
  destruct Hs as (H1 & H2 & H3 & H4 & H5 & H6).
  rewrite test_lor. fold (has c1 OS_TASK_STATUS_DELAY) (has c1 OS_TASK_STATUS_PEND). rewrite H4, H5.
  destruct (has c OS_TASK_STATUS_DELAY || has c OS_TASK_STATUS_PEND) eqn:Eb; cbn [negb].
  - apply wp_ret. eauto 10.
  - apply orb_false_iff in Eb as [Ed Ep].
    wp_step. eapply wp_mono; [eapply (enqueue_wp _ _ _ _ _ _ _ _ HI1 Hc1); try done; [congruence|]|].
    { eapply (unsorted_time _ _ _ _ _ _ _ HI1 Hc1); [done|congruence|].
      apply not_true_is_false. rewrite H6. intros E. apply Hpt in E. congruence. }
    intros [] k' (h3 & b3 & m3 & -> & HI3 & Hm3). wp_steps. rewrite insert_insert_eq in HI3 |- *.
    exists h3, b3, m3. split_and!; [done..|]. intros hd Hhd. fold idle in Hm3.
    destruct (decide (t = idle)); [by subst|]. destruct Hm3 as (l & Hl & ->). by apply lookup_insert_ne.
Qed.

Definition modify_tcb (idle slice sliceMin prio : Z) (c : LosTaskCB) : LosTaskCB :=
  if has c OS_TASK_STATUS_READY then
    enq_tcb idle slice sliceMin (set_priority (λ _, prio) (set_taskStatus (clrf OS_TASK_STATUS_READY) c))
  else set_priority (λ _, prio) c.

Lemma modify_wp h T b r k m t c prio (idle := g_idleTaskID k) :
  SInv idle h T b m -> T !! t = Some c -> 0 <= prio < 32 ->
  wp (OsSchedModifyTaskSchedParam t prio) (λ need k', ∃ h' b' m',
    let c' := modify_tcb idle (g_schedTimeSlice k) (g_schedTimeSliceMin k) prio c in
    need = has c OS_TASK_STATUS_READY || has c OS_TASK_STATUS_RUNNING /\
    k' = upd h' (<[t := c']> T) b' r k /\ SInv idle h' (<[t := c']> T) b' m' /\
    ∀ hd, hd <> PriQueue (priority c) -> hd <> PriQueue prio -> m' !! hd = m !! hd) (upd h T b r k).
Proof.
  intros HI Hc Hprio. pose proof (si_tasks _ _ _ _ _ HI _ _ Hc) as Hok.
  unfold OsSchedModifyTaskSchedParam, modify_tcb. wp_step. eapply wp_upd_tcb; [done|].
  fold (has c OS_TASK_STATUS_READY) (has c OS_TASK_STATUS_RUNNING).
  destruct (has c OS_TASK_STATUS_READY) eqn:Hr; cbn [orb].
  2: { wp_step. eapply wp_upd_mod_tcb; [done|]. wp_step. exists h, b, m. split_and!; [done..| |done].
       eapply SInv_tcb; [done..|]. task_solve Hok. }
  wp_step. eapply wp_mono; [by eapply (dequeue_wp _ _ _ _ _ _ _ _ HI Hc)|]. rewrite Hr.
  set (c1 := set_taskStatus (clrf OS_TASK_STATUS_READY) c). fold idle.
  intros [] k' (h1 & b1 & m1 & -> & HI1 & Hm1).
  assert (Hs : has c1 OS_TASK_STATUS_READY = false /\ has c1 OS_TASK_STATUS_PEND = false /\
    has c1 OS_TASK_STATUS_UNUSED = false /\ has c1 OS_TASK_STATUS_EXIT = false /\
    has c1 OS_TASK_STATUS_DELAY = false /\ has c1 OS_TASK_STATUS_PEND_TIME = false).
  { destruct (ok_ready _ _ _ _ Hok Hr) as (Rp & Rd & Rt & Rs & Ru & Re).
    subst c1. unfold has in *. cbn. bits. rewrite Rp, Rd, Rt, Ru, Re. done. }
  destruct Hs as (H1 & H2 & H3 & H4 & H5 & H6).
  assert (Hc1 : <[t := c1]> T !! t = Some c1) by by rewrite lookup_insert_eq.
  pose proof (si_tasks _ _ _ _ _ HI1 _ _ Hc1) as Hok1.
  wp_step. eapply wp_upd_mod_tcb; [done|]. rewrite insert_insert_eq.
  assert (HI2 : SInv idle h1 (<[t := set_priority (λ _, prio) c1]> T) b1 m1).
  { pose proof (SInv_tcb _ _ _ _ _ t c1 (set_priority (λ _, prio) c1) HI1 Hc1) as X.
    rewrite insert_insert_eq in X. apply X; [done|]. clearbody c1. task_solve Hok1. }
  wp_step. eapply wp_mono; [eapply (enqueue_wp _ _ _ _ _ _ _ (set_priority (λ _, prio) c1) HI2); try done|].
  { by rewrite lookup_insert_eq. }
  { cbn. by eapply (unsorted_time _ _ _ _ _ _ _ HI1 Hc1). }
  intros [] k' (h3 & b3 & m3 & -> & HI3 & Hm3). wp_steps. rewrite insert_insert_eq in HI3 |- *.
  exists h3, b3, m3. split_and!; [done..|]. intros hd Hd1 Hd2. fold idle in Hm3.
  transitivity (m1 !! hd).
  - destruct (decide (t = idle)); [by subst|]. destruct Hm3 as (l & Hl & ->). by apply lookup_insert_ne.
  - destruct (_ && _); [|by subst]. destruct Hm1 as (l & _ & _ & ->). by apply lookup_insert_ne.
Qed.

Definition exit_tcb (c : LosTaskCB) : LosTaskCB :=
  let c := if has c OS_TASK_STATUS_READY then set_taskStatus (clrf OS_TASK_STATUS_READY) c
           else if has c OS_TASK_STATUS_PEND then set_taskStatus (clrf OS_TASK_STATUS_PEND) c else c in
  let c := if has c (Z.lor OS_TASK_STATUS_DELAY OS_TASK_STATUS_PEND_TIME) then
             set_taskStatus (clrf (Z.lor OS_TASK_STATUS_DELAY OS_TASK_STATUS_PEND_TIME)) (unsort_tcb c)
           else c in
  set_taskStatus (setf OS_TASK_STATUS_EXIT) c.

(** First half of the exit: the task leaves its ready queue or wait list. *)
Lemma exit_unqueue_wp h T b r k m t c (idle := g_idleTaskID k) :
  SInv idle h T b m -> T !! t = Some c -> has c OS_TASK_STATUS_UNUSED = false ->
  has c OS_TASK_STATUS_EXIT = false ->
  wp (if test (taskStatus c) OS_TASK_STATUS_READY then OsSchedTaskDeQueue t
      else when (test (taskStatus c) OS_TASK_STATUS_PEND) (
        onlist (LOS_ListDelete (PendList t)) ;;; clear_status t OS_TASK_STATUS_PEND)) (λ _ k', ∃ h' b' m',
    let c' := if has c OS_TASK_STATUS_READY then set_taskStatus (clrf OS_TASK_STATUS_READY) c
              else if has c OS_TASK_STATUS_PEND then set_taskStatus (clrf OS_TASK_STATUS_PEND) c else c in
    k' = upd h' (<[t := c']> T) b' r k /\ SInv idle h' (<[t := c']> T) b' m' /\
    has c' OS_TASK_STATUS_READY = false /\ has c' OS_TASK_STATUS_PEND = false /\
    has c' OS_TASK_STATUS_UNUSED = false /\
    ∀ hd, ~ home m (PendList t) hd -> m' !! hd = m !! hd) (upd h T b r k).
Proof.
  intros HI Hc Hu He. pose proof (si_tasks _ _ _ _ _ HI _ _ Hc) as Hok.
  fold (has c OS_TASK_STATUS_READY) (has c OS_TASK_STATUS_PEND).
  destruct (has c OS_TASK_STATUS_READY) eqn:Hr; [|destruct (has c OS_TASK_STATUS_PEND) eqn:Hp; cbn [when]].
  - destruct (ok_ready _ _ _ _ Hok Hr) as (Rp & _).
    eapply wp_mono; [by eapply (dequeue_wp _ _ _ _ _ _ _ _ HI Hc)|]. rewrite Hr. fold idle.
    intros [] k' (h1 & b1 & m1 & -> & HI1 & Hm1). exists h1, b1, m1.
    split_and!; [done|done|..].
    1-3: unfold has in *; cbn; bits; done.
    intros hd Hhd. destruct (_ && _); [|by subst]. destruct Hm1 as (l & Hl & Hin & ->).
    apply lookup_insert_ne. intros <-. apply Hhd. by exists l.
  - destruct (ok_waiting _ _ _ _ Hok Hp) as (hd0 & Hw & l0 & Hl0 & Hin).
    set (c1 := set_taskStatus (clrf OS_TASK_STATUS_PEND) c).
    wp_step. eapply wp_mono.
    { eapply (unpend_wp _ _ _ _ _ _ _ c c1); [done..|]. intros m' Hh. subst c1. task_solve_with Hok Hh. }
    intros [] k' (h1 & -> & HI1). eapply wp_upd_mod_tcb; [done|]. fold c1.
    eexists h1, b, _. split_and!; [done|done|..].
    1-3: subst c1; unfold has in *; cbn; bits; rewrite ?Hr, ?Hu; done.
    intros hd Hhd. apply lookup_insert_ne. intros <-. apply Hhd. by exists l0.
  - apply wp_ret. exists h, b, m. rewrite insert_id by done. done.
Qed.

Lemma exit_wp h T b r k m t c (idle := g_idleTaskID k) :
  SInv idle h T b m -> T !! t = Some c -> has c OS_TASK_STATUS_UNUSED = false ->
  has c OS_TASK_STATUS_EXIT = false ->
  wp (OsSchedTaskExit t) (λ _ k', ∃ h' b' r' m',
    k' = upd h' (<[t := exit_tcb c]> T) b' r' k /\ SInv idle h' (<[t := exit_tcb c]> T) b' m' /\
    ∀ hd, ~ home m (PendList t) hd -> hd <> TaskSortLink -> m' !! hd = m !! hd) (upd h T b r k).
Proof.
  intros HI Hc Hu He. unfold OsSchedTaskExit, exit_tcb. wp_step. eapply wp_upd_tcb; [done|].
  wp_step. eapply wp_mono; [by eapply exit_unqueue_wp|].
  set (c1 := if has c OS_TASK_STATUS_READY then _ else _).
  intros [] k' (h1 & b1 & m1 & -> & HI1 & Hr & Hp & Hu1 & Hm1).
  assert (Hc1 : <[t := c1]> T !! t = Some c1) by by rewrite lookup_insert_eq.
  wp_step. eapply wp_upd_tcb; [done|]. fold (has c1 (Z.lor OS_TASK_STATUS_DELAY OS_TASK_STATUS_PEND_TIME)).
  set (c2 := if has c1 (Z.lor OS_TASK_STATUS_DELAY OS_TASK_STATUS_PEND_TIME) then _ else _).
  wp_step. apply (wp_mono _ (λ _ k', ∃ h' r' m', k' = upd h' (<[t := c2]> T) b1 r' k /\
    SInv idle h' (<[t := c2]> T) b1 m' /\ ∀ hd, hd <> TaskSortLink -> m' !! hd = m1 !! hd)).
  { subst c2. destruct (has c1 (Z.lor OS_TASK_STATUS_DELAY OS_TASK_STATUS_PEND_TIME)) eqn:Ed; cbn [when]; [|apply wp_ret; by exists h1, r, m1].
    wp_step. eapply wp_mono; [by eapply (delete_sort_wp _ _ _ _ _ _ _ _ HI1 Hc1)|].
    intros [] k' (h2 & r2 & m2 & -> & HI2 & Hm2). rewrite !insert_insert_eq in HI2 |- *.
    assert (Hc2 : <[t := unsort_tcb c1]> T !! t = Some (unsort_tcb c1)) by by rewrite lookup_insert_eq.
    pose proof (si_tasks _ _ _ _ _ HI2 t _ Hc2) as Hok2.
    eapply wp_mono; [eapply (clear_status_wp _ _ _ _ _ _ _ _ _ HI2 Hc2)|].
    + clearbody c1. task_solve Hok2.
    + intros [] k' (-> & HI3). rewrite !insert_insert_eq in HI3 |- *. by exists h2, r2, m2. }
  intros [] k' (h2 & r2 & m2 & -> & HI2 & Hm2).
  assert (Hc2 : <[t := c2]> T !! t = Some c2) by by rewrite lookup_insert_eq.
  pose proof (si_tasks _ _ _ _ _ HI2 t _ Hc2) as Hok2.
  assert (Hs : has c2 OS_TASK_STATUS_READY = false /\ has c2 OS_TASK_STATUS_PEND = false /\
    has c2 OS_TASK_STATUS_DELAY = false /\ has c2 OS_TASK_STATUS_PEND_TIME = false).
  { clear -Hr Hp. subst c2. clearbody c1. unfold has in *. rewrite test_lor.
    destruct (test _ OS_TASK_STATUS_DELAY) eqn:E1, (test _ OS_TASK_STATUS_PEND_TIME) eqn:E2; cbn; bits; done. }
  destruct Hs as (Hs1 & Hs2 & Hs3 & Hs4).
  eapply wp_mono; [eapply (set_status_wp _ _ _ _ _ _ _ _ _ HI2 Hc2)|].
  { clearbody c2. task_solve Hok2. }
  intros [] k' (-> & HI3). rewrite !insert_insert_eq in HI3 |- *.
  exists h2, b1, r2, m2. split_and!; [done..|]. intros hd H1 H2. rewrite Hm2, Hm1; done.
Qed.

End SchedInv.
