(* ===== verification/SchedTime.v ===== *)
(** Expiry of timed waits and selection of the next task: the scan of the sorted
    list wakes exactly the tasks whose time has come, and the task selected is
    one of highest priority among the ready tasks. *)

From S2P Require Import Prelude Errno LosList Kernel Tick SortLink Sched SchedInv.
#[local] Opaque LOS_ListAdd LOS_ListTailInsert LOS_ListDelete LOS_ListInit LOS_ListEmpty.

(** Only waiting tasks have a timed wait that is not a delay. *)
Definition timed_ok (T : gmap Z LosTaskCB) : Prop :=
  ∀ t c, T !! t = Some c -> has c OS_TASK_STATUS_PEND_TIME = true -> has c OS_TASK_STATUS_PEND = true.

Section SchedTime.
Context `{Platform}.

(** ** Expiry of one timed wait *)

(** A task whose wait has timed out, and the task whose time has come. *)
Definition timeout_tcb (idle slice sliceMin : Z) (c : LosTaskCB) : LosTaskCB :=
  let c1 := set_taskStatus (clrf (Z.lor (Z.lor OS_TASK_STATUS_PEND OS_TASK_STATUS_PEND_TIME)
                                   OS_TASK_STATUS_DELAY)) c in
  let c2 := if has c OS_TASK_STATUS_PEND then
              set_taskSem (λ _, None) (set_taskMux (λ _, None)
                (set_taskStatus (setf OS_TASK_STATUS_TIMEOUT) c1))
            else c1 in
  if has c OS_TASK_STATUS_SUSPEND then c2 else enq_tcb idle slice sliceMin c2.

(** The lists after some tasks have left wait lists for priority queues: wait
    lists lose members and gain none, other lists stay. *)
Definition wait_shrink (m m' : gmap Node (list Node)) : Prop :=
  (∀ hd l, wait_head hd = true -> m !! hd = Some l -> ∃ l', m' !! hd = Some l' /\ l' `sublist_of` l) /\
  (∀ hd, wait_head hd = false -> hd <> TaskSortLink -> (∀ p, hd <> PriQueue p) -> m' !! hd = m !! hd) /\
  ∀ n hd, wait_head hd = true -> home m' n hd -> home m n hd.

Lemma wait_shrink_refl m : wait_shrink m m.
Proof. split; [|done]. intros hd l _ Hl. by exists l. Qed.
Lemma wait_shrink_trans m1 m2 m3 : wait_shrink m1 m2 -> wait_shrink m2 m3 -> wait_shrink m1 m3.
Proof.
  intros (H1 & F1 & G1) (H2 & F2 & G2). split; [|by split; intros; [rewrite F2, F1|auto]].
  intros hd l Hw Hl. destruct (H1 hd l Hw Hl) as (l' & Hl' & Hs).
  destruct (H2 hd l' Hw Hl') as (l'' & ? & ?). exists l''. split; [done|]. by etrans.
Qed.
Lemma wait_shrink_frame m m' :
  (∀ hd, hd <> TaskSortLink -> (∀ p, hd <> PriQueue p) -> m' !! hd = m !! hd) -> wait_shrink m m'.
Proof.
  intros Hf. assert (Hf' : ∀ hd, wait_head hd = true -> m' !! hd = m !! hd) by (intros; apply Hf; intros; by intros ->).
  split; [|split; [auto|]]; [intros hd l Hw Hl; exists l; by rewrite Hf'|]. intros n hd Hw. unfold home. by rewrite Hf'.
Qed.
Lemma list_remove_all_sublist {A} `{EqDecision A} (x : A) l : list_remove_all x l `sublist_of` l.
Proof. apply sublist_filter. Qed.

(** First half of the expiry: the status changes and a waiting task leaves its
    list. *)
Lemma timeout_clear_wp h T b r k m t c (idle := g_idleTaskID k) :
  SInv idle h T b m -> T !! t = Some c -> responseTime c = OS_SORT_LINK_INVALID_TIME ->
  has c OS_TASK_STATUS_READY = false -> has c OS_TASK_STATUS_UNUSED = false ->
  has c OS_TASK_STATUS_EXIT = false ->
  wp (clear_status t (Z.lor (Z.lor OS_TASK_STATUS_PEND OS_TASK_STATUS_PEND_TIME) OS_TASK_STATUS_DELAY) ;;;
      when (test (taskStatus c) OS_TASK_STATUS_PEND) (
        set_status t OS_TASK_STATUS_TIMEOUT ;;;
        onlist (LOS_ListDelete (PendList t)) ;;;
        mod_tcb t (set_taskMux (λ _, None)) ;;;
        mod_tcb t (set_taskSem (λ _, None)))) (λ _ k', ∃ h' m',
    let c1 := set_taskStatus (clrf (Z.lor (Z.lor OS_TASK_STATUS_PEND OS_TASK_STATUS_PEND_TIME)
                                   OS_TASK_STATUS_DELAY)) c in
    let c2 := if has c OS_TASK_STATUS_PEND then
              set_taskSem (λ _, None) (set_taskMux (λ _, None)
                (set_taskStatus (setf OS_TASK_STATUS_TIMEOUT) c1))
            else c1 in
    k' = upd h' (<[t := c2]> T) b r k /\ SInv idle h' (<[t := c2]> T) b m' /\
    wait_shrink m m' /\ m' !! TaskSortLink = m !! TaskSortLink) (upd h T b r k).
Proof.
  intros HI Hc Hrt Hr Hu He. pose proof (si_tasks _ _ _ _ _ HI _ _ Hc) as Hok.
  unfold clear_status, set_status. wp_step. eapply wp_upd_mod_tcb; [done|].
  set (c1 := set_taskStatus _ c). fold (has c OS_TASK_STATUS_PEND).
  destruct (has c OS_TASK_STATUS_PEND) eqn:Hp; cbn [when].
  2: { apply wp_ret. exists h, m. split_and!; [done| |apply wait_shrink_refl|done].
       eapply SInv_tcb; [done..|]. subst c1. task_solve Hok. }
  destruct (ok_waiting _ _ _ _ Hok Hp) as (hd0 & Hw & l0 & Hl0 & Hin).
  wp_step. eapply wp_upd_mod_tcb; [by rewrite lookup_insert_eq|]. rewrite insert_insert_eq.
  wp_step. eapply wp_mono.
  { apply (unpend_gen_wp _ T _ _ _ _ m t c (set_taskSem (λ _, None) (set_taskMux (λ _, None)
      (set_taskStatus (setf OS_TASK_STATUS_TIMEOUT) c1))) hd0 l0); try done.
    intros m' Hh. subst c1. task_solve_with Hok Hh. }
  intros [] k' (h1 & -> & HI1). wp_step.
  eapply wp_upd_mod_tcb; [by rewrite lookup_insert_eq|].
  eapply wp_upd_mod_tcb; [by rewrite lookup_insert_eq|]. rewrite !insert_insert_eq.
  eexists h1, _. split_and!; [done..| |].
  - split_and!; [|intros hd Hw' _ _; apply lookup_insert_ne; congruence|].
    + intros hd l _ Hl. rewrite lookup_insert. case_decide as E; [subst hd; simplify_eq|by exists l].
      exists (list_remove_all (PendList t) l0). split; [done|apply list_remove_all_sublist].
    + intros n hd _ (l & Hl & Hn). rewrite lookup_insert in Hl. case_decide; simplify_eq; [|by exists l].
      exists l0. split; [done|]. by apply elem_of_list_remove_all in Hn as [? _].
  - apply lookup_insert_ne. by intros ->.
Qed.

Lemma timeout_wp h T b r k m t c need (idle := g_idleTaskID k) :
  SInv idle h T b m -> T !! t = Some c -> responseTime c = OS_SORT_LINK_INVALID_TIME ->
  has c OS_TASK_STATUS_UNUSED = false -> has c OS_TASK_STATUS_DELAY || has c OS_TASK_STATUS_PEND = true ->
  wp (OsSchedWakePendTimeTask t need) (λ need' k', ∃ h' b' m',
    let c' := timeout_tcb idle (g_schedTimeSlice k) (g_schedTimeSliceMin k) c in
    need' = need || negb (has c OS_TASK_STATUS_SUSPEND) /\
    k' = upd h' (<[t := c']> T) b' r k /\ SInv idle h' (<[t := c']> T) b' m' /\
    wait_shrink m m' /\ m' !! TaskSortLink = m !! TaskSortLink) (upd h T b r k).
Proof.
  intros HI Hc Hrt Hu Hdp. pose proof (si_tasks _ _ _ _ _ HI _ _ Hc) as Hok.
  assert (He : has c OS_TASK_STATUS_EXIT = false).
  { apply not_true_is_false. intros E. destruct (ok_unused _ _ _ _ Hok) as (E1 & E2 & _);
      [by rewrite E, orb_true_r|]. by rewrite E1, E2 in Hdp. }
  assert (Hr : has c OS_TASK_STATUS_READY = false).
  { apply not_true_is_false. intros E. destruct (ok_ready _ _ _ _ Hok E) as (E1 & E2 & _).
    by rewrite E1, E2 in Hdp. }
  unfold OsSchedWakePendTimeTask, timeout_tcb. wp_step. eapply wp_upd_tcb; [done|].
  rewrite test_lor. fold (has c OS_TASK_STATUS_PEND) (has c OS_TASK_STATUS_DELAY) (has c OS_TASK_STATUS_SUSPEND).
  rewrite orb_comm, Hdp.
  pose proof (timeout_clear_wp h T b r k m t c HI Hc Hrt Hr Hu He) as Hcl.
  apply wp_bind_inv in Hcl. wp_step. eapply wp_mono; [exact Hcl|]. cbn beta. clear Hcl.
  intros [] k1 Hk1. wp_step. eapply wp_mono; [exact Hk1|]. clear Hk1.
  set (c1 := set_taskStatus _ c). set (c2 := if has c OS_TASK_STATUS_PEND then _ else c1).
  intros [] k' (h1 & m1 & -> & HI1 & Hs1 & Hl1). clear k1. fold c1 in HI1 |- *. fold c2 in HI1 |- *.
  assert (Hc2 : <[t := c2]> T !! t = Some c2) by by rewrite lookup_insert_eq.
  destruct (has c OS_TASK_STATUS_SUSPEND) eqn:Es; cbn [negb].
  - apply wp_ret. exists h1, b, m1. by rewrite orb_false_r.
  - assert (Hst : has c2 OS_TASK_STATUS_READY = false /\ has c2 OS_TASK_STATUS_PEND = false /\
      has c2 OS_TASK_STATUS_UNUSED = false /\ has c2 OS_TASK_STATUS_EXIT = false /\
      responseTime c2 = OS_SORT_LINK_INVALID_TIME).
    { clear -Hr Hu He Hrt. subst c2 c1. unfold has in *. destruct (test _ OS_TASK_STATUS_PEND); cbn;
        bits; rewrite ?Hr, ?Hu, ?He; done. }
    destruct Hst as (? & ? & ? & ? & ?). clearbody c2.
    wp_step. eapply wp_mono; [by eapply (enqueue_wp _ _ _ _ _ _ _ _ HI1 Hc2)|].
    intros [] k' (h2 & b2 & m2 & -> & HI2 & Hm2). fold idle in HI2, Hm2 |- *. wp_steps.
    rewrite insert_insert_eq in HI2 |- *. exists h2, b2, m2. rewrite orb_true_r. split_and!; try done.
    + eapply wait_shrink_trans; [done|]. apply wait_shrink_frame. intros hd _ Hq.
      destruct (decide (t = idle)); [by subst m2|]. destruct Hm2 as (l & _ & ->).
      apply lookup_insert_ne. congruence.
    + rewrite <-Hl1. destruct (decide (t = idle)); [by subst m2|]. destruct Hm2 as (l & _ & ->).
      by apply lookup_insert_ne.
Qed.

(** ** The scan of the sorted list *)

(** The members of the sorted list are nodes of tasks in a timed wait. *)
Lemma sort_member idle h T b m n :
  SInv idle h T b m -> home m n TaskSortLink ->
  ∃ t c, n = SortNode t /\ T !! t = Some c /\ has c OS_TASK_STATUS_UNUSED = false /\
    has c OS_TASK_STATUS_DELAY || has c OS_TASK_STATUS_PEND_TIME = true.
Proof.
  intros HI Hn. pose proof (si_members _ _ _ _ _ HI _ _ Hn) as Hm. destruct n; try done; cbn in Hm.
  - destruct Hm as [c Hc]. exfalso. pose proof (si_tasks _ _ _ _ _ HI _ _ Hc) as Hok.
    by destruct (ok_home _ _ _ _ Hok _ Hn) as [(? & _)|[[? _]|[[?|?] _]]].
  - destruct Hm as [c Hc]. pose proof (si_tasks _ _ _ _ _ HI _ _ Hc) as Hok.
    destruct (ok_sort_home _ _ _ _ Hok _ Hn) as (_ & _ & Hd). exists t, c. split_and!; try done.
    apply not_true_is_false. intros Hu. destruct (ok_unused _ _ _ _ Hok) as (_ & E1 & E2);
      [by rewrite Hu|]. by rewrite E1, E2 in Hd.
Qed.

Section scan.
Context (idle slice sliceMin now : Z).
(** What the scan does to one task, to the tasks of a sorted list, and
    whether it asks for a task switch. *)
Definition expired_tcb (c : LosTaskCB) : LosTaskCB := timeout_tcb idle slice sliceMin (unsort_tcb c).
Fixpoint scan_tasks (ls : list Node) (T : gmap Z LosTaskCB) : gmap Z LosTaskCB :=
  match ls with
  | SortNode t :: ls' =>
      match T !! t with
      | Some c => if responseTime c <=? now then scan_tasks ls' (<[t := expired_tcb c]> T) else T
      | None => T
      end
  | _ => T
  end.
Fixpoint scan_need (ls : list Node) (T : gmap Z LosTaskCB) : bool :=
  match ls with
  | SortNode t :: ls' =>
      match T !! t with
      | Some c => (responseTime c <=? now) && (negb (has c OS_TASK_STATUS_SUSPEND) || scan_need ls' T)
      | None => false
      end
  | _ => false
  end.
Fixpoint scan_rest (ls : list Node) (T : gmap Z LosTaskCB) : list Node :=
  match ls with
  | SortNode t :: ls' =>
      match T !! t with
      | Some c => if responseTime c <=? now then scan_rest ls' T else ls
      | None => ls
      end
  | _ => ls
  end.

Lemma scan_frame ls T t c :
  SortNode t ∉ ls -> scan_need ls (<[t := c]> T) = scan_need ls T /\ scan_rest ls (<[t := c]> T) = scan_rest ls T.
Proof.
  induction ls as [|n ls IH]; intros Hn; [done|]. apply not_elem_of_cons in Hn as [Hne Hn].
  destruct n; try done. cbn. rewrite lookup_insert_ne by congruence. destruct (T !! t0); [|done].
  destruct (IH Hn) as [-> ->]. done.
Qed.

(** The scan, task by task. *)
Lemma scan_tasks_lookup ls T t c :
  NoDup ls -> StronglySorted (λ x y, task_key T x <= task_key T y) ls ->
  Forall (λ n, ∃ t c, n = SortNode t /\ T !! t = Some c) ls -> T !! t = Some c ->
  scan_tasks ls T !! t =
    Some (if bool_decide (SortNode t ∈ ls) && (responseTime c <=? now) then expired_tcb c else c).
Proof.
  revert T c. induction ls as [|n ls IH]; intros T c Hnd Hs Hall Hc.
  { cbn. by rewrite bool_decide_false by apply not_elem_of_nil. }
  apply NoDup_cons in Hnd as [Hn Hnd]. apply StronglySorted_cons in Hs as [Hle Hs].
  apply Forall_cons in Hall as [(t0 & c0 & -> & Hc0) Hall]. cbn [scan_tasks]. rewrite Hc0.
  destruct (Z.leb_spec (responseTime c0) now) as [Hexp|Hnot].
  - assert (Hall' : Forall (λ n, ∃ t c, n = SortNode t /\ <[t0 := expired_tcb c0]> T !! t = Some c) ls).
    { rewrite Forall_forall in Hall |- *. intros n Hin. destruct (Hall n Hin) as (t1 & c1 & -> & Hc1).
      exists t1, c1. rewrite lookup_insert_ne by congruence. done. }
    assert (Hs' := sorted_frame T t0 (expired_tcb c0) ls Hn Hs).
    destruct (decide (t = t0)) as [->|Hne].
    + assert (c0 = c) as -> by congruence. rewrite (IH _ (expired_tcb c) Hnd Hs' Hall') by by rewrite lookup_insert_eq.
      rewrite (bool_decide_false (SortNode t0 ∈ ls)) by done.
      rewrite (bool_decide_true (SortNode t0 ∈ _)) by left. cbn. by destruct (Z.leb_spec (responseTime c) now); [|lia].
    + rewrite (IH _ c Hnd Hs' Hall') by by rewrite lookup_insert_ne.
      rewrite (bool_decide_ext (SortNode t ∈ SortNode t0 :: ls) (SortNode t ∈ ls)); [done|].
      rewrite elem_of_cons. naive_solver.
  - destruct (bool_decide_reflect (SortNode t ∈ SortNode t0 :: ls)) as [Hin|]; [|done]. cbn.
    destruct (Z.leb_spec (responseTime c) now); [|done]. exfalso.
    apply elem_of_cons in Hin as [?|Hin]; [assert (c0 = c) by congruence; subst; lia|].
    rewrite Forall_forall in Hle. apply Hle in Hin. cbn in Hin. rewrite Hc0, Hc in Hin. cbn in Hin. lia.
Qed.
Lemma scan_tasks_none ls T t : T !! t = None -> scan_tasks ls T !! t = None.
Proof.
  revert T. induction ls as [|n ls IH]; intros T Ht; [done|]. destruct n; try done. cbn.
  destruct (T !! t0) as [c|] eqn:E; [|done]. destruct (_ <=? _); [|done]. apply IH.
  rewrite lookup_insert_ne; [done|congruence].
Qed.
End scan.

Lemma expired_timed T t c (idle slice sliceMin : Z) :
  timed_ok T -> timed_ok (<[t := expired_tcb idle slice sliceMin c]> T).
Proof.
  intros Ht t' c'. rewrite lookup_insert. case_decide; [|apply Ht]. intros [= <-] E. exfalso.
  revert E. unfold expired_tcb, timeout_tcb, enq_tcb, has. cbn.
  destruct (test _ OS_TASK_STATUS_PEND), (test _ OS_TASK_STATUS_SUSPEND); cbn; bits; try done.
  all: destruct (_ || _); cbn; bits; done.
Qed.

Lemma scan_loop_wp r (k : Kernel) now ls n fuel need h T b m
    (idle := g_idleTaskID k) (sl := g_schedTimeSlice k) (sm := g_schedTimeSliceMin k) :
  SInv idle h T b m -> timed_ok T -> m !! TaskSortLink = Some (n :: ls) -> (length ls < fuel)%nat ->
  wp (OsSchedScanTimerList_loop fuel n now need) (λ need' k', ∃ h' b' m',
    let T' := scan_tasks idle sl sm now (n :: ls) T in
    need' = need || scan_need now (n :: ls) T /\
    k' = upd h' T' b' r k /\ SInv idle h' T' b' m' /\ timed_ok T' /\
    m' !! TaskSortLink = Some (scan_rest now (n :: ls) T) /\ wait_shrink m m') (upd h T b r k).
Proof.
  revert n fuel need h T b m. induction ls as [|n' ls IH]; intros n [|fuel] need h T b m HI Ht Hl Hf;
    try (cbn in Hf; lia).
  all: destruct (sort_member _ _ _ _ _ n HI) as (t & c & -> & Hc & Hu & Hdp); [eexists; split; [done|left]|].
  all: cbn [OsSchedScanTimerList_loop scan_tasks scan_need scan_rest GET_SORTLIST_VALUE]; rewrite Hc.
  all: wp_steps; eapply wp_upd_tcb; [done|]; wp_steps.
  all: destruct (responseTime c <=? now) eqn:Hexp; cbn [andb];
    [|apply wp_ret; exists h, b, m; rewrite orb_false_r; split_and!; [done..|apply wait_shrink_refl]].
  all: wp_step; eapply wp_mono; [by eapply (delete_node_sort_wp _ _ _ _ _ _ _ _ _ HI Hc Hl); left|].
  all: intros [] k' (h1 & -> & HI1); fold idle in HI1.
  all: pose proof (rings_nodup _ (rep_rings _ _ (si_rep _ _ _ _ _ HI)) _ _ Hl) as Hnd.
  all: rewrite list_remove_all_head in HI1 by (by apply NoDup_cons in Hnd as [_ ?]).
  all: assert (Hdp' : has (unsort_tcb c) OS_TASK_STATUS_DELAY || has (unsort_tcb c) OS_TASK_STATUS_PEND = true)
    by (apply orb_true_iff in Hdp as [Hd|Hd]; [change (has c OS_TASK_STATUS_DELAY || has c OS_TASK_STATUS_PEND = true);
        by rewrite Hd|change (has c OS_TASK_STATUS_DELAY || has c OS_TASK_STATUS_PEND = true);
        rewrite (Ht _ _ Hc Hd); apply orb_true_r]).
  all: wp_step; eapply wp_mono; [eapply (timeout_wp _ _ _ _ _ _ t (unsort_tcb c) need HI1); try done; by rewrite lookup_insert_eq|].
  all: intros need1 k' (h2 & b2 & m2 & -> & -> & HI2 & Hs2 & Hl2); fold idle sl sm in HI2 |- *.
  all: change (has (unsort_tcb c) OS_TASK_STATUS_SUSPEND) with (has c OS_TASK_STATUS_SUSPEND).
  all: rewrite insert_insert_eq in HI2 |- *; fold (expired_tcb idle sl sm c) in HI2 |- *.
  all: rewrite lookup_insert_eq in Hl2; wp_step; eapply wp_upd_empty; [apply HI2|done|]; cbn.
  all: assert (Hsh : wait_shrink m m2) by (eapply wait_shrink_trans; [|exact Hs2]; apply wait_shrink_frame;
    intros hd Hw _; by apply lookup_insert_ne).
  - apply wp_ret. exists h2, b2, m2. rewrite orb_false_r. split_and!; [done..| |done|done].
    by apply expired_timed.
  - wp_step. eapply wp_nextNode; [by eapply Rep_first; [apply HI2|]|]. cbn [List.hd].
    assert (Hn : SortNode t ∉ n' :: ls) by (by apply NoDup_cons in Hnd as [_ [? _]%NoDup_cons]).
    eapply wp_mono; [eapply IH; [done|by apply expired_timed|done|cbn in Hf; lia]|].
    intros need2 k' (h3 & b3 & m3 & -> & -> & HI3 & Ht3 & Hl3 & Hs3).
    destruct (scan_frame now (n' :: ls) T t (expired_tcb idle sl sm c) Hn) as [E1 E2]. rewrite E1, E2 in *.
    exists h3, b3, m3. split_and!; [by rewrite orb_assoc|done..|by eapply wait_shrink_trans].
Qed.

(** ** Selection of the next task *)

(** The highest set bit names the first non-empty priority queue. *)
Lemma bitmap_first b m :
  bitmap_ok b m -> b <> 0 ->
  ∃ n l, 0 <= CLZ b < 32 /\ m !! PriQueue (CLZ b) = Some (n :: l) /\
    ∀ q, 0 <= q < CLZ b -> m !! PriQueue q = Some [].
Proof.
  intros [Hb Hq] Hne. unfold CLZ.
  assert (Hlog : 0 <= Z.log2 b < 32).
  { split; [apply Z.log2_nonneg|]. apply Z.log2_lt_pow2; lia. }
  destruct (Hq (31 - Z.log2 b)) as (l & Hl & Hbit); [lia|].
  replace (31 - (31 - Z.log2 b)) with (Z.log2 b) in Hbit by lia.
  rewrite Z.bit_log2 in Hbit by lia. destruct l as [|n l]; [done|].
  exists n, l. split_and!; [lia..|done|]. intros q Hq'.
  destruct (Hq q) as (l' & Hl' & Hbit'); [lia|]. rewrite Z.bits_above_log2 in Hbit' by lia.
  by destruct l'.
Qed.

Lemma bitmap_none m : bitmap_ok 0 m -> ∀ p, 0 <= p < 32 -> m !! PriQueue p = Some [].
Proof.
  intros [_ Hq] p Hp. destruct (Hq p Hp) as (l & Hl & Hbit). rewrite Z.bits_0 in Hbit. by destruct l.
Qed.

(** Whether task [t] is the one to run: the idle task if no other is ready, or
    the first of the ready tasks of highest priority. *)
Definition top_task (idle : Z) (T : gmap Z LosTaskCB) (m : gmap Node (list Node)) (t : Z) : Prop :=
  (t = idle /\ ∀ t' c', T !! t' = Some c' -> has c' OS_TASK_STATUS_READY = true -> t' = idle) \/
  (t <> idle /\ ∃ c l, T !! t = Some c /\ has c OS_TASK_STATUS_READY = true /\
     m !! PriQueue (priority c) = Some (PendList t :: l) /\
     ∀ t' c', T !! t' = Some c' -> has c' OS_TASK_STATUS_READY = true -> t' <> idle -> priority c <= priority c').

Lemma ready_in_queue idle h T b m t c :
  SInv idle h T b m -> T !! t = Some c -> has c OS_TASK_STATUS_READY = true -> t <> idle ->
  0 <= priority c < 32 /\ ∃ l, m !! PriQueue (priority c) = Some l /\ PendList t ∈ l.
Proof.
  intros HI Hc Hr Hti. pose proof (si_tasks _ _ _ _ _ HI _ _ Hc) as Hok.
  split; [|by apply (ok_queued _ _ _ _ Hok)].
  destruct (ok_ready _ _ _ _ Hok Hr) as (_ & _ & _ & _ & Hu & _). by apply Hok.
Qed.

Lemma queue_member idle h T b m p n :
  SInv idle h T b m -> home m n (PriQueue p) ->
  ∃ t c, n = PendList t /\ T !! t = Some c /\ has c OS_TASK_STATUS_READY = true /\ priority c = p /\ t <> idle.
Proof.
  intros HI Hn. pose proof (si_members _ _ _ _ _ HI _ _ Hn) as Hm. destruct n; try done; cbn in Hm.
  - destruct Hm as [c Hc]. exists t, c. pose proof (si_tasks _ _ _ _ _ HI _ _ Hc) as Hok.
    destruct (ok_home _ _ _ _ Hok _ Hn) as [(E & ? & ?)|[[? _]|[[?|?] _]]]; [|done..].
    split_and!; try done. congruence.
  - destruct Hm as [c Hc]. pose proof (si_tasks _ _ _ _ _ HI _ _ Hc) as Hok.
    by destruct (ok_sort_home _ _ _ _ Hok _ Hn) as [? _].
Qed.

Lemma top_task_wp h T b r k m (idle := g_idleTaskID k) :
  SInv idle h T b m ->
  wp OsGetTopTask (λ t k', k' = upd h T b r k /\ top_task idle T m t) (upd h T b r k).
Proof.
  intros HI. unfold OsGetTopTask. wp_steps. cbn. destruct (Z.eqb_spec b 0) as [->|Hb]; cbn [negb].
  - wp_step. split; [done|]. left. split; [done|]. intros t' c' Hc' Hr.
    destruct (decide (t' = idle)) as [|Hti]; [done|exfalso].
    destruct (ready_in_queue _ _ _ _ _ _ _ HI Hc' Hr Hti) as (Hp & l & Hl & Hin).
    rewrite (bitmap_none _ (si_bitmap _ _ _ _ _ HI)) in Hl by done. simplify_eq. by apply elem_of_nil in Hin.
  - destruct (bitmap_first _ _ (si_bitmap _ _ _ _ _ HI) Hb) as (n & l & Hp & Hl & Hq).
    wp_step. apply wp_priQueue; [done|]. wp_step.
    eapply wp_nextNode; [by eapply Rep_first; [apply HI|]|]. cbn [List.hd].
    destruct (queue_member _ _ _ _ _ (CLZ b) n HI) as (t & c & -> & Hc & Hr & Hpr & Hti);
      [eexists; split; [done|left]|].
    eapply wp_of_option; [done|]. split; [done|]. right. split; [done|]. exists c, l. rewrite Hpr.
    split_and!; try done. intros t' c' Hc' Hr' Hti'.
    destruct (ready_in_queue _ _ _ _ _ _ _ HI Hc' Hr' Hti') as (Hp' & l' & Hl' & Hin).
    destruct (decide (CLZ b <= priority c')); [done|]. rewrite Hq in Hl' by lia. simplify_eq.
    by apply elem_of_nil in Hin.
Qed.

End SchedTime.
