(* ===== verification/SchedSwitch.v ===== *)
(** The clock and the task switch: under the laws of the tick timer driver the
    clock never runs backwards, and a task switch hands the processor to a ready
    task of highest priority while the task that ran goes where its status says. *)

From S2P Require Import Prelude Errno LosList Kernel Tick SortLink Sched SchedInv SchedTime.
#[local] Opaque LOS_ListAdd LOS_ListTailInsert LOS_ListDelete LOS_ListInit LOS_ListEmpty.

(** ** What the tick timer driver promises

    [timer_ok tm base old]: the driver is in state [tm], its current period began
    at time [base] of the kernel's clock and the clock was last read as [old].  A
    reading counts from the start of the period; a reading below the last one
    means that one period has ended since.  Reloading starts a period at the
    time just read.  When the tick interrupt is taken the period has ended, so
    the next one began a period later.  The clock stays below 2^63 cycles. *)
Class TimerLaws `{Platform} := {
  timer_ok : Timer -> Z -> Z -> Prop;
  timer_ok_range tm base old : timer_ok tm base old -> 0 <= base < 2 ^ 63 /\ 0 <= old < 2 ^ 63;
  law_getCycle tm base old time period tm' :
    timer_ok tm base old -> timer_getCycle tm = (time, period, tm') ->
    0 <= time /\ 0 <= period /\ base + time < 2 ^ 63 /\
    (old <= base + time -> timer_ok tm' base (base + time)) /\
    (base + time < old -> base + period + time < 2 ^ 63 /\ old <= base + period + time /\
       timer_ok tm' (base + period) (base + period + time));
  law_reload p tm base old r tm' :
    timer_ok tm base old -> timer_reload p tm = (r, tm') -> timer_ok tm' old old;
  law_irq tm base old tm' time period tm2 :
    timer_ok tm base old -> timer_irq tm = Some tm' ->
    timer_ok tm' base old /\
    (timer_getCycle tm' = (time, period, tm2) ->
       0 <= period /\ base + period < 2 ^ 63 /\ timer_ok tm2 (base + period) old);
}.

Section SchedSwitch.
Context `{TimerLaws}.

Definition clock_ok (k : Kernel) : Prop :=
  timer_ok (g_sysTickTimer k) (g_tickTimerBase k) (g_oldTickTimerBase k).

(** The part of the state a clock reading changes. *)
Definition clk (tm : Timer) (base old : Z) (u : bool) (k : Kernel) : Kernel :=
  set_g_oldTickTimerBase (λ _, old) (set_g_tickTimerBaseUpdate (λ _, u)
    (set_g_tickTimerBase (λ _, base) (set_g_sysTickTimer (λ _, tm) k))).

Lemma clock_range k : clock_ok k -> 0 <= g_tickTimerBase k < 2 ^ 63 /\ 0 <= g_oldTickTimerBase k < 2 ^ 63.
Proof. apply timer_ok_range. Qed.

(** A reading of the clock is not before the last one. *)
Lemma cycle_wp k :
  clock_ok k ->
  wp LOS_SysCycleGet (λ t k', ∃ tm base u, k' = clk tm base t u k /\ clock_ok k' /\
    g_oldTickTimerBase k <= t < 2 ^ 63) k.
Proof.
  intros Hk. destruct (clock_range k Hk) as [Hb Ho]. unfold LOS_SysCycleGet, getCycle. wp_step. wp_step. wp_step.
  destruct (timer_getCycle (g_sysTickTimer k)) as [[time period] tm] eqn:Eg.
  destruct (law_getCycle _ _ _ _ _ _ Hk Eg) as (Ht & Hp & Hbt & Hge & Hlt).
  wp_steps. cbn. rewrite (u64_id (g_tickTimerBase k + time)) by lia.
  destruct (Z.ltb_spec (g_tickTimerBase k + time) (g_oldTickTimerBase k)) as [E|E].
  - destruct (Hlt E) as (H1 & H2 & H3). wp_steps. cbn.
    rewrite (u64_id (g_tickTimerBase k + period)), u64_id by lia.
    apply wp_assert; [lia|]. wp_steps. cbn. destruct (timer_ok_range _ _ _ H3).
    exists tm, (g_tickTimerBase k + period), true.
    split_and!; [unfold clk, set_g_tickTimerBase; cbn; by rewrite u64_id by lia| |lia..].
    unfold clock_ok. cbn. by rewrite u64_id by lia.
  - wp_steps. cbn. apply wp_assert; [lia|]. wp_steps. cbn.
    exists tm, (g_tickTimerBase k), (g_tickTimerBaseUpdate k).
    split_and!; [by destruct k|by apply Hge|lia..].
Qed.

(** ** Insertion into the sorted list *)

Lemma sorted_ext (f g : Node -> Z) l :
  Forall (λ n, f n = g n) l -> StronglySorted (λ x y, f x <= f y) l -> StronglySorted (λ x y, g x <= g y) l.
Proof.
  intros Hf. induction 1 as [|x l Hs IH Hx]; [constructor|]. apply Forall_cons in Hf as [Hfx Hf].
  constructor; [auto|]. rewrite Forall_forall in Hx, Hf |- *. intros y Hy. rewrite <-Hfx, <-Hf by done. auto.
Qed.

Lemma task_members_timed idle h T b m ls h' b' r (k : Kernel) t c c' :
  SInv idle h T b m -> m !! TaskSortLink = Some ls -> T !! t = Some c ->
  Forall (λ n, timed (upd h' (<[t := c']> T) b' r k) n /\
    task_key (<[t := c']> T) n = key (upd h' (<[t := c']> T) b' r k) n) ls.
Proof.
  intros HI Hls Hc. apply Forall_forall. intros n Hn.
  destruct (sort_member _ _ _ _ _ n HI) as (t' & c0 & -> & Hc0 & _); [by exists ls|].
  unfold timed, key. cbn. destruct (decide (t = t')) as [->|].
  - rewrite lookup_insert_eq. cbn. eauto.
  - rewrite lookup_insert_ne, Hc0 by done. cbn. eauto.
Qed.

Lemma add_sort_wp h T b r k m t c start ticks (idle := g_idleTaskID k)
    (v := u64 (start + OS_SYS_TICK_TO_CYCLE (g_sysClock k) ticks)) :
  SInv idle h T b m -> T !! t = Some c -> responseTime c = OS_SORT_LINK_INVALID_TIME ->
  has c OS_TASK_STATUS_DELAY || has c OS_TASK_STATUS_PEND_TIME = true -> v <> OS_SORT_LINK_INVALID_TIME ->
  wp (OsAdd2SortLink (SortNode t) start ticks OS_SORT_LINK_TASK) (λ _ k', ∃ h' ls ls',
    let c' := set_responseTime (λ _, v) c in
    k' = upd h' (<[t := c']> T) b r k /\ m !! TaskSortLink = Some ls /\ ls' ≡ₚ SortNode t :: ls /\
    SInv idle h' (<[t := c']> T) b (<[TaskSortLink := ls']> m)) (upd h T b r k).
Proof.
  intros HI Hc Hrt Hdp Hv. pose proof (si_tasks _ _ _ _ _ HI _ _ Hc) as Hok.
  pose proof (sort_node_free _ _ _ _ _ _ _ HI Hc Hrt) as Hno.
  destruct (si_sorted _ _ _ _ _ HI) as (ls & Hls & Hs).
  unfold OsAdd2SortLink. change (OS_SORT_LINK_TASK =? OS_SORT_LINK_TASK) with true. cbn iota. wp_steps.
  cbn [SET_SORTLIST_VALUE g_sysClock upd]. fold v. eapply wp_upd_mod_tcb; [done|].
  set (c' := set_responseTime _ c). set (k1 := upd h (<[t := c']> T) b r k).
  assert (Hn : SortNode t ∉ ls) by (intros Hx; apply Hno, home_owned with TaskSortLink; by exists ls).
  assert (Hall := task_members_timed _ _ _ _ _ ls h b r k t c c' HI Hls Hc). fold k1 in Hall.
  eapply wp_mono.
  { apply (OsAddNode2SortLink_wp k1 m TaskSortLink ls); [apply HI|done|done| | |].
    - unfold timed. cbn. rewrite lookup_insert_eq. eauto.
    - eapply Forall_impl; [exact Hall|]. by intros n [? _].
    - eapply sorted_ext; [eapply Forall_impl; [exact Hall|]; by intros n [_ ?]|]. by apply sorted_frame. }
  intros [] k' (h' & -> & HR). exists h', ls, (sortlink_insert (key k1) (SortNode t) ls).
  assert (Hp := sortlink_insert_perm (key k1) (SortNode t) ls). split_and!; [done..|].
  assert (Hh : ∀ n hd, home (<[TaskSortLink := sortlink_insert (key k1) (SortNode t) ls]> m) n hd <->
    home m n hd \/ n = SortNode t /\ hd = TaskSortLink) by (intros; by apply home_add with ls).
  eapply SInv_local; try done.
  - by apply bitmap_frame; [apply HI|].
  - intros n hd ? ?. rewrite Hh. naive_solver.
  - apply insert_heads. by eexists.
  - eexists. rewrite lookup_insert_eq. split; [done|]. eapply (sorted_ext (key k1)).
    + rewrite Hp. constructor; [unfold key; cbn; by rewrite lookup_insert_eq|].
      eapply Forall_impl; [exact Hall|]. by intros n [_ ?].
    + apply sortlink_insert_sorted. eapply sorted_ext; [eapply Forall_impl; [exact Hall|]; by intros n [_ ?]|].
      by apply sorted_frame.
  - assert (Hx : ∀ hd, home (<[TaskSortLink := sortlink_insert (key k1) (SortNode t) ls]> m) (PendList t) hd <->
      home m (PendList t) hd) by (intros; rewrite Hh; naive_solver).
    destruct Hok as [Oid Ord Oun Ode Ofz Opr Oho Oqu Owa Osh Oso]. split; cbn; try done.
    + intros hd X%Hx. auto.
    + intros. apply Hx. auto.
    + intros X. destruct (Owa X) as (hd & ? & ?). exists hd. by rewrite Hx.
    + intros hd [X|[_ ->]]%Hh; [exfalso; by apply Hno, home_owned with hd|]. done.
    + intros. apply Hh. by right.
Qed.

(** ** The next tick *)

(** The running timers have control blocks. *)
Definition timers_ok (k : Kernel) (m : gmap Node (list Node)) : Prop :=
  ∃ lw, m !! SwtmrSortLink = Some lw /\ Forall (λ n, ∃ i w, n = SwtmrNode i /\ g_swtmrCBArray k !! i = Some w) lw.

(** The time the next tick is needed for one list. *)
Definition next_expire (k : Kernel) (l : list Node) (now prec : Z) : Z :=
  match l with
  | [] => u64 (OS_SORT_LINK_UINT64_MAX - prec)
  | n :: _ => Z.max (key k n) (u64 (now + prec))
  end.

Lemma GetSortLinkNextExpireTime_wp k m head l now prec :
  Rep (dlists k) m -> m !! head = Some l -> Forall (timed k) l ->
  wp (GetSortLinkNextExpireTime head now prec) (λ v k', k' = k /\ v = next_expire k l now prec) k.
Proof.
  intros HR Hl Ht. unfold GetSortLinkNextExpireTime. wp_step. eapply wp_ListEmpty; [done..|].
  destruct l as [|n l]; cbn; [done|]. wp_step. eapply wp_nextNode; [by eapply Rep_first|]. cbn [List.hd].
  wp_step. apply wp_GET_SORTLIST_VALUE; [by apply Forall_cons in Ht as [? _]|]. wp_steps. split; [done|].
  destruct (Z.leb_spec (key k n) (u64 (now + prec))); lia.
Qed.

Lemma OsGetNextExpireTime_wp h T b r k m now prec (idle := g_idleTaskID k) :
  SInv idle h T b m -> timers_ok k m ->
  wp (OsGetNextExpireTime now prec) (λ v k', k' = upd h T b r k /\
    ∃ ls lw, m !! TaskSortLink = Some ls /\ m !! SwtmrSortLink = Some lw /\
      v = Z.min (next_expire (upd h T b r k) ls now prec) (next_expire (upd h T b r k) lw now prec)) (upd h T b r k).
Proof.
  intros HI (lw & Hlw & Hw). destruct (si_sorted _ _ _ _ _ HI) as (ls & Hls & _).
  unfold OsGetNextExpireTime. wp_step.
  eapply wp_mono; [eapply GetSortLinkNextExpireTime_wp; [apply HI|done|]|].
  { apply Forall_forall. intros n Hn.
    destruct (sort_member _ _ _ _ _ n HI) as (t & c & -> & Hc & _); [by exists ls|].
    unfold timed. cbn. rewrite Hc. eauto. }
  intros v1 k1 (-> & ->). wp_step.
  eapply wp_mono; [eapply GetSortLinkNextExpireTime_wp; [apply HI|done|]|].
  { eapply Forall_impl; [exact Hw|]. intros n (i & w & -> & Hi). unfold timed. cbn. rewrite Hi. eauto. }
  intros v2 k1 (-> & ->). wp_step. split; [done|]. exists ls, lw. split_and!; [done..|].
  destruct (_ <? _) eqn:E; lia.
Qed.

(** The part of the state that arming the tick timer changes. *)
Definition armed (k k' : Kernel) : Prop :=
  ∃ r rid tm base old u, k' = set_g_schedResponseTime (λ _, r) (set_g_schedResponseID (λ _, rid) (clk tm base old u k)) /\
    clock_ok k' /\ g_oldTickTimerBase k <= old.

Lemma armed_clk tm base old u k :
  clock_ok (clk tm base old u k) -> g_oldTickTimerBase k <= old -> armed k (clk tm base old u k).
Proof.
  intros H1 H2. exists (g_schedResponseTime k), (g_schedResponseID k), tm, base, old, u.
  by destruct k.
Qed.
Lemma armed_trans k1 k2 k3 : armed k1 k2 -> armed k2 k3 -> armed k1 k3.
Proof.
  intros (r & rid & tm & base & old & u & -> & _ & H1) (r2 & rid2 & tm2 & base2 & old2 & u2 & -> & H2 & H3).
  exists r2, rid2, tm2, base2, old2, u2. destruct k1. cbn in *. split_and!; [done|done|lia].
Qed.

(** Arming the tick timer. *)
Lemma reload_wp rid period currTime k :
  clock_ok k ->
  wp (modify (set_g_schedResponseID (λ _, rid)) ;;;
      let* r := OsTickTimerReload period in
      modify (set_g_schedResponseTime (λ _, u64 (currTime + r)))) (λ _ k', armed k k') k.
Proof.
  intros Hk. unfold OsTickTimerReload. wp_steps. eapply wp_mono; [apply cycle_wp; by destruct k|].
  intros t k1 (tm & base & u & -> & Hk1 & Ht). wp_steps.
  lazymatch goal with E : timer_reload _ _ = (?r0, ?t) |- _ => rename E into Er, t into tm3, r0 into rr end.
  assert (Hr := law_reload _ _ _ _ _ _ Hk1 Er). clear Hk1 Er.
  exists (u64 (currTime + rr)), rid, tm3, t, t, u. destruct k. cbn in *. split_and!; [done|done|lia].
Qed.

Lemma set_next_expire_wp h T b r k m id endTime (idle := g_idleTaskID k) :
  SInv idle h T b m -> timers_ok k m -> clock_ok k ->
  wp (OsSchedSetNextExpireTime id endTime) (λ _ k', armed (upd h T b r k) k') (upd h T b r k).
Proof.
  intros HI Ht Hk. unfold OsSchedSetNextExpireTime, OsGetCurrSchedTimeCycle. wp_step.
  eapply wp_mono; [by apply (cycle_wp (upd h T b r k))|].
  intros now k1 (tm & base & u & -> & Hk1 & Hnow). wp_steps.
  assert (Ha := armed_clk _ _ _ _ _ Hk1 (proj1 Hnow)).
  change (clk tm base now u (upd h T b r k)) with (upd h T b r (clk tm base now u k)) in Ha, Hk1 |- *.
  eapply wp_mono; [eapply (OsGetNextExpireTime_wp h T b r (clk tm base now u k) m); [exact HI|exact Ht]|].
  intros v k1 (-> & _). generalize dependent (upd h T b r (clk tm base now u k)). intros k2 Hk2 Ha. wp_steps.
  destruct (_ || _); [by apply wp_ret|]. eapply wp_mono; [by apply reload_wp|].
  intros [] k' Ha'. by eapply armed_trans.
Qed.

(** ** The task switch *)

(** The state of the running task: not queued, its time slice started before
    the last reading of the clock, no timed wait recorded. *)
Record running_ok (old : Z) (c : LosTaskCB) : Prop := {
  ru_running : has c OS_TASK_STATUS_RUNNING = true;
  ru_ready : has c OS_TASK_STATUS_READY = false;
  ru_start : 0 <= startTime c <= old;
  ru_time : has c OS_TASK_STATUS_UNUSED = false -> responseTime c = OS_SORT_LINK_INVALID_TIME;
}.

(** A task that can run. *)
Definition live (c : LosTaskCB) : Prop :=
  has c OS_TASK_STATUS_UNUSED = false /\ has c OS_TASK_STATUS_SUSPEND = false /\
  has c OS_TASK_STATUS_PEND = false /\ has c OS_TASK_STATUS_DELAY = false /\
  has c OS_TASK_STATUS_PEND_TIME = false /\ has c OS_TASK_STATUS_EXIT = false.

(** The idle task never waits. *)
Definition idle_ok (idle : Z) (T : gmap Z LosTaskCB) : Prop := ∃ c, T !! idle = Some c /\ live c.

(** What the running task becomes: its slice is charged, then it goes to the
    sorted list, to its priority queue, or stays blocked. *)
Definition slice_tcb (idle now : Z) (c : LosTaskCB) : LosTaskCB :=
  set_startTime (λ _, now)
    (if taskID c =? idle then c else set_timeSlice (λ s, i32 (s - i32 (now - startTime c))) c).

Definition requeue_tcb (idle slice sliceMin sysClock : Z) (c : LosTaskCB) : LosTaskCB :=
  if has c (Z.lor OS_TASK_STATUS_PEND_TIME OS_TASK_STATUS_DELAY) then
    set_responseTime (λ _, u64 (startTime c + OS_SYS_TICK_TO_CYCLE sysClock (waitTimes c))) c
  else if has c OS_TASK_BLOCKED_STATUS then c
  else enq_tcb idle slice sliceMin c.

Lemma slice_wp h T b r k m t c now (idle := g_idleTaskID k) :
  SInv idle h T b m -> T !! t = Some c -> startTime c <= now ->
  wp (OsTimeSliceUpdate t now) (λ _ k', k' = upd h (<[t := slice_tcb idle now c]> T) b r k /\
    SInv idle h (<[t := slice_tcb idle now c]> T) b m) (upd h T b r k).
Proof.
  intros HI Hc Hs. pose proof (si_tasks _ _ _ _ _ HI _ _ Hc) as Hok.
  assert (HI' : SInv idle h (<[t := slice_tcb idle now c]> T) b m).
  { eapply SInv_tcb; [done..| |]; unfold slice_tcb; destruct (_ =? _); [done..| |]; by destruct Hok. }
  unfold OsTimeSliceUpdate. wp_step. eapply wp_upd_tcb; [done|]. wp_step. apply wp_assert; [lia|].
  wp_steps. change (g_idleTaskID (upd h T b r k)) with idle. revert HI'. unfold slice_tcb.
  destruct (taskID c =? idle); cbn [negb when]; intros HI'.
  - apply wp_ret. by eapply wp_upd_mod_tcb; [done|].
  - eapply wp_upd_mod_tcb; [done|]. eapply wp_upd_mod_tcb; [by rewrite lookup_insert_eq|].
    by rewrite insert_insert_eq.
Qed.

Lemma wait_time_valid (sysClock start ticks : Z) :
  2 <= LOSCFG_BASE_CORE_TICK_PER_SECOND -> 0 <= start < 2 ^ 63 ->
  u64 (start + OS_SYS_TICK_TO_CYCLE sysClock ticks) <> OS_SORT_LINK_INVALID_TIME.
Proof.
  intros Htps Hs. unfold OS_SYS_TICK_TO_CYCLE, OS_SORT_LINK_INVALID_TIME.
  pose proof (u64_range (ticks * sysClock)) as Hr.
  assert (Hq : 0 <= u64 (ticks * sysClock) / LOSCFG_BASE_CORE_TICK_PER_SECOND <= (2 ^ 64 - 1) / 2).
  { split; [apply Z.div_pos; lia|]. etrans; [apply Z.div_le_compat_l with (q := 2); lia|].
    apply Z.div_le_mono; lia. }
  change ((2 ^ 64 - 1) / 2) with (2 ^ 63 - 1) in Hq. rewrite u64_id by lia. lia.
Qed.

(** Only the queues of the scheduler differ. *)
Definition queues_only (m m' : gmap Node (list Node)) : Prop :=
  ∀ hd, hd <> TaskSortLink -> (∀ p, hd <> PriQueue p) -> m' !! hd = m !! hd.
Lemma queues_only_trans m1 m2 m3 : queues_only m1 m2 -> queues_only m2 m3 -> queues_only m1 m3.
Proof. intros H1 H2 hd Ht Hp. by rewrite H2, H1. Qed.
Lemma queues_only_pri m p l : queues_only m (<[PriQueue p := l]> m).
Proof. intros hd _ Hp. apply lookup_insert_ne. intros <-. by apply (Hp p). Qed.

Lemma requeue_wp h T b r k m t c (idle := g_idleTaskID k) :
  2 <= LOSCFG_BASE_CORE_TICK_PER_SECOND -> SInv idle h T b m -> T !! t = Some c ->
  running_ok (2 ^ 63 - 1) c ->
  wp (if test (taskStatus c) (Z.lor OS_TASK_STATUS_PEND_TIME OS_TASK_STATUS_DELAY) then
        OsAdd2SortLink (SortNode t) (startTime c) (waitTimes c) OS_SORT_LINK_TASK
      else when (negb (test (taskStatus c) OS_TASK_BLOCKED_STATUS)) (OsSchedTaskEnQueue t)) (λ _ k', ∃ h' b' m',
    let c' := requeue_tcb idle (g_schedTimeSlice k) (g_schedTimeSliceMin k) (g_sysClock k) c in
    k' = upd h' (<[t := c']> T) b' r k /\ SInv idle h' (<[t := c']> T) b' m' /\
    queues_only m m') (upd h T b r k).
Proof.
  intros Htps HI Hc [Hrun Hr Hst Hrt]. pose proof (si_tasks _ _ _ _ _ HI _ _ Hc) as Hok. unfold requeue_tcb.
  fold (has c (Z.lor OS_TASK_STATUS_PEND_TIME OS_TASK_STATUS_DELAY)) (has c OS_TASK_BLOCKED_STATUS).
  destruct (has c (Z.lor _ _)) eqn:Ed; [|destruct (has c OS_TASK_BLOCKED_STATUS) eqn:Eb; cbn [negb when]].
  - unfold has in Ed. rewrite test_lor in Ed. fold (has c OS_TASK_STATUS_PEND_TIME) (has c OS_TASK_STATUS_DELAY) in Ed.
    rewrite orb_comm in Ed.
    assert (Hu : has c OS_TASK_STATUS_UNUSED = false).
    { apply not_true_is_false. intros E. destruct (ok_unused _ _ _ _ Hok) as (_ & E1 & E2);
        [by rewrite E|]. by rewrite E1, E2 in Ed. }
    eapply wp_mono; [eapply (add_sort_wp _ _ _ _ _ _ _ _ _ _ HI Hc); [by apply Hrt|done|apply wait_time_valid; lia]|].
    intros [] k' (h' & ls & ls' & -> & Hls & Hp & HI'). eexists h', b, _. split_and!; [done..|].
    intros hd Ht _. by apply lookup_insert_ne.
  - apply wp_ret. exists h, b, m. by rewrite insert_id.
  - assert (Hst' : has c OS_TASK_STATUS_PEND = false /\ has c OS_TASK_STATUS_UNUSED = false /\ has c OS_TASK_STATUS_EXIT = false).
    { unfold OS_TASK_BLOCKED_STATUS, has in *. rewrite !test_lor, !orb_false_iff in Eb. tauto. }
    destruct Hst' as (Hp & Hu & He).
    eapply wp_mono; [eapply (enqueue_wp _ _ _ _ _ _ _ _ HI Hc); by auto|].
    intros [] k' (h' & b' & m' & -> & HI' & Hm'). exists h', b', m'. split_and!; [done..|].
    fold idle in Hm'. destruct (decide (t = idle)); [by subst|]. destruct Hm' as (l & _ & ->).
    apply queues_only_pri.
Qed.

(** The exchange of the running mark between the tasks [run] and [new]. *)
Definition handover (run new : Z) (T : gmap Z LosTaskCB) : gmap Z LosTaskCB :=
  if run =? new then T
  else
    let T := alter (set_taskStatus (clrf OS_TASK_STATUS_RUNNING)) run T in
    let start := from_option startTime 0 (T !! run) in
    alter (λ c, set_startTime (λ _, start) (set_taskStatus (setf OS_TASK_STATUS_RUNNING) c)) new T.

Lemma SInv_flag idle h T b m t c f :
  SInv idle h T b m -> T !! t = Some c -> responseTime (f c) = responseTime c ->
  (task_ok idle m t c -> task_ok idle m t (f c)) -> SInv idle h (alter f t T) b m.
Proof.
  intros HI Hc Hr Hok. rewrite (alter_as_insert _ _ _ c) by done.
  eapply SInv_tcb; [done..|]. apply Hok. by eapply si_tasks.
Qed.

Lemma running_flag_ok idle m t c (f : Z -> Z) start :
  (∀ s n, n <> 4 -> Z.testbit (f s) n = Z.testbit s n) ->
  task_ok idle m t c -> task_ok idle m t (set_startTime start (set_taskStatus f c)).
Proof.
  intros Hf Hok. assert (Hs : ∀ g n, g = 2 ^ n -> 0 <= n -> n <> 4 ->
    has (set_startTime start (set_taskStatus f c)) g = has c g).
  { intros g n -> Hn Hne. unfold has. cbn. rewrite !test_bit by done. by apply Hf. }
  destruct Hok. split; cbn; rewrite
    ?(Hs OS_TASK_STATUS_UNUSED 0), ?(Hs OS_TASK_STATUS_SUSPEND 1), ?(Hs OS_TASK_STATUS_READY 2),
    ?(Hs OS_TASK_STATUS_PEND 3), ?(Hs OS_TASK_STATUS_DELAY 5), ?(Hs OS_TASK_STATUS_PEND_TIME 7),
    ?(Hs OS_TASK_STATUS_EXIT 8), ?(Hs OS_TASK_FLAG_FREEZE 14) by (done || lia); done.
Qed.

Lemma handover_wp h T b r k m run new c n (idle := g_idleTaskID k) :
  SInv idle h T b m -> T !! run = Some c -> T !! new = Some n ->
  wp (if negb (run =? new) then
        clear_status run OS_TASK_STATUS_RUNNING ;;;
        set_status new OS_TASK_STATUS_RUNNING ;;;
        let* r := tcb run in
        mod_tcb new (set_startTime (λ _, startTime r)) ;;;
        mret true
      else mret false) (λ sw k', sw = negb (run =? new) /\
    k' = upd h (handover run new T) b r k /\ SInv idle h (handover run new T) b m) (upd h T b r k).
Proof.
  intros HI Hc Hn. unfold handover. destruct (Z.eqb_spec run new) as [->|Hne]; cbn [negb]; [done|].
  unfold clear_status, set_status. wp_step. eapply wp_upd_mod_tcb; [done|].
  wp_step. eapply wp_upd_mod_tcb; [by rewrite lookup_insert_ne|].
  wp_step. eapply wp_upd_tcb; [by rewrite lookup_insert_ne, lookup_insert_eq|].
  wp_step. eapply wp_upd_mod_tcb; [by rewrite lookup_insert_eq|]. wp_step. rewrite insert_insert_eq.
  rewrite lookup_alter_eq, Hc. cbn [from_option fmap option_map option_fmap].
  assert (HI1 : SInv idle h (alter (set_taskStatus (clrf OS_TASK_STATUS_RUNNING)) run T) b m).
  { eapply SInv_flag; [done..|]. intros Hok.
    pose proof (running_flag_ok idle m run c (clrf OS_TASK_STATUS_RUNNING) (λ x, x)) as X.
    destruct c. apply X; [|done]. intros s i Hi. rewrite clrf_bit. change OS_TASK_STATUS_RUNNING with (2 ^ 4).
    rewrite Z.pow2_bits_eqb by lia. destruct (Z.eqb_spec 4 i); [lia|]. apply andb_true_r. }
  assert (HI2 := SInv_flag _ _ _ _ _ new n (λ c0, set_startTime (λ _, startTime c) (set_taskStatus (setf OS_TASK_STATUS_RUNNING) c0)) HI1).
  rewrite lookup_alter_ne in HI2 by done. specialize (HI2 Hn eq_refl).
  assert (E : <[new := set_startTime (λ _, startTime c) (set_taskStatus (setf OS_TASK_STATUS_RUNNING) n)]>
      (<[run := set_taskStatus (clrf OS_TASK_STATUS_RUNNING) c]> T) =
    alter (λ c0, set_startTime (λ _, startTime c) (set_taskStatus (setf OS_TASK_STATUS_RUNNING) c0)) new
      (alter (set_taskStatus (clrf OS_TASK_STATUS_RUNNING)) run T)).
  { rewrite (alter_as_insert _ run _ c), (alter_as_insert _ new _ n); [done| |done].
    by rewrite lookup_insert_ne. }
  split_and!; [done|exact (f_equal (λ T, upd h T b r k) E)|]. apply HI2. apply running_flag_ok. intros s i Hi. rewrite setf_bit.
  change OS_TASK_STATUS_RUNNING with (2 ^ 4). rewrite Z.pow2_bits_eqb by lia.
  destruct (Z.eqb_spec 4 i); [lia|]. apply orb_false_r.
Qed.

(** Two control blocks that differ in the running mark and the start time. *)
Definition same_but_run (c c' : LosTaskCB) : Prop :=
  priority c' = priority c /\ responseTime c' = responseTime c /\
  ∀ n, 0 <= n -> n <> 4 -> Z.testbit (taskStatus c') n = Z.testbit (taskStatus c) n.

Lemma same_has c c' f n : same_but_run c c' -> f = 2 ^ n -> 0 <= n -> n <> 4 -> has c' f = has c f.
Proof. intros (_ & _ & Hb) -> Hn Hne. unfold has. rewrite !test_bit by done. by apply Hb. Qed.

Lemma handover_lookup run new T x c' :
  handover run new T !! x = Some c' -> ∃ c, T !! x = Some c /\ same_but_run c c'.
Proof.
  unfold handover. destruct (_ =? _); [by intros ?; exists c'; repeat split|].
  assert (Hb1 : ∀ c, same_but_run c (set_taskStatus (clrf OS_TASK_STATUS_RUNNING) c)).
  { intros c. split_and!; [done..|]. intros n Hn Hne. cbn. rewrite clrf_bit. change OS_TASK_STATUS_RUNNING with (2 ^ 4).
    rewrite Z.pow2_bits_eqb by lia. destruct (Z.eqb_spec 4 n); [lia|]. apply andb_true_r. }
  assert (Hb2 : ∀ c s, same_but_run c (set_startTime s (set_taskStatus (setf OS_TASK_STATUS_RUNNING) c))).
  { intros c s. split_and!; [done..|]. intros n Hn Hne. cbn. rewrite setf_bit. change OS_TASK_STATUS_RUNNING with (2 ^ 4).
    rewrite Z.pow2_bits_eqb by lia. destruct (Z.eqb_spec 4 n); [lia|]. apply orb_false_r. }
  rewrite lookup_alter. case_decide as E1.
  - subst x. intros [c1 [Hc1 ->]]%fmap_Some. rewrite lookup_alter in Hc1. case_decide as E2.
    + subst run. apply fmap_Some in Hc1 as (c & Hc & ->). exists c. split; [done|].
      destruct (Hb1 c) as (? & ? & HbA), (Hb2 (set_taskStatus (clrf OS_TASK_STATUS_RUNNING) c) (λ _, from_option startTime 0
        (alter (set_taskStatus (clrf OS_TASK_STATUS_RUNNING)) new T !! new))) as (? & ? & HbB).
      split_and!; [done..|]. intros n Hn Hne. rewrite HbB, HbA; done.
    + exists c1. split; [done|]. apply Hb2.
  - rewrite lookup_alter. case_decide; [|by intros ?; exists c'; repeat split].
    intros [c [Hc ->]]%fmap_Some. exists c. split; [by subst|]. apply Hb1.
Qed.

Lemma handover_exists run new T x c : T !! x = Some c -> is_Some (handover run new T !! x).
Proof.
  intros Hc. unfold handover. destruct (_ =? _); [by eexists|]. rewrite lookup_alter.
  case_decide; [apply fmap_is_Some|]; rewrite lookup_alter; case_decide; try apply fmap_is_Some; subst; by eexists.
Qed.

(** The new running task after the exchange. *)
Lemma handover_new run new T c n :
  T !! run = Some c -> T !! new = Some n -> (run = new -> has n OS_TASK_STATUS_RUNNING = true) ->
  ∃ n', handover run new T !! new = Some n' /\ same_but_run n n' /\
    has n' OS_TASK_STATUS_RUNNING = true /\ startTime n' = startTime c.
Proof.
  intros Hc Hn Hrun. destruct (handover_exists run new T new n Hn) as [n' Hn'].
  destruct (handover_lookup _ _ _ _ _ Hn') as (n0 & Hn0 & Hs). simplify_eq. exists n'. split_and!; try done.
  - revert Hn'. unfold handover. destruct (Z.eqb_spec run new) as [E|E]; [intros; simplify_eq; auto|].
    rewrite lookup_alter_eq. intros [c1 [_ ->]]%fmap_Some. unfold has. cbn. by bits.
  - revert Hn'. unfold handover. destruct (Z.eqb_spec run new) as [E|E]; [intros; simplify_eq; congruence|].
    rewrite lookup_alter_eq. intros [c1 [_ ->]]%fmap_Some. cbn. by rewrite lookup_alter_eq, Hc.
Qed.

(** What requeueing keeps of the status. *)
Lemma requeue_flags idle slice sliceMin clock now c (c' := requeue_tcb idle slice sliceMin clock (slice_tcb idle now c)) :
  has c' OS_TASK_STATUS_UNUSED = has c OS_TASK_STATUS_UNUSED /\
  has c' OS_TASK_STATUS_RUNNING = has c OS_TASK_STATUS_RUNNING /\
  ((has c OS_TASK_STATUS_PEND_TIME = true -> has c OS_TASK_STATUS_PEND = true) ->
    has c' OS_TASK_STATUS_PEND_TIME = true -> has c' OS_TASK_STATUS_PEND = true) /\
  (live c -> live c') /\
  startTime c' = now /\ priority c' = priority c.
Proof.
  assert (Es : taskStatus (slice_tcb idle now c) = taskStatus c) by (unfold slice_tcb; by destruct (_ =? _)).
  assert (Ep : priority (slice_tcb idle now c) = priority c) by (unfold slice_tcb; by destruct (_ =? _)).
  assert (Et : startTime (slice_tcb idle now c) = now) by (unfold slice_tcb; by destruct (_ =? _)).
  subst c'. generalize dependent (slice_tcb idle now c). intros c1 Es Ep Et.
  unfold requeue_tcb, enq_tcb, live, has. rewrite Es.
  destruct (test _ (Z.lor _ _)); [cbn; rewrite Es; done|].
  destruct (test _ OS_TASK_BLOCKED_STATUS); [rewrite Es; done|].
  destruct (_ || _); cbn; rewrite Es; bits; tauto.
Qed.

(** The task taken from its queue. *)
Definition unready (c : LosTaskCB) : LosTaskCB :=
  if has c OS_TASK_STATUS_READY then set_taskStatus (clrf OS_TASK_STATUS_READY) c else c.

Definition dispatch (run new : Z) (T : gmap Z LosTaskCB) : gmap Z LosTaskCB := alter unready new (handover run new T).

(** No other task is marked as running.  The block that runs before the first
    task keeps the mark, and is never in use. *)
Definition run_unique (t : Z) (T : gmap Z LosTaskCB) : Prop :=
  ∀ t' c', T !! t' = Some c' -> has c' OS_TASK_STATUS_RUNNING = true ->
    has c' OS_TASK_STATUS_UNUSED = false -> t' = t.

Definition run_ok (old t : Z) (T : gmap Z LosTaskCB) : Prop :=
  (∃ c, T !! t = Some c /\ running_ok old c) /\ run_unique t T.

(** No ready task has a higher priority than task [t]. *)
Definition highest (idle t : Z) (T : gmap Z LosTaskCB) : Prop :=
  ∀ t' c', T !! t' = Some c' -> has c' OS_TASK_STATUS_READY = true -> t' <> idle ->
    t <> idle /\ ∃ c, T !! t = Some c /\ priority c <= priority c'.

Lemma unready_facts c (c' := unready c) :
  priority c' = priority c /\ responseTime c' = responseTime c /\ startTime c' = startTime c /\
  has c' OS_TASK_STATUS_READY = false /\
  ∀ f n, f = 2 ^ n -> 0 <= n -> n <> 2 -> has c' f = has c f.
Proof.
  subst c'. unfold unready. destruct (has c OS_TASK_STATUS_READY) eqn:E; [|done].
  split_and!; [done..| |].
  - unfold has. cbn. by bits.
  - intros f n -> Hn Hne. unfold has. rewrite !test_bit by done. cbn. rewrite clrf_bit.
    change OS_TASK_STATUS_READY with (2 ^ 2).
    rewrite Z.pow2_bits_eqb by lia. destruct (Z.eqb_spec 2 n); [lia|]. apply andb_true_r.
Qed.

Lemma dispatch_lookup run new T x c' :
  dispatch run new T !! x = Some c' ->
  ∃ c, T !! x = Some c /\ priority c' = priority c /\ responseTime c' = responseTime c /\
    (x = new -> has c' OS_TASK_STATUS_READY = false) /\
    (x <> new -> has c' OS_TASK_STATUS_READY = has c OS_TASK_STATUS_READY) /\
    ∀ f n, f = 2 ^ n -> 0 <= n -> n <> 4 -> n <> 2 -> has c' f = has c f.
Proof.
  unfold dispatch. rewrite lookup_alter. case_decide as E.
  - intros [c1 [Hc1 ->]]%fmap_Some. subst x. destruct (handover_lookup _ _ _ _ _ Hc1) as (c & Hc & Hs).
    destruct (unready_facts c1) as (U1 & U2 & _ & U3 & U4). destruct Hs as (S1 & S2 & S3).
    exists c. split_and!; [done|congruence|congruence|done|done|].
    intros f n -> Hn H4 H2. rewrite (U4 _ n) by done. by apply (same_has _ _ _ n).
  - intros Hc'. destruct (handover_lookup _ _ _ _ _ Hc') as (c & Hc & Hs). destruct (id Hs) as (S1 & S2 & S3).
    exists c. split_and!; [done..| |].
    + intros _. by apply (same_has _ _ _ 2).
    + intros f n -> Hn H4 H2. by apply (same_has _ _ _ n).
Qed.

Lemma dispatch_timed run new T : timed_ok T -> timed_ok (dispatch run new T).
Proof.
  intros HT x c' Hc'. destruct (dispatch_lookup _ _ _ _ _ Hc') as (c & Hc & _ & _ & _ & _ & Hb).
  rewrite (Hb _ 7), (Hb _ 3) by done. by apply (HT x).
Qed.

Lemma dispatch_live run new T x c c' :
  dispatch run new T !! x = Some c' -> T !! x = Some c -> live c -> live c'.
Proof.
  intros Hc' Hc. destruct (dispatch_lookup _ _ _ _ _ Hc') as (c0 & Hc0 & _ & _ & _ & _ & Hb). simplify_eq.
  unfold live. rewrite (Hb _ 0), (Hb _ 1), (Hb _ 3), (Hb _ 5), (Hb _ 7), (Hb _ 8) by done. done.
Qed.

Lemma dispatch_idle run new idle T : idle_ok idle T -> idle_ok idle (dispatch run new T).
Proof.
  intros (c & Hc & Hl).
  assert (is_Some (dispatch run new T !! idle)) as [c' Hc'].
  { unfold dispatch. destruct (handover_exists run new _ _ _ Hc) as [c' Hc'].
    rewrite lookup_alter. case_decide; subst; rewrite Hc'; by eexists. }
  exists c'. split; [done|]. by eapply dispatch_live.
Qed.

Lemma top_task_time idle h T b m t :
  SInv idle h T b m -> idle_ok idle T -> top_task idle T m t ->
  ∃ c, T !! t = Some c /\ live c /\ responseTime c = OS_SORT_LINK_INVALID_TIME.
Proof.
  intros HI (ci & Hci & Hl) Ht.
  assert (∃ c, T !! t = Some c /\ live c) as (c & Hc & Hlc).
  { destruct Ht as [[-> _]|(_ & c & _ & Hc & Hr & _)]; [eauto|]. exists c. split; [done|].
    pose proof (si_tasks _ _ _ _ _ HI _ _ Hc) as Hok.
    destruct (ok_ready _ _ _ _ Hok Hr) as (? & ? & ? & ? & ? & ?). by split_and!. }
  exists c. split_and!; [done..|]. destruct Hlc as (? & _ & _ & ? & ? & _). by eapply unsorted_time.
Qed.

Lemma dispatch_running idle h T b m run new c old :
  SInv idle h T b m -> idle_ok idle T -> top_task idle T m new ->
  T !! run = Some c -> has c OS_TASK_STATUS_RUNNING = true -> 0 <= startTime c <= old ->
  run_unique run T ->
  run_ok old new (dispatch run new T).
Proof.
  intros HI Hi Ht Hc Hrun Hst Hu. destruct (top_task_time _ _ _ _ _ _ HI Hi Ht) as (n & Hn & _ & Hrt).
  destruct (handover_new run new T c n) as (n' & Hn' & Hs & Hr' & Hst'); [done..|congruence|].
  destruct (unready_facts n') as (U1 & U2 & U3 & U4 & U5). split.
  - exists (unready n'). split; [unfold dispatch; by rewrite lookup_alter_eq, Hn'|].
    destruct Hs as (_ & S2 & _). split; [by rewrite (U5 _ 4)|done|lia|congruence].
  - intros x cx Hx Hxr Hxu. destruct (decide (x = new)) as [|Hne]; [done|exfalso]. revert Hx.
    unfold dispatch, handover. rewrite lookup_alter_ne by done.
    destruct (Z.eqb_spec run new) as [E|E]; [intros Hx; by specialize (Hu _ _ Hx Hxr Hxu); subst|].
    rewrite lookup_alter_ne, lookup_alter by done. case_decide as E'.
    + intros [cy [Hy ->]]%fmap_Some. clear Hxu. revert Hxr. unfold has. cbn. by bits.
    + intros Hx. by specialize (Hu _ _ Hx Hxr Hxu); subst.
Qed.

Lemma dispatch_highest idle T m run new c :
  top_task idle T m new -> T !! run = Some c -> highest idle new (dispatch run new T).
Proof.
  intros Ht Hc x cx Hx Hxr Hxi. destruct (dispatch_lookup _ _ _ _ _ Hx) as (c0 & Hc0 & Hp & _ & Hn & Hr & _).
  destruct (decide (x = new)) as [->|Hne]; [rewrite Hn in Hxr; done|]. rewrite Hr in Hxr by done.
  destruct Ht as [[-> Ht]|(Hni & n & _ & Hn' & _ & _ & Ht)]; [exfalso; by apply Hxi, (Ht _ c0)|].
  split; [done|]. destruct (handover_exists run new _ _ _ Hn') as [n' Hn''].
  assert (Hd : dispatch run new T !! new = Some (unready n')) by (unfold dispatch; by rewrite lookup_alter_eq, Hn'').
  exists (unready n'). split; [done|]. destruct (dispatch_lookup _ _ _ _ _ Hd) as (n0 & ? & Hp' & _).
  simplify_eq. rewrite Hp, Hp'. by apply (Ht x).
Qed.

(** ** The invariant of the running kernel *)
Record KInv (k : Kernel) (m : gmap Node (list Node)) (t : Z) : Prop := {
  ki_sched : SchedInv k m;
  ki_timed : timed_ok (g_taskCBArray k);
  ki_clock : clock_ok k;
  ki_timers : timers_ok k m;
  ki_idle : idle_ok (g_idleTaskID k) (g_taskCBArray k);
  ki_task : runTask k = Some t;
  ki_run : run_ok (g_oldTickTimerBase k) t (g_taskCBArray k);
  ki_on : g_taskScheduled k = true;
  ki_live : pendSV k = false -> ∃ c, g_taskCBArray k !! t = Some c /\ live c;
}.

(** The control blocks after a switch from [run] to [new] at time [now]. *)
Definition switch_tasks (k : Kernel) (now run new : Z) : gmap Z LosTaskCB :=
  dispatch run new (alter (λ c, requeue_tcb (g_idleTaskID k) (g_schedTimeSlice k) (g_schedTimeSliceMin k)
    (g_sysClock k) (slice_tcb (g_idleTaskID k) now c)) run (g_taskCBArray k)).

(** What requeueing the running task keeps. *)
Lemma requeue_tables idle slice sliceMin clock now T run c old
    (c1 := requeue_tcb idle slice sliceMin clock (slice_tcb idle now c)) (T1 := <[run := c1]> T) :
  timed_ok T -> idle_ok idle T -> T !! run = Some c -> run_ok old run T ->
  timed_ok T1 /\ idle_ok idle T1 /\ has c1 OS_TASK_STATUS_RUNNING = true /\ startTime c1 = now /\ run_unique run T1.
Proof.
  intros HT (ci & Hci & Hli) Hc [(c0 & Hc0 & HR) Hu]. simplify_eq.
  destruct (requeue_flags idle slice sliceMin clock now c) as (F1 & F2 & F5 & F4 & F6 & _). fold c1 in F1, F2, F4, F5, F6.
  split_and!; [| |rewrite F2; apply HR|done|].
  - intros x cx. subst T1. destruct (decide (x = run)) as [->|].
    + rewrite lookup_insert_eq. intros [= <-]. apply F5. by apply (HT run).
    + rewrite lookup_insert_ne by done. by apply HT.
  - subst T1. destruct (decide (idle = run)) as [E|].
    + exists c1. rewrite E, lookup_insert_eq. subst run. simplify_eq. auto.
    + exists ci. rewrite lookup_insert_ne by done. auto.
  - intros x cx. subst T1. destruct (decide (x = run)) as [->|]; [done|].
    rewrite lookup_insert_ne by done. apply Hu.
Qed.

Lemma armed_fields k k' :
  armed k k' -> dlists k' = dlists k /\ g_taskCBArray k' = g_taskCBArray k /\ g_queueBitmap k' = g_queueBitmap k /\
    g_idleTaskID k' = g_idleTaskID k /\ runTask k' = runTask k /\ newTask k' = newTask k /\
    g_swtmrCBArray k' = g_swtmrCBArray k /\ g_taskScheduled k' = g_taskScheduled k /\ pendSV k' = pendSV k /\ clock_ok k' /\ g_oldTickTimerBase k <= g_oldTickTimerBase k'.
Proof. intros (r & rid & tm & base & old & u & -> & Hc & Ho). by split_and!. Qed.

Lemma run_ok_mono old old' t T : run_ok old t T -> old <= old' -> run_ok old' t T.
Proof.
  intros [(c & Hc & [R1 R2 R3 R4]) Hu] Ho. split; [|done]. exists c. split; [done|]. split; try done. lia.
Qed.

Lemma timers_frame k k' m m' :
  timers_ok k m -> g_swtmrCBArray k' = g_swtmrCBArray k -> m' !! SwtmrSortLink = m !! SwtmrSortLink -> timers_ok k' m'.
Proof. intros (lw & Hlw & Hw) Hk Hm. exists lw. by rewrite Hm, Hk. Qed.

Lemma KInv_armed h T b r k m old t k' :
  armed (upd h T b r k) k' -> SInv (g_idleTaskID k) h T b m -> timed_ok T -> timers_ok k m ->
  idle_ok (g_idleTaskID k) T -> run_ok old t T -> old <= g_oldTickTimerBase k ->
  g_taskScheduled k = true -> (∃ c, T !! t = Some c /\ live c) ->
  KInv (set_runTask (λ _, Some t) k') m t.
Proof.
  intros Ha HI HT Htm Hi Hr Ho Hon Hl. destruct (armed_fields _ _ Ha) as (E1 & E2 & E3 & E4 & _ & _ & E5 & E8 & _ & E6 & E7).
  cbn in E1, E2, E3, E4, E5, E7, E8. destruct k'. cbn in *. subst. split; cbn; try done.
  eapply run_ok_mono; [done|lia].
Qed.

(** The last part of the switch: the new task leaves its queue and the tick
    timer is armed for the end of its time slice. *)
Lemma dispatch_wp h T b r k m run new c old (idle := g_idleTaskID k) :
  SInv idle h T b m -> timed_ok T -> idle_ok idle T -> timers_ok k m -> clock_ok k ->
  top_task idle T m new -> T !! run = Some c -> has c OS_TASK_STATUS_RUNNING = true ->
  run_unique run T ->
  0 <= startTime c <= old -> old <= g_oldTickTimerBase k -> g_taskScheduled k = true ->
  wp (let* isTaskSwitch :=
        if negb (run =? new) then
          clear_status run OS_TASK_STATUS_RUNNING ;;;
          set_status new OS_TASK_STATUS_RUNNING ;;;
          let* r := tcb run in
          mod_tcb new (set_startTime (λ _, startTime r)) ;;;
          mret true
        else mret false in
      OsSchedTaskDeQueue new ;;;
      let* n := tcb new in
      let* idle := gets g_idleTaskID in
      let* prec := gets g_tickResponsePrecision in
      let endTime := if negb (taskID n =? idle) then u64 (startTime n + timeSlice n)
                     else u64 (OS_SCHED_MAX_RESPONSE_TIME - prec) in
      let* rid := gets g_schedResponseID in
      let* r := tcb run in
      when (rid =? taskID r) (modify (set_g_schedResponseTime (λ _, OS_SCHED_MAX_RESPONSE_TIME))) ;;;
      OsSchedSetNextExpireTime (taskID n) endTime ;;;
      mret isTaskSwitch) (λ sw k', ∃ m',
    sw = negb (run =? new) /\ g_taskCBArray k' = dispatch run new T /\ runTask k' = runTask k /\ newTask k' = newTask k /\ pendSV k' = pendSV k /\
    g_oldTickTimerBase k <= g_oldTickTimerBase k' /\
    KInv (set_runTask (λ _, Some new) k') m' new /\ highest idle new (g_taskCBArray k') /\ queues_only m m') (upd h T b r k).
Proof.
  intros HI HT Hi Htm Hk Htop Hc Hrun Hu Hst Hold Hon.
  destruct (top_task_time _ _ _ _ _ _ HI Hi Htop) as (n & Hn & Hln & _).
  assert (Hr3 := dispatch_running _ _ _ _ _ _ _ _ old HI Hi Htop Hc Hrun Hst Hu).
  wp_step. eapply wp_mono; [by eapply handover_wp|]. intros sw k1 (-> & -> & HI1).
  destruct (handover_exists run new T new n Hn) as [n1 Hn1].
  wp_step. eapply wp_mono; [eapply (dequeue_wp _ _ _ _ _ _ _ _ HI1 Hn1)|].
  intros [] k1 (h2 & b2 & m2 & -> & HI2 & Hm2). fold (unready n1) in HI2 |- *.
  replace (<[new := unready n1]> (handover run new T)) with (dispatch run new T) in HI2 |- *
    by (by apply alter_as_insert).
  assert (Hq2 : queues_only m m2) by (destruct (_ && _); [destruct Hm2 as (l & _ & _ & ->); apply queues_only_pri|by subst]).
  assert (Htm2 : timers_ok k m2) by (by eapply timers_frame; [done..|apply Hq2]).
  destruct (proj1 Hr3) as (n3 & Hn3 & _). wp_step. eapply wp_upd_tcb; [done|]. wp_steps.
  assert (is_Some (dispatch run new T !! run)) as [c3 Hc3].
  { unfold dispatch. destruct (handover_exists run new T run c Hc) as [? E]. rewrite lookup_alter.
    case_decide; subst; rewrite E; by eexists. }
  cbv zeta. wp_steps. eapply wp_upd_tcb; [done|]. wp_step. change (g_schedResponseID (upd _ _ _ _ k)) with (g_schedResponseID k).
  apply (wp_mono _ (λ _ k', ∃ r', k' = upd h2 (dispatch run new T) b2 r' k)).
  { destruct (g_schedResponseID k =? _); cbn [when]; [apply wp_upd_response|apply wp_ret]; by eexists. }
  intros [] k1 (r' & ->). wp_step. eapply wp_mono; [by eapply set_next_expire_wp|]. intros [] k' Ha.
  apply wp_ret. exists m2. destruct (armed_fields _ _ Ha) as (_ & E2 & _ & _ & E5 & E6 & _ & _ & E7 & _ & E8).
  split_and!; [done..| | |exact Hq2].
  - eapply KInv_armed; [done|done|by apply dispatch_timed|done|by apply dispatch_idle|done|done|done|].
    exists n3. split; [done|]. by eapply dispatch_live.
  - rewrite E2. by eapply dispatch_highest.
Qed.

Lemma switch_wp k m run :
  2 <= LOSCFG_BASE_CORE_TICK_PER_SECOND -> KInv (set_pendSV (λ _, true) k) m run ->
  wp OsSchedTaskSwitch (λ sw k', ∃ m' new now,
    sw = negb (run =? new) /\ newTask k' = Some new /\ runTask k' = Some run /\ pendSV k' = pendSV k /\
    g_oldTickTimerBase k <= now <= g_oldTickTimerBase k' /\ g_taskCBArray k' = switch_tasks k now run new /\
    KInv (set_runTask (λ _, Some new) k') m' new /\ highest (g_idleTaskID k) new (g_taskCBArray k') /\ queues_only m m') k.
Proof.
  intros Htps [HI HT Hk Htm Hi Hrt Hr Hon _].
  change (SchedInv k m) in HI. change (clock_ok k) in Hk. change (timers_ok k m) in Htm.
  change (runTask k = Some run) in Hrt. cbn [set_pendSV g_taskCBArray g_idleTaskID g_oldTickTimerBase g_taskScheduled] in HT, Hi, Hr, Hon.
  unfold OsSchedTaskSwitch, running. wp_step.
  apply wp_bind, wp_gets. eapply wp_of_option; [exact Hrt|]. wp_step.
  eapply wp_mono; [apply (cycle_wp _ Hk)|]. intros now k1 (tm & base & u & -> & Hk1 & Hnow).
  rewrite (upd_id (clk tm base now u k)). set (kc := clk tm base now u k) in *.
  assert (HIc : SInv (g_idleTaskID kc) (dlists kc) (g_taskCBArray kc) (g_queueBitmap kc) m) by exact HI.
  destruct Hr as [(c & Hc & HR) Hu]. wp_step.
  eapply wp_mono; [eapply (slice_wp _ _ _ _ kc _ run c now HIc); [exact Hc|destruct HR; lia]|].
  intros [] k1 (-> & HI1). wp_step. eapply wp_upd_tcb; [apply lookup_insert_eq|].
  wp_step. eapply wp_mono; [eapply (requeue_wp _ _ _ _ kc _ run _ Htps HI1); [apply lookup_insert_eq|]|].
  { destruct HR as [R1 R2 R3 R4]. unfold slice_tcb. destruct (_ =? _); split; cbn; try done; lia. }
  intros [] k1 (h2 & b2 & m2 & -> & HI2 & Hm2). rewrite insert_insert_eq in HI2 |- *.
  destruct (requeue_tables (g_idleTaskID kc) (g_schedTimeSlice kc) (g_schedTimeSliceMin kc) (g_sysClock kc) now _ run c _
    HT Hi Hc (conj (ex_intro _ c (conj Hc HR)) Hu)) as (HT2 & Hi2 & R2 & S2 & Hu2).
  wp_step. eapply wp_mono; [by eapply top_task_wp|]. intros new k1 (-> & Htop). wp_step. wp_step.
  set (kn := set_newTask (λ _, Some new) kc).
  lazymatch goal with |- wp ?p ?Q ?k0 => change (wp p Q (upd h2 (<[run := requeue_tcb (g_idleTaskID kc)
     (g_schedTimeSlice kc) (g_schedTimeSliceMin kc) (g_sysClock kc) (slice_tcb (g_idleTaskID kc) now c)]>
       (g_taskCBArray k)) b2 (g_schedResponseTime kc) kn)) end.
  eapply wp_mono; [eapply (dispatch_wp _ _ _ _ kn m2 run new _ now HI2 HT2 Hi2); [|done|done|apply lookup_insert_eq|done|done| | |done]|].
  - eapply timers_frame; [exact Htm|done|by apply Hm2].
  - rewrite S2. destruct HR. lia.
  - cbn. lia.
  - intros sw k' (m' & -> & E2 & E3 & E4 & E5 & E6 & HK & Hh & Hq). exists m', new, now. cbn in E6. split_and!; try done.
    + by rewrite E3.
    + lia.
    + rewrite E2. unfold switch_tasks. by rewrite (alter_as_insert _ run _ c).
    + by eapply queues_only_trans.
Qed.

End SchedSwitch.
