(* ===== verification/KernelInv.v ===== *)
(** Preservation of the invariant of the running kernel by the operations of
    the scheduler, as the kernel's calls use them. *)

From S2P Require Import Prelude Errno LosList Kernel Tick SortLink Sched SchedInv SchedTime SchedSwitch.
#[local] Opaque LOS_ListAdd LOS_ListTailInsert LOS_ListDelete LOS_ListInit LOS_ListEmpty.

Section KernelInv.
Context `{TimerLaws}.

(** What an operation on task [x] leaves of the block the invariant needs. *)
Record tcb_step (k : Kernel) (t x : Z) (c c' : LosTaskCB) : Prop := {
  ts_timed : has c' OS_TASK_STATUS_PEND_TIME = true -> has c' OS_TASK_STATUS_PEND = true;
  ts_idle : x = g_idleTaskID k -> live c';
  ts_running : has c' OS_TASK_STATUS_RUNNING = true -> has c OS_TASK_STATUS_RUNNING = true;
  ts_unused : has c' OS_TASK_STATUS_UNUSED = false -> has c OS_TASK_STATUS_UNUSED = false;
  ts_run : x = t -> running_ok (g_oldTickTimerBase k) c';
}.

Lemma KInv_step k m t x c c' h' b' r' m' p :
  KInv k m t -> g_taskCBArray k !! x = Some c -> tcb_step k t x c c' ->
  SInv (g_idleTaskID k) h' (<[x := c']> (g_taskCBArray k)) b' m' ->
  m' !! SwtmrSortLink = m !! SwtmrSortLink ->
  (p = false -> pendSV k = false) -> (p = false -> x = t -> live c') ->
  KInv (set_pendSV (λ _, p) (upd h' (<[x := c']> (g_taskCBArray k)) b' r' k)) m' t.
Proof.
  intros [KI KT KC KM KD KR [(c0 & Hc0 & HR) Hu] KO KL] Hc [S1 S2 S3 S4 S5] HI Hm Hp Hl. split; try done.
  - intros x' cx. cbn. rewrite lookup_insert. case_decide; [intros [= <-]; done|apply KT].
  - by eapply timers_frame.
  - destruct KD as (ci & Hci & Hli). cbn. unfold idle_ok. rewrite lookup_insert. case_decide; eauto.
  - split; cbn; unfold run_unique; intros; rewrite lookup_insert in *; case_decide; simplify_eq; eauto.
  - cbn. intros Hpf. rewrite lookup_insert. case_decide; [eauto|]. by apply KL, Hp.
Qed.

(** The same without a request for a switch. *)
Lemma KInv_step_same k m t x c c' h' b' r' m' :
  KInv k m t -> g_taskCBArray k !! x = Some c -> tcb_step k t x c c' ->
  SInv (g_idleTaskID k) h' (<[x := c']> (g_taskCBArray k)) b' m' ->
  m' !! SwtmrSortLink = m !! SwtmrSortLink -> (pendSV k = false -> x = t -> live c') ->
  KInv (upd h' (<[x := c']> (g_taskCBArray k)) b' r' k) m' t.
Proof.
  intros HK Hc Hs HI Hm Hl. assert (X := KInv_step k m t x c c' h' b' r' m' (pendSV k) HK Hc Hs HI Hm id Hl).
  by destruct k.
Qed.

(** A request for a switch. *)
Lemma KInv_pend k m t : KInv k m t -> KInv (set_pendSV (λ _, true) k) m t.
Proof. by intros []. Qed.

Lemma schedule_wp k m t (Q : unit -> Kernel -> Prop) :
  KInv k m t -> (∀ p, (g_losTaskLock k = 0 -> p = true) -> KInv (set_pendSV (λ _, p) k) m t ->
    Q tt (set_pendSV (λ _, p) k)) -> wp LOS_Schedule Q k.
Proof.
  intros HK HQ. unfold LOS_Schedule, OsCheckKernelRunning. wp_steps. rewrite (ki_on _ _ _ HK).
  destruct (Z.eqb_spec (g_losTaskLock k) 0) as [E|E]; cbn [andb when].
  - unfold ArchTaskSchedule. wp_steps. apply HQ; [done|]. by apply KInv_pend.
  - apply wp_ret. specialize (HQ (pendSV k)). destruct k. by apply HQ.
Qed.

(** The request that follows an operation that blocks the running task. *)
Lemma schedule_block_wp k m t (Q : unit -> Kernel -> Prop) :
  KInv (set_pendSV (λ _, true) k) m t -> g_losTaskLock k = 0 ->
  Q tt (set_pendSV (λ _, true) k) -> wp LOS_Schedule Q k.
Proof.
  intros HK Hl HQ. unfold LOS_Schedule, OsCheckKernelRunning. wp_steps. assert (Hon := ki_on _ _ _ HK).
  cbn in Hon. rewrite Hon, Hl. cbn [andb when Z.eqb]. unfold ArchTaskSchedule. by wp_steps.
Qed.

(** Fields the invariant does not mention. *)
Lemma KInv_sysMem k m t f : KInv k m t -> KInv (set_sysMem f k) m t.
Proof. by intros []. Qed.
Lemma KInv_eventIDs k m t f : KInv k m t -> KInv (set_eventIDs f k) m t.
Proof. by intros []. Qed.
Lemma KInv_minor k m t x c c' :
  KInv k m t -> g_taskCBArray k !! x = Some c -> taskStatus c' = taskStatus c -> priority c' = priority c ->
  responseTime c' = responseTime c -> startTime c' = startTime c -> taskID c' = taskID c ->
  KInv (set_g_taskCBArray (insert x c') k) m t.
Proof.
  intros HK Hc E1 E2 E3 E4 E5.
  assert (Eh : ∀ f, has c' f = has c f) by (intros; unfold has; by rewrite E1).
  assert (Ei : live c' <-> live c) by (unfold live; by rewrite !Eh).
  assert (X : KInv (upd (dlists k) (<[x := c']> (g_taskCBArray k)) (g_queueBitmap k) (g_schedResponseTime k) k) m t).
  { eapply KInv_step_same; [done..| | |done|].
    - destruct HK as [KI KT KC KM (ci & Hci & Hli) KR [(c0 & Hc0 & []) Hu] KO KL].
      split; rewrite ?Eh, ?Ei; try done.
      + by apply (KT x).
      + intros ->. by simplify_eq.
      + intros ->. simplify_eq. split; rewrite ?Eh, ?E3, ?E4; done.
    - eapply SInv_tcb; [apply HK|done|done|].
      pose proof (si_tasks _ _ _ _ _ (ki_sched _ _ _ HK) _ _ Hc) as [].
      split; rewrite ?Eh, ?E2, ?E3, ?E5; done.
    - intros Hp ->. destruct (ki_live _ _ _ HK Hp) as (c0 & ? & ?). simplify_eq. by apply Ei. }
  by destruct k.
Qed.

Lemma live_wakes c : live c -> has c OS_TASK_STATUS_PEND = true -> False.
Proof. intros (_ & _ & E & _) ?. congruence. Qed.

(** ** Waking *)

Lemma wake_flags idle slice sliceMin c (c' := wake_tcb idle slice sliceMin c) :
  has c' OS_TASK_STATUS_PEND_TIME = false /\ has c' OS_TASK_STATUS_RUNNING = has c OS_TASK_STATUS_RUNNING /\
  has c' OS_TASK_STATUS_UNUSED = has c OS_TASK_STATUS_UNUSED /\ startTime c' = startTime c /\
  priority c' = priority c /\ taskID c' = taskID c /\
  (has c OS_TASK_STATUS_RUNNING = true -> has c' OS_TASK_STATUS_READY = has c OS_TASK_STATUS_READY /\
     (responseTime c' = responseTime c \/ responseTime c' = OS_SORT_LINK_INVALID_TIME)).
Proof.
  subst c'. unfold wake_tcb. destruct (has (set_taskStatus (clrf OS_TASK_STATUS_PEND) c) OS_TASK_STATUS_PEND_TIME) eqn:E.
  all: destruct (negb _ && negb _) eqn:Ew; [unfold enq_tcb; destruct (_ || _)|]; unfold has in *; cbn in *; bits.
  all: rewrite ?E; split_and!; auto; intros Hr; rewrite Hr, andb_false_r in Ew; done.
Qed.

Lemma wake_step k m t x c :
  KInv k m t -> g_taskCBArray k !! x = Some c -> has c OS_TASK_STATUS_PEND = true ->
  tcb_step k t x c (wake_tcb (g_idleTaskID k) (g_schedTimeSlice k) (g_schedTimeSliceMin k) c).
Proof.
  intros HK Hc Hp. destruct (wake_flags (g_idleTaskID k) (g_schedTimeSlice k) (g_schedTimeSliceMin k) c)
    as (F1 & F2 & F3 & F4 & _ & _ & F5). split; [congruence| |congruence|congruence|].
  - intros ->. destruct (ki_idle _ _ _ HK) as (ci & Hci & Hli). simplify_eq. by destruct (live_wakes c).
  - intros ->. destruct (ki_run _ _ _ HK) as [(c0 & Hc0 & [R1 R2 R3 R4]) _]. simplify_eq.
    destruct (F5 R1) as [F6 F7]. split; [congruence|congruence|by rewrite F4|].
    intros Hu. rewrite F3 in Hu. destruct F7 as [->| ->]; auto.
Qed.

Lemma kinv_wake k m t x c hd0 l0 :
  KInv k m t -> g_taskCBArray k !! x = Some c -> has c OS_TASK_STATUS_PEND = true ->
  m !! hd0 = Some l0 -> PendList x ∈ l0 ->
  wp (OsSchedTaskWake x) (λ _ k', ∃ h' b' r' m',
    let c' := wake_tcb (g_idleTaskID k) (g_schedTimeSlice k) (g_schedTimeSliceMin k) c in
    k' = upd h' (<[x := c']> (g_taskCBArray k)) b' r' k /\ KInv k' m' t /\
    m' !! hd0 = Some (list_remove_all (PendList x) l0) /\ wake_frame c hd0 m m') k.
Proof.
  intros HK Hc Hp Hl Hin. rewrite (upd_id k) at 1.
  eapply wp_mono; [by eapply (wake_wp _ _ _ _ k m x c hd0 l0 (ki_sched _ _ _ HK))|].
  intros [] k' (h' & b' & r' & m' & -> & HI & Hm & Hf). exists h', b', r', m'. split_and!; [done| |done..].
  eapply KInv_step_same; [done..|by eapply wake_step|done| |].
  - assert (hd0 <> SwtmrSortLink); [|by apply Hf].
    intros ->. pose proof (si_tasks _ _ _ _ _ (ki_sched _ _ _ HK) _ _ Hc) as Hok.
    destruct (ok_home _ _ _ _ Hok SwtmrSortLink) as [(? & _)|[[? _]|[[?|?] _]]]; [by exists l0|done..].
  - intros Hpf ->. destruct (ki_live _ _ _ HK Hpf) as (c0 & ? & ?). simplify_eq. by destruct (live_wakes c).
Qed.

(** ** Waiting *)

Lemma wait_step k m t c ticks :
  KInv k m t -> g_taskCBArray k !! t = Some c -> t <> g_idleTaskID k -> tcb_step k t t c (wait_tcb ticks c).
Proof.
  intros HK Hc Hi. destruct (ki_run _ _ _ HK) as [(c0 & Hc0 & [R1 R2 R3 R4]) _]. simplify_eq.
  unfold wait_tcb. destruct (ticks =? LOS_WAIT_FOREVER); split; try done; unfold has in *; cbn; bits; try done.
  all: intros _; split; unfold has; cbn; bits; auto.
Qed.

Lemma kinv_wait k m t c hd l ticks :
  KInv k m t -> g_taskCBArray k !! t = Some c -> live c -> t <> g_idleTaskID k ->
  wait_head hd = true -> m !! hd = Some l ->
  wp (OsSchedTaskWait hd ticks) (λ _ k', ∃ h',
    k' = upd h' (<[t := wait_tcb ticks c]> (g_taskCBArray k)) (g_queueBitmap k) (g_schedResponseTime k) k /\
    KInv (set_pendSV (λ _, true) k') (<[hd := l ++ [PendList t]]> m) t) k.
Proof.
  intros HK Hc Hlv Hi Hw Hl. destruct (ki_run _ _ _ HK) as [(c0 & Hc0 & HR) _]. simplify_eq.
  destruct (id Hlv) as (L1 & L2 & L3 & L4 & L5 & L6). rewrite (upd_id k) at 1.
  eapply wp_mono; [by eapply (wait_wp _ _ _ _ k m t c hd l ticks (ki_sched _ _ _ HK) (ki_task _ _ _ HK)); [| apply HR|..]|].
  intros [] k' (h' & -> & HI). exists h'. split; [done|].
  eapply KInv_step; [done..|by eapply wait_step|done| |done|done].
  apply lookup_insert_ne. by intros ->.
Qed.

(** ** Waiting calls *)

(** The call is allowed to wait: not from an interrupt, not with the scheduler
    locked, not from a system task, and not from the idle task. *)
Definition may_wait (k : Kernel) (t : Z) (c : LosTaskCB) : Prop :=
  pendSV k = false /\ intActive k = false /\ g_losTaskLock k = 0 /\ t <> g_idleTaskID k /\
  g_taskCBArray k !! t = Some c /\ has c OS_TASK_FLAG_SYSTEM_TASK = false.

(** A call on a queue, which a system task may wait in too. *)
Definition can_wait (k : Kernel) (t : Z) (c : LosTaskCB) : Prop :=
  pendSV k = false /\ intActive k = false /\ g_losTaskLock k = 0 /\ t <> g_idleTaskID k /\ g_taskCBArray k !! t = Some c.

Lemma can_wait_live k m t c : KInv k m t -> can_wait k t c -> live c.
Proof.
  intros HK (Hp & _ & _ & _ & Hc). destruct (ki_live _ _ _ HK Hp) as (c0 & ? & ?). by simplify_eq.
Qed.
Lemma may_wait_live k m t c : KInv k m t -> may_wait k t c -> live c.
Proof. intros HK (? & ? & ? & ? & ? & _). eapply can_wait_live; [done|]. by split_and!. Qed.

(** ** Wait lists *)

Lemma wait_member idle h T b m n hd :
  SInv idle h T b m -> home m n hd -> wait_head hd = true ->
  ∃ x c, n = PendList x /\ T !! x = Some c /\ has c OS_TASK_STATUS_PEND = true.
Proof.
  intros HI Hn Hw. pose proof (si_members _ _ _ _ _ HI _ _ Hn) as Hm. destruct n; try (cbn in Hm; by subst); cbn in Hm.
  - destruct Hm as [c Hc]. exists t, c. pose proof (si_tasks _ _ _ _ _ HI _ _ Hc) as Hok.
    by destruct (ok_home _ _ _ _ Hok _ Hn) as [(-> & _)|[[_ ?]|[[-> | ->] _]]].
  - destruct Hm as [c Hc]. pose proof (si_tasks _ _ _ _ _ HI _ _ Hc) as Hok.
    by destruct (ok_sort_home _ _ _ _ Hok _ Hn) as [-> _].
Qed.

(** The first task of a wait list. *)
Lemma first_waiter k m t hd n l :
  KInv k m t -> wait_head hd = true -> m !! hd = Some (n :: l) ->
  ∃ x c, n = PendList x /\ g_taskCBArray k !! x = Some c /\ has c OS_TASK_STATUS_PEND = true /\
    list_remove_all (PendList x) (PendList x :: l) = l.
Proof.
  intros HK Hw Hl. destruct (wait_member _ _ _ _ _ n hd (ki_sched _ _ _ HK)) as (x & c & -> & Hc & Hp); [|done|].
  { eexists. split; [done|]. left. }
  exists x, c. split_and!; try done. apply list_remove_all_head.
  pose proof (rings_nodup _ (rep_rings _ _ (si_rep _ _ _ _ _ (ki_sched _ _ _ HK))) _ _ Hl) as Hnd.
  by apply NoDup_cons in Hnd as [_ ?].
Qed.

(** What the calls read of a wait list. *)
Lemma kinv_empty k m t hd l (Q : bool -> Kernel -> Prop) :
  KInv k m t -> m !! hd = Some l -> Q (bool_decide (l = [])) k -> wp (onlist (LOS_ListEmpty hd)) Q k.
Proof. intros HK Hl HQ. eapply wp_ListEmpty; [apply (ki_sched _ _ _ HK)|done|done]. Qed.

Lemma kinv_first k m t hd n l (Q : Node -> Kernel -> Prop) :
  KInv k m t -> m !! hd = Some (n :: l) -> Q n k -> wp (nextNode hd) Q k.
Proof.
  intros HK Hl HQ. eapply wp_nextNode; [|exact HQ].
  apply (Rep_first _ _ _ _ (si_rep _ _ _ _ _ (ki_sched _ _ _ HK)) Hl).
Qed.

(** The rest of the state. *)
Lemma KInv_sem k m t f : KInv k m t -> KInv (set_g_allSem f k) m t.
Proof. by intros []. Qed.
Lemma KInv_mux k m t f : KInv k m t -> KInv (set_g_allMux f k) m t.
Proof. by intros []. Qed.
Lemma KInv_queue k m t f : KInv k m t -> KInv (set_g_allQueue f k) m t.
Proof. by intros []. Qed.

(** A list operation outside the scheduler's lists. *)
Lemma KInv_list k m t h' m' :
  KInv k m t -> SInv (g_idleTaskID k) h' (g_taskCBArray k) (g_queueBitmap k) m' ->
  m' !! SwtmrSortLink = m !! SwtmrSortLink -> KInv (set_dlists (λ _, h') k) m' t.
Proof. intros [] HI Hm. split; try done. by eapply timers_frame. Qed.

(** Moving one object's node between the lists of unused and used objects. *)
Lemma SInv_objects idle h T b m h' m' :
  SInv idle h T b m -> Rep h' m' ->
  (∀ hd, hd = TaskSortLink \/ hd = FreeTask \/ hd = TaskRecycle \/ (∃ p, hd = PriQueue p) -> m' !! hd = m !! hd) ->
  (∀ x hd, home m' (PendList x) hd <-> home m (PendList x) hd) ->
  (∀ x hd, home m' (SortNode x) hd <-> home m (SortNode x) hd) ->
  (∀ hd l, m' !! hd = Some l -> item_node hd = false) ->
  (∀ n hd, home m' n hd -> home m n hd \/ member_ok T n hd) ->
  SInv idle h' T b m'.
Proof.
  intros HI HR Hs Hp Ho Hh Hm. split; try done.
  - destruct (si_bitmap _ _ _ _ _ HI) as [Hb Hq]. split; [done|]. intros p Hpp. rewrite Hs by eauto 6. auto.
  - rewrite Hs by auto. apply HI.
  - rewrite Hs by auto. apply HI.
  - rewrite Hs by auto. apply HI.
  - intros n hd [X|X]%Hm; [by apply (si_members _ _ _ _ _ HI)|done].
  - intros x c Hc. eapply task_ok_frame; [apply Hp|apply Ho|]. by apply (si_tasks _ _ _ _ _ HI).
Qed.

(** ** Free lists of semaphores, mutexes and queues *)

Definition free_head (u : Node) : bool := match u with UnusedSem | UnusedMux | FreeQueue => true | _ => false end.
(** The node that links an unused object. *)
Definition object_node (n u : Node) : bool :=
  match n, u with
  | SemList _, UnusedSem | MuxList _, UnusedMux | QueueWrite _, FreeQueue => true
  | _, _ => false
  end.

Lemma free_home m u l n hd x :
  free_head u = true -> m !! u = Some l -> (n = PendList x \/ n = SortNode x) -> PendList x ∉ l -> SortNode x ∉ l ->
  ∀ l', PendList x ∉ l' -> SortNode x ∉ l' -> home (<[u := l']> m) n hd <-> home m n hd.
Proof.
  intros Hu Hl Hn H1 H2 l' H3 H4. rewrite home_update. split.
  - intros [[-> Hin]|[_ ?]]; [|done]. exfalso. destruct Hn as [-> | ->]; done.
  - intros Hh. destruct (decide (hd = u)) as [->|]; [exfalso|by right].
    destruct Hh as (l0 & Hl0 & Hin). simplify_eq. destruct Hn as [-> | ->]; done.
Qed.

Lemma free_members idle h T b m u l x :
  SInv idle h T b m -> free_head u = true -> m !! u = Some l -> (PendList x ∉ l) /\ (SortNode x ∉ l).
Proof.
  intros HI Hu Hl. split; intros Hin; assert (Hh : home m _ u) by (by exists l).
  - pose proof (si_members _ _ _ _ _ HI _ _ Hh) as [c Hc]. pose proof (si_tasks _ _ _ _ _ HI _ _ Hc) as Hok.
    by destruct (ok_home _ _ _ _ Hok _ Hh) as [(-> & _)|[[Hw ?]|[[-> | ->] _]]]; [|destruct u| |].
  - pose proof (si_members _ _ _ _ _ HI _ _ Hh) as [c Hc]. pose proof (si_tasks _ _ _ _ _ HI _ _ Hc) as Hok.
    by destruct (ok_sort_home _ _ _ _ Hok _ Hh) as [-> _].
Qed.

(** The first unused object is taken. *)
Lemma kinv_take k m t u n l :
  KInv k m t -> free_head u = true -> m !! u = Some (n :: l) ->
  wp (onlist (LOS_ListDelete n)) (λ _ k', ∃ h', k' = set_dlists (λ _, h') k /\ KInv k' (<[u := l]> m) t /\
    ~ owned (<[u := l]> m) n) k.
Proof.
  intros HK Hu Hl. pose proof (ki_sched _ _ _ HK) as HI. apply wp_onlist.
  eapply wp_mono; [eapply Rep_delete; [apply HI|done|left]|]. intros [] h' HR.
  pose proof (rings_nodup _ (rep_rings _ _ (si_rep _ _ _ _ _ HI)) _ _ Hl) as Hnd.
  rewrite list_remove_all_head in HR by (by apply NoDup_cons in Hnd as [_ ?]).
  assert (Hmem : ∀ x, (PendList x ∉ l) /\ (SortNode x ∉ l)).
  { intros x. destruct (free_members _ _ _ _ _ _ _ x HI Hu Hl). set_solver. }
  exists h'. split_and!; [by destruct k| |].
  - apply KInv_list with m; [done| |rewrite lookup_insert_ne; [done|by intros ->]].
    eapply SInv_objects; [exact HI|done|..].
    + intros hd Hhd. apply lookup_insert_ne. intros <-. destruct Hhd as [->|[->|[->|[? ->]]]]; done.
    + intros x hd. destruct (free_members _ _ _ _ _ _ _ x HI Hu Hl), (Hmem x). eapply free_home; eauto.
    + intros x hd. destruct (free_members _ _ _ _ _ _ _ x HI Hu Hl), (Hmem x). eapply free_home; eauto.
    + intros hd l' [[<- <-]|[_ ?]]%lookup_insert_Some; [by destruct u|by eapply (si_heads _ _ _ _ _ HI)].
    + intros n' hd [[-> Hin]|[_ ?]]%home_update; left; [|done]. exists (n :: l). split; [done|by right].
  - intros (hd & l' & [[<- <-]|[Hne Hm]]%lookup_insert_Some & Hin).
    + apply NoDup_cons in Hnd as [? [? _]%NoDup_cons]. set_solver.
    + apply Hne. eapply (rings_disj _ (rep_rings _ _ (si_rep _ _ _ _ _ HI))); [exact Hl|exact Hm| |exact Hin]. set_solver.
Qed.

(** The wait list of a new object. *)
Lemma kinv_init k m t n :
  KInv k m t -> wait_head n = true -> ~ owned m n ->
  wp (onlist (LOS_ListInit n)) (λ _ k', ∃ h', k' = set_dlists (λ _, h') k /\ KInv k' (<[n := []]> m) t) k.
Proof.
  intros HK Hw Hno. pose proof (ki_sched _ _ _ HK) as HI. apply wp_onlist.
  eapply wp_mono; [eapply Rep_init; [apply HI|by left]|]. intros [] h' HR.
  assert (Hh : ∀ n' hd, home (<[n := []]> m) n' hd <-> home m n' hd).
  { intros n' hd. rewrite home_update. split; [intros [[_ Hin%elem_of_nil]|[_ ?]]; done|].
    intros Hh. right. split; [|done]. intros ->. destruct Hh as (l & Hl & _). apply Hno. exists n, l. set_solver. }
  exists h'. split; [by destruct k|].
  apply KInv_list with m; [done| |rewrite lookup_insert_ne; [done|by intros ->]].
  eapply SInv_objects; [exact HI|done|..].
  - intros hd Hhd. apply lookup_insert_ne. intros <-. destruct Hhd as [->|[->|[->|[? ->]]]]; done.
  - intros x hd. apply Hh.
  - intros x hd. apply Hh.
  - intros hd l' [[<- <-]|[_ ?]]%lookup_insert_Some; [by destruct n|by eapply (si_heads _ _ _ _ _ HI)].
  - intros n' hd ?%Hh. by left.
Qed.

(** An object whose wait list is empty is given back. *)
Lemma kinv_give k m t u n l :
  KInv k m t -> free_head u = true -> object_node n u = true -> m !! u = Some l -> m !! n = Some [] ->
  wp (onlist (LOS_ListAdd u n)) (λ _ k', ∃ h', k' = set_dlists (λ _, h') k /\
    KInv k' (<[u := n :: l]> (delete n m)) t) k.
Proof.
  intros HK Hu Ho Hl Hn. pose proof (ki_sched _ _ _ HK) as HI. apply wp_onlist.
  assert (Hne : u <> n) by (intros ->; by destruct n).
  eapply wp_mono; [eapply Rep_add_stale; [apply HI|done..]|]. intros [] h' HR.
  assert (Hh : ∀ n' hd, home (<[u := n :: l]> (delete n m)) n' hd <-> home m n' hd \/ n' = n /\ hd = u).
  { intros n' hd. rewrite home_update. split.
    - intros [[-> [->|Hin]%elem_of_cons]|[_ (l' & [_ Hl']%lookup_delete_Some & Hin)]]; [auto|left; by exists l|left; by exists l'].
    - intros [(l' & Hl' & Hin)|[-> ->]]; [|left; set_solver]. destruct (decide (hd = u)) as [->|Hd].
      + left. simplify_eq. set_solver.
      + right. split; [done|]. exists l'. split; [|done]. rewrite lookup_delete_ne; [done|]. intros ->.
        simplify_eq. by apply elem_of_nil in Hin. }
  exists h'. split; [by destruct k|].
  apply KInv_list with m; [done| |rewrite lookup_insert_ne, lookup_delete_ne; [done|by destruct n|by destruct u]].
  eapply SInv_objects; [exact HI|done|..].
  - intros hd Hhd. rewrite lookup_insert_ne, lookup_delete_ne; [done|..]; intros <-;
      destruct Hhd as [->|[->|[->|[? ->]]]]; try done; destruct u; done.
  - intros x hd. rewrite Hh. split; [|by left]. intros [?|[<- ->]]; [done|]. by destruct u.
  - intros x hd. rewrite Hh. split; [|by left]. intros [?|[<- ->]]; [done|]. by destruct u.
  - intros hd l' [[<- <-]|[_ [_ ?]%lookup_delete_Some]]%lookup_insert_Some; [by destruct u|by eapply (si_heads _ _ _ _ _ HI)].
  - intros n' hd [?|[-> ->]]%Hh; [by left|right]. by destruct n, u.
Qed.

(** ** Priorities *)

Lemma modify_flags idle slice sliceMin prio c (c' := modify_tcb idle slice sliceMin prio c) :
  has c' OS_TASK_STATUS_RUNNING = has c OS_TASK_STATUS_RUNNING /\
  has c' OS_TASK_STATUS_UNUSED = has c OS_TASK_STATUS_UNUSED /\
  has c' OS_TASK_STATUS_PEND = has c OS_TASK_STATUS_PEND && negb (has c OS_TASK_STATUS_READY) /\
  has c' OS_TASK_STATUS_PEND_TIME = has c OS_TASK_STATUS_PEND_TIME && negb (has c OS_TASK_STATUS_READY) /\
  has c' OS_TASK_FLAG_SYSTEM_TASK = has c OS_TASK_FLAG_SYSTEM_TASK /\
  (live c -> live c') /\ priority c' = prio /\ taskID c' = taskID c.
Proof.
  subst c'. unfold modify_tcb, live, enq_tcb. destruct (has c OS_TASK_STATUS_READY) eqn:E;
    [destruct (_ || _)|]; unfold has in *; cbn; bits; rewrite ?andb_false_r, ?andb_true_r; tauto.
Qed.

Lemma modify_step k m t x c prio :
  KInv k m t -> g_taskCBArray k !! x = Some c ->
  tcb_step k t x c (modify_tcb (g_idleTaskID k) (g_schedTimeSlice k) (g_schedTimeSliceMin k) prio c).
Proof.
  intros HK Hc.
  destruct (modify_flags (g_idleTaskID k) (g_schedTimeSlice k) (g_schedTimeSliceMin k) prio c)
    as (F1 & F2 & F3 & F4 & _ & F5 & _ & _). split; [|intros ->|congruence|congruence|intros ->].
  - rewrite F3, F4. destruct (has c OS_TASK_STATUS_READY); [by rewrite !andb_false_r|].
    rewrite !andb_true_r. by apply (ki_timed _ _ _ HK x).
  - destruct (ki_idle _ _ _ HK) as (ci & Hci & Hli). simplify_eq. auto.
  - destruct (ki_run _ _ _ HK) as [(c0 & Hc0 & [R1 R2 R3 R4]) _]. simplify_eq. unfold modify_tcb.
    rewrite R2. by split.
Qed.

Lemma kinv_modify k m t x c prio :
  KInv k m t -> g_taskCBArray k !! x = Some c -> 0 <= prio < 32 ->
  wp (OsSchedModifyTaskSchedParam x prio) (λ need k', ∃ h' b' m',
    let c' := modify_tcb (g_idleTaskID k) (g_schedTimeSlice k) (g_schedTimeSliceMin k) prio c in
    need = has c OS_TASK_STATUS_READY || has c OS_TASK_STATUS_RUNNING /\
    k' = upd h' (<[x := c']> (g_taskCBArray k)) b' (g_schedResponseTime k) k /\ KInv k' m' t /\
    ∀ hd, (∀ p, hd <> PriQueue p) -> m' !! hd = m !! hd) k.
Proof.
  intros HK Hc Hp. rewrite (upd_id k) at 1.
  eapply wp_mono; [by eapply (modify_wp _ _ _ _ k m x c prio (ki_sched _ _ _ HK))|].
  intros need k' (h' & b' & m' & -> & -> & HI & Hf). exists h', b', m'. split_and!; [done..| |].
  - eapply KInv_step_same; [done..|by eapply modify_step|done|by apply Hf|].
    intros Hpf ->. destruct (ki_live _ _ _ HK Hpf) as (c0 & ? & ?). simplify_eq.
    by destruct (modify_flags (g_idleTaskID k) (g_schedTimeSlice k) (g_schedTimeSliceMin k) prio c) as (_ & _ & _ & _ & _ & F5 & _); auto.
  - intros hd Hd. apply Hf; apply Hd.
Qed.

(** ** The task switch and the expiry of timed waits *)

Lemma pendsv_wp k m run :
  2 <= LOSCFG_BASE_CORE_TICK_PER_SECOND -> KInv k m run ->
  wp ArchPendSV (λ _ k', ∃ m' new now, KInv k' m' new /\ pendSV k' = false /\
    g_oldTickTimerBase k <= now <= g_oldTickTimerBase k' /\ g_taskCBArray k' = switch_tasks k now run new /\
    highest (g_idleTaskID k) new (g_taskCBArray k') /\ queues_only m m') k.
Proof.
  intros Htps HK. unfold ArchPendSV. wp_steps.
  eapply wp_mono; [apply (switch_wp (set_pendSV (λ _, false) k) m run Htps); exact (KInv_pend k m run HK)|].
  intros sw k' (m' & new & now & -> & E1 & E2 & E3 & E4 & E5 & HK' & Hh & Hq).
  apply (wp_mono _ (λ _ k2, k2 = set_runTask (λ _, Some new) k')).
  - destruct (Z.eqb_spec run new) as [->|]; cbn [negb when].
    + apply wp_ret. destruct k'. cbn in *. by subst.
    + wp_steps. by rewrite E1.
  - intros [] k2 ->. exists m', new, now. split_and!; try done; cbn in *; try lia.
Qed.

(** C3: The task switch (PendSV) keeps the kernel invariant, clears the request, and selects a
    task such that no ready task has a higher priority; the control blocks change only as the
    switch from the old to the new task says. *)
Theorem pendsv_correct k m run :
  2 <= LOSCFG_BASE_CORE_TICK_PER_SECOND -> KInv k m run ->
  wp ArchPendSV (λ _ k', ∃ m' new now, KInv k' m' new /\ pendSV k' = false /\
    g_oldTickTimerBase k <= now <= g_oldTickTimerBase k' /\ g_taskCBArray k' = switch_tasks k now run new /\
    highest (g_idleTaskID k) new (g_taskCBArray k')) k.
Proof.
  intros Htps HK. eapply wp_mono; [by eapply pendsv_wp|]. intros [] k' (m' & new & now & ? & ? & ? & ? & ? & _). by exists m', new, now.
Qed.

Lemma expired_flags idle slice sliceMin c (c' := expired_tcb idle slice sliceMin c) :
  has c' OS_TASK_STATUS_RUNNING = has c OS_TASK_STATUS_RUNNING /\
  has c' OS_TASK_STATUS_UNUSED = has c OS_TASK_STATUS_UNUSED.
Proof.
  subst c'. unfold expired_tcb, timeout_tcb, enq_tcb.
  repeat match goal with |- context [if ?b then _ else _] => destruct b end; unfold has; cbn; by bits.
Qed.

(** A task that can run is not in the sorted list. *)
Lemma live_unsorted idle h T b m x c ls :
  SInv idle h T b m -> T !! x = Some c -> live c -> m !! TaskSortLink = Some ls -> SortNode x ∉ ls.
Proof.
  intros HI Hc (_ & _ & _ & Hd & Hp & _) Hls Hin.
  destruct (sort_member _ _ _ _ _ (SortNode x) HI) as (x' & c' & E & Hc' & _ & Hdp); [by exists ls|].
  simplify_eq. rewrite Hd, Hp in Hdp. done.
Qed.

Lemma running_unsorted k m t ls : KInv k m t -> m !! TaskSortLink = Some ls -> SortNode t ∉ ls.
Proof.
  intros HK Hls Hin. destruct (ki_run _ _ _ HK) as [(c & Hc & HR) _].
  destruct (sort_member _ _ _ _ _ (SortNode t) (ki_sched _ _ _ HK)) as (x & c' & E & Hc' & Hu & _); [by exists ls|].
  simplify_eq. pose proof (si_tasks _ _ _ _ _ (ki_sched _ _ _ HK) _ _ Hc) as Hok.
  destruct (ok_sort_home _ _ _ _ Hok TaskSortLink) as (_ & Hne & _); [by exists ls|]. by apply Hne, HR.
Qed.

(** The control blocks after the scan at time [now]. *)
Definition scanned (k : Kernel) (ls : list Node) (now x : Z) (c : LosTaskCB) : LosTaskCB :=
  if bool_decide (SortNode x ∈ ls) && (responseTime c <=? now)
  then expired_tcb (g_idleTaskID k) (g_schedTimeSlice k) (g_schedTimeSliceMin k) c else c.

(** The invariant after a scan. *)
Lemma KInv_scan k m t ls now h' T' b' r' m' :
  KInv k m t -> m !! TaskSortLink = Some ls ->
  (∀ x, T' !! x = scanned k ls now x <$> g_taskCBArray k !! x) ->
  SInv (g_idleTaskID k) h' T' b' m' -> timed_ok T' -> timers_ok k m' -> KInv (upd h' T' b' r' k) m' t.
Proof.
  intros HK Hls HT HI Ht Htm. pose proof (running_unsorted _ _ _ _ HK Hls) as Hrt.
  destruct HK as [KI KT KC KM (ci & Hci & Hli) KR [(c & Hc & HR) Hu] KO KL].
  assert (Hi : SortNode (g_idleTaskID k) ∉ ls) by exact (live_unsorted _ _ _ _ _ _ _ _ KI Hci Hli Hls).
  assert (HTt : T' !! t = Some c) by (rewrite HT, Hc; cbn; unfold scanned; by rewrite bool_decide_false).
  split; try done.
  - exists ci. split; [|done]. cbn. rewrite HT, Hci. cbn. unfold scanned. by rewrite bool_decide_false.
  - split; [by exists c|]. intros x cx. cbn. rewrite HT, fmap_Some. intros (c0 & Hc0 & ->). revert HT.
    unfold scanned. destruct (_ && _); [|intros _; by apply Hu].
    destruct (expired_flags (g_idleTaskID k) (g_schedTimeSlice k) (g_schedTimeSliceMin k) c0) as [-> ->]. intros _. by apply Hu.
  - intros Hp. destruct (KL Hp) as (c0 & Hc0 & Hl). simplify_eq. by exists c.
Qed.

(** ** The tick interrupt *)

(** Reading the clock and arming the timer keep the invariant. *)
Lemma KInv_arm k k' m t : KInv k m t -> armed k k' -> KInv k' m t.
Proof.
  intros HK (r & rid & tm & base & old & u & -> & Hc & Ho). destruct HK as [K1 K2 K3 K4 K5 K6 K7 K8 K9].
  split; try done. by eapply run_ok_mono.
Qed.

Lemma kinv_cycle k m t :
  KInv k m t ->
  wp LOS_SysCycleGet (λ now k', armed k k' /\ KInv k' m t /\ g_oldTickTimerBase k <= now /\ g_oldTickTimerBase k' = now) k.
Proof.
  intros HK. eapply wp_mono; [by apply cycle_wp, (ki_clock _ _ _ HK)|].
  intros now k' (tm & base & u & -> & Hk & Hn). assert (Ha := armed_clk _ _ _ _ _ Hk (proj1 Hn)).
  split_and!; [done|by eapply KInv_arm|lia|done].
Qed.

(** The end of a period moves the start of the period. *)
Lemma kinv_time_base k m t tm :
  KInv k m t -> timer_irq (g_sysTickTimer k) = Some tm ->
  wp OsUpdateSysTimeBase (λ _ k', KInv k' m t /\ ∃ tm' base, k' = set_g_tickTimerBaseUpdate (λ _, false)
    (set_g_tickTimerBase (λ _, base) (set_g_sysTickTimer (λ _, tm') k))) (set_g_sysTickTimer (λ _, tm) k).
Proof.
  intros HK Hi. pose proof (clock_range k (ki_clock _ _ _ HK)) as [Hb Ho].
  unfold OsUpdateSysTimeBase, getCycle. wp_step. apply wp_gets.
  change (g_tickTimerBaseUpdate (set_g_sysTickTimer _ k)) with (g_tickTimerBaseUpdate k).
  destruct (timer_getCycle tm) as [[time period] tm2] eqn:Eg.
  destruct (law_irq _ _ _ _ time period tm2 (ki_clock _ _ _ HK) Hi) as [Hok Hget].
  assert (HKt : ∀ tm' base, timer_ok tm' base (g_oldTickTimerBase k) ->
    KInv (set_g_tickTimerBaseUpdate (λ _, false) (set_g_tickTimerBase (λ _, base) (set_g_sysTickTimer (λ _, tm') k))) m t).
  { intros tm' base Hc. by destruct HK. }
  destruct (g_tickTimerBaseUpdate k); cbn [negb when].
  - wp_steps. split; [|by exists tm, (g_tickTimerBase k); destruct k]. specialize (HKt tm (g_tickTimerBase k) Hok). by destruct k.
  - do 3 apply wp_bind. apply wp_gets. change (g_sysTickTimer (set_g_sysTickTimer (λ _, tm) k)) with tm. rewrite Eg. wp_steps.
    destruct (Hget Eg) as (Hp & Hlt & Hok2). assert (Eu : u64 (g_tickTimerBase k + period) = g_tickTimerBase k + period) by (apply u64_id; lia).
    split; [|exists tm2, (u64 (g_tickTimerBase k + period)); by destruct k].
    specialize (HKt tm2 (u64 (g_tickTimerBase k + period))). rewrite Eu in HKt. specialize (HKt Hok2). rewrite <- Eu in HKt.
    by destruct k.
Qed.

Lemma armed_refl k : clock_ok k -> armed k k.
Proof.
  intros Hk. exists (g_schedResponseTime k), (g_schedResponseID k), (g_sysTickTimer k), (g_tickTimerBase k),
    (g_oldTickTimerBase k), (g_tickTimerBaseUpdate k). split_and!; [by destruct k|done|lia].
Qed.

(** Choosing the time of the next tick. *)
Lemma kinv_update_expire k m t : KInv k m t -> wp OsSchedUpdateExpireTime (λ _ k', armed k k') k.
Proof.
  intros HK. destruct (ki_run _ _ _ HK) as [(c & Hc & _) _]. unfold OsSchedUpdateExpireTime. wp_steps.
  destruct (_ || _); [apply wp_ret; by apply armed_refl, (ki_clock _ _ _ HK)|].
  wp_step. eapply wp_running; [apply HK|]. wp_step.
  assert (Hpm : wp pmMode (λ _ k', k' = k) k) by (unfold pmMode, OsIsPmMode; destruct LOSCFG_KERNEL_PM; by wp_steps).
  eapply wp_mono; [exact Hpm|]. intros pm k' ->. wp_step. eapply wp_tcb; [done|]. wp_steps.
  rewrite (upd_id k). eapply set_next_expire_wp; [apply HK..].
Qed.

(** The running task is charged for its time. *)
Lemma KInv_times k m t c c' :
  KInv k m t -> g_taskCBArray k !! t = Some c -> taskStatus c' = taskStatus c -> priority c' = priority c ->
  responseTime c' = responseTime c -> taskID c' = taskID c -> 0 <= startTime c' <= g_oldTickTimerBase k ->
  KInv (set_g_taskCBArray (insert t c') k) m t.
Proof.
  intros HK Hc E1 E2 E3 E5 Hs. set (c1 := set_startTime (λ _, startTime c') c).
  assert (HK1 : KInv (set_g_taskCBArray (insert t c1) k) m t).
  { assert (X : KInv (upd (dlists k) (<[t := c1]> (g_taskCBArray k)) (g_queueBitmap k) (g_schedResponseTime k) k) m t).
    { eapply KInv_step_same; [done..| | |done|].
      - destruct HK as [KI KT KC KM (ci & Hci & Hli) KR [(c0 & Hc0 & HR) Hu] KO KL].
        assert (c0 = c) as -> by congruence. split; try done.
        + exact (KT t c Hc).
        + intros Ei. rewrite <- Ei in Hci. assert (ci = c) as -> by congruence. exact Hli.
        + intros _. by destruct HR.
      - eapply SInv_tcb; [apply HK|done|done|]. by pose proof (si_tasks _ _ _ _ _ (ki_sched _ _ _ HK) _ _ Hc) as [].
      - intros Hp _. destruct (ki_live _ _ _ HK Hp) as (c0 & ? & ?). by simplify_eq. }
    by destruct k. }
  assert (E : set_g_taskCBArray (insert t c') k = set_g_taskCBArray (insert t c') (set_g_taskCBArray (insert t c1) k))
    by (destruct k; cbn; unfold set_g_taskCBArray; cbn; by rewrite insert_insert_eq).
  rewrite E. eapply KInv_minor; [exact HK1|apply lookup_insert_eq|done..].
Qed.

Lemma kinv_slice k m t c now :
  KInv k m t -> g_taskCBArray k !! t = Some c -> startTime c <= now <= g_oldTickTimerBase k -> 0 <= now ->
  wp (OsTimeSliceUpdate t now) (λ _ k', k' = set_g_taskCBArray (insert t (slice_tcb (g_idleTaskID k) now c)) k /\ KInv k' m t) k.
Proof.
  intros HK Hc Hs Hn. rewrite (upd_id k) at 1. eapply wp_mono; [eapply (slice_wp _ _ _ _ k m t c now (ki_sched _ _ _ HK) Hc); lia|].
  intros [] k' (-> & HI). split; [by destruct k|].
  assert (X : KInv (set_g_taskCBArray (insert t (slice_tcb (g_idleTaskID k) now c)) k) m t); [|by destruct k].
  eapply KInv_times; [done..| | | | |]; unfold slice_tcb; destruct (_ =? _); cbn; done || lia.
Qed.

(** ** The scan of the timed waits *)

Lemma scan_wp k m t ls :
  KInv k m t -> m !! TaskSortLink = Some ls ->
  wp OsSchedScanTimerList (λ need k', ∃ m' now, KInv k' m' t /\ g_oldTickTimerBase k <= now /\
    (∀ x, g_taskCBArray k' !! x = scanned k ls now x <$> g_taskCBArray k !! x) /\
    m' !! TaskSortLink = Some (scan_rest now ls (g_taskCBArray k)) /\ wait_shrink m m' /\
    need = scan_need now ls (g_taskCBArray k) /\ ∃ h T b r k0, k' = upd h T b r k0 /\ armed k k0) k.
Proof.
  intros HK Hls. unfold OsSchedScanTimerList. pose proof (ki_sched _ _ _ HK) as HI.
  wp_step. eapply kinv_empty; [done..|].
  destruct ls as [|n ls]; [rewrite bool_decide_true by done|rewrite bool_decide_false by done].
  { apply wp_ret. exists m, (g_oldTickTimerBase k). split_and!; [done..| |done|apply wait_shrink_refl|done|].
    2:{ eexists _, _, _, _, k. split; [by rewrite <- upd_id|by apply armed_refl, HK]. }
    intros x. unfold scanned. rewrite bool_decide_false by apply not_elem_of_nil. by destruct (g_taskCBArray k !! x). }
  wp_step. eapply kinv_first; [done..|]. wp_step.
  eapply wp_mono; [apply (cycle_wp k), HK|]. intros now k1 (tm & base & u & -> & Hk1 & Hnow).
  assert (HK1 : KInv (clk tm base now u k) m t).
  { destruct HK as [KI KT KC KM KD KR KU KO KL]. split; try done. eapply run_ok_mono; [done|]. cbn. lia. }
  wp_steps. assert (Hsz := Rep_ring_size _ _ _ _ (si_rep _ _ _ _ _ HI) Hls).
  rewrite (upd_id (clk tm base now u k)).
  eapply wp_mono; [eapply (scan_loop_wp _ (clk tm base now u k) now ls n _ false _ _ _ m); [apply HK1|apply HK|done|cbn in *; lia]|].
  intros need k2 (h2 & b2 & m2 & -> & -> & HI2 & Ht2 & Hl2 & Hs2).
  assert (Hlk : ∀ x, scan_tasks (g_idleTaskID k) (g_schedTimeSlice k) (g_schedTimeSliceMin k) now (n :: ls) (g_taskCBArray k) !! x =
    scanned k (n :: ls) now x <$> g_taskCBArray k !! x).
  { intros x. destruct (si_sorted _ _ _ _ _ HI) as (ls0 & Hls0 & Hsorted). simplify_eq.
    pose proof (rings_nodup _ (rep_rings _ _ (si_rep _ _ _ _ _ HI)) _ _ Hls) as [_ Hnd]%NoDup_cons.
    assert (Hall : Forall (λ n, ∃ t c, n = SortNode t /\ g_taskCBArray k !! t = Some c) (n :: ls)).
    { apply Forall_forall. intros y Hy. destruct (sort_member _ _ _ _ _ y HI) as (z & c & -> & Hc & _); [by eexists|]. eauto. }
    destruct (g_taskCBArray k !! x) as [c|] eqn:E; [by apply scan_tasks_lookup|]. by apply scan_tasks_none. }
  exists m2, now. split_and!; try done; [|lia|eexists _, _, _, _, _; split; [done|apply armed_clk; [done|lia]]]. eapply (KInv_scan _ m t (n :: ls) now); [exact HK1|done|exact Hlk|done|done|].
  eapply timers_frame; [apply HK|done|]. by apply Hs2.
Qed.

(** What is left of a sorted list is later than the scan. *)
Lemma scan_rest_late now ls T x c :
  StronglySorted (λ x y, task_key T x <= task_key T y) ls -> SortNode x ∈ scan_rest now ls T -> T !! x = Some c ->
  Forall (λ n, ∃ t c, n = SortNode t /\ T !! t = Some c) ls -> now < responseTime c.
Proof.
  intros Hs Hin Hc Hall. induction Hall as [|n ls (y & cy & -> & Hy) Hall IH]; [by apply not_elem_of_nil in Hin|].
  inversion Hs as [|? ? Hs' Hmin]; subst. cbn in Hin. rewrite Hy in Hin. destruct (Z.leb_spec (responseTime cy) now); [by apply IH|].
  apply elem_of_cons in Hin as [[= ->]|Hin]; [by assert (c = cy) as -> by congruence|].
  rewrite Forall_forall in Hmin. specialize (Hmin _ Hin). unfold task_key in Hmin. rewrite Hy, Hc in Hmin. cbn in Hmin. lia.
Qed.

Lemma scan_late_wp k m t ls :
  KInv k m t -> m !! TaskSortLink = Some ls ->
  wp OsSchedScanTimerList (λ _ k', ∃ m' ls', KInv k' m' t /\ m' !! TaskSortLink = Some ls' /\ wait_shrink m m' /\
    (∀ x c, SortNode x ∈ ls' -> g_taskCBArray k' !! x = Some c -> g_oldTickTimerBase k < responseTime c) /\
    g_taskCBArray k' !! t = g_taskCBArray k !! t /\ (∃ now, ∀ x, g_taskCBArray k' !! x = scanned k ls now x <$> g_taskCBArray k !! x) /\
    ∃ h T b r k0, k' = upd h T b r k0 /\ armed k k0) k.
Proof.
  intros HK Hls. eapply wp_mono; [by eapply scan_wp|]. intros need k' (m' & now & HK' & Hnow & HT & Hl & Hs & _ & Hf).
  exists m', (scan_rest now ls (g_taskCBArray k)). split_and!; try done; [| |by exists now].
  - intros x c Hin. rewrite HT, fmap_Some. intros (c0 & Hc0 & ->).
    destruct (si_sorted _ _ _ _ _ (ki_sched _ _ _ HK)) as (ls0 & Hls0 & Hsorted). simplify_eq.
    assert (Hlate : now < responseTime c0).
    { eapply scan_rest_late; [exact Hsorted|done|done|]. apply Forall_forall. intros y Hy.
      destruct (sort_member _ _ _ _ _ y (ki_sched _ _ _ HK)) as (z & c & -> & Hc & _); [by eexists|]. eauto. }
    unfold scanned. rewrite (proj2 (Z.leb_gt _ _) Hlate), andb_false_r. lia.
  - rewrite HT. unfold scanned. rewrite bool_decide_false by exact (running_unsorted _ _ _ _ HK Hls). by destruct (g_taskCBArray k !! t).
Qed.


(** ** What calls leave of the lists *)

(** Except for the list [hd0] and the queues of the scheduler, wait lists lose
    members and gain none, and other lists stay. *)
Definition lists_shrink (hd0 : Node) (m m' : gmap Node (list Node)) : Prop :=
  (∀ hd l, hd <> hd0 -> wait_head hd = true -> m !! hd = Some l -> ∃ l', m' !! hd = Some l' /\ l' `sublist_of` l) /\
  (∀ hd, hd <> hd0 -> wait_head hd = false -> hd <> TaskSortLink -> (∀ p, hd <> PriQueue p) -> m' !! hd = m !! hd) /\
  ∀ n hd, hd <> hd0 -> wait_head hd = true -> home m' n hd -> home m n hd.

(** Only lists whose head satisfies [P] change. *)
Definition lists_only (P : Node -> bool) (m m' : gmap Node (list Node)) : Prop := ∀ hd, P hd = false -> m' !! hd = m !! hd.
Lemma lists_only_refl P m : lists_only P m m.
Proof. done. Qed.
Lemma lists_only_insert P m m' n l : P n = true -> lists_only P m m' -> lists_only P m (<[n := l]> m').
Proof. intros Hn Hm hd Hh. rewrite lookup_insert_ne; [by apply Hm|]. by intros ->; rewrite Hn in Hh. Qed.
Lemma lists_only_delete P m m' n : P n = true -> lists_only P m m' -> lists_only P m (delete n m').
Proof. intros Hn Hm hd Hh. rewrite lookup_delete_ne; [by apply Hm|]. by intros ->; rewrite Hn in Hh. Qed.

Lemma lists_shrink_of hd0 m m' : wait_shrink m m' -> lists_shrink hd0 m m'.
Proof. intros (H1 & H2 & H3). split_and!; [intros hd l _; apply H1|intros hd _; apply H2|intros n hd _; apply H3]. Qed.
Lemma lists_shrink_refl hd0 m : lists_shrink hd0 m m.
Proof. apply lists_shrink_of, wait_shrink_refl. Qed.
Lemma lists_shrink_trans hd0 m1 m2 m3 : lists_shrink hd0 m1 m2 -> lists_shrink hd0 m2 m3 -> lists_shrink hd0 m1 m3.
Proof.
  intros (H1 & F1 & G1) (H2 & F2 & G2). split_and!; [|by intros; rewrite F2, F1|by auto].
  intros hd l Hne Hw Hl. destruct (H1 hd l Hne Hw Hl) as (l' & Hl' & Hs).
  destruct (H2 hd l' Hne Hw Hl') as (l'' & ? & ?). exists l''. split; [done|]. by etrans.
Qed.
Lemma lists_shrink_others hd0 m m' :
  (∀ hd, hd <> hd0 -> hd <> TaskSortLink -> (∀ p, hd <> PriQueue p) -> m' !! hd = m !! hd) -> lists_shrink hd0 m m'.
Proof.
  intros Hf. assert (Hf' : ∀ hd, hd <> hd0 -> wait_head hd = true -> m' !! hd = m !! hd)
    by (intros; apply Hf; [done|intros; by intros ->..]).
  split_and!; [|auto|]; [intros hd l Hne Hw Hl; exists l; by rewrite Hf'|]. intros n hd Hne Hw. unfold home. by rewrite Hf'.
Qed.
Lemma lists_shrink_insert hd0 m l : lists_shrink hd0 m (<[hd0 := l]> m).
Proof. apply lists_shrink_others. intros hd Hne _ _. by apply lookup_insert_ne. Qed.
Lemma lists_shrink_wake hd0 hd c m m' n l :
  wake_frame c hd m m' -> wait_head hd = true -> m !! hd = Some (n :: l) -> m' !! hd = Some l -> lists_shrink hd0 m m'.
Proof.
  intros Hf Hwh Hl Hl'. assert (Hf' : ∀ x, x <> hd -> wait_head x = true -> m' !! x = m !! x) by (intros; apply Hf; [done|by intros ->..]).
  split_and!.
  - intros x lx _ Hw Hx. destruct (decide (x = hd)) as [->|Hne].
    + exists l. split; [done|]. simplify_eq. by apply sublist_cons.
    + exists lx. by rewrite Hf'.
  - intros x _ Hw Ht Hp. apply Hf; [|done|done]. by intros ->; congruence.
  - intros y x _ Hw (lx & Hx & Hin). destruct (decide (x = hd)) as [->|Hne]; [|exists lx; by rewrite <- Hf'].
    exists (n :: l). split; [done|]. right. congruence.
Qed.
End KernelInv.
