(* ===== verification/Waits.v ===== *)
(** What an operation leaves of the waits of the other tasks: whether they wait,
    whether their wait has timed out, and the lists in which they wait. *)

From S2P Require Import Prelude Errno LosList Kernel Tick SortLink Sched SchedInv SchedTime SchedSwitch KernelInv.

(** A task waits; its last wait has timed out. *)
Definition waits (c : LosTaskCB) : bool * bool := (has c OS_TASK_STATUS_PEND, has c OS_TASK_STATUS_TIMEOUT).

Ltac waits_solve := unfold waits, has in *; cbn in *; bits; try congruence.

Lemma enq_waits idle slice sliceMin c : has c OS_TASK_STATUS_PEND = false -> waits (enq_tcb idle slice sliceMin c) = waits c.
Proof. intros Hp. unfold enq_tcb. destruct (_ || _); waits_solve. Qed.

Lemma wake_waits idle slice sliceMin c : waits (wake_tcb idle slice sliceMin c) = (false, has c OS_TASK_STATUS_TIMEOUT).
Proof.
  unfold wake_tcb, unsort_tcb. set (c1 := set_taskStatus (clrf OS_TASK_STATUS_PEND) c).
  assert (E1 : waits c1 = (false, has c OS_TASK_STATUS_TIMEOUT)) by (subst c1; waits_solve).
  set (c2 := if has c1 OS_TASK_STATUS_PEND_TIME then _ else _).
  assert (E2 : waits c2 = waits c1) by (subst c2; destruct (has c1 OS_TASK_STATUS_PEND_TIME); [waits_solve|done]).
  rewrite <- E1, <- E2. destruct (_ && _); [|done]. apply enq_waits. injection E1 as E1 _. injection E2 as E2 _. congruence.
Qed.

Lemma wait_waits ticks c : waits (wait_tcb ticks c) = (true, has c OS_TASK_STATUS_TIMEOUT).
Proof. unfold wait_tcb. destruct (_ =? _); waits_solve. Qed.

Lemma modify_waits idle slice sliceMin prio m x c :
  task_ok idle m x c -> waits (modify_tcb idle slice sliceMin prio c) = waits c.
Proof.
  intros Hok. unfold modify_tcb. destruct (has c OS_TASK_STATUS_READY) eqn:E; [|done].
  destruct (ok_ready _ _ _ _ Hok E) as (Hp & _). rewrite enq_waits; waits_solve.
Qed.

Lemma requeue_waits `{Platform} idle slice sliceMin clock c : waits (requeue_tcb idle slice sliceMin clock c) = waits c.
Proof.
  unfold requeue_tcb. destruct (has c (Z.lor _ _)); [done|]. destruct (has c OS_TASK_BLOCKED_STATUS) eqn:E; [done|].
  apply enq_waits. revert E. unfold has, OS_TASK_BLOCKED_STATUS. rewrite !test_lor. intros E.
  repeat (apply orb_false_iff in E as [E _]). done.
Qed.

Lemma slice_waits idle now c : waits (slice_tcb idle now c) = waits c.
Proof. unfold slice_tcb. by destruct (_ =? _). Qed.

(** The clock's time-out of a wait is recorded. *)
Lemma timeout_waits idle slice sliceMin c :
  waits (timeout_tcb idle slice sliceMin c) = (false, has c OS_TASK_STATUS_PEND || has c OS_TASK_STATUS_TIMEOUT).
Proof.
  unfold timeout_tcb. set (c1 := set_taskStatus (clrf _) c). set (c2 := if has c OS_TASK_STATUS_PEND then _ else c1).
  assert (E : waits c2 = (false, has c OS_TASK_STATUS_PEND || has c OS_TASK_STATUS_TIMEOUT)).
  { subst c1 c2. destruct (has c OS_TASK_STATUS_PEND) eqn:Hp; waits_solve. }
  destruct (has c OS_TASK_STATUS_SUSPEND); [done|]. rewrite enq_waits; [done|]. by injection E.
Qed.

Lemma switch_waits `{Platform} k now run new x :
  waits <$> switch_tasks k now run new !! x = waits <$> g_taskCBArray k !! x.
Proof.
  assert (A : ∀ f y (T : gmap Z LosTaskCB), (∀ c, waits (f c) = waits c) -> waits <$> alter f y T !! x = waits <$> T !! x).
  { intros f y T Hf. destruct (decide (x = y)) as [->|]; [|by rewrite lookup_alter_ne].
    rewrite lookup_alter_eq. destruct (T !! y); cbn; by rewrite ?Hf. }
  unfold switch_tasks, dispatch, handover. rewrite A; [|intros c; unfold unready; destruct (has c OS_TASK_STATUS_READY); waits_solve].
  assert (B : ∀ c, waits (requeue_tcb (g_idleTaskID k) (g_schedTimeSlice k) (g_schedTimeSliceMin k) (g_sysClock k)
    (slice_tcb (g_idleTaskID k) now c)) = waits c).
  { intros c. by rewrite requeue_waits, slice_waits. }
  destruct (_ =? _); cbv zeta; rewrite !A; try done; intros c; waits_solve.
Qed.

Section Waits.
Context `{TimerLaws}.

Lemma scanned_waits k ls now x c : waits (scanned k ls now x c) = waits c \/ waits (scanned k ls now x c) = (false, true).
Proof.
  unfold scanned. destruct (_ && _); [|by left]. unfold expired_tcb. rewrite timeout_waits. unfold waits.
  change (has (unsort_tcb c)) with (has c). destruct (has c OS_TASK_STATUS_PEND); auto.
Qed.

(** A task that runs again after its wait has timed out removes the mark. *)
Lemma clear_timeout_wp k m t c :
  KInv k m t -> pendSV k = false -> g_taskCBArray k !! t = Some c ->
  wp (clear_status t OS_TASK_STATUS_TIMEOUT) (λ _ k', KInv k' m t /\
    g_taskCBArray k' = <[t := set_taskStatus (clrf OS_TASK_STATUS_TIMEOUT) c]> (g_taskCBArray k) /\ g_allQueue k' = g_allQueue k) k.
Proof.
  intros HK Hp Hc. destruct (ki_live _ _ _ HK Hp) as (c' & Hc' & Hlive). simplify_eq.
  pose proof (si_tasks _ _ _ _ _ (ki_sched _ _ _ HK) _ _ Hc) as Hok. rewrite (upd_id k).
  eapply wp_mono; [eapply (clear_status_wp _ _ _ _ k m t c _ (ki_sched _ _ _ HK) Hc); task_solve Hok|].
  intros [] k' (-> & HI). split_and!; [|done..]. eapply KInv_step_same; [done..| |exact HI|done|].
  - destruct (ki_run _ _ _ HK) as [(c0 & Hc0 & [R1 R2 R3 R4]) _]. assert (c0 = c) as -> by congruence. split.
    + pose proof (ki_timed _ _ _ HK t c Hc) as Ht. unfold has in *. cbn. bits. auto.
    + intros E. destruct Hlive as (L1 & L2 & L3 & L4 & L5 & L6). repeat split; unfold has in *; cbn; bits; done.
    + unfold has. cbn. by bits.
    + unfold has. cbn. by bits.
    + intros _. split; [unfold has in *; cbn; by bits|unfold has in *; cbn; by bits|done|].
      intros Hu. apply R4. revert Hu. unfold has. cbn. by bits.
  - intros _ _. destruct Hlive as (L1 & L2 & L3 & L4 & L5 & L6). repeat split; unfold has in *; cbn; bits; done.
Qed.

(** An operation of task [who] on the object with the wait list [hd0]: lists
    other than [hd0] and those of the scheduler are kept, and so are the waits of
    the other tasks, except those in [hd0]. *)
Record others_kept (who : option Z) (hd0 : Node) (k : Kernel) (m : gmap Node (list Node)) (k' : Kernel)
    (m' : gmap Node (list Node)) : Prop := {
  kept_lists : ∀ hd, hd <> hd0 -> hd <> TaskSortLink -> (∀ p, hd <> PriQueue p) -> m' !! hd = m !! hd;
  kept_waits : ∀ x c, g_taskCBArray k !! x = Some c -> Some x <> who -> ∃ c', g_taskCBArray k' !! x = Some c' /\
    (waits c' = waits c \/ wait_head hd0 = true /\ home m (PendList x) hd0);
}.

Lemma kept_shrink who hd0 k m k' m' : others_kept who hd0 k m k' m' -> lists_shrink hd0 m m'.
Proof. intros [Hl _]. by apply lists_shrink_others. Qed.

Lemma kept_same who hd0 k m k' : g_taskCBArray k' = g_taskCBArray k -> others_kept who hd0 k m k' m.
Proof. intros E. split; [done|]. rewrite E. intros x c Hx _. eauto. Qed.
Lemma kept_refl who hd0 k m : others_kept who hd0 k m k m.
Proof. by apply kept_same. Qed.

(** One control block changes. *)
Lemma kept_update who hd0 k m k' m' x c c' :
  (∀ hd, hd <> hd0 -> hd <> TaskSortLink -> (∀ p, hd <> PriQueue p) -> m' !! hd = m !! hd) ->
  g_taskCBArray k !! x = Some c -> g_taskCBArray k' = <[x := c']> (g_taskCBArray k) ->
  Some x = who \/ waits c' = waits c \/ wait_head hd0 = true /\ home m (PendList x) hd0 ->
  others_kept who hd0 k m k' m'.
Proof.
  intros Hl Hx E Hc. split; [done|]. intros y cy Hy Hne. rewrite E, lookup_insert. case_decide as D; [|eauto].
  subst y. simplify_eq. exists c'. split; [done|]. destruct Hc as [?|?]; [congruence|done].
Qed.

(** The running task starts to wait. *)
Lemma kept_wait k m k' t c c' hd l :
  g_taskCBArray k !! t = Some c -> g_taskCBArray k' = <[t := c']> (g_taskCBArray k) ->
  others_kept (Some t) hd k m k' (<[hd := l]> m).
Proof. intros Hc E. eapply kept_update; [|done..|by left]. intros hd' Hne _ _. by apply lookup_insert_ne. Qed.

(** The waiting task [x] is woken. *)
Lemma kept_wake who k m k' m' x c c' cw hd l :
  g_taskCBArray k !! x = Some c -> g_taskCBArray k' = <[x := c']> (g_taskCBArray k) -> wake_frame cw hd m m' ->
  wait_head hd = true -> m !! hd = Some l -> PendList x ∈ l -> others_kept who hd k m k' m'.
Proof.
  intros Hc E Hf Hw Hl Hin. eapply kept_update; [|done..|]; [intros hd' ? ? ?; by apply Hf|].
  right. right. split; [done|]. by exists l.
Qed.

(** After a step that keeps the waits and the lists. *)
Lemma kept_after who hd0 k m k1 m1 k' m' :
  others_kept None TaskSortLink k m k1 m1 -> others_kept who hd0 k1 m1 k' m' -> others_kept who hd0 k m k' m'.
Proof.
  intros [L1 W1] [L2 W2]. split.
  - intros hd Hne Ht Hp. rewrite L2 by done. by apply L1.
  - intros x c Hx Hw. destruct (W1 x c Hx) as (c1 & Hc1 & [E1|[? _]]); [done| |done].
    destruct (W2 x c1 Hc1 Hw) as (c' & Hc' & [E2|[Hh Hm]]); exists c'; (split; [done|]); [left; congruence|right].
    split; [done|]. destruct Hm as (l & Hl & Hin). exists l. rewrite <- (L1 hd0); [done|..]; intros; by intros ->.
Qed.
End Waits.
