(* ===== verification/Check.v ===== *)
(** Decision procedures for the invariants, with which they are established
    for concrete kernel states by evaluation. *)

From S2P Require Import Prelude Errno LosList Kernel Tick SortLink Sched SchedInv SchedTime SchedSwitch.

#[global] Instance from_option_dec {A} (P : A -> Prop) (Q : Prop) `{∀ x, Decision (P x)} `{Decision Q} o :
  Decision (from_option P Q o).
Proof. destruct o; cbn; apply _. Defined.

(** ** Lists *)

#[global] Instance DL_LIST_eq_dec : EqDecision (LOS_DL_LIST Node).
Proof. solve_decision. Defined.
#[global] Instance links_dec h x l y : Decision (@links Node _ _ h x l y).
Proof. revert x. induction l as [|z l IH]; intros x; cbn; apply _. Defined.
#[global] Instance home_dec (m : gmap Node (list Node)) n hd : Decision (home m n hd).
Proof.
  unfold home. destruct (m !! hd) as [l|]; [destruct (decide (n ∈ l)); [left|right]|right].
  - by exists l.
  - by intros (l' & [= <-] & ?).
  - by intros (l' & ? & _).
Defined.

(** The nodes of all rings, and the rings a node is a member of. *)
Definition ring_nodes (m : gmap Node (list Node)) : list Node :=
  concat ((λ p : Node * list Node, p.1 :: p.2) <$> map_to_list m).
Definition homes (m : gmap Node (list Node)) (n : Node) : list Node :=
  omap (λ p : Node * list Node, if bool_decide (n ∈ p.2) then Some p.1 else None) (map_to_list m).

Lemma elem_of_ring_nodes m n : n ∈ ring_nodes m <-> owned m n.
Proof.
  unfold ring_nodes, owned. rewrite list_elem_of_In, in_concat. split.
  - intros (r & Hr & Hn). apply list_elem_of_In, list_elem_of_fmap in Hr as ([hd l] & -> & Hm).
    apply elem_of_map_to_list in Hm. exists hd, l. split; [done|]. by apply list_elem_of_In.
  - intros (hd & l & Hm & Hn). exists (hd :: l). split; [|by apply list_elem_of_In].
    apply list_elem_of_In, list_elem_of_fmap. exists (hd, l). split; [done|]. by apply elem_of_map_to_list.
Qed.

Lemma elem_of_homes m n hd : hd ∈ homes m n <-> home m n hd.
Proof.
  unfold homes. rewrite list_elem_of_omap. split.
  - intros ([hd' l] & Hm & Hif). apply elem_of_map_to_list in Hm. case_bool_decide; [|done].
    cbn in *. simplify_eq. by exists l.
  - intros (l & Hm & Hn). exists (hd, l). split; [by apply elem_of_map_to_list|]. cbn.
    by rewrite bool_decide_true.
Qed.

Definition rep_checked (h : gmap Node (LOS_DL_LIST Node)) (m : gmap Node (list Node)) : Prop :=
  NoDup (ring_nodes m) /\ map_Forall (λ hd l, links h hd l hd) m /\
  map_Forall (λ n v, v = node_null \/ n ∈ ring_nodes m) h.
#[global] Instance rep_checked_dec h m : Decision (rep_checked h m).
Proof. apply _. Defined.

Lemma concat_disjoint {A} (L : list (list A)) i j l1 l2 x :
  NoDup (concat L) -> L !! i = Some l1 -> L !! j = Some l2 -> x ∈ l1 -> x ∈ l2 -> i = j.
Proof.
  revert i j. induction L as [|l L IH]; intros i j Hnd Hi Hj H1 H2; [done|]. cbn in Hnd.
  apply NoDup_app in Hnd as (_ & Hd & Hnd).
  assert (Hc : ∀ k l', L !! k = Some l' -> x ∈ l' -> x ∈ concat L).
  { intros k l' Hk Hx. apply list_elem_of_In, in_concat. exists l'.
    split; [|by apply list_elem_of_In]. apply list_elem_of_In, list_elem_of_lookup. eauto. }
  destruct i as [|i], j as [|j]; cbn in *; simplify_eq; [done|exfalso; eapply Hd; eauto..|].
  f_equal. eauto.
Qed.

Lemma concat_NoDup_elem {A} (L : list (list A)) l : NoDup (concat L) -> l ∈ L -> NoDup l.
Proof.
  induction L as [|l' L IH]; intros Hnd Hl; [by apply elem_of_nil in Hl|]. cbn in Hnd.
  apply NoDup_app in Hnd as (? & _ & ?). apply elem_of_cons in Hl as [->|]; auto.
Qed.

Lemma rep_check_sound h m : rep_checked h m -> Rep h m.
Proof.
  intros (Hnd & Hl & Hh). unfold ring_nodes in Hnd.
  assert (Hin : ∀ hd l, m !! hd = Some l -> ∃ i, map_to_list m !! i = Some (hd, l) /\
    ((λ p, p.1 :: p.2) <$> map_to_list m) !! i = Some (hd :: l)).
  { intros hd l Hm. apply elem_of_map_to_list, list_elem_of_lookup in Hm as [i Hi]. exists i.
    by rewrite list_lookup_fmap, Hi. }
  split; [split| |].
  - intros hd l (i & _ & Hi)%Hin. eapply concat_NoDup_elem; [done|]. apply list_elem_of_lookup. eauto.
  - intros hd1 l1 hd2 l2 n (i & Hi & Hi')%Hin (j & Hj & Hj')%Hin H1 H2.
    assert (i = j) as <- by (by eapply concat_disjoint). congruence.
  - exact Hl.
  - intros n Hn. unfold node_at. destruct (h !! n) as [v|] eqn:E; [|done].
    destruct (Hh _ _ E) as [->|Ho]; [done|]. by rewrite elem_of_ring_nodes in Ho.
Qed.

(** ** Tasks *)

Section task.
Context (idle : Z) (m : gmap Node (list Node)).
Definition task_checked (t : Z) (c : LosTaskCB) : Prop :=
  (taskID c = idle <-> t = idle) /\
  (has c OS_TASK_STATUS_READY = true ->
    has c OS_TASK_STATUS_PEND = false /\ has c OS_TASK_STATUS_DELAY = false /\
    has c OS_TASK_STATUS_PEND_TIME = false /\ has c OS_TASK_STATUS_SUSPEND = false /\
    has c OS_TASK_STATUS_UNUSED = false /\ has c OS_TASK_STATUS_EXIT = false) /\
  (has c OS_TASK_STATUS_UNUSED || has c OS_TASK_STATUS_EXIT = true ->
    has c OS_TASK_STATUS_PEND = false /\ has c OS_TASK_STATUS_DELAY = false /\
    has c OS_TASK_STATUS_PEND_TIME = false) /\
  (has c OS_TASK_STATUS_DELAY = true -> has c OS_TASK_STATUS_PEND = false) /\
  has c OS_TASK_FLAG_FREEZE = false /\
  (has c OS_TASK_STATUS_UNUSED = false -> 0 <= priority c < 32) /\
  Forall (λ hd, (hd = PriQueue (priority c) /\ has c OS_TASK_STATUS_READY = true /\ t <> idle) \/
    (wait_head hd = true /\ has c OS_TASK_STATUS_PEND = true) \/
    ((hd = FreeTask \/ hd = TaskRecycle) /\ has c OS_TASK_STATUS_UNUSED = true)) (homes m (PendList t)) /\
  (has c OS_TASK_STATUS_READY = true -> t <> idle -> home m (PendList t) (PriQueue (priority c))) /\
  (has c OS_TASK_STATUS_PEND = true -> Exists (λ hd, wait_head hd = true) (homes m (PendList t))) /\
  Forall (λ hd, hd = TaskSortLink /\ responseTime c <> OS_SORT_LINK_INVALID_TIME /\
    has c OS_TASK_STATUS_DELAY || has c OS_TASK_STATUS_PEND_TIME = true) (homes m (SortNode t)) /\
  (has c OS_TASK_STATUS_UNUSED = false -> responseTime c <> OS_SORT_LINK_INVALID_TIME ->
    home m (SortNode t) TaskSortLink).
#[global] Instance task_checked_dec t c : Decision (task_checked t c).
Proof. apply _. Defined.

Lemma task_check_sound t c : task_checked t c -> task_ok idle m t c.
Proof.
  intros (H1 & H2 & H3 & H4 & H5 & H6 & H7 & H8 & H9 & H10 & H11).
  rewrite Forall_forall in H7, H10. split; try done.
  - intros hd Hh%elem_of_homes. by apply H7.
  - intros Hp%H9. apply Exists_exists in Hp as (hd & Hh%elem_of_homes & ?). eauto.
  - intros hd Hh%elem_of_homes. by apply H10.
Qed.
End task.

(** ** The scheduler's data *)

#[global] Instance member_ok_dec (T : gmap Z LosTaskCB) n hd : Decision (member_ok T n hd).
Proof. unfold member_ok. destruct n; apply _. Defined.

Section sched.
Context (idle : Z) (h : gmap Node (LOS_DL_LIST Node)) (T : gmap Z LosTaskCB) (b : Z) (m : gmap Node (list Node)).
Definition sched_checked : Prop :=
  rep_checked h m /\
  (0 <= b < 2 ^ 32 /\ Forall (λ p, from_option (λ l, Z.testbit b (31 - p) = negb (bool_decide (l = []))) False
     (m !! PriQueue p)) (seqZ 0 32)) /\
  from_option (StronglySorted (λ x y, task_key T x <= task_key T y)) False (m !! TaskSortLink) /\
  map_Forall (λ hd l, item_node hd = false /\ Forall (λ n, member_ok T n hd) l) m /\
  is_Some (m !! FreeTask) /\ is_Some (m !! TaskRecycle) /\
  map_Forall (λ t c, task_checked idle m t c) T.
#[global] Instance sched_checked_dec : Decision sched_checked.
Proof. unfold sched_checked. apply _. Defined.

Lemma sched_check_sound : sched_checked -> SInv idle h T b m.
Proof.
  intros (Hr & (Hb & Hq) & Hs & Hm & Hf & Hy & Ht). split; try done.
  - by apply rep_check_sound.
  - split; [done|]. intros p Hp. rewrite Forall_forall in Hq. specialize (Hq p).
    rewrite elem_of_seqZ in Hq. specialize (Hq ltac:(lia)). destruct (m !! PriQueue p) as [l|]; [|done]. eauto.
  - destruct (m !! TaskSortLink) as [ls|]; [|done]. eauto.
  - intros hd l Hl. by destruct (Hm _ _ Hl).
  - intros n hd (l & Hl & Hn). destruct (Hm _ _ Hl) as [_ Hall]. rewrite Forall_forall in Hall. auto.
  - intros t c Hc. by apply task_check_sound, Ht.
Qed.
End sched.

(** ** The running kernel *)

#[global] Instance live_dec c : Decision (live c).
Proof. unfold live. apply _. Defined.

Section kernel.
Context `{TimerLaws} (k : Kernel) (m : gmap Node (list Node)) (t : Z).
Definition kernel_checked : Prop :=
  sched_checked (g_idleTaskID k) (dlists k) (g_taskCBArray k) (g_queueBitmap k) m /\
  map_Forall (λ _ c, has c OS_TASK_STATUS_PEND_TIME = true -> has c OS_TASK_STATUS_PEND = true) (g_taskCBArray k) /\
  from_option (Forall (λ n, from_option (λ i, is_Some (g_swtmrCBArray k !! i)) False
    (match n with SwtmrNode i => Some i | _ => None end))) False (m !! SwtmrSortLink) /\
  from_option live False (g_taskCBArray k !! g_idleTaskID k) /\
  runTask k = Some t /\
  from_option (λ c, has c OS_TASK_STATUS_RUNNING = true /\ has c OS_TASK_STATUS_READY = false /\
    0 <= startTime c <= g_oldTickTimerBase k /\
    (has c OS_TASK_STATUS_UNUSED = false -> responseTime c = OS_SORT_LINK_INVALID_TIME)) False (g_taskCBArray k !! t) /\
  map_Forall (λ t' c, has c OS_TASK_STATUS_RUNNING = true -> has c OS_TASK_STATUS_UNUSED = false -> t' = t)
    (g_taskCBArray k) /\
  g_taskScheduled k = true /\ (pendSV k = false -> from_option live False (g_taskCBArray k !! t)).
#[global] Instance kernel_checked_dec : Decision kernel_checked.
Proof. unfold kernel_checked. apply _. Defined.

Lemma kernel_check_sound : kernel_checked -> clock_ok k -> KInv k m t.
Proof.
  intros (Hs & Ht & Hw & Hi & Hr & Hc & Hu & Hon & Hl) Hk. split; try done.
  - by apply sched_check_sound.
  - unfold timers_ok. destruct (m !! SwtmrSortLink) as [lw|]; [|done]. exists lw. split; [done|].
    eapply Forall_impl; [exact Hw|]. intros n Hn. destruct n; cbn in Hn; try done. destruct Hn as [w ?]. eauto.
  - unfold idle_ok. destruct (g_taskCBArray k !! g_idleTaskID k) as [c|]; [|done]. eauto.
  - split; [|exact Hu]. destruct (g_taskCBArray k !! t) as [c|]; [|done]. exists c. split; [done|].
    by destruct Hc as (? & ? & ? & ?).
  - intros Hp%Hl. destruct (g_taskCBArray k !! t) as [c|]; [eauto|done].
Qed.
End kernel.

(** ** Reading the rings from the memory *)

(** The ring of [head], at most [fuel] members. *)
Fixpoint walk (h : gmap Node (LOS_DL_LIST Node)) (fuel : nat) (head n : Node) : list Node :=
  match fuel, pstNext (node_at h n) with
  | S fuel, Some n' => if bool_decide (n' = head) then [] else n' :: walk h fuel head n'
  | _, _ => []
  end.
Definition read_ring (h : gmap Node (LOS_DL_LIST Node)) (hd : Node) (m : gmap Node (list Node)) : gmap Node (list Node) :=
  if bool_decide (pstNext (node_at h hd) = None \/ hd ∈ ring_nodes m) then m
  else <[hd := walk h (size h) hd hd]> m.

(** The rings of the kernel's own lists, then those of the objects in use. *)
Definition rings_of (h : gmap Node (LOS_DL_LIST Node)) : gmap Node (list Node) :=
  let m := foldr (read_ring h) ∅ ((PriQueue <$> seqZ 0 32) ++
    [FreeTask; TaskRecycle; TaskSortLink; SwtmrSortLink; UnusedSem; UnusedMux; FreeQueue]) in
  foldr (read_ring h) m (filter (λ n, item_node n = false) (map_to_list h).*1).
