(* ===== verification/Sem.v ===== *)
(** Semaphores (src/kernel/src/los_sem.c). *)

From S2P Require Import Prelude Errno LosList Kernel Tick SortLink Sched SchedInv SchedTime SchedSwitch KernelInv Waits.

Definition OS_SEM_UNUSED : Z := 0.
Definition OS_SEM_USED : Z := 1.
Definition OS_SEM_COUNTING_MAX_COUNT : Z := 0xFFFF.
Definition OS_SEM_BINARY_MAX_COUNT : Z := 1.
(** [sizeof(LosSemCB)] with 32-bit pointers. *)
Definition sizeof_LosSemCB : Z := 16.

Section Sem.
Context `{Platform}.

(** One iteration of the loop that links every block into the free list. *)
Definition OsSemInit_body (index : Z) : M Kernel unit :=
  modify (set_g_allSem (insert index
    (set_semStat (λ _, OS_SEM_UNUSED) (set_semID (λ _, index) (fresh_LosSemCB index))))) ;;;
  onlist (LOS_ListTailInsert UnusedSem (SemList index)).

Definition OsSemInit : M Kernel Z :=
  onlist (LOS_ListInit UnusedSem) ;;;
  if LOSCFG_BASE_IPC_SEM_LIMIT =? 0 then mret LOS_ERRNO_SEM_MAXNUM_ZERO
  else
    let* pool := gets sysMem in
    let '(p, pool') := LOS_MemAlloc (LOSCFG_BASE_IPC_SEM_LIMIT * sizeof_LosSemCB) pool in
    modify (set_sysMem (λ _, pool')) ;;;
    match p with
    | None => mret LOS_ERRNO_SEM_NO_MEMORY
    | Some _ => for_each OsSemInit_body (seqZ 0 LOSCFG_BASE_IPC_SEM_LIMIT) ;;; mret LOS_OK
    end.

(** The second result is what is written to [*semHandle]; [semHandle] says that
    the pointer is not NULL. *)
Definition OsSemCreate (count maxCount : Z) (semHandle : bool) : M Kernel (Z * option Z) :=
  if negb semHandle then mret (LOS_ERRNO_SEM_PTR_NULL, None)
  else if count >? maxCount then mret (LOS_ERRNO_SEM_OVERFLOW, None)
  else
    let* empty := onlist (LOS_ListEmpty UnusedSem) in
    if (empty : bool) then mret (LOS_ERRNO_SEM_ALL_BUSY, None)
    else
      let* unusedSem := nextNode UnusedSem in
      onlist (LOS_ListDelete unusedSem) ;;;
      let* semCreated := of_option (GET_SEM_LIST unusedSem) in
      mod_sem semCreated (set_semCount (λ _, count)) ;;;
      mod_sem semCreated (set_semStat (λ _, OS_SEM_USED)) ;;;
      mod_sem semCreated (set_maxSemCount (λ _, maxCount)) ;;;
      onlist (LOS_ListInit (SemList semCreated)) ;;;
      let* c := sem semCreated in
      mret (LOS_OK, Some (semID c)).

Definition LOS_SemCreate (count : Z) (semHandle : bool) : M Kernel (Z * option Z) :=
  OsSemCreate count OS_SEM_COUNTING_MAX_COUNT semHandle.

Definition LOS_BinarySemCreate (count : Z) (semHandle : bool) : M Kernel (Z * option Z) :=
  OsSemCreate count OS_SEM_BINARY_MAX_COUNT semHandle.

Definition LOS_SemDelete (semHandle : Z) : M Kernel Z :=
  if semHandle >=? LOSCFG_BASE_IPC_SEM_LIMIT then mret LOS_ERRNO_SEM_INVALID
  else
    let* semDeleted := sem semHandle in
    if semStat semDeleted =? OS_SEM_UNUSED then mret LOS_ERRNO_SEM_INVALID
    else
      let* empty := onlist (LOS_ListEmpty (SemList semHandle)) in
      if negb empty then mret LOS_ERRNO_SEM_PENDED
      else
        onlist (LOS_ListAdd UnusedSem (SemList semHandle)) ;;;
        mod_sem semHandle (set_semStat (λ _, OS_SEM_UNUSED)) ;;;
        mret LOS_OK.

Definition OsSemValidCheck (semPended : Z) : M Kernel Z :=
  let* s := sem semPended in
  if semStat s =? OS_SEM_UNUSED then mret LOS_ERRNO_SEM_INVALID
  else
    let* active := gets intActive in
    if (active : bool) then mret LOS_ERRNO_SEM_PEND_INTERR
    else
      let* lock := gets g_losTaskLock in
      if negb (lock =? 0) then mret LOS_ERRNO_SEM_PEND_IN_LOCK
      else
        let* run := running in
        let* c := tcb run in
        if test (taskStatus c) OS_TASK_FLAG_SYSTEM_TASK then mret LOS_ERRNO_SEM_PEND_IN_SYSTEM_TASK
        else mret LOS_OK.

(** What the waiting task does when it runs again. *)
Definition LOS_SemPend_resume (runningTask : Z) : M Kernel Z :=
  let* c := tcb runningTask in
  if test (taskStatus c) OS_TASK_STATUS_TIMEOUT then
    clear_status runningTask OS_TASK_STATUS_TIMEOUT ;;;
    mret LOS_ERRNO_SEM_TIMEOUT
  else mret LOS_OK.

Definition LOS_SemPend (semHandle timeout : Z) : M Kernel (Proc Z) :=
  if semHandle >=? LOSCFG_BASE_IPC_SEM_LIMIT then returns LOS_ERRNO_SEM_INVALID
  else
    let* retErr := OsSemValidCheck semHandle in
    if negb (retErr =? LOS_OK) then returns retErr
    else
      let* runningTask := running in
      let* semPended := sem semHandle in
      if semCount semPended >? 0 then
        mod_sem semHandle (set_semCount (λ n, u16 (n - 1))) ;;;
        returns LOS_OK
      else if timeout =? 0 then returns LOS_ERRNO_SEM_UNAVAILABLE
      else
        mod_tcb runningTask (set_taskSem (λ _, Some semHandle)) ;;;
        OsSchedTaskWait (SemList semHandle) timeout ;;;
        block_then (LOS_SemPend_resume runningTask).

Definition LOS_SemPost (semHandle : Z) : M Kernel Z :=
  if semHandle >=? LOSCFG_BASE_IPC_SEM_LIMIT then mret LOS_ERRNO_SEM_INVALID
  else
    let* semPosted := sem semHandle in
    if semStat semPosted =? OS_SEM_UNUSED then mret LOS_ERRNO_SEM_INVALID
    else if maxSemCount semPosted =? semCount semPosted then mret LOS_ERRNO_SEM_OVERFLOW
    else
      let* empty := onlist (LOS_ListEmpty (SemList semHandle)) in
      (if negb empty then
         let* first := nextNode (SemList semHandle) in
         let* resumedTask := of_option (OS_TCB_FROM_PENDLIST first) in
         mod_tcb resumedTask (set_taskSem (λ _, None)) ;;;
         OsSchedTaskWake resumedTask ;;;
         LOS_Schedule
       else mod_sem semHandle (set_semCount (λ n, u16 (n + 1)))) ;;;
      mret LOS_OK.

(** The second result is what is written to [*currVal]. *)
Definition LOS_SemGetValue (semHandle : Z) : M Kernel (Z * option Z) :=
  if semHandle >=? LOSCFG_BASE_IPC_SEM_LIMIT then mret (LOS_ERRNO_SEM_INVALID, None)
  else
    let* s := sem semHandle in
    mret (0, Some (semCount s)).

End Sem.

(** ** Correctness *)

#[local] Opaque LOS_ListAdd LOS_ListTailInsert LOS_ListDelete LOS_ListInit LOS_ListEmpty.

(** The state of semaphore [i]: an unused one is in the list of unused ones; one
    in use has a count within its bounds, and no task waits while the count is
    positive. *)
Record sem_ok (m : gmap Node (list Node)) (i : Z) (s : LosSemCB) : Prop := {
  sem_id_ok : semID s = i;
  sem_unused_ok : semStat s = OS_SEM_UNUSED -> home m (SemList i) UnusedSem;
  sem_count_ok : semStat s <> OS_SEM_UNUSED ->
    0 <= semCount s <= maxSemCount s /\ 0 < maxSemCount s <= OS_SEM_COUNTING_MAX_COUNT;
  sem_list_ok : semStat s <> OS_SEM_UNUSED ->
    ∃ l, m !! SemList i = Some l /\ (0 < semCount s -> l = []);
}.

Section SemProofs.
Context `{TimerLaws}.

Record SemInv (k : Kernel) (m : gmap Node (list Node)) : Prop := {
  si_sems : ∀ i s, g_allSem k !! i = Some s -> sem_ok m i s;
  si_all : ∀ i, 0 <= i < LOSCFG_BASE_IPC_SEM_LIMIT -> is_Some (g_allSem k !! i);
  si_unused : ∃ l, m !! UnusedSem = Some l /\
    Forall (λ n, ∃ i s, n = SemList i /\ g_allSem k !! i = Some s /\ semStat s = OS_SEM_UNUSED) l;
}.

(** Waking and timing out tasks keeps the invariant. *)
Lemma sem_ok_frame m m' i s :
  sem_ok m i s -> (home m (SemList i) UnusedSem -> home m' (SemList i) UnusedSem) ->
  (∀ l, m !! SemList i = Some l -> ∃ l', m' !! SemList i = Some l' /\ (0 < semCount s -> l = [] -> l' = [])) ->
  sem_ok m' i s.
Proof.
  intros [S1 S2 S3 S4] Hu Hf. split; [done|auto|done|]. intros Hs. destruct (S4 Hs) as (l & Hl & He).
  destruct (Hf _ Hl) as (l' & Hl' & ?). exists l'. auto.
Qed.

Lemma SemInv_frame k k' m m' :
  SemInv k m -> g_allSem k' = g_allSem k -> m' !! UnusedSem = m !! UnusedSem ->
  (∀ i s l, g_allSem k !! i = Some s -> m !! SemList i = Some l ->
     ∃ l', m' !! SemList i = Some l' /\ (0 < semCount s -> l = [] -> l' = [])) -> SemInv k' m'.
Proof.
  intros [S1 S2 S3] Hk Hu Hf. split; rewrite ?Hk, ?Hu; [|done..].
  intros i s Hs. eapply sem_ok_frame; [by apply S1| |by intros; eapply Hf].
  intros (l & Hl & Hin). exists l. by rewrite Hu.
Qed.

(** The wait list of a semaphore in use. *)
Definition sem_waiting (k : Kernel) (m : gmap Node (list Node)) (i : Z) (s : LosSemCB) (l : list Node) : Prop :=
  0 <= i < LOSCFG_BASE_IPC_SEM_LIMIT /\ g_allSem k !! i = Some s /\ semStat s <> OS_SEM_UNUSED /\ m !! SemList i = Some l.

(** Changing the count of one semaphore. *)
Lemma SemInv_count k m i s l n :
  SemInv k m -> sem_waiting k m i s l -> 0 <= n <= maxSemCount s -> (0 < n -> l = []) ->
  SemInv (set_g_allSem (insert i (set_semCount (λ _, n) s)) k) m.
Proof.
  intros [S1 S2 S3] (Hi & Hs & Hu & Hl) Hn He. split; cbn.
  - intros j s' Hj. rewrite lookup_insert in Hj. case_decide; [|by apply S1]. simplify_eq.
    destruct (S1 _ _ Hs) as [T1 T2 T3 T4]. split; cbn; [done|done|intros _; destruct (T3 Hu); lia|]. eauto.
  - intros j Hj. rewrite lookup_insert. case_decide; [by eexists|]. by apply S2.
  - destruct S3 as (l0 & Hl0 & Hall). exists l0. split; [done|]. eapply Forall_impl; [exact Hall|].
    intros x (j & s' & -> & Hj & Hst). exists j, s'. split_and!; [done| |done].
    rewrite lookup_insert_ne; [done|]. intros ->. congruence.
Qed.

Lemma sem_valid_wp k m t c i s l (Q : Z -> Kernel -> Prop) :
  KInv k m t -> sem_waiting k m i s l -> may_wait k t c -> Q LOS_OK k -> wp (OsSemValidCheck i) Q k.
Proof.
  intros HK (_ & Hs & Hu & _) (_ & Hint & Hlock & _ & Hc & Hsys) HQ. unfold OsSemValidCheck.
  wp_step. eapply wp_sem; [done|]. rewrite (proj2 (Z.eqb_neq _ _) Hu). wp_steps. rewrite Hint.
  wp_steps. rewrite Hlock. cbn. wp_steps. eapply wp_running; [apply HK|]. wp_step. eapply wp_tcb; [done|].
  fold (has c OS_TASK_FLAG_SYSTEM_TASK). rewrite Hsys. by wp_steps.
Qed.


Lemma sem_pend_wp k m t c i s l timeout :
  KInv k m t -> SemInv k m -> sem_waiting k m i s l -> may_wait k t c ->
  wp (LOS_SemPend i timeout) (λ p k', ∃ m', KInv k' m' t /\ SemInv k' m' /\ others_kept (Some t) (SemList i) k m k' m' /\
    if 0 <? semCount s then
      p = Done LOS_OK /\ m' = m /\ k' = set_g_allSem (insert i (set_semCount (λ n, n - 1) s)) k
    else if timeout =? 0 then p = Done LOS_ERRNO_SEM_UNAVAILABLE /\ m' = m /\ k' = k
    else p = Blocked (resuming (LOS_SemPend_resume t)) /\ pendSV k' = true /\
      m' = <[SemList i := l ++ [PendList t]]> m /\ g_allSem k' = g_allSem k /\
      g_taskCBArray k' = <[t := wait_tcb timeout (set_taskSem (λ _, Some i) c)]> (g_taskCBArray k)) k.
Proof.
  intros HK HS Hw Hmay. pose proof Hw as (Hi & Hs & Hu & Hl). pose proof (may_wait_live _ _ _ _ HK Hmay) as Hlive.
  destruct Hmay as (Hp & Hint & Hlock & Hidle & Hc & Hsys).
  destruct (sem_count_ok _ _ _ (si_sems _ _ HS _ _ Hs) Hu) as (Hcnt & Hmax).
  destruct (sem_list_ok _ _ _ (si_sems _ _ HS _ _ Hs) Hu) as (l' & Hl' & He). simplify_eq.
  unfold LOS_SemPend. destruct (Z.geb_spec i LOSCFG_BASE_IPC_SEM_LIMIT); [lia|].
  wp_step. eapply sem_valid_wp; [done..|]. cbn [negb Z.eqb LOS_OK].
  wp_step. eapply wp_running; [apply HK|]. wp_step. eapply wp_sem; [done|]. rewrite Z.gtb_ltb.
  destruct (Z.ltb_spec 0 (semCount s)) as [Hpos|Hzero].
  - wp_step. eapply wp_mod_sem; [done|]. unfold returns. apply wp_ret. exists m.
    assert (E : set_semCount (λ n, u16 (n - 1)) s = set_semCount (λ _, semCount s - 1) s)
      by (unfold set_semCount; cbn; f_equal; unfold OS_SEM_COUNTING_MAX_COUNT in *; apply u16_id; lia).
    split_and!; [by apply KInv_sem| |by apply kept_same|done..|].
    + rewrite E. eapply SemInv_count; [done..|lia|]. intros _. apply He. lia.
    + by rewrite E.
  - destruct (timeout =? 0); [by apply wp_ret; exists m; split_and!; [..|apply kept_refl| | |]|].
    wp_step. eapply wp_mod_tcb; [done|].
    assert (HK1 : KInv (set_g_taskCBArray (insert t (set_taskSem (λ _, Some i) c)) k) m t) by by eapply KInv_minor.
    wp_step. eapply wp_mono; [eapply (kinv_wait _ m t (set_taskSem (λ _, Some i) c) (SemList i) l timeout HK1); try done|].
    { apply lookup_insert_eq. }
    intros [] k' (h' & -> & HK2). unfold block_then. wp_step. eapply schedule_block_wp; [done|done|].
    apply wp_ret. eexists. split_and!; [exact HK2| |eapply kept_wait; [done|cbn; by rewrite insert_insert_eq]|done..| |].
    + eapply SemInv_frame; [done|done|by apply lookup_insert_ne|]. intros j sj lj Hj Hlj.
      destruct (decide (i = j)) as [->|]; [rewrite lookup_insert_eq|rewrite lookup_insert_ne by congruence; eauto].
      eexists. split; [done|]. simplify_eq. lia.
    + done.
    + cbn. by rewrite insert_insert_eq.
Qed.

(** C5: LOS_SemPend on a semaphore in use takes a unit when there is one, refuses when there is
    none and the timeout is 0, and otherwise appends the running task to the wait list of the
    semaphore and requests a switch; all branches keep the kernel and the semaphore invariant. *)
Theorem sem_pend_correct k m t c i s l timeout :
  KInv k m t -> SemInv k m -> sem_waiting k m i s l -> may_wait k t c ->
  wp (LOS_SemPend i timeout) (λ p k', ∃ m', KInv k' m' t /\ SemInv k' m' /\
    if 0 <? semCount s then
      p = Done LOS_OK /\ m' = m /\ k' = set_g_allSem (insert i (set_semCount (λ n, n - 1) s)) k
    else if timeout =? 0 then p = Done LOS_ERRNO_SEM_UNAVAILABLE /\ m' = m /\ k' = k
    else p = Blocked (resuming (LOS_SemPend_resume t)) /\ pendSV k' = true /\
      m' = <[SemList i := l ++ [PendList t]]> m /\ g_allSem k' = g_allSem k /\
      g_taskCBArray k' = <[t := wait_tcb timeout (set_taskSem (λ _, Some i) c)]> (g_taskCBArray k)) k.
Proof.
  intros HK HS Hw Hmay. eapply wp_mono; [by eapply sem_pend_wp|]. intros p k' (m' & ? & ? & _ & ?). by exists m'.
Qed.

Lemma sem_post_wp k m t i s l :
  KInv k m t -> SemInv k m -> sem_waiting k m i s l ->
  wp (LOS_SemPost i) (λ ret k', ∃ m', KInv k' m' t /\ SemInv k' m' /\ others_kept None (SemList i) k m k' m' /\
    if maxSemCount s =? semCount s then ret = LOS_ERRNO_SEM_OVERFLOW /\ m' = m /\ k' = k
    else ret = LOS_OK /\
      match l with
      | [] => m' = m /\ k' = set_g_allSem (insert i (set_semCount (λ n, n + 1) s)) k
      | n :: l' => ∃ x c, n = PendList x /\ g_taskCBArray k !! x = Some c /\
          m' !! SemList i = Some l' /\ g_allSem k' = g_allSem k /\
          g_taskCBArray k' = <[x := wake_tcb (g_idleTaskID k) (g_schedTimeSlice k) (g_schedTimeSliceMin k)
            (set_taskSem (λ _, None) c)]> (g_taskCBArray k) /\
          (g_losTaskLock k = 0 -> pendSV k' = true)
      end) k.
Proof.
  intros HK HS Hw. pose proof Hw as (Hi & Hs & Hu & Hl).
  destruct (sem_count_ok _ _ _ (si_sems _ _ HS _ _ Hs) Hu) as (Hcnt & Hmax).
  destruct (sem_list_ok _ _ _ (si_sems _ _ HS _ _ Hs) Hu) as (l' & Hl' & He). simplify_eq.
  unfold LOS_SemPost. destruct (Z.geb_spec i LOSCFG_BASE_IPC_SEM_LIMIT); [lia|].
  wp_step. eapply wp_sem; [done|]. rewrite (proj2 (Z.eqb_neq _ _) Hu).
  destruct (Z.eqb_spec (maxSemCount s) (semCount s)) as [|Hne]; [by apply wp_ret; exists m; split_and!; [..|apply kept_refl| | |]|].
  wp_step. eapply kinv_empty; [done..|]. destruct l as [|n l]; [rewrite bool_decide_true by done|rewrite bool_decide_false by done]; cbn [negb].
  - wp_step. eapply wp_mod_sem; [done|]. apply wp_ret. exists m.
    assert (E : set_semCount (λ n, u16 (n + 1)) s = set_semCount (λ _, semCount s + 1) s)
      by (unfold set_semCount; cbn; f_equal; unfold OS_SEM_COUNTING_MAX_COUNT in *; apply u16_id; lia).
    split_and!; [by apply KInv_sem| |by apply kept_same|done..|].
    + rewrite E. eapply SemInv_count; [done..|lia|done].
    + by rewrite E.
  - destruct (first_waiter _ _ _ (SemList i) _ _ HK eq_refl Hl) as (x & c & -> & Hc & Hp & Hrem).
    wp_steps. eapply kinv_first; [done..|]. wp_step. eapply wp_of_option; [done|].
    wp_step. eapply wp_mod_tcb; [done|].
    assert (HK1 : KInv (set_g_taskCBArray (insert x (set_taskSem (λ _, None) c)) k) m t) by by eapply KInv_minor.
    wp_step. eapply wp_mono; [eapply (kinv_wake _ m t x (set_taskSem (λ _, None) c) _ _ HK1); [apply lookup_insert_eq|done|done|left]|].
    intros [] k' (h' & b' & r' & m' & -> & HK2 & Hm & Hf). rewrite Hrem in Hm.
    eapply schedule_wp; [done|]. intros p Hpend HK3. apply wp_ret. exists m'. split_and!; [done| |eapply kept_wake; [exact Hc|cbn; by rewrite insert_insert_eq|exact Hf|done|exact Hl|left]|done|].
    + eapply SemInv_frame; [done|done|by apply Hf|]. intros j sj lj Hj Hlj.
      destruct (decide (i = j)) as [->|]; [|rewrite Hf by congruence; eauto].
      exists l. split; [done|]. simplify_eq. done.
    + exists x, c. split_and!; [done..| |].
      * cbn. by rewrite insert_insert_eq.
      * cbn. auto.
Qed.

(** C6: LOS_SemPost refuses to exceed the maximum count, adds a unit when no task waits, and
    otherwise makes the first waiting task ready without changing the count and requests a
    switch; the kernel and the semaphore invariant are kept. *)
Theorem sem_post_correct k m t i s l :
  KInv k m t -> SemInv k m -> sem_waiting k m i s l ->
  wp (LOS_SemPost i) (λ ret k', ∃ m', KInv k' m' t /\ SemInv k' m' /\
    if maxSemCount s =? semCount s then ret = LOS_ERRNO_SEM_OVERFLOW /\ m' = m /\ k' = k
    else ret = LOS_OK /\
      match l with
      | [] => m' = m /\ k' = set_g_allSem (insert i (set_semCount (λ n, n + 1) s)) k
      | n :: l' => ∃ x c, n = PendList x /\ g_taskCBArray k !! x = Some c /\
          m' !! SemList i = Some l' /\ g_allSem k' = g_allSem k /\
          g_taskCBArray k' = <[x := wake_tcb (g_idleTaskID k) (g_schedTimeSlice k) (g_schedTimeSliceMin k)
            (set_taskSem (λ _, None) c)]> (g_taskCBArray k) /\
          (g_losTaskLock k = 0 -> pendSV k' = true)
      end) k.
Proof.
  intros HK HS Hw. eapply wp_mono; [by eapply sem_post_wp|]. intros p k' (m' & ? & ? & _ & ?). by exists m'.
Qed.


(** The semaphores in use other than [i] are unaffected by what happens to [i]
    and to the list of unused ones. *)
Lemma sem_ok_other m m' i j s :
  sem_ok m j s -> (semStat s = OS_SEM_UNUSED -> home m (SemList j) UnusedSem -> home m' (SemList j) UnusedSem) ->
  m' !! SemList j = m !! SemList j -> i <> j -> sem_ok m' j s.
Proof. intros [S1 S2 S3 S4] Hu Hm Hne. split; [done|auto|done|]. by rewrite Hm. Qed.

(** The lists that hold semaphores or tasks that wait for one. *)
Definition sem_node (n : Node) : bool := match n with UnusedSem | SemList _ => true | _ => false end.

Lemma sem_create_wp k m t count maxCount :
  KInv k m t -> SemInv k m -> 0 <= count -> 0 < maxCount <= OS_SEM_COUNTING_MAX_COUNT ->
  wp (OsSemCreate count maxCount true) (λ r k', ∃ m', KInv k' m' t /\ SemInv k' m' /\ lists_only sem_node m m' /\
    if maxCount <? count then r = (LOS_ERRNO_SEM_OVERFLOW, None) /\ k' = k
    else
      (m !! UnusedSem = Some [] /\ r = (LOS_ERRNO_SEM_ALL_BUSY, None) /\ k' = k) \/
      ∃ i s l, m !! UnusedSem = Some (SemList i :: l) /\ g_allSem k !! i = Some s /\ semStat s = OS_SEM_UNUSED /\
        r = (LOS_OK, Some i) /\ g_allSem k' = <[i := mk_LosSemCB OS_SEM_USED count maxCount i]> (g_allSem k) /\
        m' !! SemList i = Some []) k.
Proof.
  intros HK HS Hcnt Hmax. unfold OsSemCreate. cbn [negb]. rewrite Z.gtb_ltb.
  destruct (Z.ltb_spec maxCount count); [by apply wp_ret; exists m|].
  destruct (si_unused _ _ HS) as (lu & Hlu & Hall). wp_step. eapply kinv_empty; [done..|].
  destruct lu as [|n l]; [rewrite bool_decide_true by done|rewrite bool_decide_false by done].
  { apply wp_ret. exists m. split_and!; [done..|by left]. }
  apply Forall_cons in Hall as [(i & s & -> & Hs & Hst) Hall].
  destruct (si_sems _ _ HS _ _ Hs) as [Hid _ _ _].
  wp_steps. eapply kinv_first; [done..|]. wp_step.
  eapply wp_mono; [by eapply (kinv_take k m t UnusedSem)|]. intros [] k1 (h1 & -> & HK1 & Hno).
  wp_step. eapply wp_of_option; [done|]. wp_step. eapply wp_mod_sem; [done|].
  wp_step. eapply wp_mod_sem; [apply lookup_insert_eq|]. wp_step. eapply wp_mod_sem; [apply lookup_insert_eq|].
  cbn [set_g_allSem g_allSem]. apply (KInv_sem _ _ _ (λ _, <[i := mk_LosSemCB OS_SEM_USED count maxCount i]> (g_allSem k))) in HK1.
  set (k2 := set_g_allSem _ (set_dlists _ k)) in HK1.
  lazymatch goal with |- wp ?p ?Q ?k0 => assert (E : k0 = k2) end.
  { subst k2. destruct k. cbn. unfold set_g_allSem. cbn. rewrite !insert_insert_eq. destruct s. cbn in *. by subst. }
  rewrite E. clear E. wp_step. eapply wp_mono; [by eapply kinv_init|]. intros [] k3 (h3 & -> & HK3). wp_step.
  eapply wp_sem; [apply lookup_insert_eq|]. apply wp_ret. eexists. split_and!; [exact HK3| |by do 2 (apply lists_only_insert; [done|])|right].
  - split; cbn.
    + intros j sj Hj. rewrite lookup_insert in Hj. case_decide as E; simplify_eq.
      * split; cbn; try done. intros _. exists []. by rewrite lookup_insert_eq.
      * eapply (sem_ok_other m); [by apply (si_sems _ _ HS)| | |done].
        -- intros _ (l0 & Hl0 & Hin). simplify_eq. exists l. rewrite lookup_insert_ne, lookup_insert_eq by done.
           split; [done|]. apply elem_of_cons in Hin as [?|?]; [congruence|done].
        -- by rewrite !lookup_insert_ne by congruence.
    + intros j Hj. rewrite lookup_insert. case_decide; [by eexists|]. by apply (si_all _ _ HS).
    + exists l. rewrite lookup_insert_ne, lookup_insert_eq by done. split; [done|].
      rewrite Forall_forall in Hall |- *. intros n Hn. destruct (Hall n Hn) as (j & sj & -> & Hj & Hju).
      exists j, sj. split_and!; [done| |done]. rewrite lookup_insert_ne; [done|]. intros <-.
      apply Hno. exists UnusedSem, l. rewrite lookup_insert_eq. set_solver.
  - exists i, s, l. cbn. split_and!; try done. apply lookup_insert_eq.
Qed.

Lemma sem_delete_wp k m t i s l :
  KInv k m t -> SemInv k m -> sem_waiting k m i s l ->
  wp (LOS_SemDelete i) (λ r k', ∃ m', KInv k' m' t /\ SemInv k' m' /\ lists_only sem_node m m' /\
    if bool_decide (l = []) then
      r = LOS_OK /\ g_allSem k' = <[i := set_semStat (λ _, OS_SEM_UNUSED) s]> (g_allSem k) /\
      ∃ lu, m !! UnusedSem = Some lu /\ m' = <[UnusedSem := SemList i :: lu]> (delete (SemList i) m)
    else r = LOS_ERRNO_SEM_PENDED /\ k' = k) k.
Proof.
  intros HK HS (Hi & Hs & Hu & Hl). unfold LOS_SemDelete.
  destruct (Z.geb_spec i LOSCFG_BASE_IPC_SEM_LIMIT); [lia|].
  wp_step. eapply wp_sem; [done|]. rewrite (proj2 (Z.eqb_neq _ _) Hu).
  wp_step. eapply kinv_empty; [done..|]. case_bool_decide as El; cbn [negb]; [subst l|by apply wp_ret; exists m].
  destruct (si_unused _ _ HS) as (lu & Hlu & Hall).
  wp_step. eapply wp_mono; [by eapply (kinv_give k m t UnusedSem (SemList i))|]. intros [] k1 (h1 & -> & HK1).
  wp_step. eapply wp_mod_sem; [done|]. apply wp_ret. eexists.
  split_and!; [by apply KInv_sem| |by apply lists_only_insert, lists_only_delete|done..|by exists lu].
  assert (Hno : SemList i ∉ lu).
  { intros Hin. pose proof (rep_rings _ _ (si_rep _ _ _ _ _ (ki_sched _ _ _ HK))) as [_ Hd].
    assert (UnusedSem = SemList i); [|done]. eapply Hd; [exact Hlu|exact Hl|by right|left]. }
  split; cbn.
  - intros j sj Hj. rewrite lookup_insert in Hj. case_decide as E; simplify_eq.
    + destruct (si_sems _ _ HS _ _ Hs) as [Hid _ _ _]. split; cbn; try done. intros _. exists (SemList j :: lu).
      rewrite lookup_insert_eq. split; [done|left].
    + eapply (sem_ok_other m); [by apply (si_sems _ _ HS)| | |done].
      * intros _ (l0 & Hl0 & Hin). simplify_eq. exists (SemList i :: lu). rewrite lookup_insert_eq.
        split; [done|by right].
      * by rewrite lookup_insert_ne, lookup_delete_ne by congruence.
  - intros j Hj. rewrite lookup_insert. case_decide; [by eexists|]. by apply (si_all _ _ HS).
  - exists (SemList i :: lu). rewrite lookup_insert_eq. split; [done|]. constructor.
    + exists i. eexists. rewrite lookup_insert_eq. done.
    + rewrite Forall_forall in Hall |- *. intros n Hn. destruct (Hall n Hn) as (j & sj & -> & Hj & Hju).
      exists j, sj. split_and!; [done| |done]. rewrite lookup_insert_ne; [done|]. by intros ->.
Qed.

(** C7: OsSemCreate refuses a count above the maximum, reports that all semaphores are busy
    exactly when the list of unused ones is empty, and otherwise initialises the first unused
    semaphore with an empty wait list. *)
Theorem sem_create_correct k m t count maxCount :
  KInv k m t -> SemInv k m -> 0 <= count -> 0 < maxCount <= OS_SEM_COUNTING_MAX_COUNT ->
  wp (OsSemCreate count maxCount true) (λ r k', ∃ m', KInv k' m' t /\ SemInv k' m' /\
    if maxCount <? count then r = (LOS_ERRNO_SEM_OVERFLOW, None) /\ k' = k
    else
      (m !! UnusedSem = Some [] /\ r = (LOS_ERRNO_SEM_ALL_BUSY, None) /\ k' = k) \/
      ∃ i s l, m !! UnusedSem = Some (SemList i :: l) /\ g_allSem k !! i = Some s /\ semStat s = OS_SEM_UNUSED /\
        r = (LOS_OK, Some i) /\ g_allSem k' = <[i := mk_LosSemCB OS_SEM_USED count maxCount i]> (g_allSem k) /\
        m' !! SemList i = Some []) k.
Proof.
  intros HK HS Hc Hm. eapply wp_mono; [by apply sem_create_wp|]. intros r k' (m' & ? & ? & _ & ?). by exists m'.
Qed.

(** C8: LOS_SemDelete on a semaphore in use succeeds exactly when no task waits on it and
    returns it to the front of the unused list; with waiting tasks it changes nothing and
    reports the error. *)
Theorem sem_delete_correct k m t i s l :
  KInv k m t -> SemInv k m -> sem_waiting k m i s l ->
  wp (LOS_SemDelete i) (λ r k', ∃ m', KInv k' m' t /\ SemInv k' m' /\
    if bool_decide (l = []) then
      r = LOS_OK /\ g_allSem k' = <[i := set_semStat (λ _, OS_SEM_UNUSED) s]> (g_allSem k) /\
      ∃ lu, m !! UnusedSem = Some lu /\ m' = <[UnusedSem := SemList i :: lu]> (delete (SemList i) m)
    else r = LOS_ERRNO_SEM_PENDED /\ k' = k) k.
Proof.
  intros HK HS Hw. eapply wp_mono; [by eapply sem_delete_wp|]. intros r k' (m' & ? & ? & _ & ?). by exists m'.
Qed.

End SemProofs.
