(* ===== verification/Mux.v ===== *)
(** Mutexes with priority inheritance (src/kernel/src/los_mux.c). *)

From S2P Require Import Prelude Errno LosList Kernel Tick SortLink Sched SchedInv SchedTime SchedSwitch KernelInv Waits.

Definition OS_MUX_UNUSED : Z := 0.
Definition OS_MUX_USED : Z := 1.
(** [sizeof(LosMuxCB)] with 32-bit pointers. *)
Definition sizeof_LosMuxCB : Z := 24.

Section Mux.
Context `{Platform}.

Definition OsMuxInit_body (index : Z) : M Kernel unit :=
  modify (set_g_allMux (insert index
    (set_muxStat (λ _, OS_MUX_UNUSED) (set_owner (λ _, None)
      (set_muxID (λ _, index) (fresh_LosMuxCB index)))))) ;;;
  onlist (LOS_ListTailInsert UnusedMux (MuxList index)).

Definition OsMuxInit : M Kernel Z :=
  onlist (LOS_ListInit UnusedMux) ;;;
  if LOSCFG_BASE_IPC_MUX_LIMIT =? 0 then mret LOS_ERRNO_MUX_MAXNUM_ZERO
  else
    let* pool := gets sysMem in
    let '(p, pool') := LOS_MemAlloc (LOSCFG_BASE_IPC_MUX_LIMIT * sizeof_LosMuxCB) pool in
    modify (set_sysMem (λ _, pool')) ;;;
    match p with
    | None => mret LOS_ERRNO_MUX_NO_MEMORY
    | Some _ => for_each OsMuxInit_body (seqZ 0 LOSCFG_BASE_IPC_MUX_LIMIT) ;;; mret LOS_OK
    end.

(** The second result is what is written to [*muxHandle]. *)
Definition LOS_MuxCreate (muxHandle : bool) : M Kernel (Z * option Z) :=
  if negb muxHandle then mret (LOS_ERRNO_MUX_PTR_NULL, None)
  else
    let* empty := onlist (LOS_ListEmpty UnusedMux) in
    if (empty : bool) then mret (LOS_ERRNO_MUX_ALL_BUSY, None)
    else
      let* unusedMux := nextNode UnusedMux in
      onlist (LOS_ListDelete unusedMux) ;;;
      let* muxCreated := of_option (GET_MUX_LIST unusedMux) in
      mod_mux muxCreated (set_muxCount (λ _, 0)) ;;;
      mod_mux muxCreated (set_muxStat (λ _, OS_MUX_USED)) ;;;
      mod_mux muxCreated (set_muxPriority (λ _, 0)) ;;;
      mod_mux muxCreated (set_owner (λ _, None)) ;;;
      onlist (LOS_ListInit (MuxList muxCreated)) ;;;
      let* c := mux muxCreated in
      mret (LOS_OK, Some (muxID c)).

Definition LOS_MuxDelete (muxHandle : Z) : M Kernel Z :=
  if muxHandle >=? LOSCFG_BASE_IPC_MUX_LIMIT then mret LOS_ERRNO_MUX_INVALID
  else
    let* muxDeleted := mux muxHandle in
    if muxStat muxDeleted =? OS_MUX_UNUSED then mret LOS_ERRNO_MUX_INVALID
    else
      let* empty := onlist (LOS_ListEmpty (MuxList muxHandle)) in
      if negb empty || negb (muxCount muxDeleted =? 0) then mret LOS_ERRNO_MUX_PENDED
      else
        onlist (LOS_ListAdd UnusedMux (MuxList muxHandle)) ;;;
        mod_mux muxHandle (set_muxStat (λ _, OS_MUX_UNUSED)) ;;;
        mret LOS_OK.

Definition OsMuxValidCheck (muxPended : Z) : M Kernel Z :=
  let* x := mux muxPended in
  if muxStat x =? OS_MUX_UNUSED then mret LOS_ERRNO_MUX_INVALID
  else
    let* active := gets intActive in
    if (active : bool) then mret LOS_ERRNO_MUX_IN_INTERR
    else
      let* lock := gets g_losTaskLock in
      if negb (lock =? 0) then mret LOS_ERRNO_MUX_PEND_IN_LOCK
      else
        let* run := running in
        let* c := tcb run in
        if test (taskStatus c) OS_TASK_FLAG_SYSTEM_TASK then mret LOS_ERRNO_MUX_PEND_IN_SYSTEM_TASK
        else mret LOS_OK.

(** What the waiting task does when it runs again. *)
Definition LOS_MuxPend_resume (runningTask : Z) : M Kernel Z :=
  let* c := tcb runningTask in
  if test (taskStatus c) OS_TASK_STATUS_TIMEOUT then
    clear_status runningTask OS_TASK_STATUS_TIMEOUT ;;;
    mret LOS_ERRNO_MUX_TIMEOUT
  else mret LOS_OK.

Definition LOS_MuxPend (muxHandle timeout : Z) : M Kernel (Proc Z) :=
  if muxHandle >=? LOSCFG_BASE_IPC_MUX_LIMIT then returns LOS_ERRNO_MUX_INVALID
  else
    let* retErr := OsMuxValidCheck muxHandle in
    if negb (retErr =? LOS_OK) then returns retErr
    else
      let* runningTask := running in
      let* muxPended := mux muxHandle in
      if muxCount muxPended =? 0 then
        mod_mux muxHandle (set_muxCount (λ n, u16 (n + 1))) ;;;
        mod_mux muxHandle (set_owner (λ _, Some runningTask)) ;;;
        let* c := tcb runningTask in
        mod_mux muxHandle (set_muxPriority (λ _, priority c)) ;;;
        returns LOS_OK
      else if bool_decide (owner muxPended = Some runningTask) then
        mod_mux muxHandle (set_muxCount (λ n, u16 (n + 1))) ;;;
        returns LOS_OK
      else if timeout =? 0 then returns LOS_ERRNO_MUX_UNAVAILABLE
      else
        mod_tcb runningTask (set_taskMux (λ _, Some muxHandle)) ;;;
        let* own := of_option (owner muxPended) in
        let* o := tcb own in
        let* c := tcb runningTask in
        when (priority o >? priority c)
          (let* _ := OsSchedModifyTaskSchedParam own (priority c) in mret tt) ;;;
        OsSchedTaskWait (MuxList muxHandle) timeout ;;;
        block_then (LOS_MuxPend_resume runningTask).

Definition LOS_MuxPost (muxHandle : Z) : M Kernel Z :=
  if muxHandle >=? LOSCFG_BASE_IPC_MUX_LIMIT then mret LOS_ERRNO_MUX_INVALID
  else
    let* muxPosted := mux muxHandle in
    if muxStat muxPosted =? OS_MUX_UNUSED then mret LOS_ERRNO_MUX_INVALID
    else
      let* active := gets intActive in
      if (active : bool) then mret LOS_ERRNO_MUX_IN_INTERR
      else
        let* runningTask := gets runTask in
        if (muxCount muxPosted =? 0) || negb (bool_decide (owner muxPosted = runningTask)) then
          mret LOS_ERRNO_MUX_INVALID
        else
          mod_mux muxHandle (set_muxCount (λ n, u16 (n - 1))) ;;;
          let* muxPosted := mux muxHandle in
          if negb (muxCount muxPosted =? 0) then mret LOS_OK
          else
            let* own := of_option (owner muxPosted) in
            let* o := tcb own in
            when (negb (priority o =? muxPriority muxPosted))
              (let* _ := OsSchedModifyTaskSchedParam own (muxPriority muxPosted) in mret tt) ;;;
            let* empty := onlist (LOS_ListEmpty (MuxList muxHandle)) in
            (if negb empty then
               let* first := nextNode (MuxList muxHandle) in
               let* resumedTask := of_option (OS_TCB_FROM_PENDLIST first) in
               mod_mux muxHandle (set_muxCount (λ _, 1)) ;;;
               mod_mux muxHandle (set_owner (λ _, Some resumedTask)) ;;;
               let* c := tcb resumedTask in
               mod_mux muxHandle (set_muxPriority (λ _, priority c)) ;;;
               mod_tcb resumedTask (set_taskMux (λ _, None)) ;;;
               OsSchedTaskWake resumedTask ;;;
               LOS_Schedule
             else mod_mux muxHandle (set_owner (λ _, None))) ;;;
            mret LOS_OK.

End Mux.

(** ** Correctness *)

#[local] Opaque LOS_ListAdd LOS_ListTailInsert LOS_ListDelete LOS_ListInit LOS_ListEmpty.

(** The state of mutex [i]: an unused one is in the list of unused ones; a free
    one has no owner and no waiting task; a held one has an owner. *)
Record mux_ok (T : gmap Z LosTaskCB) (m : gmap Node (list Node)) (i : Z) (x : LosMuxCB) : Prop := {
  mux_id_ok : muxID x = i;
  mux_unused_ok : muxStat x = OS_MUX_UNUSED -> home m (MuxList i) UnusedMux;
  mux_list_ok : muxStat x <> OS_MUX_UNUSED -> ∃ l, m !! MuxList i = Some l /\ (muxCount x = 0 -> l = []);
  mux_count_ok : muxStat x <> OS_MUX_UNUSED -> 0 <= muxCount x < 2 ^ 16;
  mux_free_ok : muxStat x <> OS_MUX_UNUSED -> muxCount x = 0 -> owner x = None;
  mux_owner_ok : muxStat x <> OS_MUX_UNUSED -> muxCount x <> 0 ->
    ∃ o, owner x = Some o /\ is_Some (T !! o) /\ 0 <= muxPriority x < 32;
}.

Section MuxProofs.
Context `{TimerLaws}.

Record MuxInv (k : Kernel) (m : gmap Node (list Node)) : Prop := {
  mi_muxes : ∀ i x, g_allMux k !! i = Some x -> mux_ok (g_taskCBArray k) m i x;
  mi_all : ∀ i, 0 <= i < LOSCFG_BASE_IPC_MUX_LIMIT -> is_Some (g_allMux k !! i);
  mi_unused : ∃ l, m !! UnusedMux = Some l /\
    Forall (λ n, ∃ i x, n = MuxList i /\ g_allMux k !! i = Some x /\ muxStat x = OS_MUX_UNUSED) l;
}.

(** The wait list of a mutex in use. *)
Definition mux_waiting (k : Kernel) (m : gmap Node (list Node)) (i : Z) (x : LosMuxCB) (l : list Node) : Prop :=
  0 <= i < LOSCFG_BASE_IPC_MUX_LIMIT /\ g_allMux k !! i = Some x /\ muxStat x <> OS_MUX_UNUSED /\ m !! MuxList i = Some l.

(** A change of mutex [i] and of the wait lists. *)
Lemma MuxInv_update k k' m m' i x l x' :
  MuxInv k m -> mux_waiting k m i x l -> g_allMux k' = <[i := x']> (g_allMux k) -> muxStat x' <> OS_MUX_UNUSED ->
  (∀ o, is_Some (g_taskCBArray k !! o) -> is_Some (g_taskCBArray k' !! o)) ->
  mux_ok (g_taskCBArray k') m' i x' -> m' !! UnusedMux = m !! UnusedMux ->
  (∀ j, j <> i -> m' !! MuxList j = m !! MuxList j) -> MuxInv k' m'.
Proof.
  intros [M1 M2 M3] (Hi & Hx & Hu & Hl) Hk Hu' HT Hok Hun Hf. split; rewrite Hk.
  - intros j y Hj. rewrite lookup_insert in Hj. case_decide; simplify_eq; [done|].
    destruct (M1 _ _ Hj) as [X1 X2 X3 X4 X5 X6]. split; try done.
    + intros Hy. destruct (X2 Hy) as (l0 & Hl0 & Hin). exists l0. by rewrite Hun.
    + by rewrite Hf by done.
    + intros Hy Hc. destruct (X6 Hy Hc) as (o & ? & ? & ?). eauto.
  - intros j Hj. rewrite lookup_insert. case_decide; [by eexists|auto].
  - destruct M3 as (lu & Hlu & Hall). exists lu. rewrite Hun. split; [done|]. eapply Forall_impl; [exact Hall|].
    intros n (j & y & -> & Hj & Hy). exists j, y. split_and!; [done| |done]. rewrite lookup_insert_ne; [done|].
    intros ->. congruence.
Qed.

Lemma mux_valid_wp k m t c i x l (Q : Z -> Kernel -> Prop) :
  KInv k m t -> mux_waiting k m i x l -> may_wait k t c -> Q LOS_OK k -> wp (OsMuxValidCheck i) Q k.
Proof.
  intros HK (_ & Hs & Hu & _) (_ & Hint & Hlock & _ & Hc & Hsys) HQ. unfold OsMuxValidCheck.
  wp_step. eapply wp_mux; [done|]. rewrite (proj2 (Z.eqb_neq _ _) Hu). wp_steps. rewrite Hint.
  wp_steps. rewrite Hlock. cbn. wp_steps. eapply wp_running; [apply HK|]. wp_step. eapply wp_tcb; [done|].
  fold (has c OS_TASK_FLAG_SYSTEM_TASK). rewrite Hsys. by wp_steps.
Qed.

(** The priority a task has when it may run is a valid one. *)
Lemma live_priority k m t x c :
  KInv k m t -> g_taskCBArray k !! x = Some c -> live c -> 0 <= priority c < 32.
Proof.
  intros HK Hc (Hu & _). by apply (ok_prio _ _ _ _ (si_tasks _ _ _ _ _ (ki_sched _ _ _ HK) _ _ Hc)).
Qed.

(** The tasks after the priority of task [o] has been set to [prio], if [p]
    holds of its present one. *)
Definition reprio (k : Kernel) (p : Z -> bool) (o prio : Z) (T : gmap Z LosTaskCB) : gmap Z LosTaskCB :=
  match T !! o with
  | Some co => if p (priority co) then
      <[o := modify_tcb (g_idleTaskID k) (g_schedTimeSlice k) (g_schedTimeSliceMin k) prio co]> T else T
  | None => T
  end.
(** Inheritance by the owner of a mutex, and its end. *)
Definition inherit (k : Kernel) (o prio : Z) := reprio k (λ q, q >? prio) o prio.
Definition restore (k : Kernel) (o prio : Z) := reprio k (λ q, negb (q =? prio)) o prio.

Lemma reprio_wp k m t p o co prio :
  KInv k m t -> g_taskCBArray k !! o = Some co -> 0 <= prio < 32 ->
  wp (when (p (priority co)) (let* _ := OsSchedModifyTaskSchedParam o prio in mret tt)) (λ _ k', ∃ h' b' m',
    k' = upd h' (reprio k p o prio (g_taskCBArray k)) b' (g_schedResponseTime k) k /\ KInv k' m' t /\
    ∀ hd, (∀ p, hd <> PriQueue p) -> m' !! hd = m !! hd) k.
Proof.
  intros HK Ho Hp. unfold reprio. rewrite Ho. destruct (p (priority co)); cbn [when].
  - wp_step. eapply wp_mono; [by eapply kinv_modify|]. intros need k' (h' & b' & m' & _ & -> & HK' & Hf).
    apply wp_ret. eauto 10.
  - apply wp_ret. exists (dlists k), (g_queueBitmap k), m. rewrite <-upd_id. done.
Qed.

Lemma reprio_lookup k p o prio T x : x <> o -> reprio k p o prio T !! x = T !! x.
Proof.
  intros Hne. unfold reprio. destruct (T !! o); [|done]. destruct (p _); [|done]. by apply lookup_insert_ne.
Qed.
Lemma reprio_some k p o prio T x : is_Some (T !! x) -> is_Some (reprio k p o prio T !! x).
Proof.
  intros Hx. unfold reprio. destruct (T !! o); [|done]. destruct (p _); [|done].
  rewrite lookup_insert. case_decide; [by eexists|done].
Qed.
Lemma reprio_insert k p o prio T t u v :
  o <> t -> <[t := v]> (reprio k p o prio (<[t := u]> T)) = <[t := v]> (reprio k p o prio T).
Proof.
  intros Hne. unfold reprio. rewrite lookup_insert_ne by done. destruct (T !! o); [|by rewrite insert_insert_eq].
  destruct (p _); [|by rewrite insert_insert_eq]. rewrite (insert_insert_ne _ o t) by done.
  by rewrite insert_insert_eq.
Qed.

Lemma reprio_kept k m t p o prio k' m' :
  KInv k m t -> g_taskCBArray k' = reprio k p o prio (g_taskCBArray k) -> (∀ hd, (∀ p, hd <> PriQueue p) -> m' !! hd = m !! hd) ->
  others_kept None TaskSortLink k m k' m'.
Proof.
  intros HK E Hf. unfold reprio in E. destruct (g_taskCBArray k !! o) as [co|] eqn:Ho; [destruct (p (priority co))|].
  1: eapply kept_update; [by intros; apply Hf|exact Ho|exact E|]; right; left; by eapply modify_waits, (si_tasks _ _ _ _ _ (ki_sched _ _ _ HK)).
  all: split; [by intros; apply Hf|]; rewrite E; eauto.
Qed.

(** What a call of the owner changes in a mutex that it keeps. *)
Lemma mux_owner_count k m i x l n :
  MuxInv k m -> mux_waiting k m i x l -> muxCount x <> 0 -> 0 < n < 2 ^ 16 ->
  MuxInv (set_g_allMux (insert i (set_muxCount (λ _, n) x)) k) m.
Proof.
  intros HM Hw Hnz Hn. pose proof Hw as (Hi & Hx & Hu & Hl). destruct (mi_muxes _ _ HM _ _ Hx) as [X1 X2 X3 X4 X5 X6].
  eapply MuxInv_update; [done|done|done|done|done| |done..]. split; cbn; try done.
  - intros _. exists l. split; [done|]. lia.
  - intros _. lia.
  - lia.
  - intros _ _. by apply X6.
Qed.

(** The caller waits, and the owner inherits its priority. *)
Lemma mux_block_wp k m t c i x l timeout o co :
  KInv k m t -> MuxInv k m -> mux_waiting k m i x l -> may_wait k t c -> muxCount x <> 0 ->
  owner x = Some o -> g_taskCBArray k !! o = Some co -> o <> t ->
  wp (mod_tcb t (set_taskMux (λ _, Some i)) ;;;
      let* own := of_option (owner x) in
      let* o := tcb own in
      let* c := tcb t in
      when (priority o >? priority c) (let* _ := OsSchedModifyTaskSchedParam own (priority c) in mret tt) ;;;
      OsSchedTaskWait (MuxList i) timeout ;;;
      block_then (LOS_MuxPend_resume t)) (λ p k', ∃ m', KInv k' m' t /\ MuxInv k' m' /\ others_kept (Some t) (MuxList i) k m k' m' /\
    p = Blocked (resuming (LOS_MuxPend_resume t)) /\ pendSV k' = true /\ g_allMux k' = g_allMux k /\
    m' !! MuxList i = Some (l ++ [PendList t]) /\
    g_taskCBArray k' = <[t := wait_tcb timeout (set_taskMux (λ _, Some i) c)]> (inherit k o (priority c) (g_taskCBArray k))) k.
Proof.
  intros HK HM Hw Hmay Hnz Ho Hco Hot. pose proof Hw as (Hi & Hx & Hu & Hl). pose proof (may_wait_live _ _ _ _ HK Hmay) as Hlive.
  destruct Hmay as (Hp & Hint & Hlock & Hidle & Hc & Hsys). pose proof (live_priority _ _ _ _ _ HK Hc Hlive) as Hprio.
  wp_step. eapply wp_mod_tcb; [done|]. set (c1 := set_taskMux _ c).
  assert (HK1 : KInv (set_g_taskCBArray (insert t c1) k) m t) by by eapply KInv_minor.
  wp_step. eapply wp_of_option; [done|]. wp_step. eapply wp_tcb; [cbn; by rewrite lookup_insert_ne|].
  wp_step. eapply wp_tcb; [cbn; by rewrite lookup_insert_eq|]. wp_step. change (priority c1) with (priority c).
  eapply wp_mono; [eapply (reprio_wp _ _ _ (λ q, q >? priority c) _ _ _ HK1); [cbn; by rewrite lookup_insert_ne|done]|].
  intros [] k2 (h2 & b2 & m2 & E2 & HK2 & Hf2). pose proof (reprio_kept _ _ _ _ _ _ k2 m2 HK1 ltac:(by subst) Hf2) as Hk2. subst k2.
  wp_step. eapply wp_mono; [eapply (kinv_wait _ m2 t c1 (MuxList i) l timeout HK2); try done|].
  { cbn. rewrite reprio_lookup by done. apply lookup_insert_eq. }
  { by rewrite Hf2. }
  intros [] k3 (h3 & -> & HK3). unfold block_then. wp_step. eapply schedule_block_wp; [done|done|].
  apply wp_ret. eexists. split_and!; [exact HK3| | |done|done|done|by rewrite lookup_insert_eq|].
  - eapply (MuxInv_update _ _ m _ i x l x HM Hw); [cbn; by rewrite insert_id|done| | | |].
    + cbn. intros y Hy. rewrite lookup_insert. case_decide; [by eexists|]. apply reprio_some.
      rewrite lookup_insert. case_decide; [by eexists|done].
    + destruct (mi_muxes _ _ HM _ _ Hx) as [X1 X2 X3 X4 X5 X6]. split; cbn; try done.
      * intros _. exists (l ++ [PendList t]). by rewrite lookup_insert_eq.
      * intros _ _. destruct (X6 Hu Hnz) as (o' & Ho' & _ & Hmp). exists o. split_and!; [done| |lia..].
        rewrite lookup_insert_ne by done. apply reprio_some. rewrite lookup_insert_ne by done. by eexists.
    + rewrite lookup_insert_ne by done. by apply Hf2.
    + intros j Hj. rewrite lookup_insert_ne by congruence. by apply Hf2.
  - eapply kept_after.
    + eapply (kept_after _ _ _ _ (set_g_taskCBArray (insert t c1) k) m); [|exact Hk2].
      by eapply (kept_update _ _ _ _ _ _ t c c1); [..|right; left].
    + eapply kept_wait; [|done]. cbn. rewrite reprio_lookup by done. apply lookup_insert_eq.
  - cbn. change (reprio (set_g_taskCBArray _ k)) with (reprio k). by apply reprio_insert.
Qed.

Lemma mux_pend_wp k m t c i x l timeout :
  KInv k m t -> MuxInv k m -> mux_waiting k m i x l -> may_wait k t c -> muxCount x + 1 < 2 ^ 16 ->
  wp (LOS_MuxPend i timeout) (λ p k', ∃ m', KInv k' m' t /\ MuxInv k' m' /\ others_kept (Some t) (MuxList i) k m k' m' /\
    if muxCount x =? 0 then
      p = Done LOS_OK /\ m' = m /\
      k' = set_g_allMux (insert i (mk_LosMuxCB (muxStat x) 1 i (priority c) (Some t))) k
    else if bool_decide (owner x = Some t) then
      p = Done LOS_OK /\ m' = m /\ k' = set_g_allMux (insert i (set_muxCount (λ n, n + 1) x)) k
    else if timeout =? 0 then p = Done LOS_ERRNO_MUX_UNAVAILABLE /\ m' = m /\ k' = k
    else p = Blocked (resuming (LOS_MuxPend_resume t)) /\ pendSV k' = true /\ g_allMux k' = g_allMux k /\
      m' !! MuxList i = Some (l ++ [PendList t]) /\
      ∃ o, owner x = Some o /\ o <> t /\
        g_taskCBArray k' = <[t := wait_tcb timeout (set_taskMux (λ _, Some i) c)]>
          (inherit k o (priority c) (g_taskCBArray k))) k.
Proof.
  intros HK HM Hw Hmay Hcnt. pose proof Hw as (Hi & Hx & Hu & Hl). pose proof (may_wait_live _ _ _ _ HK Hmay) as Hlive.
  pose proof Hmay as (_ & _ & _ & _ & Hc & _). pose proof (live_priority _ _ _ _ _ HK Hc Hlive) as Hprio.
  destruct (mi_muxes _ _ HM _ _ Hx) as [X1 X2 X3 X4 X5 X6]. specialize (X4 Hu).
  destruct (X3 Hu) as (l' & Hl' & He). simplify_eq.
  unfold LOS_MuxPend. destruct (Z.geb_spec (muxID x) LOSCFG_BASE_IPC_MUX_LIMIT); [lia|].
  wp_step. eapply mux_valid_wp; [done..|]. cbn [negb Z.eqb LOS_OK].
  wp_step. eapply wp_running; [apply HK|]. wp_step. eapply wp_mux; [done|].
  destruct (Z.eqb_spec (muxCount x) 0) as [Ez|Hnz]; [|case_bool_decide as Eo].
  - wp_step. eapply wp_mod_mux; [done|]. wp_step. eapply wp_mod_mux; [apply lookup_insert_eq|].
    wp_step. eapply wp_tcb; [done|]. wp_step. eapply wp_mod_mux; [apply lookup_insert_eq|]. apply wp_ret. exists m.
    cbn [set_g_allMux g_allMux].
    lazymatch goal with |- KInv ?k0 _ _ /\ _ => assert (E : k0 =
      set_g_allMux (insert (muxID x) (mk_LosMuxCB (muxStat x) 1 (muxID x) (priority c) (Some t))) k) end.
    { destruct k. unfold set_g_allMux. cbn. rewrite !insert_insert_eq. destruct x. cbn in *. by subst. }
    rewrite E. clear E. split_and!; [by apply KInv_mux| |by apply kept_same|done..].
    eapply MuxInv_update; [done|done|done|done|done| |done..]. split; cbn; try done.
    + intros _. exists l. split; [done|]. lia.
    + intros _ _. exists t. split_and!; [done|by eexists|lia..].
  - wp_step. eapply wp_mod_mux; [done|]. apply wp_ret. exists m.
    assert (E : set_muxCount (λ n, u16 (n + 1)) x = set_muxCount (λ _, muxCount x + 1) x)
      by (unfold set_muxCount; cbn; f_equal; apply u16_id; lia).
    rewrite E. split_and!; [by apply KInv_mux| |by apply kept_same|done..]. eapply mux_owner_count; [done..|lia].
  - destruct (timeout =? 0); [apply wp_ret; exists m; split_and!; try done; apply kept_refl|].
    destruct (X6 Hu Hnz) as (o & Ho & [co Hco] & Hmp). assert (o <> t) as Hot by congruence.
    eapply wp_mono; [by eapply (mux_block_wp k m t c (muxID x) x l timeout o co)|].
    intros p k' (m' & HK' & HM' & Hk & -> & Hpd & Em & Hm & ET). exists m'. split_and!; try done. by exists o.
Qed.

(** C9: LOS_MuxPend takes a free mutex and records the caller's priority, counts a nested lock
    of the owner, refuses without waiting when the timeout is 0, and otherwise raises the owner
    to the caller's priority and makes the caller wait. *)
Theorem mux_pend_correct k m t c i x l timeout :
  KInv k m t -> MuxInv k m -> mux_waiting k m i x l -> may_wait k t c -> muxCount x + 1 < 2 ^ 16 ->
  wp (LOS_MuxPend i timeout) (λ p k', ∃ m', KInv k' m' t /\ MuxInv k' m' /\
    if muxCount x =? 0 then
      p = Done LOS_OK /\ m' = m /\
      k' = set_g_allMux (insert i (mk_LosMuxCB (muxStat x) 1 i (priority c) (Some t))) k
    else if bool_decide (owner x = Some t) then
      p = Done LOS_OK /\ m' = m /\ k' = set_g_allMux (insert i (set_muxCount (λ n, n + 1) x)) k
    else if timeout =? 0 then p = Done LOS_ERRNO_MUX_UNAVAILABLE /\ m' = m /\ k' = k
    else p = Blocked (resuming (LOS_MuxPend_resume t)) /\ pendSV k' = true /\ g_allMux k' = g_allMux k /\
      m' !! MuxList i = Some (l ++ [PendList t]) /\
      ∃ o, owner x = Some o /\ o <> t /\
        g_taskCBArray k' = <[t := wait_tcb timeout (set_taskMux (λ _, Some i) c)]>
          (inherit k o (priority c) (g_taskCBArray k))) k.
Proof.
  intros HK HM Hw Hmay Hcnt. eapply wp_mono; [by eapply mux_pend_wp|]. intros p k' (m' & ? & ? & _ & ?). by exists m'.
Qed.

(** The mutex passes to the first waiting task. *)
Lemma mux_handover_wp k m t i x y cy l :
  KInv k m t -> g_allMux k !! i = Some x -> muxID x = i -> g_taskCBArray k !! y = Some cy ->
  has cy OS_TASK_STATUS_PEND = true -> m !! MuxList i = Some (PendList y :: l) ->
  list_remove_all (PendList y) (PendList y :: l) = l ->
  wp (mod_mux i (set_muxCount (λ _, 1)) ;;;
      mod_mux i (set_owner (λ _, Some y)) ;;;
      let* c := tcb y in
      mod_mux i (set_muxPriority (λ _, priority c)) ;;;
      mod_tcb y (set_taskMux (λ _, None)) ;;;
      OsSchedTaskWake y ;;;
      LOS_Schedule) (λ _ k', ∃ m', KInv k' m' t /\ m' !! MuxList i = Some l /\ wake_frame cy (MuxList i) m m' /\
    g_allMux k' = <[i := mk_LosMuxCB (muxStat x) 1 i (priority cy) (Some y)]> (g_allMux k) /\
    g_taskCBArray k' = <[y := wake_tcb (g_idleTaskID k) (g_schedTimeSlice k) (g_schedTimeSliceMin k)
      (set_taskMux (λ _, None) cy)]> (g_taskCBArray k)) k.
Proof.
  intros HK Hx Hid Hy Hpy Hl Hrem.
  wp_step. eapply wp_mod_mux; [done|]. wp_step. eapply wp_mod_mux; [apply lookup_insert_eq|].
  wp_step. eapply wp_tcb; [done|]. wp_step. eapply wp_mod_mux; [apply lookup_insert_eq|].
  wp_step. eapply wp_mod_tcb; [done|]. set (cz := set_taskMux _ cy).
  set (A := <[i := mk_LosMuxCB (muxStat x) 1 i (priority cy) (Some y)]> (g_allMux k)).
  lazymatch goal with |- wp ?p ?Q ?k0 =>
    assert (E : k0 = set_g_taskCBArray (insert y cz) (set_g_allMux (λ _, A) k)) end.
  { subst A. destruct k. unfold set_g_allMux. cbn. rewrite !insert_insert_eq. destruct x. cbn in *. by subst. }
  rewrite E. clear E. assert (HK1 : KInv (set_g_taskCBArray (insert y cz) (set_g_allMux (λ _, A) k)) m t).
  { eapply KInv_minor; [by apply KInv_mux|done..]. }
  wp_step. eapply wp_mono; [eapply (kinv_wake _ m t y cz _ _ HK1); [apply lookup_insert_eq|done|done|left]|].
  intros [] k' (h' & b' & r' & m' & -> & HK2 & Hm & Hf). rewrite Hrem in Hm.
  eapply schedule_wp; [done|]. intros p _ HK3. exists m'. split_and!; [done|done|done|done|].
  cbn. by rewrite insert_insert_eq.
Qed.

(** The invariant after the mutex has passed to task [y], or has become free. *)
Lemma mux_passed k m t i x l k' m' y cy T1 (w : LosTaskCB) :
  KInv k m t -> MuxInv k m -> mux_waiting k m i x (PendList y :: l) -> g_taskCBArray k !! y = Some cy ->
  has cy OS_TASK_STATUS_PEND = true -> (∀ o, is_Some (g_taskCBArray k !! o) -> is_Some (T1 !! o)) ->
  g_allMux k' = <[i := mk_LosMuxCB (muxStat x) 1 i (priority cy) (Some y)]> (g_allMux k) ->
  g_taskCBArray k' = <[y := w]> T1 -> m' !! MuxList i = Some l -> m' !! UnusedMux = m !! UnusedMux ->
  (∀ j, j <> i -> m' !! MuxList j = m !! MuxList j) -> MuxInv k' m'.
Proof.
  intros HK HM Hw Hcy Hpy HT Em ET Hl Hun Hf. pose proof Hw as (Hi & Hx & Hu & _).
  destruct (mi_muxes _ _ HM _ _ Hx) as [X1 _ _ _ _ _].
  eapply (MuxInv_update k _ m m' i x _ _ HM Hw Em Hu); [| |done|done].
  - rewrite ET. intros o Hs. rewrite lookup_insert. case_decide; [by eexists|by apply HT].
  - split; cbn; try done; [intros _; by exists l|].
    intros _ _. exists y. rewrite ET, lookup_insert_eq. split_and!; [done|by eexists|..].
    all: pose proof (si_tasks _ _ _ _ _ (ki_sched _ _ _ HK) _ _ Hcy) as Hok.
    all: apply (ok_prio _ _ _ _ Hok), not_true_is_false; intros Hun'.
    all: destruct (ok_unused _ _ _ _ Hok) as (Hnp & _); [by rewrite Hun'|congruence].
Qed.
Lemma mux_freed k m i x k' m' :
  MuxInv k m -> mux_waiting k m i x [] ->
  g_allMux k' = <[i := set_owner (λ _, None) (set_muxCount (λ _, 0) x)]> (g_allMux k) ->
  (∀ o, is_Some (g_taskCBArray k !! o) -> is_Some (g_taskCBArray k' !! o)) ->
  (∀ hd, (∀ p, hd <> PriQueue p) -> m' !! hd = m !! hd) -> MuxInv k' m'.
Proof.
  intros HM Hw Em HT Hf. pose proof Hw as (Hi & Hx & Hu & Hl). destruct (mi_muxes _ _ HM _ _ Hx) as [X1 X2 _ _ _ _].
  eapply (MuxInv_update k _ m m' i x [] _ HM Hw Em); [done|done| |by apply Hf|intros; by apply Hf].
  split; cbn; try done. intros _. exists []. by rewrite Hf.
Qed.

(** The last unlock: the priority of the owner is restored and the mutex passes
    to the first waiting task, if there is one. *)
Lemma mux_release_wp k m t c i x l :
  KInv k m t -> MuxInv k m -> mux_waiting k m i x l -> g_taskCBArray k !! t = Some c -> pendSV k = false ->
  muxCount x = 1 -> 0 <= muxPriority x < 32 ->
  wp (when (negb (priority c =? muxPriority x)) (let* _ := OsSchedModifyTaskSchedParam t (muxPriority x) in mret tt) ;;;
      let* empty := onlist (LOS_ListEmpty (MuxList i)) in
      (if negb empty then
         let* first := nextNode (MuxList i) in
         let* resumedTask := of_option (OS_TCB_FROM_PENDLIST first) in
         mod_mux i (set_muxCount (λ _, 1)) ;;;
         mod_mux i (set_owner (λ _, Some resumedTask)) ;;;
         let* c := tcb resumedTask in
         mod_mux i (set_muxPriority (λ _, priority c)) ;;;
         mod_tcb resumedTask (set_taskMux (λ _, None)) ;;;
         OsSchedTaskWake resumedTask ;;;
         LOS_Schedule
       else mod_mux i (set_owner (λ _, None))) ;;;
      mret LOS_OK) (λ ret k', ∃ m', KInv k' m' t /\ MuxInv k' m' /\ others_kept None (MuxList i) k m k' m' /\ ret = LOS_OK /\
    let T1 := restore k t (muxPriority x) (g_taskCBArray k) in
    match l with
    | [] => g_taskCBArray k' = T1 /\
        g_allMux k' = <[i := set_owner (λ _, None) (set_muxCount (λ _, 0) x)]> (g_allMux k)
    | n :: l' => ∃ y cy, n = PendList y /\ y <> t /\ g_taskCBArray k !! y = Some cy /\ m' !! MuxList i = Some l' /\
        g_allMux k' = <[i := mk_LosMuxCB (muxStat x) 1 i (priority cy) (Some y)]> (g_allMux k) /\
        g_taskCBArray k' = <[y := wake_tcb (g_idleTaskID k) (g_schedTimeSlice k) (g_schedTimeSliceMin k)
          (set_taskMux (λ _, None) cy)]> T1
    end) (set_g_allMux (insert i (set_muxCount (λ n, n - 1) x)) k).
Proof.
  intros HK HM Hw Hc Hp E1 Hmp. pose proof Hw as (Hi & Hx & Hu & Hl). destruct (mi_muxes _ _ HM _ _ Hx) as [X1 _ _ _ _ _].
  set (x1 := set_muxCount (λ n, n - 1) x). assert (HK1 : KInv (set_g_allMux (insert i x1) k) m t) by by apply KInv_mux.
  wp_step. eapply wp_mono; [eapply (reprio_wp _ _ _ (λ q, negb (q =? muxPriority x)) _ _ _ HK1); [done|done]|].
  intros [] k2 (h2 & b2 & m2 & E2 & HK2 & Hf2).
  pose proof (reprio_kept k m t _ _ _ k2 m2 HK ltac:(by subst) Hf2) as Hk2. subst k2.
  change (reprio (set_g_allMux _ k)) with (reprio k) in *. fold (restore k t (muxPriority x)) in *.
  wp_step. eapply kinv_empty; [done|by rewrite Hf2|].
  destruct l as [|n l]; [rewrite bool_decide_true by done|rewrite bool_decide_false by done]; cbn [negb].
  - wp_step. eapply wp_mod_mux; [apply lookup_insert_eq|]. apply wp_ret. exists m2.
    assert (E : insert i (set_owner (λ _, None) x1) (<[i := x1]> (g_allMux k)) =
      <[i := set_owner (λ _, None) (set_muxCount (λ _, 0) x)]> (g_allMux k)).
    { rewrite insert_insert_eq. subst x1. unfold set_muxCount, set_owner. cbn. by rewrite E1. }
    split_and!; [by apply KInv_mux| | |done|done|exact E].
    + eapply (mux_freed k m i x _ _ HM Hw); [exact E|intros; by apply reprio_some|done].
    + eapply kept_after; [exact Hk2|by apply kept_same].
  - destruct (first_waiter _ _ _ (MuxList i) _ _ HK eq_refl Hl) as (y & cy & -> & Hcy & Hpy & Hrem).
    assert (y <> t) as Hyt.
    { intros ->. destruct (ki_live _ _ _ HK Hp) as (c0 & ? & ?). simplify_eq. by destruct (live_wakes c). }
    assert (Hy2 : restore k t (muxPriority x) (g_taskCBArray k) !! y = Some cy) by (unfold restore; by rewrite reprio_lookup).
    wp_steps. eapply kinv_first; [done|by rewrite Hf2|]. wp_step. eapply wp_of_option; [done|].
    eapply wp_mono; [eapply (mux_handover_wp _ _ _ i x1 y cy l HK2); try done; [apply lookup_insert_eq|by rewrite Hf2]|].
    intros [] k3 (m3 & HK3 & Hm3 & Hf3 & E3 & E4). apply wp_ret. exists m3.
    cbn in E3, E4. rewrite insert_insert_eq in E3. split_and!; [done| | |done|by exists y, cy].
    + eapply (mux_passed k m t i x l); [done..|intros; by apply reprio_some|done|exact E4|done| |].
      * rewrite Hf3 by done. by apply Hf2.
      * intros j Hj. rewrite Hf3 by congruence. by apply Hf2.
    + eapply kept_after; [exact Hk2|]. eapply kept_wake; [exact Hy2|exact E4|exact Hf3|done|by rewrite Hf2|left].
Qed.

Lemma mux_post_wp k m t c i x l :
  KInv k m t -> MuxInv k m -> mux_waiting k m i x l -> g_taskCBArray k !! t = Some c ->
  pendSV k = false -> intActive k = false ->
  wp (LOS_MuxPost i) (λ ret k', ∃ m', KInv k' m' t /\ MuxInv k' m' /\ others_kept None (MuxList i) k m k' m' /\
    if negb (bool_decide (owner x = Some t)) then ret = LOS_ERRNO_MUX_INVALID /\ m' = m /\ k' = k
    else ret = LOS_OK /\
      if 1 <? muxCount x then m' = m /\ k' = set_g_allMux (insert i (set_muxCount (λ n, n - 1) x)) k
      else
        let T1 := restore k t (muxPriority x) (g_taskCBArray k) in
        match l with
        | [] => g_taskCBArray k' = T1 /\
            g_allMux k' = <[i := set_owner (λ _, None) (set_muxCount (λ _, 0) x)]> (g_allMux k)
        | n :: l' => ∃ y cy, n = PendList y /\ y <> t /\ g_taskCBArray k !! y = Some cy /\
            m' !! MuxList i = Some l' /\
            g_allMux k' = <[i := mk_LosMuxCB (muxStat x) 1 i (priority cy) (Some y)]> (g_allMux k) /\
            g_taskCBArray k' = <[y := wake_tcb (g_idleTaskID k) (g_schedTimeSlice k) (g_schedTimeSliceMin k)
              (set_taskMux (λ _, None) cy)]> T1
        end) k.
Proof.
  intros HK HM Hw Hc Hp Hint. pose proof Hw as (Hi & Hx & Hu & Hl).
  destruct (mi_muxes _ _ HM _ _ Hx) as [X1 X2 X3 X4 X5 X6]. specialize (X4 Hu).
  unfold LOS_MuxPost. destruct (Z.geb_spec i LOSCFG_BASE_IPC_MUX_LIMIT); [lia|].
  wp_step. eapply wp_mux; [done|]. rewrite (proj2 (Z.eqb_neq _ _) Hu). wp_steps. rewrite Hint. wp_steps.
  rewrite (ki_task _ _ _ HK).
  case_bool_decide as Eo; cbn [negb]; [|rewrite orb_true_r; apply wp_ret; exists m; split_and!; try done; apply kept_refl].
  rewrite orb_false_r. destruct (Z.eqb_spec (muxCount x) 0) as [Ez|Hnz]; [by rewrite X5 in Eo|].
  destruct (X6 Hu Hnz) as (o & Ho & _ & Hmp). simplify_eq.
  assert (E : set_muxCount (λ n, u16 (n - 1)) x = set_muxCount (λ n, n - 1) x)
    by (unfold set_muxCount; cbn; f_equal; apply u16_id; lia).
  wp_step. eapply wp_mod_mux; [done|]. rewrite E. clear E. wp_step. eapply wp_mux; [apply lookup_insert_eq|].
  cbn [muxCount owner muxPriority set_muxCount]. destruct (Z.ltb_spec 1 (muxCount x)) as [H1c|H1c].
  - rewrite (proj2 (Z.eqb_neq _ _)) by lia. cbn [negb]. apply wp_ret. exists m.
    split_and!; [by apply KInv_mux|by eapply (mux_owner_count k m _ x l (muxCount x - 1)); [..|lia]|by apply kept_same|done..].
  - rewrite (proj2 (Z.eqb_eq _ _)) by lia. cbn [negb]. wp_step. eapply wp_of_option; [done|]. wp_step. eapply wp_tcb; [done|].
    eapply wp_mono; [eapply (mux_release_wp k m t c (muxID x) x l); try done; lia|].
    intros ret k' (m' & HK' & HM' & Hk & -> & HQ). by exists m'.
Qed.

(** C10: LOS_MuxPost is refused to a task that is not the owner, undoes one nested lock, and on
    the last unlock restores the owner's priority and passes the mutex to the first waiting
    task, whose priority is recorded. *)
Theorem mux_post_correct k m t c i x l :
  KInv k m t -> MuxInv k m -> mux_waiting k m i x l -> g_taskCBArray k !! t = Some c ->
  pendSV k = false -> intActive k = false ->
  wp (LOS_MuxPost i) (λ ret k', ∃ m', KInv k' m' t /\ MuxInv k' m' /\
    if negb (bool_decide (owner x = Some t)) then ret = LOS_ERRNO_MUX_INVALID /\ m' = m /\ k' = k
    else ret = LOS_OK /\
      if 1 <? muxCount x then m' = m /\ k' = set_g_allMux (insert i (set_muxCount (λ n, n - 1) x)) k
      else
        let T1 := restore k t (muxPriority x) (g_taskCBArray k) in
        match l with
        | [] => g_taskCBArray k' = T1 /\
            g_allMux k' = <[i := set_owner (λ _, None) (set_muxCount (λ _, 0) x)]> (g_allMux k)
        | n :: l' => ∃ y cy, n = PendList y /\ y <> t /\ g_taskCBArray k !! y = Some cy /\
            m' !! MuxList i = Some l' /\
            g_allMux k' = <[i := mk_LosMuxCB (muxStat x) 1 i (priority cy) (Some y)]> (g_allMux k) /\
            g_taskCBArray k' = <[y := wake_tcb (g_idleTaskID k) (g_schedTimeSlice k) (g_schedTimeSliceMin k)
              (set_taskMux (λ _, None) cy)]> T1
        end) k.
Proof.
  intros HK HM Hw Hc Hp Hint. eapply wp_mono; [by eapply mux_post_wp|]. intros p k' (m' & ? & ? & _ & ?). by exists m'.
Qed.

(** *** Creation and deletion *)

(** The lists that hold mutexes or tasks that wait for one. *)
Definition mux_node (n : Node) : bool := match n with UnusedMux | MuxList _ => true | _ => false end.

Lemma mux_ok_other T m m' i j x :
  mux_ok T m j x -> (muxStat x = OS_MUX_UNUSED -> home m (MuxList j) UnusedMux -> home m' (MuxList j) UnusedMux) ->
  m' !! MuxList j = m !! MuxList j -> i <> j -> mux_ok T m' j x.
Proof. intros [S1 S2 S3 S4 S5 S6] Hu Hm Hne. split; [done|auto|by rewrite Hm|done..]. Qed.

Lemma set_mux_twice i a b k : set_g_allMux (insert i a) (set_g_allMux (insert i b) k) = set_g_allMux (insert i a) k.
Proof. destruct k. unfold set_g_allMux. cbn. by rewrite insert_insert_eq. Qed.

(** LOS_MuxCreate reports that all mutexes are busy exactly when none is unused,
    and otherwise initialises the first unused one as free. *)
Lemma mux_create_wp k m t :
  KInv k m t -> MuxInv k m ->
  wp (LOS_MuxCreate true) (λ r k', ∃ m', KInv k' m' t /\ MuxInv k' m' /\ lists_only mux_node m m' /\
    ((m !! UnusedMux = Some [] /\ r = (LOS_ERRNO_MUX_ALL_BUSY, None) /\ k' = k) \/
     ∃ i x l, m !! UnusedMux = Some (MuxList i :: l) /\ g_allMux k !! i = Some x /\ muxStat x = OS_MUX_UNUSED /\
       r = (LOS_OK, Some i) /\ m' !! MuxList i = Some [] /\
       ∃ x', g_allMux k' = <[i := x']> (g_allMux k) /\ muxStat x' = OS_MUX_USED /\ muxCount x' = 0 /\ owner x' = None)) k.
Proof.
  intros HK HM. unfold LOS_MuxCreate. cbn [negb]. destruct (mi_unused _ _ HM) as (lu & Hlu & Hall). wp_step. eapply kinv_empty; [done..|].
  destruct lu as [|n l]; [rewrite bool_decide_true by done|rewrite bool_decide_false by done].
  { apply wp_ret. exists m. split_and!; [done..|by left]. }
  apply Forall_cons in Hall as [(i & x & -> & Hx & Hst) Hall]. pose proof (mux_id_ok _ _ _ _ (mi_muxes _ _ HM _ _ Hx)) as Hid.
  wp_steps. eapply kinv_first; [done..|]. wp_step.
  eapply wp_mono; [by eapply (kinv_take k m t UnusedMux)|]. intros [] k1 (h1 & -> & HK1 & Hno).
  wp_step. eapply wp_of_option; [done|]. wp_step. eapply wp_mod_mux; [done|].
  do 3 (wp_step; eapply wp_mod_mux; [apply lookup_insert_eq|]).
  set (x' := set_owner (λ _, None) (set_muxPriority (λ _, 0) (set_muxStat (λ _, OS_MUX_USED) (set_muxCount (λ _, 0) x)))).
  rewrite !set_mux_twice. apply (KInv_mux _ _ _ (insert i x')) in HK1.
  wp_step. eapply wp_mono; [by eapply kinv_init|]. intros [] k3 (h3 & -> & HK3). wp_step.
  eapply wp_mux; [apply lookup_insert_eq|]. apply wp_ret. eexists.
  split_and!; [exact HK3| |by do 2 (apply lists_only_insert; [done|])|right].
  - split; cbn.
    + intros j xj Hj. rewrite lookup_insert in Hj. case_decide as E; simplify_eq.
      * split; cbn; try done. intros _. exists []. by rewrite lookup_insert_eq.
      * eapply (mux_ok_other _ m); [by apply (mi_muxes _ _ HM)| | |done].
        -- intros _ (l0 & Hl0 & Hin). simplify_eq. exists l. rewrite lookup_insert_ne, lookup_insert_eq by done.
           split; [done|]. apply elem_of_cons in Hin as [?|?]; [congruence|done].
        -- by rewrite !lookup_insert_ne by congruence.
    + intros j Hj. rewrite lookup_insert. case_decide; [by eexists|]. by apply (mi_all _ _ HM).
    + exists l. rewrite lookup_insert_ne, lookup_insert_eq by done. split; [done|].
      rewrite Forall_forall in Hall |- *. intros n Hn. destruct (Hall n Hn) as (j & xj & -> & Hj & Hju).
      exists j, xj. split_and!; [done| |done]. rewrite lookup_insert_ne; [done|]. intros <-.
      apply Hno. exists UnusedMux, l. rewrite lookup_insert_eq. set_solver.
  - exists i, x, l. cbn. rewrite Hid. split_and!; try done; [apply lookup_insert_eq|by exists x'].
Qed.

(** LOS_MuxDelete succeeds exactly when the mutex is free and no task waits for it. *)
Lemma mux_delete_wp k m t i x l :
  KInv k m t -> MuxInv k m -> mux_waiting k m i x l ->
  wp (LOS_MuxDelete i) (λ r k', ∃ m', KInv k' m' t /\ MuxInv k' m' /\ lists_only mux_node m m' /\
    if bool_decide (l = []) && (muxCount x =? 0) then
      r = LOS_OK /\ g_allMux k' = <[i := set_muxStat (λ _, OS_MUX_UNUSED) x]> (g_allMux k) /\
      ∃ lu, m !! UnusedMux = Some lu /\ m' = <[UnusedMux := MuxList i :: lu]> (delete (MuxList i) m)
    else r = LOS_ERRNO_MUX_PENDED /\ k' = k) k.
Proof.
  intros HK HM (Hi & Hx & Hu & Hl). unfold LOS_MuxDelete. destruct (Z.geb_spec i LOSCFG_BASE_IPC_MUX_LIMIT); [lia|].
  wp_step. eapply wp_mux; [done|]. rewrite (proj2 (Z.eqb_neq _ _) Hu). wp_step. eapply kinv_empty; [done..|].
  destruct (bool_decide (l = []) && (muxCount x =? 0)) eqn:Eb.
  2:{ rewrite <- negb_andb, Eb. apply wp_ret. by exists m. }
  rewrite <- negb_andb, Eb. cbn [negb]. apply andb_true_iff in Eb as [El%bool_decide_eq_true _]. subst l.
  destruct (mi_unused _ _ HM) as (lu & Hlu & Hall).
  wp_step. eapply wp_mono; [by eapply (kinv_give k m t UnusedMux (MuxList i))|]. intros [] k1 (h1 & -> & HK1).
  wp_step. eapply wp_mod_mux; [done|]. apply wp_ret. eexists.
  split_and!; [by apply KInv_mux| |by apply lists_only_insert, lists_only_delete|done..|by exists lu].
  assert (Hno : MuxList i ∉ lu).
  { intros Hin. pose proof (rep_rings _ _ (si_rep _ _ _ _ _ (ki_sched _ _ _ HK))) as [_ Hd].
    assert (UnusedMux = MuxList i); [|done]. eapply Hd; [exact Hlu|exact Hl|by right|left]. }
  split; cbn.
  - intros j xj Hj. rewrite lookup_insert in Hj. case_decide as E; simplify_eq.
    + pose proof (mux_id_ok _ _ _ _ (mi_muxes _ _ HM _ _ Hx)) as Hid. split; cbn; try done. intros _. exists (MuxList j :: lu).
      rewrite lookup_insert_eq. split; [done|left].
    + eapply (mux_ok_other _ m); [by apply (mi_muxes _ _ HM)| | |done].
      * intros _ (l0 & Hl0 & Hin). simplify_eq. exists (MuxList i :: lu). rewrite lookup_insert_eq.
        split; [done|by right].
      * by rewrite lookup_insert_ne, lookup_delete_ne by congruence.
  - intros j Hj. rewrite lookup_insert. case_decide; [by eexists|]. by apply (mi_all _ _ HM).
  - exists (MuxList i :: lu). rewrite lookup_insert_eq. split; [done|]. constructor.
    + exists i. eexists. rewrite lookup_insert_eq. done.
    + rewrite Forall_forall in Hall |- *. intros n Hn. destruct (Hall n Hn) as (j & xj & -> & Hj & Hju).
      exists j, xj. split_and!; [done| |done]. rewrite lookup_insert_ne; [done|]. by intros ->.
Qed.

End MuxProofs.
