(* ===== verification/Event.v ===== *)
(** Events (src/kernel/src/los_event.c). An event block is the application's or
    the one embedded in a task; a NULL block is [None]. *)

From S2P Require Import Prelude Errno LosList Kernel Tick SortLink Sched SchedInv SchedTime SchedSwitch KernelInv Waits.

Definition LOS_WAITMODE_AND : Z := 4.
Definition LOS_WAITMODE_OR : Z := 2.
Definition LOS_WAITMODE_CLR : Z := 1.

(** The decision of [LOS_EventPoll]: the bits delivered and the value left in
    [*eventID]. *)
Definition event_poll (eventID eventMask mode : Z) : Z * Z :=
  let ret :=
    if test mode LOS_WAITMODE_OR then
      if negb (Z.land eventID eventMask =? 0) then Z.land eventID eventMask else 0
    else
      if negb (eventMask =? 0) && (eventMask =? Z.land eventID eventMask) then Z.land eventID eventMask
      else 0 in
  (ret, if negb (ret =? 0) && test mode LOS_WAITMODE_CLR then Z.ldiff eventID ret else eventID).

Section Event.
Context `{Platform}.

Definition uwEventID (e : EventRef) : M Kernel Z :=
  let* a := gets eventIDs in of_option (a !! e).
Definition set_uwEventID (e : EventRef) (v : Z) : M Kernel unit :=
  modify (set_eventIDs (insert e v)).

Definition LOS_EventInit (eventCB : option EventRef) : M Kernel Z :=
  match eventCB with
  | None => mret LOS_ERRNO_EVENT_PTR_NULL
  | Some e =>
      set_uwEventID e 0 ;;;
      onlist (LOS_ListInit (EventList e)) ;;;
      mret LOS_OK
  end.

(** [eventID] points to the bits of an event block. *)
Definition LOS_EventPoll (eventID : option EventRef) (eventMask mode : Z) : M Kernel Z :=
  match eventID with
  | None => mret LOS_ERRNO_EVENT_PTR_NULL
  | Some e =>
      let* id := uwEventID e in
      let '(ret, id') := event_poll id eventMask mode in
      set_uwEventID e id' ;;;
      mret ret
  end.

(** [pstNext == NULL || pstPrev == NULL] *)
Definition eventListNull (e : EventRef) : M Kernel bool :=
  let* next := onlist (get_pstNext (EventList e)) in
  let* prev := onlist (get_pstPrev (EventList e)) in
  mret (bool_decide (next = None) || bool_decide (prev = None)).

Definition OsEventReadParamCheck (eventCB : option EventRef) (eventMask mode : Z) : M Kernel Z :=
  match eventCB with
  | None => mret LOS_ERRNO_EVENT_PTR_NULL
  | Some e =>
      let* null := eventListNull e in
      if (null : bool) then mret LOS_ERRNO_EVENT_NOT_INITIALIZED
      else if eventMask =? 0 then mret LOS_ERRNO_EVENT_EVENTMASK_INVALID
      else if test eventMask LOS_ERRTYPE_ERROR then mret LOS_ERRNO_EVENT_SETBIT_INVALID
      else if (test mode LOS_WAITMODE_OR && test mode LOS_WAITMODE_AND)
           || negb (Z.ldiff mode (Z.lor (Z.lor LOS_WAITMODE_OR LOS_WAITMODE_AND) LOS_WAITMODE_CLR) =? 0)
           || negb (test mode (Z.lor LOS_WAITMODE_OR LOS_WAITMODE_AND))
      then mret LOS_ERRNO_EVENT_FLAGS_INVALID
      else mret LOS_OK
  end.

(** What the waiting task does when it runs again. *)
Definition LOS_EventRead_resume (runTsk : Z) (eventCB : option EventRef) (eventMask mode : Z) : M Kernel Z :=
  let* c := tcb runTsk in
  if test (taskStatus c) OS_TASK_STATUS_TIMEOUT then
    clear_status runTsk OS_TASK_STATUS_TIMEOUT ;;;
    mret LOS_ERRNO_EVENT_READ_TIMEOUT
  else LOS_EventPoll eventCB eventMask mode.

Definition LOS_EventRead (eventCB : option EventRef) (mask mode timeOut : Z) : M Kernel (Proc Z) :=
  let* ret := OsEventReadParamCheck eventCB mask mode in
  if negb (ret =? LOS_OK) then returns ret
  else
    let* active := gets intActive in
    if (active : bool) then returns LOS_ERRNO_EVENT_READ_IN_INTERRUPT
    else
      let* run := running in
      let* c := tcb run in
      if test (taskStatus c) OS_TASK_FLAG_SYSTEM_TASK then returns LOS_ERRNO_EVENT_READ_IN_SYSTEM_TASK
      else
        let* ret := LOS_EventPoll eventCB mask mode in
        if ret =? 0 then
          if timeOut =? 0 then returns ret
          else
            let* lock := gets g_losTaskLock in
            if negb (lock =? 0) then returns LOS_ERRNO_EVENT_READ_IN_LOCK
            else
              let* e := of_option eventCB in
              let* runTsk := running in
              mod_tcb runTsk (set_eventMask (λ _, mask)) ;;;
              mod_tcb runTsk (set_eventMode (λ _, mode)) ;;;
              OsSchedTaskWait (EventList e) timeOut ;;;
              block_then (LOS_EventRead_resume runTsk eventCB mask mode)
        else returns ret.

(** Whether a write wakes a waiting task. *)
Definition event_wakes (c : LosTaskCB) (events eventID : Z) : bool :=
  (test (eventMode c) LOS_WAITMODE_OR && negb (Z.land (eventMask c) events =? 0)) ||
  (test (eventMode c) LOS_WAITMODE_AND && (Z.land (eventMask c) eventID =? eventMask c)).

(** The walk over the waiting tasks, at most [fuel] of them; returns [exitFlag]. *)
Fixpoint LOS_EventWrite_loop (fuel : nat) (e : EventRef) (n : Node) (events : Z) (exitFlag : bool)
    : M Kernel bool :=
  match fuel with
  | O => fault
  | S fuel =>
      if bool_decide (n = EventList e) then mret exitFlag
      else
        let* resumedTask := of_option (OS_TCB_FROM_PENDLIST n) in
        let* next := nextNode n in
        let* c := tcb resumedTask in
        let* id := uwEventID e in
        if event_wakes c events id then
          OsSchedTaskWake resumedTask ;;;
          LOS_EventWrite_loop fuel e next events true
        else LOS_EventWrite_loop fuel e next events exitFlag
  end.

Definition LOS_EventWrite (eventCB : option EventRef) (events : Z) : M Kernel Z :=
  match eventCB with
  | None => mret LOS_ERRNO_EVENT_PTR_NULL
  | Some e =>
      let* null := eventListNull e in
      if (null : bool) then mret LOS_ERRNO_EVENT_NOT_INITIALIZED
      else if test events LOS_ERRTYPE_ERROR then mret LOS_ERRNO_EVENT_SETBIT_INVALID
      else
        let* id := uwEventID e in
        set_uwEventID e (Z.lor id events) ;;;
        let* empty := onlist (LOS_ListEmpty (EventList e)) in
        if negb empty then
          let* first := nextNode (EventList e) in
          let* h := gets dlists in
          let* exitFlag := LOS_EventWrite_loop (size h) e first events false in
          when exitFlag LOS_Schedule ;;;
          mret LOS_OK
        else mret LOS_OK
  end.

Definition LOS_EventDestroy (eventCB : option EventRef) : M Kernel Z :=
  match eventCB with
  | None => mret LOS_ERRNO_EVENT_PTR_NULL
  | Some e =>
      let* empty := onlist (LOS_ListEmpty (EventList e)) in
      if negb empty then mret LOS_ERRNO_EVENT_SHOULD_NOT_DESTROYED
      else
        onlist (set_pstNext (EventList e) None) ;;;
        onlist (set_pstPrev (EventList e) None) ;;;
        mret LOS_OK
  end.

Definition LOS_EventClear (eventCB : option EventRef) (mask : Z) : M Kernel Z :=
  match eventCB with
  | None => mret LOS_ERRNO_EVENT_PTR_NULL
  | Some e =>
      let* id := uwEventID e in
      set_uwEventID e (Z.land id mask) ;;;
      mret LOS_OK
  end.

End Event.

(** ** Correctness *)

#[local] Opaque LOS_ListAdd LOS_ListTailInsert LOS_ListDelete LOS_ListInit LOS_ListEmpty.

(** When a reader's condition holds: one of the bits, or all of them. *)
Definition event_satisfied (eventID eventMask mode : Z) : Prop :=
  if test mode LOS_WAITMODE_OR then ∃ n, Z.testbit eventID n = true /\ Z.testbit eventMask n = true
  else eventMask <> 0 /\ ∀ n, Z.testbit eventMask n = true -> Z.testbit eventID n = true.

Lemma land_nonzero a b : Z.land a b <> 0 <-> ∃ n, Z.testbit a n = true /\ Z.testbit b n = true.
Proof.
  split.
  - intros Hne. destruct (decide (0 <= Z.land a b)) as [Hpos|Hneg].
    + exists (Z.log2 (Z.land a b)). apply andb_true_iff. rewrite <-Z.land_spec. apply Z.bit_log2. lia.
    + exists (Z.log2 (Z.pred (- Z.land a b)) + 1). apply andb_true_iff. rewrite <-Z.land_spec.
      apply Z.bits_above_log2_neg; lia.
  - intros (n & Ha & Hb) E. assert (Hbit : Z.testbit (Z.land a b) n = true) by by rewrite Z.land_spec, Ha, Hb.
    rewrite E, Z.bits_0 in Hbit. done.
Qed.

Lemma land_subset a b : b = Z.land a b <-> ∀ n, Z.testbit b n = true -> Z.testbit a n = true.
Proof.
  split.
  - intros E n Hn. rewrite E, Z.land_spec in Hn. by apply andb_true_iff in Hn as [? _].
  - intros Hs. apply Z.bits_inj. intros n. rewrite Z.land_spec. destruct (Z.testbit b n) eqn:E; [|by rewrite andb_false_r].
    by rewrite Hs.
Qed.

Lemma event_poll_spec eventID eventMask mode ret id' :
  event_poll eventID eventMask mode = (ret, id') ->
  (event_satisfied eventID eventMask mode <-> ret <> 0) /\
  (ret <> 0 -> ret = Z.land eventID eventMask) /\
  ∀ n, Z.testbit id' n = Z.testbit eventID n &&
    negb (bool_decide (ret <> 0) && test mode LOS_WAITMODE_CLR && Z.testbit eventMask n).
Proof.
  unfold event_poll, event_satisfied.
  assert (Hclr : ∀ r n, r = Z.land eventID eventMask -> r <> 0 ->
    Z.testbit (if negb (r =? 0) && test mode LOS_WAITMODE_CLR then Z.ldiff eventID r else eventID) n =
    Z.testbit eventID n && negb (bool_decide (r <> 0) && test mode LOS_WAITMODE_CLR && Z.testbit eventMask n)).
  { intros r n -> Hr. rewrite (proj2 (Z.eqb_neq _ _) Hr), (bool_decide_true _ Hr). cbn [negb andb].
    destruct (test mode LOS_WAITMODE_CLR); cbn [andb negb]; [|by rewrite andb_true_r].
    destruct (decide (0 <= n)); [|by rewrite !Z.testbit_neg_r by lia].
    rewrite Z.ldiff_spec, Z.land_spec. destruct (Z.testbit eventID n), (Z.testbit eventMask n); done. }
  destruct (test mode LOS_WAITMODE_OR).
  - destruct (Z.eqb_spec (Z.land eventID eventMask) 0) as [E|E]; cbn [negb]; intros [= <- <-].
    + rewrite <-land_nonzero. cbn. split_and!; [naive_solver|done|]. intros n. by rewrite andb_true_r.
    + rewrite <-land_nonzero. split_and!; [done|done|]. intros n. by apply Hclr.
  - rewrite <-land_subset. destruct (Z.eqb_spec eventMask 0) as [E|E]; cbn [negb andb].
    + intros [= <- <-]. split_and!; [|done|]; [|intros n; cbn; by rewrite andb_true_r]. naive_solver.
    + destruct (Z.eqb_spec eventMask (Z.land eventID eventMask)) as [E'|E']; intros [= <- <-].
      * split_and!; [|done|intros n; apply Hclr; congruence]. split; [intros _; congruence|done].
      * split_and!; [naive_solver|done|]. intros n. cbn. by rewrite andb_true_r.
Qed.

(** C11: The event poll reports the masked events exactly when the wait mode is satisfied, and
    clears exactly the masked bits and only when it is satisfied in a clearing mode. *)
Theorem event_poll_correct eventID eventMask mode ret id' :
  event_poll eventID eventMask mode = (ret, id') ->
  (event_satisfied eventID eventMask mode <-> ret <> 0) /\
  (ret <> 0 -> ret = Z.land eventID eventMask) /\
  ∀ n, Z.testbit id' n = Z.testbit eventID n &&
    negb (bool_decide (ret <> 0) && test mode LOS_WAITMODE_CLR && Z.testbit eventMask n).
Proof. apply event_poll_spec. Qed.

#[export] Instance event_satisfied_dec eventID eventMask mode : Decision (event_satisfied eventID eventMask mode).
Proof.
  unfold event_satisfied. destruct (test mode LOS_WAITMODE_OR).
  - destruct (decide (Z.land eventID eventMask = 0)) as [E|E]; [right|left]; rewrite <-land_nonzero; [by intros []|done].
  - destruct (decide (eventMask <> 0 /\ eventMask = Z.land eventID eventMask)) as [E|E]; [left|right]; by rewrite <-land_subset.
Defined.

(** The arguments of a read are valid: some bits, not the reserved one, and
    one of the two modes. *)
Definition event_args_ok (mask mode : Z) : Prop :=
  mask <> 0 /\ test mask LOS_ERRTYPE_ERROR = false /\
  test mode LOS_WAITMODE_OR = negb (test mode LOS_WAITMODE_AND) /\
  Z.ldiff mode (Z.lor (Z.lor LOS_WAITMODE_OR LOS_WAITMODE_AND) LOS_WAITMODE_CLR) = 0.

(** The tasks of the list [l] wait for events that are not there yet. *)
Definition readers_wait (T : gmap Z LosTaskCB) (eventID : Z) (l : list Node) : Prop :=
  ∀ x c, PendList x ∈ l -> T !! x = Some c ->
    event_args_ok (eventMask c) (eventMode c) /\ ~ event_satisfied eventID (eventMask c) (eventMode c).

(** Fewer events satisfy fewer readers. *)
Lemma event_satisfied_mono eventID eventID' eventMask mode :
  (∀ n, Z.testbit eventID' n = true -> Z.testbit eventID n = true) ->
  event_satisfied eventID' eventMask mode -> event_satisfied eventID eventMask mode.
Proof. intros Hsub. unfold event_satisfied. destruct (test mode LOS_WAITMODE_OR); naive_solver. Qed.

(** For a reader that waits, the test of [LOS_EventWrite] is the reader's
    condition on all the events, old and new. *)
Lemma event_wakes_satisfied c id events :
  event_args_ok (eventMask c) (eventMode c) -> ~ event_satisfied id (eventMask c) (eventMode c) ->
  event_wakes c events (Z.lor id events) = bool_decide (event_satisfied (Z.lor id events) (eventMask c) (eventMode c)).
Proof.
  intros (Hm & _ & Hmode & _) Hn. symmetry. unfold event_wakes. unfold event_satisfied in Hn. destruct (test (eventMode c) LOS_WAITMODE_OR) eqn:Eor.
  - rewrite <-(negb_involutive (test (eventMode c) LOS_WAITMODE_AND)), <-Hmode. cbn [andb orb negb]. rewrite orb_false_r.
    destruct (Z.eqb_spec (Z.land (eventMask c) events) 0) as [E|E]; cbn [negb]; [apply bool_decide_false|apply bool_decide_true]; unfold event_satisfied; rewrite Eor.
    + intros (n & Hb & Hbm). rewrite Z.lor_spec in Hb. apply orb_true_iff in Hb as [Hb|Hb]; [by apply Hn; eauto|]. revert E. apply land_nonzero. eauto.
    + apply land_nonzero in E as (n & ? & Hb). exists n. by rewrite Z.lor_spec, Hb, orb_true_r.
  - rewrite <-(negb_involutive (test (eventMode c) LOS_WAITMODE_AND)), <-Hmode. cbn [andb orb negb].
    destruct (Z.eqb_spec (Z.land (eventMask c) (Z.lor id events)) (eventMask c)) as [E|E]; [apply bool_decide_true|apply bool_decide_false]; unfold event_satisfied; rewrite Eor, <-land_subset, Z.land_comm; naive_solver.
Qed.

Section EventProofs.
Context `{TimerLaws}.

Lemma KInv_event k m t f : KInv k m t -> KInv (set_eventIDs f k) m t.
Proof. by intros []. Qed.

Lemma wp_uwEventID k e id (Q : Z -> Kernel -> Prop) :
  eventIDs k !! e = Some id -> Q id k -> wp (uwEventID e) Q k.
Proof. intros He HQ. unfold uwEventID. wp_steps. by eapply wp_of_option. Qed.

(** An event block that has been initialised. *)
Definition event_waiting (k : Kernel) (m : gmap Node (list Node)) (e : EventRef) (id : Z) (l : list Node) : Prop :=
  eventIDs k !! e = Some id /\ m !! EventList e = Some l.

Lemma event_null_wp k m t e id l (Q : bool -> Kernel -> Prop) :
  KInv k m t -> event_waiting k m e id l -> Q false k -> wp (eventListNull e) Q k.
Proof.
  intros HK [_ Hl] HQ. pose proof (si_rep _ _ _ _ _ (ki_sched _ _ _ HK)) as HR. unfold eventListNull.
  wp_step. apply wp_onlist. unfold get_pstNext. wp_step. rewrite (Rep_first _ _ _ _ HR Hl).
  assert (E : set_dlists (λ _, dlists k) k = k) by by destruct k. rewrite E.
  wp_step. apply wp_onlist. unfold get_pstPrev. wp_step. rewrite (Rep_last _ _ _ _ HR Hl). rewrite E.
  by wp_steps.
Qed.

Lemma event_check_wp k m t e id l mask mode (Q : Z -> Kernel -> Prop) :
  KInv k m t -> event_waiting k m e id l -> event_args_ok mask mode -> Q LOS_OK k ->
  wp (OsEventReadParamCheck (Some e) mask mode) Q k.
Proof.
  intros HK He (H1 & H2 & H3 & H4) HQ. unfold OsEventReadParamCheck. wp_step. eapply event_null_wp; [done..|].
  rewrite (proj2 (Z.eqb_neq _ _) H1), H2, H4. rewrite test_lor, H3. by destruct (test mode LOS_WAITMODE_AND); cbn; wp_steps.
Qed.

Lemma event_read_wp k m t c e id l mask mode timeOut ret id' :
  KInv k m t -> event_waiting k m e id l -> event_args_ok mask mode -> may_wait k t c ->
  event_poll id mask mode = (ret, id') ->
  wp (LOS_EventRead (Some e) mask mode timeOut) (λ p k', ∃ m', KInv k' m' t /\ others_kept (Some t) (EventList e) k m k' m' /\
    eventIDs k' = <[e := id']> (eventIDs k) /\
    if negb (ret =? 0) || (timeOut =? 0) then p = Done ret /\ m' = m /\ g_taskCBArray k' = g_taskCBArray k
    else p = Blocked (resuming (LOS_EventRead_resume t (Some e) mask mode)) /\ pendSV k' = true /\
      m' = <[EventList e := l ++ [PendList t]]> m /\
      g_taskCBArray k' = <[t := wait_tcb timeOut (set_eventMode (λ _, mode) (set_eventMask (λ _, mask) c))]>
        (g_taskCBArray k)) k.
Proof.
  intros HK Hev Hargs Hmay Hpoll. pose proof (may_wait_live _ _ _ _ HK Hmay) as Hlive.
  destruct Hmay as (Hp & Hint & Hlock & Hidle & Hc & Hsys). unfold LOS_EventRead.
  wp_step. eapply event_check_wp; [done..|]. cbn [negb Z.eqb LOS_OK]. destruct Hev as [Hid Hl].
  wp_steps. rewrite Hint. wp_steps. eapply wp_running; [apply HK|]. wp_step. eapply wp_tcb; [done|].
  fold (has c OS_TASK_FLAG_SYSTEM_TASK). rewrite Hsys. wp_step. unfold LOS_EventPoll. wp_step.
  eapply wp_uwEventID; [done|]. rewrite Hpoll. unfold set_uwEventID. wp_steps.
  apply (KInv_event _ _ _ (insert e id')) in HK. set (k1 := set_eventIDs (insert e id') k) in *.
  destruct (Z.eqb_spec ret 0) as [->|Hr]; cbn [negb orb]; [|apply wp_ret; exists m; split_and!; try done; by apply kept_same].
  destruct (timeOut =? 0); [apply wp_ret; exists m; split_and!; try done; by apply kept_same|].
  wp_steps. change (g_losTaskLock k1) with (g_losTaskLock k). rewrite Hlock. cbn [Z.eqb negb].
  wp_step. eapply wp_of_option; [done|]. wp_step. eapply wp_running; [apply HK|].
  wp_step. eapply wp_mod_tcb; [done|]. wp_step. eapply wp_mod_tcb; [apply lookup_insert_eq|].
  set (c1 := set_eventMask _ c). set (c2 := set_eventMode _ c1).
  assert (HK1 : KInv (set_g_taskCBArray (insert t c1) k1) m t) by by eapply KInv_minor.
  assert (HK2 : KInv (set_g_taskCBArray (insert t c2) (set_g_taskCBArray (insert t c1) k1)) m t)
    by by eapply KInv_minor; [|apply lookup_insert_eq|..].
  wp_step. eapply wp_mono; [eapply (kinv_wait _ m t c2 (EventList e) l timeOut HK2); try done; apply lookup_insert_eq|].
  intros [] k' (h' & -> & HK3). unfold block_then. wp_step. eapply schedule_block_wp; [done|done|].
  apply wp_ret. eexists. split_and!; [exact HK3| |done..|].
  - eapply kept_wait; [exact Hc|]. cbn. by rewrite !insert_insert_eq.
  - cbn. by rewrite !insert_insert_eq.
Qed.

Lemma poll_unsatisfied id mask mode ret id' : event_poll id mask mode = (ret, id') ->
  (∀ n, Z.testbit id' n = true -> Z.testbit id n = true) /\ (ret = 0 -> ~ event_satisfied id mask mode).
Proof.
  intros E. destruct (event_poll_spec _ _ _ _ _ E) as (H1 & _ & H3). split; [|intros ->; naive_solver]. intros n. rewrite H3. by intros [? _]%andb_true_iff.
Qed.

Lemma wait_reads timeOut c : eventMask (wait_tcb timeOut c) = eventMask c /\ eventMode (wait_tcb timeOut c) = eventMode c.
Proof. unfold wait_tcb. by repeat case_match. Qed.

Lemma readers_wait_sub T id id' l : (∀ n, Z.testbit id' n = true -> Z.testbit id n = true) -> readers_wait T id l -> readers_wait T id' l.
Proof. intros Hs Hw x c Hx Hc. destruct (Hw x c Hx Hc) as [? Hn]. split; [done|]. contradict Hn. by eapply event_satisfied_mono. Qed.

(** C12: LOS_EventRead returns the polled events when the mode is satisfied or the timeout is 0,
    and otherwise records mask and mode in the caller and appends it to the wait list of the
    event block; if the events satisfied none of the waiting tasks before, they satisfy none of
    them afterwards. *)
Theorem event_read_correct k m t c e id l mask mode timeOut ret id' :
  KInv k m t -> event_waiting k m e id l -> event_args_ok mask mode -> may_wait k t c ->
  event_poll id mask mode = (ret, id') ->
  wp (LOS_EventRead (Some e) mask mode timeOut) (λ p k', ∃ m', KInv k' m' t /\
    eventIDs k' = <[e := id']> (eventIDs k) /\
    (readers_wait (g_taskCBArray k) id l -> ∃ l', m' !! EventList e = Some l' /\ readers_wait (g_taskCBArray k') id' l') /\
    if negb (ret =? 0) || (timeOut =? 0) then p = Done ret /\ m' = m /\ g_taskCBArray k' = g_taskCBArray k
    else p = Blocked (resuming (LOS_EventRead_resume t (Some e) mask mode)) /\ pendSV k' = true /\
      m' = <[EventList e := l ++ [PendList t]]> m /\
      g_taskCBArray k' = <[t := wait_tcb timeOut (set_eventMode (λ _, mode) (set_eventMask (λ _, mask) c))]>
        (g_taskCBArray k)) k.
Proof.
  intros HK Hev Hargs Hmay Hpoll. eapply wp_mono; [by eapply event_read_wp|]. intros p k' (m' & ? & _ & ? & HQ). exists m'. split_and!; [done|done| |done].
  intros Hrd. destruct (poll_unsatisfied _ _ _ _ _ Hpoll) as [Hsub Hret]. destruct Hev as [_ Hl]. destruct Hmay as (_ & _ & _ & _ & Hc & _).
  destruct (negb (ret =? 0) || (timeOut =? 0)) eqn:E.
  - destruct HQ as (_ & -> & ->). exists l. split; [done|]. by eapply readers_wait_sub.
  - destruct HQ as (_ & _ & -> & ->). exists (l ++ [PendList t]). rewrite lookup_insert_eq. split; [done|]. apply orb_false_iff in E as [E%negb_false_iff%Z.eqb_eq _].
    intros x d Hx Hd. destruct (decide (x = t)) as [->|Hne].
    + rewrite lookup_insert_eq in Hd. injection Hd as <-. destruct (wait_reads timeOut (set_eventMode (λ _, mode) (set_eventMask (λ _, mask) c))) as [-> ->]. split; [done|].
      intros Hs. apply Hret in E. apply E. by eapply event_satisfied_mono.
    + rewrite lookup_insert_ne in Hd by done. apply elem_of_app in Hx as [Hx|[= ?]%list_elem_of_singleton]; [|done]. by eapply (readers_wait_sub _ id id' l).
Qed.

(** The tasks of a wait list that satisfy [P] are woken. *)
Section woken.
Context (idle slice sliceMin : Z) (P : LosTaskCB -> bool).
Definition node_wakes (T : gmap Z LosTaskCB) (n : Node) : bool :=
  match n with PendList x => from_option P false (T !! x) | _ => false end.
Fixpoint woken (l : list Node) (T : gmap Z LosTaskCB) : gmap Z LosTaskCB :=
  match l with
  | n :: l' =>
      woken l' (match n with
                | PendList x => if node_wakes T n then alter (wake_tcb idle slice sliceMin) x T else T
                | _ => T
                end)
  | [] => T
  end.

Lemma woken_lookup l T x :
  NoDup l -> woken l T !! x =
    (λ c, if bool_decide (PendList x ∈ l) && P c then wake_tcb idle slice sliceMin c else c) <$> T !! x.
Proof.
  revert T. induction l as [|n l IH]; intros T Hnd.
  { cbn. rewrite bool_decide_false by apply not_elem_of_nil. by destruct (T !! x). }
  apply NoDup_cons in Hnd as [Hn Hnd]. cbn [woken]. rewrite IH by done.
  destruct (decide (n = PendList x)) as [->|Hne].
  - rewrite (bool_decide_false (PendList x ∈ l)) by done. rewrite (bool_decide_true (PendList x ∈ _ :: l)) by left.
    cbn. destruct (T !! x) as [c|] eqn:E; cbn; [|by rewrite E]. destruct (P c); [|by rewrite E].
    by rewrite lookup_alter_eq, E.
  - rewrite (bool_decide_ext (PendList x ∈ n :: l) (PendList x ∈ l)) by (rewrite elem_of_cons; naive_solver).
    destruct n; try done. destruct (node_wakes _ _); [|done]. rewrite lookup_alter_ne by congruence. done.
Qed.
End woken.

Lemma node_wakes_frame P T x (v : LosTaskCB) l :
  PendList x ∉ l ->
  existsb (node_wakes P (<[x := v]> T)) l = existsb (node_wakes P T) l /\
  filter (λ n, node_wakes P (<[x := v]> T) n = false) l = filter (λ n, node_wakes P T n = false) l.
Proof.
  induction l as [|n l IH]; intros Hn; [done|]. apply not_elem_of_cons in Hn as [Hne Hn].
  assert (E : node_wakes P (<[x := v]> T) n = node_wakes P T n).
  { destruct n; try done. cbn. by rewrite lookup_insert_ne by congruence. }
  destruct (IH Hn) as [IH1 IH2]. cbn [existsb]. rewrite !filter_cons, E, IH1, IH2. done.
Qed.

Lemma node_wakes_ext P P' T l : (∀ x c, PendList x ∈ l -> T !! x = Some c -> P c = P' c) ->
  filter (λ n, node_wakes P T n = false) l = filter (λ n, node_wakes P' T n = false) l /\ existsb (node_wakes P T) l = existsb (node_wakes P' T) l.
Proof.
  induction l as [|n l IH]; intros HP; [done|]. destruct IH as [IH1 IH2]; [intros x c Hx; apply HP; by right|].
  assert (E : node_wakes P T n = node_wakes P' T n).
  { destruct n; try done. cbn. destruct (T !! _) eqn:Hc; [|done]. cbn. eapply HP; [left|done]. }
  cbn [existsb]. rewrite !filter_cons, E, IH1, IH2. done.
Qed.

Lemma upd_upd h T b r h' T' b' r' (k : Kernel) : upd h' T' b' r' (upd h T b r k) = upd h' T' b' r' k.
Proof. done. Qed.

(** The walk over the waiting tasks. *)
Lemma event_loop_wp e id events rest : ∀ k m t kept fuel flag,
  KInv k m t -> eventIDs k !! e = Some id -> m !! EventList e = Some (kept ++ rest) -> (length rest < fuel)%nat ->
  let P c := event_wakes c events id in
  wp (LOS_EventWrite_loop fuel e (List.hd (EventList e) rest) events flag) (λ f k', ∃ h' b' r' m',
    k' = upd h' (woken (g_idleTaskID k) (g_schedTimeSlice k) (g_schedTimeSliceMin k) P rest (g_taskCBArray k)) b' r' k /\
    KInv k' m' t /\ f = flag || existsb (node_wakes P (g_taskCBArray k)) rest /\
    m' !! EventList e = Some (kept ++ filter (λ n, node_wakes P (g_taskCBArray k) n = false) rest) /\
    ∀ hd, hd <> EventList e -> hd <> TaskSortLink -> (∀ p, hd <> PriQueue p) -> m' !! hd = m !! hd) k.
Proof.
  induction rest as [|n rest IH]; intros k m t kept [|fuel] flag HK Hid Hl Hf P; cbn in Hf; try lia.
  all: cbn [LOS_EventWrite_loop List.hd].
  { rewrite bool_decide_true by done. apply wp_ret. exists (dlists k), (g_queueBitmap k), (g_schedResponseTime k), m.
    cbn [woken existsb]. rewrite <-upd_id, orb_false_r. done. }
  pose proof (si_rep _ _ _ _ _ (ki_sched _ _ _ HK)) as HR.
  pose proof (rings_nodup _ (rep_rings _ _ HR) _ _ Hl) as [Hhd Hnd]%NoDup_cons.
  rewrite bool_decide_false by set_solver.
  destruct (wait_member _ _ _ _ _ n (EventList e) (ki_sched _ _ _ HK)) as (x & c & -> & Hc & Hpd); [|done|].
  { eexists. split; [done|]. set_solver. }
  wp_step. eapply wp_of_option; [done|]. wp_step. eapply wp_nextNode; [by apply (Rep_next _ _ _ _ _ _ HR Hl)|].
  wp_step. eapply wp_tcb; [done|]. wp_step. eapply wp_uwEventID; [done|]. fold (P c).
  cbn [woken existsb]. rewrite filter_cons.
  assert (EN : node_wakes P (g_taskCBArray k) (PendList x) = P c) by (cbn; by rewrite Hc).
  destruct (P c) eqn:EP; [rewrite decide_False by congruence|rewrite decide_True by done]; rewrite EN.
  - wp_step. eapply wp_mono; [eapply (kinv_wake _ _ _ _ _ _ _ HK Hc Hpd Hl); set_solver|].
    intros [] k1 (h1 & b1 & r1 & m1 & -> & HK1 & Hm1 & Hf1). rewrite list_remove_all_mid in Hm1 by done.
    assert (Hx : PendList x ∉ rest) by (apply NoDup_app in Hnd as (_ & _ & [? _]%NoDup_cons); done).
    eapply wp_mono; [eapply (IH _ m1 t kept fuel true HK1); [done|done|lia]|].
    intros f k2 (h2 & b2 & r2 & m2 & -> & HK2 & -> & Hm2 & Hf2). fold P in HK2, Hm2 |- *.
    change (g_taskCBArray (upd h1 ?T1 b1 r1 k)) with T1 in Hm2 |- *.
    destruct (node_wakes_frame P (g_taskCBArray k) x
      (wake_tcb (g_idleTaskID k) (g_schedTimeSlice k) (g_schedTimeSliceMin k) c) rest Hx) as [E1 E2].
    rewrite E2 in Hm2. exists h2, b2, r2, m2. rewrite (alter_as_insert _ x _ c) by done.
    rewrite orb_true_r. split_and!; try done. intros hd N1 N2 N3. rewrite Hf2 by done. by apply Hf1.
  - eapply wp_mono; [eapply (IH _ m t (kept ++ [PendList x]) fuel flag HK Hid); [by rewrite <-app_assoc|lia]|].
    intros f k2 (h2 & b2 & r2 & m2 & -> & HK2 & -> & Hm2 & Hf2). fold P in HK2, Hm2 |- *. exists h2, b2, r2, m2.
    by rewrite <-app_assoc in Hm2.
Qed.

Lemma event_write_wp k m t e id l events (P := λ c, event_wakes c events (Z.lor id events)) :
  KInv k m t -> event_waiting k m e id l -> test events LOS_ERRTYPE_ERROR = false ->
  wp (LOS_EventWrite (Some e) events) (λ ret k', ∃ m', KInv k' m' t /\ others_kept None (EventList e) k m k' m' /\ ret = LOS_OK /\
    eventIDs k' = <[e := Z.lor id events]> (eventIDs k) /\
    m' !! EventList e = Some (filter (λ n, node_wakes P (g_taskCBArray k) n = false) l) /\
    (∀ x, g_taskCBArray k' !! x = (λ c, if bool_decide (PendList x ∈ l) && P c
       then wake_tcb (g_idleTaskID k) (g_schedTimeSlice k) (g_schedTimeSliceMin k) c else c) <$> g_taskCBArray k !! x) /\
    (existsb (node_wakes P (g_taskCBArray k)) l = true -> g_losTaskLock k = 0 -> pendSV k' = true)) k.
Proof.
  intros HK He Herr. unfold LOS_EventWrite. wp_step. eapply event_null_wp; [done..|]. rewrite Herr.
  destruct He as [Hid Hl]. wp_step. eapply wp_uwEventID; [done|]. unfold set_uwEventID. wp_steps.
  apply (KInv_event _ _ _ (insert e (Z.lor id events))) in HK. set (k1 := set_eventIDs _ k) in *.
  eapply kinv_empty; [done..|].
  pose proof (rings_nodup _ (rep_rings _ _ (si_rep _ _ _ _ _ (ki_sched _ _ _ HK))) _ _ Hl) as [_ Hnd]%NoDup_cons.
  destruct l as [|n l]; [rewrite bool_decide_true by done|rewrite bool_decide_false by done]; cbn [negb].
  { apply wp_ret. exists m. split_and!; try done; [by apply kept_same|]. intros x. rewrite bool_decide_false by apply not_elem_of_nil.
    cbn. by destruct (g_taskCBArray k !! x). }
  wp_steps. eapply kinv_first; [done..|]. wp_steps.
  eapply wp_mono; [eapply (event_loop_wp e (Z.lor id events) events (n :: l) k1 m t [] _ false HK); [apply lookup_insert_eq|done|]|].
  { by eapply Rep_ring_size; [apply (ki_sched _ _ _ HK)|]. }
  intros f k2 (h2 & b2 & r2 & m2 & -> & HK2 & -> & Hm2 & Hf2). fold P in Hm2, HK2 |- *. cbn [orb app] in *.
  assert (Hlk := λ x, woken_lookup (g_idleTaskID k) (g_schedTimeSlice k) (g_schedTimeSliceMin k) P (n :: l) (g_taskCBArray k) x Hnd).
  assert (Hk : ∀ k', g_taskCBArray k' = woken (g_idleTaskID k) (g_schedTimeSlice k) (g_schedTimeSliceMin k) P (n :: l) (g_taskCBArray k) ->
    others_kept None (EventList e) k m k' m2).
  { intros k' E. split; [done|]. intros x cx Hx _. rewrite E, Hlk, Hx. eexists. split; [done|].
    case_bool_decide as Din; [|by left]. destruct (P cx); [right|by left]. split; [done|]. by exists (n :: l). }
  wp_step. destruct (existsb (node_wakes P (g_taskCBArray k1)) (n :: l)) eqn:Ex; cbn [when].
  - eapply schedule_wp; [done|]. intros p Hpd HK3. apply wp_ret. exists m2. split_and!; auto; by apply Hk.
  - apply wp_ret. apply wp_ret. exists m2. change (g_taskCBArray k1) with (g_taskCBArray k) in Ex.
    split_and!; rewrite ?Ex; try done. by apply Hk.
Qed.

(** C13: LOS_EventWrite sets the bits and wakes exactly the waiting tasks whose condition the
    old and the new events together satisfy, keeping the others, which are still not satisfied,
    in their order; a switch is requested when a task was woken and the scheduler is not locked.
    The tasks in the wait list have valid masks and modes and were not satisfied before the
    write, as a blocking LOS_EventRead leaves them. *)
Theorem event_write_correct k m t e id l events (P := λ c, bool_decide (event_satisfied (Z.lor id events) (eventMask c) (eventMode c))) :
  KInv k m t -> event_waiting k m e id l -> readers_wait (g_taskCBArray k) id l -> test events LOS_ERRTYPE_ERROR = false ->
  wp (LOS_EventWrite (Some e) events) (λ ret k', ∃ m' l', KInv k' m' t /\ ret = LOS_OK /\
    eventIDs k' = <[e := Z.lor id events]> (eventIDs k) /\
    m' !! EventList e = Some l' /\ l' = filter (λ n, node_wakes P (g_taskCBArray k) n = false) l /\ readers_wait (g_taskCBArray k') (Z.lor id events) l' /\
    (∀ x, g_taskCBArray k' !! x = (λ c, if bool_decide (PendList x ∈ l) && P c
       then wake_tcb (g_idleTaskID k) (g_schedTimeSlice k) (g_schedTimeSliceMin k) c else c) <$> g_taskCBArray k !! x) /\
    (existsb (node_wakes P (g_taskCBArray k)) l = true -> g_losTaskLock k = 0 -> pendSV k' = true)) k.
Proof.
  intros HK He Hrd Herr. eapply wp_mono; [by eapply event_write_wp|]. intros p k' (m' & ? & _ & ? & ? & Hm' & HT & Hp).
  assert (HP : ∀ x c, PendList x ∈ l -> g_taskCBArray k !! x = Some c -> event_wakes c events (Z.lor id events) = P c).
  { intros x c Hx Hc. destruct (Hrd x c Hx Hc). by apply event_wakes_satisfied. }
  destruct (node_wakes_ext _ _ _ _ HP) as [Ef Ee]. rewrite Ef in Hm'. rewrite Ee in Hp.
  assert (HT' : ∀ x, g_taskCBArray k' !! x = (λ c, if bool_decide (PendList x ∈ l) && P c
    then wake_tcb (g_idleTaskID k) (g_schedTimeSlice k) (g_schedTimeSliceMin k) c else c) <$> g_taskCBArray k !! x).
  { intros x. rewrite HT. destruct (g_taskCBArray k !! x) as [c|] eqn:Hc; [|done]. cbn. case_bool_decide as Hx; [|done]. by rewrite (HP x c). }
  eexists m', _. split_and!; [done..| |done|done].
  intros x c' [Hw Hx]%list_elem_of_filter. rewrite HT', bool_decide_true by done. cbn in Hw. destruct (g_taskCBArray k !! x) as [c|] eqn:Hc; [|done]. cbn in *.
  rewrite Hw. cbn. intros [= <-]. split; [by apply (Hrd x c)|]. by apply bool_decide_eq_false in Hw.
Qed.

End EventProofs.
