(* ===== verification/Queue.v ===== *)
(** Message queues and mail (src/kernel/src/los_queue.c,
    src/kernel/include/los_queue.h), without static queues
    (LOSCFG_BASE_IPC_QUEUE_STATIC == 0).

    A caller's buffer is the list of its bytes; words are 4 bytes, least
    significant first, and pointers have 32 bits.  A blocked call keeps the
    buffer it was given. *)

From S2P Require Import Prelude Errno LosList Membox Kernel Tick SortLink Sched SchedInv SchedTime SchedSwitch KernelInv.

Definition OS_QUEUE_READ : Z := 0.
Definition OS_QUEUE_WRITE : Z := 1.
Definition OS_QUEUE_HEAD : Z := 0.
Definition OS_QUEUE_TAIL : Z := 1.
Definition OS_QUEUE_NOT_POINT : Z := 0.
Definition OS_QUEUE_POINT : Z := 1.
Definition OS_QUEUE_OPERATE_TYPE (ReadOrWrite HeadOrTail PointOrNot : Z) : Z :=
  Z.lor (Z.lor (Z.shiftl PointOrNot 2) (Z.shiftl HeadOrTail 1)) ReadOrWrite.
Definition OS_QUEUE_READ_WRITE_GET (type : Z) : Z := Z.land type 1.
Definition OS_QUEUE_READ_HEAD : Z := Z.lor OS_QUEUE_READ (Z.shiftl OS_QUEUE_HEAD 1).
Definition OS_QUEUE_WRITE_HEAD : Z := Z.lor OS_QUEUE_WRITE (Z.shiftl OS_QUEUE_HEAD 1).
Definition OS_QUEUE_WRITE_TAIL : Z := Z.lor OS_QUEUE_WRITE (Z.shiftl OS_QUEUE_TAIL 1).
Definition OS_QUEUE_OPERATE_GET (type : Z) : Z := Z.land type 3.
Definition OS_QUEUE_IS_POINT (type : Z) : bool := test type 4.
Definition OS_QUEUE_IS_READ (type : Z) : bool := OS_QUEUE_READ_WRITE_GET type =? OS_QUEUE_READ.
Definition OS_QUEUE_IS_WRITE (type : Z) : bool := OS_QUEUE_READ_WRITE_GET type =? OS_QUEUE_WRITE.
Definition OS_QUEUE_UNUSED : Z := 0.
Definition OS_QUEUE_INUSED : Z := 1.
Definition SECUREC_MEM_MAX_LEN : Z := 0x7fffffff.
Definition sizeof_LosQueueCB : Z := 48.

(** ** Bytes *)

Definition word_bytes (w : Z) : list Z :=
  [Z.land w 255; Z.land (Z.shiftr w 8) 255; Z.land (Z.shiftr w 16) 255; Z.land (Z.shiftr w 24) 255].
Definition bytes_word (l : list Z) : Z := foldr (λ b w, b + 256 * w) 0 l.

(** The [n] bytes at offset [off], and the buffer with bytes [d] at [off]; an
    access that leaves the buffer has no result. *)
Definition read_bytes (l : list Z) (off n : Z) : option (list Z) :=
  if (0 <=? off) && (0 <=? n) && (off + n <=? Z.of_nat (length l))
  then Some (take (Z.to_nat n) (drop (Z.to_nat off) l)) else None.
Definition write_bytes (l : list Z) (off : Z) (d : list Z) : option (list Z) :=
  if (0 <=? off) && (off + Z.of_nat (length d) <=? Z.of_nat (length l))
  then Some (take (Z.to_nat off) l ++ d ++ drop (Z.to_nat off + length d) l) else None.

Section Queue.
Context `{Platform}.

(** [memset_s] of one block, and one iteration of the loop that links them. *)
Definition OsQueueInit_memset (index : Z) : M Kernel unit :=
  modify (set_g_allQueue (insert index zero_LosQueueCB)) ;;;
  onlist (ListClear (QueueRead index)) ;;;
  onlist (ListClear (QueueWrite index)) ;;;
  onlist (ListClear (QueueMem index)).
Definition OsQueueInit_body (index : Z) : M Kernel unit :=
  mod_queueCB index (set_queueID (λ _, index)) ;;;
  onlist (LOS_ListTailInsert FreeQueue (QueueWrite index)).

Definition OsQueueInit : M Kernel Z :=
  if LOSCFG_BASE_IPC_QUEUE_LIMIT =? 0 then mret LOS_ERRNO_QUEUE_MAXNUM_ZERO
  else
    let* pool := gets sysMem in
    let '(p, pool') := LOS_MemAlloc (LOSCFG_BASE_IPC_QUEUE_LIMIT * sizeof_LosQueueCB) pool in
    modify (set_sysMem (λ _, pool')) ;;;
    match p with
    | None => mret LOS_ERRNO_QUEUE_NO_MEMORY
    | Some _ =>
        for_each OsQueueInit_memset (seqZ 0 LOSCFG_BASE_IPC_QUEUE_LIMIT) ;;;
        onlist (LOS_ListInit FreeQueue) ;;;
        for_each OsQueueInit_body (seqZ 0 LOSCFG_BASE_IPC_QUEUE_LIMIT) ;;;
        mret LOS_OK
    end.

(** The fields a created queue gets. *)
Definition queue_created (name len msgSize addr : Z) (q : LosQueueCB) : LosQueueCB :=
  mk_LosQueueCB (Some (fresh_byte <$> seqZ addr (len * msgSize))) name OS_QUEUE_INUSED len msgSize
    (queueID q) 0 0 0 len (Some addr).

(** [queueID] says that the pointer is not NULL; the second result is what is
    written to [*queueID]. *)
Definition OsQueueCreate (queueName len : Z) (queueID : bool) (maxMsgSize : Z) : M Kernel (Z * option Z) :=
  if negb queueID then mret (LOS_ERRNO_QUEUE_CREAT_PTR_NULL, None)
  else if maxMsgSize >? OS_NULL_SHORT - 4 then mret (LOS_ERRNO_QUEUE_SIZE_TOO_BIG, None)
  else if (len =? 0) || (maxMsgSize =? 0) then mret (LOS_ERRNO_QUEUE_PARA_ISZERO, None)
  else
    let msgSize := u16 (maxMsgSize + 4) in
    if UINT32_MAX / msgSize <? len then mret (LOS_ERRNO_QUEUE_SIZE_TOO_BIG, None)
    else
      let* pool := gets sysMem in
      let '(p, pool') := LOS_MemAlloc (u32 (len * msgSize)) pool in
      modify (set_sysMem (λ _, pool')) ;;;
      match p with
      | None => mret (LOS_ERRNO_QUEUE_CREATE_NO_MEMORY, None)
      | Some addr =>
          let* empty := onlist (LOS_ListEmpty FreeQueue) in
          if (empty : bool) then
            let* pool := gets sysMem in
            let '(_, pool') := LOS_MemFree (Some addr) pool in
            modify (set_sysMem (λ _, pool')) ;;;
            mret (LOS_ERRNO_QUEUE_CB_UNAVAILABLE, None)
          else
            let* unusedQueue := nextNode FreeQueue in
            onlist (LOS_ListDelete unusedQueue) ;;;
            let* q := of_option (GET_QUEUE_LIST unusedQueue) in
            mod_queueCB q (queue_created queueName len msgSize addr) ;;;
            onlist (LOS_ListInit (QueueRead q)) ;;;
            onlist (LOS_ListInit (QueueWrite q)) ;;;
            onlist (LOS_ListInit (QueueMem q)) ;;;
            let* c := queueCB q in
            mret (LOS_OK, Some (Kernel.queueID c))
      end.

Definition LOS_QueueCreate (queueName len : Z) (queueID : bool) (flags maxMsgSize : Z)
    : M Kernel (Z * option Z) :=
  OsQueueCreate queueName len queueID maxMsgSize.

(** [bufferAddr] and [bufferSize] say that the pointers are not NULL; [size] is
    [*bufferSize]. *)
Definition OsQueueReadParameterCheck (queueID : Z) (bufferAddr bufferSize : bool) (size timeOut : Z)
    : M Kernel Z :=
  if queueID >=? LOSCFG_BASE_IPC_QUEUE_LIMIT then mret LOS_ERRNO_QUEUE_INVALID
  else if negb bufferAddr || negb bufferSize then mret LOS_ERRNO_QUEUE_READ_PTR_NULL
  else if size =? 0 then mret LOS_ERRNO_QUEUE_READSIZE_ISZERO
  else
    let* active := gets intActive in
    if negb (timeOut =? LOS_NO_WAIT) && active then mret LOS_ERRNO_QUEUE_READ_IN_INTERRUPT
    else mret LOS_OK.

Definition OsQueueWriteParameterCheck (queueID : Z) (bufferAddr : bool) (size timeOut : Z) : M Kernel Z :=
  if queueID >=? LOSCFG_BASE_IPC_QUEUE_LIMIT then mret LOS_ERRNO_QUEUE_INVALID
  else if negb bufferAddr then mret LOS_ERRNO_QUEUE_WRITE_PTR_NULL
  else if size =? 0 then mret LOS_ERRNO_QUEUE_WRITESIZE_ISZERO
  else
    let* active := gets intActive in
    if negb (timeOut =? LOS_NO_WAIT) && active then mret LOS_ERRNO_QUEUE_WRITE_IN_INTERRUPT
    else mret LOS_OK.

(** The position of the operation, and the queue with its head or tail moved. *)
Definition queue_position (operateType : Z) (q : LosQueueCB) : option (Z * LosQueueCB) :=
  let op := OS_QUEUE_OPERATE_GET operateType in
  if op =? OS_QUEUE_READ_HEAD then
    Some (queueHead q, set_queueHead (λ h, if h + 1 =? queueLen q then 0 else u16 (h + 1)) q)
  else if op =? OS_QUEUE_WRITE_HEAD then
    let h := if queueHead q =? 0 then u16 (queueLen q - 1) else u16 (queueHead q - 1) in
    Some (h, set_queueHead (λ _, h) q)
  else if op =? OS_QUEUE_WRITE_TAIL then
    Some (queueTail q, set_queueTail (λ t, if t + 1 =? queueLen q then 0 else u16 (t + 1)) q)
  else None.

(** Transfer between the node at [off] and the caller's buffer: the ring
    buffer, the caller's buffer and [*bufferSize] after it. *)
Definition queue_transfer (operateType queueSize off : Z) (ring buffer : list Z) (bufferSize : Z)
    : option (list Z * list Z * Z) :=
  if OS_QUEUE_IS_POINT operateType then
    if OS_QUEUE_IS_READ operateType then
      w ← read_bytes ring off 4; b ← write_bytes buffer 0 w; Some (ring, b, bufferSize)
    else
      w ← read_bytes buffer 0 4; r ← write_bytes ring off w; Some (r, buffer, bufferSize)
  else if OS_QUEUE_IS_READ operateType then
    s ← read_bytes ring (off + queueSize - 4) 4;
    let msgDataSize := bytes_word s in
    let msgDataSize := if bufferSize <? msgDataSize then bufferSize else msgDataSize in
    d ← read_bytes ring off msgDataSize;
    b ← write_bytes buffer 0 d;
    Some (ring, b, msgDataSize)
  else
    r ← write_bytes ring (off + queueSize - 4) (word_bytes bufferSize);
    d ← read_bytes buffer 0 bufferSize;
    r ← write_bytes r off d;
    Some (r, buffer, bufferSize).

Definition OsQueueBufferOperate (q operateType : Z) (buffer : list Z) (bufferSize : Z)
    : M Kernel (list Z * Z) :=
  let* c := queueCB q in
  match queue_position operateType c with
  | None => mret (buffer, bufferSize)
  | Some (queuePosition, c') =>
      let* ring := of_option (queue c) in
      let* (rb, size) := of_option
        (queue_transfer operateType (queueSize c) (queuePosition * queueSize c) ring buffer bufferSize) in
      let '(ring', buffer') := rb in
      mod_queueCB q (λ _, set_queue (λ _, Some ring') c') ;;;
      mret (buffer', size)
  end.

Definition OsQueueOperateParamCheck (c : LosQueueCB) (operateType bufferSize : Z) : Z :=
  if queueState c =? OS_QUEUE_UNUSED then LOS_ERRNO_QUEUE_NOT_CREATE
  else if OS_QUEUE_IS_WRITE operateType && (bufferSize >? u32 (queueSize c - 4)) then
    LOS_ERRNO_QUEUE_WRITE_SIZE_TOO_BIG
  else if bufferSize >=? SECUREC_MEM_MAX_LEN then LOS_ERRNO_QUEUE_BUFFER_SIZE_TOO_BIG
  else LOS_OK.

(** [readWriteList[rw]] and [readWriteableCnt[rw]]. *)
Definition rwList (q rw : Z) : Node := if rw =? OS_QUEUE_READ then QueueRead q else QueueWrite q.
Definition rwCnt (c : LosQueueCB) (rw : Z) : Z :=
  if rw =? OS_QUEUE_READ then readableCnt c else writeableCnt c.
Definition set_rwCnt (rw : Z) (f : Z -> Z) (c : LosQueueCB) : LosQueueCB :=
  if rw =? OS_QUEUE_READ then set_readableCnt f c else set_writeableCnt f c.

(** The end of [OsQueueOperate], with a slot reserved: transfer the message and
    hand the freed slot to a waiting task or count it. *)
Definition OsQueueOperate_finish (q operateType : Z) (buffer : list Z) (bufferSize : Z)
    : M Kernel (Z * (list Z * Z)) :=
  let readWrite := OS_QUEUE_READ_WRITE_GET operateType in
  let readWriteTmp := if readWrite =? 0 then 1 else 0 in
  let* res := OsQueueBufferOperate q operateType buffer bufferSize in
  let* empty := onlist (LOS_ListEmpty (rwList q readWriteTmp)) in
  if negb empty then
    let* first := nextNode (rwList q readWriteTmp) in
    let* resumedTask := of_option (OS_TCB_FROM_PENDLIST first) in
    OsSchedTaskWake resumedTask ;;;
    LOS_Schedule ;;;
    mret (LOS_OK, res)
  else
    mod_queueCB q (set_rwCnt readWriteTmp (λ n, u16 (n + 1))) ;;;
    mret (LOS_OK, res).

(** What the waiting task does when it runs again. *)
Definition OsQueueOperate_resume (runTsk q operateType : Z) (buffer : list Z) (bufferSize : Z)
    : M Kernel (Z * (list Z * Z)) :=
  let* c := tcb runTsk in
  if test (taskStatus c) OS_TASK_STATUS_TIMEOUT then
    clear_status runTsk OS_TASK_STATUS_TIMEOUT ;;;
    mret (LOS_ERRNO_QUEUE_TIMEOUT, (buffer, bufferSize))
  else OsQueueOperate_finish q operateType buffer bufferSize.

(** Returns the error code, the caller's buffer and [*bufferSize]. *)
Definition OsQueueOperate (queueID operateType : Z) (buffer : list Z) (bufferSize timeOut : Z)
    : M Kernel (Proc (Z * (list Z * Z))) :=
  let readWrite := OS_QUEUE_READ_WRITE_GET operateType in
  let* c := queueCB queueID in
  let ret := OsQueueOperateParamCheck c operateType bufferSize in
  if negb (ret =? LOS_OK) then returns (ret, (buffer, bufferSize))
  else if rwCnt c readWrite =? 0 then
    if timeOut =? LOS_NO_WAIT then
      returns (if OS_QUEUE_IS_READ operateType then LOS_ERRNO_QUEUE_ISEMPTY else LOS_ERRNO_QUEUE_ISFULL,
               (buffer, bufferSize))
    else
      let* lock := gets g_losTaskLock in
      if negb (lock =? 0) then returns (LOS_ERRNO_QUEUE_PEND_IN_LOCK, (buffer, bufferSize))
      else
        let* runTsk := running in
        OsSchedTaskWait (rwList queueID readWrite) timeOut ;;;
        block_then (OsQueueOperate_resume runTsk queueID operateType buffer bufferSize)
  else
    mod_queueCB queueID (set_rwCnt readWrite (λ n, u16 (n - 1))) ;;;
    let* r := OsQueueOperate_finish queueID operateType buffer bufferSize in
    returns r.

(** A NULL buffer is [None]. *)
Definition LOS_QueueReadCopy (queueID : Z) (bufferAddr : option (list Z)) (bufferSize : option Z) (timeOut : Z)
    : M Kernel (Proc (Z * (list Z * Z))) :=
  let buffer := default [] bufferAddr in
  let size := default 0 bufferSize in
  let* ret := OsQueueReadParameterCheck queueID (bool_decide (is_Some bufferAddr))
                (bool_decide (is_Some bufferSize)) size timeOut in
  if negb (ret =? LOS_OK) then returns (ret, (buffer, size))
  else OsQueueOperate queueID (OS_QUEUE_OPERATE_TYPE OS_QUEUE_READ OS_QUEUE_HEAD OS_QUEUE_NOT_POINT)
         buffer size timeOut.

Definition LOS_QueueWriteHeadCopy (queueID : Z) (bufferAddr : option (list Z)) (bufferSize timeOut : Z)
    : M Kernel (Proc (Z * (list Z * Z))) :=
  let buffer := default [] bufferAddr in
  let* ret := OsQueueWriteParameterCheck queueID (bool_decide (is_Some bufferAddr)) bufferSize timeOut in
  if negb (ret =? LOS_OK) then returns (ret, (buffer, bufferSize))
  else OsQueueOperate queueID (OS_QUEUE_OPERATE_TYPE OS_QUEUE_WRITE OS_QUEUE_HEAD OS_QUEUE_NOT_POINT)
         buffer bufferSize timeOut.

Definition LOS_QueueWriteCopy (queueID : Z) (bufferAddr : option (list Z)) (bufferSize timeOut : Z)
    : M Kernel (Proc (Z * (list Z * Z))) :=
  let buffer := default [] bufferAddr in
  let* ret := OsQueueWriteParameterCheck queueID (bool_decide (is_Some bufferAddr)) bufferSize timeOut in
  if negb (ret =? LOS_OK) then returns (ret, (buffer, bufferSize))
  else OsQueueOperate queueID (OS_QUEUE_OPERATE_TYPE OS_QUEUE_WRITE OS_QUEUE_TAIL OS_QUEUE_NOT_POINT)
         buffer bufferSize timeOut.

Definition LOS_QueueRead (queueID : Z) (bufferAddr : option (list Z)) (bufferSize timeOut : Z)
    : M Kernel (Proc (Z * (list Z * Z))) :=
  let buffer := default [] bufferAddr in
  let* ret := OsQueueReadParameterCheck queueID (bool_decide (is_Some bufferAddr)) true bufferSize timeOut in
  if negb (ret =? LOS_OK) then returns (ret, (buffer, bufferSize))
  else OsQueueOperate queueID (OS_QUEUE_OPERATE_TYPE OS_QUEUE_READ OS_QUEUE_HEAD OS_QUEUE_POINT)
         buffer bufferSize timeOut.

(** The message is the address [bufferAddr] itself. *)
Definition LOS_QueueWrite (queueID bufferAddr bufferSize timeOut : Z) : M Kernel (Proc (Z * (list Z * Z))) :=
  let size := 4 in
  let* ret := OsQueueWriteParameterCheck queueID (negb (bufferAddr =? 0)) size timeOut in
  if negb (ret =? LOS_OK) then returns (ret, (word_bytes bufferAddr, size))
  else OsQueueOperate queueID (OS_QUEUE_OPERATE_TYPE OS_QUEUE_WRITE OS_QUEUE_TAIL OS_QUEUE_POINT)
         (word_bytes bufferAddr) size timeOut.

Definition LOS_QueueWriteHead (queueID bufferAddr bufferSize timeOut : Z) : M Kernel (Proc (Z * (list Z * Z))) :=
  let size := 4 in
  if bufferAddr =? 0 then returns (LOS_ERRNO_QUEUE_WRITE_PTR_NULL, (word_bytes bufferAddr, size))
  else LOS_QueueWriteHeadCopy queueID (Some (word_bytes bufferAddr)) size timeOut.

(** ** Mail *)

Definition onbox {A} (f : Z -> Z -> M BoxMem A) : M Kernel A :=
  let* r := gets runTask in
  let* t := gets g_taskCBArray in
  let curTaskID := match r with None => LOS_ERRNO_TSK_ID_INVALID | Some i => default 0 (taskID <$> t !! i) end in
  zoom ram set_ram (f LOSCFG_BASE_CORE_TSK_LIMIT curTaskID).

Definition OsQueueMailAlloc_resume (runTsk : Z) : M Kernel Z :=
  let* c := tcb runTsk in
  if test (taskStatus c) OS_TASK_STATUS_TIMEOUT then
    clear_status runTsk OS_TASK_STATUS_TIMEOUT ;;;
    mret 0
  else
    mod_tcb runTsk (set_msg (λ _, 0)) ;;;
    mret (msg c).

(** The result is an address, 0 for NULL. *)
Definition OsQueueMailAlloc (queueID mailPool timeOut : Z) : M Kernel (Proc Z) :=
  if queueID >=? LOSCFG_BASE_IPC_QUEUE_LIMIT then returns 0
  else if mailPool =? 0 then returns 0
  else
    let* active := gets intActive in
    if negb (timeOut =? LOS_NO_WAIT) && active then returns 0
    else
      let* c := queueCB queueID in
      if queueState c =? OS_QUEUE_UNUSED then returns 0
      else
        let* mem := onbox (λ _ cur, LOS_MemboxAlloc cur mailPool) in
        if mem =? 0 then
          if timeOut =? LOS_NO_WAIT then returns 0
          else
            let* runTsk := running in
            OsSchedTaskWait (QueueMem queueID) timeOut ;;;
            block_then (OsQueueMailAlloc_resume runTsk)
        else returns mem.

Definition OsQueueMailFree (queueID mailPool mailMem : Z) : M Kernel Z :=
  if queueID >=? LOSCFG_BASE_IPC_QUEUE_LIMIT then mret LOS_ERRNO_QUEUE_MAIL_HANDLE_INVALID
  else if mailPool =? 0 then mret LOS_ERRNO_QUEUE_MAIL_PTR_INVALID
  else
    let* c := queueCB queueID in
    if queueState c =? OS_QUEUE_UNUSED then mret LOS_ERRNO_QUEUE_NOT_CREATE
    else
      let* empty := onlist (LOS_ListEmpty (QueueMem queueID)) in
      if negb empty then
        let* first := nextNode (QueueMem queueID) in
        let* resumedTask := of_option (OS_TCB_FROM_PENDLIST first) in
        mod_tcb resumedTask (set_msg (λ _, mailMem)) ;;;
        OsSchedTaskWake resumedTask ;;;
        LOS_Schedule ;;;
        mret LOS_OK
      else
        let* r := onbox (λ lim _, LOS_MemboxFree lim mailPool mailMem) in
        if negb (r =? 0) then mret LOS_ERRNO_QUEUE_MAIL_FREE_ERROR
        else mret LOS_OK.

(** ** Deletion and information *)

Definition LOS_QueueDelete (queueID : Z) : M Kernel Z :=
  if queueID >=? LOSCFG_BASE_IPC_QUEUE_LIMIT then mret LOS_ERRNO_QUEUE_NOT_FOUND
  else
    let* c := queueCB queueID in
    if queueState c =? OS_QUEUE_UNUSED then mret LOS_ERRNO_QUEUE_NOT_CREATE
    else
      let* e1 := onlist (LOS_ListEmpty (QueueRead queueID)) in
      if negb e1 then mret LOS_ERRNO_QUEUE_IN_TSKUSE
      else
        let* e2 := onlist (LOS_ListEmpty (QueueWrite queueID)) in
        if negb e2 then mret LOS_ERRNO_QUEUE_IN_TSKUSE
        else
          let* e3 := onlist (LOS_ListEmpty (QueueMem queueID)) in
          if negb e3 then mret LOS_ERRNO_QUEUE_IN_TSKUSE
          else if negb (writeableCnt c + readableCnt c =? queueLen c) then mret LOS_ERRNO_QUEUE_IN_TSKWRITE
          else
            mod_queueCB queueID (set_queue (λ _, None)) ;;;
            mod_queueCB queueID (set_queueAddr (λ _, None)) ;;;
            mod_queueCB queueID (set_queueName (λ _, 0)) ;;;
            mod_queueCB queueID (set_queueState (λ _, OS_QUEUE_UNUSED)) ;;;
            onlist (LOS_ListAdd FreeQueue (QueueWrite queueID)) ;;;
            let* pool := gets sysMem in
            let '(r, pool') := LOS_MemFree (queueAddr c) pool in
            modify (set_sysMem (λ _, pool')) ;;;
            mret r.

Record QUEUE_INFO_S := mk_QUEUE_INFO_S {
  qi_queueID : Z;
  qi_queueLen : Z;
  qi_queueSize : Z;
  qi_queueHead : Z;
  qi_queueTail : Z;
  qi_writableCnt : Z;
  qi_readableCnt : Z;
  qi_waitReadTask : list Z;
  qi_waitWriteTask : list Z;
  qi_waitMemTask : list Z;
}.

Definition OS_WAIT_TASK_ARRAY_LEN : Z := Z.shiftr LOSCFG_BASE_CORE_TSK_LIMIT 5 + 1.
Definition zero_QUEUE_INFO_S : QUEUE_INFO_S :=
  let z := repeat 0 (Z.to_nat OS_WAIT_TASK_ARRAY_LEN) in mk_QUEUE_INFO_S 0 0 0 0 0 0 0 z z z.

(** The walk over a list of waiting tasks that sets their bits. *)
Fixpoint LOS_QueueInfoGet_loop (fuel : nat) (head n : Node) (bitmap : list Z) : M Kernel (list Z) :=
  match fuel with
  | O => fault
  | S fuel =>
      if bool_decide (n = head) then mret bitmap
      else
        let* t := of_option (OS_TCB_FROM_PENDLIST n) in
        let* c := tcb t in
        let i := Z.to_nat (taskID c / 32) in
        let* w := of_option (bitmap !! i) in
        let* next := nextNode n in
        LOS_QueueInfoGet_loop fuel head next (<[i := Z.lor w (Z.shiftl 1 (taskID c mod 32))]> bitmap)
  end.

Definition waiting_tasks (head : Node) (bitmap : list Z) : M Kernel (list Z) :=
  let* first := nextNode head in
  let* h := gets dlists in
  LOS_QueueInfoGet_loop (S (size h)) head first bitmap.

(** [queueInfo] says that the pointer is not NULL; the second result is the
    structure written. *)
Definition LOS_QueueInfoGet (queueID : Z) (queueInfo : bool) : M Kernel (Z * option QUEUE_INFO_S) :=
  if negb queueInfo then mret (LOS_ERRNO_QUEUE_PTR_NULL, None)
  else if queueID >=? LOSCFG_BASE_IPC_QUEUE_LIMIT then mret (LOS_ERRNO_QUEUE_INVALID, None)
  else
    let z := zero_QUEUE_INFO_S in
    let* c := queueCB queueID in
    if queueState c =? OS_QUEUE_UNUSED then mret (LOS_ERRNO_QUEUE_NOT_CREATE, Some z)
    else
      let* r := waiting_tasks (QueueRead queueID) (qi_waitReadTask z) in
      let* w := waiting_tasks (QueueWrite queueID) (qi_waitWriteTask z) in
      let* m := waiting_tasks (QueueMem queueID) (qi_waitMemTask z) in
      mret (LOS_OK, Some (mk_QUEUE_INFO_S queueID (queueLen c) (queueSize c) (queueHead c) (queueTail c)
                            (writeableCnt c) (readableCnt c) r w m)).

End Queue.

(** ** Correctness *)

#[local] Opaque LOS_ListAdd LOS_ListTailInsert LOS_ListDelete LOS_ListInit LOS_ListEmpty.

(** *** Bytes *)

#[local] Abbreviation len l := (Z.of_nat (length l)).

Lemma bytes_word_bytes w : 0 <= w < 2 ^ 32 -> bytes_word (word_bytes w) = w.
Proof.
  intros Hw. unfold bytes_word, word_bytes. cbn [foldr].
  change 255 with (Z.ones 8). rewrite !Z.land_ones, !Z.shiftr_div_pow2 by lia.
  change (2 ^ 8) with 256. change (2 ^ 16) with (256 * 256). change (2 ^ 24) with (256 * 256 * 256).
  rewrite <-!Z.div_div by lia. change (2 ^ 32) with (256 * 256 * 256 * 256) in Hw.
  pose proof (Z.div_mod w 256). pose proof (Z.div_mod (w / 256) 256). pose proof (Z.div_mod (w / 256 / 256) 256).
  assert (w / 256 / 256 / 256 < 256) by (rewrite !Z.div_div by lia; apply Z.div_lt_upper_bound; lia).
  assert (0 <= w / 256 / 256 / 256) by (rewrite !Z.div_div by lia; apply Z.div_pos; lia).
  rewrite (Z.mod_small (w / 256 / 256 / 256)) by lia. lia.
Qed.

Lemma read_bytes_spec l off n d :
  read_bytes l off n = Some d <->
  0 <= off /\ 0 <= n /\ off + n <= len l /\ len d = n /\
  ∀ j, (j < length d)%nat -> l !! (Z.to_nat off + j)%nat = d !! j.
Proof.
  unfold read_bytes. destruct ((0 <=? off) && (0 <=? n) && (off + n <=? len l)) eqn:E.
  2: { split; [done|]. intros (H1 & H2 & H3 & _). apply andb_false_iff in E as [E%andb_false_iff|E]; lia. }
  apply andb_true_iff in E as [[E1 E2]%andb_true_iff E3]. apply Z.leb_le in E1, E2, E3. split.
  - intros [= <-]. rewrite length_take, length_drop. split_and!; [lia..|]. intros j Hj.
    rewrite lookup_take_lt, lookup_drop by lia. done.
  - intros (_ & _ & _ & Hd & Hl). f_equal. apply list_eq. intros j. destruct (decide (j < length d)%nat) as [Hj|Hj].
    + rewrite lookup_take_lt, lookup_drop, Hl by lia. done.
    + rewrite lookup_take_ge, lookup_ge_None_2 by lia. done.
Qed.

Lemma write_bytes_some l off d : 0 <= off -> off + len d <= len l -> is_Some (write_bytes l off d).
Proof. intros. unfold write_bytes. rewrite (proj2 (Z.leb_le 0 off)), (proj2 (Z.leb_le _ _)) by lia. by eexists. Qed.

Lemma write_bytes_spec l off d l' :
  write_bytes l off d = Some l' ->
  0 <= off /\ off + len d <= len l /\ length l' = length l /\
  ∀ j, l' !! j = if decide (Z.to_nat off <= j < Z.to_nat off + length d)%nat then d !! (j - Z.to_nat off)%nat else l !! j.
Proof.
  unfold write_bytes. destruct ((0 <=? off) && _) eqn:E; [|done]. apply andb_true_iff in E as [E1 E2].
  apply Z.leb_le in E1, E2. intros [= <-]. split_and!; [done..| |].
  - rewrite !length_app, length_take, length_drop. lia.
  - intros j. destruct (decide _) as [Hj|Hj].
    + rewrite lookup_app_r by (rewrite length_take; lia). rewrite length_take, lookup_app_l by lia. f_equal. lia.
    + destruct (decide (j < Z.to_nat off)%nat).
      * rewrite lookup_app_l by (rewrite length_take; lia). by rewrite lookup_take_lt.
      * rewrite lookup_app_r by (rewrite length_take; lia). rewrite length_take, lookup_app_r by lia.
        rewrite lookup_drop. f_equal. lia.
Qed.

(** Reading what was written, and what was not. *)
Lemma read_write_same l off d l' : write_bytes l off d = Some l' -> read_bytes l' off (len d) = Some d.
Proof.
  intros (H1 & H2 & H3 & H4)%write_bytes_spec. apply read_bytes_spec. split_and!; [lia..|].
  intros j Hj. rewrite H4, decide_True by lia. f_equal. lia.
Qed.

Lemma read_write_other l off d l' off' n e :
  write_bytes l off d = Some l' -> off + len d <= off' \/ off' + n <= off ->
  read_bytes l off' n = Some e -> read_bytes l' off' n = Some e.
Proof.
  intros (H1 & H2 & H3 & H4)%write_bytes_spec Hd (R1 & R2 & R3 & R4 & R5)%read_bytes_spec.
  apply read_bytes_spec. split_and!; [lia..|]. intros j Hj. rewrite H4, decide_False by lia. auto.
Qed.

Lemma read_bytes_some l off n : 0 <= off -> 0 <= n -> off + n <= len l -> is_Some (read_bytes l off n).
Proof. intros. unfold read_bytes. rewrite !(proj2 (Z.leb_le _ _)) by lia. by eexists. Qed.

Lemma read_bytes_prefix l n : 0 <= n <= len l -> read_bytes l 0 n = Some (take (Z.to_nat n) l).
Proof. intros Hn. unfold read_bytes. rewrite !(proj2 (Z.leb_le _ _)) by lia. by rewrite drop_0. Qed.

Lemma read_bytes_take l off d n :
  read_bytes l off (len d) = Some d -> 0 <= n <= len d -> read_bytes l off n = Some (take (Z.to_nat n) d).
Proof.
  intros (H1 & H2 & H3 & H4 & H5)%read_bytes_spec Hn. apply read_bytes_spec. rewrite length_take.
  split_and!; [lia..|]. intros j Hj. rewrite lookup_take_lt, H5 by lia. done.
Qed.

Lemma write_bytes_prefix l d : len d <= len l -> write_bytes l 0 d = Some (d ++ drop (length d) l).
Proof. intros Hd. unfold write_bytes. rewrite !(proj2 (Z.leb_le _ _)) by lia. done. Qed.

(** *** The ring of messages *)

(** Slot [p] of a ring with slots of [S] bytes holds message [d]: the data, and
    its size in the last word. *)
Definition slot_holds (ring : list Z) (S p : Z) (d : list Z) : Prop :=
  read_bytes ring (p * S) (len d) = Some d /\
  read_bytes ring (p * S + S - 4) 4 = Some (word_bytes (len d)) /\ len d <= S - 4.

(** The queue holds the messages [msgs], the oldest at [queueHead]. *)
Record queue_rep (c : LosQueueCB) (msgs : list (list Z)) : Prop := {
  qr_len : 0 < queueLen c < 2 ^ 16;
  qr_size : 4 < queueSize c < 2 ^ 16;
  qr_head : 0 <= queueHead c < queueLen c;
  qr_tail : queueTail c = (queueHead c + len msgs) mod queueLen c;
  qr_fits : len msgs <= queueLen c;
  qr_ring : ∃ ring, queue c = Some ring /\ len ring = queueLen c * queueSize c /\
    ∀ i d, msgs !! i = Some d -> slot_holds ring (queueSize c) ((queueHead c + Z.of_nat i) mod queueLen c) d;
}.

Lemma slot_write (ring : list Z) (L S p : Z) (d : list Z) :
  len ring = L * S -> 0 <= p < L -> 4 < S -> len d <= S - 4 ->
  ∃ r1 ring', write_bytes ring (p * S + S - 4) (word_bytes (len d)) = Some r1 /\
    write_bytes r1 (p * S) d = Some ring' /\ length ring' = length ring /\ slot_holds ring' S p d /\
    ∀ q e, 0 <= q < L -> q <> p -> slot_holds ring S q e -> slot_holds ring' S q e.
Proof.
  intros Hr Hp HS Hd. assert (p * S + S <= L * S) by nia.
  destruct (write_bytes_some ring (p * S + S - 4) (word_bytes (len d))) as [r1 Hr1]; [nia|cbn; lia|].
  pose proof (write_bytes_spec _ _ _ _ Hr1) as (_ & _ & Hl1 & _).
  destruct (write_bytes_some r1 (p * S) d) as [ring' Hr']; [nia|lia|].
  pose proof (write_bytes_spec _ _ _ _ Hr') as (_ & _ & Hl' & _).
  exists r1, ring'. split_and!; [done|done|congruence| |].
  - split_and!; [by eapply read_write_same| |done]. eapply read_write_other; [done|lia|].
    by apply (read_write_same _ _ _ _ Hr1).
  - intros q e Hq Hne (E1 & E2 & E3). assert (q * S + S <= p * S \/ p * S + S <= q * S) by nia.
    split_and!; [| |done].
    + eapply read_write_other; [done|lia|]. eapply read_write_other; [done|cbn; lia|done].
    + eapply read_write_other; [done|lia|]. eapply read_write_other; [done|cbn; lia|done].
Qed.

(** Arithmetic of the ring. *)
Lemma ring_next (h n L : Z) : 0 <= h < L -> 0 <= n -> ((h + n) mod L + 1) mod L = (h + (n + 1)) mod L.
Proof. intros. rewrite Zplus_mod_idemp_l. f_equal. lia. Qed.

Lemma ring_wrap (p L : Z) : 0 <= p < L -> L < 2 ^ 16 -> (if p + 1 =? L then 0 else u16 (p + 1)) = (p + 1) mod L.
Proof.
  intros Hp HL. destruct (Z.eqb_spec (p + 1) L) as [<-|]; [by rewrite Z.mod_same by lia|].
  rewrite Z.mod_small, u16_id by lia. done.
Qed.

Lemma ring_distinct (h i j L : Z) : 0 <= i < L -> 0 <= j < L -> i <> j -> (h + i) mod L <> (h + j) mod L.
Proof.
  intros Hi Hj Hne E. apply Hne.
  assert (E' : ((h + i) - (h + j)) mod L = 0) by (rewrite Zminus_mod, E, Z.sub_diag; apply Zmod_0_l).
  replace (h + i - (h + j)) with (i - j) in E' by lia. apply Z.mod_divide in E' as [q Hq]; [|lia]. assert (q = 0 \/ q <= -1 \/ 1 <= q) as [->|[?|?]] by lia; nia.
Qed.

Lemma ring_prev (h L : Z) : 0 <= h < L -> (if h =? 0 then L - 1 else h - 1) = (h - 1) mod L.
Proof.
  intros Hh. destruct (Z.eqb_spec h 0) as [->|]; [|by rewrite Z.mod_small by lia].
  replace (0 - 1) with ((L - 1) + (-1) * L) by lia. rewrite Z.mod_add, Z.mod_small by lia. done.
Qed.

(** *** Transfer of one message *)

Definition WriteTail : Z := OS_QUEUE_OPERATE_TYPE OS_QUEUE_WRITE OS_QUEUE_TAIL OS_QUEUE_NOT_POINT.
Definition WriteHead : Z := OS_QUEUE_OPERATE_TYPE OS_QUEUE_WRITE OS_QUEUE_HEAD OS_QUEUE_NOT_POINT.
Definition ReadHead : Z := OS_QUEUE_OPERATE_TYPE OS_QUEUE_READ OS_QUEUE_HEAD OS_QUEUE_NOT_POINT.

(** The effect of OsQueueBufferOperate on the queue and the caller's buffer. *)
Definition queue_step (type : Z) (c : LosQueueCB) (buffer : list Z) (size : Z) (c' : LosQueueCB)
    (buffer' : list Z) (size' : Z) : Prop :=
  ∃ p c1 ring ring', queue_position type c = Some (p, c1) /\ queue c = Some ring /\
    queue_transfer type (queueSize c) (p * queueSize c) ring buffer size = Some (ring', buffer', size') /\
    c' = set_queue (λ _, Some ring') c1.

(** The fields a transfer leaves. *)
Definition queue_same (c c' : LosQueueCB) : Prop :=
  queueLen c' = queueLen c /\ queueSize c' = queueSize c /\ queueState c' = queueState c /\
  queueID c' = queueID c /\ readableCnt c' = readableCnt c /\ writeableCnt c' = writeableCnt c /\
  queueAddr c' = queueAddr c.

Lemma write_transfer ring S p L buffer size :
  len ring = L * S -> 0 <= p < L -> 4 < S -> 0 <= size <= S - 4 -> size <= len buffer ->
  let d := take (Z.to_nat size) buffer in
  ∃ ring', queue_transfer WriteTail S (p * S) ring buffer size = Some (ring', buffer, size) /\
    queue_transfer WriteHead S (p * S) ring buffer size = Some (ring', buffer, size) /\
    len ring' = len ring /\ slot_holds ring' S p d /\
    ∀ q e, 0 <= q < L -> q <> p -> slot_holds ring S q e -> slot_holds ring' S q e.
Proof.
  intros Hr Hp HS Hsz Hb d. assert (Hd : len d = size) by (subst d; rewrite length_take; lia).
  destruct (slot_write ring L S p d) as (r1 & ring' & H1 & H2 & H3 & H4 & H5); [done..|lia|].
  exists ring'. rewrite Hd in H1.
  assert (E : (r ← write_bytes ring (p * S + S - 4) (word_bytes size); d ← read_bytes buffer 0 size;
    r ← write_bytes r (p * S) d; Some (r, buffer, size)) = Some (ring', buffer, size)).
  { rewrite H1, read_bytes_prefix by lia. fold d. cbv beta iota delta [mbind option_bind]. by rewrite H2. }
  split_and!; [exact E|exact E|lia|done|done].
Qed.

Lemma queue_write_tail_rep c msgs buffer size :
  queue_rep c msgs -> len msgs < queueLen c -> 0 <= size <= queueSize c - 4 -> size <= len buffer ->
  ∃ c', queue_step WriteTail c buffer size c' buffer size /\ queue_same c c' /\
    queue_rep c' (msgs ++ [take (Z.to_nat size) buffer]).
Proof.
  intros [QL QS QH QT QF (ring & Hq & Hlr & Hring)] Hlen Hsz Hb.
  assert (Hp : 0 <= queueTail c < queueLen c) by (rewrite QT; apply Z.mod_pos_bound; lia).
  destruct (write_transfer ring (queueSize c) (queueTail c) (queueLen c) buffer size) as (ring' & Ht & _ & Hl' & Hs & Ho); [done..|lia|done|done|].
  eexists. split_and!; [by exists (queueTail c); eauto 10|by destruct c|].
  split; cbn; try done.
  - rewrite ring_wrap by lia. rewrite QT, length_app. cbn [length]. rewrite ring_next by lia. f_equal. lia.
  - rewrite length_app. cbn. lia.
  - exists ring'. split_and!; [done|lia|]. intros i d. rewrite lookup_app_Some. intros [Hi|[Hge Hi]].
    + apply Ho; [apply Z.mod_pos_bound; lia| |by apply Hring].
      rewrite QT. pose proof (lookup_lt_Some _ _ _ Hi). apply ring_distinct; lia.
    + destruct (i - length msgs)%nat eqn:E; cbn in Hi; [|done]. simplify_eq.
      replace i with (length msgs) by lia. by rewrite <-QT.
Qed.

Lemma queue_write_head_rep c msgs buffer size :
  queue_rep c msgs -> len msgs < queueLen c -> 0 <= size <= queueSize c - 4 -> size <= len buffer ->
  ∃ c', queue_step WriteHead c buffer size c' buffer size /\ queue_same c c' /\
    queue_rep c' (take (Z.to_nat size) buffer :: msgs).
Proof.
  intros [QL QS QH QT QF (ring & Hq & Hlr & Hring)] Hlen Hsz Hb.
  set (p := (queueHead c - 1) mod queueLen c).
  assert (Hp : 0 <= p < queueLen c) by (apply Z.mod_pos_bound; lia).
  destruct (write_transfer ring (queueSize c) p (queueLen c) buffer size) as (ring' & _ & Ht & Hl' & Hs & Ho); [done..|lia|done|done|].
  assert (Epos : queue_position WriteHead c = Some (p, set_queueHead (λ _, p) c)).
  { unfold queue_position. cbn [OS_QUEUE_OPERATE_GET WriteHead]. cbn.
    assert (E : (if queueHead c =? 0 then u16 (queueLen c - 1) else u16 (queueHead c - 1)) = p).
    { subst p. rewrite <-ring_prev by lia. destruct (Z.eqb_spec (queueHead c) 0); apply u16_id; lia. }
    by rewrite E. }
  eexists. split_and!; [by exists p; eauto 10|by destruct c|].
  assert (Hidx : ∀ i, (p + Z.of_nat (S i)) mod queueLen c = (queueHead c + Z.of_nat i) mod queueLen c).
  { intros i. subst p. rewrite Zplus_mod_idemp_l. f_equal. lia. }
  split; cbn; try done.
  - rewrite QT. by rewrite <-Hidx.
  - lia.
  - exists ring'. split_and!; [done|lia|]. intros [|i] d Hi; cbn in Hi.
    + simplify_eq. rewrite Z.add_0_r, Z.mod_small by lia. done.
    + rewrite Hidx. apply Ho; [apply Z.mod_pos_bound; lia| |by apply Hring].
      subst p. pose proof (lookup_lt_Some _ _ _ Hi).
      replace (queueHead c - 1) with (queueHead c - 1 + 0) by lia.
      replace (queueHead c + Z.of_nat i) with (queueHead c - 1 + (Z.of_nat i + 1)) by lia. apply ring_distinct; lia.
Qed.

Lemma queue_read_head_rep c d msgs buffer size (n := Z.min size (len d)) :
  queue_rep c (d :: msgs) -> 0 <= size <= len buffer ->
  ∃ c', queue_step ReadHead c buffer size c' (take (Z.to_nat n) d ++ drop (Z.to_nat n) buffer) n /\
    queue_same c c' /\ queue_rep c' msgs.
Proof.
  intros [QL QS QH QT QF (ring & Hq & Hlr & Hring)] Hsz.
  destruct (Hring O d eq_refl) as (R1 & R2 & R3). rewrite Z.add_0_r, Z.mod_small in R1, R2 by lia.
  assert (Et : queue_transfer ReadHead (queueSize c) (queueHead c * queueSize c) ring buffer size =
    Some (ring, take (Z.to_nat n) d ++ drop (Z.to_nat n) buffer, n)).
  { unfold queue_transfer. change (OS_QUEUE_IS_POINT ReadHead) with false. change (OS_QUEUE_IS_READ ReadHead) with true.
    cbv beta iota. rewrite R2. cbv beta iota delta [mbind option_bind].
    change (2 ^ 16) with 65536 in QS. rewrite bytes_word_bytes by lia.
    assert (En : (if size <? len d then size else len d) = n) by (subst n; destruct (Z.ltb_spec size (len d)); lia).
    rewrite En, (read_bytes_take _ _ _ n R1) by lia.
    rewrite write_bytes_prefix by (rewrite length_take; lia). by rewrite length_take, Nat.min_l by lia. }
  eexists. split_and!; [by exists (queueHead c); eauto 10|by destruct c|].
  assert (Hidx : ∀ i, ((queueHead c + 1) mod queueLen c + Z.of_nat i) mod queueLen c = (queueHead c + Z.of_nat (S i)) mod queueLen c).
  { intros i. rewrite Zplus_mod_idemp_l. f_equal. lia. }
  cbn in QF. split; cbn; try done; rewrite ?ring_wrap by lia.
  - apply Z.mod_pos_bound. lia.
  - rewrite QT. cbn [length]. by rewrite Hidx.
  - lia.
  - exists ring. split_and!; [done..|]. intros i e Hi. rewrite Hidx. by apply Hring.
Qed.

(** *** The calls *)

(** A queue in use that holds [msgs].  The counters count the slots not yet
    promised to a task that has been woken. *)
Record queue_ok (c : LosQueueCB) (msgs : list (list Z)) : Prop := {
  qo_rep : queue_rep c msgs;
  qo_used : queueState c <> OS_QUEUE_UNUSED;
  qo_readable : 0 <= readableCnt c <= len msgs;
  qo_writeable : 0 <= writeableCnt c <= queueLen c - len msgs;
}.

Section QueueProofs.
Context `{TimerLaws}.

Lemma buffer_operate_wp k q c type buffer size c' buffer' size' :
  g_allQueue k !! q = Some c -> queue_step type c buffer size c' buffer' size' ->
  wp (OsQueueBufferOperate q type buffer size) (λ r k', r = (buffer', size') /\
    k' = set_g_allQueue (insert q c') k) k.
Proof.
  intros Hc (p & c1 & ring & ring' & Hp & Hq & Ht & ->). unfold OsQueueBufferOperate.
  wp_step. eapply wp_queueCB; [done|]. rewrite Hp. wp_step. eapply wp_of_option; [done|].
  wp_step. eapply wp_of_option; [done|]. cbv beta iota. apply wp_bind. eapply wp_mod_queueCB; [done|]. by apply wp_ret.
Qed.

(** The task at the other end: the first waiting one is woken, or the slot is
    counted. *)
Definition queue_end (k k' : Kernel) (m m' : gmap Node (list Node)) (q : Z) (c' : LosQueueCB) (hd : Node)
    (l : list Node) (count : LosQueueCB -> LosQueueCB) : Prop :=
  match l with
  | [] => m' = m /\ g_taskCBArray k' = g_taskCBArray k /\ g_allQueue k' = <[q := count c']> (g_allQueue k)
  | n :: l' => ∃ x cx, n = PendList x /\ g_taskCBArray k !! x = Some cx /\ m' !! hd = Some l' /\
      g_allQueue k' = <[q := c']> (g_allQueue k) /\
      g_taskCBArray k' = <[x := wake_tcb (g_idleTaskID k) (g_schedTimeSlice k) (g_schedTimeSliceMin k) cx]>
        (g_taskCBArray k) /\ wake_frame cx hd m m'
  end.

(** The parts of the state that an operation on a queue may change. *)
Definition queue_frame (k k' : Kernel) : Prop :=
  ∃ h T b r p Q, k' = set_pendSV (λ _, p) (upd h T b r (set_g_allQueue (λ _, Q) k)).
Lemma queue_frame_set k q c c' : queue_frame (set_g_allQueue (insert q c) k) c' -> queue_frame k c'.
Proof. intros (h & T & b & r & p & Q & ->). exists h, T, b, r, p, Q. by destruct k. Qed.

Lemma queue_finish_wp k m t q c type buffer size c' buffer' size' l
    (tmp := if OS_QUEUE_READ_WRITE_GET type =? 0 then 1 else 0) :
  KInv k m t -> g_allQueue k !! q = Some c -> queue_step type c buffer size c' buffer' size' ->
  m !! rwList q tmp = Some l ->
  wp (OsQueueOperate_finish q type buffer size) (λ r k', ∃ m', KInv k' m' t /\ r = (LOS_OK, (buffer', size')) /\
    queue_end k k' m m' q c' (rwList q tmp) l (set_rwCnt tmp (λ n, u16 (n + 1))) /\ queue_frame k k') k.
Proof.
  intros HK Hc Hs Hl. unfold OsQueueOperate_finish. fold tmp. wp_step.
  eapply wp_mono; [by eapply buffer_operate_wp|]. intros r k1 (-> & ->).
  apply (KInv_queue _ _ _ (insert q c')) in HK. wp_step. eapply kinv_empty; [done..|].
  destruct l as [|n l]; [rewrite bool_decide_true by done|rewrite bool_decide_false by done]; cbn [negb].
  - wp_step. eapply wp_mod_queueCB; [apply lookup_insert_eq|]. apply wp_ret. exists m.
    split_and!; [by apply KInv_queue|done..| |].
    + cbn. by rewrite insert_insert_eq.
    + exists (dlists k), (g_taskCBArray k), (g_queueBitmap k), (g_schedResponseTime k), (pendSV k),
        (<[q := set_rwCnt tmp (λ n, u16 (n + 1)) c']> (<[q := c']> (g_allQueue k))). by destruct k.
  - assert (Hw : wait_head (rwList q tmp) = true) by (unfold rwList; by destruct (_ =? _)).
    destruct (first_waiter _ _ _ _ _ _ HK Hw Hl) as (x & cx & -> & Hcx & Hp & Hrem).
    wp_step. eapply kinv_first; [done..|]. wp_step. eapply wp_of_option; [done|].
    wp_step. eapply wp_mono; [eapply (kinv_wake _ m t x cx _ _ HK Hcx Hp Hl); left|].
    intros [] k2 (h2 & b2 & r2 & m2 & -> & HK2 & Hm2 & Hfr). rewrite Hrem in Hm2.
    wp_step. eapply schedule_wp; [done|]. intros p _ HK3. apply wp_ret. exists m2.
    split_and!; [done..| |by eexists h2, _, b2, r2, p, _]. exists x, cx. by split_and!.
Qed.

(** The arguments of a call that does not wait inside an interrupt. *)
Definition queue_args_ok (k : Kernel) (q size timeOut : Z) : Prop :=
  0 <= q < LOSCFG_BASE_IPC_QUEUE_LIMIT /\ 0 < size < SECUREC_MEM_MAX_LEN /\ (timeOut = LOS_NO_WAIT \/ intActive k = false).

Lemma write_check_wp k q size timeOut (Q : Z -> Kernel -> Prop) :
  queue_args_ok k q size timeOut -> Q LOS_OK k -> wp (OsQueueWriteParameterCheck q true size timeOut) Q k.
Proof.
  intros (Hq & Hs & Ht) HQ. unfold OsQueueWriteParameterCheck. destruct (Z.geb_spec q LOSCFG_BASE_IPC_QUEUE_LIMIT); [lia|].
  cbn [negb]. rewrite (proj2 (Z.eqb_neq size 0)) by lia. wp_steps. destruct Ht as [->|Hi]; [cbn; by wp_steps|].
  rewrite Hi, andb_false_r. by wp_steps.
Qed.
Lemma read_check_wp k q size timeOut (Q : Z -> Kernel -> Prop) :
  queue_args_ok k q size timeOut -> Q LOS_OK k -> wp (OsQueueReadParameterCheck q true true size timeOut) Q k.
Proof.
  intros (Hq & Hs & Ht) HQ. unfold OsQueueReadParameterCheck. destruct (Z.geb_spec q LOSCFG_BASE_IPC_QUEUE_LIMIT); [lia|].
  cbn [negb orb]. rewrite (proj2 (Z.eqb_neq size 0)) by lia. wp_steps. destruct Ht as [->|Hi]; [cbn; by wp_steps|].
  rewrite Hi, andb_false_r. by wp_steps.
Qed.

Lemma queue_check c msgs type size :
  queue_ok c msgs -> 0 < size < SECUREC_MEM_MAX_LEN -> (OS_QUEUE_IS_WRITE type = true -> size <= queueSize c - 4) ->
  OsQueueOperateParamCheck c type size = LOS_OK.
Proof.
  intros [[QL QS _ _ _ _] Hu _ _] Hs Hw. unfold OsQueueOperateParamCheck. rewrite (proj2 (Z.eqb_neq _ _) Hu).
  assert (E : OS_QUEUE_IS_WRITE type && (size >? u32 (queueSize c - 4)) = false).
  { destruct (OS_QUEUE_IS_WRITE type); [|done]. rewrite u32_id by lia. cbn. specialize (Hw eq_refl). lia. }
  rewrite E. destruct (Z.geb_spec size SECUREC_MEM_MAX_LEN); [lia|done].
Qed.

Lemma queue_rep_counts c msgs f g :
  queue_rep c msgs -> queue_rep (set_readableCnt f (set_writeableCnt g c)) msgs.
Proof. by intros []. Qed.

(** The queue after a message has been stored: one free slot less, and one
    message more to read unless a waiting reader [woken] takes it. *)
Definition stored (c c' : LosQueueCB) (woken : bool) : Prop :=
  queueLen c' = queueLen c /\ queueSize c' = queueSize c /\ queueState c' = queueState c /\
  writeableCnt c' = writeableCnt c - 1 /\ readableCnt c' = readableCnt c + (if woken then 0 else 1).
Definition fetched (c c' : LosQueueCB) (woken : bool) : Prop :=
  queueLen c' = queueLen c /\ queueSize c' = queueSize c /\ queueState c' = queueState c /\
  readableCnt c' = readableCnt c - 1 /\ writeableCnt c' = writeableCnt c + (if woken then 0 else 1).

Lemma queue_store c msgs c1 msgs' woken (c' := if woken : bool then c1 else set_readableCnt (λ n, u16 (n + 1)) c1) :
  queue_ok c msgs -> 0 < writeableCnt c -> queue_same (set_writeableCnt (λ n, u16 (n - 1)) c) c1 -> queue_rep c1 msgs' ->
  len msgs' = len msgs + 1 -> queue_ok c' msgs' /\ stored c c' woken.
Proof.
  intros [[QL QS QH QT QF QR] Hu Hr Hw] Hpos (S1 & S2 & S3 & _ & S5 & S6 & _) HR Hlen. cbn in S1, S2, S3, S5, S6.
  rewrite u16_id in S6 by lia.
  assert (Hc1 : ∀ f, queue_rep (set_readableCnt f c1) msgs') by (intros f; by destruct HR).
  subst c'. destruct woken; (split; [split|]); try done; unfold stored; cbn; rewrite ?S1, ?S2, ?S3, ?S5, ?S6; try done; try lia.
  all: rewrite ?u16_id by lia; split_and!; try done; lia.
Qed.

Lemma queue_fetch c msgs c1 msgs' woken (c' := if woken : bool then c1 else set_writeableCnt (λ n, u16 (n + 1)) c1) :
  queue_ok c msgs -> 0 < readableCnt c -> queue_same (set_readableCnt (λ n, u16 (n - 1)) c) c1 -> queue_rep c1 msgs' ->
  len msgs = len msgs' + 1 -> queue_ok c' msgs' /\ fetched c c' woken.
Proof.
  intros [[QL QS QH QT QF QR] Hu Hr Hw] Hpos (S1 & S2 & S3 & _ & S5 & S6 & _) HR Hlen. cbn in S1, S2, S3, S5, S6.
  rewrite u16_id in S5 by lia.
  assert (Hc1 : ∀ f, queue_rep (set_writeableCnt f c1) msgs') by (intros f; by destruct HR).
  subst c'. destruct woken; (split; [split|]); try done; unfold fetched; cbn; rewrite ?S1, ?S2, ?S3, ?S5, ?S6; try done; try lia.
  all: rewrite ?u16_id by lia; split_and!; try done; lia.
Qed.

(** An operation for which a slot is available. *)
Lemma queue_operate_wp k m t q c type buffer size timeOut c1 buffer' size' l (rw := OS_QUEUE_READ_WRITE_GET type)
    (tmp := if rw =? 0 then 1 else 0) (hd := rwList q tmp) :
  KInv k m t -> g_allQueue k !! q = Some c -> OsQueueOperateParamCheck c type size = LOS_OK -> rwCnt c rw <> 0 ->
  queue_step type (set_rwCnt rw (λ n, u16 (n - 1)) c) buffer size c1 buffer' size' -> m !! hd = Some l ->
  wp (OsQueueOperate q type buffer size timeOut) (λ p k', ∃ m', KInv k' m' t /\
    p = Done (LOS_OK, (buffer', size')) /\
    queue_end k k' m m' q (if negb (bool_decide (l = [])) then c1 else set_rwCnt tmp (λ n, u16 (n + 1)) c1) hd l id /\
    queue_frame k k') k.
Proof.
  intros HK Hc Hck Hcnt Hst Hl. unfold OsQueueOperate. wp_step. eapply wp_queueCB; [done|].
  rewrite Hck. cbn [negb Z.eqb LOS_OK]. fold rw. rewrite (proj2 (Z.eqb_neq _ _) Hcnt).
  wp_step. eapply wp_mod_queueCB; [done|]. set (c0 := set_rwCnt rw _ c) in *.
  assert (HK1 := KInv_queue _ _ _ (insert q c0) HK). wp_step.
  eapply wp_mono; [eapply (queue_finish_wp _ m t q c0 type _ _ _ _ _ l HK1); [apply lookup_insert_eq|done|done]|].
  intros r k' (m' & HK' & -> & Hend & Hfr). apply wp_ret. exists m'. split_and!; [done..| |by eapply queue_frame_set].
  destruct l as [|n l]; cbn in Hend |- *.
  - destruct Hend as (-> & -> & ->). by rewrite insert_insert_eq.
  - destruct Hend as (x & cx & ? & ? & ? & -> & -> & ?). exists x, cx. by rewrite insert_insert_eq.
Qed.

Lemma queue_write_wp k m t q c msgs lr (front : bool) buffer size timeOut
    (d := take (Z.to_nat size) buffer) (write := if front then LOS_QueueWriteHeadCopy else LOS_QueueWriteCopy) :
  KInv k m t -> g_allQueue k !! q = Some c -> queue_ok c msgs -> m !! QueueRead q = Some lr ->
  queue_args_ok k q size timeOut -> size <= queueSize c - 4 -> size <= len buffer -> 0 < writeableCnt c ->
  wp (write q (Some buffer) size timeOut) (λ p k', ∃ m' c', p = Done (LOS_OK, (buffer, size)) /\ KInv k' m' t /\
    queue_ok c' (if front then d :: msgs else msgs ++ [d]) /\ stored c c' (negb (bool_decide (lr = []))) /\
    queue_end k k' m m' q c' (QueueRead q) lr id /\ queue_frame k k') k.
Proof.
  intros HK Hc Hok Hlr Hargs Hsz Hb Hw. pose proof Hargs as (_ & Hs & _).
  set (c0 := set_writeableCnt (λ n, u16 (n - 1)) c).
  assert (Hrep : queue_rep c0 msgs) by (destruct (qo_rep _ _ Hok); by split).
  assert (Hroom : len msgs < queueLen c) by (pose proof (qo_writeable _ _ Hok); lia).
  set (type := if front then WriteHead else WriteTail).
  assert (∃ c1, queue_step type c0 buffer size c1 buffer size /\ queue_same c0 c1 /\
    queue_rep c1 (if front then d :: msgs else msgs ++ [d])) as (c1 & Hst & Hsame & Hrep1).
  { subst type. destruct front; [eapply queue_write_head_rep|eapply queue_write_tail_rep]; try done; cbn; lia. }
  destruct (queue_store c msgs c1 (if front then d :: msgs else msgs ++ [d]) (negb (bool_decide (lr = [])))
    Hok Hw Hsame Hrep1) as [Hok' Hsto]; [destruct front; rewrite ?length_app; cbn; lia|].
  assert (E : OS_QUEUE_READ_WRITE_GET type = OS_QUEUE_WRITE) by (by destruct front).
  pose proof (queue_operate_wp k m t q c type buffer size timeOut c1 buffer size lr HK Hc) as Hop. rewrite E in Hop.
  assert (Hck : OsQueueOperateParamCheck c type size = LOS_OK) by (apply (queue_check c msgs); [done|done|intros; lia]).
  assert (Hcnt : writeableCnt c <> 0) by lia. specialize (Hop Hck Hcnt Hst Hlr).
  subst write. destruct front; [unfold LOS_QueueWriteHeadCopy|unfold LOS_QueueWriteCopy]; wp_step.
  all: rewrite bool_decide_true by (by eexists).
  all: eapply write_check_wp; [done|]; cbn [negb Z.eqb LOS_OK default from_option id].
  all: eapply wp_mono; [exact Hop|]; intros p k' (m' & HK' & -> & Hend & Hfr); by exists m'; eexists.
Qed.

(** Without a free slot and without waiting. *)
Lemma queue_full_wp k m t q c msgs buffer size :
  KInv k m t -> g_allQueue k !! q = Some c -> queue_ok c msgs -> queue_args_ok k q size LOS_NO_WAIT ->
  size <= queueSize c - 4 -> writeableCnt c = 0 ->
  wp (LOS_QueueWriteCopy q (Some buffer) size LOS_NO_WAIT) (λ p k', p = Done (LOS_ERRNO_QUEUE_ISFULL, (buffer, size)) /\ k' = k) k.
Proof.
  intros HK Hc Hok Hargs Hsz Hw. pose proof Hargs as (_ & Hs & _). unfold LOS_QueueWriteCopy. wp_step.
  rewrite bool_decide_true by (by eexists). eapply write_check_wp; [done|]. cbn [negb Z.eqb LOS_OK default from_option id].
  unfold OsQueueOperate. wp_step. eapply wp_queueCB; [done|]. rewrite (queue_check c msgs) by done.
  cbn [negb Z.eqb LOS_OK]. unfold rwCnt. change (OS_QUEUE_READ_WRITE_GET _ =? 0) with false. cbv iota. rewrite Hw. by wp_steps.
Qed.

(** C14: A write to a queue with a free slot refines appending the message to a sequence
    (prepending it for a write to the head), whatever the position in the ring buffer, and wakes
    the first waiting reader or counts the message as readable. *)
Theorem queue_write_correct k m t q c msgs lr (front : bool) buffer size timeOut
    (d := take (Z.to_nat size) buffer) (write := if front then LOS_QueueWriteHeadCopy else LOS_QueueWriteCopy) :
  KInv k m t -> g_allQueue k !! q = Some c -> queue_ok c msgs -> m !! QueueRead q = Some lr ->
  queue_args_ok k q size timeOut -> size <= queueSize c - 4 -> size <= len buffer -> 0 < writeableCnt c ->
  wp (write q (Some buffer) size timeOut) (λ p k', ∃ m' c', p = Done (LOS_OK, (buffer, size)) /\ KInv k' m' t /\
    queue_ok c' (if front then d :: msgs else msgs ++ [d]) /\ stored c c' (negb (bool_decide (lr = []))) /\
    queue_end k k' m m' q c' (QueueRead q) lr id) k.
Proof.
  intros HK Hc Hok Hlr Hargs Hsz Hb Hw. eapply wp_mono; [by apply (queue_write_wp k m t q c msgs lr front buffer size timeOut)|].
  intros p k' (m' & c' & -> & HK' & Hok' & Hst & Hend & _). by exists m', c'.
Qed.

Lemma queue_read_wp k m t q c msgs lw buffer size timeOut :
  KInv k m t -> g_allQueue k !! q = Some c -> queue_ok c msgs -> m !! QueueWrite q = Some lw ->
  queue_args_ok k q size timeOut -> size <= len buffer -> 0 < readableCnt c ->
  wp (LOS_QueueReadCopy q (Some buffer) (Some size) timeOut) (λ p k', ∃ m' c' d msgs', msgs = d :: msgs' /\
    let n := Z.min size (len d) in
    p = Done (LOS_OK, (take (Z.to_nat n) d ++ drop (Z.to_nat n) buffer, n)) /\ KInv k' m' t /\
    queue_ok c' msgs' /\ fetched c c' (negb (bool_decide (lw = []))) /\
    queue_end k k' m m' q c' (QueueWrite q) lw id /\ queue_frame k k') k.
Proof.
  intros HK Hc Hok Hlw Hargs Hb Hr. pose proof Hargs as (_ & Hs & _).
  set (c0 := set_readableCnt (λ n, u16 (n - 1)) c).
  assert (Hrep : queue_rep c0 msgs) by (destruct (qo_rep _ _ Hok); by split).
  destruct msgs as [|d msgs]; [pose proof (qo_readable _ _ Hok); cbn in *; lia|].
  destruct (queue_read_head_rep c0 d msgs buffer size) as (c1 & Hst & Hsame & Hrep1); [done|lia|].
  destruct (queue_fetch c (d :: msgs) c1 msgs (negb (bool_decide (lw = []))) Hok Hr Hsame Hrep1) as [Hok' Hft]; [cbn; lia|].
  assert (Hck : OsQueueOperateParamCheck c ReadHead size = LOS_OK) by (apply (queue_check c (d :: msgs)); done).
  assert (Hcnt : readableCnt c <> 0) by lia.
  unfold LOS_QueueReadCopy. wp_step. rewrite !bool_decide_true by (by eexists).
  eapply read_check_wp; [done|]. cbn [negb Z.eqb LOS_OK default from_option id].
  eapply wp_mono; [exact (queue_operate_wp k m t q c ReadHead _ _ timeOut c1 _ _ lw HK Hc Hck Hcnt Hst Hlw)|].
  intros p k' (m' & HK' & -> & Hend & Hfr). exists m'. eexists _, d, msgs. split_and!; [done|done|done|exact Hok'|exact Hft|exact Hend|exact Hfr].
Qed.

(** C15: A read from a queue with a readable message refines removing the oldest message of the
    sequence: the caller gets its bytes, cut to the buffer size, and its length; the first
    waiting writer is woken or the slot is counted as writeable. *)
Theorem queue_read_correct k m t q c msgs lw buffer size timeOut :
  KInv k m t -> g_allQueue k !! q = Some c -> queue_ok c msgs -> m !! QueueWrite q = Some lw ->
  queue_args_ok k q size timeOut -> size <= len buffer -> 0 < readableCnt c ->
  wp (LOS_QueueReadCopy q (Some buffer) (Some size) timeOut) (λ p k', ∃ m' c' d msgs', msgs = d :: msgs' /\
    let n := Z.min size (len d) in
    p = Done (LOS_OK, (take (Z.to_nat n) d ++ drop (Z.to_nat n) buffer, n)) /\ KInv k' m' t /\
    queue_ok c' msgs' /\ fetched c c' (negb (bool_decide (lw = []))) /\
    queue_end k k' m m' q c' (QueueWrite q) lw id) k.
Proof.
  intros HK Hc Hok Hlw Hargs Hb Hr. eapply wp_mono; [by eapply queue_read_wp|]. cbv zeta.
  intros p k' (m' & c' & d & msgs' & -> & -> & HK' & Hok' & Hft & Hend & _). by exists m', c', d, msgs'.
Qed.

Lemma queue_wait_wp k m t c q cq msgs type hd l buffer size timeOut (rw := OS_QUEUE_READ_WRITE_GET type) :
  KInv k m t -> g_allQueue k !! q = Some cq -> queue_ok cq msgs -> 0 < size < SECUREC_MEM_MAX_LEN ->
  (OS_QUEUE_IS_WRITE type = true -> size <= queueSize cq - 4) -> rwCnt cq rw = 0 ->
  hd = rwList q rw -> m !! hd = Some l -> can_wait k t c ->
  wp (OsQueueOperate q type buffer size timeOut) (λ p k', ∃ m', KInv k' m' t /\ g_allQueue k' = g_allQueue k /\
    if timeOut =? LOS_NO_WAIT then
      p = Done (if OS_QUEUE_IS_READ type then LOS_ERRNO_QUEUE_ISEMPTY else LOS_ERRNO_QUEUE_ISFULL, (buffer, size)) /\ k' = k /\ m' = m
    else p = Blocked (resuming (OsQueueOperate_resume t q type buffer size)) /\ pendSV k' = true /\
      m' = <[hd := l ++ [PendList t]]> m /\ g_taskCBArray k' = <[t := wait_tcb timeOut c]> (g_taskCBArray k)) k.
Proof.
  intros HK Hc Hok Hs Hw Hcnt -> Hl Hmay. pose proof (can_wait_live _ _ _ _ HK Hmay) as Hlive.
  destruct Hmay as (Hp & Hint & Hlock & Hidle & Htc). unfold OsQueueOperate. wp_step. eapply wp_queueCB; [done|].
  rewrite (queue_check cq msgs) by done. cbn [negb Z.eqb LOS_OK]. fold rw. rewrite Hcnt. cbn [Z.eqb].
  destruct (timeOut =? LOS_NO_WAIT); [by apply wp_ret; exists m|].
  wp_steps. rewrite Hlock. cbn [Z.eqb negb]. wp_step. eapply wp_running; [apply HK|].
  assert (Hwh : wait_head (rwList q rw) = true) by (unfold rwList; by destruct (_ =? _)).
  wp_step. eapply wp_mono; [by eapply (kinv_wait _ m t c (rwList q rw) l timeOut HK)|].
  intros [] k' (h' & -> & HK3). unfold block_then. wp_step. eapply schedule_block_wp; [done|done|].
  apply wp_ret. eexists. split_and!; [exact HK3|done..].
Qed.

(** C16: A queue operation that finds no message or no slot reports empty or full without
    waiting, or appends the caller to the reader or writer list of the queue and requests a
    switch. *)
Theorem queue_wait_correct k m t c q cq msgs type hd l buffer size timeOut (rw := OS_QUEUE_READ_WRITE_GET type) :
  KInv k m t -> g_allQueue k !! q = Some cq -> queue_ok cq msgs -> 0 < size < SECUREC_MEM_MAX_LEN ->
  (OS_QUEUE_IS_WRITE type = true -> size <= queueSize cq - 4) -> rwCnt cq rw = 0 ->
  hd = rwList q rw -> m !! hd = Some l -> can_wait k t c ->
  wp (OsQueueOperate q type buffer size timeOut) (λ p k', ∃ m', KInv k' m' t /\ g_allQueue k' = g_allQueue k /\
    if timeOut =? LOS_NO_WAIT then
      p = Done (if OS_QUEUE_IS_READ type then LOS_ERRNO_QUEUE_ISEMPTY else LOS_ERRNO_QUEUE_ISFULL, (buffer, size)) /\ k' = k /\ m' = m
    else p = Blocked (resuming (OsQueueOperate_resume t q type buffer size)) /\ pendSV k' = true /\
      m' = <[hd := l ++ [PendList t]]> m /\ g_taskCBArray k' = <[t := wait_tcb timeOut c]> (g_taskCBArray k)) k.
Proof. apply queue_wait_wp. Qed.

End QueueProofs.
