(* ===== verification/QueueInv.v ===== *)
(** The queues of the whole kernel: a task that is woken in a queue call finds the
    message or the slot that it was woken for.

    A writer that finds waiting readers does not count its message as readable:
    the message is promised to the reader it wakes, which takes it when it runs
    again.  The invariant [QInv] counts the promises: the readable messages and
    those promised to woken readers are at most the messages in the ring, and the
    same holds for the free slots and the woken writers. *)

From S2P Require Import Prelude Errno LosList Membox Kernel Tick SortLink Sched SchedInv SchedTime SchedSwitch KernelInv Waits Queue.

#[local] Abbreviation len l := (Z.of_nat (length l)).

(** ** Promises *)

(** A call of OsQueueOperate that a task waits in. *)
Record QOp := mk_QOp { qo_queue : Z; qo_type : Z; qo_buffer : list Z; qo_size : Z }.
Definition qo_rw (op : QOp) : Z := OS_QUEUE_READ_WRITE_GET (qo_type op).

(** The task no longer waits, and its wait has not timed out. *)
Definition woken_up (c : LosTaskCB) : bool := negb (waits c).1 && negb (waits c).2.
Definition promised (T : gmap Z LosTaskCB) (q rw : Z) (p : Z * QOp) : Prop :=
  qo_queue p.2 = q /\ qo_rw p.2 = rw /\ from_option woken_up false (T !! p.1) = true.
#[global] Instance promised_dec T q rw p : Decision (promised T q rw p).
Proof. unfold promised. apply _. Defined.
(** The number of tasks woken for queue [q]; [P] has the calls that wait. *)
Definition promises (T : gmap Z LosTaskCB) (P : gmap Z QOp) (q rw : Z) : Z := Z.of_nat (size (filter (promised T q rw) P)).

Lemma promises_nonneg T P q rw : 0 <= promises T P q rw.
Proof. unfold promises. lia. Qed.

Lemma promises_le T T' P q rw :
  (∀ x op, P !! x = Some op -> promised T' q rw (x, op) -> promised T q rw (x, op)) -> promises T' P q rw <= promises T P q rw.
Proof. intros Hi. unfold promises. apply inj_le, map_subseteq_size, map_filter_subseteq_ext. auto. Qed.

Lemma promises_delete T P q rw x : promises T (delete x P) q rw <= promises T P q rw.
Proof. unfold promises. apply inj_le, map_subseteq_size, map_filter_subseteq_mono, delete_subseteq. Qed.
Lemma promises_take T P q rw x op :
  P !! x = Some op -> promised T q rw (x, op) -> promises T (delete x P) q rw = promises T P q rw - 1.
Proof.
  intros Hx Hp. unfold promises. rewrite map_filter_delete, map_size_delete_Some by (exists op; by apply map_lookup_filter_Some).
  assert (size (filter (promised T q rw) P) <> 0%nat); [|lia]. eapply map_size_ne_0_lookup_2. exists op. by apply map_lookup_filter_Some.
Qed.
Lemma promises_new T P q rw x op : P !! x = None -> ~ promised T q rw (x, op) -> promises T (<[x := op]> P) q rw = promises T P q rw.
Proof. intros Hx Hp. unfold promises. rewrite map_filter_insert_not'; [done|done|]. by intros y; rewrite Hx. Qed.

(** Only task [x] changes. *)
Lemma promises_others T T' P q rw x :
  (∀ y, y <> x -> T' !! y = T !! y) -> (∀ op, P !! x = Some op -> ~ promised T' q rw (x, op)) ->
  promises T' P q rw <= promises T P q rw.
Proof.
  intros Hf Hx. apply promises_le. intros y op Hy Hp. destruct (decide (y = x)) as [->|Hne]; [by destruct (Hx op)|].
  unfold promised in *. cbn in *. by rewrite <- Hf.
Qed.
Lemma promises_one T T' P q rw x :
  (∀ y, y <> x -> T' !! y = T !! y) -> promises T' P q rw <= promises T P q rw + 1.
Proof.
  intros Hf. assert (H1 : promises T' (delete x P) q rw <= promises T (delete x P) q rw).
  { apply (promises_others _ _ _ _ _ x Hf). intros op. by rewrite lookup_delete_eq. }
  pose proof (promises_delete T P q rw x). assert (promises T' P q rw <= promises T' (delete x P) q rw + 1); [|lia].
  unfold promises. rewrite map_filter_delete, map_size_delete. destruct (filter _ P !! x); unfold id; lia.
Qed.

(** ** The invariant *)

(** The arguments of a call fit its queue. *)
Definition qo_fits (c : LosQueueCB) (op : QOp) : Prop :=
  queueState c <> OS_QUEUE_UNUSED /\ (qo_type op = WriteTail \/ qo_type op = WriteHead \/ qo_type op = ReadHead) /\
  0 < qo_size op < SECUREC_MEM_MAX_LEN /\ qo_size op <= len (qo_buffer op) /\
  (OS_QUEUE_IS_WRITE (qo_type op) = true -> qo_size op <= queueSize c - 4).

(** The messages to read, or the slots to write to. *)
Definition slots (c : LosQueueCB) (msgs : list (list Z)) (rw : Z) : Z :=
  if rw =? OS_QUEUE_READ then len msgs else queueLen c - len msgs.

(** Queue [q] with control block [c] holds [msgs]. *)
Record queue_tok (T : gmap Z LosTaskCB) (P : gmap Z QOp) (q : Z) (c : LosQueueCB) (msgs : list (list Z)) : Prop := {
  tk_ok : queue_ok c msgs;
  tk_slots : ∀ rw, rw = OS_QUEUE_READ \/ rw = OS_QUEUE_WRITE -> rwCnt c rw + promises T P q rw <= slots c msgs rw;
}.

Section QueueInv.
Context `{TimerLaws}.

(** The queues hold the messages [ms] and the tasks of [P] wait in queue calls or
    have been woken in them. *)
Record QInv (P : gmap Z QOp) (ms : gmap Z (list (list Z))) (k : Kernel) (m : gmap Node (list Node)) : Prop := {
  qi_link : ∀ x op, P !! x = Some op -> ∃ c, g_taskCBArray k !! x = Some c /\
    (has c OS_TASK_STATUS_PEND = true -> home m (PendList x) (rwList (qo_queue op) (qo_rw op)));
  qi_call : ∀ x op, P !! x = Some op -> ∃ c, g_allQueue k !! qo_queue op = Some c /\ qo_fits c op;
  qi_lists : ∀ q c, g_allQueue k !! q = Some c -> queueState c <> OS_QUEUE_UNUSED ->
    is_Some (m !! QueueRead q) /\ is_Some (m !! QueueWrite q);
  qi_queue : ∀ q c, g_allQueue k !! q = Some c -> queueState c <> OS_QUEUE_UNUSED ->
    ∃ msgs, ms !! q = Some msgs /\ queue_tok (g_taskCBArray k) P q c msgs;
}.

Lemma rwList_head q rw : wait_head (rwList q rw) = true.
Proof. unfold rwList. by destruct (_ =? _). Qed.
Lemma qo_rw_cases op : qo_rw op = OS_QUEUE_READ \/ qo_rw op = OS_QUEUE_WRITE.
Proof.
  unfold qo_rw, OS_QUEUE_READ_WRITE_GET. rewrite (Z.land_ones _ 1) by lia. change (2 ^ 1) with 2.
  pose proof (Z.mod_pos_bound (qo_type op) 2 ltac:(lia)). unfold OS_QUEUE_READ, OS_QUEUE_WRITE. lia.
Qed.
Lemma rwList_inj q q' rw rw' : (rw = OS_QUEUE_READ \/ rw = OS_QUEUE_WRITE) -> (rw' = OS_QUEUE_READ \/ rw' = OS_QUEUE_WRITE) ->
  rwList q rw = rwList q' rw' -> q = q' /\ rw = rw'.
Proof. by intros [-> | ->] [-> | ->] [= ->]. Qed.

(** A waiting task of [P] is in no other wait list. *)
Lemma qi_home P ms k m t x op hd :
  KInv k m t -> QInv P ms k m -> P !! x = Some op -> wait_head hd = true -> home m (PendList x) hd -> hd = rwList (qo_queue op) (qo_rw op).
Proof.
  intros HK HQ Hx Hw Hh. destruct (qi_link _ _ _ _ HQ x op Hx) as (c & Hc & Hl).
  destruct (wait_member _ _ _ _ _ _ _ (ki_sched _ _ _ HK) Hh Hw) as (y & c' & [= <-] & Hc' & Hp). simplify_eq.
  eapply home_unique; [apply (ki_sched _ _ _ HK)|done|]. by apply Hl.
Qed.

(** Operations that have nothing to do with queues. *)
Lemma QInv_kept who hd0 P ms k m t k' m' :
  KInv k m t -> QInv P ms k m -> others_kept who hd0 k m k' m' -> (∀ q rw, hd0 <> rwList q rw) ->
  (∀ x, who = Some x -> P !! x = None) -> g_allQueue k' = g_allQueue k -> QInv P ms k' m'.
Proof.
  intros HK HQ [Kl Kw] Hhd Hwho Eq. pose proof HQ as [Q1 Q2 Q3 Q4].
  assert (Hw : ∀ x op, P !! x = Some op -> ∃ c c', g_taskCBArray k !! x = Some c /\ g_taskCBArray k' !! x = Some c' /\ waits c' = waits c).
  { intros x op Hx. destruct (Q1 x op Hx) as (c & Hc & _). destruct (Kw x c Hc) as (c' & Hc' & [E|[Hwh Hh]]).
    - intros <-. by rewrite Hwho in Hx.
    - by exists c, c'.
    - destruct (Hhd (qo_queue op) (qo_rw op)). by eapply qi_home. }
  assert (Hl : ∀ q rw, m' !! rwList q rw = m !! rwList q rw).
  { intros q rw. apply Kl; [by apply not_eq_sym| |]; unfold rwList; by destruct (_ =? _). }
  split.
  - intros x op Hx. destruct (Hw x op Hx) as (c & c' & Hc & Hc' & [= E _]). exists c'. split; [done|]. rewrite E. intros Hp.
    destruct (Q1 x op Hx) as (c0 & Hc0 & Hh). simplify_eq. unfold home. rewrite Hl. by apply Hh.
  - by rewrite Eq.
  - rewrite Eq. intros q c Hc Hu. specialize (Q3 q c Hc Hu). pose proof (Hl q OS_QUEUE_READ) as E1. pose proof (Hl q OS_QUEUE_WRITE) as E2.
    cbn in E1, E2. by rewrite E1, E2.
  - rewrite Eq. intros q c Hc Hu. destruct (Q4 q c Hc Hu) as (msgs & Hm & [T1 T2]). exists msgs. split; [done|].
    assert (Hle : ∀ rw, promises (g_taskCBArray k') P q rw <= promises (g_taskCBArray k) P q rw).
    { intros rw. apply promises_le. intros x op Hx (P1 & P2 & P3). split_and!; [done..|]. cbn in *.
      destruct (Hw x op Hx) as (cx & cx' & -> & Hx' & E). rewrite Hx' in P3. cbn in *. unfold woken_up in *. by rewrite <- E. }
    split; [done|]. intros rw Hrw. specialize (T2 rw Hrw). specialize (Hle rw). lia.
Qed.

(** Operations that change no wait list but for waits that have timed out: the
    tasks that leave their lists are marked. *)
Definition waits_kept (k k' : Kernel) : Prop :=
  ∀ x c, g_taskCBArray k !! x = Some c -> ∃ c', g_taskCBArray k' !! x = Some c' /\ (waits c' = waits c \/ waits c' = (false, true)).
Lemma waits_kept_same k k' : g_taskCBArray k' = g_taskCBArray k -> waits_kept k k'.
Proof. intros E x c Hc. rewrite E. eauto. Qed.
Lemma waits_kept_insert k k' x c c' :
  g_taskCBArray k !! x = Some c -> g_taskCBArray k' = <[x := c']> (g_taskCBArray k) -> waits c' = waits c -> waits_kept k k'.
Proof.
  intros Hx E Hw y cy Hy. rewrite E. destruct (decide (y = x)) as [->|]; [|rewrite lookup_insert_ne by done; eauto].
  rewrite lookup_insert_eq. assert (cy = c) as -> by congruence. exists c'. by auto.
Qed.
Lemma others_waits_kept k m k' m' hd0 : others_kept None hd0 k m k' m' -> wait_head hd0 = false -> waits_kept k k'.
Proof.
  intros [_ Hw] Hhd x c Hx. destruct (Hw x c Hx) as (c' & Hc' & [E|[E _]]); [done|eauto|congruence].
Qed.

Lemma QInv_shrink hd0 P ms k m t k' m' t' :
  KInv k m t -> KInv k' m' t' -> QInv P ms k m -> lists_shrink hd0 m m' -> wait_head hd0 = false -> waits_kept k k' ->
  g_allQueue k' = g_allQueue k -> QInv P ms k' m'.
Proof.
  intros HK HK' HQ (S1 & _ & S3) Hhd Hw Eq. pose proof HQ as [Q1 Q2 Q3 Q4].
  assert (Hne : ∀ hd, wait_head hd = true -> hd <> hd0) by (intros hd Hh ->; congruence). split.
  - intros x op Hx. destruct (Q1 x op Hx) as (c & Hc & Hh). destruct (Hw x c Hc) as (c' & Hc' & E). exists c'. split; [done|].
    intros Hp. destruct (ok_waiting _ _ _ _ (si_tasks _ _ _ _ _ (ki_sched _ _ _ HK') _ _ Hc') Hp) as (hd & Hwh & Hhd').
    by rewrite <- (qi_home _ _ _ _ _ _ _ _ HK HQ Hx Hwh (S3 _ _ (Hne _ Hwh) Hwh Hhd')).
  - by rewrite Eq.
  - rewrite Eq. intros q c Hc Hu. destruct (Q3 q c Hc Hu) as [[l1 H1] [l2 H2]].
    destruct (S1 (QueueRead q) l1 (Hne (QueueRead q) eq_refl) eq_refl H1) as (l1' & -> & _).
    destruct (S1 (QueueWrite q) l2 (Hne (QueueWrite q) eq_refl) eq_refl H2) as (l2' & -> & _). by split.
  - rewrite Eq. intros q c Hc Hu. destruct (Q4 q c Hc Hu) as (msgs & Hm & [T1 T2]). exists msgs. split; [done|]. split; [done|].
    intros rw Hrw. specialize (T2 rw Hrw).
    assert (promises (g_taskCBArray k') P q rw <= promises (g_taskCBArray k) P q rw); [|lia].
    apply promises_le. intros x op Hx (P1 & P2 & P3). split_and!; [done..|]. cbn in *. destruct (Q1 x op Hx) as (cx & Hcx & _).
    destruct (Hw x cx Hcx) as (cx' & Hcx' & [E|E]); rewrite Hcx' in P3; cbn in P3; unfold woken_up in P3; rewrite E in P3; [|done].
    by rewrite Hcx.
Qed.

(** The end of an operation on queue [q]: the first task of the other list is
    woken, and the slot promised to it, or the slot is counted. *)
Section ending.
Context (P P' : gmap Z QOp) (ms : gmap Z (list (list Z))) (k k' : Kernel) (m m' : gmap Node (list Node)) (t q tmp : Z)
  (c c' : LosQueueCB) (l : list Node).
Context (HK : KInv k m t) (HQ : QInv P ms k m) (HP : P' ⊆ P) (Htmp : tmp = OS_QUEUE_READ \/ tmp = OS_QUEUE_WRITE)
  (Hl : m !! rwList q tmp = Some l) (Hend : queue_end k k' m m' q c' (rwList q tmp) l id).

Lemma end_queues : g_allQueue k' = <[q := c']> (g_allQueue k).
Proof. destruct l; [apply Hend|by destruct Hend as (x & cx & _ & _ & _ & E & _)]. Qed.

Lemma end_keeps hd : wait_head hd = true -> hd <> rwList q tmp -> m' !! hd = m !! hd.
Proof.
  intros Hw Hne. destruct l as [|n l']; [by destruct Hend as [-> _]|]. destruct Hend as (x & cx & _ & _ & _ & _ & _ & Hf).
  apply Hf; [done|by intros ->..].
Qed.

Lemma end_list hd : wait_head hd = true -> is_Some (m !! hd) -> is_Some (m' !! hd).
Proof.
  intros Hw Hs. destruct (decide (hd = rwList q tmp)) as [->|]; [|by rewrite end_keeps].
  destruct l as [|n l']; [by destruct Hend as [-> _]|]. destruct Hend as (x & cx & _ & _ & E & _). by eexists.
Qed.

Lemma end_link x op : P' !! x = Some op -> ∃ c, g_taskCBArray k' !! x = Some c /\
  (has c OS_TASK_STATUS_PEND = true -> home m' (PendList x) (rwList (qo_queue op) (qo_rw op))).
Proof.
  intros Hx. pose proof end_keeps as Hek. destruct (qi_link _ _ _ _ HQ x op (lookup_weaken _ _ _ _ Hx HP)) as (cx & Hcx & Hh).
  destruct l as [|n l']; [destruct Hend as (-> & -> & _); by exists cx|].
  destruct Hend as (y & cy & -> & Hy & Hly & _ & ET & Hf). rewrite ET. destruct (decide (x = y)) as [->|Hne].
  - eexists. rewrite lookup_insert_eq. split; [done|].
    pose proof (wake_waits (g_idleTaskID k) (g_schedTimeSlice k) (g_schedTimeSliceMin k) cy) as [= E _]. by rewrite E.
  - exists cx. rewrite lookup_insert_ne by done. split; [done|]. intros Hp. specialize (Hh Hp).
    destruct (decide (rwList (qo_queue op) (qo_rw op) = rwList q tmp)) as [E|E].
    + rewrite E in *. destruct Hh as (l0 & Hl0 & Hin). simplify_eq. exists l'. split; [done|]. set_solver.
    + unfold home. rewrite Hek; [done|apply rwList_head|done].
Qed.

Lemma end_promises q' rw : promises (g_taskCBArray k') P' q' rw <=
  promises (g_taskCBArray k) P' q' rw + (if bool_decide ((q' = q /\ rw = tmp) /\ l <> []) then 1 else 0).
Proof.
  destruct l as [|n l']; [destruct Hend as (_ & -> & _); destruct (bool_decide _); lia|].
  destruct Hend as (x & cx & -> & Hx & Hlx & _ & ET & Hf).
  assert (Hhome : home m (PendList x) (rwList q tmp)) by (eexists; split; [done|left]).
  assert (Hf' : ∀ y, y <> x -> g_taskCBArray k' !! y = g_taskCBArray k !! y) by (intros y Hy; rewrite ET; by apply lookup_insert_ne).
  case_bool_decide as D; [by apply (promises_one _ _ _ _ _ x)|].
  rewrite Z.add_0_r. apply (promises_others _ _ _ _ _ x Hf'). intros op Hop (P1 & P2 & _). cbn in P1, P2.
  pose proof (qi_home _ _ _ _ _ _ _ _ HK HQ (lookup_weaken _ _ _ _ Hop HP) (rwList_head q tmp) Hhome) as E.
  apply rwList_inj in E as [E1 E2]; [|done|apply qo_rw_cases]. apply D. split; [|done]. split; congruence.
Qed.

Lemma QInv_end msgs' :
  g_allQueue k !! q = Some c -> queueState c <> OS_QUEUE_UNUSED -> queueState c' = queueState c -> queueSize c' = queueSize c ->
  queue_ok c' msgs' ->
  (∀ rw, rw = OS_QUEUE_READ \/ rw = OS_QUEUE_WRITE ->
    rwCnt c' rw + promises (g_taskCBArray k) P' q rw + (if bool_decide (rw = tmp /\ l <> []) then 1 else 0) <= slots c' msgs' rw) ->
  QInv P' (<[q := msgs']> ms) k' m'.
Proof.
  intros Hc Hu Es Ez Hok Hcnt. pose proof HQ as [Q1 Q2 Q3 Q4]. split; [apply end_link|rewrite end_queues..].
  - intros x op Hx. destruct (Q2 x op (lookup_weaken _ _ _ _ Hx HP)) as (c2 & Hc2 & HF).
    destruct (decide (qo_queue op = q)) as [E|Hne]; [|exists c2; by rewrite lookup_insert_ne].
    rewrite E in *. assert (c2 = c) as -> by congruence. exists c'. rewrite lookup_insert_eq. split; [done|]. unfold qo_fits in *. by rewrite Es, Ez.
  - intros q' c2 Hc2 Hu2. assert (is_Some (m !! QueueRead q') /\ is_Some (m !! QueueWrite q')) as [Ho1 Ho2].
    { rewrite lookup_insert in Hc2. case_decide as D; [subst q'; by eapply Q3|by eauto]. }
    split; by apply end_list.
  - intros q' c2. rewrite lookup_insert. case_decide as D; pose proof (end_promises q') as Hpr.
    + subst q'. intros E _. assert (c2 = c') as -> by congruence. exists msgs'. rewrite lookup_insert_eq. split; [done|]. split; [done|]. intros rw Hrw.
      specialize (Hcnt rw Hrw). specialize (Hpr rw). repeat case_bool_decide; naive_solver lia.
    + intros Hc2 Hu2. destruct (Q4 q' c2 Hc2 Hu2) as (msgs & Hm & [T1 T2]). exists msgs. rewrite lookup_insert_ne by done.
      split; [done|]. split; [done|]. intros rw Hrw. specialize (T2 rw Hrw). specialize (Hpr rw).
      rewrite bool_decide_false in Hpr by naive_solver.
      assert (promises (g_taskCBArray k) P' q' rw <= promises (g_taskCBArray k) P q' rw); [|lia].
      unfold promises. by apply inj_le, map_subseteq_size, map_filter_subseteq_mono.
Qed.
End ending.

(** ** The calls *)

Definition other (rw : Z) : Z := if rw =? 0 then 1 else 0.
(** The messages after a call. *)
Definition qo_result (op : QOp) (msgs : list (list Z)) : list (list Z) :=
  let d := take (Z.to_nat (qo_size op)) (qo_buffer op) in
  if qo_type op =? WriteTail then msgs ++ [d] else if qo_type op =? WriteHead then d :: msgs else tail msgs.

(** The caller's buffer and size after it. *)
Definition qo_answer (op : QOp) (msgs : list (list Z)) : list Z * Z :=
  if OS_QUEUE_IS_READ (qo_type op) then
    let d := List.hd [] msgs in
    let n := Z.min (qo_size op) (len d) in
    (take (Z.to_nat n) d ++ drop (Z.to_nat n) (qo_buffer op), n)
  else (qo_buffer op, qo_size op).

Lemma transfer_exists c msgs op :
  queue_rep c msgs -> qo_fits c op -> 0 < slots c msgs (qo_rw op) ->
  ∃ c1, queue_step (qo_type op) c (qo_buffer op) (qo_size op) c1 (qo_answer op msgs).1 (qo_answer op msgs).2 /\ queue_same c c1 /\
    queue_rep c1 (qo_result op msgs) /\ slots c1 (qo_result op msgs) (qo_rw op) = slots c msgs (qo_rw op) - 1 /\
    slots c1 (qo_result op msgs) (other (qo_rw op)) = slots c msgs (other (qo_rw op)) + 1.
Proof.
  intros HR (_ & Ht & Hs & Hb & Hw). unfold qo_result, qo_answer, slots, qo_rw. destruct Ht as [E|[E|E]]; rewrite E in Hw |- *.
  1, 2: specialize (Hw eq_refl); change (OS_QUEUE_READ_WRITE_GET _) with OS_QUEUE_WRITE;
    change (WriteTail =? WriteTail) with true; change (WriteHead =? WriteTail) with false; change (WriteHead =? WriteHead) with true;
    change (OS_QUEUE_WRITE =? OS_QUEUE_READ) with false; change (other OS_QUEUE_WRITE =? OS_QUEUE_READ) with true; cbv iota; intros Hsl.
  - destruct (queue_write_tail_rep c msgs (qo_buffer op) (qo_size op)) as (c1 & Hst & Hsame & HR1); [done|lia..|].
    exists c1. pose proof Hsame as (EL & _). rewrite EL, length_app. cbn [length]. split_and!; [done..|lia|lia].
  - destruct (queue_write_head_rep c msgs (qo_buffer op) (qo_size op)) as (c1 & Hst & Hsame & HR1); [done|lia..|].
    exists c1. pose proof Hsame as (EL & _). rewrite EL. cbn [length]. split_and!; [done..|lia|lia].
  - change (OS_QUEUE_READ_WRITE_GET _) with OS_QUEUE_READ. change (OS_QUEUE_READ =? OS_QUEUE_READ) with true.
    change (ReadHead =? WriteTail) with false. change (ReadHead =? WriteHead) with false.
    change (other OS_QUEUE_READ =? OS_QUEUE_READ) with false. cbv iota. intros Hsl. destruct msgs as [|d msgs]; [cbn in Hsl; lia|].
    destruct (queue_read_head_rep c d msgs (qo_buffer op) (qo_size op)) as (c1 & Hst & Hsame & HR1); [done|lia|].
    exists c1. pose proof Hsame as (EL & _). rewrite EL. cbn [length tail]. split_and!; [exact Hst|done..|lia|lia].
Qed.

Lemma rwCnt_set c rw rw' f : (rw = OS_QUEUE_READ \/ rw = OS_QUEUE_WRITE) -> (rw' = OS_QUEUE_READ \/ rw' = OS_QUEUE_WRITE) ->
  rwCnt (set_rwCnt rw f c) rw' = if rw' =? rw then f (rwCnt c rw) else rwCnt c rw'.
Proof. by intros [-> | ->] [-> | ->]. Qed.
Lemma queue_same_cnt c c1 rw : queue_same c c1 -> rwCnt c1 rw = rwCnt c rw.
Proof. intros (_ & _ & _ & _ & E1 & E2 & _). unfold rwCnt. by rewrite E1, E2. Qed.

(** The control block at the end of an operation for which a slot was reserved. *)
Lemma finish_counts T P P' c c0 c1 q rw msgs msgs' (woken : bool)
    (cF := if woken then c1 else set_rwCnt (other rw) (λ n, u16 (n + 1)) c1) :
  queue_tok T P q c msgs -> P' ⊆ P -> (rw = OS_QUEUE_READ \/ rw = OS_QUEUE_WRITE) -> queueLen c0 = queueLen c -> queueState c0 <> OS_QUEUE_UNUSED ->
  0 <= rwCnt c0 rw -> rwCnt c0 rw + promises T P' q rw + 1 <= slots c msgs rw -> rwCnt c0 (other rw) = rwCnt c (other rw) ->
  queue_same c0 c1 -> queue_rep c1 msgs' -> slots c1 msgs' rw = slots c0 msgs rw - 1 -> slots c1 msgs' (other rw) = slots c0 msgs (other rw) + 1 ->
  queue_ok cF msgs' /\ ∀ rw', rw' = OS_QUEUE_READ \/ rw' = OS_QUEUE_WRITE ->
    rwCnt cF rw' + promises T P' q rw' + (if bool_decide (rw' = other rw /\ woken = true) then 1 else 0) <= slots cF msgs' rw'.
Proof.
  intros [Hok Hsl] HP Hrw EL Hu Hnn Hres Eo Hsame HR S1 S2. pose proof (queue_same_cnt c0 c1) as Ec. specialize (λ rw, Ec rw Hsame) as Ec.
  assert (Hor : other rw = OS_QUEUE_READ \/ other rw = OS_QUEUE_WRITE) by (by destruct Hrw as [-> | ->]; [right|left]).
  assert (Hp : promises T P' q (other rw) <= promises T P q (other rw)).
  { unfold promises. by apply inj_le, map_subseteq_size, map_filter_subseteq_mono. }
  pose proof (Hsl _ Hor) as Hso. pose proof (promises_nonneg T P' q rw). pose proof (promises_nonneg T P' q (other rw)).
  assert (Esl : ∀ rw, slots c0 msgs rw = slots c msgs rw) by (intros; unfold slots; by rewrite EL).
  pose proof Hsame as (EL1 & _ & Es1 & _). pose proof (qr_len _ _ HR) as HL1.
  assert (Hcnt0 : 0 <= rwCnt c (other rw) <= queueLen c1).
  { destruct Hok as [[QL _ _ _ QF _] _ QR QW]. destruct Hrw as [-> | ->]; unfold rwCnt; cbn; lia. }
  set (n := if woken then 0 else 1).
  assert (Hrw' : rwCnt cF rw = rwCnt c0 rw /\ rwCnt cF (other rw) = rwCnt c (other rw) + n /\ (∀ rw, slots cF msgs' rw = slots c1 msgs' rw) /\
    queue_rep cF msgs' /\ queueState cF = queueState c1 /\ queueLen cF = queueLen c1).
  { subst cF n. destruct woken; [rewrite !Ec; split_and!; (done || lia)|].
    rewrite !rwCnt_set, !Ec by done. rewrite Z.eqb_refl, Eo.
    assert (Hlt : rwCnt c (other rw) + 1 < 2 ^ 16).
    { assert (slots c1 msgs' (other rw) <= queueLen c1); [|rewrite S2, Esl in *; lia].
      unfold slots. destruct HR as [_ _ _ _ ? _]. destruct (_ =? _); lia. }
    rewrite u16_id by lia. destruct Hrw as [-> | ->]; cbn; (split_and!; [done|done|done|by destruct HR|done|done]). }
  destruct Hrw' as (C1 & C2 & C3 & C4 & C5 & C6).
  assert (Hall : ∀ rw', rw' = OS_QUEUE_READ \/ rw' = OS_QUEUE_WRITE -> rw' = rw \/ rw' = other rw)
    by (intros rw' [-> | ->]; destruct Hrw as [-> | ->]; cbn; auto).
  assert (Hgoal : ∀ rw', rw' = OS_QUEUE_READ \/ rw' = OS_QUEUE_WRITE ->
    0 <= rwCnt cF rw' /\ rwCnt cF rw' + promises T P' q rw' + (if bool_decide (rw' = other rw /\ woken = true) then 1 else 0) <= slots cF msgs' rw').
  { intros rw' Hrw'. destruct (Hall rw' Hrw') as [-> | ->].
    - rewrite C1, C3, S1, Esl. rewrite bool_decide_false; [lia|]. intros [E _]. destruct Hrw as [-> | ->]; done.
    - rewrite C2, C3, S2, Esl. subst n. destruct woken; [rewrite bool_decide_true by done|rewrite bool_decide_false by naive_solver]; lia. }
  split; [|intros; by apply Hgoal]. destruct (Hgoal OS_QUEUE_READ) as [G1 G2]; [auto|]. destruct (Hgoal OS_QUEUE_WRITE) as [G3 G4]; [auto|].
  pose proof (promises_nonneg T P' q OS_QUEUE_READ). pose proof (promises_nonneg T P' q OS_QUEUE_WRITE).
  unfold rwCnt, slots in G1, G2, G3, G4. cbn in G1, G2, G3, G4.
  split; [done|congruence|destruct (bool_decide _); lia|destruct (bool_decide (OS_QUEUE_WRITE = _ /\ _)); lia].
Qed.

(** What a call leaves of the queues: their size and state, and all other lists. *)
Definition queue_call (q rw : Z) (k k' : Kernel) (m m' : gmap Node (list Node)) : Prop :=
  lists_shrink (rwList q rw) m m' /\
  ∀ q c, g_allQueue k !! q = Some c -> ∃ c', g_allQueue k' !! q = Some c' /\ queueSize c' = queueSize c /\ queueState c' = queueState c.

Lemma end_shrink k k' m m' q c rw l : m !! rwList q rw = Some l -> queue_end k k' m m' q c (rwList q rw) l id -> lists_shrink (rwList q rw) m m'.
Proof.
  intros Hl Hend. destruct l as [|n l]; [destruct Hend as [-> _]; apply lists_shrink_refl|].
  destruct Hend as (x & cx & -> & _ & Hl' & _ & _ & Hf). eapply lists_shrink_wake; [done|apply rwList_head|done|done].
Qed.

(** The end of an operation for which a slot is reserved in [c0]. *)
Lemma finish_wp P P' ms k m t c c0 op msgs (q := qo_queue op) (rw := qo_rw op) :
  KInv k m t -> QInv P ms k m -> P' ⊆ P -> g_allQueue k !! q = Some c -> qo_fits c op -> queue_tok (g_taskCBArray k) P q c msgs ->
  queue_rep c0 msgs -> queueLen c0 = queueLen c -> queueState c0 = queueState c -> queueSize c0 = queueSize c -> 0 <= rwCnt c0 rw ->
  rwCnt c0 rw + promises (g_taskCBArray k) P' q rw + 1 <= slots c msgs rw -> rwCnt c0 (other rw) = rwCnt c (other rw) ->
  wp (OsQueueOperate_finish q (qo_type op) (qo_buffer op) (qo_size op)) (λ r k', ∃ m', r = (LOS_OK, qo_answer op msgs) /\ KInv k' m' t /\
    QInv P' (<[q := qo_result op msgs]> ms) k' m' /\ queue_call q (other rw) k k' m m') (set_g_allQueue (insert q c0) k).
Proof.
  intros HK HQ HP Hc Hfit Htok HR EL Es Ez Hnn Hres Eo. pose proof Hfit as (Hu & _). pose proof (qo_rw_cases op) as Hrw. fold rw in Hrw.
  assert (Hfit0 : qo_fits c0 op) by (unfold qo_fits in *; by rewrite Es, Ez).
  assert (Hor : other rw = OS_QUEUE_READ \/ other rw = OS_QUEUE_WRITE) by (by destruct Hrw as [-> | ->]; [right|left]).
  assert (is_Some (m !! rwList q (other rw))) as [l Hl].
  { destruct (qi_lists _ _ _ _ HQ q c Hc Hu) as [? ?]. by destruct Hor as [-> | ->]. }
  assert (Hsl : slots c0 msgs rw = slots c msgs rw) by (unfold slots; by rewrite EL).
  pose proof (promises_nonneg (g_taskCBArray k) P' q rw).
  destruct (transfer_exists c0 msgs op HR Hfit0) as (c1 & Hst & Hsame & HR1 & S1 & S2); [fold rw; lia|].
  set (woken := negb (bool_decide (l = []))).
  destruct (finish_counts (g_taskCBArray k) P P' c c0 c1 q rw msgs (qo_result op msgs) woken) as [Hok Hcnt]; try done; [congruence|].
  set (cF := if woken then c1 else _) in *.
  pose proof Hsame as (_ & Ez1 & Es1 & _).
  assert (EF : queueState cF = queueState c /\ queueSize cF = queueSize c).
  { assert (Hs : ∀ r f, queueState (set_rwCnt r f c1) = queueState c1 /\ queueSize (set_rwCnt r f c1) = queueSize c1)
      by (intros r f; unfold set_rwCnt; by destruct (_ =? _)).
    subst cF. destruct woken; [by split; congruence|]. destruct (Hs (other rw) (λ n, u16 (n + 1))) as [-> ->]. by split; congruence. }
  eapply wp_mono; [eapply (queue_finish_wp _ m t q c0 _ _ _ _ _ _ l); [by apply KInv_queue|apply lookup_insert_eq|exact Hst|exact Hl]|].
  intros r k' (m' & HK' & -> & Hend & _). exists m'.
  assert (Hend' : queue_end k k' m m' q cF (rwList q (other rw)) l id).
  { subst cF woken. destruct l as [|n l]; cbn in Hend |- *.
    - destruct Hend as (-> & -> & ->). by rewrite insert_insert_eq.
    - destruct Hend as (x & cx & ? & ? & ? & -> & -> & ?). exists x, cx. by rewrite insert_insert_eq. }
  split; [by destruct (qo_answer op msgs)|]. split; [done|]. split; [|split; [by eapply end_shrink|]].
  - eapply (QInv_end P P' ms k k' m m' t q (other rw) c cF l); try done; [apply EF..|]. intros rw' Hrw'. specialize (Hcnt rw' Hrw').
    revert Hcnt. subst woken. repeat case_bool_decide; naive_solver lia.
  - intros q' c' Hc'. rewrite (end_queues k k' m m' q (other rw) cF l Hl Hend'). destruct (decide (q' = q)) as [->|Hne].
    + exists cF. rewrite lookup_insert_eq. simplify_eq. split_and!; [done|apply EF..].
    + exists c'. by rewrite lookup_insert_ne.
Qed.

(** The running task starts to wait in a call. *)
Lemma QInv_wait P ms k m t ct k' op l ticks (q := qo_queue op) (rw := qo_rw op) :
  QInv P ms k m -> P !! t = None -> (∃ c, g_allQueue k !! q = Some c /\ qo_fits c op) -> m !! rwList q rw = Some l ->
  g_taskCBArray k' = <[t := wait_tcb ticks ct]> (g_taskCBArray k) -> g_allQueue k' = g_allQueue k ->
  QInv (<[t := op]> P) ms k' (<[rwList q rw := l ++ [PendList t]]> m).
Proof.
  intros [Q1 Q2 Q3 Q4] HP Hop Hl ET Eq. split; rewrite ?Eq.
  - intros x op' Hx. rewrite ET. destruct (decide (x = t)) as [->|Hne].
    + rewrite lookup_insert_eq in Hx. injection Hx as <-. rewrite lookup_insert_eq. eexists. split; [done|]. intros _. eexists.
      rewrite lookup_insert_eq. split; [done|]. set_solver.
    + rewrite lookup_insert_ne in Hx by done. rewrite lookup_insert_ne by done. destruct (Q1 x op' Hx) as (c & Hc & Hh). exists c. split; [done|]. intros Hp.
      destruct (Hh Hp) as (l' & Hl' & Hin). destruct (decide (rwList (qo_queue op') (qo_rw op') = rwList q rw)) as [E|E].
      * rewrite E in *. simplify_eq. eexists. rewrite lookup_insert_eq. split; [done|]. set_solver.
      * exists l'. by rewrite lookup_insert_ne.
  - intros x op' Hx. rewrite lookup_insert in Hx. case_decide; simplify_eq; eauto.
  - intros q' c Hc Hu. destruct (Q3 q' c Hc Hu). split; rewrite lookup_insert; case_decide; by eauto.
  - intros q' c Hc Hu. destruct (Q4 q' c Hc Hu) as (msgs & Hm & [T1 T2]). exists msgs. split; [done|]. split; [done|].
    intros rw' Hrw'. specialize (T2 rw' Hrw').
    assert (Hnp : ∀ op', ~ promised (g_taskCBArray k') q' rw' (t, op')).
    { intros op' (_ & _ & E). cbn in E. rewrite ET, lookup_insert_eq in E. cbn in E. unfold woken_up in E. by rewrite wait_waits in E. }
    rewrite promises_new by done. assert (promises (g_taskCBArray k') P q' rw' <= promises (g_taskCBArray k) P q' rw'); [|lia].
    apply (promises_others _ _ _ _ _ t); [intros y Hy; rewrite ET; by apply lookup_insert_ne|intros; apply Hnp].
Qed.

Lemma call_same q rw k k' m m' : lists_shrink (rwList q rw) m m' -> g_allQueue k' = g_allQueue k -> queue_call q rw k k' m m'.
Proof. intros Hl Eq. split; [done|]. rewrite Eq. eauto. Qed.

(** A call that finds a slot, is refused, or waits. *)
Lemma operate_wp P ms k m t ct c op timeOut (q := qo_queue op) (rw := qo_rw op) :
  KInv k m t -> QInv P ms k m -> P !! t = None -> can_wait k t ct -> g_allQueue k !! q = Some c -> qo_fits c op ->
  wp (OsQueueOperate q (qo_type op) (qo_buffer op) (qo_size op) timeOut) (λ p k', ∃ m', KInv k' m' t /\
    if rwCnt c rw =? 0 then
      if timeOut =? LOS_NO_WAIT then (∃ r, p = Done r) /\ k' = k /\ m' = m
      else p = Blocked (resuming (OsQueueOperate_resume t q (qo_type op) (qo_buffer op) (qo_size op))) /\
        QInv (<[t := op]> P) ms k' m' /\ queue_call q rw k k' m m'
    else ∃ msgs, p = Done (LOS_OK, qo_answer op msgs) /\ ms !! q = Some msgs /\ QInv P (<[q := qo_result op msgs]> ms) k' m' /\
      queue_call q (other rw) k k' m m') k.
Proof.
  intros HK HQ HP Hmay Hc Hfit. pose proof Hfit as (Hu & Ht & Hs & Hb & Hw). pose proof (qo_rw_cases op) as Hrw. fold rw in Hrw.
  destruct (qi_queue _ _ _ _ HQ q c Hc Hu) as (msgs & Hms & Htok). pose proof (tk_ok _ _ _ _ _ Htok) as Hok.
  pose proof (tk_slots _ _ _ _ _ Htok rw Hrw) as Hsl.
  destruct (Z.eqb_spec (rwCnt c rw) 0) as [Ez|Hnz].
  - assert (is_Some (m !! rwList q rw)) as [l Hl].
    { destruct (qi_lists _ _ _ _ HQ q c Hc Hu) as [? ?]. by destruct Hrw as [-> | ->]. }
    eapply wp_mono; [by eapply (queue_wait_wp k m t ct q c msgs (qo_type op) (rwList q rw) l)|].
    intros p k' (m' & HK' & Eq & HQ'). exists m'. split; [done|].
    destruct (timeOut =? LOS_NO_WAIT); [destruct HQ' as (-> & -> & ->); by split_and!; [eexists|..]|].
    destruct HQ' as (-> & _ & -> & ET). split; [done|]. split; [by eapply QInv_wait; eauto|].
    apply call_same; [apply lists_shrink_insert|done].
  - assert (Hpos : 0 <= rwCnt c rw < 2 ^ 16).
    { destruct Hok as [[QL _ _ _ QF _] _ QR QW]. destruct Hrw as [-> | ->]; unfold rwCnt; cbn; lia. }
    unfold OsQueueOperate. wp_step. eapply wp_queueCB; [done|]. rewrite (queue_check c msgs) by done. cbn [negb Z.eqb LOS_OK].
    change (OS_QUEUE_READ_WRITE_GET (qo_type op)) with rw. rewrite (proj2 (Z.eqb_neq _ _) Hnz). wp_step. eapply wp_mod_queueCB; [done|]. wp_step.
    set (c0 := set_rwCnt rw (λ n, u16 (n - 1)) c).
    assert (E0 : rwCnt c0 rw = rwCnt c rw - 1 /\ rwCnt c0 (other rw) = rwCnt c (other rw) /\ queue_rep c0 msgs /\
      queueLen c0 = queueLen c /\ queueState c0 = queueState c /\ queueSize c0 = queueSize c).
    { subst c0. destruct (qo_rep _ _ Hok). destruct Hrw as [E | E]; rewrite E in *; cbn in *; rewrite u16_id by lia; by split_and!. }
    destruct E0 as (C1 & C2 & C3 & C4 & C5 & C6).
    eapply wp_mono; [eapply (finish_wp P P ms k m t c c0 op msgs); try done; fold rw q; rewrite ?C1; lia|].
    intros r k' (m' & -> & HK' & HQ' & Hcall). apply wp_ret. exists m'. split; [done|]. by exists msgs.
Qed.

(** A task gives up its call. *)
Lemma QInv_leave P ms k m k' t :
  QInv P ms k m -> (∀ y, y <> t -> g_taskCBArray k' !! y = g_taskCBArray k !! y) -> g_allQueue k' = g_allQueue k ->
  QInv (delete t P) ms k' m.
Proof.
  intros [Q1 Q2 Q3 Q4] HT Eq. split; rewrite ?Eq.
  - intros x op [Hne Hx]%lookup_delete_Some. rewrite HT by done. by apply Q1.
  - intros x op [_ Hx]%lookup_delete_Some. by eapply Q2.
  - done.
  - intros q c Hc Hu. destruct (Q4 q c Hc Hu) as (msgs & Hm & [T1 T2]). exists msgs. split; [done|]. split; [done|].
    intros rw Hrw. specialize (T2 rw Hrw). pose proof (promises_delete (g_taskCBArray k) P q rw t).
    assert (promises (g_taskCBArray k') (delete t P) q rw <= promises (g_taskCBArray k) (delete t P) q rw); [|lia].
    apply (promises_others _ _ _ _ _ t); [by intros; apply HT|]. intros op. by rewrite lookup_delete_eq.
Qed.

(** The running task has run again after it was woken or its wait timed out. *)
Lemma queue_resume_wp P ms k m t op (q := qo_queue op) (rw := qo_rw op) :
  KInv k m t -> QInv P ms k m -> P !! t = Some op -> pendSV k = false ->
  wp (OsQueueOperate_resume t q (qo_type op) (qo_buffer op) (qo_size op)) (λ r k', ∃ m' c cq, KInv k' m' t /\
    g_taskCBArray k !! t = Some c /\ g_allQueue k !! q = Some cq /\
    if has c OS_TASK_STATUS_TIMEOUT then r = (LOS_ERRNO_QUEUE_TIMEOUT, (qo_buffer op, qo_size op)) /\ m' = m /\
      QInv (delete t P) ms k' m' /\ g_allQueue k' = g_allQueue k
    else ∃ msgs, r = (LOS_OK, qo_answer op msgs) /\ ms !! q = Some msgs /\ 0 < slots cq msgs rw /\
      QInv (delete t P) (<[q := qo_result op msgs]> ms) k' m' /\ queue_call q (other rw) k k' m m') k.
Proof.
  intros HK HQ HP Hpd. pose proof (qo_rw_cases op) as Hrw. fold rw in Hrw.
  destruct (qi_link _ _ _ _ HQ t op HP) as (ct & Hct & _). destruct (qi_call _ _ _ _ HQ t op HP) as (c & Hc & Hfit). fold q in Hc.
  destruct (ki_live _ _ _ HK Hpd) as (ct' & Hct' & Hlive). simplify_eq.
  assert (Hnp : has ct OS_TASK_STATUS_PEND = false) by apply Hlive.
  unfold OsQueueOperate_resume. wp_step. eapply wp_tcb; [done|]. fold (has ct OS_TASK_STATUS_TIMEOUT).
  destruct (has ct OS_TASK_STATUS_TIMEOUT) eqn:Eto.
  - wp_step. eapply wp_mono; [by eapply clear_timeout_wp|]. intros [] k' (HK' & ET & Eq). apply wp_ret. exists m, ct, c.
    split; [done|]. split; [done|]. split; [done|]. rewrite Eto. split; [done|]. split; [done|]. split; [|done]. eapply QInv_leave; [done| |done].
    intros y Hy. rewrite ET. by apply lookup_insert_ne.
  - destruct (qi_queue _ _ _ _ HQ q c Hc) as (msgs & Hms & Htok); [apply Hfit|].
    pose proof (tk_slots _ _ _ _ _ Htok rw Hrw) as Hsl. pose proof (tk_ok _ _ _ _ _ Htok) as Hok.
    assert (Hpr : promised (g_taskCBArray k) q rw (t, op)).
    { split_and!; [done..|]. cbn. rewrite Hct. cbn. unfold woken_up, waits. cbn. by rewrite Hnp, Eto. }
    pose proof (promises_take _ _ _ _ _ _ HP Hpr) as Etk. pose proof (promises_nonneg (g_taskCBArray k) (delete t P) q rw).
    assert (Hcnt : 0 <= rwCnt c rw) by (destruct Hok as [_ _ QR QW]; destruct Hrw as [-> | ->]; unfold rwCnt; cbn; lia).
    assert (Eid : set_g_allQueue (insert q c) k = k) by (destruct k; unfold set_g_allQueue; cbn in *; by rewrite insert_id).
    rewrite <- Eid at 1.
    eapply wp_mono; [eapply (finish_wp P (delete t P) ms k m t c c op msgs); try done; [apply delete_subseteq|apply Hok|fold rw q; lia]|].
    intros r k' (m' & -> & HK' & HQ' & Hcall). exists m', ct, c. split; [done|]. split; [done|]. split; [done|]. rewrite Eto.
    exists msgs. split_and!; [done|done|lia|done|done].
Qed.

(** C17: A task that was woken inside a queue call finds, when it runs again, the message or the
    free slot that it was woken for, whatever other tasks did to the queues in between: the
    counters leave one for every woken task; the rest of its call then reads the oldest message
    or adds its own, and a call whose wait has timed out returns the error and changes no queue. *)
Theorem queue_resume_correct P ms k m t op (q := qo_queue op) (rw := qo_rw op) :
  KInv k m t -> QInv P ms k m -> P !! t = Some op -> pendSV k = false ->
  wp (OsQueueOperate_resume t q (qo_type op) (qo_buffer op) (qo_size op)) (λ r k', ∃ m' c cq, KInv k' m' t /\
    g_taskCBArray k !! t = Some c /\ g_allQueue k !! q = Some cq /\
    if has c OS_TASK_STATUS_TIMEOUT then r = (LOS_ERRNO_QUEUE_TIMEOUT, (qo_buffer op, qo_size op)) /\ m' = m /\
      QInv (delete t P) ms k' m' /\ g_allQueue k' = g_allQueue k
    else ∃ msgs, r = (LOS_OK, qo_answer op msgs) /\ ms !! q = Some msgs /\ 0 < slots cq msgs rw /\
      QInv (delete t P) (<[q := qo_result op msgs]> ms) k' m' /\ queue_call q (other rw) k k' m m') k.
Proof. apply queue_resume_wp. Qed.
End QueueInv.
