(* ===== verification/Task.v ===== *)
(** Tasks (src/kernel/src/los_task.c): creation, deletion, suspension, joining,
    delays, priorities and the scheduler lock.  Stack contents are not
    modelled. *)

From Stdlib Require Import String.
From S2P Require Import Prelude Errno LosList Kernel Tick SortLink Sched SchedInv SchedTime SchedSwitch KernelInv Event.
#[local] Open Scope Z_scope.

Definition OS_TASK_STACK_ADDR_ALIGN : Z := 8.
(** [sizeof(LosTaskCB)] with 32-bit pointers. *)
Definition sizeof_LosTaskCB : Z := 128.

(** Of src/utils/los_compiler.h. *)
Definition TRUNCATE (addr size : Z) : Z := Z.ldiff addr (size - 1).

(** [TSK_INIT_PARAM_S]; the pointers are addresses, 0 for NULL. *)
Record TSK_INIT_PARAM_S := mk_TSK_INIT_PARAM_S {
  pfnTaskEntry : Z;
  usTaskPrio : Z;
  uwTskArg : Z;
  stackAddr : Z;
  uwStackSize : Z;
  pcName : Z;
  uwResved : Z;
}.

Definition OsConvertTskStatus (taskStatus : Z) : string :=
  if test taskStatus OS_TASK_STATUS_RUNNING then "Running"
  else if test taskStatus OS_TASK_STATUS_READY then "Ready"
  else if test taskStatus OS_TASK_STATUS_EXIT then "Exit"
  else if test taskStatus OS_TASK_STATUS_SUSPEND then "Suspend"
  else if test taskStatus OS_TASK_STATUS_DELAY then "Delay"
  else if test taskStatus OS_TASK_STATUS_PEND then
    if test taskStatus OS_TASK_STATUS_PEND_TIME then "PendTime" else "Pend"
  else "Impossible".

Section Task.
Context `{Platform}.

Definition OsCheckTaskIDValid (taskID : Z) : M Kernel Z :=
  let* idle := gets g_idleTaskID in
  let* swtmr := gets g_swtmrTaskID in
  let* n := gets g_taskMaxNum in
  mret (if taskID =? idle then LOS_ERRNO_TSK_OPERATE_IDLE
        else if taskID =? swtmr then LOS_ERRNO_TSK_SUSPEND_SWTMR_NOT_ALLOWED
        else if taskID >=? n then LOS_ERRNO_TSK_ID_INVALID
        else LOS_OK).

(** [memset_s] of a task control block with zeros: the fields and the embedded
    list nodes and event. *)
Definition zero_tcb (taskCB : Z) : M Kernel unit :=
  mod_tcb taskCB (λ _, zero_LosTaskCB) ;;;
  onlist (ListClear (SortNode taskCB)) ;;;
  onlist (ListClear (PendList taskCB)) ;;;
  onlist (ListClear (JoinList taskCB)) ;;;
  onlist (ListClear (EventList (TaskEvt taskCB))) ;;;
  modify (set_eventIDs (insert (TaskEvt taskCB) 0)).

Definition OsInsertTCBToFreeList (taskCB : Z) : M Kernel unit :=
  let* c := tcb taskCB in
  zero_tcb taskCB ;;;
  mod_tcb taskCB (set_taskID (λ _, taskID c)) ;;;
  mod_tcb taskCB (set_taskStatus (λ _, OS_TASK_STATUS_UNUSED)) ;;;
  onlist (LOS_ListAdd FreeTask (PendList taskCB)).

(** Returns [*stackPtr], which is 0 before the call. *)
Definition OsRecycleTaskResources (taskCB : Z) : M Kernel Z :=
  let* c := tcb taskCB in
  let* stackPtr :=
    if test (taskStatus c) OS_TASK_FLAG_STACK_FREE && negb (topOfStack c =? 0) then
      mod_tcb taskCB (set_topOfStack (λ _, 0)) ;;;
      clear_status taskCB OS_TASK_FLAG_STACK_FREE ;;;
      mret (topOfStack c)
    else mret 0 in
  let* c := tcb taskCB in
  when (negb (test (taskStatus c) OS_TASK_FLAG_JOINABLE)) (OsInsertTCBToFreeList taskCB) ;;;
  mret stackPtr.

(** [LOS_MemFree] of a stack, whose result is ignored. *)
Definition freeStack (stackPtr : Z) : M Kernel unit :=
  let* pool := gets sysMem in
  let '(_, pool') := LOS_MemFree (if stackPtr =? 0 then None else Some stackPtr) pool in
  modify (set_sysMem (λ _, pool')).

(** The loop over the finished tasks, at most [fuel] of them. *)
Fixpoint OsRecycleFinishedTask_loop (fuel : nat) : M Kernel unit :=
  match fuel with
  | O => fault
  | S fuel =>
      let* empty := onlist (LOS_ListEmpty TaskRecycle) in
      if (empty : bool) then mret tt
      else
        let* first := nextNode TaskRecycle in
        let* taskCB := of_option (OS_TCB_FROM_PENDLIST first) in
        let* first := nextNode TaskRecycle in
        onlist (LOS_ListDelete first) ;;;
        let* stackPtr := OsRecycleTaskResources taskCB in
        freeStack stackPtr ;;;
        OsRecycleFinishedTask_loop fuel
  end.

Definition OsRecycleFinishedTask : M Kernel unit :=
  let* h := gets dlists in OsRecycleFinishedTask_loop (size h).

Definition LOS_TaskResRecycle : M Kernel unit := OsRecycleFinishedTask.

(** ** Initialisation *)

(** One task block zeroed; one iteration of the loop that links the blocks. *)
Definition OsTaskInit_memset (index : Z) : M Kernel unit :=
  modify (set_g_taskCBArray (insert index zero_LosTaskCB)) ;;; zero_tcb index.
Definition OsTaskInit_body (index : Z) : M Kernel unit :=
  mod_tcb index (set_taskStatus (λ _, OS_TASK_STATUS_UNUSED)) ;;;
  mod_tcb index (set_taskID (λ _, index)) ;;;
  onlist (LOS_ListTailInsert FreeTask (PendList index)).

Definition OsTaskInit : M Kernel Z :=
  modify (set_g_taskMaxNum (λ _, LOSCFG_BASE_CORE_TSK_LIMIT + 1)) ;;;
  let* maxNum := gets g_taskMaxNum in
  let* pool := gets sysMem in
  let '(p, pool') := LOS_MemAlloc ((maxNum + 1) * sizeof_LosTaskCB) pool in
  modify (set_sysMem (λ _, pool')) ;;;
  match p with
  | None => mret LOS_ERRNO_TSK_NO_MEMORY
  | Some _ =>
      for_each OsTaskInit_memset (seqZ 0 (maxNum + 1)) ;;;
      onlist (LOS_ListInit FreeTask) ;;;
      onlist (LOS_ListInit TaskRecycle) ;;;
      for_each OsTaskInit_body (seqZ 0 (LOSCFG_BASE_CORE_TSK_LIMIT + 1)) ;;;
      modify (set_newTask (λ _, None)) ;;;
      modify (set_runTask (λ _, Some maxNum)) ;;;
      mod_tcb maxNum (set_taskID (λ _, LOSCFG_BASE_CORE_TSK_LIMIT + 1)) ;;;
      mod_tcb maxNum (set_taskStatus (λ _, Z.lor OS_TASK_STATUS_UNUSED OS_TASK_STATUS_RUNNING)) ;;;
      mod_tcb maxNum (set_priority (λ _, OS_TASK_PRIORITY_LOWEST + 1)) ;;;
      modify (set_g_idleTaskID (λ _, OS_INVALID)) ;;;
      OsSchedInit
  end.

Definition LOS_CurTaskIDGet : M Kernel Z :=
  let* r := gets runTask in
  match r with
  | None => mret LOS_ERRNO_TSK_ID_INVALID
  | Some t => let* c := tcb t in mret (taskID c)
  end.

Definition LOS_NextTaskIDGet : M Kernel Z :=
  let* t := OsGetTopTask in
  let* c := tcb t in
  mret (taskID c).

Definition LOS_NewTaskIDGet : M Kernel Z := LOS_NextTaskIDGet.

Definition LOS_CurTaskNameGet : M Kernel Z :=
  let* r := gets runTask in
  match r with
  | None => mret 0
  | Some t => let* c := tcb t in mret (taskName c)
  end.

(** ** Creation *)

(** The error code and the parameters, whose stack size may be set; [None] is
    NULL. *)
Definition OsTaskInitParamCheck (taskInitParam : option TSK_INIT_PARAM_S) : Z * option TSK_INIT_PARAM_S :=
  match taskInitParam with
  | None => (LOS_ERRNO_TSK_PTR_NULL, None)
  | Some p =>
      if pcName p =? 0 then (LOS_ERRNO_TSK_NAME_EMPTY, Some p)
      else if pfnTaskEntry p =? 0 then (LOS_ERRNO_TSK_ENTRY_NULL, Some p)
      else if usTaskPrio p >? OS_TASK_PRIORITY_LOWEST then (LOS_ERRNO_TSK_PRIOR_ERROR, Some p)
      else if (usTaskPrio p =? OS_TASK_PRIORITY_LOWEST) && negb (pfnTaskEntry p =? addr_OsIdleTask) then
        (LOS_ERRNO_TSK_PRIOR_ERROR, Some p)
      else if uwStackSize p >? LOSCFG_SYS_HEAP_SIZE then (LOS_ERRNO_TSK_STKSZ_TOO_LARGE, Some p)
      else
        let p := if uwStackSize p =? 0 then
                   mk_TSK_INIT_PARAM_S (pfnTaskEntry p) (usTaskPrio p) (uwTskArg p) (stackAddr p)
                     LOSCFG_BASE_CORE_TSK_DEFAULT_STACK_SIZE (pcName p) (uwResved p)
                 else p in
        if uwStackSize p <? LOSCFG_BASE_CORE_TSK_MIN_STACK_SIZE then (LOS_ERRNO_TSK_STKSZ_TOO_SMALL, Some p)
        else (LOS_OK, Some p)
  end.

(** The fields set unconditionally by [OsNewTaskInit]. *)
Definition new_task_fields (p : TSK_INIT_PARAM_S) (c : LosTaskCB) : LosTaskCB :=
  mk_LosTaskCB (stackPointer c) OS_TASK_STATUS_SUSPEND (usTaskPrio p) 0 0 (responseTime c) (startTime c)
    (uwStackSize p) (topOfStack c) (taskID c) (pfnTaskEntry p) None None (uwTskArg p) (pcName p)
    (joinRetval c) 0 (eventMode c) 0 (errorNo c).

Definition OsNewTaskInit (taskCB : Z) (p : TSK_INIT_PARAM_S) : M Kernel Z :=
  mod_tcb taskCB (new_task_fields p) ;;;
  modify (set_eventIDs (insert (TaskEvt taskCB) OS_NULL_INT)) ;;;
  SET_SORTLIST_VALUE (SortNode taskCB) OS_SORT_LINK_INVALID_TIME ;;;
  let* _ := LOS_EventInit (Some (TaskEvt taskCB)) in
  when (test (uwResved p) LOS_TASK_ATTR_JOINABLE) (
    set_status taskCB OS_TASK_FLAG_JOINABLE ;;;
    onlist (LOS_ListInit (JoinList taskCB))) ;;;
  let* ok :=
    if stackAddr p =? 0 then
      mod_tcb taskCB (set_stackSize (λ _, LOS_Align (uwStackSize p) OS_TASK_STACK_ADDR_ALIGN)) ;;;
      let* c := tcb taskCB in
      let* pool := gets sysMem in
      let '(a, pool') := LOS_MemAllocAlign (stackSize c) LOSCFG_STACK_POINT_ALIGN_SIZE pool in
      modify (set_sysMem (λ _, pool')) ;;;
      mod_tcb taskCB (set_topOfStack (λ _, default 0 a)) ;;;
      match a with
      | None => mret false
      | Some _ => set_status taskCB OS_TASK_FLAG_STACK_FREE ;;; mret true
      end
    else
      let top := LOS_Align (stackAddr p) LOSCFG_STACK_POINT_ALIGN_SIZE in
      mod_tcb taskCB (set_topOfStack (λ _, top)) ;;;
      mod_tcb taskCB (set_stackSize (λ _,
        TRUNCATE (u32 (uwStackSize p - u32 (top - stackAddr p))) OS_TASK_STACK_ADDR_ALIGN)) ;;;
      mret true in
  if negb ok then mret LOS_ERRNO_TSK_NO_MEMORY
  else
    mod_tcb taskCB (λ c, set_stackPointer (λ _, ArchTskStackInit (taskID c) (stackSize c) (topOfStack c)) c) ;;;
    mret LOS_OK.

(** [taskID] says that the pointer is not NULL; the second result is what is
    written to [*taskID]. *)
Definition LOS_TaskCreateOnly (taskID : bool) (taskInitParam : option TSK_INIT_PARAM_S)
    : M Kernel (Z * option Z) :=
  if negb taskID then mret (LOS_ERRNO_TSK_ID_INVALID, None)
  else
    let '(retVal, param) := OsTaskInitParamCheck taskInitParam in
    if negb (retVal =? LOS_OK) then mret (retVal, None)
    else
      let* p := of_option param in
      OsRecycleFinishedTask ;;;
      let* empty := onlist (LOS_ListEmpty FreeTask) in
      if (empty : bool) then mret (LOS_ERRNO_TSK_TCB_UNAVAILABLE, None)
      else
        let* first := nextNode FreeTask in
        let* taskCB := of_option (OS_TCB_FROM_PENDLIST first) in
        let* first := nextNode FreeTask in
        onlist (LOS_ListDelete first) ;;;
        let* retVal := OsNewTaskInit taskCB p in
        if negb (retVal =? LOS_OK) then
          OsInsertTCBToFreeList taskCB ;;; mret (retVal, None)
        else
          let* c := tcb taskCB in
          mret (retVal, Some (Kernel.taskID c)).

Definition LOS_TaskCreate (taskID : bool) (taskInitParam : option TSK_INIT_PARAM_S)
    : M Kernel (Z * option Z) :=
  let* (retVal, id) := LOS_TaskCreateOnly taskID taskInitParam in
  if negb (retVal =? LOS_OK) then mret (retVal, id)
  else
    let* taskCB := of_option id in
    OsSchedTaskEnQueue taskCB ;;;
    let* sched := gets g_taskScheduled in
    when sched LOS_Schedule ;;;
    mret (LOS_OK, id).

Definition OsIdleTaskCreate : M Kernel Z :=
  let* (retVal, id) := LOS_TaskCreateOnly true (Some (mk_TSK_INIT_PARAM_S addr_OsIdleTask
    OS_TASK_PRIORITY_LOWEST 0 0 LOSCFG_BASE_CORE_TSK_IDLE_STACK_SIZE addr_IdleCore000 0)) in
  match id with Some i => modify (set_g_idleTaskID (λ _, i)) | None => mret tt end ;;;
  if negb (retVal =? LOS_OK) then mret retVal
  else
    let* idle := gets g_idleTaskID in
    OsSchedSetIdleTaskSchedParam idle ;;;
    mret LOS_OK.

(** ** Suspension *)

Definition OS_TASK_ID_CHECK (taskID : Z) : M Kernel bool :=
  let* n := gets g_taskMaxNum in mret (taskID <? n).

Definition LOS_TaskResume (taskID : Z) : M Kernel Z :=
  let* valid := OS_TASK_ID_CHECK taskID in
  if negb valid then mret LOS_ERRNO_TSK_ID_INVALID
  else
    let* c := tcb taskID in
    let tempStatus := taskStatus c in
    if test tempStatus OS_TASK_STATUS_UNUSED then mret LOS_ERRNO_TSK_NOT_CREATED
    else if negb (test tempStatus OS_TASK_STATUS_SUSPEND) then mret LOS_ERRNO_TSK_NOT_SUSPENDED
    else
      let* needSched := OsSchedResume taskID in
      let* sched := gets g_taskScheduled in
      when (needSched && sched) LOS_Schedule ;;;
      mret LOS_OK.

Definition LOS_TaskSuspend (taskID : Z) : M Kernel Z :=
  let* retErr := OsCheckTaskIDValid taskID in
  if negb (retErr =? LOS_OK) then mret retErr
  else
    let* c := tcb taskID in
    let* lock := gets g_losTaskLock in
    let tempStatus := taskStatus c in
    if test tempStatus OS_TASK_STATUS_UNUSED then mret LOS_ERRNO_TSK_NOT_CREATED
    else if test tempStatus OS_TASK_FLAG_SYSTEM_TASK then mret LOS_ERRNO_TSK_OPERATE_SYSTEM_TASK
    else if test tempStatus OS_TASK_STATUS_SUSPEND then mret LOS_ERRNO_TSK_ALREADY_SUSPENDED
    else if test tempStatus OS_TASK_STATUS_RUNNING && negb (lock =? 0) then mret LOS_ERRNO_TSK_SUSPEND_LOCKED
    else
      OsSchedSuspend taskID ;;;
      let* run := running in
      let* r := tcb run in
      when (taskID =? Kernel.taskID r) LOS_Schedule ;;;
      mret LOS_OK.

(** ** Joining *)

Definition OsTaskJoinPostUnsafe (taskCB : Z) : M Kernel unit :=
  let* c := tcb taskCB in
  when (test (taskStatus c) OS_TASK_FLAG_JOINABLE) (
    let* empty := onlist (LOS_ListEmpty (JoinList taskCB)) in
    when (negb empty) (
      let* first := nextNode (JoinList taskCB) in
      let* resumedTask := of_option (OS_TCB_FROM_PENDLIST first) in
      OsSchedTaskWake resumedTask)).

Definition OsTaskJoinPendUnsafe (taskCB : Z) : M Kernel Z :=
  let* c := tcb taskCB in
  if test (taskStatus c) OS_TASK_STATUS_EXIT then mret LOS_OK
  else
    let* empty := onlist (LOS_ListEmpty (JoinList taskCB)) in
    if test (taskStatus c) OS_TASK_FLAG_JOINABLE && empty then
      OsSchedTaskWait (JoinList taskCB) LOS_WAIT_FOREVER ;;; mret LOS_OK
    else mret LOS_NOK.

Definition OsTaskSetDetachUnsafe (taskCB : Z) : M Kernel Z :=
  let* c := tcb taskCB in
  if test (taskStatus c) OS_TASK_FLAG_JOINABLE then
    let* empty := onlist (LOS_ListEmpty (JoinList taskCB)) in
    if (empty : bool) then
      onlist (LOS_ListDelete (JoinList taskCB)) ;;;
      clear_status taskCB OS_TASK_FLAG_JOINABLE ;;;
      mret LOS_OK
    else mret LOS_ERRNO_TSK_NOT_JOIN
  else mret LOS_NOK.

(** What the joining task does when it runs again; the second result is what is
    written to [*retval]. *)
Definition LOS_TaskJoin_resume (taskCB : Z) (retval : bool) : M Kernel (Z * option Z) :=
  let* c := tcb taskCB in
  let r := if retval then Some (joinRetval c) else None in
  clear_status taskCB OS_TASK_FLAG_JOINABLE ;;;
  let* stackPtr := OsRecycleTaskResources taskCB in
  freeStack stackPtr ;;;
  mret (LOS_OK, r).

Definition LOS_TaskJoin (taskID : Z) (retval : bool) : M Kernel (Proc (Z * option Z)) :=
  let* ret := OsCheckTaskIDValid taskID in
  if negb (ret =? LOS_OK) then returns (ret, None)
  else
    let* active := gets intActive in
    if (active : bool) then returns (LOS_ERRNO_TSK_NOT_ALLOW_IN_INT, None)
    else
      let* lock := gets g_losTaskLock in
      if negb (lock =? 0) then returns (LOS_ERRNO_TSK_SCHED_LOCKED, None)
      else
        let* cur := LOS_CurTaskIDGet in
        if taskID =? cur then returns (LOS_ERRNO_TSK_NOT_JOIN_SELF, None)
        else
          let* c := tcb taskID in
          if test (taskStatus c) OS_TASK_STATUS_UNUSED then returns (LOS_ERRNO_TSK_NOT_CREATED, None)
          else
            let* ret := OsTaskJoinPendUnsafe taskID in
            if ret =? LOS_OK then block_then (LOS_TaskJoin_resume taskID retval)
            else returns (ret, None).

Definition LOS_TaskDetach (taskID : Z) : M Kernel (Proc (Z * option Z)) :=
  let* ret := OsCheckTaskIDValid taskID in
  if negb (ret =? LOS_OK) then returns (ret, None)
  else
    let* active := gets intActive in
    if (active : bool) then returns (LOS_ERRNO_TSK_NOT_ALLOW_IN_INT, None)
    else
      let* c := tcb taskID in
      if test (taskStatus c) OS_TASK_STATUS_UNUSED then returns (LOS_ERRNO_TSK_NOT_CREATED, None)
      else if test (taskStatus c) OS_TASK_STATUS_EXIT then LOS_TaskJoin taskID false
      else
        let* ret := OsTaskSetDetachUnsafe taskID in
        returns (ret, None).

(** ** Deletion *)

Definition OsRunningTaskDelete (taskID taskCB : Z) : M Kernel unit :=
  onlist (LOS_ListTailInsert TaskRecycle (PendList taskCB)) ;;;
  let* maxNum := gets g_taskMaxNum in
  modify (set_runTask (λ _, Some maxNum)) ;;;
  mod_tcb maxNum (set_taskID (λ _, taskID)) ;;;
  let* c := tcb taskCB in
  mod_tcb maxNum (set_taskStatus (λ _, Z.lor (taskStatus c) OS_TASK_STATUS_RUNNING)) ;;;
  mod_tcb maxNum (set_topOfStack (λ _, topOfStack c)) ;;;
  mod_tcb maxNum (set_taskName (λ _, taskName c)).

Definition LOS_TaskDelete (taskID : Z) : M Kernel Z :=
  let* ret := OsCheckTaskIDValid taskID in
  if negb (ret =? LOS_OK) then mret ret
  else
    let taskCB := taskID in
    let* c := tcb taskCB in
    if test (taskStatus c) OS_TASK_FLAG_SYSTEM_TASK then mret LOS_ERRNO_TSK_OPERATE_SYSTEM_TASK
    else if test (taskStatus c) OS_TASK_STATUS_UNUSED then mret LOS_ERRNO_TSK_NOT_CREATED
    else if test (taskStatus c) OS_TASK_STATUS_EXIT then mret LOS_ERRNO_TSK_ALREADY_EXIT
    else if test (taskStatus c) OS_TASK_FLAG_SIGNAL then mret LOS_ERRNO_TSK_PROCESS_SIGNAL
    else
      let* lock := gets g_losTaskLock in
      when (test (taskStatus c) OS_TASK_STATUS_RUNNING && negb (lock =? 0))
        (modify (set_g_losTaskLock (λ _, 0))) ;;;
      OsTaskJoinPostUnsafe taskCB ;;;
      OsSchedTaskExit taskCB ;;;
      let* _ := LOS_EventDestroy (Some (TaskEvt taskCB)) in
      modify (set_eventIDs (insert (TaskEvt taskCB) OS_NULL_INT)) ;;;
      mod_tcb taskCB (set_eventMask (λ _, 0)) ;;;
      let* c := tcb taskCB in
      if test (taskStatus c) OS_TASK_STATUS_RUNNING then
        when (negb (test (taskStatus c) OS_TASK_FLAG_JOINABLE)) (
          set_status taskCB OS_TASK_STATUS_UNUSED ;;;
          OsRunningTaskDelete taskID taskCB) ;;;
        LOS_Schedule ;;;
        mret LOS_OK
      else
        let* cur := LOS_CurTaskIDGet in
        mod_tcb taskCB (set_joinRetval (λ _, cur)) ;;;
        let* stackPtr := OsRecycleTaskResources taskCB in
        freeStack stackPtr ;;;
        mret LOS_OK.

(** After the entry function of the task has returned [retval]. *)
Definition OsTaskEntry (taskID retval : Z) : M Kernel unit :=
  mod_tcb taskID (set_joinRetval (λ _, retval)) ;;;
  let* c := tcb taskID in
  let* _ := LOS_TaskDelete (Kernel.taskID c) in
  mret tt.

(** ** Delays, priorities and the scheduler lock *)

Definition LOS_TaskYield : M Kernel Z :=
  OsSchedYield ;;; LOS_Schedule ;;; mret LOS_OK.

Definition LOS_TaskDelay (tick : Z) : M Kernel Z :=
  let* active := gets intActive in
  if (active : bool) then mret LOS_ERRNO_TSK_DELAY_IN_INT
  else
    let* lock := gets g_losTaskLock in
    if negb (lock =? 0) then mret LOS_ERRNO_TSK_DELAY_IN_LOCK
    else
      let* run := running in
      let* c := tcb run in
      if test (taskStatus c) OS_TASK_FLAG_SYSTEM_TASK then mret LOS_ERRNO_TSK_OPERATE_SYSTEM_TASK
      else if tick =? 0 then LOS_TaskYield
      else
        OsSchedDelay run tick ;;;
        LOS_Schedule ;;;
        mret LOS_OK.

Definition LOS_Msleep (mSecs : Z) : M Kernel unit :=
  let* active := gets intActive in
  if (active : bool) then mret tt
  else
    let interval := if mSecs =? 0 then 0
                    else if LOS_MS2Tick mSecs =? 0 then 1 else LOS_MS2Tick mSecs in
    let* _ := LOS_TaskDelay interval in
    mret tt.

Definition LOS_TaskPriGet (taskID : Z) : M Kernel Z :=
  let* valid := OS_TASK_ID_CHECK taskID in
  if negb valid then mret (u16 OS_INVALID)
  else
    let* c := tcb taskID in
    mret (if test (taskStatus c) OS_TASK_STATUS_UNUSED then u16 OS_INVALID else priority c).

Definition LOS_TaskPriSet (taskID taskPrio : Z) : M Kernel Z :=
  let* idle := gets g_idleTaskID in
  let* swtmr := gets g_swtmrTaskID in
  let* valid := OS_TASK_ID_CHECK taskID in
  if taskPrio >? OS_TASK_PRIORITY_LOWEST then mret LOS_ERRNO_TSK_PRIOR_ERROR
  else if taskID =? idle then mret LOS_ERRNO_TSK_OPERATE_IDLE
  else if taskID =? swtmr then mret LOS_ERRNO_TSK_OPERATE_SWTMR
  else if negb valid then mret LOS_ERRNO_TSK_ID_INVALID
  else
    let* c := tcb taskID in
    if test (taskStatus c) OS_TASK_STATUS_UNUSED then mret LOS_ERRNO_TSK_NOT_CREATED
    else if test (taskStatus c) OS_TASK_FLAG_SYSTEM_TASK then mret LOS_ERRNO_TSK_OPERATE_SYSTEM_TASK
    else
      let* isReady := OsSchedModifyTaskSchedParam taskID taskPrio in
      when isReady LOS_Schedule ;;;
      mret LOS_OK.

Definition LOS_CurTaskPriSet (taskPrio : Z) : M Kernel Z :=
  let* run := running in
  let* c := tcb run in
  LOS_TaskPriSet (taskID c) taskPrio.

Definition LOS_TaskLock : M Kernel unit := modify (set_g_losTaskLock (λ l, u16 (l + 1))).

Definition LOS_TaskUnlock : M Kernel unit :=
  let* lock := gets g_losTaskLock in
  when (lock >? 0) (
    modify (set_g_losTaskLock (λ l, u16 (l - 1))) ;;;
    let* lock := gets g_losTaskLock in
    when (lock =? 0) LOS_Schedule).

(** ** Information *)

(** The second result is what is written to [*taskStatus]. *)
Definition LOS_TaskStatusGet (taskID : Z) (taskStatus : bool) : M Kernel (Z * option Z) :=
  if negb taskStatus then mret (LOS_ERRNO_TSK_PTR_NULL, None)
  else
    let* valid := OS_TASK_ID_CHECK taskID in
    if negb valid then mret (LOS_ERRNO_TSK_ID_INVALID, None)
    else
      let* c := tcb taskID in
      if test (Kernel.taskStatus c) OS_TASK_STATUS_UNUSED then mret (LOS_ERRNO_TSK_NOT_CREATED, None)
      else mret (LOS_OK, Some (Kernel.taskStatus c)).

Definition LOS_TaskIsRunning : M Kernel bool := gets g_taskScheduled.

Definition LOS_TaskNameGet (taskID : Z) : M Kernel Z :=
  let* valid := OS_TASK_ID_CHECK taskID in
  if negb valid then mret 0
  else
    let* c := tcb taskID in
    mret (if test (taskStatus c) OS_TASK_STATUS_UNUSED then 0 else taskName c).

(** [TSK_INFO_S], without the name and the event copy. *)
Record TSK_INFO_S := mk_TSK_INFO_S {
  ti_uwTaskID : Z;
  ti_usTaskStatus : Z;
  ti_usTaskPrio : Z;
  ti_uwSemID : Z;
  ti_uwMuxID : Z;
  ti_uwEventMask : Z;
  ti_uwStackSize : Z;
  ti_uwTopOfStack : Z;
  ti_uwBottomOfStack : Z;
  ti_uwSP : Z;
  ti_uwCurrUsed : Z;
  ti_uwPeakUsed : Z;
  ti_bOvf : bool;
}.

(** [waterLine] is the result of [OsGetTaskWaterLine], which reads the stack. *)
Definition LOS_TaskInfoGet (taskID : Z) (taskInfo : bool) (waterLine : Z) : M Kernel (Z * option TSK_INFO_S) :=
  if negb taskInfo then mret (LOS_ERRNO_TSK_PTR_NULL, None)
  else
    let* valid := OS_TASK_ID_CHECK taskID in
    if negb valid then mret (LOS_ERRNO_TSK_ID_INVALID, None)
    else
      let* c := tcb taskID in
      if test (taskStatus c) OS_TASK_STATUS_UNUSED then mret (LOS_ERRNO_TSK_NOT_CREATED, None)
      else
        let* semid := match taskSem c with
                      | None => mret LOSCFG_BASE_IPC_SEM_LIMIT
                      | Some s => let* s := sem s in mret (semID s)
                      end in
        let* muxid := match taskMux c with
                      | None => mret LOSCFG_BASE_IPC_MUX_LIMIT
                      | Some x => let* x := mux x in mret (muxID x)
                      end in
        let bottom := TRUNCATE (u32 (topOfStack c + stackSize c)) OS_TASK_STACK_ADDR_ALIGN in
        mret (LOS_OK, Some (mk_TSK_INFO_S taskID (taskStatus c) (priority c) semid muxid (eventMask c)
          (stackSize c) (topOfStack c) bottom (stackPointer c) (u32 (bottom - stackPointer c))
          waterLine (waterLine =? OS_NULL_INT))).

End Task.

(** ** Correctness *)

Section TaskProofs.
Context `{TimerLaws}.

(** The running task goes to sleep, and keeps the processor until the switch. *)
Lemma kinv_delay k m t c tick :
  KInv k m t -> g_taskCBArray k !! t = Some c -> live c -> t <> g_idleTaskID k ->
  wp (OsSchedDelay t tick) (λ _ k',
    let c' := set_waitTimes (λ _, tick) (set_taskStatus (setf OS_TASK_STATUS_DELAY) c) in
    k' = upd (dlists k) (<[t := c']> (g_taskCBArray k)) (g_queueBitmap k) (g_schedResponseTime k) k /\
    KInv (set_pendSV (λ _, true) k') m t) k.
Proof.
  intros HK Hc (L1 & L2 & L3 & L4 & L5 & L6) Hi. destruct (ki_run _ _ _ HK) as [(c0 & Hc0 & [R1 R2 R3 R4]) _]. simplify_eq.
  rewrite (upd_id k) at 1. eapply wp_mono; [by eapply (delay_wp _ _ _ _ k m t c tick (ki_sched _ _ _ HK))|].
  intros [] k' (-> & HI). split; [done|]. eapply KInv_step; [done..| |exact HI|done|done|done].
  split; try done; unfold has in *; cbn; bits; try done; try congruence. intros _. split; unfold has; cbn; bits; auto.
Qed.

Lemma kinv_yield k m t c :
  KInv k m t -> g_taskCBArray k !! t = Some c ->
  wp OsSchedYield (λ _ k',
    k' = set_g_taskCBArray (insert t (set_timeSlice (λ _, 0) c)) k /\ KInv k' m t) k.
Proof.
  intros HK Hc. unfold OsSchedYield. wp_step. eapply wp_running; [apply HK|]. eapply wp_mod_tcb; [done|].
  split; [done|]. by eapply KInv_minor.
Qed.

Lemma task_delay_wp k m t c tick :
  KInv k m t -> may_wait k t c ->
  wp (LOS_TaskDelay tick) (λ ret k', ret = LOS_OK /\ KInv k' m t /\ pendSV k' = true /\
    g_taskCBArray k' = <[t := if tick =? 0 then set_timeSlice (λ _, 0) c
      else set_waitTimes (λ _, tick) (set_taskStatus (setf OS_TASK_STATUS_DELAY) c)]> (g_taskCBArray k)) k.
Proof.
  intros HK Hmay. pose proof (may_wait_live _ _ _ _ HK Hmay) as Hlive.
  destruct Hmay as (Hp & Hint & Hlock & Hidle & Hc & Hsys). unfold LOS_TaskDelay. wp_steps. rewrite Hint. wp_steps.
  rewrite Hlock. cbn [negb Z.eqb]. wp_step. eapply wp_running; [apply HK|]. wp_step. eapply wp_tcb; [done|].
  fold (has c OS_TASK_FLAG_SYSTEM_TASK). rewrite Hsys. destruct (tick =? 0).
  - unfold LOS_TaskYield. wp_step. eapply wp_mono; [by eapply kinv_yield|]. intros [] k' (-> & HK'). wp_step.
    eapply schedule_block_wp; [by apply KInv_pend|done|]. wp_steps. split_and!; [done|by apply KInv_pend|done..].
  - wp_step. eapply wp_mono; [by eapply kinv_delay|]. intros [] k' (-> & HK'). wp_step.
    eapply schedule_block_wp; [done|done|]. by wp_steps.
Qed.

(** LOS_TaskDelay gives up the time slice for 0 ticks and otherwise marks the running task
    as delayed for that many ticks, requests a switch and keeps the kernel invariant. *)
Theorem task_delay_correct k m t c tick :
  KInv k m t -> may_wait k t c ->
  wp (LOS_TaskDelay tick) (λ ret k', ret = LOS_OK /\ KInv k' m t /\ pendSV k' = true /\
    g_taskCBArray k' = <[t := if tick =? 0 then set_timeSlice (λ _, 0) c
      else set_waitTimes (λ _, tick) (set_taskStatus (setf OS_TASK_STATUS_DELAY) c)]> (g_taskCBArray k)) k.
Proof. exact (task_delay_wp k m t c tick). Qed.

(** ** Suspension *)

Definition susp_tcb (c : LosTaskCB) : LosTaskCB :=
  set_taskStatus (setf OS_TASK_STATUS_SUSPEND)
    (if has c OS_TASK_STATUS_READY then set_taskStatus (clrf OS_TASK_STATUS_READY) c else c).

Lemma susp_flags c f :
  f = OS_TASK_STATUS_RUNNING \/ f = OS_TASK_STATUS_UNUSED \/ f = OS_TASK_STATUS_PEND \/ f = OS_TASK_STATUS_PEND_TIME ->
  has (susp_tcb c) f = has c f.
Proof.
  unfold susp_tcb. destruct (has c OS_TASK_STATUS_READY); intros [-> | [-> | [-> | ->]]]; unfold has in *; cbn; by bits.
Qed.
Lemma susp_unready c : has (susp_tcb c) OS_TASK_STATUS_READY = false.
Proof. unfold susp_tcb. destruct (has c OS_TASK_STATUS_READY) eqn:E; unfold has in *; cbn; by bits. Qed.

Lemma kinv_suspend k m t x c :
  freezes k c = false -> KInv k m t -> g_taskCBArray k !! x = Some c -> x <> g_idleTaskID k ->
  wp (OsSchedSuspend x) (λ _ k', ∃ h' b' m',
    k' = upd h' (<[x := susp_tcb c]> (g_taskCBArray k)) b' (g_schedResponseTime k) k /\
    KInv (set_pendSV (λ _, true) k') m' t /\ (x <> t -> KInv k' m' t) /\ queues_only m m') k.
Proof.
  intros Hpm HK Hc Hi. rewrite (upd_id k) at 1.
  eapply wp_mono; [by eapply (suspend_wp _ _ _ _ k m x c Hpm (ki_sched _ _ _ HK))|].
  intros [] k' (h' & b' & m' & -> & HI & Hm). exists h', b', m'. fold (susp_tcb c) in *. split; [done|].
  assert (Hstep : tcb_step k t x c (susp_tcb c)).
  { split; rewrite ?susp_flags by tauto; try done.
    - by apply (ki_timed _ _ _ HK x).
    - intros ->. destruct (ki_run _ _ _ HK) as [(c0 & Hc0 & [R1 R2 R3 R4]) _]. simplify_eq.
      split; rewrite ?susp_flags by tauto; [done|apply susp_unready|..].
      all: unfold susp_tcb; by destruct (has c OS_TASK_STATUS_READY). }
  split_and!; [by eapply KInv_step; [..|by apply Hm|done|done]| |by intros hd _ Hp; apply Hm].
  intros Hx. by eapply KInv_step_same; [..|by apply Hm|].
Qed.

(** A task that is not ready is in no ready queue. *)
Lemma unready_unqueued k m t x c p l :
  KInv k m t -> g_taskCBArray k !! x = Some c -> has c OS_TASK_STATUS_READY = false ->
  m !! PriQueue p = Some l -> PendList x ∉ l.
Proof.
  intros HK Hc Hr Hl Hin. pose proof (si_tasks _ _ _ _ _ (ki_sched _ _ _ HK) _ _ Hc) as Hok.
  destruct (ok_home _ _ _ _ Hok (PriQueue p)) as [(_ & ? & _)|[[? _]|[[?|?] _]]]; [by exists l|congruence|done..].
Qed.

(** The identifier of a task that the application may operate on. *)
Definition user_task (k : Kernel) (x : Z) : Prop :=
  0 <= x < g_taskMaxNum k /\ x <> g_idleTaskID k /\ x <> g_swtmrTaskID k.

Lemma task_id_wp k x (Q : Z -> Kernel -> Prop) : user_task k x -> Q LOS_OK k -> wp (OsCheckTaskIDValid x) Q k.
Proof.
  intros (Hx & Hi & Hs) HQ. unfold OsCheckTaskIDValid. wp_steps. rewrite !(proj2 (Z.eqb_neq _ _)) by done.
  destruct (Z.geb_spec x (g_taskMaxNum k)); [lia|done].
Qed.

Lemma task_suspend_wp k m t ct x c :
  freezes k c = false -> KInv k m t -> g_taskCBArray k !! t = Some ct -> taskID ct = t ->
  user_task k x -> g_taskCBArray k !! x = Some c ->
  wp (LOS_TaskSuspend x) (λ ret k', ∃ m', KInv k' m' t /\ queues_only m m' /\
    if has c OS_TASK_STATUS_UNUSED then ret = LOS_ERRNO_TSK_NOT_CREATED /\ k' = k
    else if has c OS_TASK_FLAG_SYSTEM_TASK then ret = LOS_ERRNO_TSK_OPERATE_SYSTEM_TASK /\ k' = k
    else if has c OS_TASK_STATUS_SUSPEND then ret = LOS_ERRNO_TSK_ALREADY_SUSPENDED /\ k' = k
    else if bool_decide (x = t) && negb (g_losTaskLock k =? 0) then ret = LOS_ERRNO_TSK_SUSPEND_LOCKED /\ k' = k
    else ret = LOS_OK /\ g_taskCBArray k' = <[x := susp_tcb c]> (g_taskCBArray k) /\
      (∀ p l, m' !! PriQueue p = Some l -> PendList x ∉ l) /\ (x = t -> pendSV k' = true)) k.
Proof.
  intros Hpm HK Hct Hid Hu Hc. unfold LOS_TaskSuspend. wp_step. eapply task_id_wp; [done|]. cbn [negb Z.eqb LOS_OK].
  wp_step. eapply wp_tcb; [done|]. wp_step. apply wp_gets. cbv zeta.
  fold (has c OS_TASK_STATUS_UNUSED) (has c OS_TASK_FLAG_SYSTEM_TASK) (has c OS_TASK_STATUS_SUSPEND)
    (has c OS_TASK_STATUS_RUNNING).
  destruct (has c OS_TASK_STATUS_UNUSED) eqn:Eu; [wp_steps; by exists m|].
  destruct (has c OS_TASK_FLAG_SYSTEM_TASK); [wp_steps; by exists m|].
  destruct (has c OS_TASK_STATUS_SUSPEND); [wp_steps; by exists m|].
  assert (Er : has c OS_TASK_STATUS_RUNNING = bool_decide (x = t)).
  { destruct (ki_run _ _ _ HK) as [(c0 & Hc0 & [R1 _ _ _]) Hun]. simplify_eq.
    destruct (has c OS_TASK_STATUS_RUNNING) eqn:E.
    - symmetry. apply bool_decide_eq_true. by apply (Hun x c).
    - symmetry. apply bool_decide_eq_false. intros ->. congruence. }
  rewrite Er. destruct (bool_decide (x = t) && negb (g_losTaskLock k =? 0)) eqn:El; [wp_steps; by exists m|].
  wp_step. eapply wp_mono; [by eapply (kinv_suspend k m t x c); [..|apply Hu]|].
  intros [] k' (h' & b' & m' & -> & HK1 & HK2 & Hqs). wp_step. eapply wp_running; [apply HK|]. wp_step.
  assert (Hq : ∀ p l, m' !! PriQueue p = Some l -> PendList x ∉ l).
  { intros p l. eapply unready_unqueued; [exact HK1|apply lookup_insert_eq|apply susp_unready]. }
  destruct (decide (x = t)) as [->|Hne].
  - assert (ct = c) by congruence. subst ct. eapply (wp_tcb _ _ (susp_tcb c)); [apply lookup_insert_eq|]. rewrite bool_decide_true in El by done.
    assert (Kernel.taskID (susp_tcb c) = Kernel.taskID c) as -> by (unfold susp_tcb; by destruct (has c OS_TASK_STATUS_READY)).
    rewrite Hid, Z.eqb_refl. cbn [when]. wp_step. eapply schedule_block_wp; [exact HK1|cbn; by destruct (Z.eqb_spec (g_losTaskLock k) 0)|].
    wp_steps. by exists m'.
  - eapply wp_tcb; [cbn; by rewrite lookup_insert_ne|]. rewrite Hid, (proj2 (Z.eqb_neq x t)) by done. cbn [when].
    wp_steps. exists m'. by split_and!; [apply HK2|..].
Qed.

(** C26: LOS_TaskSuspend refuses unused, system and already suspended tasks and the running task
    under the scheduler lock; otherwise the task is marked suspended and in no ready queue
    afterwards, and the kernel invariant is kept. This is for a suspension that does not freeze
    a timed wait, as it does with power management when a low-power mode is being entered and no
    power lock is held. *)
Theorem task_suspend_correct k m t ct x c :
  freezes k c = false -> KInv k m t -> g_taskCBArray k !! t = Some ct -> taskID ct = t ->
  user_task k x -> g_taskCBArray k !! x = Some c ->
  wp (LOS_TaskSuspend x) (λ ret k', ∃ m', KInv k' m' t /\
    if has c OS_TASK_STATUS_UNUSED then ret = LOS_ERRNO_TSK_NOT_CREATED /\ k' = k
    else if has c OS_TASK_FLAG_SYSTEM_TASK then ret = LOS_ERRNO_TSK_OPERATE_SYSTEM_TASK /\ k' = k
    else if has c OS_TASK_STATUS_SUSPEND then ret = LOS_ERRNO_TSK_ALREADY_SUSPENDED /\ k' = k
    else if bool_decide (x = t) && negb (g_losTaskLock k =? 0) then ret = LOS_ERRNO_TSK_SUSPEND_LOCKED /\ k' = k
    else ret = LOS_OK /\ g_taskCBArray k' = <[x := susp_tcb c]> (g_taskCBArray k) /\
      (∀ p l, m' !! PriQueue p = Some l -> PendList x ∉ l) /\ (x = t -> pendSV k' = true)) k.
Proof.
  intros Hpm HK Hct Hid Hu Hc. eapply wp_mono; [by eapply (task_suspend_wp k m t ct x c)|].
  intros ret k' (m' & HK' & _ & HQ). by exists m'.
Qed.

Definition resumed_tcb (k : Kernel) (c : LosTaskCB) : LosTaskCB :=
  let c1 := set_taskStatus (clrf OS_TASK_STATUS_SUSPEND) c in
  if has c OS_TASK_STATUS_DELAY || has c OS_TASK_STATUS_PEND then c1
  else enq_tcb (g_idleTaskID k) (g_schedTimeSlice k) (g_schedTimeSliceMin k) c1.

Lemma resumed_step k m t x c :
  KInv k m t -> x <> t -> g_taskCBArray k !! x = Some c -> has c OS_TASK_STATUS_SUSPEND = true ->
  tcb_step k t x c (resumed_tcb k c).
Proof.
  intros HK Hne Hc Hs. split; try done.
  - unfold resumed_tcb. destruct (_ || _); [|unfold enq_tcb; destruct (_ || _)]; unfold has; cbn; bits; try done.
    intros Hp. pose proof (ki_timed _ _ _ HK x c Hc) as Ht. unfold has in Ht. bits. auto.
  - intros ->. destruct (ki_idle _ _ _ HK) as (ci & Hci & _ & Hl & _). simplify_eq. congruence.
  - unfold resumed_tcb. destruct (_ || _); [|unfold enq_tcb; destruct (_ || _)]; unfold has; cbn; by bits.
  - unfold resumed_tcb. destruct (_ || _); [|unfold enq_tcb; destruct (_ || _)]; unfold has; cbn; by bits.
Qed.

Lemma kinv_resume k m t x c :
  KInv k m t -> x <> t -> g_taskCBArray k !! x = Some c -> has c OS_TASK_STATUS_SUSPEND = true ->
  has c OS_TASK_STATUS_UNUSED = false -> has c OS_TASK_STATUS_EXIT = false ->
  wp (OsSchedResume x) (λ need k', ∃ h' b' m',
    need = negb (has c OS_TASK_STATUS_DELAY || has c OS_TASK_STATUS_PEND) /\
    k' = upd h' (<[x := resumed_tcb k c]> (g_taskCBArray k)) b' (g_schedResponseTime k) k /\ KInv k' m' t /\ queues_only m m') k.
Proof.
  intros HK Hne Hc Hs Hu He. rewrite (upd_id k) at 1.
  pose proof (si_tasks _ _ _ _ _ (ki_sched _ _ _ HK) _ _ Hc) as Hok.
  assert (Hr : has c OS_TASK_STATUS_READY = false).
  { destruct (has c OS_TASK_STATUS_READY) eqn:E; [|done]. apply (ok_ready _ _ _ _ Hok) in E. naive_solver congruence. }
  eapply wp_mono; [eapply (resume_wp _ _ _ _ k m x c (ki_sched _ _ _ HK)); [done..|by apply (ki_timed _ _ _ HK x)]|].
  intros need k' (h' & b' & m' & Hn & -> & HI & Hm). exists h', b', m'.
  split_and!; [done..| |by intros hd _ Hp; apply Hm].
  eapply KInv_step_same; [done..|by eapply resumed_step|exact HI|by apply Hm|done].
Qed.

Lemma task_resume_wp k m t x c :
  KInv k m t -> x <> t -> 0 <= x < g_taskMaxNum k -> g_taskCBArray k !! x = Some c -> has c OS_TASK_STATUS_EXIT = false ->
  wp (LOS_TaskResume x) (λ ret k', ∃ m', KInv k' m' t /\ queues_only m m' /\
    if has c OS_TASK_STATUS_UNUSED then ret = LOS_ERRNO_TSK_NOT_CREATED /\ k' = k
    else if negb (has c OS_TASK_STATUS_SUSPEND) then ret = LOS_ERRNO_TSK_NOT_SUSPENDED /\ k' = k
    else ret = LOS_OK /\ g_taskCBArray k' = <[x := resumed_tcb k c]> (g_taskCBArray k) /\
      (has c OS_TASK_STATUS_DELAY || has c OS_TASK_STATUS_PEND = false ->
         home m' (PendList x) (PriQueue (priority c)) /\ (g_losTaskLock k = 0 -> pendSV k' = true))) k.
Proof.
  intros HK Hne Hx Hc He. unfold LOS_TaskResume, OS_TASK_ID_CHECK. wp_steps. destruct (Z.ltb_spec x (g_taskMaxNum k)); [|lia].
  cbn [negb]. wp_step. eapply wp_tcb; [done|]. cbv zeta. fold (has c OS_TASK_STATUS_UNUSED) (has c OS_TASK_STATUS_SUSPEND).
  destruct (has c OS_TASK_STATUS_UNUSED) eqn:Eu; [wp_steps; by exists m|].
  destruct (has c OS_TASK_STATUS_SUSPEND) eqn:Es; cbn [negb]; [|wp_steps; by exists m].
  wp_step. eapply wp_mono; [by eapply kinv_resume|]. intros need k' (h' & b' & m' & -> & -> & HK' & Hqs).
  assert (Hq : has c OS_TASK_STATUS_DELAY || has c OS_TASK_STATUS_PEND = false -> home m' (PendList x) (PriQueue (priority c))).
  { intros Eb. pose proof (si_tasks _ _ _ _ _ (ki_sched _ _ _ HK') x (resumed_tcb k c) (lookup_insert_eq _ _ _)) as Hok.
    assert (Ep : priority (resumed_tcb k c) = priority c).
    { unfold resumed_tcb, enq_tcb. destruct (_ || _); [done|]. by destruct (_ || _). }
    rewrite <- Ep. apply (ok_queued _ _ _ _ Hok).
    - unfold resumed_tcb. rewrite Eb. unfold enq_tcb. destruct (_ || _); unfold has; cbn; by bits.
    - intros E. cbn in E. subst x. destruct (ki_idle _ _ _ HK) as (ci & Hci & _ & Hl & _). congruence. }
  wp_steps. replace (g_taskScheduled _) with true by by rewrite (ki_on _ _ _ HK').
  rewrite andb_true_r. destruct (has c OS_TASK_STATUS_DELAY || has c OS_TASK_STATUS_PEND); cbn [negb when].
  - wp_steps. by exists m'.
  - eapply schedule_wp; [exact HK'|]. intros p Hp HKp. wp_steps. exists m'. split_and!; [done..|]. intros _. by split; [apply Hq|].
Qed.

(** LOS_TaskResume refuses tasks that are not suspended; otherwise a task that waits for
    nothing else is put back in the ready queue of its priority. *)
Theorem task_resume_correct k m t x c :
  KInv k m t -> x <> t -> 0 <= x < g_taskMaxNum k -> g_taskCBArray k !! x = Some c -> has c OS_TASK_STATUS_EXIT = false ->
  wp (LOS_TaskResume x) (λ ret k', ∃ m', KInv k' m' t /\
    if has c OS_TASK_STATUS_UNUSED then ret = LOS_ERRNO_TSK_NOT_CREATED /\ k' = k
    else if negb (has c OS_TASK_STATUS_SUSPEND) then ret = LOS_ERRNO_TSK_NOT_SUSPENDED /\ k' = k
    else ret = LOS_OK /\ g_taskCBArray k' = <[x := resumed_tcb k c]> (g_taskCBArray k) /\
      (has c OS_TASK_STATUS_DELAY || has c OS_TASK_STATUS_PEND = false ->
         home m' (PendList x) (PriQueue (priority c)) /\ (g_losTaskLock k = 0 -> pendSV k' = true))) k.
Proof.
  intros HK Hne Hx Hc He. eapply wp_mono; [by eapply (task_resume_wp k m t x c)|].
  intros ret k' (m' & HK' & _ & HQ). by exists m'.
Qed.

(** ** Priorities *)

Lemma task_priset_wp k m t x c prio :
  KInv k m t -> user_task k x -> g_taskCBArray k !! x = Some c -> 0 <= prio ->
  wp (LOS_TaskPriSet x prio) (λ ret k', ∃ m', KInv k' m' t /\ queues_only m m' /\
    if OS_TASK_PRIORITY_LOWEST <? prio then ret = LOS_ERRNO_TSK_PRIOR_ERROR /\ k' = k
    else if has c OS_TASK_STATUS_UNUSED then ret = LOS_ERRNO_TSK_NOT_CREATED /\ k' = k
    else if has c OS_TASK_FLAG_SYSTEM_TASK then ret = LOS_ERRNO_TSK_OPERATE_SYSTEM_TASK /\ k' = k
    else ret = LOS_OK /\
      g_taskCBArray k' = <[x := modify_tcb (g_idleTaskID k) (g_schedTimeSlice k) (g_schedTimeSliceMin k) prio c]>
        (g_taskCBArray k) /\
      (has c OS_TASK_STATUS_READY = true -> home m' (PendList x) (PriQueue prio)) /\
      (has c OS_TASK_STATUS_READY || has c OS_TASK_STATUS_RUNNING = true -> g_losTaskLock k = 0 -> pendSV k' = true)) k.
Proof.
  intros HK (Hx & Hi & Hsw) Hc Hp. unfold LOS_TaskPriSet, OS_TASK_ID_CHECK. wp_steps. rewrite Z.gtb_ltb.
  destruct (Z.ltb_spec OS_TASK_PRIORITY_LOWEST prio); [wp_steps; by exists m|].
  rewrite !(proj2 (Z.eqb_neq _ _)) by done. destruct (Z.ltb_spec x (g_taskMaxNum k)); [|lia]. cbn [negb].
  wp_step. eapply wp_tcb; [done|]. fold (has c OS_TASK_STATUS_UNUSED) (has c OS_TASK_FLAG_SYSTEM_TASK).
  destruct (has c OS_TASK_STATUS_UNUSED) eqn:Eu; [wp_steps; by exists m|].
  destruct (has c OS_TASK_FLAG_SYSTEM_TASK); [wp_steps; by exists m|].
  wp_step. unfold OS_TASK_PRIORITY_LOWEST in *. eapply wp_mono; [eapply (kinv_modify k m t x c prio); [done..|lia]|].
  intros need k' (h' & b' & m' & -> & -> & HK' & Hf).
  assert (Hq : has c OS_TASK_STATUS_READY = true -> home m' (PendList x) (PriQueue prio)).
  { intros Er. pose proof (si_tasks _ _ _ _ _ (ki_sched _ _ _ HK') x _ (lookup_insert_eq _ _ _)) as Hok.
    destruct (modify_flags (g_idleTaskID k) (g_schedTimeSlice k) (g_schedTimeSliceMin k) prio c) as (_ & _ & _ & _ & _ & _ & Ep & _).
    rewrite <- Ep at 1. apply (ok_queued _ _ _ _ Hok); [|done]. unfold modify_tcb. rewrite Er.
    unfold enq_tcb. destruct (_ || _); unfold has; cbn; by bits. }
  assert (Hqs : queues_only m m') by (intros hd _ ?; by apply Hf).
  destruct (has c OS_TASK_STATUS_READY || has c OS_TASK_STATUS_RUNNING); cbn [when].
  - wp_step. eapply schedule_wp; [exact HK'|]. intros p Hpend HKp. wp_steps. exists m'. by split_and!.
  - wp_steps. by exists m'.
Qed.

(** C28: LOS_TaskPriSet refuses priorities out of range, unused and system tasks; a ready task
    moves to the ready queue of the new priority and a switch is requested. *)
Theorem task_priset_correct k m t x c prio :
  KInv k m t -> user_task k x -> g_taskCBArray k !! x = Some c -> 0 <= prio ->
  wp (LOS_TaskPriSet x prio) (λ ret k', ∃ m', KInv k' m' t /\
    if OS_TASK_PRIORITY_LOWEST <? prio then ret = LOS_ERRNO_TSK_PRIOR_ERROR /\ k' = k
    else if has c OS_TASK_STATUS_UNUSED then ret = LOS_ERRNO_TSK_NOT_CREATED /\ k' = k
    else if has c OS_TASK_FLAG_SYSTEM_TASK then ret = LOS_ERRNO_TSK_OPERATE_SYSTEM_TASK /\ k' = k
    else ret = LOS_OK /\
      g_taskCBArray k' = <[x := modify_tcb (g_idleTaskID k) (g_schedTimeSlice k) (g_schedTimeSliceMin k) prio c]>
        (g_taskCBArray k) /\
      (has c OS_TASK_STATUS_READY = true -> home m' (PendList x) (PriQueue prio)) /\
      (has c OS_TASK_STATUS_READY || has c OS_TASK_STATUS_RUNNING = true -> g_losTaskLock k = 0 -> pendSV k' = true)) k.
Proof.
  intros HK Hu Hc Hp. eapply wp_mono; [by eapply (task_priset_wp k m t x c prio)|].
  intros ret k' (m' & HK' & _ & HQ). by exists m'.
Qed.

(** ** The scheduler lock *)

Lemma KInv_lock k m t f : KInv k m t -> KInv (set_g_losTaskLock f k) m t.
Proof. by intros []. Qed.

Lemma unlock_wp k m t :
  KInv k m t -> 0 <= g_losTaskLock k < 2 ^ 16 ->
  wp LOS_TaskUnlock (λ _ k', KInv k' m t /\ g_losTaskLock k' = Z.max 0 (g_losTaskLock k - 1) /\
    pendSV k' = (g_losTaskLock k =? 1) || pendSV k) k.
Proof.
  intros HK Hl. unfold LOS_TaskUnlock. wp_step. apply wp_gets. rewrite Z.gtb_ltb.
  destruct (Z.ltb_spec 0 (g_losTaskLock k)) as [Hpos|]; cbn [when].
  - set (f := λ l, u16 (l - 1)). pose proof (KInv_lock _ _ _ f HK) as HK2.
    assert (El : g_losTaskLock (set_g_losTaskLock f k) = g_losTaskLock k - 1) by (cbn; subst f; cbn; rewrite u16_id; lia).
    wp_steps. rewrite El. destruct (Z.eqb_spec (g_losTaskLock k - 1) 0) as [E|E]; cbn [when].
    + replace (g_losTaskLock k =? 1) with true by lia.
      eapply schedule_block_wp; [exact (KInv_pend _ _ _ HK2)|lia|]. split_and!; [exact (KInv_pend _ _ _ HK2)|cbn in *; lia|done].
    + replace (g_losTaskLock k =? 1) with false by lia. wp_steps. split_and!; [done|lia|done].
  - replace (g_losTaskLock k =? 1) with false by lia. wp_steps. split_and!; [done|lia|done].
Qed.

(** The scheduler lock nests: locking and unlocking restores the count, unlocking at 0
    changes nothing, and the last unlock requests the switch. *)
Theorem task_unlock_correct k m t :
  KInv k m t -> 0 <= g_losTaskLock k < 2 ^ 16 ->
  wp LOS_TaskUnlock (λ _ k', KInv k' m t /\ g_losTaskLock k' = Z.max 0 (g_losTaskLock k - 1) /\
    pendSV k' = (g_losTaskLock k =? 1) || pendSV k) k /\
  (g_losTaskLock k + 1 < 2 ^ 16 ->
   wp (LOS_TaskLock ;;; LOS_TaskUnlock) (λ _ k', KInv k' m t /\ g_losTaskLock k' = g_losTaskLock k) k).
Proof.
  intros HK Hl. split; [by apply unlock_wp|]. intros Hb. unfold LOS_TaskLock. wp_steps.
  assert (El : g_losTaskLock (set_g_losTaskLock (λ l, u16 (l + 1)) k) = g_losTaskLock k + 1) by (cbn; rewrite u16_id; lia).
  eapply wp_mono; [eapply unlock_wp; [exact (KInv_lock _ _ _ _ HK)|lia]|].
  intros [] k' (HK' & E & _). split; [done|]. rewrite E, El. lia.
Qed.
End TaskProofs.
