(* ===== verification/TaskLife.v ===== *)
(** The life of task control blocks: blocks that are taken from and given back to
    the list of free ones, and the creation and deletion of tasks. *)

From S2P Require Import Prelude Errno LosList Kernel Tick SortLink Sched SchedInv SchedTime SchedSwitch KernelInv Event Task.
#[local] Opaque LOS_ListAdd LOS_ListTailInsert LOS_ListDelete LOS_ListInit LOS_ListEmpty ListClear.

(** The state in the form [upd]. *)
Ltac to_upd := lazymatch goal with |- wp ?p ?Q ?k => refine (eq_ind_r (λ s, wp p Q s) _ (upd_id k)) end.

Section TaskLife.
Context `{TimerLaws}.

(** ** Blocks outside the lists of the scheduler *)

(** No node of task [x] is in a list. *)
Definition homeless (m : gmap Node (list Node)) (x : Z) : Prop :=
  (∀ hd, ~ home m (PendList x) hd) /\ ∀ hd, ~ home m (SortNode x) hd.
(** A list head that is not in use, or heads an empty list. *)
Definition vacant (m : gmap Node (list Node)) (n : Node) : Prop := ~ owned m n \/ m !! n = Some [].
Definition vacant_lists (m : gmap Node (list Node)) (x : Z) : Prop := vacant m (EventList (TaskEvt x)) /\ vacant m (JoinList x).

Lemma home_delete m n n' hd : vacant m n -> home (delete n m) n' hd <-> home m n' hd.
Proof.
  intros Hv. split.
  - intros (l & [Hne Hl]%lookup_delete_Some & Hin). by exists l.
  - intros (l & Hl & Hin). exists l. split; [|done]. rewrite lookup_delete_ne; [done|]. intros ->. destruct Hv as [Hno|E].
    + apply Hno. exists hd, l. set_solver.
    + simplify_eq. by apply elem_of_nil in Hin.
Qed.
Lemma home_init m n n' hd : vacant m n -> home (<[n := []]> m) n' hd <-> home m n' hd.
Proof.
  intros Hv. rewrite home_update. split.
  - intros [[_ Hin%elem_of_nil]|[_ ?]]; done.
  - intros Hh. right. split; [|done]. intros ->. destruct Hh as (l & Hl & Hin). destruct Hv as [Hno|E].
    + apply Hno. exists n, l. set_solver.
    + simplify_eq. by apply elem_of_nil in Hin.
Qed.
Lemma vacant_delete m n n' : n' <> n -> vacant m n -> vacant m n' -> vacant (delete n m) n'.
Proof.
  intros Hne Hn [Hv|Hv]; [left|right; by rewrite lookup_delete_ne].
  intros [[l [_ Hl]%lookup_delete_Some]|[hd Hh]]%owned_cases; apply Hv, owned_cases; [left; by eexists|right].
  exists hd. by apply home_delete in Hh.
Qed.
Lemma homeless_delete m n x : vacant m n -> homeless m x -> homeless (delete n m) x.
Proof. intros Hv [H1 H2]. split; intros hd Hh; rewrite home_delete in Hh by done; [by apply (H1 hd)|by apply (H2 hd)]. Qed.
Lemma homeless_init m n x : vacant m n -> homeless m x -> homeless (<[n := []]> m) x.
Proof. intros Hv [H1 H2]. split; intros hd Hh; rewrite home_init in Hh by done; [by apply (H1 hd)|by apply (H2 hd)]. Qed.

Lemma homeless_free idle h T b m x : SInv idle h T b m -> homeless m x -> ~ owned m (PendList x) /\ ~ owned m (SortNode x).
Proof.
  intros HI [H1 H2]. split; intros [[l Hl]|[hd Hh]]%owned_cases;
    first [by apply (si_heads _ _ _ _ _ HI) in Hl|by apply (H1 hd)|by apply (H2 hd)].
Qed.
Lemma homeless_no_head idle h T b m x : SInv idle h T b m -> m !! PendList x = None /\ m !! SortNode x = None.
Proof. intros HI. split; apply eq_None_not_Some; intros [l Hl]; by apply (si_heads _ _ _ _ _ HI) in Hl. Qed.

(** A change of one task and of lists that are not the scheduler's. *)
Lemma SInv_life idle h T b m x c' h' m' :
  SInv idle h T b m -> Rep h' m' -> (∀ hd, hd = TaskSortLink \/ (∃ p, hd = PriQueue p) -> m' !! hd = m !! hd) ->
  (∀ n hd, n <> PendList x -> home m' n hd <-> home m n hd) -> (∀ hd l, m' !! hd = Some l -> item_node hd = false) ->
  is_Some (m' !! FreeTask) -> is_Some (m' !! TaskRecycle) -> (∀ hd, ~ home m (SortNode x) hd) -> task_ok idle m' x c' ->
  SInv idle h' (<[x := c']> T) b m'.
Proof.
  intros HI HR Hs Hh Hd Hf Hr Hno Hok. split; try done.
  - destruct (si_bitmap _ _ _ _ _ HI) as [Hb Hq]. split; [done|]. intros p Hp. rewrite Hs by eauto. auto.
  - rewrite Hs by auto. destruct (si_sorted _ _ _ _ _ HI) as (ls & Hls & Hst). exists ls. split; [done|]. apply sorted_frame; [|done].
    intros Hin. apply (Hno TaskSortLink). by exists ls.
  - intros n hd Hn. destruct (decide (n = PendList x)) as [->|Hne]; [cbn; rewrite lookup_insert_eq; eauto|].
    apply Hh in Hn; [|done]. pose proof (si_members _ _ _ _ _ HI _ _ Hn) as Hmem.
    destruct n; cbn in *; try done; rewrite lookup_insert; by case_decide.
  - intros y c. rewrite lookup_insert. case_decide as E; intros; simplify_eq; [done|].
    eapply task_ok_frame; [..|by eapply si_tasks]; intros hd; apply Hh; congruence.
Qed.

(** ** The free blocks *)

Lemma wp_upd_eventIDs h T b r k f (Q : unit -> Kernel -> Prop) :
  Q tt (upd h T b r (set_eventIDs f k)) -> wp (modify (set_eventIDs f)) Q (upd h T b r k).
Proof. done. Qed.
Lemma wp_upd_sysMem h T b r k f (Q : unit -> Kernel -> Prop) :
  Q tt (upd h T b r (set_sysMem f k)) -> wp (modify (set_sysMem f)) Q (upd h T b r k).
Proof. done. Qed.

(** The first free or finished block leaves its list. *)
Lemma take_block_wp h T b r k m u x l c (idle := g_idleTaskID k) :
  SInv idle h T b m -> (u = FreeTask \/ u = TaskRecycle) -> m !! u = Some (PendList x :: l) -> T !! x = Some c ->
  wp (onlist (LOS_ListDelete (PendList x))) (λ _ k', ∃ h', k' = upd h' T b r k /\ SInv idle h' T b (<[u := l]> m) /\
    homeless (<[u := l]> m) x /\ has c OS_TASK_STATUS_UNUSED = true) (upd h T b r k).
Proof.
  intros HI Hu Hl Hc. pose proof (si_tasks _ _ _ _ _ HI x c Hc) as Hok. assert (Hx : home m (PendList x) u) by (exists (PendList x :: l); set_solver).
  assert (Hun : has c OS_TASK_STATUS_UNUSED = true).
  { destruct (ok_home _ _ _ _ Hok u Hx) as [(-> & _)|[[Hw _]|[_ ?]]]; [by destruct Hu|by destruct Hu as [-> | ->]|done]. }
  assert (Hns : ∀ hd, ~ home m (SortNode x) hd).
  { intros hd (_ & _ & Hs)%(ok_sort_home _ _ _ _ Hok). destruct (ok_unused _ _ _ _ Hok) as (_ & E1 & E2); [by rewrite Hun|].
    by rewrite E1, E2 in Hs. }
  pose proof (rep_rings _ _ (si_rep _ _ _ _ _ HI)) as HRg. pose proof (rings_nodup _ HRg _ _ Hl) as [_ Hnx]%NoDup_cons.
  apply wp_upd_list. eapply wp_mono; [eapply Rep_delete; [apply HI|exact Hl|left]|]. intros [] h' HR.
  assert (Hh : ∀ n hd, home (<[u := list_remove_all (PendList x) (PendList x :: l)]> m) n hd <-> home m n hd /\ n <> PendList x)
    by (intros n hd; apply home_remove; [done..|left]).
  rewrite list_remove_all_head in HR, Hh by done. exists h'. split_and!; [done| | |done].
  - rewrite <- (insert_id T x c Hc). eapply SInv_life; [exact HI|done|..].
    + intros hd Hhd. apply lookup_insert_ne. by destruct Hu as [-> | ->], Hhd as [-> | [p ->]].
    + intros n hd Hn. rewrite Hh. tauto.
    + intros hd l0 [[<- _]|[_ Hl0]]%lookup_insert_Some; [by destruct Hu as [-> | ->]|by apply (si_heads _ _ _ _ _ HI) in Hl0].
    + rewrite lookup_insert. case_decide; [by eexists|]. apply HI.
    + rewrite lookup_insert. case_decide; [by eexists|]. apply HI.
    + done.
    + destruct (ok_unused _ _ _ _ Hok) as (E1 & E2 & E3); [by rewrite Hun|]. destruct Hok. split; try done.
      * intros hd [Hhd _]%Hh. by apply ok_home.
      * intros Hr Hi. destruct (ok_ready Hr) as (_ & _ & _ & _ & ? & _). congruence.
      * congruence.
      * intros hd [Hhd _]%Hh. by apply ok_sort_home.
      * congruence.
  - split; intros hd [Hhd Hne]%Hh; [done|]. by apply (Hns hd).
Qed.

Definition freed_tcb (c : LosTaskCB) : LosTaskCB :=
  set_taskStatus (λ _, OS_TASK_STATUS_UNUSED) (set_taskID (λ _, taskID c) zero_LosTaskCB).
(** The lists when block [x] is free again. *)
Definition freed_lists (x : Z) (l : list Node) (m : gmap Node (list Node)) : gmap Node (list Node) :=
  <[FreeTask := PendList x :: l]> (delete (EventList (TaskEvt x)) (delete (JoinList x) m)).

Lemma freed_ok idle m x c c1 l :
  task_ok idle m x c -> taskID c1 = taskID c -> homeless m x -> vacant_lists m x -> m !! FreeTask = Some l ->
  task_ok idle (freed_lists x l m) x (freed_tcb c1).
Proof.
  intros Hok Hid [Hp Hs] [V1 V2] Hl.
  assert (Hh : ∀ n hd, home (freed_lists x l m) n hd <-> home m n hd \/ n = PendList x /\ hd = FreeTask).
  { intros n hd. unfold freed_lists. rewrite (home_add _ FreeTask l); [|by rewrite !lookup_delete_ne|done].
    by rewrite home_delete, home_delete by (try done; by apply vacant_delete). }
  split; try done.
  - cbn. rewrite Hid. apply Hok.
  - intros hd [Hhd|[_ ->]]%Hh; [by destruct (Hp hd)|]. right. right. by split; [left|].
  - intros hd [Hhd|[? _]]%Hh; [by destruct (Hs hd)|done].
Qed.

Lemma insert_free_wp h T b r k m x c c1 l (idle := g_idleTaskID k) :
  SInv idle h T b m -> T !! x = Some c -> taskID c1 = taskID c -> homeless m x -> vacant_lists m x -> m !! FreeTask = Some l ->
  wp (OsInsertTCBToFreeList x) (λ _ k', ∃ h', k' = upd h' (<[x := freed_tcb c1]> T) b r (set_eventIDs (insert (TaskEvt x) 0) k) /\
    SInv idle h' (<[x := freed_tcb c1]> T) b (freed_lists x l m)) (upd h (<[x := c1]> T) b r k).
Proof.
  intros HI Hc Hid Hhl Hv Hl. pose proof (homeless_free _ _ _ _ _ _ HI Hhl) as [Np Ns].
  destruct (homeless_no_head _ _ _ _ _ x HI) as [Ep Es]. pose proof Hv as [V1 V2]. unfold OsInsertTCBToFreeList, zero_tcb.
  wp_step. eapply wp_upd_tcb; [apply lookup_insert_eq|]. wp_step. wp_step. eapply wp_upd_mod_tcb; [apply lookup_insert_eq|]. rewrite insert_insert_eq.
  wp_step. apply wp_upd_list. eapply wp_mono; [eapply Rep_clear; [apply HI|by left]|]. intros [] h1 HR1. rewrite delete_id in HR1 by done.
  wp_step. apply wp_upd_list. eapply wp_mono; [eapply Rep_clear; [exact HR1|by left]|]. intros [] h2 HR2. rewrite delete_id in HR2 by done.
  wp_step. apply wp_upd_list. eapply wp_mono; [eapply Rep_clear; [exact HR2|exact V2]|]. intros [] h3 HR3.
  wp_step. apply wp_upd_list. eapply wp_mono; [eapply Rep_clear; [exact HR3|by apply vacant_delete]|]. intros [] h4 HR4.
  apply wp_upd_eventIDs. wp_step. eapply wp_upd_mod_tcb; [apply lookup_insert_eq|]. rewrite insert_insert_eq.
  wp_step. eapply wp_upd_mod_tcb; [apply lookup_insert_eq|]. rewrite insert_insert_eq.
  apply wp_upd_list. eapply wp_mono; [eapply Rep_add_head; [exact HR4|by rewrite !lookup_delete_ne|]|].
  { intros [[l0 [_ [_ Hl0]%lookup_delete_Some]%lookup_delete_Some]|[hd Hh]]%owned_cases; [congruence|].
    rewrite home_delete, home_delete in Hh by (try done; by apply vacant_delete). by apply Hhl in Hh. }
  intros [] h5 HR5. exists h5. split; [done|]. eapply SInv_life; [exact HI|exact HR5|..].
  - intros hd Hhd. unfold freed_lists. rewrite lookup_insert_ne, !lookup_delete_ne; [done|by destruct Hhd as [-> | [p ->]]..].
  - intros n hd Hn. unfold freed_lists. rewrite (home_add _ FreeTask l); [|by rewrite !lookup_delete_ne|done].
    rewrite home_delete, home_delete by (try done; by apply vacant_delete). naive_solver.
  - intros hd l0. unfold freed_lists. intros [[<- _]|[_ [_ [_ Hl0]%lookup_delete_Some]%lookup_delete_Some]]%lookup_insert_Some; [done|by apply (si_heads _ _ _ _ _ HI) in Hl0].
  - unfold freed_lists. rewrite lookup_insert_eq. by eexists.
  - unfold freed_lists. rewrite lookup_insert_ne, !lookup_delete_ne by done. apply HI.
  - apply Hhl.
  - eapply freed_ok; [by eapply (si_tasks _ _ _ _ _ HI)|done..].
Qed.

(** A block that is neither the running nor the idle task's. *)
Lemma KInv_life k m t x c' h' b' r' m' :
  KInv k m t -> x <> t -> x <> g_idleTaskID k -> has c' OS_TASK_STATUS_RUNNING = false ->
  (has c' OS_TASK_STATUS_PEND_TIME = true -> has c' OS_TASK_STATUS_PEND = true) ->
  SInv (g_idleTaskID k) h' (<[x := c']> (g_taskCBArray k)) b' m' -> m' !! SwtmrSortLink = m !! SwtmrSortLink ->
  KInv (upd h' (<[x := c']> (g_taskCBArray k)) b' r' k) m' t.
Proof.
  intros [KI KT KC KM KD KR [(c0 & Hc0 & HR) Hu] KO KL] Hxt Hxi Hrun Htm HI Hm. split; try done.
  - intros y cy. cbn. rewrite lookup_insert. case_decide; [intros [= <-]; done|apply KT].
  - by eapply timers_frame.
  - destruct KD as (ci & Hci & Hli). exists ci. cbn. by rewrite lookup_insert_ne.
  - split; cbn.
    + exists c0. by rewrite lookup_insert_ne.
    + intros y cy. rewrite lookup_insert. case_decide; [intros [= <-]; congruence|apply Hu].
  - cbn. intros Hp. rewrite lookup_insert_ne by done. by apply KL.
Qed.

(** *** Recycling *)

(** The stack to free, and the block that no longer owns it. *)
Definition owns_stack (c : LosTaskCB) : bool := has c OS_TASK_FLAG_STACK_FREE && negb (topOfStack c =? 0).
Definition unstacked_tcb (c : LosTaskCB) : LosTaskCB :=
  if owns_stack c then set_taskStatus (clrf OS_TASK_FLAG_STACK_FREE) (set_topOfStack (λ _, 0) c) else c.

Lemma unstacked_joinable c : has (unstacked_tcb c) OS_TASK_FLAG_JOINABLE = has c OS_TASK_FLAG_JOINABLE.
Proof. unfold unstacked_tcb. destruct (owns_stack c); [|done]. unfold has. cbn. by bits. Qed.
Lemma unstacked_id c : taskID (unstacked_tcb c) = taskID c.
Proof. unfold unstacked_tcb. by destruct (owns_stack c). Qed.
Lemma freed_same c c1 : taskID c1 = taskID c -> freed_tcb c1 = freed_tcb c.
Proof. unfold freed_tcb. by intros ->. Qed.

(** A block that can be joined is kept; others become free. *)
Lemma recycle_resources_wp h T b r k m x c l (idle := g_idleTaskID k) :
  SInv idle h T b m -> T !! x = Some c -> homeless m x -> (has c OS_TASK_FLAG_JOINABLE = false -> vacant_lists m x) -> m !! FreeTask = Some l ->
  wp (OsRecycleTaskResources x) (λ sp k', sp = (if owns_stack c then topOfStack c else 0) /\
    if has c OS_TASK_FLAG_JOINABLE then k' = upd h (<[x := unstacked_tcb c]> T) b r k
    else ∃ h', k' = upd h' (<[x := freed_tcb c]> T) b r (set_eventIDs (insert (TaskEvt x) 0) k) /\
      SInv idle h' (<[x := freed_tcb c]> T) b (freed_lists x l m)) (upd h T b r k).
Proof.
  intros HI Hc Hhl Hv Hl. unfold OsRecycleTaskResources. wp_step. eapply wp_upd_tcb; [done|]. wp_step.
  apply (wp_mono _ (λ sp k', sp = (if owns_stack c then topOfStack c else 0) /\ k' = upd h (<[x := unstacked_tcb c]> T) b r k)).
  { unfold unstacked_tcb, owns_stack, has. destruct (_ && _); [|apply wp_ret; by rewrite insert_id].
    wp_step. eapply wp_upd_mod_tcb; [done|]. unfold clear_status. wp_step. eapply wp_upd_mod_tcb; [apply lookup_insert_eq|].
    rewrite insert_insert_eq. by apply wp_ret. }
  intros sp k' [-> ->]. wp_step. eapply wp_upd_tcb; [apply lookup_insert_eq|]. fold (has (unstacked_tcb c) OS_TASK_FLAG_JOINABLE).
  rewrite unstacked_joinable. destruct (has c OS_TASK_FLAG_JOINABLE) eqn:Ej; cbn [negb when]; [by wp_steps|].
  wp_step. eapply wp_mono; [eapply (insert_free_wp _ _ _ _ _ _ _ c); [exact HI|done|apply unstacked_id|done|by apply Hv|done]|].
  intros [] k' (h' & -> & HI'). rewrite (freed_same _ _ (unstacked_id c)) in HI' |- *. apply wp_ret. split; [done|]. by exists h'.
Qed.

Lemma free_stack_wp h T b r k sp (Q : unit -> Kernel -> Prop) :
  (∀ pool, pool = (LOS_MemFree (if sp =? 0 then None else Some sp) (sysMem k)).2 -> Q tt (upd h T b r (set_sysMem (λ _, pool) k))) ->
  wp (freeStack sp) Q (upd h T b r k).
Proof.
  intros HQ. unfold freeStack. wp_step. wp_step. change (sysMem (upd h T b r k)) with (sysMem k).
  destruct (LOS_MemFree _ _) as [e pool] eqn:E. by apply wp_upd_sysMem, HQ.
Qed.

(** The heap when the stacks of the finished tasks [lr] have been released. *)
Definition stack_ptr (T : gmap Z LosTaskCB) (n : Node) : option Z :=
  match n with
  | PendList x => match T !! x with
    | Some c => let sp := if owns_stack c then topOfStack c else 0 in if sp =? 0 then None else Some sp
    | None => None end
  | _ => None
  end.
Definition released (T : gmap Z LosTaskCB) (lr : list Node) (pool : MemPool) : MemPool :=
  foldl (λ pool n, (LOS_MemFree (stack_ptr T n) pool).2) pool lr.
Lemma released_insert T x c lr : PendList x ∉ lr -> ∀ pool, released (<[x := c]> T) lr pool = released T lr pool.
Proof.
  induction lr as [|n lr IH]; [done|]. intros [Hn Hlr]%not_elem_of_cons pool. unfold released in *. cbn. rewrite IH by done. do 3 f_equal.
  destruct n; try done. cbn. rewrite lookup_insert_ne; [done|]. congruence.
Qed.

(** The running task is in use. *)
Definition used (k : Kernel) (t : Z) : Prop := ∃ c, g_taskCBArray k !! t = Some c /\ has c OS_TASK_STATUS_UNUSED = false.
(** The lists that hold blocks, or belong to one. *)
Definition pool_node (n : Node) : bool :=
  match n with FreeTask | TaskRecycle | JoinList _ | EventList (TaskEvt _) => true | _ => false end.
(** A finished block that can be freed. *)
Definition finished (k : Kernel) (m : gmap Node (list Node)) (n : Node) : Prop :=
  ∃ x c, n = PendList x /\ g_taskCBArray k !! x = Some c /\ has c OS_TASK_FLAG_JOINABLE = false /\ vacant_lists m x.

Lemma vacant_freed m x l n :
  Rings m -> vacant_lists m x -> m !! FreeTask = Some l -> item_node n = false -> n <> FreeTask -> vacant m n -> vacant (freed_lists x l m) n.
Proof.
  intros HR [V1 V2] Hl Hn Hf Hv. assert (V3 : vacant (delete (JoinList x) m) (EventList (TaskEvt x))) by by apply vacant_delete.
  unfold freed_lists. assert (Hh : ∀ hd, home (<[FreeTask := PendList x :: l]> (delete (EventList (TaskEvt x)) (delete (JoinList x) m))) n hd -> home m n hd).
  { intros hd Hh. rewrite (home_add _ FreeTask l) in Hh; [|by rewrite !lookup_delete_ne|done].
    destruct Hh as [Hh|[-> _]]; [|done]. by rewrite home_delete, home_delete in Hh by done. }
  destruct (decide (n = EventList (TaskEvt x) \/ n = JoinList x)) as [Hx|Hx].
  - left. intros [[l1 Hl1]|[hd Hh1%Hh]]%owned_cases.
    + rewrite lookup_insert_ne in Hl1 by done. apply lookup_delete_Some in Hl1 as [? [? _]%lookup_delete_Some]. naive_solver.
    + destruct Hv as [Hv|Hv]; [by apply Hv; eapply home_owned|]. by rewrite (home_not_head _ _ _ HR Hh1) in Hv.
  - destruct Hv as [Hv|Hv]; [left|right; by rewrite lookup_insert_ne, !lookup_delete_ne by naive_solver].
    intros [[l1 Hl1]|[hd Hh1%Hh]]%owned_cases; apply Hv; [|by eapply home_owned].
    rewrite lookup_insert_ne in Hl1 by done. apply lookup_delete_Some in Hl1 as [_ [_ Hl1]%lookup_delete_Some]. apply owned_cases. left. by eexists.
Qed.
Lemma vacant_taken m u l n n0 : m !! u = Some (n0 :: l) -> n <> u -> vacant m n -> vacant (<[u := l]> m) n.
Proof.
  intros Hl Hne [Hv|Hv]; [left|right; by rewrite lookup_insert_ne]. intros (hd & l1 & [[<- <-]|[_ Hl1]]%lookup_insert_Some & Hin); apply Hv.
  - exists u, (n0 :: l). set_solver.
  - by exists hd, l1.
Qed.

Lemma used_busy k m t x c : KInv k m t -> g_taskCBArray k !! x = Some c -> has c OS_TASK_STATUS_UNUSED = true -> used k t ->
  x <> t /\ x <> g_idleTaskID k.
Proof.
  intros HK Hc Hu (ct & Hct & Hut). split; [intros ->; congruence|]. intros ->. destruct (ki_idle _ _ _ HK) as (ci & Hci & Hl & _). congruence.
Qed.

Lemma recycle_loop_wp t lr : ∀ fuel k m lf,
  KInv k m t -> used k t -> m !! TaskRecycle = Some lr -> m !! FreeTask = Some lf -> Forall (finished k m) lr -> (length lr < fuel)%nat ->
  wp (OsRecycleFinishedTask_loop fuel) (λ _ k', ∃ m', KInv k' m' t /\ m' !! TaskRecycle = Some [] /\
    m' !! FreeTask = Some (reverse lr ++ lf) /\ lists_only pool_node m m' /\ sysMem k' = released (g_taskCBArray k) lr (sysMem k) /\
    (∀ y, vacant_lists m y -> vacant_lists m' y) /\
    ∀ y, g_taskCBArray k' !! y = if decide (PendList y ∈ lr) then freed_tcb <$> g_taskCBArray k !! y else g_taskCBArray k !! y) k.
Proof.
  induction lr as [|n lr IH]; intros [|fuel] k m lf HK Hut Hr Hf Hall Hfu; cbn [length] in Hfu; [lia| |lia|]; cbn [OsRecycleFinishedTask_loop].
  { wp_step. eapply kinv_empty; [done..|]. rewrite bool_decide_true by done. apply wp_ret. by exists m. }
  apply Forall_cons in Hall as [(x & c & -> & Hc & Hj & Hv) Hall].
  wp_step. eapply kinv_empty; [done..|]. rewrite bool_decide_false by done. wp_step. eapply kinv_first; [done..|].
  wp_step. eapply wp_of_option; [done|]. wp_step. eapply kinv_first; [done..|].
  pose proof (ki_sched _ _ _ HK) as HI. unfold SchedInv in HI. to_upd.
  wp_step. eapply wp_mono; [eapply (take_block_wp _ _ _ _ _ _ TaskRecycle); [exact HI|by right|exact Hr|exact Hc]|]. intros [] k1 (h1 & -> & HI1 & Hhl & Hun).
  destruct (used_busy _ _ _ _ _ HK Hc Hun Hut) as [Nt Ni].
  assert (Hv1 : vacant_lists (<[TaskRecycle := lr]> m) x) by (destruct Hv; split; by eapply vacant_taken).
  wp_step. eapply wp_mono; [eapply recycle_resources_wp; [exact HI1|exact Hc|done..|by rewrite lookup_insert_ne]|].
  intros sp k2 [Esp Hk2]. rewrite Hj in Hk2. destruct Hk2 as (h2 & -> & HI2).
  wp_step. apply free_stack_wp. intros pool Epool. set (k3 := upd h2 _ _ _ _).
  set (m1 := freed_lists x lf (<[TaskRecycle := lr]> m)) in *.
  assert (HK3 : KInv k3 m1 t).
  { apply (KInv_life (set_sysMem (λ _, pool) (set_eventIDs (insert (TaskEvt x) 0) k)) m t x); try done; [by apply KInv_sysMem, KInv_eventIDs|].
    subst m1. unfold freed_lists. by rewrite lookup_insert_ne, !lookup_delete_ne, lookup_insert_ne by done. }
  assert (HR1 : Rings (<[TaskRecycle := lr]> m)) by apply (rep_rings _ _ (si_rep _ _ _ _ _ HI1)).
  assert (Hvm : ∀ y, vacant_lists m y -> vacant_lists m1 y).
  { intros y [Y1 Y2]. split; apply vacant_freed; try done; [by rewrite lookup_insert_ne|by eapply vacant_taken|by rewrite lookup_insert_ne|by eapply vacant_taken]. }
  pose proof (rings_nodup _ (rep_rings _ _ (si_rep _ _ _ _ _ HI)) _ _ Hr) as [_ [Hnx _]%NoDup_cons]%NoDup_cons.
  assert (Hall3 : Forall (finished k3 m1) lr).
  { rewrite Forall_forall in Hall |- *. intros n Hn. destruct (Hall n Hn) as (y & cy & -> & Hy & Hjy & Hvy). exists y, cy.
    split_and!; [done| |done|by apply Hvm]. cbn. rewrite lookup_insert_ne; [done|]. by intros ->. }
  eapply wp_mono; [apply (IH fuel k3 m1 (PendList x :: lf)); [done| | | |done|lia]|].
  - destruct Hut as (ct & Hct & Hu). exists ct. cbn. by rewrite lookup_insert_ne.
  - subst m1. unfold freed_lists. rewrite lookup_insert_ne, !lookup_delete_ne by done. apply lookup_insert_eq.
  - apply lookup_insert_eq.
  - intros [] k' (m' & HK' & Hr' & Hf' & Hm' & Hs' & Hv' & HT'). exists m'. split_and!; [done|done| | | | |].
    + rewrite Hf', reverse_cons. by rewrite <- app_assoc.
    + intros hd Hhd. rewrite Hm' by done. subst m1. unfold freed_lists.
      rewrite lookup_insert_ne, !lookup_delete_ne, lookup_insert_ne; [done|by intros <-..].
    + rewrite Hs'. cbn. rewrite released_insert by done. rewrite Hc, <- Esp, Epool. done.
    + intros y Hy. by apply Hv', Hvm.
    + intros y. rewrite HT'. cbn. destruct (decide (y = x)) as [->|Hne].
      * rewrite decide_False, decide_True, lookup_insert_eq by set_solver. by rewrite Hc.
      * rewrite lookup_insert_ne by done. destruct (decide (PendList y ∈ lr)); [by rewrite decide_True by set_solver|].
        rewrite decide_False; [done|]. intros [[= ->]|?]%elem_of_cons; done.
Qed.

Lemma recycle_finished_wp k m t lr lf :
  KInv k m t -> used k t -> m !! TaskRecycle = Some lr -> m !! FreeTask = Some lf -> Forall (finished k m) lr ->
  wp OsRecycleFinishedTask (λ _ k', ∃ m', KInv k' m' t /\ m' !! TaskRecycle = Some [] /\
    m' !! FreeTask = Some (reverse lr ++ lf) /\ lists_only pool_node m m' /\ sysMem k' = released (g_taskCBArray k) lr (sysMem k) /\
    (∀ y, vacant_lists m y -> vacant_lists m' y) /\
    ∀ y, g_taskCBArray k' !! y = if decide (PendList y ∈ lr) then freed_tcb <$> g_taskCBArray k !! y else g_taskCBArray k !! y) k.
Proof.
  intros HK Hut Hr Hf Hall. unfold OsRecycleFinishedTask. wp_step. apply wp_gets. apply recycle_loop_wp; try done.
  eapply Rep_ring_size; [apply HK|done].
Qed.

(** ** Creation *)

(** The status of a task that is created suspended. *)
Definition new_status (join own : bool) : Z :=
  let s := if join then setf OS_TASK_FLAG_JOINABLE OS_TASK_STATUS_SUSPEND else OS_TASK_STATUS_SUSPEND in
  if own then setf OS_TASK_FLAG_STACK_FREE s else s.
(** The block of a task created from [p]. *)
Record new_task (p : TSK_INIT_PARAM_S) (c c' : LosTaskCB) : Prop := {
  nt_id : taskID c' = taskID c;
  nt_prio : priority c' = usTaskPrio p;
  nt_entry : taskEntry c' = pfnTaskEntry p;
  nt_arg : Kernel.arg c' = uwTskArg p;
  nt_time : responseTime c' = OS_SORT_LINK_INVALID_TIME;
  nt_status : ∃ own, taskStatus c' = new_status (test (uwResved p) LOS_TASK_ATTR_JOINABLE) own;
}.

Lemma new_task_flags p c c' : new_task p c c' ->
  has c' OS_TASK_FLAG_JOINABLE = test (uwResved p) LOS_TASK_ATTR_JOINABLE /\ has c' OS_TASK_STATUS_SUSPEND = true /\
  has c' OS_TASK_STATUS_UNUSED = false /\ has c' OS_TASK_STATUS_READY = false /\ has c' OS_TASK_STATUS_PEND = false /\
  has c' OS_TASK_STATUS_RUNNING = false /\ has c' OS_TASK_STATUS_DELAY = false /\ has c' OS_TASK_STATUS_PEND_TIME = false /\
  has c' OS_TASK_STATUS_EXIT = false /\ has c' OS_TASK_FLAG_FREEZE = false.
Proof. intros [_ _ _ _ _ [own E]]. unfold has. rewrite E. destruct (test (uwResved p) _), own; by vm_compute. Qed.

Lemma new_task_ok idle m x p c c' :
  task_ok idle m x c -> homeless m x -> new_task p c c' -> 0 <= usTaskPrio p < 32 -> task_ok idle m x c'.
Proof.
  intros Hok [Hp Hs] Hn Hprio. destruct (new_task_flags _ _ _ Hn) as (_ & _ & F1 & F2 & F3 & _ & F4 & F5 & F6 & F7). destruct Hn as [N1 N2 _ _ N3 _].
  destruct Hok as [O1 _ _ _ _ _ _ _ _ _ _]. split; rewrite ?N1, ?N2, ?N3, ?F1, ?F2, ?F3, ?F4, ?F5, ?F6, ?F7; try done.
  - intros hd Hh. by destruct (Hp hd).
  - intros hd Hh. by destruct (Hs hd).
Qed.

(** The lists of a new task. *)
Definition new_lists (x : Z) (join : bool) (m : gmap Node (list Node)) : gmap Node (list Node) :=
  let m1 := <[EventList (TaskEvt x) := []]> m in if join then <[JoinList x := []]> m1 else m1.

Lemma vacant_init m n n' : n' <> n -> vacant m n -> vacant m n' -> vacant (<[n := []]> m) n'.
Proof.
  intros Hne Hn [V|V]; [left|right; by rewrite lookup_insert_ne].
  intros [[l [[? _]|[_ Hl]]%lookup_insert_Some]|[hd0 Hh]]%owned_cases; [done|apply V, owned_cases; left; by eexists|].
  rewrite home_init in Hh by done. apply V. by eapply home_owned.
Qed.
Lemma new_lists_home m x join n hd : vacant_lists m x -> home (new_lists x join m) n hd <-> home m n hd.
Proof.
  intros [V1 V2]. unfold new_lists. destruct join; [|by rewrite home_init]. rewrite !home_init by (try done; by apply vacant_init). done.
Qed.
Lemma new_lists_homeless m x join : vacant_lists m x -> homeless m x -> homeless (new_lists x join m) x.
Proof. intros Hv [H1 H2]. split; intros hd; rewrite new_lists_home by done; [apply H1|apply H2]. Qed.
Lemma new_lists_vacant m x join : vacant_lists m x -> vacant_lists (new_lists x join m) x.
Proof.
  intros Hv. split; [right; unfold new_lists; destruct join; [rewrite lookup_insert_ne by done|]; apply lookup_insert_eq|].
  destruct join; [right; apply lookup_insert_eq|]. destruct Hv. by apply vacant_init.
Qed.
Lemma new_lists_other m x join hd : hd <> EventList (TaskEvt x) -> hd <> JoinList x -> new_lists x join m !! hd = m !! hd.
Proof. intros N1 N2. unfold new_lists. destruct join; by rewrite ?lookup_insert_ne by done. Qed.

(** A state with other events and memory. *)
Definition upd_new h T b r k e s := upd h T b r (set_sysMem s (set_eventIDs e k)).

Lemma new_task_inv idle h T b m x c c' p h' join :
  SInv idle h T b m -> T !! x = Some c -> homeless m x -> vacant_lists m x -> 0 <= usTaskPrio p < 32 -> new_task p c c' ->
  Rep h' (new_lists x join m) -> SInv idle h' (<[x := c']> T) b (new_lists x join m).
Proof.
  intros HI Hc Hhl Hv Hprio Hnew HR. eapply SInv_life; [exact HI|exact HR|..].
  - intros hd Hhd. apply new_lists_other; by destruct Hhd as [-> | [q ->]].
  - intros n hd _. by apply new_lists_home.
  - intros hd l. unfold new_lists. intros Hl. destruct join; repeat (apply lookup_insert_Some in Hl as [[<- _]|[_ Hl]]; [done|]);
      by apply (si_heads _ _ _ _ _ HI) in Hl.
  - rewrite new_lists_other by done. apply HI.
  - rewrite new_lists_other by done. apply HI.
  - apply Hhl.
  - eapply (new_task_ok _ _ _ p c); [|by apply new_lists_homeless|done|done].
    eapply task_ok_frame; [..|by eapply (si_tasks _ _ _ _ _ HI)]; intros hd; by apply new_lists_home.
Qed.

Lemma new_task_wp h T b r k m x c p (idle := g_idleTaskID k) (join := test (uwResved p) LOS_TASK_ATTR_JOINABLE) :
  SInv idle h T b m -> T !! x = Some c -> homeless m x -> vacant_lists m x -> 0 <= usTaskPrio p < 32 ->
  wp (OsNewTaskInit x p) (λ ret k', ∃ h' c' e s, k' = upd_new h' (<[x := c']> T) b r k e s /\ new_task p c c' /\
    SInv idle h' (<[x := c']> T) b (new_lists x join m) /\
    ret = (if (stackAddr p =? 0) && bool_decide ((LOS_MemAllocAlign (LOS_Align (uwStackSize p) OS_TASK_STACK_ADDR_ALIGN)
      LOSCFG_STACK_POINT_ALIGN_SIZE (sysMem k)).1 = None) then LOS_ERRNO_TSK_NO_MEMORY else LOS_OK)) (upd h T b r k).
Proof.
  intros HI Hc Hhl Hv Hprio. unfold OsNewTaskInit. wp_step. eapply wp_upd_mod_tcb; [done|]. wp_step. apply wp_upd_eventIDs.
  unfold SET_SORTLIST_VALUE. wp_step. eapply wp_upd_mod_tcb; [apply lookup_insert_eq|]. rewrite insert_insert_eq.
  unfold LOS_EventInit, set_uwEventID. do 2 wp_step. apply wp_upd_eventIDs. wp_step. apply wp_upd_list.
  eapply wp_mono; [eapply Rep_init; [apply HI|apply Hv]|]. intros [] h1 HR1. wp_step. wp_step. set (c1 := set_responseTime _ _). fold join.
  set (e := λ E : gmap EventRef Z, insert (TaskEvt x) 0 (insert (TaskEvt x) OS_NULL_INT E)).
  change (set_eventIDs (insert (TaskEvt x) 0) (set_eventIDs (insert (TaskEvt x) OS_NULL_INT) k)) with (set_eventIDs e k).
  set (c2 := set_taskStatus (λ _, new_status join false) c1).
  apply (wp_mono _ (λ _ k', ∃ h2, k' = upd h2 (<[x := c2]> T) b r (set_eventIDs e k) /\ Rep h2 (new_lists x join m))).
  { destruct join; cbn [when]; [|apply wp_ret; by exists h1]. unfold set_status. wp_step. eapply wp_upd_mod_tcb; [apply lookup_insert_eq|].
    rewrite insert_insert_eq. apply wp_upd_list.
    eapply wp_mono; [eapply Rep_init; [exact HR1|destruct Hv; by apply vacant_init]|]. intros [] h2 HR2. by exists h2. }
  intros [] k2 (h2 & -> & HR2). wp_step.
  assert (Hfin : ∀ own c', taskID c' = taskID c -> priority c' = usTaskPrio p -> taskEntry c' = pfnTaskEntry p ->
    Kernel.arg c' = uwTskArg p -> responseTime c' = OS_SORT_LINK_INVALID_TIME -> taskStatus c' = new_status join own ->
    new_task p c c' /\ SInv idle h2 (<[x := c']> T) b (new_lists x join m)).
  { intros own c' E1 E2 E3 E4 E5 E6. assert (Hn : new_task p c c') by (split; try done; by exists own). split; [done|]. by eapply new_task_inv. }
  clearbody e. destruct (stackAddr p =? 0); cbn [andb].
  - wp_step. eapply wp_upd_mod_tcb; [apply lookup_insert_eq|]. rewrite insert_insert_eq. wp_step. eapply wp_upd_tcb; [apply lookup_insert_eq|].
    wp_step. apply wp_gets. cbn [stackSize set_stackSize]. change (sysMem (upd h2 _ b r _)) with (sysMem k).
    destruct (LOS_MemAllocAlign _ _ (sysMem k)) as [a pool]. cbn [fst]. wp_step. apply wp_upd_sysMem. wp_step.
    eapply wp_upd_mod_tcb; [apply lookup_insert_eq|]. rewrite insert_insert_eq. destruct a as [a|].
    + unfold set_status. wp_step. eapply wp_upd_mod_tcb; [apply lookup_insert_eq|]. rewrite insert_insert_eq. wp_step. cbn [negb].
      wp_step. eapply wp_upd_mod_tcb; [apply lookup_insert_eq|]. rewrite insert_insert_eq. apply wp_ret.
      eexists h2, _, e, (λ _, pool). split; [done|]. split_and!; [eapply (Hfin true); try done|eapply (Hfin true); try done|done].
      all: by destruct join.
    + wp_step. cbn [negb]. apply wp_ret. eexists h2, _, e, (λ _, pool). split; [done|].
      split_and!; [by eapply (Hfin false)|by eapply (Hfin false)|done].
  - wp_step. eapply wp_upd_mod_tcb; [apply lookup_insert_eq|]. rewrite insert_insert_eq. wp_step.
    eapply wp_upd_mod_tcb; [apply lookup_insert_eq|]. rewrite insert_insert_eq. wp_step. cbn [negb].
    wp_step. eapply wp_upd_mod_tcb; [apply lookup_insert_eq|]. rewrite insert_insert_eq. apply wp_ret.
    eexists h2, _, e, (λ s, s). split; [done|]. split_and!; [by eapply (Hfin false)|by eapply (Hfin false)|done].
Qed.

(** *** The pool of blocks *)

Lemma vacant_frame m m' n : m' !! n = m !! n -> (∀ hd, home m' n hd -> home m n hd) -> vacant m n -> vacant m' n.
Proof.
  intros E Hh [V|V]; [left|right; by rewrite E]. rewrite owned_cases, E. intros [Hs|[hd Hd%Hh]]; apply V; [apply owned_cases; by left|].
  by eapply home_owned.
Qed.

(** The lists in free and finished blocks are not in use, and the blocks have
    their identifiers and cannot be joined. *)
Definition PoolInv (T : gmap Z LosTaskCB) (m : gmap Node (list Node)) : Prop :=
  ∀ x u, u = FreeTask \/ u = TaskRecycle -> home m (PendList x) u ->
    vacant_lists m x /\ ∃ c, T !! x = Some c /\ taskID c = x /\ has c OS_TASK_FLAG_JOINABLE = false.

Lemma pool_member k m t u n l : KInv k m t -> (u = FreeTask \/ u = TaskRecycle) -> m !! u = Some l -> n ∈ l ->
  ∃ x c, n = PendList x /\ g_taskCBArray k !! x = Some c /\ has c OS_TASK_STATUS_UNUSED = true.
Proof.
  intros HK Hu Hl Hn. pose proof (ki_sched _ _ _ HK) as HI. assert (Hh : home m n u) by by exists l.
  pose proof (si_members _ _ _ _ _ HI n u Hh) as Hm. destruct n; cbn in Hm; try done; try (by destruct Hu as [-> | ->]).
  - destruct Hm as [c Hc]. exists t0, c. split_and!; [done..|].
    destruct (ok_home _ _ _ _ (si_tasks _ _ _ _ _ HI _ _ Hc) u Hh) as [(-> & _)|[[Hw _]|[_ ?]]]; [by destruct Hu|by destruct Hu as [-> | ->]|done].
  - destruct Hm as [c Hc]. destruct (ok_sort_home _ _ _ _ (si_tasks _ _ _ _ _ HI _ _ Hc) u Hh) as [-> _]. by destruct Hu.
Qed.
Lemma pool_finished k m t lr : KInv k m t -> PoolInv (g_taskCBArray k) m -> m !! TaskRecycle = Some lr -> Forall (finished k m) lr.
Proof.
  intros HK HP Hr. apply Forall_forall. intros n Hn. destruct (pool_member _ _ _ TaskRecycle n lr HK (or_intror eq_refl) Hr Hn) as (x & c & -> & Hc & _).
  destruct (HP x TaskRecycle (or_intror eq_refl)) as (Hv & c' & Hc' & _ & Hj); [by exists lr|]. simplify_eq. by exists x, c.
Qed.
Lemma rings_apart k m t x u u' : KInv k m t -> home m (PendList x) u -> home m (PendList x) u' -> u = u'.
Proof. intros HK. apply home_unique, (rep_rings _ _ (si_rep _ _ _ _ _ (ki_sched _ _ _ HK))). Qed.

Lemma recycle_pool_wp k m t lr lf :
  KInv k m t -> PoolInv (g_taskCBArray k) m -> used k t -> m !! TaskRecycle = Some lr -> m !! FreeTask = Some lf ->
  wp OsRecycleFinishedTask (λ _ k', ∃ m', KInv k' m' t /\ PoolInv (g_taskCBArray k') m' /\ used k' t /\ m' !! TaskRecycle = Some [] /\
    m' !! FreeTask = Some (reverse lr ++ lf) /\ lists_only pool_node m m' /\ sysMem k' = released (g_taskCBArray k) lr (sysMem k) /\
    ∀ y, PendList y ∉ lr -> g_taskCBArray k' !! y = g_taskCBArray k !! y) k.
Proof.
  intros HK HP Hut Hr Hf. eapply wp_mono; [apply (recycle_finished_wp k m t lr lf); [done..|by eapply pool_finished]|].
  intros [] k' (m' & HK' & Hr' & Hf' & Hm' & Hs' & Hv' & HT'). exists m'. split_and!; [done| | |done|done|done|done|].
  - intros x u Hu Hx. assert (Hin : PendList x ∈ reverse lr ++ lf).
    { destruct Hu as [-> | ->], Hx as (l & Hl & Hin); simplify_eq; [done|by apply elem_of_nil in Hin]. }
    assert (Hx0 : ∃ u0, (u0 = FreeTask \/ u0 = TaskRecycle) /\ home m (PendList x) u0 /\ (u0 = FreeTask -> PendList x ∉ lr)).
    { apply elem_of_app in Hin as [Hin|Hin]; [rewrite elem_of_reverse in Hin|].
      - exists TaskRecycle. split_and!; [by right|by exists lr|done].
      - exists FreeTask. split_and!; [by left|by exists lf|]. intros _ Hin2.
        by assert (FreeTask = TaskRecycle) by (eapply (rings_apart k m t x); [done|by exists lf|by exists lr]). }
    destruct Hx0 as (u0 & Hu0 & Hh0 & Hex). destruct (HP x u0 Hu0 Hh0) as (Hv & c & Hc & Hid & Hj). split; [by apply Hv'|]. rewrite HT', Hc.
    destruct (decide (PendList x ∈ lr)); [exists (freed_tcb c); split_and!; [done|by cbn|done]|by exists c].
  - destruct Hut as (ct & Hct & Hu). exists ct. rewrite HT', decide_False; [done|]. intros Hin.
    destruct (pool_member _ _ _ TaskRecycle _ lr HK (or_intror eq_refl) Hr Hin) as (y & c & [= <-] & Hc & Hy). congruence.
  - intros y Hy. rewrite HT'. by rewrite decide_False.
Qed.

Lemma pool_take T m u x l :
  PoolInv T m -> m !! u = Some (PendList x :: l) -> u = FreeTask \/ u = TaskRecycle -> PoolInv T (<[u := l]> m).
Proof.
  intros HP Hl Hu y v Hv Hy. assert (Hy0 : home m (PendList y) v).
  { apply home_update in Hy as [[-> Hin]|[_ ?]]; [|done]. exists (PendList x :: l). set_solver. }
  destruct (HP y v Hv Hy0) as ([V1 V2] & Hc). split; [|done].
  split; (eapply vacant_taken; [exact Hl|by destruct Hu as [-> | ->]|done]).
Qed.
Lemma pool_new T m x c' join :
  PoolInv T m -> homeless m x -> vacant_lists m x -> PoolInv (<[x := c']> T) (new_lists x join m).
Proof.
  intros HP Hhl Hvx y v Hv Hy. rewrite new_lists_home in Hy by done. destruct (decide (y = x)) as [->|Hne]; [by destruct (proj1 Hhl v)|].
  destruct (HP y v Hv Hy) as ([V1 V2] & Hc). rewrite lookup_insert_ne by done. split; [|done].
  assert (Hf : ∀ n, n <> EventList (TaskEvt x) -> n <> JoinList x -> vacant m n -> vacant (new_lists x join m) n).
  { intros n N1 N2. apply vacant_frame; [by apply new_lists_other|]. intros hd. by rewrite new_lists_home. }
  split; apply Hf; congruence.
Qed.
Lemma pool_freed T m x c l :
  PoolInv T m -> Rings m -> homeless m x -> vacant_lists m x -> m !! FreeTask = Some l -> taskID c = x ->
  PoolInv (<[x := freed_tcb c]> T) (freed_lists x l m).
Proof.
  intros HP HR Hhl Hvx Hl Hid y v Hv Hy. assert (Hvm : ∀ n, item_node n = false -> n <> FreeTask -> vacant m n -> vacant (freed_lists x l m) n)
    by (intros; by apply vacant_freed).
  destruct (decide (y = x)) as [->|Hne].
  - destruct Hvx as [V1 V2]. split; [split; by apply Hvm|]. rewrite lookup_insert_eq. by exists (freed_tcb c).
  - assert (Hy0 : home m (PendList y) v).
    { unfold freed_lists in Hy. rewrite (home_add _ FreeTask l) in Hy; [|by rewrite !lookup_delete_ne|done].
      destruct Hy as [Hy|[[= ->] _]]; [|done]. destruct Hvx. by rewrite home_delete, home_delete in Hy by (try done; by apply vacant_delete). }
    destruct (HP y v Hv Hy0) as ([V1 V2] & Hc). rewrite lookup_insert_ne by done. split; [|done]. split; by apply Hvm.
Qed.

Lemma param_check_ok p p' : OsTaskInitParamCheck (Some p) = (LOS_OK, Some p') ->
  usTaskPrio p' = usTaskPrio p /\ usTaskPrio p < 32 /\ stackAddr p' = stackAddr p /\ pfnTaskEntry p' = pfnTaskEntry p /\ uwTskArg p' = uwTskArg p.
Proof.
  unfold OsTaskInitParamCheck, OS_TASK_PRIORITY_LOWEST. destruct (pcName p =? 0); [done|]. destruct (pfnTaskEntry p =? 0); [done|].
  destruct (Z.gtb_spec (usTaskPrio p) 31); [done|]. destruct (_ && _); [done|]. destruct (_ >? _); [done|].
  destruct (uwStackSize p =? 0); (destruct (_ <? _); [done|]); intros [= <-]; split_and!; try done; lia.
Qed.

(** *** The calls *)

(** No stack for a task created from [p]. *)
Definition no_stack (p : TSK_INIT_PARAM_S) (pool : MemPool) : bool :=
  (stackAddr p =? 0) && bool_decide ((LOS_MemAllocAlign (LOS_Align (uwStackSize p) OS_TASK_STACK_ADDR_ALIGN)
    LOSCFG_STACK_POINT_ALIGN_SIZE pool).1 = None).
(** What a creation does to the pool with the free blocks [L]: there is no block,
    no memory for the stack, or the first block is the new task. *)
Definition created (nomem : bool) (L : list Node) (r : Z * option Z) (k' : Kernel) (m' : gmap Node (list Node))
    (new : Z -> LosTaskCB -> Prop) : Prop :=
  match L with
  | [] => r = (LOS_ERRNO_TSK_TCB_UNAVAILABLE, None) /\ m' !! FreeTask = Some []
  | n :: l =>
      if nomem then r = (LOS_ERRNO_TSK_NO_MEMORY, None) /\ m' !! FreeTask = Some L
      else ∃ x c', n = PendList x /\ r = (LOS_OK, Some x) /\ m' !! FreeTask = Some l /\ g_taskCBArray k' !! x = Some c' /\ new x c'
  end.
(** The tasks that are not in the pool stay as they are. *)
Definition tasks_kept (L : list Node) (k k' : Kernel) : Prop :=
  ∀ y, PendList y ∉ L -> g_taskCBArray k' !! y = g_taskCBArray k !! y.

Lemma create_only_wp k m t lr lf p p' :
  KInv k m t -> PoolInv (g_taskCBArray k) m -> used k t -> m !! TaskRecycle = Some lr -> m !! FreeTask = Some lf ->
  OsTaskInitParamCheck (Some p) = (LOS_OK, Some p') -> 0 <= usTaskPrio p ->
  wp (LOS_TaskCreateOnly true (Some p)) (λ r k', ∃ m', KInv k' m' t /\ PoolInv (g_taskCBArray k') m' /\ used k' t /\
    created (no_stack p' (released (g_taskCBArray k) lr (sysMem k))) (reverse lr ++ lf) r k' m' (λ x c', new_task p' (set_taskID (λ _, x) c') c' /\ x <> t /\ x <> g_idleTaskID k') /\
    lists_only pool_node m m' /\ tasks_kept (reverse lr ++ lf) k k') k.
Proof.
  intros HK HP Hut Hr Hf Hpc Hp0. destruct (param_check_ok _ _ Hpc) as (P1 & P2 & P3 & _). unfold LOS_TaskCreateOnly. rewrite Hpc. cbn [negb Z.eqb LOS_OK].
  wp_step. eapply wp_of_option; [done|]. wp_step. eapply wp_mono; [by apply (recycle_pool_wp k m t lr lf)|].
  intros [] k1 (m1 & HK1 & HP1 & Hut1 & Hr1 & Hf1 & Hm1 & <- & HT1). set (L := reverse lr ++ lf) in *.
  assert (Hk1 : tasks_kept L k k1) by (intros y Hy; apply HT1; intros Hin; apply Hy, elem_of_app; left; by rewrite elem_of_reverse).
  wp_step. eapply kinv_empty; [done..|]. destruct L as [|n l] eqn:EL; [rewrite bool_decide_true by done|rewrite bool_decide_false by done].
  { apply wp_ret. exists m1. by split_and!. }
  destruct (pool_member _ _ _ FreeTask n (n :: l) HK1 (or_introl eq_refl) Hf1 ltac:(left)) as (x & c & -> & Hc & Hun).
  destruct (HP1 x FreeTask (or_introl eq_refl)) as (Hv & c0 & Hc0 & Hid & _); [exists (PendList x :: l); set_solver|].
  assert (c0 = c) as -> by congruence. clear Hc0.
  destruct (used_busy _ _ _ _ _ HK1 Hc Hun Hut1) as [Nt Ni]. wp_step. eapply kinv_first; [done..|]. wp_step. eapply wp_of_option; [done|].
  wp_step. eapply kinv_first; [done..|]. pose proof (ki_sched _ _ _ HK1) as HI1. unfold SchedInv in HI1. to_upd.
  wp_step. eapply wp_mono; [eapply (take_block_wp _ _ _ _ _ _ FreeTask); [exact HI1|by left|exact Hf1|exact Hc]|].
  intros [] k2 (h2 & -> & HI2 & Hhl & _). set (m2 := <[FreeTask := l]> m1) in *.
  assert (Hv2 : vacant_lists m2 x) by (destruct Hv; split; by eapply vacant_taken).
  assert (HP2 : PoolInv (g_taskCBArray k1) m2) by (eapply pool_take; [done|exact Hf1|by left]).
  wp_step. eapply wp_mono; [eapply (new_task_wp _ _ _ _ _ _ _ _ p'); [exact HI2|exact Hc|done|done|lia]|].
  intros ret k3 (h3 & c' & e & s & -> & Hnew & HI3 & ->). unfold upd_new. set (kb := set_sysMem s (set_eventIDs e k1)) in *.
  set (join := test (uwResved p') LOS_TASK_ATTR_JOINABLE) in *. set (m3 := new_lists _ join m2) in *.
  assert (HKb : KInv kb m1 t) by by apply KInv_sysMem, KInv_eventIDs. fold (no_stack p' (sysMem k1)). unfold created.
  assert (Hk3 : ∀ c1, tasks_kept (PendList x :: l) k (upd h3 (<[x := c1]> (g_taskCBArray k1)) (g_queueBitmap k1) (g_schedResponseTime k1) kb)).
  { intros c1 y Hy. cbn. rewrite lookup_insert_ne by set_solver. by apply Hk1. }
  assert (Hsw : ∀ hd, pool_node hd = false -> m3 !! hd = m1 !! hd).
  { intros hd Hhd. subst m3 m2. rewrite new_lists_other by by intros ->. apply lookup_insert_ne. by intros <-. }
  assert (Hhl3 : homeless m3 x) by by apply new_lists_homeless. assert (Hv3 : vacant_lists m3 x) by by apply new_lists_vacant.
  assert (HP3 : PoolInv (<[x := c']> (g_taskCBArray k1)) m3) by by apply pool_new.
  assert (Hf3 : m3 !! FreeTask = Some l) by (subst m3 m2; rewrite new_lists_other by done; apply lookup_insert_eq).
  assert (Hid' : taskID c' = x) by (rewrite <- Hid; apply Hnew).
  assert (Hut3 : ∀ c1, ∃ ct, <[x := c1]> (g_taskCBArray k1) !! t = Some ct /\ has ct OS_TASK_STATUS_UNUSED = false).
  { intros c1. destruct Hut1 as (ct & Hct & Hu). exists ct. by rewrite lookup_insert_ne. }
  destruct (no_stack p' (sysMem k1)).
  - change (negb (LOS_ERRNO_TSK_NO_MEMORY =? LOS_OK)) with true. cbv iota.
    rewrite <- (insert_insert_eq (g_taskCBArray k1) x c' c'). wp_step.
    eapply wp_mono; [eapply (insert_free_wp _ _ _ _ kb m3 x c' c' l); [exact HI3|apply lookup_insert_eq|done..]|].
    intros [] k4 (h4 & -> & HI4). rewrite insert_insert_eq in HI4 |- *. apply wp_ret. exists (freed_lists x l m3). split_and!.
    + apply (KInv_life (set_eventIDs (insert (TaskEvt x) 0) kb) m1 t x); try done; [by apply KInv_eventIDs|].
      unfold freed_lists. rewrite lookup_insert_ne, !lookup_delete_ne by done. by apply Hsw.
    + cbn. rewrite <- (insert_insert_eq (g_taskCBArray k1) x (freed_tcb c') c'). apply pool_freed; try done.
      apply (rep_rings _ _ (si_rep _ _ _ _ _ HI3)).
    + apply Hut3.
    + done.
    + apply lookup_insert_eq.
    + intros hd Hhd. unfold freed_lists. rewrite lookup_insert_ne, !lookup_delete_ne by by intros <-. rewrite Hsw by done. by apply Hm1.
    + intros y Hy. by apply Hk3.
  - change (negb (LOS_OK =? LOS_OK)) with false. cbv iota. wp_step. eapply wp_upd_tcb; [apply lookup_insert_eq|]. apply wp_ret. rewrite Hid'.
    exists m3. split_and!; [|done|apply Hut3| |intros hd Hhd; rewrite Hsw by done; by apply Hm1|apply Hk3].
    + apply (KInv_life kb m1 t x); try done; [apply (new_task_flags _ _ _ Hnew)| |by apply Hsw].
      destruct (new_task_flags _ _ _ Hnew) as (_ & _ & _ & _ & _ & _ & _ & -> & _). done.
    + exists x, c'. split_and!; [done|done|done|apply lookup_insert_eq|by destruct Hnew|done|done].
Qed.

(** A new task is ready in the queue of its priority, and a switch is requested. *)
Definition ready_task (p : TSK_INIT_PARAM_S) (k' : Kernel) (m' : gmap Node (list Node)) (x : Z) (c' : LosTaskCB) : Prop :=
  taskID c' = x /\ taskEntry c' = pfnTaskEntry p /\ Kernel.arg c' = uwTskArg p /\ priority c' = usTaskPrio p /\
  has c' OS_TASK_STATUS_READY = true /\ home m' (PendList x) (PriQueue (usTaskPrio p)) /\ (g_losTaskLock k' = 0 -> pendSV k' = true).

Lemma enq_flags idle slice sliceMin c (c' := enq_tcb idle slice sliceMin c) :
  has c' OS_TASK_STATUS_READY = true /\ has c' OS_TASK_STATUS_PEND_TIME = false /\
  has c' OS_TASK_STATUS_RUNNING = has c OS_TASK_STATUS_RUNNING /\ has c' OS_TASK_STATUS_UNUSED = has c OS_TASK_STATUS_UNUSED /\
  taskID c' = taskID c /\ taskEntry c' = taskEntry c /\ Kernel.arg c' = Kernel.arg c /\ priority c' = priority c.
Proof. subst c'. unfold enq_tcb. destruct (_ || _); unfold has; cbn; bits; done. Qed.

Lemma enqueue_new_wp k m t x c' p :
  KInv k m t -> PoolInv (g_taskCBArray k) m -> g_taskCBArray k !! x = Some c' -> new_task p (set_taskID (λ _, x) c') c' -> x <> t ->
  x <> g_idleTaskID k ->
  wp (OsSchedTaskEnQueue x) (λ _ k', ∃ h' b' c'' l l', k' = upd h' (<[x := c'']> (g_taskCBArray k)) b' (g_schedResponseTime k) k /\
    m !! PriQueue (usTaskPrio p) = Some l /\ l' ≡ₚ PendList x :: l /\ let m' := <[PriQueue (usTaskPrio p) := l']> m in
    KInv k' m' t /\ PoolInv (g_taskCBArray k') m' /\
    taskID c'' = x /\ taskEntry c'' = pfnTaskEntry p /\ Kernel.arg c'' = uwTskArg p /\ priority c'' = usTaskPrio p /\ has c'' OS_TASK_STATUS_READY = true) k.
Proof.
  intros HK HP Hc Hn Nt Ni. destruct (new_task_flags _ _ _ Hn) as (_ & F0 & F1 & F2 & F3 & F8 & F4 & F5 & F6 & F7). destruct Hn as [N1 N2 N4 N5 N3 _].
  to_upd. eapply wp_mono; [eapply (enqueue_wp _ _ _ _ _ _ x c' (ki_sched _ _ _ HK)); done|].
  intros [] k' (h' & b' & m' & -> & HI' & Hm'). rewrite decide_False in Hm' by done. destruct Hm' as (l & Hl & Em).
  set (c'' := enq_tcb _ _ _ c') in *. rewrite N2 in Hl, Em. set (l' := if _ >? _ then _ else _) in Em. subst m'.
  assert (Hl' : l' ≡ₚ PendList x :: l) by (subst l'; destruct (_ >? _); [done|]; symmetry; apply Permutation_cons_append).
  destruct (enq_flags (g_idleTaskID k) (g_schedTimeSlice k) (g_schedTimeSliceMin k) c') as (E1 & E2 & E3 & E4 & E5 & E6 & E7 & E8).
  fold c'' in E1, E2, E3, E4, E5, E6, E7, E8. exists h', b', c'', l, l'. cbv zeta. cbn in N1. split_and!; try done; try congruence.
  - eapply (KInv_step_same k m t x c' c''); [done|done| |exact HI'|by rewrite lookup_insert_ne|done]. split; try done; congruence.
  - intros y u Hu Hy. assert (Hne : PriQueue (usTaskPrio p) <> u) by by destruct Hu as [-> | ->].
    assert (Hadd : ∀ n hd, home (<[PriQueue (usTaskPrio p) := l']> m) n hd <-> home m n hd \/ n = PendList x /\ hd = PriQueue (usTaskPrio p))
      by (intros; by apply home_add with l).
    apply Hadd in Hy as [Hy|[_ ?]]; [|congruence]. destruct (HP y u Hu Hy) as ([V1 V2] & cy & Hcy & Hid & Hj).
    assert (Nx : y <> x).
    { intros ->. destruct (ok_home _ _ _ _ (si_tasks _ _ _ _ _ (ki_sched _ _ _ HK) _ _ Hc) u Hy) as [(-> & _)|[[Hw _]|[_ ?]]];
        [by destruct Hu|by destruct Hu as [-> | ->]|congruence]. }
    cbn. rewrite lookup_insert_ne by done. split; [|by exists cy].
    split; (eapply vacant_frame; [by apply lookup_insert_ne| |done]); intros hd Hh;
      by apply Hadd in Hh as [Hh|[? _]].
Qed.

Lemma task_create_wp k m t lr lf p :
  KInv k m t -> PoolInv (g_taskCBArray k) m -> used k t -> m !! TaskRecycle = Some lr -> m !! FreeTask = Some lf -> 0 <= usTaskPrio p ->
  wp (LOS_TaskCreate true (Some p)) (λ r k',
    let code := fst (OsTaskInitParamCheck (Some p)) in
    if negb (code =? LOS_OK) then r = (code, None) /\ k' = k
    else ∃ m', KInv k' m' t /\ PoolInv (g_taskCBArray k') m' /\ used k' t /\
      created (from_option (λ p, no_stack p (released (g_taskCBArray k) lr (sysMem k))) false (OsTaskInitParamCheck (Some p)).2)
        (reverse lr ++ lf) r k' m' (ready_task p k' m') /\ tasks_kept (reverse lr ++ lf) k k') k.
Proof.
  intros HK HP Hut Hr Hf Hp0. unfold LOS_TaskCreate. wp_step. destruct (OsTaskInitParamCheck (Some p)) as [code q] eqn:Epc. cbn [fst snd]. cbv zeta.
  destruct (negb (code =? LOS_OK)) eqn:Ec.
  { unfold LOS_TaskCreateOnly. rewrite Epc, Ec. cbn [negb]. wp_step. rewrite Ec. by apply wp_ret. }
  apply negb_false_iff, Z.eqb_eq in Ec as ->. assert (Hq : ∃ p', q = Some p').
  { unfold OsTaskInitParamCheck in Epc. repeat case_match; simplify_eq; by eexists. }
  destruct Hq as [p' ->]. destruct (param_check_ok _ _ Epc) as (P1 & P2 & P3 & P4 & P5).
  eapply wp_mono; [by apply (create_only_wp k m t lr lf p p')|]. intros [ret id] k1 (m1 & HK1 & HP1 & Hut1 & Hcr & _ & Hk1).
  unfold created in Hcr |- *. destruct (reverse lr ++ lf) as [|n l].
  { destruct Hcr as [[= -> ->] Hf1]. apply wp_ret. exists m1. by split_and!. }
  cbn [from_option]. destruct (no_stack _ _).
  { destruct Hcr as [[= -> ->] Hf1]. apply wp_ret. exists m1. by split_and!. }
  destruct Hcr as (x & c' & -> & [= -> ->] & Hf1 & Hc & Hn & Nt & Ni).
  change (negb (LOS_OK =? LOS_OK)) with false. cbv iota. wp_step. eapply wp_of_option; [done|]. wp_step.
  eapply wp_mono; [by apply (enqueue_new_wp k1 m1 t x c' p')|].
  intros [] k2 (h2 & b2 & c2 & l0 & l0' & Ek2 & Hl0 & Hl0' & HK2 & HP2 & D1 & D2 & D3 & D4 & D5). wp_step. apply wp_gets. rewrite (ki_on _ _ _ HK2). cbn [when].
  wp_step. eapply schedule_wp; [exact HK2|]. intros ps Hps HK3. apply wp_ret. eexists. split_and!; [exact HK3|exact HP2| | |].
  - destruct Hut1 as (ct & Hct & Hu). exists ct. rewrite Ek2. cbn. by rewrite lookup_insert_ne.
  - exists x, c2. split_and!; [done|done|by rewrite lookup_insert_ne|rewrite Ek2; apply lookup_insert_eq|]. split_and!; try congruence; [|exact Hps].
    rewrite <- P1. exists l0'. rewrite lookup_insert_eq. split; [done|]. rewrite Hl0'. left.
  - intros y Hy. rewrite Ek2. cbn. rewrite lookup_insert_ne by set_solver. by apply Hk1.
Qed.

(** ** Deletion *)

(** The lists in a block are no members of lists. *)
Lemma block_list_free idle h T b m n hd : SInv idle h T b m -> home m n hd -> (∀ e, n <> EventList e) /\ ∀ y, n <> JoinList y.
Proof. intros HI Hh. pose proof (si_members _ _ _ _ _ HI n hd Hh) as Hm. split; by intros ? ->. Qed.
Lemma vacant_block idle h T b m n :
  SInv idle h T b m -> (∃ y, n = EventList (TaskEvt y) \/ n = JoinList y) -> vacant m n <-> m !! n = None \/ m !! n = Some [].
Proof.
  intros HI [y Hy]. assert (Hno : ∀ hd, ~ home m n hd).
  { intros hd Hh. destruct (block_list_free _ _ _ _ _ _ _ HI Hh) as [N1 N2]. destruct Hy as [-> | ->]; [by eapply N1|by eapply N2]. }
  unfold vacant. rewrite owned_cases. split; intros [Hv|Hv]; auto.
  - left. apply eq_None_not_Some. auto.
  - left. rewrite Hv. intros [[? [=]]|[hd ?%Hno]]; done.
Qed.
Lemma pool_frame idle idle' h h' b b' T T' m m' :
  PoolInv T m -> SInv idle h T b m -> SInv idle' h' T' b' m' ->
  (∀ y u, u = FreeTask \/ u = TaskRecycle -> home m' (PendList y) u -> home m (PendList y) u /\ T' !! y = T !! y /\
    m' !! EventList (TaskEvt y) = m !! EventList (TaskEvt y) /\ m' !! JoinList y = m !! JoinList y) -> PoolInv T' m'.
Proof.
  intros HP HI HI' Hf y u Hu Hy. destruct (Hf y u Hu Hy) as (Hy0 & ET & E1 & E2). destruct (HP y u Hu Hy0) as ([V1 V2] & Hc). rewrite ET. split; [|done].
  split; (eapply (vacant_block _ _ _ _ _ _ HI'); [exists y; auto|]); [rewrite E1|rewrite E2]; (eapply (vacant_block _ _ _ _ _ _ HI); [exists y; auto|done]).
Qed.

(** The lists of the task [x] with block [c]. *)
Definition task_lists (m : gmap Node (list Node)) (x : Z) (c : LosTaskCB) : Prop :=
  m !! EventList (TaskEvt x) = Some [] /\
  if has c OS_TASK_FLAG_JOINABLE then ∃ lj, m !! JoinList x = Some lj /\ PendList x ∉ lj else vacant m (JoinList x).
(** The task that waits for the end of [x]. *)
Definition joiner (m : gmap Node (list Node)) (x : Z) (c : LosTaskCB) : option Node :=
  if has c OS_TASK_FLAG_JOINABLE then lj ← m !! JoinList x; head lj else None.

Definition woken_tcb (k : Kernel) : LosTaskCB -> LosTaskCB := wake_tcb (g_idleTaskID k) (g_schedTimeSlice k) (g_schedTimeSliceMin k).
(** The block of task [y] when the end of [x] has been reported. *)
Definition told (k : Kernel) (m : gmap Node (list Node)) (x : Z) (c : LosTaskCB) (y : Z) : option LosTaskCB :=
  if decide (joiner m x c = Some (PendList y)) then woken_tcb k <$> g_taskCBArray k !! y else g_taskCBArray k !! y.

(** A waiting task is not in the pool. *)
Lemma waiting_no_pool k m t y c u : KInv k m t -> g_taskCBArray k !! y = Some c -> has c OS_TASK_STATUS_UNUSED = false ->
  u = FreeTask \/ u = TaskRecycle -> ~ home m (PendList y) u.
Proof.
  intros HK Hc Hu Hp Hh. destruct (ok_home _ _ _ _ (si_tasks _ _ _ _ _ (ki_sched _ _ _ HK) _ _ Hc) u Hh) as [(-> & _)|[[Hw _]|[_ ?]]];
    [by destruct Hp|by destruct Hp as [-> | ->]|congruence].
Qed.
Lemma pend_used k m t y c : KInv k m t -> g_taskCBArray k !! y = Some c -> has c OS_TASK_STATUS_PEND = true -> has c OS_TASK_STATUS_UNUSED = false.
Proof.
  intros HK Hc Hp. destruct (has c OS_TASK_STATUS_UNUSED) eqn:E; [|done].
  destruct (ok_unused _ _ _ _ (si_tasks _ _ _ _ _ (ki_sched _ _ _ HK) _ _ Hc)) as (E1 & _); [by rewrite E|congruence].
Qed.

Definition pool_same (m m' : gmap Node (list Node)) : Prop := m' !! FreeTask = m !! FreeTask /\ m' !! TaskRecycle = m !! TaskRecycle.
Lemma pool_same_trans m1 m2 m3 : pool_same m1 m2 -> pool_same m2 m3 -> pool_same m1 m3.
Proof. unfold pool_same. intuition congruence. Qed.
Lemma join_post_wp k m t x c :
  KInv k m t -> PoolInv (g_taskCBArray k) m -> used k t -> g_taskCBArray k !! x = Some c -> task_lists m x c ->
  wp (OsTaskJoinPostUnsafe x) (λ _ k', ∃ m', KInv k' m' t /\ PoolInv (g_taskCBArray k') m' /\ used k' t /\
    g_taskCBArray k' !! x = Some c /\ task_lists m' x c /\ (∃ h' T' b' r', k' = upd h' T' b' r' k) /\
    (∀ y cy, g_taskCBArray k !! y = Some cy -> ∃ cy', g_taskCBArray k' !! y = Some cy' /\ taskID cy' = taskID cy /\
      (has cy OS_TASK_STATUS_PEND = false -> cy' = cy)) /\ pool_same m m' /\
    ∀ y, g_taskCBArray k' !! y = told k m x c y) k.
Proof.
  intros HK HP Hut Hc Hl. unfold OsTaskJoinPostUnsafe. wp_step. eapply wp_tcb; [done|]. fold (has c OS_TASK_FLAG_JOINABLE).
  assert (Hid : ∃ h' T' b' r', k = upd h' T' b' r' k) by (do 4 eexists; apply upd_id).
  assert (Hsm : ∀ y cy, g_taskCBArray k !! y = Some cy -> ∃ cy', g_taskCBArray k !! y = Some cy' /\ taskID cy' = taskID cy /\
    (has cy OS_TASK_STATUS_PEND = false -> cy' = cy)) by eauto 6. assert (Hps : pool_same m m) by done.
  unfold told, joiner. destruct (has c OS_TASK_FLAG_JOINABLE) eqn:Ej; cbn [when]; [|apply wp_ret; exists m; by split_and!].
  pose proof Hl as [Hev Hj]. rewrite Ej in Hj. destruct Hj as (lj & Hlj & Hxj). rewrite Hlj. cbn.
  wp_step. eapply kinv_empty; [done..|]. destruct lj as [|n l]; [rewrite bool_decide_true by done|rewrite bool_decide_false by done]; cbn [negb when].
  { apply wp_ret. exists m. by split_and!. }
  destruct (first_waiter k m t (JoinList x) n l HK eq_refl Hlj) as (y & cy & -> & Hcy & Hpy & Hrm).
  wp_step. eapply kinv_first; [done..|]. wp_step. eapply wp_of_option; [done|].
  eapply wp_mono; [eapply (kinv_wake k m t y cy (JoinList x)); [done..|left]|]. intros [] k' (h' & b' & r' & m' & -> & HK' & Hj' & Hf).
  rewrite Hrm in Hj'. assert (Nx : y <> x) by (intros ->; set_solver).
  destruct (wake_flags (g_idleTaskID k) (g_schedTimeSlice k) (g_schedTimeSliceMin k) cy) as (_ & _ & Fu & _ & _ & Fi & _).
  assert (Hm : ∀ hd, hd <> JoinList x -> hd <> TaskSortLink -> (∀ p, hd <> PriQueue p) -> m' !! hd = m !! hd) by (intros; by apply Hf).
  exists m'. split_and!; [done| | | | |by do 4 eexists| |by split; apply Hm|].
  - eapply pool_frame; [exact HP|apply HK|apply HK'|]. intros z u Hu Hz. assert (Hz0 : home m (PendList z) u).
    { destruct Hz as (lz & Hlz & Hin). rewrite Hm in Hlz; [by exists lz|by destruct Hu as [-> | ->]..]. }
    assert (Nz : z <> y) by (intros ->; eapply (waiting_no_pool k m t y cy u); eauto using pend_used).
    assert (Nzx : z <> x). { intros ->. destruct (HP x u Hu Hz0) as (_ & c0 & Hc0 & _ & Hj0). congruence. }
    cbn. rewrite lookup_insert_ne by done. split_and!; [done|done|by apply Hm|apply Hm; congruence].
  - destruct Hut as (ct & Hct & Hu). destruct (decide (y = t)) as [->|]; [|exists ct; cbn; by rewrite lookup_insert_ne].
    eexists. cbn. rewrite lookup_insert_eq. split; [done|]. rewrite Fu. congruence.
  - cbn. by rewrite lookup_insert_ne.
  - split; [by rewrite Hm|]. rewrite Ej. exists l. split; [done|]. set_solver.
  - cbn. intros z cz Hz. rewrite lookup_insert. case_decide; [subst z|by apply Hsm]. eexists. split_and!; [done|rewrite Fi|]; congruence.
  - cbn. intros z. case_decide as E; [injection E as ->; by rewrite lookup_insert_eq, Hcy|]. rewrite lookup_insert_ne; [done|]. intros ->. by apply E.
Qed.

(** A task that has left its lists. *)
Lemma exit_flags c : has (exit_tcb c) OS_TASK_STATUS_EXIT = true /\ has (exit_tcb c) OS_TASK_STATUS_UNUSED = has c OS_TASK_STATUS_UNUSED /\
  has (exit_tcb c) OS_TASK_STATUS_RUNNING = has c OS_TASK_STATUS_RUNNING /\ has (exit_tcb c) OS_TASK_FLAG_JOINABLE = has c OS_TASK_FLAG_JOINABLE /\
  taskID (exit_tcb c) = taskID c.
Proof. unfold exit_tcb. repeat case_match; unfold has; cbn; by bits. Qed.

Lemma exited_homeless idle h T b m x c :
  SInv idle h T b m -> T !! x = Some c -> has c OS_TASK_STATUS_EXIT = true -> has c OS_TASK_STATUS_UNUSED = false -> homeless m x.
Proof.
  intros HI Hc He Hu. destruct (si_tasks _ _ _ _ _ HI x c Hc). destruct ok_unused as (E1 & E2 & E3); [by rewrite He, orb_true_r|]. split; intros hd Hh.
  - destruct (ok_home hd Hh) as [(_ & Hr & _)|[[_ ?]|[_ ?]]]; [|congruence..]. destruct (ok_ready Hr) as (_ & _ & _ & _ & _ & ?). congruence.
  - destruct (ok_sort_home hd Hh) as (_ & _ & E). by rewrite E2, E3 in E.
Qed.

Lemma exit_other_wp k m t x c (T := g_taskCBArray k) :
  KInv k m t -> PoolInv T m -> T !! x = Some c -> has c OS_TASK_STATUS_UNUSED = false -> has c OS_TASK_STATUS_EXIT = false -> task_lists m x c ->
  wp (OsSchedTaskExit x) (λ _ k', ∃ h' b' r' m', k' = upd h' (<[x := exit_tcb c]> T) b' r' k /\
    SInv (g_idleTaskID k) h' (<[x := exit_tcb c]> T) b' m' /\ homeless m' x /\ PoolInv (<[x := exit_tcb c]> T) m' /\ task_lists m' x c /\
    m' !! SwtmrSortLink = m !! SwtmrSortLink /\ pool_same m m') k.
Proof.
  intros HK HP Hc Hu He [Hev Hj]. pose proof (ki_sched _ _ _ HK) as HI. to_upd. eapply wp_mono; [by eapply exit_wp|].
  intros [] k' (h' & b' & r' & m' & -> & HI' & Hf). exists h', b', r', m'. destruct (exit_flags c) as (Fe & Fu & _).
  assert (Hhd : ∀ hd, hd <> TaskSortLink -> wait_head hd = false -> (∀ p, hd <> PriQueue p) -> m' !! hd = m !! hd).
  { intros hd N1 N2 N3. apply Hf; [|done]. intros Hh. destruct (ok_home _ _ _ _ (si_tasks _ _ _ _ _ HI x c Hc) hd Hh) as [(-> & _)|[[? _]|[_ ?]]];
      [by eapply N3|congruence..]. }
  assert (Hemp : ∀ hd, hd <> TaskSortLink -> m !! hd = None \/ m !! hd = Some [] -> m' !! hd = m !! hd).
  { intros hd N1 N2. apply Hf; [|done]. intros (l & Hl & Hin). destruct N2; simplify_eq. by apply elem_of_nil in Hin. }
  split_and!; [done|done| | | |by apply Hhd|by split; apply Hhd].
  - eapply exited_homeless; [exact HI'|apply lookup_insert_eq|done|congruence].
  - eapply pool_frame; [exact HP|exact HI|exact HI'|]. intros z u Hz Hh. assert (Hh0 : home m (PendList z) u).
    { destruct Hh as (l & Hl & Hin). exists l. split; [|done]. rewrite <- Hl. symmetry. by apply Hhd; destruct Hz as [-> | ->]. }
    destruct (HP z u Hz Hh0) as ([V1 V2] & _). split_and!; [done| | |].
    + apply lookup_insert_ne. intros ->. by eapply (waiting_no_pool k m t z c u).
    + apply Hemp; [done|]. eapply (vacant_block _ _ _ _ _ _ HI); [by exists z; left|done].
    + apply Hemp; [done|]. eapply (vacant_block _ _ _ _ _ _ HI); [by exists z; right|done].
  - split; [rewrite Hemp; auto|]. destruct (has c OS_TASK_FLAG_JOINABLE).
    + destruct Hj as (lj & Hlj & Hx). exists lj. split; [|done]. rewrite Hf; [done| |done]. intros (l & Hl & Hin). congruence.
    + eapply (vacant_block _ _ _ _ _ _ HI) in Hj; [|by exists x; right]. eapply (vacant_block _ _ _ _ _ _ HI'); [by exists x; right|]. by rewrite Hemp.
Qed.

Lemma event_destroy_wp h T b r k m e (idle := g_idleTaskID k) :
  SInv idle h T b m -> m !! EventList e = Some [] ->
  wp (LOS_EventDestroy (Some e)) (λ ret k', ret = LOS_OK /\ ∃ h', k' = upd h' T b r k /\ SInv idle h' T b (delete (EventList e) m)) (upd h T b r k).
Proof.
  intros HI Hl. unfold LOS_EventDestroy. wp_step. eapply wp_upd_empty; [apply HI|exact Hl|]. rewrite bool_decide_true by done. cbn [negb].
  pose proof (Rep_clear _ _ (EventList e) (si_rep _ _ _ _ _ HI) (or_intror Hl)) as Hw. with_strategy transparent [ListClear] unfold ListClear in Hw. apply wp_bind_inv in Hw.
  wp_step. apply wp_upd_list. eapply wp_mono; [exact Hw|]. cbn. intros _ h1 Hw1.
  wp_step. apply wp_upd_list. eapply wp_mono; [exact Hw1|]. cbn. intros _ h2 HR. apply wp_ret. split; [done|]. exists h2. split; [done|].
  assert (Hhm : ∀ n hd, home (delete (EventList e) m) n hd <-> home m n hd) by (intros; apply home_delete; by right).
  destruct HI as [_ [HB1 HB2] (ls & Hls & Hst) Hh Hf Hr Hm Ht]. split; [done|..].
  - split; [done|]. intros p Hp. rewrite lookup_delete_ne by done. auto.
  - exists ls. by rewrite lookup_delete_ne.
  - intros hd l [_ Hd]%lookup_delete_Some. eauto.
  - by rewrite lookup_delete_ne.
  - by rewrite lookup_delete_ne.
  - intros n hd. rewrite Hhm. apply Hm.
  - intros y c Hc. eapply task_ok_frame; [intros; apply Hhm..|auto].
Qed.

(** A change of the block of a task that is in no list. *)
Definition life_flag (f : Z) : Prop :=
  f = OS_TASK_STATUS_READY \/ f = OS_TASK_STATUS_PEND \/ f = OS_TASK_STATUS_DELAY \/ f = OS_TASK_STATUS_PEND_TIME \/ f = OS_TASK_FLAG_FREEZE \/
  f = OS_TASK_STATUS_UNUSED \/ f = OS_TASK_STATUS_EXIT \/ f = OS_TASK_STATUS_RUNNING \/ f = OS_TASK_FLAG_JOINABLE.
Lemma quiet_inv idle h T b m x c c' :
  SInv idle h (<[x := c]> T) b m -> homeless m x -> has c OS_TASK_STATUS_EXIT = true -> has c OS_TASK_STATUS_UNUSED = false ->
  taskID c' = taskID c -> responseTime c' = responseTime c -> priority c' = priority c -> (∀ f, life_flag f -> has c' f = has c f) ->
  SInv idle h (<[x := c']> T) b m.
Proof.
  intros HI Hhl Fe Fu Ec Ei Ep Hf. assert (Hok := si_tasks _ _ _ _ _ HI x c). rewrite lookup_insert_eq in Hok. specialize (Hok eq_refl).
  rewrite <- (insert_insert_eq T x _ c). eapply SInv_life; [exact HI|apply HI|done|done|apply HI|apply HI|apply HI|apply Hhl|].
  assert (Hr : has c OS_TASK_STATUS_READY = false).
  { destruct (has c OS_TASK_STATUS_READY) eqn:E; [|done]. destruct (ok_ready _ _ _ _ Hok E) as (_ & _ & _ & _ & _ & ?). congruence. }
  destruct (ok_unused _ _ _ _ Hok) as (E1 & E2 & E3); [by rewrite Fe, orb_true_r|]. destruct Hhl as [H1 H2].
  split; rewrite ?Hf, ?Hr, ?E1, ?E2, ?E3, ?Fe, ?Fu, ?Ec, ?Ei, ?Ep by (unfold life_flag; tauto); try done; try apply Hok; try done.
  - intros _. by apply (ok_prio _ _ _ _ Hok).
  - intros hd Hh. by destruct (H1 hd).
  - intros hd Hh. by destruct (H2 hd).
  - intros _. by apply (ok_sorted _ _ _ _ Hok).
Qed.

(** What is left of the task: its block, with the task that deleted it. *)
Definition left_tcb (c : LosTaskCB) : LosTaskCB := set_eventMask (λ _, 0) (exit_tcb c).
Lemma left_flags c : has (left_tcb c) OS_TASK_STATUS_EXIT = true /\ has (left_tcb c) OS_TASK_STATUS_UNUSED = has c OS_TASK_STATUS_UNUSED /\
  has (left_tcb c) OS_TASK_STATUS_RUNNING = has c OS_TASK_STATUS_RUNNING /\ has (left_tcb c) OS_TASK_FLAG_JOINABLE = has c OS_TASK_FLAG_JOINABLE /\
  taskID (left_tcb c) = taskID c.
Proof. apply exit_flags. Qed.
Definition dead_tcb (v : Z) (c : LosTaskCB) : LosTaskCB := set_joinRetval (λ _, v) (left_tcb c).
Definition kept_tcb (v : Z) (c : LosTaskCB) : LosTaskCB :=
  if has c OS_TASK_FLAG_JOINABLE then unstacked_tcb (dead_tcb v c) else freed_tcb (dead_tcb v c).
Lemma unstacked_flags c f : life_flag f -> has (unstacked_tcb c) f = has c f.
Proof.
  intros Hf. unfold unstacked_tcb. destruct (owns_stack _); [|done]. unfold has. cbn.
  repeat destruct Hf as [->|Hf]; try subst f; by bits.
Qed.
Lemma unstacked_inv idle h T b m x v c :
  SInv idle h (<[x := left_tcb c]> T) b m -> homeless m x -> has c OS_TASK_STATUS_UNUSED = false ->
  SInv idle h (<[x := dead_tcb v c]> T) b m /\ SInv idle h (<[x := unstacked_tcb (dead_tcb v c)]> T) b m.
Proof.
  intros HI Hhl Hu. destruct (exit_flags c) as (Fe & Fu & _). rewrite Hu in Fu. split; eapply (quiet_inv _ _ _ _ _ _ (left_tcb c)); try done.
  - by rewrite unstacked_id.
  - unfold unstacked_tcb. by case_match.
  - unfold unstacked_tcb. by case_match.
  - intros f Hf. by rewrite unstacked_flags.
Qed.
Lemma pool_dead T m x c c' : PoolInv (<[x := c]> T) m -> homeless m x -> PoolInv (<[x := c']> T) m.
Proof.
  intros HP [Hh _] y u Hu Hy. destruct (decide (y = x)) as [->|Hne]; [by destruct (Hh u)|].
  destruct (HP y u Hu Hy) as (Hv & Hc). rewrite lookup_insert_ne in Hc |- * by done. done.
Qed.
Lemma pool_destroyed T m x : PoolInv T m -> homeless m x -> m !! EventList (TaskEvt x) = Some [] -> PoolInv T (delete (EventList (TaskEvt x)) m).
Proof.
  intros HP [Hh _] Hl y u Hu Hy. assert (Hx : vacant m (EventList (TaskEvt x))) by by right. rewrite home_delete in Hy by done.
  assert (Hne : y <> x) by (intros ->; by apply (Hh u)). destruct (HP y u Hu Hy) as ([V1 V2] & Hc).
  split; [|done]. split; apply vacant_delete; congruence.
Qed.

(** The block of the deleted task [x]: a joinable one keeps the value for the
    task that joins it, any other is the first of the free blocks. *)
Definition buried (m : gmap Node (list Node)) (k' : Kernel) (m' : gmap Node (list Node)) (x : Z) (c' : LosTaskCB) : Prop :=
  g_taskCBArray k' !! x = Some c' /\
  if has c' OS_TASK_FLAG_JOINABLE then has c' OS_TASK_STATUS_EXIT = true /\ homeless m' x
  else has c' OS_TASK_STATUS_UNUSED = true /\ ∃ l, m !! FreeTask = Some l /\ m' !! FreeTask = Some (PendList x :: l).

Lemma buried_from m m0 k' m' x c' : pool_same m m0 -> buried m0 k' m' x c' -> buried m k' m' x c'.
Proof. unfold buried. intros [<- _]. done. Qed.

Lemma recycle_dead_wp k m0 m t v x c h b r l (T := g_taskCBArray k) :
  KInv k m0 t -> m !! SwtmrSortLink = m0 !! SwtmrSortLink -> PoolInv (<[x := left_tcb c]> T) m -> used k t ->
  x <> t -> x <> g_idleTaskID k -> taskID c = x -> has c OS_TASK_STATUS_UNUSED = false -> has c OS_TASK_STATUS_RUNNING = false ->
  SInv (g_idleTaskID k) h (<[x := left_tcb c]> T) b m -> homeless m x -> m !! FreeTask = Some l ->
  (has c OS_TASK_FLAG_JOINABLE = false -> vacant_lists m x) ->
  wp (let* stackPtr := OsRecycleTaskResources x in freeStack stackPtr ;;; mret LOS_OK)
    (λ ret k', ret = LOS_OK /\ ∃ m', KInv k' m' t /\ PoolInv (g_taskCBArray k') m' /\ used k' t /\
      buried m k' m' x (kept_tcb v c) /\ ∀ y, y <> x -> g_taskCBArray k' !! y = T !! y) (upd h (<[x := dead_tcb v c]> T) b r k).
Proof.
  intros HK Esw HP Hut Hxt Hxi Hid Hu Hrun HI Hhl Hfr Hv. destruct (left_flags c) as (Fe & Fu & Fr & Fj & Fi).
  assert (Ej : has (dead_tcb v c) OS_TASK_FLAG_JOINABLE = has c OS_TASK_FLAG_JOINABLE) by done.
  destruct (unstacked_inv _ _ _ _ _ _ v _ HI Hhl Hu) as [HI1 HI2].
  assert (Hut' : ∀ c', ∃ ct, <[x := c']> T !! t = Some ct /\ has ct OS_TASK_STATUS_UNUSED = false).
  { intros c'. destruct Hut as (ct & Hct & Hut). exists ct. by rewrite lookup_insert_ne. }
  wp_step. eapply wp_mono; [eapply (recycle_resources_wp _ _ _ _ _ _ _ _ _ HI1 (lookup_insert_eq _ _ _)); [done| |exact Hfr]|].
  { rewrite Ej. exact Hv. }
  intros sp k' [_ Hk']. rewrite Ej in Hk'. unfold kept_tcb. wp_step. destruct (has c OS_TASK_FLAG_JOINABLE) eqn:Ejc.
  - subst k'. rewrite insert_insert_eq. apply free_stack_wp. intros pool _. apply wp_ret. split; [done|]. exists m.
    assert (Ef : ∀ f, life_flag f -> has (unstacked_tcb (dead_tcb v c)) f = has (left_tcb c) f) by (intros f Hf; by rewrite unstacked_flags).
    unfold life_flag in Ef.
    split_and!; [| |by apply Hut'|split; [apply lookup_insert_eq|]|intros; by apply lookup_insert_ne].
    + eapply (KInv_life (set_sysMem (λ _, pool) k)); [by apply KInv_sysMem|done|done| | |exact HI2|done].
      * rewrite Ef by tauto. congruence.
      * rewrite Ef by tauto. intros E. pose proof (si_tasks _ _ _ _ _ HI x _ (lookup_insert_eq _ _ _)) as Hok.
        destruct (ok_unused _ _ _ _ Hok) as (_ & _ & ?); [by rewrite Fe, orb_true_r|congruence].
    + by eapply pool_dead.
    + rewrite (Ef OS_TASK_FLAG_JOINABLE), (Ef OS_TASK_STATUS_EXIT) by tauto. by rewrite Fj.
  - destruct Hk' as (h' & -> & HI3). rewrite insert_insert_eq in HI3 |- *. apply free_stack_wp. intros pool _. apply wp_ret. split; [done|].
    exists (freed_lists x l m). split_and!; [| |by apply Hut'| |intros; by apply lookup_insert_ne].
    + eapply (KInv_life (set_sysMem (λ _, pool) (set_eventIDs (insert (TaskEvt x) 0) k))); [by apply KInv_sysMem, KInv_eventIDs|done|done|done|done|exact HI3|].
      unfold freed_lists. by rewrite lookup_insert_ne, !lookup_delete_ne.
    + cbn. rewrite <- (insert_insert_eq T x _ (left_tcb c)). eapply pool_freed; [done|apply HI|done|by apply Hv|done|].
      change (taskID (left_tcb c) = x). congruence.
    + split; [apply lookup_insert_eq|]. split; [done|]. exists l. split; [done|]. unfold freed_lists. by rewrite lookup_insert_eq.
Qed.

Lemma wp_upd_cur h T b r k t ct (Q : Z -> Kernel -> Prop) :
  runTask k = Some t -> T !! t = Some ct -> Q (taskID ct) (upd h T b r k) -> wp LOS_CurTaskIDGet Q (upd h T b r k).
Proof.
  intros Ht Hct HQ. unfold LOS_CurTaskIDGet. wp_step. wp_step. change (runTask (upd h T b r k)) with (runTask k). rewrite Ht.
  wp_step. eapply wp_upd_tcb; [done|]. by apply wp_ret.
Qed.

(** The first steps, the same for the running and for other tasks. *)
Lemma leave_wp {A} k m t x c (g : M Kernel A) Q (T := g_taskCBArray k) :
  KInv k m t -> PoolInv T m -> T !! x = Some c -> task_lists m x c -> has c OS_TASK_STATUS_UNUSED = false -> has c OS_TASK_STATUS_EXIT = false ->
  (∀ h b r m', SInv (g_idleTaskID k) h (<[x := left_tcb c]> T) b m' -> homeless m' x -> PoolInv (<[x := left_tcb c]> T) m' ->
    m' !! SwtmrSortLink = m !! SwtmrSortLink -> pool_same m m' -> (has c OS_TASK_FLAG_JOINABLE = false -> vacant_lists m' x) ->
    wp g Q (upd h (<[x := left_tcb c]> T) b r (set_eventIDs (insert (TaskEvt x) OS_NULL_INT) k))) ->
  wp (OsSchedTaskExit x ;;;
      let* _ := LOS_EventDestroy (Some (TaskEvt x)) in
      modify (set_eventIDs (insert (TaskEvt x) OS_NULL_INT)) ;;;
      mod_tcb x (set_eventMask (λ _, 0)) ;;; g) Q k.
Proof.
  intros HK HP Hc Hl Hu He HQ. destruct (exit_flags c) as (Fe & Fu & _).
  wp_step. eapply wp_mono; [by eapply exit_other_wp|]. intros [] k' (h1 & b1 & r1 & m1 & -> & HI1 & Hhl & HP1 & [Hev Hj] & Es & [Ef Er]).
  wp_step. eapply wp_mono; [by eapply event_destroy_wp|]. intros ret k' (_ & h2 & -> & HI2). assert (Hv : vacant m1 (EventList (TaskEvt x))) by by right.
  wp_step. apply wp_upd_eventIDs. wp_step. eapply wp_upd_mod_tcb; [apply lookup_insert_eq|]. rewrite insert_insert_eq.
  assert (Hhl2 : homeless (delete (EventList (TaskEvt x)) m1) x) by by apply homeless_delete.
  apply (HQ _ _ _ (delete (EventList (TaskEvt x)) m1)); [|done| |by rewrite lookup_delete_ne|by split; rewrite lookup_delete_ne|].
  - eapply (quiet_inv _ _ _ _ _ _ (exit_tcb c)); try done. congruence.
  - eapply pool_dead; [|exact Hhl2]. by apply pool_destroyed.
  - intros Ej. rewrite Ej in Hj. split; [|by apply vacant_delete]. left.
    intros [[l0 Hs]|[hd Hh]]%owned_cases; [by rewrite lookup_delete_eq in Hs|].
    apply (block_list_free _ _ _ _ _ _ _ HI2) in Hh as [N _]. by eapply N.
Qed.

(** Deleting another task. *)
Lemma task_delete_wp k m t ct x c (T := g_taskCBArray k) :
  KInv k m t -> PoolInv T m -> used k t -> T !! t = Some ct -> user_task k x -> x <> t -> T !! x = Some c -> taskID c = x ->
  (has c OS_TASK_STATUS_UNUSED = false -> task_lists m x c) ->
  wp (LOS_TaskDelete x) (λ ret k',
    if has c OS_TASK_FLAG_SYSTEM_TASK then ret = LOS_ERRNO_TSK_OPERATE_SYSTEM_TASK /\ k' = k
    else if has c OS_TASK_STATUS_UNUSED then ret = LOS_ERRNO_TSK_NOT_CREATED /\ k' = k
    else if has c OS_TASK_STATUS_EXIT then ret = LOS_ERRNO_TSK_ALREADY_EXIT /\ k' = k
    else if has c OS_TASK_FLAG_SIGNAL then ret = LOS_ERRNO_TSK_PROCESS_SIGNAL /\ k' = k
    else ret = LOS_OK /\ ∃ m', KInv k' m' t /\ PoolInv (g_taskCBArray k') m' /\ used k' t /\
      buried m k' m' x (kept_tcb (taskID ct) c) /\
      ∀ y, y <> x -> g_taskCBArray k' !! y = told k m x c y) k.
Proof.
  intros HK HP Hut Hct Hx Hxt Hc Hid Hl. unfold LOS_TaskDelete. wp_step. apply task_id_wp; [done|]. rewrite Z.eqb_refl. cbn [negb].
  wp_step. eapply wp_tcb; [done|]. fold (has c OS_TASK_FLAG_SYSTEM_TASK) (has c OS_TASK_STATUS_UNUSED) (has c OS_TASK_STATUS_EXIT) (has c OS_TASK_FLAG_SIGNAL).
  destruct (has c OS_TASK_FLAG_SYSTEM_TASK); [by apply wp_ret|]. destruct (has c OS_TASK_STATUS_UNUSED) eqn:Hu; [by apply wp_ret|].
  destruct (has c OS_TASK_STATUS_EXIT) eqn:He; [by apply wp_ret|]. destruct (has c OS_TASK_FLAG_SIGNAL); [by apply wp_ret|].
  assert (Hrun : test (taskStatus c) OS_TASK_STATUS_RUNNING = false).
  { destruct (test (taskStatus c) OS_TASK_STATUS_RUNNING) eqn:E; [|done]. destruct (ki_run _ _ _ HK) as [_ Huniq]. by destruct (Hxt (Huniq x c Hc E Hu)). }
  rewrite Hrun. cbn [andb when]. wp_step. wp_step. wp_step. apply wp_ret.
  wp_step. eapply wp_mono; [by eapply join_post_wp; eauto|].
  intros [] k1 (m1 & HK1 & HP1 & Hut1 & Hc1 & Hl1 & (h1 & T1 & b1 & r1 & Ek1) & Hn & Hps & Hf).
  destruct (Hn t ct Hct) as (ct1 & Hct1 & <- & _). assert (Hi : x <> g_idleTaskID k1) by (rewrite Ek1; apply Hx). clear Ek1. destruct (left_flags c) as (_ & _ & Fr & _).
  eapply (leave_wp _ m1 t x c); [done..|]. intros h2 b2 r2 m2 HI2 Hhl HP2 Es Hps2 Hv. wp_step. eapply wp_upd_tcb; [apply lookup_insert_eq|].
  assert (Er : test (taskStatus (left_tcb c)) OS_TASK_STATUS_RUNNING = false) by (rewrite <- Hrun; exact Fr).
  rewrite Er. wp_step. eapply wp_upd_cur; [apply HK1|by rewrite lookup_insert_ne|]. wp_step. eapply wp_upd_mod_tcb; [apply lookup_insert_eq|].
  rewrite insert_insert_eq. destruct (si_free _ _ _ _ _ HI2) as [l Hfr].
  eapply wp_mono; [eapply (recycle_dead_wp (set_eventIDs (insert (TaskEvt x) OS_NULL_INT) k1) m1 m2 t (taskID ct1)); [by apply KInv_eventIDs|done..]|].
  intros ret k' (-> & m' & HK' & HP' & Hu' & Hb & Hy). split; [done|].
  exists m'. split_and!; [done..|by eapply buried_from, Hb; eapply pool_same_trans|]. intros y Hyx. rewrite Hy by done. by apply Hf.
Qed.

(** ** The running task ends *)

(** The block after the last one, which runs in place of a deleted task until the
    switch: it waits for nothing, and is not in the pool. *)
Definition spare (k : Kernel) (m : gmap Node (list Node)) : Prop :=
  ∃ cm, g_taskCBArray k !! g_taskMaxNum k = Some cm /\ g_taskMaxNum k <> g_idleTaskID k /\ 0 <= startTime cm <= g_oldTickTimerBase k /\
    has cm OS_TASK_STATUS_READY = false /\ has cm OS_TASK_STATUS_PEND = false /\
    has cm OS_TASK_STATUS_DELAY = false /\ has cm OS_TASK_STATUS_PEND_TIME = false /\
    ~ home m (PendList (g_taskMaxNum k)) FreeTask /\ ~ home m (PendList (g_taskMaxNum k)) TaskRecycle.

Lemma spare_homeless idle h T b m x cm :
  SInv idle h T b m -> T !! x = Some cm -> has cm OS_TASK_STATUS_READY = false -> has cm OS_TASK_STATUS_PEND = false ->
  has cm OS_TASK_STATUS_DELAY = false -> has cm OS_TASK_STATUS_PEND_TIME = false ->
  ~ home m (PendList x) FreeTask -> ~ home m (PendList x) TaskRecycle -> homeless m x.
Proof.
  intros HI Hc Hr Hp Hd Ht N1 N2. destruct (si_tasks _ _ _ _ _ HI x cm Hc). split; intros hd Hh.
  - destruct (ok_home hd Hh) as [(_ & ? & _)|[[_ ?]|[[-> | ->] _]]]; congruence || auto.
  - destruct (ok_sort_home hd Hh) as (_ & _ & E). by rewrite Hd, Ht in E.
Qed.

Lemma unused_ok idle m x c :
  (taskID c = idle <-> x = idle) -> has c OS_TASK_STATUS_UNUSED = true -> has c OS_TASK_STATUS_READY = false -> has c OS_TASK_STATUS_PEND = false ->
  has c OS_TASK_STATUS_DELAY = false -> has c OS_TASK_STATUS_PEND_TIME = false -> has c OS_TASK_FLAG_FREEZE = false ->
  (∀ hd, home m (PendList x) hd -> hd = FreeTask \/ hd = TaskRecycle) -> (∀ hd, ~ home m (SortNode x) hd) -> task_ok idle m x c.
Proof. intros Hid Hu Hr Hp Hd Ht Hf Hh Hs. split; try congruence; try done; [intros hd Hhd; right; right; auto|intros hd Hhd; by destruct (Hs hd)]. Qed.

(** The deleted task's block, and the block that runs in its place. *)
Definition ended_tcb (c : LosTaskCB) : LosTaskCB := set_taskStatus (setf OS_TASK_STATUS_UNUSED) (left_tcb c).
Definition spare_tcb (t : Z) (c cm : LosTaskCB) : LosTaskCB :=
  set_taskName (λ _, taskName c) (set_topOfStack (λ _, topOfStack c)
    (set_taskStatus (λ _, setf OS_TASK_STATUS_RUNNING (taskStatus c)) (set_taskID (λ _, t) cm))).
Definition quiet_flags (c : LosTaskCB) : Prop :=
  has c OS_TASK_STATUS_READY = false /\ has c OS_TASK_STATUS_PEND = false /\ has c OS_TASK_STATUS_DELAY = false /\
  has c OS_TASK_STATUS_PEND_TIME = false /\ has c OS_TASK_FLAG_FREEZE = false.
Lemma left_quiet idle m x c : task_ok idle m x (left_tcb c) -> quiet_flags (left_tcb c).
Proof.
  intros []. destruct (left_flags c) as (Fe & _). destruct ok_unused as (? & ? & ?); [by rewrite Fe, orb_true_r|]. split_and!; try done.
  destruct (has (left_tcb c) OS_TASK_STATUS_READY) eqn:E; [|done]. destruct (ok_ready eq_refl) as (_ & _ & _ & _ & _ & ?). congruence.
Qed.
Lemma ended_flags t c cm : quiet_flags (left_tcb c) -> has c OS_TASK_FLAG_JOINABLE = false ->
  quiet_flags (ended_tcb c) /\ has (ended_tcb c) OS_TASK_STATUS_UNUSED = true /\ has (ended_tcb c) OS_TASK_FLAG_JOINABLE = false /\
  quiet_flags (spare_tcb t (ended_tcb c) cm) /\ has (spare_tcb t (ended_tcb c) cm) OS_TASK_STATUS_UNUSED = true /\
  has (spare_tcb t (ended_tcb c) cm) OS_TASK_STATUS_RUNNING = true.
Proof.
  destruct (left_flags c) as (_ & _ & _ & Fj & _). rewrite <- Fj. unfold ended_tcb, spare_tcb, quiet_flags. generalize (left_tcb c) as e.
  intros e (H1 & H2 & H3 & H4 & H5) H6. unfold has in *. cbn. bits. by split_and!.
Qed.

Lemma wp_upd_runTask h T b r k f (Q : unit -> Kernel -> Prop) :
  Q tt (upd h T b r (set_runTask f k)) -> wp (modify (set_runTask f)) Q (upd h T b r k).
Proof. done. Qed.

(** A request to switch away from [new], which need not be able to run. *)
Lemma KInv_end k m0 m t new h T b r :
  KInv k m0 t -> m !! SwtmrSortLink = m0 !! SwtmrSortLink -> SInv (g_idleTaskID k) h T b m -> idle_ok (g_idleTaskID k) T -> timed_ok T ->
  run_ok (g_oldTickTimerBase k) new T -> KInv (set_pendSV (λ _, true) (upd h T b r (set_runTask (λ _, Some new) k))) m new.
Proof. intros [KI KT KC KM KD KR KU KO KL] Es HI Hi Ht Hr. split; try done. by eapply timers_frame. Qed.
Lemma schedule_end_wp k (Q : unit -> Kernel -> Prop) :
  g_taskScheduled k = true -> g_losTaskLock k = 0 -> Q tt (set_pendSV (λ _, true) k) -> wp LOS_Schedule Q k.
Proof.
  intros Hs Hl HQ. unfold LOS_Schedule, OsCheckKernelRunning. wp_steps. rewrite Hs, Hl. cbn [andb when Z.eqb]. unfold ArchTaskSchedule. by wp_steps.
Qed.

Lemma ended_inv idle h h' T b m t x c cm lr (T' := <[x := spare_tcb t (ended_tcb c) cm]> (<[t := ended_tcb c]> T)) (m' := <[TaskRecycle := lr ++ [PendList t]]> m) :
  SInv idle h (<[t := left_tcb c]> T) b m -> homeless m t -> homeless m x -> x <> t -> x <> idle -> t <> idle -> has c OS_TASK_FLAG_JOINABLE = false ->
  m !! TaskRecycle = Some lr -> Rep h' m' -> SInv idle h' T' b m'.
Proof.
  intros HI Ht Hx Hxt Hxi Hti Hj Hr HR. pose proof (si_tasks _ _ _ _ _ HI t _ (lookup_insert_eq _ _ _)) as Hok.
  destruct (ended_flags t c cm (left_quiet _ _ _ _ Hok) Hj) as ((A1 & A2 & A3 & A4 & A5) & Au & _ & (B1 & B2 & B3 & B4 & B5) & Bu & _).
  assert (Hh : ∀ n hd, home m' n hd <-> home m n hd \/ n = PendList t /\ hd = TaskRecycle)
    by (intros; apply (home_add _ _ lr); [done|by rewrite Permutation_app_comm]).
  assert (HI1 : SInv idle h' (<[t := ended_tcb c]> T) b m').
  { rewrite <- (insert_insert_eq T t _ (left_tcb c)). eapply SInv_life; [exact HI|done|..].
    - intros hd Hhd. apply lookup_insert_ne. by destruct Hhd as [-> | [p ->]].
    - intros n hd Hn. rewrite Hh. naive_solver.
    - intros hd l0 [[<- _]|[_ Hl0]]%lookup_insert_Some; [done|by apply (si_heads _ _ _ _ _ HI) in Hl0].
    - unfold m'. rewrite lookup_insert_ne by done. apply HI.
    - unfold m'. rewrite lookup_insert_eq. by eexists.
    - apply Ht.
    - apply unused_ok; try done; [apply Hok| |]; intros hd; rewrite Hh; [intros [Hhd|[_ ->]]; [by apply Ht in Hhd|auto]|].
      intros [Hhd|[? _]]; [by apply Ht in Hhd|done]. }
  eapply SInv_life; [exact HI1|done|done|done|apply HI1|apply HI1|apply HI1| |].
  - intros hd [Hhd|[? _]]%Hh; [by apply Hx in Hhd|done].
  - apply unused_ok; try done; intros hd; rewrite Hh; intros [Hhd|[? _]]; by apply Hx in Hhd || congruence.
Qed.
Lemma ended_pool idle h T b m t x c lr c' (T' := <[x := c']> (<[t := ended_tcb c]> T)) (m' := <[TaskRecycle := lr ++ [PendList t]]> m) :
  PoolInv (<[t := left_tcb c]> T) m -> SInv idle h T' b m' -> homeless m x -> x <> t -> taskID c = t -> has (ended_tcb c) OS_TASK_FLAG_JOINABLE = false ->
  m !! TaskRecycle = Some lr -> vacant_lists m t -> PoolInv T' m'.
Proof.
  intros HP HI Hx Hxt Hid Hj Hr Hv y u Hu Hy. destruct (left_flags c) as (_ & _ & _ & _ & Fi).
  assert (Hvm : ∀ z, vacant_lists m z -> vacant_lists m' z).
  { intros z [V1 V2]. assert (X : ∀ n, n <> TaskRecycle -> item_node n = false -> (∃ y, n = EventList (TaskEvt y) \/ n = JoinList y) -> vacant m n -> vacant m' n).
    { intros n N1 N2 N3 [Ho|Hn]; eapply (vacant_block _ _ _ _ _ _ HI); try done; unfold m'; rewrite lookup_insert_ne by done; [left|by right].
      apply eq_None_not_Some. intros Hs. apply Ho, owned_cases. by left. }
    split; apply X; eauto. }
  apply (home_add _ _ lr _ (PendList t)) in Hy; [|done|by rewrite Permutation_app_comm]. unfold T'. destruct Hy as [Hy|[[= ->] ->]].
  - destruct (HP y u Hu Hy) as (Hvy & cy & Hcy & Hiy & Hjy). split; [by apply Hvm|].
    assert (y <> x) by (intros ->; by apply Hx in Hy). rewrite lookup_insert_ne by done.
    destruct (decide (y = t)) as [->|]; [|exists cy; by rewrite lookup_insert_ne in Hcy |- *].
    exists (ended_tcb c). rewrite lookup_insert_eq. split_and!; [done| |done]. etrans; [exact Fi|exact Hid].
  - split; [by apply Hvm|]. exists (ended_tcb c). rewrite lookup_insert_ne, lookup_insert_eq by done. split_and!; [done| |done]. etrans; [exact Fi|exact Hid].
Qed.

(** The task that runs on until the switch: the finished task itself, whose block
    a joining task needs, or the block that takes the place of its own. *)
Definition survivor (k : Kernel) (t : Z) (c : LosTaskCB) : Z := if has c OS_TASK_FLAG_JOINABLE then t else g_taskMaxNum k.
Definition finished_self (m : gmap Node (list Node)) (k' : Kernel) (m' : gmap Node (list Node)) (t : Z) (c : LosTaskCB) : Prop :=
  if has c OS_TASK_FLAG_JOINABLE then g_taskCBArray k' !! t = Some (left_tcb c) /\ homeless m' t
  else g_taskCBArray k' !! t = Some (ended_tcb c) /\ ∃ lr, m !! TaskRecycle = Some lr /\ m' !! TaskRecycle = Some (lr ++ [PendList t]).

Lemma finished_self_from m m0 k' m' t c : pool_same m m0 -> finished_self m0 k' m' t c -> finished_self m k' m' t c.
Proof. unfold finished_self. intros [_ <-]. done. Qed.

Lemma exit_times c : startTime (left_tcb c) = startTime c /\
  (responseTime c = OS_SORT_LINK_INVALID_TIME -> responseTime (left_tcb c) = OS_SORT_LINK_INVALID_TIME).
Proof. unfold left_tcb, exit_tcb. repeat case_match; done. Qed.

Lemma runTask_id k t : runTask k = Some t -> set_runTask (λ _, Some t) k = k.
Proof. destruct k. cbn. by intros ->. Qed.

Lemma running_delete_wp h T b r k m t c cm lr (x := g_taskMaxNum k) :
  Rep h m -> m !! TaskRecycle = Some lr -> ~ owned m (PendList t) -> T !! t = Some c -> T !! x = Some cm -> x <> t ->
  wp (OsRunningTaskDelete t t) (λ _ k', ∃ h', k' = upd h' (<[x := spare_tcb t c cm]> T) b r (set_runTask (λ _, Some x) k) /\
    Rep h' (<[TaskRecycle := lr ++ [PendList t]]> m)) (upd h T b r k).
Proof.
  intros HR Hr Ho Hc Hcm Hx. unfold OsRunningTaskDelete. wp_step. apply wp_upd_list.
  eapply wp_mono; [by eapply Rep_tail_insert|]. intros [] h' HR'. wp_step. wp_step. wp_step. apply wp_upd_runTask.
  wp_step. eapply wp_upd_mod_tcb; [exact Hcm|]. wp_step. eapply wp_upd_tcb; [by rewrite lookup_insert_ne|].
  wp_step. eapply wp_upd_mod_tcb; [apply lookup_insert_eq|]. rewrite insert_insert_eq.
  wp_step. eapply wp_upd_mod_tcb; [apply lookup_insert_eq|]. rewrite insert_insert_eq.
  eapply wp_upd_mod_tcb; [apply lookup_insert_eq|]. rewrite insert_insert_eq. by exists h'.
Qed.

Section self_end.
Context (k : Kernel) (m0 m : gmap Node (list Node)) (t : Z) (c : LosTaskCB) (h : gmap Node (LOS_DL_LIST Node)) (b r : Z).
Context (HK : KInv k m0 t) (Es : m !! SwtmrSortLink = m0 !! SwtmrSortLink) (Hps : pool_same m0 m) (HP : PoolInv (<[t := left_tcb c]> (g_taskCBArray k)) m).
Context (Hc : g_taskCBArray k !! t = Some c) (Hti : t <> g_idleTaskID k) (Hid : taskID c = t) (Hu : has c OS_TASK_STATUS_UNUSED = false).
Context (HI : SInv (g_idleTaskID k) h (<[t := left_tcb c]> (g_taskCBArray k)) b m) (Hhl : homeless m t).

Lemma left_running : running_ok (g_oldTickTimerBase k) (left_tcb c).
Proof.
  pose proof (ki_run _ _ _ HK) as [(c0 & Hc0 & [R1 R2 R3 R4]) _]. assert (c0 = c) as -> by congruence.
  destruct (left_flags c) as (Fe & Fu & Fr & _). destruct (exit_times c) as [Et1 Et2].
  destruct (left_quiet _ _ _ _ (si_tasks _ _ _ _ _ HI t _ (lookup_insert_eq _ _ _))) as (Q1 & _). split; [congruence|done|lia|auto].
Qed.

Lemma others_timed T' : (∀ y cy, T' !! y = Some cy -> g_taskCBArray k !! y = Some cy \/ has cy OS_TASK_STATUS_PEND_TIME = false) -> timed_ok T'.
Proof. intros Ht y cy Hy Hp. destruct (Ht y cy Hy) as [Hy'|]; [by eapply (ki_timed _ _ _ HK)|congruence]. Qed.

Lemma join_end : KInv (set_pendSV (λ _, true) (upd h (<[t := left_tcb c]> (g_taskCBArray k)) b r k)) m t.
Proof.
  rewrite <- (runTask_id k t) at 2 by apply HK.
  destruct (left_quiet _ _ _ _ (si_tasks _ _ _ _ _ HI t _ (lookup_insert_eq _ _ _))) as (_ & _ & _ & Q4 & _).
  eapply KInv_end; [exact HK|done|done| | |].
  - destruct (ki_idle _ _ _ HK) as (ci & Hci & Hli). exists ci. by rewrite lookup_insert_ne.
  - apply others_timed. intros y cy [[<- <-]|[_ ?]]%lookup_insert_Some; auto.
  - split; [exists (left_tcb c); split; [apply lookup_insert_eq|apply left_running]|].
    intros y cy [[<- <-]|[_ Hy]]%lookup_insert_Some; [done|]. by apply (ki_run _ _ _ HK).
Qed.

Lemma spare_end cm lr h' (x := g_taskMaxNum k) (T' := <[x := spare_tcb t (ended_tcb c) cm]> (<[t := ended_tcb c]> (g_taskCBArray k))) :
  g_taskCBArray k !! x = Some cm -> x <> g_idleTaskID k -> x <> t -> 0 <= startTime cm <= g_oldTickTimerBase k -> homeless m x -> has c OS_TASK_FLAG_JOINABLE = false ->
  m !! TaskRecycle = Some lr -> Rep h' (<[TaskRecycle := lr ++ [PendList t]]> m) ->
  KInv (set_pendSV (λ _, true) (upd h' T' b r (set_runTask (λ _, Some x) k))) (<[TaskRecycle := lr ++ [PendList t]]> m) x.
Proof.
  intros Hcm Hmi Hmt Hst Hhx Ej Hr HR. pose proof (left_quiet _ _ _ _ (si_tasks _ _ _ _ _ HI t _ (lookup_insert_eq _ _ _))) as Hq.
  destruct (ended_flags t c cm Hq Ej) as ((_ & _ & _ & A4 & _) & Au & _ & (B1 & _ & _ & B4 & _) & Bu & Br).
  eapply KInv_end; [exact HK|by rewrite lookup_insert_ne|by eapply ended_inv| | |].
  - destruct (ki_idle _ _ _ HK) as (ci & Hci & Hli). exists ci. unfold T'. by rewrite !lookup_insert_ne.
  - apply others_timed. intros y cy [[<- <-]|[_ [[<- <-]|[_ ?]]%lookup_insert_Some]]%lookup_insert_Some; auto.
  - split; [exists (spare_tcb t (ended_tcb c) cm); split; [apply lookup_insert_eq|by split; try congruence]|].
    intros y cy [[<- <-]|[_ [[<- <-]|[Ny Hy]]%lookup_insert_Some]]%lookup_insert_Some Hry Huy; [congruence..|].
    destruct Ny. symmetry. by eapply (ki_run _ _ _ HK).
Qed.

(** The end of the deletion: the joinable task stays as it is, any other block is
    the last of the finished ones; the switch is requested. *)
Lemma self_dead_wp :
  spare k m0 -> g_losTaskLock k = 0 -> t <> g_taskMaxNum k -> (has c OS_TASK_FLAG_JOINABLE = false -> vacant_lists m t) ->
  wp (when (negb (test (taskStatus (left_tcb c)) OS_TASK_FLAG_JOINABLE)) (set_status t OS_TASK_STATUS_UNUSED ;;; OsRunningTaskDelete t t) ;;;
      LOS_Schedule ;;; mret LOS_OK)
    (λ ret k', ret = LOS_OK /\ pendSV k' = true /\ ∃ m', KInv k' m' (survivor k t c) /\ PoolInv (g_taskCBArray k') m' /\
      finished_self m k' m' t c /\ ∀ y, y <> t -> y <> g_taskMaxNum k -> g_taskCBArray k' !! y = g_taskCBArray k !! y)
    (upd h (<[t := left_tcb c]> (g_taskCBArray k)) b r k).
Proof.
  intros (cm & Hcm & Hmi & Hst & S1 & S2 & S3 & S4 & N1 & N2) Hlk Htm Hv. destruct Hps as [Ef Er].
  destruct (left_flags c) as (_ & _ & _ & Fj & _). fold (has (left_tcb c) OS_TASK_FLAG_JOINABLE). rewrite Fj. unfold survivor, finished_self.
  destruct (has c OS_TASK_FLAG_JOINABLE) eqn:Ej; cbn [negb when].
  { wp_step. apply wp_ret. wp_step. apply schedule_end_wp; [apply HK|done|]. apply wp_ret. do 2 (split; [done|]). exists m.
    split; [apply join_end|split; [done|split; [split; [exact (lookup_insert_eq _ _ _)|done]|intros; by apply lookup_insert_ne]]]. }
  destruct (si_recycle _ _ _ _ _ HI) as [lr Hr]. assert (Hhx : homeless m (g_taskMaxNum k)).
  { eapply (spare_homeless _ _ _ _ _ _ cm HI); [by rewrite lookup_insert_ne|done..| |]; intros (l & Hl & Hin);
      [apply N1; rewrite Ef in Hl|apply N2; rewrite Er in Hl]; by exists l. }
  unfold set_status. wp_step. wp_step. eapply wp_upd_mod_tcb; [apply lookup_insert_eq|]. rewrite insert_insert_eq. fold (ended_tcb c).
  eapply wp_mono; [eapply (running_delete_wp _ _ _ _ _ _ _ (ended_tcb c) cm lr); [apply HI|exact Hr| |apply lookup_insert_eq| |by apply not_eq_sym]|].
  { by eapply homeless_free. }
  { by rewrite lookup_insert_ne. }
  intros [] k' (h' & -> & HR). wp_step. apply schedule_end_wp; [apply HK|done|]. apply wp_ret. do 2 (split; [done|]).
  eexists.
  assert (HK' := spare_end cm lr h' Hcm Hmi (not_eq_sym Htm) Hst Hhx Ej Hr HR).
  split; [exact HK'|split; [|split; [split|]]].
  - destruct (ended_flags t c cm (left_quiet _ _ _ _ (si_tasks _ _ _ _ _ HI t _ (lookup_insert_eq _ _ _))) Ej) as (_ & _ & Aj & _).
    eapply ended_pool; [exact HP|exact (ki_sched _ _ _ HK')|done|by apply not_eq_sym|done|exact Aj|done|by apply Hv].
  - cbn. by rewrite lookup_insert_ne, lookup_insert_eq.
  - exists lr. by rewrite lookup_insert_eq.
  - intros y Hy Hym. cbn. by rewrite !lookup_insert_ne.
Qed.
End self_end.

Lemma spare_frame k m m' h' T' b' r' :
  spare k m -> pool_same m m' -> (∀ cm, g_taskCBArray k !! g_taskMaxNum k = Some cm -> has cm OS_TASK_STATUS_PEND = false -> T' !! g_taskMaxNum k = Some cm) ->
  spare (upd h' T' b' r' k) m'.
Proof.
  intros (cm & Hcm & Hmi & Hst & S1 & S2 & S3 & S4 & N1 & N2) [Ef Er] HT. exists cm. cbn. split_and!; try done; try apply Hst; [by apply HT|..];
    intros (l & Hl & Hin); [apply N1|apply N2]; exists l; split; congruence.
Qed.

(** A task deletes itself. *)
Lemma self_delete_wp k m t c (T := g_taskCBArray k) :
  KInv k m t -> PoolInv T m -> spare k m -> user_task k t -> T !! t = Some c -> taskID c = t -> has c OS_TASK_STATUS_UNUSED = false -> task_lists m t c ->
  wp (LOS_TaskDelete t) (λ ret k',
    if has c OS_TASK_FLAG_SYSTEM_TASK then ret = LOS_ERRNO_TSK_OPERATE_SYSTEM_TASK /\ k' = k
    else if has c OS_TASK_STATUS_EXIT then ret = LOS_ERRNO_TSK_ALREADY_EXIT /\ k' = k
    else if has c OS_TASK_FLAG_SIGNAL then ret = LOS_ERRNO_TSK_PROCESS_SIGNAL /\ k' = k
    else ret = LOS_OK /\ pendSV k' = true /\ ∃ m', KInv k' m' (survivor k t c) /\ PoolInv (g_taskCBArray k') m' /\ finished_self m k' m' t c /\
      ∀ y, y <> t -> y <> g_taskMaxNum k -> g_taskCBArray k' !! y = told k m t c y) k.
Proof.
  intros HK HP Hsp Hx Hc Hid Hu Hl. unfold LOS_TaskDelete. wp_step. apply task_id_wp; [done|]. rewrite Z.eqb_refl. cbn [negb].
  wp_step. eapply wp_tcb; [done|]. fold (has c OS_TASK_FLAG_SYSTEM_TASK) (has c OS_TASK_STATUS_UNUSED) (has c OS_TASK_STATUS_EXIT) (has c OS_TASK_FLAG_SIGNAL).
  destruct (has c OS_TASK_FLAG_SYSTEM_TASK); [by apply wp_ret|]. rewrite Hu.
  destruct (has c OS_TASK_STATUS_EXIT) eqn:He; [by apply wp_ret|]. destruct (has c OS_TASK_FLAG_SIGNAL); [by apply wp_ret|].
  assert (Hrun : has c OS_TASK_STATUS_RUNNING = true).
  { destruct (ki_run _ _ _ HK) as [(c0 & Hc0 & HR) _]. assert (c0 = c) as -> by (unfold T in Hc; congruence). apply HR. }
  fold (has c OS_TASK_STATUS_RUNNING). rewrite Hrun. cbn [andb]. wp_step. wp_step. wp_step.
  apply (wp_mono _ (λ _ k', k' = set_g_losTaskLock (λ _, 0) k)).
  { destruct (Z.eqb_spec (g_losTaskLock k) 0) as [E|E]; cbn [negb when]; [apply wp_ret|done]. destruct k. cbn in *. by rewrite E. }
  intros [] k0 Ek0. assert (HK0 : KInv k0 m t) by (rewrite Ek0; by apply KInv_lock). assert (ET : g_taskCBArray k0 = T) by by rewrite Ek0.
  assert (Ew : told k0 m t c = told k m t c) by by rewrite Ek0.
  assert (Hs0 : spare k0 m) by by rewrite Ek0. assert (Hut : used k0 t) by (exists c; by rewrite ET).
  wp_step. eapply wp_mono; [eapply (join_post_wp k0 m t t c); by rewrite ?ET|].
  intros [] k1 (m1 & HK1 & HP1 & _ & Hc1 & Hl1 & (h1 & T1 & b1 & r1 & Ek1) & Hn & Hps & Hf).
  assert (Hs1 : spare k1 m1).
  { rewrite Ek1. apply (spare_frame _ m); [done..|]. intros cm Hcm Hp. destruct (Hn _ cm Hcm) as (cm' & Hcm' & _ & E). by rewrite (E Hp), Ek1 in Hcm'. }
  assert (Em : g_taskMaxNum k1 = g_taskMaxNum k /\ g_idleTaskID k1 = g_idleTaskID k /\ g_losTaskLock k1 = 0) by by rewrite Ek1, Ek0.
  destruct Em as (Em & Ei & Elk). clear Ek1 Ek0. destruct Hx as (Hx & Hi & _). destruct (left_flags c) as (_ & _ & Fr & _).
  eapply (leave_wp k1 m1 t t c); [done..|]. intros h2 b2 r2 m2 HI2 Hhl HP2 Es Hps2 Hv. wp_step. eapply wp_upd_tcb; [apply lookup_insert_eq|].
  fold (has (left_tcb c) OS_TASK_STATUS_RUNNING). rewrite Fr, Hrun.
  eapply wp_mono; [eapply (self_dead_wp (set_eventIDs (insert (TaskEvt t) OS_NULL_INT) k1) m1 m2 t c); try done; [by apply KInv_eventIDs|by rewrite <- Ei in Hi|cbn; lia]|].
  intros ret k' (-> & Hp & m' & HK' & HP' & Hfin & Hy). do 2 (split; [done|]). exists m'. split_and!; [|done|by eapply finished_self_from, Hfin; eapply pool_same_trans|].
  - unfold survivor in HK' |- *. cbn in HK'. by rewrite <- Em.
  - intros y Hyt Hym. rewrite Hy by (cbn; congruence). cbn. by rewrite Hf, Ew.
Qed.

(** A task that deletes itself takes the lock of the scheduler with it. *)
Lemma delete_lock k x c r k' : g_taskCBArray k !! x = Some c -> LOS_TaskDelete x k = Some (r, k') ->
  r = LOS_OK -> has c OS_TASK_STATUS_UNUSED = false /\ g_losTaskLock k' = if has c OS_TASK_STATUS_RUNNING then 0 else g_losTaskLock k.
Proof.
  intros Hc E Hr. unfold LOS_TaskDelete in E. apply bind_inv in E as (ret & k0 & E0 & E).
  assert (K0 : keeps (λ k, k) (OsCheckTaskIDValid x)) by keeps. rewrite (K0 _ _ _ E0) in E. clear E0 K0. subst r.
  destruct (Z.eqb_spec ret LOS_OK); cbn [negb] in E; [|injection E; congruence].
  apply bind_inv in E as (c0 & k1 & E1 & E). assert (c0 = c /\ k1 = k) as [-> ->].
  { unfold tcb in E1. apply bind_inv in E1 as (T & k2 & [= <- <-] & E1). rewrite Hc in E1. by injection E1. }
  destruct (test (taskStatus c) OS_TASK_FLAG_SYSTEM_TASK) in E; [discriminate E|]. unfold has at 1. destruct (test (taskStatus c) OS_TASK_STATUS_UNUSED) in E |- *; [discriminate E|].
  do 2 (destruct (test (taskStatus c) _) in E; [discriminate E|]). split; [done|]. apply bind_inv in E as (lock & k1 & [= <- <-] & E).
  apply bind_inv in E as ([] & k2 & E2 & E). fold (has c OS_TASK_STATUS_RUNNING) in E2.
  lazymatch type of E with ?m _ = _ => assert (K : keeps g_losTaskLock m) by keeps end. rewrite (K _ _ _ E). clear K E.
  destruct (has c OS_TASK_STATUS_RUNNING); [|by injection E2 as <-]. destruct (Z.eqb_spec (g_losTaskLock k) 0); by injection E2 as <-.
Qed.

(** ** The contracts *)

(** C25: LOS_TaskCreate reports an error of the parameters with nothing changed, a missing block
    exactly when no block is free or finished, and missing memory exactly when no stack can be
    allocated after the stacks of the finished tasks are released, with the block free again;
    otherwise the first block is the new task, ready in the queue of its priority, with a switch
    requested. All other tasks are as before, and the invariants of the kernel and of the pool
    of blocks are kept. *)
Theorem task_create_correct k m t lr lf p :
  KInv k m t -> PoolInv (g_taskCBArray k) m -> used k t -> m !! TaskRecycle = Some lr -> m !! FreeTask = Some lf -> 0 <= usTaskPrio p ->
  wp (LOS_TaskCreate true (Some p)) (λ r k',
    let '(code, q) := OsTaskInitParamCheck (Some p) in
    if negb (code =? LOS_OK) then r = (code, None) /\ k' = k
    else ∃ m', KInv k' m' t /\ PoolInv (g_taskCBArray k') m' /\ used k' t /\
      created (from_option (λ p, no_stack p (released (g_taskCBArray k) lr (sysMem k))) false q) (reverse lr ++ lf) r k' m' (ready_task p k' m') /\
      tasks_kept (reverse lr ++ lf) k k') k.
Proof.
  intros HK HP Hut Hr Hf Hp. eapply wp_mono; [by apply (task_create_wp k m t lr lf p)|]. intros r k'. cbv zeta.
  by destruct (OsTaskInitParamCheck (Some p)) as [code q].
Qed.

(** C29: LOS_TaskDelete refuses system tasks, unused and finished blocks and tasks with a
    pending signal, with nothing changed; otherwise it wakes the task that waits for the end,
    and the deleted task is in no list of the scheduler. The block of another task is free
    again, or kept for the task that joins it; a task that deletes itself, also with the
    scheduler locked, is the last of the finished blocks or is kept, the lock of the scheduler
    is reset, and a switch is requested from the task that runs in its place. No other task
    changes, and the invariants of the kernel and of the pool of blocks are kept. *)
Theorem task_delete_correct k m t ct x c :
  KInv k m t -> PoolInv (g_taskCBArray k) m -> used k t -> spare k m -> g_taskCBArray k !! t = Some ct ->
  user_task k x -> g_taskCBArray k !! x = Some c -> taskID c = x -> (has c OS_TASK_STATUS_UNUSED = false -> task_lists m x c) ->
  wp (LOS_TaskDelete x) (λ ret k',
    if has c OS_TASK_FLAG_SYSTEM_TASK then ret = LOS_ERRNO_TSK_OPERATE_SYSTEM_TASK /\ k' = k
    else if has c OS_TASK_STATUS_UNUSED then ret = LOS_ERRNO_TSK_NOT_CREATED /\ k' = k
    else if has c OS_TASK_STATUS_EXIT then ret = LOS_ERRNO_TSK_ALREADY_EXIT /\ k' = k
    else if has c OS_TASK_FLAG_SIGNAL then ret = LOS_ERRNO_TSK_PROCESS_SIGNAL /\ k' = k
    else ret = LOS_OK /\ ∃ m' run, KInv k' m' run /\ PoolInv (g_taskCBArray k') m' /\
      (if decide (x = t) then run = survivor k t c /\ pendSV k' = true /\ finished_self m k' m' t c
       else run = t /\ used k' t /\ buried m k' m' x (kept_tcb (taskID ct) c)) /\
      g_losTaskLock k' = (if decide (x = t) then 0 else g_losTaskLock k) /\
      ∀ y, y <> x -> y <> g_taskMaxNum k -> g_taskCBArray k' !! y = told k m x c y) k.
Proof.
  intros HK HP Hut Hsp Hct Hx Hc Hid Hl.
  assert (Hlk : ∀ r k', LOS_TaskDelete x k = Some (r, k') -> r = LOS_OK -> g_losTaskLock k' = if decide (x = t) then 0 else g_losTaskLock k).
  { intros r k' E Er. destruct (delete_lock _ _ _ _ _ Hc E Er) as [Hu ->]. case_decide as Dx; [subst x|].
    - destruct (ki_run _ _ _ HK) as [(c0 & Hc0 & [Hru _ _ _]) _]. assert (c0 = c) as -> by congruence. by rewrite Hru.
    - destruct (has c OS_TASK_STATUS_RUNNING) eqn:Eru; [|done]. destruct (ki_run _ _ _ HK) as [_ Hun]. destruct Dx. by apply (Hun x c). }
  destruct (decide (x = t)) as [->|Hne].
  - assert (Hu : has c OS_TASK_STATUS_UNUSED = false) by (destruct Hut as (c0 & Hc0 & Hu); congruence). rewrite Hu.
    eapply wp_mono; [apply wp_and_run; [apply (self_delete_wp k m t c); auto|exact Hlk]|]. intros ret k' [HQ Hk']. revert HQ. destruct (has c OS_TASK_FLAG_SYSTEM_TASK); [done|].
    destruct (has c OS_TASK_STATUS_EXIT); [done|]. destruct (has c OS_TASK_FLAG_SIGNAL); [done|].
    intros (-> & Hp & m' & HK' & HP' & Hfin & Hy). split; [done|]. exists m', (survivor k t c). split_and!; auto.
  - eapply wp_mono; [apply wp_and_run; [by apply (task_delete_wp k m t ct x c)|exact Hlk]|]. intros ret k' [HQ Hk']. revert HQ. repeat case_match; try done.
    intros (-> & m' & HK' & HP' & Hu' & Hb & Hy). split; [done|]. exists m', t. split_and!; auto.
Qed.
End TaskLife.
