(* ===== verification/Swtmr.v ===== *)
(** Software timers (src/kernel/src/los_swtmr.c), without timer alignment
    (LOSCFG_BASE_CORE_SWTMR_ALIGN == 0). *)

From S2P Require Import Prelude Errno LosList Kernel Tick SortLink Sched SchedInv SchedTime SchedSwitch KernelInv Waits Queue QueueInv Task.

Definition LOS_SWTMR_MODE_ONCE : Z := 0.
Definition LOS_SWTMR_MODE_PERIOD : Z := 1.
Definition LOS_SWTMR_MODE_NO_SELFDELETE : Z := 2.
Definition OS_SWTMR_STATUS_UNUSED : Z := 0.
Definition OS_SWTMR_STATUS_CREATED : Z := 1.
Definition OS_SWTMR_STATUS_TICKING : Z := 2.
(** [sizeof(SWTMR_CTRL_S)] and [sizeof(SwtmrHandlerItem)] with 32-bit pointers. *)
Definition sizeof_SWTMR_CTRL_S : Z := 48.
Definition sizeof_SwtmrHandlerItem : Z := 12.

Record SwtmrHandlerItem := mk_SwtmrHandlerItem {
  item_handler : Z;
  item_arg : Z;
  item_swtmrID : Z;
}.
Definition item_bytes (i : SwtmrHandlerItem) : list Z :=
  word_bytes (item_handler i) ++ word_bytes (item_arg i) ++ word_bytes (item_swtmrID i).
Definition bytes_item (l : list Z) : SwtmrHandlerItem :=
  mk_SwtmrHandlerItem (bytes_word (take 4 l)) (bytes_word (take 4 (drop 4 l)))
    (bytes_word (take 4 (drop 8 l))).

Section Swtmr.
Context `{Platform}.

Definition OS_SWTMR_MAX_TIMERID : Z :=
  0xFFFFFFFF / LOSCFG_BASE_CORE_SWTMR_LIMIT * LOSCFG_BASE_CORE_SWTMR_LIMIT.
Definition OS_SWTMR_HANDLE_QUEUE_SIZE : Z := LOSCFG_BASE_CORE_SWTMR_LIMIT + 0.

(** [g_swtmrCBArray + swtmrId % LOSCFG_BASE_CORE_SWTMR_LIMIT] *)
Definition swtmr_index (swtmrId : Z) : Z := swtmrId mod LOSCFG_BASE_CORE_SWTMR_LIMIT.

Definition OsSwtmrStart (currTime swtmr : Z) : M Kernel unit :=
  mod_swtmrCB swtmr (set_ucState (λ _, OS_SWTMR_STATUS_TICKING)) ;;;
  let* w := swtmrCB swtmr in
  OsAdd2SortLink (SwtmrNode swtmr) (swtmrStartTime w) (uwInterval w) OS_SORT_LINK_SWTMR ;;;
  OsSchedUpdateExpireTime.

Definition OsSwtmrDelete (swtmr : Z) : M Kernel unit :=
  let* w := swtmrCB swtmr in
  (if usTimerID w <? OS_SWTMR_MAX_TIMERID - LOSCFG_BASE_CORE_SWTMR_LIMIT then
     mod_swtmrCB swtmr (set_usTimerID (λ i, u32 (i + LOSCFG_BASE_CORE_SWTMR_LIMIT)))
   else mod_swtmrCB swtmr (set_usTimerID (λ i, i mod LOSCFG_BASE_CORE_SWTMR_LIMIT))) ;;;
  let* free := gets g_swtmrFreeList in
  mod_swtmrCB swtmr (set_swtmrNext (λ _, free)) ;;;
  modify (set_g_swtmrFreeList (λ _, Some swtmr)) ;;;
  mod_swtmrCB swtmr (set_ucState (λ _, OS_SWTMR_STATUS_UNUSED)).

Definition OsSwtmrStop (swtmr : Z) : M Kernel unit :=
  OsDeleteSortLink (SwtmrNode swtmr) ;;;
  mod_swtmrCB swtmr (set_ucState (λ _, OS_SWTMR_STATUS_CREATED)) ;;;
  mod_swtmrCB swtmr (set_ucOverrun (λ _, 0)) ;;;
  OsSchedUpdateExpireTime.

Definition OsSwtmrTimeoutHandle (currTime swtmr : Z) : M Kernel unit :=
  let* w := swtmrCB swtmr in
  let swtmrHandler := mk_SwtmrHandlerItem (pfnHandler w) (uwArg w) (usTimerID w) in
  let* q := gets g_swtmrHandlerQueue in
  let* _ := LOS_QueueWriteCopy q (Some (item_bytes swtmrHandler)) sizeof_SwtmrHandlerItem LOS_NO_WAIT in
  let* w := swtmrCB swtmr in
  if ucMode w =? LOS_SWTMR_MODE_PERIOD then
    mod_swtmrCB swtmr (set_ucOverrun (λ n, u8 (n + 1))) ;;;
    OsSwtmrStart currTime swtmr
  else when (ucMode w =? LOS_SWTMR_MODE_NO_SELFDELETE)
    (mod_swtmrCB swtmr (set_ucState (λ _, OS_SWTMR_STATUS_CREATED))).

(** The loop over expired timers, at most [fuel] expiries. *)
Fixpoint OsSwtmrScan_loop (fuel : nat) (sortList : Node) (currTime : Z) (needSchedule : bool)
    : M Kernel bool :=
  match fuel with
  | O => fault
  | S fuel =>
      let* rt := GET_SORTLIST_VALUE sortList in
      if rt <=? currTime then
        match sortList with
        | SwtmrNode swtmr =>
            mod_swtmrCB swtmr (set_swtmrStartTime (λ _, rt)) ;;;
            OsDeleteNodeSortLink (SwtmrNode swtmr) ;;;
            OsSwtmrTimeoutHandle currTime swtmr ;;;
            let* empty := onlist (LOS_ListEmpty SwtmrSortLink) in
            if (empty : bool) then mret true
            else
              let* sortList' := nextNode SwtmrSortLink in
              OsSwtmrScan_loop fuel sortList' currTime true
        | _ => fault
        end
      else mret needSchedule
  end.

Definition OsSwtmrScan (fuel : nat) : M Kernel bool :=
  let* empty := onlist (LOS_ListEmpty SwtmrSortLink) in
  if (empty : bool) then mret false
  else
    let* sortList := nextNode SwtmrSortLink in
    let* currTime := OsGetCurrSchedTimeCycle in
    OsSwtmrScan_loop fuel sortList currTime false.

(** The loop over the running timers, at most [fuel] of them. *)
Fixpoint OsSwtmrResponseTimeReset_loop (fuel : nat) (listNext : Node) (startTime : Z) : M Kernel unit :=
  match fuel with
  | O => fault
  | S fuel =>
      if bool_decide (listNext = SwtmrSortLink) then mret tt
      else
        match listNext with
        | SwtmrNode swtmr =>
            OsDeleteNodeSortLink (SwtmrNode swtmr) ;;;
            mod_swtmrCB swtmr (set_swtmrStartTime (λ _, startTime)) ;;;
            OsSwtmrStart startTime swtmr ;;;
            let* next := nextNode listNext in
            OsSwtmrResponseTimeReset_loop fuel next startTime
        | _ => fault
        end
  end.

Definition OsSwtmrResponseTimeReset (fuel : nat) (startTime : Z) : M Kernel unit :=
  let* listNext := nextNode SwtmrSortLink in
  OsSwtmrResponseTimeReset_loop fuel listNext startTime.

(** [time > OS_NULL_INT ? OS_NULL_INT : time] in ticks. *)
Definition cap_ticks (sysClock time : Z) : Z :=
  let t := OS_SYS_CYCLE_TO_TICK sysClock time in if t >? OS_NULL_INT then OS_NULL_INT else t.

Definition OsSwtmrGetNextTimeout : M Kernel Z :=
  let* time := OsSortLinkGetNextExpireTime SwtmrSortLink in
  let* clock := gets g_sysClock in
  mret (cap_ticks clock time).

Definition OsSwtmrTimeGet (swtmr : Z) : M Kernel Z :=
  let* t := OsGetCurrSchedTimeCycle in
  let* time := OsSortLinkGetTargetExpireTime t (SwtmrNode swtmr) in
  let* clock := gets g_sysClock in
  mret (cap_ticks clock time).

(** ** The timer task *)

Definition OsSwtmrTaskCreate : M Kernel Z :=
  let* (ret, id) := LOS_TaskCreate true (Some (mk_TSK_INIT_PARAM_S addr_OsSwtmrTask 0 0 0
    LOSCFG_BASE_CORE_TSK_SWTMR_STACK_SIZE addr_Swt_Task 0)) in
  match id with Some i => modify (set_g_swtmrTaskID (λ _, i)) | None => mret tt end ;;;
  when (ret =? LOS_OK) (
    let* t := gets g_swtmrTaskID in
    set_status t OS_TASK_FLAG_SYSTEM_TASK) ;;;
  mret ret.

(** One message of the loop of [OsSwtmrTask], after [LOS_QueueReadCopy] returned
    [ret] with [readSize] bytes: the handler and argument to call, if any. *)
Definition OsSwtmrTask_handle (ret : Z) (bytes : list Z) (readSize : Z) : M Kernel (option (Z * Z)) :=
  if (ret =? LOS_OK) && (readSize =? sizeof_SwtmrHandlerItem) then
    let swtmrHandle := bytes_item bytes in
    if (item_handler swtmrHandle =? 0) || (item_swtmrID swtmrHandle >=? OS_SWTMR_MAX_TIMERID) then mret None
    else
      let swtmr := swtmr_index (item_swtmrID swtmrHandle) in
      let* w := swtmrCB swtmr in
      if negb (usTimerID w =? item_swtmrID swtmrHandle) then mret None
      else
        when (ucMode w =? LOS_SWTMR_MODE_ONCE) (OsSwtmrDelete swtmr) ;;;
        let* _ := LOS_TickCountGet in
        mret (Some (item_handler swtmrHandle, item_arg swtmrHandle))
  else mret None.

(** ** Initialisation *)

Definition OsSwtmrInit_memset (index : Z) : M Kernel unit :=
  modify (set_g_swtmrCBArray (insert index zero_SWTMR_CTRL_S)) ;;;
  onlist (ListClear (SwtmrNode index)).
(** One iteration: block [index] gets its ID and block [index - 1] points to it. *)
Definition OsSwtmrInit_body (index : Z) : M Kernel unit :=
  mod_swtmrCB index (set_usTimerID (λ _, index)) ;;;
  mod_swtmrCB (index - 1) (set_swtmrNext (λ _, Some index)).

Definition OsSwtmrInit : M Kernel Z :=
  let* pool := gets sysMem in
  let '(p, pool') := LOS_MemAlloc (u32 (sizeof_SWTMR_CTRL_S * LOSCFG_BASE_CORE_SWTMR_LIMIT)) pool in
  modify (set_sysMem (λ _, pool')) ;;;
  match p with
  | None => mret LOS_ERRNO_SWTMR_NO_MEMORY
  | Some addr =>
      for_each OsSwtmrInit_memset (seqZ 0 LOSCFG_BASE_CORE_SWTMR_LIMIT) ;;;
      modify (set_g_swtmrFreeList (λ _, Some 0)) ;;;
      mod_swtmrCB 0 (set_usTimerID (λ _, 0)) ;;;
      for_each OsSwtmrInit_body (seqZ 1 (LOSCFG_BASE_CORE_SWTMR_LIMIT - 1)) ;;;
      (* [swtmr] now points past the last block *)
      let swtmr := u32 (addr + sizeof_SWTMR_CTRL_S * Z.max 1 LOSCFG_BASE_CORE_SWTMR_LIMIT) in
      let release (err : Z) : M Kernel Z :=
        let* pool := gets sysMem in
        let '(_, pool') := LOS_MemFree (Some swtmr) pool in
        modify (set_sysMem (λ _, pool')) ;;;
        mret err in
      let* (ret, q) := LOS_QueueCreate 0 OS_SWTMR_HANDLE_QUEUE_SIZE true 0 sizeof_SwtmrHandlerItem in
      match q with Some q => modify (set_g_swtmrHandlerQueue (λ _, q)) | None => mret tt end ;;;
      if negb (ret =? LOS_OK) then release LOS_ERRNO_SWTMR_QUEUE_CREATE_FAILED
      else
        let* ret := OsSwtmrTaskCreate in
        if negb (ret =? LOS_OK) then release LOS_ERRNO_SWTMR_TASK_CREATE_FAILED
        else
          match OsGetSortLinkAttribute OS_SORT_LINK_SWTMR with
          | None => release LOS_NOK
          | Some list =>
              let* ret := OsSortLinkInit list in
              if negb (ret =? LOS_OK) then release LOS_NOK
              else
                let* ret := OsSchedSwtmrScanRegister true in
                if negb (ret =? LOS_OK) then release LOS_NOK
                else mret LOS_OK
          end
  end.

(** ** The interface *)

(** The fields a created timer gets. *)
Definition swtmr_created (interval mode handler arg : Z) (w : SWTMR_CTRL_S) : SWTMR_CTRL_S :=
  mk_SWTMR_CTRL_S None OS_SWTMR_STATUS_CREATED mode 0 (usTimerID w) interval arg handler
    (swtmrResponseTime w) (swtmrStartTime w).

(** [swtmrId] says that the pointer is not NULL; the second result is what is
    written to [*swtmrId]. *)
Definition LOS_SwtmrCreate (interval mode handler : Z) (swtmrId : bool) (arg : Z) : M Kernel (Z * option Z) :=
  if interval =? 0 then mret (LOS_ERRNO_SWTMR_INTERVAL_NOT_SUITED, None)
  else if negb (mode =? LOS_SWTMR_MODE_ONCE) && negb (mode =? LOS_SWTMR_MODE_PERIOD)
       && negb (mode =? LOS_SWTMR_MODE_NO_SELFDELETE) then mret (LOS_ERRNO_SWTMR_MODE_INVALID, None)
  else if handler =? 0 then mret (LOS_ERRNO_SWTMR_PTR_NULL, None)
  else if negb swtmrId then mret (LOS_ERRNO_SWTMR_RET_PTR_NULL, None)
  else
    let* free := gets g_swtmrFreeList in
    match free with
    | None => mret (LOS_ERRNO_SWTMR_MAXSIZE, None)
    | Some swtmr =>
        let* w := swtmrCB swtmr in
        modify (set_g_swtmrFreeList (λ _, swtmrNext w)) ;;;
        mod_swtmrCB swtmr (swtmr_created interval mode handler arg) ;;;
        SET_SORTLIST_VALUE (SwtmrNode swtmr) OS_SORT_LINK_INVALID_TIME ;;;
        mret (LOS_OK, Some (usTimerID w))
    end.

Definition LOS_SwtmrStart (swtmrId : Z) : M Kernel Z :=
  if swtmrId >=? OS_SWTMR_MAX_TIMERID then mret LOS_ERRNO_SWTMR_ID_INVALID
  else
    let swtmr := swtmr_index swtmrId in
    let* w := swtmrCB swtmr in
    if negb (usTimerID w =? swtmrId) then mret LOS_ERRNO_SWTMR_NOT_CREATED
    else
      let start : M Kernel Z :=
        let* t := OsGetCurrSchedTimeCycle in
        mod_swtmrCB swtmr (set_swtmrStartTime (λ _, t)) ;;;
        OsSwtmrStart t swtmr ;;;
        mret LOS_OK in
      if ucState w =? OS_SWTMR_STATUS_UNUSED then mret LOS_ERRNO_SWTMR_NOT_CREATED
      else if ucState w =? OS_SWTMR_STATUS_TICKING then OsSwtmrStop swtmr ;;; start
      else if ucState w =? OS_SWTMR_STATUS_CREATED then start
      else mret LOS_ERRNO_SWTMR_STATUS_INVALID.

Definition LOS_SwtmrStop (swtmrId : Z) : M Kernel Z :=
  if swtmrId >=? OS_SWTMR_MAX_TIMERID then mret LOS_ERRNO_SWTMR_ID_INVALID
  else
    let swtmr := u16 (swtmr_index swtmrId) in
    let* w := swtmrCB swtmr in
    if negb (usTimerID w =? swtmrId) then mret LOS_ERRNO_SWTMR_NOT_CREATED
    else if ucState w =? OS_SWTMR_STATUS_UNUSED then mret LOS_ERRNO_SWTMR_NOT_CREATED
    else if ucState w =? OS_SWTMR_STATUS_CREATED then mret LOS_ERRNO_SWTMR_NOT_STARTED
    else if ucState w =? OS_SWTMR_STATUS_TICKING then OsSwtmrStop swtmr ;;; mret LOS_OK
    else mret LOS_ERRNO_SWTMR_STATUS_INVALID.

(** The second result is what is written to [*tick]. *)
Definition LOS_SwtmrTimeGet (swtmrId : Z) (tick : bool) : M Kernel (Z * option Z) :=
  if swtmrId >=? OS_SWTMR_MAX_TIMERID then mret (LOS_ERRNO_SWTMR_ID_INVALID, None)
  else if negb tick then mret (LOS_ERRNO_SWTMR_TICK_PTR_NULL, None)
  else
    let swtmr := u16 (swtmr_index swtmrId) in
    let* w := swtmrCB swtmr in
    if negb (usTimerID w =? swtmrId) then mret (LOS_ERRNO_SWTMR_NOT_CREATED, None)
    else if ucState w =? OS_SWTMR_STATUS_UNUSED then mret (LOS_ERRNO_SWTMR_NOT_CREATED, None)
    else if ucState w =? OS_SWTMR_STATUS_CREATED then mret (LOS_ERRNO_SWTMR_NOT_STARTED, None)
    else if ucState w =? OS_SWTMR_STATUS_TICKING then
      let* t := OsSwtmrTimeGet swtmr in mret (LOS_OK, Some t)
    else mret (LOS_ERRNO_SWTMR_STATUS_INVALID, None).

Definition LOS_SwtmrDelete (swtmrId : Z) : M Kernel Z :=
  if swtmrId >=? OS_SWTMR_MAX_TIMERID then mret LOS_ERRNO_SWTMR_ID_INVALID
  else
    let swtmr := u16 (swtmr_index swtmrId) in
    let* w := swtmrCB swtmr in
    if negb (usTimerID w =? swtmrId) then mret LOS_ERRNO_SWTMR_NOT_CREATED
    else if ucState w =? OS_SWTMR_STATUS_UNUSED then mret LOS_ERRNO_SWTMR_NOT_CREATED
    else if ucState w =? OS_SWTMR_STATUS_TICKING then
      OsSwtmrStop swtmr ;;; OsSwtmrDelete swtmr ;;; mret LOS_OK
    else if ucState w =? OS_SWTMR_STATUS_CREATED then OsSwtmrDelete swtmr ;;; mret LOS_OK
    else mret LOS_ERRNO_SWTMR_STATUS_INVALID.

End Swtmr.

(** ** Correctness *)

#[local] Opaque LOS_ListAdd LOS_ListTailInsert LOS_ListDelete LOS_ListInit LOS_ListEmpty.
#[local] Abbreviation len l := (Z.of_nat (length l)).

Section SwtmrProofs.
Context `{TimerLaws}.

(** *** The sort link of the timers *)

Lemma KInv_swtmr k m t f :
  KInv k m t -> (∀ i, is_Some (g_swtmrCBArray k !! i) -> is_Some (f (g_swtmrCBArray k) !! i)) ->
  KInv (set_g_swtmrCBArray f k) m t.
Proof.
  intros [K1 K2 K3 (lw & Hlw & Hall) K5 K6 K7 K8 K9] Hf. split; try done. exists lw. split; [done|].
  eapply Forall_impl; [exact Hall|]. intros n (i & w & -> & Hw). destruct (Hf i) as [w' Hw']; [by eexists|]. by exists i, w'.
Qed.
Lemma KInv_swtmr_insert k m t i w w' :
  KInv k m t -> g_swtmrCBArray k !! i = Some w -> KInv (set_g_swtmrCBArray (insert i w') k) m t.
Proof.
  intros HK Hw. apply KInv_swtmr; [done|]. intros j Hj. rewrite lookup_insert. case_decide; [by eexists|done].
Qed.
Lemma KInv_swtmr_free k m t f : KInv k m t -> KInv (set_g_swtmrFreeList f k) m t.
Proof. by intros []. Qed.

(** A list of timers in place of another. *)
Lemma KInv_timers k m t h lw lw' :
  KInv k m t -> m !! SwtmrSortLink = Some lw -> Rep h (<[SwtmrSortLink := lw']> m) ->
  Forall (λ n, ∃ i w, n = SwtmrNode i /\ g_swtmrCBArray k !! i = Some w) lw' ->
  KInv (set_dlists (λ _, h) k) (<[SwtmrSortLink := lw']> m) t.
Proof.
  intros HK Hlw HR Hall. destruct (ki_timers _ _ _ HK) as (lw0 & Hlw0 & Hall0). simplify_eq.
  assert (Hmem : ∀ l n x, Forall (λ n, ∃ i w, n = SwtmrNode i /\ g_swtmrCBArray k !! i = Some w) l ->
    n = PendList x \/ n = SortNode x -> n ∉ l).
  { intros l n x Hl Hn Hin. rewrite Forall_forall in Hl. destruct (Hl _ Hin) as (i & w & -> & _). by destruct Hn. }
  assert (Hhome : ∀ n x hd, n = PendList x \/ n = SortNode x -> home (<[SwtmrSortLink := lw']> m) n hd <-> home m n hd).
  { intros n x hd Hn. unfold home. rewrite lookup_insert. case_decide as E; [subst hd|done].
    split; intros (l & Hl & Hin); simplify_eq; exfalso; [exact (Hmem _ n x Hall Hn Hin)|exact (Hmem _ n x Hall0 Hn Hin)]. }
  assert (HI : SInv (g_idleTaskID k) h (g_taskCBArray k) (g_queueBitmap k) (<[SwtmrSortLink := lw']> m)).
  { eapply SInv_objects; [apply HK|done|..].
    - intros hd [->|[->|[->|[p ->]]]]; by apply lookup_insert_ne.
    - intros x hd. apply (Hhome _ x). by left.
    - intros x hd. apply (Hhome _ x). by right.
    - intros hd l. rewrite lookup_insert. case_decide as E; [by subst hd|]. apply (ki_sched _ _ _ HK).
    - intros n hd (l & Hl & Hin). rewrite lookup_insert in Hl. case_decide as E; [subst hd|left; by exists l].
      simplify_eq. right. rewrite Forall_forall in Hall. by destruct (Hall _ Hin) as (i & w & -> & _). }
  destruct HK as [K1 K2 K3 K4 K5 K6 K7 K8 K9]. split; try done. exists lw'. by rewrite lookup_insert_eq.
Qed.

Lemma kinv_timer_delete k m t lw i :
  KInv k m t -> m !! SwtmrSortLink = Some lw -> SwtmrNode i ∈ lw ->
  wp (onlist (LOS_ListDelete (SwtmrNode i))) (λ _ k', ∃ h', k' = set_dlists (λ _, h') k /\
    KInv k' (<[SwtmrSortLink := list_remove_all (SwtmrNode i) lw]> m) t) k.
Proof.
  intros HK Hlw Hin. apply wp_onlist. eapply wp_mono; [by eapply Rep_delete; [apply HK|..]|].
  intros [] h' HR. exists h'. split; [done|]. eapply KInv_timers; [done..|].
  destruct (ki_timers _ _ _ HK) as (lw0 & Hlw0 & Hall). simplify_eq. rewrite Forall_forall in Hall |- *.
  intros n Hn. apply Hall. by apply elem_of_list_remove_all in Hn as [? _].
Qed.

Lemma kinv_timer_add k m t lw i w :
  KInv k m t -> m !! SwtmrSortLink = Some lw -> SwtmrNode i ∉ lw -> g_swtmrCBArray k !! i = Some w -> sorted k lw ->
  wp (OsAddNode2SortLink SwtmrSortLink (SwtmrNode i)) (λ _ k', ∃ h', k' = set_dlists (λ _, h') k /\
    KInv k' (<[SwtmrSortLink := sortlink_insert (key k) (SwtmrNode i) lw]> m) t) k.
Proof.
  intros HK Hlw Hin Hw Hs. destruct (ki_timers _ _ _ HK) as (lw0 & Hlw0 & Hall). simplify_eq.
  assert (Hno : ~ owned m (SwtmrNode i)).
  { rewrite owned_cases. intros [[l Hl]|(hd & Hh)].
    - by apply (si_heads _ _ _ _ _ (ki_sched _ _ _ HK)) in Hl.
    - pose proof (si_members _ _ _ _ _ (ki_sched _ _ _ HK) _ _ Hh) as ->. destruct Hh as (l & Hl & ?). by simplify_eq. }
  eapply wp_mono; [eapply (OsAddNode2SortLink_wp k m SwtmrSortLink lw); [apply HK|done|done| |
    eapply Forall_impl; [exact Hall|]; intros n (j & wj & -> & Hj)|done]|]; try (unfold timed; cbn; rewrite ?Hw, ?Hj; by eexists).
  intros [] k' (h' & -> & HR). exists h'. split; [done|]. eapply KInv_timers; [done..|].
  rewrite sortlink_insert_perm. by constructor; [exists i, w|].
Qed.

(** *** The invariant of the timers *)

(** The free list from [p]. *)
Fixpoint chain (C : gmap Z SWTMR_CTRL_S) (p : option Z) (fl : list Z) : Prop :=
  match fl with
  | [] => p = None
  | i :: fl => p = Some i /\ ∃ w, C !! i = Some w /\ chain C (swtmrNext w) fl
  end.

Lemma chain_frame C p fl i w : chain C p fl -> i ∉ fl -> chain (<[i := w]> C) p fl.
Proof.
  revert p. induction fl as [|j fl IH]; intros p; cbn; [done|]. intros (-> & wj & Hj & Hch) Hi.
  apply not_elem_of_cons in Hi as [Hne Hi]. split; [done|]. exists wj. rewrite lookup_insert_ne by done. auto.
Qed.

(** [fl] are the free timers and [lw] the running ones. *)
Record SwtmrInv (k : Kernel) (m : gmap Node (list Node)) (fl : list Z) (lw : list Node) : Prop := {
  sw_dom : ∀ i, is_Some (g_swtmrCBArray k !! i) <-> 0 <= i < LOSCFG_BASE_CORE_SWTMR_LIMIT;
  sw_ids : ∀ i w, g_swtmrCBArray k !! i = Some w -> swtmr_index (usTimerID w) = i /\ 0 <= usTimerID w < OS_SWTMR_MAX_TIMERID;
  sw_free : chain (g_swtmrCBArray k) (g_swtmrFreeList k) fl;
  sw_nodup : NoDup fl;
  sw_state : ∀ i w, g_swtmrCBArray k !! i = Some w -> (ucState w = OS_SWTMR_STATUS_UNUSED /\ i ∈ fl) \/
    ((ucState w = OS_SWTMR_STATUS_CREATED \/ ucState w = OS_SWTMR_STATUS_TICKING) /\ i ∉ fl);
  sw_list : m !! SwtmrSortLink = Some lw;
  sw_sorted : sorted k lw;
  sw_member : ∀ i w, g_swtmrCBArray k !! i = Some w -> ucState w <> OS_SWTMR_STATUS_UNUSED ->
    SwtmrNode i ∈ lw <-> swtmrResponseTime w <> OS_SORT_LINK_INVALID_TIME;
  sw_ticking : ∀ i w, g_swtmrCBArray k !! i = Some w -> SwtmrNode i ∈ lw -> ucState w = OS_SWTMR_STATUS_TICKING;
  sw_interval : ∀ i w, g_swtmrCBArray k !! i = Some w -> ucState w <> OS_SWTMR_STATUS_UNUSED ->
    0 < uwInterval w < 2 ^ 32 /\ 0 <= swtmrResponseTime w;
}.

Lemma timer_sorted k k' lw :
  Forall (λ n, ∃ i w, n = SwtmrNode i /\ g_swtmrCBArray k !! i = Some w) lw ->
  (∀ i, SwtmrNode i ∈ lw -> g_swtmrCBArray k' !! i = g_swtmrCBArray k !! i) -> sorted k lw -> sorted k' lw.
Proof.
  intros Hall Hk. apply sorted_ext. rewrite Forall_forall in Hall |- *. intros n Hn.
  destruct (Hall n Hn) as (i & w & -> & Hw). unfold key, time_of. by rewrite Hk.
Qed.

(** A change of timer [i]. *)
Lemma SwtmrInv_set k m fl lw i w w' k' m' fl' lw' :
  SwtmrInv k m fl lw -> g_swtmrCBArray k !! i = Some w -> g_swtmrCBArray k' = <[i := w']> (g_swtmrCBArray k) ->
  chain (g_swtmrCBArray k') (g_swtmrFreeList k') fl' -> NoDup fl' -> (∀ j, j <> i -> j ∈ fl' <-> j ∈ fl) ->
  swtmr_index (usTimerID w') = i -> 0 <= usTimerID w' < OS_SWTMR_MAX_TIMERID ->
  (ucState w' = OS_SWTMR_STATUS_UNUSED /\ i ∈ fl') \/
    ((ucState w' = OS_SWTMR_STATUS_CREATED \/ ucState w' = OS_SWTMR_STATUS_TICKING) /\ i ∉ fl') ->
  m' !! SwtmrSortLink = Some lw' -> sorted k' lw' -> (∀ j, j <> i -> SwtmrNode j ∈ lw' <-> SwtmrNode j ∈ lw) ->
  (ucState w' <> OS_SWTMR_STATUS_UNUSED -> SwtmrNode i ∈ lw' <-> swtmrResponseTime w' <> OS_SORT_LINK_INVALID_TIME) ->
  (SwtmrNode i ∈ lw' -> ucState w' = OS_SWTMR_STATUS_TICKING) ->
  (ucState w' <> OS_SWTMR_STATUS_UNUSED -> 0 < uwInterval w' < 2 ^ 32 /\ 0 <= swtmrResponseTime w') -> SwtmrInv k' m' fl' lw'.
Proof.
  intros [S1 S2 S3 S4 S5 S6 S7 S8 S9 S10] Hw HC Hch Hnd Hfl Hidx Hid Hst Hm Hs Hlw Hmem Htk Hiv. split; try done.
  - intros j. rewrite HC, lookup_insert_is_Some. rewrite <- S1. destruct (decide (i = j)) as [->|]; [|tauto].
    split; [by eauto|tauto].
  - intros j wj. rewrite HC, lookup_insert. case_decide as E; [subst j; intros [= <-]; by split|apply S2].
  - intros j wj. rewrite HC, lookup_insert. case_decide as E; [subst j; intros [= <-]; exact Hst|]. rewrite Hfl by done. apply S5.
  - intros j wj. rewrite HC, lookup_insert. case_decide as E; [subst j; intros [= <-]; exact Hmem|]. rewrite Hlw by done. apply S8.
  - intros j wj. rewrite HC, lookup_insert. case_decide as E; [subst j; intros [= <-]; exact Htk|]. rewrite Hlw by done. apply S9.
  - intros j wj. rewrite HC, lookup_insert. case_decide as E; [subst j; intros [= <-]; exact Hiv|apply S10].
Qed.

(** A change of timer [i] that keeps its place in the sort link. *)
Lemma SwtmrInv_edit k m fl lw i w w' :
  SwtmrInv k m fl lw -> g_swtmrCBArray k !! i = Some w -> ucState w <> OS_SWTMR_STATUS_UNUSED ->
  usTimerID w' = usTimerID w -> swtmrResponseTime w' = swtmrResponseTime w -> uwInterval w' = uwInterval w ->
  ucState w' = OS_SWTMR_STATUS_CREATED \/ ucState w' = OS_SWTMR_STATUS_TICKING ->
  (SwtmrNode i ∈ lw -> ucState w' = OS_SWTMR_STATUS_TICKING) ->
  SwtmrInv (set_g_swtmrCBArray (insert i w') k) m fl lw.
Proof.
  intros HS Hw Hu E1 E2 E3 Hst Htk. assert (Hni : i ∉ fl) by (destruct (sw_state _ _ _ _ HS i w Hw) as [[? _]|[_ ?]]; done).
  eapply SwtmrInv_set; [exact HS|exact Hw|done|..]; try done; rewrite ?E1, ?E2, ?E3.
  - apply chain_frame; [apply (sw_free _ _ _ _ HS)|done].
  - apply (sw_nodup _ _ _ _ HS).
  - apply (sw_ids _ _ _ _ HS i w Hw).
  - apply (sw_ids _ _ _ _ HS i w Hw).
  - by right.
  - apply (sw_list _ _ _ _ HS).
  - eapply sorted_ext; [|apply (sw_sorted _ _ _ _ HS)]. apply Forall_forall. intros n _.
    destruct n; try done. unfold key, time_of. cbn. rewrite lookup_insert. case_decide; [|done]. subst. by rewrite Hw; cbn; rewrite E2.
  - intros _. by apply (sw_member _ _ _ _ HS i w Hw).
  - intros _. by apply (sw_interval _ _ _ _ HS i w Hw).
Qed.

Lemma free_not_running k m fl lw i w :
  SwtmrInv k m fl lw -> g_swtmrCBArray k !! i = Some w -> i ∈ fl ->
  ucState w = OS_SWTMR_STATUS_UNUSED /\ SwtmrNode i ∉ lw.
Proof.
  intros HS Hw Hi. destruct (sw_state _ _ _ _ HS i w Hw) as [[Hs _]|[_ ?]]; [|done]. split; [done|].
  intros Hin. rewrite (sw_ticking _ _ _ _ HS i w Hw Hin) in Hs. done.
Qed.

Lemma swtmr_create_api_wp k m t fl lw interval mode handler arg :
  KInv k m t -> SwtmrInv k m fl lw -> 0 < interval < 2 ^ 32 ->
  mode = LOS_SWTMR_MODE_ONCE \/ mode = LOS_SWTMR_MODE_PERIOD \/ mode = LOS_SWTMR_MODE_NO_SELFDELETE -> handler <> 0 ->
  wp (LOS_SwtmrCreate interval mode handler true arg) (λ r k', KInv k' m t /\
    match fl with
    | [] => r = (LOS_ERRNO_SWTMR_MAXSIZE, None) /\ k' = k
    | i :: fl' => ∃ w w', g_swtmrCBArray k !! i = Some w /\ r = (LOS_OK, Some (usTimerID w)) /\
        g_swtmrCBArray k' = <[i := w']> (g_swtmrCBArray k) /\ SwtmrInv k' m fl' lw /\
        w' = mk_SWTMR_CTRL_S None OS_SWTMR_STATUS_CREATED mode 0 (usTimerID w) interval arg handler
          OS_SORT_LINK_INVALID_TIME (swtmrStartTime w)
    end) k.
Proof.
  intros HK HS Hi Hmode Hh. unfold LOS_SwtmrCreate. rewrite (proj2 (Z.eqb_neq interval 0)) by lia.
  assert (negb (mode =? LOS_SWTMR_MODE_ONCE) && negb (mode =? LOS_SWTMR_MODE_PERIOD)
       && negb (mode =? LOS_SWTMR_MODE_NO_SELFDELETE) = false) as -> by (by destruct Hmode as [->|[->| ->]]).
  rewrite (proj2 (Z.eqb_neq _ _) Hh). cbn [negb]. wp_step. apply wp_gets. pose proof (sw_free _ _ _ _ HS) as Hch.
  destruct fl as [|i fl]; cbn in Hch; [rewrite Hch; by wp_steps|]. destruct Hch as (-> & w & Hw & Hch).
  pose proof (sw_nodup _ _ _ _ HS) as [Hni Hnd]%NoDup_cons.
  destruct (free_not_running k m (i :: fl) lw i w HS Hw) as [Hu Hnot]; [left|].
  wp_step. eapply wp_swtmrCB; [done|]. wp_steps. eapply wp_mod_swtmrCB; [done|]. wp_step. unfold SET_SORTLIST_VALUE.
  eapply wp_mod_swtmrCB; [apply lookup_insert_eq|]. wp_steps.
  set (w' := set_swtmrResponseTime _ _). set (k' := set_g_swtmrCBArray _ _).
  assert (HC : g_swtmrCBArray k' = <[i := w']> (g_swtmrCBArray k)) by (cbn; by rewrite insert_insert_eq).
  split; [eapply KInv_swtmr_insert; [|apply lookup_insert_eq]; eapply KInv_swtmr_insert; [by apply KInv_swtmr_free|exact Hw]|].
  exists w, w'. split_and!; [done..| |done]. eapply SwtmrInv_set; [exact HS|exact Hw|exact HC|..]; try done.
  - rewrite HC. by apply chain_frame.
  - intros j Hj. rewrite elem_of_cons. naive_solver.
  - apply (sw_ids _ _ _ _ HS i w Hw).
  - apply (sw_ids _ _ _ _ HS i w Hw).
  - right. split; [by left|done].
  - apply (sw_list _ _ _ _ HS).
  - eapply (timer_sorted k); [|intros j Hj; rewrite HC; apply lookup_insert_ne; by intros ->|apply (sw_sorted _ _ _ _ HS)].
    destruct (ki_timers _ _ _ HK) as (lw0 & Hlw0 & Hall). rewrite (sw_list _ _ _ _ HS) in Hlw0. by simplify_eq.
Qed.

(** LOS_SwtmrCreate takes the first timer of the free list and initialises it as created
    and not running, and fails exactly when the free list is empty; the kernel and the timer
    invariant are kept. *)
Theorem swtmr_create_correct k m t fl lw interval mode handler arg :
  KInv k m t -> SwtmrInv k m fl lw -> 0 < interval < 2 ^ 32 ->
  mode = LOS_SWTMR_MODE_ONCE \/ mode = LOS_SWTMR_MODE_PERIOD \/ mode = LOS_SWTMR_MODE_NO_SELFDELETE -> handler <> 0 ->
  wp (LOS_SwtmrCreate interval mode handler true arg) (λ r k', KInv k' m t /\
    match fl with
    | [] => r = (LOS_ERRNO_SWTMR_MAXSIZE, None) /\ k' = k
    | i :: fl' => ∃ w w', g_swtmrCBArray k !! i = Some w /\ r = (LOS_OK, Some (usTimerID w)) /\
        g_swtmrCBArray k' = <[i := w']> (g_swtmrCBArray k) /\ SwtmrInv k' m fl' lw /\
        w' = mk_SWTMR_CTRL_S None OS_SWTMR_STATUS_CREATED mode 0 (usTimerID w) interval arg handler
          OS_SORT_LINK_INVALID_TIME (swtmrStartTime w)
    end) k.
Proof.
  intros HK HS Hi Hmode Hh. by apply swtmr_create_api_wp.
Qed.

(** *** Stopping and deleting *)

Lemma SwtmrInv_frame k k' m m' fl lw :
  SwtmrInv k m fl lw -> g_swtmrCBArray k' = g_swtmrCBArray k -> g_swtmrFreeList k' = g_swtmrFreeList k ->
  m' !! SwtmrSortLink = m !! SwtmrSortLink -> Forall (λ n, ∃ i w, n = SwtmrNode i /\ g_swtmrCBArray k !! i = Some w) lw ->
  SwtmrInv k' m' fl lw.
Proof.
  intros [] EC EF Em Hall. split; rewrite ?EC, ?EF, ?Em; try done. eapply timer_sorted; [done| |done]. intros. by rewrite EC.
Qed.

Lemma timers_are k m t fl lw : KInv k m t -> SwtmrInv k m fl lw ->
  Forall (λ n, ∃ i w, n = SwtmrNode i /\ g_swtmrCBArray k !! i = Some w) lw.
Proof.
  intros HK HS. destruct (ki_timers _ _ _ HK) as (lw0 & Hlw0 & Hall). rewrite (sw_list _ _ _ _ HS) in Hlw0. by simplify_eq.
Qed.

Lemma ticking_used w : ucState w = OS_SWTMR_STATUS_TICKING -> ucState w <> OS_SWTMR_STATUS_UNUSED.
Proof. by intros ->. Qed.

Definition stopped (w : SWTMR_CTRL_S) : SWTMR_CTRL_S :=
  set_ucOverrun (λ _, 0) (set_ucState (λ _, OS_SWTMR_STATUS_CREATED)
    (set_swtmrResponseTime (λ _, OS_SORT_LINK_INVALID_TIME) w)).

Lemma StronglySorted_filter {A} (R : A -> A -> Prop) (P : A -> Prop) `{∀ x, Decision (P x)} l :
  StronglySorted R l -> StronglySorted R (filter P l).
Proof.
  induction 1 as [|x l Hs IH Hx]; [constructor|]. rewrite filter_cons. case_decide; [|done]. constructor; [done|].
  rewrite Forall_forall in Hx |- *. intros y Hy. apply Hx. by apply list_elem_of_filter in Hy as [_ ?].
Qed.

(** Removing a running timer from the sort link. *)
Lemma unlinked_inv k m t fl lw i w h :
  KInv k m t -> SwtmrInv k m fl lw -> g_swtmrCBArray k !! i = Some w -> ucState w = OS_SWTMR_STATUS_TICKING ->
  SwtmrInv (set_g_swtmrCBArray (insert i (set_swtmrResponseTime (λ _, OS_SORT_LINK_INVALID_TIME) w)) (set_dlists (λ _, h) k))
    (<[SwtmrSortLink := list_remove_all (SwtmrNode i) lw]> m) fl (list_remove_all (SwtmrNode i) lw).
Proof.
  intros HK HS Hw Ht. pose proof (timers_are _ _ _ _ _ HK HS) as Hall.
  assert (Hni : i ∉ fl) by (destruct (sw_state _ _ _ _ HS i w Hw) as [[? _]|[_ ?]]; [by apply ticking_used in Ht|done]).
  eapply SwtmrInv_set; [exact HS|exact Hw|done|..]; try done.
  - cbn. apply chain_frame; [apply (sw_free _ _ _ _ HS)|done].
  - apply (sw_nodup _ _ _ _ HS).
  - apply (sw_ids _ _ _ _ HS i w Hw).
  - apply (sw_ids _ _ _ _ HS i w Hw).
  - right. split; [by right|done].
  - apply lookup_insert_eq.
  - eapply (timer_sorted k).
    + rewrite Forall_forall in Hall |- *. intros n [Hn _]%elem_of_list_remove_all. by apply Hall.
    + intros j [_ Hj]%elem_of_list_remove_all. cbn. apply lookup_insert_ne. congruence.
    + by apply StronglySorted_filter, (sw_sorted _ _ _ _ HS).
  - intros j Hj. rewrite elem_of_list_remove_all. split; [tauto|]. intros. split; [done|congruence].
  - intros _. rewrite elem_of_list_remove_all. cbn. tauto.
  - intros _. split; [|done]. apply (sw_interval _ _ _ _ HS i w Hw). by apply ticking_used.
Qed.

Lemma kinv_timer_unlink k m t fl lw i w :
  KInv k m t -> SwtmrInv k m fl lw -> g_swtmrCBArray k !! i = Some w -> SwtmrNode i ∈ lw ->
  wp (OsDeleteNodeSortLink (SwtmrNode i)) (λ _ k', ∃ h', let m' := <[SwtmrSortLink := list_remove_all (SwtmrNode i) lw]> m in
    let w' := set_swtmrResponseTime (λ _, OS_SORT_LINK_INVALID_TIME) w in
    k' = set_g_swtmrCBArray (insert i w') (set_dlists (λ _, h') k) /\
    KInv k' m' t /\ SwtmrInv k' m' fl (list_remove_all (SwtmrNode i) lw)) k.
Proof.
  intros HK HS Hw Hin. unfold OsDeleteNodeSortLink. wp_step.
  eapply wp_mono; [eapply kinv_timer_delete; [done|apply (sw_list _ _ _ _ HS)|done]|]. intros [] k2 (h2 & -> & HK2).
  unfold SET_SORTLIST_VALUE. eapply wp_mod_swtmrCB; [exact Hw|]. exists h2. split_and!; [done|by eapply KInv_swtmr_insert|].
  eapply unlinked_inv; [done..|by eapply sw_ticking].
Qed.

Lemma kinv_timer_remove k m t fl lw i w :
  KInv k m t -> SwtmrInv k m fl lw -> g_swtmrCBArray k !! i = Some w -> ucState w = OS_SWTMR_STATUS_TICKING ->
  wp (OsDeleteSortLink (SwtmrNode i)) (λ _ k', ∃ h' r', let m' := <[SwtmrSortLink := list_remove_all (SwtmrNode i) lw]> m in
    let w' := set_swtmrResponseTime (λ _, OS_SORT_LINK_INVALID_TIME) w in
    k' = set_g_swtmrCBArray (insert i w') (set_dlists (λ _, h') (set_g_schedResponseTime (λ _, r') k)) /\
    KInv k' m' t /\ SwtmrInv k' m' fl (list_remove_all (SwtmrNode i) lw)) k.
Proof.
  intros HK HS Hw Ht. unfold OsDeleteSortLink, GET_SORTLIST_VALUE. wp_step. wp_step. eapply wp_swtmrCB; [done|]. wp_step.
  destruct (Z.eqb_spec (swtmrResponseTime w) OS_SORT_LINK_INVALID_TIME) as [E|E]; cbn [negb when].
  - apply wp_ret. exists (dlists k), (g_schedResponseTime k). cbv zeta.
    assert (Hn : SwtmrNode i ∉ lw) by (rewrite (sw_member _ _ _ _ HS i w Hw (ticking_used _ Ht)); tauto).
    assert (Ew : set_swtmrResponseTime (λ _, OS_SORT_LINK_INVALID_TIME) w = w) by (destruct w; cbn in *; by rewrite E).
    rewrite list_remove_all_notin, insert_id by (done || apply (sw_list _ _ _ _ HS)). split_and!; [|done..].
    rewrite Ew. destruct k. cbn in *. unfold set_g_swtmrCBArray. cbn. by rewrite insert_id.
  - assert (Hin : SwtmrNode i ∈ lw) by by rewrite (sw_member _ _ _ _ HS i w Hw (ticking_used _ Ht)).
    unfold OsSchedResetSchedResponseTime. wp_steps.
    assert (Hr : wp (when (swtmrResponseTime w <=? g_schedResponseTime k)
        (modify (set_g_schedResponseTime (λ _, OS_SCHED_MAX_RESPONSE_TIME))))
      (λ _ k1, ∃ r1, k1 = set_g_schedResponseTime (λ _, r1) k) k).
    { destruct (_ <=? _); cbn [when]; wp_steps; [by eexists|exists (g_schedResponseTime k); by destruct k]. }
    eapply wp_mono; [exact Hr|]. intros [] k1 (r1 & ->).
    assert (HK1 : KInv (set_g_schedResponseTime (λ _, r1) k) m t) by by destruct HK.
    assert (HS1 : SwtmrInv (set_g_schedResponseTime (λ _, r1) k) m fl lw)
      by (eapply SwtmrInv_frame; [exact HS|done..|by eapply timers_are]).
    eapply wp_mono; [by eapply kinv_timer_unlink|]. intros [] k2 (h2 & -> & HK2 & HS2). by exists h2, r1.
Qed.

Lemma armed_swtmr k k' : armed k k' ->
  g_swtmrCBArray k' = g_swtmrCBArray k /\ g_swtmrFreeList k' = g_swtmrFreeList k /\ g_taskCBArray k' = g_taskCBArray k /\
  g_sysClock k' = g_sysClock k /\ g_oldTickTimerBase k <= g_oldTickTimerBase k'.
Proof. intros (r & rid & tm & base & old & u & -> & _ & Ho). by split_and!. Qed.

Lemma SwtmrInv_arm k k' m t fl lw : KInv k m t -> SwtmrInv k m fl lw -> armed k k' -> SwtmrInv k' m fl lw.
Proof.
  intros HK HS (E1 & E2 & _)%armed_swtmr. eapply SwtmrInv_frame; [exact HS|done..|by eapply timers_are].
Qed.

Lemma swtmr_stop_wp k m t fl lw i w :
  KInv k m t -> SwtmrInv k m fl lw -> g_swtmrCBArray k !! i = Some w -> ucState w = OS_SWTMR_STATUS_TICKING ->
  wp (OsSwtmrStop i) (λ _ k', let m' := <[SwtmrSortLink := list_remove_all (SwtmrNode i) lw]> m in
    KInv k' m' t /\ SwtmrInv k' m' fl (list_remove_all (SwtmrNode i) lw) /\
    g_swtmrCBArray k' = <[i := stopped w]> (g_swtmrCBArray k) /\ g_taskCBArray k' = g_taskCBArray k /\
    g_sysClock k' = g_sysClock k /\ g_oldTickTimerBase k <= g_oldTickTimerBase k') k.
Proof.
  intros HK HS Hw Ht. unfold OsSwtmrStop. wp_step. eapply wp_mono; [by eapply kinv_timer_remove|].
  intros [] k1 (h1 & r1 & -> & HK1 & HS1). cbv zeta in *. set (m1 := <[SwtmrSortLink := _]> m) in *.
  set (w1 := set_swtmrResponseTime _ w) in *. wp_step. eapply wp_mod_swtmrCB; [apply lookup_insert_eq|].
  wp_step. eapply wp_mod_swtmrCB; [apply lookup_insert_eq|]. fold (stopped w). set (k2 := set_g_swtmrCBArray _ _).
  assert (HC : g_swtmrCBArray k2 = <[i := stopped w]> (g_swtmrCBArray k)) by (cbn; by rewrite !insert_insert_eq).
  assert (HK2 : KInv k2 m1 t) by (eapply KInv_swtmr_insert; [eapply KInv_swtmr_insert; [exact HK1|]|]; apply lookup_insert_eq).
  assert (HS2 : SwtmrInv k2 m1 fl (list_remove_all (SwtmrNode i) lw)).
  { assert (Hn : SwtmrNode i ∉ list_remove_all (SwtmrNode i) lw) by (rewrite elem_of_list_remove_all; tauto).
    eapply (SwtmrInv_edit _ _ _ _ i (set_ucState (λ _, OS_SWTMR_STATUS_CREATED) w1)); try done; [|apply lookup_insert_eq|by left].
    apply (SwtmrInv_edit _ _ _ _ i w1); try done; [apply lookup_insert_eq|by apply (ticking_used w1)|by left]. }
  eapply wp_mono; [by eapply kinv_update_expire|]. intros [] k3 Ha. assert (HK3 := KInv_arm _ _ _ _ HK2 Ha).
  destruct (armed_swtmr _ _ Ha) as (E1 & _ & E3 & E4 & E5). rewrite E1, E3, E4.
  split_and!; [done|exact (SwtmrInv_arm _ _ _ _ _ _ HK2 HS2 Ha)|exact HC|done|done|exact E5].
Qed.

(** The identifier of the next timer in the same block. *)
Definition next_id (id : Z) : Z :=
  if id <? OS_SWTMR_MAX_TIMERID - LOSCFG_BASE_CORE_SWTMR_LIMIT then id + LOSCFG_BASE_CORE_SWTMR_LIMIT
  else id mod LOSCFG_BASE_CORE_SWTMR_LIMIT.

Section limit.
Context (Hlimit : 0 < LOSCFG_BASE_CORE_SWTMR_LIMIT <= 2 ^ 16).

Lemma max_timerid : ∃ q, OS_SWTMR_MAX_TIMERID = LOSCFG_BASE_CORE_SWTMR_LIMIT * q /\ 65535 <= q /\ OS_SWTMR_MAX_TIMERID < 2 ^ 32.
Proof.
  exists (0xFFFFFFFF / LOSCFG_BASE_CORE_SWTMR_LIMIT). unfold OS_SWTMR_MAX_TIMERID. split_and!; [lia| |].
  - apply Z.div_le_lower_bound; lia.
  - pose proof (Z.mul_div_le 0xFFFFFFFF LOSCFG_BASE_CORE_SWTMR_LIMIT). lia.
Qed.

Lemma next_id_ok id : 0 <= id < OS_SWTMR_MAX_TIMERID ->
  0 <= next_id id < OS_SWTMR_MAX_TIMERID /\ swtmr_index (next_id id) = swtmr_index id /\ next_id id <> id.
Proof.
  intros Hid. destruct max_timerid as (q & Eq & Hq & Hlt). unfold next_id, swtmr_index.
  set (L := LOSCFG_BASE_CORE_SWTMR_LIMIT) in *.
  destruct (Z.ltb_spec id (OS_SWTMR_MAX_TIMERID - L)).
  - split_and!; [lia..| |lia]. rewrite <- (Z.add_mod_idemp_r id L L), Z.mod_same, Z.add_0_r by lia. done.
  - pose proof (Z.mod_pos_bound id L). split_and!; [lia|nia| |nia]. apply Z.mod_mod. lia.
Qed.

(** A block passes through all the identifiers that belong to it before one of
    them comes back. *)
Lemma next_id_step q i j : OS_SWTMR_MAX_TIMERID = LOSCFG_BASE_CORE_SWTMR_LIMIT * q -> 0 <= i < LOSCFG_BASE_CORE_SWTMR_LIMIT -> 0 <= j < q ->
  next_id (i + LOSCFG_BASE_CORE_SWTMR_LIMIT * j) = i + LOSCFG_BASE_CORE_SWTMR_LIMIT * ((j + 1) mod q).
Proof.
  intros Hq Hi Hj. unfold next_id. rewrite Hq. set (L := LOSCFG_BASE_CORE_SWTMR_LIMIT) in *.
  destruct (Z.ltb_spec (i + L * j) (L * q - L)).
  - rewrite (Z.mod_small (j + 1)) by nia. lia.
  - assert (j + 1 = q) as -> by nia. rewrite Z.mod_same, (Z.mul_comm L j), Z.mod_add, Z.mod_small by lia. lia.
Qed.

Lemma next_id_iter q i j n : OS_SWTMR_MAX_TIMERID = LOSCFG_BASE_CORE_SWTMR_LIMIT * q -> 0 <= i < LOSCFG_BASE_CORE_SWTMR_LIMIT -> 0 <= j < q ->
  Nat.iter n next_id (i + LOSCFG_BASE_CORE_SWTMR_LIMIT * j) = i + LOSCFG_BASE_CORE_SWTMR_LIMIT * ((j + Z.of_nat n) mod q).
Proof.
  intros Hq Hi Hj. induction n as [|n IH]; [by rewrite Z.add_0_r, Z.mod_small|]. rewrite Nat.iter_succ, IH, (next_id_step q) by (done || (apply Z.mod_pos_bound; lia)).
  rewrite Z.add_mod_idemp_l by lia. do 2 f_equal. f_equal. lia.
Qed.

Lemma next_id_fresh id n : 0 <= id < OS_SWTMR_MAX_TIMERID -> 0 < Z.of_nat n < OS_SWTMR_MAX_TIMERID / LOSCFG_BASE_CORE_SWTMR_LIMIT -> Nat.iter n next_id id <> id.
Proof.
  intros Hid Hn. destruct max_timerid as (q & Hq & _ & _). set (L := LOSCFG_BASE_CORE_SWTMR_LIMIT) in *.
  assert (E : id = id mod L + L * (id / L)) by (rewrite (Z.div_mod id L) at 1 by lia; lia). pose proof (Z.mod_pos_bound id L ltac:(lia)).
  assert (Hj : 0 <= id / L < q) by (split; [apply Z.div_pos; lia|apply Z.div_lt_upper_bound; lia]). set (j := id / L) in *. set (i := id mod L) in *.
  rewrite Hq, Z.mul_comm, Z.div_mul in Hn by lia. rewrite E, (next_id_iter q) by done. fold L. clearbody i j. intros Heq.
  assert (Hmod : (j + Z.of_nat n) mod q = j) by nia. destruct (decide (j + Z.of_nat n < q)).
  - rewrite Z.mod_small in Hmod by lia. lia.
  - replace (j + Z.of_nat n) with (j + Z.of_nat n - q + 1 * q) in Hmod by lia. rewrite Z.mod_add, Z.mod_small in Hmod by lia. lia.
Qed.

Lemma swtmr_delete_wp k m t fl lw i w :
  KInv k m t -> SwtmrInv k m fl lw -> g_swtmrCBArray k !! i = Some w -> ucState w <> OS_SWTMR_STATUS_UNUSED ->
  SwtmrNode i ∉ lw ->
  wp (OsSwtmrDelete i) (λ _ k', KInv k' m t /\ SwtmrInv k' m (i :: fl) lw /\ g_taskCBArray k' = g_taskCBArray k /\
    ∃ w', g_swtmrCBArray k' = <[i := w']> (g_swtmrCBArray k) /\ usTimerID w' = next_id (usTimerID w) /\ ucState w' = OS_SWTMR_STATUS_UNUSED) k.
Proof.
  intros HK HS Hw Hu Hn. destruct (sw_ids _ _ _ _ HS i w Hw) as [Hidx Hid].
  assert (Hni : i ∉ fl) by (destruct (sw_state _ _ _ _ HS i w Hw) as [[? _]|[_ ?]]; done).
  destruct (next_id_ok _ Hid) as (Hr & Hx & _). destruct max_timerid as (_ & _ & _ & Hlt).
  unfold OsSwtmrDelete. wp_step. eapply wp_swtmrCB; [done|]. wp_step.
  assert (Hbump : wp (if usTimerID w <? OS_SWTMR_MAX_TIMERID - LOSCFG_BASE_CORE_SWTMR_LIMIT then
     mod_swtmrCB i (set_usTimerID (λ i, u32 (i + LOSCFG_BASE_CORE_SWTMR_LIMIT)))
   else mod_swtmrCB i (set_usTimerID (λ i, i mod LOSCFG_BASE_CORE_SWTMR_LIMIT)))
   (λ _ k1, k1 = set_g_swtmrCBArray (insert i (set_usTimerID (λ _, next_id (usTimerID w)) w)) k) k).
  { unfold next_id in *. destruct (Z.ltb_spec (usTimerID w) (OS_SWTMR_MAX_TIMERID - LOSCFG_BASE_CORE_SWTMR_LIMIT)).
    all: eapply wp_mod_swtmrCB; [done|]; unfold set_usTimerID; cbn; rewrite ?u32_id by lia; done. }
  eapply wp_mono; [exact Hbump|]. intros [] k1 ->. wp_step. apply wp_gets.
  wp_step. eapply wp_mod_swtmrCB; [apply lookup_insert_eq|]. wp_steps. eapply wp_mod_swtmrCB; [apply lookup_insert_eq|].
  set (w' := set_ucState _ _). set (k' := set_g_swtmrCBArray _ _).
  assert (HC : g_swtmrCBArray k' = <[i := w']> (g_swtmrCBArray k)) by (cbn; by rewrite !insert_insert_eq).
  split_and!; [| |done|by exists w'].
  - eapply KInv_swtmr_insert; [|apply lookup_insert_eq]. apply KInv_swtmr_free.
    eapply KInv_swtmr_insert; [|apply lookup_insert_eq]. by eapply KInv_swtmr_insert.
  - eapply SwtmrInv_set; [exact HS|exact Hw|exact HC|..]; try done.
    + cbn [chain]. split; [done|]. exists w'. rewrite HC, lookup_insert_eq. split; [done|].
      apply chain_frame; [apply (sw_free _ _ _ _ HS)|done].
    + constructor; [done|apply (sw_nodup _ _ _ _ HS)].
    + intros j Hj. rewrite elem_of_cons. naive_solver.
    + change (swtmr_index (next_id (usTimerID w)) = i). congruence.
    + left. split; [done|left].
    + apply (sw_list _ _ _ _ HS).
    + eapply timer_sorted; [by eapply timers_are| |apply (sw_sorted _ _ _ _ HS)].
      intros j Hj. rewrite HC. apply lookup_insert_ne. by intros ->.
Qed.

Lemma index_u16 id : u16 (swtmr_index id) = swtmr_index id.
Proof. apply u16_id. unfold swtmr_index. pose proof (Z.mod_pos_bound id LOSCFG_BASE_CORE_SWTMR_LIMIT). lia. Qed.

(** Every call with the identifier is refused without an effect. *)
Definition id_refused (k : Kernel) (id : Z) : Prop :=
  wp (LOS_SwtmrStart id) (λ r k', r = LOS_ERRNO_SWTMR_NOT_CREATED /\ k' = k) k /\
  wp (LOS_SwtmrStop id) (λ r k', r = LOS_ERRNO_SWTMR_NOT_CREATED /\ k' = k) k /\
  wp (LOS_SwtmrDelete id) (λ r k', r = LOS_ERRNO_SWTMR_NOT_CREATED /\ k' = k) k /\
  wp (LOS_SwtmrTimeGet id true) (λ r k', r = (LOS_ERRNO_SWTMR_NOT_CREATED, None) /\ k' = k) k.

Lemma stale_refused k id w : 0 <= id < OS_SWTMR_MAX_TIMERID -> g_swtmrCBArray k !! swtmr_index id = Some w -> usTimerID w <> id -> id_refused k id.
Proof.
  intros Hid Hw Hne. assert (Eid : (id >=? OS_SWTMR_MAX_TIMERID) = false) by lia.
  unfold id_refused, LOS_SwtmrStart, LOS_SwtmrStop, LOS_SwtmrDelete, LOS_SwtmrTimeGet. rewrite Eid. cbv zeta. rewrite index_u16. cbn [negb].
  split_and!; (wp_step; eapply wp_swtmrCB; [done|]; rewrite (proj2 (Z.eqb_neq _ _) Hne); by wp_steps).
Qed.

Lemma swtmr_delete_api_wp k m t fl lw id w (i := swtmr_index id) :
  KInv k m t -> SwtmrInv k m fl lw -> 0 <= id < OS_SWTMR_MAX_TIMERID -> g_swtmrCBArray k !! i = Some w ->
  wp (LOS_SwtmrDelete id) (λ ret k', 
    if negb (usTimerID w =? id) || (ucState w =? OS_SWTMR_STATUS_UNUSED) then ret = LOS_ERRNO_SWTMR_NOT_CREATED /\ k' = k
    else ret = LOS_OK /\ ∃ m', KInv k' m' t /\ lists_shrink SwtmrSortLink m m' /\ SwtmrInv k' m' (i :: fl) (list_remove_all (SwtmrNode i) lw) /\
      ∃ w', g_swtmrCBArray k' = <[i := w']> (g_swtmrCBArray k) /\ usTimerID w' = next_id id /\ ucState w' = OS_SWTMR_STATUS_UNUSED) k.
Proof.
  intros HK HS Hid Hw. assert (Eid : (id >=? OS_SWTMR_MAX_TIMERID) = false) by lia.
  unfold LOS_SwtmrDelete. rewrite Eid. cbv zeta. rewrite index_u16. fold i. wp_step. eapply wp_swtmrCB; [done|].
  destruct (Z.eqb_spec (usTimerID w) id) as [E|E]; cbn [negb orb]; [|by wp_steps].
  destruct (Z.eqb_spec (ucState w) OS_SWTMR_STATUS_UNUSED) as [Eu|Eu]; [by wp_steps|].
  destruct (sw_state _ _ _ _ HS i w Hw) as [[? _]|[[Es|Es] _]]; [done|..]; rewrite Es; cbn [Z.eqb OS_SWTMR_STATUS_CREATED OS_SWTMR_STATUS_TICKING Pos.eqb].
  - assert (Hn : SwtmrNode i ∉ lw) by (intros Hin; rewrite (sw_ticking _ _ _ _ HS i w Hw Hin) in Es; done).
    wp_step. eapply wp_mono; [by eapply swtmr_delete_wp|]. intros [] k' (HK' & HS' & _ & w' & HC & Hi' & Hu'). apply wp_ret.
    split; [done|]. exists m. rewrite list_remove_all_notin by done. rewrite E in Hi'. split_and!; [done|apply lists_shrink_refl|done|by exists w'].
  - wp_step. eapply wp_mono; [by eapply swtmr_stop_wp|]. intros [] k1 (HK1 & HS1 & HC1 & _).
    wp_step. eapply wp_mono; [eapply (swtmr_delete_wp k1 _ t fl _ i (stopped w) HK1 HS1)|].
    + rewrite HC1. apply lookup_insert_eq.
    + done.
    + rewrite elem_of_list_remove_all. tauto.
    + intros [] k' (HK' & HS' & _ & w' & HC & Hi' & Hu'). apply wp_ret. split; [done|]. eexists. split_and!; [exact HK'|apply lists_shrink_insert|exact HS'|].
      cbn in Hi'. rewrite E in Hi'. rewrite HC1, insert_insert_eq in HC. by exists w'.
Qed.

(** C23: LOS_SwtmrDelete refuses an identifier that is not in use; otherwise it stops the timer
    and returns its block, unused, to the free list under the next identifier of the block. The
    deleted identifier is then refused without an effect by start, stop, deletion and time query
    in every state in which the block has had less than OS_SWTMR_MAX_TIMERID /
    LOSCFG_BASE_CORE_SWTMR_LIMIT (at least 65535) deletions, this one included, whether the
    block is in use again or not. For identifiers below OS_SWTMR_MAX_TIMERID and 1 to 2^16
    timers. *)
Theorem swtmr_delete_correct k m t fl lw id w (i := swtmr_index id) :
  KInv k m t -> SwtmrInv k m fl lw -> 0 <= id < OS_SWTMR_MAX_TIMERID -> g_swtmrCBArray k !! i = Some w ->
  wp (LOS_SwtmrDelete id) (λ ret k', 
    if negb (usTimerID w =? id) || (ucState w =? OS_SWTMR_STATUS_UNUSED) then ret = LOS_ERRNO_SWTMR_NOT_CREATED /\ k' = k
    else ret = LOS_OK /\ ∃ m' w', KInv k' m' t /\ SwtmrInv k' m' (i :: fl) (list_remove_all (SwtmrNode i) lw) /\
      g_swtmrCBArray k' = <[i := w']> (g_swtmrCBArray k) /\ usTimerID w' = next_id id /\ ucState w' = OS_SWTMR_STATUS_UNUSED /\
      ∀ k2 w2 n, g_swtmrCBArray k2 !! i = Some w2 -> usTimerID w2 = Nat.iter n next_id id ->
        0 < Z.of_nat n < OS_SWTMR_MAX_TIMERID / LOSCFG_BASE_CORE_SWTMR_LIMIT -> id_refused k2 id) k.
Proof.
  intros HK HS Hid Hw. eapply wp_mono; [by eapply swtmr_delete_api_wp|]. intros ret k' Hk'. fold i in Hk'.
  destruct (_ || _); [done|]. destruct Hk' as (-> & m' & ? & _ & ? & w' & ? & ? & ?). split; [done|]. exists m', w'. split_and!; [done..|].
  intros k2 w2 n Hw2 Hn Hr. eapply stale_refused; [done|exact Hw2|]. rewrite Hn. by apply next_id_fresh.
Qed.

Lemma swtmr_stop_api_wp k m t fl lw id w (i := swtmr_index id) :
  KInv k m t -> SwtmrInv k m fl lw -> 0 <= id < OS_SWTMR_MAX_TIMERID -> g_swtmrCBArray k !! i = Some w ->
  wp (LOS_SwtmrStop id) (λ ret k',
    if negb (usTimerID w =? id) || (ucState w =? OS_SWTMR_STATUS_UNUSED) then ret = LOS_ERRNO_SWTMR_NOT_CREATED /\ k' = k
    else if ucState w =? OS_SWTMR_STATUS_CREATED then ret = LOS_ERRNO_SWTMR_NOT_STARTED /\ k' = k
    else ret = LOS_OK /\ ∃ m', KInv k' m' t /\ lists_shrink SwtmrSortLink m m' /\ SwtmrInv k' m' fl (list_remove_all (SwtmrNode i) lw) /\
      g_swtmrCBArray k' = <[i := stopped w]> (g_swtmrCBArray k)) k.
Proof.
  intros HK HS Hid Hw. assert (Eid : (id >=? OS_SWTMR_MAX_TIMERID) = false) by lia.
  unfold LOS_SwtmrStop. rewrite Eid. cbv zeta. rewrite index_u16. fold i. wp_step. eapply wp_swtmrCB; [done|].
  destruct (usTimerID w =? id); cbn [negb orb]; [|by wp_steps].
  destruct (Z.eqb_spec (ucState w) OS_SWTMR_STATUS_UNUSED) as [Eu|Eu]; [by wp_steps|].
  destruct (Z.eqb_spec (ucState w) OS_SWTMR_STATUS_CREATED) as [Ec|Ec]; [by wp_steps|].
  destruct (sw_state _ _ _ _ HS i w Hw) as [[? _]|[[?|Es] _]]; [done..|]. rewrite Es, Z.eqb_refl. wp_step.
  eapply wp_mono; [by eapply swtmr_stop_wp|]. intros [] k' (HK' & HS' & HC & _). apply wp_ret. split; [done|].
  eexists. split_and!; [exact HK'|apply lists_shrink_insert|exact HS'|exact HC].
Qed.

(** LOS_SwtmrStop refuses a timer that is not in use or not running, and otherwise removes
    it from the sort link. *)
Theorem swtmr_stop_correct k m t fl lw id w (i := swtmr_index id) :
  KInv k m t -> SwtmrInv k m fl lw -> 0 <= id < OS_SWTMR_MAX_TIMERID -> g_swtmrCBArray k !! i = Some w ->
  wp (LOS_SwtmrStop id) (λ ret k',
    if negb (usTimerID w =? id) || (ucState w =? OS_SWTMR_STATUS_UNUSED) then ret = LOS_ERRNO_SWTMR_NOT_CREATED /\ k' = k
    else if ucState w =? OS_SWTMR_STATUS_CREATED then ret = LOS_ERRNO_SWTMR_NOT_STARTED /\ k' = k
    else ret = LOS_OK /\ ∃ m', KInv k' m' t /\ SwtmrInv k' m' fl (list_remove_all (SwtmrNode i) lw) /\
      g_swtmrCBArray k' = <[i := stopped w]> (g_swtmrCBArray k)) k.
Proof.
  intros HK HS Hid Hw. eapply wp_mono; [by eapply swtmr_stop_api_wp|]. intros ret k' Hk'. fold i in Hk'.
  destruct (_ || _); [done|]. destruct (_ =? _); [done|]. destruct Hk' as (-> & m' & ? & _ & ? & ?). split; [done|]. by exists m'.
Qed.
End limit.

(** *** Messages to the timer task *)

Lemma bytes_item_bytes it : 0 <= item_handler it < 2 ^ 32 -> 0 <= item_arg it < 2 ^ 32 -> 0 <= item_swtmrID it < 2 ^ 32 ->
  bytes_item (item_bytes it) = it.
Proof.
  intros H1 H2 H3. destruct it as [h a id]. unfold bytes_item, item_bytes. cbn [item_handler item_arg item_swtmrID] in *.
  f_equal; by apply bytes_word_bytes.
Qed.

(** What the timer task may be given: a message whose timer is in use when the
    identifier is still its own, and a timer that fires once has not been started
    again since. *)
Definition handle_ok (k : Kernel) (it : SwtmrHandlerItem) : Prop :=
  ∀ w, g_swtmrCBArray k !! swtmr_index (item_swtmrID it) = Some w -> usTimerID w = item_swtmrID it ->
    ucState w <> OS_SWTMR_STATUS_UNUSED /\ (ucMode w = LOS_SWTMR_MODE_ONCE -> swtmrResponseTime w = OS_SORT_LINK_INVALID_TIME).

(** What has become of the timers after the message [it]. *)
Definition handled (it : SwtmrHandlerItem) (w : SWTMR_CTRL_S) (k k' : Kernel) : Prop :=
  if ucMode w =? LOS_SWTMR_MODE_ONCE then
    ∃ w', g_swtmrCBArray k' = <[swtmr_index (item_swtmrID it) := w']> (g_swtmrCBArray k) /\ usTimerID w' = next_id (item_swtmrID it) /\ ucState w' = OS_SWTMR_STATUS_UNUSED
  else g_swtmrCBArray k' = g_swtmrCBArray k.

Lemma swtmr_handle_wp k m t fl lw ret bytes readSize (it := bytes_item bytes) (i := swtmr_index (item_swtmrID it)) :
  0 < LOSCFG_BASE_CORE_SWTMR_LIMIT <= 2 ^ 16 -> KInv k m t -> SwtmrInv k m fl lw -> handle_ok k it ->
  wp (OsSwtmrTask_handle ret bytes readSize) (λ r k', KInv k' m t /\
    match r with
    | None => k' = k /\ (ret <> LOS_OK \/ readSize <> sizeof_SwtmrHandlerItem \/ item_handler it = 0 \/ OS_SWTMR_MAX_TIMERID <= item_swtmrID it \/
        usTimerID <$> g_swtmrCBArray k !! i <> Some (item_swtmrID it))
    | Some call => call = (item_handler it, item_arg it) /\ ∃ w, g_swtmrCBArray k !! i = Some w /\ usTimerID w = item_swtmrID it /\
        SwtmrInv k' m (if ucMode w =? LOS_SWTMR_MODE_ONCE then i :: fl else fl) lw /\ handled it w k k'
    end) k.
Proof.
  intros Hlim HK HS Hok. unfold OsSwtmrTask_handle. fold it i. destruct (Z.eqb_spec ret LOS_OK) as [->|?]; cbn [andb]; [|apply wp_ret; tauto].
  destruct (Z.eqb_spec readSize sizeof_SwtmrHandlerItem); [|apply wp_ret; tauto]. destruct (Z.eqb_spec (item_handler it) 0); cbn [orb]; [apply wp_ret; tauto|].
  destruct (Z.geb_spec (item_swtmrID it) OS_SWTMR_MAX_TIMERID) as [?|Hlt]; [apply wp_ret; split; [done|]; split; [done|]; right; right; right; left; lia|].
  assert (is_Some (g_swtmrCBArray k !! i)) as [w Hw] by (apply (sw_dom _ _ _ _ HS), Z.mod_pos_bound; lia). wp_step. eapply wp_swtmrCB; [done|].
  destruct (Z.eqb_spec (usTimerID w) (item_swtmrID it)) as [Eid|Ene]; cbn [negb]; [|apply wp_ret; rewrite Hw; cbn; split_and!; [done|done|]; do 4 right; by intros [= ?]].
  destruct (Hok w Hw Eid) as [Hu Honce]. wp_step.
  assert (Hdel : wp (when (ucMode w =? LOS_SWTMR_MODE_ONCE) (OsSwtmrDelete i)) (λ _ k1, KInv k1 m t /\
    SwtmrInv k1 m (if ucMode w =? LOS_SWTMR_MODE_ONCE then i :: fl else fl) lw /\ handled it w k k1) k).
  { unfold handled. fold i. destruct (Z.eqb_spec (ucMode w) LOS_SWTMR_MODE_ONCE) as [E|E]; cbn [when]; [|by apply wp_ret].
    assert (Hn : SwtmrNode i ∉ lw) by (rewrite (sw_member _ _ _ _ HS i w Hw Hu); auto).
    eapply wp_mono; [by eapply swtmr_delete_wp|]. intros [] k1 (? & ? & _ & w' & ? & ? & ?). split_and!; [done..|]. exists w'. by rewrite <- Eid. }
  eapply wp_mono; [exact Hdel|]. intros [] k1 (HK1 & HS1 & Hh). wp_step. unfold LOS_TickCountGet. wp_step.
  eapply wp_mono; [by eapply kinv_cycle|]. intros now k2 (Ha2 & HK2 & _). wp_steps. split; [done|]. split; [done|]. exists w.
  split_and!; [done|done|exact (SwtmrInv_arm _ _ _ _ _ _ HK1 HS1 Ha2)|]. destruct (armed_swtmr _ _ Ha2) as (E & _). unfold handled in *. by rewrite E.
Qed.

(** C24: The timer task decodes the message of an expiry to the handler and argument that were
    queued, ignores it when the timer was deleted since, deletes a timer that fires once under a
    new identifier, and changes no other timer. If the identifier is still that of the timer,
    the timer is in use and, when it fires once, has not been started again since the expiry (in
    that case the code frees a running timer, the defect at los_swtmr.c:96). For 1 to 2^16
    timers. *)
Theorem swtmr_handle_correct k m t fl lw it w (i := swtmr_index (item_swtmrID it)) :
  0 < LOSCFG_BASE_CORE_SWTMR_LIMIT <= 2 ^ 16 ->
  KInv k m t -> SwtmrInv k m fl lw -> g_swtmrCBArray k !! i = Some w ->
  0 < item_handler it < 2 ^ 32 -> 0 <= item_arg it < 2 ^ 32 -> 0 <= item_swtmrID it < OS_SWTMR_MAX_TIMERID -> handle_ok k it ->
  wp (OsSwtmrTask_handle LOS_OK (item_bytes it) sizeof_SwtmrHandlerItem) (λ r k',
    if usTimerID w =? item_swtmrID it then r = Some (item_handler it, item_arg it) /\ KInv k' m t /\
      SwtmrInv k' m (if ucMode w =? LOS_SWTMR_MODE_ONCE then i :: fl else fl) lw /\ handled it w k k'
    else r = None /\ k' = k) k.
Proof.
  intros Hlim HK HS Hw Hh Ha Hid Hok. destruct (max_timerid Hlim) as (_ & _ & _ & Hmax).
  assert (E : bytes_item (item_bytes it) = it) by (apply bytes_item_bytes; lia).
  eapply wp_mono; [apply (swtmr_handle_wp k m t fl lw LOS_OK (item_bytes it)); [done..|]; by rewrite E|]. rewrite E. fold i. intros [call|] k' [HK' HQ].
  - destruct HQ as (-> & w0 & Hw0 & Eid & HS' & Hd). assert (w0 = w) as -> by congruence. rewrite Eid, Z.eqb_refl. done.
  - destruct HQ as [-> HQ]. rewrite Hw in HQ. cbn in HQ. destruct (Z.eqb_spec (usTimerID w) (item_swtmrID it)) as [Eid|_]; [|done]. exfalso. rewrite Eid in HQ. naive_solver lia.
Qed.

(** *** Starting *)

(** Timer [i] runs and expires at [v]. *)
Definition started (v : Z) (w : SWTMR_CTRL_S) : SWTMR_CTRL_S :=
  set_swtmrResponseTime (λ _, v) (set_ucState (λ _, OS_SWTMR_STATUS_TICKING) w).
Definition period (clk : Z) (w : SWTMR_CTRL_S) : Z := OS_SYS_TICK_TO_CYCLE clk (uwInterval w).
Definition expiry (clk : Z) (w : SWTMR_CTRL_S) : Z := u64 (swtmrStartTime w + period clk w).

Lemma swtmr_start_wp k m t fl lw i w now :
  KInv k m t -> SwtmrInv k m fl lw -> g_swtmrCBArray k !! i = Some w -> ucState w <> OS_SWTMR_STATUS_UNUSED ->
  SwtmrNode i ∉ lw -> expiry (g_sysClock k) w <> OS_SORT_LINK_INVALID_TIME ->
  wp (OsSwtmrStart now i) (λ _ k', ∃ k1 lw', g_swtmrCBArray k1 = <[i := started (expiry (g_sysClock k) w) w]> (g_swtmrCBArray k) /\
    lw' = sortlink_insert (key k1) (SwtmrNode i) lw /\
    KInv k' (<[SwtmrSortLink := lw']> m) t /\ SwtmrInv k' (<[SwtmrSortLink := lw']> m) fl lw' /\
    armed (set_dlists (λ _, dlists k') k1) k' /\ k1 = set_g_swtmrCBArray (λ _, g_swtmrCBArray k1) k) k.
Proof.
  intros HK HS Hw Hu Hn Hv. pose proof (timers_are _ _ _ _ _ HK HS) as Hall. pose proof (sw_list _ _ _ _ HS) as Hlw.
  assert (Hni : i ∉ fl) by (destruct (sw_state _ _ _ _ HS i w Hw) as [[? _]|[_ ?]]; done).
  unfold OsSwtmrStart. wp_step. eapply wp_mod_swtmrCB; [done|]. wp_step. eapply wp_swtmrCB; [apply lookup_insert_eq|].
  wp_step. unfold OsAdd2SortLink. cbn [Z.eqb OS_SORT_LINK_SWTMR OS_SORT_LINK_TASK Pos.eqb]. wp_steps. unfold SET_SORTLIST_VALUE.
  eapply wp_mod_swtmrCB; [apply lookup_insert_eq|]. cbn [swtmrStartTime uwInterval set_ucState g_sysClock set_g_swtmrCBArray].
  change (u64 (_ + _)) with (expiry (g_sysClock k) w). fold (started (expiry (g_sysClock k) w) w). set (k1 := set_g_swtmrCBArray _ _).
  assert (HC : g_swtmrCBArray k1 = <[i := started (expiry (g_sysClock k) w) w]> (g_swtmrCBArray k)) by (cbn; by rewrite insert_insert_eq).
  assert (Ek1 : k1 = set_g_swtmrCBArray (λ _, g_swtmrCBArray k1) k) by done.
  clearbody k1. assert (Hw1 : g_swtmrCBArray k1 !! i = Some (started (expiry (g_sysClock k) w) w)) by (rewrite HC; apply lookup_insert_eq).
  assert (HK1 : KInv k1 m t).
  { rewrite Ek1, HC. apply (KInv_swtmr k m t (λ _, _)); [done|]. intros j Hj. rewrite lookup_insert. case_decide; [by eexists|done]. }
  assert (Hs1 : sorted k1 lw).
  { eapply timer_sorted; [exact Hall| |apply (sw_sorted _ _ _ _ HS)]. intros j Hj. rewrite HC. apply lookup_insert_ne. by intros ->. }
  eapply wp_mono; [by eapply (kinv_timer_add k1 m t lw i)|]. intros [] k2 (h2 & Ek2 & HK2).
  set (lw' := sortlink_insert (key k1) (SwtmrNode i) lw) in *.
  assert (Hperm : lw' ≡ₚ SwtmrNode i :: lw) by apply sortlink_insert_perm.
  assert (HC2 : g_swtmrCBArray k2 = g_swtmrCBArray k1) by by rewrite Ek2.
  assert (HS2 : SwtmrInv k2 (<[SwtmrSortLink := lw']> m) fl lw').
  { eapply SwtmrInv_set; [exact HS|exact Hw|by rewrite HC2|..]; try done.
    - rewrite HC2, HC. apply chain_frame; [|done]. rewrite Ek2, Ek1. apply (sw_free _ _ _ _ HS).
    - apply (sw_nodup _ _ _ _ HS).
    - apply (sw_ids _ _ _ _ HS i w Hw).
    - apply (sw_ids _ _ _ _ HS i w Hw).
    - right. split; [by right|done].
    - apply lookup_insert_eq.
    - eapply (timer_sorted k1); [|by intros; rewrite HC2|by apply sortlink_insert_sorted].
      rewrite Hperm. constructor; [by eexists _, _|]. rewrite Forall_forall in Hall |- *. intros n Hin.
      destruct (Hall n Hin) as (j & wj & -> & Hj). exists j, wj. rewrite HC, lookup_insert_ne; [done|]. by intros ->.
    - intros j Hj. rewrite Hperm, elem_of_cons. naive_solver.
    - intros _. rewrite Hperm, elem_of_cons. cbn. tauto.
    - intros _. split; [by apply (sw_interval _ _ _ _ HS i w Hw)|apply u64_range]. }
  eapply wp_mono; [by eapply kinv_update_expire|]. intros [] k3 Ha. exists k1, lw'.
  split_and!; [done|done|by eapply KInv_arm|exact (SwtmrInv_arm _ _ _ _ _ _ HK2 HS2 Ha)| |done].
  assert (E3 : dlists k3 = h2) by (destruct (armed_fields _ _ Ha) as (-> & _); by rewrite Ek2). rewrite E3, <- Ek2. done.
Qed.

Lemma clock_now k : clock_ok k -> 0 <= g_oldTickTimerBase k < 2 ^ 63.
Proof. intros Hk. apply (clock_range k Hk). Qed.

(** Reading the clock and starting a timer that is not in the sort link. *)
Lemma start_now_wp k m t fl lw i w (now0 := g_oldTickTimerBase k) :
  2 <= LOSCFG_BASE_CORE_TICK_PER_SECOND -> KInv k m t -> SwtmrInv k m fl lw -> g_swtmrCBArray k !! i = Some w ->
  ucState w <> OS_SWTMR_STATUS_UNUSED -> SwtmrNode i ∉ lw ->
  wp (let* t := OsGetCurrSchedTimeCycle in
      mod_swtmrCB i (set_swtmrStartTime (λ _, t)) ;;;
      OsSwtmrStart t i ;;;
      mret LOS_OK) (λ ret k', ret = LOS_OK /\ ∃ m' lw' now, KInv k' m' t /\ SwtmrInv k' m' fl lw' /\
    lists_shrink SwtmrSortLink m m' /\ lw' ≡ₚ SwtmrNode i :: lw /\ now0 <= now < 2 ^ 63 /\
    g_swtmrCBArray k' = <[i := started (u64 (now + OS_SYS_TICK_TO_CYCLE (g_sysClock k) (uwInterval w)))
      (set_swtmrStartTime (λ _, now) w)]> (g_swtmrCBArray k)) k.
Proof.
  intros Htps HK HS Hw Hu Hn. unfold OsGetCurrSchedTimeCycle. wp_step. eapply wp_mono; [by eapply kinv_cycle|].
  intros now k1 (Ha & HK1 & Hnow & Eold). assert (HS1 := SwtmrInv_arm _ _ _ _ _ _ HK HS Ha).
  destruct (armed_swtmr _ _ Ha) as (EC & _ & _ & Eclk & _). pose proof (clock_now k1 (ki_clock _ _ _ HK1)) as Hb.
  pose proof (clock_now k (ki_clock _ _ _ HK)) as Hb0. rewrite Eold in Hb.
  rewrite <- EC in Hw. wp_step. eapply wp_mod_swtmrCB; [exact Hw|]. set (w1 := set_swtmrStartTime _ w).
  set (k2 := set_g_swtmrCBArray _ k1). assert (HK2 : KInv k2 m t) by by eapply KInv_swtmr_insert.
  assert (Hni : i ∉ fl) by (destruct (sw_state _ _ _ _ HS1 i w Hw) as [[? _]|[_ ?]]; done).
  assert (HS2 : SwtmrInv k2 m fl lw).
  { eapply SwtmrInv_edit; [exact HS1|exact Hw|done..| |done]. by destruct (sw_state _ _ _ _ HS1 i w Hw) as [[? _]|[? _]]. }
  assert (Ew1 : g_swtmrCBArray k2 !! i = Some w1) by apply lookup_insert_eq.
  wp_step. eapply wp_mono; [eapply (swtmr_start_wp k2 m t fl lw i w1 now HK2 HS2 Ew1 Hu Hn); by apply wait_time_valid; [|cbn; lia]|].
  intros [] k' (k3 & lw' & HC3 & Hlw' & HK' & HS' & Ha' & _). wp_step. split; [done|]. exists (<[SwtmrSortLink := lw']> m), lw', now.
  split_and!; [done|done|apply lists_shrink_insert| |lia|lia|].
  - rewrite Hlw'. apply sortlink_insert_perm.
  - destruct (armed_swtmr _ _ Ha') as (-> & _). change (g_swtmrCBArray (set_dlists _ k3)) with (g_swtmrCBArray k3). rewrite HC3.
    change (g_swtmrCBArray k2) with (<[i := w1]> (g_swtmrCBArray k1)). rewrite insert_insert_eq, EC.
    unfold expiry. change (g_sysClock k2) with (g_sysClock k1). by rewrite Eclk.
Qed.

Lemma swtmr_start_api_wp k m t fl lw id w (i := swtmr_index id) :
  2 <= LOSCFG_BASE_CORE_TICK_PER_SECOND ->
  KInv k m t -> SwtmrInv k m fl lw -> 0 <= id < OS_SWTMR_MAX_TIMERID -> g_swtmrCBArray k !! i = Some w ->
  wp (LOS_SwtmrStart id) (λ ret k',
    if negb (usTimerID w =? id) || (ucState w =? OS_SWTMR_STATUS_UNUSED) then ret = LOS_ERRNO_SWTMR_NOT_CREATED /\ k' = k
    else ret = LOS_OK /\ ∃ m' lw' now w', KInv k' m' t /\ lists_shrink SwtmrSortLink m m' /\ SwtmrInv k' m' fl lw' /\
      lw' ≡ₚ SwtmrNode i :: list_remove_all (SwtmrNode i) lw /\ g_oldTickTimerBase k <= now < 2 ^ 63 /\
      g_swtmrCBArray k' = <[i := w']> (g_swtmrCBArray k) /\
      w' = started (u64 (now + OS_SYS_TICK_TO_CYCLE (g_sysClock k) (uwInterval w)))
        (set_swtmrStartTime (λ _, now) (if ucState w =? OS_SWTMR_STATUS_TICKING then stopped w else w))) k.
Proof.
  intros Htps HK HS Hid Hw. assert (Eid : (id >=? OS_SWTMR_MAX_TIMERID) = false) by lia.
  unfold LOS_SwtmrStart. rewrite Eid. cbv zeta. fold i. wp_step. eapply wp_swtmrCB; [done|].
  destruct (Z.eqb_spec (usTimerID w) id) as [E|E]; cbn [negb orb]; [|by wp_steps].
  destruct (Z.eqb_spec (ucState w) OS_SWTMR_STATUS_UNUSED) as [Eu|Eu]; [by wp_steps|].
  destruct (sw_state _ _ _ _ HS i w Hw) as [[? _]|[[Es|Es] _]]; [done|..]; rewrite Es; cbn [Z.eqb OS_SWTMR_STATUS_CREATED OS_SWTMR_STATUS_TICKING Pos.eqb].
  - assert (Hn : SwtmrNode i ∉ lw) by (intros Hin; rewrite (sw_ticking _ _ _ _ HS i w Hw Hin) in Es; done).
    eapply wp_mono; [by eapply start_now_wp|]. intros ret k' (-> & m' & lw' & now & HK' & HS' & Hls & Hp & Hnow & HC).
    split; [done|]. exists m', lw', now. eexists. split_and!; [done|done|done|by rewrite list_remove_all_notin|lia|lia|exact HC|done].
  - wp_step. eapply wp_mono; [by eapply swtmr_stop_wp|]. intros [] k1 (HK1 & HS1 & HC1 & _ & Eclk & Hold).
    eapply wp_mono; [eapply (start_now_wp k1 _ t fl _ i (stopped w) Htps HK1 HS1)|].
    + rewrite HC1. apply lookup_insert_eq.
    + done.
    + rewrite elem_of_list_remove_all. tauto.
    + intros ret k' (-> & m' & lw' & now & HK' & HS' & Hls & Hp & Hnow & HC). split; [done|]. exists m', lw', now. eexists.
      rewrite HC1, insert_insert_eq in HC. rewrite Eclk in HC. split_and!; [done|eapply lists_shrink_trans; [apply lists_shrink_insert|exact Hls]|done|done|lia|lia|exact HC|done].
Qed.

(** C22: LOS_SwtmrStart refuses an identifier that is not in use; otherwise it (re)starts the
    timer, which then is in the sort link once, with the response time one interval after the
    time of the call. *)
Theorem swtmr_start_correct k m t fl lw id w (i := swtmr_index id) :
  2 <= LOSCFG_BASE_CORE_TICK_PER_SECOND ->
  KInv k m t -> SwtmrInv k m fl lw -> 0 <= id < OS_SWTMR_MAX_TIMERID -> g_swtmrCBArray k !! i = Some w ->
  wp (LOS_SwtmrStart id) (λ ret k',
    if negb (usTimerID w =? id) || (ucState w =? OS_SWTMR_STATUS_UNUSED) then ret = LOS_ERRNO_SWTMR_NOT_CREATED /\ k' = k
    else ret = LOS_OK /\ ∃ m' lw' now w', KInv k' m' t /\ SwtmrInv k' m' fl lw' /\
      lw' ≡ₚ SwtmrNode i :: list_remove_all (SwtmrNode i) lw /\ g_oldTickTimerBase k <= now < 2 ^ 63 /\
      g_swtmrCBArray k' = <[i := w']> (g_swtmrCBArray k) /\ ucState w' = OS_SWTMR_STATUS_TICKING /\
      swtmrResponseTime w' = u64 (now + OS_SYS_TICK_TO_CYCLE (g_sysClock k) (uwInterval w))) k.
Proof.
  intros Htps HK HS Hid Hw. eapply wp_mono; [by eapply swtmr_start_api_wp|]. intros ret k' Hk'. fold i in Hk'.
  destruct (_ || _); [done|]. destruct Hk' as (-> & m' & lw' & now & w' & ? & _ & ? & ? & ? & ? & ->). split; [done|]. eexists m', lw', now, _. split_and!; done || lia.
Qed.

(** *** Expiry *)

(** What the handling of the timers leaves alone. *)
Definition quiet (k k' : Kernel) : Prop :=
  g_losTaskLock k' = g_losTaskLock k /\ g_sysClock k' = g_sysClock k /\ g_swtmrHandlerQueue k' = g_swtmrHandlerQueue k /\
  g_oldTickTimerBase k <= g_oldTickTimerBase k' /\ (∀ x, startTime <$> g_taskCBArray k' !! x = startTime <$> g_taskCBArray k !! x).
Lemma quiet_refl k : quiet k k.
Proof. by split_and!. Qed.
Lemma quiet_trans k1 k2 k3 : quiet k1 k2 -> quiet k2 k3 -> quiet k1 k3.
Proof. intros (A1 & A2 & A3 & A4 & A5) (B1 & B2 & B3 & B4 & B5). split_and!; [congruence..|lia|]. intros x. by rewrite B5. Qed.
Lemma armed_quiet k k' : armed k k' -> quiet k k'.
Proof. intros (r & rid & tm & base & old & u & -> & _ & Ho). by split_and!. Qed.

(** [P] has the calls of tasks that wait in a queue. *)
Section handler.
Context (P : gmap Z QOp).

(** The messages to the timer task: its queue [c] holds [msgs]. *)
Record handler_queue (k : Kernel) (m : gmap Node (list Node)) (c : LosQueueCB) (msgs : list (list Z)) : Prop := {
  hq_id : 0 <= g_swtmrHandlerQueue k < LOSCFG_BASE_IPC_QUEUE_LIMIT;
  hq_cb : g_allQueue k !! g_swtmrHandlerQueue k = Some c;
  hq_ok : queue_ok c msgs;
  hq_size : sizeof_SwtmrHandlerItem <= queueSize c - 4;
  hq_ring : is_Some (m !! QueueRead (g_swtmrHandlerQueue k));
  hq_all : ∃ ms, QInv P ms k m /\ ms !! g_swtmrHandlerQueue k = Some msgs;
}.

Lemma handler_frame hd0 k k' m m' t t' c msgs :
  handler_queue k m c msgs -> KInv k m t -> KInv k' m' t' -> lists_shrink hd0 m m' -> wait_head hd0 = false -> waits_kept k k' ->
  g_swtmrHandlerQueue k' = g_swtmrHandlerQueue k -> g_allQueue k' = g_allQueue k -> handler_queue k' m' c msgs.
Proof.
  intros [Q1 Q2 Q3 Q4 [l Hl] (ms & Q6 & Q7)] HK HK' Hls Hhd Hw E1 E2. split; rewrite ?E1, ?E2; try done.
  - destruct Hls as (W1 & _). destruct (W1 (QueueRead (g_swtmrHandlerQueue k)) l) as (l' & -> & _); [by intros <-|done|done|by eexists].
  - exists ms. split; [|done]. by apply (QInv_shrink hd0 P ms k m t k' m' t').
Qed.
Lemma handler_frame_here k k' m t t' c msgs :
  handler_queue k m c msgs -> KInv k m t -> KInv k' m t' -> waits_kept k k' ->
  g_swtmrHandlerQueue k' = g_swtmrHandlerQueue k -> g_allQueue k' = g_allQueue k -> handler_queue k' m c msgs.
Proof. intros HQ HK HK' Hw E1 E2. by eapply (handler_frame SwtmrSortLink); [exact HQ|exact HK|exact HK'|apply lists_shrink_refl|..]. Qed.
Definition expired_item (w : SWTMR_CTRL_S) : list Z := item_bytes (mk_SwtmrHandlerItem (pfnHandler w) (uwArg w) (usTimerID w)).
(** A message goes to a queue with [room] free slots, and is lost when there are none. *)
Definition post_item (room : Z) (msgs : list (list Z)) (w : SWTMR_CTRL_S) : list (list Z) :=
  if 0 <? room then msgs ++ [expired_item w] else msgs.

Lemma wake_startTime idle slice sliceMin c : startTime (wake_tcb idle slice sliceMin c) = startTime c.
Proof. unfold wake_tcb, unsort_tcb, enq_tcb. by repeat case_match. Qed.

Lemma post_wp k m t fl lw c msgs w :
  KInv k m t -> SwtmrInv k m fl lw -> handler_queue k m c msgs ->
  wp (LOS_QueueWriteCopy (g_swtmrHandlerQueue k) (Some (expired_item w)) sizeof_SwtmrHandlerItem LOS_NO_WAIT)
    (λ _ k', ∃ m' c', KInv k' m' t /\ SwtmrInv k' m' fl lw /\ handler_queue k' m' c' (post_item (writeableCnt c) msgs w) /\
      writeableCnt c' = Z.max 0 (writeableCnt c - 1) /\ g_swtmrCBArray k' = g_swtmrCBArray k /\ quiet k k' /\
      lists_shrink SwtmrSortLink m m') k.
Proof.
  intros HK HS HQ. pose proof HQ as [Hq Hc Hok Hsz [lr Hlr] (ms & HQI & Hmsg)]. set (q := g_swtmrHandlerQueue k) in *.
  assert (Hargs : queue_args_ok k q sizeof_SwtmrHandlerItem LOS_NO_WAIT) by (split_and!; [lia..|done|done|by left]).
  pose proof (qo_writeable _ _ Hok) as Hw. unfold post_item.
  destruct (Z.ltb_spec 0 (writeableCnt c)) as [Hpos|Hz].
  - eapply wp_mono; [by apply (queue_write_wp k m t q c msgs lr false)|]. cbn [negb].
    intros p k' (m' & c' & -> & HK' & Hok' & Hst & Hend & Hfr). exists m', c'.
    change (take (Z.to_nat sizeof_SwtmrHandlerItem) (expired_item w)) with (expired_item w) in Hok'.
    destruct Hst as (E1 & E2 & E3 & E4 & E5). destruct Hfr as (h & T & b & r & p & Q & Ek).
    assert (Hm : m' !! SwtmrSortLink = m !! SwtmrSortLink /\ is_Some (m' !! QueueRead q) /\ g_allQueue k' !! q = Some c' /\ lists_shrink SwtmrSortLink m m' /\
      ∀ x, startTime <$> g_taskCBArray k' !! x = startTime <$> g_taskCBArray k !! x).
    { destruct lr as [|n lr]; cbn in Hend.
      - destruct Hend as (-> & -> & ->). rewrite lookup_insert_eq. by split_and!; [|eexists| |apply lists_shrink_refl|].
      - destruct Hend as (x & cx & -> & Hx & Hl' & -> & -> & Hfr). rewrite lookup_insert_eq.
        split_and!; [by apply Hfr|by eexists|done|by eapply (lists_shrink_wake _ (QueueRead q))|]. intros y. rewrite lookup_insert. case_decide; [|done]. subst y.
        rewrite Hx. cbn. by rewrite wake_startTime. }
    destruct Hm as (Hm1 & Hm2 & Hm3 & Hms & Hm4).
    assert (HS' : SwtmrInv k' m' fl lw) by (eapply SwtmrInv_frame; [exact HS|by rewrite Ek|by rewrite Ek|done|by eapply timers_are]).
    assert (Eq : g_swtmrHandlerQueue k' = q) by by rewrite Ek.
    split_and!; [done|done| |lia|by rewrite Ek|split_and!; [by rewrite Ek..| |done]|done].
    + split; rewrite ?Eq; [done|done|done|lia|done|]. eexists. rewrite lookup_insert_eq. split; [|done].
      eapply (QInv_end P P ms k k' m m' t q OS_QUEUE_READ c c' lr); try done; [by left|by apply Hok|].
      destruct (qi_queue _ _ _ _ HQI q c Hc) as (msgs0 & Hm0 & [_ T2]); [apply Hok|]. rewrite Hmsg in Hm0. injection Hm0 as <-.
      intros rw Hrw. specialize (T2 rw Hrw). destruct Hrw as [-> | ->]; unfold rwCnt, slots in *; cbn in *; rewrite ?length_app; cbn; repeat case_bool_decide; naive_solver lia.
    + by rewrite Ek.
  - eapply wp_mono; [eapply (queue_full_wp k m t q c msgs); done || lia|]. intros p k' (-> & ->). exists m, c.
    by split_and!; [..|lia|done|apply quiet_refl|apply lists_shrink_refl].
Qed.

(** The control block of a timer after one expiry. *)
Definition fired (clk : Z) (w : SWTMR_CTRL_S) : SWTMR_CTRL_S :=
  if ucMode w =? LOS_SWTMR_MODE_PERIOD then started (expiry clk w) (set_ucOverrun (λ n, u8 (n + 1)) w)
  else if ucMode w =? LOS_SWTMR_MODE_NO_SELFDELETE then set_ucState (λ _, OS_SWTMR_STATUS_CREATED) w else w.

Lemma timer_timeout_wp k m t fl lw i w c msgs now :
  KInv k m t -> SwtmrInv k m fl lw -> g_swtmrCBArray k !! i = Some w -> ucState w = OS_SWTMR_STATUS_TICKING ->
  SwtmrNode i ∉ lw -> expiry (g_sysClock k) w <> OS_SORT_LINK_INVALID_TIME -> handler_queue k m c msgs ->
  wp (OsSwtmrTimeoutHandle now i) (λ _ k', ∃ m' lw' c', KInv k' m' t /\ SwtmrInv k' m' fl lw' /\
    lw' ≡ₚ (if ucMode w =? LOS_SWTMR_MODE_PERIOD then SwtmrNode i :: lw else lw) /\
    g_swtmrCBArray k' = <[i := fired (g_sysClock k) w]> (g_swtmrCBArray k) /\
    handler_queue k' m' c' (post_item (writeableCnt c) msgs w) /\ writeableCnt c' = Z.max 0 (writeableCnt c - 1) /\ quiet k k' /\
    lists_shrink SwtmrSortLink m m') k.
Proof.
  intros HK HS Hw Ht Hn Hv HQ. unfold OsSwtmrTimeoutHandle. wp_step. eapply wp_swtmrCB; [done|]. wp_step. wp_step. wp_step.
  fold (expired_item w). eapply wp_mono; [by eapply post_wp|]. intros _ k1 (m1 & c1 & HK1 & HS1 & HQ1 & Hroom & EC & Hqt & Hls).
  rewrite <- EC in Hw. wp_step. eapply wp_swtmrCB; [done|]. unfold fired. pose proof (ticking_used _ Ht) as Hu.
  destruct (ucMode w =? LOS_SWTMR_MODE_PERIOD); [|destruct (ucMode w =? LOS_SWTMR_MODE_NO_SELFDELETE); cbn [when]].
  - wp_step. eapply wp_mod_swtmrCB; [done|]. set (w1 := set_ucOverrun _ w). set (k2 := set_g_swtmrCBArray _ k1).
    assert (HK2 : KInv k2 m1 t) by by eapply KInv_swtmr_insert.
    assert (HS2 : SwtmrInv k2 m1 fl lw) by (eapply SwtmrInv_edit; [done..|by right|done]).
    assert (E : expiry (g_sysClock k2) w1 = expiry (g_sysClock k) w) by (unfold expiry; destruct Hqt as (_ & Eclk & _); cbn; by rewrite Eclk).
    eapply wp_mono; [eapply (swtmr_start_wp k2 m1 t fl lw i w1 now HK2 HS2); [apply lookup_insert_eq|done|done|congruence]|].
    intros [] k' (k3 & lw' & HC3 & Hlw' & HK' & HS' & Ha & Ek3). eexists _, lw', c1. apply armed_quiet in Ha as Hq3.
    destruct (armed_swtmr _ _ Ha) as (EC3 & _).
    split_and!; [exact HK'|exact HS'|rewrite Hlw'; apply sortlink_insert_perm| | |done| |eapply lists_shrink_trans; [exact Hls|apply lists_shrink_insert]].
    + rewrite EC3. change (g_swtmrCBArray (set_dlists _ k3)) with (g_swtmrCBArray k3). rewrite HC3, E.
      change (g_swtmrCBArray k2) with (<[i := w1]> (g_swtmrCBArray k1)). by rewrite insert_insert_eq, EC.
    + assert (Eq : g_swtmrHandlerQueue k' = g_swtmrHandlerQueue k1 /\ g_allQueue k' = g_allQueue k1 /\ g_taskCBArray k' = g_taskCBArray k1).
      { destruct Ha as (r & rid & tm & base & old & u & -> & _ & _). by rewrite Ek3. }
      destruct Eq as (Eq1 & Eq2 & Eq3). eapply (handler_frame SwtmrSortLink); [exact HQ1|exact HK1|exact HK'|apply lists_shrink_insert|done| |done|done].
      by apply waits_kept_same.
    + eapply quiet_trans; [exact Hqt|]. eapply quiet_trans; [|exact Hq3]. by rewrite Ek3.
  - eapply wp_mod_swtmrCB; [done|]. exists m1, lw, c1. split_and!; [by eapply KInv_swtmr_insert| |done|by cbn; rewrite EC| |done|done|done].
    + eapply SwtmrInv_edit; [done..|by left|done].
    + eapply handler_frame_here; [exact HQ1|exact HK1|by eapply KInv_swtmr_insert|by apply waits_kept_same|done..].
  - wp_step. exists m1, lw, c1. split_and!; [done..| |done|done|done|done]. rewrite insert_id; congruence.
Qed.

(** The control block of a running timer after its first expiry. *)
Definition expire1 (clk : Z) (w : SWTMR_CTRL_S) : SWTMR_CTRL_S :=
  fired clk (set_swtmrResponseTime (λ _, OS_SORT_LINK_INVALID_TIME) (set_swtmrStartTime (λ _, swtmrResponseTime w) w)).
(** The times up to [now] at which a running timer expires: its response time,
    and every period after it for a periodic timer. *)
Definition expiries (clk now : Z) (w : SWTMR_CTRL_S) : list Z :=
  if now <? swtmrResponseTime w then []
  else if ucMode w =? LOS_SWTMR_MODE_PERIOD then
    (λ n, swtmrResponseTime w + n * period clk w) <$> seqZ 0 ((now - swtmrResponseTime w) / period clk w + 1)
  else [swtmrResponseTime w].
(** The control block of a running timer after these expiries. *)
Definition elapsed (clk now : Z) (w : SWTMR_CTRL_S) : SWTMR_CTRL_S :=
  let n := (now - swtmrResponseTime w) / period clk w + 1 in
  if now <? swtmrResponseTime w then w
  else if ucMode w =? LOS_SWTMR_MODE_PERIOD then
    set_ucOverrun (λ o, u8 (o + n)) (set_swtmrStartTime (λ rt, swtmrResponseTime w + (n - 1) * period clk w)
      (set_swtmrResponseTime (λ rt, rt + n * period clk w) w))
  else set_swtmrResponseTime (λ _, OS_SORT_LINK_INVALID_TIME) (set_swtmrStartTime (λ _, swtmrResponseTime w)
    (if ucMode w =? LOS_SWTMR_MODE_NO_SELFDELETE then set_ucState (λ _, OS_SWTMR_STATUS_CREATED) w else w)).

(** The clock is at least as fast as the tick. *)
Definition rate_ok (clk : Z) : Prop := 2 <= LOSCFG_BASE_CORE_TICK_PER_SECOND <= clk /\ clk < 2 ^ 32.

Lemma period_range clk w : rate_ok clk -> 0 < uwInterval w < 2 ^ 32 -> 1 <= period clk w < 2 ^ 63.
Proof.
  intros [Htps Hc] Hi. unfold period, OS_SYS_TICK_TO_CYCLE. rewrite u64_id by nia. split.
  - apply Z.div_le_lower_bound; nia.
  - apply Z.div_lt_upper_bound; nia.
Qed.

(** A timer that can expire. *)
Definition due (clk now : Z) (w : SWTMR_CTRL_S) : Prop :=
  rate_ok clk /\ 0 < uwInterval w < 2 ^ 32 /\ 0 <= swtmrResponseTime w <= now /\ now < 2 ^ 63 /\ ucState w = OS_SWTMR_STATUS_TICKING.

Lemma expire1_time clk now w : due clk now w -> ucMode w = LOS_SWTMR_MODE_PERIOD ->
  swtmrResponseTime (expire1 clk w) = swtmrResponseTime w + period clk w.
Proof.
  intros (Hr & Hi & Hrt & Hnow & _) Hm. pose proof (period_range _ _ Hr Hi). unfold expire1, fired. cbn. rewrite Hm. cbn.
  unfold expiry. cbn. apply u64_id. unfold period in *. cbn. lia.
Qed.
Lemma expire1_period clk w : period clk (expire1 clk w) = period clk w.
Proof. unfold expire1, fired, period. by repeat case_match. Qed.
Lemma expire1_mode clk w : ucMode (expire1 clk w) = ucMode w.
Proof. unfold expire1, fired. by repeat case_match. Qed.

Lemma expiries_step clk now w : due clk now w ->
  expiries clk now w = swtmrResponseTime w :: (if ucMode w =? LOS_SWTMR_MODE_PERIOD then expiries clk now (expire1 clk w) else []).
Proof.
  intros Hd. pose proof Hd as (Hr & Hi & Hrt & Hnow & _). pose proof (period_range _ _ Hr Hi) as Hp. unfold expiries.
  rewrite (proj2 (Z.ltb_ge _ _)) by lia. rewrite expire1_mode.
  destruct (Z.eqb_spec (ucMode w) LOS_SWTMR_MODE_PERIOD) as [Hm|Hm]; [|done].
  rewrite (expire1_time _ _ _ Hd Hm), expire1_period. set (rt := swtmrResponseTime w) in *. set (I := period clk w) in *.
  assert (Hdiv : 0 <= (now - rt) / I) by (apply Z.div_pos; lia).
  rewrite seqZ_cons, fmap_cons by lia. f_equal; [lia|]. destruct (Z.ltb_spec now (rt + I)) as [Hlt|Hge].
  - rewrite Z.div_small by lia. by rewrite seqZ_nil.
  - replace (now - (rt + I)) with (now - rt + (-1) * I) by lia. rewrite Z.div_add by lia.
    replace (Z.pred ((now - rt) / I + 1)) with ((now - rt) / I + -1 + 1) by lia.
    rewrite <- (fmap_add_seqZ 1 0), <- list_fmap_compose. apply list_fmap_ext. intros ? x _. cbn. lia.
Qed.

Lemma elapsed_step clk now w : due clk now w ->
  elapsed clk now w = if ucMode w =? LOS_SWTMR_MODE_PERIOD then elapsed clk now (expire1 clk w) else expire1 clk w.
Proof.
  intros Hd. pose proof Hd as (Hr & Hi & Hrt & Hnow & Hst). pose proof (period_range _ _ Hr Hi) as Hp.
  unfold elapsed at 1. rewrite (proj2 (Z.ltb_ge now _)) by lia.
  destruct (Z.eqb_spec (ucMode w) LOS_SWTMR_MODE_PERIOD) as [Hm|Hm].
  - unfold elapsed. rewrite expire1_mode, expire1_period, (expire1_time _ _ _ Hd Hm), Hm, Z.eqb_refl.
    set (rt := swtmrResponseTime w) in *. set (I := period clk w) in *.
    assert (E1 : expire1 clk w = set_swtmrResponseTime (λ _, rt + I) (set_swtmrStartTime (λ _, rt) (set_ucOverrun (λ n, u8 (n + 1)) w))).
    { pose proof (expire1_time _ _ _ Hd Hm) as E. fold rt I in E. revert E. unfold expire1, fired. cbn. rewrite Hm. cbn.
      unfold started. cbn. destruct w. cbn in *. subst. unfold set_swtmrResponseTime, set_swtmrStartTime. cbn. intros ->. done. }
    destruct (Z.ltb_spec now (rt + I)) as [Hlt|Hge].
    + rewrite Z.div_small by lia. rewrite E1. destruct w. cbn in *. unfold set_ucOverrun, set_swtmrResponseTime, set_swtmrStartTime.
      cbn. f_equal; lia.
    + replace (now - (rt + I)) with (now - rt + (-1) * I) by lia. rewrite Z.div_add by lia. rewrite E1.
      destruct w. cbn in *. unfold set_ucOverrun, set_swtmrResponseTime, set_swtmrStartTime. cbn.
      f_equal; try lia. unfold u8. rewrite Zplus_mod_idemp_l. f_equal. lia.
  - unfold expire1, fired. cbn. rewrite (proj2 (Z.eqb_neq _ _) Hm). by destruct (_ =? _).
Qed.

(** The timers [C] of which those in [lw] run have become [C'] at time [now],
    by the expiries [fires], pairs of a time and a timer, in the order of time. *)
Record elapsed_timers (clk now : Z) (C : gmap Z SWTMR_CTRL_S) (lw : list Node) (C' : gmap Z SWTMR_CTRL_S)
    (fires : list (Z * Z)) : Prop := {
  et_cb : ∀ j w, C !! j = Some w -> C' !! j = Some (if bool_decide (SwtmrNode j ∈ lw) then elapsed clk now w else w);
  et_times : ∀ j w, C !! j = Some w ->
    (filter (λ p, p.2 = j) fires).*1 = if bool_decide (SwtmrNode j ∈ lw) then expiries clk now w else [];
  et_in : Forall (λ p, SwtmrNode p.2 ∈ lw) fires;
  et_order : StronglySorted Z.le fires.*1;
}.
Definition sent (C : gmap Z SWTMR_CTRL_S) (j : Z) : list Z := from_option expired_item [] (C !! j).
(** The number of expiries. *)
Definition total (clk now : Z) (C : gmap Z SWTMR_CTRL_S) (lw : list Node) : nat :=
  sum_list_with (λ n, match n with SwtmrNode j => from_option (λ w, length (expiries clk now w)) 0%nat (C !! j) | _ => 0%nat end) lw.

Lemma elapsed_none clk now C lw :
  (∀ j w, C !! j = Some w -> SwtmrNode j ∈ lw -> now < swtmrResponseTime w) -> elapsed_timers clk now C lw C [].
Proof.
  intros Hl. split; [| |constructor|constructor]; intros j w Hw.
  all: case_bool_decide as Hin; [|done]; specialize (Hl j w Hw Hin); unfold elapsed, expiries.
  all: by rewrite (proj2 (Z.ltb_lt _ _) Hl).
Qed.

Lemma expiries_ge clk now w x : rate_ok clk -> 0 < uwInterval w < 2 ^ 32 -> x ∈ expiries clk now w -> swtmrResponseTime w <= x.
Proof.
  intros Hr Hi. pose proof (period_range _ _ Hr Hi). unfold expiries. destruct (_ <? _); [by intros ?%not_elem_of_nil|].
  destruct (_ =? _); [|intros ->%list_elem_of_singleton; lia]. intros (n & -> & [Hn _]%elem_of_seqZ)%list_elem_of_fmap. nia.
Qed.

Section step.
Context (clk now : Z) (C : gmap Z SWTMR_CTRL_S) (i : Z) (w : SWTMR_CTRL_S) (lw lw1 : list Node).
Context (Hw : C !! i = Some w) (Hd : due clk now w) (Hnd : SwtmrNode i ∉ lw).
Context (Hlw1 : lw1 ≡ₚ if ucMode w =? LOS_SWTMR_MODE_PERIOD then SwtmrNode i :: lw else lw).

Lemma step_other j : j <> i -> SwtmrNode j ∈ lw1 <-> SwtmrNode j ∈ SwtmrNode i :: lw.
Proof. intros Hj. rewrite Hlw1. destruct (_ =? _); rewrite ?elem_of_cons; naive_solver. Qed.
Lemma step_self : bool_decide (SwtmrNode i ∈ lw1) = (ucMode w =? LOS_SWTMR_MODE_PERIOD).
Proof.
  rewrite (bool_decide_ext _ _ (elem_of_Permutation_proper _ _ _ Hlw1)).
  destruct (_ =? _); [|by apply bool_decide_false]. apply bool_decide_true. left.
Qed.

Lemma elapsed_timers_step C' fires :
  (∀ j wj, C !! j = Some wj -> SwtmrNode j ∈ lw ->
     swtmrResponseTime w <= swtmrResponseTime wj /\ 0 < uwInterval wj < 2 ^ 32) ->
  Forall (λ n, ∃ j wj, n = SwtmrNode j /\ C !! j = Some wj) lw ->
  elapsed_timers clk now (<[i := expire1 clk w]> C) lw1 C' fires ->
  elapsed_timers clk now C (SwtmrNode i :: lw) C' ((swtmrResponseTime w, i) :: fires).
Proof.
  intros Hmin Hall [E1 E2 E3 E4]. pose proof step_self as Hself.
  assert (Hhead : bool_decide (SwtmrNode i ∈ SwtmrNode i :: lw) = true) by (apply bool_decide_true; left).
  assert (Hat : ∀ j, j <> i -> bool_decide (SwtmrNode j ∈ lw1) = bool_decide (SwtmrNode j ∈ SwtmrNode i :: lw))
    by (intros j Hj; by apply bool_decide_ext, step_other).
  split.
  - intros j wj Hj. destruct (decide (j = i)) as [->|Hne].
    + rewrite (E1 i (expire1 clk w)), Hself, Hhead by apply lookup_insert_eq. simplify_eq. by rewrite (elapsed_step _ _ _ Hd).
    + rewrite (E1 j wj), Hat by (done || by rewrite lookup_insert_ne). done.
  - intros j wj Hj. rewrite filter_cons. cbn [snd]. destruct (decide (i = j)) as [<-|Ei].
    + cbn. rewrite (E2 i (expire1 clk w)), Hself, Hhead by apply lookup_insert_eq. simplify_eq. by rewrite (expiries_step _ _ _ Hd).
    + rewrite (E2 j wj), Hat by (congruence || by rewrite lookup_insert_ne). done.
  - constructor; [left|]. eapply Forall_impl; [exact E3|]. intros [x j] Hin. cbn in *.
    destruct (decide (j = i)) as [->|Hne]; [left|by apply step_other].
  - cbn. constructor; [done|]. apply Forall_forall. intros x ([x' j] & -> & Hin)%list_elem_of_fmap. cbn.
    rewrite Forall_forall in E3. specialize (E3 _ Hin) as Hj. cbn in Hj.
    assert (Hx : x' ∈ (filter (λ p, p.2 = j) fires).*1).
    { apply list_elem_of_fmap. exists (x', j). split; [done|]. by apply list_elem_of_filter. }
    pose proof Hd as (Hr & Hi & Hrt & _). destruct (decide (j = i)) as [->|Hne].
    + rewrite (E2 i (expire1 clk w)) in Hx by apply lookup_insert_eq. rewrite (bool_decide_true _ Hj) in Hx.
      rewrite (bool_decide_true _ Hj) in Hself. symmetry in Hself. apply Z.eqb_eq in Hself.
      apply expiries_ge in Hx; [|done|]. { rewrite (expire1_time _ _ _ Hd Hself) in Hx. pose proof (period_range _ _ Hr Hi). lia. }
      unfold expire1, fired. by repeat case_match.
    + apply step_other in Hj as Hj'; [|done]. apply elem_of_cons in Hj' as [[=]|Hj']; [done|].
      rewrite Forall_forall in Hall. destruct (Hall _ Hj') as (j' & wj & [= <-] & Hwj).
      rewrite (E2 j wj), (bool_decide_true _ Hj) in Hx by (by rewrite lookup_insert_ne).
      destruct (Hmin j wj Hwj Hj') as [Hle Hij]. apply expiries_ge in Hx; [lia|done..].
Qed.

Lemma total_ext C1 C2 l : (∀ j, SwtmrNode j ∈ l -> C1 !! j = C2 !! j) -> total clk now C1 l = total clk now C2 l.
Proof.
  unfold total. induction l as [|n l IH]; [done|]. intros Hl. cbn. rewrite IH by (intros; apply Hl; by right). f_equal.
  destruct n; try done. rewrite Hl; [done|left].
Qed.

Lemma total_step : total clk now C (SwtmrNode i :: lw) = S (total clk now (<[i := expire1 clk w]> C) lw1).
Proof.
  unfold total at 2. rewrite Hlw1. unfold total at 1. cbn. rewrite Hw. cbn. rewrite (expiries_step _ _ _ Hd). cbn. f_equal.
  fold (total clk now C lw). rewrite (total_ext C (<[i := expire1 clk w]> C) lw).
  - destruct (_ =? _); [|done]. cbn. by rewrite lookup_insert_eq.
  - intros j Hj. rewrite lookup_insert_ne; [done|]. by intros ->.
Qed.

Lemma sent_step room msgs (fires : list (Z * Z)) :
  0 <= room ->
  post_item room msgs w ++ take (Z.to_nat (Z.max 0 (room - 1))) (sent (<[i := expire1 clk w]> C) <$> fires.*2) =
  msgs ++ take (Z.to_nat room) (sent C <$> ((swtmrResponseTime w, i) :: fires).*2).
Proof.
  intros Hroom. assert (E : sent (<[i := expire1 clk w]> C) <$> fires.*2 = sent C <$> fires.*2).
  { apply list_fmap_ext. intros _ j _. unfold sent. rewrite lookup_insert. case_decide; [|done]. subst. rewrite Hw. cbn.
    unfold expired_item, expire1, fired. by repeat case_match. }
  rewrite E. cbn [fmap list_fmap snd]. unfold post_item. destruct (Z.ltb_spec 0 room) as [Hpos|Hz].
  - replace (Z.to_nat room) with (S (Z.to_nat (Z.max 0 (room - 1)))) by lia. rewrite <- app_assoc. cbn. unfold sent at 2.
    by rewrite Hw.
  - replace room with 0 by lia. done.
Qed.
End step.

Lemma head_due k m t fl lw i w now :
  KInv k m t -> SwtmrInv k m fl (SwtmrNode i :: lw) -> g_swtmrCBArray k !! i = Some w -> rate_ok (g_sysClock k) -> now < 2 ^ 63 ->
  swtmrResponseTime w <= now -> due (g_sysClock k) now w.
Proof.
  intros HK HS Hw Hr Hnow Hle. pose proof (sw_ticking _ _ _ _ HS i w Hw ltac:(left)) as Ht.
  destruct (sw_interval _ _ _ _ HS i w Hw (ticking_used _ Ht)) as [Hi Hrt]. by repeat (split; [done|]).
Qed.

Lemma sorted_head k m fl lw i w j wj :
  SwtmrInv k m fl (SwtmrNode i :: lw) -> g_swtmrCBArray k !! i = Some w -> g_swtmrCBArray k !! j = Some wj -> SwtmrNode j ∈ lw ->
  swtmrResponseTime w <= swtmrResponseTime wj.
Proof.
  intros HS Hw Hj Hin. pose proof (sw_sorted _ _ _ _ HS) as Hs. inversion Hs as [|? ? _ Hmin]; subst. rewrite Forall_forall in Hmin.
  specialize (Hmin _ Hin). unfold key, time_of in Hmin. by rewrite Hw, Hj in Hmin.
Qed.

(** One turn of the loop. *)
Lemma expire_wp k m t fl lw i w c msgs now :
  KInv k m t -> SwtmrInv k m fl (SwtmrNode i :: lw) -> g_swtmrCBArray k !! i = Some w -> due (g_sysClock k) now w ->
  SwtmrNode i ∉ lw -> handler_queue k m c msgs ->
  wp (mod_swtmrCB i (set_swtmrStartTime (λ _, swtmrResponseTime w)) ;;;
      OsDeleteNodeSortLink (SwtmrNode i) ;;;
      OsSwtmrTimeoutHandle now i) (λ _ k', ∃ m' lw' c', KInv k' m' t /\ SwtmrInv k' m' fl lw' /\
    lw' ≡ₚ (if ucMode w =? LOS_SWTMR_MODE_PERIOD then SwtmrNode i :: lw else lw) /\
    g_swtmrCBArray k' = <[i := expire1 (g_sysClock k) w]> (g_swtmrCBArray k) /\
    handler_queue k' m' c' (post_item (writeableCnt c) msgs w) /\ writeableCnt c' = Z.max 0 (writeableCnt c - 1) /\ quiet k k' /\
    lists_shrink SwtmrSortLink m m') k.
Proof.
  intros HK HS Hw Hd Hn HQ. pose proof Hd as (Hr & Hi & Hrt & Hnow & Ht). pose proof (period_range _ _ Hr Hi) as Hp.
  wp_step. eapply wp_mod_swtmrCB; [done|]. set (w1 := set_swtmrStartTime _ w). set (k1 := set_g_swtmrCBArray _ k).
  assert (HK1 : KInv k1 m t) by by eapply KInv_swtmr_insert.
  assert (HS1 : SwtmrInv k1 m fl (SwtmrNode i :: lw)).
  { eapply SwtmrInv_edit; [done|done|by apply ticking_used|done|done|done|by right|done]. }
  assert (Hw1 : g_swtmrCBArray k1 !! i = Some w1) by apply lookup_insert_eq. wp_step.
  eapply wp_mono; [eapply kinv_timer_unlink; [exact HK1|exact HS1|exact Hw1|left]|]. intros [] k2 (h2 & -> & HK2 & HS2). cbv zeta in *.
  cbn [list_remove_all filter] in HK2, HS2.
  assert (El : list_remove_all (SwtmrNode i) (SwtmrNode i :: lw) = lw).
  { unfold list_remove_all. rewrite filter_cons, decide_False by tauto. by apply (list_remove_all_notin (SwtmrNode i)). }
  rewrite El in HK2, HS2. set (w2 := set_swtmrResponseTime _ w1) in *. set (k2 := set_g_swtmrCBArray (insert i w2) _) in *.
  assert (Ev : expiry (g_sysClock k2) w2 <> OS_SORT_LINK_INVALID_TIME).
  { unfold expiry. change (period _ w2) with (period (g_sysClock k) w). change (swtmrStartTime w2) with (swtmrResponseTime w).
    rewrite u64_id by lia. unfold OS_SORT_LINK_INVALID_TIME. lia. }
  assert (HQ2 : handler_queue k2 (<[SwtmrSortLink := lw]> m) c msgs).
  { eapply (handler_frame SwtmrSortLink); [exact HQ|exact HK|exact HK2|apply lists_shrink_insert|done|by apply waits_kept_same|done..]. }
  eapply wp_mono; [eapply (timer_timeout_wp k2 _ t fl lw i w2 c msgs now HK2 HS2); [apply lookup_insert_eq|done..]|].
  intros [] k' (m' & lw' & c' & HK' & HS' & Hlw' & HC' & HQ' & Hroom & Hqt & Hls). exists m', lw', c'. split_and!; try done.
  2:{ eapply lists_shrink_trans; [apply lists_shrink_insert|exact Hls]. }
  rewrite HC'. change (g_swtmrCBArray k2) with (<[i := w2]> (<[i := w1]> (g_swtmrCBArray k))). by rewrite !insert_insert_eq.
Qed.

Lemma timer_head_unique k m t fl lw n : KInv k m t -> SwtmrInv k m fl (n :: lw) -> n ∉ lw.
Proof.
  intros HK HS. pose proof (rings_nodup _ (rep_rings _ _ (si_rep _ _ _ _ _ (ki_sched _ _ _ HK))) _ _ (sw_list _ _ _ _ HS)) as Hnd.
  apply NoDup_cons in Hnd as [_ Hnd]. by apply NoDup_cons in Hnd as [? _].
Qed.

Lemma timer_of k m t fl lw n : KInv k m t -> SwtmrInv k m fl lw -> n ∈ lw -> ∃ i w, n = SwtmrNode i /\ g_swtmrCBArray k !! i = Some w.
Proof. intros HK HS Hin. pose proof (timers_are _ _ _ _ _ HK HS) as Hall. rewrite Forall_forall in Hall. by apply Hall. Qed.

(** The result of the scan at time [now]. *)
Definition timers_scanned (k : Kernel) (m : gmap Node (list Node)) (t : Z) (fl : list Z) (lw : list Node) (c : LosQueueCB) (msgs : list (list Z)) (now : Z)
    (fires : list (Z * Z)) (k' : Kernel) : Prop :=
  ∃ m' lw' c', KInv k' m' t /\ SwtmrInv k' m' fl lw' /\
    elapsed_timers (g_sysClock k) now (g_swtmrCBArray k) lw (g_swtmrCBArray k') fires /\
    (∀ j w, g_swtmrCBArray k' !! j = Some w -> SwtmrNode j ∈ lw' -> now < swtmrResponseTime w) /\
    handler_queue k' m' c' (msgs ++ take (Z.to_nat (writeableCnt c)) (sent (g_swtmrCBArray k) <$> fires.*2)) /\ quiet k k' /\
    lists_shrink SwtmrSortLink m m'.

Lemma scan_done k m t fl lw c msgs now :
  KInv k m t -> SwtmrInv k m fl lw -> handler_queue k m c msgs ->
  (∀ j w, g_swtmrCBArray k !! j = Some w -> SwtmrNode j ∈ lw -> now < swtmrResponseTime w) ->
  timers_scanned k m t fl lw c msgs now [] k.
Proof.
  intros HK HS HQ Hl. exists m, lw, c. rewrite !fmap_nil, take_nil, app_nil_r.
  split_and!; [done|done|by apply elapsed_none|done|done|apply quiet_refl|apply lists_shrink_refl].
Qed.

Lemma swtmr_scan_loop_wp fuel : ∀ k m t fl lw n c msgs now need,
  KInv k m t -> SwtmrInv k m fl (n :: lw) -> handler_queue k m c msgs -> rate_ok (g_sysClock k) -> now < 2 ^ 63 ->
  (total (g_sysClock k) now (g_swtmrCBArray k) (n :: lw) < fuel)%nat ->
  wp (OsSwtmrScan_loop fuel n now need) (λ need' k', ∃ fires, need' = need || negb (bool_decide (fires = [])) /\
    timers_scanned k m t fl (n :: lw) c msgs now fires k') k.
Proof.
  induction fuel as [|fuel IH]; [lia|]. intros k m t fl lw n c msgs now need HK HS HQ Hr Hnow Hfuel. cbn [OsSwtmrScan_loop].
  destruct (timer_of _ _ _ _ _ n HK HS ltac:(left)) as (i & w & -> & Hw). pose proof (timer_head_unique _ _ _ _ _ _ HK HS) as Hn.
  wp_step. apply wp_GET_SORTLIST_VALUE; [unfold timed, time_of; rewrite Hw; by eexists|].
  assert (Ekey : key k (SwtmrNode i) = swtmrResponseTime w) by (unfold key, time_of; by rewrite Hw). rewrite Ekey.
  destruct (Z.leb_spec (swtmrResponseTime w) now) as [Hle|Hlt].
  2:{ apply wp_ret. exists []. rewrite orb_false_r. split; [done|]. eapply scan_done; [done..|]. intros j wj Hj [[= ->]|Hin]%elem_of_cons.
      - assert (wj = w) as -> by congruence. done.
      - pose proof (sorted_head _ _ _ _ _ _ _ _ HS Hw Hj Hin). lia. }
  pose proof (head_due _ _ _ _ _ _ _ _ HK HS Hw Hr Hnow Hle) as Hd. pose proof (timers_are _ _ _ _ _ HK HS) as Hall.
  pose proof (expire_wp _ _ _ _ _ _ _ _ _ now HK HS Hw Hd Hn HQ) as Hexp. apply wp_bind_inv in Hexp.
  wp_step. eapply wp_mono; [exact Hexp|]. intros [] ka Ha. apply wp_bind_inv in Ha.
  wp_step. eapply wp_mono; [exact Ha|]. intros [] kb Hb. wp_step. eapply wp_mono; [exact Hb|].
  intros [] k1 (m1 & lw1 & c1 & HK1 & HS1 & Hlw1 & HC1 & HQ1 & Hroom & Hqt & Hls). pose proof Hqt as (_ & Eclk & _).
  assert (Hrec : ∀ fires k', timers_scanned k1 m1 t fl lw1 c1 (post_item (writeableCnt c) msgs w) now fires k' ->
    timers_scanned k m t fl (SwtmrNode i :: lw) c msgs now ((swtmrResponseTime w, i) :: fires) k').
  { intros fires k' (m' & lw' & c' & HK' & HS' & He & Hl & HQ' & Hqt' & Hls'). exists m', lw', c'. rewrite Eclk, HC1 in He.
    rewrite HC1, Hroom, (sent_step _ _ _ _ _ _ Hw Hn Hlw1) in HQ' by (pose proof (qo_writeable _ _ (hq_ok _ _ _ _ HQ)); lia).
    split_and!; [done|done| |done|done|by eapply quiet_trans|by eapply lists_shrink_trans]. eapply elapsed_timers_step; try done; [|by inversion Hall].
    intros j wj Hj Hin. split; [by eapply sorted_head|].
    apply (sw_interval _ _ _ _ HS j wj Hj), ticking_used, (sw_ticking _ _ _ _ HS j wj Hj). by right. }
  wp_step. eapply kinv_empty; [done|apply (sw_list _ _ _ _ HS1)|]. destruct lw1 as [|n1 lw1].
  - rewrite bool_decide_true by done. apply wp_ret. eexists. split; [|apply Hrec; eapply scan_done; [done..|]].
    + by rewrite orb_true_r.
    + intros j wj _ []%not_elem_of_nil.
  - rewrite bool_decide_false by done. wp_step. eapply kinv_first; [done|apply (sw_list _ _ _ _ HS1)|].
    eapply wp_mono; [eapply (IH k1 m1 t fl lw1 n1); [done..|by rewrite Eclk|done|]|].
    + rewrite Eclk, HC1. rewrite (total_step _ _ _ _ _ _ (n1 :: lw1) Hw Hd Hn Hlw1) in Hfuel. lia.
    + intros need' k' (fires & -> & Hs). eexists. split; [|by apply Hrec]. cbn. by rewrite orb_true_r.
Qed.

Lemma swtmr_scan_wp k m t fl lw c msgs fuel :
  KInv k m t -> SwtmrInv k m fl lw -> handler_queue k m c msgs -> rate_ok (g_sysClock k) ->
  (∀ now, now < 2 ^ 63 -> (total (g_sysClock k) now (g_swtmrCBArray k) lw < fuel)%nat) ->
  wp (OsSwtmrScan fuel) (λ need k', ∃ now fires, g_oldTickTimerBase k <= now /\
    need = negb (bool_decide (fires = [])) /\ timers_scanned k m t fl lw c msgs now fires k') k.
Proof.
  intros HK HS HQ Hr Hfuel. unfold OsSwtmrScan. wp_step. eapply kinv_empty; [done|apply (sw_list _ _ _ _ HS)|].
  destruct lw as [|n lw].
  { rewrite bool_decide_true by done. apply wp_ret. exists (g_oldTickTimerBase k), []. split_and!; [done..|].
    eapply scan_done; [done..|]. intros j w _ []%not_elem_of_nil. }
  rewrite bool_decide_false by done. wp_step. eapply kinv_first; [done|apply (sw_list _ _ _ _ HS)|]. wp_step.
  unfold OsGetCurrSchedTimeCycle. eapply wp_mono; [by eapply kinv_cycle|]. intros now k1 (Ha & HK1 & Hnow & Eold).
  pose proof (SwtmrInv_arm _ _ _ _ _ _ HK HS Ha) as HS1. destruct (armed_swtmr _ _ Ha) as (EC & _ & _ & Eclk & _).
  pose proof (clock_now _ (ki_clock _ _ _ HK1)) as Hb. rewrite Eold in Hb.
  assert (HQ1 : handler_queue k1 m c msgs).
  { eapply handler_frame_here; [exact HQ|exact HK|exact HK1|..]; destruct Ha as (r & rid & tm & base & old & u & -> & _ & _); try done.
    by apply waits_kept_same. }
  eapply wp_mono; [eapply (swtmr_scan_loop_wp fuel k1); [done..|by rewrite Eclk|lia|rewrite Eclk, EC; apply Hfuel; lia]|].
  intros need k' (fires & -> & m' & lw' & c' & HK' & HS' & He & Hl & HQ' & Hqt & Hls). exists now, fires.
  rewrite Eclk, EC in He. rewrite EC in HQ'. split_and!; [done|done|]. exists m', lw', c'. split_and!; try done.
  eapply quiet_trans; [by apply armed_quiet|done].
Qed.

(** The number of expiries the clock allows: no more than [2^63] for a timer. *)
Lemma total_bound k m t fl lw now :
  KInv k m t -> SwtmrInv k m fl lw -> rate_ok (g_sysClock k) -> now < 2 ^ 63 ->
  Z.of_nat (total (g_sysClock k) now (g_swtmrCBArray k) lw) <= 2 ^ 63 * len lw.
Proof.
  intros HK HS Hr Hnow. assert (Hall : Forall (λ n, ∃ i w, n = SwtmrNode i /\ g_swtmrCBArray k !! i = Some w /\
    0 < uwInterval w < 2 ^ 32 /\ 0 <= swtmrResponseTime w) lw).
  { apply Forall_forall. intros n Hn. destruct (timer_of _ _ _ _ _ n HK HS Hn) as (i & w & -> & Hw). exists i, w.
    split_and!; [done|done|..]; apply (sw_interval _ _ _ _ HS i w Hw), ticking_used, (sw_ticking _ _ _ _ HS i w Hw Hn). }
  clear HS. induction Hall as [|n lw (i & w & -> & Hw & Hi & Hrt) _ IH]; [done|]. unfold total in *. cbn [sum_list_with]. rewrite Hw.
  cbn [from_option]. enough (Z.of_nat (length (expiries (g_sysClock k) now w)) <= 2 ^ 63) by (cbn [length]; lia).
  pose proof (period_range _ _ Hr Hi) as Hp. unfold expiries. destruct (Z.ltb_spec now (swtmrResponseTime w)); [cbn; lia|].
  destruct (_ =? _); [|cbn; lia]. rewrite length_fmap, length_seqZ.
  assert ((now - swtmrResponseTime w) / period (g_sysClock k) w <= now - swtmrResponseTime w); [|lia].
  apply Z.div_le_upper_bound; nia.
Qed.

(** C20: The scan of the software timers terminates, after finitely many expiries, in the state
    that the periods prescribe: each running timer has expired at its response time and, if
    periodic, at every period after it up to the time of the scan, the expiries are handled in
    the order of time, and each one queues the timer's handler and argument until the queue is
    full. *)
Theorem swtmr_scan_correct k m t fl lw c msgs :
  KInv k m t -> SwtmrInv k m fl lw -> handler_queue k m c msgs -> rate_ok (g_sysClock k) ->
  ∃ bound, ∀ fuel, (bound <= fuel)%nat ->
  wp (OsSwtmrScan fuel) (λ need k', ∃ now fires, g_oldTickTimerBase k <= now /\
    need = negb (bool_decide (fires = [])) /\ timers_scanned k m t fl lw c msgs now fires k') k.
Proof.
  intros HK HS HQ Hr. exists (S (Z.to_nat (2 ^ 63 * len lw))). intros fuel Hf. eapply swtmr_scan_wp; try done.
  intros now Hnow. pose proof (total_bound _ _ _ _ _ _ HK HS Hr Hnow). lia.
Qed.

(** *** The tick interrupt *)

(** No wait and no timer that was due at time [now] is left. *)
Definition no_overdue (k : Kernel) (m : gmap Node (list Node)) (lw : list Node) (now : Z) : Prop :=
  (∀ x c, home m (SortNode x) TaskSortLink -> g_taskCBArray k !! x = Some c -> now < responseTime c) /\
  (g_swtmrScan k = true -> ∀ j w, SwtmrNode j ∈ lw -> g_swtmrCBArray k !! j = Some w -> now < swtmrResponseTime w).

Definition TickInv (k : Kernel) (m : gmap Node (list Node)) (t : Z) (fl : list Z) (lw : list Node) : Prop :=
  KInv k m t /\ SwtmrInv k m fl lw /\ ∃ c msgs, handler_queue k m c msgs.

Lemma TickInv_lists hd0 k k' m m' t t' fl lw :
  TickInv k m t fl lw -> KInv k' m' t' -> lists_shrink hd0 m m' -> hd0 <> SwtmrSortLink -> wait_head hd0 = false -> waits_kept k k' ->
  g_swtmrCBArray k' = g_swtmrCBArray k -> g_swtmrFreeList k' = g_swtmrFreeList k ->
  g_swtmrHandlerQueue k' = g_swtmrHandlerQueue k -> g_allQueue k' = g_allQueue k -> TickInv k' m' t' fl lw.
Proof.
  intros (HK & HS & c & msgs & HQ) HK' Hls N1 N2 Hw E1 E2 E3 E4. split_and!; [done| |].
  - eapply SwtmrInv_frame; [exact HS|done|done|by apply Hls|by eapply timers_are].
  - exists c, msgs. by apply (handler_frame hd0 k k' m m' t t').
Qed.
Lemma TickInv_frame k k' m t fl lw :
  TickInv k m t fl lw -> KInv k' m t -> waits_kept k k' -> g_swtmrCBArray k' = g_swtmrCBArray k -> g_swtmrFreeList k' = g_swtmrFreeList k ->
  g_swtmrHandlerQueue k' = g_swtmrHandlerQueue k -> g_allQueue k' = g_allQueue k -> TickInv k' m t fl lw.
Proof. intros HT HK' Hw E1 E2 E3 E4. by eapply (TickInv_lists UnusedSem); [exact HT|exact HK'|apply lists_shrink_refl|..]. Qed.
(** After an operation on an object with a wait list that is not a queue's. *)
Lemma TickInv_kept who hd0 k k' m m' t t' fl lw :
  TickInv k m t fl lw -> KInv k' m' t' -> others_kept who hd0 k m k' m' -> hd0 <> SwtmrSortLink -> (∀ q rw, hd0 <> rwList q rw) ->
  (∀ x, who = Some x -> P !! x = None) -> g_swtmrCBArray k' = g_swtmrCBArray k -> g_swtmrFreeList k' = g_swtmrFreeList k ->
  g_swtmrHandlerQueue k' = g_swtmrHandlerQueue k -> g_allQueue k' = g_allQueue k -> TickInv k' m' t' fl lw.
Proof.
  intros (HK & HS & c & msgs & [Q1 Q2 Q3 Q4 [l Hl] (ms & Q6 & Q7)]) HK' Hk N1 N2 Hwho E1 E2 E3 E4. split_and!; [done| |].
  - eapply SwtmrInv_frame; [exact HS|done|done|by apply (kept_lists _ _ _ _ _ _ Hk)|by eapply timers_are].
  - exists c, msgs. split; rewrite ?E3, ?E4; try done.
    + rewrite (kept_lists _ _ _ _ _ _ Hk); [by exists l| |done|done]. apply not_eq_sym, (N2 _ OS_QUEUE_READ).
    + exists ms. split; [|done]. by apply (QInv_kept who hd0 P ms k m t k' m').
Qed.

Lemma TickInv_arm k k' m t fl lw : TickInv k m t fl lw -> armed k k' -> TickInv k' m t fl lw.
Proof.
  intros HT Ha. assert (HK := KInv_arm _ _ _ _ (proj1 HT) Ha). destruct Ha as (r & rid & tm & base & old & u & -> & _ & _).
  by eapply TickInv_frame; [..|apply waits_kept_same| | | |].
Qed.

Lemma upd_armed_fields k k0 k' h T b r : k' = upd h T b r k0 -> armed k k0 ->
  (g_swtmrCBArray k' = g_swtmrCBArray k /\ g_swtmrFreeList k' = g_swtmrFreeList k /\
   g_swtmrHandlerQueue k' = g_swtmrHandlerQueue k /\ g_allQueue k' = g_allQueue k) /\
  g_losTaskLock k' = g_losTaskLock k /\ g_swtmrScan k' = g_swtmrScan k /\ g_oldTickTimerBase k <= g_oldTickTimerBase k'.
Proof. intros -> (r0 & rid & tm & base & old & u & -> & _ & Ho). by split_and!. Qed.
Lemma armed_scan k k' : armed k k' -> g_swtmrScan k' = g_swtmrScan k /\ pendSV k' = pendSV k.
Proof. by intros (r0 & rid & tm & base & old & u & -> & _ & _). Qed.
Lemma no_overdue_frame k k' m lw now :
  no_overdue k m lw now -> (∀ x, responseTime <$> g_taskCBArray k' !! x = responseTime <$> g_taskCBArray k !! x) ->
  g_swtmrCBArray k' = g_swtmrCBArray k -> g_swtmrScan k' = g_swtmrScan k -> no_overdue k' m lw now.
Proof.
  intros [H1 H2] HT HC Hs. split; rewrite ?HC, ?Hs; [|done]. intros x c Hh Hc. specialize (HT x). rewrite Hc in HT. symmetry in HT.
  apply fmap_Some in HT as (c0 & Hc0 & ->). by apply (H1 x c0).
Qed.
Lemma no_overdue_arm k k' m lw now : no_overdue k m lw now -> armed k k' -> no_overdue k' m lw now.
Proof.
  intros Hn Ha. destruct (armed_swtmr _ _ Ha) as (E1 & _ & E3 & _). destruct (armed_scan _ _ Ha) as [E4 _].
  eapply no_overdue_frame; [done|by rewrite E3|done|done].
Qed.
Lemma slice_responseTime idle now c : responseTime (slice_tcb idle now c) = responseTime c.
Proof. unfold slice_tcb. by destruct (_ =? _). Qed.
Lemma KInv_tickIntLock k m t f : KInv k m t -> KInv (set_g_tickIntLock f k) m t.
Proof. by intros []. Qed.

Section tick.
Context (fuel : nat).
Let scan : M Kernel bool := OsSwtmrScan fuel.

Lemma tick_scan_wp k m t fl lw :
  TickInv k m t fl lw -> rate_ok (g_sysClock k) -> (Z.to_nat (2 ^ 63 * len lw) < fuel)%nat ->
  wp (modify (set_g_tickIntLock (λ l, u16 (l + 1))) ;;;
      let* on := gets g_swtmrScan in
      when on (let* _ := scan in mret tt) ;;;
      let* _ := OsSchedScanTimerList in
      modify (set_g_tickIntLock (λ l, u16 (l - 1)))) (λ _ k', ∃ m' lw', TickInv k' m' t fl lw' /\
    no_overdue k' m' lw' (g_oldTickTimerBase k) /\ g_oldTickTimerBase k <= g_oldTickTimerBase k' /\
    g_losTaskLock k' = g_losTaskLock k /\ startTime <$> g_taskCBArray k' !! t = startTime <$> g_taskCBArray k !! t /\
    lists_shrink SwtmrSortLink m m') k.
Proof.
  intros HT Hr Hfuel. wp_steps. set (k0 := set_g_tickIntLock _ k).
  assert (HT0 : TickInv k0 m t fl lw) by (eapply TickInv_frame; [exact HT|by destruct HT as [[] _]|by apply waits_kept_same|done..]).
  assert (Hscan : wp (when (g_swtmrScan k0) (let* _ := scan in mret tt)) (λ _ k1, ∃ m1 lw1, TickInv k1 m1 t fl lw1 /\
    (g_swtmrScan k1 = true -> ∀ j w, SwtmrNode j ∈ lw1 -> g_swtmrCBArray k1 !! j = Some w -> g_oldTickTimerBase k < swtmrResponseTime w) /\
    quiet k0 k1 /\ lists_shrink SwtmrSortLink m m1) k0).
  { destruct (g_swtmrScan k0) eqn:Eon; cbn [when].
    2:{ apply wp_ret. exists m, lw. split_and!; [done|congruence|apply quiet_refl|apply lists_shrink_refl]. }
    destruct HT0 as (HK0 & HS0 & c & msgs & HQ0). wp_step. eapply wp_mono; [eapply swtmr_scan_wp; try done|].
    - intros now Hnow. pose proof (total_bound _ _ _ _ _ _ HK0 HS0 Hr Hnow). lia.
    - intros need k1 (now & fires & Hnow & _ & m1 & lw1 & c1 & HK1 & HS1 & _ & Hl & HQ1 & Hqt & Hls). wp_step. exists m1, lw1.
      split_and!; [by split_and!; [..|eexists _, _]| |done|done]. intros _ j w Hin Hj. specialize (Hl j w Hj Hin).
      change (g_oldTickTimerBase k0) with (g_oldTickTimerBase k) in Hnow. lia. }
  eapply wp_mono; [exact Hscan|]. intros [] k1 (m1 & lw1 & HT1 & Hl1 & Hqt & Hls1). wp_step.
  destruct (si_sorted _ _ _ _ _ (ki_sched _ _ _ (proj1 HT1))) as (ls & Hls & _).
  eapply wp_mono; [eapply scan_late_wp; [apply HT1|done]|].
  intros need k2 (m2 & ls2 & HK2 & Hls2 & Hw2 & Hl2 & Ht2 & [nows HTs] & h2 & T2 & b2 & r2 & ka & Ek2 & Ha). wp_steps.
  destruct Hqt as (Q1 & Q2 & Q3 & Q4 & Q5). change (g_oldTickTimerBase k0) with (g_oldTickTimerBase k) in Q4.
  destruct (upd_armed_fields _ _ _ _ _ _ _ Ek2 Ha) as ((F1 & F2 & F3 & F4) & F5 & F6 & F7). exists m2, lw1.
  clear Ek2 Ha. split_and!.
  - eapply (TickInv_lists UnusedSem); [exact HT1|by apply KInv_tickIntLock|by apply lists_shrink_of|done|done| |done..].
    intros x c Hx. cbn. rewrite HTs, Hx. eexists. split; [done|]. apply scanned_waits.
  - split.
    + intros x c (l & Hl & Hin) Hc. rewrite Hls2 in Hl. simplify_eq. specialize (Hl2 x c Hin Hc). lia.
    + cbn. rewrite F1, F6. exact Hl1.
  - cbn. lia.
  - cbn. rewrite F5. exact Q1.
  - cbn. by rewrite Ht2, Q5.
  - eapply lists_shrink_trans; [exact Hls1|by apply lists_shrink_of].
Qed.

Lemma tick_handler_wp k m t fl lw :
  TickInv k m t fl lw -> rate_ok (g_sysClock k) -> (Z.to_nat (2 ^ 63 * len lw) < fuel)%nat ->
  wp (LOS_SchedTickHandler scan) (λ _ k', ∃ m' lw' now, TickInv k' m' t fl lw' /\
    g_oldTickTimerBase k <= now <= g_oldTickTimerBase k' /\
    (g_schedResponseID k = OS_INVALID -> no_overdue k' m' lw' now) /\
    g_losTaskLock k' = g_losTaskLock k /\ (g_losTaskLock k = 0 -> pendSV k' = true) /\
    lists_shrink SwtmrSortLink m m') k.
Proof.
  intros HT Hr Hfuel. unfold LOS_SchedTickHandler. wp_step. wp_step. rewrite (ki_on _ _ _ (proj1 HT)). cbn [negb].
  unfold OsGetCurrSchedTimeCycle at 1. wp_step. eapply wp_mono; [apply cycle_wp, HT|].
  intros now k1 (tm1 & base1 & u1 & Ek1 & Hk1 & Hnow & _). rewrite Ek1 in Hk1. pose proof (armed_clk _ _ _ _ _ Hk1 Hnow) as Ha1. rewrite <- Ek1 in Ha1.
  assert (HT1 := TickInv_arm _ _ _ _ _ _ HT Ha1). pose proof (proj1 HT1) as HK1.
  assert (Eold : g_oldTickTimerBase k1 = now /\ g_schedResponseID k1 = g_schedResponseID k /\ g_sysClock k1 = g_sysClock k /\
    g_losTaskLock k1 = g_losTaskLock k) by by rewrite Ek1. destruct Eold as (Eold & Erid & A2 & A1).
  wp_step. wp_step. wp_step.
  destruct (ki_run _ _ _ HK1) as [(ct & Hct & HR) _]. destruct HR as [_ _ Hst _].
  assert (Hscan : wp (when (g_schedResponseID k1 =? OS_INVALID) (
      modify (set_g_tickIntLock (λ l, u16 (l + 1))) ;;;
      let* on := gets g_swtmrScan in
      when on (let* _ := scan in mret tt) ;;;
      let* _ := OsSchedScanTimerList in
      modify (set_g_tickIntLock (λ l, u16 (l - 1))))) (λ _ k2, ∃ m2 lw2, TickInv k2 m2 t fl lw2 /\
    (g_schedResponseID k1 = OS_INVALID -> no_overdue k2 m2 lw2 now) /\ now <= g_oldTickTimerBase k2 /\
    g_losTaskLock k2 = g_losTaskLock k1 /\ startTime <$> g_taskCBArray k2 !! t = startTime <$> g_taskCBArray k1 !! t /\
    lists_shrink SwtmrSortLink m m2) k1).
  { destruct (Z.eqb_spec (g_schedResponseID k1) OS_INVALID) as [E|E]; cbn [when].
    - eapply wp_mono; [eapply tick_scan_wp; [exact HT1|by rewrite A2|done]|]. intros [] k2 (m2 & lw2 & H2). rewrite Eold in H2.
      exists m2, lw2. tauto.
    - apply wp_ret. exists m, lw. split_and!; [done|done|lia|done|done|apply lists_shrink_refl]. }
  eapply wp_mono; [exact Hscan|]. intros [] k2 (m2 & lw2 & HT2 & Hov & Hold2 & L2 & Est & Hls). rewrite Hct in Est. cbn in Est.
  apply fmap_Some in Est as (c2 & Hc2 & Est). wp_step. eapply wp_running; [apply HT2|]. wp_step.
  eapply wp_mono; [eapply (kinv_slice _ _ _ c2 now); [apply HT2|done|lia|lia]|]. intros [] k3 (-> & HK3). set (c3 := slice_tcb _ now c2) in *.
  set (k3 := set_g_taskCBArray _ k2) in *. assert (HT3 : TickInv k3 m2 t fl lw2) by (eapply TickInv_frame; [exact HT2|done|by eapply waits_kept_insert; [exact Hc2|done|apply slice_waits]|done..]).
  assert (Hc3 : g_taskCBArray k3 !! t = Some c3) by apply lookup_insert_eq.
  unfold OsGetCurrSchedTimeCycle. wp_step. eapply wp_mono; [eapply kinv_cycle, HK3|]. intros now4 k4 (Ha4 & HK4 & Hnow4 & Eold4).
  assert (HT4 := TickInv_arm _ _ _ _ _ _ HT3 Ha4). destruct (armed_swtmr _ _ Ha4) as (G1 & _ & G3 & _).
  destruct (armed_quiet _ _ Ha4) as (G4 & _). rewrite <- G3 in Hc3. change (g_oldTickTimerBase k3) with (g_oldTickTimerBase k2) in Hnow4.
  wp_step. eapply wp_running; [apply HK4|]. wp_step. eapply wp_mod_tcb; [exact Hc3|]. set (c5 := set_startTime _ c3).
  assert (HK5 : KInv (set_g_taskCBArray (insert t c5) k4) m2 t) by (eapply KInv_times; [exact HK4|exact Hc3|done..|cbn; lia]).
  wp_steps. set (k6 := set_g_schedResponseTime _ _).
  assert (HT6 : TickInv k6 m2 t fl lw2) by (eapply TickInv_frame; [exact HT4|by destruct HK5|by eapply waits_kept_insert|done..]).
  assert (Hov6 : g_schedResponseID k = OS_INVALID -> no_overdue k6 m2 lw2 now).
  { intros E. rewrite <- Erid in E. assert (Hov3 : no_overdue k3 m2 lw2 now).
    { eapply no_overdue_frame; [by apply Hov| |done|done]. intros x. change (g_taskCBArray k3) with (<[t := c3]> (g_taskCBArray k2)).
      rewrite lookup_insert. case_decide; [|done]. subst x. rewrite Hc2. cbn. f_equal. apply slice_responseTime. }
    eapply no_overdue_frame; [exact (no_overdue_arm _ _ _ _ _ Hov3 Ha4)| |done|done]. intros x.
    change (g_taskCBArray k6) with (<[t := c5]> (g_taskCBArray k4)). rewrite lookup_insert. case_decide; [|done]. subst x.
    by rewrite Hc3. }
  assert (L6 : g_losTaskLock k6 = g_losTaskLock k).
  { change (g_losTaskLock k6) with (g_losTaskLock k4). rewrite G4. change (g_losTaskLock k3) with (g_losTaskLock k2). congruence. }
  assert (Hold6 : g_oldTickTimerBase k6 = now4) by exact Eold4. rewrite L6.
  clearbody k6. destruct (Z.eqb_spec (g_losTaskLock k) 0) as [Hlk|Hlk].
  - unfold ArchTaskSchedule. apply wp_modify. exists m2, lw2, now. split_and!; [|lia|cbn; lia|exact Hov6|done|done|done].
    eapply TickInv_frame; [exact HT6| |by apply waits_kept_same|done..]. destruct HT6 as [[] _]. by split.
  - eapply wp_mono; [eapply kinv_update_expire, HT6|]. intros [] k7 Ha7. exists m2, lw2, now.
    destruct (armed_quiet _ _ Ha7) as (B1 & _ & _ & B4 & _).
    split_and!; [by eapply TickInv_arm|lia|lia| |congruence|done|done]. intros E. eapply no_overdue_arm; [by apply Hov6|done].
Qed.

(** The whole interrupt: the hardware timer has reached the end of its period. *)
Lemma tick_wp k m t fl lw tm :
  TickInv k m t fl lw -> rate_ok (g_sysClock k) -> timer_irq (g_sysTickTimer k) = Some tm ->
  (Z.to_nat (2 ^ 63 * len lw) < fuel)%nat ->
  wp (OsTickHandler scan) (λ _ k', ∃ m' lw' now, TickInv k' m' t fl lw' /\
    g_oldTickTimerBase k <= now <= g_oldTickTimerBase k' /\
    (g_schedResponseID k = OS_INVALID -> no_overdue k' m' lw' now) /\
    g_losTaskLock k' = g_losTaskLock k /\ (g_losTaskLock k = 0 -> pendSV k' = true) /\
    lists_shrink SwtmrSortLink m m') (set_g_sysTickTimer (λ _, tm) k).
Proof.
  intros HT Hr Hirq Hfuel. unfold OsTickHandler. wp_step. eapply wp_mono; [eapply kinv_time_base; [apply HT|done]|].
  intros [] k1 (HK1 & tm' & base & Ek1). assert (HT1 : TickInv k1 m t fl lw) by (eapply TickInv_frame; [exact HT|done|apply waits_kept_same; by rewrite Ek1|by rewrite Ek1..]).
  assert (E : g_oldTickTimerBase k1 = g_oldTickTimerBase k /\ g_schedResponseID k1 = g_schedResponseID k /\ g_losTaskLock k1 = g_losTaskLock k /\
    g_sysClock k1 = g_sysClock k) by by rewrite Ek1. destruct E as (E1 & E2 & E3 & E4).
  eapply wp_mono; [eapply tick_handler_wp; [exact HT1|by rewrite E4|done]|]. intros [] k' Hk'. by rewrite E1, E2, E3 in Hk'.
Qed.
End tick.

(** C19: The tick interrupt terminates and keeps the kernel, timer and handler queue invariants,
    whatever the running task; when it is the tick that the kernel waits for, no task whose wait
    time has passed and no timer whose time has passed is left in the sort links, and an
    unlocked scheduler is asked for a switch. *)
Theorem tick_correct k m t fl lw tm :
  TickInv k m t fl lw -> rate_ok (g_sysClock k) -> timer_irq (g_sysTickTimer k) = Some tm ->
  ∃ bound, ∀ fuel, (bound <= fuel)%nat ->
  wp (OsTickHandler (OsSwtmrScan fuel)) (λ _ k', ∃ m' lw' now, TickInv k' m' t fl lw' /\
    g_oldTickTimerBase k <= now <= g_oldTickTimerBase k' /\
    (g_schedResponseID k = OS_INVALID -> no_overdue k' m' lw' now) /\
    g_losTaskLock k' = g_losTaskLock k /\ (g_losTaskLock k = 0 -> pendSV k' = true)) (set_g_sysTickTimer (λ _, tm) k).
Proof.
  intros. exists (S (Z.to_nat (2 ^ 63 * len lw))). intros fuel Hf. eapply wp_mono; [by eapply tick_wp|].
  intros [] k' (m' & lw' & now & ? & ? & ? & ? & ? & _). by exists m', lw', now.
Qed.
End handler.
End SwtmrProofs.
