(* ===== verification/Init.v ===== *)
(** Start of the kernel (src/kernel/src/los_init.c): the order in which the
    modules are initialised, and the first scheduling decision. The build with
    semaphores, mutexes, queues and software timers, without the optional
    modules. *)

From S2P Require Import Prelude Errno LosList Membox Kernel Tick SortLink Sched Sem Mux Event Queue Task Swtmr.

Section Init.
Context `{Platform}.

(** [if (ret != LOS_OK) return ret;] *)
Definition or_return (m rest : M Kernel Z) : M Kernel Z :=
  let* ret := m in
  if negb (ret =? LOS_OK) then mret ret else rest.

(** [memInit] is OsMemSystemInit of src/kernel/src/mm/los_memory.c. *)
Definition LOS_KernelInit (memInit : M Kernel Z) : M Kernel Z :=
  or_return memInit (
  or_return OsTickTimerInit (
  or_return OsTaskInit (
  or_return OsSemInit (
  or_return OsMuxInit (
  or_return OsQueueInit (
  or_return OsSwtmrInit (
  or_return OsIdleTaskCreate (
  mret LOS_OK)))))))).

(** Of src/arch/arm/cortex-m4/gcc/los_context.c; HalStartToRun enters the task
    selected. *)
Definition ArchStartSchedule (fuel : nat) : M Kernel Z :=
  OsSchedStart (OsSwtmrResponseTimeReset fuel) ;;; mret LOS_OK.

Definition LOS_Start (fuel : nat) : M Kernel Z := ArchStartSchedule fuel.

End Init.
