(* ===== verification/Calls.v ===== *)
(** The calls of the tasks as one operation, what a waiting call does when its task
    runs again, the invariant of the whole kernel, and that every call on tasks,
    semaphores, mutexes and events keeps it. *)

From S2P Require Import Prelude Errno LosList Kernel Tick SortLink Sched SchedInv SchedTime SchedSwitch KernelInv Waits Sem Mux Event Queue QueueInv Task Swtmr.

(** The branches in which a call is refused and changes nothing. *)
Ltac refused HQ := repeat match type of HQ with if ?b then _ else _ => destruct b; [by destruct HQ as [_ ->]|] end.

(** A list of waiting tasks is not one of a queue. *)
Ltac not_queue_list := intros q0 rw0; unfold rwList; destruct (rw0 =? OS_QUEUE_READ); done.

(** ** What calls leave alone *)

Section Frames.
Context `{Platform}.

Lemma keeps_add_loop {X} (f : Kernel -> X) fuel prev node :
  (∀ g k, f (set_dlists g k) = f k) -> keeps f (OsAddNode2SortLink_loop fuel prev node).
Proof.
  intros Hf. revert prev. induction fuel as [|fuel IH]; intros prev; cbn [OsAddNode2SortLink_loop]; [apply keeps_fault|]. keeps.
Qed.

(** The parts of the kernel that classes of calls leave alone. *)
Definition timers (k : Kernel) := (g_swtmrCBArray k, g_swtmrFreeList k, g_swtmrHandlerQueue k).
Definition common (k : Kernel) := (g_allQueue k, timers k, g_sysClock k, g_losTaskLock k).
(** For the calls on tasks and for the switch of tasks. *)
Definition objects (k : Kernel) := (g_allQueue k, timers k, g_sysClock k, g_allSem k, g_allMux k, eventIDs k).
(** For the calls on semaphores, mutexes, events, queues and timers, and for the tick. *)
Definition not_sem (k : Kernel) := (common k, g_allMux k, eventIDs k).
Definition not_mux (k : Kernel) := (common k, g_allSem k, eventIDs k).
Definition not_event (k : Kernel) := (common k, g_allSem k, g_allMux k).
Definition not_queue (k : Kernel) := (timers k, g_sysClock k, g_losTaskLock k, g_allSem k, g_allMux k, eventIDs k).
Definition not_timers (k : Kernel) :=
  (g_allQueue k, g_swtmrHandlerQueue k, g_sysClock k, g_losTaskLock k, g_allSem k, g_allMux k, eventIDs k, g_taskCBArray k).
Definition not_tick (k : Kernel) := (g_sysClock k, g_losTaskLock k, g_allSem k, g_allMux k, eventIDs k).
(** The identifiers in the control blocks. *)
Definition ids (k : Kernel) : gmap Z Z := taskID <$> g_taskCBArray k.

Lemma keeps_ids_mod t g : (∀ c, taskID (g c) = taskID c) -> keeps ids (mod_tcb t g).
Proof.
  intros Hg k a k'. unfold mod_tcb, tcb, mbind, M_bind, gets, of_option, modify.
  destruct (g_taskCBArray k !! t) as [c|] eqn:E; [|done]. intros [= <- <-].
  unfold ids. cbn. rewrite fmap_insert, Hg. apply insert_id. by rewrite lookup_fmap, E.
Qed.
Lemma ids_dom k k' x : ids k' = ids k -> is_Some (g_taskCBArray k !! x) -> is_Some (g_taskCBArray k' !! x).
Proof. intros E Hx. unfold ids in E. apply (fmap_is_Some taskID). rewrite <- lookup_fmap, E, lookup_fmap. by apply fmap_is_Some. Qed.
End Frames.

#[export] Hint Extern 1 (keeps _ (OsAddNode2SortLink_loop _ _ _)) => apply keeps_add_loop; intros; reflexivity : keeps.
#[export] Hint Extern 1 (keeps ids (mod_tcb _ _)) => apply keeps_ids_mod; intros; reflexivity : keeps.

Section Frames2.
Context `{Platform}.

Lemma keeps_scan_loop fuel node now need :
  keeps not_tick (OsSchedScanTimerList_loop fuel node now need) /\ keeps ids (OsSchedScanTimerList_loop fuel node now need).
Proof.
  revert node need. induction fuel as [|fuel IH]; intros node need; cbn [OsSchedScanTimerList_loop]; [split; apply keeps_fault|].
  assert (IH1 := λ n b, proj1 (IH n b)). assert (IH2 := λ n b, proj2 (IH n b)). split; keeps.
Qed.
Lemma keeps_swtmr_scan_loop fuel node now need :
  keeps not_tick (OsSwtmrScan_loop fuel node now need) /\ keeps ids (OsSwtmrScan_loop fuel node now need).
Proof.
  revert node need. induction fuel as [|fuel IH]; intros node need; cbn [OsSwtmrScan_loop]; [split; apply keeps_fault|].
  assert (IH1 := λ n b, proj1 (IH n b)). assert (IH2 := λ n b, proj2 (IH n b)). split; keeps.
Qed.
Lemma keeps_event_loop fuel e n events flag :
  keeps not_event (LOS_EventWrite_loop fuel e n events flag) /\ keeps ids (LOS_EventWrite_loop fuel e n events flag).
Proof.
  revert n flag. induction fuel as [|fuel IH]; intros n flag; cbn [LOS_EventWrite_loop]; [split; apply keeps_fault|].
  assert (IH1 := λ n b, proj1 (IH n b)). assert (IH2 := λ n b, proj2 (IH n b)). split; keeps.
Qed.
End Frames2.
#[export] Hint Extern 1 (keeps not_tick (OsSchedScanTimerList_loop _ _ _ _)) => apply keeps_scan_loop : keeps.
#[export] Hint Extern 1 (keeps ids (OsSchedScanTimerList_loop _ _ _ _)) => apply keeps_scan_loop : keeps.
#[export] Hint Extern 1 (keeps not_tick (OsSwtmrScan_loop _ _ _ _)) => apply keeps_swtmr_scan_loop : keeps.
#[export] Hint Extern 1 (keeps ids (OsSwtmrScan_loop _ _ _ _)) => apply keeps_swtmr_scan_loop : keeps.
#[export] Hint Extern 1 (keeps not_event (LOS_EventWrite_loop _ _ _ _ _)) => apply keeps_event_loop : keeps.
#[export] Hint Extern 1 (keeps ids (LOS_EventWrite_loop _ _ _ _ _)) => apply keeps_event_loop : keeps.

(** ** The calls *)

Inductive Call : Type :=
| CDelay (tick : Z)
| CSuspend (x : Z)
| CResume (x : Z)
| CPriSet (x prio : Z)
| CLock
| CUnlock
| CSemPend (i timeout : Z)
| CSemPost (i : Z)
| CSemCreate (count : Z)
| CSemBinaryCreate (count : Z)
| CSemDelete (i : Z)
| CMuxPend (i timeout : Z)
| CMuxPost (i : Z)
| CMuxCreate
| CMuxDelete (i : Z)
| CEventRead (e : EventRef) (eventMask mode timeout : Z)
| CEventWrite (e : EventRef) (events : Z)
| CEventClear (e : EventRef) (eventMask : Z)
| CQueueRead (q : Z) (buffer : list Z) (size timeout : Z)
| CQueueWrite (q : Z) (buffer : list Z) (size timeout : Z)
| CQueueWriteHead (q : Z) (buffer : list Z) (size timeout : Z)
| CSwtmrCreate (interval mode handler arg : Z)
| CSwtmrStart (id : Z)
| CSwtmrStop (id : Z)
| CSwtmrDelete (id : Z)
(** A turn of the timer task with the answer of its read. *)
| CSwtmrHandle (ret : Z) (bytes : list Z) (readSize : Z).

(** What a task that waits inside a call has called. *)
Inductive Waiting : Type :=
| WSem
| WMux
| WEvent (e : EventRef) (eventMask mode : Z)
| WQueue (op : QOp).
Definition queue_part (w : Waiting) : option QOp := match w with WQueue op => Some op | _ => None end.
Definition calls (W : gmap Z Waiting) : gmap Z QOp := omap queue_part W.

Lemma calls_none W t : W !! t = None -> calls W !! t = None.
Proof. intros E. unfold calls. by rewrite lookup_omap, E. Qed.
Lemma calls_other W t w : W !! t = None -> queue_part w = None -> calls (<[t := w]> W) = calls W.
Proof.
  intros E Ew. apply map_eq. intros x. unfold calls. rewrite !lookup_omap. destruct (decide (x = t)) as [->|].
  - by rewrite lookup_insert_eq, E.
  - by rewrite lookup_insert_ne.
Qed.
Lemma calls_queue W t op : calls (<[t := WQueue op]> W) = <[t := op]> (calls W).
Proof.
  apply map_eq. intros x. unfold calls. rewrite lookup_omap, !lookup_insert, lookup_omap. by case_decide.
Qed.
Lemma calls_delete W t : calls (delete t W) = delete t (calls W).
Proof. apply map_eq. intros x. unfold calls. rewrite lookup_omap, !lookup_delete, lookup_omap. by case_decide. Qed.
Lemma calls_leave W t w : W !! t = Some w -> queue_part w = None -> calls (delete t W) = calls W.
Proof. intros E Ew. rewrite calls_delete. apply delete_id. unfold calls. by rewrite lookup_omap, E. Qed.

(** The event blocks that the program has initialised. *)
Class Events : Type := event_blocks : gset EventRef.

Section System.
Context `{TimerLaws} `{Events}.

(** A call whose answer is a part of what it returns. *)
Fixpoint pmap {A B} (f : A -> B) (p : Proc A) : Proc B :=
  match p with
  | Done a => Done (f a)
  | Blocked q => Blocked (λ k, match q k with Some (p', k') => Some (pmap f p', k') | None => None end)
  end.
(** The error code of a queue call. *)
Definition queue_code (op : M Kernel (Proc (Z * (list Z * Z)))) : M Kernel (Proc Z) :=
  let* p := op in mret (pmap fst p).

Definition run_call (c : Call) : M Kernel (Proc Z) :=
  match c with
  | CDelay tick => let* r := LOS_TaskDelay tick in returns r
  | CSuspend x => let* r := LOS_TaskSuspend x in returns r
  | CResume x => let* r := LOS_TaskResume x in returns r
  | CPriSet x prio => let* r := LOS_TaskPriSet x prio in returns r
  | CLock => LOS_TaskLock ;;; returns LOS_OK
  | CUnlock => LOS_TaskUnlock ;;; returns LOS_OK
  | CSemPend i timeout => LOS_SemPend i timeout
  | CSemPost i => let* r := LOS_SemPost i in returns r
  | CSemCreate count => let* r := LOS_SemCreate count true in returns (fst r)
  | CSemBinaryCreate count => let* r := LOS_BinarySemCreate count true in returns (fst r)
  | CSemDelete i => let* r := LOS_SemDelete i in returns r
  | CMuxPend i timeout => LOS_MuxPend i timeout
  | CMuxPost i => let* r := LOS_MuxPost i in returns r
  | CMuxCreate => let* r := LOS_MuxCreate true in returns (fst r)
  | CMuxDelete i => let* r := LOS_MuxDelete i in returns r
  | CEventRead e eventMask mode timeout => LOS_EventRead (Some e) eventMask mode timeout
  | CEventWrite e events => let* r := LOS_EventWrite (Some e) events in returns r
  | CEventClear e eventMask => let* r := LOS_EventClear (Some e) eventMask in returns r
  | CQueueRead q buffer size timeout => queue_code (LOS_QueueReadCopy q (Some buffer) (Some size) timeout)
  | CQueueWrite q buffer size timeout => queue_code (LOS_QueueWriteCopy q (Some buffer) size timeout)
  | CQueueWriteHead q buffer size timeout => queue_code (LOS_QueueWriteHeadCopy q (Some buffer) size timeout)
  | CSwtmrCreate interval mode handler arg => let* r := LOS_SwtmrCreate interval mode handler true arg in returns (fst r)
  | CSwtmrStart id => let* r := LOS_SwtmrStart id in returns r
  | CSwtmrStop id => let* r := LOS_SwtmrStop id in returns r
  | CSwtmrDelete id => let* r := LOS_SwtmrDelete id in returns r
  | CSwtmrHandle ret bytes readSize => let* _ := OsSwtmrTask_handle ret bytes readSize in returns LOS_OK
  end.

(** The rest of the call in which task [t] waits. *)
Definition rest_of (t : Z) (w : Waiting) : Kernel -> option (Proc Z * Kernel) :=
  match w with
  | WSem => resuming (LOS_SemPend_resume t)
  | WMux => resuming (LOS_MuxPend_resume t)
  | WEvent e eventMask mode => resuming (LOS_EventRead_resume t (Some e) eventMask mode)
  | WQueue op => λ k,
      match resuming (OsQueueOperate_resume t (qo_queue op) (qo_type op) (qo_buffer op) (qo_size op)) k with
      | Some (p, k') => Some (pmap fst p, k')
      | None => None
      end
  end.

(** The arguments of a queue call of the running task. *)
Definition queue_call_ok (k : Kernel) (t : Z) (op : QOp) : Prop :=
  (∃ ct, can_wait k t ct) /\ 0 <= qo_queue op < LOSCFG_BASE_IPC_QUEUE_LIMIT /\
  ∃ c, g_allQueue k !! qo_queue op = Some c /\ qo_fits c op.

(** What the running task [t] has to observe when it calls. *)
Definition call_ok (k : Kernel) (t : Z) (c : Call) : Prop :=
  match c with
  | CDelay _ => ∃ ct, may_wait k t ct
  | CSuspend x => user_task k x /\ ∃ cx, g_taskCBArray k !! x = Some cx /\ freezes k cx = false
  | CResume x => x <> t /\ 0 <= x < g_taskMaxNum k /\ ∃ cx, g_taskCBArray k !! x = Some cx /\ has cx OS_TASK_STATUS_EXIT = false
  | CPriSet x prio => user_task k x /\ is_Some (g_taskCBArray k !! x) /\ 0 <= prio
  | CLock | CUnlock => True
  | CSemPend i _ => (∃ ct, may_wait k t ct) /\ 0 <= i < LOSCFG_BASE_IPC_SEM_LIMIT /\
      ∃ s, g_allSem k !! i = Some s /\ semStat s <> OS_SEM_UNUSED
  | CSemCreate count | CSemBinaryCreate count => 0 <= count
  | CSemPost i | CSemDelete i => 0 <= i < LOSCFG_BASE_IPC_SEM_LIMIT /\ ∃ s, g_allSem k !! i = Some s /\ semStat s <> OS_SEM_UNUSED
  | CMuxPend i _ => (∃ ct, may_wait k t ct) /\ 0 <= i < LOSCFG_BASE_IPC_MUX_LIMIT /\
      ∃ x, g_allMux k !! i = Some x /\ muxStat x <> OS_MUX_UNUSED /\ muxCount x + 1 < 2 ^ 16
  | CMuxPost i => pendSV k = false /\ intActive k = false /\ 0 <= i < LOSCFG_BASE_IPC_MUX_LIMIT /\
      ∃ x, g_allMux k !! i = Some x /\ muxStat x <> OS_MUX_UNUSED
  | CMuxCreate => True
  | CMuxDelete i => 0 <= i < LOSCFG_BASE_IPC_MUX_LIMIT /\ ∃ x, g_allMux k !! i = Some x /\ muxStat x <> OS_MUX_UNUSED
  | CEventRead e eventMask mode _ => (∃ ct, may_wait k t ct) /\ e ∈ event_blocks /\ event_args_ok eventMask mode
  | CEventWrite e events => e ∈ event_blocks /\ test events LOS_ERRTYPE_ERROR = false
  | CEventClear e _ => e ∈ event_blocks
  | CQueueRead q buffer size _ => queue_call_ok k t (mk_QOp q ReadHead buffer size)
  | CQueueWrite q buffer size _ => queue_call_ok k t (mk_QOp q WriteTail buffer size)
  | CQueueWriteHead q buffer size _ => queue_call_ok k t (mk_QOp q WriteHead buffer size)
  | CSwtmrCreate interval mode handler _ => 0 < interval < 2 ^ 32 /\ handler <> 0 /\
      (mode = LOS_SWTMR_MODE_ONCE \/ mode = LOS_SWTMR_MODE_PERIOD \/ mode = LOS_SWTMR_MODE_NO_SELFDELETE)
  | CSwtmrStart id | CSwtmrStop id | CSwtmrDelete id => 0 <= id < OS_SWTMR_MAX_TIMERID
  | CSwtmrHandle _ bytes _ => handle_ok k (bytes_item bytes)
  end.

(** ** The invariant *)

Definition EventInv (k : Kernel) (m : gmap Node (list Node)) : Prop :=
  ∀ e, e ∈ event_blocks -> is_Some (eventIDs k !! e) /\ is_Some (m !! EventList e).
Definition ObjInv (k : Kernel) (m : gmap Node (list Node)) : Prop := SemInv k m /\ MuxInv k m /\ EventInv k m.
(** Tasks wait for events that are initialised. *)
Definition events_known (W : gmap Z Waiting) : Prop :=
  ∀ x e eventMask mode, W !! x = Some (WEvent e eventMask mode) -> e ∈ event_blocks.

Record SysInv (W : gmap Z Waiting) (k : Kernel) (m : gmap Node (list Node)) (t : Z) (fl : list Z) (lw : list Node) : Prop := {
  sy_tick : TickInv (calls W) k m t fl lw;
  sy_objs : ObjInv k m;
  sy_events : events_known W;
  sy_rate : rate_ok (g_sysClock k);
  sy_lock : 0 <= g_losTaskLock k < 2 ^ 16;
  sy_ids : ∀ x i, ids k !! x = Some i -> i = x;
}.

(** *** What the objects depend on *)

(** The list of an object that is not a semaphore, a mutex or an event. *)
Definition other_head (hd : Node) : bool :=
  match hd with SemList _ | UnusedSem | MuxList _ | UnusedMux | EventList _ => false | _ => true end.

Lemma SemInv_lists hd0 k k' m m' :
  SemInv k m -> lists_shrink hd0 m m' -> hd0 <> UnusedSem -> (∀ i, hd0 <> SemList i) -> g_allSem k' = g_allSem k -> SemInv k' m'.
Proof.
  intros HS (W1 & W2 & _) N1 N2 E. eapply SemInv_frame; [done|done|by apply W2|]. intros i s l _ Hl.
  destruct (W1 (SemList i) l (not_eq_sym (N2 i)) eq_refl Hl) as (l' & Hl' & Hs). exists l'. split; [done|].
  intros _ ->. by apply sublist_nil_r.
Qed.
Lemma MuxInv_lists hd0 k k' m m' :
  MuxInv k m -> lists_shrink hd0 m m' -> hd0 <> UnusedMux -> (∀ i, hd0 <> MuxList i) -> g_allMux k' = g_allMux k -> ids k' = ids k ->
  MuxInv k' m'.
Proof.
  intros [M1 M2 M3] (W1 & W2 & _) N1 N2 E Ei. assert (EU : m' !! UnusedMux = m !! UnusedMux) by by apply W2.
  split; rewrite ?E, ?EU; try done. intros i x Hx. destruct (M1 i x Hx) as [X1 X2 X3 X4 X5 X6]. split; try done.
  - intros Hu. unfold home. rewrite EU. by apply X2.
  - intros Hu. destruct (X3 Hu) as (l & Hl & He).
    destruct (W1 (MuxList i) l (not_eq_sym (N2 i)) eq_refl Hl) as (l' & Hl' & Hs). exists l'. split; [done|].
    intros Hz. rewrite (He Hz) in Hs. by apply sublist_nil_r.
  - intros Hu Hz. destruct (X6 Hu Hz) as (o & Ho & HT & Hp). exists o. split_and!; [done| |lia..]. by eapply ids_dom.
Qed.
Lemma EventInv_lists hd0 k k' m m' :
  EventInv k m -> lists_shrink hd0 m m' -> (∀ e, hd0 <> EventList e) -> eventIDs k' = eventIDs k -> EventInv k' m'.
Proof.
  intros HE (W1 & _) N E e He. rewrite E. destruct (HE e He) as [Hid [l Hl]]. split; [done|].
  destruct (W1 (EventList e) l (not_eq_sym (N e)) eq_refl Hl) as (l' & -> & _). by eexists.
Qed.
Lemma ObjInv_lists hd0 k k' m m' :
  ObjInv k m -> lists_shrink hd0 m m' -> other_head hd0 = true -> g_allSem k' = g_allSem k -> g_allMux k' = g_allMux k ->
  eventIDs k' = eventIDs k -> ids k' = ids k -> ObjInv k' m'.
Proof.
  intros (HS & HM & HE) Hls Hh E1 E2 E3 E4. split_and!.
  - eapply SemInv_lists; [exact HS|exact Hls|by intros ->|by intros i ->|done].
  - eapply MuxInv_lists; [exact HM|exact Hls|by intros ->|by intros i ->|done..].
  - eapply EventInv_lists; [exact HE|exact Hls|by intros i ->|done].
Qed.

Lemma events_known_insert W t w :
  events_known W -> (∀ e eventMask mode, w = WEvent e eventMask mode -> e ∈ event_blocks) -> events_known (<[t := w]> W).
Proof. intros HE Hw x e eventMask mode. rewrite lookup_insert. case_decide; [intros [= ->]; by eapply Hw|apply HE]. Qed.
Lemma events_known_delete W t : events_known W -> events_known (delete t W).
Proof. intros HE x e a b [_ Hx]%lookup_delete_Some. by eapply HE. Qed.

(** *** What a call answers *)

(** A call of task [t] is done, or [t] waits in it. *)
Definition answered (W : gmap Z Waiting) (t : Z) (p : Proc Z) (W' : gmap Z Waiting) : Prop :=
  (∃ r, p = Done r) /\ W' = W \/ ∃ w, p = Blocked (rest_of t w) /\ W' = <[t := w]> W.
Definition went (W : gmap Z Waiting) (t : Z) (p : Proc Z) (k' : Kernel) : Prop :=
  ∃ W' m' fl' lw', answered W t p W' /\ SysInv W' k' m' t fl' lw'.

Lemma went_done W t r k' m' fl' lw' : SysInv W k' m' t fl' lw' -> went W t (Done r) k'.
Proof. intros HS. exists W, m', fl', lw'. split; [left; by split; [eexists|]|done]. Qed.
Lemma went_blocked W t w k' m' fl' lw' : SysInv (<[t := w]> W) k' m' t fl' lw' -> went W t (Blocked (rest_of t w)) k'.
Proof. intros HS. exists (<[t := w]> W), m', fl', lw'. split; [right; by exists w|done]. Qed.
(** A call that does not wait. *)
Lemma went_returns {A} (op : M Kernel A) (g : A -> Z) W t k :
  wp op (λ _ k', ∃ m' fl' lw', SysInv W k' m' t fl' lw') k -> wp (let* r := op in returns (g r)) (went W t) k.
Proof. intros Hw. wp_step. eapply wp_mono; [exact Hw|]. intros a k' (m' & fl' & lw' & HS). apply wp_ret. by eapply went_done. Qed.

Lemma wp_kept {A X} (obs : Kernel -> X) (op : M Kernel A) Q k :
  keeps obs op -> keeps ids op -> wp op Q k -> wp op (λ a k', Q a k' /\ obs k' = obs k /\ ids k' = ids k) k.
Proof.
  intros K1 K2 Hw. eapply wp_mono; [exact (wp_keeps _ _ _ _ K2 (wp_keeps _ _ _ _ K1 Hw))|]. by intros a k' [[HQ E1] E2].
Qed.

(** *** Calls on tasks *)

Lemma SysInv_sched W k k' m m' t t' fl lw :
  SysInv W k m t fl lw -> KInv k' m' t' -> queues_only m m' -> waits_kept k k' -> objects k' = objects k -> ids k' = ids k ->
  0 <= g_losTaskLock k' < 2 ^ 16 -> SysInv W k' m' t' fl lw.
Proof.
  intros [S1 S2 S3 S4 S5 S6] HK' Hq Hw [= E1 E2 E3 E4 E5 E6 E7 E8] Ei Hl.
  assert (Hls : ∀ hd0, lists_shrink hd0 m m') by (intros hd0; apply lists_shrink_others; intros hd _; apply Hq).
  split; [|by eapply (ObjInv_lists TaskRecycle)|done|by rewrite E5|done|by rewrite Ei].
  by eapply (TickInv_lists (calls W) UnusedSem).
Qed.

Lemma call_sched {A} (op : M Kernel A) W k m t fl lw :
  SysInv W k m t fl lw -> keeps objects op -> keeps ids op -> keeps g_losTaskLock op ->
  wp op (λ _ k', ∃ m', KInv k' m' t /\ queues_only m m' /\ waits_kept k k') k ->
  wp op (λ _ k', ∃ m' fl' lw', SysInv W k' m' t fl' lw') k.
Proof.
  intros HS K1 K2 K3 Hw. eapply wp_mono; [exact (wp_keeps _ _ _ _ K3 (wp_kept objects op _ k K1 K2 Hw))|].
  intros a k' (((m' & HK' & Hq & Hwk) & E1 & E2) & E3). exists m', fl, lw. eapply SysInv_sched; try done. rewrite E3. apply HS.
Qed.

Lemma susp_waits c : waits (susp_tcb c) = waits c.
Proof. unfold susp_tcb. destruct (has c OS_TASK_STATUS_READY); waits_solve. Qed.
Lemma resumed_waits k c : waits (resumed_tcb k c) = waits c.
Proof.
  unfold resumed_tcb. destruct (has c OS_TASK_STATUS_DELAY || has c OS_TASK_STATUS_PEND) eqn:E; [waits_solve|].
  apply orb_false_iff in E as [_ E]. rewrite enq_waits; waits_solve.
Qed.

Lemma task_call_wp W k m t fl lw c :
  SysInv W k m t fl lw -> call_ok k t c ->
  match c with CDelay _ | CSuspend _ | CResume _ | CPriSet _ _ | CLock | CUnlock => True | _ => False end ->
  wp (run_call c) (went W t) k.
Proof.
  intros HS Hok Hc. pose proof (proj1 (sy_tick _ _ _ _ _ _ HS)) as HK.
  assert (Hsame := waits_kept_same k k eq_refl).
  destruct c; try done; cbn [run_call call_ok] in *.
  - destruct Hok as [ct Hmay]. apply (went_returns _ (λ r, r)), (call_sched _ _ _ _ _ _ _ HS); [keeps..|].
    eapply wp_mono; [by eapply task_delay_wp|]. intros r k' (_ & HK' & _ & ET). exists m. split_and!; [done..|].
    eapply waits_kept_insert; [apply Hmay|exact ET|]. destruct (tick =? 0); waits_solve.
  - destruct Hok as (Hu & cx & Hx & Hfr). apply (went_returns _ (λ r, r)), (call_sched _ _ _ _ _ _ _ HS); [keeps..|].
    destruct (ki_run _ _ _ HK) as [(ct & Hct & _) _].
    assert (Hid : taskID ct = t) by (apply (sy_ids _ _ _ _ _ _ HS); unfold ids; by rewrite lookup_fmap, Hct).
    eapply wp_mono; [by eapply task_suspend_wp|]. intros r k' (m' & HK' & Hq & HQ). exists m'. split_and!; [done..|].
    refused HQ.
    destruct HQ as (_ & ET & _). eapply waits_kept_insert; [exact Hx|exact ET|apply susp_waits].
  - destruct Hok as (Hne & Hx & cx & Hcx & He). apply (went_returns _ (λ r, r)), (call_sched _ _ _ _ _ _ _ HS); [keeps..|].
    eapply wp_mono; [by eapply task_resume_wp|]. intros r k' (m' & HK' & Hq & HQ). exists m'. split_and!; [done..|].
    refused HQ.
    destruct HQ as (_ & ET & _). eapply waits_kept_insert; [exact Hcx|exact ET|apply resumed_waits].
  - destruct Hok as (Hu & [cx Hx] & Hp). apply (went_returns _ (λ r, r)), (call_sched _ _ _ _ _ _ _ HS); [keeps..|].
    eapply wp_mono; [by eapply task_priset_wp|]. intros r k' (m' & HK' & Hq & HQ). exists m'. split_and!; [done..|].
    refused HQ.
    destruct HQ as (_ & ET & _). eapply waits_kept_insert; [exact Hx|exact ET|].
    eapply modify_waits, (si_tasks _ _ _ _ _ (ki_sched _ _ _ HK)), Hx.
  - apply (went_returns _ (λ _, LOS_OK)). unfold LOS_TaskLock. wp_steps. exists m, fl, lw. eapply SysInv_sched; try done.
    + by apply KInv_lock.
    + apply u16_range.
  - apply (went_returns _ (λ _, LOS_OK)).
    assert (K1 : keeps objects LOS_TaskUnlock) by keeps. assert (K2 : keeps ids LOS_TaskUnlock) by keeps.
    assert (K3 : keeps g_taskCBArray LOS_TaskUnlock) by keeps.
    pose proof (unlock_wp _ _ _ HK (sy_lock _ _ _ _ _ _ HS)) as Hw.
    eapply wp_mono; [exact (wp_keeps _ _ _ _ K3 (wp_kept objects _ _ k K1 K2 Hw))|].
    intros [] k' (((HK' & El & _) & E1 & E2) & E3). exists m, fl, lw. eapply SysInv_sched; try done.
    + by apply waits_kept_same.
    + pose proof (sy_lock _ _ _ _ _ _ HS). lia.
Qed.

(** *** Calls on semaphores, mutexes and events *)

Lemma SysInv_kept W W' who hd0 k k' m m' t fl lw :
  SysInv W k m t fl lw -> KInv k' m' t -> others_kept who hd0 k m k' m' -> ObjInv k' m' -> events_known W' ->
  hd0 <> SwtmrSortLink -> (∀ q rw, hd0 <> rwList q rw) -> (∀ x, who = Some x -> calls W !! x = None) -> calls W' = calls W ->
  common k' = common k -> ids k' = ids k -> SysInv W' k' m' t fl lw.
Proof.
  intros [S1 S2 S3 S4 S5 S6] HK' Hk HO HE N1 N2 Hwho EW [= E1 E2 E3 E4 E5 E6] Ei.
  split; [|done|done|by rewrite E5|by rewrite E6|by rewrite Ei]. rewrite EW. by eapply (TickInv_kept (calls W) who hd0).
Qed.

(** After a call on semaphore [i], which leaves the mutexes and the events. *)
Lemma SysInv_sem W W' who i k k' m m' t fl lw :
  SysInv W k m t fl lw -> KInv k' m' t -> others_kept who (SemList i) k m k' m' -> SemInv k' m' ->
  (∀ x, who = Some x -> calls W !! x = None) -> calls W' = calls W -> events_known W' ->
  not_sem k' = not_sem k -> ids k' = ids k -> SysInv W' k' m' t fl lw.
Proof.
  intros HS HK' Hk HM' Hwho EW HEW E Ei. assert (Ec : common k' = common k) by (injection E; unfold common, timers; congruence).
  assert (E1 : g_allMux k' = g_allMux k) by (injection E; congruence). assert (E2 : eventIDs k' = eventIDs k) by (injection E; congruence).
  destruct (sy_objs _ _ _ _ _ _ HS) as (_ & HM & HV). pose proof (kept_shrink _ _ _ _ _ _ Hk) as Hls.
  eapply (SysInv_kept W W' who (SemList i)); try done; [|not_queue_list].
  split_and!; [done|by eapply (MuxInv_lists (SemList i))|by eapply (EventInv_lists (SemList i))].
Qed.
Lemma SysInv_mux W W' who i k k' m m' t fl lw :
  SysInv W k m t fl lw -> KInv k' m' t -> others_kept who (MuxList i) k m k' m' -> MuxInv k' m' ->
  (∀ x, who = Some x -> calls W !! x = None) -> calls W' = calls W -> events_known W' ->
  not_mux k' = not_mux k -> ids k' = ids k -> SysInv W' k' m' t fl lw.
Proof.
  intros HS HK' Hk HM' Hwho EW HEW E Ei. assert (Ec : common k' = common k) by (injection E; unfold common, timers; congruence).
  assert (E1 : g_allSem k' = g_allSem k) by (injection E; congruence). assert (E2 : eventIDs k' = eventIDs k) by (injection E; congruence).
  destruct (sy_objs _ _ _ _ _ _ HS) as (HM & _ & HV). pose proof (kept_shrink _ _ _ _ _ _ Hk) as Hls.
  eapply (SysInv_kept W W' who (MuxList i)); try done; [|not_queue_list].
  split_and!; [by eapply (SemInv_lists (MuxList i))|done|by eapply (EventInv_lists (MuxList i))].
Qed.
Lemma SysInv_event W W' who e id' k k' m m' t fl lw :
  SysInv W k m t fl lw -> KInv k' m' t -> others_kept who (EventList e) k m k' m' -> eventIDs k' = <[e := id']> (eventIDs k) ->
  is_Some (m' !! EventList e) -> (∀ x, who = Some x -> calls W !! x = None) -> calls W' = calls W ->
  events_known W' -> not_event k' = not_event k -> ids k' = ids k -> SysInv W' k' m' t fl lw.
Proof.
  intros HS HK' Hk EV Hm Hwho EW HEW E Ei. assert (Ec : common k' = common k) by (injection E; unfold common, timers; congruence).
  assert (E1 : g_allSem k' = g_allSem k) by (injection E; congruence). assert (E2 : g_allMux k' = g_allMux k) by (injection E; congruence).
  destruct (sy_objs _ _ _ _ _ _ HS) as (HM & HX & HV). pose proof (kept_shrink _ _ _ _ _ _ Hk) as Hls.
  eapply (SysInv_kept W W' who (EventList e)); try done; [|not_queue_list].
  split_and!; [by eapply (SemInv_lists (EventList e))|by eapply (MuxInv_lists (EventList e))|].
  intros e' He. rewrite EV. destruct (decide (e' = e)) as [->|Hne]; [by rewrite lookup_insert_eq|]. rewrite lookup_insert_ne by done.
  rewrite (kept_lists _ _ _ _ _ _ Hk); [by apply HV|congruence|done|done].
Qed.

Lemma sem_call_wp W k m t fl lw c :
  SysInv W k m t fl lw -> W !! t = None -> call_ok k t c -> match c with CSemPend _ _ | CSemPost _ => True | _ => False end ->
  wp (run_call c) (went W t) k.
Proof.
  intros HS HW Hok Hc. pose proof (proj1 (sy_tick _ _ _ _ _ _ HS)) as HK. pose proof (proj1 (sy_objs _ _ _ _ _ _ HS)) as HM.
  assert (Hwho : ∀ x, Some t = Some x -> calls W !! x = None) by (intros x [= <-]; by apply calls_none).
  pose proof (sy_events _ _ _ _ _ _ HS) as HEv.
  destruct c; try done; cbn [run_call call_ok] in *.
  - destruct Hok as ([ct Hmay] & Hi & s & Hs & Hu). destruct (sem_list_ok _ _ _ (si_sems _ _ HM _ _ Hs) Hu) as (l & Hl & _).
    eapply wp_mono; [apply (wp_kept not_sem); [keeps..|];
      exact (sem_pend_wp k m t ct i s l timeout HK HM (conj Hi (conj Hs (conj Hu Hl))) Hmay)|].
    intros p k' ((m' & HK' & HM' & Hk & HQ) & E & Ei).
    assert (Hd : SysInv W k' m' t fl lw) by by eapply SysInv_sem.
    destruct (0 <? _); [destruct HQ as [-> _]; by eapply went_done|]. destruct (_ =? _); [destruct HQ as [-> _]; by eapply went_done|].
    destruct HQ as [-> _]. apply (went_blocked W t WSem k' m' fl lw). eapply (SysInv_sem W _ (Some t) i k k' m m'); try done; [by apply calls_other|].
    by apply events_known_insert.
  - destruct Hok as (Hi & s & Hs & Hu). destruct (sem_list_ok _ _ _ (si_sems _ _ HM _ _ Hs) Hu) as (l & Hl & _).
    apply (went_returns _ (λ r, r)). eapply wp_mono; [apply (wp_kept not_sem); [keeps..|];
      exact (sem_post_wp k m t i s l HK HM (conj Hi (conj Hs (conj Hu Hl))))|].
    intros p k' ((m' & HK' & HM' & Hk & _) & E & Ei). exists m', fl, lw. by eapply SysInv_sem.
Qed.

Lemma mux_call_wp W k m t fl lw c :
  SysInv W k m t fl lw -> W !! t = None -> call_ok k t c -> match c with CMuxPend _ _ | CMuxPost _ => True | _ => False end ->
  wp (run_call c) (went W t) k.
Proof.
  intros HS HW Hok Hc. pose proof (proj1 (sy_tick _ _ _ _ _ _ HS)) as HK. destruct (sy_objs _ _ _ _ _ _ HS) as (_ & HM & _).
  assert (Hwho : ∀ x, Some t = Some x -> calls W !! x = None) by (intros x [= <-]; by apply calls_none).
  pose proof (sy_events _ _ _ _ _ _ HS) as HEv.
  destruct c; try done; cbn [run_call call_ok] in *.
  - destruct Hok as ([ct Hmay] & Hi & x & Hx & Hu & Hcnt). destruct (mux_list_ok _ _ _ _ (mi_muxes _ _ HM _ _ Hx) Hu) as (l & Hl & _).
    eapply wp_mono; [apply (wp_kept not_mux); [keeps..|];
      exact (mux_pend_wp k m t ct i x l timeout HK HM (conj Hi (conj Hx (conj Hu Hl))) Hmay Hcnt)|].
    intros p k' ((m' & HK' & HM' & Hk & HQ) & E & Ei).
    assert (Hd : SysInv W k' m' t fl lw) by by eapply SysInv_mux.
    destruct (_ =? _); [destruct HQ as [-> _]; by eapply went_done|]. destruct (bool_decide _); [destruct HQ as [-> _]; by eapply went_done|].
    destruct (_ =? _); [destruct HQ as [-> _]; by eapply went_done|].
    destruct HQ as [-> _]. apply (went_blocked W t WMux k' m' fl lw). eapply (SysInv_mux W _ (Some t) i k k' m m'); try done; [by apply calls_other|].
    by apply events_known_insert.
  - destruct Hok as (Hp & Hint & Hi & x & Hx & Hu). destruct (mux_list_ok _ _ _ _ (mi_muxes _ _ HM _ _ Hx) Hu) as (l & Hl & _).
    destruct (ki_run _ _ _ HK) as [(ct & Hct & _) _].
    apply (went_returns _ (λ r, r)). eapply wp_mono; [apply (wp_kept not_mux); [keeps..|];
      exact (mux_post_wp k m t ct i x l HK HM (conj Hi (conj Hx (conj Hu Hl))) Hct Hp Hint)|].
    intros p k' ((m' & HK' & HM' & Hk & _) & E & Ei). exists m', fl, lw. by eapply SysInv_mux.
Qed.

(** *** Calls that create and delete semaphores and mutexes *)

Lemma QInv_only F P ms k k' m m' :
  QInv P ms k m -> lists_only F m m' -> (∀ q rw, F (rwList q rw) = false) -> g_allQueue k' = g_allQueue k ->
  g_taskCBArray k' = g_taskCBArray k -> QInv P ms k' m'.
Proof.
  intros [Q1 Q2 Q3 Q4] Hm HF E1 E2. split; rewrite ?E1, ?E2; [|done| |done].
  - intros x op Hx. destruct (Q1 x op Hx) as (c & Hc & Hl). exists c. split; [done|]. unfold home. by rewrite Hm.
  - intros q c Hc Hu. pose proof (HF q OS_QUEUE_READ) as F1. pose proof (HF q OS_QUEUE_WRITE) as F2. cbn in F1, F2.
    rewrite !Hm by done. by apply (Q3 q c).
Qed.

Lemma SysInv_only F W k k' m m' t fl lw :
  SysInv W k m t fl lw -> KInv k' m' t -> lists_only F m m' -> F SwtmrSortLink = false -> (∀ q rw, F (rwList q rw) = false) ->
  ObjInv k' m' -> common k' = common k -> g_taskCBArray k' = g_taskCBArray k -> SysInv W k' m' t fl lw.
Proof.
  intros [S1 S2 S3 S4 S5 S6] HK' Hm F1 F2 HO [= E1 E2 E3 E4 E5 E6] ET.
  assert (Ei : ids k' = ids k) by (unfold ids; by rewrite ET).
  split; [|done|done|by rewrite E5|by rewrite E6|by rewrite Ei].
  destruct S1 as (HK & HS & c & msgs & [Q1 Q2 Q3 Q4 Q5 (ms & Q6 & Q7)]). split_and!; [done| |].
  - eapply SwtmrInv_frame; [exact HS|done|done|by apply Hm|by eapply timers_are].
  - exists c, msgs. split; rewrite ?E1, ?E4; try done.
    + pose proof (F2 (g_swtmrHandlerQueue k) OS_QUEUE_READ) as F3. cbn in F3. by rewrite Hm.
    + exists ms. split; [|done]. by eapply (QInv_only F).
Qed.

Lemma SemInv_only F k k' m m' :
  SemInv k m -> lists_only F m m' -> (∀ n, sem_node n = true -> F n = false) -> g_allSem k' = g_allSem k -> SemInv k' m'.
Proof.
  intros HS Hm HF E. eapply SemInv_frame; [done|done|by apply Hm, HF|]. intros i s l _ Hl. exists l. split; [|done].
  by rewrite Hm by by apply HF.
Qed.
Lemma MuxInv_only F k k' m m' :
  MuxInv k m -> lists_only F m m' -> (∀ n, mux_node n = true -> F n = false) -> g_allMux k' = g_allMux k ->
  g_taskCBArray k' = g_taskCBArray k -> MuxInv k' m'.
Proof.
  intros [M1 M2 M3] Hm HF E ET. split; rewrite ?E, ?ET; [|done|by rewrite Hm by by apply HF].
  intros i x Hx. destruct (M1 i x Hx) as [X1 X2 X3 X4 X5 X6]. split; try done.
  - unfold home. by rewrite Hm by by apply HF.
  - by rewrite Hm by by apply HF.
Qed.
Lemma EventInv_only F k k' m m' :
  EventInv k m -> lists_only F m m' -> (∀ e, F (EventList e) = false) -> eventIDs k' = eventIDs k -> EventInv k' m'.
Proof. intros HE Hm HF E e He. rewrite E, Hm by apply HF. by apply HE. Qed.

Lemma SysInv_sem_only W k k' m m' t fl lw :
  SysInv W k m t fl lw -> KInv k' m' t -> SemInv k' m' -> lists_only sem_node m m' ->
  not_sem k' = not_sem k -> g_taskCBArray k' = g_taskCBArray k -> SysInv W k' m' t fl lw.
Proof.
  intros HS HK' HM' Hm E ET. assert (Ec : common k' = common k) by (injection E; unfold common, timers; congruence).
  destruct (sy_objs _ _ _ _ _ _ HS) as (_ & HM & HV). injection E as E1 E2.
  eapply (SysInv_only sem_node); try done; [intros q rw; unfold rwList; by destruct (_ =? _)|].
  split_and!; [done|eapply (MuxInv_only sem_node); try done; by intros []|by eapply (EventInv_only sem_node)].
Qed.
Lemma SysInv_mux_only W k k' m m' t fl lw :
  SysInv W k m t fl lw -> KInv k' m' t -> MuxInv k' m' -> lists_only mux_node m m' ->
  not_mux k' = not_mux k -> g_taskCBArray k' = g_taskCBArray k -> SysInv W k' m' t fl lw.
Proof.
  intros HS HK' HM' Hm E ET. assert (Ec : common k' = common k) by (injection E; unfold common, timers; congruence).
  destruct (sy_objs _ _ _ _ _ _ HS) as (HM & _ & HV). injection E as E1 E2.
  eapply (SysInv_only mux_node); try done; [intros q rw; unfold rwList; by destruct (_ =? _)|].
  split_and!; [eapply (SemInv_only mux_node); try done; by intros []|done|by eapply (EventInv_only mux_node)].
Qed.

Lemma object_call_wp W k m t fl lw c :
  SysInv W k m t fl lw -> call_ok k t c ->
  match c with CSemCreate _ | CSemBinaryCreate _ | CSemDelete _ | CMuxCreate | CMuxDelete _ => True | _ => False end ->
  wp (run_call c) (went W t) k.
Proof.
  intros HS Hok Hc. pose proof (proj1 (sy_tick _ _ _ _ _ _ HS)) as HK. destruct (sy_objs _ _ _ _ _ _ HS) as (HM & HX & _).
  assert (Hsem : ∀ count maxCount, 0 <= count -> 0 < maxCount <= OS_SEM_COUNTING_MAX_COUNT ->
    wp (let* r := OsSemCreate count maxCount true in returns (fst r)) (went W t) k).
  { intros count maxCount Hc1 Hc2. apply (went_returns _ fst). assert (K1 : keeps not_sem (OsSemCreate count maxCount true)) by keeps.
    assert (K2 : keeps g_taskCBArray (OsSemCreate count maxCount true)) by keeps.
    eapply wp_mono; [exact (wp_keeps _ _ _ _ K2 (wp_keeps _ _ _ _ K1 (sem_create_wp k m t count maxCount HK HM Hc1 Hc2)))|].
    intros r k' [[(m' & HK' & HM' & Hm & _) E] ET]. exists m', fl, lw. by eapply SysInv_sem_only. }
  destruct c; try done; cbn [run_call call_ok] in *.
  - by apply Hsem.
  - by apply Hsem.
  - destruct Hok as (Hi & s & Hs & Hu). destruct (sem_list_ok _ _ _ (si_sems _ _ HM _ _ Hs) Hu) as (l & Hl & _).
    apply (went_returns _ (λ r, r)). assert (K1 : keeps not_sem (LOS_SemDelete i)) by keeps.
    assert (K2 : keeps g_taskCBArray (LOS_SemDelete i)) by keeps.
    eapply wp_mono; [exact (wp_keeps _ _ _ _ K2 (wp_keeps _ _ _ _ K1 (sem_delete_wp k m t i s l HK HM (conj Hi (conj Hs (conj Hu Hl))))))|].
    intros r k' [[(m' & HK' & HM' & Hm & _) E] ET]. exists m', fl, lw. by eapply SysInv_sem_only.
  - apply (went_returns _ fst). assert (K1 : keeps not_mux (LOS_MuxCreate true)) by keeps.
    assert (K2 : keeps g_taskCBArray (LOS_MuxCreate true)) by keeps.
    eapply wp_mono; [exact (wp_keeps _ _ _ _ K2 (wp_keeps _ _ _ _ K1 (mux_create_wp k m t HK HX)))|].
    intros r k' [[(m' & HK' & HM' & Hm & _) E] ET]. exists m', fl, lw. by eapply SysInv_mux_only.
  - destruct Hok as (Hi & x & Hx & Hu). destruct (mux_list_ok _ _ _ _ (mi_muxes _ _ HX _ _ Hx) Hu) as (l & Hl & _).
    apply (went_returns _ (λ r, r)). assert (K1 : keeps not_mux (LOS_MuxDelete i)) by keeps.
    assert (K2 : keeps g_taskCBArray (LOS_MuxDelete i)) by keeps.
    eapply wp_mono; [exact (wp_keeps _ _ _ _ K2 (wp_keeps _ _ _ _ K1 (mux_delete_wp k m t i x l HK HX (conj Hi (conj Hx (conj Hu Hl))))))|].
    intros r k' [[(m' & HK' & HM' & Hm & _) E] ET]. exists m', fl, lw. by eapply SysInv_mux_only.
Qed.

Lemma event_call_wp W k m t fl lw c :
  SysInv W k m t fl lw -> W !! t = None -> call_ok k t c ->
  match c with CEventRead _ _ _ _ | CEventWrite _ _ | CEventClear _ _ => True | _ => False end -> wp (run_call c) (went W t) k.
Proof.
  intros HS HW Hok Hc. pose proof (proj1 (sy_tick _ _ _ _ _ _ HS)) as HK. destruct (sy_objs _ _ _ _ _ _ HS) as (_ & _ & HV).
  assert (Hwho : ∀ x, Some t = Some x -> calls W !! x = None) by (intros x [= <-]; by apply calls_none).
  pose proof (sy_events _ _ _ _ _ _ HS) as HEv.
  destruct c; try done; cbn [run_call call_ok] in *.
  - destruct Hok as ([ct Hmay] & He & Hargs). destruct (HV e He) as [[id Hid] [l Hl]].
    destruct (event_poll id eventMask mode) as [ret id'] eqn:Hpoll.
    eapply wp_mono; [apply (wp_kept not_event); [keeps..|];
      exact (event_read_wp k m t ct e id l eventMask mode timeout ret id' HK (conj Hid Hl) Hargs Hmay Hpoll)|].
    intros p k' ((m' & HK' & Hk & EV & HQ) & E & Ei). destruct (_ || _).
    + destruct HQ as (-> & -> & _). eapply went_done, (SysInv_event W W); try done.
    + destruct HQ as (-> & _ & -> & _). eapply (went_blocked W t (WEvent e eventMask mode) k' _ fl lw).
      eapply SysInv_event; try done; [by rewrite lookup_insert_eq|by apply calls_other|]. apply events_known_insert; [done|].
      by intros e0 ? ? [= <- _ _].
  - destruct Hok as (He & Herr). destruct (HV e He) as [[id Hid] [l Hl]].
    apply (went_returns _ (λ r, r)). eapply wp_mono; [apply (wp_kept not_event); [keeps..|];
      exact (event_write_wp k m t e id l events HK (conj Hid Hl) Herr)|].
    intros p k' ((m' & HK' & Hk & _ & EV & Hm & _) & E & Ei). exists m', fl, lw. by eapply SysInv_event; try done; rewrite Hm.
  - destruct (HV e Hok) as [[id Hid] [l Hl]]. apply (went_returns _ (λ r, r)). unfold LOS_EventClear.
    wp_step. eapply wp_uwEventID; [done|]. unfold set_uwEventID. wp_steps. exists m, fl, lw.
    eapply (SysInv_event W W None); try done; [by apply KInv_event|by apply kept_same].
Qed.
End System.
