(* ===== verification/Pm.v ===== *)
(** Power management (src/components/power/los_pm.c): the sleep modes, the
    handlers of the product, the locks that keep the system awake, and the
    suspension of the system.  The build with LOSCFG_KERNEL_PM == 1 and without a
    wide tick timer (LOSCFG_BASE_CORE_TICK_WTIMER == 0).

    The state is the kernel with the control block [g_pmCB] of the module; its
    fields [sysMode] and [lock], which the scheduler reads, are in the kernel.
    Handlers are addresses of the product's functions, whose effect is a
    parameter; names are addresses of constant strings. *)

From S2P Require Import Prelude Errno LosList Kernel Tick SortLink Sched Event Task Swtmr Calls.

(** ** Data *)

Definition LOS_MOD_PM : Z := 0x20.
Definition LOS_ERRNO_PM_INVALID_MODE : Z := LOS_ERRNO_OS_ERROR LOS_MOD_PM 0x01.
Definition LOS_ERRNO_PM_INVALID_PARAM : Z := LOS_ERRNO_OS_ERROR LOS_MOD_PM 0x02.
Definition LOS_ERRNO_PM_NOT_LOCK : Z := LOS_ERRNO_OS_ERROR LOS_MOD_PM 0x03.
Definition LOS_ERRNO_PM_INVALID_NODE : Z := LOS_ERRNO_OS_ERROR LOS_MOD_PM 0x05.
Definition LOS_ERRNO_PM_INVALID_TYPE : Z := LOS_ERRNO_OS_ERROR LOS_MOD_PM 0x06.
Definition LOS_ERRNO_PM_HANDLER_NULL : Z := LOS_ERRNO_OS_ERROR LOS_MOD_PM 0x07.
Definition LOS_ERRNO_PM_DEVICE_NULL : Z := LOS_ERRNO_OS_ERROR LOS_MOD_PM 0x09.
Definition LOS_ERRNO_PM_ALREADY_LOCK : Z := LOS_ERRNO_OS_ERROR LOS_MOD_PM 0x0a.

Definition OS_PM_LOCK_MAX : Z := 0xFFFF.
Definition OS_PM_SYS_EARLY : Z := 1.
Definition OS_PM_SYS_DEVICE_EARLY : Z := 2.
Definition PM_EVENT_LOCK_MASK : Z := 0xF.
Definition PM_EVENT_LOCK_RELEASE : Z := 0x1.

(** [LOS_SysSleepEnum] *)
Definition LOS_SYS_NORMAL_SLEEP : Z := 0.
Definition LOS_SYS_LIGHT_SLEEP : Z := 1.
Definition LOS_SYS_DEEP_SLEEP : Z := 2.
Definition LOS_SYS_SHUTDOWN : Z := 3.
(** [LOS_PmNodeType] *)
Definition LOS_PM_TYPE_DEVICE : Z := 0.
Definition LOS_PM_TYPE_TICK_TIMER : Z := 1.
Definition LOS_PM_TYPE_SYSCTRL : Z := 2.

Definition sizeof_OsPmLockCB : Z := 20.

(** A pointer to a function; NULL is [None]. *)
Abbreviation handler := (option Z).

Record LosPmDevice := mk_LosPmDevice { suspend : handler; resume : handler }.
Record LosPmTickTimer := mk_LosPmTickTimer {
  freq : Z;
  timerStart : handler;
  timerStop : handler;
  timerCycleGet : handler;
  tickLock : handler;
  tickUnlock : handler;
}.
Record LosPmSysctrl := mk_LosPmSysctrl {
  early : handler;
  late : handler;
  suspendCheck : handler;
  normalSuspend : handler;
  normalResume : handler;
  lightSuspend : handler;
  lightResume : handler;
  deepSuspend : handler;
  deepResume : handler;
  shutdownSuspend : handler;
  shutdownResume : handler;
}.

Record OsPmLockCB := mk_OsPmLockCB { lockName : Z; lockCount : Z; lockSwtmrID : Z }.

(** The list [lockList] and the blocks in it. *)
Inductive PmNode : Type := LockHead | LockNode (lock : Z).
#[global] Instance PmNode_eq_dec : EqDecision PmNode.
Proof. solve_decision. Defined.
#[global] Instance PmNode_countable : Countable PmNode.
Proof.
  refine (inj_countable' (λ n, match n with LockHead => None | LockNode a => Some a end)
    (λ o, match o with None => LockHead | Some a => LockNode a end) _). by intros [].
Defined.

Section Pm.
Context `{Platform}.

Record PmSys := mk_PmSys {
  pmKernel : Kernel;                         (* with g_pmCB.sysMode and g_pmCB.lock *)
  pmMode : Z;                                (* g_pmCB.pmMode *)
  isWake : bool;
  device : option Z;
  sysctrl : bool;                            (* g_pmCB.sysctrl is &g_sysctrl *)
  g_sysctrl : LosPmSysctrl;
  tickTimer : option Z;
  enterSleepTime : Z;
  lockNodes : gmap PmNode (LOS_DL_LIST PmNode);
  lockCBs : gmap Z OsPmLockCB;
  PmEnter : handler;                         (* of los_task.c *)
}.
#[local] Definition eta_pm (s : PmSys) : PmSys :=
  mk_PmSys (pmKernel s) (pmMode s) (isWake s) (device s) (sysctrl s) (g_sysctrl s) (tickTimer s) (enterSleepTime s)
    (lockNodes s) (lockCBs s) (PmEnter s).
#[local] Abbreviation upd A := ((A -> A) -> PmSys -> PmSys) (only parsing).
Definition set_pmKernel : upd Kernel := ltac:(setter eta_pm pmKernel).
Definition set_pmMode : upd Z := ltac:(setter eta_pm pmMode).
Definition set_isWake : upd bool := ltac:(setter eta_pm isWake).
Definition set_device : upd (option Z) := ltac:(setter eta_pm device).
Definition set_sysctrl : upd bool := ltac:(setter eta_pm sysctrl).
Definition set_g_sysctrl : upd LosPmSysctrl := ltac:(setter eta_pm g_sysctrl).
Definition set_tickTimer : upd (option Z) := ltac:(setter eta_pm tickTimer).
Definition set_enterSleepTime : upd Z := ltac:(setter eta_pm enterSleepTime).
Definition set_lockNodes : upd (gmap PmNode (LOS_DL_LIST PmNode)) := ltac:(setter eta_pm lockNodes).
Definition set_lockCBs : upd (gmap Z OsPmLockCB) := ltac:(setter eta_pm lockCBs).
Definition set_PmEnter : upd handler := ltac:(setter eta_pm PmEnter).

(** What the product provides: its structures, its functions, the strings, and
    the addresses of functions and of [g_pmEvent]. *)
Class PmProduct := {
  LOSCFG_KERNEL_PM_IDLE : bool;
  device_at : Z -> LosPmDevice;
  tickTimer_at : Z -> LosPmTickTimer;
  sysctrl_at : Z -> LosPmSysctrl;
  call : Z -> Z -> M PmSys Z;                (* function, argument *)
  string_at : Z -> list Z;
  addr_ArchEnterSleep : Z;
  addr_OsPmNormalSleep : Z;
  addr_OsPmSwtmrHandler : Z;
  g_pmEvent : EventRef;
}.
Context `{PmProduct}.

Definition kernel {A} (m : M Kernel A) : M PmSys A := zoom pmKernel set_pmKernel m.
Definition locks {A} (m : M (gmap PmNode (LOS_DL_LIST PmNode)) A) : M PmSys A := zoom lockNodes set_lockNodes m.
Definition set_sysMode (mode : Z) : M PmSys unit := kernel (modify (set_pm_sysMode (λ _, mode))).
Definition sysMode : M PmSys Z := kernel (gets pm_sysMode).
Definition pmLock : M PmSys Z := kernel (gets pm_lock).
(** A call through a pointer that is not tested. *)
Definition call_ptr (h : handler) (arg : Z) : M PmSys Z := let* f := of_option h in call f arg.
Definition call_unit (h : handler) (arg : Z) : M PmSys unit := let* _ := call_ptr h arg in mret tt.
(** [if (h != NULL) { h(arg); }] *)
Definition call_if (h : handler) (arg : Z) : M PmSys unit := match h with None => mret tt | Some _ => call_unit h arg end.
Definition is_null {A} (p : option A) : bool := match p with None => true | Some _ => false end.

(** ** The handlers *)

(** [suspendCheck] is not assigned. *)
Definition OsPmSysctrlInit : M PmSys unit :=
  modify (set_g_sysctrl (λ c, mk_LosPmSysctrl None None (suspendCheck c) (Some addr_ArchEnterSleep) None
    (Some addr_ArchEnterSleep) None (Some addr_ArchEnterSleep) None None None)).

Definition OsPmDeviceRegister (dev : Z) : M PmSys Z :=
  if is_null (suspend (device_at dev)) || is_null (resume (device_at dev)) then mret LOS_ERRNO_PM_INVALID_PARAM
  else
    modify (set_device (λ _, Some dev)) ;;;
    mret LOS_OK.

Definition OsPmTickTimerRegister (timer : Z) : M PmSys Z :=
  let t := tickTimer_at timer in
  if is_null (tickLock t) || is_null (tickUnlock t) then mret LOS_ERRNO_PM_INVALID_PARAM
  else if (is_null (timerStart t) && is_null (timerStop t) && is_null (timerCycleGet t) && (freq t =? 0))
       || (negb (is_null (timerStart t)) && negb (is_null (timerStop t)) && negb (is_null (timerCycleGet t)) && negb (freq t =? 0)) then
    modify (set_enterSleepTime (λ _, 0)) ;;;
    modify (set_tickTimer (λ _, Some timer)) ;;;
    mret LOS_OK
  else mret LOS_ERRNO_PM_INVALID_PARAM.

(** [if (new != NULL) { old = new; }] *)
Definition or_else (new old : handler) : handler := match new with None => old | Some _ => new end.
Definition OsPmSysctrlRegister (ctrl : Z) : M PmSys Z :=
  let* present := gets sysctrl in
  assert present ;;;
  let n := sysctrl_at ctrl in
  modify (set_g_sysctrl (λ c, mk_LosPmSysctrl (or_else (early n) (early c)) (or_else (late n) (late c))
    (or_else (suspendCheck n) (suspendCheck c)) (or_else (normalSuspend n) (normalSuspend c))
    (or_else (normalResume n) (normalResume c)) (or_else (lightSuspend n) (lightSuspend c))
    (or_else (lightResume n) (lightResume c)) (or_else (deepSuspend n) (deepSuspend c))
    (or_else (deepResume n) (deepResume c)) (or_else (shutdownSuspend n) (shutdownSuspend c))
    (or_else (shutdownResume n) (shutdownResume c)))) ;;;
  mret LOS_OK.

Definition LOS_PmRegister (type : Z) (node : option Z) : M PmSys Z :=
  match node with
  | None => mret LOS_ERRNO_PM_INVALID_PARAM
  | Some p =>
      if type =? LOS_PM_TYPE_DEVICE then OsPmDeviceRegister p
      else if type =? LOS_PM_TYPE_TICK_TIMER then OsPmTickTimerRegister p
      else if type =? LOS_PM_TYPE_SYSCTRL then OsPmSysctrlRegister p
      else mret LOS_ERRNO_PM_INVALID_TYPE
  end.

Definition OsPmDeviceUnregister (dev : Z) : M PmSys Z :=
  let* d := gets device in
  if bool_decide (d = Some dev) then
    modify (set_device (λ _, None)) ;;;
    modify (set_pmMode (λ _, LOS_SYS_NORMAL_SLEEP)) ;;;
    mret LOS_OK
  else mret LOS_ERRNO_PM_INVALID_NODE.

Definition OsPmTickTimerUnregister (timer : Z) : M PmSys Z :=
  let* t := gets tickTimer in
  if bool_decide (t = Some timer) then
    modify (set_tickTimer (λ _, None)) ;;;
    let* mode := gets pmMode in
    when (negb (mode =? LOS_SYS_NORMAL_SLEEP) && negb (mode =? LOS_SYS_LIGHT_SLEEP))
      (modify (set_pmMode (λ _, LOS_SYS_NORMAL_SLEEP))) ;;;
    mret LOS_OK
  else mret LOS_ERRNO_PM_INVALID_NODE.

Definition OsPmSysctrlUnregister : M PmSys Z :=
  OsPmSysctrlInit ;;;
  modify (set_pmMode (λ _, LOS_SYS_NORMAL_SLEEP)) ;;;
  mret LOS_OK.

Definition LOS_PmUnregister (type : Z) (node : option Z) : M PmSys Z :=
  match node with
  | None => mret LOS_ERRNO_PM_INVALID_PARAM
  | Some p =>
      if type =? LOS_PM_TYPE_DEVICE then OsPmDeviceUnregister p
      else if type =? LOS_PM_TYPE_TICK_TIMER then OsPmTickTimerUnregister p
      else if type =? LOS_PM_TYPE_SYSCTRL then OsPmSysctrlUnregister
      else mret LOS_ERRNO_PM_INVALID_TYPE
  end.

Definition LOS_PmWakeSet : M PmSys unit := modify (set_isWake (λ _, true)).

Definition LOS_PmModeGet : M PmSys Z := gets pmMode.

Definition LOS_PmModeSet (mode : Z) : M PmSys Z :=
  let sleepMode := i32 mode in
  if (sleepMode <? 0) || (sleepMode >? LOS_SYS_SHUTDOWN) then mret LOS_ERRNO_PM_INVALID_MODE
  else
    let* d := gets device in
    if negb (mode =? LOS_SYS_NORMAL_SLEEP) && is_null d then mret LOS_ERRNO_PM_DEVICE_NULL
    else
      let* present := gets sysctrl in
      assert ((mode =? LOS_SYS_NORMAL_SLEEP) || present) ;;;
      let* c := gets g_sysctrl in
      if (mode =? LOS_SYS_LIGHT_SLEEP) && is_null (lightSuspend c) then mret LOS_ERRNO_PM_HANDLER_NULL
      else if (mode =? LOS_SYS_DEEP_SLEEP) && is_null (deepSuspend c) then mret LOS_ERRNO_PM_HANDLER_NULL
      else if (mode =? LOS_SYS_SHUTDOWN) && is_null (shutdownSuspend c) then mret LOS_ERRNO_PM_HANDLER_NULL
      else
        modify (set_pmMode (λ _, mode)) ;;;
        mret LOS_OK.

(** ** The locks *)

Definition lockCB (lock : Z) : M PmSys OsPmLockCB := let* a := gets lockCBs in of_option (a !! lock).
Definition set_lockCB (lock : Z) (c : OsPmLockCB) : M PmSys unit := modify (set_lockCBs (insert lock c)).

(** The walk of [lockList]: the first lock of the name. *)
Fixpoint find_lock (fuel : nat) (list : PmNode) (name : Z) : M PmSys (option Z) :=
  match fuel with
  | O => fault
  | S fuel =>
      match list with
      | LockHead => mret None
      | LockNode lock =>
          let* c := lockCB lock in
          if bool_decide (string_at name = string_at (lockName c)) then mret (Some lock)
          else
            let* next := locks (get_pstNext list) in
            let* next := of_option next in
            find_lock fuel next name
      end
  end.
Definition lookup_lock (name : Z) : M PmSys (option Z) :=
  let* first := locks (get_pstNext LockHead) in
  let* list := of_option first in
  let* n := gets (λ s, size (lockNodes s)) in
  find_lock (S n) list name.

Definition alloc_lock : M PmSys (option Z) :=
  let* pool := kernel (gets sysMem) in
  let '(p, pool') := LOS_MemAlloc sizeof_OsPmLockCB pool in
  kernel (modify (set_sysMem (λ _, pool'))) ;;;
  mret p.

(** What follows once the block [lock] counts the request. *)
Definition OsPmLockRequest_count (lock : Z) : M PmSys Z :=
  let* c := lockCB lock in
  if negb (lockSwtmrID c =? OS_INVALID) && (lockCount c >? 1) then
    set_lockCB lock (mk_OsPmLockCB (lockName c) (u32 (lockCount c - 1)) (lockSwtmrID c)) ;;;
    mret LOS_ERRNO_PM_ALREADY_LOCK
  else
    let* n := pmLock in
    if n <? OS_PM_LOCK_MAX then
      kernel (modify (set_pm_lock (λ n, u16 (n + 1)))) ;;;
      mret LOS_OK
    else mret LOS_ERRNO_PM_NOT_LOCK.

Definition OsPmLockRequest (name swtmrID : Z) : M PmSys Z :=
  let* found := lookup_lock name in
  match found with
  | None =>
      let* p := alloc_lock in
      match p with
      | None => mret LOS_NOK
      | Some lock =>
          set_lockCB lock (mk_OsPmLockCB name 1 swtmrID) ;;;
          locks (LOS_ListTailInsert LockHead (LockNode lock)) ;;;
          OsPmLockRequest_count lock
      end
  | Some lock =>
      let* c := lockCB lock in
      when (lockCount c <? OS_PM_LOCK_MAX)
        (set_lockCB lock (mk_OsPmLockCB (lockName c) (u32 (lockCount c + 1)) (lockSwtmrID c))) ;;;
      OsPmLockRequest_count lock
  end.

Definition LOS_PmLockRequest (name : option Z) : M PmSys Z :=
  match name with
  | None => mret LOS_ERRNO_PM_INVALID_PARAM
  | Some n => OsPmLockRequest n OS_INVALID
  end.

(** The timer and the memory of a lock that is no longer held. *)
Definition free_lock (lock : Z) : M PmSys unit :=
  let* c := lockCB lock in
  let* _ := kernel (LOS_SwtmrDelete (lockSwtmrID c)) in
  let* pool := kernel (gets sysMem) in
  let '(_, pool') := LOS_MemFree (Some lock) pool in
  kernel (modify (set_sysMem (λ _, pool'))) ;;;
  modify (set_lockCBs (delete lock)).

Definition LOS_PmLockRelease (name : option Z) : M PmSys Z :=
  match name with
  | None => mret LOS_ERRNO_PM_INVALID_PARAM
  | Some name =>
      let* mode := gets pmMode in
      let* found := lookup_lock name in
      match found with
      | None => mret LOS_ERRNO_PM_NOT_LOCK
      | Some lock =>
          let* c := lockCB lock in
          let* lockFree :=
            if lockCount c >? 0 then
              set_lockCB lock (mk_OsPmLockCB (lockName c) (lockCount c - 1) (lockSwtmrID c)) ;;;
              if lockCount c - 1 =? 0 then locks (LOS_ListDelete (LockNode lock)) ;;; mret true
              else mret false
            else mret false in
          let* n := pmLock in
          let* (ret, isRelease) :=
            if n >? 0 then
              kernel (modify (set_pm_lock (λ n, n - 1))) ;;;
              mret (LOS_OK, n - 1 =? 0)
            else mret (LOS_ERRNO_PM_NOT_LOCK, false) in
          when lockFree (free_lock lock) ;;;
          when (isRelease && (mode >? LOS_SYS_NORMAL_SLEEP))
            (let* _ := kernel (LOS_EventWrite (Some g_pmEvent) PM_EVENT_LOCK_RELEASE) in mret tt) ;;;
          mret ret
      end
  end.

(** The message on failure is not modelled. *)
Definition OsPmSwtmrHandler (arg : Z) : M PmSys unit :=
  let* _ := LOS_PmLockRelease (if arg =? 0 then None else Some arg) in mret tt.

Definition OS_MS_PER_TICK : Z := OS_SYS_MS_PER_SECOND / LOSCFG_BASE_CORE_TICK_PER_SECOND.

Definition LOS_PmTimeLockRequest (name : option Z) (millisecond : Z) : M PmSys Z :=
  match name with
  | None => mret LOS_ERRNO_PM_INVALID_PARAM
  | Some n =>
      if millisecond =? 0 then mret LOS_ERRNO_PM_INVALID_PARAM
      else
        assert (negb (OS_MS_PER_TICK =? 0)) ;;;
        let ticks := u32 (u64 (millisecond + OS_MS_PER_TICK - 1) / OS_MS_PER_TICK) in
        let* (ret, id) := kernel (LOS_SwtmrCreate ticks LOS_SWTMR_MODE_ONCE addr_OsPmSwtmrHandler true n) in
        if negb (ret =? LOS_OK) then mret ret
        else
          let* swtmrID := of_option id in
          let* ret := OsPmLockRequest n swtmrID in
          if negb (ret =? LOS_OK) then
            let* _ := kernel (LOS_SwtmrDelete swtmrID) in
            mret ret
          else
            let* ret := kernel (LOS_SwtmrStart swtmrID) in
            if negb (ret =? LOS_OK) then
              let* _ := LOS_PmLockRelease (Some n) in
              mret ret
            else mret ret
  end.

(** The message on failure is not modelled. *)
Definition LOS_PmReadLock : M Kernel (Proc Z) :=
  let* p := LOS_EventRead (Some g_pmEvent) PM_EVENT_LOCK_MASK (Z.lor LOS_WAITMODE_OR LOS_WAITMODE_CLR) LOS_WAIT_FOREVER in
  mret (pmap (λ _, LOS_OK) p).

(** ** Suspension *)

Definition OsPmTickTimerStart : M PmSys unit :=
  let* tt0 := gets tickTimer in
  match tt0 with
  | None => mret tt
  | Some p =>
      let t := tickTimer_at p in
      if is_null (tickUnlock t) then mret tt
      else if negb (is_null (timerStop t)) then
        let* enter := gets enterSleepTime in
        when (negb (enter =? 0))
          (let* sleepTime := call_ptr (timerCycleGet t) 0 in
           call_unit (timerStop t) 0 ;;;
           assert (negb (freq t =? 0)) ;;;
           let realSleepTime := OS_SYS_CYCLE_TO_NS sleepTime (freq t) in
           let* clock := kernel (gets g_sysClock) in
           let realSleepTime := OS_SYS_NS_TO_CYCLE realSleepTime clock in
           let* enter := gets enterSleepTime in
           let currTime := u64 (enter + realSleepTime) in
           modify (set_enterSleepTime (λ _, 0)) ;;;
           kernel (OsTickTimerBaseReset currTime) ;;;
           kernel (OsSchedResetSchedResponseTime 0) ;;;
           call_unit (tickUnlock t) 0)
      else call_unit (tickUnlock t) 0
  end.

Definition OsPmTickTimerStop : M PmSys bool :=
  let* currTime := kernel OsGetCurrSchedTimeCycle in
  let* expireTime := kernel (OsSchedGetNextExpireTime currTime) in
  let* tt0 := gets tickTimer in
  let* mode := sysMode in
  match tt0 with
  | None => mret false
  | Some p =>
      let t := tickTimer_at p in
      if is_null (tickLock t) || (mode =? LOS_SYS_NORMAL_SLEEP) then mret false
      else if negb (is_null (timerStart t)) then
        assert (expireTime >? currTime) ;;;
        let realSleepTime := u64 (expireTime - currTime) in
        let* clock := kernel (gets g_sysClock) in
        assert (negb (clock =? 0)) ;;;
        let sleepCycle := OS_SYS_CYCLE_TO_NS realSleepTime clock in
        let sleepCycle := OS_SYS_NS_TO_CYCLE sleepCycle (freq t) in
        if sleepCycle =? 0 then
          set_sysMode LOS_SYS_NORMAL_SLEEP ;;;
          mret false
        else
          let* now := kernel LOS_SysCycleGet in
          modify (set_enterSleepTime (λ _, now)) ;;;
          call_unit (tickLock t) 0 ;;;
          call_unit (timerStart t) sleepCycle ;;;
          mret true
      else
        call_unit (tickLock t) 0 ;;;
        mret true
  end.

(** [pm->sysctrl] *)
Definition the_sysctrl : M PmSys LosPmSysctrl :=
  let* present := gets sysctrl in
  if (present : bool) then gets g_sysctrl else fault.

Definition OsPmCpuResume : M PmSys unit :=
  let* mode := sysMode in
  let* c := the_sysctrl in
  if (mode =? LOS_SYS_NORMAL_SLEEP) && negb (is_null (normalResume c)) then call_unit (normalResume c) 0
  else if (mode =? LOS_SYS_LIGHT_SLEEP) && negb (is_null (lightResume c)) then call_unit (lightResume c) 0
  else if (mode =? LOS_SYS_DEEP_SLEEP) && negb (is_null (deepResume c)) then call_unit (deepResume c) 0
  else mret tt.

Definition OsPmCpuSuspend : M PmSys unit :=
  let* mode := sysMode in
  let* c := the_sysctrl in
  if mode =? LOS_SYS_NORMAL_SLEEP then call_unit (normalSuspend c) 0
  else if mode =? LOS_SYS_LIGHT_SLEEP then call_unit (lightSuspend c) 0
  else if mode =? LOS_SYS_DEEP_SLEEP then call_unit (deepSuspend c) 0
  else call_unit (shutdownSuspend c) 0.

(** [pm->device], which is not tested. *)
Definition the_device : M PmSys LosPmDevice :=
  let* d := gets device in
  let* p := of_option d in
  mret (device_at p).

Definition OsPmResumePrepare (mode prepare : Z) : M PmSys unit :=
  (if prepare =? 0 then let* d := the_device in call_if (resume d) mode else mret tt) ;;;
  if (prepare =? 0) || (prepare =? OS_PM_SYS_DEVICE_EARLY) then let* c := the_sysctrl in call_if (late c) mode else mret tt.

(** Returns the error code and [*prepare]. *)
Definition OsPmSuspendPrepare (sysSuspendEarly deviceSuspend : handler) (mode : Z) : M PmSys (Z * Z) :=
  let* ret := match sysSuspendEarly with None => mret LOS_OK | Some _ => call_ptr sysSuspendEarly mode end in
  if negb (ret =? LOS_OK) then mret (ret, OS_PM_SYS_EARLY)
  else
    let* ret := match deviceSuspend with None => mret LOS_OK | Some _ => call_ptr deviceSuspend mode end in
    if negb (ret =? LOS_OK) then mret (ret, OS_PM_SYS_DEVICE_EARLY)
    else mret (LOS_OK, 0).

(** Returns nothing when the system is locked. *)
Definition OsPmSuspendCheck : M PmSys (option (handler * handler * Z)) :=
  let* mode := gets pmMode in
  set_sysMode mode ;;;
  let* n := pmLock in
  if n >? 0 then
    set_sysMode LOS_SYS_NORMAL_SLEEP ;;;
    mret None
  else
    let* c := the_sysctrl in
    modify (set_isWake (λ _, false)) ;;;
    let* d := the_device in
    mret (Some (early c, suspend d, mode)).

(** The part between the check and the exit, with tasks locked. *)
Definition OsPmSuspendSleep_cpu (mode : Z) : M PmSys unit :=
  let* c := the_sysctrl in
  (match suspendCheck c with
   | None => mret tt
   | Some _ =>
       call_unit (suspendCheck c) mode ;;;
       let* mode' := gets pmMode in
       set_sysMode mode'
   end) ;;;
  let* tickTimerStop := OsPmTickTimerStop in
  when (negb tickTimerStop)
    (kernel (OsSchedResetSchedResponseTime 0) ;;;
     kernel OsSchedUpdateExpireTime) ;;;
  OsPmCpuSuspend ;;;
  OsPmCpuResume ;;;
  OsPmTickTimerStart.

(** The label EXIT. *)
Definition OsPmSuspendSleep_exit (mode prepare : Z) : M PmSys unit :=
  set_sysMode LOS_SYS_NORMAL_SLEEP ;;;
  OsPmResumePrepare mode prepare ;;;
  kernel LOS_TaskUnlock.

Definition OsPmSuspendSleep : M PmSys Z :=
  let* check := OsPmSuspendCheck in
  match check with
  | None => mret LOS_NOK
  | Some (sysSuspendEarly, deviceSuspend, mode) =>
      let* (ret, prepare) := OsPmSuspendPrepare sysSuspendEarly deviceSuspend mode in
      kernel LOS_TaskLock ;;;
      (if negb (ret =? LOS_OK) then mret tt
       else
         let* wake := gets isWake in
         let* n := pmLock in
         if wake || (n >? 0) then mret tt else OsPmSuspendSleep_cpu mode) ;;;
      OsPmSuspendSleep_exit mode prepare ;;;
      mret ret
  end.

Definition LOS_PmSuspend (wakeCount : Z) : M PmSys Z := OsPmSuspendSleep.

Definition OsPmNormalSleep : M PmSys unit :=
  if LOSCFG_KERNEL_PM_IDLE then let* _ := LOS_PmSuspend 0 in mret tt
  else
    OsPmCpuSuspend ;;;
    OsPmCpuResume.

(** Of src/kernel/src/los_task.c. *)
Definition OsPmEnterHandlerSet (func : handler) : M PmSys Z :=
  match func with
  | None => mret LOS_NOK
  | Some _ =>
      modify (set_PmEnter (λ _, func)) ;;;
      mret LOS_OK
  end.

Definition OsPmInit : M PmSys Z :=
  kernel (modify (set_pm_sysMode (λ _, 0)) ;;; modify (set_pm_lock (λ _, 0))) ;;;
  modify (set_isWake (λ _, false)) ;;;
  modify (set_device (λ _, None)) ;;;
  modify (set_sysctrl (λ _, false)) ;;;
  modify (set_tickTimer (λ _, None)) ;;;
  modify (set_enterSleepTime (λ _, 0)) ;;;
  locks (ListClear LockHead) ;;;
  modify (set_pmMode (λ _, LOS_SYS_NORMAL_SLEEP)) ;;;
  locks (LOS_ListInit LockHead) ;;;
  let* _ := kernel (LOS_EventInit (Some g_pmEvent)) in
  let* ret := OsPmEnterHandlerSet (Some addr_OsPmNormalSleep) in
  if negb (ret =? LOS_OK) then mret ret
  else
    OsPmSysctrlInit ;;;
    modify (set_sysctrl (λ _, true)) ;;;
    mret ret.

End Pm.
