(* ===== verification/PmInv.v ===== *)
(** Power management: the locks refine a map from names to counts, a system that
    is locked does not sleep, and the selected mode can always be entered. *)

From S2P Require Import Prelude Errno LosList Kernel Tick SortLink Sched SchedInv SchedTime SchedSwitch KernelInv Waits Event Task Swtmr Calls Pm.

#[local] Opaque LOS_ListTailInsert LOS_ListDelete LOS_ListInit.

(** ** The locks as a map *)

(** For each name, how often it is held, and the timer that releases it. *)
Abbreviation lock_map := (gmap (list Z) (Z * Z)).
Definition total (A : lock_map) : Z := map_fold (λ _ v n, v.1 + n) 0 A.

Lemma total_insert A n v : A !! n = None -> total (<[n := v]> A) = v.1 + total A.
Proof. intros E. unfold total. rewrite map_fold_insert_L; [done| |done]. intros. lia. Qed.
Lemma total_delete A n v : A !! n = Some v -> total A = v.1 + total (delete n A).
Proof. intros E. rewrite <- (total_insert (delete n A) n v) by apply lookup_delete_eq. by rewrite insert_delete_id. Qed.
Lemma total_update A n v w : A !! n = Some v -> total (<[n := w]> A) = total A - v.1 + w.1.
Proof.
  intros E. rewrite (total_delete A n v E), <- insert_delete_eq, total_insert by apply lookup_delete_eq. lia.
Qed.
Lemma total_nonneg A : map_Forall (λ _ v, 1 <= v.1) A -> 0 <= total A.
Proof.
  induction A as [|n v A E IH] using map_ind; [done|]. intros [Hv HA]%map_Forall_insert; [|done]. rewrite total_insert by done.
  specialize (IH HA). lia.
Qed.
Lemma total_le A n v : map_Forall (λ _ v, 1 <= v.1) A -> A !! n = Some v -> v.1 <= total A.
Proof.
  intros HA E. rewrite (total_delete A n v E). assert (0 <= total (delete n A)); [|lia].
  apply total_nonneg. by apply map_Forall_delete.
Qed.

Lemma remove_node a L : LockNode <$> list_remove_all a L = list_remove_all (LockNode a) (LockNode <$> L).
Proof.
  unfold list_remove_all. induction L as [|b L IH]; [done|]. rewrite fmap_cons, !filter_cons.
  repeat case_decide; rewrite ?fmap_cons, ?IH; try done; exfalso; naive_solver congruence.
Qed.

Section PmInv.
Context `{TimerLaws} `{!PmProduct}.

(** [LockHead] heads the blocks [L], which hold [A]. *)
Record PmInv (s : PmSys) (L : list Z) (A : lock_map) : Prop := {
  pi_list : Rep (lockNodes s) {[LockHead := LockNode <$> L]};
  pi_block : ∀ a, a ∈ L -> is_Some (lockCBs s !! a);
  pi_held : ∀ n v, A !! n = Some v <-> ∃ a c, a ∈ L /\ lockCBs s !! a = Some c /\ string_at (lockName c) = n /\ v = (lockCount c, lockSwtmrID c);
  pi_inj : ∀ a b ca cb, a ∈ L -> b ∈ L -> lockCBs s !! a = Some ca -> lockCBs s !! b = Some cb ->
    string_at (lockName ca) = string_at (lockName cb) -> a = b;
  pi_count : map_Forall (λ _ v, 1 <= v.1 /\ (v.2 <> OS_INVALID -> v.1 = 1)) A;
  pi_total : pm_lock (pmKernel s) = total A;
  pi_max : total A <= OS_PM_LOCK_MAX;
}.

Lemma pi_counts s L A : PmInv s L A -> map_Forall (λ _ v, 1 <= v.1) A.
Proof. intros HI. eapply map_Forall_impl; [apply HI|]. by intros n v []. Qed.

(** *** The walk *)

Lemma find_lock_wp s L name : Rep (lockNodes s) {[LockHead := LockNode <$> L]} -> (∀ a, a ∈ L -> is_Some (lockCBs s !! a)) ->
  ∀ l2 l1 fuel, L = l1 ++ l2 -> (length l2 < fuel)%nat ->
  wp (find_lock fuel (List.hd LockHead (LockNode <$> l2)) name) (λ r s', s' = s /\
    match r with
    | Some a => a ∈ l2 /\ ∃ c, lockCBs s !! a = Some c /\ string_at name = string_at (lockName c)
    | None => ∀ a c, a ∈ l2 -> lockCBs s !! a = Some c -> string_at name <> string_at (lockName c)
    end) s.
Proof.
  intros HR HB. induction l2 as [|a l2 IH]; intros l1 [|fuel] -> Hf; cbn in Hf; try lia; cbn [fmap list_fmap List.hd find_lock].
  - apply wp_ret. split; [done|]. intros a c Ha. set_solver.
  - destruct (HB a) as [c Hc]; [set_solver|]. unfold lockCB. wp_steps. eapply wp_of_option; [done|].
    case_bool_decide as Dn; [apply wp_ret; split; [done|]; split; [set_solver|by exists c]|].
    wp_step. unfold locks. wp_step. unfold get_pstNext. wp_step.
    assert (Hm : ({[LockHead := LockNode <$> (l1 ++ a :: l2)]} : gmap PmNode (list PmNode)) !! LockHead =
      Some ((LockNode <$> l1) ++ LockNode a :: (LockNode <$> l2))) by (rewrite lookup_singleton_eq; by rewrite fmap_app).
    wp_step. eapply wp_of_option; [by eapply Rep_next|].
    assert (E : set_lockNodes (λ _, lockNodes s) s = s) by by destruct s. rewrite E.
    eapply wp_mono; [apply (IH (l1 ++ [a]) fuel); [by rewrite <- app_assoc|lia]|].
    intros [b|] s' [-> Hr]; (split; [done|]).
    + destruct Hr as [Hb Hr]. split; [set_solver|done].
    + intros b cb [->|Hb]%elem_of_cons Hcb; [congruence|by eapply Hr].
Qed.

Lemma lookup_lock_wp s L A name :
  PmInv s L A ->
  wp (lookup_lock name) (λ r s', s' = s /\
    match r with
    | Some a => a ∈ L /\ ∃ c, lockCBs s !! a = Some c /\ string_at name = string_at (lockName c) /\
        A !! string_at name = Some (lockCount c, lockSwtmrID c)
    | None => A !! string_at name = None
    end) s.
Proof.
  intros [I1 I2 I3 I4 I5 I6 I7]. unfold lookup_lock, locks, get_pstNext. wp_steps.
  assert (Hm : ({[LockHead := LockNode <$> L]} : gmap PmNode (list PmNode)) !! LockHead = Some (LockNode <$> L)) by apply lookup_singleton_eq.
  eapply wp_of_option; [by eapply Rep_first|]. wp_steps. assert (E : set_lockNodes (λ _, lockNodes s) s = s) by by destruct s. rewrite E.
  pose proof (Rep_ring_size _ _ _ _ I1 Hm) as Hsz. rewrite length_fmap in Hsz.
  eapply wp_mono; [apply (find_lock_wp s L name I1 I2 L []); [done|lia]|]. intros [a|] s' [-> Hr]; (split; [done|]).
  - destruct Hr as (Ha & c & Hc & Hn). split; [done|]. exists c. split_and!; [done..|]. apply I3. by exists a, c.
  - destruct (A !! string_at name) as [v|] eqn:Ev; [|done]. apply I3 in Ev as (a & c & Ha & Hc & Hn & _). by destruct (Hr a c Ha Hc).
Qed.

(** *** Changes of one block *)

Lemma PmInv_set s s' L A a c c' (A' := <[string_at (lockName c) := (lockCount c', lockSwtmrID c')]> A) :
  PmInv s L A -> a ∈ L -> lockCBs s !! a = Some c -> lockName c' = lockName c ->
  lockNodes s' = lockNodes s -> lockCBs s' = <[a := c']> (lockCBs s) ->
  1 <= lockCount c' /\ (lockSwtmrID c' <> OS_INVALID -> lockCount c' = 1) ->
  pm_lock (pmKernel s') = total A' -> total A' <= OS_PM_LOCK_MAX -> PmInv s' L A'.
Proof.
  intros [I1 I2 I3 I4 I5 I6 I7] Ha Hc En EN EC Hcnt Et Hmax. split; rewrite ?EN; try done.
  - intros b Hb. rewrite EC, lookup_insert. case_decide; [done|by apply I2].
  - intros n v. rewrite EC. subst A'. destruct (decide (n = string_at (lockName c))) as [->|Hn].
    + rewrite lookup_insert_eq. split.
      * intros [= <-]. exists a, c'. rewrite lookup_insert_eq. by split_and!; [..|rewrite En|].
      * intros (b & cb & Hb & Hcb & Hs & ->). destruct (decide (b = a)) as [->|Hne].
        { rewrite lookup_insert_eq in Hcb. by simplify_eq. }
        rewrite lookup_insert_ne in Hcb by done. destruct Hne. by eapply I4.
    + rewrite lookup_insert_ne by done. rewrite I3. split; intros (b & cb & Hb & Hcb & Hs & ->); exists b, cb.
      * rewrite lookup_insert_ne; [done|]. intros ->. simplify_eq.
      * destruct (decide (b = a)) as [->|Hne]; [|by rewrite lookup_insert_ne in Hcb].
        rewrite lookup_insert_eq in Hcb. simplify_eq. by rewrite En in Hn.
  - intros b d cb cd Hb Hd. rewrite EC, !lookup_insert. intros Hcb Hcd Hs.
    assert (Hname : ∀ x cx, x ∈ L -> (if decide (a = x) then Some c' else lockCBs s !! x) = Some cx ->
      ∃ cx0, lockCBs s !! x = Some cx0 /\ lockName cx = lockName cx0).
    { intros x cx Hx Hcx. destruct (decide (a = x)) as [->|]; [exists c; split; [done|congruence]|by exists cx]. }
    destruct (Hname b cb Hb Hcb) as (cb0 & Hcb0 & E1). destruct (Hname d cd Hd Hcd) as (cd0 & Hcd0 & E2).
    eapply I4; [exact Hb|exact Hd|exact Hcb0|exact Hcd0|by rewrite <- E1, <- E2].
  - by apply map_Forall_insert_2.
Qed.

Lemma PmInv_add s s' L A a name id (A' := <[string_at name := (1, id)]> A) :
  PmInv s L A -> A !! string_at name = None -> a ∉ L ->
  Rep (lockNodes s') {[LockHead := (LockNode <$> L) ++ [LockNode a]]} -> lockCBs s' = <[a := mk_OsPmLockCB name 1 id]> (lockCBs s) ->
  pm_lock (pmKernel s') = total A' -> total A' <= OS_PM_LOCK_MAX -> PmInv s' (L ++ [a]) A'.
Proof.
  intros [I1 I2 I3 I4 I5 I6 I7] HA Ha HR EC Et Hmax. split; try done.
  - by rewrite fmap_app.
  - intros b Hb. rewrite EC, lookup_insert. case_decide; [done|]. apply I2. set_solver.
  - intros n v. rewrite EC. subst A'. destruct (decide (n = string_at name)) as [->|Hn].
    + rewrite lookup_insert_eq. split.
      * intros [= <-]. eexists a, _. rewrite lookup_insert_eq. split_and!; [set_solver|done..].
      * intros (b & cb & Hb & Hcb & Hs & ->). destruct (decide (b = a)) as [->|Hne].
        { rewrite lookup_insert_eq in Hcb. by simplify_eq. }
        rewrite lookup_insert_ne in Hcb by done. assert (A !! string_at name = Some (lockCount cb, lockSwtmrID cb)); [|congruence].
        apply I3. exists b, cb. split_and!; try done. set_solver.
    + rewrite lookup_insert_ne by done. rewrite I3. split; intros (b & cb & Hb & Hcb & Hs & ->); exists b, cb.
      * rewrite lookup_insert_ne by (by intros ->). split_and!; try done. set_solver.
      * destruct (decide (b = a)) as [->|Hne]; [|rewrite lookup_insert_ne in Hcb by done; split_and!; try done; set_solver].
        rewrite lookup_insert_eq in Hcb. simplify_eq.
  - intros b d cb cd Hb Hd. rewrite EC, !lookup_insert. intros Hcb Hcd Hs.
    assert (Hold : ∀ x cx, x ∈ L -> lockCBs s !! x = Some cx -> string_at (lockName cx) <> string_at name).
    { intros x cx Hx Hcx E. assert (A !! string_at name = Some (lockCount cx, lockSwtmrID cx)) by (apply I3; eauto 10). congruence. }
    destruct (decide (a = b)) as [Eb|], (decide (a = d)) as [Ed|]; [congruence|..].
    + injection Hcb as <-. destruct (Hold d cd); [set_solver|done|done].
    + injection Hcd as <-. destruct (Hold b cb); [set_solver|done|done].
    + eapply I4; [| |exact Hcb|exact Hcd|exact Hs]; set_solver.
  - by apply map_Forall_insert_2.
Qed.

Lemma PmInv_remove s s' L A a c (A' := delete (string_at (lockName c)) A) :
  PmInv s L A -> a ∈ L -> lockCBs s !! a = Some c ->
  Rep (lockNodes s') {[LockHead := LockNode <$> list_remove_all a L]} -> (∀ b, b <> a -> lockCBs s' !! b = lockCBs s !! b) ->
  pm_lock (pmKernel s') = total A' -> total A' <= OS_PM_LOCK_MAX -> PmInv s' (list_remove_all a L) A'.
Proof.
  intros [I1 I2 I3 I4 I5 I6 I7] Ha Hc HR EC Et Hmax.
  assert (HL : ∀ b, b ∈ list_remove_all a L <-> b ∈ L /\ b <> a) by (intros b; apply elem_of_list_remove_all).
  split; try done.
  - intros b [Hb Hne]%HL. rewrite EC by done. by apply I2.
  - intros n v. subst A'. destruct (decide (n = string_at (lockName c))) as [->|Hn].
    + rewrite lookup_delete_eq. split; [done|]. intros (b & cb & [Hb Hne]%HL & Hcb & Hs & _). rewrite EC in Hcb by done.
      destruct Hne. by eapply I4.
    + rewrite lookup_delete_ne by done. rewrite I3. split; intros (b & cb & Hb & Hcb & Hs & ->); exists b, cb.
      * assert (b <> a) by (intros ->; simplify_eq). by rewrite HL, EC.
      * apply HL in Hb as [Hb Hne]. by rewrite EC in Hcb.
  - intros b d cb cd [Hb Hb']%HL [Hd Hd']%HL. rewrite !EC by done. by apply I4.
  - by apply map_Forall_delete.
Qed.

(** *** Requests *)

(** What a request of a name does; [mem] says whether there is memory for a lock. *)
Definition request_spec (A : lock_map) (n : list Z) (id : Z) (mem : bool) : Z * lock_map :=
  match A !! n with
  | Some (c, t) => if t =? OS_INVALID then (LOS_OK, <[n := (c + 1, t)]> A) else (LOS_ERRNO_PM_ALREADY_LOCK, A)
  | None => if mem then (LOS_OK, <[n := (1, id)]> A) else (LOS_NOK, A)
  end.

(** Only the lock and the memory pool of the kernel, and the locks, change. *)
Definition lock_rest (pool : MemPool) (s : PmSys) :=
  (set_pm_lock (λ _, 0) (set_sysMem (λ _, pool) (pmKernel s)),
   (pmMode s, isWake s, device s, sysctrl s, g_sysctrl s, tickTimer s, enterSleepTime s, PmEnter s)).
Definition lock_frame (s s' : PmSys) : Prop := lock_rest (sysMem (pmKernel s)) s' = lock_rest (sysMem (pmKernel s)) s.

Lemma wp_lockCB s a c (Q : OsPmLockCB -> PmSys -> Prop) : lockCBs s !! a = Some c -> Q c s -> wp (lockCB a) Q s.
Proof. intros Hc HQ. unfold lockCB. wp_steps. by eapply wp_of_option. Qed.

Lemma request_wp s L A name id p pool :
  PmInv s L A -> total A < OS_PM_LOCK_MAX -> LOS_MemAlloc sizeof_OsPmLockCB (sysMem (pmKernel s)) = (p, pool) ->
  (∀ a, p = Some a -> a ∉ L) ->
  wp (OsPmLockRequest name id) (λ ret s', (∃ L', PmInv s' L' (request_spec A (string_at name) id (bool_decide (is_Some p))).2) /\
    ret = (request_spec A (string_at name) id (bool_decide (is_Some p))).1 /\ lock_frame s s') s.
Proof.
  intros HI Hmax Hp Hfresh. pose proof HI as [I1 I2 I3 I4 I5 I6 I7]. pose proof (pi_counts _ _ _ HI) as Hcs.
  pose proof (total_nonneg A Hcs) as Hnn. unfold OsPmLockRequest. wp_step. eapply wp_mono; [by eapply lookup_lock_wp|].
  unfold request_spec. intros [a|] s' [-> Hr].
  - destruct Hr as (Ha & c & Hc & Hn & HA). rewrite HA. destruct (I5 _ _ HA) as [Hc1 Hc2]. cbn [fst snd] in *.
    pose proof (total_le A _ _ Hcs HA) as Hle. cbn [fst] in Hle. unfold OS_PM_LOCK_MAX in *.
    wp_step. eapply wp_lockCB; [done|]. rewrite (proj2 (Z.ltb_lt _ _)) by lia. cbn [when]. unfold set_lockCB. wp_steps.
    unfold OsPmLockRequest_count. wp_step. eapply wp_lockCB; [apply lookup_insert_eq|]. cbn [lockSwtmrID lockCount lockName].
    rewrite (u32_id (lockCount c + 1)) by lia.
    destruct (Z.eqb_spec (lockSwtmrID c) OS_INVALID) as [Et|Et]; cbn [negb andb].
    + unfold pmLock, kernel. wp_steps. cbn [pmKernel set_lockCBs set_pmKernel]. rewrite I6.
      rewrite (proj2 (Z.ltb_lt _ _)) by (unfold OS_PM_LOCK_MAX; lia). wp_steps.
      split; [|split; [done|done]]. exists L. rewrite Hn.
      pose proof (total_update A _ _ (lockCount c + 1, lockSwtmrID c) HA) as Htu. rewrite Hn in Htu. cbn [fst] in Htu.
      eapply (PmInv_set s _ L A a c (mk_OsPmLockCB (lockName c) (lockCount c + 1) (lockSwtmrID c))); try done; cbn.
      * split; [lia|]. intros. congruence.
      * rewrite Htu, I6, u16_id; lia.
      * rewrite Htu. unfold OS_PM_LOCK_MAX. lia.
    + specialize (Hc2 Et). rewrite Hc2. cbn [Z.gtb Z.compare Z.add Pos.add Pos.compare Pos.compare_cont andb].
      wp_steps. split; [|split; [done|done]]. exists L.
      lazymatch goal with |- PmInv ?s' _ _ => assert (E : s' = s) end; [|by rewrite E].
      destruct s as [k ? ? ? ? ? ? ? h C ?]. unfold set_lockCBs. cbn in *. rewrite insert_insert_eq. f_equal.
      apply insert_id. rewrite Hc. f_equal. destruct c. cbn in *. by subst.
  - rewrite Hr. wp_step. unfold alloc_lock, kernel. wp_steps.
    injection Hp as -> ->. destruct p as [a|].
    + rewrite bool_decide_true by done. assert (Ha : a ∉ L) by auto. unfold set_lockCB. wp_steps. unfold locks. wp_step.
      assert (Hno : ~ owned ({[LockHead := LockNode <$> L]} : gmap PmNode (list PmNode)) (LockNode a)).
      { intros (hd & l & [<- <-]%lookup_singleton_Some & Hin). apply elem_of_cons in Hin as [?|Hin]; [done|].
        apply list_elem_of_fmap in Hin as (b & [= ->] & Hb). done. }
      eapply wp_mono; [eapply (Rep_tail_insert _ _ LockHead _ (LockNode a)); [exact I1|apply lookup_singleton_eq|exact Hno]|].
      intros [] h' HR'. rewrite insert_singleton_eq in HR'. unfold OsPmLockRequest_count. wp_step.
      eapply wp_lockCB; [apply lookup_insert_eq|]. cbn [lockSwtmrID lockCount lockName]. rewrite andb_false_r.
      unfold pmLock, kernel. wp_steps. cbn [pmKernel set_lockCBs set_lockNodes set_pmKernel pm_lock set_sysMem]. rewrite I6.
      rewrite (proj2 (Z.ltb_lt _ _)) by lia. wp_steps. split; [|split; [done|done]]. exists (L ++ [a]).
      pose proof (total_insert A (string_at name) (1, id) Hr) as Hti. cbn [fst] in Hti. unfold OS_PM_LOCK_MAX in *.
      eapply PmInv_add; try done; cbn; [rewrite Hti, I6, u16_id; lia|rewrite Hti; unfold OS_PM_LOCK_MAX; lia].
    + rewrite bool_decide_false by (by intros []). wp_steps. split; [|split; [done|done]]. exists L. by destruct HI.
Qed.

(** *** Releases *)

(** The kernel, its timers and the event block of the module are well formed. *)
Definition awake (k : Kernel) (t : Z) : Prop :=
  ∃ m fl lw l id, KInv k m t /\ SwtmrInv k m fl lw /\ event_waiting k m g_pmEvent id l.

Lemma KInv_pm_lock k m t f : KInv k m t -> KInv (set_pm_lock f k) m t.
Proof. by intros []. Qed.
Lemma awake_pm_lock k t f : awake k t -> awake (set_pm_lock f k) t.
Proof. intros (m & fl & lw & l & id & HK & [] & HE). exists m, fl, lw, l, id. by split_and!; [apply KInv_pm_lock|split|]. Qed.
Lemma awake_sysMem k t f : awake k t -> awake (set_sysMem f k) t.
Proof. intros (m & fl & lw & l & id & HK & [] & HE). exists m, fl, lw, l, id. by split_and!; [apply KInv_sysMem|split|]. Qed.

Definition timer_id (id : Z) : Prop := id = OS_INVALID \/ 0 <= id < OS_SWTMR_MAX_TIMERID.

Definition lock_timers (k : Kernel) := (pm_lock k, timers k).
Lemma keeps_event_write fuel e n events flag : keeps lock_timers (LOS_EventWrite_loop fuel e n events flag).
Proof.
  revert n flag. induction fuel as [|fuel IH]; intros n flag; cbn [LOS_EventWrite_loop]; [apply keeps_fault|]. keeps.
Qed.

(** The timers after timer [id] is deleted; nothing changes when the identifier is
    not in use. *)
Definition timer_deleted (id : Z) (C C' : gmap Z SWTMR_CTRL_S) : Prop :=
  match C !! swtmr_index id with
  | Some w =>
      if (id <? OS_SWTMR_MAX_TIMERID) && (usTimerID w =? id) && negb (ucState w =? OS_SWTMR_STATUS_UNUSED) then
        ∃ w', C' = <[swtmr_index id := w']> C /\ usTimerID w' = next_id id /\ ucState w' = OS_SWTMR_STATUS_UNUSED
      else C' = C
  | None => C' = C
  end.

Section limit.
Context (Hlim : 0 < LOSCFG_BASE_CORE_SWTMR_LIMIT <= 2 ^ 16).

Lemma delete_timer_wp k t id :
  awake k t -> timer_id id ->
  wp (LOS_SwtmrDelete id) (λ _ k', awake k' t /\ pm_lock k' = pm_lock k /\ eventIDs k' = eventIDs k /\
    timer_deleted id (g_swtmrCBArray k) (g_swtmrCBArray k')) k.
Proof.
  intros HA Hid. assert (K1 : keeps pm_lock (LOS_SwtmrDelete id)) by keeps. assert (K2 : keeps eventIDs (LOS_SwtmrDelete id)) by keeps.
  enough (Hw : wp (LOS_SwtmrDelete id) (λ _ k', awake k' t /\ timer_deleted id (g_swtmrCBArray k) (g_swtmrCBArray k')) k).
  { eapply wp_mono; [exact (wp_keeps _ _ _ _ K2 (wp_keeps _ _ _ _ K1 Hw))|]. by intros r k' [[[? ?] ?] ?]. }
  unfold timer_deleted.
  destruct Hid as [->|Hid].
  - unfold LOS_SwtmrDelete. assert (OS_SWTMR_MAX_TIMERID <= OS_INVALID).
    { unfold OS_SWTMR_MAX_TIMERID, OS_INVALID. rewrite Z.mul_comm. apply Z.mul_div_le. lia. }
    rewrite (proj2 (Z.geb_le _ _)) by lia. apply wp_ret. split; [done|]. rewrite (proj2 (Z.ltb_ge _ _)) by lia. by case_match.
  - rewrite (proj2 (Z.ltb_lt _ _)) by lia. cbn [andb]. destruct HA as (m & fl & lw & l & ev & HK & HS & HE). destruct (proj2 (sw_dom _ _ _ _ HS (swtmr_index id))) as [w Hw].
    { unfold swtmr_index. apply Z.mod_pos_bound. lia. }
    assert (HA : awake k t) by (by exists m, fl, lw, l, ev). destruct HE as [He Hl].
    eapply wp_mono; [exact (wp_keeps _ _ _ _ K2 (swtmr_delete_api_wp Hlim k m t fl lw id w HK HS Hid Hw))|]. intros r k' [HQ EV]. cbv beta zeta in HQ.
    rewrite Hw, <- (negb_involutive (usTimerID w =? id)), <- negb_orb.
    destruct (_ || _); cbn [negb]; [by destruct HQ as [_ ->]|]. destruct HQ as (_ & m' & HK' & (W1 & _) & HS' & HC). split; [|done].
    destruct (W1 (EventList g_pmEvent) l) as (l' & Hl' & _); [done..|]. eexists m', _, _, l', ev. split_and!; [done..|].
    split; [by rewrite EV|done].
Qed.

Lemma free_lock_wp s t a c :
  awake (pmKernel s) t -> lockCBs s !! a = Some c -> timer_id (lockSwtmrID c) ->
  wp (free_lock a) (λ _ s', ∃ k', s' = set_lockCBs (delete a) (set_pmKernel (λ _, k') s) /\ awake k' t /\
    pm_lock k' = pm_lock (pmKernel s) /\ eventIDs k' = eventIDs (pmKernel s) /\
    timer_deleted (lockSwtmrID c) (g_swtmrCBArray (pmKernel s)) (g_swtmrCBArray k')) s.
Proof.
  intros HA Hc Hid. unfold free_lock, kernel. wp_step. eapply wp_lockCB; [done|]. wp_steps.
  eapply wp_mono; [by apply delete_timer_wp|]. intros r k' (HA' & E1 & E2 & HD). wp_steps.
  eexists. split; [by destruct s|]. cbn. split_and!; [by apply awake_sysMem|done..].
Qed.

Lemma notify_wp k t id :
  awake k t -> eventIDs k !! g_pmEvent = Some id ->
  wp (LOS_EventWrite (Some g_pmEvent) PM_EVENT_LOCK_RELEASE) (λ _ k', awake k' t /\ pm_lock k' = pm_lock k /\
    eventIDs k' = <[g_pmEvent := Z.lor id PM_EVENT_LOCK_RELEASE]> (eventIDs k) /\ g_swtmrCBArray k' = g_swtmrCBArray k) k.
Proof.
  intros (m & fl & lw & l & ev & HK & HS & He & Hl) Hid. simplify_eq.
  assert (Kl := keeps_event_write).
  assert (K1 : keeps lock_timers (LOS_EventWrite (Some g_pmEvent) PM_EVENT_LOCK_RELEASE)) by keeps.
  eapply wp_mono; [exact (wp_keeps _ _ _ _ K1 (event_write_wp k m t g_pmEvent ev l PM_EVENT_LOCK_RELEASE HK (conj He Hl) eq_refl))|].
  intros r k' ((m' & HK' & Hk & _ & EV & Hm & _) & [= E1 E2 E3 _]). split_and!; [|done|done|done].
  eexists m', fl, lw, _, _. split_and!; [done| |split; [rewrite EV; apply lookup_insert_eq|exact Hm]].
  eapply SwtmrInv_frame; [exact HS|done|done|by apply (kept_lists _ _ _ _ _ _ Hk)|by eapply timers_are].
Qed.

(** What a release of a name does. *)
Definition release_spec (A : lock_map) (n : list Z) : Z * lock_map :=
  match A !! n with
  | None => (LOS_ERRNO_PM_NOT_LOCK, A)
  | Some (c, t) => (LOS_OK, if c =? 1 then delete n A else <[n := (c - 1, t)]> A)
  end.

Lemma release_total A n v : A !! n = Some v -> total (release_spec A n).2 = total A - 1.
Proof.
  intros E. unfold release_spec. rewrite E. destruct v as [c t]. cbn. destruct (Z.eqb_spec c 1) as [->|].
  - rewrite (total_delete A n _ E). cbn. lia.
  - rewrite (total_update A n _ _ E). cbn. lia.
Qed.

(** The last release wakes the task that waits to suspend the system. *)
Definition notified (mode : Z) (A A' : lock_map) (V V' : gmap EventRef Z) : Prop :=
  if bool_decide (A <> A' /\ total A' = 0) && (mode >? LOS_SYS_NORMAL_SLEEP)
  then ∃ id, V !! g_pmEvent = Some id /\ V' = <[g_pmEvent := Z.lor id PM_EVENT_LOCK_RELEASE]> V else V' = V.

(** The rest of a release, once the block is counted down. *)
Lemma release_end_wp s t (last : bool) a c mode ret (isRelease : bool) (Q : Z -> PmSys -> Prop) :
  awake (pmKernel s) t -> (last = true -> lockCBs s !! a = Some c /\ timer_id (lockSwtmrID c)) ->
  (∀ k', awake k' t -> pm_lock k' = pm_lock (pmKernel s) ->
    (if isRelease && (mode >? LOS_SYS_NORMAL_SLEEP)
     then ∃ id, eventIDs (pmKernel s) !! g_pmEvent = Some id /\ eventIDs k' = <[g_pmEvent := Z.lor id PM_EVENT_LOCK_RELEASE]> (eventIDs (pmKernel s))
     else eventIDs k' = eventIDs (pmKernel s)) ->
    (if last then timer_deleted (lockSwtmrID c) (g_swtmrCBArray (pmKernel s)) (g_swtmrCBArray k') else g_swtmrCBArray k' = g_swtmrCBArray (pmKernel s)) ->
    Q ret (set_lockCBs (if last then delete a else id) (set_pmKernel (λ _, k') s))) ->
  wp (when last (free_lock a) ;;;
      when (isRelease && (mode >? LOS_SYS_NORMAL_SLEEP))
        (let* _ := kernel (LOS_EventWrite (Some g_pmEvent) PM_EVENT_LOCK_RELEASE) in mret tt) ;;;
      mret ret) Q s.
Proof.
  intros HA Hc HQ. wp_step. apply (wp_mono _ (λ _ s', ∃ k', s' = set_lockCBs (if last then delete a else id) (set_pmKernel (λ _, k') s) /\
    awake k' t /\ pm_lock k' = pm_lock (pmKernel s) /\ eventIDs k' = eventIDs (pmKernel s) /\
    if last then timer_deleted (lockSwtmrID c) (g_swtmrCBArray (pmKernel s)) (g_swtmrCBArray k') else g_swtmrCBArray k' = g_swtmrCBArray (pmKernel s))).
  { destruct last; cbn [when]; [destruct (Hc eq_refl); by apply (free_lock_wp s t a c)|]. apply wp_ret. exists (pmKernel s). by destruct s. }
  intros [] s' (k1 & -> & HA1 & E1 & E2 & HD). wp_step. destruct (isRelease && _); cbn [when]; [|apply wp_ret, wp_ret; by apply HQ].
  pose proof HA1 as (m & fl & lw & l & ev & _ & _ & He & _). unfold kernel. wp_steps.
  eapply wp_mono; [by eapply notify_wp|]. intros r k' (HA' & E3 & E4 & E5). wp_steps.
  lazymatch goal with |- Q _ ?x => assert (E : x = set_lockCBs (if last then delete a else id) (set_pmKernel (λ _, k') s)) by by destruct s end.
  rewrite E. apply HQ; [done|by etrans; [exact E3|]|exists ev; by rewrite <- E2|]. cbn in E5. by rewrite E5.
Qed.

(** The last release of a name deletes its timer. *)
Definition release_timers (A : lock_map) (n : list Z) (C C' : gmap Z SWTMR_CTRL_S) : Prop :=
  match A !! n with
  | Some (c, id) => if c =? 1 then timer_deleted id C C' else C' = C
  | None => C' = C
  end.

Lemma release_wp s L A t name :
  PmInv s L A -> awake (pmKernel s) t -> map_Forall (λ _ v, timer_id v.2) A ->
  wp (LOS_PmLockRelease (Some name)) (λ ret s', (∃ L', PmInv s' L' (release_spec A (string_at name)).2) /\
    ret = (release_spec A (string_at name)).1 /\ awake (pmKernel s') t /\ pmMode s' = pmMode s /\
    notified (pmMode s) A (release_spec A (string_at name)).2 (eventIDs (pmKernel s)) (eventIDs (pmKernel s')) /\
    release_timers A (string_at name) (g_swtmrCBArray (pmKernel s)) (g_swtmrCBArray (pmKernel s'))) s.
Proof.
  intros HI HA Htm. pose proof HI as [I1 I2 I3 I4 I5 I6 I7]. pose proof (pi_counts _ _ _ HI) as Hcs.
  unfold LOS_PmLockRelease. wp_steps. eapply wp_mono; [by eapply lookup_lock_wp|]. intros [a|] s' [-> Hr].
  2:{ apply wp_ret. unfold release_spec, notified, release_timers. rewrite Hr. cbn [fst snd]. split_and!; [by exists L|done..| |done].
      by rewrite bool_decide_false by (by intros []). }
  destruct Hr as (Ha & c & Hc & Hn & HAn). pose proof (release_total A _ _ HAn) as Htot. destruct (I5 _ _ HAn) as [Hc1 Hc2].
  pose proof (total_le A _ _ Hcs HAn) as Hle. cbn [fst snd] in *. specialize (Htm _ _ HAn). cbn [snd] in Htm.
  wp_step. eapply wp_lockCB; [done|]. replace (lockCount c >? 0) with true by lia. unfold set_lockCB, locks, pmLock, kernel.
  assert (Hne : A <> (release_spec A (string_at name)).2) by (intros E; rewrite <- E in Htot; lia).
  assert (Hmax : total (release_spec A (string_at name)).2 <= OS_PM_LOCK_MAX) by lia.
  assert (Hret : (release_spec A (string_at name)).1 = LOS_OK) by (unfold release_spec; by rewrite HAn). rewrite Hret. clear Hret.
  assert (Hnot : ∀ V', (if (pm_lock (pmKernel s) - 1 =? 0) && (pmMode s >? LOS_SYS_NORMAL_SLEEP)
      then ∃ id, eventIDs (pmKernel s) !! g_pmEvent = Some id /\ V' = <[g_pmEvent := Z.lor id PM_EVENT_LOCK_RELEASE]> (eventIDs (pmKernel s))
      else V' = eventIDs (pmKernel s)) -> notified (pmMode s) A (release_spec A (string_at name)).2 (eventIDs (pmKernel s)) V').
  { intros V'. unfold notified. rewrite Htot, I6. destruct (Z.eqb_spec (total A - 1) 0).
    - by rewrite bool_decide_true.
    - by rewrite bool_decide_false by (by intros []). }
  clear Hne. unfold release_spec, release_timers in Htot, Hmax, Hnot |- *. rewrite HAn in Htot, Hmax, Hnot |- *. cbn [snd] in *.
  destruct (Z.eqb_spec (lockCount c) 1) as [E1|E1].
  - wp_steps. rewrite (proj2 (Z.eqb_eq (lockCount c - 1) 0)) by lia. wp_steps.
    eapply wp_mono; [eapply (Rep_delete _ _ LockHead (LockNode <$> L) (LockNode a) I1); [apply lookup_singleton_eq|by apply list_elem_of_fmap_2]|].
    intros [] h' HR'. rewrite insert_singleton_eq in HR'. wp_steps. cbn [pmKernel set_lockCBs set_lockNodes set_pmKernel].
    replace (pm_lock (pmKernel s) >? 0) with true by lia. do 4 wp_step.
    eapply (release_end_wp _ t true a); [by apply awake_pm_lock|intros _; split; [apply lookup_insert_eq|done]|].
    intros k' HA' El EV HD. split_and!; [|done|done|done|apply Hnot; exact EV|exact HD]. exists (list_remove_all a L). rewrite Hn.
    eapply (PmInv_remove s _ L A a c); try done; cbn.
    + by rewrite remove_node.
    + intros b Hb. by rewrite lookup_delete_ne, lookup_insert_ne.
    + rewrite <- Hn. cbn in El. by rewrite El, I6, Htot.
    + by rewrite <- Hn.
  - wp_steps. rewrite (proj2 (Z.eqb_neq (lockCount c - 1) 0)) by lia. wp_steps. cbn [pmKernel set_lockCBs set_lockNodes set_pmKernel].
    replace (pm_lock (pmKernel s) >? 0) with true by lia. do 4 wp_step.
    eapply (release_end_wp _ t false a c); [by apply awake_pm_lock|done|].
    intros k' HA' El EV HD. split_and!; [|done|done|done|apply Hnot; exact EV|exact HD]. exists L. rewrite Hn.
    eapply (PmInv_set s _ L A a c (mk_OsPmLockCB (lockName c) (lockCount c - 1) (lockSwtmrID c))); try done; cbn.
    + split; [lia|]. intros Ht. specialize (Hc2 Ht). lia.
    + rewrite <- Hn. cbn in El. by rewrite El, I6, Htot.
    + by rewrite <- Hn.
Qed.

(** *** Timed requests *)

Lemma lock_frame_kernel s s' : lock_frame s s' ->
  ∃ n pool, pmKernel s' = set_pm_lock (λ _, n) (set_sysMem (λ _, pool) (pmKernel s)).
Proof.
  intros E. apply (f_equal fst) in E. cbn [fst lock_rest] in E. exists (pm_lock (pmKernel s')), (sysMem (pmKernel s')).
  assert (E0 : ∀ k : Kernel, k = set_pm_lock (λ _, pm_lock k) (set_sysMem (λ _, sysMem k) (set_pm_lock (λ _, 0) (set_sysMem (λ _, sysMem (pmKernel s)) k))))
    by by intros []. rewrite (E0 (pmKernel s')) at 1. by rewrite E.
Qed.
Lemma lock_frame_awake s s' t : lock_frame s s' -> awake (pmKernel s) t -> awake (pmKernel s') t.
Proof. intros (n & pool & ->)%lock_frame_kernel HA. by apply awake_pm_lock, awake_sysMem. Qed.

(** The kernel of the module changes, but not the lock. *)
Lemma PmInv_kernel s L A k' : PmInv s L A -> pm_lock k' = pm_lock (pmKernel s) -> PmInv (set_pmKernel (λ _, k') s) L A.
Proof. intros [] E. split; try done. by rewrite <- pi_total0. Qed.

(** The timer of a timed request is the first free one. *)
Definition timed_spec (k : Kernel) (A : lock_map) (n : list Z) (mem : bool) : Z * lock_map :=
  match g_swtmrFreeList k with
  | None => (LOS_ERRNO_SWTMR_MAXSIZE, A)
  | Some i => request_spec A n (usTimerID (default zero_SWTMR_CTRL_S (g_swtmrCBArray k !! i))) mem
  end.

(** The timer of a lock that is held for [ms] milliseconds from time [now]: it
    fires once, after the ticks that cover them, and releases the name. *)
Definition lock_ticks (ms : Z) : Z := (ms + OS_MS_PER_TICK - 1) / OS_MS_PER_TICK.
Definition lock_timer (clk now name ms : Z) (w : SWTMR_CTRL_S) : SWTMR_CTRL_S :=
  mk_SWTMR_CTRL_S None OS_SWTMR_STATUS_TICKING LOS_SWTMR_MODE_ONCE 0 (usTimerID w) (lock_ticks ms) name addr_OsPmSwtmrHandler
    (u64 (now + OS_SYS_TICK_TO_CYCLE clk (lock_ticks ms))) now.

(** The timers after a timed request that returns [code]. *)
Definition timed_timers (k : Kernel) (name ms code : Z) (C' : gmap Z SWTMR_CTRL_S) : Prop :=
  match g_swtmrFreeList k with
  | None => C' = g_swtmrCBArray k
  | Some i => ∃ w w', g_swtmrCBArray k !! i = Some w /\ C' = <[i := w']> (g_swtmrCBArray k) /\
      if code =? LOS_OK then ∃ now, g_oldTickTimerBase k <= now < 2 ^ 63 /\ w' = lock_timer (g_sysClock k) now name ms w
      else usTimerID w' = next_id (usTimerID w) /\ ucState w' = OS_SWTMR_STATUS_UNUSED
  end.

Definition lock_mem (k : Kernel) := (pm_lock k, sysMem k, eventIDs k).
Definition clock_part (k : Kernel) := (g_sysClock k, g_oldTickTimerBase k).

Lemma started_wp k m t fl lw l ev id w :
  2 <= LOSCFG_BASE_CORE_TICK_PER_SECOND -> KInv k m t -> SwtmrInv k m fl lw -> event_waiting k m g_pmEvent ev l ->
  g_swtmrCBArray k !! swtmr_index id = Some w -> usTimerID w = id -> 0 <= id < OS_SWTMR_MAX_TIMERID -> ucState w = OS_SWTMR_STATUS_CREATED ->
  wp (LOS_SwtmrStart id) (λ ret k', ret = LOS_OK /\ awake k' t /\ pm_lock k' = pm_lock k /\ ∃ now, g_oldTickTimerBase k <= now < 2 ^ 63 /\
    g_swtmrCBArray k' = <[swtmr_index id := started (u64 (now + OS_SYS_TICK_TO_CYCLE (g_sysClock k) (uwInterval w))) (set_swtmrStartTime (λ _, now) w)]> (g_swtmrCBArray k)) k.
Proof.
  intros Htps HK HS [He Hl] Hw Eid Hid Est. assert (K1 : keeps lock_mem (LOS_SwtmrStart id)) by keeps.
  eapply wp_mono; [exact (wp_keeps _ _ _ _ K1 (swtmr_start_api_wp k m t fl lw id w Htps HK HS Hid Hw))|].
  intros ret k' [HQ [= E1 _ E2]]. cbv beta zeta in HQ. rewrite Eid, Z.eqb_refl, Est in HQ. cbn in HQ.
  destruct HQ as (-> & m' & lw' & now & w' & HK' & (W1 & _) & HS' & _ & Hnow & HC & ->). split_and!; [done| |done|by exists now].
  destruct (W1 (EventList g_pmEvent) l) as (l' & Hl' & _); [done..|]. exists m', fl, lw', l', ev. split_and!; [done..|]. split; [by rewrite E2|done].
Qed.

Lemma timed_request_wp s L A t name ms p pool :
  2 <= LOSCFG_BASE_CORE_TICK_PER_SECOND <= 1000 -> addr_OsPmSwtmrHandler <> 0 -> 0 < ms <= (2 ^ 32 - 1) * OS_MS_PER_TICK ->
  PmInv s L A -> awake (pmKernel s) t -> total A < OS_PM_LOCK_MAX ->
  LOS_MemAlloc sizeof_OsPmLockCB (sysMem (pmKernel s)) = (p, pool) -> (∀ a, p = Some a -> a ∉ L) ->
  wp (LOS_PmTimeLockRequest (Some name) ms) (λ ret s',
    (∃ L', PmInv s' L' (timed_spec (pmKernel s) A (string_at name) (bool_decide (is_Some p))).2) /\
    ret = (timed_spec (pmKernel s) A (string_at name) (bool_decide (is_Some p))).1 /\ awake (pmKernel s') t /\
    timed_timers (pmKernel s) name ms ret (g_swtmrCBArray (pmKernel s'))) s.
Proof.
  intros Htps Hh Hms HI (m & fl & lw & l & ev & HK & HS & HE) Hmax Hp Hfresh. unfold LOS_PmTimeLockRequest.
  rewrite (proj2 (Z.eqb_neq ms 0)) by lia. assert (Hper : 1 <= OS_MS_PER_TICK <= 500).
  { unfold OS_MS_PER_TICK, OS_SYS_MS_PER_SECOND. split; [apply Z.div_le_lower_bound; lia|]. apply Z.div_le_upper_bound; lia. }
  wp_step. apply wp_assert; [lia|]. set (ticks := u32 _). assert (Hticks : 0 < ticks < 2 ^ 32 /\ ticks = lock_ticks ms).
  { subst ticks. unfold lock_ticks. rewrite u64_id by nia. assert (Hq : 1 <= (ms + OS_MS_PER_TICK - 1) / OS_MS_PER_TICK <= 2 ^ 32 - 1).
    - split; [apply Z.div_le_lower_bound; lia|]. apply Z.lt_succ_r, Z.div_lt_upper_bound; nia.
    - rewrite u32_id by lia. lia. }
  clearbody ticks. destruct Hticks as [Hticks Et]. wp_step. unfold kernel. wp_step.
  assert (K2 : keeps clock_part (LOS_SwtmrCreate ticks LOS_SWTMR_MODE_ONCE addr_OsPmSwtmrHandler true name)) by keeps.
  assert (K1 : keeps lock_mem (LOS_SwtmrCreate ticks LOS_SWTMR_MODE_ONCE addr_OsPmSwtmrHandler true name)) by keeps.
  eapply wp_mono; [exact (wp_keeps _ _ _ _ K2 (wp_keeps _ _ _ _ K1 (swtmr_create_api_wp _ m t fl lw ticks LOS_SWTMR_MODE_ONCE _ name HK HS Hticks (or_introl eq_refl) Hh)))|].
  intros r k1 [[(HK1 & HQ) [= E1 E2 E3]] [= E5 E6]]. unfold timed_spec, timed_timers. pose proof (sw_free _ _ _ _ HS) as Hch. destruct fl as [|i fl].
  { destruct HQ as [-> ->]. cbn in Hch. rewrite Hch. cbn [negb Z.eqb]. apply wp_ret. split_and!; [|done| |done].
    - exists L. by apply PmInv_kernel.
    - by exists m, [], lw, l, ev. }
  destruct HQ as (w & w' & Hw & -> & HC & HS1 & ->). destruct Hch as (Hfree & _). rewrite Hfree, Hw. cbn [default negb Z.eqb LOS_OK].
  destruct (sw_ids _ _ _ _ HS i w Hw) as [Ei Hid]. set (id := usTimerID w) in *. wp_step. eapply wp_of_option; [done|].
  assert (HE1 : event_waiting k1 m g_pmEvent ev l) by (destruct HE; split; [by rewrite E3|done]).
  set (s1 := set_pmKernel (λ _, k1) s). wp_step.
  eapply wp_mono; [eapply (request_wp s1 L A name id p pool); [by apply PmInv_kernel|done|by rewrite <- Hp, <- E2|done]|].
  intros ret s2 ((L' & HI2) & Hret & Hfr). rewrite Hret.
  assert (HA2 : awake (pmKernel s2) t) by (eapply lock_frame_awake; [exact Hfr|by exists m, fl, lw, l, ev]).
  destruct (Z.eqb_spec (request_spec A (string_at name) id (bool_decide (is_Some p))).1 LOS_OK) as [Eok|Eno]; cbn [negb].
  - destruct (lock_frame_kernel _ _ Hfr) as (n & pl & Ek2). wp_steps. rewrite Ek2.
    eapply wp_mono; [eapply (started_wp _ m t fl lw l ev id); [lia|by apply KInv_pm_lock, KInv_sysMem|by destruct HS1|exact HE1|..]|].
    + cbn. rewrite HC, Ei. apply lookup_insert_eq.
    + done.
    + done.
    + done.
    + intros r k3 (-> & HA3 & E4 & now & Hnow & HC3). cbn [negb Z.eqb LOS_OK]. apply wp_ret. split_and!; [|symmetry; exact Eok|done|].
      * exists L'. apply PmInv_kernel; [done|]. by rewrite E4, Ek2.
      * exists w, (lock_timer (g_sysClock (pmKernel s)) now name ms w). cbn in HC3, Hnow |- *. rewrite HC3, HC, Ei, insert_insert_eq, E5, Et. split_and!; [done|done|].
        exists now. rewrite <- E6. done.
  - wp_steps. eapply wp_mono; [apply delete_timer_wp; [done|by right]|]. intros r k3 (HA3 & E4 & _ & HD). wp_steps. split_and!; [|done|done|].
    { exists L'. by apply PmInv_kernel. }
    destruct (lock_frame_kernel _ _ Hfr) as (n & pl & Ek2). rewrite Ek2 in HD. unfold timer_deleted in HD. cbn in HD |- *. rewrite HC, Ei, lookup_insert_eq in HD. cbn in HD.
    rewrite (proj2 (Z.ltb_lt _ _)), Z.eqb_refl in HD by lia. destruct HD as (w' & HC3 & Hi' & Hu').
    rewrite insert_insert_eq in HC3. exists w, w'. by rewrite (proj2 (Z.eqb_neq _ _) Eno).
Qed.

(** *** The locks as one object *)

(** The module holds the locks [A] in a kernel that is well formed while task [t]
    runs; an entry without a timer has [OS_INVALID], the others an identifier. *)
Definition PmOk (s : PmSys) (t : Z) (A : lock_map) : Prop :=
  (∃ L, PmInv s L A) /\ awake (pmKernel s) t /\ map_Forall (λ _ v, timer_id v.2) A.

(** The calls on locks; [LockExpire] is the handler of the timer of a timed request. *)
Inductive lock_op : Type :=
| LockRequest (name : Z)
| LockTimed (name millisecond : Z)
| LockRelease (name : Z)
| LockExpire (name : Z).
Definition run_lock (op : lock_op) : M PmSys Z :=
  match op with
  | LockRequest name => LOS_PmLockRequest (Some name)
  | LockTimed name millisecond => LOS_PmTimeLockRequest (Some name) millisecond
  | LockRelease name => LOS_PmLockRelease (Some name)
  | LockExpire name => OsPmSwtmrHandler name ;;; mret LOS_OK
  end.
Definition lock_spec (k : Kernel) (A : lock_map) (mem : bool) (op : lock_op) : Z * lock_map :=
  match op with
  | LockRequest name => request_spec A (string_at name) OS_INVALID mem
  | LockTimed name _ => timed_spec k A (string_at name) mem
  | LockRelease name => release_spec A (string_at name)
  | LockExpire name => (LOS_OK, (release_spec A (string_at name)).2)
  end.
(** The timers after a call that returns [code]. *)
Definition timers_after (k : Kernel) (A : lock_map) (op : lock_op) (code : Z) (C' : gmap Z SWTMR_CTRL_S) : Prop :=
  match op with
  | LockRequest _ => C' = g_swtmrCBArray k
  | LockTimed name millisecond => timed_timers k name millisecond code C'
  | LockRelease name | LockExpire name => release_timers A (string_at name) (g_swtmrCBArray k) C'
  end.
(** The times that a timer can count. *)
Definition lock_op_ok (op : lock_op) : Prop :=
  match op with
  | LockTimed _ millisecond => 0 < millisecond <= (2 ^ 32 - 1) * OS_MS_PER_TICK
  | LockExpire name => name <> 0
  | _ => True
  end.

Lemma request_ids A n id mem : timer_id id -> map_Forall (λ _ v, timer_id v.2) A ->
  map_Forall (λ _ v, timer_id v.2) (request_spec A n id mem).2.
Proof.
  intros Hid HA. unfold request_spec. destruct (A !! n) as [[c t]|] eqn:E.
  - destruct (t =? OS_INVALID); [|done]. apply map_Forall_insert_2; [exact (HA _ _ E)|done].
  - destruct mem; [|done]. by apply map_Forall_insert_2.
Qed.
Lemma release_ids A n : map_Forall (λ _ v, timer_id v.2) A -> map_Forall (λ _ v, timer_id v.2) (release_spec A n).2.
Proof.
  intros HA. unfold release_spec. destruct (A !! n) as [[c t]|] eqn:E; [|done]. cbn. destruct (c =? 1); [by apply map_Forall_delete|].
  apply map_Forall_insert_2; [exact (HA _ _ E)|done].
Qed.
Lemma timed_ids k m fl lw A n mem : SwtmrInv k m fl lw -> map_Forall (λ _ v, timer_id v.2) A ->
  map_Forall (λ _ v, timer_id v.2) (timed_spec k A n mem).2.
Proof.
  intros HS HA. unfold timed_spec. pose proof (sw_free _ _ _ _ HS) as Hch. destruct fl as [|i fl]; cbn in Hch; [by rewrite Hch|].
  destruct Hch as (-> & w & Hw & _). rewrite Hw. apply request_ids; [|done]. right. by apply (sw_ids _ _ _ _ HS i).
Qed.

Section refines.
Context (Htps : 2 <= LOSCFG_BASE_CORE_TICK_PER_SECOND <= 1000) (Hh : addr_OsPmSwtmrHandler <> 0).

Lemma run_lock_wp s t A op p pool :
  PmOk s t A -> total A < OS_PM_LOCK_MAX -> lock_op_ok op ->
  LOS_MemAlloc sizeof_OsPmLockCB (sysMem (pmKernel s)) = (p, pool) -> (∀ a, p = Some a -> lockCBs s !! a = None) ->
  wp (run_lock op) (λ ret s', ret = (lock_spec (pmKernel s) A (bool_decide (is_Some p)) op).1 /\
    PmOk s' t (lock_spec (pmKernel s) A (bool_decide (is_Some p)) op).2 /\ timers_after (pmKernel s) A op ret (g_swtmrCBArray (pmKernel s'))) s.
Proof.
  intros ((L & HI) & HA & HT) Hmax Hop Hp Hnew. assert (Hfresh : ∀ a, p = Some a -> a ∉ L).
  { intros a E Ha. destruct (pi_block _ _ _ HI a Ha) as [c Hc]. by rewrite (Hnew _ E) in Hc. }
  assert (Hrel : ∀ name, wp (LOS_PmLockRelease (Some name)) (λ ret s', ret = (release_spec A (string_at name)).1 /\
    PmOk s' t (release_spec A (string_at name)).2 /\ release_timers A (string_at name) (g_swtmrCBArray (pmKernel s)) (g_swtmrCBArray (pmKernel s'))) s).
  { intros name. eapply wp_mono; [by eapply release_wp|]. intros ret s' (HI' & Hr & HA' & _ & _ & HC).
    split; [done|]. split; [|done]. split_and!; [done..|by apply release_ids]. }
  destruct op as [name|name ms|name|name]; cbn [run_lock lock_spec lock_op_ok timers_after] in *.
  - eapply wp_mono; [by eapply request_wp|]. intros ret s' (HI' & Hr & Hf). split; [done|].
    split; [|by destruct (lock_frame_kernel _ _ Hf) as (n & pl & ->)]. split_and!; [done|by eapply lock_frame_awake|apply request_ids; [by left|done]].
  - eapply wp_mono; [by eapply timed_request_wp|]. intros ret s' (HI' & Hr & HA' & HC). split; [done|]. split; [|done].
    split_and!; [done..|]. destruct HA as (m & fl & lw & l & ev & _ & HS & _). by eapply timed_ids.
  - apply Hrel.
  - unfold OsPmSwtmrHandler. rewrite (proj2 (Z.eqb_neq name 0)) by done. wp_step. wp_step.
    eapply wp_mono; [apply Hrel|]. intros ret s' [_ HO]. by do 2 apply wp_ret.
Qed.

(** C21: The power locks refine a map from names to counts and timers: a request, a timed
    request, a release and the expiry of a timed request return what the map says, change the
    named entry only, keep the list and the counts consistent, and pm->lock is the sum of the
    counts. The software timers change as the call says: a timed request starts the first free
    timer, to fire once after the milliseconds rounded up to ticks and to release the name, and
    deletes it again when the request is refused; the last release deletes the timer of the lock
    if it is still in use; no other timer changes. For 2 to 1000 ticks a second, 1 to 2^16
    timers, a handler that is not at address 0, below the limit of pm->lock, with memory for a
    new lock that is not in use, and for times a timer can count. *)
Theorem pm_lock_refines s t A op p pool :
  PmOk s t A -> total A < OS_PM_LOCK_MAX -> lock_op_ok op ->
  LOS_MemAlloc sizeof_OsPmLockCB (sysMem (pmKernel s)) = (p, pool) -> (∀ a, p = Some a -> lockCBs s !! a = None) ->
  let '(code, A') := lock_spec (pmKernel s) A (bool_decide (is_Some p)) op in
  wp (run_lock op) (λ ret s', ret = code /\ PmOk s' t A' /\ pm_lock (pmKernel s') = total A' /\
    timers_after (pmKernel s) A op code (g_swtmrCBArray (pmKernel s'))) s.
Proof.
  intros HO Hmax Hop Hp Hnew. destruct (lock_spec _ _ _ _) as [code A'] eqn:E. eapply wp_mono; [by eapply run_lock_wp|].
  rewrite E. intros ret s' (-> & HO' & HC). split_and!; [done|done| |done]. destruct HO' as ((L & HI) & _). apply HI.
Qed.
End refines.
End limit.
End PmInv.
