(* ===== verification/PmSuspend.v ===== *)
(** Power management: the selected mode can always be entered, and the suspension
    of the system, under the contracts of the product's handlers. *)

From S2P Require Import Prelude Errno LosList Kernel Tick SortLink Sched SchedInv SchedTime SchedSwitch KernelInv Event Task Swtmr Calls Pm PmInv.

Section PmSuspend.
Context `{TimerLaws} `{!PmProduct}.

(** ** The mode *)

(** The handler that enters a mode. *)
Definition enter_handler (c : LosPmSysctrl) (mode : Z) : handler :=
  if mode =? LOS_SYS_NORMAL_SLEEP then normalSuspend c
  else if mode =? LOS_SYS_LIGHT_SLEEP then lightSuspend c
  else if mode =? LOS_SYS_DEEP_SLEEP then deepSuspend c
  else shutdownSuspend c.

(** A timer that stops the tick has all of the low-power timer or nothing of it. *)
Definition timer_complete (t : LosPmTickTimer) : Prop :=
  is_Some (tickLock t) /\ is_Some (tickUnlock t) /\
  (timerStart t = None /\ timerStop t = None /\ timerCycleGet t = None /\ freq t = 0 \/
   is_Some (timerStart t) /\ is_Some (timerStop t) /\ is_Some (timerCycleGet t) /\ freq t <> 0).

(** The system can be put to sleep in the selected mode and in the normal one,
    and the registered structures are complete. *)
Record mode_ok (s : PmSys) : Prop := {
  mo_range : LOS_SYS_NORMAL_SLEEP <= pmMode s <= LOS_SYS_SHUTDOWN;
  mo_sysctrl : sysctrl s = true;
  mo_normal : is_Some (enter_handler (g_sysctrl s) LOS_SYS_NORMAL_SLEEP);
  mo_enter : is_Some (enter_handler (g_sysctrl s) (pmMode s));
  mo_device : pmMode s <> LOS_SYS_NORMAL_SLEEP -> is_Some (device s);
  mo_complete : ∀ d, device s = Some d -> is_Some (suspend (device_at d)) /\ is_Some (resume (device_at d));
  mo_timer : ∀ p, tickTimer s = Some p -> timer_complete (tickTimer_at p);
}.

(** The calls that change the mode or the handlers. *)
Inductive pm_op : Type :=
| PmRegister (type : Z) (node : option Z)
| PmUnregister (type : Z) (node : option Z)
| PmModeSet (mode : Z)
| PmWakeSet.
Definition run_pm (op : pm_op) : M PmSys Z :=
  match op with
  | PmRegister type node => LOS_PmRegister type node
  | PmUnregister type node => LOS_PmUnregister type node
  | PmModeSet mode => LOS_PmModeSet mode
  | PmWakeSet => LOS_PmWakeSet ;;; mret LOS_OK
  end.

Lemma or_else_some new old : is_Some old -> is_Some (or_else new old).
Proof. by destruct new. Qed.
Lemma is_null_some {A} (o : option A) : is_null o = false <-> is_Some o.
Proof. by destruct o; cbn; split. Qed.
Lemma enter_merge n c mode : is_Some (enter_handler c mode) ->
  is_Some (enter_handler (mk_LosPmSysctrl (or_else (early n) (early c)) (or_else (late n) (late c))
    (or_else (suspendCheck n) (suspendCheck c)) (or_else (normalSuspend n) (normalSuspend c))
    (or_else (normalResume n) (normalResume c)) (or_else (lightSuspend n) (lightSuspend c))
    (or_else (lightResume n) (lightResume c)) (or_else (deepSuspend n) (deepSuspend c))
    (or_else (deepResume n) (deepResume c)) (or_else (shutdownSuspend n) (shutdownSuspend c))
    (or_else (shutdownResume n) (shutdownResume c))) mode).
Proof. unfold enter_handler. cbn. repeat case_match; apply or_else_some. Qed.

Lemma register_wp s type node : mode_ok s -> wp (LOS_PmRegister type node) (λ _ s', mode_ok s') s.
Proof.
  intros [M1 M2 M3 M4 M5 M6 M7]. unfold LOS_PmRegister. destruct node as [p|]; [|by apply wp_ret].
  destruct (type =? _); [|destruct (type =? _); [|destruct (type =? _); [|by apply wp_ret]]].
  - unfold OsPmDeviceRegister. destruct (_ || _) eqn:E; [by apply wp_ret|]. apply orb_false_iff in E as [E1%is_null_some E2%is_null_some].
    wp_steps. split; try done. by intros d [= <-].
  - unfold OsPmTickTimerRegister. destruct (is_null (tickLock _) || _) eqn:E; [by apply wp_ret|].
    apply orb_false_iff in E as [E1%is_null_some E2%is_null_some]. destruct (_ || _) eqn:Et; [|by apply wp_ret].
    wp_steps. split; try done. intros q [= <-]. split_and!; [done..|]. revert Et.
    destruct (timerStart _), (timerStop _), (timerCycleGet _), (Z.eqb_spec (freq (tickTimer_at p)) 0); cbn; try done; intros _; [right|left]; split_and!; done.
  - unfold OsPmSysctrlRegister. wp_step. apply wp_gets. rewrite M2. wp_steps. split; try done; by apply enter_merge.
Qed.
Lemma unregister_wp s type node : mode_ok s -> wp (LOS_PmUnregister type node) (λ _ s', mode_ok s') s.
Proof.
  intros [M1 M2 M3 M4 M5 M6 M7]. unfold LOS_PmUnregister. destruct node as [p|]; [|by apply wp_ret].
  destruct (type =? _); [|destruct (type =? _); [|destruct (type =? _); [|by apply wp_ret]]].
  - unfold OsPmDeviceUnregister. wp_steps. case_bool_decide; wp_steps; split; try done.
  - unfold OsPmTickTimerUnregister. wp_steps. case_bool_decide; wp_steps; [|done]. destruct (_ && _); cbn [when]; wp_steps; by split.
  - unfold OsPmSysctrlUnregister, OsPmSysctrlInit. wp_steps. by split.
Qed.
(** The modes that are accepted: the tick timer is not asked for. *)
Definition mode_accepted (s : PmSys) (mode : Z) : Prop :=
  mode <= LOS_SYS_SHUTDOWN /\ (mode <> LOS_SYS_NORMAL_SLEEP -> is_Some (device s)) /\ is_Some (enter_handler (g_sysctrl s) mode).

Ltac pm_refused := split_and!; [done|intros E; vm_compute in E; discriminate E|done].
Lemma mode_set_wp s mode :
  mode_ok s -> 0 <= mode < 2 ^ 31 ->
  wp (LOS_PmModeSet mode) (λ ret s', mode_ok s' /\ (ret = LOS_OK -> pmMode s' = mode) /\ (ret <> LOS_OK -> s' = s)) s.
Proof.
  intros HM Hm. pose proof HM as [M1 M2 M3 M4 M5 M6 M7]. unfold LOS_PmModeSet. rewrite i32_id by lia.
  destruct ((mode <? 0) || _) eqn:Er; [apply wp_ret; pm_refused|]. wp_steps.
  destruct (negb (mode =? LOS_SYS_NORMAL_SLEEP) && _) eqn:Ed; [wp_steps; pm_refused|].
  wp_steps. rewrite M2, orb_true_r. apply wp_assert; [done|]. wp_steps.
  destruct (_ && is_null (lightSuspend _)) eqn:E1; [wp_steps; pm_refused|]. destruct (_ && is_null (deepSuspend _)) eqn:E2; [wp_steps; pm_refused|].
  destruct (_ && is_null (shutdownSuspend _)) eqn:E3; [wp_steps; pm_refused|]. wp_steps. split_and!; [|done|done].
  unfold LOS_SYS_NORMAL_SLEEP, LOS_SYS_LIGHT_SLEEP, LOS_SYS_DEEP_SLEEP, LOS_SYS_SHUTDOWN in *.
  split; try done; cbn.
  - unfold LOS_SYS_NORMAL_SLEEP, LOS_SYS_SHUTDOWN. lia.
  - unfold enter_handler. unfold LOS_SYS_NORMAL_SLEEP, LOS_SYS_LIGHT_SLEEP, LOS_SYS_DEEP_SLEEP.
    destruct (Z.eqb_spec mode 0); [done|]. destruct (Z.eqb_spec mode 1); [by apply is_null_some|].
    destruct (Z.eqb_spec mode 2); [by apply is_null_some|]. assert (mode = 3) as -> by lia. by apply is_null_some.
  - intros Hn. apply is_null_some. by rewrite (proj2 (Z.eqb_neq mode 0) Hn) in Ed.
Qed.

Lemma mode_accept_wp s mode : sysctrl s = true -> 0 <= mode < 2 ^ 31 -> is_Some (normalSuspend (g_sysctrl s)) ->
  wp (LOS_PmModeSet mode) (λ ret _, ret = LOS_OK <-> mode_accepted s mode) s.
Proof.
  intros Hs Hm Hn. unfold LOS_PmModeSet, mode_accepted, enter_handler, LOS_SYS_NORMAL_SLEEP, LOS_SYS_LIGHT_SLEEP, LOS_SYS_DEEP_SLEEP, LOS_SYS_SHUTDOWN.
  assert (Hno : ∀ (e : Z) (P : Prop), e <> LOS_OK -> ~ P -> (e = LOS_OK <-> P)) by tauto. rewrite i32_id by lia.
  destruct (decide (mode <= 3)) as [Hle|]; [|destruct (Z.gtb_spec mode 3); [|lia]; rewrite orb_true_r; wp_steps; apply Hno; [done|lia]].
  assert (mode = 0 \/ mode = 1 \/ mode = 2 \/ mode = 3) as [->|[->|[->| ->]]] by lia; cbn; wp_steps; rewrite ?Hs; cbn.
  { done. }
  all: destruct (device s) eqn:Ed; cbn; [|wp_steps; apply Hno; [done|]; intros (_ & Hd & _); by destruct (Hd ltac:(lia))].
  all: wp_steps; rewrite ?Hs; apply wp_assert; [done|]; wp_steps.
  all: match goal with |- context [is_null ?h] => destruct h eqn:Eh end; cbn; wp_steps; [split; [|done]; intros _; split_and!; eauto; lia|].
  all: apply Hno; [done|]; intros (_ & _ & Hx); by destruct Hx.
Qed.

Lemma pm_op_wp s op : mode_ok s -> (∀ mode, op = PmModeSet mode -> 0 <= mode < 2 ^ 31) -> wp (run_pm op) (λ _ s', mode_ok s') s.
Proof.
  intros HM Hop. destruct op; cbn [run_pm].
  - by apply register_wp.
  - by apply unregister_wp.
  - eapply wp_mono; [by apply mode_set_wp; [|apply Hop]|]. by intros ret s' [].
  - unfold LOS_PmWakeSet. wp_steps. by destruct HM.
Qed.

(** ** Initialisation *)

Lemma KInv_pm k m t f g : KInv k m t -> KInv (set_pm_lock f (set_pm_sysMode g k)) m t.
Proof. by intros []. Qed.

(** The module starts in the normal mode with no lock. *)
Lemma init_wp s m t fl lw :
  KInv (pmKernel s) m t -> SwtmrInv (pmKernel s) m fl lw -> ~ owned m (EventList g_pmEvent) -> Rep (lockNodes s) ∅ ->
  wp OsPmInit (λ ret s', ret = LOS_OK /\ mode_ok s' /\ PmOk s' t ∅) s.
Proof.
  intros HK HS Hno HR. unfold OsPmInit, locks, kernel. wp_steps.
  assert (Hno1 : ~ owned (∅ : gmap PmNode (list PmNode)) LockHead) by (intros (hd & l & E & _); done).
  eapply wp_mono; [eapply Rep_clear; [exact HR|by left]|]. intros [] h1 HR1. rewrite delete_empty in HR1. wp_steps.
  eapply wp_mono; [eapply Rep_init; [exact HR1|by left]|]. intros [] h2 HR2. unfold LOS_EventInit, set_uwEventID. wp_steps.
  eapply wp_mono; [eapply kinv_init; [by apply KInv_eventIDs, (KInv_pm _ _ _ (λ _, 0) (λ _, 0))|done..]|].
  intros [] k3 (h3 & -> & HK3). unfold OsPmEnterHandlerSet. wp_steps. unfold OsPmSysctrlInit. wp_steps. split_and!; [done|by split|].
  split_and!; [|exists (<[EventList g_pmEvent := []]> m), fl, lw, [], 0; split_and!; [exact HK3| |]|done].
  - exists []. split; try done.
    + by intros a Ha%elem_of_nil.
    + intros n v. split; [done|]. by intros (a & c & Ha%elem_of_nil & _).
    + by intros a b ca cb Ha%elem_of_nil.
  - destruct HS. split; try done. by rewrite lookup_insert_ne.
  - split; [apply lookup_insert_eq|apply lookup_insert_eq].
Qed.

(** The start of the module and any calls after it. *)
Fixpoint run_pms (ops : list pm_op) : M PmSys unit :=
  match ops with
  | [] => mret tt
  | op :: ops => let* _ := run_pm op in run_pms ops
  end.
Definition pm_op_ok (op : pm_op) : Prop := match op with PmModeSet mode => 0 <= mode < 2 ^ 31 | _ => True end.

Lemma run_pms_wp ops s : mode_ok s -> Forall pm_op_ok ops -> wp (run_pms ops) (λ _ s', mode_ok s') s.
Proof.
  intros HM Hops. induction Hops as [|op ops Hop Hops IH] in s, HM |- *; cbn [run_pms]; [by apply wp_ret|]. wp_step.
  eapply wp_mono; [apply pm_op_wp; [done|]|by intros r s' HM'; apply IH]. by intros mode ->.
Qed.

(** ** Suspension *)

Section suspension.
(** Functions of the product that it registers for other uses than to choose or to enter a mode. *)
Context (quiet : Z -> Prop).
(** Functions that may choose another mode in the last check. *)
Context (checks : Z -> Prop).

Definition quiet_ptr (h : handler) : Prop := ∀ f, h = Some f -> quiet f.
Record handlers_quiet (s : PmSys) : Prop := {
  hq_early : quiet_ptr (early (g_sysctrl s));
  hq_check : ∀ f, suspendCheck (g_sysctrl s) = Some f -> checks f;
  hq_late : quiet_ptr (late (g_sysctrl s));
  hq_normal : quiet_ptr (normalResume (g_sysctrl s));
  hq_light : quiet_ptr (lightResume (g_sysctrl s));
  hq_deep : quiet_ptr (deepResume (g_sysctrl s));
  hq_dev : ∀ d, device s = Some d -> quiet_ptr (suspend (device_at d)) /\ quiet_ptr (resume (device_at d));
  hq_tick : ∀ p, tickTimer s = Some p -> quiet_ptr (tickLock (tickTimer_at p)) /\ quiet_ptr (tickUnlock (tickTimer_at p)) /\
    timerStart (tickTimer_at p) = None;
}.

(** A device is registered, there is no separate low-power timer, and the scheduler is locked [n] times. *)
Definition sleepy (n : Z) (s : PmSys) : Prop :=
  (∃ m t, KInv (pmKernel s) m t) /\ mode_ok s /\ is_Some (device s) /\ handlers_quiet s /\ g_losTaskLock (pmKernel s) = n.

Definition sysmode (s : PmSys) : Z := pm_sysMode (pmKernel s).
Definition calm (s s' : PmSys) : Prop := pm_lock (pmKernel s') = pm_lock (pmKernel s) /\ isWake s' = isWake s.
Definition same_mode (s s' : PmSys) : Prop := sysmode s' = sysmode s /\ pmMode s' = pmMode s.

(** The contract of the product's functions. *)
Class Handlers : Prop := {
  (** They leave the kernel and the module well formed and do not change the
      mode, and with the scheduler locked they request neither a lock nor a wake-up. *)
  quiet_call f arg n s : quiet f -> sleepy n s ->
    wp (call f arg) (λ _ s', sleepy n s' /\ same_mode s s' /\ (0 < n -> calm s s')) s;
  (** The last check may change the selected mode. *)
  check_call f arg n s : checks f -> sleepy n s -> 0 < n ->
    wp (call f arg) (λ _ s', sleepy n s' /\ calm s s') s;
  (** A function that enters a mode may rely on this: no lock is held, nothing has
      requested a wake-up, tasks do not run, and the mode is the selected one. *)
  enter_call f n s : sleepy n s -> 0 < n -> pm_lock (pmKernel s) <= 0 -> isWake s = false ->
    sysmode s = pmMode s -> enter_handler (g_sysctrl s) (sysmode s) = Some f ->
    wp (call f 0) (λ _ s', sleepy n s') s;
}.
Context `{!Handlers}.

Lemma sleepy_kernel n n' s k' m t : sleepy n s -> KInv k' m t -> g_losTaskLock k' = n' -> sleepy n' (set_pmKernel (λ _, k') s).
Proof. intros (_ & [] & HD & [] & _) HK El. split_and!; [by exists m, t|by split|done|by split|done]. Qed.

Lemma quiet_wp h arg n s : quiet_ptr h -> sleepy n s -> is_Some h ->
  wp (call_ptr h arg) (λ _ s', sleepy n s' /\ same_mode s s' /\ (0 < n -> calm s s')) s.
Proof. intros Hq HS [f ->]. unfold call_ptr. wp_step. eapply wp_of_option; [done|]. apply quiet_call; [by apply Hq|done]. Qed.
Lemma quiet_unit_wp h arg n s : quiet_ptr h -> sleepy n s -> is_Some h ->
  wp (call_unit h arg) (λ _ s', sleepy n s' /\ same_mode s s' /\ (0 < n -> calm s s')) s.
Proof. intros Hq HS Hh. unfold call_unit. wp_step. eapply wp_mono; [by apply quiet_wp|]. intros r s' Hr. by apply wp_ret. Qed.
Lemma quiet_if_wp h arg n s : quiet_ptr h -> sleepy n s ->
  wp (call_if h arg) (λ _ s', sleepy n s' /\ same_mode s s') s.
Proof.
  intros Hq HS. unfold call_if. destruct h as [f|]; [|by apply wp_ret]. eapply wp_mono; [by apply quiet_unit_wp|]. by intros [] s' (? & ? & _).
Qed.
Lemma the_sysctrl_wp s (Q : LosPmSysctrl -> PmSys -> Prop) : mode_ok s -> Q (g_sysctrl s) s -> wp the_sysctrl Q s.
Proof. intros HM HQ. unfold the_sysctrl. wp_steps. rewrite (mo_sysctrl _ HM). by wp_steps. Qed.
Lemma the_device_wp s d (Q : LosPmDevice -> PmSys -> Prop) : device s = Some d -> Q (device_at d) s -> wp the_device Q s.
Proof. intros Hd HQ. unfold the_device. wp_steps. eapply wp_of_option; [done|]. by apply wp_ret. Qed.

(** *** The parts *)

Definition with_sysMode (mode : Z) (s : PmSys) : PmSys := set_pmKernel (λ k, set_pm_sysMode (λ _, mode) k) s.
Lemma set_sysMode_wp mode s (Q : unit -> PmSys -> Prop) : Q tt (with_sysMode mode s) -> wp (set_sysMode mode) Q s.
Proof. intros HQ. unfold set_sysMode, kernel. wp_steps. exact HQ. Qed.
Lemma KInv_sysMode k m t f : KInv k m t -> KInv (set_pm_sysMode f k) m t.
Proof. by intros []. Qed.
Lemma sleepy_sysMode n s mode : sleepy n s -> sleepy n (with_sysMode mode s).
Proof.
  intros HS. pose proof HS as ((m & t & HK) & _ & _ & _ & El).
  exact (sleepy_kernel n n s _ m t HS (KInv_sysMode _ _ _ (λ _, mode) HK) El).
Qed.

Lemma check_wp n s :
  sleepy n s ->
  wp OsPmSuspendCheck (λ r s', match r with
    | None => 0 < pm_lock (pmKernel s) /\ s' = with_sysMode LOS_SYS_NORMAL_SLEEP s
    | Some (e, d, mode) => pm_lock (pmKernel s) <= 0 /\ sleepy n s' /\ sysmode s' = pmMode s' /\ quiet_ptr e /\ quiet_ptr d
    end) s.
Proof.
  intros HS. unfold OsPmSuspendCheck. wp_steps. apply set_sysMode_wp. wp_step. unfold pmLock, kernel. wp_steps.
  change (pm_lock (pmKernel (with_sysMode (pmMode s) s))) with (pm_lock (pmKernel s)).
  destruct (Z.gtb_spec (pm_lock (pmKernel s)) 0) as [Hl|Hl].
  - wp_step. apply set_sysMode_wp. apply wp_ret. split; [lia|]. by destruct s.
  - assert (HS1 : sleepy n (with_sysMode (pmMode s) s)) by by apply sleepy_sysMode.
    destruct HS1 as (HK & HM & [d Hd] & HH & El). wp_step. apply the_sysctrl_wp; [by destruct HM|]. wp_steps.
    eapply the_device_wp; [exact Hd|]. apply wp_ret. split; [lia|]. split_and!.
    + split_and!; [done|by destruct HM|by exists d|by destruct HH|done].
    + done.
    + apply HH.
    + by apply (hq_dev _ HH).
Qed.

Lemma prepare_wp n s e d mode :
  sleepy n s -> quiet_ptr e -> quiet_ptr d ->
  wp (OsPmSuspendPrepare e d mode) (λ _ s', sleepy n s' /\ same_mode s s') s.
Proof.
  intros HS He Hd. unfold OsPmSuspendPrepare.
  assert (Hone : ∀ h s (Q : Z -> PmSys -> Prop), quiet_ptr h -> sleepy n s -> (∀ r s', sleepy n s' -> same_mode s s' -> Q r s') ->
    wp (match h with None => mret LOS_OK | Some _ => call_ptr h mode end) Q s).
  { intros h s0 Q Hq HS0 HQ. destruct h as [f|]; [|apply wp_ret; by apply HQ].
    eapply wp_mono; [by apply quiet_wp|]. intros r s' (? & ? & _). by apply HQ. }
  wp_step. apply Hone; [done..|]. intros r s1 HS1 Hm1. destruct (negb _); [by apply wp_ret|].
  wp_step. apply Hone; [done..|]. intros r2 s2 HS2 Hm2.
  assert (same_mode s s2) by (destruct Hm1, Hm2; split; congruence). destruct (negb _); by apply wp_ret.
Qed.

Lemma tick_stop_wp n s :
  sleepy n s -> 0 < n ->
  wp OsPmTickTimerStop (λ _ s', sleepy n s' /\ same_mode s s' /\ calm s s') s.
Proof.
  intros HS Hn. pose proof HS as ((m & t & HK) & HM & HD & HH & El). unfold OsPmTickTimerStop, sysMode, kernel. wp_steps.
  eapply wp_mono; [by eapply kinv_cycle|]. intros now k1 (Ha & HK1 & _).
  assert (E1 : g_losTaskLock k1 = n /\ pm_sysMode k1 = sysmode s /\ pm_lock k1 = pm_lock (pmKernel s)).
  { destruct Ha as (r & rid & tm & base & old & u & -> & _ & _). by split_and!. }
  destruct E1 as (E1 & E2 & E3). wp_step. wp_step.
  assert (Hexp : wp (OsSchedGetNextExpireTime now) (λ _ k', k' = k1) k1).
  { unfold OsSchedGetNextExpireTime. wp_steps. rewrite (upd_id k1).
    eapply wp_mono; [eapply OsGetNextExpireTime_wp; apply HK1|]. by intros v k' [-> _]. }
  eapply wp_mono; [exact Hexp|]. intros expire k2 ->. wp_steps. set (s1 := set_pmKernel _ _).
  assert (HS1 : sleepy n s1) by (exact (sleepy_kernel n n s k1 m t HS HK1 E1)).
  assert (Hc : same_mode s s1 /\ calm s s1) by by split_and!.
  change (tickTimer _) with (tickTimer s). destruct (tickTimer s) as [p|] eqn:Ep; [|by apply wp_ret].
  destruct (hq_tick _ HH p Ep) as (Hq & _ & Hstart). destruct (mo_timer _ HM p Ep) as (Hl & _).
  destruct (_ || _); [by apply wp_ret|]. rewrite Hstart. cbn [is_null negb]. wp_step.
  eapply wp_mono; [by apply (quiet_unit_wp (tickLock (tickTimer_at p)) 0 n)|]. intros [] s2 (HS2 & Em & Hcalm). apply wp_ret.
  destruct (Hcalm Hn) as [C1 C2]. destruct Hc as ([Em1 Em2] & C3 & C4), Em. split; [done|]. split; split; congruence.
Qed.

Lemma tick_start_wp n s : sleepy n s -> wp OsPmTickTimerStart (λ _ s', sleepy n s') s.
Proof.
  intros HS. pose proof HS as (_ & HM & _ & HH & _). unfold OsPmTickTimerStart. wp_steps.
  destruct (tickTimer s) as [p|] eqn:Ep; [|by apply wp_ret]. destruct (hq_tick _ HH p Ep) as (_ & Hq & Hstart).
  destruct (mo_timer _ HM p Ep) as (_ & Hu & Hall). assert (Hstop : timerStop (tickTimer_at p) = None).
  { destruct Hall as [(_ & ? & _)|[[? E] _]]; [done|congruence]. }
  destruct (is_null (tickUnlock _)); [by apply wp_ret|]. rewrite Hstop. cbn [is_null negb].
  eapply wp_mono; [by apply (quiet_unit_wp (tickUnlock (tickTimer_at p)) 0 n)|]. by intros [] s' (? & _).
Qed.

Lemma cpu_suspend_wp n s :
  sleepy n s -> 0 < n -> pm_lock (pmKernel s) <= 0 -> isWake s = false -> sysmode s = pmMode s ->
  wp OsPmCpuSuspend (λ _ s', sleepy n s') s.
Proof.
  intros HS Hn Hl Hw Hmode. pose proof HS as (_ & HM & _). unfold OsPmCpuSuspend, sysMode, kernel. wp_steps.
  apply the_sysctrl_wp; [by destruct HM|]. change (pm_sysMode (pmKernel s)) with (sysmode s).
  assert (Hh : is_Some (enter_handler (g_sysctrl s) (sysmode s))) by (rewrite Hmode; apply HM). destruct Hh as [f Hf].
  assert (Hcall : ∀ h, h = Some f -> wp (call_unit h 0) (λ _ s', sleepy n s') s).
  { intros h ->. unfold call_unit, call_ptr. wp_step. wp_step. eapply wp_of_option; [done|].
    eapply wp_mono; [by apply (enter_call f n)|]. intros r s' ?. by apply wp_ret. }
  assert (E : set_pmKernel (λ _, pmKernel s) s = s) by by destruct s. rewrite E. change (g_sysctrl _) with (g_sysctrl s).
  unfold enter_handler in Hf. repeat case_match; by apply Hcall.
Qed.
Lemma cpu_resume_wp n s : sleepy n s -> wp OsPmCpuResume (λ _ s', sleepy n s') s.
Proof.
  intros HS. pose proof HS as (_ & HM & _ & HH & _). unfold OsPmCpuResume, sysMode, kernel. wp_steps.
  assert (E : set_pmKernel (λ _, pmKernel s) s = s) by by destruct s. rewrite E. apply the_sysctrl_wp; [done|].
  assert (Hone : ∀ h, quiet_ptr h -> negb (is_null h) = true -> wp (call_unit h 0) (λ _ s', sleepy n s') s).
  { intros h Hq Hh. eapply wp_mono; [apply (quiet_unit_wp h 0 n); [done|done|by destruct h]|]. by intros [] s' (? & _). }
  repeat (destruct (_ && _) eqn:Eb; [apply andb_true_iff in Eb as [_ Eb]; apply Hone; [apply HH|done]|clear Eb]). by apply wp_ret.
Qed.

Lemma KInv_response k m t f : KInv k m t -> KInv (set_g_schedResponseTime f k) m t.
Proof. by intros []. Qed.

Lemma cpu_wp n s mode :
  sleepy n s -> 0 < n -> pm_lock (pmKernel s) <= 0 -> isWake s = false -> sysmode s = pmMode s ->
  wp (OsPmSuspendSleep_cpu mode) (λ _ s', sleepy n s') s.
Proof.
  intros HS Hn Hl Hw Hmode. unfold OsPmSuspendSleep_cpu. wp_step. pose proof HS as (_ & HM & _ & HH & _). apply the_sysctrl_wp; [done|].
  wp_step. apply (wp_mono _ (λ _ s1, sleepy n s1 /\ pm_lock (pmKernel s1) <= 0 /\ isWake s1 = false /\ sysmode s1 = pmMode s1)).
  { destruct (suspendCheck (g_sysctrl s)) as [f|] eqn:Ef; [|by apply wp_ret]. rewrite <- Ef. wp_step.
    unfold call_unit, call_ptr. do 2 wp_step. eapply wp_of_option; [exact Ef|].
    eapply wp_mono; [by apply (check_call f mode n); [apply HH|..]|]. intros r s1 (HS1 & C1 & C2). wp_steps. apply set_sysMode_wp.
    split_and!; [by apply sleepy_sysMode|cbn; lia|cbn; congruence|done]. }
  intros [] s1 (HS1 & Hl1 & Hw1 & Hm1). wp_step. eapply wp_mono; [by apply (tick_stop_wp n)|].
  intros stop s2 (HS2 & [Em2 Ep2] & Hl2 & Hw2). wp_step.
  apply (wp_mono _ (λ _ s3, sleepy n s3 /\ pm_lock (pmKernel s3) <= 0 /\ isWake s3 = false /\ sysmode s3 = sysmode s2 /\ pmMode s3 = pmMode s2)).
  { destruct stop; cbn [negb when]; [apply wp_ret; split_and!; [done|lia|congruence|done|done]|].
    pose proof HS2 as ((m & t & HK) & _ & _ & _ & El). unfold kernel. wp_steps. unfold OsSchedResetSchedResponseTime. wp_steps.
    apply (wp_mono _ (λ _ k', ∃ r, k' = set_g_schedResponseTime r (pmKernel s2))).
    { destruct (_ <=? _); cbn [when]; [apply wp_modify; by eexists|]. apply wp_ret. exists id. by destruct (pmKernel s2). }
    intros [] k3 [r ->]. wp_steps. apply (KInv_response _ _ _ r) in HK.
    eapply wp_mono; [by eapply kinv_update_expire|]. intros [] k4 Ha. pose proof (KInv_arm _ _ _ _ HK Ha) as HK4.
    assert (E : g_losTaskLock k4 = n /\ pm_sysMode k4 = sysmode s2 /\ pm_lock k4 = pm_lock (pmKernel s2)).
    { destruct Ha as (r0 & rid & tm & base & old & u & -> & _ & _). by split_and!. }
    destruct E as (E1 & E2 & E3). split_and!; [exact (sleepy_kernel n n s2 k4 m t HS2 HK4 E1)|cbn; lia|cbn; congruence|done|done]. }
  intros [] s3 (HS3 & Hl3 & Hw3 & Em3 & Epm). wp_step. eapply wp_mono; [apply (cpu_suspend_wp n); [done..|congruence]|].
  intros [] s4 HS4. wp_step. eapply wp_mono; [by apply cpu_resume_wp|]. intros [] s5 HS5. by apply tick_start_wp.
Qed.

Lemma resume_prepare_wp n s mode prepare :
  sleepy n s -> wp (OsPmResumePrepare mode prepare) (λ _ s', sleepy n s' /\ same_mode s s') s.
Proof.
  intros HS. unfold OsPmResumePrepare. wp_step.
  apply (wp_mono _ (λ _ s1, sleepy n s1 /\ same_mode s s1)).
  { destruct (_ =? _); [|by apply wp_ret]. wp_step. pose proof HS as (_ & _ & [d Hd] & HH & _). eapply the_device_wp; [done|].
    apply quiet_if_wp; [by apply (hq_dev _ HH)|done]. }
  intros [] s1 (HS1 & M1). destruct (_ || _); [|by apply wp_ret]. wp_step. pose proof HS1 as (_ & HM & _ & HH & _). apply the_sysctrl_wp; [done|].
  eapply wp_mono; [apply quiet_if_wp; [by apply HH|done]|]. intros [] s2 (HS2 & M2). split; [done|]. destruct M1, M2. split; congruence.
Qed.

Lemma pm_exit_wp n s mode prepare :
  sleepy n s -> 0 < n < 2 ^ 16 ->
  wp (OsPmSuspendSleep_exit mode prepare) (λ _ s', sleepy (n - 1) s' /\ sysmode s' = LOS_SYS_NORMAL_SLEEP) s.
Proof.
  intros HS Hn. unfold OsPmSuspendSleep_exit. wp_step. apply set_sysMode_wp. wp_step.
  eapply wp_mono; [by apply resume_prepare_wp, sleepy_sysMode|]. intros [] s1 (HS1 & Em & _).
  pose proof HS1 as ((m & t & HK) & _ & _ & _ & El). unfold kernel. wp_steps. assert (K : keeps pm_sysMode LOS_TaskUnlock) by keeps.
  eapply wp_mono; [refine (wp_keeps _ _ _ _ K (unlock_wp _ _ _ HK _)); lia|].
  intros [] k2 ((HK2 & El2 & _) & E2). split; [|exact (eq_trans E2 Em)].
  refine (sleepy_kernel n _ s1 k2 m t HS1 HK2 _). lia.
Qed.

Lemma pm_suspend_wp n s w :
  sleepy n s -> 0 <= n < 2 ^ 16 - 1 ->
  wp (LOS_PmSuspend w) (λ ret s', sleepy n s' /\ sysmode s' = LOS_SYS_NORMAL_SLEEP /\
    (0 < pm_lock (pmKernel s) -> ret = LOS_NOK /\ s' = with_sysMode LOS_SYS_NORMAL_SLEEP s)) s.
Proof.
  intros HS Hn. unfold LOS_PmSuspend, OsPmSuspendSleep. wp_step. eapply wp_mono; [by apply (check_wp n)|].
  intros [[[e d] mode]|] s1; [|intros [Hl ->]; apply wp_ret; split_and!; [by apply sleepy_sysMode|done|done]].
  intros (Hl & HS1 & Em & He & Hd). wp_step. eapply wp_mono; [by apply (prepare_wp n)|]. intros [ret prepare] s2 (HS2 & M1 & M2).
  pose proof HS2 as ((m & t & HK) & _ & _ & _ & El). unfold kernel. do 2 wp_step. unfold LOS_TaskLock. wp_step. set (s3 := set_pmKernel _ _).
  assert (HS3 : sleepy (n + 1) s3).
  { refine (sleepy_kernel n _ s2 _ m t HS2 (KInv_lock _ _ _ _ HK) _). cbn. rewrite El, u16_id; lia. }
  assert (Em3 : sysmode s3 = pmMode s3) by (unfold s3; cbn; unfold sysmode in *; cbn in *; congruence).
  wp_step. apply (wp_mono _ (λ _ s4, sleepy (n + 1) s4)).
  { destruct (negb _); [by apply wp_ret|]. wp_step. wp_step. unfold pmLock, kernel. wp_steps.
    assert (E : set_pmKernel (λ _, pmKernel s3) s3 = s3) by by destruct s3. rewrite E.
    destruct (isWake s3) eqn:Ew; [by apply wp_ret|]. cbn [orb].
    destruct (Z.gtb_spec (pm_lock (pmKernel s3)) 0); [by apply wp_ret|]. apply cpu_wp; [done|lia|lia|done..]. }
  intros [] s4 HS4. wp_step. eapply wp_mono; [apply (pm_exit_wp (n + 1)); [done|lia]|]. intros [] s5 (HS5 & E5). apply wp_ret.
  replace n with (n + 1 - 1) by lia. split_and!; [done|done|lia].
Qed.
End suspension.

(** C27: After the start of the power management and any registrations, unregistrations, mode
    changes and wake-up requests, the selected mode is one of the four, its handler and that of
    the normal mode are present, a mode other than the normal one has a device, the registered
    device is complete, and the registered tick timer can be locked and unlocked and has either
    all of the low-power timer or nothing of it. LOS_PmModeSet accepts exactly the modes that
    have a handler and, except the normal one, a device; it selects the mode it accepts and
    changes nothing when it refuses. The tick timer and the resume handler that los_pm.h demands
    for deep sleep and shutdown are not among its conditions. *)
Theorem pm_mode_kept s m t fl lw ops mode :
  KInv (pmKernel s) m t -> SwtmrInv (pmKernel s) m fl lw -> ~ owned m (EventList g_pmEvent) -> Rep (lockNodes s) ∅ ->
  Forall pm_op_ok ops -> 0 <= mode < 2 ^ 31 ->
  wp (let* _ := OsPmInit in run_pms ops) (λ _ s1, mode_ok s1 /\
    wp (LOS_PmModeSet mode) (λ ret s', mode_ok s' /\ (ret = LOS_OK -> LOS_PmModeGet s' = Some (mode, s')) /\ (ret <> LOS_OK -> s' = s1) /\
      (ret = LOS_OK <-> mode_accepted s1 mode)) s1) s.
Proof.
  intros HK HS Hno HR Hops Hmode. wp_step. eapply wp_mono; [by eapply init_wp|]. intros ret s0 (_ & HM & _).
  eapply wp_mono; [by apply run_pms_wp|]. intros [] s1 HM1. split; [done|].
  eapply wp_mono; [apply wp_conj; [by apply mode_set_wp|by apply mode_accept_wp; [apply HM1|..|apply HM1]]|].
  intros ret1 s' ((HM' & Hok & Hno') & Hacc). split; [done|]. split; [by intros <-%Hok|]. by split.
Qed.

(** C35: LOS_PmSuspend enters a low-power mode only with the scheduler locked, with no lock held
    and no wake-up requested since the check, in the selected mode and through its handler,
    which is present; it gives the scheduler lock back, leaves the kernel and the module well
    formed and the system mode normal, and with a lock held it only fails (for handlers that
    keep their contract, a registered device and no separate low-power timer). *)
Theorem pm_suspend_correct quiet checks `{!Handlers quiet checks} n s wakeCount :
  sleepy quiet checks n s -> 0 <= n < 2 ^ 16 - 1 ->
  wp (LOS_PmSuspend wakeCount) (λ ret s', sleepy quiet checks n s' /\ sysmode s' = LOS_SYS_NORMAL_SLEEP /\
    (0 < pm_lock (pmKernel s) -> ret = LOS_NOK /\ s' = with_sysMode LOS_SYS_NORMAL_SLEEP s)) s.
Proof. intros HS Hn. by apply (pm_suspend_wp quiet checks). Qed.
End PmSuspend.
