(* ===== verification/System.v ===== *)
(** The system: tasks that call the kernel, the exception that switches tasks and
    the tick interrupt, as a step relation; every reachable state satisfies the
    invariants and no step faults. *)

From S2P Require Import Prelude Errno LosList Kernel Tick SortLink Sched SchedInv SchedTime SchedSwitch KernelInv Waits Sem Mux Event Queue QueueInv Task Swtmr Calls.

(** ** More fuel *)

(** [m'] does what [m] does when [m] does not fault. *)
Definition refines {S A} (m m' : M S A) : Prop := ∀ s r, m s = Some r -> m' s = Some r.

Section refines.
Context {S : Type}.
Lemma refines_refl {A} (m : M S A) : refines m m.
Proof. by intros s r. Qed.
Lemma refines_bind {A B} (m m' : M S A) (f f' : A -> M S B) :
  refines m m' -> (∀ a, refines (f a) (f' a)) -> refines (mbind f m) (mbind f' m').
Proof.
  intros Hm Hf s r. unfold mbind, M_bind. destruct (m s) as [[a s1]|] eqn:E; [|done]. rewrite (Hm _ _ E). apply Hf.
Qed.
Lemma refines_when b (m m' : M S unit) : refines m m' -> refines (when b m) (when b m').
Proof. destruct b; [done|]. intros _. apply refines_refl. Qed.
End refines.

Ltac refines :=
  repeat first [assumption | apply refines_refl | apply refines_bind; [|intros] | apply refines_when
               | match goal with |- refines (match ?x with _ => _ end) _ => destruct x end].

Section fuel.
Context `{Platform}.
Lemma scan_loop_fuel n n' node now need :
  (n <= n')%nat -> refines (OsSwtmrScan_loop n node now need) (OsSwtmrScan_loop n' node now need).
Proof.
  revert n' node need. induction n as [|n IH]; intros [|n'] node need Hn; [by intros s r|by intros s r|lia|].
  cbn [OsSwtmrScan_loop]. assert (IH' := λ node need, IH n' node need ltac:(lia)). refines; apply IH'.
Qed.
Lemma tick_fuel n n' : (n <= n')%nat -> refines (OsTickHandler (OsSwtmrScan n)) (OsTickHandler (OsSwtmrScan n')).
Proof. intros Hn. unfold OsTickHandler, LOS_SchedTickHandler, OsSwtmrScan. refines; by apply scan_loop_fuel. Qed.
End fuel.

(** ** The system *)

Section System.
Context `{TimerLaws} `{Events}.

(** The kernel and, for every task that waits inside a call, the rest of the call. *)
Record Sys := mk_Sys { kern : Kernel; rest : gmap Z (Kernel -> option (Proc Z * Kernel)) }.

Definition settle (t : Z) (p : Proc Z) (r : gmap Z (Kernel -> option (Proc Z * Kernel))) :=
  match p with Done _ => delete t r | Blocked q => <[t := q]> r end.

Inductive step : Sys -> Sys -> Prop :=
| step_call k r t c p k' :
    runTask k = Some t -> pendSV k = false -> r !! t = None -> call_ok k t c -> run_call c k = Some (p, k') ->
    step (mk_Sys k r) (mk_Sys k' (settle t p r))
| step_return k r t q p k' :
    runTask k = Some t -> pendSV k = false -> r !! t = Some q -> q k = Some (p, k') ->
    step (mk_Sys k r) (mk_Sys k' (settle t p r))
| step_switch k r k' :
    pendSV k = true -> ArchPendSV k = Some (tt, k') -> step (mk_Sys k r) (mk_Sys k' r)
| step_tick k r tm fuel k' :
    timer_irq (g_sysTickTimer k) = Some tm ->
    OsTickHandler (OsSwtmrScan fuel) (set_g_sysTickTimer (λ _, tm) k) = Some (tt, k') -> step (mk_Sys k r) (mk_Sys k' r).

Definition sys_ok (s : Sys) : Prop :=
  ∃ W m t fl lw, SysInv W (kern s) m t fl lw /\ ∀ x, rest s !! x = rest_of x <$> W !! x.

(** *** Calls on queues *)

Lemma SysInv_queue W W' ms' q rw k k' m m' t fl lw :
  SysInv W k m t fl lw -> KInv k' m' t -> QInv (calls W') ms' k' m' -> queue_call q rw k k' m m' -> events_known W' ->
  not_queue k' = not_queue k -> ids k' = ids k -> SysInv W' k' m' t fl lw.
Proof.
  intros [(HK & HS & c & msgs & [Q1 Q2 Q3 Q4 Q5 Q6]) S2 S3 S4 S5 S6] HK' HQ [Hls Hq] HE [= E1 E2 E3 E4 E5 E6 E7 E8] Ei.
  split; [|eapply (ObjInv_lists (rwList q rw)); try done; unfold rwList; by destruct (_ =? _)|done|by rewrite E4|by rewrite E5|by rewrite Ei].
  split_and!; [done| |].
  - eapply SwtmrInv_frame; [exact HS|done|done| |by eapply timers_are].
    destruct Hls as (_ & W2 & _). apply W2; try done. unfold rwList. by destruct (_ =? _).
  - destruct (Hq _ _ Q2) as (c' & Hc' & Esz & Est).
    assert (Hu : queueState c' <> OS_QUEUE_UNUSED) by (rewrite Est; apply Q3). rewrite <- E3 in Hc'.
    destruct (qi_queue _ _ _ _ HQ _ _ Hc' Hu) as (msgs' & Hms & Htok). exists c', msgs'. split; rewrite ?E3 in *; try done.
    + apply Htok.
    + by rewrite Esz.
    + by apply (qi_lists _ _ _ _ HQ _ c').
    + by exists ms'.
Qed.

Lemma operate_sys_wp W k m t fl lw op timeOut :
  SysInv W k m t fl lw -> W !! t = None -> queue_call_ok k t op ->
  wp (OsQueueOperate (qo_queue op) (qo_type op) (qo_buffer op) (qo_size op) timeOut) (λ p k', went W t (pmap fst p) k') k.
Proof.
  intros HS HW ([ct Hmay] & Hq & c & Hc & Hfit). pose proof (sy_tick _ _ _ _ _ _ HS) as (HK & _ & ch & mh & HH).
  destruct (hq_all _ _ _ _ _ HH) as (ms & HQ & _).
  eapply wp_mono; [apply (wp_kept not_queue); [keeps..|];
    exact (operate_wp (calls W) ms k m t ct c op timeOut HK HQ (calls_none W t HW) Hmay Hc Hfit)|].
  intros p k' ((m' & HK' & HO) & E & Ei). destruct (_ =? 0); [destruct (_ =? _)|].
  - destruct HO as ([r ->] & -> & ->). by eapply went_done.
  - destruct HO as (-> & HQ' & Hcall). apply (went_blocked W t (WQueue op) k' m' fl lw). rewrite <- calls_queue in HQ'.
    eapply SysInv_queue; try done. apply events_known_insert; [apply HS|done].
  - destruct HO as (msgs & -> & _ & HQ' & Hcall). apply (went_done W t _ k' m' fl lw). eapply SysInv_queue; try done. apply HS.
Qed.

Lemma queue_call_wp W k m t fl lw c :
  SysInv W k m t fl lw -> W !! t = None -> call_ok k t c ->
  match c with CQueueRead _ _ _ _ | CQueueWrite _ _ _ _ | CQueueWriteHead _ _ _ _ => True | _ => False end ->
  wp (run_call c) (went W t) k.
Proof.
  intros HS HW Hok Hc. destruct c; try done; cbn [run_call call_ok] in *; unfold queue_code; wp_step.
  all: assert (Hargs : queue_args_ok k q size timeout) by
    (destruct Hok as ([ct Hmay] & Hq & c & _ & (_ & _ & Hs & _)); split_and!; [apply Hq..|apply Hs|apply Hs|right; apply Hmay]).
  all: unfold LOS_QueueReadCopy, LOS_QueueWriteCopy, LOS_QueueWriteHeadCopy; cbn [default]; rewrite !bool_decide_true by done; wp_step.
  - eapply read_check_wp; [done|]. cbn [negb Z.eqb LOS_OK]. eapply wp_mono; [by apply (operate_sys_wp W k m t fl lw (mk_QOp q ReadHead buffer size))|].
    intros p k' Hp. by apply wp_ret.
  - eapply write_check_wp; [done|]. cbn [negb Z.eqb LOS_OK]. eapply wp_mono; [by apply (operate_sys_wp W k m t fl lw (mk_QOp q WriteTail buffer size))|].
    intros p k' Hp. by apply wp_ret.
  - eapply write_check_wp; [done|]. cbn [negb Z.eqb LOS_OK]. eapply wp_mono; [by apply (operate_sys_wp W k m t fl lw (mk_QOp q WriteHead buffer size))|].
    intros p k' Hp. by apply wp_ret.
Qed.

(** *** Calls on timers *)

Lemma SysInv_timer W k k' m m' t fl lw fl' lw' :
  SysInv W k m t fl lw -> KInv k' m' t -> SwtmrInv k' m' fl' lw' -> lists_shrink SwtmrSortLink m m' -> not_timers k' = not_timers k ->
  ids k' = ids k -> SysInv W k' m' t fl' lw'.
Proof.
  intros [(HK & _ & c & msgs & HQ) S2 S3 S4 S5 S6] HK' HS' Hls [= E1 E2 E3 E4 E5 E6 E7 E8] Ei.
  split; [|by eapply (ObjInv_lists SwtmrSortLink)|done|by rewrite E3|by rewrite E4|by rewrite Ei].
  split_and!; [done|done|]. exists c, msgs. eapply (handler_frame (calls W) SwtmrSortLink); try done. by apply waits_kept_same.
Qed.

Lemma timer_call_wp W k m t fl lw c :
  0 < LOSCFG_BASE_CORE_SWTMR_LIMIT <= 2 ^ 16 -> SysInv W k m t fl lw -> call_ok k t c ->
  match c with CSwtmrCreate _ _ _ _ | CSwtmrStart _ | CSwtmrStop _ | CSwtmrDelete _ | CSwtmrHandle _ _ _ => True | _ => False end ->
  wp (run_call c) (went W t) k.
Proof.
  intros Hlim HI Hok Hc. pose proof (sy_tick _ _ _ _ _ _ HI) as (HK & HS & _).
  assert (Hret : ∀ A (op : M Kernel A) g, keeps not_timers op -> keeps ids op ->
    wp op (λ _ k', ∃ m' fl' lw', KInv k' m' t /\ SwtmrInv k' m' fl' lw' /\ lists_shrink SwtmrSortLink m m') k ->
    wp (let* r := op in returns (g r)) (went W t) k).
  { intros A op g K1 K2 Hw. apply went_returns. eapply wp_mono; [exact (wp_kept not_timers _ _ _ K1 K2 Hw)|].
    intros a k' ((m' & fl' & lw' & HK' & HS' & Hls) & E1 & E2). exists m', fl', lw'. by eapply SysInv_timer. }
  assert (Hw : ∀ id, 0 <= id < OS_SWTMR_MAX_TIMERID -> is_Some (g_swtmrCBArray k !! swtmr_index id)).
  { intros id Hid. apply (sw_dom _ _ _ _ HS). unfold swtmr_index. apply Z.mod_pos_bound. lia. }
  assert (Hsame : ∃ m' fl' lw', KInv k m' t /\ SwtmrInv k m' fl' lw' /\ lists_shrink SwtmrSortLink m m')
    by (exists m, fl, lw; split_and!; [done|done|apply lists_shrink_refl]).
  destruct c; try done; cbn [run_call call_ok] in *.
  - destruct Hok as (Hi & Hh & Hm). apply (Hret _ _ fst); [keeps..|].
    eapply wp_mono; [by apply (swtmr_create_api_wp k m t fl lw)|]. intros r k' (HK' & HQ). destruct fl as [|i fl].
    + destruct HQ as [_ ->]. done.
    + destruct HQ as (w & w' & _ & _ & _ & HS' & _). exists m, fl, lw. split_and!; [done|done|apply lists_shrink_refl].
  - destruct (Hw id Hok) as [w Hw']. apply (Hret _ _ (λ r, r)); [keeps..|].
    eapply wp_mono; [eapply (swtmr_start_api_wp k m t fl lw id w); [apply (sy_rate _ _ _ _ _ _ HI)|done..]|].
    intros r k' HQ. cbv beta zeta in HQ. refused HQ. destruct HQ as (_ & m' & lw' & now & w' & HK' & Hls & HS' & _). by exists m', fl, lw'.
  - destruct (Hw id Hok) as [w Hw']. apply (Hret _ _ (λ r, r)); [keeps..|].
    eapply wp_mono; [by eapply (swtmr_stop_api_wp Hlim k m t fl lw id w)|].
    intros r k' HQ. cbv beta zeta in HQ. refused HQ. destruct HQ as (_ & m' & HK' & Hls & HS' & _). by eexists m', fl, _.
  - destruct (Hw id Hok) as [w Hw']. apply (Hret _ _ (λ r, r)); [keeps..|].
    eapply wp_mono; [by eapply (swtmr_delete_api_wp Hlim k m t fl lw id w)|].
    intros r k' HQ. cbv beta zeta in HQ. refused HQ. destruct HQ as (_ & m' & HK' & Hls & HS' & _). by eexists m', _, _.
  - apply (Hret _ _ (λ _, LOS_OK)); [keeps..|]. eapply wp_mono; [by apply (swtmr_handle_wp k m t fl lw)|]. intros [call|] k' [HK' HQ].
    + destruct HQ as (_ & w & _ & _ & HS' & _). eexists m, _, lw. split_and!; [done|exact HS'|apply lists_shrink_refl].
    + by destruct HQ as [-> _].
Qed.

(** *** The rest of a call *)

Lemma SysInv_woken W w k k' m t fl lw :
  SysInv W k m t fl lw -> W !! t = Some w -> queue_part w = None -> KInv k' m t -> others_kept (Some t) TaskSortLink k m k' m ->
  (∀ e, is_Some (eventIDs k !! e) -> is_Some (eventIDs k' !! e)) -> not_event k' = not_event k -> ids k' = ids k ->
  SysInv (delete t W) k' m t fl lw.
Proof.
  intros HS HW Hw HK' Hk HV E Ei. assert (Ec : common k' = common k) by (injection E; unfold common, timers; congruence).
  assert (E1 : g_allSem k' = g_allSem k) by (injection E; congruence). assert (E2 : g_allMux k' = g_allMux k) by (injection E; congruence).
  destruct (sy_objs _ _ _ _ _ _ HS) as (HM & HX & HE). pose proof (kept_shrink _ _ _ _ _ _ Hk) as Hls.
  eapply (SysInv_kept W _ (Some t) TaskSortLink); try done; [| |not_queue_list| |by eapply calls_leave].
  - split_and!; [by eapply (SemInv_lists TaskSortLink)|by eapply (MuxInv_lists TaskSortLink)|]. intros e He. destruct (HE e He). auto.
  - apply events_known_delete, HS.
  - intros x [= <-]. unfold calls. by rewrite lookup_omap, HW.
Qed.

(** A task runs again after its wait: the wait has timed out, or not. *)
Lemma woken_wp k m t a (next : M Kernel Z) Q :
  KInv k m t -> pendSV k = false -> wp next Q k ->
  (∀ k', KInv k' m t -> others_kept (Some t) TaskSortLink k m k' m -> eventIDs k' = eventIDs k -> Q a k') ->
  wp (let* c := tcb t in
      if test (taskStatus c) OS_TASK_STATUS_TIMEOUT then clear_status t OS_TASK_STATUS_TIMEOUT ;;; mret a else next) Q k.
Proof.
  intros HK Hp Hn HQ. destruct (ki_live _ _ _ HK Hp) as (c & Hc & _). wp_step. eapply wp_tcb; [done|]. destruct (test _ _); [|done].
  assert (K : keeps eventIDs (clear_status t OS_TASK_STATUS_TIMEOUT)) by keeps.
  wp_step. eapply wp_mono; [exact (wp_keeps _ _ _ _ K (clear_timeout_wp k m t c HK Hp Hc))|].
  intros [] k' ((HK' & ET & _) & EV). apply wp_ret. apply HQ; [done| |done]. eapply kept_update; [done|exact Hc|exact ET|by left].
Qed.

Lemma wp_resuming {A} (op : M Kernel A) (Q : Proc A -> Kernel -> Prop) k : wp op (λ a k', Q (Done a) k') k -> wp (resuming op) Q k.
Proof. unfold wp, resuming. by destruct (op k) as [[a k']|]. Qed.

Lemma return_object_wp W k m t fl lw w :
  SysInv W k m t fl lw -> W !! t = Some w -> queue_part w = None -> pendSV k = false ->
  wp (rest_of t w) (λ p k', (∃ r, p = Done r) /\ ∃ m', SysInv (delete t W) k' m' t fl lw) k.
Proof.
  intros HS HW Hw Hp. pose proof (proj1 (sy_tick _ _ _ _ _ _ HS)) as HK.
  assert (Hret : ∀ op : M Kernel Z, keeps not_event op -> keeps ids op ->
    wp op (λ _ k', KInv k' m t /\ others_kept (Some t) TaskSortLink k m k' m /\ ∀ e, is_Some (eventIDs k !! e) -> is_Some (eventIDs k' !! e)) k ->
    wp (resuming op) (λ p k', (∃ r, p = Done r) /\ ∃ m', SysInv (delete t W) k' m' t fl lw) k).
  { intros op K1 K2 Hop. apply wp_resuming. eapply wp_mono; [exact (wp_kept not_event _ _ _ K1 K2 Hop)|].
    intros a k' ((HK' & Hk & HV) & E & Ei). split; [by eexists|]. exists m. by eapply SysInv_woken. }
  destruct w; try done; cbn [rest_of]; (apply Hret; [keeps|keeps|]); (eapply woken_wp; [done|done| |intros k' HK' Hk EV; by rewrite EV]).
  - apply wp_ret. split_and!; [done|apply kept_refl|done].
  - apply wp_ret. split_and!; [done|apply kept_refl|done].
  - destruct (sy_objs _ _ _ _ _ _ HS) as (_ & _ & HV). destruct (HV _ (sy_events _ _ _ _ _ _ HS _ _ _ _ HW)) as [[id Hid] _]. unfold LOS_EventPoll. wp_step. eapply wp_uwEventID; [done|].
    destruct (event_poll _ _ _) as [ret id']. unfold set_uwEventID. wp_steps. split_and!; [by apply KInv_event|by apply kept_same|].
    intros e'. cbn. rewrite lookup_insert. by case_decide.
Qed.

Lemma return_queue_wp W k m t fl lw op :
  SysInv W k m t fl lw -> W !! t = Some (WQueue op) -> pendSV k = false ->
  wp (rest_of t (WQueue op)) (λ p k', (∃ r, p = Done r) /\ ∃ m', SysInv (delete t W) k' m' t fl lw) k.
Proof.
  intros HS HW Hp. pose proof (sy_tick _ _ _ _ _ _ HS) as (HK & _ & ch & mh & HH).
  destruct (hq_all _ _ _ _ _ HH) as (ms & HQ & _).
  assert (HP : calls W !! t = Some op) by (unfold calls; by rewrite lookup_omap, HW).
  pose proof (events_known_delete W t (sy_events _ _ _ _ _ _ HS)) as Hdel.
  assert (Hop : wp (OsQueueOperate_resume t (qo_queue op) (qo_type op) (qo_buffer op) (qo_size op))
    (λ _ k', ∃ m', SysInv (delete t W) k' m' t fl lw) k).
  { eapply wp_mono; [apply (wp_kept not_queue); [keeps..|]; exact (queue_resume_wp (calls W) ms k m t op HK HQ HP Hp)|].
    intros r k' ((m' & c & cq & HK' & _ & _ & HO) & E & Ei). exists m'. rewrite <- calls_delete in HO. destruct (has c _).
    - destruct HO as (_ & -> & HQ' & Eq). eapply (SysInv_queue W _ ms 0 0); try done. by apply call_same; [apply lists_shrink_refl|].
    - destruct HO as (msgs & _ & _ & _ & HQ' & Hcall). by eapply (SysInv_queue W). }
  revert Hop. unfold wp, rest_of, resuming. destruct (OsQueueOperate_resume _ _ _ _ _ k) as [[r k']|]; [|done].
  intros Hk'. split; [by eexists|done].
Qed.

(** *** All steps *)

Section steps.
Context (Hlim : 0 < LOSCFG_BASE_CORE_SWTMR_LIMIT <= 2 ^ 16).

Lemma call_wp W k m t fl lw c : SysInv W k m t fl lw -> W !! t = None -> call_ok k t c -> wp (run_call c) (went W t) k.
Proof.
  intros HS HW Hok. destruct c.
  all: first [by apply (task_call_wp W k m t fl lw)|by apply (sem_call_wp W k m t fl lw)|by apply (mux_call_wp W k m t fl lw)|by apply (object_call_wp W k m t fl lw)
    |by apply (event_call_wp W k m t fl lw)|by apply (queue_call_wp W k m t fl lw)|by apply (timer_call_wp W k m t fl lw)].
Qed.

Lemma return_wp W k m t fl lw w :
  SysInv W k m t fl lw -> W !! t = Some w -> pendSV k = false ->
  wp (rest_of t w) (λ p k', (∃ r, p = Done r) /\ ∃ m', SysInv (delete t W) k' m' t fl lw) k.
Proof.
  intros HS HW Hp. destruct (queue_part w) as [op|] eqn:E; [|by apply (return_object_wp W k m t fl lw w)]. destruct w; try done. by apply (return_queue_wp W k m t fl lw).
Qed.

Lemma switch_sys_wp W k m t fl lw :
  SysInv W k m t fl lw -> wp ArchPendSV (λ _ k', ∃ m' new, SysInv W k' m' new fl lw) k.
Proof.
  intros HS. assert (K1 : keeps objects ArchPendSV) by keeps. assert (K2 : keeps ids ArchPendSV) by keeps.
  assert (K3 : keeps g_losTaskLock ArchPendSV) by keeps.
  pose proof (pendsv_wp k m t (proj1 (proj1 (sy_rate _ _ _ _ _ _ HS))) (proj1 (sy_tick _ _ _ _ _ _ HS))) as Hw.
  eapply wp_mono; [exact (wp_keeps _ _ _ _ K3 (wp_kept objects _ _ k K1 K2 Hw))|].
  intros [] k' (((m' & new & now & HK' & _ & _ & ET & _ & Hq) & E1 & E2) & E3). exists m', new.
  eapply SysInv_sched; try done; [|rewrite E3; apply HS]. intros x c Hx. pose proof (switch_waits k now t new x) as Hs.
  rewrite Hx, <- ET in Hs. destruct (g_taskCBArray k' !! x) as [c'|]; [|done]. exists c'. split; [done|]. left. by apply (inj Some).
Qed.

Lemma tick_sys_wp fuel W k m t fl lw tm :
  SysInv W k m t fl lw -> timer_irq (g_sysTickTimer k) = Some tm -> (Z.to_nat (2 ^ 63 * Z.of_nat (length lw)) < fuel)%nat ->
  wp (OsTickHandler (OsSwtmrScan fuel)) (λ _ k', ∃ m' lw', SysInv W k' m' t fl lw') (set_g_sysTickTimer (λ _, tm) k).
Proof.
  intros [S1 S2 S3 S4 S5 S6] Hirq Hf. pose proof (tick_wp (calls W) fuel k m t fl lw tm S1 S4 Hirq Hf) as Hw.
  eapply wp_mono; [apply (wp_kept not_tick); [keeps..|exact Hw]|].
  intros [] k' ((m' & lw' & now & HT & _ & _ & _ & _ & Hls) & [= E1 E2 E3 E4 E5] & Ei). exists m', lw'.
  split; [done|by eapply (ObjInv_lists SwtmrSortLink k)|done|by rewrite E1|by rewrite E2|by rewrite Ei].
Qed.

Lemma step_ok s s' : step s s' -> sys_ok s -> sys_ok s'.
Proof.
  intros Hstep (W & m & t & fl & lw & HS & Hr). pose proof (ki_task _ _ _ (proj1 (sy_tick _ _ _ _ _ _ HS))) as Hrt.
  destruct Hstep as [k r t0 c p k' Ht Hp Hn Hc Hrun|k r t0 q p k' Ht Hp Hq Hrun|k r k' Hp Hrun|k r tm fuel k' Hirq Hrun]; cbn in *.
  - assert (t0 = t) as -> by congruence. rewrite Hr in Hn. apply fmap_None in Hn.
    destruct (wp_elim _ _ _ _ _ (call_wp W k m t fl lw c HS Hn Hc) Hrun) as (W' & m' & fl' & lw' & Ha & HS').
    exists W', m', t, fl', lw'. split; [done|]. intros x. destruct Ha as [[[a ->] ->]|(w & -> & ->)]; cbn.
    + rewrite lookup_delete. case_decide; [subst; by rewrite Hn|apply Hr].
    + rewrite !lookup_insert. case_decide; [by subst|apply Hr].
  - assert (t0 = t) as -> by congruence. rewrite Hr in Hq. apply fmap_Some in Hq as (w & Hw & ->).
    destruct (wp_elim _ _ _ _ _ (return_wp W k m t fl lw w HS Hw Hp) Hrun) as ([a ->] & m' & HS').
    exists (delete t W), m', t, fl, lw. split; [done|]. intros x. cbn. rewrite !lookup_delete. case_decide; [done|apply Hr].
  - destruct (wp_elim _ _ _ _ _ (switch_sys_wp W k m t fl lw HS) Hrun) as (m' & new & HS'). by exists W, m', new, fl, lw.
  - set (n := Nat.max fuel (S (Z.to_nat (2 ^ 63 * Z.of_nat (length lw))))).
    assert (Hrun' := tick_fuel fuel n ltac:(lia) _ _ Hrun).
    destruct (wp_elim _ _ _ _ _ (tick_sys_wp n W k m t fl lw tm HS Hirq ltac:(lia)) Hrun') as (m' & lw' & HS').
    by exists W, m', t, fl, lw'.
Qed.

(** What the system can do next: nothing it may do faults. *)
Definition can_go_on (s : Sys) : Prop :=
  ∃ t, runTask (kern s) = Some t /\
    (pendSV (kern s) = true -> ∃ k', ArchPendSV (kern s) = Some (tt, k')) /\
    (pendSV (kern s) = false -> ∀ q, rest s !! t = Some q -> ∃ r k', q (kern s) = Some (Done r, k')) /\
    (rest s !! t = None -> ∀ c, call_ok (kern s) t c -> ∃ p k', run_call c (kern s) = Some (p, k')) /\
    (∀ tm, timer_irq (g_sysTickTimer (kern s)) = Some tm ->
       ∃ fuel k', OsTickHandler (OsSwtmrScan fuel) (set_g_sysTickTimer (λ _, tm) (kern s)) = Some (tt, k')).

Lemma ok_go_on s : sys_ok s -> can_go_on s.
Proof.
  intros (W & m & t & fl & lw & HS & Hr). exists t. split_and!.
  - apply (ki_task _ _ _ (proj1 (sy_tick _ _ _ _ _ _ HS))).
  - intros _. destruct (wp_run _ _ _ (switch_sys_wp W _ m t fl lw HS)) as ([] & k' & E & _). by exists k'.
  - intros Hp q Hq. rewrite Hr in Hq. apply fmap_Some in Hq as (w & Hw & ->).
    destruct (wp_run _ _ _ (return_wp W _ m t fl lw w HS Hw Hp)) as (p & k' & E & [r ->] & _). by exists r, k'.
  - intros Hn c Hc. rewrite Hr in Hn. apply fmap_None in Hn.
    destruct (wp_run _ _ _ (call_wp W _ m t fl lw c HS Hn Hc)) as (p & k' & E & _). by exists p, k'.
  - intros tm Hirq. set (n := S (Z.to_nat (2 ^ 63 * Z.of_nat (length lw)))).
    destruct (wp_run _ _ _ (tick_sys_wp n W _ m t fl lw tm HS Hirq ltac:(lia))) as ([] & k' & E & _). by exists n, k'.
Qed.

(** C1: From a state that satisfies the invariants, every state the system reaches by calls of
    the running tasks on tasks, semaphores, mutexes, events, queues and timers, with the
    creation and deletion of semaphores, mutexes and timers, the turns of the timer task,
    returns of blocked calls, task switches and tick interrupts, in any order, satisfies them
    again: the scheduler's queues and flags, the timed waits, the owners of the mutexes, the
    messages of the queues and the promises to woken tasks, the timers and the clock; and there
    nothing the system may do next faults or fails to terminate. The calls keep their
    preconditions (call_ok): arguments in range and objects in use; a call that can wait comes
    from a task with the scheduler unlocked, not from an interrupt or the idle task, and not
    from a system task except on queues; a mutex is nested less than 2^16 times and unlocked
    outside interrupts; a resumed task is another one that has not ended; a suspension does not
    freeze a timed wait in a low-power mode; and a timer that fires once is not started again
    before the timer task has handled its expiry (the defect at los_swtmr.c:96). There are 1 to
    2^16 timers. *)
Theorem system_safe s s' : sys_ok s -> rtc step s s' -> sys_ok s' /\ can_go_on s'.
Proof.
  intros Hok Hs. assert (Hok' : sys_ok s').
  { revert Hok. induction Hs as [s|s1 s2 s3 Hstep _ IH]; [done|]. intros Hok. apply IH. by eapply step_ok. }
  split; [done|by apply ok_go_on].
Qed.
End steps.
End System.
