(* ===== verification/Board.v ===== *)
(** A small board on which the kernel is run: the configuration, a tick timer
    that satisfies the laws of [TimerLaws], and states reached by starting the
    kernel and calling it.  The theorems of the other files are applied to these
    states, so their hypotheses hold where the kernel really gets. *)

From S2P Require Import Prelude Errno LosList Membox Kernel SysTick Tick SortLink Sched SchedInv SchedTime SchedSwitch KernelInv Check Sem Mux Event Queue Task Swtmr Init.

(** The board, with an allocator for the system heap. *)
Definition board_on (Pool : Type) (alloc : Z -> Pool -> option Z * Pool) (align : Z -> Z -> Pool -> option Z * Pool) (release : option Z -> Pool -> Z * Pool) : Platform := {|
  LOSCFG_BASE_CORE_TSK_LIMIT := 5;
  LOSCFG_BASE_IPC_SEM_LIMIT := 2;
  LOSCFG_BASE_IPC_MUX_LIMIT := 2;
  LOSCFG_BASE_IPC_QUEUE_LIMIT := 3;
  LOSCFG_BASE_CORE_SWTMR_LIMIT := 3;
  LOSCFG_BASE_CORE_TICK_PER_SECOND := 100;
  LOSCFG_BASE_CORE_TICK_PER_SECOND_MINI := 1000;
  LOSCFG_BASE_CORE_TICK_RESPONSE_MAX := 0xFFFFFF;
  LOSCFG_BASE_CORE_TIMESLICE_TIMEOUT := 20000;
  LOSCFG_BASE_CORE_TSK_MIN_STACK_SIZE := 0x130;
  LOSCFG_BASE_CORE_TSK_DEFAULT_STACK_SIZE := 0x500;
  LOSCFG_BASE_CORE_TSK_IDLE_STACK_SIZE := 0x180;
  LOSCFG_BASE_CORE_TSK_SWTMR_STACK_SIZE := 0x500;
  LOSCFG_SYS_HEAP_SIZE := 0x10000;
  LOSCFG_STACK_POINT_ALIGN_SIZE := 8;
  LOSCFG_KERNEL_PM := false;
  LOSCFG_PLATFORM_HWI_LIMIT := 128;
  Timer := SysTick;
  timer_init := SysTickStart 16000000 0xFFFFFF;
  timer_irqNum := -1;
  timer_getCycle := SysTickCycleGet;
  timer_reload := SysTickReload 0xFFFFFF;
  timer_irq := SysTick_irq;
  timer_lock := SysTickLock;
  timer_unlock := SysTickUnlock;
  MemPool := Pool;
  LOS_MemAlloc := alloc;
  LOS_MemAllocAlign := align;
  LOS_MemFree := release;
  fresh_LosSemCB i := mk_LosSemCB 0 0 0 0;
  fresh_LosMuxCB i := mk_LosMuxCB 0 0 0 0 None;
  fresh_byte i := 0;
  ArchTskStackInit id size top := top + size - 100;
  addr_OsIdleTask := 0x08001000;
  addr_IdleCore000 := 0x08002000;
  addr_OsSwtmrTask := 0x08003000;
  addr_Swt_Task := 0x08004000;
|}.

(** Here the heap is a region that is only handed out. *)
#[global] Instance board : Platform := board_on Z
  (λ n p, if p + n <=? 0x20010000 then (Some p, LOS_Align (p + n) 8) else (None, p))
  (λ n a p, if LOS_Align p a + n <=? 0x20010000 then (Some (LOS_Align p a), LOS_Align p a + n) else (None, p))
  (λ a p, (LOS_OK, p)).

(** The memory before the kernel starts. *)
Definition reset : Kernel :=
  mk_Kernel ∅ ∅ 0 0 0 0 false None None false 0 0 0 0 0 0 0 0 (mk_SysTick false 0 0 false (replicate 40 100)) 0 false 0 0 0
    0 0 false 0 0 ∅ ∅ ∅ ∅ ∅ None 0 0x20000000 (mk_BoxMem ∅ 0) false false.
Definition after {A} (m : M Kernel A) (k : Kernel) : Kernel :=
  match m k with Some (_, k') => k' | None => reset end.
Definition ret {A} (m : M Kernel A) (k : Kernel) : option A := fst <$> m k.

#[global] Instance board_timer : TimerLaws (H := board) := {|
  timer_ok := systick_ok : @Timer board -> Z -> Z -> Prop;
  timer_ok_range := systick_range;
  law_getCycle := systick_getCycle;
  law_reload := systick_reload 0xFFFFFF;
  law_irq := systick_irq;
|}.

Definition booted : Kernel := after (LOS_KernelInit (mret LOS_OK)) reset.
Definition task (prio : Z) : TSK_INIT_PARAM_S := mk_TSK_INIT_PARAM_S 0x08005000 prio 0 0 0x400 0x08006000 0.
Definition with_tasks : Kernel := after (let* _ := LOS_TaskCreate true (Some (task 10)) in LOS_TaskCreate true (Some (task 12))) booted.
Definition launched : Kernel := after (LOS_Start 10) with_tasks.


(** ** Checking a state *)

Definition rings (k : Kernel) : gmap Node (list Node) := rings_of (dlists k).
Definition cb (k : Kernel) (t : Z) : LosTaskCB := default zero_LosTaskCB (g_taskCBArray k !! t).
Definition sem_at (k : Kernel) (i : Z) : LosSemCB := default (mk_LosSemCB 0 0 0 0) (g_allSem k !! i).
Definition mux_at (k : Kernel) (i : Z) : LosMuxCB := default (mk_LosMuxCB 0 0 0 0 None) (g_allMux k !! i).
Definition ring (k : Kernel) (hd : Node) : list Node := default [] (rings k !! hd).

Lemma kernel_check k t : bool_decide (kernel_checked k (rings k) t) = true -> clock_ok k -> KInv k (rings k) t.
Proof. intros Hb. apply kernel_check_sound. by apply bool_decide_eq_true in Hb. Qed.

Definition sems_checked (k : Kernel) (m : gmap Node (list Node)) : Prop :=
  map_Forall (λ i s, semID s = i /\
    (semStat s = OS_SEM_UNUSED -> home m (SemList i) UnusedSem) /\
    (semStat s <> OS_SEM_UNUSED -> 0 <= semCount s <= maxSemCount s /\ 0 < maxSemCount s <= OS_SEM_COUNTING_MAX_COUNT /\
      from_option (λ l, 0 < semCount s -> l = []) False (m !! SemList i))) (g_allSem k) /\
  Forall (λ i, is_Some (g_allSem k !! i)) (seqZ 0 LOSCFG_BASE_IPC_SEM_LIMIT) /\
  from_option (Forall (λ n, match n with
    | SemList i => from_option (λ s, semStat s = OS_SEM_UNUSED) False (g_allSem k !! i) | _ => False end))
    False (m !! UnusedSem).
#[global] Instance sems_checked_dec k m : Decision (sems_checked k m).
Proof.
  unfold sems_checked. apply and_dec; [apply _|]. apply and_dec; [apply _|]. apply from_option_dec; [|apply _].
  intros l. apply Forall_dec. intros []; apply _.
Defined.

Lemma sems_check k m : bool_decide (sems_checked k m) = true -> SemInv k m.
Proof.
  intros (Hs & Ha & Hu)%bool_decide_eq_true. split.
  - intros i s Hi. destruct (Hs _ _ Hi) as (H1 & H2 & H3). split; [done..|intros ?%H3; tauto|].
    intros (_ & _ & Hl)%H3. destruct (m !! SemList i); [eauto|done].
  - intros i Hi. rewrite Forall_forall in Ha. apply Ha. apply elem_of_seqZ. lia.
  - destruct (m !! UnusedSem) as [l|]; [|done]. exists l. split; [done|]. eapply Forall_impl; [exact Hu|].
    intros [] Hn; try done. destruct (g_allSem k !! i) as [s|] eqn:E; [|done]. by exists i, s.
Qed.

Definition muxes_checked (k : Kernel) (m : gmap Node (list Node)) : Prop :=
  map_Forall (λ i x, muxID x = i /\
    (muxStat x = OS_MUX_UNUSED -> home m (MuxList i) UnusedMux) /\
    (muxStat x <> OS_MUX_UNUSED -> from_option (λ l, muxCount x = 0 -> l = []) False (m !! MuxList i) /\
      0 <= muxCount x < 2 ^ 16 /\ (muxCount x = 0 -> owner x = None) /\
      (muxCount x <> 0 -> from_option (λ o, is_Some (g_taskCBArray k !! o)) False (owner x) /\
         0 <= muxPriority x < 32))) (g_allMux k) /\
  Forall (λ i, is_Some (g_allMux k !! i)) (seqZ 0 LOSCFG_BASE_IPC_MUX_LIMIT) /\
  from_option (Forall (λ n, match n with
    | MuxList i => from_option (λ x, muxStat x = OS_MUX_UNUSED) False (g_allMux k !! i) | _ => False end))
    False (m !! UnusedMux).
#[global] Instance muxes_checked_dec k m : Decision (muxes_checked k m).
Proof.
  unfold muxes_checked. apply and_dec; [apply _|]. apply and_dec; [apply _|]. apply from_option_dec; [|apply _].
  intros l. apply Forall_dec. intros []; apply _.
Defined.

Lemma muxes_check k m : bool_decide (muxes_checked k m) = true -> MuxInv k m.
Proof.
  intros (Hs & Ha & Hu)%bool_decide_eq_true. split.
  - intros i x Hi. destruct (Hs _ _ Hi) as (H1 & H2 & H3). split; try done.
    + intros (Hl & _)%H3. destruct (m !! MuxList i); [eauto|done].
    + by intros (_ & ? & _)%H3.
    + by intros (_ & _ & ? & _)%H3.
    + intros (_ & _ & _ & Ho)%H3 (Hw & ?)%Ho. destruct (owner x); [eauto|done].
  - intros i Hi. rewrite Forall_forall in Ha. apply Ha. apply elem_of_seqZ. lia.
  - destruct (m !! UnusedMux) as [l|]; [|done]. exists l. split; [done|]. eapply Forall_impl; [exact Hu|].
    intros [] Hn; try done. destruct (g_allMux k !! i) as [x|] eqn:E; [|done]. by exists i, x.
Qed.

(** Closed facts, by evaluation. *)
Ltac eval_done := vm_compute; done.
Ltac kinv := apply kernel_check; [vm_compute; reflexivity|vm_compute; repeat apply conj; try done; repeat constructor; done].
Ltac waits := repeat apply conj; eval_done.

(** ** States of the kernel *)

(** The software timer task waits for its queue, and the first task runs. *)
Definition user_runs : Kernel :=
  after ArchPendSV (after (LOS_QueueReadCopy 0 (Some (replicate 12 0)) (Some 12) LOS_WAIT_FOREVER) launched).

(** Task 2 waits 5 ticks for semaphore 0; then task 3 runs. *)
Definition with_sem : Kernel := after (LOS_SemCreate 0 true) user_runs.
Definition sem_wait : Kernel := after (LOS_SemPend 0 5) with_sem.
Definition sem_next : Kernel := after ArchPendSV sem_wait.

(** Task 3 holds mutex 0 while task 2 waits for semaphore 0; task 3 posts the
    semaphore, so that task 2 runs again and waits for the mutex. *)
Definition with_mux : Kernel := after (LOS_MuxCreate true) sem_next.
Definition mux_held : Kernel := after (LOS_MuxPend 0 LOS_WAIT_FOREVER) with_mux.
Definition mux_high : Kernel := after ArchPendSV (after (LOS_SemPost 0) mux_held).
Definition mux_wait : Kernel := after (LOS_MuxPend 0 LOS_WAIT_FOREVER) mux_high.
Definition mux_low : Kernel := after ArchPendSV mux_wait.

(** Task 2 waits for events 1 and 4 of an event block; then task 3 runs. *)
Definition event0 : EventRef := UserEvt 0.
Definition with_event : Kernel := after (LOS_EventInit (Some event0)) user_runs.
Definition event_wait : Kernel := after ArchPendSV (after (LOS_EventRead (Some event0) 5 LOS_WAITMODE_AND 5) with_event).

(** A queue of three messages of up to 8 bytes, and the messages written to it. *)
Definition with_queue : Kernel := after (LOS_QueueCreate 0 3 true 0 8) user_runs.
Definition queue_two : Kernel :=
  after (LOS_QueueWriteHeadCopy 1 (Some [9; 8]) 2 0) (after (LOS_QueueWriteCopy 1 (Some [1; 2; 3]) 3 0) with_queue).

#[global] Opaque user_runs with_sem sem_wait sem_next with_mux mux_held mux_high mux_wait mux_low with_event event_wait
  with_queue queue_two.

Ltac keep := repeat (split; [assumption|]); assumption.

(** ** The theorems on these states *)

Lemma op_refines_witness :
  wp (run_op (OpTailInsert (SemList 0) (PendList 9))) (λ _ h, Rep h (<[SemList 0 := [PendList 2; PendList 9]]> (rings sem_next)))
    (dlists sem_next).
Proof.
  apply (op_refines (dlists sem_next) (rings sem_next)).
  - apply rep_check_sound. refine (bool_decide_unpack _ _). vm_compute. exact I.
  - apply (spec_tail_insert _ _ _ [PendList 2]); [eval_done|]. rewrite <- elem_of_ring_nodes.
    refine (bool_decide_unpack _ _). vm_compute. exact I.
Defined.

Lemma sem_pend_correct_witness :
  wp (LOS_SemPend 0 5) (λ p k', ∃ m', KInv k' m' 2 /\ SemInv k' m' /\ pendSV k' = true /\
    m' !! SemList 0 = Some [PendList 2]) with_sem.
Proof.
  eapply wp_mono; [apply (sem_pend_correct with_sem (rings with_sem) 2 (cb with_sem 2) 0 (mk_LosSemCB OS_SEM_USED 0 65535 0) [] 5)|].
  - kinv.
  - apply sems_check. eval_done.
  - waits.
  - waits.
  - intros p k' (m' & HK & HS & HQ). exists m'. split; [assumption|]. split; [assumption|].
    destruct HQ as (_ & Hp & Hm & _). subst m'. split; [assumption|apply lookup_insert_eq].
Defined.

Lemma sem_post_correct_witness :
  wp (LOS_SemPost 0) (λ r k', ∃ m', KInv k' m' 3 /\ SemInv k' m' /\ r = LOS_OK /\ m' !! SemList 0 = Some []) sem_next.
Proof.
  eapply wp_mono; [apply (sem_post_correct sem_next (rings sem_next) 3 0 (mk_LosSemCB OS_SEM_USED 0 65535 0) [PendList 2])|].
  - kinv.
  - apply sems_check. eval_done.
  - waits.
  - intros p k' (m' & HK & HS & HQ). exists m'. split; [assumption|]. split; [assumption|].
    destruct HQ as (-> & x & c & _ & _ & Hm & _). split; [reflexivity|assumption].
Defined.

Lemma sem_create_correct_witness :
  wp (OsSemCreate 1 3 true) (λ r k', ∃ m', KInv k' m' 2 /\ SemInv k' m') with_sem.
Proof.
  eapply wp_mono; [apply (sem_create_correct with_sem (rings with_sem) 2 1 3)|].
  - kinv.
  - apply sems_check. eval_done.
  - done.
  - done.
  - intros r k' (m' & HK & HS & _). exists m'. keep.
Defined.

Lemma sem_delete_correct_witness :
  wp (LOS_SemDelete 0) (λ r k', r = LOS_ERRNO_SEM_PENDED /\ k' = sem_next) sem_next /\
  wp (LOS_SemDelete 0) (λ r k', r = LOS_OK /\ ∃ m', KInv k' m' 2 /\ SemInv k' m') with_sem.
Proof.
  split.
  - eapply wp_mono; [apply (sem_delete_correct sem_next (rings sem_next) 3 0 (mk_LosSemCB OS_SEM_USED 0 65535 0) [PendList 2])|].
    + kinv.
    + apply sems_check. eval_done.
    + waits.
    + intros r k' (m' & HK & HS & HQ). exact HQ.
  - eapply wp_mono; [apply (sem_delete_correct with_sem (rings with_sem) 2 0 (mk_LosSemCB OS_SEM_USED 0 65535 0) [])|].
    + kinv.
    + apply sems_check. eval_done.
    + waits.
    + intros r k' (m' & HK & HS & Hr & _). split; [assumption|]. exists m'. keep.
Defined.

Lemma mux_pend_correct_witness :
  wp (LOS_MuxPend 0 LOS_WAIT_FOREVER) (λ p k', ∃ m', KInv k' m' 2 /\ MuxInv k' m' /\ pendSV k' = true /\
    g_taskCBArray k' = <[2 := wait_tcb LOS_WAIT_FOREVER (set_taskMux (λ _, Some 0) (cb mux_high 2))]>
      (inherit mux_high 3 (priority (cb mux_high 2)) (g_taskCBArray mux_high))) mux_high.
Proof.
  eapply wp_mono; [apply (mux_pend_correct mux_high (rings mux_high) 2 (cb mux_high 2) 0
    (mk_LosMuxCB OS_MUX_USED 1 0 12 (Some 3)) [] LOS_WAIT_FOREVER)|].
  - kinv.
  - apply muxes_check. eval_done.
  - waits.
  - waits.
  - done.
  - intros p k' (m' & HK & HM & HQ). destruct HQ as (_ & Hp & _ & _ & o & Ho & _ & HT). injection Ho as <-. exists m'. split; [exact HK|]. split; [exact HM|]. split; [exact Hp|exact HT].
Defined.

Lemma mux_post_correct_witness :
  wp (LOS_MuxPost 0) (λ r k', ∃ m', KInv k' m' 3 /\ MuxInv k' m' /\ r = LOS_OK /\
    owner (mux_at k' 0) = Some 2) mux_low.
Proof.
  eapply wp_mono; [apply (mux_post_correct mux_low (rings mux_low) 3 (cb mux_low 3) 0
    (mk_LosMuxCB OS_MUX_USED 1 0 12 (Some 3)) [PendList 2])|].
  - kinv.
  - apply muxes_check. eval_done.
  - waits.
  - eval_done.
  - eval_done.
  - eval_done.
  - intros r k' (m' & HK & HM & Hr & y & cy & Hy & _ & _ & _ & Hx & _). injection Hy as <-.
    exists m'. split; [assumption|]. split; [assumption|]. split; [assumption|]. unfold mux_at. rewrite Hx, lookup_insert_eq. reflexivity.
Defined.

Lemma event_poll_correct_witness :
  event_poll 7 5 (Z.lor LOS_WAITMODE_AND LOS_WAITMODE_CLR) = (5, 2) /\
  event_satisfied 7 5 (Z.lor LOS_WAITMODE_AND LOS_WAITMODE_CLR).
Proof.
  split; [done|].
  by apply (event_poll_correct 7 5 (Z.lor LOS_WAITMODE_AND LOS_WAITMODE_CLR) 5 2 eq_refl).
Defined.

Lemma event_read_correct_witness :
  wp (LOS_EventRead (Some event0) 5 LOS_WAITMODE_AND 5) (λ p k', ∃ m', KInv k' m' 2 /\ pendSV k' = true /\
    m' !! EventList event0 = Some [PendList 2]) with_event.
Proof.
  eapply wp_mono; [apply (event_read_correct with_event (rings with_event) 2 (cb with_event 2) event0 0 []
    5 LOS_WAITMODE_AND 5 0 0)|].
  - kinv.
  - waits.
  - waits.
  - waits.
  - done.
  - intros p k' (m' & HK & _ & _ & HQ). exists m'. destruct HQ as (_ & Hp & Hm & _).
    split; [assumption|]. split; [assumption|]. rewrite Hm. apply lookup_insert_eq.
Defined.

(** Task 2 waits for both bits of the mask 5. *)
Lemma reader_waiting : readers_wait (g_taskCBArray event_wait) 0 [PendList 2].
Proof.
  intros x c [= ->]%list_elem_of_singleton Hc.
  assert (E : (eventMask <$> g_taskCBArray event_wait !! 2, eventMode <$> g_taskCBArray event_wait !! 2) = (Some 5, Some LOS_WAITMODE_AND)) by eval_done.
  rewrite Hc in E. cbn in E. injection E as -> ->. split; [by split_and!|]. by apply (bool_decide_unpack (~ event_satisfied 0 5 LOS_WAITMODE_AND)).
Qed.

Lemma event_write_correct_witness :
  wp (LOS_EventWrite (Some event0) 5) (λ r k', ∃ m', KInv k' m' 3 /\ r = LOS_OK /\ pendSV k' = true) event_wait.
Proof.
  eapply wp_mono; [apply (event_write_correct event_wait (rings event_wait) 3 event0 0 [PendList 2] 5)|].
  - kinv.
  - waits.
  - apply reader_waiting.
  - done.
  - intros r k' (m' & l' & HK & Hr & _ & _ & _ & _ & _ & Hp). exists m'. split; [assumption|]. split; [assumption|]. apply Hp; eval_done.
Defined.

Definition queue_at (k : Kernel) (q : Z) : LosQueueCB :=
  default (mk_LosQueueCB None 0 0 0 0 0 0 0 0 0 None) (g_allQueue k !! q).

Lemma queue_two_ok : queue_ok (queue_at queue_two 1) [[9; 8]; [1; 2; 3]].
Proof.
  split; [split|..]; try (repeat apply conj; eval_done).
  exists (default [] (queue (queue_at queue_two 1))). split; [eval_done|]. split; [eval_done|].
  intros [|[|[]]] d [=<-]; repeat apply conj; eval_done.
Defined.

Lemma queue_write_correct_witness :
  wp (LOS_QueueWriteCopy 1 (Some [7; 7; 7; 7]) 4 0) (λ p k', ∃ m' c', KInv k' m' 2 /\
    queue_ok c' [[9; 8]; [1; 2; 3]; [7; 7; 7; 7]]) queue_two.
Proof.
  eapply wp_mono; [apply (queue_write_correct queue_two (rings queue_two) 2 1 (queue_at queue_two 1)
    [[9; 8]; [1; 2; 3]] [] false [7; 7; 7; 7] 4 0)|].
  - kinv.
  - eval_done.
  - exact queue_two_ok.
  - eval_done.
  - repeat apply conj; try eval_done. by left.
  - eval_done.
  - done.
  - eval_done.
  - intros p k' (m' & c' & _ & HK & Hq & _). exists m', c'. keep.
Defined.

Lemma queue_read_correct_witness :
  wp (LOS_QueueReadCopy 1 (Some [0; 0; 0; 0]) (Some 4) 0) (λ p k', ∃ m' c', KInv k' m' 2 /\
    p = Done (LOS_OK, ([9; 8; 0; 0], 2)) /\ queue_ok c' [[1; 2; 3]]) queue_two.
Proof.
  eapply wp_mono; [apply (queue_read_correct queue_two (rings queue_two) 2 1 (queue_at queue_two 1)
    [[9; 8]; [1; 2; 3]] [] [0; 0; 0; 0] 4 0)|].
  - kinv.
  - eval_done.
  - exact queue_two_ok.
  - eval_done.
  - repeat apply conj; try eval_done. by left.
  - done.
  - eval_done.
  - intros p k' (m' & c' & d & msgs' & Hm & Hp & HK & Hq & _). injection Hm as <- <-. exists m', c'. split; [assumption|]. split; [exact Hp|assumption].
Defined.

Lemma queue_wait_correct_witness :
  wp (OsQueueOperate 1 OS_QUEUE_READ_HEAD [0; 0; 0; 0] 4 9) (λ p k', ∃ m', KInv k' m' 2 /\ pendSV k' = true /\
    m' !! QueueRead 1 = Some [PendList 2]) with_queue.
Proof.
  eapply wp_mono; [apply (queue_wait_correct with_queue (rings with_queue) 2 (cb with_queue 2) 1 (queue_at with_queue 1)
    [] OS_QUEUE_READ_HEAD (QueueRead 1) [] [0; 0; 0; 0] 4 9)|].
  - kinv.
  - eval_done.
  - split; [split|..]; try (repeat apply conj; eval_done).
    exists (default [] (queue (queue_at with_queue 1))). split; [eval_done|]. split; [eval_done|]. intros i d [=].
  - done.
  - intros _. eval_done.
  - eval_done.
  - reflexivity.
  - eval_done.
  - waits.
  - intros p k' (m' & HK & _ & HQ). exists m'. destruct HQ as (_ & Hp & Hm & _).
    split; [assumption|]. split; [assumption|]. rewrite Hm. apply lookup_insert_eq.
Defined.

Lemma pendsv_correct_witness :
  wp ArchPendSV (λ _ k', ∃ m' new, KInv k' m' new /\ pendSV k' = false /\
    highest 1 new (g_taskCBArray k')) sem_wait.
Proof.
  eapply wp_mono; [apply (pendsv_correct sem_wait (rings sem_wait) 2)|].
  - done.
  - kinv.
  - intros r k' (m' & new & now & HK & Hp & _ & _ & Hh). exists m', new. split; [assumption|]. split; [assumption|].
    replace 1 with (g_idleTaskID sem_wait) by eval_done. assumption.
Defined.

