(* ===== verification/BoardHeap.v ===== *)
(** The board with the allocator of los_memory.c for its system heap. *)

From S2P Require Import Prelude Errno LosList Membox Memory MemInv MemBlocks MemWalk MemAlloc MemApi MemResize MemSpec BoardMem Kernel SysTick Init Board.

(** [m_aucSysMem0] and the size of the heap. *)
Definition SysMem : Z := 0x20000000.
Definition SysMemSize : Z := 0x1400.

(** The calls of the kernel as functions of the heap; a fault, which does not
    happen on a well-formed pool, is NULL. *)
Definition heap_call (m : M Heap Z) (h : Heap) : Z * Heap := default (0, h) (m h).
Definition heap_ptr (r : Z * Heap) : option Z * Heap := (if r.1 =? 0 then None else Some r.1, r.2).

Definition heap_board : Platform := board_on Heap
  (λ n h, heap_ptr (heap_call (Memory.LOS_MemAlloc SysMem n) h))
  (λ n a h, heap_ptr (heap_call (Memory.LOS_MemAllocAlign SysMem n a) h))
  (λ a h, heap_call (Memory.LOS_MemFree SysMem (default 0 a)) h).

(** [OsMemSystemInit] on the memory of the kernel. *)
Definition heap_init : M (@Kernel heap_board) Z :=
  let* h := gets (@sysMem heap_board) in
  match OsMemSystemInit SysMem SysMemSize h with
  | Some (r, h') => modify (@set_sysMem heap_board (λ _, h')) ;;; mret r
  | None => fault
  end.

Definition heap_reset : @Kernel heap_board :=
  @mk_Kernel heap_board ∅ ∅ 0 0 0 0 false None None false 0 0 0 0 0 0 0 0 (mk_SysTick false 0 0 false (replicate 40 100)) 0 false 0 0 0
    0 0 false 0 0 ∅ ∅ ∅ ∅ ∅ None 0 (mk_Heap 0 (BoardMem.ram SysMem SysMemSize)) (mk_BoxMem ∅ 0) false false.

(** The kernel starts on this heap, and the heap passes its check after the
    control blocks and the first tasks have been allocated. *)
Theorem heap_boot :
  match @LOS_KernelInit heap_board heap_init heap_reset with
  | Some (r, k) => r = LOS_OK /\ result (LOS_MemIntegrityCheck SysMem) (@sysMem heap_board k : Heap) = Some LOS_OK
  | None => False
  end.
Proof. vm_compute. split; reflexivity. Qed.

(** ** The calls of the kernel on a well-formed heap *)

Section calls.
Context (B : gmap Z Blk) (h : Heap) (HP : Pool SysMem SysMemSize B h).

Lemma heap_call_run (m : M Heap Z) : wp m (λ _ h', ∃ B', Pool SysMem SysMemSize B' h') h ->
  ∃ r h' B', m h = Some (r, h') /\ heap_call m h = (r, h') /\ Pool SysMem SysMemSize B' h'.
Proof using Type. unfold wp, heap_call. destruct (m h) as [[r h']|]; [|done]. intros [B' HP']. exists r, h', B'. done. Qed.

Lemma heap_alloc_ok n : 0 <= n < 2 ^ 32 -> ∃ r h' B', Memory.LOS_MemAlloc SysMem n h = Some (r, h') /\
  @LOS_MemAlloc heap_board n h = heap_ptr (r, h') /\ Pool SysMem SysMemSize B' h'.
Proof using HP.
  intros Hn. destruct (heap_call_run (Memory.LOS_MemAlloc SysMem n)) as (r & h' & B' & E1 & E2 & HP').
  - apply (mem_alloc_region_wp SysMem SysMemSize B); [done|done|intros _; by exists B|]. intros ptr B' b s' _ _ HA. exists B'. apply HA.
  - exists r, h', B'. split_and!; [done| |done]. cbn. by rewrite E2.
Qed.

Lemma heap_align_ok n a : 0 <= n < 2 ^ 32 -> 0 <= a < 2 ^ 32 -> ∃ r h' B', Memory.LOS_MemAllocAlign SysMem n a h = Some (r, h') /\
  @LOS_MemAllocAlign heap_board n a h = heap_ptr (r, h') /\ Pool SysMem SysMemSize B' h'.
Proof using HP.
  intros Hn Ha. destruct (heap_call_run (Memory.LOS_MemAllocAlign SysMem n a)) as (r & h' & B' & E1 & E2 & HP').
  - apply (mem_align_wp SysMem SysMemSize B); [done|done|done|intros _; by exists B|]. intros ptr s' B' x b _ _ _ HA. exists B'. apply HA.
  - exists r, h', B'. split_and!; [done| |done]. cbn. by rewrite E2.
Qed.

Lemma heap_free_ok ptr a b : is_handle B (mem h) ptr a b -> ∃ h' B', Memory.LOS_MemFree SysMem ptr h = Some (LOS_OK, h') /\
  @LOS_MemFree heap_board (Some ptr) h = (LOS_OK, h') /\ Pool SysMem SysMemSize B' h'.
Proof using HP.
  intros Hh. assert (H : wp (Memory.LOS_MemFree SysMem ptr) (λ r h', r = LOS_OK /\ ∃ B', Pool SysMem SysMemSize B' h') h).
  { eapply mem_freed_wp; [done|done|]. intros s' B' HF. split; [done|]. exists B'. apply HF. }
  unfold wp in H. cbn. unfold heap_call. cbn. destruct (Memory.LOS_MemFree SysMem ptr h) as [[r h']|]; [|done]. destruct H as (-> & B' & HP'). by exists h', B'.
Qed.
End calls.
