(* ===== verification/BoardTask.v ===== *)
(** The theorems on tasks, timers and the tick interrupt, applied to states of
    the board. *)

From S2P Require Import Prelude Errno LosList Membox Kernel SysTick Tick SortLink Sched SchedInv SchedTime SchedSwitch KernelInv Check Queue QueueInv Sem Task TaskLife Swtmr Init Board.

(** ** Tasks *)

(** Task 2 sleeps for 7 ticks, so that task 3 runs. *)
Definition delayed : Kernel := after ArchPendSV (after (LOS_TaskDelay 7) user_runs).
(** Task 2 has suspended task 3, or holds the scheduler lock. *)
Definition suspended : Kernel := after (LOS_TaskSuspend 3) user_runs.
Definition locked : Kernel := after LOS_TaskLock user_runs.

(** ** Timers *)

(** A periodic timer, a timer that fires once, and the first of them running. *)
Definition with_timers : Kernel :=
  after (LOS_SwtmrCreate 2 LOS_SWTMR_MODE_ONCE 0x08007100 true 43) (after (LOS_SwtmrCreate 5 LOS_SWTMR_MODE_PERIOD 0x08007000 true 42) user_runs).
Definition ticking : Kernel := after (LOS_SwtmrStart 0) with_timers.
Definition timer_gone : Kernel := after (LOS_SwtmrDelete 0) ticking.
#[global] Opaque delayed suspended locked with_timers ticking timer_gone.

Definition swtmr_at (k : Kernel) (i : Z) : SWTMR_CTRL_S := default zero_SWTMR_CTRL_S (g_swtmrCBArray k !! i).

Definition swtmrs_checked (k : Kernel) (m : gmap Node (list Node)) (fl : list Z) (lw : list Node) : Prop :=
  map_Forall (λ i w, 0 <= i < LOSCFG_BASE_CORE_SWTMR_LIMIT /\ swtmr_index (usTimerID w) = i /\ 0 <= usTimerID w < OS_SWTMR_MAX_TIMERID /\
    ((ucState w = OS_SWTMR_STATUS_UNUSED /\ i ∈ fl) \/
      ((ucState w = OS_SWTMR_STATUS_CREATED \/ ucState w = OS_SWTMR_STATUS_TICKING) /\ i ∉ fl)) /\
    (ucState w <> OS_SWTMR_STATUS_UNUSED -> bool_decide (SwtmrNode i ∈ lw) = bool_decide (swtmrResponseTime w <> OS_SORT_LINK_INVALID_TIME)) /\
    (SwtmrNode i ∈ lw -> ucState w = OS_SWTMR_STATUS_TICKING) /\
    (ucState w <> OS_SWTMR_STATUS_UNUSED -> 0 < uwInterval w < 2 ^ 32 /\ 0 <= swtmrResponseTime w)) (g_swtmrCBArray k) /\
  Forall (λ i, is_Some (g_swtmrCBArray k !! i)) (seqZ 0 LOSCFG_BASE_CORE_SWTMR_LIMIT) /\ NoDup fl /\ m !! SwtmrSortLink = Some lw.
#[global] Instance swtmrs_checked_dec k m fl lw : Decision (swtmrs_checked k m fl lw).
Proof. unfold swtmrs_checked. apply _. Defined.

Lemma swtmrs_check k m fl lw :
  bool_decide (swtmrs_checked k m fl lw) = true -> chain (g_swtmrCBArray k) (g_swtmrFreeList k) fl -> sorted k lw ->
  SwtmrInv k m fl lw.
Proof.
  intros (H1 & H2 & H3 & H4)%bool_decide_eq_true Hch Hs. split; try done.
  - intros i. split; [intros [w Hw]; apply (H1 i w Hw)|]. intros Hi. rewrite Forall_forall in H2. by apply H2, elem_of_seqZ.
  - intros i w Hw. destruct (H1 i w Hw) as (_ & ? & ? & _). done.
  - intros i w Hw. apply (H1 i w Hw).
  - intros i w Hw Hu. destruct (H1 i w Hw) as (_ & _ & _ & _ & Hb & _). specialize (Hb Hu).
    by rewrite <- (bool_decide_eq_true (_ ∈ _)), Hb, bool_decide_eq_true.
  - intros i w Hw. apply (H1 i w Hw).
  - intros i w Hw. apply (H1 i w Hw).
Qed.
Ltac swtmrs :=
  apply swtmrs_check; [eval_done|vm_compute; repeat (eexists || split || reflexivity)|repeat constructor; eval_done].

Definition queues_checked (P : gmap Z QOp) (ms : gmap Z (list (list Z))) (k : Kernel) (m : gmap Node (list Node)) : Prop :=
  map_Forall (λ x op,
    from_option (λ c, has c OS_TASK_STATUS_PEND = true -> home m (PendList x) (rwList (qo_queue op) (qo_rw op))) False (g_taskCBArray k !! x) /\
    from_option (λ c, qo_fits c op) False (g_allQueue k !! qo_queue op)) P /\
  map_Forall (λ q c, queueState c <> OS_QUEUE_UNUSED -> is_Some (m !! QueueRead q) /\ is_Some (m !! QueueWrite q) /\
    from_option (λ msgs, Forall (λ rw, rwCnt c rw + promises (g_taskCBArray k) P q rw <= slots c msgs rw) [OS_QUEUE_READ; OS_QUEUE_WRITE])
      False (ms !! q)) (g_allQueue k).
#[global] Instance qo_fits_dec c op : Decision (qo_fits c op).
Proof. unfold qo_fits. apply _. Defined.
#[global] Instance queues_checked_dec P ms k m : Decision (queues_checked P ms k m).
Proof. unfold queues_checked. apply _. Defined.

Lemma queues_check P ms k m :
  bool_decide (queues_checked P ms k m) = true -> map_Forall (λ q msgs, queue_ok (queue_at k q) msgs) ms -> QInv P ms k m.
Proof.
  intros [H1 H2]%bool_decide_eq_true Hok. split.
  - intros x op Hx. destruct (H1 x op Hx) as [Hc _]. destruct (g_taskCBArray k !! x) as [c|]; [|done]. by exists c.
  - intros x op Hx. destruct (H1 x op Hx) as [_ Hc]. destruct (g_allQueue k !! qo_queue op) as [c|]; [|done]. by exists c.
  - intros q c Hc Hu. by destruct (H2 q c Hc Hu) as (? & ? & _).
  - intros q c Hc Hu. destruct (H2 q c Hc Hu) as (_ & _ & Hm). destruct (ms !! q) as [msgs|] eqn:E; [|done]. exists msgs. split; [done|].
    specialize (Hok q msgs E). unfold queue_at in Hok. rewrite Hc in Hok. split; [done|]. cbn in Hm. rewrite Forall_forall in Hm.
    intros rw Hrw. apply Hm. set_solver.
Qed.

(** The timer task waits for a message in queue 0. *)
Definition timer_read : QOp := mk_QOp 0 ReadHead (replicate 12 0) 12.

(** A queue without messages. *)
Ltac empty_queue :=
  split; [split|..]; try (repeat apply conj; eval_done); eexists; (split; [eval_done|]); (split; [eval_done|]); intros i d [=].

Lemma ticking_queue : handler_queue {[0 := timer_read]} ticking (rings ticking) (queue_at ticking 0) [].
Proof.
  assert (Hok : queue_ok (queue_at ticking 0) []) by empty_queue.
  split; [repeat apply conj; eval_done|eval_done|exact Hok|eval_done|eexists; eval_done|].
  exists {[0 := []]}. split; [|eval_done]. apply queues_check; [eval_done|]. by apply map_Forall_singleton.
Qed.

Lemma ticking_inv : TickInv {[0 := timer_read]} ticking (rings ticking) 2 [2] [SwtmrNode 0].
Proof. apply conj; [kinv|]. apply conj; [swtmrs|]. exists (queue_at ticking 0), []. exact ticking_queue. Qed.

(** The branch that is taken. *)
Ltac branch H :=
  cbv beta in H;
  repeat lazymatch type of H with
  | if ?b then _ else _ => let v := eval vm_compute in b in
      let E := fresh in assert (E : b = v) by (vm_compute; reflexivity); rewrite E in H; clear E; cbv iota in H
  end.

(** The blocks of the pool have nothing left of a task. *)
Definition blocks_checked (k : Kernel) (m : gmap Node (list Node)) : Prop :=
  Forall (λ n, match n with
    | PendList y => (m !! EventList (TaskEvt y) = None \/ m !! EventList (TaskEvt y) = Some []) /\
        (m !! JoinList y = None \/ m !! JoinList y = Some []) /\
        from_option (λ c, taskID c = y /\ has c OS_TASK_FLAG_JOINABLE = false) False (g_taskCBArray k !! y)
    | _ => True end) (default [] (m !! FreeTask) ++ default [] (m !! TaskRecycle)).
#[global] Instance blocks_checked_dec k m : Decision (blocks_checked k m).
Proof. unfold blocks_checked. apply Forall_dec. intros []; apply _. Defined.

Lemma blocks_check k m t : bool_decide (blocks_checked k m) = true -> KInv k m t -> PoolInv (g_taskCBArray k) m.
Proof.
  intros Hb%bool_decide_eq_true HK x u Hu (l & Hl & Hin). unfold blocks_checked in Hb. rewrite Forall_forall in Hb.
  destruct (Hb (PendList x)) as (H1 & H2 & H3); [destruct Hu as [-> | ->]; rewrite Hl; cbn; set_solver|].
  split; [split; (eapply (vacant_block _ _ _ _ _ _ (ki_sched _ _ _ HK)); [exists x; auto|done])|].
  destruct (g_taskCBArray k !! x) as [c|]; [|done]. by exists c.
Qed.
Ltac pool t := apply (blocks_check _ _ t); [eval_done|kinv].

(** ** The theorems on these states *)

Lemma task_create_correct_witness :
  wp (LOS_TaskCreate true (Some (task 5))) (λ r k', r = (LOS_OK, Some 4) /\ ∃ m', KInv k' m' 2 /\
    home m' (PendList 4) (PriQueue 5) /\ (g_losTaskLock k' = 0 -> pendSV k' = true)) user_runs.
Proof.
  eapply wp_mono; [apply (task_create_correct user_runs (rings user_runs) 2 [] (ring user_runs FreeTask) (task 5))|].
  - kinv.
  - pool 2.
  - exists (cb user_runs 2). waits.
  - eval_done.
  - eval_done.
  - done.
  - intros r k'. assert (E : OsTaskInitParamCheck (Some (task 5)) = (LOS_OK, Some (task 5))) by eval_done. rewrite E. cbv beta iota. clear E.
    change (negb (LOS_OK =? LOS_OK)) with false. cbv iota. intros (m' & HK & _ & _ & Hcr & _).
    assert (E : ring user_runs FreeTask = [PendList 4; PendList 5]) by (vm_compute; reflexivity).
    assert (En : no_stack (task 5) (released (g_taskCBArray user_runs) [] (sysMem user_runs)) = false) by (vm_compute; reflexivity).
    rewrite E in Hcr. cbn [from_option] in Hcr. unfold created in Hcr. rewrite En in Hcr. clear E En. cbv [reverse rev_append app] in Hcr.
    destruct Hcr as (x & c' & [= <-] & -> & _ & _ & _ & _ & _ & _ & _ & Hh & Hp). split; [reflexivity|]. exists m'. keep.
Defined.

(** Task 3 is deleted by task 2; task 2 deletes itself. *)
Lemma spare_block : spare user_runs (rings user_runs).
Proof.
  exists (cb user_runs 6). split; [eval_done|]. split; [eval_done|]. split; [vm_compute; split; intros [=]|]. do 4 (split; [eval_done|]).
  split; apply (bool_decide_unpack _); vm_compute; exact I.
Qed.
Lemma user_lists x : x = 2 \/ x = 3 -> task_lists (rings user_runs) x (cb user_runs x).
Proof.
  assert (HK : KInv user_runs (rings user_runs) 2) by kinv. intros Hx. split; [destruct Hx as [-> | ->]; vm_compute; reflexivity|].
  assert (Ej : has (cb user_runs x) OS_TASK_FLAG_JOINABLE = false) by (destruct Hx as [-> | ->]; vm_compute; reflexivity). rewrite Ej.
  eapply (vacant_block _ _ _ _ _ _ (ki_sched _ _ _ HK)); [exists x; auto|]. left. destruct Hx as [-> | ->]; vm_compute; reflexivity.
Qed.

Lemma task_delete_correct_witness :
  wp (LOS_TaskDelete 3) (λ ret k', ret = LOS_OK /\ ∃ m', KInv k' m' 2 /\ m' !! FreeTask = Some [PendList 3; PendList 4; PendList 5]) user_runs /\
  wp (LOS_TaskDelete 2) (λ ret k', ret = LOS_OK /\ pendSV k' = true /\ ∃ m', KInv k' m' 6 /\ home m' (PendList 2) TaskRecycle) user_runs.
Proof.
  split.
  - eapply wp_mono; [apply (task_delete_correct user_runs (rings user_runs) 2 (cb user_runs 2) 3 (cb user_runs 3))|].
    + kinv.
    + pool 2.
    + exists (cb user_runs 2). waits.
    + exact spare_block.
    + eval_done.
    + waits.
    + eval_done.
    + eval_done.
    + intros _. apply user_lists. auto.
    + intros ret k' HQ. branch HQ. destruct HQ as (Hr & m' & run & HK & _ & HQ & _). split; [exact Hr|]. exists m'.
      rewrite decide_False in HQ by done. destruct HQ as (-> & _ & _ & Hb). split; [exact HK|]. branch Hb. destruct Hb as (_ & l & Hl & Hl').
      rewrite Hl'. f_equal. f_equal. assert (E : rings user_runs !! FreeTask = Some [PendList 4; PendList 5]) by (vm_compute; reflexivity). congruence.
  - eapply wp_mono; [apply (task_delete_correct user_runs (rings user_runs) 2 (cb user_runs 2) 2 (cb user_runs 2))|].
    + kinv.
    + pool 2.
    + exists (cb user_runs 2). waits.
    + exact spare_block.
    + eval_done.
    + waits.
    + eval_done.
    + eval_done.
    + intros _. apply user_lists. auto.
    + intros ret k' HQ. branch HQ. destruct HQ as (Hr & m' & run & HK & _ & HQ & _). split; [exact Hr|].
      rewrite decide_True in HQ by done. destruct HQ as (-> & Hp & Hb). split; [exact Hp|]. exists m'.
      assert (Es : survivor user_runs 2 (cb user_runs 2) = 6) by (vm_compute; reflexivity). rewrite Es in HK. split; [exact HK|].
      unfold finished_self in Hb. branch Hb. destruct Hb as (_ & lr & _ & Hl). exists (lr ++ [PendList 2]). split; [exact Hl|]. apply elem_of_app. right. constructor.
Defined.


Lemma task_delay_correct_witness :
  wp (LOS_TaskDelay 7) (λ ret k', ret = LOS_OK /\ KInv k' (rings user_runs) 2 /\ pendSV k' = true) user_runs.
Proof.
  eapply wp_mono; [apply (task_delay_correct user_runs (rings user_runs) 2 (cb user_runs 2) 7)|].
  - kinv.
  - waits.
  - intros r k' (Hr & HK & Hp & _). keep.
Defined.

Lemma task_suspend_correct_witness :
  wp (LOS_TaskSuspend 3) (λ ret k', ∃ m', ret = LOS_OK /\ KInv k' m' 2) user_runs.
Proof.
  eapply wp_mono; [apply (task_suspend_correct user_runs (rings user_runs) 2 (cb user_runs 2) 3 (cb user_runs 3))|].
  - done.
  - kinv.
  - eval_done.
  - eval_done.
  - waits.
  - eval_done.
  - intros r k' (m' & HK & HQ). branch HQ. exists m'. split; [exact (proj1 HQ)|exact HK].
Defined.

Lemma task_resume_correct_witness :
  wp (LOS_TaskResume 3) (λ ret k', ∃ m', ret = LOS_OK /\ KInv k' m' 2 /\ home m' (PendList 3) (PriQueue 12)) suspended.
Proof.
  eapply wp_mono; [apply (task_resume_correct suspended (rings suspended) 2 3 (cb suspended 3))|].
  - kinv.
  - done.
  - waits.
  - eval_done.
  - eval_done.
  - intros r k' (m' & HK & HQ). branch HQ. exists m'. destruct HQ as (Hr & _ & HQ). split; [exact Hr|]. split; [exact HK|].
    replace 12 with (priority (cb suspended 3)) by eval_done. apply HQ. eval_done.
Defined.

Lemma task_priset_correct_witness :
  wp (LOS_TaskPriSet 3 4) (λ ret k', ∃ m', ret = LOS_OK /\ KInv k' m' 2 /\ pendSV k' = true) user_runs.
Proof.
  eapply wp_mono; [apply (task_priset_correct user_runs (rings user_runs) 2 3 (cb user_runs 3) 4)|].
  - kinv.
  - waits.
  - eval_done.
  - done.
  - intros r k' (m' & HK & HQ). branch HQ. exists m'. destruct HQ as (Hr & _ & _ & HQ). split; [exact Hr|]. split; [exact HK|]. apply HQ; eval_done.
Defined.

Lemma task_unlock_correct_witness :
  wp LOS_TaskUnlock (λ _ k', KInv k' (rings locked) 2 /\ g_losTaskLock k' = Z.max 0 (g_losTaskLock locked - 1)) locked.
Proof.
  destruct (task_unlock_correct locked (rings locked) 2) as [Hu _].
  - kinv.
  - waits.
  - eapply wp_mono; [exact Hu|]. intros r k' (HK & Hl & _). split; [exact HK|exact Hl].
Defined.

Lemma swtmr_create_correct_witness :
  wp (LOS_SwtmrCreate 9 LOS_SWTMR_MODE_NO_SELFDELETE 0x08007200 true 1) (λ r k', (∃ id, r = (LOS_OK, Some id)) /\
    SwtmrInv k' (rings ticking) [] [SwtmrNode 0]) ticking.
Proof.
  eapply wp_mono; [apply (swtmr_create_correct ticking (rings ticking) 2 [2] [SwtmrNode 0] 9 LOS_SWTMR_MODE_NO_SELFDELETE 0x08007200 1)|].
  - kinv.
  - swtmrs.
  - done.
  - by right; right.
  - done.
  - intros r k' (HK & w & w' & Hw & Hr & _ & HS & _). split; [|exact HS]. exists (usTimerID w). exact Hr.
Defined.

(** The block of the deleted timer is in use again. *)
Definition recreated : Kernel := after (LOS_SwtmrCreate 5 LOS_SWTMR_MODE_PERIOD 0x08007000 true 42) timer_gone.
Lemma one_deletion : 0 < Z.of_nat 1 < OS_SWTMR_MAX_TIMERID / LOSCFG_BASE_CORE_SWTMR_LIMIT.
Proof. vm_compute. split; reflexivity. Qed.
#[global] Opaque recreated.

Lemma swtmr_delete_correct_witness :
  wp (LOS_SwtmrDelete 0) (λ r k', r = LOS_OK /\ id_refused k' 0 /\ id_refused recreated 0) ticking.
Proof.
  eapply wp_mono; [apply (swtmr_delete_correct ltac:(done) ticking (rings ticking) 2 [2] [SwtmrNode 0] 0 (swtmr_at ticking 0))|].
  - kinv.
  - swtmrs.
  - eval_done.
  - eval_done.
  - intros r k' HQ. branch HQ. destruct HQ as (Hr & m' & w' & _ & _ & HC & Hi & _ & Hs). split; [exact Hr|]. split.
    + assert (H1 : g_swtmrCBArray k' !! swtmr_index 0 = Some w') by (rewrite HC; apply lookup_insert_eq).
      exact (Hs k' w' 1%nat H1 Hi one_deletion).
    + exact (Hs recreated (swtmr_at recreated 0) 1%nat ltac:(eval_done) ltac:(eval_done) one_deletion).
Defined.

Lemma swtmr_stop_correct_witness :
  wp (LOS_SwtmrStop 0) (λ r k', r = LOS_OK /\ ∃ m', SwtmrInv k' m' [2] []) ticking.
Proof.
  eapply wp_mono; [apply (swtmr_stop_correct ltac:(done) ticking (rings ticking) 2 [2] [SwtmrNode 0] 0 (swtmr_at ticking 0))|].
  - kinv.
  - swtmrs.
  - eval_done.
  - eval_done.
  - intros r k' HQ. branch HQ. destruct HQ as (Hr & m' & _ & HS & _). split; [exact Hr|]. exists m'. exact HS.
Defined.

Definition handle_checked (k : Kernel) (it : SwtmrHandlerItem) : bool :=
  match g_swtmrCBArray k !! swtmr_index (item_swtmrID it) with
  | Some w => negb (usTimerID w =? item_swtmrID it) ||
      (negb (ucState w =? OS_SWTMR_STATUS_UNUSED) && (negb (ucMode w =? LOS_SWTMR_MODE_ONCE) || (swtmrResponseTime w =? OS_SORT_LINK_INVALID_TIME)))
  | None => true
  end.
Lemma handle_check k it : handle_checked k it = true -> handle_ok k it.
Proof.
  unfold handle_checked, handle_ok. intros E w Hw Hid. rewrite Hw, Hid, Z.eqb_refl in E. cbn [negb orb] in E. apply andb_true_iff in E as [E1 E2].
  split; [by apply Z.eqb_neq, negb_true_iff|]. intros Hm. rewrite Hm, Z.eqb_refl in E2. by apply Z.eqb_eq.
Qed.

Ltac handle_case := lazymatch goal with
  | |- KInv _ _ _ => kinv
  | |- SwtmrInv _ _ _ _ => swtmrs
  | |- handle_ok _ _ => apply handle_check; eval_done
  | _ => eval_done
  end.

(** The messages of the periodic timer, of the timer that fires once, and of the
    periodic timer after it was deleted. *)
Definition item0 : SwtmrHandlerItem := mk_SwtmrHandlerItem 0x08007000 42 0.
Definition item1 : SwtmrHandlerItem := mk_SwtmrHandlerItem 0x08007100 43 1.
Lemma swtmr_handle_correct_witness :
  wp (OsSwtmrTask_handle LOS_OK (item_bytes item0) sizeof_SwtmrHandlerItem) (λ r k', r = Some (0x08007000, 42) /\ KInv k' (rings ticking) 2) ticking /\
  wp (OsSwtmrTask_handle LOS_OK (item_bytes item1) sizeof_SwtmrHandlerItem)
    (λ r k', r = Some (0x08007100, 43) /\ SwtmrInv k' (rings ticking) [1; 2] [SwtmrNode 0]) ticking /\
  wp (OsSwtmrTask_handle LOS_OK (item_bytes item0) sizeof_SwtmrHandlerItem) (λ r k', r = None /\ k' = timer_gone) timer_gone.
Proof.
  split; [|split].
  - eapply wp_mono; [apply (swtmr_handle_correct ticking (rings ticking) 2 [2] [SwtmrNode 0] item0 (swtmr_at ticking 0)); handle_case|].
    intros r k' HQ. branch HQ. destruct HQ as (Hr & HK & _). split; [exact Hr|exact HK].
  - eapply wp_mono; [apply (swtmr_handle_correct ticking (rings ticking) 2 [2] [SwtmrNode 0] item1 (swtmr_at ticking 1)); handle_case|].
    intros r k' HQ. branch HQ. destruct HQ as (Hr & _ & HS & _). branch HS. split; [exact Hr|exact HS].
  - eapply wp_mono; [apply (swtmr_handle_correct timer_gone (rings timer_gone) 2 [0; 2] [] item0 (swtmr_at timer_gone 0)); handle_case|].
    intros r k' HQ. branch HQ. exact HQ.
Defined.

Lemma swtmr_start_correct_witness :
  wp (LOS_SwtmrStart 1) (λ r k', r = LOS_OK /\ ∃ m' lw', KInv k' m' 2 /\ SwtmrInv k' m' [2] lw' /\
    lw' ≡ₚ [SwtmrNode 1; SwtmrNode 0]) ticking.
Proof.
  eapply wp_mono; [apply (swtmr_start_correct ticking (rings ticking) 2 [2] [SwtmrNode 0] 1 (swtmr_at ticking 1))|].
  - done.
  - kinv.
  - swtmrs.
  - eval_done.
  - eval_done.
  - intros r k' HQ. branch HQ. destruct HQ as (Hr & m' & lw' & now & w' & HK & HS & Hp & _). split; [exact Hr|]. exists m', lw'. keep.
Defined.

Lemma swtmr_scan_correct_witness :
  ∃ bound, ∀ fuel, (bound <= fuel)%nat -> wp (OsSwtmrScan fuel) (λ need k', ∃ now fires,
    need = negb (bool_decide (fires = [])) /\ timers_scanned {[0 := timer_read]} ticking (rings ticking) 2 [2] [SwtmrNode 0] (queue_at ticking 0) [] now fires k') ticking.
Proof.
  destruct (swtmr_scan_correct {[0 := timer_read]} ticking (rings ticking) 2 [2] [SwtmrNode 0] (queue_at ticking 0) []) as [b Hb].
  - kinv.
  - swtmrs.
  - exact ticking_queue.
  - waits.
  - exists b. intros fuel Hf. eapply wp_mono; [exact (Hb fuel Hf)|]. intros need k' (now & fires & _ & Hn & Hs). exists now, fires. keep.
Defined.

Lemma tick_correct_witness :
  ∃ tm bound, timer_irq (g_sysTickTimer ticking) = Some tm /\ ∀ fuel, (bound <= fuel)%nat ->
    wp (OsTickHandler (OsSwtmrScan fuel)) (λ _ k', ∃ m' lw', TickInv {[0 := timer_read]} k' m' 2 [2] lw' /\ pendSV k' = true)
      (set_g_sysTickTimer (λ _, tm) ticking).
Proof.
  destruct (timer_irq (g_sysTickTimer ticking)) as [tm|] eqn:E; [|exfalso; vm_compute in E; discriminate E].
  destruct (tick_correct {[0 := timer_read]} ticking (rings ticking) 2 [2] [SwtmrNode 0] tm) as [b Hb].
  - exact ticking_inv.
  - clear E. waits.
  - exact E.
  - exists tm, b. split; [reflexivity|]. intros fuel Hf. eapply wp_mono; [exact (Hb fuel Hf)|].
    intros _ k' (m' & lw' & now & HT & _ & _ & _ & Hp). exists m', lw'. split; [exact HT|]. clear E. apply Hp. eval_done.
Defined.
