(* ===== verification/BoardSystem.v ===== *)
(** The system of the board: a run in which a task waits for a message, another
    task sends it and the first one receives it, and a run in which a timer
    expires, the timer task handles the message and reads from its queue again. *)

From S2P Require Import Prelude Errno LosList Membox Kernel SysTick Tick SortLink Sched SchedInv SchedTime SchedSwitch KernelInv Waits Check Queue QueueInv Sem Mux Event Task Swtmr Init Calls System Board BoardTask.

(** One event block, and the state with queue 1 and that block; more than half of
    a tick passes between two readings of the clock. *)
#[global] Instance board_events : Events := ({[event0]} : gset EventRef).
Definition systick (k : Kernel) : SysTick := g_sysTickTimer k.
Definition slow (k : Kernel) : Kernel :=
  let tm := systick k in
  set_g_sysTickTimer (λ _, mk_SysTick (CTRL_ENABLE tm) (LOAD tm) (VAL tm) (PENDST tm) (replicate 40 90000)) k.
Definition start : Kernel := slow (after (LOS_EventInit (Some event0)) with_queue).
#[global] Opaque start.

(** ** A run *)

Definition run_of (m : M Kernel (Proc Z)) (k : Kernel) : Proc Z * Kernel := default (Done 0, reset) (m k).
Lemma run_of_some m k : bool_decide (is_Some (m k)) = true -> m k = Some (run_of m k).
Proof. unfold run_of. destruct (m k); [done|]. intros E%bool_decide_eq_true. by destruct E. Qed.
Lemma run_after (m : M Kernel unit) k : bool_decide (is_Some (m k)) = true -> m k = Some (tt, after m k).
Proof. unfold after. destruct (m k) as [[[] k']|]; [done|]. intros E%bool_decide_eq_true. by destruct E. Qed.

(** Whether a call is done, and with which answer; the rest of a call that is not. *)
Definition answer (p : Proc Z) : option Z := match p with Done r => Some r | Blocked _ => None end.
Definition rest_part (p : Proc Z) : Kernel -> option (Proc Z * Kernel) := match p with Done _ => λ _, None | Blocked q => q end.
Lemma answer_none p : answer p = None -> p = Blocked (rest_part p).
Proof. by destruct p. Qed.
Lemma answer_some p r : answer p = Some r -> p = Done r.
Proof. destruct p; [|done]. by intros [= ->]. Qed.

(** The timer task waits inside its read, and task 2 runs. *)
Definition waiting0 : gmap Z Waiting := {[0 := WQueue timer_read]}.
Definition rest0 : gmap Z (Kernel -> option (Proc Z * Kernel)) := {[0 := rest_of 0 (WQueue timer_read)]}.
(** Task 2 reads from queue 1 and waits; task 3 writes to it; task 2 goes on. *)
Definition read1 : Call := CQueueRead 1 (replicate 4 0) 4 5.
Definition write1 : Call := CQueueWrite 1 [1; 2; 3] 3 0.
Definition reading : Proc Z * Kernel := run_of (run_call read1) start.
Definition rest1 := settle 2 (fst reading) rest0.
Definition writer : Kernel := after ArchPendSV (snd reading).
Definition written : Proc Z * Kernel := run_of (run_call write1) writer.
Definition rest2 := settle 3 (fst written) rest1.
Definition reader : Kernel := after ArchPendSV (snd written).
Definition received : Proc Z * Kernel := run_of (rest_part (fst reading)) reader.
Definition sys_received : Sys := mk_Sys (snd received) (settle 2 (fst received) rest2).

Lemma read_blocks : fst reading = Blocked (rest_part (fst reading)).
Proof. apply answer_none. eval_done. Qed.
Lemma write_done : fst written = Done LOS_OK.
Proof. apply answer_some. eval_done. Qed.
Lemma read_done : fst received = Done LOS_OK.
Proof. apply answer_some. eval_done. Qed.
Lemma run_read : run_call read1 start = Some reading.
Proof. apply run_of_some. eval_done. Qed.
Lemma run_write : run_call write1 writer = Some written.
Proof. apply run_of_some. eval_done. Qed.
Lemma run_received : rest_part (fst reading) reader = Some received.
Proof. apply run_of_some. eval_done. Qed.
#[global] Opaque reading writer written reader received.

Lemma read_rest : rest2 !! 2 = Some (rest_part (fst reading)).
Proof.
  unfold rest2, rest1. rewrite write_done, read_blocks. cbn [settle rest_part]. rewrite lookup_delete_ne by done. apply lookup_insert_eq.
Qed.

Lemma sys_steps : rtc step (mk_Sys start rest0) sys_received.
Proof.
  eapply (rtc_l _ _ (mk_Sys (snd reading) rest1)); [|eapply (rtc_l _ _ (mk_Sys writer rest1)); [|
    eapply (rtc_l _ _ (mk_Sys (snd written) rest2)); [|eapply (rtc_l _ _ (mk_Sys reader rest2)); [|apply rtc_once]]]].
  - apply (step_call start rest0 2 read1 (fst reading) (snd reading)); [eval_done|eval_done|apply lookup_singleton_ne; lia| |rewrite <- surjective_pairing; exact run_read].
    split; [exists (cb start 2); waits|]. split; [done|]. exists (queue_at start 1). split; [eval_done|].
    split; [eval_done|]. split; [right; right; reflexivity|]. repeat apply conj; try eval_done.
  - apply step_switch; [eval_done|]. apply run_after. eval_done.
  - apply (step_call writer rest1 3 write1 (fst written) (snd written)); [eval_done|eval_done| | |rewrite <- surjective_pairing; exact run_write].
    + unfold rest1. rewrite read_blocks. cbn [settle]. rewrite lookup_insert_ne by done. apply lookup_singleton_ne; lia.
    + split; [exists (cb writer 3); waits|]. split; [done|]. exists (queue_at writer 1). split; [eval_done|].
      split; [eval_done|]. split; [left; reflexivity|]. repeat apply conj; try eval_done.
  - apply step_switch; [eval_done|]. apply run_after. eval_done.
  - apply (step_return reader rest2 2 (rest_part (fst reading)) (fst received) (snd received)); [eval_done|eval_done|exact read_rest|].
    rewrite <- surjective_pairing. exact run_received.
Qed.

(** *** The timer task *)

(** Task 2 creates and starts a timer that fires once and sleeps; the interrupt
    finds the timer expired, the timer task runs, handles the message, which
    deletes the timer, and waits for the next one. *)
Definition create1 : Call := CSwtmrCreate 1 LOS_SWTMR_MODE_ONCE 0x08007000 42.
Definition handle1 : Call := CSwtmrHandle LOS_OK (item_bytes item0) sizeof_SwtmrHandlerItem.
Definition read0 : Call := CQueueRead 0 (replicate 12 0) 12 LOS_WAIT_FOREVER.
Definition created1 : Proc Z * Kernel := run_of (run_call create1) start.
Definition started1 : Proc Z * Kernel := run_of (run_call (CSwtmrStart 0)) (snd created1).
Definition slept1 : Proc Z * Kernel := run_of (run_call (CDelay 5)) (snd started1).
Definition other_runs : Kernel := after ArchPendSV (snd slept1).
Definition irq_timer (k : Kernel) : Timer := default (g_sysTickTimer k) (timer_irq (g_sysTickTimer k)).
Definition expired1 : Kernel := after (OsTickHandler (OsSwtmrScan 100)) (set_g_sysTickTimer (λ _, irq_timer other_runs) other_runs).
Definition timer_runs : Kernel := after ArchPendSV expired1.
Definition got1 : Proc Z * Kernel := run_of (rest_of 0 (WQueue timer_read)) timer_runs.
Definition handled1 : Proc Z * Kernel := run_of (run_call handle1) (snd got1).
Definition waits1 : Proc Z * Kernel := run_of (run_call read0) (snd handled1).
Definition sys_timer : Sys := mk_Sys (snd waits1) (settle 0 (fst waits1) (delete 0 rest0)).

Lemma run_done m k r : bool_decide (is_Some (m k)) = true -> answer (fst (run_of m k)) = Some r -> m k = Some (Done r, snd (run_of m k)).
Proof. intros E%run_of_some Hr%answer_some. rewrite E at 1. by rewrite (surjective_pairing (run_of m k)), Hr at 1. Qed.
Lemma run_create1 : run_call create1 start = Some (Done LOS_OK, snd created1).
Proof. apply run_done; eval_done. Qed.
Lemma run_start1 : run_call (CSwtmrStart 0) (snd created1) = Some (Done LOS_OK, snd started1).
Proof. apply run_done; eval_done. Qed.
Lemma run_delay1 : run_call (CDelay 5) (snd started1) = Some (Done LOS_OK, snd slept1).
Proof. apply run_done; eval_done. Qed.
Lemma run_got1 : rest_of 0 (WQueue timer_read) timer_runs = Some (Done LOS_OK, snd got1).
Proof. apply run_done; eval_done. Qed.
Lemma run_handle1 : run_call handle1 (snd got1) = Some (Done LOS_OK, snd handled1).
Proof. apply run_done; eval_done. Qed.
Lemma run_read0 : run_call read0 (snd handled1) = Some waits1.
Proof. apply run_of_some. eval_done. Qed.
Lemma irq_taken : timer_irq (g_sysTickTimer other_runs) = Some (irq_timer other_runs).
Proof. eval_done. Qed.
#[global] Opaque created1 started1 slept1 other_runs expired1 timer_runs got1 handled1 waits1.

Lemma rest0_other x : x <> 0 -> delete x rest0 = rest0.
Proof. intros Hx. apply delete_id. unfold rest0. by apply lookup_singleton_ne. Qed.

Lemma timer_steps : rtc step (mk_Sys start rest0) sys_timer.
Proof.
  assert (Hrun : ∀ k c r k', runTask k = Some 2 -> pendSV k = false -> call_ok k 2 c -> run_call c k = Some (Done r, k') -> step (mk_Sys k rest0) (mk_Sys k' rest0)).
  { intros k c r k' H1 H2 H3 H4. rewrite <- (rest0_other 2) at 2 by done. apply (step_call k rest0 2 c (Done r) k'); try assumption. by apply lookup_singleton_ne. }
  eapply (rtc_l _ _ (mk_Sys (snd created1) rest0)); [|eapply (rtc_l _ _ (mk_Sys (snd started1) rest0)); [|eapply (rtc_l _ _ (mk_Sys (snd slept1) rest0)); [|
    eapply (rtc_l _ _ (mk_Sys other_runs rest0)); [|eapply (rtc_l _ _ (mk_Sys expired1 rest0)); [|eapply (rtc_l _ _ (mk_Sys timer_runs rest0)); [|
    eapply (rtc_l _ _ (mk_Sys (snd got1) (delete 0 rest0))); [|eapply (rtc_l _ _ (mk_Sys (snd handled1) (delete 0 rest0))); [|apply rtc_once]]]]]]]].
  - apply (Hrun _ create1 LOS_OK); [eval_done|eval_done|repeat apply conj; try eval_done; left; reflexivity|exact run_create1].
  - apply (Hrun _ (CSwtmrStart 0) LOS_OK); [eval_done|eval_done|waits|exact run_start1].
  - apply (Hrun _ (CDelay 5) LOS_OK); [eval_done|eval_done|exists (cb (snd started1) 2); waits|exact run_delay1].
  - apply step_switch; [eval_done|]. apply run_after. eval_done.
  - apply (step_tick other_runs rest0 (irq_timer other_runs) 100); [exact irq_taken|]. apply run_after. eval_done.
  - apply step_switch; [eval_done|]. apply run_after. eval_done.
  - apply (step_return timer_runs rest0 0 (rest_of 0 (WQueue timer_read)) (Done LOS_OK) (snd got1)); [eval_done|eval_done|apply lookup_singleton_eq|exact run_got1].
  - rewrite <- (delete_delete_eq rest0 0) at 2. apply (step_call (snd got1) (delete 0 rest0) 0 handle1 (Done LOS_OK) (snd handled1)); [eval_done|eval_done|apply lookup_delete_eq| |exact run_handle1].
    apply handle_check. eval_done.
  - apply (step_call (snd handled1) (delete 0 rest0) 0 read0 (fst waits1) (snd waits1)); [eval_done|eval_done|apply lookup_delete_eq| |rewrite <- surjective_pairing; exact run_read0].
    split; [exists (cb (snd handled1) 0); waits|]. split; [done|]. exists (queue_at (snd handled1) 0). split; [eval_done|].
    split; [eval_done|]. split; [right; right; reflexivity|]. repeat apply conj; try eval_done.
Qed.

Lemma sys_start : sys_ok (mk_Sys start rest0).
Proof.
  exists waiting0, (rings start), 2, [0; 1; 2], []. split.
  - split.
    + assert (E : calls waiting0 = {[0 := timer_read]}) by (unfold calls, waiting0; by rewrite omap_singleton).
      rewrite E. apply conj; [kinv|]. apply conj; [swtmrs|]. exists (queue_at start 0), [].
      assert (H0 : queue_ok (queue_at start 0) []) by empty_queue. assert (H1 : queue_ok (queue_at start 1) []) by empty_queue.
      split; [repeat apply conj; eval_done|eval_done|exact H0|eval_done|eexists; eval_done|].
      exists {[0 := []; 1 := []]}. split; [|eval_done]. apply queues_check; [eval_done|].
      apply map_Forall_insert_2; [exact H0|]. apply map_Forall_singleton. exact H1.
    + apply conj; [apply sems_check; eval_done|]. apply conj; [apply muxes_check; eval_done|].
      intros e He. unfold event_blocks, board_events in He. apply elem_of_singleton in He as ->. split; eexists; eval_done.
    + intros x e a b Hx. unfold waiting0 in Hx. apply lookup_singleton_Some in Hx as [_ Hx]. discriminate Hx.
    + waits.
    + waits.
    + assert (E : bool_decide (map_Forall (λ x i, i = x) (ids start)) = true) by eval_done.
      apply bool_decide_eq_true in E. intros x i Hi. exact (E x i Hi).
  - intros x. unfold rest0, waiting0. cbn [rest]. destruct (decide (x = 0)) as [->|Hne].
    + by rewrite !lookup_singleton_eq.
    + by rewrite !lookup_singleton_ne.
Qed.

Lemma system_safe_witness :
  (fst received = Done LOS_OK /\ rtc step (mk_Sys start rest0) sys_received /\ sys_ok sys_received /\ can_go_on sys_received) /\
  rtc step (mk_Sys start rest0) sys_timer /\ sys_ok sys_timer /\ can_go_on sys_timer.
Proof.
  split; [split; [exact read_done|]; split; [exact sys_steps|]|split; [exact timer_steps|]].
  - apply (system_safe ltac:(done) (mk_Sys start rest0) sys_received sys_start sys_steps).
  - apply (system_safe ltac:(done) (mk_Sys start rest0) sys_timer sys_start timer_steps).
Defined.

(** Task 2 has been woken: the message is there. *)
Definition read_op : QOp := mk_QOp 1 ReadHead (replicate 4 0) 4.
Definition reader_queues : gmap Z (list (list Z)) := {[0 := []; 1 := [[1; 2; 3]]]}.

Lemma reader_inv : QInv {[0 := timer_read; 2 := read_op]} reader_queues reader (rings reader).
Proof.
  assert (H0 : queue_ok (queue_at reader 0) []) by empty_queue.
  assert (H1 : queue_ok (queue_at reader 1) [[1; 2; 3]]).
  { split; [split|..]; try (repeat apply conj; eval_done). exists (default [] (queue (queue_at reader 1))).
    split; [eval_done|]. split; [eval_done|]. intros [|[]] d [=<-]; repeat apply conj; eval_done. }
  apply queues_check; [eval_done|]. apply map_Forall_insert_2; [exact H0|]. apply map_Forall_singleton. exact H1.
Qed.

Lemma queue_resume_correct_witness :
  wp (OsQueueOperate_resume 2 1 ReadHead (replicate 4 0) 4) (λ r k', r = (LOS_OK, ([1; 2; 3; 0], 3)) /\ ∃ m', KInv k' m' 2) reader.
Proof.
  eapply wp_mono; [apply (queue_resume_correct {[0 := timer_read; 2 := read_op]} reader_queues reader (rings reader) 2 read_op)|].
  - kinv.
  - exact reader_inv.
  - eval_done.
  - eval_done.
  - intros r k' (m' & c & cq & HK & Hc & _ & HQ). revert HQ. assert (E : has c OS_TASK_STATUS_TIMEOUT = false).
    { assert (E : has (cb reader 2) OS_TASK_STATUS_TIMEOUT = false) by eval_done. unfold cb in E. rewrite Hc in E. exact E. }
    rewrite E. intros (msgs & -> & Hm & _). assert (E2 : reader_queues !! 1 = Some [[1; 2; 3]]) by eval_done.
    cbn [qo_queue read_op] in Hm. rewrite E2 in Hm. injection Hm as <-. split; [eval_done|]. exists m'. exact HK.
Defined.
