(* ===== verification/BoardLimits.v ===== *)
(** Runs of the board in which the kernel does not do what its interface says:
    each theorem is one concrete sequence of calls. *)

From S2P Require Import Prelude Errno LosList Membox MemboxInv Kernel SysTick Tick SortLink Sched Sem Task Swtmr Init Board BoardTask.

(** ** Software timers *)

(** Two timers are started before the kernel runs: 0 with a period of 6 ticks, 1 with 7. *)
Definition early_timers : Kernel :=
  after (LOS_SwtmrStart 1) (after (LOS_SwtmrStart 0)
    (after (LOS_SwtmrCreate 7 LOS_SWTMR_MODE_PERIOD 0x08007100 true 43) (after (LOS_SwtmrCreate 6 LOS_SWTMR_MODE_PERIOD 0x08007000 true 42) with_tasks))).

(** [OsSwtmrResponseTimeReset] follows the link of a node that it has just moved
    in the list: of two timers started before the kernel it restarts the first,
    which goes behind the second, and the second keeps its old time. *)
Theorem timer_reset_skips :
  let k := after (OsSwtmrResponseTimeReset 10 1000000) early_timers in
  ret (OsSwtmrResponseTimeReset 10 1000000) early_timers = Some tt /\
  swtmrStartTime (swtmr_at k 0) = 1000000 /\
  swtmrStartTime (swtmr_at k 1) = swtmrStartTime (swtmr_at early_timers 1) /\
  (swtmrStartTime (swtmr_at early_timers 1) =? 1000000) = false.
Proof. repeat apply conj; vm_compute; reflexivity. Qed.

(** A timer that fires once has expired, its message is in the queue of the timer
    task, and it is started again before the timer task runs. *)
Definition once_expired : Kernel := after (OsSwtmrScan_loop 2 (SwtmrNode 1) 10000000 false) (after (LOS_SwtmrStart 1) with_timers).
Definition once_restarted : Kernel := after (LOS_SwtmrStart 1) once_expired.

(** The timer task then puts the timer on the free list while it is in the sort
    link: a timer in the list of unused ones expires again. *)
Theorem once_restarted_freed :
  let task := OsSwtmrTask_handle LOS_OK (item_bytes (mk_SwtmrHandlerItem 0x08007100 43 1)) sizeof_SwtmrHandlerItem in
  let k := after task once_restarted in
  ret (LOS_SwtmrStart 1) once_expired = Some LOS_OK /\ ret task once_restarted = Some (Some (0x08007100, 43)) /\
  g_swtmrFreeList k = Some 1 /\ ucState (swtmr_at k 1) = OS_SWTMR_STATUS_UNUSED /\
  ring k SwtmrSortLink = [SwtmrNode 1].
Proof. repeat apply conj; vm_compute; reflexivity. Qed.

(** ** Semaphores *)

(** [LOS_SemGetValue] does not look at the state of the semaphore: it answers
    for one that was deleted. *)
Theorem value_of_deleted :
  let k := after (LOS_SemDelete 0) with_sem in
  ret (LOS_SemDelete 0) with_sem = Some LOS_OK /\ semStat (sem_at k 0) = OS_SEM_UNUSED /\
  ret (LOS_SemGetValue 0) k = Some (0, Some 0).
Proof. repeat apply conj; vm_compute; reflexivity. Qed.

(** ** Suspension of the running task *)

(** With the switch still pending, as in an interrupt handler, a resume of the
    task that was just suspended makes it ready while it is running. *)
Theorem ready_and_running :
  let k := after (LOS_TaskResume 2) (after (LOS_TaskSuspend 2) user_runs) in
  ret (LOS_TaskResume 2) (after (LOS_TaskSuspend 2) user_runs) = Some LOS_OK /\
  runTask k = Some 2 /\ test (taskStatus (cb k 2)) OS_TASK_STATUS_READY = true /\
  test (taskStatus (cb k 2)) OS_TASK_STATUS_RUNNING = true.
Proof. repeat apply conj; vm_compute; reflexivity. Qed.

(** ** Frequencies *)

(** The ratio of the frequencies is taken as an integer: from 96 MHz to 64 MHz,
    or back, the times are not converted at all. *)
Theorem freq_ratio_lost t : 0 <= t < 2 ^ 64 ->
  OsTimeConvertFreq t 96000000 64000000 = t /\ OsTimeConvertFreq t 64000000 96000000 = t.
Proof.
  intros Ht. unfold OsTimeConvertFreq. cbn. rewrite ?Z.div_1_r, ?Z.mul_1_r. split; [done|]. by apply u64_id.
Qed.

(** ** Static boxes *)

Lemma exc_scan_blind LIMIT (s : BoxMem) lo hi bs n : ∀ node, 0 <= lo -> hi < 2 ^ 32 -> 0 < bs ->
  lo <= node -> node + Z.of_nat n * bs <= hi -> OsMemboxExcInfoGetSub_loop LIMIT n lo hi bs node s = Some (None, s).
Proof.
  induction n as [|n IH]; intros node Hlo Hhi Hbs H1 H2; [done|]. cbn [OsMemboxExcInfoGetSub_loop].
  destruct (Z.ltb_spec node lo); [lia|]. destruct (Z.geb_spec node hi); [lia|]. cbn [orb].
  unfold OS_MEMBOX_NEXT. rewrite u32_id by lia. apply IH; lia.
Qed.

(** The scan of a box for the exception report looks only at nodes outside the
    box, and it visits none: it reports no damaged block, whatever the words of
    the blocks are. *)
Theorem exc_info_blind LIMIT (s : BoxMem) pool size num cnt :
  words s !! uwBlkSize pool = Some size -> words s !! uwBlkNum pool = Some num -> words s !! uwBlkCnt pool = Some cnt ->
  0 <= pool -> 0 < size -> 0 <= num -> pool + sizeof_LOS_MEMBOX_INFO + size * num < 2 ^ 32 ->
  wp (OsMemboxExcInfoGetSub LIMIT pool) (λ info s', mi_error info = None /\ s' = s) s.
Proof.
  intros Hs Hn Hc H0 H1 H2 H3. unfold OsMemboxExcInfoGetSub, sizeof_LOS_MEMBOX_INFO in *.
  wp_steps. eapply wp_rd; [done|]. wp_steps. eapply wp_rd; [done|]. wp_steps. eapply wp_rd; [done|]. wp_steps.
  rewrite (u32_id (size * num)), u32_id by nia. eapply wp_intro; [apply exc_scan_blind; nia|]. by wp_steps.
Qed.
