(* ===== verification/BoardPm.v ===== *)
(** Power management on the board: a product with a device and the handlers of
    its modes, and the theorems on states of this board. *)

From S2P Require Import Prelude Errno LosList Membox Kernel SysTick Tick SortLink Sched SchedInv SchedTime SchedSwitch KernelInv Waits Check Queue Sem Event Task Swtmr Init Calls Pm PmInv PmSuspend Board BoardTask.

(** ** The product *)

(** The functions of the device do nothing; the sleep ends with an interrupt
    that requests a wake-up. *)
Definition dev_suspend : Z := 0x08008000.
Definition dev_resume : Z := 0x08008100.
Definition board_sleep : Z := 0x08008200.
#[global] Instance board_product : PmProduct := {|
  LOSCFG_KERNEL_PM_IDLE := true;
  device_at := λ _, mk_LosPmDevice (Some dev_suspend) (Some dev_resume);
  tickTimer_at := λ _, mk_LosPmTickTimer 0 None None None (Some 0x08008300) (Some 0x08008400);
  sysctrl_at := λ _, mk_LosPmSysctrl None None None None None None None (Some board_sleep) None None None;
  call := λ f _, if f =? board_sleep then LOS_PmWakeSet ;;; mret LOS_OK else mret LOS_OK;
  string_at := λ p, [p];
  addr_ArchEnterSleep := board_sleep;
  addr_OsPmNormalSleep := 0x08008500;
  addr_OsPmSwtmrHandler := 0x08008600;
  g_pmEvent := UserEvt 7;
|}.
Definition pm_after {A} (m : M PmSys A) (s : PmSys) : PmSys := match m s with Some (_, s') => s' | None => s end.
Definition pm_ret {A} (m : M PmSys A) (s : PmSys) : option A := fst <$> m s.

(** Before the module starts; after it; ready to sleep deeply; with a lock held. *)
Definition pm_reset : PmSys :=
  mk_PmSys user_runs 0 false None false (mk_LosPmSysctrl None None None None None None None None None None None) None 0 ∅ ∅ None.
Definition pm_started : PmSys := pm_after OsPmInit pm_reset.
Definition pm_calls : list pm_op := [PmRegister LOS_PM_TYPE_DEVICE (Some 1); PmRegister LOS_PM_TYPE_SYSCTRL (Some 2)].
Definition pm_ready : PmSys := pm_after (let* _ := run_pms pm_calls in LOS_PmModeSet LOS_SYS_DEEP_SLEEP) pm_started.
Definition pm_held : PmSys := pm_after (LOS_PmLockRequest (Some 40)) pm_ready.

(** The module sleeps until the interrupt, but not while the lock is held. *)
Example board_sleeps :
  pm_ret (LOS_PmSuspend 0) pm_ready = Some LOS_OK /\ isWake (pm_after (LOS_PmSuspend 0) pm_ready) = true /\
  pm_ret (LOS_PmSuspend 0) pm_held = Some LOS_NOK /\ isWake (pm_after (LOS_PmSuspend 0) pm_held) = false.
Proof. split_and!; eval_done. Qed.

(** Suspending the system before a device is registered reads [pm->device->suspend] through NULL. *)
Example suspend_without_device : pm_ret (LOS_PmSuspend 0) pm_started = None.
Proof. eval_done. Qed.

(** A request at the limit of [lock] fails, but the lock is listed with a count of one. *)
Example lock_at_limit :
  let s := set_pmKernel (set_pm_lock (λ _, OS_PM_LOCK_MAX)) pm_started in
  pm_ret (LOS_PmLockRequest (Some 40)) s = Some LOS_ERRNO_PM_NOT_LOCK /\
  (lockCount ∘ snd) <$> map_to_list (lockCBs (pm_after (LOS_PmLockRequest (Some 40)) s)) = [1] /\
  pm_ret (let* _ := LOS_PmLockRequest (Some 40) in LOS_PmLockRelease (Some 40)) s = Some LOS_OK.
Proof. split_and!; eval_done. Qed.

(** The handlers go back to their defaults, except the last check. *)
Example stale_check :
  let s := set_g_sysctrl (λ c, mk_LosPmSysctrl (Some 1) None (Some 2) None None None None None None None None) pm_started in
  let c := g_sysctrl (pm_after (LOS_PmUnregister LOS_PM_TYPE_SYSCTRL (Some 2)) s) in early c = None /\ suspendCheck c = Some 2.
Proof. split_and!; eval_done. Qed.

(** ** The theorems on these states *)

Lemma pm_reset_ok :
  KInv (pmKernel pm_reset) (rings user_runs) 2 /\ SwtmrInv (pmKernel pm_reset) (rings user_runs) [0; 1; 2] [] /\
  ~ owned (rings user_runs) (EventList g_pmEvent) /\ Rep (lockNodes pm_reset) ∅.
Proof.
  split_and!; [kinv|swtmrs| |].
  - assert (E : bool_decide (map_Forall (λ hd l, EventList g_pmEvent ∉ hd :: l) (rings user_runs)) = true) by eval_done.
    apply bool_decide_eq_true in E. intros (hd & l & Hl & Hin). exact (E hd l Hl Hin).
  - split; done.
Qed.

Lemma pm_mode_kept_witness :
  wp (let* _ := OsPmInit in run_pms pm_calls) (λ _ s1, mode_ok s1 /\
    wp (LOS_PmModeSet LOS_SYS_DEEP_SLEEP) (λ ret s', mode_ok s' /\
      (ret = LOS_OK -> LOS_PmModeGet s' = Some (LOS_SYS_DEEP_SLEEP, s')) /\ (ret <> LOS_OK -> s' = s1) /\
      (ret = LOS_OK <-> mode_accepted s1 LOS_SYS_DEEP_SLEEP)) s1) pm_reset.
Proof.
  destruct pm_reset_ok as (HK & HS & Hno & HR). apply (pm_mode_kept pm_reset (rings user_runs) 2 [0; 1; 2] [] pm_calls LOS_SYS_DEEP_SLEEP HK HS Hno HR).
  - by repeat constructor.
  - done.
Defined.

Lemma pm_started_ok : PmOk pm_started 2 ∅.
Proof.
  destruct pm_reset_ok as (HK & HS & Hno & HR). pose proof (init_wp _ _ _ _ _ HK HS Hno HR) as Hw.
  destruct (wp_run _ _ _ Hw) as (r & s' & E & _ & _ & HO). unfold pm_started, pm_after. by rewrite E.
Qed.

#[global] Opaque pm_started pm_ready pm_held.

Definition lock_memory : option Z * Z := LOS_MemAlloc sizeof_OsPmLockCB (sysMem (pmKernel pm_started)).
Lemma lock_memory_new a : fst lock_memory = Some a -> lockCBs pm_started !! a = None.
Proof. intros _. assert (E : lockCBs pm_started = ∅) by eval_done. rewrite E. apply lookup_empty. Qed.

(** A lock for 25 milliseconds uses timer 0. *)
Lemma lock_25 : lock_spec (pmKernel pm_started) ∅ (bool_decide (is_Some (fst lock_memory))) (LockTimed 40 25) = (LOS_OK, {[[40] := (1, 0)]}).
Proof. eval_done. Qed.
Lemma pm_lock_refines_witness :
  wp (LOS_PmTimeLockRequest (Some 40) 25) (λ ret s', ret = LOS_OK /\ PmOk s' 2 {[[40] := (1, 0)]} /\
    pm_lock (pmKernel s') = total {[[40] := (1, 0)]} /\ timers_after (pmKernel pm_started) ∅ (LockTimed 40 25) LOS_OK (g_swtmrCBArray (pmKernel s'))) pm_started.
Proof.
  pose proof (pm_lock_refines ltac:(done) ltac:(done) ltac:(done) pm_started 2 ∅ (LockTimed 40 25) (fst lock_memory) (snd lock_memory)
    pm_started_ok ltac:(done) ltac:(done) (surjective_pairing _) lock_memory_new) as Hw.
  rewrite lock_25 in Hw. exact Hw.
Defined.

Definition board_quiet (f : Z) : Prop := f <> board_sleep.
#[global] Instance board_handlers : Handlers board_quiet board_quiet.
Proof.
  assert (Hcall : ∀ f arg n s, sleepy board_quiet board_quiet n s -> wp (call f arg) (λ _ s', sleepy board_quiet board_quiet n s') s).
  { intros f arg n s HS. cbn. destruct (f =? board_sleep); [|by apply wp_ret]. unfold LOS_PmWakeSet. wp_steps.
    destruct HS as (HK & [] & HD & [] & El). split_and!; [done|by split|done|by split|done]. }
  split.
  - intros f arg n s Hf HS. cbn. rewrite (proj2 (Z.eqb_neq f board_sleep) Hf). by apply wp_ret.
  - intros f arg n s Hf HS Hn. cbn. rewrite (proj2 (Z.eqb_neq f board_sleep) Hf). by apply wp_ret.
  - intros f n s HS _ _ _ _ _. by apply Hcall.
Qed.

Lemma pm_ready_sleepy : sleepy board_quiet board_quiet 0 pm_ready.
Proof.
  split_and!; [exists (rings (pmKernel pm_ready)), 2; kinv| |eexists; eval_done| |eval_done].
  - assert (E : tickTimer pm_ready = None) by eval_done.
    split; [waits|eval_done|eexists; eval_done|eexists; eval_done|intros _; eexists; eval_done|intros d _; split; eexists; eval_done|].
    rewrite E. by intros p.
  - assert (E : tickTimer pm_ready = None) by eval_done.
    assert (Ec : g_sysctrl pm_ready = mk_LosPmSysctrl None None None (Some board_sleep) None (Some board_sleep) None (Some board_sleep) None None None)
      by eval_done.
    split; rewrite ?Ec, ?E; try done. intros d _. split; by intros f [= <-].
Qed.

Lemma pm_suspend_correct_witness :
  wp (LOS_PmSuspend 0) (λ _ s', sleepy board_quiet board_quiet 0 s' /\ sysmode s' = LOS_SYS_NORMAL_SLEEP) pm_ready.
Proof.
  eapply wp_mono; [apply (pm_suspend_correct board_quiet board_quiet 0 pm_ready 0)|].
  - exact pm_ready_sleepy.
  - lia.
  - intros r s' (HS & E & _). split; assumption.
Defined.
